(* ===== verification/_CoqProject ===== *)
-Q . S2P
Prelude.v
Ser4cpp.v
Enums.v
Codec.v
Messages.v
CRC.v
LinkParser.v
FrameWriter.v
LinkLayer.v
Crypto.v
SessionMode.v
Session.v
Chain.v
Handshake.v
CryptoLayer.v
LayerLogic.v
Responder.v
Initiator.v
Returns.v
Terminates.v
Scenario.v
Sodium.v
QIX.v
StdMap.v
KeyStore.v
Metrics.v
Emulator.v
EmulatorMain.v
LayerFrame.v
Stack.v
Factory.v
WellFormed.v
StackScenario.v
Yaml.v
ProxyConfig.v
ConfigReads.v
ConfigFacts.v
Sockets.v
ProxySession.v
ProxyFacts.v
ProxyTcp.v
ProxyUdp.v
ProxyErrors.v
ProxyScenario.v
ProxyMain.v
Printing.v
Icftool.v
IcftoolFacts.v
IcftoolChains.v
IcftoolScenario.v
LayerDelivery.v
LayerHandshake.v
Delivery.v
DeliveryScenario.v
Establish.v
EstablishScenario.v
Configured.v
