(* ===== verification/Prelude.v ===== *)
(** * Verification of ssp21-cpp

    A model of the C++ implementation of the Secure SCADA Protocol (SSP21) and the
    theorems that make it correct.  The program is the library under
    src/cpp/libs/ssp21, its cryptographic backend (libs/sodium), the library for keys
    from quantum key distribution (libs/qix), and the programs that use them: the
    proxy, the emulator of a key source and the tool that makes key and certificate
    files (exe/proxy, exe/qix-emulator, exe/icftool).

    ** The program

    Bytes from a serial line or a socket reach a station through two layers.  The
    link layer finds frames with checksums in a stream of bytes.  The
    cryptographic layer above it takes the payload of a frame as one protocol
    message; it negotiates sessions (as initiator or as responder, with shared
    secrets, with distributed quantum keys, or with public keys that are known in
    advance or certified by a chain) and passes user data to and from the
    application inside authenticated session messages.  Layers call each other:
    a lower layer notifies the layer above (on_lower_open, _close, _tx_ready,
    _rx_ready), and that layer calls back to transmit and to receive, also from
    inside its own handlers.  A stack is both layers behind one object; the
    factories make stacks for each way of authentication.  The proxy reads its
    sessions, their keys and their key sources from a YAML document; a key source
    delivers frames with keys over a serial line, and a handler routes the keys to
    the key stores of the sessions that subscribed to it.  A session of the proxy puts
    a stack between two sockets.

    ** Files

    - Prelude: machine integers, lists indexed by [Z], byte encodings, [outcome]
      (code that returns, exits, throws or runs into undefined behaviour, as a call
      through a null pointer or an access past the end of a buffer), tactics
      and the hint database [ssp21].
    - Ser4cpp: the parts of the submodule ser4cpp that the sources use (sequences,
      fixed-width integers), as the class [Ser4cpp] with the documented behaviour,
      and a reference instance.
    - Enums: every enumeration under crypto/gen with to_type, from_type and
      to_string, as instances of the class [EnumSpec].
    - Codec: variable length numbers, integer, enumeration, sequence and structure
      fields (crypto/VLength.*, SeqByteField.h, SeqStructField.h, MessageParser.h,
      MessageFormatter.h, IntegerField.h, EnumField.h).  The class [Lawful] is what
      a field promises to the message it is part of.
    - Messages: the generated messages and certificate structures of crypto/gen.
    - CRC: link/CastagnoliCRC32.
    - LinkParser, FrameWriter, LinkLayer: link/LinkParser.*, LinkFrameWriter.*, the
      raw frame writers, and link/LinkLayer.*; the classes [Writable],
      [FrameWriterOk] and [LowerLayer] are the interfaces between them.
    - Crypto: buffers, keys, the table of backend functions and crypto/Crypto.cpp.
      [BackendOk] states what the protocol relies on of the primitives.
    - SessionMode: nonce checks, MAC adapters, session modes, choice of algorithms
      (NonceFunctions, MacAdapters.h, SessionModes, SessionMode.h, Algorithms).
    - Session: crypto/Session.*, Sessions.*, TxState.h, Nonce.h and the statistics.
    - Chain: crypto/Chain.cpp and the two certificate handlers.
    - Handshake: the three initiator and the three responder handshakes, the
      hasher and the triple Diffie-Hellman; [initiator_handshake] and
      [responder_handshake] are the records of their virtual functions.
    - CryptoLayer: crypto/CryptoLayer.*, the common base class, as actions on the
      world (the layer, its derived object, both neighbours, clock and random
      draws); the upper layer is any program over the three operations it has.
    - LayerLogic: a program logic for these actions and the invariants of the base
      class, derived from what the virtual functions of a derived class guarantee.
    - Responder, Initiator: the two derived classes; the states of
      InitiatorHandshakeStates are functions on [HandshakeState].
    - Returns, Terminates: every operation and every entry point returns.
    - Scenario: an initiator and a responder run against each other.
    - Sodium: libs/sodium (Backend.cpp, HKDF.h) over the interface of libsodium
      ([Libsodium], [LibsodiumOk]); it is an instance of [BackendOk].
    - QIX: frame parser, asynchronous reader and frame writer of libs/qix.
    - StdMap, KeyStore: std::map as a sorted list; QIXKeyStore and the frame handler
      of the proxy's key sources (QIXQKDSource).  Metrics: its mean, deviation and
      entropy in binary64 arithmetic ([SpecFloat] of the Standard Library).
    - Emulator: the writing modes of exe/qix-emulator/main.cpp.  EmulatorMain: its
      reading mode, with QIXFrameReader, and main.
    - LayerFrame: what the handlers of the cryptographic layer leave alone.
    - Stack: AbstractStack of stack/LinkCryptoStack.h; the link layer as the lower
      layer of the cryptographic layer is the instance [link_lower], so that what is
      proved over an abstract lower layer holds in a stack.
    - Factory: the stack classes, the configurations and stack/Factory.cpp.
    - WellFormed: the sessions of a stack are well formed in every state; the classes
      [InitiatorMakes] and [ResponderMakes] are what the layer needs of a handshake.
    - StackScenario: stacks made by the factories run against each other.
    - LayerDelivery, Delivery: user data through the cryptographic layers and through
      two whole stacks.  LayerHandshake, Establish: the four messages of a handshake
      through the layers and through two whole stacks, from their construction to the
      exchange of data.  DeliveryScenario, EstablishScenario: the same, executed.
    - Yaml, ProxyConfig: YAMLHelpers, StackConfigReader, ConfigReader, ProxyConfig,
      LogConfig, the transports' configurations and QKDSourceRegistry of the proxy;
      yaml-cpp is the class [YamlLib].
    - ConfigReads: what it means that a configuration is the one of its document, as
      relations between the nodes and what is made of them.  ConfigFacts: theorems on
      configurations, and documents they are run on.  Configured: the stacks of two
      accepted configurations, connected.
    - Sockets: the TCP and UDP socket wrappers of the proxy (instances of
      [IAsioSocketWrapper] with [SocketLaws]) and AsioLowerLayer; with its socket it is
      the instance [transport_lower] of the interface below a stack.
    - ProxySession: AsioUpperLayer, Session, TcpProxySession and UdpProxySession, with
      session objects that live while a shared pointer holds them; a stack is any
      program over its interfaces ([stack_prog]) and may be called back, closed and
      destroyed inside its own notifications.
    - ProxyFacts, ProxyTcp, ProxyUdp, ProxyErrors: a logic for the invariant of all
      objects, the states a TCP and a UDP proxy reach, and what errors do.
      ProxyScenario: executed cases.
    - ProxyMain: main.cpp of the proxy, over what the system answers ([environment]), as
      a log of the sessions constructed and started with the outcome ([traced]);
      [run_ends] is its specification, by how far the run got.
    - Printing: the print functions of fields and messages as calls on an
      IMessagePrinter, LogMessagePrinter, FlagsPrinting, and the ConsolePrinter of the
      certificate tool.
    - Icftool: exe/icftool (Actions, UserInput, Program, main) with the writing half of
      SecureFile.h and SerializationUtils.h, as actions on files, random draws, input
      and output that end in a value, end in an exception or never end.
    - IcftoolFacts, IcftoolChains: what its files are worth to the proxy, appending,
      prompts and exceptions.  IcftoolScenario: executed cases.

    ** What is shown

    - Codec, Messages: reading is exact (a byte string is accepted if and only if
      it encodes a valid message), writing produces the encoding or reports that
      it does not fit, damaged messages are rejected with the right error.
    - CRC: the table-driven computation is the bitwise CRC; changes within four
      bytes are detected.
    - LinkParser: parsing ends and implements a byte-at-a-time automaton; it is
      sound, complete after noise, independent of chunking, and recovers after
      damage.  FrameWriter: frames are written exactly and parsed back.  LinkLayer:
      reception implements the automaton on the stream of all chunks.
    - Session: no replay, strictly increasing nonces on both sides and none above the
      maximum, the exact conditions of acceptance, round trips between mirrored sessions, keys
      destroyed by a reset.
    - Chain: verification accepts exactly the valid chains.
    - Handshake: in all three modes the exchange completes with mirrored
      sessions, and a failed handshake leaves the session as it was.
    - Responder, Initiator: in every reachable state user data can only pass under
      a valid session and frames go only to a lower layer that is ready; the
      initiator always has a timer or a note that makes it go on; every entry
      point returns.
    - Sodium: HKDF is the one of RFC 5869, the installed table keeps the promises the
      protocol relies on, no two frames carry AES-GCM ciphertexts made with the
      same nonce and key, stations over libsodium agree and signatures verify; a reply
      with a short ephemeral key makes the initiator read past its end.
    - QIX, KeyStore: the reader implements a specification on the stream of bytes,
      whatever the port reports; keys written are read; a stored key is handed out
      once; frames go to the subscriber they are for; two stations on a key line
      agree on the keys.  Emulator: the keys written are the ones given, or the same
      on every synchronized emulator; an emulator that reads prints the keys of the one
      that writes.
    - Stack, Factory: in a stack all objects agree on whether the transport is open,
      the layers are safe as above, and every event returns, with AES-GCM if the payload
      buffer has room for what can arrive ([room_for]).
    - WellFormed: both sessions of every stack satisfy the invariant of [Session]
      always, so that no replay and unique nonces hold for them.
    - Delivery: data an application hands to one stack comes out of the stack at the
      other end, complete and in order, through the messages, nonces, frames and
      notifications of both.
    - Establish: two stacks the factories make for the same mode, on transports that
      deliver, complete the handshake when the transports open, whatever the pieces the
      bytes come in, tell their applications, and then deliver what these send; all
      handlers return.
    - ConfigFacts: the sessions of an accepted configuration are those of the document,
      value for value ([session_reads]), and fit their types; sessions do not share
      quantum keys.  Configured: the stacks of two configurations that belong together
      have the addresses of the documents, connect and deliver what is sent.
    - Metrics: until every byte value was received the logged entropy is NaN; updates
      are further apart than the configured period.
    - Sockets, ProxyTcp, ProxyUdp: a stack gets exactly the bytes its socket received and their
      buffer is not overwritten meanwhile; at most one read and one write per socket are
      outstanding, and a session with one outstanding is still held; the number of TCP
      sessions is bounded and the oldest gives way; a UDP proxy that was started always
      has one session that receives, and the sockets of the ones before are closed.
    - ProxyMain: sessions are constructed in the order of the document and started when
      all are constructed, the loop is entered when all are started, and the exit status
      is given for each way the run can end.
    - Printing: what is printed determines the message; the dump of the console can
      be read back.
    - IcftoolFacts, IcftoolChains: keys the tool generates are read back by the proxy,
      certificates it issues are accepted by the certificate handler exactly when level and
      validity of their authority allow them, appending succeeds exactly on a certificate the
      chain issues and yields a chain the anchor verifies; a command that asks no question
      ends, with exceptions at worst, if its keys are long enough and its validity is at
      most 24 days, and from 25 days on its behaviour is undefined.
    - Some theorems state behaviour that is not what the code means to do: a
      foreign frame blocks the link layer, a stray sync byte loses a frame, closing
      and opening again loses one, small frames block session data, one check of the
      backend looks at the wrong functions, and parts of a configuration are ignored;
      in the proxy an error can destroy a session that is still in use, make room
      through an invalid iterator, end the process (UDP) or go unreported, and an empty
      datagram stops the raw direction; the certificate tool overflows from 25 days of
      validity on, its level prompt can ask forever, and a chain it has appended to
      cannot be extended.

    ** Bounds

    Loops whose recursion is not structural carry fuel: the parser gets one round
    for each step its states can take on the input ([parse_refines] proves that
    it is enough), the layers read at most as many messages as are left plus
    one, and nested notifications are at most twice the number of messages left
    plus one deep, which [responder_returns] and [initiator_returns] prove to be
    enough.  Notifications inside a proxy are nested as deep as its stacks make them;
    the invariant holds for any depth, and one level is enough for the errors of
    [ProxyErrors].  The level prompt of the certificate tool gets two turns more than
    there are tokens; [level_prompt_exact] proves that it never ends if it has not
    ended then.  Everything else is structural.

    ** Parameters

    The submodule ser4cpp, the primitives of libsodium, yaml-cpp, log4cpp, asio, argagg,
    the function log2, the transport below a stack, the application above it, the files,
    the disk, the serial ports, the clock and the random draws are parameters; what is
    used of them are the fields of the classes named above, each with an instance that is
    used to run the definitions.  libsodium is called with pointers: where the backend
    gives it a destination, a key or a signature that is too short for what it writes or
    reads, the model ends in [Crash].

    ** Not modelled

    Log messages of the components, help texts and error messages.  In the
    cryptographic layer sequences are values: a payload is not a view of the buffer it
    lies in (in the link parser, which parses its own buffer again, the aliasing is
    modelled); of an authentication tag shorter than 16 bytes AES-GCM reads on in the
    buffer the message lies in, which is whatever the parameter gives for the short tag.
    Destructors of secure buffers.  Parsing of command lines
    (argagg); the printed version (Version.cpp).  The proxy's sessions are proved over any
    stack ([stack_prog]) and the theorems on stacks over any application that does not
    close the transport from inside a notification, as the error handler of the proxy
    does; the two are not composed.  That a UDP proxy's events return is not shown: its
    error handler starts sessions, and with stacks that open the layer above and close it
    at once, each time they are opened, the notifications nest without bound.  What is left of the sources are declarations of classes whose
    members are modelled where they are defined, documentation and include guards, and
    the tests; the generator of the message sources (src/codegen, Scala) runs before
    the program is compiled, and its output is what is modelled. *)

From stdpp Require Import base numbers list.
From Stdlib Require Import Lia ZArith.

#[global] Open Scope Z_scope.

(** ** Machine integers

    Unsigned integers of the source are [Z] kept in range by explicit
    truncation, the way the language's conversions do it. *)

Definition u8 (x : Z) : Z := x mod 2 ^ 8.
Definition u16 (x : Z) : Z := x mod 2 ^ 16.
Definition u32 (x : Z) : Z := x mod 2 ^ 32.
Definition u64 (x : Z) : Z := x mod 2 ^ 64.

Definition max_u8 : Z := 255.
Definition max_u16 : Z := 65535.
Definition max_u32 : Z := 4294967295.
Definition max_u64 : Z := 18446744073709551615.

Definition is_byte (b : Z) : Prop := 0 <= b < 256.
Definition is_u8 (x : Z) : Prop := 0 <= x <= max_u8.
Definition is_u16 (x : Z) : Prop := 0 <= x <= max_u16.
Definition is_u32 (x : Z) : Prop := 0 <= x <= max_u32.
Definition is_u64 (x : Z) : Prop := 0 <= x <= max_u64.

(** Sequences of bytes: the contents of a [seq32_t] or of a buffer. *)
Abbreviation bytes := (list Z).
Abbreviation all_bytes := (Forall is_byte).

(** ** Lists indexed by [Z] *)

Definition zlen {A} (l : list A) : Z := Z.of_nat (length l).
Definition ztake {A} (n : Z) (l : list A) : list A := take (Z.to_nat n) l.
Definition zdrop {A} (n : Z) (l : list A) : list A := drop (Z.to_nat n) l.
Definition znth (l : bytes) (i : Z) : Z := nth (Z.to_nat i) l 0.
Definition is_nil {A} (l : list A) : bool := match l with [] => true | _ => false end.

(** [overwrite buf pos data] is the memory [buf] after [data] was stored
    at offset [pos]. *)
Definition overwrite (buf : bytes) (pos : Z) (data : bytes) : bytes :=
  ztake pos buf ++ data ++ zdrop (pos + zlen data) buf.

(** Automation: arithmetic on lengths, and a rewrite base that normalises
    list slices. *)
Create HintDb ssp21.
Create Rewrite HintDb seqs.

Ltac zsimp :=
  unfold zlen, ztake, zdrop in *;
  repeat first
    [ rewrite length_app | rewrite length_take | rewrite length_drop
    | rewrite length_replicate | rewrite length_nil | rewrite length_insert
    | rewrite length_cons ].
Ltac zlia := zsimp; simpl length in *; lia.

(** Case analysis on the boolean tests the models are written with. *)
Ltac btests :=
  repeat match goal with
  | H : (_ <? _) = true |- _ => apply Z.ltb_lt in H
  | H : (_ <? _) = false |- _ => apply Z.ltb_ge in H
  | H : (_ <=? _) = true |- _ => apply Z.leb_le in H
  | H : (_ <=? _) = false |- _ => apply Z.leb_gt in H
  | H : (_ =? _) = true |- _ => apply Z.eqb_eq in H
  | H : (_ =? _) = false |- _ => apply Z.eqb_neq in H
  | H : negb _ = true |- _ => apply negb_true_iff in H
  | H : negb _ = false |- _ => apply negb_false_iff in H
  end.
Ltac case_if :=
  match goal with
  | |- context [if ?b then _ else _] => destruct b eqn:?
  | H : context [if ?b then _ else _] |- _ => destruct b eqn:?
  end.
Ltac case_ifs := repeat case_if; btests.

(** Conjunctions of trivial facts. *)
Ltac conj_done := repeat (split; [done|]); done.

(** Concrete byte strings are byte strings. *)
Ltac concrete_bytes :=
  repeat (apply Forall_cons; split; [split; [by vm_compute|by vm_compute]|]); apply Forall_nil_2.

Section ListLemmas.
Context {A : Type}.
Implicit Types l k : list A.

Lemma zlen_nonneg l : 0 <= zlen l.
Proof. unfold zlen; lia. Qed.

Lemma zlen_app l k : zlen (l ++ k) = zlen l + zlen k.
Proof. zlia. Qed.

Lemma zlen_cons x l : zlen (x :: l) = 1 + zlen l.
Proof. zlia. Qed.

Lemma zlen_nil : zlen (@nil A) = 0.
Proof. done. Qed.

Lemma zlen_0_nil l : zlen l = 0 -> l = [].
Proof. destruct l; [done|zlia]. Qed.

Lemma zlen_ztake n l : 0 <= n -> zlen (ztake n l) = Z.min n (zlen l).
Proof. zlia. Qed.

Lemma zlen_zdrop n l : 0 <= n -> zlen (zdrop n l) = Z.max 0 (zlen l - n).
Proof. zlia. Qed.

Lemma ztake_zdrop n l : ztake n l ++ zdrop n l = l.
Proof. apply take_drop. Qed.

Lemma ztake_app_exact l k : ztake (zlen l) (l ++ k) = l.
Proof. unfold ztake, zlen. rewrite Nat2Z.id. apply take_app_length. Qed.

Lemma zdrop_app_exact l k : zdrop (zlen l) (l ++ k) = k.
Proof. unfold zdrop, zlen. rewrite Nat2Z.id. apply drop_app_length. Qed.

Lemma ztake_app_len n l k : n = zlen l -> ztake n (l ++ k) = l.
Proof. intros ->. apply ztake_app_exact. Qed.

Lemma zdrop_app_len n l k : n = zlen l -> zdrop n (l ++ k) = k.
Proof. intros ->. apply zdrop_app_exact. Qed.

Lemma ztake_ge n l : zlen l <= n -> ztake n l = l.
Proof. intros. apply take_ge. zlia. Qed.

Lemma zdrop_ge n l : zlen l <= n -> zdrop n l = [].
Proof. intros. apply drop_ge. zlia. Qed.

Lemma zdrop_0 l : zdrop 0 l = l.
Proof. done. Qed.

Lemma ztake_0 l : ztake 0 l = [].
Proof. done. Qed.

Lemma zdrop_zdrop a b l : 0 <= a -> 0 <= b -> zdrop a (zdrop b l) = zdrop (b + a) l.
Proof. intros. unfold zdrop. rewrite drop_drop. f_equal. lia. Qed.

Lemma ztake_ztake a b l : ztake a (ztake b l) = ztake (Z.min a b) l.
Proof.
  unfold ztake. rewrite take_take. f_equal. lia.
Qed.

Lemma zdrop_ztake a b l :
  0 <= a -> zdrop a (ztake b l) = ztake (b - a) (zdrop a l).
Proof. intros. unfold zdrop, ztake. rewrite skipn_firstn_comm. f_equal. lia. Qed.

Lemma Forall_ztake (P : A -> Prop) n l : Forall P l -> Forall P (ztake n l).
Proof. apply Forall_take. Qed.

Lemma Forall_zdrop (P : A -> Prop) n l : Forall P l -> Forall P (zdrop n l).
Proof. apply Forall_drop. Qed.

Lemma app_inj_zlen l1 k1 l2 k2 :
  l1 ++ k1 = l2 ++ k2 -> zlen l1 = zlen l2 -> l1 = l2 /\ k1 = k2.
Proof. intros E L. apply app_inj_1; [zlia|done]. Qed.

Lemma ztake_app_le n l k : n <= zlen l -> ztake n (l ++ k) = ztake n l.
Proof. intros. unfold ztake. apply take_app_le. zlia. Qed.

Lemma zdrop_app_le n l k : n <= zlen l -> zdrop n (l ++ k) = zdrop n l ++ k.
Proof. intros. unfold zdrop. apply drop_app_le. zlia. Qed.

Lemma ztake_app_ge n l k :
  zlen l <= n -> ztake n (l ++ k) = l ++ ztake (n - zlen l) k.
Proof.
  intros. unfold ztake. rewrite take_app_ge by zlia. do 2 f_equal. zlia.
Qed.

Lemma is_nil_true l : is_nil l = true <-> l = [].
Proof. by destruct l. Qed.

Lemma is_nil_false l : is_nil l = false <-> l <> [].
Proof. by destruct l. Qed.

Lemma is_nil_zlen l : is_nil l = (zlen l =? 0).
Proof. destruct l; [done|]. symmetry. apply Z.eqb_neq. zlia. Qed.
End ListLemmas.

#[export] Hint Resolve zlen_nonneg Forall_ztake Forall_zdrop : ssp21.
#[export] Hint Rewrite @zlen_app @zlen_cons @zlen_nil : seqs.

Section Overwrite.
Implicit Types buf data : bytes.

Lemma overwrite_length buf pos data :
  0 <= pos -> pos + zlen data <= zlen buf -> zlen (overwrite buf pos data) = zlen buf.
Proof. intros. unfold overwrite. zlia. Qed.

(** Two adjacent stores are one store of the concatenation. *)
Lemma overwrite_overwrite buf pos d1 d2 :
  0 <= pos -> pos + zlen d1 + zlen d2 <= zlen buf ->
  overwrite (overwrite buf pos d1) (pos + zlen d1) d2 = overwrite buf pos (d1 ++ d2).
Proof.
  intros Hp Hl.
  pose proof (zlen_nonneg d1). pose proof (zlen_nonneg d2).
  unfold overwrite.
  assert (zlen (ztake pos buf ++ d1) = pos + zlen d1) as E1 by (rewrite zlen_app, zlen_ztake; lia).
  rewrite (app_assoc (ztake pos buf) d1), ztake_app_len by lia.
  rewrite <- !app_assoc. do 3 f_equal.
  rewrite (app_assoc (ztake pos buf) d1).
  replace (pos + zlen d1 + zlen d2) with (zlen (ztake pos buf ++ d1) + zlen d2) by lia.
  rewrite <- zdrop_zdrop, zdrop_app_exact by auto with ssp21.
  rewrite zdrop_zdrop, zlen_app by lia. f_equal. lia.
Qed.

Lemma overwrite_nil buf pos : overwrite buf pos [] = buf.
Proof. unfold overwrite. simpl. rewrite Z.add_0_r. apply ztake_zdrop. Qed.

(** Reading back what was stored. *)
Lemma overwrite_read buf pos data :
  0 <= pos -> pos + zlen data <= zlen buf ->
  ztake (zlen data) (zdrop pos (overwrite buf pos data)) = data.
Proof.
  intros Hp Hl. pose proof (zlen_nonneg data). unfold overwrite.
  rewrite zdrop_app_len by (rewrite zlen_ztake; lia).
  apply ztake_app_exact.
Qed.

Lemma overwrite_upto buf pos data :
  0 <= pos <= zlen buf ->
  ztake (pos + zlen data) (overwrite buf pos data) = ztake pos buf ++ data.
Proof.
  intros Hp. unfold overwrite. rewrite app_assoc. apply ztake_app_len.
  rewrite zlen_app, zlen_ztake; lia.
Qed.

Lemma overwrite_before buf pos data n :
  0 <= n <= pos -> pos <= zlen buf ->
  ztake n (overwrite buf pos data) = ztake n buf.
Proof.
  intros Hn Hp. unfold overwrite.
  rewrite ztake_app_le by (rewrite zlen_ztake; lia).
  rewrite ztake_ztake. f_equal. lia.
Qed.

Lemma overwrite_after buf pos data n :
  0 <= pos -> pos + zlen data <= n -> pos + zlen data <= zlen buf ->
  zdrop n (overwrite buf pos data) = zdrop n buf.
Proof.
  intros Hp Hn Hl. pose proof (zlen_nonneg data). unfold overwrite. rewrite app_assoc.
  replace n with (zlen (ztake pos buf ++ data) + (n - (pos + zlen data)))
    by (rewrite zlen_app, zlen_ztake; lia).
  rewrite <- zdrop_zdrop, zdrop_app_exact by (auto with ssp21; lia).
  rewrite zdrop_zdrop by lia. f_equal. rewrite zlen_app, zlen_ztake; lia.
Qed.

Lemma overwrite_bytes buf pos data :
  all_bytes buf -> all_bytes data -> all_bytes (overwrite buf pos data).
Proof. intros. unfold overwrite. rewrite !Forall_app. auto with ssp21. Qed.
End Overwrite.
#[export] Hint Resolve overwrite_bytes : ssp21.

(** ** Big-endian encoding of unsigned integers *)

Fixpoint le_bytes (n : nat) (v : Z) : bytes :=
  match n with
  | O => []
  | S n => v mod 256 :: le_bytes n (v / 256)
  end.

Fixpoint le_value (l : bytes) : Z :=
  match l with
  | [] => 0
  | b :: l => b + 256 * le_value l
  end.

Definition be_bytes (n : nat) (v : Z) : bytes := reverse (le_bytes n v).
Definition be_value (l : bytes) : Z := le_value (reverse l).

Section BigEndian.
Implicit Types (l : bytes) (n : nat).

Lemma le_bytes_length n v : length (le_bytes n v) = n.
Proof. revert v; induction n; intros v; simpl; [done|]. by rewrite IHn. Qed.

Lemma be_bytes_length n v : length (be_bytes n v) = n.
Proof. unfold be_bytes. rewrite length_reverse. apply le_bytes_length. Qed.

Lemma zlen_be_bytes n v : zlen (be_bytes n v) = Z.of_nat n.
Proof. unfold zlen. by rewrite be_bytes_length. Qed.

Lemma le_bytes_bytes n v : all_bytes (le_bytes n v).
Proof.
  revert v; induction n; intros v; simpl; constructor; [|apply IHn].
  unfold is_byte. apply Z.mod_pos_bound. lia.
Qed.

Lemma be_bytes_bytes n v : all_bytes (be_bytes n v).
Proof. apply Forall_reverse, le_bytes_bytes. Qed.

Lemma le_value_bytes n v : 0 <= v < 256 ^ Z.of_nat n -> le_value (le_bytes n v) = v.
Proof.
  revert v; induction n; intros v Hv; simpl; [lia|].
  rewrite Nat2Z.inj_succ, Z.pow_succ_r in Hv by lia.
  rewrite IHn; [pose proof (Z.div_mod v 256); lia|].
  split; [apply Z.div_pos; lia|apply Z.div_lt_upper_bound; lia].
Qed.

Lemma be_value_bytes n v : 0 <= v < 256 ^ Z.of_nat n -> be_value (be_bytes n v) = v.
Proof. unfold be_value, be_bytes. rewrite reverse_involutive. apply le_value_bytes. Qed.

Lemma le_bytes_value l : all_bytes l -> le_bytes (length l) (le_value l) = l.
Proof.
  induction 1 as [|b l Hb _ IH]; simpl; [done|]. unfold is_byte in Hb.
  rewrite Z.mul_comm, Z_mod_plus_full, Z.div_add, Z.mod_small, Z.div_small by lia.
  by rewrite Z.add_0_l, IH.
Qed.

Lemma be_bytes_value l : all_bytes l -> be_bytes (length l) (be_value l) = l.
Proof.
  intros H. unfold be_bytes, be_value.
  pose proof (le_bytes_value (reverse l)) as E. rewrite length_reverse in E.
  rewrite E by by apply Forall_reverse.
  apply reverse_involutive.
Qed.

Lemma le_value_range l : all_bytes l -> 0 <= le_value l < 256 ^ zlen l.
Proof.
  induction 1 as [|b l Hb _ IH]; simpl; [done|]. unfold is_byte in Hb.
  rewrite zlen_cons, Z.pow_add_r by auto with lia ssp21.
  change (256 ^ 1) with 256. lia.
Qed.

Lemma le_value_app l k : le_value (l ++ k) = le_value l + 256 ^ zlen l * le_value k.
Proof.
  induction l as [|b l IH]; [change (256 ^ zlen (@nil Z)) with 1; simpl le_value; by rewrite Z.mul_1_l|]; simpl.
  rewrite zlen_cons, Z.pow_add_r, IH by auto with lia ssp21.
  change (256 ^ 1) with 256. ring.
Qed.

Lemma be_value_cons b l : be_value (b :: l) = b * 256 ^ zlen l + be_value l.
Proof.
  unfold be_value. rewrite reverse_cons, le_value_app. simpl.
  unfold zlen. rewrite length_reverse. lia.
Qed.

Lemma be_bytes_1 v : is_byte v -> be_bytes 1 v = [v].
Proof. intros. unfold be_bytes. simpl. by rewrite Z.mod_small. Qed.

Lemma be_value_range l : all_bytes l -> 0 <= be_value l < 256 ^ zlen l.
Proof.
  intros H. unfold be_value.
  replace (zlen l) with (zlen (reverse l)) by (unfold zlen; by rewrite length_reverse).
  by apply le_value_range, Forall_reverse.
Qed.
End BigEndian.
#[export] Hint Resolve be_bytes_bytes : ssp21.

(** ** Results

    Fallible code that reports an error code returns [E + A]; code that can
    end the process returns an [outcome]. *)

Declare Scope ssp21_scope.
Delimit Scope ssp21_scope with ssp21.
#[global] Open Scope ssp21_scope.

Definition rbind {E A B} (r : E + A) (k : A -> E + B) : E + B :=
  match r with
  | inl e => inl e
  | inr a => k a
  end.

Notation "'let!' x := r 'in' k" := (rbind r (fun x => k))
  (at level 10, x name, r at level 100, k at level 200) : ssp21_scope.
Notation "'let!' ' x := r 'in' k" := (rbind r (fun x => k))
  (at level 10, x strict pattern, r at level 100, k at level 200) : ssp21_scope.

Lemma rbind_inr {E A B} (r : E + A) (k : A -> E + B) b :
  rbind r k = inr b <-> exists a, r = inr a /\ k a = inr b.
Proof.
  destruct r as [e|a]; simpl; split.
  - done.
  - intros (?&?&?); done.
  - eauto.
  - intros (a'&[= ->]&?); done.
Qed.

Lemma fold_left_cons {A B} (f : A -> B -> A) b l a :
  fold_left f (b :: l) a = fold_left f l (f a b).
Proof. done. Qed.

(** Code that can end the process: it returns, exits, throws, or does what has no
    defined behaviour (a call through a null function pointer, an access outside a
    buffer, an [int] that overflows). *)
Inductive outcome (A : Type) :=
| Done (a : A)
| Exit
| Throw
| Crash.
Arguments Done {A} _.
Arguments Exit {A}.
Arguments Throw {A}.
Arguments Crash {A}.

Definition obind {A B} (r : outcome A) (k : A -> outcome B) : outcome B :=
  match r with
  | Done a => k a
  | Exit => Exit
  | Throw => Throw
  | Crash => Crash
  end.

Notation "'let*' x := r 'in' k" := (obind r (fun x => k))
  (at level 10, x name, r at level 100, k at level 200) : ssp21_scope.
Notation "'let*' ' x := r 'in' k" := (obind r (fun x => k))
  (at level 10, x strict pattern, r at level 100, k at level 200) : ssp21_scope.

Lemma obind_done {A B} (r : outcome A) (k : A -> outcome B) b :
  obind r k = Done b <-> exists a, r = Done a /\ k a = Done b.
Proof.
  destruct r; simpl; split; try done; try (by intros (?&?&?)).
  - eauto.
  - by intros (a'&[= ->]&?).
Qed.

(** Two loops with the same rounds on the states that satisfy [P]. *)
Lemma fold_left_agree {A B} (P : A -> Prop) (Q : B -> Prop) (f g : A -> B -> A) l a :
  (forall x b, P x -> Q b -> f x b = g x b /\ P (g x b)) ->
  P a -> Forall Q l ->
  fold_left f l a = fold_left g l a /\ P (fold_left g l a).
Proof.
  intros Hfg Ha Hl. revert a Ha. induction Hl as [|b l Hb _ IH]; intros a Ha; simpl; [done|].
  destruct (Hfg a b Ha Hb) as [-> Hg]. by apply IH.
Qed.

(** A boolean fact about every byte, checked by enumeration. *)
Lemma byte_cases (f : Z -> bool) :
  forallb f (seqZ 0 256) = true -> forall b, is_byte b -> f b = true.
Proof.
  intros H b Hb. rewrite forallb_forall in H. apply H.
  apply list_elem_of_In, elem_of_seqZ. unfold is_byte in Hb. lia.
Qed.

(** Disjoint bits: an or is a sum. *)
Lemma lor_shift_byte x b : 0 <= x -> is_byte b -> Z.lor (x * 256) b = x * 256 + b.
Proof.
  intros Hx Hb. unfold is_byte in Hb. symmetry.
  rewrite <- Z.lxor_lor; [apply Z.add_nocarry_lxor|];
  (apply Z.bits_inj'; intros n Hn; rewrite Z.land_spec, Z.bits_0;
   change 256 with (2 ^ 8); destruct (decide (n < 8)) as [Hlt|Hge];
   [rewrite Z.mul_pow2_bits_low by lia; done|];
   rewrite (Z.bits_above_log2 b); [apply andb_false_r|lia|];
   destruct (decide (b = 0)) as [->|Hz]; [simpl; lia|];
   assert (Z.log2 b < 8) by (apply Z.log2_lt_pow2; lia); lia).
Qed.
