(* ===== verification/Ser4cpp.v ===== *)
(** * The interface of ser4cpp

    [ser4cpp] is a dependency that is not part of this repository: the
    read-only and writable sequences ([RSeq], [WSeq]) and the big-endian
    integer codecs ([UInt8] ... [UInt64], [BigEndian::read/write]).  The model
    takes its operations as the fields of a class together with the documented
    behaviour the sources rely on; [ser4cpp_reference] shows that the interface
    can be implemented and is what the concrete examples run on. *)

From stdpp Require Import base numbers list.
From Stdlib Require Import Lia ZArith.
From S2P Require Import Prelude.

(** The integer types of [ser4cpp/serialization]. *)
Inductive int_type := UInt8 | UInt16 | UInt32 | UInt64.

#[export] Instance int_type_eq_dec : EqDecision int_type.
Proof. solve_decision. Defined.

Definition int_bytes (t : int_type) : nat :=
  match t with UInt8 => 1 | UInt16 => 2 | UInt32 => 4 | UInt64 => 8 end.

(** [IntegerType::size] *)
Definition int_size (t : int_type) : Z := Z.of_nat (int_bytes t).

Definition int_ok (t : int_type) (v : Z) : Prop := 0 <= v < 256 ^ int_size t.

(** A [WSeq]: a writable window that starts at [w_pos] and runs to the end
    of the buffer [w_buf]. *)
Record wseq := WSeq { w_buf : bytes; w_pos : Z }.

Definition wseq_length (w : wseq) : Z := zlen (w_buf w) - w_pos w.

Definition wseq_ok (w : wseq) : Prop := 0 <= w_pos w <= zlen (w_buf w).

(** The window after [data] was stored at its start. *)
Definition wseq_store (w : wseq) (data : bytes) : wseq :=
  WSeq (overwrite (w_buf w) (w_pos w) data) (w_pos w + zlen data).

Class Ser4cpp := {
  (* RSeq::take, RSeq::skip (and what RSeq::advance leaves) *)
  seq_take : bytes -> Z -> bytes;
  seq_skip : bytes -> Z -> bytes;
  (* <IntegerType>::read_from, <IntegerType>::write_to *)
  read_from : int_type -> bytes -> option (Z * bytes);
  write_to : int_type -> wseq -> Z -> option wseq;
  (* BigEndian::read, BigEndian::write over several values *)
  BigEndian_read : list int_type -> bytes -> option (list Z * bytes);
  BigEndian_write : wseq -> list (int_type * Z) -> option wseq;
  (* WSeq::skip and WSeq::advance, WSeq::put, WSeq::copy_from, WSeq::move_from *)
  wseq_skip : wseq -> Z -> wseq;
  wseq_put : wseq -> Z -> option wseq;
  wseq_copy_from : wseq -> bytes -> wseq;
  wseq_move_from : wseq -> bytes -> wseq;

  seq_take_spec s n : 0 <= n -> seq_take s n = ztake n s;
  seq_skip_spec s n : 0 <= n -> seq_skip s n = zdrop n s;
  read_from_ok t s :
    int_size t <= zlen s ->
    read_from t s = Some (be_value (ztake (int_size t) s), zdrop (int_size t) s);
  read_from_short t s : zlen s < int_size t -> read_from t s = None;
  write_to_ok t w v :
    wseq_ok w -> int_ok t v -> int_size t <= wseq_length w ->
    write_to t w v = Some (wseq_store w (be_bytes (int_bytes t) v));
  write_to_short t w v : wseq_length w < int_size t -> write_to t w v = None;
  BigEndian_read_nil s : BigEndian_read [] s = Some ([], s);
  BigEndian_read_cons t ts s :
    BigEndian_read (t :: ts) s =
      match read_from t s with
      | None => None
      | Some (v, s') =>
          match BigEndian_read ts s' with
          | None => None
          | Some (vs, s'') => Some (v :: vs, s'')
          end
      end;
  BigEndian_write_nil w : BigEndian_write w [] = Some w;
  BigEndian_write_cons w t v vs :
    BigEndian_write w ((t, v) :: vs) =
      match write_to t w v with
      | None => None
      | Some w' => BigEndian_write w' vs
      end;
  wseq_skip_spec w n :
    0 <= n <= wseq_length w -> wseq_skip w n = WSeq (w_buf w) (w_pos w + n);
  wseq_put_ok w v :
    wseq_ok w -> 1 <= wseq_length w -> wseq_put w v = Some (wseq_store w [u8 v]);
  wseq_put_short w v : wseq_length w < 1 -> wseq_put w v = None;
  wseq_copy_from_spec w s :
    wseq_ok w -> zlen s <= wseq_length w -> wseq_copy_from w s = wseq_store w s;
  wseq_move_from_spec w s :
    wseq_ok w -> zlen s <= wseq_length w -> wseq_move_from w s = wseq_store w s;
}.

(** ** A reference implementation *)

Module Reference.
Definition read_from (t : int_type) (s : bytes) : option (Z * bytes) :=
  if int_size t <=? zlen s
  then Some (be_value (ztake (int_size t) s), zdrop (int_size t) s) else None.

Definition write_to (t : int_type) (w : wseq) (v : Z) : option wseq :=
  if int_size t <=? wseq_length w
  then Some (wseq_store w (be_bytes (int_bytes t) v)) else None.

Fixpoint big_endian_read (ts : list int_type) (s : bytes) : option (list Z * bytes) :=
  match ts with
  | [] => Some ([], s)
  | t :: ts =>
      match read_from t s with
      | None => None
      | Some (v, s') =>
          match big_endian_read ts s' with
          | None => None
          | Some (vs, s'') => Some (v :: vs, s'')
          end
      end
  end.

Fixpoint big_endian_write (w : wseq) (vs : list (int_type * Z)) : option wseq :=
  match vs with
  | [] => Some w
  | (t, v) :: vs =>
      match write_to t w v with
      | None => None
      | Some w' => big_endian_write w' vs
      end
  end.

Definition copy_from (w : wseq) (s : bytes) : wseq :=
  if zlen s <=? wseq_length w then wseq_store w s else w.
End Reference.

#[global, program] Instance ser4cpp_reference : Ser4cpp := {|
  seq_take s n := ztake n s;
  seq_skip s n := zdrop n s;
  read_from := Reference.read_from;
  write_to := Reference.write_to;
  BigEndian_read := Reference.big_endian_read;
  BigEndian_write := Reference.big_endian_write;
  wseq_skip w n := WSeq (w_buf w) (w_pos w + Z.min n (wseq_length w));
  wseq_put w v := if 1 <=? wseq_length w then Some (wseq_store w [u8 v]) else None;
  wseq_copy_from := Reference.copy_from;
  wseq_move_from := Reference.copy_from;
|}.
Solve Obligations with
  (try done; intros; unfold Reference.read_from, Reference.write_to, Reference.copy_from;
   repeat case_if; btests; first [done | f_equal; f_equal; lia | lia]).

(** ** Consequences used by every component *)

Lemma int_ok_u8 v : int_ok UInt8 v <-> is_u8 v.
Proof. unfold int_ok, is_u8, max_u8. change (256 ^ int_size UInt8) with 256. lia. Qed.

Lemma int_ok_u16 v : int_ok UInt16 v <-> is_u16 v.
Proof. unfold int_ok, is_u16, max_u16. change (256 ^ int_size UInt16) with 65536. lia. Qed.

Lemma int_ok_u32 v : int_ok UInt32 v <-> is_u32 v.
Proof. unfold int_ok, is_u32, max_u32. change (256 ^ int_size UInt32) with 4294967296. lia. Qed.

Lemma int_ok_u64 v : int_ok UInt64 v <-> is_u64 v.
Proof.
  unfold int_ok, is_u64, max_u64.
  change (256 ^ int_size UInt64) with 18446744073709551616. lia.
Qed.

Section Facts.
Context `{SER : Ser4cpp}.

Lemma int_size_pos t : 1 <= int_size t.
Proof. by destruct t. Qed.

Lemma int_ok_bytes t s :
  all_bytes s -> int_size t <= zlen s -> int_ok t (be_value (ztake (int_size t) s)).
Proof.
  intros Hs Hl. pose proof (int_size_pos t). unfold int_ok.
  assert (zlen (ztake (int_size t) s) = int_size t) as E by (rewrite zlen_ztake; lia).
  rewrite <- E at 3. by apply be_value_range, Forall_ztake.
Qed.

(** Reading back an encoded integer, whatever follows it. *)
Lemma read_from_encoded t v rest :
  int_ok t v -> read_from t (be_bytes (int_bytes t) v ++ rest) = Some (v, rest).
Proof.
  intros Hv. pose proof (zlen_nonneg rest).
  assert (zlen (be_bytes (int_bytes t) v) = int_size t) as E by apply zlen_be_bytes.
  rewrite read_from_ok by (rewrite zlen_app; lia).
  rewrite <- E, ztake_app_exact, zdrop_app_exact.
  by rewrite be_value_bytes.
Qed.

(** A successful read consumed exactly the encoding of its value. *)
Lemma read_from_inv t s v rest :
  all_bytes s -> read_from t s = Some (v, rest) ->
  int_ok t v /\ all_bytes rest /\ s = be_bytes (int_bytes t) v ++ rest.
Proof.
  intros Hs Hr. pose proof (int_size_pos t).
  destruct (decide (int_size t <= zlen s)) as [Hl|Hl].
  - rewrite read_from_ok in Hr by done. injection Hr as <- <-.
    split; [by apply int_ok_bytes|]. split; [auto with ssp21|].
    assert (length (ztake (int_size t) s) = int_bytes t) as E
      by (unfold int_size in *; zlia).
    rewrite <- E at 1. rewrite be_bytes_value by auto with ssp21.
    by rewrite ztake_zdrop.
  - rewrite read_from_short in Hr by lia. done.
Qed.

Lemma wseq_store_ok w data :
  wseq_ok w -> zlen data <= wseq_length w -> wseq_ok (wseq_store w data).
Proof.
  unfold wseq_ok, wseq_length, wseq_store. simpl. intros.
  rewrite overwrite_length by lia. pose proof (zlen_nonneg data). lia.
Qed.

Lemma wseq_store_length w data :
  wseq_ok w -> zlen data <= wseq_length w ->
  wseq_length (wseq_store w data) = wseq_length w - zlen data.
Proof.
  unfold wseq_ok, wseq_length, wseq_store. simpl. intros.
  rewrite overwrite_length by lia. lia.
Qed.

Lemma wseq_store_app w d1 d2 :
  wseq_ok w -> zlen d1 + zlen d2 <= wseq_length w ->
  wseq_store (wseq_store w d1) d2 = wseq_store w (d1 ++ d2).
Proof.
  unfold wseq_ok, wseq_length, wseq_store. simpl. intros. f_equal.
  - apply overwrite_overwrite; lia.
  - rewrite zlen_app. lia.
Qed.

(** Several integers, one after the other. *)
Definition ints_bytes (vs : list (int_type * Z)) : bytes :=
  concat (map (fun '(t, v) => be_bytes (int_bytes t) v) vs).

Lemma BigEndian_write_all w vs :
  wseq_ok w -> Forall (fun '(t, v) => int_ok t v) vs ->
  zlen (ints_bytes vs) <= wseq_length w ->
  BigEndian_write w vs = Some (wseq_store w (ints_bytes vs)).
Proof.
  intros Hw Hvs. revert w Hw. induction Hvs as [|[t v] vs Hv _ IH]; intros w Hw Hl.
  - rewrite BigEndian_write_nil. unfold ints_bytes, wseq_store. simpl.
    destruct w. simpl. by rewrite overwrite_nil, Z.add_0_r.
  - change (ints_bytes ((t, v) :: vs)) with (be_bytes (int_bytes t) v ++ ints_bytes vs) in *.
    rewrite zlen_app, zlen_be_bytes in Hl. pose proof (zlen_nonneg (ints_bytes vs)).
    assert (zlen (be_bytes (int_bytes t) v) = int_size t) as E by apply zlen_be_bytes.
    rewrite BigEndian_write_cons, write_to_ok by (done || (unfold int_size; lia)).
    rewrite IH.
    + by rewrite wseq_store_app by (rewrite ?zlen_be_bytes; (done || lia)).
    + apply wseq_store_ok; [done|]. rewrite zlen_be_bytes. lia.
    + rewrite wseq_store_length by (rewrite ?zlen_be_bytes; (done || lia)).
      rewrite zlen_be_bytes. lia.
Qed.

Lemma wseq_store_nil w : wseq_store w [] = w.
Proof. destruct w. unfold wseq_store. simpl. by rewrite overwrite_nil, Z.add_0_r. Qed.
End Facts.

#[export] Hint Resolve wseq_store_ok int_size_pos : ssp21.
