(* ===== verification/Enums.v ===== *)
(** * Enumerations of the protocol

    The enumerations under [crypto/gen] with their [Spec] classes: the wire
    value of each enumerator ([to_type]), the decoder ([from_type], total, with
    [undefined] for every unassigned value) and the printed name.  [EnumSpec] is
    the template parameter of [EnumField]; [EnumSpecOk] is what the field codec
    needs of it, and every enumeration that goes on the wire is an instance. *)

From stdpp Require Import base numbers list strings.
From Stdlib Require Import Lia ZArith.
From S2P Require Import Prelude.

Class EnumSpec (E : Type) := {
  to_type : E -> Z;
  from_type : Z -> E;
  to_string : E -> string;
  undefined : E;
}.

Class EnumSpecOk (E : Type) `{!EqDecision E, !EnumSpec E} := {
  to_type_u8 (e : E) : is_byte (to_type e);
  from_to_type (e : E) : from_type (to_type e) = e;
  to_from_type v : is_byte v -> from_type (E := E) v <> undefined -> to_type (from_type (E := E) v) = v;
}.

Ltac enum_spec :=
  constructor;
  [ intros []; unfold is_byte; simpl; lia
  | by intros []
  | intros v Hv; simpl;
    match goal with |- ?f v <> _ -> _ => unfold f end;
    repeat case_match; simpl; intros; subst; first [reflexivity | congruence] ].

(** [enum class ParseError] *)
Inductive ParseError :=
| ParseError_ok
| ParseError_insufficient_bytes
| ParseError_undefined_enum
| ParseError_unexpected_function
| ParseError_too_many_bytes
| ParseError_impl_capacity_limit
| ParseError_reserved_bit
| ParseError_bad_vlength.

#[export] Instance ParseError_eq_dec : EqDecision ParseError.
Proof. solve_decision. Defined.

Definition ParseError_to_string (arg : ParseError) : string :=
  match arg with
  | ParseError_ok => "ok"
  | ParseError_insufficient_bytes => "insufficient_bytes"
  | ParseError_undefined_enum => "undefined_enum"
  | ParseError_unexpected_function => "unexpected_function"
  | ParseError_too_many_bytes => "too_many_bytes"
  | ParseError_impl_capacity_limit => "impl_capacity_limit"
  | ParseError_reserved_bit => "reserved_bit"
  | ParseError_bad_vlength => "bad_vlength"
  end.

(** [any]: is this an error? *)
Definition any_ParseError (value : ParseError) : bool := bool_decide (value <> ParseError_ok).

(** [enum class FormatError] *)
Inductive FormatError :=
| FormatError_ok
| FormatError_insufficient_space.

#[export] Instance FormatError_eq_dec : EqDecision FormatError.
Proof. solve_decision. Defined.

Definition FormatError_to_string (arg : FormatError) : string :=
  match arg with
  | FormatError_ok => "ok"
  | FormatError_insufficient_space => "insufficient_space"
  end.

(** [any]: is this an error? *)
Definition any_FormatError (value : FormatError) : bool := bool_decide (value <> FormatError_ok).

(** [enum class CryptoError] *)
Inductive CryptoError :=
| CryptoError_ok
| CryptoError_bad_key_type
| CryptoError_bad_length
| CryptoError_dh_x25519_fail
| CryptoError_undefined_algorithm
| CryptoError_mac_auth_fail
| CryptoError_signature_auth_fail
| CryptoError_bad_buffer_size
| CryptoError_no_valid_session
| CryptoError_expired_ttl
| CryptoError_nonce_replay
| CryptoError_max_nonce_exceeded
| CryptoError_max_session_time_exceeded
| CryptoError_empty_user_data
| CryptoError_clock_rollback
| CryptoError_aead_encrypt_fail
| CryptoError_aead_decrypt_fail.

#[export] Instance CryptoError_eq_dec : EqDecision CryptoError.
Proof. solve_decision. Defined.

Definition CryptoError_to_string (arg : CryptoError) : string :=
  match arg with
  | CryptoError_ok => "ok"
  | CryptoError_bad_key_type => "bad_key_type"
  | CryptoError_bad_length => "bad_length"
  | CryptoError_dh_x25519_fail => "dh_x25519_fail"
  | CryptoError_undefined_algorithm => "undefined_algorithm"
  | CryptoError_mac_auth_fail => "mac_auth_fail"
  | CryptoError_signature_auth_fail => "signature_auth_fail"
  | CryptoError_bad_buffer_size => "bad_buffer_size"
  | CryptoError_no_valid_session => "no_valid_session"
  | CryptoError_expired_ttl => "expired_ttl"
  | CryptoError_nonce_replay => "nonce_replay"
  | CryptoError_max_nonce_exceeded => "max_nonce_exceeded"
  | CryptoError_max_session_time_exceeded => "max_session_time_exceeded"
  | CryptoError_empty_user_data => "empty_user_data"
  | CryptoError_clock_rollback => "clock_rollback"
  | CryptoError_aead_encrypt_fail => "aead_encrypt_fail"
  | CryptoError_aead_decrypt_fail => "aead_decrypt_fail"
  end.

(** [enum class Function] *)
Inductive Function :=
| Function_request_handshake_begin
| Function_reply_handshake_begin
| Function_reply_handshake_error
| Function_session_data
| Function_undefined.

#[export] Instance Function_eq_dec : EqDecision Function.
Proof. solve_decision. Defined.

(** [FunctionSpec::to_type]: the value of the enumerator. *)
Definition Function_to_type (arg : Function) : Z :=
  match arg with
  | Function_request_handshake_begin => 0x0
  | Function_reply_handshake_begin => 0x1
  | Function_reply_handshake_error => 0x2
  | Function_session_data => 0x3
  | Function_undefined => 0xff
  end.

Definition Function_from_type (arg : Z) : Function :=
  match arg with
  | 0x0 => Function_request_handshake_begin
  | 0x1 => Function_reply_handshake_begin
  | 0x2 => Function_reply_handshake_error
  | 0x3 => Function_session_data
  | _ => Function_undefined
  end.

Definition Function_to_string (arg : Function) : string :=
  match arg with
  | Function_request_handshake_begin => "request_handshake_begin"
  | Function_reply_handshake_begin => "reply_handshake_begin"
  | Function_reply_handshake_error => "reply_handshake_error"
  | Function_session_data => "session_data"
  | _ => "undefined"
  end.

#[export] Instance FunctionSpec : EnumSpec Function := {|
  to_type := Function_to_type;
  from_type := Function_from_type;
  to_string := Function_to_string;
  undefined := Function_undefined;
|}.

#[export] Instance FunctionSpec_ok : EnumSpecOk Function.
Proof. enum_spec. Qed.

(** [enum class HandshakeEphemeral] *)
Inductive HandshakeEphemeral :=
| HandshakeEphemeral_x25519
| HandshakeEphemeral_nonce
| HandshakeEphemeral_none
| HandshakeEphemeral_undefined.

#[export] Instance HandshakeEphemeral_eq_dec : EqDecision HandshakeEphemeral.
Proof. solve_decision. Defined.

(** [HandshakeEphemeralSpec::to_type]: the value of the enumerator. *)
Definition HandshakeEphemeral_to_type (arg : HandshakeEphemeral) : Z :=
  match arg with
  | HandshakeEphemeral_x25519 => 0x0
  | HandshakeEphemeral_nonce => 0x1
  | HandshakeEphemeral_none => 0x2
  | HandshakeEphemeral_undefined => 0xff
  end.

Definition HandshakeEphemeral_from_type (arg : Z) : HandshakeEphemeral :=
  match arg with
  | 0x0 => HandshakeEphemeral_x25519
  | 0x1 => HandshakeEphemeral_nonce
  | 0x2 => HandshakeEphemeral_none
  | _ => HandshakeEphemeral_undefined
  end.

Definition HandshakeEphemeral_to_string (arg : HandshakeEphemeral) : string :=
  match arg with
  | HandshakeEphemeral_x25519 => "x25519"
  | HandshakeEphemeral_nonce => "nonce"
  | HandshakeEphemeral_none => "none"
  | _ => "undefined"
  end.

#[export] Instance HandshakeEphemeralSpec : EnumSpec HandshakeEphemeral := {|
  to_type := HandshakeEphemeral_to_type;
  from_type := HandshakeEphemeral_from_type;
  to_string := HandshakeEphemeral_to_string;
  undefined := HandshakeEphemeral_undefined;
|}.

#[export] Instance HandshakeEphemeralSpec_ok : EnumSpecOk HandshakeEphemeral.
Proof. enum_spec. Qed.

(** [enum class HandshakeHash] *)
Inductive HandshakeHash :=
| HandshakeHash_sha256
| HandshakeHash_undefined.

#[export] Instance HandshakeHash_eq_dec : EqDecision HandshakeHash.
Proof. solve_decision. Defined.

(** [HandshakeHashSpec::to_type]: the value of the enumerator. *)
Definition HandshakeHash_to_type (arg : HandshakeHash) : Z :=
  match arg with
  | HandshakeHash_sha256 => 0x0
  | HandshakeHash_undefined => 0xff
  end.

Definition HandshakeHash_from_type (arg : Z) : HandshakeHash :=
  match arg with
  | 0x0 => HandshakeHash_sha256
  | _ => HandshakeHash_undefined
  end.

Definition HandshakeHash_to_string (arg : HandshakeHash) : string :=
  match arg with
  | HandshakeHash_sha256 => "sha256"
  | _ => "undefined"
  end.

#[export] Instance HandshakeHashSpec : EnumSpec HandshakeHash := {|
  to_type := HandshakeHash_to_type;
  from_type := HandshakeHash_from_type;
  to_string := HandshakeHash_to_string;
  undefined := HandshakeHash_undefined;
|}.

#[export] Instance HandshakeHashSpec_ok : EnumSpecOk HandshakeHash.
Proof. enum_spec. Qed.

(** [enum class HandshakeKDF] *)
Inductive HandshakeKDF :=
| HandshakeKDF_hkdf_sha256
| HandshakeKDF_undefined.

#[export] Instance HandshakeKDF_eq_dec : EqDecision HandshakeKDF.
Proof. solve_decision. Defined.

(** [HandshakeKDFSpec::to_type]: the value of the enumerator. *)
Definition HandshakeKDF_to_type (arg : HandshakeKDF) : Z :=
  match arg with
  | HandshakeKDF_hkdf_sha256 => 0x0
  | HandshakeKDF_undefined => 0xff
  end.

Definition HandshakeKDF_from_type (arg : Z) : HandshakeKDF :=
  match arg with
  | 0x0 => HandshakeKDF_hkdf_sha256
  | _ => HandshakeKDF_undefined
  end.

Definition HandshakeKDF_to_string (arg : HandshakeKDF) : string :=
  match arg with
  | HandshakeKDF_hkdf_sha256 => "hkdf_sha256"
  | _ => "undefined"
  end.

#[export] Instance HandshakeKDFSpec : EnumSpec HandshakeKDF := {|
  to_type := HandshakeKDF_to_type;
  from_type := HandshakeKDF_from_type;
  to_string := HandshakeKDF_to_string;
  undefined := HandshakeKDF_undefined;
|}.

#[export] Instance HandshakeKDFSpec_ok : EnumSpecOk HandshakeKDF.
Proof. enum_spec. Qed.

(** [enum class HandshakeMode] *)
Inductive HandshakeMode :=
| HandshakeMode_shared_secret
| HandshakeMode_public_keys
| HandshakeMode_quantum_key_distribution
| HandshakeMode_industrial_certificates
| HandshakeMode_undefined.

#[export] Instance HandshakeMode_eq_dec : EqDecision HandshakeMode.
Proof. solve_decision. Defined.

(** [HandshakeModeSpec::to_type]: the value of the enumerator. *)
Definition HandshakeMode_to_type (arg : HandshakeMode) : Z :=
  match arg with
  | HandshakeMode_shared_secret => 0x0
  | HandshakeMode_public_keys => 0x1
  | HandshakeMode_quantum_key_distribution => 0x2
  | HandshakeMode_industrial_certificates => 0x3
  | HandshakeMode_undefined => 0xff
  end.

Definition HandshakeMode_from_type (arg : Z) : HandshakeMode :=
  match arg with
  | 0x0 => HandshakeMode_shared_secret
  | 0x1 => HandshakeMode_public_keys
  | 0x2 => HandshakeMode_quantum_key_distribution
  | 0x3 => HandshakeMode_industrial_certificates
  | _ => HandshakeMode_undefined
  end.

Definition HandshakeMode_to_string (arg : HandshakeMode) : string :=
  match arg with
  | HandshakeMode_shared_secret => "shared_secret"
  | HandshakeMode_public_keys => "public_keys"
  | HandshakeMode_quantum_key_distribution => "quantum_key_distribution"
  | HandshakeMode_industrial_certificates => "industrial_certificates"
  | _ => "undefined"
  end.

#[export] Instance HandshakeModeSpec : EnumSpec HandshakeMode := {|
  to_type := HandshakeMode_to_type;
  from_type := HandshakeMode_from_type;
  to_string := HandshakeMode_to_string;
  undefined := HandshakeMode_undefined;
|}.

#[export] Instance HandshakeModeSpec_ok : EnumSpecOk HandshakeMode.
Proof. enum_spec. Qed.

(** [enum class HandshakeError] *)
Inductive HandshakeError :=
| HandshakeError_bad_message_format
| HandshakeError_unsupported_version
| HandshakeError_unsupported_handshake_ephemeral
| HandshakeError_unsupported_handshake_hash
| HandshakeError_unsupported_handshake_kdf
| HandshakeError_unsupported_session_mode
| HandshakeError_unsupported_nonce_mode
| HandshakeError_unsupported_handshake_mode
| HandshakeError_bad_certificate_format
| HandshakeError_bad_certificate_chain
| HandshakeError_unsupported_certificate_feature
| HandshakeError_authentication_error
| HandshakeError_no_prior_handshake_begin
| HandshakeError_key_not_found
| HandshakeError_none
| HandshakeError_undefined
| HandshakeError_unknown.

#[export] Instance HandshakeError_eq_dec : EqDecision HandshakeError.
Proof. solve_decision. Defined.

(** [HandshakeErrorSpec::to_type]: the value of the enumerator. *)
Definition HandshakeError_to_type (arg : HandshakeError) : Z :=
  match arg with
  | HandshakeError_bad_message_format => 0x0
  | HandshakeError_unsupported_version => 0x1
  | HandshakeError_unsupported_handshake_ephemeral => 0x2
  | HandshakeError_unsupported_handshake_hash => 0x3
  | HandshakeError_unsupported_handshake_kdf => 0x4
  | HandshakeError_unsupported_session_mode => 0x5
  | HandshakeError_unsupported_nonce_mode => 0x6
  | HandshakeError_unsupported_handshake_mode => 0x7
  | HandshakeError_bad_certificate_format => 0x8
  | HandshakeError_bad_certificate_chain => 0x9
  | HandshakeError_unsupported_certificate_feature => 0xa
  | HandshakeError_authentication_error => 0xb
  | HandshakeError_no_prior_handshake_begin => 0xc
  | HandshakeError_key_not_found => 0xd
  | HandshakeError_none => 0xfd
  | HandshakeError_undefined => 0xfe
  | HandshakeError_unknown => 0xff
  end.

Definition HandshakeError_from_type (arg : Z) : HandshakeError :=
  match arg with
  | 0x0 => HandshakeError_bad_message_format
  | 0x1 => HandshakeError_unsupported_version
  | 0x2 => HandshakeError_unsupported_handshake_ephemeral
  | 0x3 => HandshakeError_unsupported_handshake_hash
  | 0x4 => HandshakeError_unsupported_handshake_kdf
  | 0x5 => HandshakeError_unsupported_session_mode
  | 0x6 => HandshakeError_unsupported_nonce_mode
  | 0x7 => HandshakeError_unsupported_handshake_mode
  | 0x8 => HandshakeError_bad_certificate_format
  | 0x9 => HandshakeError_bad_certificate_chain
  | 0xa => HandshakeError_unsupported_certificate_feature
  | 0xb => HandshakeError_authentication_error
  | 0xc => HandshakeError_no_prior_handshake_begin
  | 0xd => HandshakeError_key_not_found
  | 0xff => HandshakeError_unknown
  | 0xfd => HandshakeError_none
  | _ => HandshakeError_undefined
  end.

Definition HandshakeError_to_string (arg : HandshakeError) : string :=
  match arg with
  | HandshakeError_bad_message_format => "bad_message_format"
  | HandshakeError_unsupported_version => "unsupported_version"
  | HandshakeError_unsupported_handshake_ephemeral => "unsupported_handshake_ephemeral"
  | HandshakeError_unsupported_handshake_hash => "unsupported_handshake_hash"
  | HandshakeError_unsupported_handshake_kdf => "unsupported_handshake_kdf"
  | HandshakeError_unsupported_session_mode => "unsupported_session_mode"
  | HandshakeError_unsupported_nonce_mode => "unsupported_nonce_mode"
  | HandshakeError_unsupported_handshake_mode => "unsupported_handshake_mode"
  | HandshakeError_bad_certificate_format => "bad_certificate_format"
  | HandshakeError_bad_certificate_chain => "bad_certificate_chain"
  | HandshakeError_unsupported_certificate_feature => "unsupported_certificate_feature"
  | HandshakeError_authentication_error => "authentication_error"
  | HandshakeError_no_prior_handshake_begin => "no_prior_handshake_begin"
  | HandshakeError_key_not_found => "key_not_found"
  | HandshakeError_unknown => "unknown"
  | HandshakeError_none => "none"
  | _ => "undefined"
  end.

#[export] Instance HandshakeErrorSpec : EnumSpec HandshakeError := {|
  to_type := HandshakeError_to_type;
  from_type := HandshakeError_from_type;
  to_string := HandshakeError_to_string;
  undefined := HandshakeError_undefined;
|}.

#[export] Instance HandshakeErrorSpec_ok : EnumSpecOk HandshakeError.
Proof. enum_spec. Qed.

Definition any_HandshakeError (value : HandshakeError) : bool := bool_decide (value <> HandshakeError_none).

(** [enum class SessionNonceMode] *)
Inductive SessionNonceMode :=
| SessionNonceMode_strict_increment
| SessionNonceMode_greater_than_last_rx
| SessionNonceMode_undefined.

#[export] Instance SessionNonceMode_eq_dec : EqDecision SessionNonceMode.
Proof. solve_decision. Defined.

(** [SessionNonceModeSpec::to_type]: the value of the enumerator. *)
Definition SessionNonceMode_to_type (arg : SessionNonceMode) : Z :=
  match arg with
  | SessionNonceMode_strict_increment => 0x0
  | SessionNonceMode_greater_than_last_rx => 0x1
  | SessionNonceMode_undefined => 0xff
  end.

Definition SessionNonceMode_from_type (arg : Z) : SessionNonceMode :=
  match arg with
  | 0x0 => SessionNonceMode_strict_increment
  | 0x1 => SessionNonceMode_greater_than_last_rx
  | _ => SessionNonceMode_undefined
  end.

Definition SessionNonceMode_to_string (arg : SessionNonceMode) : string :=
  match arg with
  | SessionNonceMode_strict_increment => "strict_increment"
  | SessionNonceMode_greater_than_last_rx => "greater_than_last_rx"
  | _ => "undefined"
  end.

#[export] Instance SessionNonceModeSpec : EnumSpec SessionNonceMode := {|
  to_type := SessionNonceMode_to_type;
  from_type := SessionNonceMode_from_type;
  to_string := SessionNonceMode_to_string;
  undefined := SessionNonceMode_undefined;
|}.

#[export] Instance SessionNonceModeSpec_ok : EnumSpecOk SessionNonceMode.
Proof. enum_spec. Qed.

(** [enum class SessionCryptoMode] *)
Inductive SessionCryptoMode :=
| SessionCryptoMode_hmac_sha256_16
| SessionCryptoMode_aes_256_gcm
| SessionCryptoMode_undefined.

#[export] Instance SessionCryptoMode_eq_dec : EqDecision SessionCryptoMode.
Proof. solve_decision. Defined.

(** [SessionCryptoModeSpec::to_type]: the value of the enumerator. *)
Definition SessionCryptoMode_to_type (arg : SessionCryptoMode) : Z :=
  match arg with
  | SessionCryptoMode_hmac_sha256_16 => 0x0
  | SessionCryptoMode_aes_256_gcm => 0x1
  | SessionCryptoMode_undefined => 0xff
  end.

Definition SessionCryptoMode_from_type (arg : Z) : SessionCryptoMode :=
  match arg with
  | 0x0 => SessionCryptoMode_hmac_sha256_16
  | 0x1 => SessionCryptoMode_aes_256_gcm
  | _ => SessionCryptoMode_undefined
  end.

Definition SessionCryptoMode_to_string (arg : SessionCryptoMode) : string :=
  match arg with
  | SessionCryptoMode_hmac_sha256_16 => "hmac_sha256_16"
  | SessionCryptoMode_aes_256_gcm => "aes_256_gcm"
  | _ => "undefined"
  end.

#[export] Instance SessionCryptoModeSpec : EnumSpec SessionCryptoMode := {|
  to_type := SessionCryptoMode_to_type;
  from_type := SessionCryptoMode_from_type;
  to_string := SessionCryptoMode_to_string;
  undefined := SessionCryptoMode_undefined;
|}.

#[export] Instance SessionCryptoModeSpec_ok : EnumSpecOk SessionCryptoMode.
Proof. enum_spec. Qed.

(** [enum class PublicKeyType] *)
Inductive PublicKeyType :=
| PublicKeyType_Ed25519
| PublicKeyType_X25519
| PublicKeyType_undefined.

#[export] Instance PublicKeyType_eq_dec : EqDecision PublicKeyType.
Proof. solve_decision. Defined.

(** [PublicKeyTypeSpec::to_type]: the value of the enumerator. *)
Definition PublicKeyType_to_type (arg : PublicKeyType) : Z :=
  match arg with
  | PublicKeyType_Ed25519 => 0x0
  | PublicKeyType_X25519 => 0x1
  | PublicKeyType_undefined => 0xff
  end.

Definition PublicKeyType_from_type (arg : Z) : PublicKeyType :=
  match arg with
  | 0x0 => PublicKeyType_Ed25519
  | 0x1 => PublicKeyType_X25519
  | _ => PublicKeyType_undefined
  end.

Definition PublicKeyType_to_string (arg : PublicKeyType) : string :=
  match arg with
  | PublicKeyType_Ed25519 => "Ed25519"
  | PublicKeyType_X25519 => "X25519"
  | _ => "undefined"
  end.

#[export] Instance PublicKeyTypeSpec : EnumSpec PublicKeyType := {|
  to_type := PublicKeyType_to_type;
  from_type := PublicKeyType_from_type;
  to_string := PublicKeyType_to_string;
  undefined := PublicKeyType_undefined;
|}.

#[export] Instance PublicKeyTypeSpec_ok : EnumSpecOk PublicKeyType.
Proof. enum_spec. Qed.

(** [enum class ContainerEntryType] *)
Inductive ContainerEntryType :=
| ContainerEntryType_shared_secret
| ContainerEntryType_certificate_chain
| ContainerEntryType_x25519_public_key
| ContainerEntryType_x25519_private_key
| ContainerEntryType_ed25519_public_key
| ContainerEntryType_ed25519_private_key
| ContainerEntryType_undefined.

#[export] Instance ContainerEntryType_eq_dec : EqDecision ContainerEntryType.
Proof. solve_decision. Defined.

(** [ContainerEntryTypeSpec::to_type]: the value of the enumerator. *)
Definition ContainerEntryType_to_type (arg : ContainerEntryType) : Z :=
  match arg with
  | ContainerEntryType_shared_secret => 0x0
  | ContainerEntryType_certificate_chain => 0x1
  | ContainerEntryType_x25519_public_key => 0x2
  | ContainerEntryType_x25519_private_key => 0x3
  | ContainerEntryType_ed25519_public_key => 0x4
  | ContainerEntryType_ed25519_private_key => 0x5
  | ContainerEntryType_undefined => 0xff
  end.

Definition ContainerEntryType_from_type (arg : Z) : ContainerEntryType :=
  match arg with
  | 0x0 => ContainerEntryType_shared_secret
  | 0x1 => ContainerEntryType_certificate_chain
  | 0x2 => ContainerEntryType_x25519_public_key
  | 0x3 => ContainerEntryType_x25519_private_key
  | 0x4 => ContainerEntryType_ed25519_public_key
  | 0x5 => ContainerEntryType_ed25519_private_key
  | _ => ContainerEntryType_undefined
  end.

Definition ContainerEntryType_to_string (arg : ContainerEntryType) : string :=
  match arg with
  | ContainerEntryType_shared_secret => "shared_secret"
  | ContainerEntryType_certificate_chain => "certificate_chain"
  | ContainerEntryType_x25519_public_key => "x25519_public_key"
  | ContainerEntryType_x25519_private_key => "x25519_private_key"
  | ContainerEntryType_ed25519_public_key => "ed25519_public_key"
  | ContainerEntryType_ed25519_private_key => "ed25519_private_key"
  | _ => "undefined"
  end.

#[export] Instance ContainerEntryTypeSpec : EnumSpec ContainerEntryType := {|
  to_type := ContainerEntryType_to_type;
  from_type := ContainerEntryType_from_type;
  to_string := ContainerEntryType_to_string;
  undefined := ContainerEntryType_undefined;
|}.

#[export] Instance ContainerEntryTypeSpec_ok : EnumSpecOk ContainerEntryType.
Proof. enum_spec. Qed.
