(* ===== verification/Codec.v ===== *)
(** * Field codecs

    [VLength], [IntegerField], [EnumField], [SeqByteField], [SeqStructField] and
    the variadic helpers of [MessageParser] / [MessageFormatter].  A reader takes
    the input sequence and returns either a [ParseError] or the value and what it
    left of the input; a writer takes the output window and returns the
    [FormatError] and the window after the bytes it stored.

    [Lawful] is the contract of a field: its writer stores exactly the encoding
    or reports [insufficient_space], its reader inverts the writer, accepts
    nothing but encodings (no malleability) and reports every truncation as
    [insufficient_bytes]. *)

From stdpp Require Import base numbers list strings.
From Stdlib Require Import Lia ZArith.
From S2P Require Import Prelude Ser4cpp Enums.

Abbreviation reader A := (bytes -> ParseError + (A * bytes)).
Abbreviation writer := (wseq -> FormatError * wseq).

(** The operations a field type offers to the [MessageParser] and
    [MessageFormatter] templates. *)
Record field (A : Type) := Field {
  f_read : reader A;
  f_write : A -> writer;
  f_size : A -> Z;
}.
Arguments Field {A} _ _ _.
Arguments f_read {A} _ _.
Arguments f_write {A} _ _ _.
Arguments f_size {A} _ _.

(** [b ? FormatError::ok : FormatError::insufficient_space] after a store
    that leaves the window alone when it fails. *)
Definition stored (w : wseq) (r : option wseq) : FormatError * wseq :=
  match r with
  | Some w' => (FormatError_ok, w')
  | None => (FormatError_insufficient_space, w)
  end.

Section Definitions.
Context `{SER : Ser4cpp}.

(** ** VLength *)

Definition max_one_byte_value : Z := 127.
Definition max_four_byte_value : Z := 16777215.
Definition top_bit_mask : Z := 0x80.
Definition bottom_bits_mask : Z := 0x7f.

Definition VLength_num_values_bytes (value : Z) : Z :=
  if value <=? max_one_byte_value then 0
  else if value <=? max_u8 then 1
  else if value <=? max_u16 then 2
  else if value <=? max_four_byte_value then 3
  else 4.

Definition VLength_size (value : Z) : Z := VLength_num_values_bytes value + 1.

Definition VLength_write (value : Z) (dest : wseq) : FormatError * wseq :=
  let num_value_bytes := VLength_num_values_bytes value in
  if num_value_bytes =? 0 then stored dest (wseq_put dest value)
  else
    match wseq_put dest (Z.lor top_bit_mask num_value_bytes) with
    | None => (FormatError_insufficient_space, dest)
    | Some dest =>
        if num_value_bytes =? 1 then stored dest (wseq_put dest value)
        else if num_value_bytes =? 2 then stored dest (write_to UInt16 dest (u16 value))
        else if num_value_bytes =? 3 then
          let top_byte := u8 (Z.land (Z.shiftr value 16) 0xff) in
          let bottom_2_bytes := u16 (Z.land value 0xffff) in
          match wseq_put dest top_byte with
          | None => (FormatError_insufficient_space, dest)
          | Some dest => stored dest (write_to UInt16 dest bottom_2_bytes)
          end
        else stored dest (write_to UInt32 dest value)
    end.

(** The loop of [VLength::read] over the remaining count of bytes. *)
Fixpoint VLength_read_loop (count : nat) (ret : Z) (src : bytes) : ParseError + (Z * bytes) :=
  match count with
  | O => inr (ret, src)
  | S count =>
      let ret := u32 (Z.shiftl ret 8) in
      match read_from UInt8 src with
      | None => inl ParseError_insufficient_bytes
      | Some (byte, src) => VLength_read_loop count (Z.lor ret byte) src
      end
  end.

Definition VLength_read (src : bytes) : ParseError + (Z * bytes) :=
  match read_from UInt8 src with
  | None => inl ParseError_insufficient_bytes
  | Some (top_byte, src) =>
      if Z.land top_byte top_bit_mask =? 0 then inr (top_byte, src)
      else
        let count_of_bytes := Z.land top_byte bottom_bits_mask in
        if (count_of_bytes <? 1) || (4 <? count_of_bytes) then inl ParseError_bad_vlength
        else
          let! '(ret, src) := VLength_read_loop (Z.to_nat count_of_bytes) 0 src in
          if negb (VLength_num_values_bytes ret =? count_of_bytes)
          then inl ParseError_bad_vlength
          else inr (ret, src)
  end.

(** ** Fields *)

Definition IntegerField_read (t : int_type) (input : bytes) : ParseError + (Z * bytes) :=
  match read_from t input with
  | Some r => inr r
  | None => inl ParseError_insufficient_bytes
  end.

Definition IntegerField_write (t : int_type) (value : Z) (output : wseq) : FormatError * wseq :=
  stored output (write_to t output value).

Definition IntegerField (t : int_type) : field Z :=
  Field (IntegerField_read t) (IntegerField_write t) (fun _ => int_size t).

Definition EnumField_read {E} `{!EqDecision E, !EnumSpec E} (input : bytes)
  : ParseError + (E * bytes) :=
  match BigEndian_read [UInt8] input with
  | Some ([raw_value], input) =>
      let enum_value := from_type raw_value in
      if bool_decide (enum_value = undefined) then inl ParseError_undefined_enum
      else inr (enum_value, input)
  | _ => inl ParseError_insufficient_bytes
  end.

Definition EnumField_write {E} `{!EqDecision E, !EnumSpec E} (value : E) (output : wseq)
  : FormatError * wseq :=
  stored output (BigEndian_write output [(UInt8, to_type value)]).

Definition EnumField E `{!EqDecision E, !EnumSpec E} : field E :=
  Field EnumField_read EnumField_write (fun _ => 1).

Definition SeqByteField_size (value : bytes) : Z := VLength_size (zlen value) + zlen value.

Definition SeqByteField_read (input : bytes) : ParseError + (bytes * bytes) :=
  let! '(length, input) := VLength_read input in
  if zlen input <? length then inl ParseError_insufficient_bytes
  else inr (seq_take input length, seq_skip input length).

Definition SeqByteField_write (value : bytes) (dest : wseq) : FormatError * wseq :=
  match VLength_write (zlen value) dest with
  | (FormatError_ok, dest) =>
      if wseq_length dest <? zlen value then (FormatError_insufficient_space, dest)
      else (FormatError_ok, wseq_copy_from dest value)
  | failed => failed
  end.

Definition SeqByteField : field bytes :=
  Field SeqByteField_read SeqByteField_write SeqByteField_size.

(** [SeqStructField<StructType, MAX_COUNT>]: the items pushed so far, at
    most [max_count] of them. *)
Definition SeqStructField_push {A} (max_count : Z) (items : list A) (item : A) : option (list A) :=
  if zlen items =? max_count then None else Some (items ++ [item]).

Fixpoint SeqStructField_read_loop {A} (max_count : Z) (item : field A) (count : nat)
    (items : list A) (input : bytes) : ParseError + (list A * bytes) :=
  match count with
  | O => inr (items, input)
  | S count =>
      let! '(x, input) := f_read item input in
      match SeqStructField_push max_count items x with
      | None => inl ParseError_impl_capacity_limit
      | Some items => SeqStructField_read_loop max_count item count items input
      end
  end.

Definition SeqStructField_read {A} (max_count : Z) (item : field A) (input : bytes)
  : ParseError + (list A * bytes) :=
  let! '(count, input) := VLength_read input in
  SeqStructField_read_loop max_count item (Z.to_nat count) [] input.

(** [MessageFormatter::write_fields] and [sum_sizes]: the fields in turn. *)
Fixpoint write_fields (fields : list writer) (dest : wseq) : FormatError * wseq :=
  match fields with
  | [] => (FormatError_ok, dest)
  | write :: fields =>
      match write dest with
      | (FormatError_ok, dest) => write_fields fields dest
      | failed => failed
      end
  end.

Fixpoint sum_sizes (sum : Z) (sizes : list Z) : Z :=
  match sizes with
  | [] => sum
  | size :: sizes => sum_sizes (sum + size) sizes
  end.

Definition SeqStructField_write {A} (item : field A) (items : list A) (output : wseq)
  : FormatError * wseq :=
  match VLength_write (zlen items) output with
  | (FormatError_ok, output) => write_fields (map (f_write item) items) output
  | failed => failed
  end.

Definition SeqStructField_size {A} (item : field A) (items : list A) : Z :=
  VLength_size (zlen items) + sum_sizes 0 (map (f_size item) items).

Definition SeqStructField {A} (item : field A) (max_count : Z) : field (list A) :=
  Field (SeqStructField_read max_count item) (SeqStructField_write item)
    (SeqStructField_size item).

(** ** Messages *)

Record FormatResult := mkFormatResult { fr_err : FormatError; fr_written : bytes }.

Definition FormatResult_is_error (r : FormatResult) : bool := any_FormatError (fr_err r).

(** [MessageParser::read_message] *)
Definition read_message {A} (input : bytes) (expected : Function) (read_fields : reader A)
  : ParseError + A :=
  let! '(func, copy) := EnumField_read (E := Function) input in
  if bool_decide (func <> expected) then inl ParseError_unexpected_function
  else
    let! '(msg, copy) := read_fields copy in
    if is_nil copy then inr msg else inl ParseError_too_many_bytes.

(** [MessageFormatter::write_message].  The written slice is read from the
    memory the writers left. *)
Definition write_message (dest : wseq) (function : Function) (fields : writer)
  : FormatResult * wseq :=
  let start := dest in
  match EnumField_write function dest with
  | (FormatError_ok, dest) =>
      match fields dest with
      | (FormatError_ok, dest) =>
          let num_written := u32 (wseq_length start - wseq_length dest) in
          (mkFormatResult FormatError_ok
             (seq_take (zdrop (w_pos start) (w_buf dest)) num_written), dest)
      | (merr, dest) => (mkFormatResult merr [], dest)
      end
  | (ferr, dest) => (mkFormatResult ferr [], dest)
  end.

(** [T::read_all] of the generated structs. *)
Definition read_all {A} (read : reader A) (input : bytes) : ParseError + A :=
  let! '(x, remainder) := read input in
  if is_nil remainder then inr x else inl ParseError_too_many_bytes.
End Definitions.

(** ** The contract of a codec *)

(** [w'] is [w] after some bytes were stored and the window advanced: nothing
    before the window changed. *)
Definition wseq_extends (w w' : wseq) : Prop :=
  wseq_ok w' /\ w_pos w <= w_pos w' /\ zlen (w_buf w') = zlen (w_buf w) /\
  ztake (w_pos w) (w_buf w') = ztake (w_pos w) (w_buf w).

(** The writer stores exactly [e], or reports that it does not fit. *)
Definition Writes (wr : writer) (e : bytes) : Prop :=
  forall w, wseq_ok w ->
    (zlen e <= wseq_length w -> wr w = (FormatError_ok, wseq_store w e)) /\
    (wseq_length w < zlen e ->
       exists w', wr w = (FormatError_insufficient_space, w') /\ wseq_extends w w').

(** The reader decodes [e] as [a] whatever follows, and misses bytes on every
    proper prefix of [e]. *)
Definition Reads {A} (rd : reader A) (a : A) (e : bytes) : Prop :=
  (forall rest, rd (e ++ rest) = inr (a, rest)) /\
  (forall p q, e = p ++ q -> q <> [] -> rd p = inl ParseError_insufficient_bytes).

(** What the reader accepts. *)
Definition Accepts {A} (rd : reader A) (P : A -> bytes -> Prop) : Prop :=
  forall s a rest, all_bytes s -> rd s = inr (a, rest) -> exists e, s = e ++ rest /\ P a e.

Class Lawful {A} (f : field A) (enc : A -> bytes) (ok : A -> Prop) : Prop := {
  lawful_bytes a : ok a -> all_bytes (enc a);
  lawful_size a : ok a -> f_size f a = zlen (enc a);
  lawful_writes a : ok a -> Writes (f_write f a) (enc a);
  lawful_reads a : ok a -> Reads (f_read f) a (enc a);
  lawful_accepts : Accepts (f_read f) (fun a e => ok a /\ e = enc a);
}.

Section Combinators.
Lemma wseq_extends_refl w : wseq_ok w -> wseq_extends w w.
Proof. split; [done|]. split; [lia|]. done. Qed.

Lemma wseq_extends_store w e :
  wseq_ok w -> zlen e <= wseq_length w -> wseq_extends w (wseq_store w e).
Proof.
  intros Hw Hl. pose proof (zlen_nonneg e).
  split; [by apply wseq_store_ok|]. unfold wseq_ok, wseq_length in *.
  simpl. rewrite overwrite_length by lia.
  split; [lia|]. split; [done|]. apply overwrite_before; lia.
Qed.

Lemma wseq_extends_trans w1 w2 w3 :
  wseq_ok w1 -> wseq_extends w1 w2 -> wseq_extends w2 w3 -> wseq_extends w1 w3.
Proof.
  intros [Hp Hq] (Hok&Hpos&Hlen&Htake) (Hok'&Hpos'&Hlen'&Htake').
  split; [done|]. split; [lia|]. split; [congruence|].
  rewrite <- Htake. transitivity (ztake (w_pos w1) (ztake (w_pos w2) (w_buf w3))).
  - rewrite ztake_ztake. f_equal. lia.
  - rewrite Htake', ztake_ztake. f_equal. lia.
Qed.

Lemma Writes_nil : Writes (fun w => (FormatError_ok, w)) [].
Proof.
  intros w Hw. split; intros H; [by rewrite wseq_store_nil|].
  rewrite zlen_nil in H. unfold wseq_ok, wseq_length in *. lia.
Qed.

Lemma Writes_seq wr1 e1 (wr2 : writer) e2 :
  Writes wr1 e1 -> Writes wr2 e2 ->
  Writes (fun w => match wr1 w with (FormatError_ok, w) => wr2 w | failed => failed end)
    (e1 ++ e2).
Proof.
  intros H1 H2 w Hw. pose proof (zlen_nonneg e1). pose proof (zlen_nonneg e2).
  destruct (H1 w Hw) as [F1 S1]. rewrite zlen_app.
  destruct (decide (zlen e1 <= wseq_length w)) as [Hl|Hl].
  - rewrite F1 by done.
    destruct (H2 (wseq_store w e1)) as [F2 S2]; [by apply wseq_store_ok|].
    rewrite wseq_store_length in * by done.
    split; intros Hs.
    + rewrite F2, wseq_store_app by (done || lia). done.
    + destruct S2 as (w'&->&E); [lia|]. exists w'. split; [done|].
      eapply wseq_extends_trans; [done| |done]. by apply wseq_extends_store.
  - split; intros Hs; [lia|]. destruct S1 as (w'&->&E); [lia|]. eauto.
Qed.

Lemma Writes_fields ws es : Forall2 Writes ws es -> Writes (write_fields ws) (concat es).
Proof.
  induction 1 as [|wr e ws es Hwr _ IH]; simpl; [apply Writes_nil|].
  by apply (Writes_seq _ _ (write_fields ws)).
Qed.

Lemma Reads_ret {A} (a : A) : Reads (fun s => inr (a, s)) a [].
Proof.
  split; [done|]. intros p q E Hq. destruct p; [by destruct q|done].
Qed.

Lemma Reads_bind {A B} (r1 : reader A) (r2 : A -> reader B) a b e1 e2 :
  Reads r1 a e1 -> Reads (r2 a) b e2 ->
  Reads (fun s => let! '(x, s) := r1 s in r2 x s) b (e1 ++ e2).
Proof.
  intros [R1 T1] [R2 T2]. split.
  - intros rest. rewrite <- app_assoc, R1. simpl. apply R2.
  - intros p q E Hq.
    destruct (app_eq_inv _ _ _ _ E) as [(k&Ek1&Ek2)|(k&Ek1&Ek2)].
    + destruct k as [|z k].
      * rewrite app_nil_r in Ek1. subst e1 q. simpl in E.
        pose proof (R1 []) as R. rewrite app_nil_r in R. rewrite R. simpl.
        by apply (T2 [] e2).
      * rewrite (T1 p (z :: k)) by done. done.
    + subst p. rewrite R1. simpl. by apply (T2 k q).
Qed.

Lemma Accepts_ret {A} (a : A) : Accepts (fun s => inr (a, s)) (fun x e => x = a /\ e = []).
Proof. intros s x rest _ [= <- <-]. by exists []. Qed.

Lemma Accepts_bind {A B} (r1 : reader A) (r2 : A -> reader B) P Q R :
  Accepts r1 P -> (forall a e1, P a e1 -> Accepts (r2 a) (Q a)) ->
  (forall a b e1 e2, P a e1 -> Q a b e2 -> R b (e1 ++ e2)) ->
  Accepts (fun s => let! '(x, s) := r1 s in r2 x s) R.
Proof.
  intros H1 H2 HR s b rest Hs Hr.
  apply rbind_inr in Hr as ([a s1]&Hr1&Hr2).
  destruct (H1 s a s1 Hs Hr1) as (e1&->&HP).
  apply Forall_app in Hs as [_ Hs1].
  destruct (H2 a e1 HP s1 b rest Hs1 Hr2) as (e2&->&HQ).
  exists (e1 ++ e2). rewrite app_assoc. eauto.
Qed.

Lemma Accepts_impl {A} (rd : reader A) (P Q : A -> bytes -> Prop) :
  Accepts rd P -> (forall a e, P a e -> Q a e) -> Accepts rd Q.
Proof. intros H HPQ s a rest Hs Hr. destruct (H s a rest Hs Hr) as (e&?&?). eauto. Qed.

Lemma sum_sizes_acc n l : sum_sizes n l = n + sum_sizes 0 l.
Proof.
  revert n; induction l as [|x l IH]; intros n; cbn [sum_sizes]; [lia|].
  rewrite (IH (n + x)), (IH (0 + x)). lia.
Qed.
End Combinators.

(** ** VLength *)

(** The encoding [VLength::write] produces: one byte up to 127, otherwise the
    count of value bytes with the top bit set, then the value. *)
Definition VLength_enc (v : Z) : bytes :=
  let n := VLength_num_values_bytes v in
  if n =? 0 then [v] else (128 + n) :: be_bytes (Z.to_nat n) v.

Ltac vlen_cases v :=
  unfold VLength_enc, VLength_write, VLength_num_values_bytes, max_one_byte_value,
    max_four_byte_value, max_u8, max_u16 in *;
  destruct (v <=? 127) eqn:?; [|destruct (v <=? 255) eqn:?;
    [|destruct (v <=? 65535) eqn:?; [|destruct (v <=? 16777215) eqn:?]]];
  btests; simpl Z.eqb in *; cbv iota in *.

Section VLengthFacts.
Context `{SER : Ser4cpp}.

Lemma Writes_put b v : b = u8 v -> Writes (fun w => stored w (wseq_put w v)) [b].
Proof.
  intros -> w Hw. change (zlen [u8 v]) with 1. split; intros H.
  - by rewrite wseq_put_ok.
  - rewrite wseq_put_short by done. exists w. split; [done|]. by apply wseq_extends_refl.
Qed.

Lemma Writes_int t v : int_ok t v ->
  Writes (fun w => stored w (write_to t w v)) (be_bytes (int_bytes t) v).
Proof.
  intros Hv w Hw. rewrite zlen_be_bytes. fold (int_size t). split; intros H.
  - by rewrite write_to_ok.
  - rewrite write_to_short by done. exists w. split; [done|]. by apply wseq_extends_refl.
Qed.

Lemma Writes_put_then b v (wr : writer) e : b = u8 v -> Writes wr e ->
  Writes (fun w => match wseq_put w v with
                   | None => (FormatError_insufficient_space, w)
                   | Some w => wr w end) (b :: e).
Proof.
  intros Hb Hwr.
  pose proof (Writes_seq _ _ wr e (Writes_put b v Hb) Hwr) as H.
  intros w Hw. specialize (H w Hw). simpl app in H. cbv beta in H.
  destruct (wseq_put w v); exact H.
Qed.

Lemma be_bytes_3 v : 0 <= v < 2 ^ 24 ->
  be_bytes 3 v = u8 (Z.land (Z.shiftr v 16) 0xff) :: be_bytes 2 (u16 (Z.land v 0xffff)).
Proof.
  intros Hv. change 0xff with (Z.ones 8). change 0xffff with (Z.ones 16).
  rewrite !Z.land_ones, Z.shiftr_div_pow2 by lia. unfold u8, u16.
  rewrite !Z.mod_mod by lia.
  change (2 ^ 16) with 65536. change (2 ^ 8) with 256. change (2 ^ 24) with 16777216 in Hv.
  assert (v / 256 / 256 mod 256 = v / 65536 mod 256) as E1 by (rewrite Z.div_div; done).
  assert (v / 256 mod 256 = v mod 65536 / 256 mod 256) as E2.
  { rewrite <- (Z.mod_mod (v / 256) 256) by lia. f_equal.
    change 65536 with (256 * 256). rewrite Z.rem_mul_r by lia.
    rewrite Z.mul_comm, Z.div_add, (Z.div_small (v mod 256)); [lia| |lia].
    apply Z.mod_pos_bound. lia. }
  assert (v mod 256 = v mod 65536 mod 256) as E3.
  { change 65536 with (256 * 256). rewrite Z.rem_mul_r by lia.
    rewrite Z.mul_comm, Z_mod_plus_full, Z.mod_mod by lia. done. }
  unfold be_bytes. simpl. by rewrite E1, E2, E3.
Qed.

Lemma VLength_writes v : is_u32 v -> Writes (VLength_write v) (VLength_enc v).
Proof.
  unfold is_u32, max_u32. intros Hv. vlen_cases v.
  - apply Writes_put. unfold u8. rewrite Z.mod_small; lia.
  - apply Writes_put_then; [done|]. rewrite be_bytes_1 by (unfold is_byte; lia).
    apply Writes_put. unfold u8. rewrite Z.mod_small; lia.
  - apply Writes_put_then; [done|].
    replace (u16 v) with v by (unfold u16; rewrite Z.mod_small; lia).
    apply (Writes_int UInt16), int_ok_u16. unfold is_u16, max_u16. lia.
  - apply Writes_put_then; [done|]. change (Z.to_nat 3) with 3%nat. rewrite be_bytes_3 by lia.
    apply Writes_put_then; [unfold u8; by rewrite Z.mod_mod|].
    apply (Writes_int UInt16), int_ok_u16. unfold is_u16, max_u16, u16.
    pose proof (Z.mod_pos_bound (Z.land v 0xffff) (2 ^ 16)). lia.
  - apply Writes_put_then; [done|]. by apply (Writes_int UInt32), int_ok_u32.
Qed.

Lemma VLength_size_enc v : VLength_size v = zlen (VLength_enc v).
Proof. unfold VLength_size. vlen_cases v; done. Qed.

Lemma VLength_enc_bytes v : is_u32 v -> all_bytes (VLength_enc v).
Proof.
  unfold is_u32, max_u32. intros Hv.
  vlen_cases v; apply Forall_cons; (split; [unfold is_byte; lia|]);
    try apply be_bytes_bytes; constructor.
Qed.

Lemma read_byte b rest : is_byte b -> read_from UInt8 (b :: rest) = Some (b, rest).
Proof.
  intros Hb. rewrite <- (read_from_encoded UInt8 b rest) by exact Hb.
  by rewrite be_bytes_1.
Qed.

Lemma read_byte_nil : read_from UInt8 [] = None.
Proof. by apply read_from_short. Qed.

(** The loop accumulates the big-endian value of the next [length l] bytes. *)
Lemma VLength_read_loop_ok l ret rest :
  all_bytes l -> 0 <= ret -> (ret + 1) * 256 ^ zlen l <= 2 ^ 32 ->
  VLength_read_loop (length l) ret (l ++ rest) =
    inr (ret * 256 ^ zlen l + be_value l, rest).
Proof.
  intros Hl. revert ret. induction Hl as [|b l Hb Hl IH]; intros ret Hr Hlim.
  { simpl. change (zlen (@nil Z)) with 0. change (be_value []) with 0.
    rewrite Z.mul_1_r, Z.add_0_r. done. }
  cbn [length VLength_read_loop app]. rewrite read_byte by done.
  rewrite zlen_cons, Z.pow_add_r in * by auto with lia ssp21.
  change (256 ^ 1) with 256 in *.
  assert (1 <= 256 ^ zlen l).
  { pose proof (zlen_nonneg l). pose proof (Z.pow_pos_nonneg 256 (zlen l)). lia. }
  unfold u32. rewrite Z.shiftl_mul_pow2 by lia. change (2 ^ 8) with 256.
  rewrite Z.mod_small by nia. rewrite lor_shift_byte by done.
  unfold is_byte in Hb. rewrite IH by nia. rewrite be_value_cons. do 2 f_equal. ring.
Qed.

Lemma VLength_read_loop_short n s ret :
  all_bytes s -> (length s < n)%nat ->
  VLength_read_loop n ret s = inl ParseError_insufficient_bytes.
Proof.
  intros Hs. revert n ret. induction Hs as [|b s Hb Hs IH]; intros [|n] ret Hn;
    simpl in Hn; try lia; cbn [VLength_read_loop].
  - by rewrite read_byte_nil.
  - rewrite read_byte by done. apply IH. lia.
Qed.

Lemma top_bit_clear b : is_byte b -> (Z.land b top_bit_mask =? 0) = (b <? 128).
Proof.
  intros Hb. apply Bool.eqb_prop. revert b Hb. apply byte_cases. by vm_compute.
Qed.

Lemma bottom_bits b : is_byte b -> 128 <= b -> Z.land b bottom_bits_mask = b - 128.
Proof.
  intros Hb Hl.
  assert ((Z.land b bottom_bits_mask =? b - 128) || (b <? 128) = true) as H
    by (clear Hl; revert b Hb; apply byte_cases; by vm_compute).
  apply orb_true_iff in H as [H|H]; btests; lia.
Qed.
End VLengthFacts.

Section FieldFacts.
Context `{SER : Ser4cpp}.

(** A count byte of the long form. *)
Lemma VLength_read_long n s :
  1 <= n <= 4 -> all_bytes s ->
  VLength_read ((128 + n) :: s) =
    (let! '(ret, src) := VLength_read_loop (Z.to_nat n) 0 s in
     if negb (VLength_num_values_bytes ret =? n) then inl ParseError_bad_vlength
     else inr (ret, src)).
Proof.
  intros Hn Hs. assert (is_byte (128 + n)) by (unfold is_byte; lia).
  unfold VLength_read. rewrite read_byte, top_bit_clear, bottom_bits by (done || lia).
  destruct (128 + n <? 128) eqn:E; btests; [lia|].
  replace (128 + n - 128) with n by lia.
  destruct (n <? 1) eqn:?; btests; [lia|]. destruct (4 <? n) eqn:?; btests; [lia|]. done.
Qed.

Lemma be_value_n n v :
  is_u32 v -> VLength_num_values_bytes v = n -> 1 <= n ->
  be_value (be_bytes (Z.to_nat n) v) = v.
Proof.
  unfold is_u32, max_u32. intros Hv Hn H1.
  apply be_value_bytes. rewrite Z2Nat.id by lia. vlen_cases v; subst n; lia.
Qed.

Lemma VLength_num_range v : 0 <= VLength_num_values_bytes v <= 4.
Proof. vlen_cases v; lia. Qed.

Lemma VLength_read_prefix n p :
  1 <= n <= 4 -> all_bytes p -> zlen p < n ->
  VLength_read ((128 + n) :: p) = inl ParseError_insufficient_bytes.
Proof.
  intros Hn Hp Hl. rewrite VLength_read_long by done.
  by rewrite VLength_read_loop_short by (done || zlia).
Qed.

Lemma VLength_reads v : is_u32 v -> Reads VLength_read v (VLength_enc v).
Proof.
  intros Hv. pose proof (VLength_num_range v) as Hr.
  pose proof (VLength_enc_bytes v Hv) as Hb.
  unfold VLength_enc in *. set (n := VLength_num_values_bytes v) in *.
  destruct (n =? 0) eqn:En; btests.
  - assert (v <= 127) by (subst n; vlen_cases v; lia). split.
    + intros rest. apply Forall_inv in Hb. unfold is_u32 in Hv. simpl app.
      unfold VLength_read. rewrite read_byte, top_bit_clear by done.
      by destruct (v <? 128) eqn:?; btests; [|lia].
    + intros [|b p] q E Hq.
      * unfold VLength_read. by rewrite read_byte_nil.
      * injection E as _ E. destruct p; [by destruct q|done].
  - split.
    + intros rest. simpl app.
      assert (is_byte (128 + n)) by (unfold is_byte; lia).
      unfold VLength_read. rewrite read_byte, top_bit_clear, bottom_bits by (done || lia).
      destruct (128 + n <? 128) eqn:E; btests; [lia|].
      replace (128 + n - 128) with n by lia.
      destruct (n <? 1) eqn:?; btests; [lia|]. destruct (4 <? n) eqn:?; btests; [lia|].
      simpl orb. cbv iota.
      pose proof (VLength_read_loop_ok (be_bytes (Z.to_nat n) v) 0 rest) as L.
      rewrite be_bytes_length in L. rewrite L.
      2: apply be_bytes_bytes. 2: lia.
      2: { rewrite zlen_be_bytes, Z2Nat.id by lia.
           assert (n = 1 \/ n = 2 \/ n = 3 \/ n = 4) as [->| [->| [->| ->]]] by lia; done. }
      simpl rbind. rewrite Z.add_0_l, be_value_n by (done || lia).
      fold n. by rewrite Z.eqb_refl.
    + intros [|b p] q E Hq.
      * unfold VLength_read. by rewrite read_byte_nil.
      * injection E as <- E. apply Forall_inv_tail in Hb. rewrite E in Hb.
        apply Forall_app in Hb as [Hp _].
        apply VLength_read_prefix; [lia|done|].
        apply (f_equal zlen) in E. rewrite zlen_be_bytes, zlen_app in E.
        destruct q; [done|]. rewrite zlen_cons in E. pose proof (zlen_nonneg q). lia.
Qed.

Lemma VLength_read_loop_inv n s ret v rest :
  all_bytes s -> VLength_read_loop n ret s = inr (v, rest) ->
  exists l, s = l ++ rest /\ length l = n.
Proof.
  revert s ret. induction n as [|n IH]; intros s ret Hs Hr; cbn [VLength_read_loop] in Hr.
  - injection Hr as <- <-. by exists [].
  - destruct (read_from UInt8 s) as [[b s']|] eqn:E; [|done].
    apply read_from_inv in E as (_&Hs'&->); [|done].
    apply IH in Hr as (l&->&<-); [|done].
    exists (be_bytes (int_bytes UInt8) b ++ l). rewrite <- app_assoc. split; [done|].
    by rewrite length_app, be_bytes_length.
Qed.

Lemma VLength_accepts : Accepts VLength_read (fun v e => is_u32 v /\ e = VLength_enc v).
Proof.
  intros s v rest Hs Hr. unfold VLength_read in Hr.
  destruct (read_from UInt8 s) as [[b s']|] eqn:E; [|done].
  apply read_from_inv in E as (Hb&Hs'&->); [|done].
  apply int_ok_u8 in Hb. assert (is_byte b) as Hb' by (unfold is_u8, max_u8, is_byte in *; lia).
  simpl int_bytes in *. rewrite be_bytes_1 in * by done.
  rewrite top_bit_clear in Hr by done.
  destruct (b <? 128) eqn:E; btests.
  - injection Hr as <- <-. exists [b]. split; [done|].
    unfold is_byte, is_u32, max_u32 in *. split; [lia|]. vlen_cases b; done || lia.
  - rewrite bottom_bits in Hr by done.
    destruct (b - 128 <? 1) eqn:?; [done|]. destruct (4 <? b - 128) eqn:?; [done|]. btests.
    simpl orb in Hr. cbv iota in Hr.
    apply rbind_inr in Hr as ([ret src]&Hl&Hr).
    destruct (VLength_num_values_bytes ret =? b - 128) eqn:En; [|done]. btests.
    injection Hr as <- <-.
    destruct (VLength_read_loop_inv _ _ _ _ _ Hs' Hl) as (l&->&El).
    apply Forall_app in Hs' as [Hbl _].
    assert (zlen l = b - 128) as Ezl by (unfold zlen; lia).
    rewrite <- El, VLength_read_loop_ok in Hl; [|done|lia|].
    2: { rewrite Ezl.
         assert (b - 128 = 1 \/ b - 128 = 2 \/ b - 128 = 3 \/ b - 128 = 4)
           as [->| [->| [->| ->]]] by lia; done. }
    injection Hl as Hret. rewrite Z.add_0_l in Hret.
    pose proof (be_value_range l Hbl) as Hrange.
    assert (256 ^ zlen l <= 2 ^ 32) as Hlim.
    { change (2 ^ 32) with (256 ^ 4). apply Z.pow_le_mono_r; lia. }
    exists (b :: l). split; [done|]. unfold is_u32, max_u32. split; [lia|].
    unfold VLength_enc. rewrite En.
    destruct (b - 128 =? 0) eqn:?; btests; [lia|].
    f_equal; [lia|]. rewrite <- El, <- Hret. by rewrite be_bytes_value.
Qed.

(** ** Fields *)

#[export] Instance IntegerField_lawful t :
  Lawful (IntegerField t) (be_bytes (int_bytes t)) (int_ok t).
Proof.
  split; simpl.
  - intros. apply be_bytes_bytes.
  - intros. by rewrite zlen_be_bytes.
  - intros. by apply Writes_int.
  - intros v Hv. unfold IntegerField_read. split.
    + intros rest. by rewrite read_from_encoded.
    + intros p q E Hq. rewrite read_from_short; [done|].
      apply (f_equal zlen) in E. rewrite zlen_be_bytes, zlen_app in E.
      destruct q as [|z q]; [done|]. rewrite zlen_cons in E. pose proof (zlen_nonneg q).
      unfold int_size. lia.
  - intros s v rest Hs. unfold IntegerField_read.
    destruct (read_from t s) as [[v' s']|] eqn:E; [|done]. intros [= -> ->].
    apply read_from_inv in E as (Hv&_&->); [|done]. eauto.
Qed.

Lemma BigEndian_read_1 t s :
  BigEndian_read [t] s = match read_from t s with
                         | Some (v, s') => Some ([v], s') | None => None end.
Proof.
  rewrite BigEndian_read_cons. destruct (read_from t s) as [[v s']|]; [|done].
  by rewrite BigEndian_read_nil.
Qed.

Lemma BigEndian_write_1 w t v : BigEndian_write w [(t, v)] = write_to t w v.
Proof.
  rewrite BigEndian_write_cons. destruct (write_to t w v); [|done].
  apply BigEndian_write_nil.
Qed.

#[export] Instance EnumField_lawful E `{!EqDecision E, !EnumSpec E, !EnumSpecOk E} :
  Lawful (EnumField E) (fun e => [to_type e]) (fun e => e <> undefined).
Proof.
  split; simpl.
  - intros e _. constructor; [apply to_type_u8|constructor].
  - done.
  - intros e _. pose proof (to_type_u8 e) as He. rewrite <- be_bytes_1 by done.
    unfold EnumField_write. intros w Hw. rewrite BigEndian_write_1. revert w Hw.
    apply (Writes_int UInt8). exact He.
  - intros e He. unfold EnumField_read. split.
    + intros rest. simpl app. rewrite BigEndian_read_1, read_byte by apply to_type_u8.
      rewrite from_to_type. by rewrite bool_decide_eq_false_2.
    + intros p q Eq Hq. destruct p as [|b p].
      * by rewrite BigEndian_read_1, read_byte_nil.
      * injection Eq as _ Eq. destruct p; [by destruct q|done].
  - intros s e rest Hs. unfold EnumField_read. rewrite BigEndian_read_1.
    destruct (read_from UInt8 s) as [[v s']|] eqn:Er; [|done].
    apply read_from_inv in Er as (Hv&_&->); [|done].
    case_bool_decide as Hu; [done|]. intros [= <- <-].
    assert (is_byte v) as Hb by exact Hv.
    exists [v]. simpl int_bytes. rewrite be_bytes_1 by done. split; [done|].
    split; [done|]. by rewrite to_from_type.
Qed.

Definition SeqByteField_enc (value : bytes) : bytes := VLength_enc (zlen value) ++ value.
Definition SeqByteField_ok (value : bytes) : Prop := all_bytes value /\ is_u32 (zlen value).

Lemma Writes_copy value : Writes (fun dest =>
  if wseq_length dest <? zlen value then (FormatError_insufficient_space, dest)
  else (FormatError_ok, wseq_copy_from dest value)) value.
Proof.
  intros w Hw. split; intros H.
  - destruct (_ <? _) eqn:?; btests; [lia|]. by rewrite wseq_copy_from_spec.
  - destruct (_ <? _) eqn:?; btests; [|lia]. exists w. split; [done|].
    by apply wseq_extends_refl.
Qed.

Lemma Reads_take value :
  Reads (fun input => if zlen input <? zlen value then inl ParseError_insufficient_bytes
                      else inr (seq_take input (zlen value), seq_skip input (zlen value)))
    value value.
Proof.
  pose proof (zlen_nonneg value). split.
  - intros rest. pose proof (zlen_nonneg rest). rewrite zlen_app.
    destruct (_ <? _) eqn:?; btests; [lia|].
    by rewrite seq_take_spec, seq_skip_spec, ztake_app_exact, zdrop_app_exact.
  - intros p q E Hq. destruct (_ <? _) eqn:Hl; btests; [done|].
    rewrite E, zlen_app in Hl. destruct q; [done|].
    rewrite zlen_cons in Hl. pose proof (zlen_nonneg q). lia.
Qed.

#[export] Instance SeqByteField_lawful : Lawful SeqByteField SeqByteField_enc SeqByteField_ok.
Proof.
  split; simpl; unfold SeqByteField_enc, SeqByteField_ok.
  - intros v [Hb Hl]. apply Forall_app. split; [by apply VLength_enc_bytes|done].
  - intros v _. unfold SeqByteField_size. by rewrite VLength_size_enc, zlen_app.
  - intros v [_ Hl]. apply (Writes_seq _ _ _ _ (VLength_writes _ Hl) (Writes_copy v)).
  - intros v [_ Hl].
    apply (Reads_bind _ (fun length input => _) (zlen v) v); [by apply VLength_reads|].
    apply Reads_take.
  - apply (Accepts_bind _ (fun length input => _) _
             (fun len v e => zlen v = len /\ all_bytes v /\ e = v) _ VLength_accepts).
    + intros len e1 [[Hpos _] _] s v rest Hs.
      destruct (zlen s <? len) eqn:Hl; [done|]. btests.
      rewrite seq_take_spec, seq_skip_spec by done. intros [= <- <-].
      exists (ztake len s). rewrite ztake_zdrop. split; [done|].
      rewrite zlen_ztake by done. split; [lia|]. split; [|done]. by apply Forall_ztake.
    + intros len v e1 e2 [Hu ->] (<-&Hb&->). done.
Qed.

(** ** Sequences of structs *)

Section SeqStruct.
Context {A : Type} (item : field A) (enc : A -> bytes) (ok : A -> Prop).
Context `{HI : !Lawful item enc ok} (max_count : Z) (Hmax : is_u32 max_count).

Definition SeqStructField_enc (items : list A) : bytes :=
  VLength_enc (zlen items) ++ concat (map enc items).
Definition SeqStructField_ok (items : list A) : Prop :=
  Forall ok items /\ zlen items <= max_count.

Lemma SeqStructField_push_ok (items : list A) x :
  zlen items < max_count -> SeqStructField_push max_count items x = Some (items ++ [x]).
Proof.
  intros H. unfold SeqStructField_push. destruct (_ =? _) eqn:?; btests; [lia|done].
Qed.

Lemma SeqStructField_loop_reads todo items :
  Forall ok todo -> zlen items + zlen todo <= max_count ->
  Reads (SeqStructField_read_loop max_count item (length todo) items)
    (items ++ todo) (concat (map enc todo)).
Proof.
  intros Hok. revert items. induction Hok as [|x todo Hx _ IH]; intros items Hl.
  - rewrite app_nil_r. apply Reads_ret.
  - rewrite zlen_cons in Hl. pose proof (zlen_nonneg todo).
    apply (Reads_bind _ (fun y input => _) x).
    + by apply (lawful_reads (f := item)).
    + rewrite SeqStructField_push_ok by lia.
      replace (items ++ x :: todo) with ((items ++ [x]) ++ todo) by by rewrite <- app_assoc.
      apply IH. rewrite zlen_app. change (zlen [x]) with 1. lia.
Qed.

(** [l] is [items] followed by [n] more items decoded from [e]. *)
Definition pushed (items : list A) (n : nat) (l : list A) (e : bytes) : Prop :=
  exists todo, l = items ++ todo /\ length todo = n /\ Forall ok todo /\
    zlen l <= max_count /\ e = concat (map enc todo).

Lemma SeqStructField_loop_accepts n items :
  zlen items <= max_count ->
  Accepts (SeqStructField_read_loop max_count item n items) (pushed items n).
Proof.
  revert items. induction n as [|n IH]; intros items Hl.
  - eapply Accepts_impl; [apply Accepts_ret|]. intros l e [-> ->].
    exists []. by rewrite app_nil_r.
  - apply (Accepts_bind _ (fun y input => _) _
      (fun x => pushed (items ++ [x]) n) _
      (lawful_accepts (f := item))).
    + intros x e1 _. unfold SeqStructField_push.
      destruct (zlen items =? max_count) eqn:E; [by intros ???|]. btests.
      apply IH. rewrite zlen_app. change (zlen [x]) with 1. lia.
    + intros x l e1 e2 [Hx ->] (todo&->&<-&Hok&Hle&->).
      exists (x :: todo). rewrite <- app_assoc in *. simpl. auto.
Qed.

Lemma Writes_items items :
  Forall ok items -> Writes (write_fields (map (f_write item) items)) (concat (map enc items)).
Proof.
  intros Hok. apply Writes_fields. induction Hok; simpl; constructor; [|done].
  by apply (lawful_writes (f := item)).
Qed.

Lemma sum_sizes_items items :
  Forall ok items -> sum_sizes 0 (map (f_size item) items) = zlen (concat (map enc items)).
Proof.
  induction 1 as [|x items Hx _ IH]; [done|].
  cbn [map sum_sizes concat]. rewrite sum_sizes_acc, IH, zlen_app.
  rewrite (lawful_size (f := item)) by done. lia.
Qed.

#[export] Instance SeqStructField_lawful :
  Lawful (SeqStructField item max_count) SeqStructField_enc SeqStructField_ok.
Proof.
  unfold is_u32 in Hmax.
  split; simpl; unfold SeqStructField_enc, SeqStructField_ok.
  - intros l [Hok Hl]. pose proof (zlen_nonneg l).
    apply Forall_app. split; [apply VLength_enc_bytes; unfold is_u32; lia|].
    clear Hl. induction Hok; simpl; [constructor|]. apply Forall_app.
    split; [by eapply (lawful_bytes (f := item))|]. apply IHHok, zlen_nonneg.
  - intros l [Hok _]. unfold SeqStructField_size.
    by rewrite VLength_size_enc, zlen_app, sum_sizes_items.
  - intros l [Hok Hl]. pose proof (zlen_nonneg l).
    apply (Writes_seq _ _ (write_fields _)); [|by apply Writes_items].
    apply VLength_writes. unfold is_u32. lia.
  - intros l [Hok Hl]. pose proof (zlen_nonneg l).
    apply (Reads_bind _ (fun count input => _) (zlen l)).
    + apply VLength_reads. unfold is_u32. lia.
    + unfold zlen at 1. rewrite Nat2Z.id. by apply SeqStructField_loop_reads.
  - apply (Accepts_bind _ (fun count input => _) _
             (fun count => pushed [] (Z.to_nat count)) _ VLength_accepts).
    + intros count e1 _. apply SeqStructField_loop_accepts. rewrite zlen_nil. lia.
    + intros count l e1 e2 [Hc ->] (todo&->&El&Hok&Hle&->). simpl app in *.
      split; [done|]. do 2 f_equal. unfold is_u32, zlen in *. lia.
Qed.
End SeqStruct.
End FieldFacts.

(** ** Messages

    A top-level message type: its function code and its operations. *)
Record message (A : Type) := Message {
  m_function : Function;
  m_read : bytes -> ParseError + A;
  m_write : A -> wseq -> FormatResult * wseq;
  m_size : A -> Z;
}.
Arguments Message {A} _ _ _ _.
Arguments m_function {A} _.
Arguments m_read {A} _ _.
Arguments m_write {A} _ _ _.
Arguments m_size {A} _ _.

(** The contract of a message: [enc] is the whole message, function byte
    included. *)
Class LawfulMessage {A} (m : message A) (enc : A -> bytes) (ok : A -> Prop) : Prop := {
  msg_bytes a : ok a -> all_bytes (enc a);
  msg_function a : ok a -> exists body, enc a = to_type (m_function m) :: body;
  msg_size a : ok a -> m_size m a = zlen (enc a);
  msg_write_fits a w :
    ok a -> wseq_ok w -> zlen (enc a) <= max_u32 -> zlen (enc a) <= wseq_length w ->
    m_write m a w = (mkFormatResult FormatError_ok (enc a), wseq_store w (enc a));
  msg_write_short a w :
    ok a -> wseq_ok w -> wseq_length w < zlen (enc a) ->
    exists w', m_write m a w = (mkFormatResult FormatError_insufficient_space [], w') /\
      wseq_extends w w';
  msg_read_enc a : ok a -> m_read m (enc a) = inr a;
  msg_read_truncated a p q :
    ok a -> enc a = p ++ q -> q <> [] -> m_read m p = inl ParseError_insufficient_bytes;
  msg_read_trailing a z rest :
    ok a -> m_read m (enc a ++ z :: rest) = inl ParseError_too_many_bytes;
  msg_read_accepts s a : all_bytes s -> m_read m s = inr a -> ok a /\ s = enc a;
}.

Section MessageFacts.
Context `{SER : Ser4cpp}.
Context {A : Type} (function : Function) (Hf : function <> Function_undefined).
Context (rd : reader A) (wr : A -> writer) (sz : A -> Z) (body : A -> bytes) (ok : A -> Prop).
Context (Hbytes : forall a, ok a -> all_bytes (body a)).
Context (Hsize : forall a, ok a -> sz a = 1 + zlen (body a)).
Context (Hwrites : forall a, ok a -> Writes (wr a) (body a)).
Context (Hreads : forall a, ok a -> Reads rd a (body a)).
Context (Haccepts : Accepts rd (fun a e => ok a /\ e = body a)).

Local Abbreviation func_byte := (to_type function).

Lemma func_reads : Reads (EnumField_read (E := Function)) function [func_byte].
Proof. exact (@lawful_reads _ _ _ _ (EnumField_lawful Function) function Hf). Qed.

Lemma func_writes : Writes (EnumField_write function) [func_byte].
Proof. exact (@lawful_writes _ _ _ _ (EnumField_lawful Function) function Hf). Qed.

Lemma read_message_after s :
  read_message (func_byte :: s) function rd =
    (let! '(msg, copy) := rd s in
     if is_nil copy then inr msg else inl ParseError_too_many_bytes).
Proof.
  unfold read_message. change (func_byte :: s) with ([func_byte] ++ s).
  rewrite (proj1 func_reads). simpl. by rewrite bool_decide_eq_false_2 by auto.
Qed.

Lemma write_message_fits a w :
  ok a -> wseq_ok w -> zlen (func_byte :: body a) <= max_u32 ->
  zlen (func_byte :: body a) <= wseq_length w ->
  write_message w function (wr a) =
    (mkFormatResult FormatError_ok (func_byte :: body a), wseq_store w (func_byte :: body a)).
Proof.
  intros Ha Hw Hmax Hl. pose proof (zlen_nonneg (body a)) as Hn.
  rewrite zlen_cons in Hmax, Hl. unfold max_u32 in Hmax.
  unfold write_message.
  rewrite (proj1 (func_writes w Hw)) by (change (zlen [func_byte]) with 1; lia).
  assert (wseq_ok (wseq_store w [func_byte])) as Hw1
    by (apply wseq_store_ok; [done|change (zlen [func_byte]) with 1; lia]).
  destruct (Hwrites a Ha _ Hw1) as [F _]. rewrite F.
  2: { rewrite wseq_store_length by (change (zlen [func_byte]) with 1; lia || done).
       change (zlen [func_byte]) with 1. lia. }
  rewrite wseq_store_app by (change (zlen [func_byte]) with 1; lia || done).
  simpl app. do 2 f_equal.
  rewrite wseq_store_length by (rewrite ?zlen_cons; lia || done).
  replace (wseq_length w - (wseq_length w - zlen (func_byte :: body a)))
    with (zlen (func_byte :: body a)) by lia.
  unfold u32. rewrite Z.mod_small, seq_take_spec by (rewrite ?zlen_cons; lia).
  unfold wseq_ok, wseq_length in *.
  apply overwrite_read; rewrite ?zlen_cons; lia.
Qed.

Lemma write_message_short a w :
  ok a -> wseq_ok w -> wseq_length w < zlen (func_byte :: body a) ->
  exists w', write_message w function (wr a) =
    (mkFormatResult FormatError_insufficient_space [], w') /\ wseq_extends w w'.
Proof.
  intros Ha Hw Hl. rewrite zlen_cons in Hl. unfold write_message.
  destruct (func_writes w Hw) as [F1 S1]. change (zlen [func_byte]) with 1 in *.
  destruct (decide (1 <= wseq_length w)) as [H1|H1].
  - rewrite F1 by done.
    assert (wseq_ok (wseq_store w [func_byte])) as Hw1 by by apply wseq_store_ok.
    destruct (Hwrites a Ha _ Hw1) as [_ S2].
    rewrite wseq_store_length in S2 by done. change (zlen [func_byte]) with 1 in S2.
    destruct S2 as (w'&->&E); [lia|]. exists w'. split; [done|].
    eapply wseq_extends_trans; [done| |done]. by apply wseq_extends_store.
  - destruct S1 as (w'&->&E); [lia|]. eauto.
Qed.

Lemma read_message_truncated a p q :
  ok a -> func_byte :: body a = p ++ q -> q <> [] ->
  read_message p function rd = inl ParseError_insufficient_bytes.
Proof.
  intros Ha E Hq. destruct p as [|b p].
  - unfold read_message. by rewrite (proj2 func_reads [] [func_byte]).
  - injection E as <- E. rewrite read_message_after.
    by rewrite (proj2 (Hreads a Ha) p q).
Qed.

Lemma read_message_accepts s a :
  all_bytes s -> read_message s function rd = inr a -> ok a /\ s = func_byte :: body a.
Proof.
  intros Hs Hr. unfold read_message in Hr.
  apply rbind_inr in Hr as ([f copy]&Hr1&Hr).
  destruct (@lawful_accepts _ _ _ _ (EnumField_lawful Function) s f copy Hs Hr1) as (e1&->&_&->).
  case_bool_decide as Ef; [done|]. subst f.
  apply rbind_inr in Hr as ([msg rest]&Hr2&Hr).
  apply Forall_app in Hs as [_ Hs].
  destruct (Haccepts copy msg rest Hs Hr2) as (e2&->&Hok&->).
  destruct rest; [|done]. injection Hr as ->. by rewrite app_nil_r.
Qed.

Lemma lawful_message :
  LawfulMessage (Message function (fun s => read_message s function rd)
                   (fun a w => write_message w function (wr a)) sz)
    (fun a => func_byte :: body a) ok.
Proof.
  split; cbn [m_function m_read m_write m_size].
  - intros a Ha. constructor; [apply (to_type_u8 function)|auto].
  - eauto.
  - intros a Ha. rewrite Hsize, zlen_cons by done. done.
  - apply write_message_fits.
  - apply write_message_short.
  - intros a Ha. rewrite read_message_after.
    pose proof (proj1 (Hreads a Ha) []) as E. rewrite app_nil_r in E. by rewrite E.
  - apply read_message_truncated.
  - intros a z rest Ha. simpl app. rewrite read_message_after.
    by rewrite (proj1 (Hreads a Ha)).
  - apply read_message_accepts.
Qed.
End MessageFacts.
