(* ===== verification/Messages.v ===== *)
(** * Messages and certificate structures

    The generated structs of [crypto/gen]: for each one the record of its
    fields and its [read], [write], [size] and [read_all]; for each top-level
    message [read] (which checks the function code and that all input is
    consumed) and [write].  The second part gives the wire encoding of every
    struct and shows that the generated operations implement it. *)

From stdpp Require Import base numbers list strings.
From Stdlib Require Import Lia ZArith.
From S2P Require Import Prelude Ser4cpp Enums Codec.

(** [struct AuthMetadata] *)
Record AuthMetadata := mkAuthMetadata {
  am_nonce : Z;
  am_valid_until_ms : Z;
}.

Definition AuthMetadata_read `{SER : Ser4cpp} (input : bytes) : ParseError + (AuthMetadata * bytes) :=
  let! '(nonce, input) := f_read (IntegerField UInt16) input in
  let! '(valid_until_ms, input) := f_read (IntegerField UInt32) input in
  inr (mkAuthMetadata nonce valid_until_ms, input).

Definition AuthMetadata_write `{SER : Ser4cpp} (m : AuthMetadata) (output : wseq) : FormatError * wseq :=
  write_fields
    [f_write (IntegerField UInt16) (am_nonce m);
     f_write (IntegerField UInt32) (am_valid_until_ms m)] output.

Definition AuthMetadata_size `{SER : Ser4cpp} (m : AuthMetadata) : Z :=
  sum_sizes 0
    [f_size (IntegerField UInt16) (am_nonce m);
     f_size (IntegerField UInt32) (am_valid_until_ms m)].

Definition AuthMetadata_field `{SER : Ser4cpp} : field AuthMetadata :=
  Field AuthMetadata_read AuthMetadata_write AuthMetadata_size.

Definition AuthMetadata_read_all `{SER : Ser4cpp} (input : bytes) : ParseError + AuthMetadata :=
  let! '(m, remainder) := AuthMetadata_read input in
  if is_nil remainder then inr m else inl ParseError_too_many_bytes.

(** [struct CryptoSpec] *)
Record CryptoSpec := mkCryptoSpec {
  cs_handshake_ephemeral : HandshakeEphemeral;
  cs_handshake_hash : HandshakeHash;
  cs_handshake_kdf : HandshakeKDF;
  cs_session_nonce_mode : SessionNonceMode;
  cs_session_crypto_mode : SessionCryptoMode;
}.

Definition CryptoSpec_read `{SER : Ser4cpp} (input : bytes) : ParseError + (CryptoSpec * bytes) :=
  let! '(handshake_ephemeral, input) := f_read (EnumField HandshakeEphemeral) input in
  let! '(handshake_hash, input) := f_read (EnumField HandshakeHash) input in
  let! '(handshake_kdf, input) := f_read (EnumField HandshakeKDF) input in
  let! '(session_nonce_mode, input) := f_read (EnumField SessionNonceMode) input in
  let! '(session_crypto_mode, input) := f_read (EnumField SessionCryptoMode) input in
  inr (mkCryptoSpec handshake_ephemeral handshake_hash handshake_kdf session_nonce_mode session_crypto_mode, input).

Definition CryptoSpec_write `{SER : Ser4cpp} (m : CryptoSpec) (output : wseq) : FormatError * wseq :=
  write_fields
    [f_write (EnumField HandshakeEphemeral) (cs_handshake_ephemeral m);
     f_write (EnumField HandshakeHash) (cs_handshake_hash m);
     f_write (EnumField HandshakeKDF) (cs_handshake_kdf m);
     f_write (EnumField SessionNonceMode) (cs_session_nonce_mode m);
     f_write (EnumField SessionCryptoMode) (cs_session_crypto_mode m)] output.

Definition CryptoSpec_size `{SER : Ser4cpp} (m : CryptoSpec) : Z :=
  sum_sizes 0
    [f_size (EnumField HandshakeEphemeral) (cs_handshake_ephemeral m);
     f_size (EnumField HandshakeHash) (cs_handshake_hash m);
     f_size (EnumField HandshakeKDF) (cs_handshake_kdf m);
     f_size (EnumField SessionNonceMode) (cs_session_nonce_mode m);
     f_size (EnumField SessionCryptoMode) (cs_session_crypto_mode m)].

Definition CryptoSpec_field `{SER : Ser4cpp} : field CryptoSpec :=
  Field CryptoSpec_read CryptoSpec_write CryptoSpec_size.

Definition CryptoSpec_read_all `{SER : Ser4cpp} (input : bytes) : ParseError + CryptoSpec :=
  let! '(m, remainder) := CryptoSpec_read input in
  if is_nil remainder then inr m else inl ParseError_too_many_bytes.

(** [struct SessionConstraints] *)
Record SessionConstraints := mkSessionConstraints {
  sc_max_nonce : Z;
  sc_max_session_duration : Z;
}.

Definition SessionConstraints_read `{SER : Ser4cpp} (input : bytes) : ParseError + (SessionConstraints * bytes) :=
  let! '(max_nonce, input) := f_read (IntegerField UInt16) input in
  let! '(max_session_duration, input) := f_read (IntegerField UInt32) input in
  inr (mkSessionConstraints max_nonce max_session_duration, input).

Definition SessionConstraints_write `{SER : Ser4cpp} (m : SessionConstraints) (output : wseq) : FormatError * wseq :=
  write_fields
    [f_write (IntegerField UInt16) (sc_max_nonce m);
     f_write (IntegerField UInt32) (sc_max_session_duration m)] output.

Definition SessionConstraints_size `{SER : Ser4cpp} (m : SessionConstraints) : Z :=
  sum_sizes 0
    [f_size (IntegerField UInt16) (sc_max_nonce m);
     f_size (IntegerField UInt32) (sc_max_session_duration m)].

Definition SessionConstraints_field `{SER : Ser4cpp} : field SessionConstraints :=
  Field SessionConstraints_read SessionConstraints_write SessionConstraints_size.

Definition SessionConstraints_read_all `{SER : Ser4cpp} (input : bytes) : ParseError + SessionConstraints :=
  let! '(m, remainder) := SessionConstraints_read input in
  if is_nil remainder then inr m else inl ParseError_too_many_bytes.

(** [struct Version] *)
Record Version := mkVersion {
  v_major_version : Z;
  v_minor_version : Z;
}.

Definition Version_read `{SER : Ser4cpp} (input : bytes) : ParseError + (Version * bytes) :=
  let! '(major_version, input) := f_read (IntegerField UInt16) input in
  let! '(minor_version, input) := f_read (IntegerField UInt16) input in
  inr (mkVersion major_version minor_version, input).

Definition Version_write `{SER : Ser4cpp} (m : Version) (output : wseq) : FormatError * wseq :=
  write_fields
    [f_write (IntegerField UInt16) (v_major_version m);
     f_write (IntegerField UInt16) (v_minor_version m)] output.

Definition Version_size `{SER : Ser4cpp} (m : Version) : Z :=
  sum_sizes 0
    [f_size (IntegerField UInt16) (v_major_version m);
     f_size (IntegerField UInt16) (v_minor_version m)].

Definition Version_field `{SER : Ser4cpp} : field Version :=
  Field Version_read Version_write Version_size.

Definition Version_read_all `{SER : Ser4cpp} (input : bytes) : ParseError + Version :=
  let! '(m, remainder) := Version_read input in
  if is_nil remainder then inr m else inl ParseError_too_many_bytes.

(** [struct ExtensionEnvelope] *)
Record ExtensionEnvelope := mkExtensionEnvelope {
  ee_identifier : Z;
  ee_extension_body : bytes;
}.

Definition ExtensionEnvelope_read `{SER : Ser4cpp} (input : bytes) : ParseError + (ExtensionEnvelope * bytes) :=
  let! '(identifier, input) := f_read (IntegerField UInt32) input in
  let! '(extension_body, input) := f_read SeqByteField input in
  inr (mkExtensionEnvelope identifier extension_body, input).

Definition ExtensionEnvelope_write `{SER : Ser4cpp} (m : ExtensionEnvelope) (output : wseq) : FormatError * wseq :=
  write_fields
    [f_write (IntegerField UInt32) (ee_identifier m);
     f_write SeqByteField (ee_extension_body m)] output.

Definition ExtensionEnvelope_size `{SER : Ser4cpp} (m : ExtensionEnvelope) : Z :=
  sum_sizes 0
    [f_size (IntegerField UInt32) (ee_identifier m);
     f_size SeqByteField (ee_extension_body m)].

Definition ExtensionEnvelope_field `{SER : Ser4cpp} : field ExtensionEnvelope :=
  Field ExtensionEnvelope_read ExtensionEnvelope_write ExtensionEnvelope_size.

Definition ExtensionEnvelope_read_all `{SER : Ser4cpp} (input : bytes) : ParseError + ExtensionEnvelope :=
  let! '(m, remainder) := ExtensionEnvelope_read input in
  if is_nil remainder then inr m else inl ParseError_too_many_bytes.

(** [struct CertificateBody] *)
Record CertificateBody := mkCertificateBody {
  cb_valid_after : Z;
  cb_valid_before : Z;
  cb_signing_level : Z;
  cb_public_key_type : PublicKeyType;
  cb_public_key : bytes;
  cb_extensions : list ExtensionEnvelope;
}.

Definition CertificateBody_read `{SER : Ser4cpp} (input : bytes) : ParseError + (CertificateBody * bytes) :=
  let! '(valid_after, input) := f_read (IntegerField UInt64) input in
  let! '(valid_before, input) := f_read (IntegerField UInt64) input in
  let! '(signing_level, input) := f_read (IntegerField UInt8) input in
  let! '(public_key_type, input) := f_read (EnumField PublicKeyType) input in
  let! '(public_key, input) := f_read SeqByteField input in
  let! '(extensions, input) := f_read (SeqStructField ExtensionEnvelope_field 5) input in
  inr (mkCertificateBody valid_after valid_before signing_level public_key_type public_key extensions, input).

Definition CertificateBody_write `{SER : Ser4cpp} (m : CertificateBody) (output : wseq) : FormatError * wseq :=
  write_fields
    [f_write (IntegerField UInt64) (cb_valid_after m);
     f_write (IntegerField UInt64) (cb_valid_before m);
     f_write (IntegerField UInt8) (cb_signing_level m);
     f_write (EnumField PublicKeyType) (cb_public_key_type m);
     f_write SeqByteField (cb_public_key m);
     f_write (SeqStructField ExtensionEnvelope_field 5) (cb_extensions m)] output.

Definition CertificateBody_size `{SER : Ser4cpp} (m : CertificateBody) : Z :=
  sum_sizes 0
    [f_size (IntegerField UInt64) (cb_valid_after m);
     f_size (IntegerField UInt64) (cb_valid_before m);
     f_size (IntegerField UInt8) (cb_signing_level m);
     f_size (EnumField PublicKeyType) (cb_public_key_type m);
     f_size SeqByteField (cb_public_key m);
     f_size (SeqStructField ExtensionEnvelope_field 5) (cb_extensions m)].

Definition CertificateBody_field `{SER : Ser4cpp} : field CertificateBody :=
  Field CertificateBody_read CertificateBody_write CertificateBody_size.

Definition CertificateBody_read_all `{SER : Ser4cpp} (input : bytes) : ParseError + CertificateBody :=
  let! '(m, remainder) := CertificateBody_read input in
  if is_nil remainder then inr m else inl ParseError_too_many_bytes.

(** [struct CertificateEnvelope] *)
Record CertificateEnvelope := mkCertificateEnvelope {
  ce_signature : bytes;
  ce_certificate_body : bytes;
}.

Definition CertificateEnvelope_read `{SER : Ser4cpp} (input : bytes) : ParseError + (CertificateEnvelope * bytes) :=
  let! '(signature, input) := f_read SeqByteField input in
  let! '(certificate_body, input) := f_read SeqByteField input in
  inr (mkCertificateEnvelope signature certificate_body, input).

Definition CertificateEnvelope_write `{SER : Ser4cpp} (m : CertificateEnvelope) (output : wseq) : FormatError * wseq :=
  write_fields
    [f_write SeqByteField (ce_signature m);
     f_write SeqByteField (ce_certificate_body m)] output.

Definition CertificateEnvelope_size `{SER : Ser4cpp} (m : CertificateEnvelope) : Z :=
  sum_sizes 0
    [f_size SeqByteField (ce_signature m);
     f_size SeqByteField (ce_certificate_body m)].

Definition CertificateEnvelope_field `{SER : Ser4cpp} : field CertificateEnvelope :=
  Field CertificateEnvelope_read CertificateEnvelope_write CertificateEnvelope_size.

Definition CertificateEnvelope_read_all `{SER : Ser4cpp} (input : bytes) : ParseError + CertificateEnvelope :=
  let! '(m, remainder) := CertificateEnvelope_read input in
  if is_nil remainder then inr m else inl ParseError_too_many_bytes.

(** [struct CertificateChain] *)
Record CertificateChain := mkCertificateChain {
  cc_certificates : list CertificateEnvelope;
}.

Definition CertificateChain_read `{SER : Ser4cpp} (input : bytes) : ParseError + (CertificateChain * bytes) :=
  let! '(certificates, input) := f_read (SeqStructField CertificateEnvelope_field 6) input in
  inr (mkCertificateChain certificates, input).

Definition CertificateChain_write `{SER : Ser4cpp} (m : CertificateChain) (output : wseq) : FormatError * wseq :=
  write_fields
    [f_write (SeqStructField CertificateEnvelope_field 6) (cc_certificates m)] output.

Definition CertificateChain_size `{SER : Ser4cpp} (m : CertificateChain) : Z :=
  sum_sizes 0
    [f_size (SeqStructField CertificateEnvelope_field 6) (cc_certificates m)].

Definition CertificateChain_field `{SER : Ser4cpp} : field CertificateChain :=
  Field CertificateChain_read CertificateChain_write CertificateChain_size.

Definition CertificateChain_read_all `{SER : Ser4cpp} (input : bytes) : ParseError + CertificateChain :=
  let! '(m, remainder) := CertificateChain_read input in
  if is_nil remainder then inr m else inl ParseError_too_many_bytes.

(** [struct ContainerFile] *)
Record ContainerFile := mkContainerFile {
  cf_container_entry_type : ContainerEntryType;
  cf_payload : bytes;
}.

Definition ContainerFile_read `{SER : Ser4cpp} (input : bytes) : ParseError + (ContainerFile * bytes) :=
  let! '(container_entry_type, input) := f_read (EnumField ContainerEntryType) input in
  let! '(payload, input) := f_read SeqByteField input in
  inr (mkContainerFile container_entry_type payload, input).

Definition ContainerFile_write `{SER : Ser4cpp} (m : ContainerFile) (output : wseq) : FormatError * wseq :=
  write_fields
    [f_write (EnumField ContainerEntryType) (cf_container_entry_type m);
     f_write SeqByteField (cf_payload m)] output.

Definition ContainerFile_size `{SER : Ser4cpp} (m : ContainerFile) : Z :=
  sum_sizes 0
    [f_size (EnumField ContainerEntryType) (cf_container_entry_type m);
     f_size SeqByteField (cf_payload m)].

Definition ContainerFile_field `{SER : Ser4cpp} : field ContainerFile :=
  Field ContainerFile_read ContainerFile_write ContainerFile_size.

Definition ContainerFile_read_all `{SER : Ser4cpp} (input : bytes) : ParseError + ContainerFile :=
  let! '(m, remainder) := ContainerFile_read input in
  if is_nil remainder then inr m else inl ParseError_too_many_bytes.

(** [struct RequestHandshakeBegin] *)
Record RequestHandshakeBegin := mkRequestHandshakeBegin {
  req_version : Version;
  req_spec : CryptoSpec;
  req_constraints : SessionConstraints;
  req_handshake_mode : HandshakeMode;
  req_mode_ephemeral : bytes;
  req_mode_data : bytes;
}.

(** The [read_fields] lambda of [RequestHandshakeBegin::read]. *)
Definition RequestHandshakeBegin_read_fields `{SER : Ser4cpp} (input : bytes) : ParseError + (RequestHandshakeBegin * bytes) :=
  let! '(version, input) := f_read Version_field input in
  let! '(spec, input) := f_read CryptoSpec_field input in
  let! '(constraints, input) := f_read SessionConstraints_field input in
  let! '(handshake_mode, input) := f_read (EnumField HandshakeMode) input in
  let! '(mode_ephemeral, input) := f_read SeqByteField input in
  let! '(mode_data, input) := f_read SeqByteField input in
  inr (mkRequestHandshakeBegin version spec constraints handshake_mode mode_ephemeral mode_data, input).

Definition RequestHandshakeBegin_read `{SER : Ser4cpp} (input : bytes) : ParseError + RequestHandshakeBegin :=
  read_message input Function_request_handshake_begin RequestHandshakeBegin_read_fields.

(** The [write_fields] lambda of [RequestHandshakeBegin::write]. *)
Definition RequestHandshakeBegin_write_fields `{SER : Ser4cpp} (m : RequestHandshakeBegin) (output : wseq) : FormatError * wseq :=
  write_fields
    [f_write Version_field (req_version m);
     f_write CryptoSpec_field (req_spec m);
     f_write SessionConstraints_field (req_constraints m);
     f_write (EnumField HandshakeMode) (req_handshake_mode m);
     f_write SeqByteField (req_mode_ephemeral m);
     f_write SeqByteField (req_mode_data m)] output.

Definition RequestHandshakeBegin_write `{SER : Ser4cpp} (m : RequestHandshakeBegin) (output : wseq) : FormatResult * wseq :=
  write_message output Function_request_handshake_begin (RequestHandshakeBegin_write_fields m).

Definition RequestHandshakeBegin_size `{SER : Ser4cpp} (m : RequestHandshakeBegin) : Z :=
  sum_sizes 1
    [f_size Version_field (req_version m);
     f_size CryptoSpec_field (req_spec m);
     f_size SessionConstraints_field (req_constraints m);
     f_size (EnumField HandshakeMode) (req_handshake_mode m);
     f_size SeqByteField (req_mode_ephemeral m);
     f_size SeqByteField (req_mode_data m)].

Definition RequestHandshakeBegin_min_size_bytes : Z := 19.

Definition RequestHandshakeBegin_message `{SER : Ser4cpp} : message RequestHandshakeBegin :=
  Message Function_request_handshake_begin RequestHandshakeBegin_read RequestHandshakeBegin_write RequestHandshakeBegin_size.

(** [struct ReplyHandshakeBegin] *)
Record ReplyHandshakeBegin := mkReplyHandshakeBegin {
  rep_version : Version;
  rep_mode_ephemeral : bytes;
  rep_mode_data : bytes;
}.

(** The [read_fields] lambda of [ReplyHandshakeBegin::read]. *)
Definition ReplyHandshakeBegin_read_fields `{SER : Ser4cpp} (input : bytes) : ParseError + (ReplyHandshakeBegin * bytes) :=
  let! '(version, input) := f_read Version_field input in
  let! '(mode_ephemeral, input) := f_read SeqByteField input in
  let! '(mode_data, input) := f_read SeqByteField input in
  inr (mkReplyHandshakeBegin version mode_ephemeral mode_data, input).

Definition ReplyHandshakeBegin_read `{SER : Ser4cpp} (input : bytes) : ParseError + ReplyHandshakeBegin :=
  read_message input Function_reply_handshake_begin ReplyHandshakeBegin_read_fields.

(** The [write_fields] lambda of [ReplyHandshakeBegin::write]. *)
Definition ReplyHandshakeBegin_write_fields `{SER : Ser4cpp} (m : ReplyHandshakeBegin) (output : wseq) : FormatError * wseq :=
  write_fields
    [f_write Version_field (rep_version m);
     f_write SeqByteField (rep_mode_ephemeral m);
     f_write SeqByteField (rep_mode_data m)] output.

Definition ReplyHandshakeBegin_write `{SER : Ser4cpp} (m : ReplyHandshakeBegin) (output : wseq) : FormatResult * wseq :=
  write_message output Function_reply_handshake_begin (ReplyHandshakeBegin_write_fields m).

Definition ReplyHandshakeBegin_size `{SER : Ser4cpp} (m : ReplyHandshakeBegin) : Z :=
  sum_sizes 1
    [f_size Version_field (rep_version m);
     f_size SeqByteField (rep_mode_ephemeral m);
     f_size SeqByteField (rep_mode_data m)].

Definition ReplyHandshakeBegin_min_size_bytes : Z := 7.

Definition ReplyHandshakeBegin_message `{SER : Ser4cpp} : message ReplyHandshakeBegin :=
  Message Function_reply_handshake_begin ReplyHandshakeBegin_read ReplyHandshakeBegin_write ReplyHandshakeBegin_size.

(** [struct ReplyHandshakeError] *)
Record ReplyHandshakeError := mkReplyHandshakeError {
  rhe_version : Version;
  rhe_handshake_error : HandshakeError;
}.

(** The [read_fields] lambda of [ReplyHandshakeError::read]. *)
Definition ReplyHandshakeError_read_fields `{SER : Ser4cpp} (input : bytes) : ParseError + (ReplyHandshakeError * bytes) :=
  let! '(version, input) := f_read Version_field input in
  let! '(handshake_error, input) := f_read (EnumField HandshakeError) input in
  inr (mkReplyHandshakeError version handshake_error, input).

Definition ReplyHandshakeError_read `{SER : Ser4cpp} (input : bytes) : ParseError + ReplyHandshakeError :=
  read_message input Function_reply_handshake_error ReplyHandshakeError_read_fields.

(** The [write_fields] lambda of [ReplyHandshakeError::write]. *)
Definition ReplyHandshakeError_write_fields `{SER : Ser4cpp} (m : ReplyHandshakeError) (output : wseq) : FormatError * wseq :=
  write_fields
    [f_write Version_field (rhe_version m);
     f_write (EnumField HandshakeError) (rhe_handshake_error m)] output.

Definition ReplyHandshakeError_write `{SER : Ser4cpp} (m : ReplyHandshakeError) (output : wseq) : FormatResult * wseq :=
  write_message output Function_reply_handshake_error (ReplyHandshakeError_write_fields m).

Definition ReplyHandshakeError_size `{SER : Ser4cpp} (m : ReplyHandshakeError) : Z :=
  sum_sizes 1
    [f_size Version_field (rhe_version m);
     f_size (EnumField HandshakeError) (rhe_handshake_error m)].

Definition ReplyHandshakeError_fixed_size_bytes : Z := 6.

Definition ReplyHandshakeError_message `{SER : Ser4cpp} : message ReplyHandshakeError :=
  Message Function_reply_handshake_error ReplyHandshakeError_read ReplyHandshakeError_write ReplyHandshakeError_size.

(** [struct SessionData] *)
Record SessionData := mkSessionData {
  sd_metadata : AuthMetadata;
  sd_user_data : bytes;
  sd_auth_tag : bytes;
}.

(** The [read_fields] lambda of [SessionData::read]. *)
Definition SessionData_read_fields `{SER : Ser4cpp} (input : bytes) : ParseError + (SessionData * bytes) :=
  let! '(metadata, input) := f_read AuthMetadata_field input in
  let! '(user_data, input) := f_read SeqByteField input in
  let! '(auth_tag, input) := f_read SeqByteField input in
  inr (mkSessionData metadata user_data auth_tag, input).

Definition SessionData_read `{SER : Ser4cpp} (input : bytes) : ParseError + SessionData :=
  read_message input Function_session_data SessionData_read_fields.

(** The [write_fields] lambda of [SessionData::write]. *)
Definition SessionData_write_fields `{SER : Ser4cpp} (m : SessionData) (output : wseq) : FormatError * wseq :=
  write_fields
    [f_write AuthMetadata_field (sd_metadata m);
     f_write SeqByteField (sd_user_data m);
     f_write SeqByteField (sd_auth_tag m)] output.

Definition SessionData_write `{SER : Ser4cpp} (m : SessionData) (output : wseq) : FormatResult * wseq :=
  write_message output Function_session_data (SessionData_write_fields m).

Definition SessionData_size `{SER : Ser4cpp} (m : SessionData) : Z :=
  sum_sizes 1
    [f_size AuthMetadata_field (sd_metadata m);
     f_size SeqByteField (sd_user_data m);
     f_size SeqByteField (sd_auth_tag m)].

Definition SessionData_min_size_bytes : Z := 9.

Definition SessionData_message `{SER : Ser4cpp} : message SessionData :=
  Message Function_session_data SessionData_read SessionData_write SessionData_size.

(** ** The encodings, and that the operations implement them *)

Lemma Reads_field `{SER : Ser4cpp} {A B} (f : field A) enc ok `{HL : !Lawful f enc ok}
    (r2 : A -> reader B) a b e2 :
  ok a -> Reads (r2 a) b e2 ->
  Reads (fun s => let! '(x, s) := f_read f s in r2 x s) b (enc a ++ e2).
Proof. intros Ha Hr. apply (Reads_bind _ _ a); [by apply (lawful_reads (f := f))|done]. Qed.

Lemma lawful_read_inv `{SER : Ser4cpp} {A} (f : field A) enc ok `{HL : !Lawful f enc ok} s a rest :
  all_bytes s -> f_read f s = inr (a, rest) ->
  s = enc a ++ rest /\ ok a /\ all_bytes rest.
Proof.
  intros Hs Hr. destruct (lawful_accepts (f := f) s a rest Hs Hr) as (e&->&Ha&->).
  apply Forall_app in Hs as [_ Hs]. done.
Qed.

(** Tactics that walk through the fields of a struct. *)
Ltac reads_fields :=
  cbn [concat];
  repeat match goal with
  | |- Reads (fun s => rbind (f_read ?F s) _) _ _ =>
      let HF := fresh "HF" in
      pose proof (fun B r2 => Reads_field (B := B) F _ _ r2) as HF;
      cbn beta in HF; eapply (HF _ (fun x s => _)); [eassumption|]; clear HF
  | |- Reads (fun s => inr _) _ _ => apply Reads_ret
  end.

Ltac accepts_fields Hs Hr :=
  repeat (
    let x := fresh "x" in let rest := fresh "rest" in
    let H := fresh "H" in let Hok := fresh "Hok" in let E := fresh "E" in
    apply rbind_inr in Hr as ([x rest]&H&Hr);
    match type of H with
    | f_read ?F ?s = _ =>
        match goal with
        | Hb : all_bytes s |- _ =>
            destruct (lawful_read_inv F _ _ _ _ _ Hb H) as (E&Hok&?)
        end
    end; clear H; subst);
  injection Hr as <- <-.

Ltac fields_bytes :=
  cbn [concat app];
  repeat match goal with
  | |- all_bytes [] => apply Forall_nil_2
  | |- all_bytes (_ ++ _) => apply Forall_app; split
  | |- all_bytes (_ :: _) => apply Forall_cons; split; [apply to_type_u8|]
  | |- all_bytes (be_bytes _ _) => apply be_bytes_bytes
  | |- all_bytes (?enc _) => eapply (lawful_bytes (enc := enc)); eassumption
  end.

Ltac fields_size :=
  cbn [concat app sum_sizes];
  repeat match goal with
  | |- context [f_size ?F ?a] =>
      rewrite (lawful_size (f := F) a) by assumption
  end; autorewrite with seqs; change (zlen (@nil Z)) with 0; lia.

Ltac fields_writes :=
  apply Writes_fields;
  repeat match goal with
  | |- Forall2 Writes (f_write ?F ?a :: _) _ =>
      let HW := fresh "HW" in
      pose proof (lawful_writes (f := F) a) as HW;
      constructor; [apply HW; assumption|clear HW]
  end; constructor.

Ltac open_struct op enc ok :=
  let m := fresh "m" in let Hm := fresh "Hm" in
  intros m Hm; unfold op, enc; unfold ok in Hm; destruct_and?.

Ltac struct_reads rd enc ok :=
  let m := fresh "m" in let Hm := fresh "Hm" in
  intros m Hm; destruct m; unfold rd, enc; unfold ok in Hm; simpl in Hm;
  destruct_and?; reads_fields.

Ltac struct_accepts rd enc ok :=
  let s := fresh "s" in let Hs := fresh "Hs" in let Hr := fresh "Hr" in
  intros s ? ? Hs Hr; unfold rd in Hr; accepts_fields Hs Hr;
  eexists; split; [|split; [unfold ok; simpl; repeat first [eassumption | split]|reflexivity]];
  unfold enc; cbn [concat]; rewrite <- ?app_assoc; reflexivity.

Ltac struct_lawful fld rd wr sz enc ok :=
  split; unfold fld; cbn [f_read f_write f_size];
  [ open_struct enc enc ok; fields_bytes
  | open_struct sz enc ok; fields_size
  | open_struct wr enc ok; fields_writes
  | struct_reads rd enc ok
  | struct_accepts rd enc ok ].

Ltac message_lawful rd wr sz enc ok :=
  apply lawful_message; [done|..];
  [ open_struct enc enc ok; fields_bytes
  | open_struct sz enc ok; fields_size
  | open_struct wr enc ok; fields_writes
  | struct_reads rd enc ok
  | struct_accepts rd enc ok ].

Definition AuthMetadata_enc (m : AuthMetadata) : bytes :=
  concat
    [be_bytes (int_bytes UInt16) (am_nonce m);
     be_bytes (int_bytes UInt32) (am_valid_until_ms m)].

Definition AuthMetadata_ok (m : AuthMetadata) : Prop :=
  int_ok UInt16 (am_nonce m) /\
  int_ok UInt32 (am_valid_until_ms m).

#[export] Instance AuthMetadata_lawful `{SER : Ser4cpp} : Lawful AuthMetadata_field AuthMetadata_enc AuthMetadata_ok.
Proof.
  struct_lawful (@AuthMetadata_field) (@AuthMetadata_read) (@AuthMetadata_write) (@AuthMetadata_size) AuthMetadata_enc AuthMetadata_ok.
Qed.

Definition CryptoSpec_enc (m : CryptoSpec) : bytes :=
  concat
    [[to_type (cs_handshake_ephemeral m)];
     [to_type (cs_handshake_hash m)];
     [to_type (cs_handshake_kdf m)];
     [to_type (cs_session_nonce_mode m)];
     [to_type (cs_session_crypto_mode m)]].

Definition CryptoSpec_ok (m : CryptoSpec) : Prop :=
  cs_handshake_ephemeral m <> HandshakeEphemeral_undefined /\
  cs_handshake_hash m <> HandshakeHash_undefined /\
  cs_handshake_kdf m <> HandshakeKDF_undefined /\
  cs_session_nonce_mode m <> SessionNonceMode_undefined /\
  cs_session_crypto_mode m <> SessionCryptoMode_undefined.

#[export] Instance CryptoSpec_lawful `{SER : Ser4cpp} : Lawful CryptoSpec_field CryptoSpec_enc CryptoSpec_ok.
Proof.
  struct_lawful (@CryptoSpec_field) (@CryptoSpec_read) (@CryptoSpec_write) (@CryptoSpec_size) CryptoSpec_enc CryptoSpec_ok.
Qed.

Definition SessionConstraints_enc (m : SessionConstraints) : bytes :=
  concat
    [be_bytes (int_bytes UInt16) (sc_max_nonce m);
     be_bytes (int_bytes UInt32) (sc_max_session_duration m)].

Definition SessionConstraints_ok (m : SessionConstraints) : Prop :=
  int_ok UInt16 (sc_max_nonce m) /\
  int_ok UInt32 (sc_max_session_duration m).

#[export] Instance SessionConstraints_lawful `{SER : Ser4cpp} : Lawful SessionConstraints_field SessionConstraints_enc SessionConstraints_ok.
Proof.
  struct_lawful (@SessionConstraints_field) (@SessionConstraints_read) (@SessionConstraints_write) (@SessionConstraints_size) SessionConstraints_enc SessionConstraints_ok.
Qed.

Definition Version_enc (m : Version) : bytes :=
  concat
    [be_bytes (int_bytes UInt16) (v_major_version m);
     be_bytes (int_bytes UInt16) (v_minor_version m)].

Definition Version_ok (m : Version) : Prop :=
  int_ok UInt16 (v_major_version m) /\
  int_ok UInt16 (v_minor_version m).

#[export] Instance Version_lawful `{SER : Ser4cpp} : Lawful Version_field Version_enc Version_ok.
Proof.
  struct_lawful (@Version_field) (@Version_read) (@Version_write) (@Version_size) Version_enc Version_ok.
Qed.

Definition ExtensionEnvelope_enc (m : ExtensionEnvelope) : bytes :=
  concat
    [be_bytes (int_bytes UInt32) (ee_identifier m);
     SeqByteField_enc (ee_extension_body m)].

Definition ExtensionEnvelope_ok (m : ExtensionEnvelope) : Prop :=
  int_ok UInt32 (ee_identifier m) /\
  SeqByteField_ok (ee_extension_body m).

#[export] Instance ExtensionEnvelope_lawful `{SER : Ser4cpp} : Lawful ExtensionEnvelope_field ExtensionEnvelope_enc ExtensionEnvelope_ok.
Proof.
  struct_lawful (@ExtensionEnvelope_field) (@ExtensionEnvelope_read) (@ExtensionEnvelope_write) (@ExtensionEnvelope_size) ExtensionEnvelope_enc ExtensionEnvelope_ok.
Qed.

Definition CertificateBody_enc (m : CertificateBody) : bytes :=
  concat
    [be_bytes (int_bytes UInt64) (cb_valid_after m);
     be_bytes (int_bytes UInt64) (cb_valid_before m);
     be_bytes (int_bytes UInt8) (cb_signing_level m);
     [to_type (cb_public_key_type m)];
     SeqByteField_enc (cb_public_key m);
     SeqStructField_enc ExtensionEnvelope_enc (cb_extensions m)].

Definition CertificateBody_ok (m : CertificateBody) : Prop :=
  int_ok UInt64 (cb_valid_after m) /\
  int_ok UInt64 (cb_valid_before m) /\
  int_ok UInt8 (cb_signing_level m) /\
  cb_public_key_type m <> PublicKeyType_undefined /\
  SeqByteField_ok (cb_public_key m) /\
  SeqStructField_ok ExtensionEnvelope_ok 5 (cb_extensions m).

#[export] Instance ExtensionEnvelopes_lawful `{SER : Ser4cpp} :
  Lawful (SeqStructField ExtensionEnvelope_field 5) (SeqStructField_enc ExtensionEnvelope_enc)
    (SeqStructField_ok ExtensionEnvelope_ok 5).
Proof. apply SeqStructField_lawful; [apply _|]. unfold is_u32, max_u32. lia. Qed.

#[export] Instance CertificateBody_lawful `{SER : Ser4cpp} : Lawful CertificateBody_field CertificateBody_enc CertificateBody_ok.
Proof.
  struct_lawful (@CertificateBody_field) (@CertificateBody_read) (@CertificateBody_write) (@CertificateBody_size) CertificateBody_enc CertificateBody_ok.
Qed.

Definition CertificateEnvelope_enc (m : CertificateEnvelope) : bytes :=
  concat
    [SeqByteField_enc (ce_signature m);
     SeqByteField_enc (ce_certificate_body m)].

Definition CertificateEnvelope_ok (m : CertificateEnvelope) : Prop :=
  SeqByteField_ok (ce_signature m) /\
  SeqByteField_ok (ce_certificate_body m).

#[export] Instance CertificateEnvelope_lawful `{SER : Ser4cpp} : Lawful CertificateEnvelope_field CertificateEnvelope_enc CertificateEnvelope_ok.
Proof.
  struct_lawful (@CertificateEnvelope_field) (@CertificateEnvelope_read) (@CertificateEnvelope_write) (@CertificateEnvelope_size) CertificateEnvelope_enc CertificateEnvelope_ok.
Qed.

Definition CertificateChain_enc (m : CertificateChain) : bytes :=
  concat
    [SeqStructField_enc CertificateEnvelope_enc (cc_certificates m)].

Definition CertificateChain_ok (m : CertificateChain) : Prop :=
  SeqStructField_ok CertificateEnvelope_ok 6 (cc_certificates m).

#[export] Instance CertificateEnvelopes_lawful `{SER : Ser4cpp} :
  Lawful (SeqStructField CertificateEnvelope_field 6) (SeqStructField_enc CertificateEnvelope_enc)
    (SeqStructField_ok CertificateEnvelope_ok 6).
Proof. apply SeqStructField_lawful; [apply _|]. unfold is_u32, max_u32. lia. Qed.

#[export] Instance CertificateChain_lawful `{SER : Ser4cpp} : Lawful CertificateChain_field CertificateChain_enc CertificateChain_ok.
Proof.
  struct_lawful (@CertificateChain_field) (@CertificateChain_read) (@CertificateChain_write) (@CertificateChain_size) CertificateChain_enc CertificateChain_ok.
Qed.

Definition ContainerFile_enc (m : ContainerFile) : bytes :=
  concat
    [[to_type (cf_container_entry_type m)];
     SeqByteField_enc (cf_payload m)].

Definition ContainerFile_ok (m : ContainerFile) : Prop :=
  cf_container_entry_type m <> ContainerEntryType_undefined /\
  SeqByteField_ok (cf_payload m).

#[export] Instance ContainerFile_lawful `{SER : Ser4cpp} : Lawful ContainerFile_field ContainerFile_enc ContainerFile_ok.
Proof.
  struct_lawful (@ContainerFile_field) (@ContainerFile_read) (@ContainerFile_write) (@ContainerFile_size) ContainerFile_enc ContainerFile_ok.
Qed.

Definition RequestHandshakeBegin_body (m : RequestHandshakeBegin) : bytes :=
  concat
    [Version_enc (req_version m);
     CryptoSpec_enc (req_spec m);
     SessionConstraints_enc (req_constraints m);
     [to_type (req_handshake_mode m)];
     SeqByteField_enc (req_mode_ephemeral m);
     SeqByteField_enc (req_mode_data m)].

Definition RequestHandshakeBegin_ok (m : RequestHandshakeBegin) : Prop :=
  Version_ok (req_version m) /\
  CryptoSpec_ok (req_spec m) /\
  SessionConstraints_ok (req_constraints m) /\
  req_handshake_mode m <> HandshakeMode_undefined /\
  SeqByteField_ok (req_mode_ephemeral m) /\
  SeqByteField_ok (req_mode_data m).

Definition RequestHandshakeBegin_enc (m : RequestHandshakeBegin) : bytes := to_type Function_request_handshake_begin :: RequestHandshakeBegin_body m.

#[export] Instance RequestHandshakeBegin_lawful `{SER : Ser4cpp} :
  LawfulMessage RequestHandshakeBegin_message RequestHandshakeBegin_enc RequestHandshakeBegin_ok.
Proof.
  message_lawful (@RequestHandshakeBegin_read_fields) (@RequestHandshakeBegin_write_fields) (@RequestHandshakeBegin_size) RequestHandshakeBegin_body RequestHandshakeBegin_ok.
Qed.

Definition ReplyHandshakeBegin_body (m : ReplyHandshakeBegin) : bytes :=
  concat
    [Version_enc (rep_version m);
     SeqByteField_enc (rep_mode_ephemeral m);
     SeqByteField_enc (rep_mode_data m)].

Definition ReplyHandshakeBegin_ok (m : ReplyHandshakeBegin) : Prop :=
  Version_ok (rep_version m) /\
  SeqByteField_ok (rep_mode_ephemeral m) /\
  SeqByteField_ok (rep_mode_data m).

Definition ReplyHandshakeBegin_enc (m : ReplyHandshakeBegin) : bytes := to_type Function_reply_handshake_begin :: ReplyHandshakeBegin_body m.

#[export] Instance ReplyHandshakeBegin_lawful `{SER : Ser4cpp} :
  LawfulMessage ReplyHandshakeBegin_message ReplyHandshakeBegin_enc ReplyHandshakeBegin_ok.
Proof.
  message_lawful (@ReplyHandshakeBegin_read_fields) (@ReplyHandshakeBegin_write_fields) (@ReplyHandshakeBegin_size) ReplyHandshakeBegin_body ReplyHandshakeBegin_ok.
Qed.

Definition ReplyHandshakeError_body (m : ReplyHandshakeError) : bytes :=
  concat
    [Version_enc (rhe_version m);
     [to_type (rhe_handshake_error m)]].

Definition ReplyHandshakeError_ok (m : ReplyHandshakeError) : Prop :=
  Version_ok (rhe_version m) /\
  rhe_handshake_error m <> HandshakeError_undefined.

Definition ReplyHandshakeError_enc (m : ReplyHandshakeError) : bytes := to_type Function_reply_handshake_error :: ReplyHandshakeError_body m.

#[export] Instance ReplyHandshakeError_lawful `{SER : Ser4cpp} :
  LawfulMessage ReplyHandshakeError_message ReplyHandshakeError_enc ReplyHandshakeError_ok.
Proof.
  message_lawful (@ReplyHandshakeError_read_fields) (@ReplyHandshakeError_write_fields) (@ReplyHandshakeError_size) ReplyHandshakeError_body ReplyHandshakeError_ok.
Qed.

Definition SessionData_body (m : SessionData) : bytes :=
  concat
    [AuthMetadata_enc (sd_metadata m);
     SeqByteField_enc (sd_user_data m);
     SeqByteField_enc (sd_auth_tag m)].

Definition SessionData_ok (m : SessionData) : Prop :=
  AuthMetadata_ok (sd_metadata m) /\
  SeqByteField_ok (sd_user_data m) /\
  SeqByteField_ok (sd_auth_tag m).

Definition SessionData_enc (m : SessionData) : bytes := to_type Function_session_data :: SessionData_body m.

#[export] Instance SessionData_lawful `{SER : Ser4cpp} :
  LawfulMessage SessionData_message SessionData_enc SessionData_ok.
Proof.
  message_lawful (@SessionData_read_fields) (@SessionData_write_fields) (@SessionData_size) SessionData_body SessionData_ok.
Qed.

Definition size_bounds `{SER : Ser4cpp} {A} (m : message A) (ok : A -> Prop) (min : Z) : Prop :=
  (forall a, ok a -> min <= m_size m a) /\ (exists a, ok a /\ m_size m a = min).

Lemma SeqByteField_enc_min v : 1 <= zlen (SeqByteField_enc v).
Proof.
  unfold SeqByteField_enc, VLength_enc. rewrite zlen_app. pose proof (zlen_nonneg v).
  case_if; rewrite zlen_cons; [change (zlen (@nil Z)) with 0; lia|].
  pose proof (zlen_nonneg (be_bytes (Z.to_nat (VLength_num_values_bytes (zlen v))) (zlen v))). lia.
Qed.

Lemma Version_enc_size m : zlen (Version_enc m) = 4.
Proof. unfold Version_enc. cbn [concat]. autorewrite with seqs. by rewrite !zlen_be_bytes. Qed.

Lemma CryptoSpec_enc_size m : zlen (CryptoSpec_enc m) = 5.
Proof. done. Qed.

Lemma SessionConstraints_enc_size m : zlen (SessionConstraints_enc m) = 6.
Proof.
  unfold SessionConstraints_enc. cbn [concat]. autorewrite with seqs. by rewrite !zlen_be_bytes.
Qed.

Lemma AuthMetadata_enc_size m : zlen (AuthMetadata_enc m) = 6.
Proof. unfold AuthMetadata_enc. cbn [concat]. autorewrite with seqs. by rewrite !zlen_be_bytes. Qed.

Lemma no_bytes_ok : SeqByteField_ok [].
Proof. split; [constructor|]. unfold is_u32, max_u32. rewrite (@zlen_nil Z). lia. Qed.

Lemma zero_ok t : int_ok t 0.
Proof. by destruct t. Qed.

#[export] Hint Resolve no_bytes_ok zero_ok : ssp21.

(** The smallest message of each type. *)
Definition smallest_request : RequestHandshakeBegin :=
  mkRequestHandshakeBegin (mkVersion 0 0)
    (mkCryptoSpec HandshakeEphemeral_x25519 HandshakeHash_sha256 HandshakeKDF_hkdf_sha256
       SessionNonceMode_strict_increment SessionCryptoMode_hmac_sha256_16)
    (mkSessionConstraints 0 0) HandshakeMode_shared_secret [] [].
Definition smallest_reply : ReplyHandshakeBegin := mkReplyHandshakeBegin (mkVersion 0 0) [] [].
Definition smallest_error : ReplyHandshakeError :=
  mkReplyHandshakeError (mkVersion 0 0) HandshakeError_bad_message_format.
Definition smallest_session_data : SessionData := mkSessionData (mkAuthMetadata 0 0) [] [].

Ltac smallest := hnf; simpl; unfold Version_ok, CryptoSpec_ok, SessionConstraints_ok, AuthMetadata_ok; simpl;
  repeat split; auto with ssp21; try done.

Lemma smallest_request_ok : RequestHandshakeBegin_ok smallest_request.
Proof. smallest. Qed.
Lemma smallest_reply_ok : ReplyHandshakeBegin_ok smallest_reply.
Proof. smallest. Qed.
Lemma smallest_error_ok : ReplyHandshakeError_ok smallest_error.
Proof. smallest. Qed.
Lemma smallest_session_data_ok : SessionData_ok smallest_session_data.
Proof. smallest. Qed.

Section Properties.
Context `{SER : Ser4cpp}.

Lemma read_exact {A} (m : message A) enc ok `{HM : !LawfulMessage m enc ok} s a :
  all_bytes s -> m_read m s = inr a <-> ok a /\ s = enc a.
Proof.
  intros Hs. split.
  - by apply msg_read_accepts.
  - intros [Ha ->]. by apply msg_read_enc.
Qed.

(** C27: The four message parsers are exact: a byte string is accepted as
    message [m] if and only if all fields of [m] are in range and the string
    is the encoding of [m]; so every message has one encoding only, and no
    other byte string (wrong function, undefined enumerator, non canonical
    length, missing or left-over bytes) is accepted. *)
Theorem messages_read_exact s :
  all_bytes s ->
  (forall m, RequestHandshakeBegin_read s = inr m <->
     RequestHandshakeBegin_ok m /\ s = RequestHandshakeBegin_enc m) /\
  (forall m, ReplyHandshakeBegin_read s = inr m <->
     ReplyHandshakeBegin_ok m /\ s = ReplyHandshakeBegin_enc m) /\
  (forall m, ReplyHandshakeError_read s = inr m <->
     ReplyHandshakeError_ok m /\ s = ReplyHandshakeError_enc m) /\
  (forall m, SessionData_read s = inr m <-> SessionData_ok m /\ s = SessionData_enc m).
Proof.
  intros Hs. split; [|split; [|split]]; intros m.
  - exact (read_exact RequestHandshakeBegin_message _ _ s m Hs).
  - exact (read_exact ReplyHandshakeBegin_message _ _ s m Hs).
  - exact (read_exact ReplyHandshakeError_message _ _ s m Hs).
  - exact (read_exact SessionData_message _ _ s m Hs).
Qed.

(** What the writer of a message does with any window. *)
Definition writes_message {A} (write : A -> wseq -> FormatResult * wseq)
    (enc : A -> bytes) (a : A) : Prop :=
  forall w, wseq_ok w -> zlen (enc a) <= max_u32 ->
    if decide (zlen (enc a) <= wseq_length w)
    then write a w = (mkFormatResult FormatError_ok (enc a), wseq_store w (enc a))
    else exists w',
      write a w = (mkFormatResult FormatError_insufficient_space [], w') /\ wseq_extends w w'.

Lemma message_writes {A} (m : message A) enc ok `{HM : !LawfulMessage m enc ok} a :
  ok a -> writes_message (m_write m) enc a.
Proof.
  intros Ha w Hw Hmax. destruct (decide _) as [Hl|Hl].
  - by apply msg_write_fits.
  - apply (msg_write_short (m := m)); [done|done|lia].
Qed.

(** The four message formatters: with room for the encoding, the
    formatter stores exactly the encoding at the start of the window, leaves
    every other byte of the buffer alone and returns the slice it wrote;
    with less room it reports [insufficient_space] and an empty slice, and
    does not touch a byte before the window or change the buffer's size. *)
Theorem messages_write :
  (forall m, RequestHandshakeBegin_ok m ->
     writes_message RequestHandshakeBegin_write RequestHandshakeBegin_enc m) /\
  (forall m, ReplyHandshakeBegin_ok m ->
     writes_message ReplyHandshakeBegin_write ReplyHandshakeBegin_enc m) /\
  (forall m, ReplyHandshakeError_ok m ->
     writes_message ReplyHandshakeError_write ReplyHandshakeError_enc m) /\
  (forall m, SessionData_ok m -> writes_message SessionData_write SessionData_enc m).
Proof.
  split; [|split; [|split]]; intros m.
  - exact (message_writes RequestHandshakeBegin_message _ _ m).
  - exact (message_writes ReplyHandshakeBegin_message _ _ m).
  - exact (message_writes ReplyHandshakeError_message _ _ m).
  - exact (message_writes SessionData_message _ _ m).
Qed.

(** How a parser rejects damaged encodings of [a]. *)
Definition rejects_damage {A} (read : bytes -> ParseError + A) (enc : A -> bytes) (a : A) : Prop :=
  (forall p q, enc a = p ++ q -> q <> [] -> read p = inl ParseError_insufficient_bytes) /\
  (forall z rest, read (enc a ++ z :: rest) = inl ParseError_too_many_bytes).

Lemma message_rejects {A} (m : message A) enc ok `{HM : !LawfulMessage m enc ok} a :
  ok a -> rejects_damage (m_read m) enc a.
Proof.
  intros Ha. split.
  - intros p q. by apply msg_read_truncated.
  - intros z rest. by apply msg_read_trailing.
Qed.

(** Every truncation of a valid message is reported as
    [insufficient_bytes], and every extension of it as [too_many_bytes]. *)
Theorem messages_reject_damage :
  (forall m, RequestHandshakeBegin_ok m ->
     rejects_damage RequestHandshakeBegin_read RequestHandshakeBegin_enc m) /\
  (forall m, ReplyHandshakeBegin_ok m ->
     rejects_damage ReplyHandshakeBegin_read ReplyHandshakeBegin_enc m) /\
  (forall m, ReplyHandshakeError_ok m ->
     rejects_damage ReplyHandshakeError_read ReplyHandshakeError_enc m) /\
  (forall m, SessionData_ok m -> rejects_damage SessionData_read SessionData_enc m).
Proof.
  split; [|split; [|split]]; intros m.
  - exact (message_rejects RequestHandshakeBegin_message _ _ m).
  - exact (message_rejects ReplyHandshakeBegin_message _ _ m).
  - exact (message_rejects ReplyHandshakeError_message _ _ m).
  - exact (message_rejects SessionData_message _ _ m).
Qed.

(** The size constants the buffers are dimensioned with are right: each
    [min_size_bytes] is the least value [size] takes on valid messages, and
    [ReplyHandshakeError] always has [fixed_size_bytes] bytes. *)
Theorem messages_size_constants :
  size_bounds RequestHandshakeBegin_message RequestHandshakeBegin_ok
    RequestHandshakeBegin_min_size_bytes /\
  size_bounds ReplyHandshakeBegin_message ReplyHandshakeBegin_ok
    ReplyHandshakeBegin_min_size_bytes /\
  size_bounds SessionData_message SessionData_ok SessionData_min_size_bytes /\
  (forall m, ReplyHandshakeError_size m = ReplyHandshakeError_fixed_size_bytes).
Proof.
  split; [|split; [|split]].
  - split; [|exists smallest_request; split; [apply smallest_request_ok|done]].
    intros m Hm. rewrite (msg_size (m := RequestHandshakeBegin_message)) by done.
    unfold RequestHandshakeBegin_enc, RequestHandshakeBegin_body, RequestHandshakeBegin_min_size_bytes.
    cbn [concat]. autorewrite with seqs. change (zlen (@nil Z)) with 0.
    rewrite Version_enc_size, CryptoSpec_enc_size, SessionConstraints_enc_size.
    pose proof (SeqByteField_enc_min (req_mode_ephemeral m)).
    pose proof (SeqByteField_enc_min (req_mode_data m)). lia.
  - split; [|exists smallest_reply; split; [apply smallest_reply_ok|done]].
    intros m Hm. rewrite (msg_size (m := ReplyHandshakeBegin_message)) by done.
    unfold ReplyHandshakeBegin_enc, ReplyHandshakeBegin_body, ReplyHandshakeBegin_min_size_bytes.
    cbn [concat]. autorewrite with seqs. change (zlen (@nil Z)) with 0.
    rewrite Version_enc_size.
    pose proof (SeqByteField_enc_min (rep_mode_ephemeral m)).
    pose proof (SeqByteField_enc_min (rep_mode_data m)). lia.
  - split; [|exists smallest_session_data; split; [apply smallest_session_data_ok|done]].
    intros m Hm. rewrite (msg_size (m := SessionData_message)) by done.
    unfold SessionData_enc, SessionData_body, SessionData_min_size_bytes.
    cbn [concat]. autorewrite with seqs. change (zlen (@nil Z)) with 0.
    rewrite AuthMetadata_enc_size.
    pose proof (SeqByteField_enc_min (sd_user_data m)).
    pose proof (SeqByteField_enc_min (sd_auth_tag m)). lia.
  - done.
Qed.

Lemma read_all_exact {A} (f : field A) enc ok `{HL : !Lawful f enc ok} s a :
  all_bytes s -> read_all (f_read f) s = inr a <-> ok a /\ s = enc a.
Proof.
  intros Hs. unfold read_all. split.
  - intros Hr. apply rbind_inr in Hr as ([x rest]&Hr&Ha).
    destruct (lawful_read_inv f _ _ s x rest Hs Hr) as (->&Hok&_).
    destruct rest; [|done]. injection Ha as ->. by rewrite app_nil_r.
  - intros [Ha ->]. pose proof (proj1 (lawful_reads (f := f) a Ha) []) as Hr.
    rewrite app_nil_r in Hr. by rewrite Hr.
Qed.

(** [read_all] of the certificate and container structures is exact: it
    accepts a byte string if and only if the string is the encoding of a
    structure whose fields are in range (at most 5 extensions per body and 6
    certificates per chain), and nothing follows it. *)
Theorem certificates_read_all_exact s :
  all_bytes s ->
  (forall m, CertificateBody_read_all s = inr m <->
     CertificateBody_ok m /\ s = CertificateBody_enc m) /\
  (forall m, CertificateEnvelope_read_all s = inr m <->
     CertificateEnvelope_ok m /\ s = CertificateEnvelope_enc m) /\
  (forall m, CertificateChain_read_all s = inr m <->
     CertificateChain_ok m /\ s = CertificateChain_enc m) /\
  (forall m, ContainerFile_read_all s = inr m <->
     ContainerFile_ok m /\ s = ContainerFile_enc m).
Proof.
  intros Hs. split; [|split; [|split]]; intros m.
  - exact (read_all_exact CertificateBody_field _ _ s m Hs).
  - exact (read_all_exact CertificateEnvelope_field _ _ s m Hs).
  - exact (read_all_exact CertificateChain_field _ _ s m Hs).
  - exact (read_all_exact ContainerFile_field _ _ s m Hs).
Qed.
End Properties.

(** ** Concrete instances *)

Lemma messages_read_exact_witness :
  ReplyHandshakeError_read (SER := ser4cpp_reference) [2; 0; 0; 0; 0; 0] = inr smallest_error.
Proof.
  apply (messages_read_exact (SER := ser4cpp_reference) [2; 0; 0; 0; 0; 0]).
  - concrete_bytes.
  - split; [exact smallest_error_ok|reflexivity].
Defined.

Lemma messages_write_witness :
  writes_message (SessionData_write (SER := ser4cpp_reference)) SessionData_enc
    (mkSessionData (mkAuthMetadata 1 2) [3] [4]).
Proof.
  apply (messages_write (SER := ser4cpp_reference)).
  hnf. simpl. unfold AuthMetadata_ok, SeqByteField_ok, is_u32, max_u32.
  repeat split; simpl; first [concrete_bytes | done].
Defined.

Lemma messages_reject_damage_witness :
  SessionData_read (SER := ser4cpp_reference) [3; 0; 0; 0; 0; 0; 0; 0] =
    inl ParseError_insufficient_bytes /\
  SessionData_read (SER := ser4cpp_reference) [3; 0; 0; 0; 0; 0; 0; 0; 0; 9] =
    inl ParseError_too_many_bytes.
Proof.
  destruct (proj2 (proj2 (proj2 (messages_reject_damage (SER := ser4cpp_reference))))
              smallest_session_data smallest_session_data_ok) as [Ht He].
  split.
  - by apply (Ht [3; 0; 0; 0; 0; 0; 0; 0] [0]).
  - exact (He 9 []).
Defined.

Lemma certificates_read_all_exact_witness :
  CertificateEnvelope_read_all (SER := ser4cpp_reference) [1; 7; 2; 8; 9] =
    inr (mkCertificateEnvelope [7] [8; 9]).
Proof.
  apply (certificates_read_all_exact (SER := ser4cpp_reference) [1; 7; 2; 8; 9]).
  - concrete_bytes.
  - split; [|reflexivity]. hnf. simpl. unfold SeqByteField_ok, is_u32, max_u32.
    repeat split; simpl; first [concrete_bytes | done].
Defined.
