(* ===== verification/CRC.v ===== *)
(** * The frame check sequence

    [CastagnoliCRC32::calc] of [link/CastagnoliCRC32.cpp]: the table driven
    routine and its table, a bit-serial reference (the shift register of the
    polynomial [0xF4ACFB13]), their equivalence, linearity, the residue of a
    checked block, and the errors the check is certain to detect. *)

From stdpp Require Import base numbers list.
From Stdlib Require Import Lia ZArith.
From S2P Require Import Prelude.

(** ** The routine *)

Definition CastagnoliCRC32_table : list Z :=
    [0x00000000; 0xf4acfb13; 0x1df50d35; 0xe959f626; 0x3bea1a6a; 0xcf46e179; 0x261f175f; 0xd2b3ec4c;
     0x77d434d4; 0x8378cfc7; 0x6a2139e1; 0x9e8dc2f2; 0x4c3e2ebe; 0xb892d5ad; 0x51cb238b; 0xa567d898;
     0xefa869a8; 0x1b0492bb; 0xf25d649d; 0x06f19f8e; 0xd44273c2; 0x20ee88d1; 0xc9b77ef7; 0x3d1b85e4;
     0x987c5d7c; 0x6cd0a66f; 0x85895049; 0x7125ab5a; 0xa3964716; 0x573abc05; 0xbe634a23; 0x4acfb130;
     0x2bfc2843; 0xdf50d350; 0x36092576; 0xc2a5de65; 0x10163229; 0xe4bac93a; 0x0de33f1c; 0xf94fc40f;
     0x5c281c97; 0xa884e784; 0x41dd11a2; 0xb571eab1; 0x67c206fd; 0x936efdee; 0x7a370bc8; 0x8e9bf0db;
     0xc45441eb; 0x30f8baf8; 0xd9a14cde; 0x2d0db7cd; 0xffbe5b81; 0x0b12a092; 0xe24b56b4; 0x16e7ada7;
     0xb380753f; 0x472c8e2c; 0xae75780a; 0x5ad98319; 0x886a6f55; 0x7cc69446; 0x959f6260; 0x61339973;
     0x57f85086; 0xa354ab95; 0x4a0d5db3; 0xbea1a6a0; 0x6c124aec; 0x98beb1ff; 0x71e747d9; 0x854bbcca;
     0x202c6452; 0xd4809f41; 0x3dd96967; 0xc9759274; 0x1bc67e38; 0xef6a852b; 0x0633730d; 0xf29f881e;
     0xb850392e; 0x4cfcc23d; 0xa5a5341b; 0x5109cf08; 0x83ba2344; 0x7716d857; 0x9e4f2e71; 0x6ae3d562;
     0xcf840dfa; 0x3b28f6e9; 0xd27100cf; 0x26ddfbdc; 0xf46e1790; 0x00c2ec83; 0xe99b1aa5; 0x1d37e1b6;
     0x7c0478c5; 0x88a883d6; 0x61f175f0; 0x955d8ee3; 0x47ee62af; 0xb34299bc; 0x5a1b6f9a; 0xaeb79489;
     0x0bd04c11; 0xff7cb702; 0x16254124; 0xe289ba37; 0x303a567b; 0xc496ad68; 0x2dcf5b4e; 0xd963a05d;
     0x93ac116d; 0x6700ea7e; 0x8e591c58; 0x7af5e74b; 0xa8460b07; 0x5ceaf014; 0xb5b30632; 0x411ffd21;
     0xe47825b9; 0x10d4deaa; 0xf98d288c; 0x0d21d39f; 0xdf923fd3; 0x2b3ec4c0; 0xc26732e6; 0x36cbc9f5;
     0xaff0a10c; 0x5b5c5a1f; 0xb205ac39; 0x46a9572a; 0x941abb66; 0x60b64075; 0x89efb653; 0x7d434d40;
     0xd82495d8; 0x2c886ecb; 0xc5d198ed; 0x317d63fe; 0xe3ce8fb2; 0x176274a1; 0xfe3b8287; 0x0a977994;
     0x4058c8a4; 0xb4f433b7; 0x5dadc591; 0xa9013e82; 0x7bb2d2ce; 0x8f1e29dd; 0x6647dffb; 0x92eb24e8;
     0x378cfc70; 0xc3200763; 0x2a79f145; 0xded50a56; 0x0c66e61a; 0xf8ca1d09; 0x1193eb2f; 0xe53f103c;
     0x840c894f; 0x70a0725c; 0x99f9847a; 0x6d557f69; 0xbfe69325; 0x4b4a6836; 0xa2139e10; 0x56bf6503;
     0xf3d8bd9b; 0x07744688; 0xee2db0ae; 0x1a814bbd; 0xc832a7f1; 0x3c9e5ce2; 0xd5c7aac4; 0x216b51d7;
     0x6ba4e0e7; 0x9f081bf4; 0x7651edd2; 0x82fd16c1; 0x504efa8d; 0xa4e2019e; 0x4dbbf7b8; 0xb9170cab;
     0x1c70d433; 0xe8dc2f20; 0x0185d906; 0xf5292215; 0x279ace59; 0xd336354a; 0x3a6fc36c; 0xcec3387f;
     0xf808f18a; 0x0ca40a99; 0xe5fdfcbf; 0x115107ac; 0xc3e2ebe0; 0x374e10f3; 0xde17e6d5; 0x2abb1dc6;
     0x8fdcc55e; 0x7b703e4d; 0x9229c86b; 0x66853378; 0xb436df34; 0x409a2427; 0xa9c3d201; 0x5d6f2912;
     0x17a09822; 0xe30c6331; 0x0a559517; 0xfef96e04; 0x2c4a8248; 0xd8e6795b; 0x31bf8f7d; 0xc513746e;
     0x6074acf6; 0x94d857e5; 0x7d81a1c3; 0x892d5ad0; 0x5b9eb69c; 0xaf324d8f; 0x466bbba9; 0xb2c740ba;
     0xd3f4d9c9; 0x275822da; 0xce01d4fc; 0x3aad2fef; 0xe81ec3a3; 0x1cb238b0; 0xf5ebce96; 0x01473585;
     0xa420ed1d; 0x508c160e; 0xb9d5e028; 0x4d791b3b; 0x9fcaf777; 0x6b660c64; 0x823ffa42; 0x76930151;
     0x3c5cb061; 0xc8f04b72; 0x21a9bd54; 0xd5054647; 0x07b6aa0b; 0xf31a5118; 0x1a43a73e; 0xeeef5c2d;
     0x4b8884b5; 0xbf247fa6; 0x567d8980; 0xa2d17293; 0x70629edf; 0x84ce65cc; 0x6d9793ea; 0x993b68f9].

(** One round of the loop of [calc]. *)
Definition CastagnoliCRC32_step (remainder byte : Z) : Z :=
  let index := u8 (Z.lxor byte (Z.shiftr remainder 24)) in
  Z.lxor (znth CastagnoliCRC32_table index) (u32 (Z.shiftl remainder 8)).

Definition CastagnoliCRC32_calc (data : bytes) : Z :=
  fold_left CastagnoliCRC32_step data 0.

(** ** The bit-serial reference *)

Definition crc_poly : Z := 0xF4ACFB13.

(** One shift of the 32-bit register. *)
Definition crc_bit (r : Z) : Z :=
  Z.lxor (u32 (Z.shiftl r 1)) (if Z.testbit r 31 then crc_poly else 0).

Fixpoint crc_bits (n : nat) (r : Z) : Z :=
  match n with
  | O => r
  | S n => crc_bits n (crc_bit r)
  end.

(** A byte enters at the top of the register and is shifted out. *)
Definition crc_byte (r byte : Z) : Z := crc_bits 8 (Z.lxor r (Z.shiftl byte 24)).

Definition crc_reference (data : bytes) : Z := fold_left crc_byte data 0.

Lemma u32_bits x n : 0 <= n -> Z.testbit (u32 x) n = (n <? 32) && Z.testbit x n.
Proof.
  intros Hn. unfold u32. destruct (n <? 32) eqn:E; btests.
  - by rewrite Z.mod_pow2_bits_low by lia.
  - by rewrite Z.mod_pow2_bits_high by lia.
Qed.

Lemma u32_lxor x y : u32 (Z.lxor x y) = Z.lxor (u32 x) (u32 y).
Proof.
  apply Z.bits_inj'. intros n Hn. rewrite Z.lxor_spec, !u32_bits, Z.lxor_spec by done.
  by destruct (n <? 32), (Z.testbit x n), (Z.testbit y n).
Qed.

Lemma u32_range x : 0 <= u32 x < 2 ^ 32.
Proof. unfold u32. apply Z.mod_pos_bound. lia. Qed.

Lemma u32_small x : 0 <= x < 2 ^ 32 -> u32 x = x.
Proof. intros. unfold u32. by apply Z.mod_small. Qed.

Lemma lxor_range n x y :
  0 <= n -> 0 <= x < 2 ^ n -> 0 <= y < 2 ^ n -> 0 <= Z.lxor x y < 2 ^ n.
Proof.
  intros Hn Hx Hy. assert (0 <= Z.lxor x y) as H0 by (apply Z.lxor_nonneg; lia).
  split; [done|].
  assert (Z.lxor x y = Z.lxor x y mod 2 ^ n) as ->.
  { apply Z.bits_inj'. intros k Hk. destruct (decide (k < n)).
    - by rewrite Z.mod_pow2_bits_low by lia.
    - rewrite Z.mod_pow2_bits_high, Z.lxor_spec by lia.
      rewrite <- (Z.mod_small x (2 ^ n)), <- (Z.mod_small y (2 ^ n)) by done.
      by rewrite !Z.mod_pow2_bits_high by lia. }
  apply Z.mod_pos_bound. lia.
Qed.

Lemma crc_bit_range r : 0 <= crc_bit r < 2 ^ 32.
Proof.
  apply lxor_range; [lia|apply u32_range|]. case_if; unfold crc_poly; lia.
Qed.

Lemma crc_bits_range n r : 0 <= r < 2 ^ 32 -> 0 <= crc_bits n r < 2 ^ 32.
Proof.
  revert r. induction n as [|n IH]; intros r Hr; simpl; [done|]. apply IH, crc_bit_range.
Qed.

Lemma crc_bits_add n m r : crc_bits (n + m) r = crc_bits m (crc_bits n r).
Proof. revert r. induction n; intros r; simpl; auto. Qed.

(** Conversion tests unfold everything else before the register. *)
#[global] Strategy 100 [crc_bit crc_bits].
#[global] Strategy 90 [crc_byte CastagnoliCRC32_step].

(** Linearity of the register. *)
Lemma crc_bit_lxor x y : crc_bit (Z.lxor x y) = Z.lxor (crc_bit x) (crc_bit y).
Proof.
  unfold crc_bit. rewrite Z.shiftl_lxor, u32_lxor, Z.lxor_spec.
  apply Z.bits_inj'. intros n Hn. rewrite !Z.lxor_spec.
  destruct (Z.testbit x 31), (Z.testbit y 31); simpl; rewrite ?Z.bits_0;
    destruct (Z.testbit (u32 (Z.shiftl x 1)) n), (Z.testbit (u32 (Z.shiftl y 1)) n),
      (Z.testbit crc_poly n); done.
Qed.

Lemma crc_bits_lxor n x y : crc_bits n (Z.lxor x y) = Z.lxor (crc_bits n x) (crc_bits n y).
Proof.
  revert x y. induction n as [|n IH]; intros x y; simpl; [done|]. by rewrite crc_bit_lxor, IH.
Qed.

(** Without a bit at the top the register just shifts. *)
Lemma crc_bit_small x : 0 <= x < 2 ^ 31 -> crc_bit x = 2 * x.
Proof.
  intros Hx. unfold crc_bit. replace (Z.testbit x 31) with false.
  - rewrite Z.lxor_0_r, Z.shiftl_mul_pow2, u32_small by lia. lia.
  - symmetry. rewrite <- (Z.mod_small x (2 ^ 31)) by done. by rewrite Z.mod_pow2_bits_high by lia.
Qed.

Lemma crc_bits_small n x :
  (n <= 32)%nat -> 0 <= x < 2 ^ (32 - Z.of_nat n) -> crc_bits n x = 2 ^ Z.of_nat n * x.
Proof.
  revert x. induction n as [|n IH]; intros x Hn Hx; simpl crc_bits.
  - lia.
  - assert (2 ^ (32 - Z.of_nat n) = 2 * 2 ^ (32 - Z.of_nat (S n))) as E.
    { rewrite <- Z.pow_succ_r by lia. f_equal. lia. }
    assert (2 ^ (32 - Z.of_nat (S n)) <= 2 ^ 31) by (apply Z.pow_le_mono_r; lia).
    rewrite crc_bit_small by lia. rewrite IH by lia.
    rewrite Nat2Z.inj_succ, Z.pow_succ_r by lia. ring.
Qed.

(** ** The table *)

Lemma table_entry i : is_byte i -> znth CastagnoliCRC32_table i = crc_bits 8 (Z.shiftl i 24).
Proof.
  intros Hi. apply Z.eqb_eq. revert i Hi. apply byte_cases. by vm_compute.
Qed.

Lemma register_split r : 0 <= r < 2 ^ 32 ->
  exists hi lo, is_byte hi /\ 0 <= lo < 2 ^ 24 /\ Z.shiftr r 24 = hi /\
    r = Z.lxor (Z.shiftl hi 24) lo /\ u32 (Z.shiftl r 8) = 2 ^ 8 * lo.
Proof.
  intros Hr. exists (r / 2 ^ 24), (r mod 2 ^ 24).
  assert (0 <= r mod 2 ^ 24 < 2 ^ 24) as Hm by (apply Z.mod_pos_bound; lia).
  pose proof (Z.div_mod r (2 ^ 24) ltac:(lia)) as E.
  split; [|split; [done|split; [|split]]].
  - unfold is_byte. lia.
  - by rewrite Z.shiftr_div_pow2 by lia.
  - rewrite <- Z.add_nocarry_lxor; [rewrite Z.shiftl_mul_pow2; lia|].
    apply Z.bits_inj'. intros n Hn. rewrite Z.land_spec, Z.bits_0.
    destruct (decide (n < 24)).
    + by rewrite Z.shiftl_spec_low by lia.
    + by rewrite Z.mod_pow2_bits_high, andb_false_r by lia.
  - unfold u32. rewrite Z.shiftl_mul_pow2 by lia.
    replace (r * 2 ^ 8) with (2 ^ 8 * (r mod 2 ^ 24) + (r / 2 ^ 24) * 2 ^ 32) by lia.
    rewrite Z_mod_plus_full. apply Z.mod_small. lia.
Qed.

Lemma u8_small x : is_byte x -> u8 x = x.
Proof. intros. unfold u8. by apply Z.mod_small. Qed.

Lemma step_byte r b :
  0 <= r < 2 ^ 32 -> is_byte b -> CastagnoliCRC32_step r b = crc_byte r b.
Proof.
  intros Hr Hb. destruct (register_split r Hr) as (hi&lo&Hhi&Hlo&Eh&Er&Es).
  unfold CastagnoliCRC32_step, crc_byte. rewrite Eh, Es.
  assert (is_byte (Z.lxor b hi)) as Hx by (apply (lxor_range 8); [lia|done|done]).
  rewrite u8_small, table_entry by done.
  assert (Z.lxor r (Z.shiftl b 24) = Z.lxor (Z.shiftl (Z.lxor b hi) 24) lo) as ->.
  { rewrite Er, Z.shiftl_lxor, (Z.lxor_comm (Z.shiftl hi 24) lo), Z.lxor_assoc.
    by rewrite (Z.lxor_comm lo), (Z.lxor_comm (Z.shiftl hi 24)). }
  rewrite crc_bits_lxor. f_equal. symmetry. apply (crc_bits_small 8); [lia|done].
Qed.

Lemma crc_byte_range r b : 0 <= r < 2 ^ 32 -> is_byte b -> 0 <= crc_byte r b < 2 ^ 32.
Proof.
  intros Hr Hb. unfold is_byte in Hb. apply crc_bits_range, lxor_range; [lia|done|].
  rewrite Z.shiftl_mul_pow2; lia.
Qed.

Lemma calc_from r data :
  0 <= r < 2 ^ 32 -> all_bytes data ->
  fold_left CastagnoliCRC32_step data r = fold_left crc_byte data r /\
  0 <= fold_left crc_byte data r < 2 ^ 32.
Proof.
  apply (fold_left_agree (fun r => 0 <= r < 2 ^ 32) is_byte).
  intros x b Hx Hb. split; [by apply step_byte|by apply crc_byte_range].
Qed.

(** The table driven CRC computes, on every byte string, what the
    bit-serial register of the polynomial 0xF4ACFB13 computes, and the result
    is a 32-bit value. *)
Theorem calc_is_reference data :
  all_bytes data ->
  CastagnoliCRC32_calc data = crc_reference data /\ is_u32 (CastagnoliCRC32_calc data).
Proof.
  intros Hd. destruct (calc_from 0 data) as [E R]; [lia|assumption|].
  unfold CastagnoliCRC32_calc, crc_reference, is_u32, max_u32. rewrite E. split; [done|lia].
Qed.

Lemma calc_is_reference_witness :
  CastagnoliCRC32_calc [0x07; 0xAA; 0x00; 0x01; 0x00; 0x02; 0x00; 0x06] =
    crc_reference [0x07; 0xAA; 0x00; 0x01; 0x00; 0x02; 0x00; 0x06] /\
  crc_reference [0x07; 0xAA; 0x00; 0x01; 0x00; 0x02; 0x00; 0x06] = 0x11FBE340.
Proof.
  split; [|by vm_compute].
  apply (calc_is_reference [0x07; 0xAA; 0x00; 0x01; 0x00; 0x02; 0x00; 0x06]). concrete_bytes.
Defined.

(** ** What the check detects *)

Lemma lxor_eq_0 x y : Z.lxor x y = 0 <-> x = y.
Proof. apply Z.lxor_eq_0_iff. Qed.

(** The register never loses information. *)
Lemma crc_bit_0 x : 0 <= x < 2 ^ 32 -> crc_bit x = 0 -> x = 0.
Proof.
  intros Hx E. destruct (Z.testbit x 31) eqn:Ht.
  - assert (Z.testbit (crc_bit x) 0 = true) as Hb; [|by rewrite E, Z.bits_0 in Hb].
    unfold crc_bit. rewrite Ht, Z.lxor_spec, u32_bits, Z.shiftl_spec_low by lia. done.
  - unfold crc_bit in E. rewrite Ht, Z.lxor_0_r in E.
    assert (x < 2 ^ 31).
    { destruct (decide (x < 2 ^ 31)) as [|Hge]; [done|]. exfalso.
      rewrite Z.testbit_false in Ht by lia.
      assert (x / 2 ^ 31 = 1) as Hd by (symmetry; apply (Z.div_unique_pos _ _ _ (x - 2 ^ 31)); lia).
      rewrite Hd in Ht. done. }
    rewrite Z.shiftl_mul_pow2, u32_small in E by lia. lia.
Qed.

Lemma crc_bits_0 n x : 0 <= x < 2 ^ 32 -> crc_bits n x = 0 -> x = 0.
Proof.
  revert x. induction n as [|n IH]; intros x Hx E; simpl in E; [done|].
  apply crc_bit_0; [done|]. apply IH; [apply crc_bit_range|done].
Qed.

Lemma crc_bits_inj n x y :
  0 <= x < 2 ^ 32 -> 0 <= y < 2 ^ 32 -> crc_bits n x = crc_bits n y -> x = y.
Proof.
  intros Hx Hy E. apply lxor_eq_0, (crc_bits_0 n); [by apply lxor_range|].
  rewrite crc_bits_lxor. by apply lxor_eq_0.
Qed.

Lemma lxor_cancel_r x y z : Z.lxor x z = Z.lxor y z -> x = y.
Proof.
  intros E. apply lxor_eq_0. apply lxor_eq_0 in E.
  rewrite <- E. rewrite (Z.lxor_comm y z), Z.lxor_assoc, <- (Z.lxor_assoc z z y).
  by rewrite Z.lxor_nilpotent, Z.lxor_0_l.
Qed.

Lemma lxor_cancel_l x y z : Z.lxor z x = Z.lxor z y -> x = y.
Proof. rewrite !(Z.lxor_comm z). apply lxor_cancel_r. Qed.

Lemma shifted_byte_range b : is_byte b -> 0 <= Z.shiftl b 24 < 2 ^ 32.
Proof. unfold is_byte. intros. rewrite Z.shiftl_mul_pow2; lia. Qed.

Lemma crc_byte_inj r1 r2 b :
  0 <= r1 < 2 ^ 32 -> 0 <= r2 < 2 ^ 32 -> is_byte b ->
  crc_byte r1 b = crc_byte r2 b -> r1 = r2.
Proof.
  intros H1 H2 Hb E. unfold crc_byte in E. pose proof (shifted_byte_range b Hb).
  apply crc_bits_inj in E; [|apply lxor_range; lia|apply lxor_range; lia].
  by apply lxor_cancel_r in E.
Qed.

Lemma crc_fold_range data r :
  0 <= r < 2 ^ 32 -> all_bytes data -> 0 <= fold_left crc_byte data r < 2 ^ 32.
Proof. intros. by apply calc_from. Qed.

Lemma crc_fold_inj data r1 r2 :
  0 <= r1 < 2 ^ 32 -> 0 <= r2 < 2 ^ 32 -> all_bytes data ->
  fold_left crc_byte data r1 = fold_left crc_byte data r2 -> r1 = r2.
Proof.
  intros H1 H2 Hd. revert r1 r2 H1 H2.
  induction Hd as [|b data Hb _ IH]; intros r1 r2 H1 H2 E; [exact E|].
  rewrite !fold_left_cons in E.
  apply IH in E; [|by apply crc_byte_range|by apply crc_byte_range].
  by apply crc_byte_inj in E.
Qed.

(** Up to four bytes enter the register as one word. *)
Lemma crc_fold_word e r :
  all_bytes e -> (length e <= 4)%nat ->
  fold_left crc_byte e r =
    crc_bits (8 * length e) (Z.lxor r (Z.shiftl (be_value e) (32 - 8 * zlen e))).
Proof.
  intros He. revert r. induction He as [|b e Hb He IH]; intros r Hl.
  - change (be_value []) with 0. by rewrite Z.shiftl_0_l, Z.lxor_0_r.
  - cbn [length] in Hl. rewrite fold_left_cons, IH by lia. replace (8 * length (b :: e))%nat with (8 + 8 * length e)%nat by (simpl; lia).
    rewrite crc_bits_add. f_equal. rewrite be_value_cons, zlen_cons.
    pose proof (be_value_range e He) as Hv. unfold crc_byte.
    assert (zlen e = Z.of_nat (length e)) as Ek by done.
    set (k := zlen e) in *. set (v := be_value e) in *.
    assert (256 ^ k = 2 ^ (8 * k)) as Ep by (change 256 with (2 ^ 8); rewrite <- Z.pow_mul_r; lia).
    assert (2 ^ (8 * k) * 2 ^ (32 - 8 * (1 + k)) = 2 ^ 24) as E24
      by (rewrite <- Z.pow_add_r by lia; f_equal; lia).
    assert (0 < 2 ^ (32 - 8 * (1 + k))) by (apply Z.pow_pos_nonneg; lia).
    assert (Z.shiftl (b * 256 ^ k + v) (32 - 8 * (1 + k)) =
              Z.lxor (Z.shiftl b 24) (Z.shiftl v (32 - 8 * (1 + k)))) as ->.
    { rewrite <- Z.add_nocarry_lxor.
      - rewrite !Z.shiftl_mul_pow2 by lia. rewrite Ep, <- E24. ring.
      - apply Z.bits_inj'. intros n Hn. rewrite Z.land_spec, Z.bits_0.
        destruct (decide (n < 24)); [by rewrite Z.shiftl_spec_low by lia|].
        rewrite andb_comm. replace (Z.testbit (Z.shiftl v (32 - 8 * (1 + k))) n) with false; [done|].
        rewrite <- (Z.mod_small (Z.shiftl v (32 - 8 * (1 + k))) (2 ^ 24)).
        + by rewrite Z.mod_pow2_bits_high by lia.
        + rewrite Z.shiftl_mul_pow2 by lia. nia. }
    rewrite <- Z.lxor_assoc, (crc_bits_lxor 8 (Z.lxor r _)). f_equal.
    assert (0 <= Z.shiftl v (32 - 8 * (1 + k)) < 2 ^ 24)
      by (rewrite Z.shiftl_mul_pow2 by lia; nia).
    rewrite (crc_bits_small 8) by (lia || done).
    rewrite !Z.shiftl_mul_pow2 by lia.
    replace (32 - 8 * k) with (8 + (32 - 8 * (1 + k))) by lia. rewrite Z.pow_add_r by lia.
    change (Z.of_nat 8) with 8. ring.
Qed.

Lemma word_range e :
  all_bytes e -> (length e <= 4)%nat -> 0 <= Z.shiftl (be_value e) (32 - 8 * zlen e) < 2 ^ 32.
Proof.
  intros He Hl. pose proof (be_value_range e He) as Hv.
  assert (zlen e = Z.of_nat (length e)) as Ek by done.
  rewrite Z.shiftl_mul_pow2 by lia.
  assert (256 ^ zlen e * 2 ^ (32 - 8 * zlen e) = 2 ^ 32) as E.
  { change 256 with (2 ^ 8). rewrite <- Z.pow_mul_r, <- Z.pow_add_r by lia. f_equal. lia. }
  assert (0 < 2 ^ (32 - 8 * zlen e)) by (apply Z.pow_pos_nonneg; lia). nia.
Qed.

Lemma crc_fold_burst e1 e2 r :
  all_bytes e1 -> all_bytes e2 -> length e1 = length e2 -> (length e1 <= 4)%nat ->
  0 <= r < 2 ^ 32 -> fold_left crc_byte e1 r = fold_left crc_byte e2 r -> e1 = e2.
Proof.
  intros H1 H2 El Hl Hr E. rewrite !crc_fold_word in E by (done || lia).
  pose proof (word_range e1 H1 ltac:(lia)). pose proof (word_range e2 H2 ltac:(lia)).
  assert (zlen e1 = zlen e2) as Ez by (unfold zlen; lia).
  rewrite El in E. apply crc_bits_inj in E; [|by apply lxor_range; lia|by apply lxor_range; lia].
  apply lxor_cancel_l in E. rewrite Ez, !Z.shiftl_mul_pow2 in E by (unfold zlen; lia).
  apply Z.mul_cancel_r in E; [|apply Z.pow_nonzero; unfold zlen; lia].
  rewrite <- (be_bytes_value e1), <- (be_bytes_value e2) by done. by rewrite E, El.
Qed.

(** The check detects every error burst of up to four bytes: two blocks of
    equal length that differ only inside four consecutive bytes never have the
    same CRC. *)
Theorem calc_detects_burst p e1 e2 q :
  all_bytes (p ++ e1 ++ q) -> all_bytes e2 ->
  length e1 = length e2 -> (length e1 <= 4)%nat -> e1 <> e2 ->
  CastagnoliCRC32_calc (p ++ e1 ++ q) <> CastagnoliCRC32_calc (p ++ e2 ++ q).
Proof.
  intros Hd H2 El Hl Hne E. apply Hne.
  apply Forall_app in Hd as [Hp Hd]. apply Forall_app in Hd as [H1 Hq].
  unfold CastagnoliCRC32_calc in E.
  rewrite (proj1 (calc_from 0 (p ++ e1 ++ q) ltac:(lia) ltac:(rewrite !Forall_app; done))) in E.
  rewrite (proj1 (calc_from 0 (p ++ e2 ++ q) ltac:(lia) ltac:(rewrite !Forall_app; done))) in E.
  rewrite !fold_left_app in E.
  pose proof (crc_fold_range p 0 ltac:(lia) Hp) as Hr.
  apply crc_fold_inj in E; [|by apply crc_fold_range|by apply crc_fold_range|done].
  by apply crc_fold_burst in E.
Qed.

(** A block followed by its CRC in big-endian order has CRC zero, and a
    block whose four-byte trailer is not its CRC does not. *)
Theorem calc_residue data trailer :
  all_bytes data -> all_bytes trailer -> length trailer = 4%nat ->
  CastagnoliCRC32_calc (data ++ trailer) = 0 <-> be_value trailer = CastagnoliCRC32_calc data.
Proof.
  intros Hd Ht Hl. unfold CastagnoliCRC32_calc.
  rewrite (proj1 (calc_from 0 (data ++ trailer) ltac:(lia) ltac:(by apply Forall_app))).
  rewrite (proj1 (calc_from 0 data ltac:(lia) Hd)), fold_left_app.
  pose proof (crc_fold_range data 0 ltac:(lia) Hd) as Hr.
  rewrite crc_fold_word by (done || lia). unfold zlen. rewrite Hl.
  change (32 - 8 * Z.of_nat 4) with 0. rewrite Z.shiftl_0_r.
  pose proof (be_value_range trailer Ht) as Hv. unfold zlen in Hv. rewrite Hl in Hv.
  change (256 ^ Z.of_nat 4) with (2 ^ 32) in Hv. split; intros E.
  - apply crc_bits_0 in E; [|by apply lxor_range; lia]. by apply (proj1 (lxor_eq_0 _ _)) in E.
  - rewrite E, Z.lxor_nilpotent. reflexivity.
Qed.

Lemma calc_detects_burst_witness :
  CastagnoliCRC32_calc ([1; 2] ++ [3] ++ [4]) <> CastagnoliCRC32_calc ([1; 2] ++ [5] ++ [4]).
Proof.
  apply (calc_detects_burst [1; 2] [3] [5] [4]); [concrete_bytes|concrete_bytes|reflexivity| |].
  - apply (le_S 1 3), (le_S 1 2), (le_S 1 1), le_n.
  - discriminate.
Defined.

Lemma calc_residue_witness :
  CastagnoliCRC32_calc
    ([0x07; 0xAA; 0x00; 0x01; 0x00; 0x02; 0x00; 0x06] ++ [0x11; 0xFB; 0xE3; 0x40]) = 0.
Proof.
  apply (calc_residue [0x07; 0xAA; 0x00; 0x01; 0x00; 0x02; 0x00; 0x06] [0x11; 0xFB; 0xE3; 0x40]);
    [concrete_bytes|concrete_bytes|reflexivity|by vm_compute].
Defined.
