(* ===== verification/LinkParser.v ===== *)
(** * The link-layer frame parser

    [LinkParser] of [link/LinkParser.h] and [link/LinkParser.cpp].  The parser
    owns a buffer it assembles a frame in.  When a header fails its check, the
    ten bytes after the synchronization bytes are parsed again, and that input
    is a slice of the very buffer the parser is writing to: [input_seq] keeps
    the two kinds of input apart, so that a store to the buffer is seen by the
    input that aliases it.

    The specification is an automaton that takes one byte at a time and keeps
    the bytes of the frame in lists ([astep], [arun]); [parse_refines] shows
    that the parser implements it on every input. *)

From stdpp Require Import base numbers list.
From Stdlib Require Import Lia ZArith.
From S2P Require Import Prelude Ser4cpp CRC.

(** ** [consts::link] *)

Definition link_sync1 : Z := 0x07.
Definition link_sync2 : Z := 0xAA.
Definition max_config_payload_size : Z := 4092.
Definition crc_size : Z := 4.
Definition header_fields_size : Z := 8.
Definition header_total_size : Z := header_fields_size + crc_size.
Definition min_frame_size : Z := header_total_size + crc_size.
Definition max_frame_size : Z := min_frame_size + max_config_payload_size.

(** ** State *)

(** [struct Addresses] *)
Record Addresses := mkAddresses { destination : Z; source : Z }.

(** A slice of the parser's own buffer. *)
Record slice := mkSlice { s_off : Z; s_len : Z }.

Definition deref (buffer : bytes) (s : slice) : bytes :=
  ztake (s_len s) (zdrop (s_off s) buffer).

(** [LinkParser::Result] *)
Record LinkResult := mkLinkResult { lr_addresses : Addresses; lr_payload : slice }.

(** The calls made on [LinkParser::IReporter]. *)
Inductive link_report :=
| on_bad_header_crc (expected actual : Z)
| on_bad_body_crc (expected actual : Z)
| on_bad_body_length (max_allowed actual : Z).

(** [LinkParser::State] *)
Inductive link_value := wait_sync1 | wait_sync2 | wait_header | wait_body | wait_read.

#[export] Instance link_value_eq_dec : EqDecision link_value.
Proof. solve_decision. Defined.

Record State := mkState { value : link_value; num_buffered : Z }.

Definition State_wait_sync1 : State := mkState wait_sync1 0.
Definition State_wait_sync2 : State := mkState wait_sync2 1.
Definition State_wait_header (num : Z) : State := mkState wait_header num.
Definition State_wait_body (num : Z) : State := mkState wait_body num.
Definition State_wait_read (num : Z) : State := mkState wait_read num.

Definition is_wait_read (s : State) : bool :=
  match value s with wait_read => true | _ => false end.

(** [LinkParser::Context]; [reports] is the trace of the calls on the
    reporter. *)
Record Context := mkContext {
  max_payload_length : Z;
  buffer : bytes;
  result : LinkResult;
  payload_length : Z;
  reports : list link_report;
}.

Definition set_buffer (ctx : Context) (b : bytes) : Context :=
  mkContext (max_payload_length ctx) b (result ctx) (payload_length ctx) (reports ctx).
Definition set_header (ctx : Context) (dest src len : Z) : Context :=
  mkContext (max_payload_length ctx) (buffer ctx)
    (mkLinkResult (mkAddresses dest src) (lr_payload (result ctx))) len (reports ctx).
Definition set_payload (ctx : Context) (s : slice) : Context :=
  mkContext (max_payload_length ctx) (buffer ctx)
    (mkLinkResult (lr_addresses (result ctx)) s) (payload_length ctx) (reports ctx).
Definition report (ctx : Context) (r : link_report) : Context :=
  mkContext (max_payload_length ctx) (buffer ctx) (result ctx) (payload_length ctx)
    (reports ctx ++ [r]).

(** The input of a parsing routine: bytes outside the parser, or a slice of
    its own buffer. *)
Inductive input_seq :=
| Ext (data : bytes)
| Own (s : slice).

Section Definitions.
Context `{SER : Ser4cpp}.

Definition contents (buf : bytes) (input : input_seq) : bytes :=
  match input with Ext data => data | Own s => deref buf s end.

Definition input_length (input : input_seq) : Z :=
  match input with Ext data => zlen data | Own s => s_len s end.

Definition input_at (buf : bytes) (input : input_seq) (i : Z) : Z := znth (contents buf input) i.

Definition advance (input : input_seq) (n : Z) : input_seq :=
  match input with
  | Ext data => Ext (seq_skip data n)
  | Own s => Own (mkSlice (s_off s + n) (s_len s - n))
  end.

(** [LinkParser::Context::Context]; [memory] is the storage of the buffer
    the constructor allocates. *)
Definition Context_new (max_payload_length_ : Z) (memory : bytes) : Context :=
  mkContext (Z.min max_payload_length_ max_config_payload_size) memory
    (mkLinkResult (mkAddresses 0 0) (mkSlice 0 0)) 0 [].

(** The size of the buffer. *)
Definition Context_buffer_size (max_payload_length_ : Z) : Z :=
  min_frame_size + max_payload_length_.

Definition transfer_data (state : State) (ctx : Context) (input : input_seq)
    (max_bytes_to_buffer : Z) : Z * Context * input_seq :=
  let remaining := u32 (max_bytes_to_buffer - num_buffered state) in
  let num_to_copy := Z.min remaining (input_length input) in
  let dest := wseq_skip (WSeq (buffer ctx) 0) (num_buffered state) in
  let dest := wseq_move_from dest (seq_take (contents (buffer ctx) input) num_to_copy) in
  (num_to_copy + num_buffered state, set_buffer ctx (w_buf dest), advance input num_to_copy).

(** The loop of [parse_sync1] over the [n] remaining bytes. *)
Fixpoint parse_sync1_loop (n : nat) (ctx : Context) (input : input_seq)
  : State * Context * input_seq :=
  match n with
  | O => (State_wait_sync1, ctx, input)
  | S n =>
      let v := input_at (buffer ctx) input 0 in
      let input := advance input 1 in
      if v =? link_sync1
      then (State_wait_sync2, set_buffer ctx (overwrite (buffer ctx) 0 [v]), input)
      else parse_sync1_loop n ctx input
  end.

Definition parse_sync1 (state : State) (ctx : Context) (input : input_seq)
  : State * Context * input_seq :=
  parse_sync1_loop (Z.to_nat (input_length input)) ctx input.

Definition parse_sync2 (state : State) (ctx : Context) (input : input_seq)
  : State * Context * input_seq :=
  let v := input_at (buffer ctx) input 0 in
  let input := advance input 1 in
  if v =? link_sync2
  then (State_wait_header 2, set_buffer ctx (overwrite (buffer ctx) 1 [v]), input)
  else (State_wait_sync1, ctx, input).

(** [parse_many_] is the routine the header is parsed again with. *)
Definition parse_header
    (parse_many_ : State -> Context -> input_seq -> option (State * Context * input_seq))
    (state : State) (ctx : Context) (input : input_seq)
  : option (State * Context * input_seq) :=
  let '(new_num_buffered, ctx, input) := transfer_data state ctx input header_total_size in
  if negb (new_num_buffered =? header_total_size)
  then Some (State_wait_header new_num_buffered, ctx, input)
  else
    let header_start := seq_skip (buffer ctx) 2 in
    let '(ctx, actual_crc) :=
      match BigEndian_read [UInt16; UInt16; UInt16; UInt32] header_start with
      | Some ([dest; src; len; crc], _) => (set_header ctx dest src len, crc)
      | _ => (ctx, 0)
      end in
    let expected_crc := CastagnoliCRC32_calc (seq_take (buffer ctx) header_fields_size) in
    if negb (expected_crc =? actual_crc)
    then
      let ctx := report ctx (on_bad_header_crc expected_crc actual_crc) in
      let header := Own (mkSlice 2 (header_total_size - 2)) in
      match parse_many_ State_wait_sync1 ctx header with
      | Some (state, ctx, _) => Some (state, ctx, input)
      | None => None
      end
    else if max_payload_length ctx <? payload_length ctx
    then
      Some (State_wait_sync1,
            report ctx (on_bad_body_length (max_payload_length ctx) (payload_length ctx)), input)
    else Some (State_wait_body new_num_buffered, ctx, input).

Definition parse_body (state : State) (ctx : Context) (input : input_seq)
  : State * Context * input_seq :=
  let total_frame_size := header_total_size + payload_length ctx + crc_size in
  let '(new_num_buffered, ctx, input) := transfer_data state ctx input total_frame_size in
  if negb (new_num_buffered =? total_frame_size)
  then (State_wait_body new_num_buffered, ctx, input)
  else
    let ctx := set_payload ctx (mkSlice header_total_size (payload_length ctx)) in
    let expected_crc := CastagnoliCRC32_calc (deref (buffer ctx) (lr_payload (result ctx))) in
    let crcb_start := seq_skip (buffer ctx) (header_total_size + payload_length ctx) in
    let actual_crc :=
      match read_from UInt32 crcb_start with Some (v, _) => v | None => 0 end in
    if negb (expected_crc =? actual_crc)
    then (State_wait_sync1, report ctx (on_bad_body_crc expected_crc actual_crc), input)
    else (State_wait_read new_num_buffered, ctx, input).

Definition parse_one
    (parse_many_ : State -> Context -> input_seq -> option (State * Context * input_seq))
    (state : State) (ctx : Context) (input : input_seq)
  : option (State * Context * input_seq) :=
  match value state with
  | wait_sync1 => Some (parse_sync1 state ctx input)
  | wait_sync2 => Some (parse_sync2 state ctx input)
  | wait_header => parse_header parse_many_ state ctx input
  | wait_body => Some (parse_body state ctx input)
  | wait_read => Some (state, ctx, input)
  end.

(** [None] when the fuel is spent; [parse_refines] shows that it is not. *)
Fixpoint parse_many (fuel : nat) (state : State) (ctx : Context) (input : input_seq)
  : option (State * Context * input_seq) :=
  match fuel with
  | O => None
  | S fuel =>
      if (0 <? input_length input) && negb (is_wait_read state)
      then
        match parse_one (parse_many fuel) state ctx input with
        | Some (state, ctx, input) => parse_many fuel state ctx input
        | None => None
        end
      else Some (state, ctx, input)
  end.

(** [LinkParser] *)
Record LinkParser := mkLinkParser { context : Context; state : State }.

Definition LinkParser_new (max_payload_length_ : Z) (memory : bytes) : LinkParser :=
  mkLinkParser (Context_new max_payload_length_ memory) State_wait_sync1.

Definition LinkParser_reset (p : LinkParser) : LinkParser :=
  mkLinkParser (context p) State_wait_sync1.

(** At most one round per input byte, and the rounds of one header that is
    parsed again. *)
Definition parse_fuel (input : bytes) : nat := length input + 12.

(** [LinkParser::parse]: whether a frame is ready, the parser and what is
    left of the input. *)
Definition LinkParser_parse (p : LinkParser) (input : bytes)
  : option (bool * LinkParser * bytes) :=
  match parse_many (parse_fuel input) (state p) (context p) (Ext input) with
  | Some (st, ctx, input) =>
      Some (is_wait_read st, mkLinkParser ctx st, contents (buffer ctx) input)
  | None => None
  end.

Definition LinkParser_has_result (p : LinkParser) : bool := is_wait_read (state p).

Definition LinkParser_read (p : LinkParser) : option LinkResult :=
  if negb (is_wait_read (state p)) then None else Some (result (context p)).

(** What the caller of [read] sees through the result. *)
Definition LinkParser_frame (p : LinkParser) : option (Addresses * bytes) :=
  match LinkParser_read p with
  | Some r => Some (lr_addresses r, deref (buffer (context p)) (lr_payload r))
  | None => None
  end.
End Definitions.

Example parse_example :
  let frame := [0x07; 0xAA; 0x00; 0x01; 0x00; 0x02; 0x00; 0x06; 0x11; 0xFB; 0xE3; 0x40;
                0xDD; 0xDD; 0xDD; 0xDD; 0xDD; 0xDD; 0x51; 0x0D; 0x37; 0x6B] in
  match LinkParser_parse (SER := ser4cpp_reference)
          (LinkParser_new 10 (replicate 26 0)) (frame ++ [1; 2]) with
  | Some (b, p, rest) => (b, LinkParser_frame p, rest)
  | None => (false, None, [])
  end = (true, Some (mkAddresses 1 2, replicate 6 0xDD), [1; 2]).
Proof. by vm_compute. Qed.

(** ** The specification: a byte at a time *)

Inductive mode :=
| MSync1
| MSync2
| MHeader (fields : bytes)
| MBody (addr : Addresses) (len : Z) (received : bytes)
| MDone (addr : Addresses) (payload : bytes).

Definition is_done (m : mode) : bool := match m with MDone _ _ => true | _ => false end.

(** Looking for the synchronization bytes, without the checks. *)
Definition scan_step (m : mode) (b : Z) : mode :=
  match m with
  | MSync1 => if b =? link_sync1 then MSync2 else MSync1
  | MSync2 => if b =? link_sync2 then MHeader [] else MSync1
  | MHeader l => MHeader (l ++ [b])
  | m => m
  end.

Definition scan (l : bytes) (m : mode) : mode := fold_left scan_step l m.

Definition field16 (l : bytes) (i : Z) : Z := be_value (ztake 2 (zdrop i l)).
Definition field32 (l : bytes) (i : Z) : Z := be_value (ztake 4 (zdrop i l)).

(** The ten bytes after the synchronization bytes have arrived. *)
Definition header_complete (max : Z) (l : bytes) : mode * list link_report :=
  let expected := CastagnoliCRC32_calc ([link_sync1; link_sync2] ++ ztake 6 l) in
  let actual := field32 l 6 in
  let len := field16 l 4 in
  if negb (expected =? actual) then (scan l MSync1, [on_bad_header_crc expected actual])
  else if max <? len then (MSync1, [on_bad_body_length max len])
  else (MBody (mkAddresses (field16 l 0) (field16 l 2)) len [], []).

(** The body and its check have arrived. *)
Definition body_complete (addr : Addresses) (len : Z) (l : bytes) : mode * list link_report :=
  let expected := CastagnoliCRC32_calc (ztake len l) in
  let actual := field32 l len in
  if negb (expected =? actual) then (MSync1, [on_bad_body_crc expected actual])
  else (MDone addr (ztake len l), []).

Definition astep (max : Z) (m : mode) (b : Z) : mode * list link_report :=
  match m with
  | MHeader l =>
      if zlen l + 1 =? 10 then header_complete max (l ++ [b]) else (MHeader (l ++ [b]), [])
  | MBody addr len l =>
      if zlen l + 1 =? len + 4 then body_complete addr len (l ++ [b])
      else (MBody addr len (l ++ [b]), [])
  | m => (scan_step m b, [])
  end.

(** Bytes are taken until a frame is complete. *)
Fixpoint arun (max : Z) (m : mode) (s : bytes) : mode * list link_report * bytes :=
  match s with
  | [] => (m, [], [])
  | b :: s =>
      if is_done m then (m, [], b :: s)
      else
        let '(m, r1) := astep max m b in
        let '(m, r2, rest) := arun max m s in (m, r1 ++ r2, rest)
  end.

Section Automaton.
Context (max : Z).

Lemma arun_app m c m' r rest :
  arun max m c = (m', r, []) ->
  arun max m (c ++ rest) =
    (let '(m'', r', rest') := arun max m' rest in (m'', r ++ r', rest')).
Proof.
  revert m r. induction c as [|b c IH]; intros m r.
  - intros [= -> <-]. simpl. by destruct (arun max m' rest) as [[? ?] ?].
  - simpl. destruct (is_done m); [done|].
    destruct (astep max m b) as [m1 r1].
    destruct (arun max m1 c) as [[m2 r2] rest2] eqn:E. intros [= -> <- ->].
    rewrite (IH m1 r2 E). destruct (arun max m' rest) as [[m3 r3] rest3].
    by rewrite app_assoc.
Qed.

Lemma arun_done m s : is_done m = true -> arun max m s = (m, [], s).
Proof. destruct s; simpl; [done|]. by intros ->. Qed.

(** A run that completes no frame takes all its input. *)
Lemma arun_not_done m s m' r rest :
  arun max m s = (m', r, rest) -> is_done m' = false -> rest = [].
Proof.
  intros Hrun Hnd. revert m r Hrun. induction s as [|b s IH]; intros m r; simpl.
  - by intros [= _ _ <-].
  - destruct (is_done m) eqn:E; [intros [= -> _ <-]; congruence|].
    destruct (astep max m b) as [m2 r2].
    destruct (arun max m2 s) as [[m3 r3] rest3] eqn:E2. intros [= -> _ ->]. by eapply IH.
Qed.

(** What a run takes from its input. *)
Lemma arun_split m s m' r rest :
  arun max m s = (m', r, rest) ->
  exists c, s = c ++ rest /\ arun max m c = (m', r, []).
Proof.
  revert m r. induction s as [|b s IH]; intros m r; simpl.
  - intros [= -> <- <-]. by exists [].
  - destruct (is_done m) eqn:E; [intros [= -> <- <-]; by exists []|].
    destruct (astep max m b) as [m2 r2] eqn:E1.
    destruct (arun max m2 s) as [[m3 r3] rest3] eqn:E2. intros [= -> <- ->].
    destruct (IH m2 r3 E2) as (c&->&Hc). exists (b :: c). split; [done|].
    simpl. by rewrite E, E1, Hc.
Qed.

Lemma arun_header_part l s :
  zlen l + zlen s < 10 -> arun max (MHeader l) s = (MHeader (l ++ s), [], []).
Proof.
  revert l. induction s as [|b s IH]; intros l Hl; simpl; [by rewrite app_nil_r|].
  rewrite zlen_cons in Hl. pose proof (zlen_nonneg s).
  destruct (zlen l + 1 =? 10) eqn:E; btests; [lia|].
  rewrite IH by (rewrite zlen_app, zlen_cons, (@zlen_nil Z); lia).
  by rewrite <- app_assoc.
Qed.

Lemma arun_header_full l s :
  s <> [] -> zlen l + zlen s = 10 ->
  arun max (MHeader l) s =
    (let '(m, r) := header_complete max (l ++ s) in (m, r, [])).
Proof.
  intros Hs. destruct (exists_last Hs) as (s'&b&->). intros Hl.
  rewrite zlen_app, zlen_cons, (@zlen_nil Z) in Hl.
  rewrite (arun_app _ _ _ _ [b] (arun_header_part l s' ltac:(lia))). simpl.
  rewrite zlen_app, <- app_assoc. destruct (_ =? 10) eqn:E; btests; [|lia].
  destruct (header_complete max (l ++ s' ++ [b])) as [m r]. by rewrite app_nil_r.
Qed.

Lemma arun_body_part addr len l s :
  zlen l + zlen s < len + 4 -> arun max (MBody addr len l) s = (MBody addr len (l ++ s), [], []).
Proof.
  revert l. induction s as [|b s IH]; intros l Hl; simpl; [by rewrite app_nil_r|].
  rewrite zlen_cons in Hl. pose proof (zlen_nonneg s).
  destruct (zlen l + 1 =? len + 4) eqn:E; btests; [lia|].
  rewrite IH by (rewrite zlen_app, zlen_cons, (@zlen_nil Z); lia).
  by rewrite <- app_assoc.
Qed.

Lemma arun_body_full addr len l s :
  s <> [] -> zlen l + zlen s = len + 4 ->
  arun max (MBody addr len l) s =
    (let '(m, r) := body_complete addr len (l ++ s) in (m, r, [])).
Proof.
  intros Hs. destruct (exists_last Hs) as (s'&b&->). intros Hl.
  rewrite zlen_app, zlen_cons, (@zlen_nil Z) in Hl.
  rewrite (arun_app _ _ _ _ [b] (arun_body_part addr len l s' ltac:(lia))). simpl.
  rewrite zlen_app, <- app_assoc. destruct (_ =? len + 4) eqn:E; btests; [|lia].
  destruct (body_complete addr len (l ++ s' ++ [b])) as [m r]. by rewrite app_nil_r.
Qed.
End Automaton.

(** ** Refinement *)

Section Refinement.
Context `{SER : Ser4cpp}.

(** The buffer holds the largest frame the parser accepts. *)
Definition ctx_ok (ctx : Context) : Prop :=
  0 <= max_payload_length ctx /\
  min_frame_size + max_payload_length ctx <= zlen (buffer ctx) /\
  zlen (buffer ctx) <= min_frame_size + max_u16.

(** The state and the buffer hold what the automaton knows. *)
Definition implements (st : State) (ctx : Context) (m : mode) : Prop :=
  match value st, m with
  | wait_sync1, MSync1 => num_buffered st = 0
  | wait_sync2, MSync2 => num_buffered st = 1 /\ ztake 1 (buffer ctx) = [link_sync1]
  | wait_header, MHeader l =>
      num_buffered st = 2 + zlen l /\ zlen l < 10 /\
      ztake (2 + zlen l) (buffer ctx) = [link_sync1; link_sync2] ++ l
  | wait_body, MBody addr len l =>
      num_buffered st = header_total_size + zlen l /\ zlen l < len + crc_size /\
      lr_addresses (result ctx) = addr /\ payload_length ctx = len /\
      0 <= len <= max_payload_length ctx /\
      ztake (zlen l) (zdrop header_total_size (buffer ctx)) = l
  | wait_read, MDone addr p =>
      lr_addresses (result ctx) = addr /\ deref (buffer ctx) (lr_payload (result ctx)) = p /\
      zlen p <= max_payload_length ctx
  | _, _ => False
  end.

Definition input_ok (buf : bytes) (input : input_seq) : Prop :=
  match input with
  | Ext _ => True
  | Own s => 0 <= s_off s /\ 0 <= s_len s /\ s_off s + s_len s <= zlen buf
  end.

Lemma input_length_contents buf input :
  input_ok buf input -> input_length input = zlen (contents buf input).
Proof.
  destruct input as [data|[off len]]; simpl; [done|]. intros (?&?&?).
  unfold deref. simpl. rewrite zlen_ztake, zlen_zdrop by lia. lia.
Qed.

Lemma contents_advance buf input n :
  input_ok buf input -> 0 <= n -> contents buf (advance input n) = zdrop n (contents buf input).
Proof.
  destruct input as [data|[off len]]; simpl; intros Hi Hn; [by apply seq_skip_spec|].
  unfold deref. simpl. rewrite zdrop_ztake, zdrop_zdrop by lia. done.
Qed.

Lemma advance_advance input a b :
  0 <= a -> 0 <= b -> advance (advance input a) b = advance input (a + b).
Proof.
  intros. destruct input as [data|[off len]]; simpl.
  - rewrite !seq_skip_spec, zdrop_zdrop by lia. done.
  - do 2 f_equal; lia.
Qed.

Lemma advance_ok buf input n :
  input_ok buf input -> 0 <= n <= input_length input -> input_ok buf (advance input n).
Proof. destruct input as [data|[off len]]; simpl; [done|]. lia. Qed.

Lemma advance_length input n :
  0 <= n <= input_length input -> input_length (advance input n) = input_length input - n.
Proof.
  destruct input as [data|[off len]]; simpl; [|done].
  intros. rewrite seq_skip_spec, zlen_zdrop; lia.
Qed.

Lemma input_at_head buf input b c :
  contents buf input = b :: c -> input_at buf input 0 = b.
Proof. intros E. unfold input_at. by rewrite E. Qed.

Lemma transfer_data_spec st ctx input max_bytes :
  input_ok (buffer ctx) input ->
  0 <= num_buffered st <= max_bytes -> max_bytes <= zlen (buffer ctx) ->
  max_bytes < 2 ^ 32 ->
  let c := ztake (max_bytes - num_buffered st) (contents (buffer ctx) input) in
  transfer_data st ctx input max_bytes =
    (num_buffered st + zlen c, set_buffer ctx (overwrite (buffer ctx) (num_buffered st) c),
     advance input (zlen c)).
Proof.
  intros Hi Hn Hb Hm c. unfold transfer_data.
  unfold u32. rewrite Z.mod_small by lia.
  rewrite (input_length_contents _ _ Hi).
  set (k := Z.min _ _). pose proof (zlen_nonneg (contents (buffer ctx) input)).
  assert (seq_take (contents (buffer ctx) input) k = c) as Ec.
  { rewrite seq_take_spec by lia. subst c k.
    destruct (decide (zlen (contents (buffer ctx) input) <= max_bytes - num_buffered st)).
    - rewrite !ztake_ge by lia. done.
    - f_equal. lia. }
  assert (zlen c = k) as Ek by (subst c k; rewrite zlen_ztake; lia).
  rewrite Ec, <- Ek. rewrite wseq_skip_spec by (unfold wseq_length; simpl; lia). simpl.
  rewrite wseq_move_from_spec by (unfold wseq_ok, wseq_length; simpl; lia).
  unfold wseq_store. simpl. f_equal. f_equal. lia.
Qed.

(** A round of the parser that looks for a frame: it takes [c] from the
    input, moves to the mode the automaton reaches on [c], and leaves the
    buffer beyond the buffered bytes alone. *)
Definition scanned (st : State) (ctx : Context) (input : input_seq) (m : mode)
    (res : State * Context * input_seq) : Prop :=
  exists c rest st' buf',
    contents (buffer ctx) input = c ++ rest /\ c <> [] /\
    res = (st', set_buffer ctx buf', advance input (zlen c)) /\
    zlen buf' = zlen (buffer ctx) /\
    num_buffered st' <= num_buffered st + zlen c /\
    (forall n, num_buffered st' <= n -> zdrop n buf' = zdrop n (buffer ctx)) /\
    implements st' (set_buffer ctx buf') (scan c m) /\
    arun (max_payload_length ctx) m c = (scan c m, [], []).

Lemma set_buffer_same ctx : set_buffer ctx (buffer ctx) = ctx.
Proof. by destruct ctx. Qed.

Lemma overwrite_beyond buf pos data n :
  0 <= pos -> pos + zlen data <= zlen buf -> pos + zlen data <= n ->
  zdrop n (overwrite buf pos data) = zdrop n buf.
Proof. intros. by apply overwrite_after. Qed.

Lemma parse_sync1_loop_spec n ctx input :
  1 <= zlen (buffer ctx) -> input_ok (buffer ctx) input ->
  Z.of_nat n = input_length input -> (0 < n)%nat ->
  scanned State_wait_sync1 ctx input MSync1 (parse_sync1_loop n ctx input).
Proof.
  intros Hb. revert input. induction n as [|n IH]; intros input Hi Hn Hpos; [lia|].
  simpl. pose proof (input_length_contents _ _ Hi) as El.
  destruct (contents (buffer ctx) input) as [|b c] eqn:Ec; [change (zlen (@nil Z)) with 0 in El; lia|].
  rewrite (input_at_head _ _ b c Ec). rewrite zlen_cons in El.
  destruct (b =? link_sync1) eqn:E.
  - exists [b], c, State_wait_sync2, (overwrite (buffer ctx) 0 [b]).
    rewrite Ec. change (zlen [b]) with 1.
    split; [done|]. split; [done|]. split; [done|].
    split; [apply overwrite_length; [lia|done]|].
    split; [done|]. split; [intros k Hk; apply overwrite_beyond; [lia|done|exact Hk]|].
    simpl. rewrite E. btests. subst b. split; [|done].
    split; [done|]. exact (overwrite_upto (buffer ctx) 0 [link_sync1] ltac:(lia)).
  - assert (contents (buffer ctx) (advance input 1) = c) as Ec'
      by by rewrite contents_advance, Ec.
    destruct (decide (n = 0%nat)) as [->|Hn0].
    + exists [b], c, State_wait_sync1, (buffer ctx). rewrite set_buffer_same.
      rewrite Ec. simpl. rewrite E. done.
    + destruct (IH (advance input 1)) as (c1&rest&st'&buf'&Ecc&Hc&Eres&Hlen&Hnb&Hrest&Himp&Hrun);
        [apply advance_ok; [done|lia]|rewrite advance_length; lia|lia|].
      exists (b :: c1), rest, st', buf'. rewrite Ec' in Ecc. subst c.
      rewrite Ec, Ecc, zlen_cons. pose proof (zlen_nonneg c1).
      rewrite Eres, advance_advance by lia.
      split; [done|]. split; [done|]. split; [done|]. split; [done|].
      split; [simpl in *; lia|]. split; [done|].
      unfold scan in *. simpl. rewrite E. split; [done|]. by rewrite Hrun.
Qed.

Lemma scan_header l c : scan c (MHeader l) = MHeader (l ++ c).
Proof.
  revert l. induction c as [|b c IH]; intros l; [by rewrite app_nil_r|].
  unfold scan in *. simpl. rewrite IH, <- app_assoc. done.
Qed.

(** A mode that looks for a frame, with room for [n] more bytes before the
    header is complete. *)
Definition scanning (m : mode) : Prop :=
  match m with MSync1 | MSync2 | MHeader _ => True | _ => False end.

Lemma parse_sync2_spec st ctx input :
  2 <= zlen (buffer ctx) -> input_ok (buffer ctx) input -> 0 < input_length input ->
  implements st ctx MSync2 -> scanned st ctx input MSync2 (parse_sync2 st ctx input).
Proof.
  intros Hb Hi Hl Himp. pose proof (input_length_contents _ _ Hi) as El.
  destruct (contents (buffer ctx) input) as [|b c] eqn:Ec; [change (zlen (@nil Z)) with 0 in El; lia|].
  unfold parse_sync2. rewrite (input_at_head _ _ b c Ec).
  unfold implements in Himp. destruct (value st); try done. destruct Himp as [Hn Hs].
  exists [b], c. unfold scan. simpl. rewrite Ec, Hn. change (zlen [b]) with 1.
  destruct (b =? link_sync2) eqn:E.
  - exists (State_wait_header 2), (overwrite (buffer ctx) 1 [b]).
    split; [done|]. split; [done|]. split; [done|].
    split; [apply overwrite_length; [lia|done]|]. split; [done|].
    split; [intros k Hk; apply overwrite_beyond; [lia|done|exact Hk]|].
    split; [|done]. split; [done|]. split; [done|]. btests. subst b.
    transitivity (ztake 1 (buffer ctx) ++ [link_sync2]); [|by rewrite Hs].
    exact (overwrite_upto (buffer ctx) 1 [link_sync2] ltac:(lia)).
  - exists State_wait_sync1, (buffer ctx). rewrite set_buffer_same. done.
Qed.

(** Moving bytes into the header. *)
Lemma transfer_header st ctx input l :
  ctx_ok ctx -> input_ok (buffer ctx) input -> implements st ctx (MHeader l) ->
  let c := ztake (10 - zlen l) (contents (buffer ctx) input) in
  let buf' := overwrite (buffer ctx) (2 + zlen l) c in
  transfer_data st ctx input header_total_size =
    (2 + zlen (l ++ c), set_buffer ctx buf', advance input (zlen c)) /\
  zlen buf' = zlen (buffer ctx) /\
  (forall n, 2 + zlen (l ++ c) <= n -> zdrop n buf' = zdrop n (buffer ctx)) /\
  ztake (2 + zlen (l ++ c)) buf' = [link_sync1; link_sync2] ++ l ++ c /\
  zlen (l ++ c) <= 10.
Proof.
  intros (Hmax&Hbuf&_) Hi Himp c buf'. unfold implements in Himp.
  destruct (value st) eqn:Ev; try done. destruct Himp as (Hn&Hl&Ht).
  pose proof (zlen_nonneg l). pose proof (zlen_nonneg c).
  unfold min_frame_size, header_total_size, header_fields_size, crc_size in *.
  assert (zlen c <= 10 - zlen l) by (subst c; rewrite zlen_ztake; lia).
  pose proof (transfer_data_spec st ctx input 12 Hi) as Htr. rewrite Hn in Htr.
  replace (12 - (2 + zlen l)) with (10 - zlen l) in Htr by lia. fold c in Htr.
  rewrite zlen_app. split.
  { change (8 + 4) with 12. rewrite Htr by lia. do 2 f_equal. lia. }
  split; [apply overwrite_length; lia|].
  split; [intros k Hk; apply overwrite_beyond; lia|].
  split; [|lia]. replace (2 + (zlen l + zlen c)) with (2 + zlen l + zlen c) by lia.
  subst buf'. rewrite overwrite_upto by lia. rewrite Ht. done.
Qed.

Lemma parse_header_part k st ctx input l :
  ctx_ok ctx -> input_ok (buffer ctx) input -> 0 < input_length input ->
  implements st ctx (MHeader l) -> zlen l + input_length input < 10 ->
  exists res, parse_header k st ctx input = Some res /\ scanned st ctx input (MHeader l) res.
Proof.
  intros Hc Hi Hlen Himp Hpart.
  destruct (transfer_header st ctx input l Hc Hi Himp) as (Htr&Hlen'&Hrest&Htake&_).
  rewrite (input_length_contents _ _ Hi) in Hpart, Hlen.
  assert (ztake (10 - zlen l) (contents (buffer ctx) input) = contents (buffer ctx) input) as Ec
    by (apply ztake_ge; lia).
  rewrite Ec in Htr, Hlen', Hrest, Htake. set (c := contents (buffer ctx) input) in *.
  unfold parse_header. rewrite Htr.
  destruct (_ =? header_total_size) eqn:E; btests.
  { rewrite zlen_app in E. unfold header_total_size, header_fields_size, crc_size in E. lia. }
  simpl. eexists. split; [done|].
  eexists c, [], _, _. split; [by rewrite app_nil_r|].
  split; [intros E'; rewrite E' in Hlen; change (zlen (@nil Z)) with 0 in Hlen; lia|].
  split; [done|]. split; [done|]. unfold implements in Himp.
  destruct (value st); try done. destruct Himp as (Hn&Hl&Ht).
  rewrite zlen_app in *. split; [simpl; lia|]. split; [done|].
  rewrite scan_header. split; [|by rewrite arun_header_part by lia].
  split; [simpl; by rewrite zlen_app|]. rewrite zlen_app. split; [lia|]. exact Htake.
Qed.

Lemma implements_scan_num st ctx m :
  implements st ctx m -> scanning m ->
  0 <= num_buffered st /\
  match m with MHeader l => num_buffered st = 2 + zlen l | _ => num_buffered st <= 1 end.
Proof.
  unfold implements. destruct (value st), m; try done; intros H _.
  - lia.
  - lia.
  - destruct H as (H&_). pose proof (zlen_nonneg fields). lia.
Qed.

Lemma scan_step_scanning m b : scanning m -> scanning (scan_step m b).
Proof. destruct m; simpl; try done; by destruct (_ =? _). Qed.

Lemma scan_scanning c m : scanning m -> scanning (scan c m).
Proof.
  revert m. induction c as [|b c IH]; intros m Hm; [done|].
  unfold scan in *. simpl. by apply IH, scan_step_scanning.
Qed.

Lemma scan_app c1 c2 m : scan (c1 ++ c2) m = scan c2 (scan c1 m).
Proof. apply fold_left_app. Qed.

(** One round on an input too short to complete the header. *)
Lemma parse_one_scan k st ctx input m :
  ctx_ok ctx -> input_ok (buffer ctx) input -> 0 < input_length input ->
  implements st ctx m -> scanning m ->
  num_buffered st + input_length input < header_total_size ->
  exists res, parse_one k st ctx input = Some res /\ scanned st ctx input m res.
Proof.
  intros Hc Hi Hlen Himp Hm Hpart.
  pose proof Hc as (Hmax&Hbuf&_). unfold min_frame_size, header_total_size, header_fields_size, crc_size in *.
  unfold parse_one. destruct m; try done.
  - unfold implements in Himp. destruct (value st) eqn:Ev; try done.
    eexists. split; [done|]. unfold parse_sync1.
    destruct (parse_sync1_loop_spec (Z.to_nat (input_length input)) ctx input)
      as (c&rest&st'&buf'&?&?&?&?&?&?&?&?); [lia|done|lia|lia|].
    exists c, rest, st', buf'. simpl in *. rewrite Himp. done.
  - destruct (value st) eqn:Ev; try (unfold implements in Himp; rewrite Ev in Himp; done).
    eexists. split; [done|]. apply parse_sync2_spec; (done || lia).
  - destruct (implements_scan_num _ _ _ Himp I) as [_ Hn].
    destruct (value st) eqn:Ev; try (unfold implements in Himp; rewrite Ev in Himp; done).
    apply parse_header_part; try done. lia.
Qed.

(** Parsing a slice of the buffer again, where the parser writes behind the
    bytes it reads: the mode is the one [scan] gives for the bytes of the slice
    at the start. *)
Lemma reparse fuel st ctx s m :
  ctx_ok ctx -> input_ok (buffer ctx) (Own s) -> implements st ctx m -> scanning m ->
  num_buffered st <= s_off s -> num_buffered st + s_len s < header_total_size ->
  s_len s < Z.of_nat fuel ->
  exists st' buf' s',
    parse_many fuel st ctx (Own s) = Some (st', set_buffer ctx buf', Own s') /\
    zlen buf' = zlen (buffer ctx) /\
    (forall n, s_off s + s_len s <= n -> zdrop n buf' = zdrop n (buffer ctx)) /\
    implements st' (set_buffer ctx buf') (scan (deref (buffer ctx) s) m).
Proof.
  revert st ctx s m. induction fuel as [|fuel IH]; intros st ctx s m Hc Hi Himp Hm Hoff Hpart Hfuel;
    [simpl in Hi; lia|].
  pose proof Hi as (Hi1&Hi2&Hi3). simpl parse_many.
  assert (is_wait_read st = false) as Hnr.
  { unfold is_wait_read, implements in *. by destruct (value st), m. }
  rewrite Hnr, andb_true_r. destruct (0 <? s_len s) eqn:El; btests.
  - destruct (parse_one_scan (parse_many fuel) st ctx (Own s) m)
      as (res&->&c&rest&st'&buf'&Ec&Hne&->&Hlen&Hnb&Hrest&Himp'&Hrun); try done.
    simpl in Ec. pose proof (input_length_contents _ _ Hi) as El'. simpl in El'.
    rewrite Ec, zlen_app in El'. pose proof (zlen_nonneg rest).
    assert (0 < zlen c) as Hcpos by (destruct c; [done|rewrite zlen_cons; pose proof (zlen_nonneg c); lia]).
    assert (deref buf' (mkSlice (s_off s + zlen c) (s_len s - zlen c)) = rest) as Erest.
    { unfold deref in *. simpl. rewrite Hrest by lia.
      rewrite <- (zdrop_app_exact c rest), <- Ec, zdrop_ztake, zdrop_zdrop by lia. done. }
    simpl advance.
    destruct (IH st' (set_buffer ctx buf') (mkSlice (s_off s + zlen c) (s_len s - zlen c)) (scan c m))
      as (st2&buf2&s2&Hp&Hlen2&Hrest2&Himp2).
    + unfold ctx_ok in *. simpl. rewrite Hlen. done.
    + simpl. lia.
    + done.
    + by apply scan_scanning.
    + simpl. lia.
    + simpl. lia.
    + simpl. lia.
    + exists st2, buf2, s2. rewrite Hp. split; [by destruct ctx|].
      simpl in Hlen2. split; [congruence|]. split.
      * intros n Hn. simpl in Hrest2. rewrite Hrest2, Hrest by lia. done.
      * simpl in Himp2. rewrite Erest in Himp2. rewrite Ec, scan_app.
        destruct ctx. exact Himp2.
  - exists st, (buffer ctx), s. rewrite set_buffer_same. split; [done|]. split; [done|].
    split; [done|]. unfold deref. replace (s_len s) with 0 by lia. done.
Qed.

(** A round on input from outside: it takes [c], and does what the automaton
    does on [c]. *)
Definition advanced (ctx : Context) (data : bytes) (m : mode)
    (res : option (State * Context * input_seq)) : Prop :=
  exists c rest st' ctx' m' r,
    data = c ++ rest /\ c <> [] /\ res = Some (st', ctx', Ext rest) /\
    arun (max_payload_length ctx) m c = (m', r, []) /\
    implements st' ctx' m' /\ ctx_ok ctx' /\
    max_payload_length ctx' = max_payload_length ctx /\
    zlen (buffer ctx') = zlen (buffer ctx) /\
    reports ctx' = reports ctx ++ r.

Lemma scanned_advanced st ctx data m res :
  ctx_ok ctx -> scanned st ctx (Ext data) m res -> advanced ctx data m (Some res).
Proof.
  intros Hc (c&rest&st'&buf'&Ec&Hne&->&Hlen&_&_&Himp&Hrun).
  exists c, rest, st', (set_buffer ctx buf'), (scan c m), [].
  simpl in *. split; [done|]. split; [done|].
  rewrite seq_skip_spec, Ec, zdrop_app_exact by auto with ssp21.
  split; [done|]. split; [done|]. split; [done|].
  unfold ctx_ok in *. simpl. rewrite Hlen, app_nil_r. done.
Qed.

Lemma read_header_fields l tail :
  zlen l = 10 ->
  BigEndian_read [UInt16; UInt16; UInt16; UInt32] (l ++ tail) =
    Some ([field16 l 0; field16 l 2; field16 l 4; field32 l 6], tail).
Proof.
  intros Hl. pose proof (zlen_nonneg tail).
  rewrite !BigEndian_read_cons.
  change (int_size UInt16) with 2. 
  rewrite (read_from_ok UInt16) by (change (int_size UInt16) with 2; rewrite zlen_app; lia).
  change (int_size UInt16) with 2. rewrite BigEndian_read_cons.
  rewrite (read_from_ok UInt16) by
    (change (int_size UInt16) with 2; rewrite zlen_zdrop, zlen_app by lia; lia).
  change (int_size UInt16) with 2. rewrite BigEndian_read_cons.
  rewrite zdrop_zdrop by lia.
  rewrite (read_from_ok UInt16) by
    (change (int_size UInt16) with 2; rewrite zlen_zdrop, zlen_app by lia; lia).
  change (int_size UInt16) with 2. rewrite BigEndian_read_cons.
  rewrite zdrop_zdrop by lia.
  rewrite (read_from_ok UInt32) by
    (change (int_size UInt32) with 4; rewrite zlen_zdrop, zlen_app by lia; lia).
  change (int_size UInt32) with 4. rewrite BigEndian_read_nil, zdrop_zdrop by lia.
  unfold field16, field32.
  assert (forall i n, 0 <= i -> 0 <= n -> i + n <= 10 ->
            ztake n (zdrop i (l ++ tail)) = ztake n (zdrop i l)) as E.
  { intros i n Hi Hn Hin. rewrite zdrop_app_le by lia.
    rewrite ztake_app_le; [done|]. rewrite zlen_zdrop; lia. }
  change (2 + 2 + 2 + 4) with 10. change (2 + 2 + 2) with 6. change (2 + 2) with 4.
  rewrite <- (zdrop_0 (l ++ tail)) at 1.
  rewrite !E by lia. rewrite zdrop_app_len by lia. done.
Qed.

Lemma header_in_buffer buf l :
  zlen l = 10 -> ztake 12 buf = [link_sync1; link_sync2] ++ l ->
  zdrop 2 buf = l ++ zdrop 12 buf /\
  ztake 8 buf = [link_sync1; link_sync2] ++ ztake 6 l /\
  deref buf (mkSlice 2 10) = l /\ 12 <= zlen buf.
Proof.
  intros Hl Ht.
  assert (zdrop 2 buf = l ++ zdrop 12 buf) as Ed.
  { rewrite <- (ztake_zdrop 12 buf) at 1. rewrite Ht. done. }
  split; [done|]. split; [|split].
  - replace (ztake 8 buf) with (ztake 8 (ztake 12 buf)) by (rewrite ztake_ztake; done).
    rewrite Ht. rewrite ztake_app_ge; [done|]. change (zlen [link_sync1; link_sync2]) with 2. lia.
  - unfold deref. simpl. rewrite Ed. by apply ztake_app_len.
  - apply (f_equal zlen) in Ht. rewrite zlen_ztake, zlen_app, Hl in Ht by lia.
    change (zlen [link_sync1; link_sync2]) with 2 in Ht. lia.
Qed.

Lemma field16_nonneg l i : all_bytes l -> 0 <= field16 l i.
Proof. intros. apply be_value_range. auto with ssp21. Qed.

Lemma parse_header_full fuel st ctx data l :
  (11 <= fuel)%nat -> all_bytes (l ++ data) ->
  ctx_ok ctx -> implements st ctx (MHeader l) -> 10 <= zlen l + zlen data ->
  advanced ctx data (MHeader l) (parse_header (parse_many fuel) st ctx (Ext data)).
Proof.
  intros Hfuel Hbytes Hc Himp Hfull.
  destruct (transfer_header st ctx (Ext data) l Hc I Himp) as (Htr&Hlen'&Hrest&Htake&_).
  simpl contents in *. set (c := ztake (10 - zlen l) data) in *.
  set (buf' := overwrite (buffer ctx) (2 + zlen l) c) in *.
  unfold implements in Himp. destruct (value st); try done. destruct Himp as (_&Hl&_).
  assert (zlen c = 10 - zlen l) as Hzc by (subst c; rewrite zlen_ztake; lia).
  assert (zlen (l ++ c) = 10) as Hlc by (rewrite zlen_app; lia).
  assert (c <> []) as Hne by (intros E; rewrite E in Hzc; change (zlen (@nil Z)) with 0 in Hzc; lia).
  rewrite Hlc in Htr, Htake. change (2 + 10) with 12 in Htake.
  destruct (header_in_buffer buf' (l ++ c) Hlc Htake) as (Ed&Et&Eh&_).
  assert (all_bytes (l ++ c)) as Hlcb.
  { apply Forall_app in Hbytes as [? ?]. apply Forall_app. split; [done|]. by apply Forall_ztake. }
  pose proof Hc as (Hmax&Hbuf&Hbuf2).
  unfold parse_header. rewrite Htr. change (2 + 10 =? header_total_size) with true. cbn [negb].
  rewrite seq_skip_spec by lia. change (buffer (set_buffer ctx buf')) with buf'.
  rewrite Ed, read_header_fields by done. cbn [buffer set_header set_buffer].
  rewrite seq_take_spec by (unfold header_fields_size; lia).
  change header_fields_size with 8. rewrite Et.
  pose proof (arun_header_full (max_payload_length ctx) l c Hne ltac:(lia)) as Hrun.
  assert (data = c ++ zdrop (10 - zlen l) data) as Edata by (subst c; by rewrite ztake_zdrop).
  assert (advance (Ext data) (zlen c) = Ext (zdrop (10 - zlen l) data)) as Eadv
    by (simpl; rewrite seq_skip_spec, Hzc by lia; done).
  rewrite Eadv. unfold header_complete in Hrun. cbn [max_payload_length payload_length set_header].
  change (max_payload_length (set_buffer ctx buf')) with (max_payload_length ctx).
  destruct (negb _) eqn:Ecrc.
  - (* the header is parsed again *)
    set (ctx1 := report _ _).
    destruct (reparse fuel State_wait_sync1 ctx1 (mkSlice 2 10) MSync1)
      as (st2&buf2&s2&Hp&Hlen2&_&Himp2).
    + subst ctx1. unfold ctx_ok. simpl. rewrite Hlen'. done.
    + subst ctx1. simpl. rewrite Hlen'.
      unfold min_frame_size, header_total_size, header_fields_size, crc_size in Hbuf. lia.
    + done.
    + done.
    + simpl. lia.
    + simpl. unfold header_total_size, header_fields_size, crc_size. lia.
    + simpl. lia.
    + change (header_total_size - 2) with 10. rewrite Hp.
      subst ctx1. cbn [buffer report set_header set_buffer] in *. rewrite Eh in Himp2.
      eexists c, _, _, _, _, _. split; [exact Edata|]. split; [done|]. split; [done|].
      split; [exact Hrun|]. split; [exact Himp2|].
      unfold ctx_ok. simpl. rewrite Hlen2, Hlen'. done.
  - destruct (max_payload_length ctx <? field16 (l ++ c) 4) eqn:Elen.
    + eexists c, _, _, _, _, _. split; [exact Edata|]. split; [done|]. split; [done|].
      split; [exact Hrun|]. split; [done|].
      unfold ctx_ok. simpl. rewrite Hlen'. done.
    + eexists c, _, _, _, _, _. split; [exact Edata|]. split; [done|]. split; [done|].
      split; [exact Hrun|]. btests.
      pose proof (field16_nonneg (l ++ c) 4 Hlcb).
      split; [|unfold ctx_ok; simpl; rewrite Hlen', app_nil_r; done].
      repeat split; try done. unfold crc_size. change (zlen (@nil Z)) with 0. lia.
Qed.

Lemma transfer_body st ctx data addr len l :
  ctx_ok ctx -> implements st ctx (MBody addr len l) ->
  let c := ztake (len + 4 - zlen l) data in
  let buf' := overwrite (buffer ctx) (header_total_size + zlen l) c in
  transfer_data st ctx (Ext data) (header_total_size + len + crc_size) =
    (header_total_size + zlen (l ++ c), set_buffer ctx buf', Ext (zdrop (zlen c) data)) /\
  zlen buf' = zlen (buffer ctx) /\
  zdrop header_total_size buf' = (l ++ c) ++ zdrop (header_total_size + zlen (l ++ c)) buf' /\
  zlen (l ++ c) <= len + 4.
Proof.
  intros (Hmax&Hbuf&Hbuf2) Himp c buf'. unfold implements in Himp.
  destruct (value st) eqn:Ev; try done. destruct Himp as (Hn&Hl&_&_&Hlen&Ht).
  pose proof (zlen_nonneg l). pose proof (zlen_nonneg c).
  unfold min_frame_size, header_total_size, header_fields_size, crc_size, max_u16 in *.
  change (8 + 4) with 12 in *.
  assert (zlen c <= len + 4 - zlen l) by (subst c; rewrite zlen_ztake; lia).
  pose proof (transfer_data_spec st ctx (Ext data) (12 + len + 4) I) as Htr. rewrite Hn in Htr.
  replace (12 + len + 4 - (12 + zlen l)) with (len + 4 - zlen l) in Htr by lia.
  simpl contents in Htr. fold c in Htr.
  rewrite zlen_app. split.
  { rewrite Htr by lia. simpl. rewrite seq_skip_spec by lia. do 2 f_equal. lia. }
  assert (zlen buf' = zlen (buffer ctx)) as Hlb by (apply overwrite_length; lia).
  split; [done|]. split; [|lia].
  rewrite <- (ztake_zdrop (zlen l + zlen c) (zdrop 12 buf')), zdrop_zdrop by lia. f_equal.
  replace (zlen l + zlen c) with (12 + zlen l + zlen c - 12) by lia.
  rewrite <- zdrop_ztake by lia. subst buf'. rewrite overwrite_upto by lia.
  rewrite zdrop_app_le by (rewrite zlen_ztake; lia). f_equal.
  rewrite zdrop_ztake by lia. by replace (12 + zlen l - 12) with (zlen l) by lia.
Qed.

Lemma parse_body_spec st ctx data addr len l :
  ctx_ok ctx -> implements st ctx (MBody addr len l) -> data <> [] ->
  advanced ctx data (MBody addr len l) (Some (parse_body st ctx (Ext data))).
Proof.
  intros Hc Himp Hd.
  destruct (transfer_body st ctx data addr len l Hc Himp) as (Htr&Hlen&Hdrop&Hmax).
  set (c := ztake (len + 4 - zlen l) data) in *.
  set (buf' := overwrite (buffer ctx) (header_total_size + zlen l) c) in *.
  unfold implements in Himp. destruct (value st); try done.
  destruct Himp as (Hn&Hl&Ha&Hp&Hlr&Ht). unfold crc_size in Hl.
  assert (0 < zlen data) by (destruct data; [done|rewrite zlen_cons; pose proof (zlen_nonneg data); lia]).
  assert (zlen c = Z.min (len + 4 - zlen l) (zlen data)) as Hzc by (subst c; rewrite zlen_ztake; lia).
  assert (c <> []) as Hne by (intros E; rewrite E in Hzc; change (zlen (@nil Z)) with 0 in Hzc; lia).
  assert (data = c ++ zdrop (zlen c) data) as Edata.
  { rewrite Hzc. subst c. destruct (decide (zlen data <= len + 4 - zlen l)).
    - rewrite ztake_ge, zdrop_ge, app_nil_r by lia. done.
    - rewrite Z.min_l by lia. by rewrite ztake_zdrop. }
  pose proof (zlen_nonneg l) as Hl0. pose proof Hc as (Hmax0&Hbuf&Hbuf2).
  unfold parse_body. rewrite Hp, Htr.
  destruct (header_total_size + zlen (l ++ c) =? header_total_size + len + crc_size) eqn:E; cbn [negb]; btests.
  - assert (zlen l + zlen c = len + 4) as Hfull by (rewrite zlen_app in E; unfold crc_size in E; lia).
    pose proof (arun_body_full (max_payload_length ctx) addr len l c Hne Hfull) as Hrun.
    unfold body_complete in Hrun.
    cbn [buffer set_payload set_buffer result payload_length lr_payload].
    change (payload_length (set_buffer ctx buf')) with (payload_length ctx). rewrite Hp.
    assert (deref buf' (mkSlice header_total_size len) = ztake len (l ++ c)) as Epay.
    { unfold deref. cbn [s_off s_len]. rewrite Hdrop. apply ztake_app_le. rewrite zlen_app. lia. }
    rewrite Epay.
    assert (read_from UInt32 (seq_skip buf' (header_total_size + len)) =
            Some (field32 (l ++ c) len, zdrop (header_total_size + len + 4) buf')) as Eread.
    { assert (0 <= header_total_size) as Hh0 by done.
      rewrite seq_skip_spec by lia.
      rewrite read_from_ok; change (int_size UInt32) with 4.
      - rewrite zdrop_zdrop by lia. do 2 f_equal. unfold field32. f_equal.
        rewrite <- (zdrop_zdrop len header_total_size), Hdrop by lia.
        rewrite zdrop_app_le by (rewrite zlen_app; lia).
        apply ztake_app_le. rewrite zlen_zdrop, zlen_app by lia. lia.
      - rewrite zlen_zdrop by lia. rewrite Hlen. unfold min_frame_size, crc_size in Hbuf. lia. }
    rewrite Eread. destruct (negb _) eqn:Ecrc.
    + eexists c, _, _, _, _, _. split; [exact Edata|]. split; [done|]. split; [done|].
      split; [exact Hrun|]. split; [done|]. unfold ctx_ok. simpl. rewrite Hlen. done.
    + eexists c, _, _, _, _, _. split; [exact Edata|]. split; [done|]. split; [done|].
      split; [exact Hrun|]. split; [split; [done|split; [exact Epay|]; cbn; rewrite zlen_ztake; lia]|].
      unfold ctx_ok. simpl. rewrite Hlen, app_nil_r. done.
  - rewrite zlen_app in *. unfold crc_size in E.
    assert (zlen l + zlen c < len + 4) as Hpart by lia.
    eexists c, _, _, _, _, _. split; [exact Edata|]. split; [done|]. split; [done|].
    split; [by apply arun_body_part|].
    split; [|unfold ctx_ok; simpl; rewrite Hlen, app_nil_r; done].
    hnf. cbn [value num_buffered State_wait_body]. rewrite zlen_app. split; [done|]. split; [unfold crc_size; lia|].
    split; [done|]. split; [done|]. split; [done|].
    change (ztake (zlen l + zlen c) (zdrop header_total_size buf') = l ++ c).
    rewrite Hdrop. apply ztake_app_len. by rewrite zlen_app.
Qed.

(** One round of the loop on input from outside. *)
Lemma parse_one_advanced fuel st ctx data m :
  (11 <= fuel)%nat -> all_bytes data ->
  ctx_ok ctx -> implements st ctx m ->
  (forall l, m = MHeader l -> all_bytes l) ->
  data <> [] -> is_done m = false ->
  advanced ctx data m (parse_one (parse_many fuel) st ctx (Ext data)).
Proof.
  intros Hfuel Hb Hc Himp Hlb Hd Hnd.
  assert (0 < zlen data) by (destruct data; [done|rewrite zlen_cons; pose proof (zlen_nonneg data); lia]).
  pose proof Hc as (Hmax&Hbuf&_).
  unfold min_frame_size, header_total_size, header_fields_size, crc_size in Hbuf.
  unfold parse_one. destruct m as [| |l|addr len l|]; try done;
    (destruct (value st) eqn:Ev; try (unfold implements in Himp; rewrite Ev in Himp; done)).
  - apply (scanned_advanced State_wait_sync1); [done|]. unfold parse_sync1. cbn [input_length].
    apply parse_sync1_loop_spec; simpl; (done || lia).
  - apply (scanned_advanced st); [done|]. apply parse_sync2_spec; simpl; (done || lia).
  - destruct (decide (10 <= zlen l + zlen data)) as [Hfull|Hpart].
    + apply parse_header_full; [done| |done|done|done].
      apply Forall_app. split; [by apply Hlb|done].
    + destruct (parse_header_part (parse_many fuel) st ctx (Ext data) l)
        as (res&->&Hs); simpl; try (done || lia). by apply (scanned_advanced st).
  - by apply parse_body_spec.
Qed.

Definition mode_bytes (m : mode) : Prop :=
  match m with
  | MHeader l | MBody _ _ l | MDone _ l => all_bytes l
  | _ => True
  end.

Lemma scan_bytes c m : all_bytes c -> mode_bytes m -> mode_bytes (scan c m).
Proof.
  intros Hc. revert m. induction Hc as [|b c Hb _ IH]; intros m Hm; [done|].
  unfold scan in *. simpl. apply IH. destruct m; simpl in *; try done.
  - by destruct (_ =? _).
  - destruct (_ =? _); simpl; [constructor|done].
  - apply Forall_app. split; [done|]. by constructor.
Qed.

Lemma astep_bytes max m b m' r :
  mode_bytes m -> is_byte b -> astep max m b = (m', r) -> mode_bytes m'.
Proof.
  intros Hm Hb. unfold astep.
  assert (forall l, all_bytes l -> all_bytes (l ++ [b])) as Hl.
  { intros l ?. apply Forall_app. split; [done|]. by constructor. }
  destruct m as [| |l|addr len l|addr p]; simpl in Hm.
  1,2,5: intros [= <- _]; simpl; repeat case_if; simpl; first [done | constructor].
  - destruct (_ =? 10); [|by intros [= <- _]; apply Hl].
    unfold header_complete. destruct (negb _); [intros [= <- _]; by apply scan_bytes; [apply Hl|]|].
    destruct (max <? _); intros [= <- _]; [done|constructor].
  - destruct (_ =? _); [|by intros [= <- _]; apply Hl].
    unfold body_complete. destruct (negb _); intros [= <- _]; [done|by apply Forall_ztake, Hl].
Qed.

Lemma arun_bytes max m s m' r rest :
  mode_bytes m -> all_bytes s -> arun max m s = (m', r, rest) -> mode_bytes m'.
Proof.
  intros Hm Hs. revert m r Hm. induction Hs as [|b s Hb _ IH]; intros m r Hm; simpl.
  - by intros [= <- _ _].
  - destruct (is_done m); [by intros [= <- _ _]|].
    destruct (astep max m b) as [m1 r1] eqn:E1.
    destruct (arun max m1 s) as [[m2 r2] rest2] eqn:E2. intros [= <- _ ->].
    eapply IH; [|done]. by eapply astep_bytes.
Qed.

(** The payload of a frame is within the limit. *)
Definition mode_fits (max : Z) (m : mode) : Prop :=
  match m with
  | MBody _ len _ => 0 <= len <= max
  | MDone _ p => zlen p <= max
  | _ => True
  end.

Lemma scan_fits max c m : mode_fits max m -> mode_fits max (scan c m).
Proof.
  revert m. induction c as [|b c IH]; intros m Hm; [done|]. unfold scan in *. simpl. apply IH.
  destruct m; simpl in *; try done; by destruct (_ =? _).
Qed.

Lemma astep_fits max m b m' r :
  mode_bytes m -> is_byte b -> mode_fits max m -> astep max m b = (m', r) -> mode_fits max m'.
Proof.
  intros Hb Hbyte Hm. unfold astep. destruct m as [| |l|addr len l|addr p].
  1,2,5: intros [= <- _]; repeat case_if; done.
  - destruct (_ =? 10); [|by intros [= <- _]]. unfold header_complete.
    destruct (negb _); [intros [= <- _]; by apply scan_fits|].
    destruct (max <? _) eqn:E; intros [= <- _]; [done|]. btests. cbn. split; [|lia].
    apply field16_nonneg, Forall_app. split; [exact Hb|by constructor].
  - destruct (_ =? _) eqn:E; [|by intros [= <- _]]. unfold body_complete. btests.
    destruct (negb _); intros [= <- _]; [done|]. cbn in *. rewrite zlen_ztake; lia.
Qed.

Lemma arun_fits max m s m' r rest :
  mode_bytes m -> all_bytes s -> mode_fits max m -> arun max m s = (m', r, rest) -> mode_fits max m'.
Proof.
  intros Hm Hs. revert m r Hm. induction Hs as [|b s Hb _ IH]; intros m r Hm Hf; simpl.
  - by intros [= <- _ _].
  - destruct (is_done m); [by intros [= <- _ _]|].
    destruct (astep max m b) as [m1 r1] eqn:E1.
    destruct (arun max m1 s) as [[m2 r2] rest2] eqn:E2. intros [= <- _ ->].
    eapply IH; [| |done]; [by eapply astep_bytes|by eapply astep_fits].
Qed.

Lemma implements_fits st ctx m : implements st ctx m -> mode_fits (max_payload_length ctx) m.
Proof.
  unfold implements. destruct (value st), m; cbn; try done; [by intros (_&_&_&_&?&_)|by intros (_&_&?)].
Qed.

Lemma implements_done st ctx m : implements st ctx m -> is_wait_read st = is_done m.
Proof. unfold implements, is_wait_read. by destruct (value st), m. Qed.

Lemma parse_many_refines fuel st ctx data m :
  (length data + 12 <= fuel)%nat -> all_bytes data ->
  ctx_ok ctx -> implements st ctx m -> mode_bytes m ->
  exists st' ctx' rest m' r,
    parse_many fuel st ctx (Ext data) = Some (st', ctx', Ext rest) /\
    arun (max_payload_length ctx) m data = (m', r, rest) /\
    implements st' ctx' m' /\ ctx_ok ctx' /\
    max_payload_length ctx' = max_payload_length ctx /\ reports ctx' = reports ctx ++ r.
Proof.
  revert st ctx data m. induction fuel as [|fuel IH]; intros st ctx data m Hf Hd Hc Himp Hm; [lia|].
  simpl parse_many. rewrite (implements_done _ _ _ Himp).
  destruct (is_done m) eqn:Hdone.
  { rewrite andb_false_r. exists st, ctx, data, m, []. rewrite app_nil_r.
    rewrite arun_done by done. done. }
  destruct data as [|b data].
  { exists st, ctx, [], m, []. rewrite app_nil_r. done. }
  cbn [input_length]. rewrite andb_true_r.
  destruct (0 <? zlen (b :: data)) eqn:E; btests;
    [|rewrite zlen_cons in E; pose proof (zlen_nonneg data); lia].
  destruct (parse_one_advanced fuel st ctx (b :: data) m)
    as (c&rest&st1&ctx1&m1&r1&Ec&Hne&->&Hrun&Himp1&Hc1&Hmax1&_&Hr1); try done.
  { simpl in Hf. lia. }
  { by intros l ->. }
  assert (length c <> 0%nat) by by destruct c.
  rewrite Ec in Hd |- *. apply (f_equal length) in Ec. rewrite length_app in Ec.
  cbn [length] in Ec, Hf.
  apply Forall_app in Hd as [Hdc Hdr].
  destruct (IH st1 ctx1 rest m1) as (st2&ctx2&rest2&m2&r2&->&Hrun2&Himp2&Hc2&Hmax2&Hr2);
    [lia|done|done|done|by apply (arun_bytes _ _ _ _ _ _ Hm Hdc Hrun)|].
  exists st2, ctx2, rest2, m2, (r1 ++ r2). split; [done|].
  rewrite (arun_app _ _ _ _ _ _ Hrun), <- Hmax1, Hrun2.
  split; [done|]. split; [done|]. split; [done|]. split; [congruence|].
  by rewrite Hr2, Hr1, app_assoc.
Qed.

(** The parser object implements the automaton. *)
Definition parser_implements (p : LinkParser) (m : mode) : Prop :=
  ctx_ok (context p) /\ implements (state p) (context p) m /\ mode_bytes m.

Definition frame_of (m : mode) : option (Addresses * bytes) :=
  match m with MDone addr payload => Some (addr, payload) | _ => None end.

Lemma parser_frame p m : parser_implements p m -> LinkParser_frame p = frame_of m.
Proof.
  intros (_&Himp&_). unfold LinkParser_frame, LinkParser_read.
  rewrite (implements_done _ _ _ Himp). unfold implements in Himp.
  destruct (value (state p)), m as [| | | |addr pay]; try done. simpl. by destruct Himp as (->&->&_).
Qed.

Lemma parser_new_implements max memory :
  is_u16 max -> zlen memory = Context_buffer_size max ->
  parser_implements (LinkParser_new max memory) MSync1.
Proof.
  intros Hm Hl. unfold is_u16 in Hm. split; [|done]. unfold ctx_ok. simpl. rewrite Hl.
  unfold Context_buffer_size, max_config_payload_size. lia.
Qed.

Lemma parser_reset_implements p m :
  parser_implements p m -> parser_implements (LinkParser_reset p) MSync1.
Proof. intros (Hc&_&_). done. Qed.

Lemma parse_run p m input :
  parser_implements p m -> all_bytes input ->
  exists m' r rest p',
    arun (max_payload_length (context p)) m input = (m', r, rest) /\
    LinkParser_parse p input = Some (is_done m', p', rest) /\
    parser_implements p' m' /\
    max_payload_length (context p') = max_payload_length (context p) /\
    reports (context p') = reports (context p) ++ r.
Proof.
  intros (Hc&Himp&Hm) Hi. unfold LinkParser_parse, parse_fuel.
  destruct (parse_many_refines (length input + 12) (state p) (context p) input m)
    as (st'&ctx'&rest&m'&r&->&Hrun&Himp'&Hc'&Hmax&Hr); [lia|done|done|done|done|].
  exists m', r, rest, (mkLinkParser ctx' st'). split; [done|].
  rewrite (implements_done _ _ _ Himp'). split; [done|].
  split; [|done].
  split; [done|]. split; [done|]. by apply (arun_bytes _ _ _ _ _ _ Hm Hi Hrun).
Qed.

(** C8: [LinkParser::parse] implements the byte-at-a-time specification: on
    every input it terminates with a result (no fuel bound is hit), returns
    whether the specification completed a frame, leaves exactly the input
    the specification leaves, delivers its frame through [read], reports
    the same errors in the same order, and again implements the
    specification's state. *)
Theorem parse_refines p m input :
  parser_implements p m -> all_bytes input ->
  exists p',
    let '(m', r, rest) := arun (max_payload_length (context p)) m input in
    LinkParser_parse p input = Some (is_done m', p', rest) /\
    LinkParser_frame p' = frame_of m' /\
    reports (context p') = reports (context p) ++ r /\
    parser_implements p' m'.
Proof.
  intros Hp Hi. destruct (parse_run p m input Hp Hi) as (m'&r&rest&p'&->&Hpar&Hp'&_&Hr).
  exists p'. split; [done|]. split; [by apply parser_frame|]. done.
Qed.

(** C25: How the byte stream is cut into chunks does not matter: when the
    first chunk completes no frame it is consumed entirely, and parsing the
    second chunk then gives the same answer, frame, left-over input and error
    reports as parsing both chunks at once. *)
Theorem parse_chunks p m s1 s2 p1 rest1 :
  parser_implements p m -> all_bytes s1 -> all_bytes s2 ->
  LinkParser_parse p s1 = Some (false, p1, rest1) ->
  rest1 = [] /\
  exists ready rest p2 p12,
    LinkParser_parse p1 s2 = Some (ready, p2, rest) /\
    LinkParser_parse p (s1 ++ s2) = Some (ready, p12, rest) /\
    LinkParser_frame p2 = LinkParser_frame p12 /\
    reports (context p2) = reports (context p12).
Proof.
  intros Hp H1 H2 Hpar.
  destruct (parse_run p m s1 Hp H1) as (m1&r1&rest&p1'&Hrun1&Hpar1&Hp1&Hmax&Hr1).
  rewrite Hpar in Hpar1. injection Hpar1 as Hnd <- <-.
  assert (rest1 = []) as -> by by apply (arun_not_done _ _ _ _ _ _ Hrun1).
  split; [done|].
  destruct (parse_run p1 m1 s2 Hp1 H2) as (m2&r2&rest2&p2&Hrun2&Hpar2&Hp2&_&Hr2).
  destruct (parse_run p m (s1 ++ s2) Hp) as (m3&r3&rest3&p3&Hrun3&Hpar3&Hp3&_&Hr3);
    [by apply Forall_app|].
  rewrite (arun_app _ _ _ _ _ _ Hrun1), <- Hmax, Hrun2 in Hrun3. injection Hrun3 as <- <- <-.
  exists (is_done m2), rest2, p2, p3. split; [done|]. split; [done|].
  split; [by rewrite (parser_frame _ _ Hp2), (parser_frame _ _ Hp3)|].
  by rewrite Hr2, Hr3, Hr1, app_assoc.
Qed.
End Refinement.

(** ** Frames on the wire *)

Definition link_header (addr : Addresses) (len : Z) : bytes :=
  [link_sync1; link_sync2] ++ be_bytes 2 (destination addr) ++ be_bytes 2 (source addr) ++
  be_bytes 2 len.

Definition checked (b : bytes) : bytes := b ++ be_bytes 4 (CastagnoliCRC32_calc b).

Definition link_frame (addr : Addresses) (payload : bytes) : bytes :=
  checked (link_header addr (zlen payload)) ++ checked payload.

Definition addr_ok (addr : Addresses) : Prop := is_u16 (destination addr) /\ is_u16 (source addr).

Lemma calc_u32 data : all_bytes data -> 0 <= CastagnoliCRC32_calc data < 2 ^ 32.
Proof. intros H. destruct (calc_from 0 data) as [E R]; [lia|done|]. unfold CastagnoliCRC32_calc. lia. Qed.

Lemma link_header_bytes addr len : all_bytes (link_header addr len).
Proof.
  unfold link_header. rewrite !Forall_app. split; [concrete_bytes|]. auto with ssp21.
Qed.

Lemma slice_bytes l i n :
  all_bytes l -> 0 <= i -> i + Z.of_nat n <= zlen l ->
  be_bytes n (be_value (ztake (Z.of_nat n) (zdrop i l))) = ztake (Z.of_nat n) (zdrop i l).
Proof.
  intros Hl Hi Hn.
  assert (length (ztake (Z.of_nat n) (zdrop i l)) = n) as E.
  { unfold ztake, zdrop, zlen in *. rewrite length_take, length_drop. lia. }
  rewrite <- E at 1. apply be_bytes_value. auto with ssp21.
Qed.

(** The ten bytes of a header, as its fields. *)
Lemma header_split l :
  all_bytes l -> zlen l = 10 ->
  l = (be_bytes 2 (field16 l 0) ++ be_bytes 2 (field16 l 2) ++ be_bytes 2 (field16 l 4)) ++
      be_bytes 4 (field32 l 6) /\
  ztake 6 l = be_bytes 2 (field16 l 0) ++ be_bytes 2 (field16 l 2) ++ be_bytes 2 (field16 l 4) /\
  addr_ok (mkAddresses (field16 l 0) (field16 l 2)).
Proof.
  intros Hb Hl.
  assert (forall i, 0 <= i <= 8 -> be_bytes 2 (field16 l i) = ztake 2 (zdrop i l)) as E2.
  { intros i Hi. apply (slice_bytes l i 2); [done|lia|lia]. }
  assert (be_bytes 4 (field32 l 6) = zdrop 6 l) as E4.
  { unfold field32. transitivity (ztake 4 (zdrop 6 l)); [apply (slice_bytes l 6 4); (done || lia)|].
    apply ztake_ge. rewrite zlen_zdrop; lia. }
  assert (ztake 6 l = ztake 2 (zdrop 0 l) ++ ztake 2 (zdrop 2 l) ++ ztake 2 (zdrop 4 l)) as E6.
  { rewrite <- (ztake_zdrop 2 (ztake 6 l)), ztake_ztake, zdrop_ztake by lia. f_equal.
    rewrite <- (ztake_zdrop 2 (ztake (6 - 2) (zdrop 2 l))), ztake_ztake, zdrop_ztake by lia.
    f_equal. by rewrite zdrop_zdrop by lia. }
  assert (forall i, 0 <= i <= 8 -> is_u16 (field16 l i)) as Hr.
  { intros i Hi. unfold field16, is_u16, max_u16.
    pose proof (be_value_range (ztake 2 (zdrop i l)) ltac:(auto with ssp21)) as R.
    rewrite zlen_ztake, zlen_zdrop, Z.min_l in R by lia. lia. }
  rewrite !E2, E4, <- E6 by lia. split; [by rewrite ztake_zdrop|]. split; [done|].
  split; apply Hr; simpl; lia.
Qed.

Section Stream.
Context (max : Z).

(** What the bytes seen so far say about the mode. *)
Definition tracks (t : bytes) (m : mode) : Prop :=
  match m with
  | MSync1 => True
  | MSync2 => exists p, t = p ++ [link_sync1]
  | MHeader l => exists p, t = p ++ [link_sync1; link_sync2] ++ l
  | MBody addr len l =>
      addr_ok addr /\ 0 <= len <= max /\ exists p, t = p ++ checked (link_header addr len) ++ l
  | MDone addr payload =>
      addr_ok addr /\ zlen payload <= max /\ exists p, t = p ++ link_frame addr payload
  end.

Lemma scan_tracks c t m : scanning m -> tracks t m -> tracks (t ++ c) (scan c m).
Proof.
  revert t m. induction c as [|b c IH]; intros t m Hs Hm; [by rewrite app_nil_r|].
  unfold scan in *. simpl. replace (t ++ b :: c) with ((t ++ [b]) ++ c) by by rewrite <- app_assoc.
  apply IH; [by apply scan_step_scanning|]. destruct m; simpl in *; try done.
  - destruct (b =? link_sync1) eqn:E; btests; [|done]. subst b. by exists t.
  - destruct Hm as [p ->]. destruct (b =? link_sync2) eqn:E; btests; [|done]. subst b.
    exists p. by rewrite <- app_assoc.
  - destruct Hm as [p ->]. exists p. by rewrite <- !app_assoc.
Qed.

Lemma header_tracks t l m r :
  all_bytes l -> zlen l = 10 -> tracks t (MHeader l) ->
  header_complete max l = (m, r) -> tracks t m.
Proof.
  intros Hb Hl [p ->]. unfold header_complete.
  destruct (header_split l Hb Hl) as (El&E6&Ha).
  destruct (negb _) eqn:Ecrc.
  - intros [= <- _]. rewrite app_assoc. by apply scan_tracks.
  - destruct (max <? _) eqn:Elen; intros [= <- _]; [done|]. btests.
    pose proof (field16_nonneg l 4 Hb).
    split; [done|]. split; [done|]. exists p. rewrite app_nil_r. f_equal.
    rewrite E6 in Ecrc. unfold checked, link_header. cbn [destination source].
    rewrite Ecrc, El at 1. by rewrite <- !app_assoc.
Qed.

Lemma body_tracks t addr len l m r :
  all_bytes l -> zlen l = len + 4 -> tracks t (MBody addr len l) ->
  body_complete addr len l = (m, r) -> tracks t m.
Proof.
  intros Hb Hl (Ha&Hlen&p&->). unfold body_complete.
  destruct (negb _) eqn:Ecrc; intros [= <- _]; [done|]. btests.
  assert (zlen (ztake len l) = len) as Ez by (rewrite zlen_ztake; lia).
  split; [done|]. split; [lia|]. exists p. unfold link_frame. rewrite Ez. do 2 f_equal.
  unfold checked. rewrite Ecrc. unfold field32.
  replace (be_bytes 4 _) with (zdrop len l); [by rewrite ztake_zdrop|].
  pose proof (slice_bytes l len 4 Hb ltac:(lia) ltac:(lia)) as E.
  change (Z.of_nat 4) with 4 in E. rewrite E. symmetry. apply ztake_ge. rewrite zlen_zdrop; lia.
Qed.

Lemma astep_tracks t m b m' r :
  mode_bytes m -> is_byte b -> tracks t m -> is_done m = false ->
  astep max m b = (m', r) -> tracks (t ++ [b]) m'.
Proof.
  intros Hm Hb Ht Hnd. unfold astep. destruct m as [| |l|addr len l|]; try done.
  - intros [= <- _]. by apply (scan_tracks [b] t MSync1).
  - intros [= <- _]. by apply (scan_tracks [b] t MSync2).
  - pose proof (scan_tracks [b] t (MHeader l) I Ht) as Ht'.
    destruct (zlen l + 1 =? 10) eqn:E; [|by intros [= <- _]]. btests. apply header_tracks.
    + apply Forall_app. split; [done|]. by constructor.
    + rewrite zlen_app. exact E.
    + exact Ht'.
  - assert (tracks (t ++ [b]) (MBody addr len (l ++ [b]))) as Ht'.
    { destruct Ht as (?&?&p&->). split; [done|]. split; [done|]. exists p. by rewrite <- !app_assoc. }
    destruct (zlen l + 1 =? len + 4) eqn:E; [|by intros [= <- _]]. btests. apply body_tracks.
    + apply Forall_app. split; [done|]. by constructor.
    + rewrite zlen_app. exact E.
    + exact Ht'.
Qed.

Lemma arun_tracks s t m m' r rest :
  all_bytes s -> mode_bytes m -> tracks t m -> arun max m s = (m', r, rest) ->
  exists c, s = c ++ rest /\ tracks (t ++ c) m'.
Proof.
  intros Hs. revert t m r. induction Hs as [|b s Hb _ IH]; intros t m r Hm Ht; simpl.
  - intros [= <- _ <-]. exists []. split; [done|]. by rewrite app_nil_r.
  - destruct (is_done m) eqn:Ed; [intros [= <- _ <-]; exists []; by rewrite app_nil_r|].
    destruct (astep max m b) as [m1 r1] eqn:E1.
    destruct (arun max m1 s) as [[m2 r2] rest2] eqn:E2. intros [= <- _ <-].
    destruct (IH (t ++ [b]) m1 r2) as (c&->&Hc); [by apply (astep_bytes max m b m1 r1)|by apply (astep_tracks t m b m1 r1)|done|].
    exists (b :: c). split; [done|]. by rewrite <- app_assoc in Hc.
Qed.

Lemma arun_noise g : ~ In link_sync1 g -> arun max MSync1 g = (MSync1, [], []).
Proof.
  induction g as [|b g IH]; intros Hg; simpl; [done|].
  destruct (b =? link_sync1) eqn:E; btests; [subst b; destruct Hg; by left|].
  rewrite IH; [done|]. intros Hin. apply Hg. by right.
Qed.

Lemma field_be n v l tail i k :
  0 <= v < 256 ^ Z.of_nat n -> i = zlen l -> k = Z.of_nat n ->
  be_value (ztake k (zdrop i (l ++ be_bytes n v ++ tail))) = v.
Proof.
  intros Hv -> ->. rewrite zdrop_app_exact.
  rewrite ztake_app_len by by rewrite zlen_be_bytes. by apply be_value_bytes.
Qed.

Lemma arun_frame addr payload :
  addr_ok addr -> all_bytes payload -> zlen payload <= max -> zlen payload <= max_u16 ->
  arun max MSync1 (link_frame addr payload) = (MDone addr payload, [], []).
Proof.
  intros [Hd Hs] Hp Hmax H16. unfold is_u16, max_u16 in *. pose proof (zlen_nonneg payload) as Hp0.
  pose proof (calc_u32 (link_header addr (zlen payload)) (link_header_bytes _ _)) as Hch.
  pose proof (calc_u32 payload Hp) as Hcp.
  unfold link_frame.
  set (l := be_bytes 2 (destination addr) ++ be_bytes 2 (source addr) ++ be_bytes 2 (zlen payload)).
  set (ch := CastagnoliCRC32_calc (link_header addr (zlen payload))) in *.
  assert (checked (link_header addr (zlen payload)) =
            [link_sync1; link_sync2] ++ (l ++ be_bytes 4 ch)) as -> by done.
  assert (zlen l = 6) as Hl by (subst l; by rewrite !zlen_app, !zlen_be_bytes).
  assert (zlen (l ++ be_bytes 4 ch) = 10) as Hlc by (rewrite zlen_app, zlen_be_bytes, Hl; done).
  rewrite <- app_assoc.
  rewrite (arun_app max MSync1 [link_sync1; link_sync2] (MHeader []) []) by done.
  assert (header_complete max (l ++ be_bytes 4 ch) = (MBody addr (zlen payload) [], [])) as Eh.
  { unfold header_complete. rewrite ztake_app_len by done.
    change ([link_sync1; link_sync2] ++ l) with (link_header addr (zlen payload)). fold ch.
    assert (field32 (l ++ be_bytes 4 ch) 6 = ch) as ->.
    { unfold field32. rewrite <- (app_nil_r (be_bytes 4 ch)). by apply (field_be 4 ch l []). }
    assert (field16 (l ++ be_bytes 4 ch) 0 = destination addr) as ->.
    { unfold field16. subst l. rewrite <- !app_assoc.
      apply (field_be 2 (destination addr) []); [lia|done|done]. }
    assert (field16 (l ++ be_bytes 4 ch) 2 = source addr) as ->.
    { unfold field16. subst l. rewrite <- !app_assoc.
      apply (field_be 2 (source addr) (be_bytes 2 (destination addr))); [lia|done|done]. }
    assert (field16 (l ++ be_bytes 4 ch) 4 = zlen payload) as ->.
    { unfold field16. subst l. rewrite <- !app_assoc, app_assoc.
      apply (field_be 2 (zlen payload) (be_bytes 2 (destination addr) ++ be_bytes 2 (source addr)));
        [lia|done|done]. }
    rewrite Z.eqb_refl. simpl. destruct (max <? zlen payload) eqn:E; btests; [lia|]. by destruct addr. }
  assert (l ++ be_bytes 4 ch <> []) as Hnil
    by (intros E; rewrite E in Hlc; change (zlen (@nil Z)) with 0 in Hlc; lia).
  pose proof (arun_header_full max [] (l ++ be_bytes 4 ch)) as Hrun.
  rewrite (app_nil_l (l ++ be_bytes 4 ch)), Eh in Hrun.
  rewrite (arun_app max (MHeader []) (l ++ be_bytes 4 ch) _ _ _ (Hrun Hnil Hlc)).
  assert (zlen (checked payload) = zlen payload + 4) as Hzp
    by (unfold checked; rewrite zlen_app, zlen_be_bytes; done).
  rewrite arun_body_full; [|intros E; rewrite E in Hzp; change (zlen (@nil Z)) with 0 in Hzp; lia|].
  2: { change (zlen (@nil Z)) with 0. lia. }
  unfold body_complete, checked. simpl app.
  rewrite ztake_app_exact. unfold field32.
  rewrite <- (app_nil_r (be_bytes 4 _)), (field_be 4 _ payload []), Z.eqb_refl by done. done.
Qed.
End Stream.

(** A scan of at most ten bytes is a run of the automaton: there is no room to
    complete a header. *)
Lemma arun_scan max c m k :
  scanning m -> (match m with MHeader l => 2 + zlen l <= k | MSync2 => 1 <= k | _ => 0 <= k end) ->
  k + zlen c < 12 -> arun max m c = (scan c m, [], []).
Proof.
  revert m k. induction c as [|b c IH]; intros m k Hs Hk Hl; [done|].
  rewrite zlen_cons in Hl. pose proof (zlen_nonneg c). unfold scan in *.
  destruct m as [| |l| |]; try done; simpl.
  - destruct (b =? link_sync1).
    + rewrite (IH MSync2 (k + 1)); simpl; (done || lia).
    + rewrite (IH MSync1 k); simpl; (done || lia).
  - destruct (b =? link_sync2).
    + rewrite (IH (MHeader []) (k + 1)); change (zlen (@nil Z)) with 0; (done || lia).
    + rewrite (IH MSync1 k); simpl; (done || lia).
  - pose proof (zlen_nonneg l). destruct (zlen l + 1 =? 10) eqn:E; btests; [lia|].
    rewrite (IH (MHeader (l ++ [b])) (k + 1)); [done|done| |lia].
    rewrite zlen_app. change (zlen [b]) with 1. lia.
Qed.

Lemma arun_bad_header max l rest :
  zlen l = 10 ->
  CastagnoliCRC32_calc ([link_sync1; link_sync2] ++ ztake 6 l) <> field32 l 6 ->
  arun max (MHeader []) (l ++ rest) =
    (let '(m, r, rest') := arun max MSync1 (l ++ rest) in
     (m, on_bad_header_crc (CastagnoliCRC32_calc ([link_sync1; link_sync2] ++ ztake 6 l))
           (field32 l 6) :: r, rest')).
Proof.
  intros Hl Hcrc.
  assert (l <> []) as Hne by (intros ->; change (zlen (@nil Z)) with 0 in Hl; lia).
  rewrite (arun_app max MSync1 l _ _ rest (arun_scan max l MSync1 0 I ltac:(done) ltac:(lia))).
  pose proof (arun_header_full max [] l Hne Hl) as Hrun. rewrite app_nil_l in Hrun.
  unfold header_complete in Hrun. apply Z.eqb_neq in Hcrc. rewrite Hcrc in Hrun. simpl negb in Hrun.
  cbv iota in Hrun. rewrite (arun_app _ _ _ _ _ rest Hrun).
  by destruct (arun max (scan l MSync1) rest) as [[? ?] ?].
Qed.

(** ** What the parser delivers *)

Section Delivery.
Context `{SER : Ser4cpp}.

(** C23: Only frames that are on the wire are delivered: when a fresh parser
    reports a frame, the input is some bytes, then the frame with these
    addresses, this payload and its two checks, then exactly the bytes the
    parser left; and the payload does not exceed the configured maximum. *)
Theorem parse_sound max memory s p rest :
  is_u16 max -> zlen memory = Context_buffer_size max -> all_bytes s ->
  LinkParser_parse (LinkParser_new max memory) s = Some (true, p, rest) ->
  exists noise addr payload,
    s = noise ++ link_frame addr payload ++ rest /\
    LinkParser_frame p = Some (addr, payload) /\
    addr_ok addr /\ zlen payload <= Z.min max max_config_payload_size.
Proof.
  intros Hm Hl Hs Hpar. pose proof (parser_new_implements max memory Hm Hl) as Hnew.
  destruct (parse_run _ _ s Hnew Hs) as (m'&r&rest'&p'&Hrun&Hpar'&Hp&_).
  rewrite Hpar in Hpar'. injection Hpar' as Hd <- <-.
  destruct (arun_tracks _ s [] MSync1 m' r rest Hs I I Hrun) as (c&->&Ht).
  destruct m' as [| | | |addr payload]; try done.
  destruct Ht as (Ha&Hlen&noise&Et). simpl in Et. subst c.
  exists noise, addr, payload. rewrite <- app_assoc.
  split; [done|]. split; [by rewrite (parser_frame _ _ Hp)|]. done.
Qed.

(** Every frame is delivered: a parser that waits for a frame, given
    bytes without the first synchronization byte, then a frame with a payload
    within the maximum, then anything, delivers the frame and leaves exactly
    what follows it, without reporting an error. *)
Theorem parse_complete p noise addr payload rest :
  parser_implements p MSync1 -> ~ In link_sync1 noise ->
  all_bytes noise -> all_bytes payload -> all_bytes rest ->
  addr_ok addr -> zlen payload <= max_payload_length (context p) -> zlen payload <= max_u16 ->
  exists p',
    LinkParser_parse p (noise ++ link_frame addr payload ++ rest) = Some (true, p', rest) /\
    LinkParser_frame p' = Some (addr, payload) /\ reports (context p') = reports (context p).
Proof.
  intros Hp Hn Hbn Hbp Hbr Ha Hlen H16.
  destruct (parse_run p MSync1 (noise ++ link_frame addr payload ++ rest) Hp)
    as (m'&r&rest'&p'&Hrun&Hpar&Hp'&_&Hr).
  { rewrite !Forall_app. unfold link_frame, checked. rewrite !Forall_app.
    pose proof (link_header_bytes addr (zlen payload)). auto with ssp21. }
  rewrite (arun_app _ _ _ _ _ _ (arun_noise _ noise Hn)) in Hrun.
  rewrite (arun_app _ _ _ _ _ _ (arun_frame _ addr payload Ha Hbp Hlen H16)) in Hrun.
  rewrite arun_done in Hrun by done. injection Hrun as <- <- <-.
  exists p'. split; [done|]. split; [by rewrite (parser_frame _ _ Hp')|].
  by rewrite Hr, app_nil_r.
Qed.

(** A header that fails its check is parsed again: after the two
    synchronization bytes and ten bytes with a wrong check, the parser
    answers, leaves input and delivers as if it had been given those ten bytes
    and the rest while waiting for a frame, although the ten bytes are read
    from the buffer that is being written; it has reported the bad check
    first.  No frame that starts inside a damaged header is lost. *)
Theorem parse_recovers p l rest :
  parser_implements p MSync1 -> all_bytes l -> all_bytes rest -> zlen l = 10 ->
  CastagnoliCRC32_calc ([link_sync1; link_sync2] ++ ztake 6 l) <> field32 l 6 ->
  exists ready p1 p2 left r,
    LinkParser_parse p ([link_sync1; link_sync2] ++ l ++ rest) = Some (ready, p1, left) /\
    LinkParser_parse p (l ++ rest) = Some (ready, p2, left) /\
    LinkParser_frame p1 = LinkParser_frame p2 /\
    reports (context p2) = reports (context p) ++ r /\
    reports (context p1) = reports (context p) ++
      on_bad_header_crc (CastagnoliCRC32_calc ([link_sync1; link_sync2] ++ ztake 6 l))
        (field32 l 6) :: r.
Proof.
  intros Hp Hl Hr H10 Hcrc.
  assert (all_bytes (l ++ rest)) as Hlr by by apply Forall_app.
  destruct (parse_run p MSync1 (l ++ rest) Hp Hlr) as (m2&r2&left&p2&Hrun2&Hpar2&Hp2&_&Hr2).
  destruct (parse_run p MSync1 ([link_sync1; link_sync2] ++ l ++ rest) Hp)
    as (m1&r1&left1&p1&Hrun1&Hpar1&Hp1&_&Hr1); [apply Forall_app; split; [concrete_bytes|done]|].
  rewrite (arun_app _ MSync1 [link_sync1; link_sync2] (MHeader []) []) in Hrun1 by done.
  rewrite (arun_bad_header _ l rest H10 Hcrc), Hrun2 in Hrun1. injection Hrun1 as <- <- <-.
  exists (is_done m2), p1, p2, left, r2. split; [done|]. split; [done|].
  split; [by rewrite (parser_frame _ _ Hp1), (parser_frame _ _ Hp2)|]. done.
Qed.
End Delivery.

(** ** Concrete instances *)

(** The frame of the repository's test vectors. *)
Definition example_frame : bytes :=
  [0x07; 0xAA; 0x00; 0x01; 0x00; 0x02; 0x00; 0x06; 0x11; 0xFB; 0xE3; 0x40;
   0xDD; 0xDD; 0xDD; 0xDD; 0xDD; 0xDD; 0x51; 0x0D; 0x37; 0x6B].

Definition example_parser : LinkParser := LinkParser_new 10 (replicate 26 0).

Lemma example_parser_implements : parser_implements example_parser MSync1.
Proof. apply parser_new_implements; [done|by vm_compute]. Qed.

Lemma parse_refines_witness :
  exists p', LinkParser_parse (SER := ser4cpp_reference) example_parser example_frame =
    Some (true, p', []) /\ LinkParser_frame p' = Some (mkAddresses 1 2, replicate 6 0xDD).
Proof.
  destruct (parse_refines (SER := ser4cpp_reference) example_parser MSync1 example_frame
              example_parser_implements ltac:(unfold example_frame; concrete_bytes)) as [p' Hp].
  exists p'. vm_compute (arun _ _ _) in Hp. destruct Hp as (Hp&Hf&_). split; [exact Hp|].
  rewrite Hf. reflexivity.
Defined.

Lemma parse_chunks_witness :
  exists ready rest p2 p12 p1,
    LinkParser_parse (SER := ser4cpp_reference) example_parser (ztake 7 example_frame) =
      Some (false, p1, []) /\
    LinkParser_parse (SER := ser4cpp_reference) p1 (zdrop 7 example_frame) = Some (ready, p2, rest) /\
    LinkParser_parse (SER := ser4cpp_reference) example_parser example_frame =
      Some (ready, p12, rest) /\
    LinkParser_frame p2 = LinkParser_frame p12.
Proof.
  destruct (LinkParser_parse (SER := ser4cpp_reference) example_parser (ztake 7 example_frame))
    as [[[b p1] rest1]|] eqn:E; [|vm_compute in E; discriminate].
  assert (b = false) as -> by (vm_compute in E; injection E as <- _ _; reflexivity).
  destruct (parse_chunks (SER := ser4cpp_reference) example_parser MSync1 (ztake 7 example_frame)
              (zdrop 7 example_frame) p1 rest1 example_parser_implements
              ltac:(apply Forall_ztake; unfold example_frame; concrete_bytes)
              ltac:(apply Forall_zdrop; unfold example_frame; concrete_bytes) E)
    as (->&ready&rest&p2&p12&H2&H12&Hf&_).
  exists ready, rest, p2, p12, p1. rewrite ztake_zdrop in H12. auto.
Defined.

Lemma parse_sound_witness :
  exists p noise addr payload,
    LinkParser_parse (SER := ser4cpp_reference) example_parser ([1; 2] ++ example_frame) =
      Some (true, p, []) /\
    [1; 2] ++ example_frame = noise ++ link_frame addr payload ++ [] /\
    LinkParser_frame p = Some (addr, payload).
Proof.
  destruct (LinkParser_parse (SER := ser4cpp_reference) example_parser ([1; 2] ++ example_frame))
    as [[[b p] rest]|] eqn:E; [|vm_compute in E; discriminate].
  assert (b = true) as -> by (vm_compute in E; injection E as <- _ _; reflexivity).
  assert (rest = []) as -> by (vm_compute in E; injection E as _ <-; reflexivity).
  destruct (parse_sound (SER := ser4cpp_reference) 10 (replicate 26 0) ([1; 2] ++ example_frame) p [])
    as (noise&addr&payload&Hs&Hf&_); [done|reflexivity|simpl; concrete_bytes|exact E|].
  exists p, noise, addr, payload. auto.
Defined.

Lemma parse_complete_witness :
  exists p',
    LinkParser_parse (SER := ser4cpp_reference) example_parser
      ([1; 2] ++ link_frame (mkAddresses 1 2) [3; 4] ++ [5]) = Some (true, p', [5]) /\
    LinkParser_frame p' = Some (mkAddresses 1 2, [3; 4]).
Proof.
  destruct (parse_complete (SER := ser4cpp_reference) example_parser [1; 2] (mkAddresses 1 2) [3; 4] [5])
    as (p'&Hp&Hf&_); [exact example_parser_implements| |concrete_bytes|concrete_bytes|concrete_bytes
                     |done|done|done|].
  - simpl. unfold link_sync1. lia.
  - exists p'. auto.
Defined.

Lemma parse_recovers_witness :
  exists p1, LinkParser_parse (SER := ser4cpp_reference) example_parser
      ([link_sync1; link_sync2] ++ ztake 10 example_frame ++ zdrop 10 example_frame) =
      Some (true, p1, []).
Proof.
  destruct (parse_recovers (SER := ser4cpp_reference) example_parser (ztake 10 example_frame)
              (zdrop 10 example_frame))
    as (ready&p1&p2&left&r&H1&H2&_);
    [exact example_parser_implements|apply Forall_ztake; unfold example_frame; concrete_bytes
    |apply Forall_zdrop; unfold example_frame; concrete_bytes|reflexivity|vm_compute; discriminate|].
  exists p1. vm_compute (LinkParser_parse _ (_ ++ _)) in H2. injection H2 as <- _ <-. exact H1.
Defined.

(** A stray first synchronization byte in front of a frame makes the
    parser miss the frame: the byte after the first [0x07] is not examined as a
    possible start. *)
Theorem stray_sync_byte_loses_frame :
  exists p, LinkParser_parse (SER := ser4cpp_reference) example_parser
              (link_sync1 :: example_frame) = Some (false, p, []) /\
    LinkParser_frame p = None /\ reports (context p) = [].
Proof.
  destruct (LinkParser_parse (SER := ser4cpp_reference) example_parser (link_sync1 :: example_frame))
    as [[[b p] rest]|] eqn:E; vm_compute in E; [|discriminate].
  injection E as <- <- <-. eexists. split; [reflexivity|]. split; reflexivity.
Qed.
