(* ===== verification/FrameWriter.v ===== *)
(** * Frame writers

    [IWritable], [WriteResult], [IFrameWriter] and its implementations
    [LinkFrameWriter], [RawFrameWriter] and [MessageOnlyFrameWriter].  The
    buffer a writer owns is part of its state; a slice it returns is the bytes
    the slice shows when the call returns.

    [Writable] is what a payload promises to a frame writer (the messages of
    [Messages] are instances), and [FrameWriterOk] is what a frame writer promises to
    the cryptographic layer. *)

From stdpp Require Import base numbers list.
From Stdlib Require Import Lia ZArith.
From S2P Require Import Prelude Ser4cpp Enums Codec Messages CRC LinkParser.

(** [IWritable]; [print] only produces log text. *)
Record IWritable := mkIWritable {
  writable_write : wseq -> FormatResult * wseq;
  writable_function : Function;
}.

Definition message_writable {A} (m : message A) (a : A) : IWritable :=
  mkIWritable (m_write m a) (m_function m).

(** [WriteResult] *)
Record WriteResult := mkWriteResult { wr_err : FormatError; wr_written : bytes; wr_frame : bytes }.

Definition WriteResult_error (err : FormatError) : WriteResult := mkWriteResult err [] [].
Definition WriteResult_success (res : FormatResult) (frame : bytes) : WriteResult :=
  mkWriteResult (fr_err res) (fr_written res) frame.
Definition WriteResult_is_error (r : WriteResult) : bool := any_FormatError (wr_err r).

Section Definitions.
Context `{SER : Ser4cpp}.

(** ** [LinkFrameWriter] *)

Record LinkFrameWriter := mkLinkFrameWriter {
  lfw_addr : Addresses;
  lfw_max_payload_size : Z;
  lfw_frame_buffer : bytes;
}.

Definition LinkFrameWriter_get_buffer_size (max_payload_size : Z) : Z :=
  min_frame_size + max_payload_size.

(** [memory] is the storage of the buffer. *)
Definition LinkFrameWriter_new (addr : Addresses) (max_payload_size : Z) (memory : bytes)
  : LinkFrameWriter := mkLinkFrameWriter addr max_payload_size memory.

(** The result of the payload's [write], or an error, and the memory. *)
Definition LinkFrameWriter_write_body_and_crc (w : LinkFrameWriter) (payload : IWritable)
  : FormatResult * bytes :=
  let dest := wseq_skip (WSeq (lfw_frame_buffer w) 0) header_total_size in
  let '(res, dest) := writable_write payload dest in
  if FormatResult_is_error res then (res, w_buf dest)
  else
    match BigEndian_write dest [(UInt32, CastagnoliCRC32_calc (fr_written res))] with
    | None => (mkFormatResult FormatError_insufficient_space [], w_buf dest)
    | Some dest => (res, w_buf dest)
    end.

Definition LinkFrameWriter_write_impl (w : LinkFrameWriter) (payload : IWritable)
  : WriteResult * LinkFrameWriter :=
  let '(res, buf) := LinkFrameWriter_write_body_and_crc w payload in
  let done r buf := (r, mkLinkFrameWriter (lfw_addr w) (lfw_max_payload_size w) buf) in
  if FormatResult_is_error res then done (WriteResult_error (fr_err res)) buf
  else if max_u16 <? zlen (fr_written res)
  then done (WriteResult_error FormatError_insufficient_space) buf
  else
    let payload_length := u16 (zlen (fr_written res)) in
    match BigEndian_write (WSeq buf 0)
            [(UInt8, link_sync1); (UInt8, link_sync2);
             (UInt16, destination (lfw_addr w)); (UInt16, source (lfw_addr w));
             (UInt16, payload_length)] with
    | None => done (WriteResult_error FormatError_insufficient_space) buf
    | Some dest =>
        let crc_h := CastagnoliCRC32_calc (seq_take (w_buf dest) header_fields_size) in
        match write_to UInt32 dest crc_h with
        | None => done (WriteResult_error FormatError_insufficient_space) (w_buf dest)
        | Some dest =>
            done (WriteResult_success res
                    (seq_take (w_buf dest) (zlen (fr_written res) + min_frame_size)))
              (w_buf dest)
        end
    end.

(** ** [RawFrameWriter] and [MessageOnlyFrameWriter]: no framing *)

Record RawFrameWriter := mkRawFrameWriter {
  rfw_max_payload_size : Z;
  rfw_frame_buffer : bytes;
}.

Definition RawFrameWriter_write_impl (w : RawFrameWriter) (payload : IWritable)
  : WriteResult * RawFrameWriter :=
  let '(res, dest) := writable_write payload (WSeq (rfw_frame_buffer w) 0) in
  let w := mkRawFrameWriter (rfw_max_payload_size w) (w_buf dest) in
  if FormatResult_is_error res then (WriteResult_error (fr_err res), w)
  else (WriteResult_success res (seq_take (rfw_frame_buffer w) (zlen (fr_written res))), w).

Definition MessageOnlyFrameWriter_write_impl (w : RawFrameWriter) (payload : IWritable)
  : WriteResult * RawFrameWriter :=
  let '(res, dest) := writable_write payload (WSeq (rfw_frame_buffer w) 0) in
  let w := mkRawFrameWriter (rfw_max_payload_size w) (w_buf dest) in
  if FormatResult_is_error res then (WriteResult_error (fr_err res), w)
  else (WriteResult_success res (fr_written res), w).
End Definitions.

(** ** Interfaces *)

(** What a payload promises: it stores [enc] at the start of the window and
    says so, or reports that it does not fit without touching what precedes the
    window. *)
Class Writable (p : IWritable) (enc : bytes) : Prop := {
  writable_fits w :
    wseq_ok w -> zlen enc <= wseq_length w ->
    writable_write p w = (mkFormatResult FormatError_ok enc, wseq_store w enc);
  writable_short w :
    wseq_ok w -> wseq_length w < zlen enc ->
    exists w', writable_write p w = (mkFormatResult FormatError_insufficient_space [], w') /\
      wseq_extends w w';
}.

Lemma message_is_writable {A} (m : message A) enc ok `{HM : !LawfulMessage m enc ok} a :
  ok a -> zlen (enc a) <= max_u32 -> Writable (message_writable m a) (enc a).
Proof.
  intros Ha Hl. split; simpl; intros w Hw Hlen.
  - by apply (msg_write_fits (m := m)).
  - by apply (msg_write_short (m := m)).
Qed.

(** A frame writer: its state, its [write_impl] and the largest payload. *)
Record frame_writer (W : Type) := FrameWriter {
  fw_write : W -> IWritable -> WriteResult * W;
  fw_max_payload_size : W -> Z;
}.
Arguments FrameWriter {W} _ _.
Arguments fw_write {W} _ _ _.
Arguments fw_max_payload_size {W} _ _.

(** What a frame writer promises: a payload within the maximum is framed, a
    larger one is refused, and the writer can be used again. *)
Class FrameWriterOk {W} (fw : frame_writer W) (inv : W -> Prop) (frame : W -> bytes -> bytes)
  : Prop := {
  fw_fits w p enc :
    inv w -> Writable p enc -> all_bytes enc -> zlen enc <= fw_max_payload_size fw w ->
    exists w', fw_write fw w p = (mkWriteResult FormatError_ok enc (frame w enc), w') /\
      inv w' /\ (forall b, frame w' b = frame w b) /\
      fw_max_payload_size fw w' = fw_max_payload_size fw w;
  fw_short w p enc :
    inv w -> Writable p enc -> all_bytes enc -> fw_max_payload_size fw w < zlen enc ->
    exists w', fw_write fw w p = (WriteResult_error FormatError_insufficient_space, w') /\
      inv w' /\ (forall b, frame w' b = frame w b) /\
      fw_max_payload_size fw w' = fw_max_payload_size fw w;
}.

(** ** The link frame writer keeps its promise *)

Section LinkWriter.
Context `{SER : Ser4cpp}.

Definition LinkFrameWriter_inv (w : LinkFrameWriter) : Prop :=
  is_u16 (lfw_max_payload_size w) /\ addr_ok (lfw_addr w) /\
  zlen (lfw_frame_buffer w) = LinkFrameWriter_get_buffer_size (lfw_max_payload_size w).

Definition LinkFrameWriter_ops : frame_writer LinkFrameWriter :=
  FrameWriter LinkFrameWriter_write_impl lfw_max_payload_size.

Definition LinkFrameWriter_frame (w : LinkFrameWriter) (payload : bytes) : bytes :=
  link_frame (lfw_addr w) payload.

Lemma header_size : header_total_size = 12.
Proof. done. Qed.

Lemma body_window w :
  LinkFrameWriter_inv w ->
  let d := wseq_skip (WSeq (lfw_frame_buffer w) 0) header_total_size in
  d = WSeq (lfw_frame_buffer w) 12 /\ wseq_ok d /\ wseq_length d = lfw_max_payload_size w + 4.
Proof.
  intros ([H0 H1]&_&Hb) d. unfold LinkFrameWriter_get_buffer_size, min_frame_size in Hb.
  rewrite header_size in Hb. unfold crc_size in Hb.
  assert (d = WSeq (lfw_frame_buffer w) 12) as ->.
  { subst d. rewrite wseq_skip_spec by (unfold wseq_length; simpl; rewrite header_size; lia). done. }
  unfold wseq_ok, wseq_length. cbn [w_buf w_pos]. split; [done|lia].
Qed.

Lemma write_body_fits w p enc :
  LinkFrameWriter_inv w -> Writable p enc -> all_bytes enc -> zlen enc <= lfw_max_payload_size w ->
  LinkFrameWriter_write_body_and_crc w p =
    (mkFormatResult FormatError_ok enc, overwrite (lfw_frame_buffer w) 12 (checked enc)).
Proof.
  intros Hi Hp He Hl. destruct (body_window w Hi) as (Ed&Hok&Hlen). unfold LinkFrameWriter_write_body_and_crc.
  rewrite (writable_fits (p := p)) by (done || lia).
  change (FormatResult_is_error (mkFormatResult FormatError_ok enc)) with false. cbv iota.
  cbn [fr_written]. pose proof (calc_u32 enc He) as Hcrc.
  rewrite BigEndian_write_all.
  - unfold ints_bytes. cbn [map concat]. rewrite app_nil_r.
    change (int_bytes UInt32) with 4%nat.
    rewrite wseq_store_app by (rewrite ?zlen_be_bytes; (done || lia)). rewrite Ed. done.
  - apply wseq_store_ok; [done|lia].
  - constructor; [exact Hcrc|constructor].
  - rewrite wseq_store_length by (done || lia). unfold ints_bytes. cbn [map concat].
    rewrite app_nil_r, zlen_be_bytes. simpl. lia.
Qed.

Lemma write_body_short w p enc :
  LinkFrameWriter_inv w -> Writable p enc -> all_bytes enc -> lfw_max_payload_size w < zlen enc ->
  exists buf,
    LinkFrameWriter_write_body_and_crc w p = (mkFormatResult FormatError_insufficient_space [], buf) /\
    zlen buf = zlen (lfw_frame_buffer w).
Proof.
  intros Hi Hp He Hl. destruct (body_window w Hi) as (Ed&Hok&Hlen).
  unfold LinkFrameWriter_write_body_and_crc.
  destruct (decide (zlen enc <= lfw_max_payload_size w + 4)) as [Hf|Hs].
  - rewrite (writable_fits (p := p)) by (done || lia).
    change (FormatResult_is_error (mkFormatResult FormatError_ok enc)) with false. cbv iota.
    rewrite BigEndian_write_cons, write_to_short.
    + eexists. split; [done|]. rewrite Ed. unfold wseq_ok, wseq_length in *. rewrite Ed in *. simpl in *.
      apply overwrite_length; lia.
    + rewrite wseq_store_length by (done || lia). change (int_size UInt32) with 4. lia.
  - destruct (writable_short (p := p) _ Hok) as (w'&->&(_&_&Hzl&_)); [lia|].
    exists (w_buf w'). split; [done|]. rewrite Hzl, Ed. done.
Qed.

Lemma zlen_link_header addr len : zlen (link_header addr len) = 8.
Proof. unfold link_header. by rewrite !zlen_app, !zlen_be_bytes. Qed.

Lemma zlen_checked b : zlen (checked b) = zlen b + 4.
Proof. unfold checked. by rewrite zlen_app, zlen_be_bytes. Qed.

(** The header goes in front of the body that is already in the buffer. *)
Lemma frame_in_buffer buf h b :
  zlen h = 12 -> 12 + zlen b <= zlen buf ->
  ztake (12 + zlen b) (overwrite (overwrite buf 12 b) 0 h) = h ++ b.
Proof.
  intros Hh Hb. pose proof (zlen_nonneg b).
  assert (zlen (overwrite buf 12 b) = zlen buf) as Hl by (apply overwrite_length; lia).
  rewrite <- (ztake_zdrop 12 (ztake _ _)), ztake_ztake, Z.min_l by lia. f_equal.
  - pose proof (overwrite_upto (overwrite buf 12 b) 0 h ltac:(lia)) as E.
    rewrite Hh in E. exact E.
  - rewrite zdrop_ztake by lia. replace (12 + zlen b - 12) with (zlen b) by lia.
    rewrite overwrite_after by lia. apply overwrite_read; lia.
Qed.

#[export] Instance LinkFrameWriter_ok :
  FrameWriterOk LinkFrameWriter_ops LinkFrameWriter_inv LinkFrameWriter_frame.
Proof.
  split; intros w p enc Hi Hp He Hl; cbn [fw_write fw_max_payload_size LinkFrameWriter_ops] in *;
    unfold LinkFrameWriter_write_impl; pose proof Hi as ([H0 H1]&[Hd Hs]&Hb).
  - rewrite (write_body_fits w p enc) by done.
    change (FormatResult_is_error (mkFormatResult FormatError_ok enc)) with false. cbv iota.
    cbn [fr_written]. pose proof (zlen_nonneg enc).
    destruct (max_u16 <? zlen enc) eqn:E; btests; [lia|].
    unfold LinkFrameWriter_get_buffer_size, min_frame_size in Hb. rewrite header_size in Hb.
    unfold crc_size in Hb. unfold u16. rewrite Z.mod_small by (unfold max_u16 in *; lia).
    set (buf1 := overwrite (lfw_frame_buffer w) 12 (checked enc)).
    assert (zlen buf1 = zlen (lfw_frame_buffer w)) as Hb1
      by (apply overwrite_length; rewrite ?zlen_checked; lia).
    set (h := link_header (lfw_addr w) (zlen enc)).
    assert (wseq_ok (WSeq buf1 0)) as Hok by (unfold wseq_ok; simpl; lia).
    rewrite BigEndian_write_all; [|done| |].
    2: { rewrite !Forall_cons. do 2 (split; [done|]). do 3 (split; [apply int_ok_u16; done|]).
         apply Forall_nil_2. }
    2: { unfold ints_bytes. cbn [map concat]. autorewrite with seqs. rewrite !zlen_be_bytes.
         unfold wseq_length. simpl. lia. }
    assert (ints_bytes [(UInt8, link_sync1); (UInt8, link_sync2);
             (UInt16, destination (lfw_addr w)); (UInt16, source (lfw_addr w));
             (UInt16, zlen enc)] = h) as ->.
    { unfold ints_bytes. cbn [map concat]. by rewrite app_nil_r. }
    pose proof (zlen_link_header (lfw_addr w) (zlen enc)) as Hh. fold h in Hh.
    assert (seq_take (w_buf (wseq_store (WSeq buf1 0) h)) header_fields_size = h) as ->.
    { rewrite seq_take_spec by (unfold header_fields_size; lia).
      pose proof (overwrite_upto buf1 0 h ltac:(lia)) as E'. rewrite Hh in E'. exact E'. }
    assert (0 <= CastagnoliCRC32_calc h < 2 ^ 32) as Hcrc by apply calc_u32, link_header_bytes.
    rewrite write_to_ok; [|apply wseq_store_ok; [done|unfold wseq_length; simpl; lia]|exact Hcrc|].
    2: { rewrite wseq_store_length by (unfold wseq_length; simpl; (done || lia)).
         unfold wseq_length. simpl. change (int_size UInt32) with 4. lia. }
    rewrite wseq_store_app by (rewrite ?zlen_be_bytes; unfold wseq_length; simpl; (done || lia)).
    change (h ++ be_bytes (int_bytes UInt32) (CastagnoliCRC32_calc h)) with (checked h).
    cbn [w_buf wseq_store]. rewrite seq_take_spec by (unfold min_frame_size; rewrite header_size; unfold crc_size; lia).
    replace (zlen enc + min_frame_size) with (12 + zlen (checked enc))
      by (rewrite zlen_checked; unfold min_frame_size; rewrite header_size; unfold crc_size; lia).
    unfold buf1 at 1. rewrite frame_in_buffer by (rewrite ?zlen_checked; lia).
    eexists. split; [reflexivity|]. split; [|done].
    split; [done|]. split; [done|]. simpl. rewrite overwrite_length by (rewrite ?zlen_checked; lia).
    rewrite Hb1, Hb. unfold LinkFrameWriter_get_buffer_size, min_frame_size. rewrite header_size. done.
  - destruct (write_body_short w p enc Hi Hp He Hl) as (buf&->&Hbuf).
    change (FormatResult_is_error (mkFormatResult FormatError_insufficient_space [])) with true. cbv iota.
    eexists. split; [done|]. split; [|done]. split; [done|]. split; [done|]. simpl. by rewrite Hbuf.
Qed.
End LinkWriter.

Section RawWriter.
Context `{SER : Ser4cpp}.

Definition RawFrameWriter_inv (w : RawFrameWriter) : Prop :=
  is_u16 (rfw_max_payload_size w) /\ zlen (rfw_frame_buffer w) = rfw_max_payload_size w.

Definition RawFrameWriter_ops : frame_writer RawFrameWriter :=
  FrameWriter RawFrameWriter_write_impl rfw_max_payload_size.
Definition MessageOnlyFrameWriter_ops : frame_writer RawFrameWriter :=
  FrameWriter MessageOnlyFrameWriter_write_impl rfw_max_payload_size.

Lemma raw_window w :
  RawFrameWriter_inv w ->
  wseq_ok (WSeq (rfw_frame_buffer w) 0) /\
  wseq_length (WSeq (rfw_frame_buffer w) 0) = rfw_max_payload_size w.
Proof. intros [[H0 _] Hb]. unfold wseq_ok, wseq_length. simpl. lia. Qed.

Lemma raw_stored w enc :
  RawFrameWriter_inv w -> zlen enc <= rfw_max_payload_size w ->
  ztake (zlen enc) (overwrite (rfw_frame_buffer w) 0 enc) = enc /\
  zlen (overwrite (rfw_frame_buffer w) 0 enc) = rfw_max_payload_size w.
Proof.
  intros [[H0 _] Hb] Hl. split.
  - exact (overwrite_upto (rfw_frame_buffer w) 0 enc ltac:(lia)).
  - rewrite overwrite_length by lia. done.
Qed.

Ltac raw_writer :=
  split; intros w p enc Hi Hp He Hl; cbn in Hl |- *;
  destruct (raw_window w Hi) as (Hok&Hlen);
  unfold RawFrameWriter_write_impl, MessageOnlyFrameWriter_write_impl;
  [ rewrite (writable_fits (p := p)) by (done || lia);
    change (FormatResult_is_error (mkFormatResult FormatError_ok enc)) with false;
    destruct (raw_stored w enc Hi Hl) as [Et Ez];
    cbn [w_buf wseq_store fr_written rfw_frame_buffer]; cbv iota;
    rewrite ?seq_take_spec by auto with ssp21; cbn [w_buf w_pos]; rewrite ?Et;
    eexists; split; [reflexivity|]; split; [split; [by destruct Hi|exact Ez]|done]
  | destruct (writable_short (p := p) _ Hok) as (w'&->&(_&_&Hz&_)); [lia|];
    change (FormatResult_is_error (mkFormatResult FormatError_insufficient_space [])) with true;
    cbv iota; eexists; split; [reflexivity|];
    split; [split; [by destruct Hi|simpl; rewrite Hz; by destruct Hi]|done] ].

#[export] Instance RawFrameWriter_ok :
  FrameWriterOk RawFrameWriter_ops RawFrameWriter_inv (fun _ b => b).
Proof. raw_writer. Qed.

#[export] Instance MessageOnlyFrameWriter_ok :
  FrameWriterOk MessageOnlyFrameWriter_ops RawFrameWriter_inv (fun _ b => b).
Proof. raw_writer. Qed.
End RawWriter.

Section WriterProperties.
Context `{SER : Ser4cpp}.

(** The link frame writer: a payload of at most [max_payload_size] bytes
    is stored behind the header space and comes out as one frame with the
    writer's addresses, the payload's length and both checks; a larger payload
    is refused with [insufficient_space] and an empty frame (also when only the
    body check does not fit); either way the buffer keeps its size and the
    writer can be used again. *)
Theorem link_frame_write w p enc :
  LinkFrameWriter_inv w -> Writable p enc -> all_bytes enc ->
  exists w',
    LinkFrameWriter_write_impl w p =
      (if decide (zlen enc <= lfw_max_payload_size w)
       then mkWriteResult FormatError_ok enc (link_frame (lfw_addr w) enc)
       else WriteResult_error FormatError_insufficient_space, w') /\
    LinkFrameWriter_inv w' /\ lfw_max_payload_size w' = lfw_max_payload_size w.
Proof.
  intros Hi Hp He. destruct (decide _) as [Hl|Hl].
  - destruct (fw_fits (fw := LinkFrameWriter_ops) w p enc Hi Hp He Hl) as (w'&E&Hi'&_&Hm).
    exists w'. done.
  - destruct (fw_short (fw := LinkFrameWriter_ops) w p enc Hi Hp He ltac:(simpl; lia))
      as (w'&E&Hi'&_&Hm). exists w'. done.
Qed.

(** C26: End to end over the link: any valid message that fits is framed by
    the link frame writer, the frame is found by a waiting parser with at least
    the same maximum (whatever bytes follow), the parser delivers the writer's
    addresses, and the message parser gives the message back. *)
Theorem link_roundtrip {A} (m : message A) enc ok (w : LinkFrameWriter) (p : LinkParser) a rest :
  LawfulMessage m enc ok -> ok a -> all_bytes rest ->
  LinkFrameWriter_inv w -> parser_implements p MSync1 ->
  zlen (enc a) <= lfw_max_payload_size w ->
  lfw_max_payload_size w <= max_payload_length (context p) ->
  exists frame w' p' payload,
    LinkFrameWriter_write_impl w (message_writable m a) =
      (mkWriteResult FormatError_ok payload frame, w') /\
    LinkParser_parse p (frame ++ rest) = Some (true, p', rest) /\
    LinkParser_frame p' = Some (lfw_addr w, payload) /\
    m_read m payload = inr a.
Proof.
  intros HM Ha Hr Hi Hp Hl Hmax. pose proof Hi as ([H0 H1]&Hadr&_).
  pose proof (msg_bytes (m := m) a Ha) as Hb. unfold max_u16 in H1.
  assert (Writable (message_writable m a) (enc a)) as HW
    by (apply (message_is_writable m enc ok); [done|unfold max_u32; lia]).
  destruct (fw_fits (fw := LinkFrameWriter_ops) w _ (enc a) Hi HW Hb Hl) as (w'&E&_).
  pose proof (arun_frame (max_payload_length (context p)) (lfw_addr w) (enc a) Hadr Hb
                ltac:(lia) ltac:(unfold max_u16; lia)) as Hrun.
  destruct (parse_run p MSync1 (link_frame (lfw_addr w) (enc a) ++ rest) Hp)
    as (m'&r&rest'&p'&Hrun'&Hpar&Hp'&_).
  { unfold link_frame, checked. rewrite !Forall_app.
    pose proof (link_header_bytes (lfw_addr w) (zlen (enc a))). auto with ssp21. }
  rewrite (arun_app _ _ _ _ _ _ Hrun), arun_done in Hrun' by done. injection Hrun' as <- <- <-.
  exists (link_frame (lfw_addr w) (enc a)), w', p', (enc a). split; [done|]. split; [done|].
  split; [by rewrite (parser_frame _ _ Hp')|]. by apply (msg_read_enc (m := m)).
Qed.
End WriterProperties.

(** ** Concrete instances *)

Definition example_writer : LinkFrameWriter :=
  LinkFrameWriter_new (mkAddresses 1 2) 10 (replicate 26 0).

Lemma example_writer_inv : LinkFrameWriter_inv example_writer.
Proof. by vm_compute. Qed.

Definition example_payload : IWritable :=
  mkIWritable (fun w =>
    if 6 <=? wseq_length w
    then (mkFormatResult FormatError_ok (replicate 6 0xDD), wseq_store w (replicate 6 0xDD))
    else (mkFormatResult FormatError_insufficient_space [], w)) Function_session_data.

Lemma example_payload_writable : Writable example_payload (replicate 6 0xDD).
Proof.
  split; intros w Hw Hl; cbn [writable_write example_payload].
  - change (zlen (replicate 6 0xDD)) with 6 in Hl. by destruct (6 <=? _) eqn:E; btests; [|lia].
  - change (zlen (replicate 6 0xDD)) with 6 in Hl. destruct (6 <=? _) eqn:E; btests; [lia|].
    exists w. split; [done|]. by apply wseq_extends_refl.
Qed.

Lemma link_frame_write_witness :
  exists w', LinkFrameWriter_write_impl (SER := ser4cpp_reference) example_writer example_payload =
    (mkWriteResult FormatError_ok (replicate 6 0xDD) example_frame, w').
Proof.
  destruct (link_frame_write (SER := ser4cpp_reference) example_writer example_payload
              (replicate 6 0xDD) example_writer_inv example_payload_writable
              ltac:(simpl; concrete_bytes)) as (w'&E&_).
  exists w'. rewrite E. vm_compute (link_frame _ _). reflexivity.
Defined.

Lemma link_roundtrip_witness :
  exists frame p',
    LinkParser_parse (SER := ser4cpp_reference) example_parser (frame ++ []) = Some (true, p', []) /\
    LinkParser_frame p' = Some (mkAddresses 1 2, [2; 0; 0; 0; 0; 0]).
Proof.
  destruct (link_roundtrip (SER := ser4cpp_reference) ReplyHandshakeError_message ReplyHandshakeError_enc
              ReplyHandshakeError_ok example_writer example_parser smallest_error []
              ReplyHandshakeError_lawful smallest_error_ok (Forall_nil_2 _)
              example_writer_inv example_parser_implements)
    as (frame&w'&p'&payload&Hw&Hp&Hf&_); [by vm_compute|by vm_compute|].
  exists frame, p'. vm_compute (LinkFrameWriter_write_impl _ _) in Hw. injection Hw as <- _ _.
  auto.
Defined.
