(* ===== verification/LinkLayer.v ===== *)
(** * The link layer

    [LinkLayer] of [link/LinkLayer.h] and [link/LinkLayer.cpp], between a lower
    layer that delivers chunks of bytes and the cryptographic layer, with the
    inline parts of [ILowerLayer] and [IUpperLayer] it inherits.  Every call to
    the upper layer is the last action of its handler, so a handler returns the
    call it makes.

    The lower layer is another object: [LowerLayer] states what [ILowerLayer]
    documents of reception (the chunks still to come are returned one by one,
    then the empty sequence). *)

From stdpp Require Import base numbers list.
From Stdlib Require Import Lia ZArith.
From S2P Require Import Prelude Ser4cpp Enums Codec Messages CRC LinkParser FrameWriter.

(** ** The layers around a layer *)

(** [ILowerLayer] as its upper layer sees it. *)
Class LowerLayer (L : Type) := {
  lower_is_tx_ready : L -> bool;
  lower_start_tx : L -> bytes -> bool * L;
  lower_start_rx : L -> bytes * L;
  (* the chunks that are still to be received *)
  lower_chunks : L -> list bytes;
  lower_chunks_ok l : Forall (fun c => c <> [] /\ all_bytes c) (lower_chunks l);
  lower_rx_none l : lower_chunks l = [] ->
    exists l', lower_start_rx l = ([], l') /\ lower_chunks l' = [];
  lower_rx_some l c cs : lower_chunks l = c :: cs ->
    exists l', lower_start_rx l = (c, l') /\ lower_chunks l' = cs;
}.

(** The calls a layer makes on its [IUpperLayer]. *)
Inductive upper_call := on_lower_open | on_lower_close | on_lower_tx_ready | on_lower_rx_ready.

#[export] Instance upper_call_eq_dec : EqDecision upper_call.
Proof. solve_decision. Defined.

(** ** State *)

Record LinkLayer := mkLinkLayer {
  ll_local_addr : Z;
  ll_remote_addr : Z;
  ll_remainder : bytes;
  ll_parser : LinkParser;
  (* ILowerLayer::upper_is_processing_rx_data *)
  ll_upper_is_processing : bool;
  (* IUpperLayer::is_open_flag *)
  ll_is_open : bool;
}.

Definition ll_set_parser (x : LinkLayer) (p : LinkParser) : LinkLayer :=
  mkLinkLayer (ll_local_addr x) (ll_remote_addr x) (ll_remainder x) p
    (ll_upper_is_processing x) (ll_is_open x).
Definition ll_set_remainder (x : LinkLayer) (r : bytes) : LinkLayer :=
  mkLinkLayer (ll_local_addr x) (ll_remote_addr x) r (ll_parser x)
    (ll_upper_is_processing x) (ll_is_open x).
Definition ll_set_processing (x : LinkLayer) (b : bool) : LinkLayer :=
  mkLinkLayer (ll_local_addr x) (ll_remote_addr x) (ll_remainder x) (ll_parser x)
    b (ll_is_open x).
Definition ll_set_open (x : LinkLayer) (b : bool) : LinkLayer :=
  mkLinkLayer (ll_local_addr x) (ll_remote_addr x) (ll_remainder x) (ll_parser x)
    (ll_upper_is_processing x) b.

Section Definitions.
Context `{SER : Ser4cpp} {L : Type} `{!LowerLayer L}.

Definition LinkLayer_new (local_addr remote_addr : Z) (memory : bytes) : LinkLayer :=
  mkLinkLayer local_addr remote_addr [] (LinkParser_new max_config_payload_size memory)
    false false.

(** [LinkLayer::parse] on the remainder, which it advances. *)
Definition LinkLayer_parse (x : LinkLayer) : option (bool * LinkLayer) :=
  if is_nil (ll_remainder x) then Some (false, x)
  else
    match LinkParser_parse (ll_parser x) (ll_remainder x) with
    | None => None
    | Some (ready, p, rest) => Some (ready, ll_set_remainder (ll_set_parser x p) rest)
    end.

(** Whether to continue. *)
Definition LinkLayer_read_frame_one_iteration (x : LinkLayer) (l : L)
  : option (bool * LinkLayer * L) :=
  if is_nil (ll_remainder x)
  then
    let '(data, l) := lower_start_rx l in
    Some (negb (is_nil data), ll_set_remainder x data, l)
  else
    match LinkLayer_parse x with
    | None => None
    | Some (ready, x) => Some (negb ready, x, l)
    end.

Fixpoint LinkLayer_read_frames (fuel : nat) (x : LinkLayer) (l : L) : option (LinkLayer * L) :=
  match fuel with
  | O => None
  | S fuel =>
      match LinkLayer_read_frame_one_iteration x l with
      | None => None
      | Some (true, x, l) => LinkLayer_read_frames fuel x l
      | Some (false, x, l) => Some (x, l)
      end
  end.

(** Two rounds per chunk, one for the remainder, one for the empty answer. *)
Definition get_frame_fuel (l : L) : nat := 2 * length (lower_chunks l) + 2.

Definition LinkLayer_get_frame (x : LinkLayer) (l : L) : option (bool * LinkLayer * L) :=
  if LinkParser_has_result (ll_parser x) then Some (true, x, l)
  else
    match LinkLayer_read_frames (get_frame_fuel l) x l with
    | None => None
    | Some (x, l) => Some (LinkParser_has_result (ll_parser x), x, l)
    end.

(** [ILowerLayer] side *)

Definition LinkLayer_discard_rx_data (x : LinkLayer) : LinkLayer :=
  ll_set_parser x (LinkParser_reset (ll_parser x)).

Definition LinkLayer_start_rx_from_upper_impl (x : LinkLayer) (l : L)
  : option (bytes * LinkLayer * L) :=
  match LinkLayer_get_frame x l with
  | None => None
  | Some (true, x, l) =>
      match LinkParser_frame (ll_parser x) with
      | Some (addr, payload) =>
          if destination addr =? ll_local_addr x then Some (payload, x, l) else Some ([], x, l)
      | None => Some ([], x, l)
      end
  | Some (false, x, l) => Some ([], x, l)
  end.

(** [ILowerLayer::start_rx_from_upper] *)
Definition LinkLayer_start_rx_from_upper (x : LinkLayer) (l : L)
  : option (bytes * LinkLayer * L) :=
  let x :=
    if ll_upper_is_processing x
    then ll_set_processing (LinkLayer_discard_rx_data x) false else x in
  match LinkLayer_start_rx_from_upper_impl x l with
  | None => None
  | Some (ret, x, l) =>
      Some (ret, if is_nil ret then x else ll_set_processing x true, l)
  end.

Definition LinkLayer_is_tx_ready (x : LinkLayer) (l : L) : bool := lower_is_tx_ready l.

Definition LinkLayer_start_tx_from_upper (x : LinkLayer) (l : L) (data : bytes) : bool * L :=
  lower_start_tx l data.

(** [IUpperLayer] side: the answer, the call on the upper layer, the state. *)

Definition LinkLayer_on_lower_open (x : LinkLayer) : bool * list upper_call * LinkLayer :=
  if ll_is_open x then (false, [], x) else (true, [on_lower_open], ll_set_open x true).

Definition LinkLayer_on_lower_close (x : LinkLayer) : bool * list upper_call * LinkLayer :=
  if ll_is_open x
  then
    let x := ll_set_open x false in
    (true, [on_lower_close], ll_set_parser x (LinkParser_reset (ll_parser x)))
  else (false, [], x).

Definition LinkLayer_on_lower_tx_ready (x : LinkLayer) : bool * list upper_call * LinkLayer :=
  if ll_is_open x then (true, [on_lower_tx_ready], x) else (false, [], x).

Definition LinkLayer_on_lower_rx_ready (x : LinkLayer) (l : L)
  : option (bool * list upper_call * LinkLayer * L) :=
  if ll_is_open x
  then
    match LinkLayer_get_frame x l with
    | None => None
    | Some (ready, x, l) => Some (true, if ready then [on_lower_rx_ready] else [], x, l)
    end
  else Some (false, [], x, l).

(** ** Reception *)

(** The bytes that are still to come, in order. *)
Definition pending (x : LinkLayer) (l : L) : bytes := ll_remainder x ++ concat (lower_chunks l).

Definition ll_implements (x : LinkLayer) (m : mode) : Prop :=
  parser_implements (ll_parser x) m /\ all_bytes (ll_remainder x) /\
  max_payload_length (context (ll_parser x)) = max_config_payload_size.

(** Everything but the parser and the remainder. *)
Definition same_shell (x y : LinkLayer) : Prop :=
  ll_local_addr x = ll_local_addr y /\ ll_remote_addr x = ll_remote_addr y /\
  ll_upper_is_processing x = ll_upper_is_processing y /\ ll_is_open x = ll_is_open y.

Lemma same_shell_refl x : same_shell x x.
Proof. done. Qed.

Lemma same_shell_trans x y z : same_shell x y -> same_shell y z -> same_shell x z.
Proof. intros (?&?&?&?) (?&?&?&?). repeat split; congruence. Qed.

Lemma parser_not_done p m :
  parser_implements p m -> LinkParser_has_result p = is_done m.
Proof. intros (_&H&_). exact (implements_done _ _ _ H). Qed.

Lemma read_frames_refines fuel x l m :
  (2 * length (lower_chunks l) + (if is_nil (ll_remainder x) then 1 else 2) <= fuel)%nat ->
  ll_implements x m -> is_done m = false ->
  exists x' l' m' r,
    LinkLayer_read_frames fuel x l = Some (x', l') /\
    arun max_config_payload_size m (pending x l) = (m', r, pending x' l') /\
    ll_implements x' m' /\ same_shell x x' /\ (is_done m' = false -> pending x' l' = []).
Proof.
  revert x l m. induction fuel as [|fuel IH]; intros x l m Hf (Hp&Hb&Hmax) Hnd.
  { destruct (is_nil _); lia. }
  simpl LinkLayer_read_frames. unfold LinkLayer_read_frame_one_iteration.
  destruct (is_nil (ll_remainder x)) eqn:En.
  - apply is_nil_true in En. pose proof (lower_chunks_ok l) as Hok.
    destruct (lower_chunks l) as [|c cs] eqn:El.
    + destruct (lower_rx_none l El) as (l'&->&El'). simpl.
      exists (ll_set_remainder x []), l', m, []. split; [done|]. unfold pending. simpl.
      rewrite El, El', En. simpl. split; [done|]. split; [split; [done|by split; [constructor|]]|].
      split; [by rewrite <- En; destruct x|done].
    + destruct (lower_rx_some l c cs El) as (l'&->&El').
      apply Forall_cons in Hok as [[Hne Hcb] Hok].
      assert (is_nil c = false) as -> by by apply is_nil_false. simpl negb. cbv iota.
      destruct (IH (ll_set_remainder x c) l' m) as (x'&l2&m'&r&->&Hrun&Himp&Hsh&Hend).
      * simpl. assert (is_nil c = false) as -> by by apply is_nil_false.
        rewrite El'. simpl in Hf. lia.
      * done.
      * done.
      * exists x', l2, m', r. split; [done|]. split; [|done].
        rewrite <- Hrun. f_equal. unfold pending. simpl. by rewrite El, El', En.
  - unfold LinkLayer_parse. rewrite En.
    destruct (parse_run (ll_parser x) m (ll_remainder x) Hp Hb) as (m1&r1&rest&p1&Hrun&->&Hp1&Hmax1&_).
    rewrite Hmax in Hrun, Hmax1. simpl.
    destruct (is_done m1) eqn:Ed; simpl.
    + exists (ll_set_remainder (ll_set_parser x p1) rest), l, m1, r1. split; [done|].
      split; [|split; [|split; [by destruct x|congruence]]].
      * unfold pending. simpl. 
        destruct (arun_split max_config_payload_size m (ll_remainder x) m1 r1 rest Hrun) as (c&Ec&Hc).
        rewrite Ec, <- app_assoc, (arun_app _ _ _ _ _ _ Hc), arun_done by done.
        by rewrite app_nil_r.
      * split; [done|]. split; [|done]. simpl.
        destruct (arun_split max_config_payload_size m (ll_remainder x) m1 r1 rest Hrun) as (c&Ec&_).
        rewrite Ec in Hb. by apply Forall_app in Hb as [_ ?].
    + assert (rest = []) as -> by by apply (arun_not_done _ _ _ _ _ _ Hrun).
      destruct (IH (ll_set_remainder (ll_set_parser x p1) []) l m1) as (x'&l2&m'&r&->&Hrun2&Himp&Hsh&Hend).
      * simpl. lia.
      * split; [done|]. split; [constructor|done].
      * done.
      * exists x', l2, m', (r1 ++ r). split; [done|]. split; [|split; [done|split; [done|done]]].
        unfold pending at 1. rewrite (arun_app _ _ _ _ _ _ Hrun).
        change (concat (lower_chunks l)) with (pending (ll_set_remainder (ll_set_parser x p1) []) l).
        by rewrite Hrun2.
Qed.
End Definitions.

Section Reception.
Context `{SER : Ser4cpp} {L : Type} `{!LowerLayer L}.

Lemma get_frame_refines x l m :
  ll_implements x m ->
  exists x' l' m' r,
    LinkLayer_get_frame x l = Some (is_done m', x', l') /\
    arun max_config_payload_size m (pending x l) = (m', r, pending x' l') /\
    ll_implements x' m' /\ same_shell x x' /\ (is_done m' = false -> pending x' l' = []).
Proof.
  intros Hx. unfold LinkLayer_get_frame. rewrite (parser_not_done _ m) by apply Hx.
  destruct (is_done m) eqn:Ed.
  - exists x, l, m, []. rewrite arun_done, Ed by done. split; [done|]. split; [done|].
    split; [done|]. split; [apply same_shell_refl|done].
  - destruct (read_frames_refines (get_frame_fuel l) x l m) as (x'&l'&m'&r&->&Hrun&Hx'&Hsh&Hend);
      [unfold get_frame_fuel; destruct (is_nil _); lia|done|done|].
    exists x', l', m', r. rewrite (parser_not_done _ m') by apply Hx'. done.
Qed.

(** What the upper layer is given for a mode. *)
Definition delivered (local_addr : Z) (m : mode) : bytes :=
  match m with
  | MDone addr payload => if destination addr =? local_addr then payload else []
  | _ => []
  end.

(** The mode reception starts from: the frame that was delivered before is
    dropped first. *)
Definition rx_mode (x : LinkLayer) (m : mode) : mode :=
  if ll_upper_is_processing x then MSync1 else m.

Lemma start_rx_run x l m :
  ll_implements x m ->
  exists x' l' m' r,
    arun max_config_payload_size (rx_mode x m) (pending x l) = (m', r, pending x' l') /\
    LinkLayer_start_rx_from_upper x l = Some (delivered (ll_local_addr x) m', x', l') /\
    ll_implements x' m' /\
    ll_upper_is_processing x' = negb (is_nil (delivered (ll_local_addr x) m')) /\
    ll_local_addr x' = ll_local_addr x /\ ll_is_open x' = ll_is_open x /\
    (is_done m' = false -> pending x' l' = []).
Proof.
  intros (Hp&Hb&Hmax). unfold LinkLayer_start_rx_from_upper, LinkLayer_start_rx_from_upper_impl.
  set (y := if ll_upper_is_processing x then _ else x).
  assert (ll_implements y (rx_mode x m) /\ pending y l = pending x l /\
          ll_upper_is_processing y = false /\ ll_local_addr y = ll_local_addr x /\
          ll_is_open y = ll_is_open x) as (Hy&Epend&Eproc&Eaddr&Eopen).
  { subst y. unfold rx_mode. destruct (ll_upper_is_processing x) eqn:E; [|done].
    split; [|done]. split; [exact (parser_reset_implements _ _ Hp)|done]. }
  destruct (get_frame_refines y l (rx_mode x m) Hy)
    as (x'&l'&m'&r&->&Hrun&Hx'&(Ea&_&Ep&Eo)&Hend). rewrite Epend in Hrun.
  rewrite (parser_frame _ m') by apply Hx'.
  assert (exists z, (if is_nil (delivered (ll_local_addr x) m') then x' else ll_set_processing x' true) = z /\
    ll_implements z m' /\ pending z l' = pending x' l' /\
    ll_upper_is_processing z = negb (is_nil (delivered (ll_local_addr x) m')) /\
    ll_local_addr z = ll_local_addr x /\ ll_is_open z = ll_is_open x) as (z&Ez&Hz&Epz&Eqz&Eaz&Eoz).
  { eexists. split; [done|]. destruct (is_nil _); simpl; split; try done; repeat split; congruence. }
  exists z, l', m', r. rewrite Epz. split; [done|]. split; [|done].
  rewrite <- Ez. destruct m' as [| | | |addr payload]; try done. cbn [is_done frame_of delivered].
  rewrite <- Ea, Eaddr. by destruct (destination addr =? ll_local_addr x).
Qed.

(** C32: Reception from the link layer implements the specification over the
    stream of all bytes still to come (the remainder and the lower layer's
    chunks, wherever they are cut): the call terminates, runs the frame
    automaton over the stream, leaves exactly the rest of the stream, and
    returns the payload of the completed frame when it is addressed to this
    station and nothing otherwise; a frame that was returned is dropped by the
    next call. *)
Theorem link_rx_refines x l m :
  ll_implements x m ->
  exists x' l',
    let '(m', _, rest) := arun max_config_payload_size (rx_mode x m) (pending x l) in
    LinkLayer_start_rx_from_upper x l = Some (delivered (ll_local_addr x) m', x', l') /\
    pending x' l' = rest /\ ll_implements x' m' /\
    ll_upper_is_processing x' = negb (is_nil (delivered (ll_local_addr x) m')).
Proof.
  intros Hx. destruct (start_rx_run x l m Hx) as (x'&l'&m'&r&->&Hs&Hx'&Hp&_).
  exists x', l'. done.
Qed.

(** Calling [start_rx_from_upper] several times. *)
Fixpoint rx_calls (n : nat) (x : LinkLayer) (l : L) : option (list bytes * LinkLayer * L) :=
  match n with
  | O => Some ([], x, l)
  | S n =>
      match LinkLayer_start_rx_from_upper x l with
      | None => None
      | Some (data, x, l) =>
          match rx_calls n x l with
          | None => None
          | Some (rest, x, l) => Some (data :: rest, x, l)
          end
      end
  end.

(** Frames with noise in front of each. *)
Definition wire (frames : list (bytes * (Addresses * bytes))) : bytes :=
  concat (map (fun '(noise, (addr, payload)) => noise ++ link_frame addr payload) frames).

Definition frame_ok (local_addr : Z) (f : bytes * (Addresses * bytes)) : Prop :=
  let '(noise, (addr, payload)) := f in
  ~ In link_sync1 noise /\ addr_ok addr /\ destination addr = local_addr /\
  all_bytes payload /\ payload <> [] /\ zlen payload <= max_config_payload_size.

Lemma rx_calls_frames frames tail x l m :
  ll_implements x m -> rx_mode x m = MSync1 ->
  Forall (frame_ok (ll_local_addr x)) frames -> ~ In link_sync1 tail ->
  pending x l = wire frames ++ tail ->
  exists x' l',
    rx_calls (length frames + 1) x l = Some (map (fun f => snd (snd f)) frames ++ [[]], x', l') /\
    pending x' l' = [].
Proof.
  revert x l m.
  induction frames as [|[noise [addr payload]] frames IH]; intros x l m Hx Hm Hf Htail Hpend; simpl.
  - destruct (start_rx_run x l m Hx) as (x'&l'&m'&r&Hrun&->&_&_&_&_&Hend).
    rewrite Hm, Hpend in Hrun. simpl in Hrun. rewrite arun_noise in Hrun by done.
    injection Hrun as <- <- Hrest. simpl. exists x', l'. done.
  - apply Forall_cons in Hf as [(Hn&Ha&Hd&Hb&Hne&Hl) Hf].
    destruct (start_rx_run x l m Hx) as (x'&l'&m'&r&Hrun&->&Hx'&Hproc&Haddr&_&_).
    assert (pending x l = noise ++ link_frame addr payload ++ wire frames ++ tail) as Ep
      by (rewrite Hpend; unfold wire; simpl; by rewrite <- !app_assoc).
    rewrite Hm, Ep in Hrun.
    rewrite (arun_app _ _ _ _ _ _ (arun_noise _ noise Hn)) in Hrun.
    rewrite (arun_app _ _ _ _ _ _
               (arun_frame _ addr payload Ha Hb Hl ltac:(unfold max_config_payload_size, max_u16 in *; lia)))
      in Hrun.
    rewrite arun_done in Hrun by done. injection Hrun as <- _ Hrest.
    simpl delivered in *. rewrite Hd, Z.eqb_refl in *.
    assert (is_nil payload = false) as Enil by by apply is_nil_false. rewrite Enil in Hproc.
    destruct (IH x' l' (MDone addr payload)) as (x2&l2&->&Hp2); try done.
    + unfold rx_mode. by rewrite Hproc.
    + by rewrite Haddr.
    + exists x2, l2. done.
Qed.

(** C33: Everything addressed to this station arrives, in order and once: when
    the bytes still to come are frames for this station with non-empty
    payloads within the maximum, with any noise between them that does not
    contain the first synchronization byte, the calls of the upper layer
    return exactly the payloads, in order, and then nothing; however the bytes
    are cut into chunks. *)
Theorem link_delivers_all frames tail x l m :
  ll_implements x m -> rx_mode x m = MSync1 ->
  Forall (frame_ok (ll_local_addr x)) frames -> ~ In link_sync1 tail ->
  pending x l = wire frames ++ tail ->
  exists x' l',
    rx_calls (length frames + 1) x l = Some (map (fun f => snd (snd f)) frames ++ [[]], x', l') /\
    pending x' l' = [].
Proof. apply rx_calls_frames. Qed.

Lemma blocked_call x l addr payload :
  ll_implements x (MDone addr payload) -> ll_upper_is_processing x = false ->
  destination addr <> ll_local_addr x \/ payload = [] ->
  LinkLayer_start_rx_from_upper x l = Some ([], x, l).
Proof.
  intros (Hp&_&_) Hproc Hcase.
  unfold LinkLayer_start_rx_from_upper, LinkLayer_start_rx_from_upper_impl, LinkLayer_get_frame.
  rewrite Hproc, (parser_not_done _ _ Hp). cbn [is_done].
  rewrite (parser_frame _ _ Hp). cbn [frame_of].
  destruct (destination addr =? ll_local_addr x) eqn:E; btests; [|done].
  by destruct Hcase as [?| ->].
Qed.

(** A complete frame that is addressed to another station, or that has an
    empty payload, is never dropped while the lower layer stays open: every
    later call of the upper layer returns nothing and reads nothing, whatever
    the lower layer has received. *)
Theorem link_blocked_by_foreign_frame n x l addr payload :
  ll_implements x (MDone addr payload) -> ll_upper_is_processing x = false ->
  destination addr <> ll_local_addr x \/ payload = [] ->
  rx_calls n x l = Some (replicate n [], x, l).
Proof.
  intros Hx Hp Hc. induction n as [|n IH]; simpl; [done|].
  rewrite (blocked_call x l addr payload) by done. by rewrite IH.
Qed.

(** Closing the lower layer while the upper layer still holds a payload loses
    a frame: the parser is reset, but the bytes that were not parsed yet stay, and
    so does the note that the upper layer is processing; after the layer is opened
    again, the first frame that is completed is announced to the upper layer, whose
    call then drops it and returns what follows it in the stream. *)
Theorem link_reopen_loses_frame x m :
  ll_implements x m -> ll_is_open x = true -> ll_upper_is_processing x = true ->
  exists x1 x2,
    LinkLayer_on_lower_close x = (true, [on_lower_close], x1) /\
    LinkLayer_on_lower_open x1 = (true, [on_lower_open], x2) /\ ll_remainder x2 = ll_remainder x /\
    (forall l addr payload r rest,
       arun max_config_payload_size MSync1 (ll_remainder x ++ concat (lower_chunks l)) =
         (MDone addr payload, r, rest) ->
       exists x3 l3 x4 l4,
         LinkLayer_on_lower_rx_ready x2 l = Some (true, [on_lower_rx_ready], x3, l3) /\
         LinkLayer_start_rx_from_upper x3 l3 =
           Some (delivered (ll_local_addr x) (arun max_config_payload_size MSync1 rest).1.1, x4, l4)).
Proof.
  intros (Hp&Hb&Hmax) Ho Hproc. unfold LinkLayer_on_lower_close. rewrite Ho.
  eexists _, _. split; [done|]. split; [done|]. split; [done|]. intros l addr payload r rest Hrun.
  set (x2 := ll_set_open _ true).
  assert (ll_implements x2 MSync1) as Hx2 by (split; [exact (parser_reset_implements _ _ Hp)|done]).
  destruct (get_frame_refines x2 l MSync1 Hx2) as (x3&l3&m3&r3&Hget&Hrun3&Hx3&(Ea&_&Ep&_)&_).
  unfold pending in Hrun3 at 1. cbn [x2 ll_remainder ll_set_open ll_set_parser] in Hrun3.
  rewrite Hrun in Hrun3. injection Hrun3 as <- _ Hrest.
  destruct (start_rx_run x3 l3 _ Hx3) as (x4&l4&m4&r4&Hrun4&Hrx&_).
  exists x3, l3, x4, l4. unfold LinkLayer_on_lower_rx_ready. change (ll_is_open x2) with true. cbv iota.
  rewrite Hget. split; [done|]. rewrite Hrx. unfold rx_mode in Hrun4. rewrite <- Ep in Hrun4.
  change (ll_upper_is_processing x2) with (ll_upper_is_processing x) in Hrun4. rewrite Hproc in Hrun4.
  rewrite Hrest, Hrun4. by rewrite <- Ea.
Qed.
End Reception.

(** ** A lower layer with a queue of chunks *)

Definition chunks_ok (cs : list bytes) : Prop := Forall (fun c => c <> [] /\ all_bytes c) cs.

Definition queue := { cs : list bytes | chunks_ok cs }.

Definition queue_pop (l : queue) : bytes * queue :=
  match l with
  | exist _ [] H => ([], exist _ [] H)
  | exist _ (c :: cs) H => (c, exist _ cs (Forall_inv_tail H))
  end.

Lemma queue_pop_none l : `l = [] -> exists l', queue_pop l = ([], l') /\ `l' = [].
Proof. destruct l as [[|c cs] H]; simpl; [|done]. intros _. by eexists. Qed.

Lemma queue_pop_some l c cs : `l = c :: cs -> exists l', queue_pop l = (c, l') /\ `l' = cs.
Proof. destruct l as [[|c' cs'] H]; simpl; [done|]. intros [= -> ->]. by eexists. Qed.

#[export] Instance queue_lower : LowerLayer queue := {|
  lower_is_tx_ready _ := true;
  lower_start_tx l _ := (true, l);
  lower_start_rx := queue_pop;
  lower_chunks l := `l;
  lower_chunks_ok l := proj2_sig l;
  lower_rx_none := queue_pop_none;
  lower_rx_some := queue_pop_some;
|}.

(** ** Concrete instances *)

Definition example_layer : LinkLayer :=
  LinkLayer_new 1 2 (replicate (Z.to_nat (Context_buffer_size max_config_payload_size)) 0).

Lemma example_layer_implements : ll_implements example_layer MSync1.
Proof.
  split; [|split; [constructor|done]]. apply parser_new_implements; [done|].
  unfold zlen. rewrite length_replicate. done.
Qed.

(** A frame for this station in two chunks. *)
Lemma two_chunks_ok : chunks_ok [ztake 5 example_frame; zdrop 5 example_frame].
Proof. unfold chunks_ok. simpl. repeat (constructor; [split; [done|concrete_bytes]|]). constructor. Qed.

Definition two_chunks : queue := exist _ _ two_chunks_ok.

Lemma link_rx_refines_witness :
  exists x' l', LinkLayer_start_rx_from_upper (SER := ser4cpp_reference) example_layer two_chunks =
    Some (replicate 6 0xDD, x', l').
Proof.
  destruct (link_rx_refines (SER := ser4cpp_reference) example_layer two_chunks MSync1
              example_layer_implements) as (x'&l'&H).
  exists x', l'. vm_compute (arun _ _ _) in H. destruct H as (H&_). exact H.
Defined.

Lemma link_delivers_all_witness :
  exists x' l',
    rx_calls (SER := ser4cpp_reference) 2 example_layer two_chunks =
      Some ([replicate 6 0xDD; []], x', l').
Proof.
  destruct (link_delivers_all (SER := ser4cpp_reference)
              [([], (mkAddresses 1 2, replicate 6 0xDD))] [] example_layer two_chunks MSync1)
    as (x'&l'&H&_).
  - exact example_layer_implements.
  - reflexivity.
  - constructor; [|constructor]. split; [simpl; tauto|]. split; [done|].
    split; [reflexivity|]. split; [simpl; concrete_bytes|]. split; [discriminate|by vm_compute].
  - simpl. tauto.
  - vm_compute. reflexivity.
  - exists x', l'. exact H.
Defined.

(** The station has received a frame for station 9. *)
Definition foreign_layer : LinkLayer :=
  mkLinkLayer 1 2 []
    (mkLinkParser
       (mkContext max_config_payload_size
          (replicate (Z.to_nat (Context_buffer_size max_config_payload_size)) 0)
          (mkLinkResult (mkAddresses 9 2) (mkSlice 12 3)) 3 [])
       (State_wait_read 19)) false true.

Lemma foreign_layer_implements :
  ll_implements foreign_layer (MDone (mkAddresses 9 2) [0; 0; 0]).
Proof.
  split; [|split; [constructor|done]].
  split; [|split; [split; [done|by vm_compute]|simpl; concrete_bytes]].
  by vm_compute.
Qed.

Lemma link_blocked_by_foreign_frame_witness :
  rx_calls (SER := ser4cpp_reference) 4 foreign_layer two_chunks =
    Some ([[]; []; []; []], foreign_layer, two_chunks).
Proof.
  apply (link_blocked_by_foreign_frame (SER := ser4cpp_reference) 4 foreign_layer two_chunks
           (mkAddresses 9 2) [0; 0; 0]).
  - exact foreign_layer_implements.
  - reflexivity.
  - left. discriminate.
Defined.

(** A frame arrives in two chunks after the reopening, and nothing else. *)
Lemma link_reopen_loses_frame_witness :
  exists x1 x2 x3 l3 x4 l4,
    LinkLayer_on_lower_close (ll_set_processing foreign_layer true) = (true, [on_lower_close], x1) /\
    LinkLayer_on_lower_open x1 = (true, [on_lower_open], x2) /\
    LinkLayer_on_lower_rx_ready (SER := ser4cpp_reference) x2 two_chunks =
      Some (true, [on_lower_rx_ready], x3, l3) /\
    LinkLayer_start_rx_from_upper (SER := ser4cpp_reference) x3 l3 = Some ([], x4, l4).
Proof.
  destruct (link_reopen_loses_frame (SER := ser4cpp_reference) (L := queue)
              (ll_set_processing foreign_layer true) (MDone (mkAddresses 9 2) [0; 0; 0]))
    as (x1&x2&H1&H2&_&H3).
  - split; [apply foreign_layer_implements|]. split; [simpl; concrete_bytes|reflexivity].
  - reflexivity.
  - reflexivity.
  - destruct (H3 two_chunks (mkAddresses 1 2) (replicate 6 0xDD) [] []) as (x3&l3&x4&l4&H4&H5).
    + vm_compute. reflexivity.
    + exists x1, x2, x3, l3, x4, l4. auto.
Defined.
