(* ===== verification/Crypto.v ===== *)
(** * Buffers and the cryptographic backend

    [BufferTypes.h/.cpp], [CryptoTypedefs.h], [CryptoBackend.h] and
    [Crypto.h/.cpp]: the buffers keys and outputs live in, the table of function
    pointers a backend supplies, and the static functions that check the table
    before they call through it.

    A function pointer is an [option]; a call through a null one is [Crash], a
    failed check ends the process ([Exit]).  Random bytes are drawn from a
    backend by the number of the draw.  [BackendOk] is what the protocol code
    relies on: the primitives are functions of the concatenated input, secure
    comparison is equality, zeroing zeroes, and decryption inverts encryption. *)

From stdpp Require Import base numbers list strings.
From Stdlib Require Import Lia ZArith.
From S2P Require Import Prelude Ser4cpp Enums.

(** ** [consts::crypto] *)

Definition protocol_major_version : Z := 0x0000.
Definition protocol_minor_version : Z := 0x0001.
Definition sha256_hash_output_length : Z := 32.
Definition x25519_key_length : Z := 32.
Definition ed25519_public_key_length : Z := 32.
Definition ed25519_private_key_length : Z := 64.
Definition ed25519_signature_length : Z := 64.
Definition aes_gcm_tag_length : Z := 16.
Definition aes_gcm_nonce_length : Z := 12.
Definition symmetric_key_length : Z := 32.
Definition nonce_length : Z := 32.
Definition trunc16 : Z := 16.
Definition max_primitive_buffer_length : Z := ed25519_private_key_length.
Definition default_ttl_pad_ms : Z := 10000.
Definition default_max_nonce : Z := 32768.
Definition default_nonce_renegotiation_trigger : Z := default_max_nonce - 128.
Definition default_max_session_time_ms : Z := 1 * 60 * 60 * 1000.
Definition default_session_time_renegotiation_trigger_ms : Z :=
  default_max_session_time_ms - (1 * 60 * 1000).

(** ** Buffers *)

Inductive BufferLength := BufferLength_empty | length_16 | length_32 | length_64.

#[export] Instance BufferLength_eq_dec : EqDecision BufferLength.
Proof. solve_decision. Defined.

Definition lookup_length_in_bytes (length : BufferLength) : Z :=
  match length with
  | length_16 => 16
  | length_32 => 32
  | length_64 => 64
  | BufferLength_empty => 0
  end.

(** [BufferBase]; the storage has [max_primitive_buffer_length] bytes. *)
Record BufferBase := mkBuffer { buf_length : BufferLength; buf_data : bytes }.

Definition buffer_ok (b : BufferBase) : Prop := zlen (buf_data b) = max_primitive_buffer_length.

Definition buffer_empty : BufferBase := mkBuffer BufferLength_empty (replicate 64 0).

Definition get_length_in_bytes (b : BufferBase) : Z := lookup_length_in_bytes (buf_length b).

Definition as_seq (b : BufferBase) : bytes := ztake (get_length_in_bytes b) (buf_data b).

Definition set_length (b : BufferBase) (length : BufferLength) : BufferBase :=
  mkBuffer length (buf_data b).

(** A store through [as_wseq]. *)
Definition buffer_store (b : BufferBase) (data : bytes) : BufferBase :=
  mkBuffer (buf_length b) (overwrite (buf_data b) 0 data).

(** [this->copy(other)] *)
Definition buffer_copy (this other : BufferBase) : BufferBase :=
  mkBuffer (buf_length other)
    (overwrite (buf_data this) 0 (ztake (get_length_in_bytes other) (buf_data other))).

Record KeyPair := mkKeyPair { public_key : BufferBase; private_key : BufferBase }.

Record SessionKeys := mkSessionKeys { rx_key : BufferBase; tx_key : BufferBase }.

Definition SessionKeys_copy (this other : SessionKeys) : SessionKeys :=
  mkSessionKeys (buffer_copy (rx_key this) (rx_key other))
    (buffer_copy (tx_key this) (tx_key other)).

Definition SessionKeys_valid (k : SessionKeys) : bool :=
  bool_decide (buf_length (rx_key k) = length_32) && bool_decide (buf_length (tx_key k) = length_32).

(** ** Error codes and results *)

(** [std::error_code] of the two categories the library defines. *)
Inductive error_code := EC_crypto (e : CryptoError) | EC_format (e : FormatError).

#[export] Instance error_code_eq_dec : EqDecision error_code.
Proof. solve_decision. Defined.

(** [AEADResult]; the error code or the ciphertext and the tag. *)
Definition AEADResult : Type := error_code + (bytes * bytes).
Definition AEADResult_success (ciphertext auth_tag : bytes) : AEADResult := inr (ciphertext, auth_tag).
Definition AEADResult_failure (ec : error_code) : AEADResult := inl ec.

(** ** The backend *)

(** The types of [CryptoTypedefs.h]: an output parameter is the value before
    the call and the value returned.  A key derivation function is built from
    another one and may end as that one does.  The encryption functions write to
    memory of the caller whose size they may not look at: writing past its end is
    [Crash]. *)
Definition zero_memory_func_t : Type := bytes -> bytes.
Definition gen_random_func_t : Type := nat -> bytes -> bytes.
Definition secure_equals_func_t : Type := bytes -> bytes -> bool.
Definition gen_keypair_func_t : Type := nat -> KeyPair -> KeyPair.
Definition hash_func_t : Type := list bytes -> BufferBase -> BufferBase.
Definition mac_func_t : Type := bytes -> list bytes -> BufferBase -> BufferBase.
Definition aead_encrypt_func_t : Type :=
  BufferBase -> Z -> bytes -> bytes -> bytes -> BufferBase -> outcome (AEADResult * bytes * BufferBase).
Definition aead_decrypt_func_t : Type :=
  BufferBase -> Z -> bytes -> bytes -> bytes -> bytes -> outcome ((error_code + bytes) * bytes).
Definition dh_func_t : Type := BufferBase -> bytes -> BufferBase -> outcome (error_code + BufferBase).
Definition kdf_func_t : Type :=
  bytes -> list bytes -> BufferBase -> BufferBase -> outcome (BufferBase * BufferBase).
Definition sign_dsa_func_t : Type := bytes -> bytes -> BufferBase -> outcome (error_code + BufferBase).
Definition verify_dsa_func_t : Type := bytes -> bytes -> bytes -> outcome bool.

Record CryptoBackend := mkCryptoBackend {
  be_zero_memory : option zero_memory_func_t;
  be_gen_random : option gen_random_func_t;
  be_secure_equals : option secure_equals_func_t;
  be_hash_sha256 : option hash_func_t;
  be_hmac_sha256 : option mac_func_t;
  be_gen_keypair_x25519 : option gen_keypair_func_t;
  be_dh_x25519 : option dh_func_t;
  be_hkdf_sha256 : option kdf_func_t;
  be_gen_keypair_ed25519 : option gen_keypair_func_t;
  be_sign_ed25519 : option sign_dsa_func_t;
  be_verify_ed25519 : option verify_dsa_func_t;
  be_aes256_gcm_encrypt : option aead_encrypt_func_t;
  be_aes256_gcm_decrypt : option aead_decrypt_func_t;
}.

Definition null_backend : CryptoBackend :=
  mkCryptoBackend None None None None None None None None None None None None None.

(** The static members of [Crypto]. *)
Record CryptoState := mkCryptoState { initialized : bool; backend : CryptoBackend }.

Definition Crypto_static : CryptoState := mkCryptoState false null_backend.

Definition is_some {A} (o : option A) : bool := match o with Some _ => true | None => false end.

(** [Crypto::initialize] *)
Definition Crypto_initialize (c : CryptoState) (impl : CryptoBackend) : outcome CryptoState :=
  if initialized c then Throw
  else if negb (is_some (be_zero_memory impl)) then Throw
  else if negb (is_some (be_gen_random impl)) then Throw
  else if negb (is_some (be_secure_equals impl)) then Throw
  else Done (mkCryptoState true impl).

(** A call through a function pointer. *)
Definition call {A B} (f : option A) (k : A -> B) : outcome B :=
  match f with
  | Some f => Done (k f)
  | None => Crash
  end.

Section CryptoFunctions.
Context (c : CryptoState).
Local Abbreviation be := (backend c).

Definition check_initialized : outcome unit := if initialized c then Done tt else Exit.

Definition supports_sha256 : bool :=
  is_some (be_hash_sha256 be) && is_some (be_hkdf_sha256 be) && is_some (be_hmac_sha256 be).
Definition supports_x25519 : bool :=
  is_some (be_gen_keypair_x25519 be) && is_some (be_dh_x25519 be).
Definition supports_ed25519 : bool :=
  is_some (be_gen_keypair_ed25519 be) && is_some (be_sign_ed25519 be) &&
  is_some (be_verify_ed25519 be).
Definition supports_aes256_gcm : bool :=
  is_some (be_aes256_gcm_encrypt be) && is_some (be_aes256_gcm_decrypt be).

Definition check_supports_sha256 : outcome unit :=
  let* _ := check_initialized in if supports_sha256 then Done tt else Exit.
Definition check_supports_x25519 : outcome unit :=
  let* _ := check_initialized in if supports_x25519 then Done tt else Exit.
Definition check_supports_ed25519 : outcome unit :=
  let* _ := check_initialized in if supports_ed25519 then Done tt else Exit.
Definition check_supports_aes256_gcm : outcome unit :=
  let* _ := check_initialized in if supports_aes256_gcm then Done tt else Exit.

Definition Crypto_zero_memory (data : bytes) : outcome bytes :=
  let* _ := check_initialized in call (be_zero_memory be) (fun f => f data).
Definition Crypto_gen_random (draw : nat) (dest : bytes) : outcome bytes :=
  let* _ := check_initialized in call (be_gen_random be) (fun f => f draw dest).
Definition Crypto_secure_equals (lhs rhs : bytes) : outcome bool :=
  let* _ := check_initialized in call (be_secure_equals be) (fun f => f lhs rhs).

Definition Crypto_hash_sha256 (data : list bytes) (output : BufferBase) : outcome BufferBase :=
  let* _ := check_supports_sha256 in call (be_hash_sha256 be) (fun f => f data output).
Definition Crypto_hmac_sha256 (key : bytes) (data : list bytes) (output : BufferBase)
  : outcome BufferBase :=
  let* _ := check_supports_sha256 in call (be_hmac_sha256 be) (fun f => f key data output).
Definition Crypto_gen_keypair_x25519 (draw : nat) (pair : KeyPair) : outcome KeyPair :=
  let* _ := check_supports_ed25519 in call (be_gen_keypair_x25519 be) (fun f => f draw pair).
Definition Crypto_dh_x25519 (priv_key : BufferBase) (pub_key : bytes) (output : BufferBase)
  : outcome (error_code + BufferBase) :=
  let* _ := check_supports_x25519 in
  let* result := call (be_dh_x25519 be) (fun f => f priv_key pub_key output) in
  result.
Definition Crypto_hkdf_sha256 (salt : bytes) (input_key_material : list bytes)
    (output1 output2 : BufferBase) : outcome (BufferBase * BufferBase) :=
  let* _ := check_supports_sha256 in
  let* result := call (be_hkdf_sha256 be) (fun f => f salt input_key_material output1 output2) in
  result.
Definition Crypto_gen_keypair_ed25519 (draw : nat) (pair : KeyPair) : outcome KeyPair :=
  let* _ := check_supports_ed25519 in call (be_gen_keypair_ed25519 be) (fun f => f draw pair).
Definition Crypto_sign_ed25519 (input private_key : bytes) (output : BufferBase)
  : outcome (error_code + BufferBase) :=
  let* _ := check_supports_ed25519 in
  let* result := call (be_sign_ed25519 be) (fun f => f input private_key output) in
  result.
Definition Crypto_verify_ed25519 (message signature public_key : bytes) : outcome bool :=
  let* _ := check_supports_ed25519 in
  let* result := call (be_verify_ed25519 be) (fun f => f message signature public_key) in
  result.
Definition Crypto_aes256_gcm_encrypt (key : BufferBase) (nonce : Z) (ad plaintext encrypt_buffer : bytes)
    (mac : BufferBase) : outcome (AEADResult * bytes * BufferBase) :=
  let* _ := check_supports_aes256_gcm in
  let* result := call (be_aes256_gcm_encrypt be) (fun f => f key nonce ad plaintext encrypt_buffer mac) in
  result.
Definition Crypto_aes256_gcm_decrypt (key : BufferBase) (nonce : Z)
    (ad ciphertext auth_tag plaintext : bytes) : outcome ((error_code + bytes) * bytes) :=
  let* _ := check_supports_aes256_gcm in
  let* result := call (be_aes256_gcm_decrypt be) (fun f => f key nonce ad ciphertext auth_tag plaintext) in
  result.

(** [SecureBuffer::zero] and [SessionKeys::zero] *)
Definition SecureBuffer_zero (b : BufferBase) : outcome BufferBase :=
  let b := set_length b BufferLength_empty in
  let* data := Crypto_zero_memory (buf_data b) in
  Done (mkBuffer (buf_length b) data).

Definition SessionKeys_zero (k : SessionKeys) : outcome SessionKeys :=
  let* rx := SecureBuffer_zero (rx_key k) in
  let* tx := SecureBuffer_zero (tx_key k) in
  Done (mkSessionKeys rx tx).
End CryptoFunctions.

(** ** What the protocol relies on *)

Class BackendOk (c : CryptoState) := {
  sha256 : bytes -> bytes;
  hmac : bytes -> bytes -> bytes;
  gcm_enc : bytes -> Z -> bytes -> bytes -> bytes * bytes;
  gcm_dec : bytes -> Z -> bytes -> bytes -> bytes -> option bytes;
  bk_initialized : initialized c = true;
  bk_zero f data : be_zero_memory (backend c) = Some f -> f data = replicate (length data) 0;
  bk_zero_some : is_some (be_zero_memory (backend c)) = true;
  bk_equals f l r : be_secure_equals (backend c) = Some f -> f l r = bool_decide (l = r);
  bk_equals_some : is_some (be_secure_equals (backend c)) = true;
  bk_hash f data out :
    be_hash_sha256 (backend c) = Some f ->
    f data out = set_length (buffer_store out (sha256 (concat data))) length_32;
  sha256_length data : zlen (sha256 data) = sha256_hash_output_length;
  bk_hmac f key data out :
    be_hmac_sha256 (backend c) = Some f ->
    f key data out = set_length (buffer_store out (hmac key (concat data))) length_32;
  hmac_length key data : zlen (hmac key data) = sha256_hash_output_length;
  hmac_bytes key data : all_bytes (hmac key data);
  bk_gcm_encrypt f key nonce ad plaintext encrypt_buffer mac :
    be_aes256_gcm_encrypt (backend c) = Some f -> zlen (as_seq key) = symmetric_key_length ->
    is_u16 nonce -> zlen plaintext <= zlen encrypt_buffer -> zlen plaintext <= max_u32 ->
    let '(ct, tag) := gcm_enc (as_seq key) nonce ad plaintext in
    f key nonce ad plaintext encrypt_buffer mac =
      Done (AEADResult_success ct tag, overwrite encrypt_buffer 0 ct,
            set_length (buffer_store mac tag) length_16);
  bk_gcm_decrypt f key nonce ad ct tag dest :
    be_aes256_gcm_decrypt (backend c) = Some f -> zlen (as_seq key) = symmetric_key_length ->
    zlen ct <= zlen dest -> zlen ct <= max_u32 -> zlen tag = aes_gcm_tag_length ->
    match gcm_dec (as_seq key) nonce ad ct tag with
    | Some pt => f key nonce ad ct tag dest = Done (inr pt, overwrite dest 0 pt)
    | None => exists dest', f key nonce ad ct tag dest =
        Done (inl (EC_crypto CryptoError_aead_decrypt_fail), dest') /\ zlen dest' = zlen dest
    end;
  gcm_length key nonce ad pt :
    zlen (gcm_enc key nonce ad pt).1 = zlen pt /\
    zlen (gcm_enc key nonce ad pt).2 = aes_gcm_tag_length;
  gcm_bytes key nonce ad pt :
    all_bytes pt ->
    all_bytes (gcm_enc key nonce ad pt).1 /\ all_bytes (gcm_enc key nonce ad pt).2;
  gcm_correct key nonce ad pt :
    zlen key = symmetric_key_length -> is_u16 nonce -> zlen pt <= max_u32 ->
    gcm_dec key nonce ad (gcm_enc key nonce ad pt).1 (gcm_enc key nonce ad pt).2 = Some pt;
}.

Section BackendFacts.
Context (c : CryptoState) `{HB : !BackendOk c}.

Lemma zero_memory_done data : Crypto_zero_memory c data = Done (replicate (length data) 0).
Proof.
  unfold Crypto_zero_memory, check_initialized. rewrite bk_initialized. simpl.
  pose proof bk_zero_some as Hz. destruct (be_zero_memory (backend c)) as [f|] eqn:E; [|done].
  simpl. f_equal. exact (bk_zero f data E).
Qed.

Lemma secure_equals_done l r : Crypto_secure_equals c l r = Done (bool_decide (l = r)).
Proof.
  unfold Crypto_secure_equals, check_initialized. rewrite bk_initialized. simpl.
  pose proof bk_equals_some as Hz. destruct (be_secure_equals (backend c)) as [f|] eqn:E; [|done].
  simpl. f_equal. exact (bk_equals f l r E).
Qed.

Lemma sha256_supported :
  supports_sha256 c = true -> check_supports_sha256 c = Done tt.
Proof.
  intros H. unfold check_supports_sha256, check_initialized. rewrite bk_initialized. simpl. by rewrite H.
Qed.

Lemma hmac_done key data out :
  supports_sha256 c = true ->
  Crypto_hmac_sha256 c key data out =
    Done (set_length (buffer_store out (hmac key (concat data))) length_32).
Proof.
  intros H. unfold Crypto_hmac_sha256. rewrite sha256_supported by done. simpl.
  unfold supports_sha256 in H. apply andb_prop in H as [_ H].
  destruct (be_hmac_sha256 (backend c)) as [f|] eqn:E; [|done].
  simpl. f_equal. exact (bk_hmac f key data out E).
Qed.

Lemma hash_done data out :
  supports_sha256 c = true ->
  Crypto_hash_sha256 c data out =
    Done (set_length (buffer_store out (sha256 (concat data))) length_32).
Proof.
  intros H. unfold Crypto_hash_sha256. rewrite sha256_supported by done. simpl.
  unfold supports_sha256 in H. apply andb_prop in H as [H _]. apply andb_prop in H as [H _].
  destruct (be_hash_sha256 (backend c)) as [f|] eqn:E; [|done].
  simpl. f_equal. exact (bk_hash f data out E).
Qed.

(** What a primitive stored is what the buffer shows. *)
Lemma as_seq_stored out data len :
  buffer_ok out -> zlen data = lookup_length_in_bytes len ->
  as_seq (set_length (buffer_store out data) len) = data.
Proof.
  intros Ho Hl. unfold as_seq, get_length_in_bytes, set_length, buffer_store. simpl.
  pose proof (overwrite_upto (buf_data out) 0 data) as E. rewrite Z.add_0_l, Hl in E.
  rewrite E; [done|]. unfold buffer_ok, max_primitive_buffer_length, ed25519_private_key_length in Ho. lia.
Qed.

Lemma as_seq_key key :
  buffer_ok key -> buf_length key = length_32 -> zlen (as_seq key) = symmetric_key_length.
Proof.
  unfold buffer_ok, as_seq, get_length_in_bytes. intros Hk ->.
  rewrite zlen_ztake by done. rewrite Hk. done.
Qed.

Lemma zero_done b :
  SecureBuffer_zero c b = Done (mkBuffer BufferLength_empty (replicate (length (buf_data b)) 0)).
Proof. unfold SecureBuffer_zero. by rewrite zero_memory_done. Qed.

Lemma keys_zero_done k :
  SessionKeys_zero c k =
    Done (mkSessionKeys
      (mkBuffer BufferLength_empty (replicate (length (buf_data (rx_key k))) 0))
      (mkBuffer BufferLength_empty (replicate (length (buf_data (tx_key k))) 0))).
Proof. unfold SessionKeys_zero. by rewrite !zero_done. Qed.
End BackendFacts.

(** Copying a key copies the bytes it shows. *)
Lemma as_seq_copy this other :
  buffer_ok this -> buffer_ok other -> as_seq (buffer_copy this other) = as_seq other.
Proof.
  unfold buffer_ok, as_seq, buffer_copy, get_length_in_bytes. simpl. intros Ht Ho.
  set (n := lookup_length_in_bytes (buf_length other)).
  assert (0 <= n <= 64) by (subst n; destruct (buf_length other); simpl; lia).
  unfold max_primitive_buffer_length, ed25519_private_key_length in *.
  pose proof (overwrite_upto (buf_data this) 0 (ztake n (buf_data other)) ltac:(lia)) as E.
  rewrite Z.add_0_l, zlen_ztake, Z.min_l in E by lia. by rewrite E.
Qed.

Lemma buffer_copy_ok this other :
  buffer_ok this -> buffer_ok other -> buffer_ok (buffer_copy this other).
Proof.
  unfold buffer_ok, buffer_copy, get_length_in_bytes. simpl. intros Ht Ho.
  set (n := lookup_length_in_bytes (buf_length other)).
  assert (0 <= n <= 64) by (subst n; destruct (buf_length other); simpl; lia).
  unfold max_primitive_buffer_length, ed25519_private_key_length in *.
  rewrite overwrite_length; [done|lia|]. rewrite zlen_ztake by lia. lia.
Qed.

(** ** The checks *)

(** The calls that go through the support checks, with the check each needs. *)
Inductive crypto_call :=
| CC_zero_memory (data : bytes)
| CC_gen_random (draw : nat) (dest : bytes)
| CC_secure_equals (lhs rhs : bytes)
| CC_hash_sha256 (data : list bytes) (out : BufferBase)
| CC_hmac_sha256 (key : bytes) (data : list bytes) (out : BufferBase)
| CC_hkdf_sha256 (salt : bytes) (ikm : list bytes) (out1 out2 : BufferBase)
| CC_dh_x25519 (key : BufferBase) (pub : bytes) (out : BufferBase)
| CC_gen_keypair_ed25519 (draw : nat) (pair : KeyPair)
| CC_sign_ed25519 (input key : bytes) (out : BufferBase)
| CC_verify_ed25519 (message signature key : bytes)
| CC_aes256_gcm_encrypt (key : BufferBase) (nonce : Z) (ad pt eb : bytes) (mac : BufferBase)
| CC_aes256_gcm_decrypt (key : BufferBase) (nonce : Z) (ad ct tag dest : bytes).

Definition needed_support (c : CryptoState) (x : crypto_call) : bool :=
  match x with
  | CC_zero_memory _ | CC_gen_random _ _ | CC_secure_equals _ _ => true
  | CC_hash_sha256 _ _ | CC_hmac_sha256 _ _ _ | CC_hkdf_sha256 _ _ _ _ => supports_sha256 c
  | CC_dh_x25519 _ _ _ => supports_x25519 c
  | CC_gen_keypair_ed25519 _ _ | CC_sign_ed25519 _ _ _ | CC_verify_ed25519 _ _ _ =>
      supports_ed25519 c
  | CC_aes256_gcm_encrypt _ _ _ _ _ _ | CC_aes256_gcm_decrypt _ _ _ _ _ _ =>
      supports_aes256_gcm c
  end.

(** How a call ends. *)
Inductive ending := Returns | Exits | Throws | Crashes.
Definition ending_of {A} (o : outcome A) : ending :=
  match o with Done _ => Returns | Exit => Exits | Throw => Throws | Crash => Crashes end.

Definition run_call (c : CryptoState) (x : crypto_call) : ending :=
  match x with
  | CC_zero_memory d => ending_of (Crypto_zero_memory c d)
  | CC_gen_random n d => ending_of (Crypto_gen_random c n d)
  | CC_secure_equals l r => ending_of (Crypto_secure_equals c l r)
  | CC_hash_sha256 d o => ending_of (Crypto_hash_sha256 c d o)
  | CC_hmac_sha256 k d o => ending_of (Crypto_hmac_sha256 c k d o)
  | CC_hkdf_sha256 s i o1 o2 => ending_of (Crypto_hkdf_sha256 c s i o1 o2)
  | CC_dh_x25519 k p o => ending_of (Crypto_dh_x25519 c k p o)
  | CC_gen_keypair_ed25519 n p => ending_of (Crypto_gen_keypair_ed25519 c n p)
  | CC_sign_ed25519 i k o => ending_of (Crypto_sign_ed25519 c i k o)
  | CC_verify_ed25519 m s k => ending_of (Crypto_verify_ed25519 c m s k)
  | CC_aes256_gcm_encrypt k n a p e m => ending_of (Crypto_aes256_gcm_encrypt c k n a p e m)
  | CC_aes256_gcm_decrypt k n a t g d => ending_of (Crypto_aes256_gcm_decrypt c k n a t g d)
  end.

(** The key derivation function returns whenever it is called. *)
Definition kdf_returns (impl : CryptoBackend) : Prop :=
  forall f salt ikm k1 k2, be_hkdf_sha256 impl = Some f -> ending_of (f salt ikm k1 k2) = Returns.

(** The encryption functions return when the destination has room, and leave it as
    long as it is. *)
Record gcm_returns (impl : CryptoBackend) : Prop := {
  gr_encrypt f key nonce ad pt eb mac :
    be_aes256_gcm_encrypt impl = Some f -> zlen pt <= zlen eb ->
    exists result eb' mac', f key nonce ad pt eb mac = Done (result, eb', mac') /\ zlen eb' = zlen eb;
  gr_decrypt f key nonce ad ct tag dest :
    be_aes256_gcm_decrypt impl = Some f -> zlen ct <= zlen dest ->
    exists result dest', f key nonce ad ct tag dest = Done (result, dest') /\ zlen dest' = zlen dest;
}.

(** The functions of public and private keys return when keys and signatures have
    their lengths. *)
Record key_calls_return (impl : CryptoBackend) : Prop := {
  kc_dh f key pub out :
    be_dh_x25519 impl = Some f -> x25519_key_length <= zlen pub -> exists r, f key pub out = Done r;
  kc_sign f input key out :
    be_sign_ed25519 impl = Some f -> ed25519_private_key_length <= zlen key -> exists r, f input key out = Done r;
  kc_verify f message signature key :
    be_verify_ed25519 impl = Some f -> ed25519_signature_length <= zlen signature ->
    ed25519_public_key_length <= zlen key -> exists ok, f message signature key = Done ok;
}.

(** There is room where a call writes, and there are the bytes that it reads. *)
Definition call_room (x : crypto_call) : Prop :=
  match x with
  | CC_dh_x25519 _ pub _ => x25519_key_length <= zlen pub
  | CC_sign_ed25519 _ key _ => ed25519_private_key_length <= zlen key
  | CC_verify_ed25519 _ signature key =>
      ed25519_signature_length <= zlen signature /\ ed25519_public_key_length <= zlen key
  | CC_aes256_gcm_encrypt _ _ _ pt eb _ => zlen pt <= zlen eb
  | CC_aes256_gcm_decrypt _ _ _ ct _ dest => zlen ct <= zlen dest
  | _ => True
  end.

Ltac crypto_call_cases :=
  repeat match goal with
  | |- context [is_some ?o] => destruct o; simpl
  | |- context [call ?o _] => destruct o; simpl
  end; try done.

(** The checks in front of the backend are sound: before a backend is
    installed every call ends the process; after [initialize] accepted a backend
    every call (but [gen_keypair_x25519], whose check is another one) returns when
    the backend supports the algorithm the call belongs to and ends the process
    otherwise, so that no such call goes through a null function pointer; and a
    second [initialize] throws.  The backend's key derivation function is one
    that returns, and so are its encryption functions where there is room and the
    functions of keys and signatures that have their lengths. *)
Theorem crypto_calls_checked impl c x :
  run_call Crypto_static x = Exits /\
  (Crypto_initialize Crypto_static impl = Done c -> kdf_returns impl -> gcm_returns impl -> key_calls_return impl ->
   call_room x ->
   run_call c x = (if needed_support c x then Returns else Exits) /\
   Crypto_initialize c impl = Throw).
Proof.
  split; [by destruct x|]. unfold Crypto_initialize.
  destruct impl as [[zero|] [random|] [equals|]]; try done. simpl. intros [= <-] Hkdf [Henc Hdec] [Hdh Hsign Hverify] Hroom.
  split; [|done]. destruct x; simpl;
    unfold Crypto_zero_memory, Crypto_gen_random, Crypto_secure_equals, Crypto_hash_sha256,
      Crypto_hmac_sha256, Crypto_hkdf_sha256, Crypto_dh_x25519, Crypto_gen_keypair_ed25519,
      Crypto_sign_ed25519, Crypto_verify_ed25519, Crypto_aes256_gcm_encrypt,
      Crypto_aes256_gcm_decrypt, check_supports_sha256, check_supports_x25519,
      check_supports_ed25519, check_supports_aes256_gcm, supports_sha256, supports_x25519,
      supports_ed25519, supports_aes256_gcm; simpl; crypto_call_cases.
  - by apply (Hkdf _ salt ikm out1 out2).
  - by destruct (Hdh _ key pub out eq_refl Hroom) as (?&->).
  - by destruct (Hsign _ input key out eq_refl Hroom) as (?&->).
  - destruct Hroom as [Hs Hk]. by destruct (Hverify _ message signature key eq_refl Hs Hk) as (?&->).
  - by destruct (Henc _ key nonce ad pt eb mac eq_refl Hroom) as (?&?&?&->&_).
  - by destruct (Hdec _ key nonce ad ct tag dest eq_refl Hroom) as (?&?&->&_).
Qed.

(** [gen_keypair_x25519] checks for the wrong algorithm: with a backend
    that supports X25519 and not Ed25519 it ends the process although the
    operation is supported, and with a backend that supports Ed25519 and not
    X25519 it calls through a null pointer. *)
Theorem gen_keypair_x25519_checks_ed25519 c draw pair :
  initialized c = true ->
  (supports_x25519 c = true -> supports_ed25519 c = false ->
   Crypto_gen_keypair_x25519 c draw pair = Exit) /\
  (be_gen_keypair_x25519 (backend c) = None -> supports_ed25519 c = true ->
   Crypto_gen_keypair_x25519 c draw pair = Crash).
Proof.
  intros Hi. unfold Crypto_gen_keypair_x25519, check_supports_ed25519, check_initialized.
  rewrite Hi. simpl. split.
  - intros _ H. by rewrite H.
  - intros E H. by rewrite H, E.
Qed.

(** ** A test backend

    Not cryptography: a backend that satisfies [BackendOk], for the concrete
    instances of the theorems. *)

Definition test_digest (n : nat) (key data : bytes) : bytes :=
  be_bytes n (fold_left (fun acc b => (acc * 31 + b + 7) mod 2 ^ 120) (key ++ [1] ++ data) 1).

Definition test_gcm_enc (key : bytes) (nonce : Z) (ad pt : bytes) : bytes * bytes :=
  (pt, test_digest 16 key (nonce :: ad ++ pt)).

Definition test_gcm_dec (key : bytes) (nonce : Z) (ad ct tag : bytes) : option bytes :=
  if bool_decide (tag = test_digest 16 key (nonce :: ad ++ ct)) then Some ct else None.

Definition test_backend : CryptoBackend :=
  mkCryptoBackend
    (Some (fun data => replicate (length data) 0))
    (Some (fun draw dest => be_bytes (length dest) (Z.of_nat draw + 1)))
    (Some (fun l r => bool_decide (l = r)))
    (Some (fun data out => set_length (buffer_store out (test_digest 32 [] (concat data))) length_32))
    (Some (fun key data out => set_length (buffer_store out (test_digest 32 key (concat data))) length_32))
    (Some (fun draw pair => pair))
    (Some (fun key pub out => Done (inr out)))
    (Some (fun salt ikm k1 k2 =>
       Done (set_length (buffer_store k1 (test_digest 32 salt (concat ikm ++ [1]))) length_32,
             set_length (buffer_store k2 (test_digest 32 salt (concat ikm ++ [2]))) length_32)))
    None None None
    (Some (fun key nonce ad pt eb mac =>
       let '(ct, tag) := test_gcm_enc (as_seq key) nonce ad pt in
       if zlen eb <? zlen pt then Crash
       else Done (AEADResult_success ct tag, overwrite eb 0 ct, set_length (buffer_store mac tag) length_16)))
    (Some (fun key nonce ad ct tag dest =>
       if zlen dest <? zlen ct then Crash
       else
         match test_gcm_dec (as_seq key) nonce ad ct tag with
         | Some pt => Done (inr pt, overwrite dest 0 pt)
         | None => Done (inl (EC_crypto CryptoError_aead_decrypt_fail), dest)
         end)).

Definition test_crypto : CryptoState := mkCryptoState true test_backend.

#[export, refine] Instance test_crypto_ok : BackendOk test_crypto := {|
  sha256 := test_digest 32 [];
  hmac := test_digest 32;
  gcm_enc := test_gcm_enc;
  gcm_dec := test_gcm_dec;
|}.
Proof.
  - done.
  - by intros f data [= <-].
  - done.
  - by intros f l r [= <-].
  - done.
  - by intros f data out [= <-].
  - intros data. apply zlen_be_bytes.
  - by intros f key data out [= <-].
  - intros key data. apply zlen_be_bytes.
  - intros key data. apply be_bytes_bytes.
  - intros f key nonce ad pt eb mac [= <-] _ _ Hl _. cbn. by rewrite (proj2 (Z.ltb_ge _ _) Hl).
  - intros f key nonce ad ct tag dest [= <-] _ Hl _ _. cbn. rewrite (proj2 (Z.ltb_ge _ _) Hl).
    destruct (test_gcm_dec (as_seq key) nonce ad ct tag); [done|]. by exists dest.
  - intros key nonce ad pt. split; [done|]. apply zlen_be_bytes.
  - intros key nonce ad pt Hp. split; [done|]. apply be_bytes_bytes.
  - intros key nonce ad pt _ _ _. unfold test_gcm_dec. simpl. by rewrite bool_decide_eq_true_2.
Defined.

Lemma test_kdf_returns : kdf_returns test_backend.
Proof. by intros f salt ikm k1 k2 [= <-]. Qed.

Lemma test_gcm_returns : gcm_returns test_backend.
Proof.
  split.
  - intros f key nonce ad pt eb mac [= <-] Hl. cbn. rewrite (proj2 (Z.ltb_ge _ _) Hl).
    eexists _, _, _. split; [done|]. apply overwrite_length; lia.
  - intros f key nonce ad ct tag dest [= <-] Hl. cbn. rewrite (proj2 (Z.ltb_ge _ _) Hl).
    unfold test_gcm_dec. case_bool_decide; eexists _, _; (split; [done|]); [apply overwrite_length; lia|done].
Qed.

Lemma test_key_calls : key_calls_return test_backend.
Proof. split; [|done..]. intros f key pub out [= <-] _. by eexists. Qed.

Lemma crypto_calls_checked_witness :
  run_call test_crypto (CC_gen_keypair_ed25519 0 (mkKeyPair buffer_empty buffer_empty)) = Exits /\
  run_call test_crypto (CC_hash_sha256 [] buffer_empty) = Returns.
Proof.
  split.
  - exact (proj1 (proj2 (crypto_calls_checked test_backend test_crypto
                           (CC_gen_keypair_ed25519 0 (mkKeyPair buffer_empty buffer_empty)))
            eq_refl test_kdf_returns test_gcm_returns test_key_calls I)).
  - exact (proj1 (proj2 (crypto_calls_checked test_backend test_crypto
                           (CC_hash_sha256 [] buffer_empty)) eq_refl test_kdf_returns test_gcm_returns test_key_calls I)).
Defined.

Lemma gen_keypair_x25519_checks_ed25519_witness :
  Crypto_gen_keypair_x25519 test_crypto 0 (mkKeyPair buffer_empty buffer_empty) = Exit.
Proof.
  apply (gen_keypair_x25519_checks_ed25519 test_crypto 0 (mkKeyPair buffer_empty buffer_empty));
    reflexivity.
Defined.
