(* ===== verification/SessionMode.v ===== *)
(** * Nonces, session modes and the choice of algorithms

    [NonceFunctions.h], [MacAdapters.h], [SessionMode.h/.cpp], [SessionModes.h]
    and [Algorithms.h/.cpp].  A session mode is the pair of functions the code
    stores; the MAC adapters turn a MAC into such a pair. *)

From stdpp Require Import base numbers list strings.
From Stdlib Require Import Lia ZArith.
From S2P Require Import Prelude Ser4cpp Enums Codec Messages Crypto.

(** ** [NonceFunctions] *)

Definition verify_nonce_func_t : Type := Z -> Z -> bool.

Definition verify_strict_increment : verify_nonce_func_t := fun last_nonce new_nonce =>
  if last_nonce =? max_u16 then false else new_nonce =? last_nonce + 1.

Definition verify_greater_than_last : verify_nonce_func_t := fun last_nonce new_nonce =>
  last_nonce <? new_nonce.

Definition equal_to_zero : verify_nonce_func_t := fun last_nonce new_nonce =>
  (last_nonce =? 0) && (new_nonce =? 0).

Definition default_verify : verify_nonce_func_t := verify_strict_increment.

(** ** [SessionMode] *)

Record SessionMode := mkSessionMode {
  mode_encrypt : BufferBase -> Z -> bytes -> bytes -> bytes -> BufferBase ->
    outcome (AEADResult * bytes * BufferBase);
  mode_decrypt : BufferBase -> Z -> bytes -> bytes -> bytes -> bytes ->
    outcome ((error_code + bytes) * bytes);
}.

Section Modes.
Context `{SER : Ser4cpp} (c : CryptoState).

(** The [UInt16] in a buffer of its size. *)
Definition length_buffer (length : Z) : bytes :=
  match write_to UInt16 (WSeq (replicate 2 0) 0) length with
  | Some w => w_buf w
  | None => replicate 2 0
  end.

(** [MAC::calc] *)
Definition mac_calc_t : Type := bytes -> list bytes -> BufferBase -> outcome BufferBase.

Definition aead_mac_encrypt (calc : mac_calc_t) (trunc : Z) (key : BufferBase) (nonce : Z)
    (ad cleartext encrypt_buffer : bytes) (mac : BufferBase)
  : outcome (AEADResult * bytes * BufferBase) :=
  if max_u16 <? zlen cleartext
  then Done (AEADResult_failure (EC_crypto CryptoError_bad_length), encrypt_buffer, mac)
  else
    let length := u16 (zlen cleartext) in
    let* mac := calc (as_seq key) [ad; length_buffer length; cleartext] mac in
    Done (AEADResult_success cleartext (seq_take (as_seq mac) trunc), encrypt_buffer, mac).

(** The [cleartext] parameter is the destination buffer; it is not written. *)
Definition aead_mac_decrypt (calc : mac_calc_t) (trunc : Z) (key : BufferBase) (nonce : Z)
    (ad ciphertext auth_tag cleartext : bytes) : outcome ((error_code + bytes) * bytes) :=
  if max_u16 <? zlen cleartext
  then Done (inl (EC_crypto CryptoError_bad_length), cleartext)
  else
    let length := u16 (zlen ciphertext) in
    let* mac := calc (as_seq key) [ad; length_buffer length; ciphertext] buffer_empty in
    let* equal := Crypto_secure_equals c (seq_take (as_seq mac) trunc) auth_tag in
    if negb equal then Done (inl (EC_crypto CryptoError_mac_auth_fail), cleartext)
    else Done (inr ciphertext, cleartext).

Definition hmac_sha_256_trunc16 : SessionMode :=
  mkSessionMode
    (aead_mac_encrypt (Crypto_hmac_sha256 c) trunc16)
    (aead_mac_decrypt (Crypto_hmac_sha256 c) trunc16).

Definition aes_256_gcm : SessionMode :=
  mkSessionMode (Crypto_aes256_gcm_encrypt c) (Crypto_aes256_gcm_decrypt c).

Definition default_mode : SessionMode := hmac_sha_256_trunc16.

Definition calc_user_data_tx_length (total_user_data_len encrypt_buffer_len max_frame_payload : Z)
  : Z :=
  let value := Z.min (Z.min total_user_data_len encrypt_buffer_len) max_frame_payload in
  u16 (Z.min value max_u16).

(** The metadata in a buffer of its size. *)
Definition get_metadata_bytes (metadata : AuthMetadata) : bytes :=
  w_buf (snd (AuthMetadata_write metadata (WSeq (replicate 6 0) 0))).

(** The result and the memory of [dest]. *)
Definition SessionMode_read (m : SessionMode) (key : BufferBase) (msg : SessionData) (dest : bytes)
  : outcome ((error_code + bytes) * bytes) :=
  if negb (get_length_in_bytes key =? symmetric_key_length)
  then Done (inl (EC_crypto CryptoError_bad_buffer_size), dest)
  else
    let ad_bytes := get_metadata_bytes (sd_metadata msg) in
    mode_decrypt m key (am_nonce (sd_metadata msg)) ad_bytes (sd_user_data msg) (sd_auth_tag msg) dest.

(** The message, what is left of [user_data] and the encryption buffer. *)
Definition SessionMode_write (m : SessionMode) (key : BufferBase) (metadata : AuthMetadata)
    (user_data encrypt_buffer : bytes) (mac : BufferBase)
  : outcome ((error_code + SessionData) * bytes * bytes) :=
  if negb (get_length_in_bytes key =? symmetric_key_length)
  then Done (inl (EC_crypto CryptoError_bad_buffer_size), user_data, encrypt_buffer)
  else if is_nil encrypt_buffer
  then Done (inl (EC_crypto CryptoError_bad_buffer_size), user_data, encrypt_buffer)
  else
    let tx_user_data_length :=
      calc_user_data_tx_length (zlen user_data) (zlen encrypt_buffer) 1024 in
    let ad_bytes := get_metadata_bytes metadata in
    let* '(result, encrypt_buffer, mac) :=
      mode_encrypt m key (am_nonce metadata) ad_bytes (seq_take user_data tx_user_data_length)
        encrypt_buffer mac in
    match result with
    | inl ec => Done (inl ec, user_data, encrypt_buffer)
    | inr (ciphertext, auth_tag) =>
        Done (inr (mkSessionData metadata ciphertext auth_tag),
              seq_skip user_data tx_user_data_length, encrypt_buffer)
    end.

(** ** [Algorithms] *)

Record Algorithms_Session := mkAlgorithms_Session {
  verify_nonce : verify_nonce_func_t;
  session_mode : SessionMode;
}.

Definition Algorithms_Session_default : Algorithms_Session :=
  mkAlgorithms_Session default_verify default_mode.

Definition Algorithms_Session_configure (this : Algorithms_Session) (nonce_mode : SessionNonceMode)
    (mode : SessionCryptoMode) : HandshakeError * Algorithms_Session :=
  let with_nonce (v : verify_nonce_func_t) :=
    let this := mkAlgorithms_Session v (session_mode this) in
    match mode with
    | SessionCryptoMode_hmac_sha256_16 =>
        if negb (supports_sha256 c) then (HandshakeError_unsupported_session_mode, this)
        else (HandshakeError_none, mkAlgorithms_Session (verify_nonce this) hmac_sha_256_trunc16)
    | SessionCryptoMode_aes_256_gcm =>
        if negb (supports_aes256_gcm c) then (HandshakeError_unsupported_session_mode, this)
        else (HandshakeError_none, mkAlgorithms_Session (verify_nonce this) aes_256_gcm)
    | _ => (HandshakeError_unsupported_session_mode, this)
    end in
  match nonce_mode with
  | SessionNonceMode_greater_than_last_rx => with_nonce verify_greater_than_last
  | SessionNonceMode_strict_increment => with_nonce verify_strict_increment
  | _ => (HandshakeError_unsupported_nonce_mode, this)
  end.

Record Algorithms_Handshake := mkAlgorithms_Handshake {
  alg_kdf : bytes -> list bytes -> BufferBase -> BufferBase -> outcome (BufferBase * BufferBase);
  alg_hash : list bytes -> BufferBase -> outcome BufferBase;
}.

Definition Algorithms_Handshake_default : Algorithms_Handshake :=
  mkAlgorithms_Handshake (Crypto_hkdf_sha256 c) (Crypto_hash_sha256 c).

Definition Algorithms_Handshake_configure (this : Algorithms_Handshake) (handshake_kdf : HandshakeKDF)
    (handshake_hash : HandshakeHash) : HandshakeError * Algorithms_Handshake :=
  match handshake_hash with
  | HandshakeHash_sha256 =>
      if negb (supports_sha256 c) then (HandshakeError_unsupported_handshake_hash, this)
      else
        let this := mkAlgorithms_Handshake (alg_kdf this) (Crypto_hash_sha256 c) in
        match handshake_kdf with
        | HandshakeKDF_hkdf_sha256 =>
            if negb (supports_sha256 c) then (HandshakeError_unsupported_handshake_kdf, this)
            else (HandshakeError_none, mkAlgorithms_Handshake (Crypto_hkdf_sha256 c) (alg_hash this))
        | _ => (HandshakeError_unsupported_handshake_kdf, this)
        end
  | _ => (HandshakeError_unsupported_handshake_hash, this)
  end.

Record Algorithms_Common := mkAlgorithms_Common {
  alg_session : Algorithms_Session;
  alg_handshake : Algorithms_Handshake;
}.

Definition Algorithms_Common_default : Algorithms_Common :=
  mkAlgorithms_Common Algorithms_Session_default Algorithms_Handshake_default.

Definition Algorithms_Common_configure4 (this : Algorithms_Common) (handshake_hash : HandshakeHash)
    (handshake_kdf : HandshakeKDF) (session_nonce_mode : SessionNonceMode)
    (session_crypto_mode : SessionCryptoMode) : HandshakeError * Algorithms_Common :=
  let '(err, handshake) :=
    Algorithms_Handshake_configure (alg_handshake this) handshake_kdf handshake_hash in
  let this := mkAlgorithms_Common (alg_session this) handshake in
  if any_HandshakeError err then (err, this)
  else
    let '(err, session) :=
      Algorithms_Session_configure (alg_session this) session_nonce_mode session_crypto_mode in
    let this := mkAlgorithms_Common session (alg_handshake this) in
    if any_HandshakeError err then (err, this) else (HandshakeError_none, this).

Definition Algorithms_Common_configure (this : Algorithms_Common) (spec : CryptoSpec)
  : HandshakeError * Algorithms_Common :=
  Algorithms_Common_configure4 this (cs_handshake_hash spec) (cs_handshake_kdf spec)
    (cs_session_nonce_mode spec) (cs_session_crypto_mode spec).

(** [CryptoSuite] *)
Record CryptoSuite := mkCryptoSuite {
  suite_handshake_hash : HandshakeHash;
  suite_handshake_kdf : HandshakeKDF;
  suite_session_nonce_mode : SessionNonceMode;
  suite_session_crypto_mode : SessionCryptoMode;
}.

Definition CryptoSuite_default : CryptoSuite :=
  mkCryptoSuite HandshakeHash_sha256 HandshakeKDF_hkdf_sha256
    SessionNonceMode_strict_increment SessionCryptoMode_hmac_sha256_16.

Definition Algorithms_Common_get_or_throw (suite : CryptoSuite) : outcome Algorithms_Common :=
  let '(err, ret) :=
    Algorithms_Common_configure4 Algorithms_Common_default (suite_handshake_hash suite)
      (suite_handshake_kdf suite) (suite_session_nonce_mode suite)
      (suite_session_crypto_mode suite) in
  if any_HandshakeError err then Throw else Done ret.

Record Algorithms_DH := mkAlgorithms_DH {
  alg_dh : BufferBase -> bytes -> BufferBase -> outcome (error_code + BufferBase);
  alg_gen_key_pair : nat -> KeyPair -> outcome KeyPair;
}.

Definition Algorithms_DH_default : Algorithms_DH :=
  mkAlgorithms_DH (Crypto_dh_x25519 c) (Crypto_gen_keypair_x25519 c).

Definition Algorithms_DH_configure (this : Algorithms_DH) (type : HandshakeEphemeral)
  : HandshakeError * Algorithms_DH :=
  match type with
  | HandshakeEphemeral_x25519 =>
      if negb (supports_x25519 c) then (HandshakeError_unsupported_handshake_ephemeral, this)
      else (HandshakeError_none, mkAlgorithms_DH (Crypto_dh_x25519 c) (Crypto_gen_keypair_x25519 c))
  | _ => (HandshakeError_unsupported_handshake_ephemeral, this)
  end.

Definition Algorithms_DH_get_or_throw (type : HandshakeEphemeral) : outcome Algorithms_DH :=
  let '(err, ret) := Algorithms_DH_configure Algorithms_DH_default type in
  if any_HandshakeError err then Throw else Done ret.
End Modes.

(** ** What a session mode promises to a session *)

Class SessionModeOk (m : SessionMode) := {
  (* key, nonce, associated data, cleartext: ciphertext and tag *)
  mode_seal : bytes -> Z -> bytes -> bytes -> bytes * bytes;
  mode_encrypt_done key nonce ad pt eb mac :
    zlen (as_seq key) = symmetric_key_length -> is_u16 nonce ->
    buffer_ok mac -> zlen pt <= zlen eb -> zlen pt <= max_u16 ->
    exists eb' mac', mode_encrypt m key nonce ad pt eb mac =
      Done (inr (mode_seal (as_seq key) nonce ad pt), eb', mac') /\ zlen eb' = zlen eb;
  mode_decrypt_seal key nonce ad pt dest :
    zlen (as_seq key) = symmetric_key_length -> is_u16 nonce ->
    zlen pt <= zlen dest -> zlen dest <= max_u16 ->
    exists dest', mode_decrypt m key nonce ad (mode_seal (as_seq key) nonce ad pt).1
                    (mode_seal (as_seq key) nonce ad pt).2 dest = Done (inr pt, dest') /\ zlen dest' = zlen dest;
  mode_seal_length key nonce ad pt :
    zlen (mode_seal key nonce ad pt).1 = zlen pt /\ zlen (mode_seal key nonce ad pt).2 = 16;
  mode_seal_bytes key nonce ad pt :
    all_bytes pt ->
    all_bytes (mode_seal key nonce ad pt).1 /\ all_bytes (mode_seal key nonce ad pt).2;
}.

Section ModeFacts.
Context `{SER : Ser4cpp} (c : CryptoState) `{HB : !BackendOk c}.

Lemma length_buffer_bytes length : is_u16 length -> length_buffer length = be_bytes 2 length.
Proof.
  intros H. unfold length_buffer. rewrite write_to_ok; [|done|by apply int_ok_u16|done].
  unfold wseq_store. cbn [w_buf w_pos].
  pose proof (overwrite_upto (replicate 2 0) 0 (be_bytes 2 length) ltac:(done)) as E.
  rewrite zlen_be_bytes in E. simpl Z.add in E.
  rewrite <- (ztake_ge 2 (overwrite _ _ _)); [exact E|].
  rewrite overwrite_length; [done|done|]. by rewrite zlen_be_bytes.
Qed.

Lemma metadata_bytes metadata :
  AuthMetadata_ok metadata -> get_metadata_bytes metadata = AuthMetadata_enc metadata.
Proof.
  intros Hm. unfold get_metadata_bytes.
  pose proof (lawful_writes (f := AuthMetadata_field) metadata Hm (WSeq (replicate 6 0) 0)
                ltac:(done)) as [Hw _].
  cbn [f_write AuthMetadata_field] in Hw. rewrite Hw by by rewrite AuthMetadata_enc_size.
  unfold wseq_store. cbn [w_buf w_pos snd].
  pose proof (overwrite_upto (replicate 6 0) 0 (AuthMetadata_enc metadata) ltac:(done)) as E.
  rewrite AuthMetadata_enc_size in E. simpl Z.add in E.
  rewrite <- (ztake_ge 6 (overwrite _ _ _)); [exact E|].
  rewrite overwrite_length; [done|done|]. by rewrite AuthMetadata_enc_size.
Qed.

(** The tag of the MAC mode. *)
Definition hmac_tag (key ad data : bytes) : bytes :=
  ztake trunc16 (hmac key (ad ++ be_bytes 2 (zlen data) ++ data)).

Lemma hmac_tag_length key ad data : zlen (hmac_tag key ad data) = 16.
Proof. unfold hmac_tag, trunc16. rewrite zlen_ztake, hmac_length by lia. done. Qed.

Lemma hmac_mode_tag key ad data out :
  supports_sha256 c = true -> buffer_ok out -> zlen data <= max_u16 ->
  exists mac,
    Crypto_hmac_sha256 c (as_seq key) [ad; length_buffer (u16 (zlen data)); data] out = Done mac /\
    seq_take (as_seq mac) trunc16 = hmac_tag (as_seq key) ad data.
Proof.
  intros Hs Ho Hl. pose proof (zlen_nonneg data). unfold max_u16 in Hl.
  rewrite (hmac_done c) by done. eexists. split; [done|].
  rewrite as_seq_stored by (done || apply hmac_length).
  rewrite seq_take_spec by done. unfold u16. rewrite Z.mod_small by lia.
  rewrite length_buffer_bytes by (unfold is_u16, max_u16; lia).
  unfold hmac_tag. cbn [concat]. by rewrite app_nil_r.
Qed.

Lemma empty_ok : buffer_ok buffer_empty.
Proof. done. Qed.

(** The MAC mode accepts exactly the data with its tag. *)
Lemma hmac_decrypt_spec key nonce ad data tag dest :
  supports_sha256 c = true -> zlen data <= max_u16 -> zlen dest <= max_u16 ->
  mode_decrypt (hmac_sha_256_trunc16 c) key nonce ad data tag dest =
    Done (if bool_decide (hmac_tag (as_seq key) ad data = tag) then inr data
          else inl (EC_crypto CryptoError_mac_auth_fail), dest).
Proof.
  intros Hs Hl Hd. cbn [mode_decrypt hmac_sha_256_trunc16]. unfold aead_mac_decrypt.
  destruct (max_u16 <? zlen dest) eqn:E; btests; [lia|].
  destruct (hmac_mode_tag key ad data buffer_empty Hs empty_ok Hl) as (mac&->&Et). cbn [obind].
  rewrite Et, (secure_equals_done c). cbn [obind]. by destruct (bool_decide _).
Qed.

#[export] Instance hmac_mode_ok (Hs : supports_sha256 c = true) :
  SessionModeOk (hmac_sha_256_trunc16 c).
Proof.
  refine {| mode_seal key nonce ad pt := (pt, hmac_tag key ad pt) |}.
  - intros key nonce ad pt eb mac Hk Hn Hm Hl H16. cbn [mode_encrypt hmac_sha_256_trunc16].
    unfold aead_mac_encrypt. destruct (max_u16 <? zlen pt) eqn:E; btests; [lia|].
    destruct (hmac_mode_tag key ad pt mac Hs Hm H16) as (mac'&->&Et). cbn [obind].
    exists eb, mac'. rewrite Et. done.
  - intros key nonce ad pt dest Hk Hn Hl Hd. exists dest. cbn [fst snd].
    rewrite hmac_decrypt_spec by (done || lia). by rewrite bool_decide_eq_true_2.
  - intros. split; [done|]. apply hmac_tag_length.
  - intros key nonce ad pt Hp. split; [done|]. apply Forall_ztake, hmac_bytes.
Defined.

#[export] Instance gcm_mode_ok (Hs : supports_aes256_gcm c = true) : SessionModeOk (aes_256_gcm c).
Proof.
  assert (check_supports_aes256_gcm c = Done tt) as Hc.
  { unfold check_supports_aes256_gcm, check_initialized. rewrite bk_initialized. simpl. by rewrite Hs. }
  unfold supports_aes256_gcm in Hs. apply andb_prop in Hs as [He Hd].
  refine {| mode_seal := gcm_enc |}.
  - intros key nonce ad pt eb mac Hk Hn Hm Hl H16. cbn [mode_encrypt aes_256_gcm].
    unfold Crypto_aes256_gcm_encrypt. rewrite Hc. cbn [obind].
    destruct (be_aes256_gcm_encrypt (backend c)) as [f|] eqn:E; [|done]. cbn [call].
    pose proof (bk_gcm_encrypt f key nonce ad pt eb mac E Hk Hn Hl ltac:(unfold max_u16, max_u32 in *; lia)) as H.
    pose proof (gcm_length (as_seq key) nonce ad pt) as [Hlen _].
    destruct (gcm_enc (as_seq key) nonce ad pt) as [ct tag]. simpl in Hlen. rewrite H.
    eexists _, _. split; [done|]. apply overwrite_length; lia.
  - intros key nonce ad pt dest Hk Hn Hl Hd16. cbn [mode_decrypt aes_256_gcm].
    unfold Crypto_aes256_gcm_decrypt. rewrite Hc. cbn [obind].
    destruct (be_aes256_gcm_decrypt (backend c)) as [f|] eqn:E; [|done]. cbn [call].
    pose proof (gcm_length (as_seq key) nonce ad pt) as [Hlen Htag].
    assert (zlen (gcm_enc (as_seq key) nonce ad pt).1 <= zlen dest) as Hfit by (rewrite Hlen; done).
    pose proof (bk_gcm_decrypt f key nonce ad (gcm_enc (as_seq key) nonce ad pt).1
                  (gcm_enc (as_seq key) nonce ad pt).2 dest E Hk Hfit
                  ltac:(unfold max_u16, max_u32 in *; lia) Htag) as H.
    rewrite gcm_correct in H by (done || unfold max_u16, max_u32 in *; lia). rewrite H.
    eexists. split; [done|]. apply overwrite_length; lia.
  - apply gcm_length.
  - apply gcm_bytes.
Defined.
End ModeFacts.

Section ModeProperties.
Context `{SER : Ser4cpp} (c : CryptoState) `{HB : !BackendOk c}.

Lemma tx_length_spec n eb :
  0 <= n -> 0 <= eb -> calc_user_data_tx_length n eb 1024 = Z.min n (Z.min eb 1024).
Proof.
  intros. unfold calc_user_data_tx_length, u16, max_u16. rewrite Z.mod_small by lia. lia.
Qed.

Lemma mode_write_done (m : SessionMode) `{HM : !SessionModeOk m} key metadata user_data eb mac :
  AuthMetadata_ok metadata -> buffer_ok key -> buf_length key = length_32 -> buffer_ok mac ->
  eb <> [] ->
  let n := Z.min (zlen user_data) (Z.min (zlen eb) 1024) in
  let sealed := mode_seal (as_seq key) (am_nonce metadata) (AuthMetadata_enc metadata)
                  (ztake n user_data) in
  exists eb', SessionMode_write m key metadata user_data eb mac =
    Done (inr (mkSessionData metadata sealed.1 sealed.2), zdrop n user_data, eb') /\
    zlen eb' = zlen eb.
Proof.
  intros Hmd Hko Hk Hmac Hne n sealed. unfold SessionMode_write, get_length_in_bytes. rewrite Hk.
  change (negb (lookup_length_in_bytes length_32 =? symmetric_key_length)) with false. cbv iota.
  assert (is_nil eb = false) as -> by by apply is_nil_false.
  pose proof (zlen_nonneg user_data). pose proof (zlen_nonneg eb).
  rewrite tx_length_spec by done. fold n.
  rewrite metadata_bytes by done. rewrite seq_take_spec, seq_skip_spec by lia.
  destruct (mode_encrypt_done (m := m) key (am_nonce metadata) (AuthMetadata_enc metadata)
              (ztake n user_data) eb mac) as (eb'&mac'&->&Hl).
  - by apply as_seq_key.
  - apply int_ok_u16, Hmd.
  - done.
  - rewrite zlen_ztake by lia. lia.
  - rewrite zlen_ztake by lia. unfold max_u16. lia.
  - exists eb'. cbn [obind]. fold sealed. by destruct sealed.
Qed.

(** The MAC mode authenticates what it should: reading a message with a
    key of the right size succeeds exactly when its tag is the truncated HMAC of
    the metadata bytes, the two-byte length of the user data and the user data,
    and then returns the user data unchanged; any other tag is reported as
    [mac_auth_fail]; a key of another size as [bad_buffer_size]. *)
Theorem hmac_mode_read key msg dest :
  supports_sha256 c = true -> SessionData_ok msg ->
  zlen (sd_user_data msg) <= max_u16 -> zlen dest <= max_u16 ->
  SessionMode_read (hmac_sha_256_trunc16 c) key msg dest =
    Done (if bool_decide (get_length_in_bytes key = symmetric_key_length)
          then
            if bool_decide (ztake trunc16 (hmac (as_seq key)
                 (AuthMetadata_enc (sd_metadata msg) ++ be_bytes 2 (zlen (sd_user_data msg)) ++
                  sd_user_data msg)) = sd_auth_tag msg)
            then inr (sd_user_data msg) else inl (EC_crypto CryptoError_mac_auth_fail)
          else inl (EC_crypto CryptoError_bad_buffer_size), dest).
Proof.
  intros Hs (Hmd&_&_) Hl Hd. unfold SessionMode_read.
  destruct (get_length_in_bytes key =? symmetric_key_length) eqn:E; btests; simpl negb; cbv iota.
  - rewrite bool_decide_eq_true_2 by done. rewrite metadata_bytes by done.
    rewrite (hmac_decrypt_spec c) by done. done.
  - by rewrite bool_decide_eq_false_2.
Qed.

(** The nonce modes accept increasing nonces only. *)
Lemma verify_increases v last new :
  v = verify_strict_increment \/ v = verify_greater_than_last ->
  v last new = true -> last < new.
Proof.
  unfold verify_strict_increment, verify_greater_than_last.
  intros [->| ->]; case_ifs; intros ?; btests; (done || lia).
Qed.

Lemma configure_facts this spec err alg :
  Algorithms_Common_configure c this spec = (err, alg) ->
  if any_HandshakeError err
  then err = HandshakeError_unsupported_handshake_hash \/
       err = HandshakeError_unsupported_handshake_kdf \/
       err = HandshakeError_unsupported_nonce_mode \/
       err = HandshakeError_unsupported_session_mode
  else
    cs_handshake_hash spec = HandshakeHash_sha256 /\
    cs_handshake_kdf spec = HandshakeKDF_hkdf_sha256 /\ supports_sha256 c = true /\
    alg_handshake alg = Algorithms_Handshake_default c /\
    (cs_session_nonce_mode spec = SessionNonceMode_strict_increment /\
       verify_nonce (alg_session alg) = verify_strict_increment \/
     cs_session_nonce_mode spec = SessionNonceMode_greater_than_last_rx /\
       verify_nonce (alg_session alg) = verify_greater_than_last) /\
    (cs_session_crypto_mode spec = SessionCryptoMode_hmac_sha256_16 /\
       session_mode (alg_session alg) = hmac_sha_256_trunc16 c \/
     cs_session_crypto_mode spec = SessionCryptoMode_aes_256_gcm /\
       supports_aes256_gcm c = true /\ session_mode (alg_session alg) = aes_256_gcm c).
Proof.
  unfold Algorithms_Common_configure, Algorithms_Common_configure4, Algorithms_Handshake_configure,
    Algorithms_Session_configure.
  destruct spec as [he hh hk nm cm]. simpl.
  destruct hh; simpl; try (intros [= <- <-]; simpl; tauto).
  destruct (supports_sha256 c) eqn:Es; simpl; [|intros [= <- <-]; simpl; tauto].
  destruct hk; simpl; try (intros [= <- <-]; simpl; tauto).
  destruct nm; simpl; try (intros [= <- <-]; simpl; tauto);
  (destruct cm; simpl; try (intros [= <- <-]; simpl; tauto);
   destruct (supports_aes256_gcm c) eqn:Eg; simpl; intros [= <- <-]; simpl; tauto).
Qed.

(** A successful configuration does not depend on what was there before. *)
Lemma configure_overwrites this spec err alg :
  Algorithms_Common_configure c this spec = (err, alg) -> any_HandshakeError err = false ->
  forall this', Algorithms_Common_configure c this' spec = (err, alg).
Proof.
  unfold Algorithms_Common_configure, Algorithms_Common_configure4, Algorithms_Handshake_configure,
    Algorithms_Session_configure.
  destruct spec as [he hh hk nm cm]. simpl. intros H Hn this'. revert H Hn.
  destruct hh; simpl; try (by intros [= <- <-]).
  destruct (supports_sha256 c) eqn:Es; simpl; [|by intros [= <- <-]].
  destruct hk; simpl; try (by intros [= <- <-]).
  destruct nm; simpl; try (by intros [= <- <-]);
  (destruct cm; simpl; try (by intros [= <- <-]);
   destruct (supports_aes256_gcm c) eqn:Eg; simpl; by intros [= <- <-]).
Qed.

(** Configuration from a received [CryptoSpec] either fails with the error
    of one of the four choices, or selects exactly the requested nonce
    check and session mode with algorithms the backend supports. *)
Theorem configure_selects this spec err alg :
  Algorithms_Common_configure c this spec = (err, alg) ->
  if any_HandshakeError err
  then err = HandshakeError_unsupported_handshake_hash \/
       err = HandshakeError_unsupported_handshake_kdf \/
       err = HandshakeError_unsupported_nonce_mode \/
       err = HandshakeError_unsupported_session_mode
  else
    cs_handshake_hash spec = HandshakeHash_sha256 /\
    cs_handshake_kdf spec = HandshakeKDF_hkdf_sha256 /\ supports_sha256 c = true /\
    alg_handshake alg = Algorithms_Handshake_default c /\
    (cs_session_nonce_mode spec = SessionNonceMode_strict_increment /\
       verify_nonce (alg_session alg) = verify_strict_increment \/
     cs_session_nonce_mode spec = SessionNonceMode_greater_than_last_rx /\
       verify_nonce (alg_session alg) = verify_greater_than_last) /\
    (cs_session_crypto_mode spec = SessionCryptoMode_hmac_sha256_16 /\
       session_mode (alg_session alg) = hmac_sha_256_trunc16 c \/
     cs_session_crypto_mode spec = SessionCryptoMode_aes_256_gcm /\
       supports_aes256_gcm c = true /\ session_mode (alg_session alg) = aes_256_gcm c).
Proof. apply configure_facts. Qed.
End ModeProperties.

(** ** Concrete instances *)

Definition test_key (b : Z) : BufferBase := mkBuffer length_32 (replicate 64 b).

Lemma hmac_mode_read_witness :
  SessionMode_read (SER := ser4cpp_reference) (hmac_sha_256_trunc16 test_crypto) (test_key 5)
    (mkSessionData (mkAuthMetadata 1 2) [3] [4]) [] =
    Done (inl (EC_crypto CryptoError_mac_auth_fail), []).
Proof.
  rewrite (hmac_mode_read (SER := ser4cpp_reference) test_crypto (test_key 5)
             (mkSessionData (mkAuthMetadata 1 2) [3] [4]) []).
  - vm_compute. reflexivity.
  - reflexivity.
  - split; [|split]; [by vm_compute| |]; (split; [simpl; concrete_bytes|by vm_compute]).
  - by vm_compute.
  - by vm_compute.
Defined.

Definition default_spec : CryptoSpec :=
  mkCryptoSpec HandshakeEphemeral_nonce HandshakeHash_sha256 HandshakeKDF_hkdf_sha256
    SessionNonceMode_greater_than_last_rx SessionCryptoMode_aes_256_gcm.

Lemma configure_selects_witness :
  session_mode (alg_session (snd (Algorithms_Common_configure test_crypto
    (Algorithms_Common_default test_crypto) default_spec))) = aes_256_gcm test_crypto.
Proof.
  destruct (configure_selects test_crypto (Algorithms_Common_default test_crypto) default_spec
              HandshakeError_none _ (surjective_pairing _))
    as (_&_&_&_&_&[[H _]|(_&_&H)]); [discriminate H|exact H].
Defined.
