(* ===== verification/Session.v ===== *)
(** * Sessions

    [Nonce.h], [Statistics.h], [Session.h/.cpp], [Sessions.h/.cpp] and
    [TxState.h].  Times and durations are nanoseconds, as in the clock the code
    uses; [ms] converts.  The frame writer and the statistics are shared objects
    and are passed through the operations that use them. *)

From stdpp Require Import base numbers list strings.
From Stdlib Require Import Lia ZArith.
From S2P Require Import Prelude Ser4cpp Enums Codec Messages CRC LinkParser FrameWriter.
From S2P Require Import Crypto SessionMode.

Definition ms (x : Z) : Z := x * 1000000.

(** [std::chrono::duration_cast<std::chrono::milliseconds>] *)
Definition duration_cast_ms (d : Z) : Z := Z.quot d 1000000.

(** [Nonce::increment] *)
Definition nonce_increment (value : Z) : Z := u16 (value + 1).

Record SessionStatistics := mkStatistics {
  num_init : Z;
  num_user_data_without_session : Z;
  num_auth_fail : Z;
  num_ttl_expiration : Z;
  num_nonce_fail : Z;
  num_success : Z;
}.

Definition no_statistics : SessionStatistics := mkStatistics 0 0 0 0 0 0.

(** [Statistic::increment] *)
Definition statistic_increment (v : Z) : Z := u64 (v + 1).

Definition inc_init (s : SessionStatistics) : SessionStatistics :=
  mkStatistics (statistic_increment (num_init s)) (num_user_data_without_session s)
    (num_auth_fail s) (num_ttl_expiration s) (num_nonce_fail s) (num_success s).
Definition inc_user_data_without_session (s : SessionStatistics) : SessionStatistics :=
  mkStatistics (num_init s) (statistic_increment (num_user_data_without_session s))
    (num_auth_fail s) (num_ttl_expiration s) (num_nonce_fail s) (num_success s).
Definition inc_auth_fail (s : SessionStatistics) : SessionStatistics :=
  mkStatistics (num_init s) (num_user_data_without_session s)
    (statistic_increment (num_auth_fail s)) (num_ttl_expiration s) (num_nonce_fail s) (num_success s).
Definition inc_ttl_expiration (s : SessionStatistics) : SessionStatistics :=
  mkStatistics (num_init s) (num_user_data_without_session s)
    (num_auth_fail s) (statistic_increment (num_ttl_expiration s)) (num_nonce_fail s) (num_success s).
Definition inc_nonce_fail (s : SessionStatistics) : SessionStatistics :=
  mkStatistics (num_init s) (num_user_data_without_session s)
    (num_auth_fail s) (num_ttl_expiration s) (statistic_increment (num_nonce_fail s)) (num_success s).
Definition inc_success (s : SessionStatistics) : SessionStatistics :=
  mkStatistics (num_init s) (num_user_data_without_session s)
    (num_auth_fail s) (num_ttl_expiration s) (num_nonce_fail s) (statistic_increment (num_success s)).

(** [Session::Param] *)
Record Session_Param := mkParam {
  session_start : Z;
  max_nonce : Z;
  max_session_time : Z;
}.

Definition Session_Param_default (start : Z) : Session_Param :=
  mkParam start default_max_nonce (ms default_max_session_time_ms).

Record Session := mkSession {
  s_valid : bool;
  s_ttl_pad_ms : Z;
  s_rx_nonce : Z;
  s_tx_nonce : Z;
  s_keys : SessionKeys;
  s_algorithms : Algorithms_Session;
  s_parameters : Session_Param;
  s_encrypt_buffer : bytes;
}.

Definition s_set_rx_nonce (s : Session) (n : Z) : Session :=
  mkSession (s_valid s) (s_ttl_pad_ms s) n (s_tx_nonce s) (s_keys s) (s_algorithms s)
    (s_parameters s) (s_encrypt_buffer s).
Definition s_set_tx_nonce (s : Session) (n : Z) : Session :=
  mkSession (s_valid s) (s_ttl_pad_ms s) (s_rx_nonce s) n (s_keys s) (s_algorithms s)
    (s_parameters s) (s_encrypt_buffer s).
Definition s_set_encrypt_buffer (s : Session) (b : bytes) : Session :=
  mkSession (s_valid s) (s_ttl_pad_ms s) (s_rx_nonce s) (s_tx_nonce s) (s_keys s) (s_algorithms s)
    (s_parameters s) b.

(** [Session::calc_max_crypto_payload_length] *)
Definition calc_max_crypto_payload_length (max_link_payload_size : Z) : Z :=
  if SessionData_min_size_bytes <? max_link_payload_size
  then max_link_payload_size - SessionData_min_size_bytes else 0.

Section Operations.
Context `{SER : Ser4cpp} {W : Type} (fw : frame_writer W) (c : CryptoState).

(** [Session::Session]; [memory] is the storage of the encryption buffer, of
    [calc_max_crypto_payload_length] of the writer's maximum. *)
Definition Session_new (ttl_pad_ms : Z) (memory : bytes) : Session :=
  mkSession false ttl_pad_ms 0 0 (mkSessionKeys buffer_empty buffer_empty)
    (Algorithms_Session_default c) (Session_Param_default 0) memory.

Definition Session_initialize (s : Session) (st : SessionStatistics) (algorithms : Algorithms_Session)
    (parameters : Session_Param) (keys : SessionKeys) : bool * Session * SessionStatistics :=
  if negb (SessionKeys_valid keys) then (false, s, st)
  else
    (true,
     mkSession true (s_ttl_pad_ms s) 0 0 (SessionKeys_copy (s_keys s) keys) algorithms parameters
       (s_encrypt_buffer s),
     inc_init st).

Definition Session_reset (s : Session) : outcome Session :=
  let* keys := SessionKeys_zero c (s_keys s) in
  Done (mkSession false (s_ttl_pad_ms s) (s_rx_nonce s) (s_tx_nonce s) keys (s_algorithms s)
          (s_parameters s) (s_encrypt_buffer s)).

(** The payload or the error, the session, the statistics and the memory of
    [dest]. *)
Definition validate_session_data_with_nonce_func (s : Session) (st : SessionStatistics)
    (message : SessionData) (now : Z) (dest : bytes) (verify : verify_nonce_func_t)
  : outcome ((error_code + bytes) * Session * SessionStatistics * bytes) :=
  if negb (s_valid s)
  then Done (inl (EC_crypto CryptoError_no_valid_session), s, inc_user_data_without_session st, dest)
  else
    let* '(payload, dest) :=
      SessionMode_read (session_mode (s_algorithms s)) (rx_key (s_keys s)) message dest in
    match payload with
    | inl ec => Done (inl ec, s, inc_auth_fail st, dest)
    | inr payload =>
        if now <? session_start (s_parameters s)
        then Done (inl (EC_crypto CryptoError_clock_rollback), s, st, dest)
        else
          let current_session_time := now - session_start (s_parameters s) in
          if max_session_time (s_parameters s) <? current_session_time
          then Done (inl (EC_crypto CryptoError_max_session_time_exceeded), s, st, dest)
          else if ms (am_valid_until_ms (sd_metadata message)) <? current_session_time
          then Done (inl (EC_crypto CryptoError_expired_ttl), s, inc_ttl_expiration st, dest)
          else if max_nonce (s_parameters s) <? am_nonce (sd_metadata message)
          then Done (inl (EC_crypto CryptoError_max_nonce_exceeded), s, inc_nonce_fail st, dest)
          else if negb (verify (s_rx_nonce s) (am_nonce (sd_metadata message)))
          then Done (inl (EC_crypto CryptoError_nonce_replay), s, inc_nonce_fail st, dest)
          else
            Done (inr payload, s_set_rx_nonce s (am_nonce (sd_metadata message)), inc_success st, dest)
    end.

Definition Session_validate_session_auth (s : Session) (st : SessionStatistics)
    (message : SessionData) (now : Z) (dest : bytes)
  : outcome ((error_code + bytes) * Session * SessionStatistics * bytes) :=
  validate_session_data_with_nonce_func s st message now dest equal_to_zero.

Definition Session_validate_session_data (s : Session) (st : SessionStatistics)
    (message : SessionData) (now : Z) (dest : bytes)
  : outcome ((error_code + bytes) * Session * SessionStatistics * bytes) :=
  let* '(payload, s, st, dest) :=
    validate_session_data_with_nonce_func s st message now dest (verify_nonce (s_algorithms s)) in
  match payload with
  | inl ec => Done (inl ec, s, st, dest)
  | inr payload =>
      if is_nil payload
      then Done (inl (EC_crypto CryptoError_empty_user_data), s, inc_auth_fail st, dest)
      else Done (inr payload, s, st, dest)
  end.

(** The frame or the error, the session, the frame writer and what is left of
    [clear_text]. *)
Definition format_session_data_no_nonce_check (s : Session) (w : W) (now : Z) (clear_text : bytes)
  : outcome ((error_code + bytes) * Session * W * bytes) :=
  if negb (s_valid s)
  then Done (inl (EC_crypto CryptoError_no_valid_session), s, w, clear_text)
  else if now <? session_start (s_parameters s)
  then Done (inl (EC_crypto CryptoError_clock_rollback), s, w, clear_text)
  else
    let session_time := now - session_start (s_parameters s) in
    if max_session_time (s_parameters s) <? session_time
    then Done (inl (EC_crypto CryptoError_max_session_time_exceeded), s, w, clear_text)
    else
      let remainder := max_session_time (s_parameters s) - session_time in
      if remainder <? ms (s_ttl_pad_ms s)
      then Done (inl (EC_crypto CryptoError_max_session_time_exceeded), s, w, clear_text)
      else
        let metadata :=
          mkAuthMetadata (s_tx_nonce s)
            (u32 (duration_cast_ms (session_time + ms (s_ttl_pad_ms s)))) in
        let* '(message, clear_text, encrypt_buffer) :=
          SessionMode_write (session_mode (s_algorithms s)) (tx_key (s_keys s)) metadata clear_text
            (s_encrypt_buffer s) buffer_empty in
        let s := s_set_encrypt_buffer s encrypt_buffer in
        match message with
        | inl ec => Done (inl ec, s, w, clear_text)
        | inr message =>
            let '(res, w) := fw_write fw w (message_writable SessionData_message message) in
            if WriteResult_is_error res
            then Done (inl (EC_format (wr_err res)), s, w, clear_text)
            else
              Done (inr (wr_frame res), s_set_tx_nonce s (nonce_increment (s_tx_nonce s)), w,
                    clear_text)
        end.

Definition Session_format_session_auth (s : Session) (w : W) (now : Z) (cleartext : bytes)
  : outcome ((error_code + bytes) * Session * W * bytes) :=
  if negb (s_tx_nonce s =? 0)
  then Done (inl (EC_crypto CryptoError_max_nonce_exceeded), s, w, cleartext)
  else format_session_data_no_nonce_check s w now cleartext.

Definition Session_format_session_data (s : Session) (w : W) (now : Z) (cleartext : bytes)
  : outcome ((error_code + bytes) * Session * W * bytes) :=
  if max_nonce (s_parameters s) <=? s_tx_nonce s
  then Done (inl (EC_crypto CryptoError_max_nonce_exceeded), s, w, cleartext)
  else format_session_data_no_nonce_check s w now cleartext.

(** ** [Sessions]: the active and the pending session *)

Record Sessions := mkSessions { active : Session; pending_session : Session }.

Definition Sessions_reset_both (x : Sessions) : outcome Sessions :=
  let* a := Session_reset (active x) in
  let* p := Session_reset (pending_session x) in
  Done (mkSessions a p).

Definition Sessions_activate_pending (x : Sessions) : outcome Sessions :=
  let* a := Session_reset (active x) in
  Done (mkSessions (pending_session x) a).
End Operations.

(** ** [TxState] *)

Record TxState := mkTxState { transmitting : bool; tx_remainder : bytes }.

Definition TxState_new : TxState := mkTxState false [].
Definition TxState_reset (t : TxState) : TxState := mkTxState false [].
Definition TxState_initialize (t : TxState) (data : bytes) : TxState := mkTxState false data.
Definition TxState_is_idle (t : TxState) : bool := negb (transmitting t) && is_nil (tx_remainder t).
Definition TxState_on_tx_complete (t : TxState) : bool * TxState :=
  if transmitting t
  then (is_nil (tx_remainder t), mkTxState false (tx_remainder t))
  else (false, t).
Definition TxState_begin_transmit (t : TxState) (remainder : bytes) : bool * TxState :=
  if is_nil (tx_remainder t) then (false, t) else (true, mkTxState true remainder).
Definition TxState_is_active (t : TxState) : bool :=
  transmitting t || negb (is_nil (tx_remainder t)).
Definition TxState_is_ready_tx (t : TxState) : bool :=
  negb (transmitting t) && negb (is_nil (tx_remainder t)).

(** ** Invariant *)

Definition key_ok (b : BufferBase) : Prop := buffer_ok b.

Definition keys_ok (k : SessionKeys) : Prop := buffer_ok (rx_key k) /\ buffer_ok (tx_key k).

Definition param_ok (p : Session_Param) : Prop :=
  is_u16 (max_nonce p) /\ 0 <= max_session_time p <= ms max_u32.

(** The nonce checks a session can be configured with. *)
Definition nonce_check (v : verify_nonce_func_t) : Prop :=
  v = verify_strict_increment \/ v = verify_greater_than_last.

Definition session_ok (s : Session) : Prop :=
  keys_ok (s_keys s) /\ param_ok (s_parameters s) /\ is_u16 (s_rx_nonce s) /\ is_u16 (s_tx_nonce s) /\
  is_u32 (s_ttl_pad_ms s) /\ nonce_check (verify_nonce (s_algorithms s)) /\
  (s_valid s = true -> SessionKeys_valid (s_keys s) = true).

Section Validation.
Context `{SER : Ser4cpp} (c : CryptoState).

Lemma session_new_ok ttl memory : is_u32 ttl -> session_ok (Session_new c ttl memory).
Proof.
  intros Ht. split; [done|]. split; [repeat split; by vm_compute|]. split; [done|]. split; [done|].
  split; [done|]. split; [by left|done].
Qed.

Lemma session_initialize_ok s st alg p keys :
  session_ok s -> keys_ok keys -> param_ok p -> nonce_check (verify_nonce alg) ->
  let '(b, s', _) := Session_initialize s st alg p keys in
  session_ok s' /\ (b = true -> s_valid s' = true /\ s_rx_nonce s' = 0 /\ s_tx_nonce s' = 0 /\
    as_seq (rx_key (s_keys s')) = as_seq (rx_key keys) /\
    as_seq (tx_key (s_keys s')) = as_seq (tx_key keys)).
Proof.
  intros (Hk&Hrest) [Hr Ht] Hp Hv. unfold Session_initialize.
  destruct (SessionKeys_valid keys) eqn:E; simpl; [|by split].
  destruct Hk as [Hr' Ht']. destruct Hrest as (_&_&_&Hpad&_).
  split; [|intros _; by rewrite !as_seq_copy].
  split; [by split; apply buffer_copy_ok|]. conj_done.
Qed.

(** What one validation does to the session: it is left alone or its receive
    nonce becomes the message's. *)
Lemma validate_with_done s st msg now dest verify res s' st' dest' :
  validate_session_data_with_nonce_func s st msg now dest verify = Done (res, s', st', dest') ->
  match res with
  | inl _ => s' = s
  | inr payload =>
      s_valid s = true /\
      (exists d, SessionMode_read (session_mode (s_algorithms s)) (rx_key (s_keys s)) msg dest =
         Done (inr payload, d)) /\
      session_start (s_parameters s) <= now /\
      now - session_start (s_parameters s) <= max_session_time (s_parameters s) /\
      now - session_start (s_parameters s) <= ms (am_valid_until_ms (sd_metadata msg)) /\
      am_nonce (sd_metadata msg) <= max_nonce (s_parameters s) /\
      verify (s_rx_nonce s) (am_nonce (sd_metadata msg)) = true /\
      s' = s_set_rx_nonce s (am_nonce (sd_metadata msg))
  end.
Proof.
  unfold validate_session_data_with_nonce_func.
  destruct (s_valid s) eqn:Ev; simpl negb; cbv iota; [|by intros [= <- <- _ _]].
  intros H. apply obind_done in H as ([payload d]&Hr&H).
  destruct payload as [ec|payload]; [by injection H as <- <- _ _|].
  repeat match type of H with
  | (if ?b then _ else _) = _ =>
      let E := fresh "E" in destruct b eqn:E; [by injection H as <- <- _ _|]
  end.
  injection H as <- <- _ _. btests. rewrite Hr. split; [done|]. split; [by eexists|].
  repeat split; lia || done.
Qed.

(** What reception accepts: when [validate_session_data] returns user data,
    the session is valid, the data is not empty and is what the session mode
    authenticated under the receive key, the time lies in the session and within
    the message's time to live, and the nonce is at most the session's maximum
    and larger than every nonce accepted before; the nonce is recorded and nothing
    else of the session changes.  When it reports an error, nothing changes
    unless the message was authentic and empty. *)
Theorem validate_accepts s st msg now dest res s' st' dest' :
  session_ok s ->
  Session_validate_session_data s st msg now dest = Done (res, s', st', dest') ->
  match res with
  | inr payload =>
      s_valid s = true /\ payload <> [] /\
      (exists d, SessionMode_read (session_mode (s_algorithms s)) (rx_key (s_keys s)) msg dest =
         Done (inr payload, d)) /\
      session_start (s_parameters s) <= now /\
      now - session_start (s_parameters s) <= max_session_time (s_parameters s) /\
      now - session_start (s_parameters s) <= ms (am_valid_until_ms (sd_metadata msg)) /\
      s_rx_nonce s < am_nonce (sd_metadata msg) <= max_nonce (s_parameters s) /\
      s' = s_set_rx_nonce s (am_nonce (sd_metadata msg))
  | inl ec => s' = s \/ ec = EC_crypto CryptoError_empty_user_data
  end.
Proof.
  intros (_&_&_&_&_&Hn&_) H. unfold Session_validate_session_data in H.
  apply obind_done in H as ([[[r s1] st1] d1]&Hv&H).
  apply validate_with_done in Hv. destruct r as [ec|payload].
  - injection H as <- <- _ _. by left.
  - destruct Hv as (Hva&Hr&H1&H2&H3&H4&H5&->).
    destruct (is_nil payload) eqn:En; injection H as <- <- _ _; [by right|].
    apply is_nil_false in En. apply (verify_increases _ _ _ Hn) in H5. conj_done.
Qed.

(** A sequence of validations of received messages, each at its time; the
    nonces of the accepted ones. *)
Fixpoint validate_all (s : Session) (st : SessionStatistics) (dest : bytes)
    (inputs : list (SessionData * Z)) : outcome (list Z * Session) :=
  match inputs with
  | [] => Done ([], s)
  | (msg, now) :: inputs =>
      let* '(res, s, st, dest) := Session_validate_session_data s st msg now dest in
      let* '(accepted, s) := validate_all s st dest inputs in
      Done (match res with inr _ => am_nonce (sd_metadata msg) :: accepted | inl _ => accepted end, s)
  end.

(** Strictly increasing from above [last]. *)
Fixpoint increasing (last : Z) (l : list Z) : Prop :=
  match l with
  | [] => True
  | n :: l => last < n /\ increasing n l
  end.

Lemma increasing_weaken a b l : a <= b -> increasing b l -> increasing a l.
Proof. destruct l; simpl; [done|]. intros ? [? ?]. split; [lia|done]. Qed.

Lemma increasing_above a l n : increasing a l -> In n l -> a < n.
Proof.
  revert a. induction l as [|m l IH]; intros a; simpl; [done|].
  intros [Hm Hi] [->|Hin]; [done|]. apply IH in Hi; [lia|done].
Qed.

Lemma increasing_NoDup a l : increasing a l -> NoDup l.
Proof.
  revert a. induction l as [|m l IH]; intros a; simpl; [constructor|].
  intros [Hm Hi]. constructor; [|by eapply IH].
  intros Hin%list_elem_of_In. by apply (increasing_above m l m) in Hi; [lia|].
Qed.

(** The message fields are in range, as the parser guarantees. *)
Definition input_nonce_ok (x : SessionData * Z) : Prop := is_u16 (am_nonce (sd_metadata x.1)).

Lemma validate_step s st msg now dest res s' st' dest' :
  session_ok s -> is_u16 (am_nonce (sd_metadata msg)) ->
  Session_validate_session_data s st msg now dest = Done (res, s', st', dest') ->
  session_ok s' /\ s_parameters s' = s_parameters s /\ s_rx_nonce s <= s_rx_nonce s' /\
  match res with
  | inr _ => s_rx_nonce s < am_nonce (sd_metadata msg) <= max_nonce (s_parameters s) /\
      s_rx_nonce s' = am_nonce (sd_metadata msg)
  | inl _ => True
  end.
Proof.
  intros Hs Hn H. pose proof Hs as (Hk&Hp&Hrx&Htx&Hpad&Hv&Hval).
  unfold Session_validate_session_data in H.
  apply obind_done in H as ([[[r s1] st1] d1]&Hw&H). apply validate_with_done in Hw.
  destruct r as [ec|payload].
  - injection H as <- <- _ _. by subst s1.
  - destruct Hw as (Hva&_&_&_&_&Hle&Hver&->). apply (verify_increases _ _ _ Hv) in Hver.
    assert (session_ok (s_set_rx_nonce s (am_nonce (sd_metadata msg)))) as Hs' by conj_done.
    destruct (is_nil payload); injection H as <- <- _ _; (split; [done|]; split; [done|]; simpl; split; [lia|]; done).
Qed.

(** C2: No message is accepted twice: over any sequence of received messages
    at any times, the nonces of the messages a session accepts are strictly
    increasing, start above the nonce it had accepted before, and never exceed
    its maximum. *)
Theorem no_replay s st dest inputs accepted s' :
  session_ok s -> Forall input_nonce_ok inputs ->
  validate_all s st dest inputs = Done (accepted, s') ->
  increasing (s_rx_nonce s) accepted /\ NoDup accepted /\
  Forall (fun nonce => nonce <= max_nonce (s_parameters s)) accepted /\ session_ok s'.
Proof.
  intros Hs Hi H.
  assert (increasing (s_rx_nonce s) accepted /\
    Forall (fun nonce => nonce <= max_nonce (s_parameters s)) accepted /\ session_ok s') as (Hinc&Hmax&Hs');
    [|split; [done|split; [by eapply increasing_NoDup|done]]].
  revert s st dest accepted Hs H. induction Hi as [|[msg now] inputs Hn _ IH];
    intros s st dest accepted Hs H; simpl in H; [by injection H as <- <-|].
  apply obind_done in H as ([[[res s1] st1] d1]&Hv&H).
  apply obind_done in H as ([acc s2]&Hrec&H). injection H as <- <-.
  destruct (validate_step _ _ _ _ _ _ _ _ _ Hs Hn Hv) as (Hs1&Hpar&Hle&Hres).
  destruct (IH s1 st1 d1 acc Hs1 Hrec) as (Hinc&Hmax&Hs2). rewrite Hpar in Hmax.
  destruct res as [ec|payload]; [split; [by eapply increasing_weaken|done]|].
  destruct Hres as [[Hlt Hm] Heq]. simpl in *. rewrite Heq in Hinc. split; [done|]. split; [by constructor|done].
Qed.
End Validation.

Section Formatting.
Context `{SER : Ser4cpp} {W : Type} (fw : frame_writer W) (inv : W -> Prop) (frame : W -> bytes -> bytes).
Context `{HW : !FrameWriterOk fw inv frame} (c : CryptoState).

(** The message a session formats at a time: its metadata and the sealed first
    part of the cleartext. *)
Definition tx_metadata (s : Session) (now : Z) : AuthMetadata :=
  mkAuthMetadata (s_tx_nonce s)
    (duration_cast_ms (now - session_start (s_parameters s) + ms (s_ttl_pad_ms s))).

Definition tx_count (s : Session) (clear_text : bytes) : Z :=
  Z.min (zlen clear_text) (Z.min (zlen (s_encrypt_buffer s)) 1024).

Definition tx_message (s : Session) `{HM : !SessionModeOk (session_mode (s_algorithms s))} (now : Z)
    (clear_text : bytes) : SessionData :=
  let md := tx_metadata s now in
  let sealed := mode_seal (as_seq (tx_key (s_keys s))) (s_tx_nonce s) (AuthMetadata_enc md)
                  (ztake (tx_count s clear_text) clear_text) in
  mkSessionData md sealed.1 sealed.2.

(** The time allows to transmit. *)
Definition tx_time_ok (s : Session) (now : Z) : Prop :=
  session_start (s_parameters s) <= now /\
  now - session_start (s_parameters s) + ms (s_ttl_pad_ms s) <= max_session_time (s_parameters s).

Lemma tx_time_ms s now :
  session_ok s -> tx_time_ok s now ->
  let t := now - session_start (s_parameters s) + ms (s_ttl_pad_ms s) in
  duration_cast_ms t = t / 1000000 /\ 0 <= t / 1000000 <= max_u32 /\
  u32 (duration_cast_ms t) = duration_cast_ms t /\ ms (t / 1000000) <= max_session_time (s_parameters s).
Proof.
  intros (_&[_ Hmax]&_&_&Hpad&_) [H1 H2] t. unfold duration_cast_ms, ms, is_u32, max_u32 in *.
  assert (0 <= t) by lia. rewrite Z.quot_div_nonneg by lia.
  assert (0 <= t / 1000000) by (apply Z.div_pos; lia).
  assert (t / 1000000 <= 4294967295) by (apply Z.div_le_upper_bound; lia).
  split; [done|]. split; [lia|]. unfold u32. split; [apply Z.mod_small; lia|].
  pose proof (Z.mul_div_le t 1000000 ltac:(lia)). lia.
Qed.

Lemma tx_metadata_ok s now :
  session_ok s -> tx_time_ok s now -> AuthMetadata_ok (tx_metadata s now).
Proof.
  intros Hs Ht. destruct (tx_time_ms s now Hs Ht) as (E&Hr&_&_).
  destruct Hs as (_&_&_&Htx&_). split; [by apply int_ok_u16|]. apply int_ok_u32. simpl.
  rewrite E. exact Hr.
Qed.

Lemma tx_message_ok s `{HM : !SessionModeOk (session_mode (s_algorithms s))} now ct :
  session_ok s -> tx_time_ok s now -> all_bytes ct ->
  SessionData_ok (tx_message s now ct) /\
  zlen (SessionData_enc (tx_message s now ct)) = 24 + VLength_size (tx_count s ct) + tx_count s ct.
Proof.
  intros Hs Ht Hb. unfold tx_message.
  set (md := tx_metadata s now). set (n := tx_count s ct).
  assert (0 <= n <= 1024) as Hn.
  { subst n. unfold tx_count. pose proof (zlen_nonneg ct). pose proof (zlen_nonneg (s_encrypt_buffer s)). lia. }
  assert (zlen (ztake n ct) = n) as Ez by (rewrite zlen_ztake by lia; subst n; unfold tx_count in *; lia).
  pose proof (mode_seal_length (as_seq (tx_key (s_keys s))) (s_tx_nonce s) (AuthMetadata_enc md) (ztake n ct)) as [L1 L2].
  pose proof (mode_seal_bytes (as_seq (tx_key (s_keys s))) (s_tx_nonce s) (AuthMetadata_enc md) (ztake n ct)
                (Forall_ztake _ _ _ Hb)) as [B1 B2].
  rewrite Ez in L1.
  assert (SessionData_ok (mkSessionData md
            (mode_seal (as_seq (tx_key (s_keys s))) (s_tx_nonce s) (AuthMetadata_enc md) (ztake n ct)).1
            (mode_seal (as_seq (tx_key (s_keys s))) (s_tx_nonce s) (AuthMetadata_enc md) (ztake n ct)).2)) as Hok.
  { split; [by apply tx_metadata_ok|]. unfold SeqByteField_ok, is_u32, max_u32. simpl.
    rewrite L1, L2. split; [split; [done|lia]|]. split; [done|lia]. }
  split; [done|]. unfold SessionData_enc, SessionData_body.
  cbn [sd_metadata sd_user_data sd_auth_tag concat]. rewrite zlen_cons, !zlen_app, AuthMetadata_enc_size.
  unfold SeqByteField_enc. rewrite !zlen_app, <- !VLength_size_enc, L1, L2.
  change (zlen (@nil Z)) with 0. change (VLength_size 16) with 1. lia.
Qed.

(** One formatting operation that is allowed to transmit. *)
Lemma format_done s w `{HM : !SessionModeOk (session_mode (s_algorithms s))} now ct :
  session_ok s -> s_valid s = true -> inv w -> tx_time_ok s now -> all_bytes ct ->
  s_encrypt_buffer s <> [] ->
  exists eb' w',
    let s' := s_set_encrypt_buffer s eb' in
    format_session_data_no_nonce_check fw s w now ct =
      Done (if decide (zlen (SessionData_enc (tx_message s now ct)) <= fw_max_payload_size fw w)
            then inr (frame w (SessionData_enc (tx_message s now ct)))
            else inl (EC_format FormatError_insufficient_space),
            if decide (zlen (SessionData_enc (tx_message s now ct)) <= fw_max_payload_size fw w)
            then s_set_tx_nonce s' (nonce_increment (s_tx_nonce s)) else s',
            w', zdrop (tx_count s ct) ct) /\
    zlen eb' = zlen (s_encrypt_buffer s) /\ inv w' /\ (forall b, frame w' b = frame w b) /\
    fw_max_payload_size fw w' = fw_max_payload_size fw w.
Proof.
  intros Hs Hv Hw Ht Hb Hne. pose proof Ht as [Ht1 Ht2].
  unfold format_session_data_no_nonce_check. rewrite Hv. simpl negb. cbv iota.
  pose proof Hs as ((_&Hko)&_&_&_&[Hpad _]&_&Hkv). unfold ms in Ht2.
  destruct (now <? _) eqn:E1; btests; [lia|].
  destruct (max_session_time (s_parameters s) <? _) eqn:E2; btests; [lia|].
  destruct (_ <? ms (s_ttl_pad_ms s)) eqn:E3; btests; [unfold ms in E3; lia|].
  destruct (tx_time_ms s now Hs Ht) as (_&_&Eu&_). rewrite Eu.
  fold (tx_metadata s now).
  specialize (Hkv Hv). unfold SessionKeys_valid in Hkv. apply andb_prop in Hkv as [_ Hkt].
  apply bool_decide_eq_true in Hkt.
  destruct (mode_write_done (session_mode (s_algorithms s)) (tx_key (s_keys s)) (tx_metadata s now) ct
              (s_encrypt_buffer s) buffer_empty) as (eb'&->&Heb);
    [by apply tx_metadata_ok|done..|]. cbn [obind].
  fold (tx_count s ct). change (am_nonce (tx_metadata s now)) with (s_tx_nonce s).
  change (mkSessionData (tx_metadata s now) _ _) with (tx_message s now ct).
  destruct (tx_message_ok s now ct Hs Ht Hb) as [Hmok Hmlen].
  set (m := tx_message s now ct) in *.
  assert (Writable (message_writable SessionData_message m) (SessionData_enc m)) as HWr.
  { apply (message_is_writable SessionData_message SessionData_enc SessionData_ok); [done|].
    rewrite Hmlen. assert (0 <= tx_count s ct <= 1024).
    { unfold tx_count. pose proof (zlen_nonneg ct). pose proof (zlen_nonneg (s_encrypt_buffer s)). lia. }
    unfold VLength_size. pose proof (VLength_num_range (tx_count s ct)). unfold max_u32. lia. }
  pose proof (msg_bytes (m := SessionData_message) m Hmok) as Hmb.
  destruct (decide _) as [Hfit|Hbig].
  - destruct (fw_fits (fw := fw) w _ (SessionData_enc m) Hw HWr Hmb Hfit) as (w'&->&Hw'&Hf&Hmx).
    exists eb', w'. simpl. done.
  - destruct (fw_short (fw := fw) w _ (SessionData_enc m) Hw HWr Hmb ltac:(lia)) as (w'&->&Hw'&Hf&Hmx).
    exists eb', w'. simpl. done.
Qed.

(** What a formatting operation does, in every case. *)
Lemma format_step s w `{HM : !SessionModeOk (session_mode (s_algorithms s))} now ct :
  session_ok s -> inv w -> all_bytes ct -> s_tx_nonce s < max_u16 ->
  exists res s' w' rest,
    format_session_data_no_nonce_check fw s w now ct = Done (res, s', w', rest) /\
    session_ok s' /\ inv w' /\ (forall b, frame w' b = frame w b) /\
    (s_algorithms s' = s_algorithms s /\ s_keys s' = s_keys s) /\ all_bytes rest /\
    match res with
    | inr f => s_valid s = true /\ tx_time_ok s now /\ f = frame w (SessionData_enc (tx_message s now ct)) /\
        SessionData_ok (tx_message s now ct) /\ s_tx_nonce s' = s_tx_nonce s + 1
    | inl _ => s_tx_nonce s' = s_tx_nonce s
    end.
Proof.
  intros Hs Hw Hb Hn.
  assert (session_ok s /\ inv w /\ (forall b, frame w b = frame w b) /\
          (s_algorithms s = s_algorithms s /\ s_keys s = s_keys s) /\ all_bytes ct) as Hsame by done.
  destruct (decide (s_valid s = true /\ tx_time_ok s now /\ s_encrypt_buffer s <> []))
    as [(Hv&Ht&Hne)|Hno].
  - destruct (format_done s w now ct Hs Hv Hw Ht Hb Hne) as (eb'&w'&->&Heb&Hw'&Hf&_).
    destruct (tx_message_ok s now ct Hs Ht Hb) as [Hm _].
    pose proof Hs as (Hk&Hp&Hrx&[Htx0 Htx]&Hpad&Hnc&Hval).
    assert (nonce_increment (s_tx_nonce s) = s_tx_nonce s + 1) as Einc
      by (unfold nonce_increment, u16, max_u16 in *; rewrite Z.mod_small; lia).
    eexists _, _, _, _. split; [reflexivity|].
    destruct (decide (_ <= _)) as [Hfit|Hbig].
    + split; [|split; [done|split; [done|split; [done|split; [by apply Forall_zdrop|]]]]].
      * unfold session_ok. cbn [s_keys s_parameters s_rx_nonce s_tx_nonce s_ttl_pad_ms s_algorithms
          s_valid s_set_tx_nonce s_set_encrypt_buffer]. rewrite Einc.
        assert (is_u16 (s_tx_nonce s + 1)) by (unfold is_u16; lia). conj_done.
      * simpl. conj_done.
    + split; [conj_done|]. split; [done|]. split; [done|]. split; [done|].
      split; [by apply Forall_zdrop|done].
  - unfold format_session_data_no_nonce_check.
    destruct (s_valid s) eqn:Hv; simpl negb; cbv iota; [|eexists _, _, _, _; split; [reflexivity|conj_done]].
    destruct (now <? _) eqn:E1; [eexists _, _, _, _; split; [reflexivity|conj_done]|].
    destruct (max_session_time (s_parameters s) <? _) eqn:E2;
      [eexists _, _, _, _; split; [reflexivity|conj_done]|].
    destruct (_ <? ms (s_ttl_pad_ms s)) eqn:E3; [eexists _, _, _, _; split; [reflexivity|conj_done]|].
    btests. unfold SessionMode_write.
    destruct (negb _) eqn:E4; cbn [obind];
      [eexists _, _, _, _; split; [reflexivity|by destruct s]|].
    destruct (is_nil (s_encrypt_buffer s)) eqn:E5; cbn [obind];
      [eexists _, _, _, _; split; [reflexivity|by destruct s]|].
    apply is_nil_false in E5. destruct Hno. split; [done|]. split; [|done]. unfold tx_time_ok. lia.
Qed.

(** The user data and the tag of a message are what the mode makes of this cleartext
    with the nonce and the metadata of the message. *)
Definition sealed_by (mode : SessionMode) (key : BufferBase) (m : SessionData) (clear_text : bytes) : Prop :=
  exists encrypt_buffer mac encrypt_buffer' mac',
    mode_encrypt mode key (am_nonce (sd_metadata m)) (AuthMetadata_enc (sd_metadata m)) clear_text encrypt_buffer mac =
      Done (inr (sd_user_data m, sd_auth_tag m), encrypt_buffer', mac').

Lemma tx_message_sealed s `{HM : !SessionModeOk (session_mode (s_algorithms s))} now ct :
  session_ok s -> s_valid s = true ->
  sealed_by (session_mode (s_algorithms s)) (tx_key (s_keys s)) (tx_message s now ct) (ztake (tx_count s ct) ct).
Proof.
  intros ((_&Hko)&_&_&Htx&_&_&Hkv) Hv. specialize (Hkv Hv). unfold SessionKeys_valid in Hkv.
  apply andb_prop in Hkv as [_ Hkt]. apply bool_decide_eq_true in Hkt.
  assert (0 <= tx_count s ct <= 1024) as Hn.
  { unfold tx_count. pose proof (zlen_nonneg ct). pose proof (zlen_nonneg (s_encrypt_buffer s)). lia. }
  destruct (mode_encrypt_done (m := session_mode (s_algorithms s)) (tx_key (s_keys s)) (s_tx_nonce s)
    (AuthMetadata_enc (tx_metadata s now)) (ztake (tx_count s ct) ct) (ztake (tx_count s ct) ct) buffer_empty)
    as (eb'&mac'&E&_); [by apply as_seq_key|done|exact empty_ok|done| |].
  { rewrite zlen_ztake by lia. unfold max_u16. lia. }
  exists (ztake (tx_count s ct) ct), buffer_empty, eb', mac'. cbn [tx_message sd_user_data sd_auth_tag sd_metadata].
  unfold tx_message. cbn [sd_user_data sd_auth_tag sd_metadata am_nonce tx_metadata].
  rewrite <- surjective_pairing. exact E.
Qed.

(** A formatting operation of the cryptographic layer. *)
Inductive format_op := FormatAuth (now : Z) (cleartext : bytes) | FormatData (now : Z) (cleartext : bytes).

Definition op_bytes (op : format_op) : bytes :=
  match op with FormatAuth _ ct | FormatData _ ct => ct end.

Definition run_format (s : Session) (w : W) (op : format_op)
  : outcome ((error_code + bytes) * Session * W * bytes) :=
  match op with
  | FormatAuth now ct => Session_format_session_auth fw s w now ct
  | FormatData now ct => Session_format_session_data fw s w now ct
  end.

(** A sequence of formatting operations; the frames that were produced. *)
Fixpoint format_all (s : Session) (w : W) (ops : list format_op) : outcome (list bytes * Session * W) :=
  match ops with
  | [] => Done ([], s, w)
  | op :: ops =>
      let* '(res, s, w, _) := run_format s w op in
      let* '(frames, s, w) := format_all s w ops in
      Done (match res with inr f => f :: frames | inl _ => frames end, s, w)
  end.

Lemma run_format_step s w `{HM : !SessionModeOk (session_mode (s_algorithms s))} op :
  session_ok s -> inv w -> all_bytes (op_bytes op) ->
  exists res s' w' rest,
    run_format s w op = Done (res, s', w', rest) /\
    session_ok s' /\ inv w' /\ (forall b, frame w' b = frame w b) /\
    (s_algorithms s' = s_algorithms s /\ s_keys s' = s_keys s) /\
    match res with
    | inr f => exists m, f = frame w (SessionData_enc m) /\ SessionData_ok m /\
        am_nonce (sd_metadata m) = s_tx_nonce s /\ s_tx_nonce s' = s_tx_nonce s + 1 /\
        exists part, part `prefix_of` op_bytes op /\
          sealed_by (session_mode (s_algorithms s)) (tx_key (s_keys s)) m part
    | inl _ => s_tx_nonce s' = s_tx_nonce s
    end.
Proof.
  intros Hs Hw Hb. pose proof Hs as (_&[[_ Hmax] _]&_).
  destruct op as [now ct|now ct]; simpl in *.
  - unfold Session_format_session_auth. destruct (s_tx_nonce s =? 0) eqn:E; simpl negb; cbv iota; btests;
      [|eexists _, _, _, _; split; [reflexivity|conj_done]].
    destruct (format_step s w now ct Hs Hw Hb) as (res&s'&w'&rest&->&Hs'&Hw'&Hf&Ha&_&Hres);
      [rewrite E; done|].
    eexists _, _, _, _. split; [reflexivity|]. split; [done|]. split; [done|]. split; [done|]. split; [done|].
    destruct res; [done|]. destruct Hres as (Hv&_&->&Hok&Htx). eexists. do 4 (split; [done|]).
    exists (ztake (tx_count s ct) ct). split; [exists (zdrop (tx_count s ct) ct); by rewrite ztake_zdrop|].
    by apply tx_message_sealed.
  - unfold Session_format_session_data. destruct (_ <=? s_tx_nonce s) eqn:E; btests;
      [eexists _, _, _, _; split; [reflexivity|conj_done]|].
    destruct (format_step s w now ct Hs Hw Hb) as (res&s'&w'&rest&->&Hs'&Hw'&Hf&Ha&_&Hres); [lia|].
    eexists _, _, _, _. split; [reflexivity|]. split; [done|]. split; [done|]. split; [done|]. split; [done|].
    destruct res; [done|]. destruct Hres as (Hv&_&->&Hok&Htx). eexists. do 4 (split; [done|]).
    exists (ztake (tx_count s ct) ct). split; [exists (zdrop (tx_count s ct) ct); by rewrite ztake_zdrop|].
    by apply tx_message_sealed.
Qed.

(** What a sequence of formatting operations produces. *)
Lemma format_all_nonces s w `{HM : !SessionModeOk (session_mode (s_algorithms s))} ops :
  session_ok s -> inv w -> Forall (fun op => all_bytes (op_bytes op)) ops ->
  exists messages s' w',
    format_all s w ops = Done (map (fun m => frame w (SessionData_enc m)) messages, s', w') /\
    Forall SessionData_ok messages /\
    map (fun m => am_nonce (sd_metadata m)) messages =
      seqZ (s_tx_nonce s) (Z.of_nat (length messages)) /\
    s_tx_nonce s' = s_tx_nonce s + Z.of_nat (length messages) /\ session_ok s' /\
    Forall (fun m => exists op part, op ∈ ops /\ part `prefix_of` op_bytes op /\
      sealed_by (session_mode (s_algorithms s)) (tx_key (s_keys s)) m part) messages.
Proof.
  intros Hs Hw Hops. revert s w HM Hs Hw.
  induction Hops as [|op ops Hop _ IH]; intros s w HM Hs Hw; simpl.
  - exists [], s, w. simpl. rewrite Z.add_0_r. conj_done.
  - destruct (run_format_step s w op Hs Hw Hop) as (res&s1&w1&rest&->&Hs1&Hw1&Hf&[Ha Hk]&Hres).
    cbn [obind].
    assert (SessionModeOk (session_mode (s_algorithms s1))) as HM1 by (rewrite Ha; exact HM).
    destruct (IH s1 w1 HM1 Hs1 Hw1) as (ms'&s2&w2&->&Hok&Hn&Htx&Hs2&Hsealed). cbn [obind].
    rewrite Ha, Hk in Hsealed.
    assert (Forall (fun m => exists op' part, op' ∈ op :: ops /\ part `prefix_of` op_bytes op' /\
      sealed_by (session_mode (s_algorithms s)) (tx_key (s_keys s)) m part) ms') as Hlater.
    { eapply Forall_impl; [exact Hsealed|]. intros m (op'&part&Hin&H). exists op', part. by split; [right|]. }
    assert (map (fun m => frame w1 (SessionData_enc m)) ms' = map (fun m => frame w (SessionData_enc m)) ms')
      as Em by (apply map_ext; intros; apply Hf).
    rewrite Em. destruct res as [ec|f].
    + exists ms', s2, w2. rewrite Hres in Hn, Htx. conj_done.
    + destruct Hres as (m&->&Hm&Hmn&Htx1&part&Hpart). exists (m :: ms'), s2, w2. split; [done|].
      split; [by constructor|]. cbn [map length]. rewrite Hmn, Hn, Htx1.
      split; [|split; [lia|split; [done|]]].
      2: { constructor; [|done]. exists op, part. split; [left|done]. }
      rewrite (seqZ_cons (s_tx_nonce s)) by lia. f_equal. f_equal; lia.
Qed.

(** C12: A nonce is never used for two messages under one key: over any sequence
    of authentication and data messages a session formats, at any times and with
    any results, every operation completes, and the frames that are produced
    carry the consecutive nonces that follow the session's transmit nonce,
    without wrapping around. *)
Theorem tx_nonces_unique s w `{HM : !SessionModeOk (session_mode (s_algorithms s))} ops :
  session_ok s -> inv w -> Forall (fun op => all_bytes (op_bytes op)) ops ->
  exists messages s' w',
    format_all s w ops = Done (map (fun m => frame w (SessionData_enc m)) messages, s', w') /\
    Forall SessionData_ok messages /\
    map (fun m => am_nonce (sd_metadata m)) messages =
      seqZ (s_tx_nonce s) (Z.of_nat (length messages)) /\
    s_tx_nonce s' = s_tx_nonce s + Z.of_nat (length messages) /\ session_ok s'.
Proof.
  intros Hs Hw Hops. destruct (format_all_nonces s w ops Hs Hw Hops) as (ms&s'&w'&H1&H2&H3&H4&H5&_).
  by exists ms, s', w'.
Qed.
End Formatting.

Section Transport.
Context `{SER : Ser4cpp} {W : Type} (fw : frame_writer W) (inv : W -> Prop) (frame : W -> bytes -> bytes).
Context `{HW : !FrameWriterOk fw inv frame} (c : CryptoState).

(** The least maximum payload for which a message with 1024 bytes of user data
    and a 16-byte tag fits. *)
Definition max_session_data_size : Z := 1051.

Lemma tx_message_fits s `{HM : !SessionModeOk (session_mode (s_algorithms s))} now ct :
  session_ok s -> tx_time_ok s now -> all_bytes ct ->
  zlen (SessionData_enc (tx_message s now ct)) <= max_session_data_size.
Proof.
  intros Hs Ht Hb. destruct (tx_message_ok s now ct Hs Ht Hb) as [_ ->].
  assert (0 <= tx_count s ct <= 1024) as Hn.
  { unfold tx_count. pose proof (zlen_nonneg ct). pose proof (zlen_nonneg (s_encrypt_buffer s)). lia. }
  unfold VLength_size, VLength_num_values_bytes, max_session_data_size, max_one_byte_value, max_u8, max_u16.
  case_ifs; lia.
Qed.

Lemma read_sealed (m : SessionMode) `{HM : !SessionModeOk m} key md pt dest :
  AuthMetadata_ok md -> buffer_ok key -> buf_length key = length_32 -> zlen pt <= zlen dest -> zlen dest <= max_u16 ->
  let sealed := mode_seal (as_seq key) (am_nonce md) (AuthMetadata_enc md) pt in
  exists dest', SessionMode_read m key (mkSessionData md sealed.1 sealed.2) dest = Done (inr pt, dest') /\ zlen dest' = zlen dest.
Proof.
  intros Hmd Hko Hk Hl Hd sealed. unfold SessionMode_read, get_length_in_bytes. rewrite Hk.
  change (negb (lookup_length_in_bytes length_32 =? symmetric_key_length)) with false. cbv iota.
  cbn [sd_metadata sd_user_data sd_auth_tag]. rewrite metadata_bytes by done.
  by apply (mode_decrypt_seal (m := m)); [apply as_seq_key|apply int_ok_u16, Hmd|..].
Qed.

(** One message from a session to its mirror, with everything that changes. *)
Lemma session_carries s r w `{HM : !SessionModeOk (session_mode (s_algorithms s))} st ct now now' dest :
  session_ok s -> s_valid s = true -> session_ok r -> s_valid r = true ->
  inv w -> max_session_data_size <= fw_max_payload_size fw w ->
  session_mode (s_algorithms r) = session_mode (s_algorithms s) ->
  as_seq (rx_key (s_keys r)) = as_seq (tx_key (s_keys s)) ->
  ct <> [] -> all_bytes ct -> s_encrypt_buffer s <> [] ->
  s_tx_nonce s < max_nonce (s_parameters s) -> tx_time_ok s now ->
  session_start (s_parameters r) <= now' ->
  now' - session_start (s_parameters r) <= max_session_time (s_parameters r) ->
  now' - session_start (s_parameters r) <= ms (am_valid_until_ms (tx_metadata s now)) ->
  s_tx_nonce s <= max_nonce (s_parameters r) ->
  verify_nonce (s_algorithms r) (s_rx_nonce r) (s_tx_nonce s) = true ->
  1024 <= zlen dest <= max_u16 ->
  exists eb' w' dest',
    Session_format_session_data fw s w now ct =
      Done (inr (frame w (SessionData_enc (tx_message s now ct))),
            s_set_tx_nonce (s_set_encrypt_buffer s eb') (s_tx_nonce s + 1), w', zdrop (tx_count s ct) ct) /\
    zlen eb' = zlen (s_encrypt_buffer s) /\ inv w' /\ (forall b, frame w' b = frame w b) /\
    fw_max_payload_size fw w' = fw_max_payload_size fw w /\
    SessionData_read (SessionData_enc (tx_message s now ct)) = inr (tx_message s now ct) /\
    Session_validate_session_data r st (tx_message s now ct) now' dest =
      Done (inr (ztake (tx_count s ct) ct), s_set_rx_nonce r (s_tx_nonce s), inc_success st, dest') /\
    zlen dest' = zlen dest /\ 1 <= tx_count s ct <= zlen ct.
Proof.
  intros Hs Hsv Hr Hrv Hw Hmax Hmode Hkey Hct Hb Heb Htx Ht Hr1 Hr2 Hr3 Hr4 Hver Hdest.
  pose proof Hs as (_&[[_ Hmn] _]&_&[Htx0 _]&_).
  destruct (format_done fw inv frame s w now ct Hs Hsv Hw Ht Hb Heb) as (eb'&w'&Hfmt&Heb'&Hw'&Hfr&Hmx).
  destruct (tx_message_ok s now ct Hs Ht Hb) as [Hmok _].
  pose proof (tx_message_fits s now ct Hs Ht Hb) as Hfit.
  destruct (decide (zlen (SessionData_enc (tx_message s now ct)) <= fw_max_payload_size fw w)) as [_|Hbig]; [|lia].
  assert (1 <= zlen ct) by (destruct ct; [done|rewrite zlen_cons; pose proof (zlen_nonneg ct); lia]).
  assert (1 <= zlen (s_encrypt_buffer s))
    by (destruct (s_encrypt_buffer s) as [|z l]; [done|rewrite zlen_cons; pose proof (zlen_nonneg l); lia]).
  assert (1 <= tx_count s ct <= 1024) as Hcount by (unfold tx_count; lia).
  assert (zlen (ztake (tx_count s ct) ct) = tx_count s ct) as Ez
    by (rewrite zlen_ztake by lia; unfold tx_count in *; lia).
  assert (ztake (tx_count s ct) ct <> []) as Hne by (intros E; rewrite E in Ez; change (zlen (@nil Z)) with 0 in Ez; lia).
  pose proof Hr as ((Hrko&_)&_&_&_&_&_&Hrk). specialize (Hrk Hrv). unfold SessionKeys_valid in Hrk.
  apply andb_prop in Hrk as [Hrk _]. apply bool_decide_eq_true in Hrk.
  destruct (read_sealed (session_mode (s_algorithms s)) (rx_key (s_keys r)) (tx_metadata s now)
              (ztake (tx_count s ct) ct) dest) as (dest'&Hread&Hdl);
    [by apply tx_metadata_ok|apply Hrko|done|lia|lia|].
  rewrite Hkey in Hread. change (am_nonce (tx_metadata s now)) with (s_tx_nonce s) in Hread.
  change (mkSessionData (tx_metadata s now) _ _) with (tx_message s now ct) in Hread.
  exists eb', w', dest'.
  split.
  { unfold Session_format_session_data. destruct (_ <=? s_tx_nonce s) eqn:E; btests; [lia|].
    rewrite Hfmt. unfold nonce_increment, u16, max_u16 in *. by rewrite Z.mod_small by lia. }
  split; [done|]. split; [done|]. split; [done|]. split; [done|].
  split; [by apply (msg_read_enc (m := SessionData_message))|].
  split.
  { unfold Session_validate_session_data, validate_session_data_with_nonce_func.
    rewrite Hrv. simpl negb. cbv iota. rewrite Hmode, Hread. cbn [obind].
    change (sd_metadata (tx_message s now ct)) with (tx_metadata s now).
    change (am_nonce (tx_metadata s now)) with (s_tx_nonce s).
    destruct (now' <? _) eqn:E1; btests; [lia|].
    destruct (max_session_time (s_parameters r) <? _) eqn:E2; btests; [lia|].
    destruct (ms _ <? _) eqn:E3; btests; [lia|].
    destruct (max_nonce (s_parameters r) <? _) eqn:E4; btests; [lia|].
    rewrite Hver. simpl negb. cbv iota. cbn [obind].
    assert (is_nil (ztake (tx_count s ct) ct) = false) as -> by by apply is_nil_false.
    reflexivity. }
  split; [done|]. unfold tx_count in *. lia.
Qed.

(** C3: What one side formats the other side accepts: when two valid sessions
    share the key of this direction and the session mode, the sender may transmit
    (nonce below its maximum, time to live inside the session), the receiver is
    within the session and the message's time to live, and the nonce passes the
    receiver's check, then the frame holds a message that parses, the receiver
    accepts it, and the data delivered is the first part of the sender's data: it
    is not empty, and followed by what the sender has left it is the whole.  The
    data and the sender's encryption buffer must not be empty, the frame writer has
    to take a message of the largest size, 1051 bytes, and the receiver needs a
    destination of 1024 to 65535 bytes. *)
Theorem session_roundtrip s r w `{HM : !SessionModeOk (session_mode (s_algorithms s))} st ct now now' dest :
  session_ok s -> s_valid s = true -> session_ok r -> s_valid r = true ->
  inv w -> max_session_data_size <= fw_max_payload_size fw w ->
  session_mode (s_algorithms r) = session_mode (s_algorithms s) ->
  as_seq (rx_key (s_keys r)) = as_seq (tx_key (s_keys s)) ->
  ct <> [] -> all_bytes ct -> s_encrypt_buffer s <> [] ->
  s_tx_nonce s < max_nonce (s_parameters s) -> tx_time_ok s now ->
  session_start (s_parameters r) <= now' ->
  now' - session_start (s_parameters r) <= max_session_time (s_parameters r) ->
  now' - session_start (s_parameters r) <= ms (am_valid_until_ms (tx_metadata s now)) ->
  s_tx_nonce s <= max_nonce (s_parameters r) ->
  verify_nonce (s_algorithms r) (s_rx_nonce r) (s_tx_nonce s) = true ->
  1024 <= zlen dest <= max_u16 ->
  exists payload msg s' w' rest chunk r' st' dest',
    Session_format_session_data fw s w now ct = Done (inr (frame w payload), s', w', rest) /\
    SessionData_read payload = inr msg /\
    Session_validate_session_data r st msg now' dest = Done (inr chunk, r', st', dest') /\
    chunk <> [] /\ chunk ++ rest = ct /\
    s_tx_nonce s' = s_tx_nonce s + 1 /\ s_rx_nonce r' = s_tx_nonce s.
Proof.
  intros Hs Hsv Hr Hrv Hw Hmax Hmode Hkey Hct Hb Heb Htx Ht Hr1 Hr2 Hr3 Hr4 Hver Hdest.
  destruct (session_carries s r w st ct now now' dest Hs Hsv Hr Hrv Hw Hmax Hmode Hkey Hct Hb Heb Htx Ht Hr1 Hr2
              Hr3 Hr4 Hver Hdest) as (eb'&w'&dest'&Hf&_&_&_&_&Hread&Hval&_&Hc).
  do 9 eexists. split; [exact Hf|]. split; [exact Hread|]. split; [exact Hval|].
  split; [|split; [apply ztake_zdrop|done]]. intros E. apply (f_equal zlen) in E.
  rewrite zlen_ztake in E by lia. change (zlen (@nil Z)) with 0 in E. lia.
Qed.

(** A frame whose maximum payload is smaller than a full message cannot
    carry the session's own choice of user data: with a payload maximum of 100
    bytes a session takes up to 91 bytes of the cleartext; for 76 bytes or more
    the message does not fit and formatting fails, although a shorter part would
    have fitted, and the session's transmit nonce stays as it was. *)
Theorem small_frames_block_session_data s w `{HM : !SessionModeOk (session_mode (s_algorithms s))} now ct :
  session_ok s -> s_valid s = true -> inv w -> tx_time_ok s now -> all_bytes ct ->
  s_tx_nonce s < max_nonce (s_parameters s) ->
  fw_max_payload_size fw w = 100 ->
  zlen (s_encrypt_buffer s) = calc_max_crypto_payload_length 100 -> 76 <= zlen ct ->
  exists s' w' rest,
    Session_format_session_data fw s w now ct =
      Done (inl (EC_format FormatError_insufficient_space), s', w', rest) /\
    s_tx_nonce s' = s_tx_nonce s.
Proof.
  intros Hs Hv Hw Ht Hb Hn Hmax Heb Hct. change (calc_max_crypto_payload_length 100) with 91 in Heb.
  assert (s_encrypt_buffer s <> []) as Hne by (intros E; rewrite E in Heb; done).
  destruct (format_done fw inv frame s w now ct Hs Hv Hw Ht Hb Hne) as (eb'&w'&Hfmt&_).
  destruct (tx_message_ok s now ct Hs Ht Hb) as [_ Hl].
  assert (76 <= tx_count s ct) as Hc by (unfold tx_count; lia).
  rewrite Hmax in Hfmt. rewrite Hl in Hfmt. unfold VLength_size in Hfmt.
  pose proof (VLength_num_range (tx_count s ct)).
  destruct (decide _) as [Hfit|_] in Hfmt; [lia|].
  eexists _, _, _. split.
  - unfold Session_format_session_data. destruct (_ <=? s_tx_nonce s) eqn:E; btests; [lia|]. exact Hfmt.
  - done.
Qed.

(** Resetting a session destroys its keys: every byte of both key buffers
    becomes zero and their length empty, the session is no longer valid, and from
    then on no message is accepted and no data is formatted, until it is
    initialized again. *)
Theorem reset_destroys_keys `{HB : !BackendOk c} s :
  exists s', Session_reset c s = Done s' /\ s_valid s' = false /\
    as_seq (rx_key (s_keys s')) = [] /\ as_seq (tx_key (s_keys s')) = [] /\
    Forall (fun b => b = 0) (buf_data (rx_key (s_keys s'))) /\
    Forall (fun b => b = 0) (buf_data (tx_key (s_keys s'))) /\
    (forall st msg now dest,
       Session_validate_session_data s' st msg now dest =
         Done (inl (EC_crypto CryptoError_no_valid_session), s', inc_user_data_without_session st, dest)) /\
    (forall w now ct, exists ec, Session_format_session_data fw s' w now ct = Done (inl ec, s', w, ct)).
Proof.
  unfold Session_reset. rewrite (keys_zero_done c). cbn [obind]. eexists. split; [reflexivity|].
  split; [done|]. split; [done|]. split; [done|].
  split; [apply Forall_replicate; done|]. split; [apply Forall_replicate; done|].
  split; [done|]. intros w now ct. unfold Session_format_session_data.
  case_if; by eexists.
Qed.
End Transport.

(** ** Concrete instances *)

Definition test_alg : Algorithms_Session :=
  mkAlgorithms_Session verify_strict_increment (hmac_sha_256_trunc16 (SER := ser4cpp_reference) test_crypto).

Definition test_session (rx tx : Z) (n : nat) : Session :=
  mkSession true 10 0 1 (mkSessionKeys (test_key rx) (test_key tx)) test_alg
    (mkParam 0 100 (ms 1000)) (replicate n 0).

Lemma test_session_ok rx tx n : session_ok (test_session rx tx n).
Proof.
  split; [done|]. split; [repeat split; by vm_compute|]. split; [done|]. split; [done|].
  split; [done|]. split; [by left|done].
Qed.

#[export] Instance test_mode_ok :
  SessionModeOk (hmac_sha_256_trunc16 (SER := ser4cpp_reference) test_crypto) :=
  hmac_mode_ok (SER := ser4cpp_reference) test_crypto eq_refl.

Definition test_writer (max : Z) : LinkFrameWriter :=
  LinkFrameWriter_new (mkAddresses 1 2) max (replicate (Z.to_nat (16 + max)) 0).

Lemma test_writer_inv max : is_u16 max -> LinkFrameWriter_inv (test_writer max).
Proof.
  intros Hm. split; [done|]. split; [done|]. simpl. unfold zlen. rewrite length_replicate.
  unfold is_u16 in Hm. unfold LinkFrameWriter_get_buffer_size. change min_frame_size with 16. lia.
Qed.

(** A message the session [test_session 2 1 0] accepts. *)
Definition test_message : SessionData :=
  let md := mkAuthMetadata 1 500 in
  mkSessionData md [7; 8; 9] (hmac_tag test_crypto (as_seq (test_key 2)) (AuthMetadata_enc md) [7; 8; 9]).

Lemma test_message_nonce : is_u16 (am_nonce (sd_metadata test_message)).
Proof. change (is_u16 1). unfold is_u16, max_u16. lia. Qed.

Lemma validate_accepts_witness :
  exists s' st' d', Session_validate_session_data (SER := ser4cpp_reference) (test_session 2 1 0)
    no_statistics test_message (ms 5) [] = Done (inr [7; 8; 9], s', st', d') /\ [7; 8; 9] <> [] /\
    s_rx_nonce s' = 1.
Proof.
  assert (match Session_validate_session_data (SER := ser4cpp_reference) (test_session 2 1 0)
            no_statistics test_message (ms 5) [] with
          | Done (res, _, _, _) => Some res | _ => None end = Some (inr [7; 8; 9])) as Hres
    by (vm_compute; reflexivity).
  destruct (Session_validate_session_data (SER := ser4cpp_reference) (test_session 2 1 0)
    no_statistics test_message (ms 5) []) as [[[[res s'] st'] d']| | |] eqn:E; [|discriminate..].
  injection Hres as ->.
  pose proof (validate_accepts (SER := ser4cpp_reference) (test_session 2 1 0) no_statistics
                test_message (ms 5) [] _ s' st' d' (test_session_ok 2 1 0) E) as H.
  destruct H as (_&Hne&_&_&_&_&_&->). exists (s_set_rx_nonce (test_session 2 1 0) 1), st', d'. auto.
Defined.

Lemma no_replay_witness :
  exists accepted s',
    validate_all (SER := ser4cpp_reference) (test_session 2 1 0) no_statistics []
      [(test_message, ms 5); (test_message, ms 6)] = Done (accepted, s') /\
    accepted = [1] /\ increasing 0 accepted /\ Forall (fun nonce => nonce <= 100) accepted.
Proof.
  assert (match validate_all (SER := ser4cpp_reference) (test_session 2 1 0) no_statistics []
            [(test_message, ms 5); (test_message, ms 6)] with
          | Done (acc, _) => Some acc | _ => None end = Some [1]) as Hacc
    by (vm_compute; reflexivity).
  destruct (validate_all (SER := ser4cpp_reference) (test_session 2 1 0) no_statistics []
      [(test_message, ms 5); (test_message, ms 6)]) as [[accepted s']| | |] eqn:E; [|discriminate..].
  injection Hacc as ->.
  destruct (no_replay (SER := ser4cpp_reference) (test_session 2 1 0) no_statistics []
              [(test_message, ms 5); (test_message, ms 6)] [1] s' (test_session_ok 2 1 0))
    as (Hinc&_&Hmax&_).
  - exact (Forall_cons_2 input_nonce_ok (test_message, ms 5) _ test_message_nonce
             (Forall_cons_2 input_nonce_ok (test_message, ms 6) [] test_message_nonce
                (Forall_nil_2 input_nonce_ok))).
  - exact E.
  - exists [1], s'. auto.
Defined.

Lemma tx_nonces_unique_witness :
  exists messages s' w',
    format_all (SER := ser4cpp_reference) LinkFrameWriter_ops (test_session 2 1 100) (test_writer 1100)
      [FormatData (ms 1) [5]; FormatAuth (ms 2) []; FormatData (ms 3) [6; 7]] =
      Done (map (fun m => link_frame (mkAddresses 1 2) (SessionData_enc m)) messages, s', w') /\
    map (fun m => am_nonce (sd_metadata m)) messages = seqZ 1 (Z.of_nat (length messages)).
Proof.
  destruct (tx_nonces_unique (SER := ser4cpp_reference) LinkFrameWriter_ops LinkFrameWriter_inv
              LinkFrameWriter_frame (test_session 2 1 100) (test_writer 1100)
              [FormatData (ms 1) [5]; FormatAuth (ms 2) []; FormatData (ms 3) [6; 7]])
    as (messages&s'&w'&H&_&Hn&_).
  - apply test_session_ok.
  - apply test_writer_inv. by vm_compute.
  - repeat (apply Forall_cons; split; [simpl; concrete_bytes|]). constructor.
  - exists messages, s', w'. auto.
Defined.

Lemma session_roundtrip_witness :
  exists payload msg s' w' rest chunk r' st' dest',
    Session_format_session_data (SER := ser4cpp_reference) LinkFrameWriter_ops (test_session 2 1 100)
      (test_writer 1100) (ms 1) [5; 6] = Done (inr (link_frame (mkAddresses 1 2) payload), s', w', rest) /\
    SessionData_read (SER := ser4cpp_reference) payload = inr msg /\
    Session_validate_session_data (SER := ser4cpp_reference) (test_session 1 2 100) no_statistics msg
      (ms 4) (replicate 1024 0) = Done (inr chunk, r', st', dest') /\ chunk ++ rest = [5; 6].
Proof.
  destruct (session_roundtrip (SER := ser4cpp_reference) LinkFrameWriter_ops LinkFrameWriter_inv
              LinkFrameWriter_frame (test_session 2 1 100) (test_session 1 2 100) (test_writer 1100)
              no_statistics [5; 6] (ms 1) (ms 4) (replicate 1024 0))
    as (payload&msg&s'&w'&rest&chunk&r'&st'&dest'&H1&H2&H3&_&H4&_).
  - apply test_session_ok.
  - reflexivity.
  - apply test_session_ok.
  - reflexivity.
  - apply test_writer_inv. by vm_compute.
  - by vm_compute.
  - reflexivity.
  - reflexivity.
  - discriminate.
  - concrete_bytes.
  - discriminate.
  - by vm_compute.
  - split; by vm_compute.
  - by vm_compute.
  - by vm_compute.
  - by vm_compute.
  - by vm_compute.
  - reflexivity.
  - split; by vm_compute.
  - exists payload, msg, s', w', rest, chunk, r', st', dest'. auto.
Defined.

Lemma small_frames_block_session_data_witness :
  exists s' w' rest,
    Session_format_session_data (SER := ser4cpp_reference) LinkFrameWriter_ops (test_session 2 1 91)
      (test_writer 100) (ms 1) (replicate 80 0) =
      Done (inl (EC_format FormatError_insufficient_space), s', w', rest).
Proof.
  destruct (small_frames_block_session_data (SER := ser4cpp_reference) LinkFrameWriter_ops
              LinkFrameWriter_inv LinkFrameWriter_frame (test_session 2 1 91) (test_writer 100) (ms 1)
              (replicate 80 0)) as (s'&w'&rest&H&_).
  - apply test_session_ok.
  - reflexivity.
  - apply test_writer_inv. by vm_compute.
  - split; by vm_compute.
  - simpl. concrete_bytes.
  - by vm_compute.
  - reflexivity.
  - reflexivity.
  - by vm_compute.
  - exists s', w', rest. exact H.
Defined.
