(* ===== verification/Chain.v ===== *)
(** * Certificate chains

    [Chain.h/.cpp] and the two certificate handlers
    [IndustrialCertificateHandler] and [PresharedKeyCertificateHandler].  The
    specification of a valid chain is the relation [certified]. *)

From stdpp Require Import base numbers list strings.
From Stdlib Require Import Lia ZArith.
From S2P Require Import Prelude Ser4cpp Enums Codec Messages Crypto.

Section Definitions.
Context `{SER : Ser4cpp} (c : CryptoState).

(** [Chain::DSAInfo]: the function pointer and the signature's length. *)
Record DSAInfo := mkDSAInfo {
  dsa_verify : option (bytes -> bytes -> bytes -> outcome bool);
  dsa_signature_length : Z;
}.

Definition try_get_dsa_info (type : PublicKeyType) : DSAInfo :=
  match type with
  | PublicKeyType_Ed25519 =>
      if supports_ed25519 c
      then mkDSAInfo (Some (Crypto_verify_ed25519 c)) ed25519_signature_length
      else mkDSAInfo None 0
  | _ => mkDSAInfo None 0
  end.

Definition is_dh_key (type : PublicKeyType) : bool :=
  match type with PublicKeyType_X25519 => true | _ => false end.

Definition Chain_verify_pair (parent : CertificateBody) (child_envelope : CertificateEnvelope)
  : outcome (HandshakeError + CertificateBody) :=
  let dsa_info := try_get_dsa_info (cb_public_key_type parent) in
  match dsa_verify dsa_info with
  | None => Done (inl HandshakeError_bad_certificate_chain)
  | Some verify =>
      if negb (dsa_signature_length dsa_info =? zlen (ce_signature child_envelope))
      then Done (inl HandshakeError_bad_certificate_chain)
      else
        let* authentic :=
          verify (ce_certificate_body child_envelope) (ce_signature child_envelope)
            (cb_public_key parent) in
        if negb authentic then Done (inl HandshakeError_authentication_error)
        else
          match CertificateBody_read_all (ce_certificate_body child_envelope) with
          | inl _ => Done (inl HandshakeError_bad_certificate_format)
          | inr child =>
              if cb_valid_after child <? cb_valid_after parent
              then Done (inl HandshakeError_bad_certificate_chain)
              else if cb_valid_before parent <? cb_valid_before child
              then Done (inl HandshakeError_bad_certificate_chain)
              else if cb_signing_level parent <=? cb_signing_level child
              then Done (inl HandshakeError_bad_certificate_chain)
              else Done (inr child)
          end
  end.

(** The loop of [Chain::verify]. *)
Fixpoint Chain_verify_loop (parent : CertificateBody) (certificates : list CertificateEnvelope)
  : outcome (HandshakeError + CertificateBody) :=
  match certificates with
  | [] => Done (inr parent)
  | child_env :: certificates =>
      let* res := Chain_verify_pair parent child_env in
      match res with
      | inl err => Done (inl err)
      | inr output => Chain_verify_loop output certificates
      end
  end.

Definition Chain_verify (anchor : CertificateBody) (certificates : list CertificateEnvelope)
  : outcome (HandshakeError + CertificateBody) :=
  if is_nil certificates then Done (inl HandshakeError_bad_certificate_chain)
  else
    let* res := Chain_verify_loop anchor certificates in
    match res with
    | inl err => Done (inl err)
    | inr parent =>
        if negb (cb_signing_level parent =? 0) then Done (inl HandshakeError_bad_certificate_chain)
        else if negb (is_dh_key (cb_public_key_type parent))
        then Done (inl HandshakeError_bad_certificate_chain)
        else Done (inr parent)
    end.

(** ** Certificate handlers *)

(** [ICertificateHandler]: what a handshake uses of it. *)
Record ICertificateHandler := mkCertificateHandler {
  certificate_data : bytes;
  handler_mode : HandshakeMode;
  handler_validate : HandshakeMode -> bytes -> outcome (HandshakeError + bytes);
}.

Definition PresharedKeyCertificateHandler (remote_static_public_key : BufferBase)
  : ICertificateHandler :=
  mkCertificateHandler [] HandshakeMode_public_keys
    (fun mode data =>
       if bool_decide (mode <> HandshakeMode_public_keys)
       then Done (inl HandshakeError_unsupported_handshake_mode)
       else if negb (is_nil data) then Done (inl HandshakeError_bad_message_format)
       else Done (inr (as_seq remote_static_public_key))).

(** Exceptions end in [Throw]. *)
Definition throw_on_error {E A} (r : E + A) : outcome A :=
  match r with inl _ => Throw | inr a => Done a end.

Definition read_anchor_cert (file_data : bytes) : outcome CertificateBody :=
  let* file := throw_on_error (ContainerFile_read_all file_data) in
  if bool_decide (cf_container_entry_type file <> ContainerEntryType_certificate_chain) then Throw
  else
    let* chain := throw_on_error (CertificateChain_read_all (cf_payload file)) in
    match cc_certificates chain with
    | [envelope] => throw_on_error (CertificateBody_read_all (ce_certificate_body envelope))
    | _ => Throw
    end.

Definition verify_presented_chain (anchor : CertificateBody) (file_data : bytes) : outcome bytes :=
  let* file := throw_on_error (ContainerFile_read_all file_data) in
  if bool_decide (cf_container_entry_type file <> ContainerEntryType_certificate_chain) then Throw
  else
    let* chain := throw_on_error (CertificateChain_read_all (cf_payload file)) in
    let* res := Chain_verify anchor (cc_certificates chain) in
    let* _ := throw_on_error res in
    Done (cf_payload file).

Definition IndustrialCertificateHandler_validate (anchor : CertificateBody) (mode : HandshakeMode)
    (data : bytes) : outcome (HandshakeError + bytes) :=
  if bool_decide (mode <> HandshakeMode_industrial_certificates)
  then Done (inl HandshakeError_unsupported_handshake_mode)
  else
    match CertificateChain_read_all data with
    | inl _ => Done (inl HandshakeError_bad_certificate_format)
    | inr chain =>
        let* res := Chain_verify anchor (cc_certificates chain) in
        match res with
        | inl err => Done (inl err)
        | inr endpoint_cert => Done (inr (cb_public_key endpoint_cert))
        end
    end.

Definition IndustrialCertificateHandler (anchor_cert_file_data presented_chain_file_data : bytes)
  : outcome ICertificateHandler :=
  let* anchor := read_anchor_cert anchor_cert_file_data in
  let* presented := verify_presented_chain anchor presented_chain_file_data in
  Done (mkCertificateHandler presented HandshakeMode_industrial_certificates
          (IndustrialCertificateHandler_validate anchor)).

(** ** What a valid chain is *)

(** The certificate in the envelope, signed by the parent. *)
Record issues (parent : CertificateBody) (env : CertificateEnvelope) (child : CertificateBody) : Prop := {
  issuer_type : cb_public_key_type parent = PublicKeyType_Ed25519;
  issuer_signature_length : zlen (ce_signature env) = ed25519_signature_length;
  issuer_signature :
    Crypto_verify_ed25519 c (ce_certificate_body env) (ce_signature env) (cb_public_key parent) =
      Done true;
  issued_body : ce_certificate_body env = CertificateBody_enc child;
  issued_ok : CertificateBody_ok child;
  issued_after : cb_valid_after parent <= cb_valid_after child;
  issued_before : cb_valid_before child <= cb_valid_before parent;
  issued_level : cb_signing_level child < cb_signing_level parent;
}.

Inductive certified : CertificateBody -> list CertificateEnvelope -> CertificateBody -> Prop :=
| certified_nil p : certified p [] p
| certified_cons p env child envs leaf :
    issues p env child -> certified child envs leaf -> certified p (env :: envs) leaf.

Lemma body_read_exact s child :
  all_bytes s ->
  CertificateBody_read_all s = inr child <-> CertificateBody_ok child /\ s = CertificateBody_enc child.
Proof. apply (read_all_exact CertificateBody_field CertificateBody_enc CertificateBody_ok). Qed.

Lemma verify_pair_exact parent env child :
  supports_ed25519 c = true -> all_bytes (ce_certificate_body env) ->
  Chain_verify_pair parent env = Done (inr child) <-> issues parent env child.
Proof.
  intros Hs Hb. unfold Chain_verify_pair, try_get_dsa_info.
  split.
  - destruct (cb_public_key_type parent) eqn:Et; try done. rewrite Hs. cbn [dsa_verify dsa_signature_length].
    destruct (_ =? zlen (ce_signature env)) eqn:El; [|done]. btests. cbn [negb].
    intros H. apply obind_done in H as (ok&Hv&H). destruct ok; [|done]. cbn [negb] in H.
    destruct (CertificateBody_read_all (ce_certificate_body env)) as [e|ch] eqn:Er; [done|].
    apply body_read_exact in Er as [Hok Hbody]; [|done].
    destruct (cb_valid_after ch <? _) eqn:E1; [done|].
    destruct (_ <? cb_valid_before ch) eqn:E2; [done|].
    destruct (_ <=? cb_signing_level ch) eqn:E3; [done|]. injection H as <-. btests.
    by constructor.
  - intros [Ht Hl Hv Hbody Hok Ha Hbf Hlev]. rewrite Ht, Hs. cbn [dsa_verify dsa_signature_length].
    rewrite Hl, Z.eqb_refl. cbn [negb]. rewrite Hv. cbn [obind negb].
    assert (CertificateBody_read_all (ce_certificate_body env) = inr child) as -> by by apply body_read_exact.
    destruct (cb_valid_after child <? _) eqn:E1; btests; [lia|].
    destruct (_ <? cb_valid_before child) eqn:E2; btests; [lia|].
    destruct (_ <=? cb_signing_level child) eqn:E3; btests; [lia|]. done.
Qed.

Lemma verify_loop_exact parent envs leaf :
  supports_ed25519 c = true -> Forall (fun e => all_bytes (ce_certificate_body e)) envs ->
  Chain_verify_loop parent envs = Done (inr leaf) <-> certified parent envs leaf.
Proof.
  intros Hs Hb. revert parent. induction Hb as [|env envs He _ IH]; intros parent; simpl.
  - split; [intros [= <-]; constructor|]. by inversion 1.
  - split.
    + intros H. apply obind_done in H as (res&Hp&H). destruct res as [e|child]; [done|].
      apply verify_pair_exact in Hp; [|done|done]. econstructor; [done|]. by apply IH.
    + inversion 1 as [|p e child es l Hi Hc]; subst.
      apply verify_pair_exact in Hi; [|done|done]. rewrite Hi. cbn [obind]. by apply IH.
Qed.

Lemma certified_facts p envs leaf :
  certified p envs leaf ->
  cb_valid_after p <= cb_valid_after leaf /\ cb_valid_before leaf <= cb_valid_before p /\
  cb_signing_level leaf + zlen envs <= cb_signing_level p.
Proof.
  induction 1 as [p|p env child envs leaf Hi _ IH]; [change (zlen (@nil CertificateEnvelope)) with 0; lia|].
  destruct Hi as [_ _ _ _ _ Ha Hb Hl]. rewrite zlen_cons. lia.
Qed.

Lemma chain_verify_iff anchor envs leaf :
  supports_ed25519 c = true -> Forall (fun e => all_bytes (ce_certificate_body e)) envs ->
  Chain_verify anchor envs = Done (inr leaf) <->
    envs <> [] /\ certified anchor envs leaf /\ cb_signing_level leaf = 0 /\
    cb_public_key_type leaf = PublicKeyType_X25519.
Proof.
  intros Hs Hb. unfold Chain_verify. destruct envs as [|env envs]; simpl is_nil; cbv iota.
  { split; [done|]. by intros [? _]. }
  split.
  - intros H. apply obind_done in H as (res&Hl&H). destruct res as [e|p]; [done|].
    apply verify_loop_exact in Hl; [|done|done].
    destruct (cb_signing_level p =? 0) eqn:E; [|done]. btests. cbn [negb] in H.
    destruct (cb_public_key_type p) eqn:Et; try done. injection H as <-. done.
  - intros (_&Hc&Hl&Ht). apply verify_loop_exact in Hc; [|done|done]. rewrite Hc. cbn [obind].
    by rewrite Hl, Ht.
Qed.

(** C11: [Chain::verify] accepts exactly the valid chains: it succeeds with a
    certificate if and only if the chain is not empty, each certificate is
    signed with an Ed25519 signature by the one before it (the first by the
    anchor), decodes exactly, lies within its issuer's validity interval and has
    a lower signing level, and the last one has level 0 and a DH key. *)
Theorem chain_verify_exact anchor envs leaf :
  supports_ed25519 c = true -> Forall (fun e => all_bytes (ce_certificate_body e)) envs ->
  Chain_verify anchor envs = Done (inr leaf) <->
    envs <> [] /\ certified anchor envs leaf /\ cb_signing_level leaf = 0 /\
    cb_public_key_type leaf = PublicKeyType_X25519.
Proof. apply chain_verify_iff. Qed.

(** What an accepted chain guarantees about the endpoint: its validity
    interval lies inside the anchor's, and the chain is no longer than the anchor's
    signing level allows. *)
Theorem chain_verify_bounds anchor envs leaf :
  supports_ed25519 c = true -> Forall (fun e => all_bytes (ce_certificate_body e)) envs ->
  Chain_verify anchor envs = Done (inr leaf) ->
  cb_valid_after anchor <= cb_valid_after leaf /\ cb_valid_before leaf <= cb_valid_before anchor /\
  1 <= zlen envs <= cb_signing_level anchor.
Proof.
  intros Hs Hb H. unfold Chain_verify in H. destruct envs as [|env envs]; [done|].
  simpl is_nil in H. cbv iota in H. apply obind_done in H as (res&Hl&H). destruct res as [e|p]; [done|].
  apply verify_loop_exact in Hl; [|done|done]. apply certified_facts in Hl.
  destruct (cb_signing_level p =? 0) eqn:E; [|done]. btests. cbn [negb] in H.
  destruct (negb _); [done|]. injection H as <-. rewrite zlen_cons in *.
  pose proof (zlen_nonneg envs). lia.
Qed.

Lemma chain_read_exact s chain :
  all_bytes s ->
  CertificateChain_read_all s = inr chain <-> CertificateChain_ok chain /\ s = CertificateChain_enc chain.
Proof. apply (read_all_exact CertificateChain_field CertificateChain_enc CertificateChain_ok). Qed.

Lemma chain_ok_bytes chain :
  CertificateChain_ok chain ->
  Forall (fun e => all_bytes (ce_certificate_body e)) (cc_certificates chain).
Proof.
  intros [H _]. eapply Forall_impl; [exact H|]. intros e [_ [Hb _]]. exact Hb.
Qed.

(** C30: The certificate handler hands a key to the handshake exactly when the
    presented data is the encoding of a chain that is valid under its trust
    anchor, and the key is the last certificate's; and the handler can only be
    constructed with a chain of its own that it would accept itself. *)
Theorem industrial_handler_exact anchor mode data key :
  supports_ed25519 c = true -> all_bytes data ->
  (IndustrialCertificateHandler_validate anchor mode data = Done (inr key) <->
   mode = HandshakeMode_industrial_certificates /\
   exists chain leaf,
     data = CertificateChain_enc chain /\ CertificateChain_ok chain /\
     cc_certificates chain <> [] /\ certified anchor (cc_certificates chain) leaf /\
     cb_signing_level leaf = 0 /\ cb_public_key_type leaf = PublicKeyType_X25519 /\
     key = cb_public_key leaf) /\
  (forall anchor_file presented_file h,
     IndustrialCertificateHandler anchor_file presented_file = Done h ->
     exists own, handler_validate h (handler_mode h) (certificate_data h) = Done (inr own)).
Proof.
  intros Hs Hb. split.
  - unfold IndustrialCertificateHandler_validate.
    destruct (bool_decide (mode <> _)) eqn:Em.
    { apply bool_decide_eq_true in Em. split; [done|]. by intros [? _]. }
    apply bool_decide_eq_false in Em. apply dec_stable in Em.
    split.
    + destruct (CertificateChain_read_all data) as [e|chain] eqn:Er; [done|].
      apply chain_read_exact in Er as [Hok Hd]; [|done].
      intros H. apply obind_done in H as (res&Hv&H). destruct res as [e|leaf]; [done|].
      injection H as <-. apply chain_verify_iff in Hv; [|done|by apply chain_ok_bytes].
      split; [done|]. exists chain, leaf. tauto.
    + intros (_&chain&leaf&Hd&Hok&Hne&Hc&Hl&Ht&->).
      assert (CertificateChain_read_all data = inr chain) as -> by by apply chain_read_exact.
      assert (Chain_verify anchor (cc_certificates chain) = Done (inr leaf)) as ->; [|done].
      apply chain_verify_iff; [done|by apply chain_ok_bytes|done].
  - intros af pf h H. unfold IndustrialCertificateHandler in H.
    apply obind_done in H as (a&_&H). apply obind_done in H as (presented&Hp&H).
    injection H as <-. cbn [handler_validate handler_mode certificate_data].
    unfold verify_presented_chain in Hp. apply obind_done in Hp as (file&_&Hp).
    destruct (bool_decide _); [done|]. apply obind_done in Hp as (chain&Hc&Hp).
    apply obind_done in Hp as (res&Hv&Hp). apply obind_done in Hp as (leaf&Hl&Hp).
    injection Hp as <-. unfold IndustrialCertificateHandler_validate.
    rewrite bool_decide_eq_false_2 by tauto.
    destruct (CertificateChain_read_all (cf_payload file)) as [e|chain']; [done|].
    injection Hc as ->. rewrite Hv. cbn [obind]. destruct res as [e|leaf']; [done|]. by eexists.
Qed.
End Definitions.

(** ** A concrete chain *)

(** [test_backend] with a toy signature scheme. *)
Definition signing_backend : CryptoBackend :=
  mkCryptoBackend
    (be_zero_memory test_backend) (be_gen_random test_backend) (be_secure_equals test_backend)
    (be_hash_sha256 test_backend) (be_hmac_sha256 test_backend)
    (be_gen_keypair_x25519 test_backend) (be_dh_x25519 test_backend) (be_hkdf_sha256 test_backend)
    (Some (fun draw pair => pair))
    (Some (fun input key out =>
       Done (inr (set_length (buffer_store out (test_digest 64 key input)) length_64))))
    (Some (fun msg signature key => Done (bool_decide (signature = test_digest 64 key msg))))
    (be_aes256_gcm_encrypt test_backend) (be_aes256_gcm_decrypt test_backend).

Definition signing_crypto : CryptoState := mkCryptoState true signing_backend.

Definition test_anchor : CertificateBody :=
  mkCertificateBody 0 100 2 PublicKeyType_Ed25519 [1] [].

Definition test_signed (issuer : CertificateBody) (body : CertificateBody) : CertificateEnvelope :=
  let data := CertificateBody_enc body in
  mkCertificateEnvelope (test_digest 64 (cb_public_key issuer) data) data.

Definition test_authority : CertificateBody :=
  mkCertificateBody 5 90 1 PublicKeyType_Ed25519 [2] [].
Definition test_endpoint : CertificateBody :=
  mkCertificateBody 10 20 0 PublicKeyType_X25519 [3] [].

Definition test_chain : list CertificateEnvelope :=
  [test_signed test_anchor test_authority; test_signed test_authority test_endpoint].

Lemma test_chain_bytes : Forall (fun e => all_bytes (ce_certificate_body e)) test_chain.
Proof.
  apply Forall_cons; split; [|apply Forall_cons; split; [|apply Forall_nil_2]];
    match goal with |- all_bytes ?b => let v := eval vm_compute in b in change (all_bytes v) end;
    concrete_bytes.
Qed.

Lemma chain_verify_exact_witness :
  certified signing_crypto test_anchor test_chain test_endpoint.
Proof.
  exact (proj1 (proj2 (proj1 (chain_verify_exact (SER := ser4cpp_reference) signing_crypto
    test_anchor test_chain test_endpoint eq_refl test_chain_bytes) eq_refl))).
Defined.

Lemma chain_verify_bounds_witness :
  cb_valid_after test_anchor <= cb_valid_after test_endpoint /\
  cb_valid_before test_endpoint <= cb_valid_before test_anchor /\
  1 <= zlen test_chain <= cb_signing_level test_anchor.
Proof.
  exact (chain_verify_bounds (SER := ser4cpp_reference) signing_crypto
    test_anchor test_chain test_endpoint eq_refl test_chain_bytes eq_refl).
Defined.

Definition test_certificate_chain : CertificateChain := mkCertificateChain test_chain.

Lemma test_certificate_chain_bytes : all_bytes (CertificateChain_enc test_certificate_chain).
Proof.
  match goal with |- all_bytes ?b => let v := eval vm_compute in b in change (all_bytes v) end.
  concrete_bytes.
Qed.

Lemma industrial_handler_exact_witness :
  exists chain leaf,
    CertificateChain_enc test_certificate_chain = CertificateChain_enc chain /\
    certified signing_crypto test_anchor (cc_certificates chain) leaf /\ [3] = cb_public_key leaf.
Proof.
  destruct (industrial_handler_exact (SER := ser4cpp_reference) signing_crypto
    test_anchor HandshakeMode_industrial_certificates (CertificateChain_enc test_certificate_chain)
    [3] eq_refl test_certificate_chain_bytes) as [[H _] _].
  destruct (H eq_refl) as (_&chain&leaf&Hd&_&_&Hc&_&_&Hk).
  exists chain, leaf. split; [exact Hd|]. split; [exact Hc|exact Hk].
Defined.
