(* ===== verification/Handshake.v ===== *)
(** * Handshakes

    The three initiator handshakes and the three responder handshakes
    ([SharedSecret...], [QKD...], [PublicKey...] in [src/crypto]) with
    [HandshakeHasher], [TripleDH], [KeyRecord] and [ProtocolVersion].  The
    abstract classes [IInitiatorHandshake] and [IResponderHandshake] are records
    of operations on a state type; random numbers are drawn by number.

    The session keys of both sides are compared by [mirrored]; [completes] is the
    whole exchange of the two handshake messages. *)

From stdpp Require Import base numbers list strings.
From Stdlib Require Import Lia ZArith.
From S2P Require Import Prelude Ser4cpp Enums Codec Messages CRC LinkParser FrameWriter.
From S2P Require Import Crypto SessionMode Session Chain.

(** ** Shared data *)

(** [version::get] *)
Definition version_get : Version := mkVersion protocol_major_version protocol_minor_version.

Record SessionLimits := mkSessionLimits {
  max_nonce_value : Z;
  max_session_time_ms : Z;
}.

Definition SessionLimits_default : SessionLimits :=
  mkSessionLimits default_max_nonce default_max_session_time_ms.

Record DHCryptoSuite := mkDHCryptoSuite {
  suite_handshake_ephemeral : HandshakeEphemeral;
  suite_base : CryptoSuite;
}.

(** [StaticKeys]; the pointers are never null. *)
Record StaticKeys := mkStaticKeys {
  static_public_key : BufferBase;
  static_private_key : BufferBase;
}.

Record KeyRecord := mkKeyRecord { kr_id : Z; kr_key : option BufferBase }.

Definition KeyRecord_create_key (key : bytes) : option BufferBase :=
  if negb (zlen key =? symmetric_key_length) then None
  else Some (set_length (buffer_store buffer_empty key) length_32).

Definition KeyRecord_new (id : Z) (key : bytes) : KeyRecord :=
  mkKeyRecord id (KeyRecord_create_key key).

(** ** The interfaces *)

(** [IInitiatorHandshake]; [InitResult] is [Some (mode_ephemeral, mode_data)] on
    success. *)
Record initiator_handshake (H : Type) := InitiatorHandshake {
  ih_initialize_new_handshake : nat -> H -> outcome (option (bytes * bytes) * H);
  ih_finalize_request_tx : H -> bytes -> Z -> outcome H;
  ih_initialize_session :
    H -> ReplyHandshakeBegin -> bytes -> SessionLimits -> Z -> Session -> SessionStatistics ->
    outcome (bool * H * Session * SessionStatistics);
  ih_get_handshake_mode : H -> HandshakeMode;
  ih_get_crypto_suite : H -> DHCryptoSuite;
}.
Arguments InitiatorHandshake {H} _ _ _ _ _.
Arguments ih_initialize_new_handshake {H} _ _ _.
Arguments ih_finalize_request_tx {H} _ _ _ _.
Arguments ih_initialize_session {H} _ _ _ _ _ _ _ _.
Arguments ih_get_handshake_mode {H} _ _.
Arguments ih_get_crypto_suite {H} _ _.

(** [IResponderHandshake]; [Result] is an error or the reply data. *)
Record responder_handshake (H W : Type) := ResponderHandshake {
  rh_process :
    H -> nat -> RequestHandshakeBegin -> bytes -> Z -> W -> Session -> SessionStatistics ->
    outcome ((HandshakeError + bytes) * H * W * Session * SessionStatistics);
}.
Arguments ResponderHandshake {H W} _.
Arguments rh_process {H W} _ _ _ _ _ _ _ _ _.

Section Definitions.
Context `{SER : Ser4cpp} {W : Type} (fw : frame_writer W) (c : CryptoState).

(** [HandshakeHasher::compute] *)
Definition HandshakeHasher_compute (hash : list bytes -> BufferBase -> outcome BufferBase)
    (first second : bytes) : outcome bytes :=
  let* value := hash [first] buffer_empty in
  let* value := hash [as_seq value; second] value in
  Done (as_seq value).

(** [TripleDH::compute]; the three results or the error. *)
Definition TripleDH_compute (dh : BufferBase -> bytes -> BufferBase -> outcome (error_code + BufferBase))
    (static_keys : StaticKeys) (ephemeral_keys : KeyPair)
    (remote_public_static remote_public_ephemeral : bytes)
  : outcome (error_code + bytes * bytes * bytes) :=
  let* r1 := dh (private_key ephemeral_keys) remote_public_ephemeral buffer_empty in
  match r1 with
  | inl ec => Done (inl ec)
  | inr dh1 =>
      let* r2 := dh (private_key ephemeral_keys) remote_public_static buffer_empty in
      match r2 with
      | inl ec => Done (inl ec)
      | inr dh2 =>
          let* r3 := dh (static_private_key static_keys) remote_public_ephemeral buffer_empty in
          match r3 with
          | inl ec => Done (inl ec)
          | inr dh3 => Done (inr (as_seq dh1, as_seq dh2, as_seq dh3))
          end
      end
  end.

(** The end of each [initialize_session]: estimate when the session started
    and initialize it. *)
Definition start_initiator_session (algorithms : Algorithms_Common) (time_request_tx : Z)
    (limits : SessionLimits) (now : Z) (session_keys : SessionKeys) (session : Session)
    (st : SessionStatistics) : bool * Session * SessionStatistics :=
  if now <? time_request_tx then (false, session, st)
  else
    let elapsed_ms := now - time_request_tx in
    let session_start_time := now - Z.quot elapsed_ms 2 in
    Session_initialize session st (alg_session algorithms)
      (mkParam session_start_time (max_nonce_value limits) (ms (max_session_time_ms limits)))
      session_keys.

(** The end of each [process]: the result of [session.initialize] is not used. *)
Definition start_responder_session (algorithms : Algorithms_Common) (msg : RequestHandshakeBegin)
    (now : Z) (session_keys : SessionKeys) (session : Session) (st : SessionStatistics)
  : Session * SessionStatistics :=
  let '(_, session, st) :=
    Session_initialize session st (alg_session algorithms)
      (mkParam now (sc_max_nonce (req_constraints msg))
         (ms (sc_max_session_duration (req_constraints msg))))
      session_keys in
  (session, st).

(** ** Initiator, shared secret *)

Record SharedSecretInitiatorHandshake := mkSharedSecretInitiator {
  ssi_crypto_suite : CryptoSuite;
  ssi_algorithms : Algorithms_Common;
  ssi_key : BufferBase;
  ssi_nonce_buffer : bytes;
  ssi_time_request_tx : Z;
  ssi_handshake_hash : BufferBase;
}.

Definition SharedSecretInitiator_new (crypto_suite : CryptoSuite) (key : BufferBase)
  : outcome SharedSecretInitiatorHandshake :=
  let* algorithms := Algorithms_Common_get_or_throw c crypto_suite in
  Done (mkSharedSecretInitiator crypto_suite algorithms key (replicate 32 0) 0 buffer_empty).

Definition SharedSecretInitiator_initialize_new_handshake (draw : nat)
    (h : SharedSecretInitiatorHandshake)
  : outcome (option (bytes * bytes) * SharedSecretInitiatorHandshake) :=
  let* nonce := Crypto_gen_random c draw (ssi_nonce_buffer h) in
  let h := mkSharedSecretInitiator (ssi_crypto_suite h) (ssi_algorithms h) (ssi_key h) nonce
             (ssi_time_request_tx h) (ssi_handshake_hash h) in
  Done (Some (ssi_nonce_buffer h, []), h).

Definition SharedSecretInitiator_finalize_request_tx (h : SharedSecretInitiatorHandshake)
    (request_data : bytes) (now : Z) : outcome SharedSecretInitiatorHandshake :=
  let* hash := alg_hash (alg_handshake (ssi_algorithms h)) [request_data] (ssi_handshake_hash h) in
  Done (mkSharedSecretInitiator (ssi_crypto_suite h) (ssi_algorithms h) (ssi_key h)
          (ssi_nonce_buffer h) now hash).

Definition SharedSecretInitiator_mix_handshake_hash (h : SharedSecretInitiatorHandshake)
    (input : bytes) : outcome (bytes * SharedSecretInitiatorHandshake) :=
  let* hash := alg_hash (alg_handshake (ssi_algorithms h)) [as_seq (ssi_handshake_hash h); input]
                 (ssi_handshake_hash h) in
  Done (as_seq hash,
        mkSharedSecretInitiator (ssi_crypto_suite h) (ssi_algorithms h) (ssi_key h)
          (ssi_nonce_buffer h) (ssi_time_request_tx h) hash).

Definition SharedSecretInitiator_initialize_session (h : SharedSecretInitiatorHandshake)
    (msg : ReplyHandshakeBegin) (reply_data : bytes) (limits : SessionLimits) (now : Z)
    (session : Session) (st : SessionStatistics)
  : outcome (bool * SharedSecretInitiatorHandshake * Session * SessionStatistics) :=
  if negb (zlen (rep_mode_ephemeral msg) =? nonce_length) then Done (false, h, session, st)
  else if negb (is_nil (rep_mode_data msg)) then Done (false, h, session, st)
  else
    let* '(salt, h) := SharedSecretInitiator_mix_handshake_hash h reply_data in
    let* '(tx, rx) :=
      alg_kdf (alg_handshake (ssi_algorithms h)) salt
        [as_seq (ssi_key h); ssi_nonce_buffer h; rep_mode_ephemeral msg]
        buffer_empty buffer_empty in
    let '(ok, session, st) :=
      start_initiator_session (ssi_algorithms h) (ssi_time_request_tx h) limits now
        (mkSessionKeys rx tx) session st in
    Done (ok, h, session, st).

Definition SharedSecretInitiator : initiator_handshake SharedSecretInitiatorHandshake :=
  InitiatorHandshake
    SharedSecretInitiator_initialize_new_handshake
    SharedSecretInitiator_finalize_request_tx
    SharedSecretInitiator_initialize_session
    (fun _ => HandshakeMode_shared_secret)
    (fun h => mkDHCryptoSuite HandshakeEphemeral_nonce (ssi_crypto_suite h)).

(** ** Initiator, quantum key distribution *)

Section QKDInitiator.
(** [IKeySource]: the state behind it and [consume_key]. *)
Context {K : Type} (consume_key : K -> option KeyRecord * K).

Record QKDInitiatorHandshake := mkQKDInitiator {
  qi_crypto_suite : CryptoSuite;
  qi_algorithms : Algorithms_Common;
  qi_key_source : K;
  qi_key : option BufferBase;
  qi_key_id_buffer : bytes;
  qi_time_request_tx : Z;
  qi_handshake_hash : BufferBase;
}.

Definition QKDInitiator_new (crypto_suite : CryptoSuite) (key_source : K)
  : outcome QKDInitiatorHandshake :=
  let* algorithms := Algorithms_Common_get_or_throw c crypto_suite in
  Done (mkQKDInitiator crypto_suite algorithms key_source None (replicate 8 0) 0 buffer_empty).

Definition QKDInitiator_initialize_new_handshake (draw : nat) (h : QKDInitiatorHandshake)
  : outcome (option (bytes * bytes) * QKDInitiatorHandshake) :=
  let '(record, source) := consume_key (qi_key_source h) in
  let with_key key id_buffer :=
    mkQKDInitiator (qi_crypto_suite h) (qi_algorithms h) source key id_buffer
      (qi_time_request_tx h) (qi_handshake_hash h) in
  match record with
  | None => Done (None, with_key None (qi_key_id_buffer h))
  | Some record =>
      match kr_key record with
      | None => Done (None, with_key None (qi_key_id_buffer h))
      | Some key =>
          let id_buffer :=
            match BigEndian_write (WSeq (qi_key_id_buffer h) 0) [(UInt64, kr_id record)] with
            | Some dest => w_buf dest
            | None => qi_key_id_buffer h
            end in
          Done (Some ([], id_buffer), with_key (Some key) id_buffer)
      end
  end.

Definition QKDInitiator_finalize_request_tx (h : QKDInitiatorHandshake) (request_data : bytes)
    (now : Z) : outcome QKDInitiatorHandshake :=
  let* hash := alg_hash (alg_handshake (qi_algorithms h)) [request_data] (qi_handshake_hash h) in
  Done (mkQKDInitiator (qi_crypto_suite h) (qi_algorithms h) (qi_key_source h) (qi_key h)
          (qi_key_id_buffer h) now hash).

Definition QKDInitiator_mix_handshake_hash (h : QKDInitiatorHandshake) (input : bytes)
  : outcome (bytes * QKDInitiatorHandshake) :=
  let* hash := alg_hash (alg_handshake (qi_algorithms h)) [as_seq (qi_handshake_hash h); input]
                 (qi_handshake_hash h) in
  Done (as_seq hash,
        mkQKDInitiator (qi_crypto_suite h) (qi_algorithms h) (qi_key_source h) (qi_key h)
          (qi_key_id_buffer h) (qi_time_request_tx h) hash).

Definition QKDInitiator_initialize_session (h : QKDInitiatorHandshake) (msg : ReplyHandshakeBegin)
    (reply_data : bytes) (limits : SessionLimits) (now : Z) (session : Session)
    (st : SessionStatistics)
  : outcome (bool * QKDInitiatorHandshake * Session * SessionStatistics) :=
  match qi_key h with
  | None => Done (false, h, session, st)
  | Some key =>
      if negb (is_nil (rep_mode_ephemeral msg)) then Done (false, h, session, st)
      else if negb (is_nil (rep_mode_data msg)) then Done (false, h, session, st)
      else
        let* '(salt, h) := QKDInitiator_mix_handshake_hash h reply_data in
        let* '(tx, rx) :=
          alg_kdf (alg_handshake (qi_algorithms h)) salt [as_seq key] buffer_empty buffer_empty in
        let '(ok, session, st) :=
          start_initiator_session (qi_algorithms h) (qi_time_request_tx h) limits now
            (mkSessionKeys rx tx) session st in
        Done (ok, h, session, st)
  end.

Definition QKDInitiator : initiator_handshake QKDInitiatorHandshake :=
  InitiatorHandshake
    QKDInitiator_initialize_new_handshake
    QKDInitiator_finalize_request_tx
    QKDInitiator_initialize_session
    (fun _ => HandshakeMode_quantum_key_distribution)
    (fun h => mkDHCryptoSuite HandshakeEphemeral_none (qi_crypto_suite h)).
End QKDInitiator.

(** ** Initiator, public keys *)

Record PublicKeyInitiatorHandshake := mkPublicKeyInitiator {
  pki_static_keys : StaticKeys;
  pki_crypto_suite : DHCryptoSuite;
  pki_algorithms : Algorithms_Common;
  pki_dh_algorithms : Algorithms_DH;
  pki_cert_handler : ICertificateHandler;
  pki_local_ephemeral_keys : KeyPair;
  pki_time_request_tx : Z;
  pki_handshake_hash : BufferBase;
}.

Definition PublicKeyInitiator_new (static_keys : StaticKeys) (crypto_suite : DHCryptoSuite)
    (cert_handler : ICertificateHandler) : outcome PublicKeyInitiatorHandshake :=
  let* algorithms := Algorithms_Common_get_or_throw c (suite_base crypto_suite) in
  let* dh_algorithms := Algorithms_DH_get_or_throw c (suite_handshake_ephemeral crypto_suite) in
  Done (mkPublicKeyInitiator static_keys crypto_suite algorithms dh_algorithms cert_handler
          (mkKeyPair buffer_empty buffer_empty) 0 buffer_empty).

Definition PublicKeyInitiator_initialize_new_handshake (draw : nat) (h : PublicKeyInitiatorHandshake)
  : outcome (option (bytes * bytes) * PublicKeyInitiatorHandshake) :=
  let* keys := alg_gen_key_pair (pki_dh_algorithms h) draw (pki_local_ephemeral_keys h) in
  Done (Some (as_seq (public_key keys), certificate_data (pki_cert_handler h)),
        mkPublicKeyInitiator (pki_static_keys h) (pki_crypto_suite h) (pki_algorithms h)
          (pki_dh_algorithms h) (pki_cert_handler h) keys (pki_time_request_tx h)
          (pki_handshake_hash h)).

Definition PublicKeyInitiator_finalize_request_tx (h : PublicKeyInitiatorHandshake)
    (request_data : bytes) (now : Z) : outcome PublicKeyInitiatorHandshake :=
  let* hash := alg_hash (alg_handshake (pki_algorithms h)) [request_data] (pki_handshake_hash h) in
  Done (mkPublicKeyInitiator (pki_static_keys h) (pki_crypto_suite h) (pki_algorithms h)
          (pki_dh_algorithms h) (pki_cert_handler h) (pki_local_ephemeral_keys h) now hash).

Definition PublicKeyInitiator_mix_handshake_hash (h : PublicKeyInitiatorHandshake) (input : bytes)
  : outcome (bytes * PublicKeyInitiatorHandshake) :=
  let* hash := alg_hash (alg_handshake (pki_algorithms h)) [as_seq (pki_handshake_hash h); input]
                 (pki_handshake_hash h) in
  Done (as_seq hash,
        mkPublicKeyInitiator (pki_static_keys h) (pki_crypto_suite h) (pki_algorithms h)
          (pki_dh_algorithms h) (pki_cert_handler h) (pki_local_ephemeral_keys h)
          (pki_time_request_tx h) hash).

Definition PublicKeyInitiator_initialize_session (h : PublicKeyInitiatorHandshake)
    (msg : ReplyHandshakeBegin) (msg_bytes : bytes) (limits : SessionLimits) (now : Z)
    (session : Session) (st : SessionStatistics)
  : outcome (bool * PublicKeyInitiatorHandshake * Session * SessionStatistics) :=
  let* res := handler_validate (pki_cert_handler h) (handler_mode (pki_cert_handler h))
                (rep_mode_data msg) in
  match res with
  | inl _ => Done (false, h, session, st)
  | inr remote_public_key =>
      let* '(salt, h) := PublicKeyInitiator_mix_handshake_hash h msg_bytes in
      let* ikm := TripleDH_compute (alg_dh (pki_dh_algorithms h)) (pki_static_keys h)
                    (pki_local_ephemeral_keys h) remote_public_key (rep_mode_ephemeral msg) in
      match ikm with
      | inl _ => Done (false, h, session, st)
      | inr (dh1, dh2, dh3) =>
          let* '(tx, rx) :=
            alg_kdf (alg_handshake (pki_algorithms h)) salt [dh1; dh3; dh2]
              buffer_empty buffer_empty in
          let '(ok, session, st) :=
            start_initiator_session (pki_algorithms h) (pki_time_request_tx h) limits now
              (mkSessionKeys rx tx) session st in
          Done (ok, h, session, st)
      end
  end.

Definition PublicKeyInitiator : initiator_handshake PublicKeyInitiatorHandshake :=
  InitiatorHandshake
    PublicKeyInitiator_initialize_new_handshake
    PublicKeyInitiator_finalize_request_tx
    PublicKeyInitiator_initialize_session
    (fun h => handler_mode (pki_cert_handler h))
    (fun h => pki_crypto_suite h).

(** ** Responder, shared secret *)

(** The state of the handshake is its key. *)
Definition SharedSecretResponder_process (key : BufferBase) (draw : nat)
    (msg : RequestHandshakeBegin) (msg_bytes : bytes) (now : Z) (writer : W) (session : Session)
    (st : SessionStatistics)
  : outcome ((HandshakeError + bytes) * BufferBase * W * Session * SessionStatistics) :=
  let failure err writer := Done (inl err, key, writer, session, st) in
  if negb (zlen (req_mode_ephemeral msg) =? nonce_length)
  then failure HandshakeError_bad_message_format writer
  else if negb (is_nil (req_mode_data msg))
  then failure HandshakeError_bad_message_format writer
  else
    let '(err, algorithms) := Algorithms_Common_configure c (Algorithms_Common_default c) (req_spec msg) in
    if any_HandshakeError err then failure err writer
    else
      let* nonce := Crypto_gen_random c draw (replicate 32 0) in
      let reply := mkReplyHandshakeBegin version_get nonce [] in
      let '(result, writer) := fw_write fw writer (message_writable ReplyHandshakeBegin_message reply) in
      if any_FormatError (wr_err result) then failure HandshakeError_unknown writer
      else
        let* handshake_hash :=
          HandshakeHasher_compute (alg_hash (alg_handshake algorithms)) msg_bytes (wr_written result) in
        let* '(rx, tx) :=
          alg_kdf (alg_handshake algorithms) handshake_hash
            [as_seq key; req_mode_ephemeral msg; nonce] buffer_empty buffer_empty in
        let '(session, st) :=
          start_responder_session algorithms msg now (mkSessionKeys rx tx) session st in
        Done (inr (wr_frame result), key, writer, session, st).

Definition SharedSecretResponder : responder_handshake BufferBase W :=
  ResponderHandshake SharedSecretResponder_process.

(** ** Responder, quantum key distribution *)

Section QKDResponder.
(** [IKeyLookup]: the state behind it and [find_and_consume_key]. *)
Context {L : Type} (find_and_consume_key : L -> Z -> option BufferBase * L).

Definition QKDResponder_process (lookup : L) (draw : nat)
    (msg : RequestHandshakeBegin) (msg_bytes : bytes) (now : Z) (writer : W) (session : Session)
    (st : SessionStatistics)
  : outcome ((HandshakeError + bytes) * L * W * Session * SessionStatistics) :=
  let failure err lookup writer := Done (inl err, lookup, writer, session, st) in
  if negb (is_nil (req_mode_ephemeral msg))
  then failure HandshakeError_bad_message_format lookup writer
  else
    let '(err, algorithms) := Algorithms_Common_configure c (Algorithms_Common_default c) (req_spec msg) in
    if any_HandshakeError err then failure err lookup writer
    else
      match BigEndian_read [UInt64] (req_mode_data msg) with
      | Some ([key_id], []) =>
          let '(shared_secret, lookup) := find_and_consume_key lookup key_id in
          match shared_secret with
          | None => failure HandshakeError_key_not_found lookup writer
          | Some shared_secret =>
              let '(err, algorithms) := Algorithms_Common_configure c algorithms (req_spec msg) in
              if any_HandshakeError err then failure err lookup writer
              else
                let reply := mkReplyHandshakeBegin version_get [] [] in
                let '(result, writer) :=
                  fw_write fw writer (message_writable ReplyHandshakeBegin_message reply) in
                if any_FormatError (wr_err result) then failure HandshakeError_unknown lookup writer
                else
                  let* handshake_hash :=
                    HandshakeHasher_compute (alg_hash (alg_handshake algorithms)) msg_bytes
                      (wr_written result) in
                  let* '(rx, tx) :=
                    alg_kdf (alg_handshake algorithms) handshake_hash [as_seq shared_secret]
                      buffer_empty buffer_empty in
                  let '(session, st) :=
                    start_responder_session algorithms msg now (mkSessionKeys rx tx) session st in
                  Done (inr (wr_frame result), lookup, writer, session, st)
          end
      | _ => failure HandshakeError_bad_message_format lookup writer
      end.

Definition QKDResponder : responder_handshake L W := ResponderHandshake QKDResponder_process.
End QKDResponder.

(** ** Responder, public keys *)

Record PublicKeyResponderHandshake := mkPublicKeyResponder {
  pkr_static_keys : StaticKeys;
  pkr_cert_handler : ICertificateHandler;
}.

Definition PublicKeyResponder_process (h : PublicKeyResponderHandshake) (draw : nat)
    (msg : RequestHandshakeBegin) (msg_bytes : bytes) (now : Z) (writer : W) (session : Session)
    (st : SessionStatistics)
  : outcome ((HandshakeError + bytes) * PublicKeyResponderHandshake * W * Session * SessionStatistics) :=
  let failure err writer := Done (inl err, h, writer, session, st) in
  let '(err, algorithms) := Algorithms_Common_configure c (Algorithms_Common_default c) (req_spec msg) in
  if any_HandshakeError err then failure err writer
  else
    let '(err, dh_algorithms) :=
      Algorithms_DH_configure c (Algorithms_DH_default c) (cs_handshake_ephemeral (req_spec msg)) in
    if any_HandshakeError err then failure err writer
    else if negb (zlen (req_mode_ephemeral msg) =? x25519_key_length)
    then failure HandshakeError_bad_message_format writer
    else
      let* res := handler_validate (pkr_cert_handler h) (req_handshake_mode msg) (req_mode_data msg) in
      match res with
      | inl err => failure err writer
      | inr remote_public_static_key =>
          let* ephemeralKeys :=
            alg_gen_key_pair dh_algorithms draw (mkKeyPair buffer_empty buffer_empty) in
          let reply :=
            mkReplyHandshakeBegin version_get (as_seq (public_key ephemeralKeys))
              (certificate_data (pkr_cert_handler h)) in
          let '(result, writer) :=
            fw_write fw writer (message_writable ReplyHandshakeBegin_message reply) in
          if any_FormatError (wr_err result) then failure HandshakeError_unknown writer
          else
            let* handshake_hash :=
              HandshakeHasher_compute (alg_hash (alg_handshake algorithms)) msg_bytes
                (wr_written result) in
            let* ikm :=
              TripleDH_compute (alg_dh dh_algorithms) (pkr_static_keys h) ephemeralKeys
                remote_public_static_key (req_mode_ephemeral msg) in
            match ikm with
            | inl _ => failure HandshakeError_unknown writer
            | inr (dh1, dh2, dh3) =>
                let* '(rx, tx) :=
                  alg_kdf (alg_handshake algorithms) handshake_hash [dh1; dh2; dh3]
                    buffer_empty buffer_empty in
                let '(session, st) :=
                  start_responder_session algorithms msg now (mkSessionKeys rx tx) session st in
                Done (inr (wr_frame result), h, writer, session, st)
            end
      end.

Definition PublicKeyResponder : responder_handshake PublicKeyResponderHandshake W :=
  ResponderHandshake PublicKeyResponder_process.

(** The request that [Idle::on_handshake_required] builds. *)
Definition make_request (suite : DHCryptoSuite) (limits : SessionLimits) (mode : HandshakeMode)
    (mode_ephemeral mode_data : bytes) : RequestHandshakeBegin :=
  mkRequestHandshakeBegin version_get
    (mkCryptoSpec (suite_handshake_ephemeral suite) (suite_handshake_hash (suite_base suite))
       (suite_handshake_kdf (suite_base suite)) (suite_session_nonce_mode (suite_base suite))
       (suite_session_crypto_mode (suite_base suite)))
    (mkSessionConstraints (max_nonce_value limits) (max_session_time_ms limits))
    mode mode_ephemeral mode_data.
End Definitions.

(** ** Failed handshakes *)

(** Takes a computation that ended in [Done] apart. *)
Ltac done_cases :=
  repeat match goal with
  | H : Done _ = Done _ |- _ => injection H; clear H; intros; subst
  | H : inl _ = inl _ |- _ => injection H; clear H; intros; subst
  | H : obind _ _ = Done _ |- _ => apply obind_done in H as (?&?&H)
  | H : context [match ?x with _ => _ end] |- _ => destruct x eqn:?; cbv beta iota in H
  end; try done.

Section Failures.
Context `{SER : Ser4cpp} {W : Type} (fw : frame_writer W) (c : CryptoState).

Lemma start_initiator_session_false alg t limits now keys s st s' st' :
  start_initiator_session alg t limits now keys s st = (false, s', st') -> s' = s /\ st' = st.
Proof.
  unfold start_initiator_session, Session_initialize. case_ifs; intros H; by simplify_eq.
Qed.

Lemma start_initiator_session_true alg t limits now keys s st s' st' :
  start_initiator_session alg t limits now keys s st = (true, s', st') ->
  SessionKeys_valid keys = true /\ s_valid s' = true /\
  t <= session_start (s_parameters s') <= now /\ s_rx_nonce s' = 0 /\ s_tx_nonce s' = 0 /\
  max_nonce (s_parameters s') = max_nonce_value limits /\
  max_session_time (s_parameters s') = ms (max_session_time_ms limits).
Proof.
  unfold start_initiator_session, Session_initialize.
  destruct (now <? t) eqn:E; [done|]. btests.
  destruct (SessionKeys_valid keys); simpl; [|done]. intros [= <- <-]. simpl.
  pose proof (Z.quot_pos (now - t) 2). pose proof (Z.quot_le_upper_bound (now - t) 2 (now - t)).
  repeat split; try done; lia.
Qed.

(** What an initiator handshake guarantees about the session, whatever the
    other side sent: it is untouched on failure; on success it is valid and
    fresh, has the limits of the initiator, and the estimate of its start lies
    between the request and the reply. *)
Definition initiator_session_safe {H} (ih : initiator_handshake H) (sent_at : H -> Z) : Prop :=
  forall h msg data limits now s st ok h' s' st',
    ih_initialize_session ih h msg data limits now s st = Done (ok, h', s', st') ->
    if ok
    then s_valid s' = true /\ s_rx_nonce s' = 0 /\ s_tx_nonce s' = 0 /\
         sent_at h <= session_start (s_parameters s') <= now /\
         max_nonce (s_parameters s') = max_nonce_value limits /\
         max_session_time (s_parameters s') = ms (max_session_time_ms limits)
    else s' = s /\ st' = st.

(** A responder handshake that fails leaves the session as it was. *)
Definition responder_session_safe {H} (rh : responder_handshake H W) : Prop :=
  forall h draw msg data now w s st err h' w' s' st',
    rh_process rh h draw msg data now w s st = Done (inl err, h', w', s', st') -> s' = s /\ st' = st.

Ltac session_cases :=
  match goal with
  | H : start_initiator_session _ _ _ _ _ _ _ = (?ok, _, _) |- _ =>
      destruct ok;
      [apply start_initiator_session_true in H; tauto|by apply start_initiator_session_false in H]
  end.

Lemma shared_initiator_safe : initiator_session_safe (SharedSecretInitiator c) ssi_time_request_tx.
Proof.
  intros h msg data limits now s st ok h' s' st' H. cbn [ih_initialize_session SharedSecretInitiator] in H.
  unfold SharedSecretInitiator_initialize_session, SharedSecretInitiator_mix_handshake_hash in H.
  done_cases. simpl in *. session_cases.
Qed.

Lemma qkd_initiator_safe {K} (consume_key : K -> option KeyRecord * K) :
  initiator_session_safe (QKDInitiator consume_key) qi_time_request_tx.
Proof.
  intros h msg data limits now s st ok h' s' st' H. cbn [ih_initialize_session QKDInitiator] in H.
  unfold QKDInitiator_initialize_session, QKDInitiator_mix_handshake_hash in H.
  done_cases. simpl in *. session_cases.
Qed.

Lemma public_initiator_safe : initiator_session_safe PublicKeyInitiator pki_time_request_tx.
Proof.
  intros h msg data limits now s st ok h' s' st' H. cbn [ih_initialize_session PublicKeyInitiator] in H.
  unfold PublicKeyInitiator_initialize_session, PublicKeyInitiator_mix_handshake_hash in H.
  done_cases. simpl in *. session_cases.
Qed.

Lemma shared_responder_safe : responder_session_safe (SharedSecretResponder fw c).
Proof.
  intros h draw msg data now w s st err h' w' s' st' H.
  cbn [rh_process SharedSecretResponder] in H. unfold SharedSecretResponder_process in H. done_cases.
Qed.

Lemma qkd_responder_safe {L} (find : L -> Z -> option BufferBase * L) :
  responder_session_safe (QKDResponder fw c find).
Proof.
  intros h draw msg data now w s st err h' w' s' st' H.
  cbn [rh_process QKDResponder] in H. unfold QKDResponder_process in H. done_cases.
Qed.

Lemma public_responder_safe : responder_session_safe (PublicKeyResponder fw c).
Proof.
  intros h draw msg data now w s st err h' w' s' st' H.
  cbn [rh_process PublicKeyResponder] in H. unfold PublicKeyResponder_process in H. done_cases.
Qed.

(** C29: No handshake message can damage a session: in all three modes, whatever
    the peer sent, a handshake that fails leaves the session and the statistics
    exactly as they were, on either side; and an initiator handshake that succeeds
    leaves a valid session with both nonces 0, the limits the initiator asked
    for, and a start time between the transmission of the request and the
    reception of the reply. *)
Theorem handshake_sessions_safe {K L} (consume_key : K -> option KeyRecord * K)
    (find_and_consume_key : L -> Z -> option BufferBase * L) :
  initiator_session_safe (SharedSecretInitiator c) ssi_time_request_tx /\
  initiator_session_safe (QKDInitiator consume_key) qi_time_request_tx /\
  initiator_session_safe PublicKeyInitiator pki_time_request_tx /\
  responder_session_safe (SharedSecretResponder fw c) /\
  responder_session_safe (QKDResponder fw c find_and_consume_key) /\
  responder_session_safe (PublicKeyResponder fw c).
Proof.
  split; [apply shared_initiator_safe|]. split; [apply qkd_initiator_safe|].
  split; [apply public_initiator_safe|]. split; [apply shared_responder_safe|].
  split; [apply qkd_responder_safe|apply public_responder_safe].
Qed.
End Failures.

(** ** Key agreement *)

(** What the handshakes rely on besides [BackendOk]: the key derivation is a
    function of the salt and the concatenated input, random bytes are bytes,
    and the Diffie-Hellman function commutes and succeeds on public keys that
    belong to a private key. *)
Class HandshakeBackendOk (c : CryptoState) := {
  hkdf : bytes -> bytes -> bytes * bytes;
  x25519_base : bytes -> bytes;
  x25519 : bytes -> bytes -> option bytes;
  bk_hkdf f salt ikm k1 k2 :
    be_hkdf_sha256 (backend c) = Some f ->
    f salt ikm k1 k2 =
      Done (set_length (buffer_store k1 (hkdf salt (concat ikm)).1) length_32,
            set_length (buffer_store k2 (hkdf salt (concat ikm)).2) length_32);
  hkdf_length salt ikm :
    zlen (hkdf salt ikm).1 = symmetric_key_length /\ zlen (hkdf salt ikm).2 = symmetric_key_length;
  bk_random_some : is_some (be_gen_random (backend c)) = true;
  bk_random f draw dest :
    be_gen_random (backend c) = Some f -> zlen (f draw dest) = zlen dest /\ all_bytes (f draw dest);
  bk_keypair f draw pair :
    be_gen_keypair_x25519 (backend c) = Some f ->
    buffer_ok (public_key pair) -> buffer_ok (private_key pair) ->
    buffer_ok (public_key (f draw pair)) /\ buffer_ok (private_key (f draw pair)) /\
    buf_length (public_key (f draw pair)) = length_32 /\
    buf_length (private_key (f draw pair)) = length_32 /\
    as_seq (public_key (f draw pair)) = x25519_base (as_seq (private_key (f draw pair)));
  bk_dh f key pub out :
    be_dh_x25519 (backend c) = Some f ->
    zlen (as_seq key) = x25519_key_length -> zlen pub = x25519_key_length ->
    f key pub out =
      match x25519 (as_seq key) pub with
      | Some secret => Done (inr (set_length (buffer_store out secret) length_32))
      | None => Done (inl (EC_crypto CryptoError_dh_x25519_fail))
      end;
  x25519_base_length key : zlen (x25519_base key) = x25519_key_length;
  x25519_base_bytes key : all_bytes (x25519_base key);
  x25519_length key pub secret : x25519 key pub = Some secret -> zlen secret = x25519_key_length;
  x25519_commutes a b :
    zlen a = x25519_key_length -> zlen b = x25519_key_length ->
    x25519 a (x25519_base b) = x25519 b (x25519_base a);
  x25519_honest a b :
    zlen a = x25519_key_length -> zlen b = x25519_key_length ->
    is_Some (x25519 a (x25519_base b));
}.

Section Agreement.
Context `{SER : Ser4cpp} (c : CryptoState) `{HB : !BackendOk c} `{HH : !HandshakeBackendOk c}.

(** The handshake hash of the two messages, the salt of both derivations. *)
Definition transcript (request reply : bytes) : bytes := sha256 (sha256 request ++ reply).

Lemma random_done draw dest :
  exists r, Crypto_gen_random c draw dest = Done r /\ zlen r = zlen dest /\ all_bytes r.
Proof.
  unfold Crypto_gen_random, check_initialized. rewrite (bk_initialized (c := c)). simpl.
  pose proof (bk_random_some (c := c)) as Hs.
  destruct (be_gen_random (backend c)) as [f|] eqn:E; [|done]. simpl. eexists. split; [done|].
  by apply (bk_random (c := c) f).
Qed.

Lemma hkdf_done salt ikm k1 k2 :
  supports_sha256 c = true ->
  Crypto_hkdf_sha256 c salt ikm k1 k2 =
    Done (set_length (buffer_store k1 (hkdf salt (concat ikm)).1) length_32,
          set_length (buffer_store k2 (hkdf salt (concat ikm)).2) length_32).
Proof.
  intros H. unfold Crypto_hkdf_sha256. rewrite (sha256_supported c) by done. simpl.
  unfold supports_sha256 in H. apply andb_prop in H as [H _]. apply andb_prop in H as [_ H].
  destruct (be_hkdf_sha256 (backend c)) as [f|] eqn:E; [|done].
  simpl. exact (bk_hkdf (c := c) f salt ikm k1 k2 E).
Qed.

Lemma buffer_store_ok out data :
  buffer_ok out -> zlen data <= max_primitive_buffer_length ->
  forall len, buffer_ok (set_length (buffer_store out data) len).
Proof.
  unfold buffer_ok, set_length, buffer_store. simpl. intros Ho Hd len.
  rewrite overwrite_length; lia.
Qed.

Lemma hash_spec data out :
  supports_sha256 c = true -> buffer_ok out ->
  exists v, Crypto_hash_sha256 c data out = Done v /\ as_seq v = sha256 (concat data) /\ buffer_ok v.
Proof.
  intros Hs Ho. rewrite (hash_done c) by done. eexists. split; [done|]. split.
  - apply as_seq_stored; [done|apply sha256_length].
  - apply buffer_store_ok; [done|]. by rewrite sha256_length.
Qed.

Lemma hasher_done first second :
  supports_sha256 c = true ->
  HandshakeHasher_compute (Crypto_hash_sha256 c) first second = Done (transcript first second).
Proof.
  intros Hs. unfold HandshakeHasher_compute.
  destruct (hash_spec [first] buffer_empty Hs empty_ok) as (v&->&Ev&Hv). cbn [obind].
  destruct (hash_spec [as_seq v; second] v Hs Hv) as (v'&->&Ev'&_). cbn [obind].
  rewrite Ev', Ev. unfold transcript. cbn [concat]. by rewrite !app_nil_r.
Qed.

(** Keys from a derivation, ready for [Session::initialize]. *)
Lemma hkdf_keys salt ikm :
  supports_sha256 c = true ->
  exists k1 k2,
    Crypto_hkdf_sha256 c salt ikm buffer_empty buffer_empty = Done (k1, k2) /\
    buffer_ok k1 /\ buffer_ok k2 /\ buf_length k1 = length_32 /\ buf_length k2 = length_32 /\
    as_seq k1 = (hkdf salt (concat ikm)).1 /\ as_seq k2 = (hkdf salt (concat ikm)).2.
Proof.
  intros Hs. rewrite hkdf_done by done. pose proof (hkdf_length salt (concat ikm)) as [H1 H2].
  eexists _, _. split; [done|].
  split; [apply buffer_store_ok; [done|by rewrite H1]|].
  split; [apply buffer_store_ok; [done|by rewrite H2]|].
  split; [done|]. split; [done|].
  split; apply as_seq_stored; done.
Qed.

Context {W : Type} (fw : frame_writer W) (inv : W -> Prop) (frame : W -> bytes -> bytes).
Context `{HW : !FrameWriterOk fw inv frame}.

(** The two ends of one session. *)
Record mirrored (i r : Session) : Prop := {
  mirrored_ok : session_ok i /\ session_ok r;
  mirrored_valid : s_valid i = true /\ s_valid r = true;
  mirrored_nonces :
    s_rx_nonce i = 0 /\ s_tx_nonce i = 0 /\ s_rx_nonce r = 0 /\ s_tx_nonce r = 0;
  mirrored_keys :
    as_seq (tx_key (s_keys i)) = as_seq (rx_key (s_keys r)) /\
    as_seq (rx_key (s_keys i)) = as_seq (tx_key (s_keys r));
  mirrored_algorithms : s_algorithms i = s_algorithms r;
  mirrored_limits :
    max_nonce (s_parameters i) = max_nonce (s_parameters r) /\
    max_session_time (s_parameters i) = max_session_time (s_parameters r);
}.

Definition limits_ok (limits : SessionLimits) : Prop :=
  is_u16 (max_nonce_value limits) /\ is_u32 (max_session_time_ms limits).

(** A session that was initialized with the limits, with a start between two times;
    its time to live and its buffer are those it was made with. *)
Record started (limits : SessionLimits) (from until : Z) (s s' : Session) : Prop := {
  started_ttl : s_ttl_pad_ms s' = s_ttl_pad_ms s;
  started_buffer : s_encrypt_buffer s' = s_encrypt_buffer s;
  started_start : from <= session_start (s_parameters s') <= until;
  started_nonce : max_nonce (s_parameters s') = max_nonce_value limits;
  started_time : max_session_time (s_parameters s') = ms (max_session_time_ms limits);
}.

(** The session modes of the library that the backend supports. *)
Definition library_mode (m : SessionMode) : Prop :=
  supports_sha256 c = true /\ m = hmac_sha_256_trunc16 c \/
  supports_aes256_gcm c = true /\ m = aes_256_gcm c.

(** Both ends of a session that was negotiated at these times. *)
Definition established (limits : SessionLimits) (sent answered received : Z) (si sr si' sr' : Session) : Prop :=
  mirrored si' sr' /\ started limits sent received si si' /\ started limits answered answered sr sr' /\
  library_mode (session_mode (s_algorithms si')).

(** A frame writer after it wrote. *)
Definition writer_kept (w w' : W) : Prop :=
  inv w' /\ (forall b, frame w' b = frame w b) /\ fw_max_payload_size fw w' = fw_max_payload_size fw w.

(** The whole exchange ends with mirrored sessions: the initiator builds a
    request that the other side parses, the responder answers it with a reply
    that parses, and the initiator accepts the reply; the salt of the key
    derivation is the hash of both messages, and its input is related by [ikm] to
    the two ephemeral values.  The
    initiator's invariant [I] holds again. *)
Definition completes {HI HR} (ih : initiator_handshake HI) (rh : responder_handshake HR W)
    (I : HI -> Prop) (hi : HI) (hr : HR) (draw_i draw_r : nat) (limits : SessionLimits)
    (w : W) (ikm : bytes -> bytes -> bytes -> Prop) : Prop :=
  forall si sr st_i st_r sent answered received,
    session_ok si -> session_ok sr -> sent <= received ->
    exists ephemeral data hi1 hi2 hi3 reply hr' w' si' sr' st_i' st_r' material,
      let request := make_request (ih_get_crypto_suite ih hi) limits (ih_get_handshake_mode ih hi)
                       ephemeral data in
      let request_bytes := RequestHandshakeBegin_enc request in
      let reply_bytes := ReplyHandshakeBegin_enc reply in
      let keys := hkdf (transcript request_bytes reply_bytes) material in
      ikm ephemeral (rep_mode_ephemeral reply) material /\
      ih_initialize_new_handshake ih draw_i hi = Done (Some (ephemeral, data), hi1) /\
      (RequestHandshakeBegin_read request_bytes = inr request /\ RequestHandshakeBegin_ok request /\
       zlen request_bytes <= 64 + zlen data) /\
      ih_finalize_request_tx ih hi1 request_bytes sent = Done hi2 /\
      rh_process rh hr draw_r request request_bytes answered w sr st_r =
        Done (inr (frame w reply_bytes), hr', w', sr', st_r') /\
      writer_kept w w' /\
      (ReplyHandshakeBegin_read reply_bytes = inr reply /\ ReplyHandshakeBegin_ok reply /\
       zlen reply_bytes <= fw_max_payload_size fw w) /\
      ih_initialize_session ih hi2 reply reply_bytes limits received si st_i =
        Done (true, hi3, si', st_i') /\
      established limits sent answered received si sr si' sr' /\
      as_seq (tx_key (s_keys si')) = keys.1 /\ as_seq (rx_key (s_keys si')) = keys.2 /\
      I hi3.

(** *** Parts the three modes share *)

Lemma version_ok : Version_ok version_get.
Proof. split; by vm_compute. Qed.

Lemma reply_ok ephemeral data :
  all_bytes ephemeral -> zlen ephemeral <= max_u32 -> all_bytes data -> zlen data <= max_u32 ->
  ReplyHandshakeBegin_ok (mkReplyHandshakeBegin version_get ephemeral data).
Proof.
  intros. pose proof (zlen_nonneg ephemeral). pose proof (zlen_nonneg data).
  split; [apply version_ok|]. split; split; (done || (unfold is_u32; simpl; lia)).
Qed.

Lemma zlen_seq_field v : zlen v <= max_u32 -> zlen (SeqByteField_enc v) <= 5 + zlen v.
Proof.
  intros H. unfold SeqByteField_enc. rewrite zlen_app, <- VLength_size_enc.
  unfold VLength_size. pose proof (VLength_num_range (zlen v)). lia.
Qed.

Lemma reply_size ephemeral data :
  zlen ephemeral <= 32 -> zlen data <= max_u32 ->
  zlen (ReplyHandshakeBegin_enc (mkReplyHandshakeBegin version_get ephemeral data)) <= 47 + zlen data.
Proof.
  intros He Hd. unfold ReplyHandshakeBegin_enc, ReplyHandshakeBegin_body. cbn [concat rep_version rep_mode_ephemeral rep_mode_data].
  rewrite zlen_cons, !zlen_app, Version_enc_size, zlen_nil.
  pose proof (zlen_seq_field ephemeral). pose proof (zlen_seq_field data). unfold max_u32 in *. lia.
Qed.

Lemma reply_written w ephemeral data :
  inv w -> all_bytes ephemeral -> zlen ephemeral <= 32 -> all_bytes data ->
  zlen data <= max_u16 -> 47 + zlen data <= fw_max_payload_size fw w ->
  let reply := mkReplyHandshakeBegin version_get ephemeral data in
  exists w',
    fw_write fw w (message_writable ReplyHandshakeBegin_message reply) =
      (mkWriteResult FormatError_ok (ReplyHandshakeBegin_enc reply)
         (frame w (ReplyHandshakeBegin_enc reply)), w') /\
    writer_kept w w' /\
    (ReplyHandshakeBegin_read (ReplyHandshakeBegin_enc reply) = inr reply /\ ReplyHandshakeBegin_ok reply /\
     zlen (ReplyHandshakeBegin_enc reply) <= fw_max_payload_size fw w).
Proof.
  intros Hw Hbe He Hbd Hd Hfit reply.
  assert (ReplyHandshakeBegin_ok reply) as Hok
    by (apply reply_ok; (done || (unfold max_u32, max_u16 in *; lia))).
  pose proof (reply_size ephemeral data He ltac:(unfold max_u32, max_u16 in *; lia)) as Hs.
  fold reply in Hs.
  destruct (fw_fits (fw := fw) w (message_writable ReplyHandshakeBegin_message reply)
              (ReplyHandshakeBegin_enc reply)) as (w'&Hwr&Hw').
  - done.
  - apply message_is_writable with (ok := ReplyHandshakeBegin_ok); [apply _|done|].
    unfold max_u32, max_u16 in *. lia.
  - by apply (msg_bytes (m := ReplyHandshakeBegin_message)).
  - lia.
  - exists w'. split; [done|]. split; [done|]. split; [|split; [done|lia]].
    by apply (msg_read_enc (m := ReplyHandshakeBegin_message)).
Qed.

Lemma request_size suite limits mode ephemeral data :
  zlen ephemeral <= 32 -> zlen data <= max_u32 ->
  zlen (RequestHandshakeBegin_enc (make_request suite limits mode ephemeral data)) <= 64 + zlen data.
Proof.
  intros He Hd. unfold RequestHandshakeBegin_enc, RequestHandshakeBegin_body. cbn [make_request concat req_version req_spec req_constraints req_handshake_mode req_mode_ephemeral req_mode_data].
  rewrite zlen_cons, !zlen_app, Version_enc_size, CryptoSpec_enc_size, SessionConstraints_enc_size, zlen_nil.
  pose proof (zlen_seq_field ephemeral). pose proof (zlen_seq_field data). change (zlen [_]) with 1. unfold max_u32 in *. lia.
Qed.

Lemma request_reads suite limits mode ephemeral data :
  limits_ok limits ->
  CryptoSpec_ok (req_spec (make_request suite limits mode ephemeral data)) ->
  mode <> HandshakeMode_undefined ->
  all_bytes ephemeral -> zlen ephemeral <= 32 -> all_bytes data -> zlen data <= max_u16 ->
  let request := make_request suite limits mode ephemeral data in
  RequestHandshakeBegin_read (RequestHandshakeBegin_enc request) = inr request /\ RequestHandshakeBegin_ok request /\
  zlen (RequestHandshakeBegin_enc request) <= 64 + zlen data.
Proof.
  intros [Hn Ht] Hspec Hm Hbe He Hbd Hd request.
  assert (RequestHandshakeBegin_ok request) as Hok.
  { pose proof (zlen_nonneg ephemeral). pose proof (zlen_nonneg data).
    split; [apply version_ok|]. split; [exact Hspec|].
    split; [split; [by apply int_ok_u16|by apply int_ok_u32]|]. split; [done|].
    split; split; simpl; (done || (unfold is_u32, max_u32, max_u16 in *; lia)). }
  split; [by apply (msg_read_enc (m := RequestHandshakeBegin_message))|]. split; [done|].
  apply request_size; unfold max_u32, max_u16 in *; lia.
Qed.

(** The algorithms of a session that can be configured. *)
Definition negotiable (alg : Algorithms_Common) : Prop :=
  nonce_check (verify_nonce (alg_session alg)) /\ library_mode (session_mode (alg_session alg)).

Lemma suite_configured suite alg :
  Algorithms_Common_get_or_throw c suite = Done alg ->
  supports_sha256 c = true /\ alg_handshake alg = Algorithms_Handshake_default c /\
  negotiable alg /\
  forall ephemeral limits mode e d,
    let spec := req_spec (make_request (mkDHCryptoSuite ephemeral suite) limits mode e d) in
    (exists err, any_HandshakeError err = false /\
       forall this, Algorithms_Common_configure c this spec = (err, alg)) /\
    (ephemeral <> HandshakeEphemeral_undefined -> CryptoSpec_ok spec).
Proof.
  unfold Algorithms_Common_get_or_throw.
  destruct (Algorithms_Common_configure4 _ _ _ _ _ _) as [err ret] eqn:E.
  destruct (any_HandshakeError err) eqn:Ee; [done|]. intros [= <-].
  change (Algorithms_Common_configure c (Algorithms_Common_default c)
            (mkCryptoSpec HandshakeEphemeral_none (suite_handshake_hash suite)
               (suite_handshake_kdf suite) (suite_session_nonce_mode suite)
               (suite_session_crypto_mode suite)) = (err, ret)) in E.
  pose proof (configure_facts c _ _ _ _ E) as F. rewrite Ee in F. simpl in F.
  destruct F as (Hh&Hk&Hs&Ha&Hn&Hm).
  split; [done|]. split; [done|]. split; [unfold negotiable, nonce_check, library_mode; tauto|].
  intros ephemeral limits mode e d. split.
  - exists err. split; [done|]. exact (configure_overwrites c _ _ _ _ E Ee).
  - intros He. split; [done|]. simpl. rewrite Hh, Hk. split; [done|]. split; [done|].
    split; [by destruct Hn as [[-> _]|[-> _]]|by destruct Hm as [[-> _]|(->&_)]].
Qed.

Lemma derived_session s st alg p keys :
  session_ok s -> keys_ok keys -> param_ok p -> nonce_check (verify_nonce alg) ->
  SessionKeys_valid keys = true ->
  exists s', Session_initialize s st alg p keys = (true, s', inc_init st) /\ session_ok s' /\
    s_valid s' = true /\ s_rx_nonce s' = 0 /\ s_tx_nonce s' = 0 /\
    as_seq (rx_key (s_keys s')) = as_seq (rx_key keys) /\
    as_seq (tx_key (s_keys s')) = as_seq (tx_key keys) /\
    s_algorithms s' = alg /\ s_parameters s' = p /\
    s_ttl_pad_ms s' = s_ttl_pad_ms s /\ s_encrypt_buffer s' = s_encrypt_buffer s.
Proof.
  intros Hs Hk Hp Hv Hkv. pose proof (session_initialize_ok s st alg p keys Hs Hk Hp Hv) as H.
  unfold Session_initialize in *. rewrite Hkv in *. simpl in *. destruct H as [Hok H].
  destruct (H eq_refl) as (Hval&Hr&Ht&Hrx&Htx). eexists. split; [done|]. conj_done.
Qed.

Lemma sessions_mirrored alg limits request sent answered received si sr st_i st_r k1 k2 :
  session_ok si -> session_ok sr -> limits_ok limits -> sent <= received ->
  req_constraints request = mkSessionConstraints (max_nonce_value limits) (max_session_time_ms limits) ->
  negotiable alg ->
  buffer_ok k1 -> buffer_ok k2 -> buf_length k1 = length_32 -> buf_length k2 = length_32 ->
  exists si' sr' st_i' st_r',
    start_initiator_session alg sent limits received (mkSessionKeys k2 k1) si st_i = (true, si', st_i') /\
    start_responder_session alg request answered (mkSessionKeys k1 k2) sr st_r = (sr', st_r') /\
    established limits sent answered received si sr si' sr' /\
    as_seq (tx_key (s_keys si')) = as_seq k1 /\ as_seq (rx_key (s_keys si')) = as_seq k2.
Proof.
  intros Hsi Hsr [Hn Ht] Htime Hreq [Hv Hm] Hk1 Hk2 Hl1 Hl2.
  assert (forall t, param_ok (mkParam t (max_nonce_value limits) (ms (max_session_time_ms limits)))) as Hp.
  { intros t. split; [done|]. unfold is_u32, ms in *. simpl. lia. }
  unfold start_initiator_session, start_responder_session. rewrite Hreq. cbn [sc_max_nonce sc_max_session_duration].
  destruct (received <? sent) eqn:E; btests; [lia|].
  destruct (derived_session si st_i (alg_session alg)
              (mkParam (received - Z.quot (received - sent) 2) (max_nonce_value limits)
                 (ms (max_session_time_ms limits))) (mkSessionKeys k2 k1))
    as (si'&->&Hoki&Hvi&Hri&Hti&Krx&Ktx&Ai&Pi&Li&Bi); try done.
  { unfold SessionKeys_valid. simpl. by rewrite Hl1, Hl2. }
  destruct (derived_session sr st_r (alg_session alg)
              (mkParam answered (max_nonce_value limits) (ms (max_session_time_ms limits)))
              (mkSessionKeys k1 k2))
    as (sr'&->&Hokr&Hvr&Hrr&Htr&Krx'&Ktx'&Ar&Pr&Lr&Br); try done.
  { unfold SessionKeys_valid. simpl. by rewrite Hl1, Hl2. }
  simpl in *. eexists _, _, _, _. split; [done|]. split; [done|].
  split; [|done]. split; [|split; [|split; [|by rewrite Ai]]].
  - constructor; try done.
    + by rewrite Krx, Ktx, Krx', Ktx'.
    + by rewrite Ai, Ar.
    + by rewrite Pi, Pr.
  - pose proof (Z.quot_pos (received - sent) 2). pose proof (Z.quot_le_upper_bound (received - sent) 2 (received - sent)).
    constructor; rewrite ?Pi; cbn; (done || lia).
  - constructor; rewrite ?Pr; cbn; (done || lia).
Qed.

(** *** Shared secret *)

Definition shared_initiator_ok (h : SharedSecretInitiatorHandshake) : Prop :=
  Algorithms_Common_get_or_throw c (ssi_crypto_suite h) = Done (ssi_algorithms h) /\
  zlen (ssi_nonce_buffer h) = nonce_length /\ buffer_ok (ssi_handshake_hash h).

Lemma shared_responder_replies key draw msg data now w s st alg err nr fr w' k1 k2 s' st' :
  supports_sha256 c = true -> alg_handshake alg = Algorithms_Handshake_default c ->
  any_HandshakeError err = false ->
  Algorithms_Common_configure c (Algorithms_Common_default c) (req_spec msg) = (err, alg) ->
  zlen (req_mode_ephemeral msg) = nonce_length -> req_mode_data msg = [] ->
  Crypto_gen_random c draw (replicate 32 0) = Done nr ->
  let reply := mkReplyHandshakeBegin version_get nr [] in
  fw_write fw w (message_writable ReplyHandshakeBegin_message reply) =
    (mkWriteResult FormatError_ok (ReplyHandshakeBegin_enc reply) fr, w') ->
  Crypto_hkdf_sha256 c (transcript data (ReplyHandshakeBegin_enc reply))
    [as_seq key; req_mode_ephemeral msg; nr] buffer_empty buffer_empty = Done (k1, k2) ->
  start_responder_session alg msg now (mkSessionKeys k1 k2) s st = (s', st') ->
  SharedSecretResponder_process fw c key draw msg data now w s st = Done (inr fr, key, w', s', st').
Proof.
  intros Hs Hdef Herr Hcfg He Hd Hr reply Hwr Hkdf Hst. unfold SharedSecretResponder_process.
  rewrite He, Hd, Hcfg, Herr, Hr. cbn [obind]. fold reply. rewrite Hwr, Hdef.
  cbn [wr_err wr_written wr_frame alg_hash alg_kdf Algorithms_Handshake_default].
  change (any_FormatError FormatError_ok) with false.
  rewrite hasher_done by done. cbn. rewrite Hkdf. cbn. by rewrite Hst.
Qed.

Lemma mix_hash request reply h1 :
  supports_sha256 c = true -> buffer_ok h1 -> as_seq h1 = sha256 request ->
  exists h2, Crypto_hash_sha256 c [as_seq h1; reply] h1 = Done h2 /\
    as_seq h2 = transcript request reply /\ buffer_ok h2.
Proof.
  intros Hs Hok E. destruct (hash_spec [as_seq h1; reply] h1 Hs Hok) as (h2&Hh&E2&Hok2).
  exists h2. split; [done|]. split; [|done]. rewrite E2, E. unfold transcript. cbn [concat].
  by rewrite app_nil_r.
Qed.

Lemma first_hash request h :
  supports_sha256 c = true -> buffer_ok h ->
  exists h1, Crypto_hash_sha256 c [request] h = Done h1 /\ as_seq h1 = sha256 request /\ buffer_ok h1.
Proof.
  intros Hs Hok. destruct (hash_spec [request] h Hs Hok) as (h1&Hh&E1&Hok1).
  exists h1. split; [done|]. split; [|done]. rewrite E1. cbn [concat]. by rewrite app_nil_r.
Qed.

Lemma shared_initiator_accepts h msg data limits now s st salt hash k1 k2 s' st' :
  alg_handshake (ssi_algorithms h) = Algorithms_Handshake_default c ->
  zlen (rep_mode_ephemeral msg) = nonce_length -> rep_mode_data msg = [] ->
  Crypto_hash_sha256 c [as_seq (ssi_handshake_hash h); data] (ssi_handshake_hash h) = Done hash ->
  as_seq hash = salt ->
  Crypto_hkdf_sha256 c salt [as_seq (ssi_key h); ssi_nonce_buffer h; rep_mode_ephemeral msg]
    buffer_empty buffer_empty = Done (k1, k2) ->
  start_initiator_session (ssi_algorithms h) (ssi_time_request_tx h) limits now
    (mkSessionKeys k2 k1) s st = (true, s', st') ->
  SharedSecretInitiator_initialize_session h msg data limits now s st =
    Done (true, mkSharedSecretInitiator (ssi_crypto_suite h) (ssi_algorithms h) (ssi_key h)
                  (ssi_nonce_buffer h) (ssi_time_request_tx h) hash, s', st').
Proof.
  intros Hdef He Hd Hh Es Hkdf Hst. unfold SharedSecretInitiator_initialize_session,
    SharedSecretInitiator_mix_handshake_hash.
  rewrite He, Hd, Hdef. cbn. rewrite Hh. cbn. rewrite Es, Hdef. cbn. rewrite Hkdf. cbn. by rewrite Hst.
Qed.

Lemma shared_secret_exchange h draw_i draw_r limits w :
  shared_initiator_ok h -> limits_ok limits -> inv w -> 64 <= fw_max_payload_size fw w ->
  completes (SharedSecretInitiator c) (SharedSecretResponder fw c) shared_initiator_ok
    h (ssi_key h) draw_i draw_r limits w (fun ei er material => material = as_seq (ssi_key h) ++ ei ++ er).
Proof.
  intros (Halg&Hnb&Hhash) Hlim Hw Hfit si sr st_i st_r sent answered received Hsi Hsr Htime.
  destruct h as [suite alg key nb t hash]. simpl in Halg, Hnb, Hhash.
  destruct (suite_configured suite alg Halg) as (Hs&Hdef&Hnc&Hconf).
  destruct (random_done draw_i nb) as (ni&Hri&Hli&Hbi).
  destruct (random_done draw_r (replicate 32 0)) as (nr&Hrr&Hlr&Hbr).
  rewrite Hnb in Hli. change (zlen (replicate 32 0)) with nonce_length in Hlr.
  set (request := make_request (mkDHCryptoSuite HandshakeEphemeral_nonce suite) limits
                    HandshakeMode_shared_secret ni []).
  destruct (Hconf HandshakeEphemeral_nonce limits HandshakeMode_shared_secret ni [])
    as [(err&Herr&Hcfg) Hspec].
  destruct (reply_written w nr []) as (w'&Hwr&Hw'&Hread);
    [done|done|by rewrite Hlr|apply Forall_nil_2|done|change (zlen []) with 0; lia|].
  set (reply := mkReplyHandshakeBegin version_get nr []) in *.
  destruct (first_hash (RequestHandshakeBegin_enc request) hash Hs Hhash) as (h1&Hh1&Eh1&Okh1).
  destruct (mix_hash _ (ReplyHandshakeBegin_enc reply) h1 Hs Okh1 Eh1) as (h2&Hh2&Eh2&Okh2).
  destruct (hkdf_keys (transcript (RequestHandshakeBegin_enc request) (ReplyHandshakeBegin_enc reply))
              [as_seq key; ni; nr] Hs) as (k1&k2&Hkdf&Hk1&Hk2&Hl1&Hl2&Ek1&Ek2).
  destruct (sessions_mirrored alg limits request sent answered received si sr st_i st_r k1 k2)
    as (si'&sr'&st_i'&st_r'&Hsi'&Hsr'&Hmir&Etx&Erx); try done.
  exists ni, [], (mkSharedSecretInitiator suite alg key ni t hash),
    (mkSharedSecretInitiator suite alg key ni sent h1),
    (mkSharedSecretInitiator suite alg key ni sent h2), reply, key, w', si', sr', st_i', st_r',
    (as_seq key ++ ni ++ nr).
  cbn zeta. cbn [ih_get_crypto_suite ih_get_handshake_mode SharedSecretInitiator ssi_crypto_suite].
  fold request. cbn [concat] in Ek1, Ek2. rewrite app_nil_r in Ek1, Ek2.
  split; [done|].
  split; [cbn; unfold SharedSecretInitiator_initialize_new_handshake; cbn; by rewrite Hri|].
  split; [apply request_reads; [done|by apply Hspec|done|done|by rewrite Hli|apply Forall_nil_2|done]|].
  split; [cbn; unfold SharedSecretInitiator_finalize_request_tx; cbn; rewrite Hdef; cbn; by rewrite Hh1|].
  split; [by eapply shared_responder_replies|]. split; [done|]. split; [done|].
  split; [by eapply (shared_initiator_accepts (mkSharedSecretInitiator suite alg key ni sent h1))|].
  split; [done|]. split; [by rewrite Etx|]. split; [by rewrite Erx|]. done.
Qed.

(** *** Quantum key distribution *)

Section QKD.
Context {K L : Type} (consume_key : K -> option KeyRecord * K).
Context (find_and_consume_key : L -> Z -> option BufferBase * L).

Definition qkd_initiator_ok (h : QKDInitiatorHandshake (K := K)) : Prop :=
  Algorithms_Common_get_or_throw c (qi_crypto_suite h) = Done (qi_algorithms h) /\
  zlen (qi_key_id_buffer h) = 8 /\ buffer_ok (qi_handshake_hash h).

(** Both sides have the key the initiator consumes next. *)
Definition qkd_key_shared (source : K) (lookup : L) (key : bytes) : Prop :=
  exists record k k', (consume_key source).1 = Some record /\ kr_key record = Some k /\
    is_u64 (kr_id record) /\ (find_and_consume_key lookup (kr_id record)).1 = Some k' /\
    as_seq k = key /\ as_seq k' = key.

Lemma key_id_written buf id :
  zlen buf = 8 -> is_u64 id ->
  BigEndian_write (WSeq buf 0) [(UInt64, id)] = Some (WSeq (be_bytes 8 id) 8).
Proof.
  intros Hb Hid. rewrite BigEndian_write_cons, write_to_ok, BigEndian_write_nil.
  - unfold wseq_store. cbn [w_buf w_pos]. change (int_bytes UInt64) with 8%nat.
    rewrite zlen_be_bytes. f_equal. f_equal.
    rewrite <- (ztake_ge 8 (overwrite buf 0 (be_bytes 8 id))).
    + pose proof (overwrite_upto buf 0 (be_bytes 8 id)) as E. rewrite zlen_be_bytes in E.
      apply E. lia.
    + rewrite overwrite_length; rewrite ?zlen_be_bytes; lia.
  - unfold wseq_ok. cbn [w_pos w_buf]. lia.
  - by apply int_ok_u64.
  - unfold wseq_length. cbn [w_pos w_buf]. rewrite Hb. done.
Qed.

Lemma key_id_read id :
  is_u64 id -> BigEndian_read [UInt64] (be_bytes 8 id) = Some ([id], []).
Proof.
  intros Hid. rewrite BigEndian_read_cons.
  pose proof (read_from_encoded UInt64 id [] (proj2 (int_ok_u64 id) Hid)) as E.
  rewrite app_nil_r in E. change (int_bytes UInt64) with 8%nat in E.
  by rewrite E, BigEndian_read_nil.
Qed.

Lemma qkd_responder_replies lookup lookup' draw msg data now w s st alg err id key fr w' k1 k2 s' st' :
  supports_sha256 c = true -> alg_handshake alg = Algorithms_Handshake_default c ->
  any_HandshakeError err = false ->
  (forall this, Algorithms_Common_configure c this (req_spec msg) = (err, alg)) ->
  req_mode_ephemeral msg = [] -> req_mode_data msg = be_bytes 8 id -> is_u64 id ->
  find_and_consume_key lookup id = (Some key, lookup') ->
  let reply := mkReplyHandshakeBegin version_get [] [] in
  fw_write fw w (message_writable ReplyHandshakeBegin_message reply) =
    (mkWriteResult FormatError_ok (ReplyHandshakeBegin_enc reply) fr, w') ->
  Crypto_hkdf_sha256 c (transcript data (ReplyHandshakeBegin_enc reply)) [as_seq key]
    buffer_empty buffer_empty = Done (k1, k2) ->
  start_responder_session alg msg now (mkSessionKeys k1 k2) s st = (s', st') ->
  QKDResponder_process fw c find_and_consume_key lookup draw msg data now w s st =
    Done (inr fr, lookup', w', s', st').
Proof.
  intros Hs Hdef Herr Hcfg He Hd Hid Hf reply Hwr Hkdf Hst. unfold QKDResponder_process.
  rewrite He, Hd, Hcfg, Herr, key_id_read by done. cbn [is_nil negb]. rewrite Hf, Hcfg, Herr.
  fold reply. rewrite Hwr, Hdef.
  cbn [wr_err wr_written wr_frame alg_hash alg_kdf Algorithms_Handshake_default].
  change (any_FormatError FormatError_ok) with false.
  rewrite hasher_done by done. cbn. rewrite Hkdf. cbn. by rewrite Hst.
Qed.

Lemma qkd_initiator_accepts h msg data limits now s st key salt hash k1 k2 s' st' :
  alg_handshake (qi_algorithms h) = Algorithms_Handshake_default c ->
  qi_key h = Some key -> rep_mode_ephemeral msg = [] -> rep_mode_data msg = [] ->
  Crypto_hash_sha256 c [as_seq (qi_handshake_hash h); data] (qi_handshake_hash h) = Done hash ->
  as_seq hash = salt ->
  Crypto_hkdf_sha256 c salt [as_seq key] buffer_empty buffer_empty = Done (k1, k2) ->
  start_initiator_session (qi_algorithms h) (qi_time_request_tx h) limits now
    (mkSessionKeys k2 k1) s st = (true, s', st') ->
  QKDInitiator_initialize_session (K := K) h msg data limits now s st =
    Done (true, mkQKDInitiator (qi_crypto_suite h) (qi_algorithms h) (qi_key_source h) (qi_key h)
                  (qi_key_id_buffer h) (qi_time_request_tx h) hash, s', st').
Proof.
  intros Hdef Hk He Hd Hh Es Hkdf Hst. unfold QKDInitiator_initialize_session,
    QKDInitiator_mix_handshake_hash.
  rewrite Hk, He, Hd, Hdef. cbn. rewrite Hh. cbn. rewrite Es, Hdef. cbn. rewrite Hkdf. cbn. by rewrite Hst.
Qed.

Lemma qkd_exchange h lookup draw_i draw_r limits w key :
  qkd_initiator_ok h -> qkd_key_shared (qi_key_source h) lookup key ->
  limits_ok limits -> inv w -> 64 <= fw_max_payload_size fw w ->
  completes (QKDInitiator consume_key) (QKDResponder fw c find_and_consume_key) qkd_initiator_ok
    h lookup draw_i draw_r limits w (fun _ _ material => material = key).
Proof.
  intros (Halg&Hib&Hhash) (record&k&k'&Hc&Hk&Hid&Hf&Ek&Ek') Hlim Hw Hfit
    si sr st_i st_r sent answered received Hsi Hsr Htime.
  destruct h as [suite alg source oldkey ib t hash]. simpl in Halg, Hib, Hhash, Hc.
  destruct (suite_configured suite alg Halg) as (Hs&Hdef&Hnc&Hconf).
  destruct (consume_key source) as [rec source'] eqn:Ec. simpl in Hc. subst rec.
  destruct (find_and_consume_key lookup (kr_id record)) as [fk lookup'] eqn:Ef. simpl in Hf. subst fk.
  set (id := be_bytes 8 (kr_id record)).
  set (request := make_request (mkDHCryptoSuite HandshakeEphemeral_none suite) limits
                    HandshakeMode_quantum_key_distribution [] id).
  destruct (Hconf HandshakeEphemeral_none limits HandshakeMode_quantum_key_distribution [] id)
    as [(err&Herr&Hcfg) Hspec].
  destruct (reply_written w [] []) as (w'&Hwr&Hw'&Hread);
    [done|apply Forall_nil_2|done|apply Forall_nil_2|done|change (zlen []) with 0; lia|].
  set (reply := mkReplyHandshakeBegin version_get [] []) in *.
  destruct (first_hash (RequestHandshakeBegin_enc request) hash Hs Hhash) as (h1&Hh1&Eh1&Okh1).
  destruct (mix_hash _ (ReplyHandshakeBegin_enc reply) h1 Hs Okh1 Eh1) as (h2&Hh2&Eh2&Okh2).
  destruct (hkdf_keys (transcript (RequestHandshakeBegin_enc request) (ReplyHandshakeBegin_enc reply))
              [key] Hs) as (k1&k2&Hkdf&Hk1&Hk2&Hl1&Hl2&Ek1&Ek2).
  destruct (sessions_mirrored alg limits request sent answered received si sr st_i st_r k1 k2)
    as (si'&sr'&st_i'&st_r'&Hsi'&Hsr'&Hmir&Etx&Erx); try done.
  exists [], id, (mkQKDInitiator suite alg source' (Some k) id t hash),
    (mkQKDInitiator suite alg source' (Some k) id sent h1),
    (mkQKDInitiator suite alg source' (Some k) id sent h2), reply, lookup', w', si', sr', st_i', st_r', key.
  cbn zeta. cbn [ih_get_crypto_suite ih_get_handshake_mode QKDInitiator qi_crypto_suite].
  fold request. cbn [concat] in Ek1, Ek2. rewrite app_nil_r in Ek1, Ek2.
  split; [done|].
  split; [cbn; unfold QKDInitiator_initialize_new_handshake; cbn; rewrite Ec, Hk;
          by rewrite key_id_written|].
  split; [apply request_reads; [done|by apply Hspec|done|apply Forall_nil_2|done|apply be_bytes_bytes|
          unfold id; by rewrite zlen_be_bytes]|].
  split; [cbn; unfold QKDInitiator_finalize_request_tx; cbn; rewrite Hdef; cbn; by rewrite Hh1|].
  split; [eapply qkd_responder_replies; try done; by rewrite Ek'|]. split; [done|]. split; [done|].
  split; [eapply (qkd_initiator_accepts (mkQKDInitiator suite alg source' (Some k) id sent h1)); try done;
          by rewrite Ek|].
  split; [done|]. split; [by rewrite Etx|]. split; [by rewrite Erx|].
  split; [done|]. split; [|done]. cbn [qi_key_id_buffer]. unfold id. by rewrite zlen_be_bytes.
Qed.
End QKD.

(** *** Public keys *)

Definition public_initiator_ok (h : PublicKeyInitiatorHandshake) : Prop :=
  Algorithms_Common_get_or_throw c (suite_base (pki_crypto_suite h)) = Done (pki_algorithms h) /\
  Algorithms_DH_get_or_throw c (suite_handshake_ephemeral (pki_crypto_suite h)) =
    Done (pki_dh_algorithms h) /\
  buffer_ok (public_key (pki_local_ephemeral_keys h)) /\
  buffer_ok (private_key (pki_local_ephemeral_keys h)) /\ buffer_ok (pki_handshake_hash h).

(** [mine] presents its certificate data for the key of [private], and the other
    side's handler accepts it for that key. *)
Definition presents (mine theirs : ICertificateHandler) (mode : HandshakeMode) (private : BufferBase)
  : Prop :=
  zlen (as_seq private) = x25519_key_length /\
  all_bytes (certificate_data mine) /\ zlen (certificate_data mine) <= max_u16 /\
  handler_validate theirs mode (certificate_data mine) = Done (inr (x25519_base (as_seq private))).

Lemma dh_configured suite dh :
  Algorithms_DH_get_or_throw c (suite_handshake_ephemeral suite) = Done dh ->
  supports_x25519 c = true /\ suite_handshake_ephemeral suite = HandshakeEphemeral_x25519 /\
  dh = Algorithms_DH_default c /\
  Algorithms_DH_configure c (Algorithms_DH_default c) (suite_handshake_ephemeral suite) =
    (HandshakeError_none, dh).
Proof.
  unfold Algorithms_DH_get_or_throw, Algorithms_DH_configure.
  destruct (suite_handshake_ephemeral suite); try done.
  destruct (supports_x25519 c) eqn:E; [|done]. simpl. by intros [= <-].
Qed.

Lemma keypair_done draw pair :
  supports_x25519 c = true -> supports_ed25519 c = true ->
  buffer_ok (public_key pair) -> buffer_ok (private_key pair) ->
  exists p, Crypto_gen_keypair_x25519 c draw pair = Done p /\
    buffer_ok (public_key p) /\ buffer_ok (private_key p) /\
    zlen (as_seq (private_key p)) = x25519_key_length /\
    as_seq (public_key p) = x25519_base (as_seq (private_key p)).
Proof.
  intros Hx He Hp Hk. unfold Crypto_gen_keypair_x25519, check_supports_ed25519, check_initialized.
  rewrite (bk_initialized (c := c)). cbn [obind]. rewrite He. cbn [obind].
  unfold supports_x25519 in Hx. apply andb_prop in Hx as [Hx _].
  destruct (be_gen_keypair_x25519 (backend c)) as [f|] eqn:E; [|done].
  destruct (bk_keypair (c := c) f draw pair E Hp Hk) as (H1&H2&H3&H4&H5).
  eexists. split; [done|]. split; [done|]. split; [done|]. split; [|done].
  unfold as_seq, get_length_in_bytes. rewrite H4, zlen_ztake by done. by rewrite H2.
Qed.

Lemma dh_done key pub secret :
  supports_x25519 c = true -> zlen (as_seq key) = x25519_key_length ->
  zlen pub = x25519_key_length -> x25519 (as_seq key) pub = Some secret ->
  exists out, Crypto_dh_x25519 c key pub buffer_empty = Done (inr out) /\ as_seq out = secret.
Proof.
  intros Hx Hk Hp E. unfold Crypto_dh_x25519, check_supports_x25519, check_initialized.
  rewrite (bk_initialized (c := c)). cbn [obind]. rewrite Hx. cbn [obind].
  unfold supports_x25519 in Hx. apply andb_prop in Hx as [_ Hx].
  destruct (be_dh_x25519 (backend c)) as [f|] eqn:Ef; [|done]. cbn [call].
  rewrite (bk_dh (c := c) f key pub buffer_empty Ef Hk Hp), E. eexists. split; [done|].
  apply as_seq_stored; [done|]. by apply (x25519_length (c := c)) in E.
Qed.

Lemma triple_dh_done static eph remote_static remote_eph d1 d2 d3 :
  supports_x25519 c = true ->
  zlen (as_seq (static_private_key static)) = x25519_key_length ->
  zlen (as_seq (private_key eph)) = x25519_key_length ->
  zlen remote_static = x25519_key_length -> zlen remote_eph = x25519_key_length ->
  x25519 (as_seq (private_key eph)) remote_eph = Some d1 ->
  x25519 (as_seq (private_key eph)) remote_static = Some d2 ->
  x25519 (as_seq (static_private_key static)) remote_eph = Some d3 ->
  TripleDH_compute (Crypto_dh_x25519 c) static eph remote_static remote_eph = Done (inr (d1, d2, d3)).
Proof.
  intros Hx Hs He Hrs Hre H1 H2 H3. unfold TripleDH_compute.
  destruct (dh_done _ _ _ Hx He Hre H1) as (o1&->&E1). cbn [obind].
  destruct (dh_done _ _ _ Hx He Hrs H2) as (o2&->&E2). cbn [obind].
  destruct (dh_done _ _ _ Hx Hs Hre H3) as (o3&->&E3). cbn [obind]. by rewrite E1, E2, E3.
Qed.

(** Both sides compute the same secret. *)
Lemma dh_agrees a b :
  zlen a = x25519_key_length -> zlen b = x25519_key_length ->
  exists secret, x25519 a (x25519_base b) = Some secret /\ x25519 b (x25519_base a) = Some secret.
Proof.
  intros Ha Hb. destruct (x25519_honest (c := c) a b Ha Hb) as [secret E].
  exists secret. split; [done|]. by rewrite <- x25519_commutes.
Qed.

Lemma public_responder_replies h draw msg data now w s st alg dh err err' pub eph fr w' d1 d2 d3 k1 k2 s' st' :
  supports_sha256 c = true -> alg_handshake alg = Algorithms_Handshake_default c ->
  any_HandshakeError err = false -> any_HandshakeError err' = false ->
  Algorithms_Common_configure c (Algorithms_Common_default c) (req_spec msg) = (err, alg) ->
  Algorithms_DH_configure c (Algorithms_DH_default c) (cs_handshake_ephemeral (req_spec msg)) = (err', dh) ->
  zlen (req_mode_ephemeral msg) = x25519_key_length ->
  handler_validate (pkr_cert_handler h) (req_handshake_mode msg) (req_mode_data msg) = Done (inr pub) ->
  alg_gen_key_pair dh draw (mkKeyPair buffer_empty buffer_empty) = Done eph ->
  let reply := mkReplyHandshakeBegin version_get (as_seq (public_key eph))
                 (certificate_data (pkr_cert_handler h)) in
  fw_write fw w (message_writable ReplyHandshakeBegin_message reply) =
    (mkWriteResult FormatError_ok (ReplyHandshakeBegin_enc reply) fr, w') ->
  TripleDH_compute (alg_dh dh) (pkr_static_keys h) eph pub (req_mode_ephemeral msg) =
    Done (inr (d1, d2, d3)) ->
  Crypto_hkdf_sha256 c (transcript data (ReplyHandshakeBegin_enc reply)) [d1; d2; d3]
    buffer_empty buffer_empty = Done (k1, k2) ->
  start_responder_session alg msg now (mkSessionKeys k1 k2) s st = (s', st') ->
  PublicKeyResponder_process fw c h draw msg data now w s st = Done (inr fr, h, w', s', st').
Proof.
  intros Hs Hdef Herr Herr' Hcfg Hdh He Hv Hg reply Hwr Ht Hkdf Hst. unfold PublicKeyResponder_process.
  rewrite Hcfg, Herr, Hdh, Herr', He, Z.eqb_refl, Hv. cbn [obind negb]. rewrite Hg. cbn [obind].
  fold reply. rewrite Hwr, Hdef.
  cbn [wr_err wr_written wr_frame alg_hash alg_kdf Algorithms_Handshake_default].
  change (any_FormatError FormatError_ok) with false.
  rewrite hasher_done by done. cbn [obind]. rewrite Ht. cbn [obind]. rewrite Hkdf. cbn. by rewrite Hst.
Qed.

Lemma public_initiator_accepts h msg data limits now s st pub salt hash d1 d2 d3 k1 k2 s' st' :
  alg_handshake (pki_algorithms h) = Algorithms_Handshake_default c ->
  handler_validate (pki_cert_handler h) (handler_mode (pki_cert_handler h)) (rep_mode_data msg) =
    Done (inr pub) ->
  Crypto_hash_sha256 c [as_seq (pki_handshake_hash h); data] (pki_handshake_hash h) = Done hash ->
  as_seq hash = salt ->
  TripleDH_compute (alg_dh (pki_dh_algorithms h)) (pki_static_keys h) (pki_local_ephemeral_keys h)
    pub (rep_mode_ephemeral msg) = Done (inr (d1, d2, d3)) ->
  Crypto_hkdf_sha256 c salt [d1; d3; d2] buffer_empty buffer_empty = Done (k1, k2) ->
  start_initiator_session (pki_algorithms h) (pki_time_request_tx h) limits now
    (mkSessionKeys k2 k1) s st = (true, s', st') ->
  PublicKeyInitiator_initialize_session h msg data limits now s st =
    Done (true, mkPublicKeyInitiator (pki_static_keys h) (pki_crypto_suite h) (pki_algorithms h)
                  (pki_dh_algorithms h) (pki_cert_handler h) (pki_local_ephemeral_keys h)
                  (pki_time_request_tx h) hash, s', st').
Proof.
  intros Hdef Hv Hh Es Ht Hkdf Hst. unfold PublicKeyInitiator_initialize_session,
    PublicKeyInitiator_mix_handshake_hash.
  rewrite Hv, Hdef. cbn. rewrite Hh. cbn. rewrite Ht. cbn. rewrite Es, Hdef. cbn. rewrite Hkdf.
  cbn. by rewrite Hst.
Qed.

(** The input of the derivation: the secrets of the two ephemeral keys, of the
    initiator's static and the responder's ephemeral key, and of the initiator's
    ephemeral and the responder's static key. *)
Definition triple_dh_material (static_i static_r : bytes) (ei er material : bytes) : Prop :=
  exists a b ab sb as_, ei = x25519_base a /\ er = x25519_base b /\
    x25519 a (x25519_base b) = Some ab /\ x25519 static_i (x25519_base b) = Some sb /\
    x25519 a (x25519_base static_r) = Some as_ /\ material = ab ++ sb ++ as_.

Lemma public_key_exchange h r draw_i draw_r limits w :
  public_initiator_ok h -> limits_ok limits -> inv w -> supports_ed25519 c = true ->
  handler_mode (pki_cert_handler h) <> HandshakeMode_undefined ->
  presents (pki_cert_handler h) (pkr_cert_handler r) (handler_mode (pki_cert_handler h))
    (static_private_key (pki_static_keys h)) ->
  presents (pkr_cert_handler r) (pki_cert_handler h) (handler_mode (pki_cert_handler h))
    (static_private_key (pkr_static_keys r)) ->
  47 + zlen (certificate_data (pkr_cert_handler r)) <= fw_max_payload_size fw w ->
  completes PublicKeyInitiator (PublicKeyResponder fw c) public_initiator_ok
    h r draw_i draw_r limits w
    (triple_dh_material (as_seq (static_private_key (pki_static_keys h)))
       (as_seq (static_private_key (pkr_static_keys r)))).
Proof.
  intros (Halg&Hdh&Hbp&Hbk&Hhash) Hlim Hw Hed Hmode (HkA&HcA&HzA&HvA) (HkB&HcB&HzB&HvB) Hfit
    si sr st_i st_r sent answered received Hsi Hsr Htime.
  destruct h as [static suite alg dh handler old t hash]. cbn in Halg, Hdh, Hbp, Hbk, Hhash, Hmode, HkA, HcA, HzA, HvA, HvB.
  destruct suite as [ephemeral base].
  destruct (suite_configured base alg Halg) as (Hs&Hdef&Hnc&Hconf).
  destruct (dh_configured _ _ Hdh) as (Hx&Heph&Edh&Hdhc). cbn in Heph, Hdhc.
  destruct (keypair_done draw_i old Hx Hed Hbp Hbk) as (ki&Hgi&Hpi&Hki&Hli&Eki).
  destruct (keypair_done draw_r (mkKeyPair buffer_empty buffer_empty) Hx Hed empty_ok empty_ok)
    as (kr&Hgr&Hpr&Hkr&Hlr&Ekr).
  pose proof (x25519_base_length (c := c)) as Hbl. pose proof (x25519_base_bytes (c := c)) as Hbb.
  set (request := make_request (mkDHCryptoSuite ephemeral base) limits (handler_mode handler)
                    (as_seq (public_key ki)) (certificate_data handler)).
  destruct (Hconf ephemeral limits (handler_mode handler) (as_seq (public_key ki)) (certificate_data handler))
    as [(err&Herr&Hcfg) Hspec].
  destruct (reply_written w (as_seq (public_key kr)) (certificate_data (pkr_cert_handler r)))
    as (w'&Hwr&Hw'&Hread); [done|by rewrite Ekr|by rewrite Ekr, Hbl|done|done|done|].
  set (reply := mkReplyHandshakeBegin version_get (as_seq (public_key kr)) (certificate_data (pkr_cert_handler r))) in *.
  destruct (first_hash (RequestHandshakeBegin_enc request) hash Hs Hhash) as (h1&Hh1&Eh1&Okh1).
  destruct (mix_hash _ (ReplyHandshakeBegin_enc reply) h1 Hs Okh1 Eh1) as (h2&Hh2&Eh2&Okh2).
  destruct (dh_agrees _ _ Hli Hlr) as (ab&Hab&Hba).
  destruct (dh_agrees _ _ HkA Hlr) as (sb&Hsb&Hbs).
  destruct (dh_agrees _ _ Hli HkB) as (as_&Has&Hsa).
  destruct (hkdf_keys (transcript (RequestHandshakeBegin_enc request) (ReplyHandshakeBegin_enc reply))
              [ab; sb; as_] Hs) as (k1&k2&Hkdf&Hk1&Hk2&Hl1&Hl2&Ek1&Ek2).
  destruct (sessions_mirrored alg limits request sent answered received si sr st_i st_r k1 k2)
    as (si'&sr'&st_i'&st_r'&Hsi'&Hsr'&Hmir&Etx&Erx); try done.
  exists (as_seq (public_key ki)), (certificate_data handler),
    (mkPublicKeyInitiator static (mkDHCryptoSuite ephemeral base) alg dh handler ki t hash),
    (mkPublicKeyInitiator static (mkDHCryptoSuite ephemeral base) alg dh handler ki sent h1),
    (mkPublicKeyInitiator static (mkDHCryptoSuite ephemeral base) alg dh handler ki sent h2),
    reply, r, w', si', sr', st_i', st_r', (ab ++ sb ++ as_).
  cbn zeta. cbn [ih_get_crypto_suite ih_get_handshake_mode PublicKeyInitiator pki_crypto_suite pki_cert_handler].
  fold request. cbn [concat] in Ek1, Ek2. rewrite app_nil_r in Ek1, Ek2.
  split; [exists (as_seq (private_key ki)), (as_seq (private_key kr)), ab, sb, as_; by repeat split|].
  split; [cbn; unfold PublicKeyInitiator_initialize_new_handshake; cbn; rewrite Edh; cbn; by rewrite Hgi|].
  split; [apply request_reads; [done|apply Hspec; by rewrite Heph|done|by rewrite Eki|
          by rewrite Eki, Hbl|done|done]|].
  split; [cbn; unfold PublicKeyInitiator_finalize_request_tx; cbn; rewrite Hdef; cbn; by rewrite Hh1|].
  split.
  { eapply public_responder_replies; [done|done|done| |apply Hcfg|apply Hdhc|..]; try done.
    - cbn. by rewrite Eki.
    - by rewrite Edh.
    - rewrite Edh. cbn. rewrite Eki. by apply triple_dh_done. }
  split; [done|]. split; [done|].
  split.
  { eapply (public_initiator_accepts
      (mkPublicKeyInitiator static (mkDHCryptoSuite ephemeral base) alg dh handler ki sent h1)); try done.
    cbn. rewrite Edh, Ekr. by apply triple_dh_done. }
  split; [done|]. split; [by rewrite Etx|]. split; [by rewrite Erx|]. done.
Qed.

(** C1: Shared-secret handshakes agree: an initiator and a responder that hold
    the same key complete the exchange, whatever random numbers they draw and
    however often the initiator was used before (its invariant holds after
    construction and again after the handshake); the request and the reply parse,
    and both ends have valid, fresh sessions with the same algorithms, the same
    limits and mirrored keys, derived from the shared key and both nonces with the
    hash of both messages as salt.  The limits have to fit their fields, the frame
    writer has to take messages of 64 bytes, and the reply is not received before the
    request was sent. *)
Theorem shared_secret_agreement :
  (forall suite key h, SharedSecretInitiator_new c suite key = Done h ->
     shared_initiator_ok h /\ ssi_key h = key) /\
  (forall h draw_i draw_r limits w,
     shared_initiator_ok h -> limits_ok limits -> inv w -> 64 <= fw_max_payload_size fw w ->
     completes (SharedSecretInitiator c) (SharedSecretResponder fw c) shared_initiator_ok
       h (ssi_key h) draw_i draw_r limits w
       (fun ei er material => material = as_seq (ssi_key h) ++ ei ++ er)).
Proof.
  split; [|apply shared_secret_exchange].
  intros suite key h H. unfold SharedSecretInitiator_new in H.
  apply obind_done in H as (alg&Ha&H). by injection H as <-.
Qed.

(** Handshakes with distributed keys agree: when the responder's key store
    returns, for the identifier of the key the initiator's source hands out next,
    the same key, the exchange completes and both ends have mirrored sessions
    whose keys are derived from that key with the hash of both messages as salt. *)
Theorem qkd_agreement {K L} (consume_key : K -> option KeyRecord * K)
    (find_and_consume_key : L -> Z -> option BufferBase * L) :
  (forall suite (source : K) h, QKDInitiator_new c suite source = Done h ->
     qkd_initiator_ok h /\ qi_key_source h = source) /\
  (forall h lookup draw_i draw_r limits w key,
     qkd_initiator_ok h ->
     qkd_key_shared consume_key find_and_consume_key (qi_key_source h) lookup key ->
     limits_ok limits -> inv w -> 64 <= fw_max_payload_size fw w ->
     completes (QKDInitiator consume_key) (QKDResponder fw c find_and_consume_key) qkd_initiator_ok
       h lookup draw_i draw_r limits w (fun _ _ material => material = key)).
Proof.
  split; [|apply qkd_exchange].
  intros suite source h H. unfold QKDInitiator_new in H.
  apply obind_done in H as (alg&Ha&H). by injection H as <-.
Qed.

(** C9: Public-key handshakes agree: when each side's certificate handler accepts
    what the other presents, for the public key that belongs to the other's static
    private key, the exchange completes and both ends have mirrored sessions
    whose keys are derived from the three Diffie-Hellman secrets: the responder
    takes them in the order it computes them, the initiator swaps the last two.  The
    backend has to support Ed25519 (which the generation of the ephemeral keys
    checks), the limits have to fit their fields, the frame writer has to take a
    message of 47 bytes and the responder's certificate data, and the reply is not
    received before the request was sent. *)
Theorem public_key_agreement :
  (forall static suite handler h, PublicKeyInitiator_new c static suite handler = Done h ->
     public_initiator_ok h /\ pki_static_keys h = static /\ pki_cert_handler h = handler) /\
  (forall h r draw_i draw_r limits w,
     public_initiator_ok h -> limits_ok limits -> inv w -> supports_ed25519 c = true ->
     handler_mode (pki_cert_handler h) <> HandshakeMode_undefined ->
     presents (pki_cert_handler h) (pkr_cert_handler r) (handler_mode (pki_cert_handler h))
       (static_private_key (pki_static_keys h)) ->
     presents (pkr_cert_handler r) (pki_cert_handler h) (handler_mode (pki_cert_handler h))
       (static_private_key (pkr_static_keys r)) ->
     47 + zlen (certificate_data (pkr_cert_handler r)) <= fw_max_payload_size fw w ->
     completes PublicKeyInitiator (PublicKeyResponder fw c) public_initiator_ok
       h r draw_i draw_r limits w
       (triple_dh_material (as_seq (static_private_key (pki_static_keys h)))
          (as_seq (static_private_key (pkr_static_keys r))))).
Proof.
  split; [|apply public_key_exchange].
  intros static suite handler h H. unfold PublicKeyInitiator_new in H.
  apply obind_done in H as (alg&Ha&H). apply obind_done in H as (dh&Hd&H). by injection H as <-.
Qed.
End Agreement.

(** ** A concrete backend *)

Definition toy_base (key : bytes) : bytes := be_bytes 32 (be_value key mod 2 ^ 256).
Definition toy_dh (key pub : bytes) : bytes :=
  be_bytes 32 ((be_value key mod 2 ^ 256 + be_value pub) mod 2 ^ 256).

Definition toy_buffer (data : bytes) : BufferBase :=
  set_length (buffer_store buffer_empty data) length_32.

Definition toy_pair (draw : nat) : KeyPair :=
  let key := be_bytes 32 (Z.of_nat draw + 1) in
  mkKeyPair (toy_buffer (toy_base key)) (toy_buffer key).

(** [signing_backend] with a commuting function in place of X25519. *)
Definition full_backend : CryptoBackend :=
  mkCryptoBackend
    (be_zero_memory test_backend) (be_gen_random test_backend) (be_secure_equals test_backend)
    (be_hash_sha256 test_backend) (be_hmac_sha256 test_backend)
    (Some (fun draw _ => toy_pair draw))
    (Some (fun key pub out => Done (inr (set_length (buffer_store out (toy_dh (as_seq key) pub)) length_32))))
    (be_hkdf_sha256 test_backend)
    (be_gen_keypair_ed25519 signing_backend) (be_sign_ed25519 signing_backend)
    (be_verify_ed25519 signing_backend)
    (be_aes256_gcm_encrypt test_backend) (be_aes256_gcm_decrypt test_backend).

Definition full_crypto : CryptoState := mkCryptoState true full_backend.

#[export, refine] Instance full_crypto_ok : BackendOk full_crypto := {|
  sha256 := sha256 (c := test_crypto);
  hmac := hmac (c := test_crypto);
  gcm_enc := gcm_enc (c := test_crypto);
  gcm_dec := gcm_dec (c := test_crypto);
|}.
Proof.
  - done.
  - exact (bk_zero (c := test_crypto)).
  - done.
  - exact (bk_equals (c := test_crypto)).
  - done.
  - exact (bk_hash (c := test_crypto)).
  - exact (sha256_length (c := test_crypto)).
  - exact (bk_hmac (c := test_crypto)).
  - exact (hmac_length (c := test_crypto)).
  - exact (hmac_bytes (c := test_crypto)).
  - exact (bk_gcm_encrypt (c := test_crypto)).
  - exact (bk_gcm_decrypt (c := test_crypto)).
  - exact (gcm_length (c := test_crypto)).
  - exact (gcm_bytes (c := test_crypto)).
  - exact (gcm_correct (c := test_crypto)).
Defined.

Lemma toy_base_value key : be_value (toy_base key) = be_value key mod 2 ^ 256.
Proof. unfold toy_base. apply be_value_bytes. apply Z.mod_pos_bound. done. Qed.

Lemma toy_buffer_ok data : zlen data = 32 -> buffer_ok (toy_buffer data).
Proof. intros H. apply buffer_store_ok; [done|]. by rewrite H. Qed.

Lemma toy_buffer_seq data : zlen data = 32 -> as_seq (toy_buffer data) = data.
Proof. intros H. by apply as_seq_stored. Qed.

#[export, refine] Instance full_handshake_ok : HandshakeBackendOk full_crypto := {|
  hkdf salt ikm := (test_digest 32 salt (ikm ++ [1]), test_digest 32 salt (ikm ++ [2]));
  x25519_base := toy_base;
  x25519 key pub := Some (toy_dh key pub);
|}.
Proof.
  - by intros f salt ikm k1 k2 [= <-].
  - intros salt ikm. split; apply zlen_be_bytes.
  - done.
  - intros f draw dest [= <-]. split; [apply zlen_be_bytes|apply be_bytes_bytes].
  - intros f draw pair [= <-] _ _. cbn [toy_pair public_key private_key].
    rewrite !toy_buffer_seq by (apply zlen_be_bytes).
    split; [apply toy_buffer_ok, zlen_be_bytes|]. split; [apply toy_buffer_ok, zlen_be_bytes|]. done.
  - by intros f key pub out [= <-] _ _.
  - intros key. apply zlen_be_bytes.
  - intros key. apply be_bytes_bytes.
  - intros key pub secret [= <-]. apply zlen_be_bytes.
  - intros a b _ _. unfold toy_dh. rewrite !toy_base_value. by rewrite Z.add_comm.
  - intros a b _ _. by eexists.
Defined.

Definition full_algorithms : Algorithms_Common :=
  mkAlgorithms_Common (mkAlgorithms_Session verify_strict_increment (hmac_sha_256_trunc16 (SER := ser4cpp_reference) full_crypto))
    (Algorithms_Handshake_default full_crypto).

Lemma full_writer_inv : LinkFrameWriter_inv (test_writer 200).
Proof. apply test_writer_inv. by vm_compute. Qed.

Lemma default_limits_ok : limits_ok SessionLimits_default.
Proof. split; by vm_compute. Qed.

Definition test_shared_initiator : SharedSecretInitiatorHandshake :=
  mkSharedSecretInitiator CryptoSuite_default full_algorithms (test_key 7) (replicate 32 0) 0 buffer_empty.

Lemma shared_secret_agreement_witness :
  completes (SER := ser4cpp_reference) full_crypto LinkFrameWriter_ops LinkFrameWriter_inv LinkFrameWriter_frame
    (SharedSecretInitiator full_crypto)
    (SharedSecretResponder (SER := ser4cpp_reference) LinkFrameWriter_ops full_crypto)
    (shared_initiator_ok (SER := ser4cpp_reference) full_crypto)
    test_shared_initiator (test_key 7) 0 1 SessionLimits_default (test_writer 200)
    (fun ei er material => material = as_seq (test_key 7) ++ ei ++ er).
Proof.
  apply (proj2 (shared_secret_agreement (SER := ser4cpp_reference) full_crypto LinkFrameWriter_ops
           LinkFrameWriter_inv LinkFrameWriter_frame) test_shared_initiator 0%nat 1%nat).
  - split; [reflexivity|split; reflexivity].
  - exact default_limits_ok.
  - exact full_writer_inv.
  - by vm_compute.
Defined.

(** A key source and a key store with one key each. *)
Definition test_record : KeyRecord := KeyRecord_new 77 (replicate 32 5).
Definition test_consume (k : list KeyRecord) : option KeyRecord * list KeyRecord :=
  match k with [] => (None, []) | r :: k => (Some r, k) end.
Definition test_find (k : list KeyRecord) (id : Z) : option BufferBase * list KeyRecord :=
  match k with
  | r :: k' => if kr_id r =? id then (kr_key r, k') else (None, k)
  | [] => (None, [])
  end.

Definition test_qkd_initiator : QKDInitiatorHandshake (K := list KeyRecord) :=
  mkQKDInitiator CryptoSuite_default full_algorithms [test_record] None (replicate 8 0) 0 buffer_empty.

Lemma qkd_agreement_witness :
  completes (SER := ser4cpp_reference) full_crypto LinkFrameWriter_ops LinkFrameWriter_inv LinkFrameWriter_frame
    (QKDInitiator (SER := ser4cpp_reference) test_consume)
    (QKDResponder (SER := ser4cpp_reference) LinkFrameWriter_ops full_crypto test_find)
    (qkd_initiator_ok (SER := ser4cpp_reference) full_crypto)
    test_qkd_initiator [test_record] 0 1 SessionLimits_default (test_writer 200)
    (fun _ _ material => material = replicate 32 5).
Proof.
  apply (proj2 (qkd_agreement (SER := ser4cpp_reference) full_crypto LinkFrameWriter_ops
           LinkFrameWriter_inv LinkFrameWriter_frame test_consume test_find)
           test_qkd_initiator [test_record] 0%nat 1%nat).
  - split; [reflexivity|split; reflexivity].
  - exists test_record, (toy_buffer (replicate 32 5)), (toy_buffer (replicate 32 5)).
    split; [reflexivity|]. split; [reflexivity|]. split; [split; by vm_compute|].
    split; [reflexivity|]. split; reflexivity.
  - exact default_limits_ok.
  - exact full_writer_inv.
  - by vm_compute.
Defined.

Definition test_static (b : Z) : StaticKeys :=
  mkStaticKeys (toy_buffer (toy_base (as_seq (test_key b)))) (test_key b).

Definition test_public_initiator : PublicKeyInitiatorHandshake :=
  mkPublicKeyInitiator (test_static 3) (mkDHCryptoSuite HandshakeEphemeral_x25519 CryptoSuite_default)
    full_algorithms (Algorithms_DH_default full_crypto)
    (PresharedKeyCertificateHandler (static_public_key (test_static 4)))
    (mkKeyPair buffer_empty buffer_empty) 0 buffer_empty.

Definition test_public_responder : PublicKeyResponderHandshake :=
  mkPublicKeyResponder (test_static 4)
    (PresharedKeyCertificateHandler (static_public_key (test_static 3))).

Lemma public_key_agreement_witness :
  completes (SER := ser4cpp_reference) full_crypto LinkFrameWriter_ops LinkFrameWriter_inv LinkFrameWriter_frame
    PublicKeyInitiator
    (PublicKeyResponder (SER := ser4cpp_reference) LinkFrameWriter_ops full_crypto)
    (public_initiator_ok (SER := ser4cpp_reference) full_crypto)
    test_public_initiator test_public_responder 0 1 SessionLimits_default (test_writer 200)
    (triple_dh_material full_crypto (as_seq (test_key 3)) (as_seq (test_key 4))).
Proof.
  apply (proj2 (public_key_agreement (SER := ser4cpp_reference) full_crypto LinkFrameWriter_ops
           LinkFrameWriter_inv LinkFrameWriter_frame)
           test_public_initiator test_public_responder 0%nat 1%nat).
  - repeat split; reflexivity.
  - exact default_limits_ok.
  - exact full_writer_inv.
  - reflexivity.
  - discriminate.
  - split; [reflexivity|]. split; [apply Forall_nil_2|]. split; [by vm_compute|]. vm_compute. reflexivity.
  - split; [reflexivity|]. split; [apply Forall_nil_2|]. split; [by vm_compute|]. vm_compute. reflexivity.
  - by vm_compute.
Defined.
