(* ===== verification/CryptoLayer.v ===== *)
(** * The cryptographic layer

    [CryptoLayer] of [crypto/CryptoLayer.h] and [crypto/CryptoLayer.cpp], the
    common base of the initiator and the responder.

    The layer sits between a lower layer (an object of [ILowerLayer]) and an upper
    layer (an object of [IUpperLayer]) that may call back into it from its own
    handlers, so the handlers act on the whole world: the layer, the derived
    object [D], both neighbours, the clock and the source of random numbers.  The
    upper layer is any program over the three operations it is offered
    ([upper_prog]).  A handler is written with the notification of the upper layer
    as a parameter; [notify] ties the knot, with a bound on the depth of nested
    notifications.  Virtual functions are the record [virtuals].

    The operations of the lower layer are asynchronous: it does not call back from
    inside them, and its notifications are the entry points.

    Sequences are values here: [payload_data] is the payload itself and not a view
    of the buffer it was decrypted to or received in. *)

From stdpp Require Import base numbers list strings.
From Stdlib Require Import Lia ZArith.
From S2P Require Import Prelude Ser4cpp Enums Codec Messages CRC LinkParser FrameWriter LinkLayer.
From S2P Require Import Crypto SessionMode Session Chain Handshake.

(** ** The upper layer *)

(** A handler of the upper layer: it may ask whether the layer is ready, start a
    transmission and start a reception; its state is [U], and may have been changed
    by a nested notification when a call returns. *)
Inductive upper_prog (U : Type) :=
| UReturn (u : U)
| UIsTxReady (u : U) (k : U -> bool -> upper_prog U)
| UStartTx (u : U) (data : bytes) (k : U -> bool -> upper_prog U)
| UStartRx (u : U) (k : U -> bytes -> upper_prog U).
Arguments UReturn {U} _.
Arguments UIsTxReady {U} _ _.
Arguments UStartTx {U} _ _ _.
Arguments UStartRx {U} _ _.

(** ** State *)

Record CryptoLayer (W : Type) := mkCryptoLayer {
  cl_frame_writer : W;
  cl_statistics : SessionStatistics;
  cl_sessions : Sessions;
  cl_tx_state : TxState;
  cl_payload_buffer : bytes;
  cl_payload_data : bytes;
  (* IUpperLayer::is_open_flag of this layer *)
  cl_is_open : bool;
  (* ILowerLayer::upper_is_processing_rx_data of the object the upper layer calls:
     this layer, or the stack around it *)
  cl_upper_is_processing : bool;
  (* the upper layer calls the layer through a stack *)
  cl_in_stack : bool;
}.
Arguments mkCryptoLayer {W} _ _ _ _ _ _ _ _ _.
Arguments cl_frame_writer {W} _.
Arguments cl_statistics {W} _.
Arguments cl_sessions {W} _.
Arguments cl_tx_state {W} _.
Arguments cl_payload_buffer {W} _.
Arguments cl_payload_data {W} _.
Arguments cl_is_open {W} _.
Arguments cl_upper_is_processing {W} _.
Arguments cl_in_stack {W} _.

Section Setters.
Context {W : Type}.
Implicit Types x : CryptoLayer W.

Definition cl_set_io x (w : W) (st : SessionStatistics) (ss : Sessions) : CryptoLayer W :=
  mkCryptoLayer w st ss (cl_tx_state x) (cl_payload_buffer x) (cl_payload_data x) (cl_is_open x)
    (cl_upper_is_processing x) (cl_in_stack x).
Definition cl_set_sessions x (ss : Sessions) : CryptoLayer W :=
  cl_set_io x (cl_frame_writer x) (cl_statistics x) ss.
Definition cl_set_writer x (w : W) : CryptoLayer W :=
  cl_set_io x w (cl_statistics x) (cl_sessions x).
Definition cl_set_tx_state x (t : TxState) : CryptoLayer W :=
  mkCryptoLayer (cl_frame_writer x) (cl_statistics x) (cl_sessions x) t (cl_payload_buffer x)
    (cl_payload_data x) (cl_is_open x) (cl_upper_is_processing x) (cl_in_stack x).
Definition cl_set_payload x (buffer data : bytes) : CryptoLayer W :=
  mkCryptoLayer (cl_frame_writer x) (cl_statistics x) (cl_sessions x) (cl_tx_state x) buffer data
    (cl_is_open x) (cl_upper_is_processing x) (cl_in_stack x).
Definition cl_set_open x (b : bool) : CryptoLayer W :=
  mkCryptoLayer (cl_frame_writer x) (cl_statistics x) (cl_sessions x) (cl_tx_state x)
    (cl_payload_buffer x) (cl_payload_data x) b (cl_upper_is_processing x) (cl_in_stack x).
Definition cl_set_processing x (b : bool) : CryptoLayer W :=
  mkCryptoLayer (cl_frame_writer x) (cl_statistics x) (cl_sessions x) (cl_tx_state x)
    (cl_payload_buffer x) (cl_payload_data x) (cl_is_open x) b (cl_in_stack x).
End Setters.

(** [CryptoLayer::CryptoLayer]; the two memories are the sessions' encryption
    buffers and [buffer] the payload buffer. *)
Definition CryptoLayer_new `{SER : Ser4cpp} {W} (c : CryptoState) (ttl_pad_ms : Z) (writer : W)
    (memory1 memory2 buffer : bytes) (in_stack : bool) : CryptoLayer W :=
  mkCryptoLayer writer no_statistics
    (mkSessions (Session_new c ttl_pad_ms memory1) (Session_new c ttl_pad_ms memory2))
    TxState_new buffer [] false false in_stack.

(** The layer, the derived object, the neighbours, the clock and the random
    numbers; and the log of what was handed to the lower layer, with whether the
    lower layer was ready. *)
Record World (W D L U : Type) := mkWorld {
  w_layer : CryptoLayer W;
  w_derived : D;
  w_lower : L;
  w_upper : U;
  (* IUpperLayer::is_open_flag of the upper layer *)
  w_upper_open : bool;
  w_ticks : nat;
  w_draws : nat;
  w_sent : list (bool * bytes);
}.
Arguments mkWorld {W D L U} _ _ _ _ _ _ _ _.
Arguments w_layer {W D L U} _.
Arguments w_derived {W D L U} _.
Arguments w_lower {W D L U} _.
Arguments w_upper {W D L U} _.
Arguments w_upper_open {W D L U} _.
Arguments w_ticks {W D L U} _.
Arguments w_draws {W D L U} _.
Arguments w_sent {W D L U} _.

(** ** Actions *)

(** [None]: the bound on nested notifications was not enough. *)
Definition act (S A : Type) : Type := S -> option (outcome (A * S)).

Definition aret {S A} (a : A) : act S A := fun w => Some (Done (a, w)).
Definition abind {S A B} (m : act S A) (k : A -> act S B) : act S B := fun w =>
  match m w with
  | None => None
  | Some (Done (a, w)) => k a w
  | Some Exit => Some Exit
  | Some Throw => Some Throw
  | Some Crash => Some Crash
  end.
Definition aget {S A} (f : S -> A) : act S A := fun w => Some (Done (f w, w)).
Definition amodify {S} (f : S -> S) : act S unit := fun w => Some (Done (tt, f w)).
(** A computation on its own that may end the process. *)
Definition alift {S A} (f : S -> outcome A) : act S A := fun w =>
  match f w with
  | Done a => Some (Done (a, w))
  | Exit => Some Exit
  | Throw => Some Throw
  | Crash => Some Crash
  end.
Definition out_of_fuel {S A} : act S A := fun _ => None.

Declare Scope act_scope.
Delimit Scope act_scope with act.
Notation "x <-- m ; k" := (abind m (fun x : _ => k))
  (at level 20, m at level 100, k at level 200) : act_scope.
Notation "m ;;; k" := (abind m (fun _ => k))
  (at level 100, k at level 200, right associativity) : act_scope.
Open Scope act_scope.

Definition awhen {S} (b : bool) (m : act S unit) : act S unit := if b then m else aret tt.

Section Layer.
Context `{SER : Ser4cpp} {W : Type} (fw : frame_writer W) (c : CryptoState).
Context {D L U : Type} `{LL : !LowerLayer L}.
(** The handlers of the upper layer and the readings of the clock. *)
Context (upper : upper_call -> U -> upper_prog U) (clock : nat -> Z).

Local Abbreviation world := (World W D L U).
Local Abbreviation action := (act world).

Definition set_layer (f : CryptoLayer W -> CryptoLayer W) : action unit :=
  amodify (fun w => mkWorld (f (w_layer w)) (w_derived w) (w_lower w) (w_upper w) (w_upper_open w)
                      (w_ticks w) (w_draws w) (w_sent w)).
Definition set_derived (f : D -> D) : action unit :=
  amodify (fun w => mkWorld (w_layer w) (f (w_derived w)) (w_lower w) (w_upper w) (w_upper_open w)
                      (w_ticks w) (w_draws w) (w_sent w)).
Definition set_upper_state (u : U) : action unit :=
  amodify (fun w => mkWorld (w_layer w) (w_derived w) (w_lower w) u (w_upper_open w)
                      (w_ticks w) (w_draws w) (w_sent w)).
Definition set_upper_open (b : bool) : action unit :=
  amodify (fun w => mkWorld (w_layer w) (w_derived w) (w_lower w) (w_upper w) b
                      (w_ticks w) (w_draws w) (w_sent w)).

Definition layer : action (CryptoLayer W) := aget w_layer.

(** [executor->get_time()] *)
Definition get_time : action Z := fun w =>
  Some (Done (clock (w_ticks w),
    mkWorld (w_layer w) (w_derived w) (w_lower w) (w_upper w) (w_upper_open w)
      (S (w_ticks w)) (w_draws w) (w_sent w))).

(** The number of the next random draw. *)
Definition next_draw : action nat := fun w =>
  Some (Done (w_draws w,
    mkWorld (w_layer w) (w_derived w) (w_lower w) (w_upper w) (w_upper_open w)
      (w_ticks w) (S (w_draws w)) (w_sent w))).

(** The calls on the lower layer. *)
Definition lower_ready : action bool := aget (fun w => lower_is_tx_ready (w_lower w)).

Definition lower_transmit (frame : bytes) : action bool := fun w =>
  let '(ok, l) := lower_start_tx (w_lower w) frame in
  Some (Done (ok,
    mkWorld (w_layer w) (w_derived w) l (w_upper w) (w_upper_open w) (w_ticks w) (w_draws w)
      ((lower_is_tx_ready (w_lower w), frame) :: w_sent w))).

Definition lower_receive : action bytes := fun w =>
  let '(data, l) := lower_start_rx (w_lower w) in
  Some (Done (data,
    mkWorld (w_layer w) (w_derived w) l (w_upper w) (w_upper_open w) (w_ticks w) (w_draws w)
      (w_sent w))).

(** ** Virtual functions *)

Record virtuals := mkVirtuals {
  v_reset_state_on_close_from_lower : action unit;
  v_supports : Function -> bool;
  v_on_parse_error : Function -> ParseError -> action unit;
  v_on_pre_tx_ready : action unit;
  v_on_session_nonce_change : Z -> Z -> action unit;
  v_on_request : RequestHandshakeBegin -> bytes -> Z -> action unit;
  v_on_reply : ReplyHandshakeBegin -> bytes -> Z -> action unit;
  v_on_error : ReplyHandshakeError -> bytes -> Z -> action unit;
  v_on_auth_session : SessionData -> bytes -> Z -> action unit;
  v_on_lower_open_impl : action unit;
}.

Section Handlers.
(** The calls on the upper layer and the derived class. *)
Context (notify : upper_call -> action unit) (v : virtuals).

(** ** Transmission *)

Definition can_transmit_session_data : action bool :=
  x <-- layer;
  ready <-- lower_ready;
  aret (s_valid (active (cl_sessions x)) && ready && TxState_is_ready_tx (cl_tx_state x)).

(** The result and the rest of the data. *)
Definition format_active (now : Z) (remainder : bytes) : action ((error_code + bytes) * bytes) :=
  x <-- layer;
  r <-- alift (fun _ => Session_format_session_data fw (active (cl_sessions x)) (cl_frame_writer x)
                          now remainder);
  let '(res, s, w, rest) := r in
  set_layer (fun x => cl_set_io x w (cl_statistics x)
                        (mkSessions s (pending_session (cl_sessions x))));;;
  aret (res, rest).

Definition reset_active : action unit :=
  x <-- layer;
  s <-- alift (fun _ => Session_reset c (active (cl_sessions x)));
  set_layer (fun x => cl_set_sessions x (mkSessions s (pending_session (cl_sessions x)))).

Definition check_transmit : action unit :=
  can <-- can_transmit_session_data;
  if negb can then aret tt
  else
    x <-- layer;
    let remainder := tx_remainder (cl_tx_state x) in
    now <-- get_time;
    r <-- format_active now remainder;
    match r with
    | (inl _, _) => reset_active;;; notify on_lower_close
    | (inr frame, remainder) =>
        set_layer (fun x => cl_set_tx_state x (snd (TxState_begin_transmit (cl_tx_state x) remainder)));;;
        lower_transmit frame;;;
        x <-- layer;
        v_on_session_nonce_change v (s_rx_nonce (active (cl_sessions x)))
          (s_tx_nonce (active (cl_sessions x)))
    end.

(** Which session [Session&] refers to. *)
Inductive which_session := Active | Pending.

Definition get_session (i : which_session) (ss : Sessions) : Session :=
  match i with Active => active ss | Pending => pending_session ss end.
Definition put_session (i : which_session) (ss : Sessions) (s : Session) : Sessions :=
  match i with
  | Active => mkSessions s (pending_session ss)
  | Pending => mkSessions (active ss) s
  end.

Definition transmit_session_auth (i : which_session) : action bool :=
  x <-- layer;
  let remainder := tx_remainder (cl_tx_state x) in
  let has_payload := negb (is_nil remainder) in
  now <-- get_time;
  r <-- alift (fun _ => Session_format_session_auth fw (get_session i (cl_sessions x))
                          (cl_frame_writer x) now remainder);
  let '(res, s, w, remainder) := r in
  set_layer (fun x => cl_set_io x w (cl_statistics x) (put_session i (cl_sessions x) s));;;
  match res with
  | inl _ => aret false
  | inr frame =>
      awhen has_payload
        (set_layer (fun x => cl_set_tx_state x
                               (snd (TxState_begin_transmit (cl_tx_state x) remainder))));;;
      lower_transmit frame
  end.

Definition is_tx_ready : action bool :=
  x <-- layer;
  open <-- aget w_upper_open;
  aret (cl_is_open x && open && TxState_is_idle (cl_tx_state x)).

Definition start_tx_from_upper (data : bytes) : action bool :=
  ready <-- is_tx_ready;
  if ready
  then
    set_layer (fun x => cl_set_tx_state x (TxState_initialize (cl_tx_state x) data));;;
    check_transmit;;;
    aret true
  else aret false.

(** ** Reception *)

Definition activate_pending : action unit :=
  x <-- layer;
  ss <-- alift (fun _ => Sessions_activate_pending c (cl_sessions x));
  set_layer (fun x => cl_set_sessions x ss).

(** [validate] of the session [i], into the payload buffer. *)
Definition validate_with
    (validate : Session -> SessionStatistics -> SessionData -> Z -> bytes ->
                outcome ((error_code + bytes) * Session * SessionStatistics * bytes))
    (i : which_session) (msg : SessionData) (now : Z) : action (error_code + bytes) :=
  x <-- layer;
  r <-- alift (fun _ => validate (get_session i (cl_sessions x)) (cl_statistics x) msg now
                          (cl_payload_buffer x));
  let '(res, s, st, buffer) := r in
  set_layer (fun x => cl_set_payload
    (cl_set_io x (cl_frame_writer x) st (put_session i (cl_sessions x) s)) buffer (cl_payload_data x));;;
  aret res.

Definition set_payload_data (payload : bytes) : action unit :=
  set_layer (fun x => cl_set_payload x (cl_payload_buffer x) payload).

Definition on_session_data (msg : SessionData) (raw_data : bytes) (now : Z) : action unit :=
  res <-- validate_with Session_validate_session_data Active msg now;
  match res with
  | inl _ => aret tt
  | inr payload =>
      set_payload_data payload;;;
      x <-- layer;
      v_on_session_nonce_change v (s_rx_nonce (active (cl_sessions x)))
        (s_tx_nonce (active (cl_sessions x)));;;
      notify on_lower_rx_ready
  end.

Definition on_message (msg : SessionData) (raw_data : bytes) (now : Z) : action unit :=
  if am_nonce (sd_metadata msg) =? 0 then v_on_auth_session v msg raw_data now
  else on_session_data msg raw_data now.

(** [handle_message] for the message type with this parser and handler. *)
Definition handle_message {M} (m : message M) (handler : M -> bytes -> Z -> action unit)
    (message : bytes) (now : Z) : action unit :=
  match m_read m message with
  | inl err => v_on_parse_error v (m_function m) err
  | inr msg => handler msg message now
  end.

Definition process (message : bytes) : action unit :=
  now <-- get_time;
  match message with
  | [] => aret tt
  | raw_function :: _ =>
      let function := Function_from_type raw_function in
      if negb (v_supports v function) then aret tt
      else
        match function with
        | Function_request_handshake_begin =>
            handle_message RequestHandshakeBegin_message (v_on_request v) message now
        | Function_reply_handshake_begin =>
            handle_message ReplyHandshakeBegin_message (v_on_reply v) message now
        | Function_reply_handshake_error =>
            handle_message ReplyHandshakeError_message (v_on_error v) message now
        | Function_session_data =>
            handle_message SessionData_message on_message message now
        | _ => aret tt
        end
  end.

Definition try_read_one_from_lower : action bool :=
  ready <-- lower_ready;
  x <-- layer;
  if negb ready || negb (is_nil (cl_payload_data x)) then aret false
  else
    message <-- lower_receive;
    if is_nil message then aret false
    else process message;;; aret true.

Fixpoint try_read_loop (fuel : nat) : action unit :=
  match fuel with
  | O => out_of_fuel
  | S fuel =>
      again <-- try_read_one_from_lower;
      if again then try_read_loop fuel else aret tt
  end.

(** One round per message that is left, and one that finds none. *)
Definition try_read_from_lower : action unit :=
  n <-- aget (fun w => length (lower_chunks (w_lower w)));
  try_read_loop (S n).

Definition discard_rx_data : action unit := set_payload_data [].

Definition start_rx_from_upper_impl : action bytes :=
  x <-- layer;
  if is_nil (cl_payload_data x) then try_read_from_lower;;; aret []
  else aret (cl_payload_data x).

(** [ILowerLayer::start_rx_from_upper] of this layer, or of a stack, whose
    [discard_rx_data] and [start_rx_from_upper_impl] are this layer's and whose flag
    is its own. *)
Definition start_rx_from_upper : action bytes :=
  x <-- layer;
  awhen (cl_upper_is_processing x)
    (discard_rx_data;;; set_layer (fun x => cl_set_processing x false));;;
  ret <-- start_rx_from_upper_impl;
  awhen (negb (is_nil ret)) (set_layer (fun x => cl_set_processing x true));;;
  aret ret.

(** ** Events from the lower layer, with the inline parts of [IUpperLayer] *)

Definition on_lower_open_event : action bool :=
  x <-- layer;
  if cl_is_open x then aret false
  else
    set_layer (fun x => cl_set_open x true);;;
    v_on_lower_open_impl v;;;
    aret true.

Definition reset_both : action unit :=
  x <-- layer;
  ss <-- alift (fun _ => Sessions_reset_both c (cl_sessions x));
  set_layer (fun x => cl_set_sessions x ss).

(** [reset_this_lower_layer] resets the layer's own flag; a stack's flag stays. *)
Definition reset_this_lower_layer (x : CryptoLayer W) : CryptoLayer W :=
  if cl_in_stack x then x else cl_set_processing x false.

Definition on_lower_close_impl : action unit :=
  v_reset_state_on_close_from_lower v;;;
  reset_both;;;
  set_payload_data [];;;
  notify on_lower_close;;;
  set_layer (fun x => cl_set_tx_state x (TxState_reset (cl_tx_state x)));;;
  set_layer reset_this_lower_layer.

Definition on_lower_close_event : action bool :=
  x <-- layer;
  if cl_is_open x
  then
    set_layer (fun x => cl_set_open x false);;;
    on_lower_close_impl;;;
    aret true
  else aret false.

Definition on_lower_tx_ready_impl : action unit :=
  x <-- layer;
  let '(user_data_tx_complete, tx) := TxState_on_tx_complete (cl_tx_state x) in
  set_layer (fun x => cl_set_tx_state x tx);;;
  v_on_pre_tx_ready v;;;
  awhen user_data_tx_complete (notify on_lower_tx_ready);;;
  try_read_from_lower;;;
  check_transmit.

Definition on_lower_tx_ready_event : action bool :=
  x <-- layer;
  if cl_is_open x then on_lower_tx_ready_impl;;; aret true else aret false.

Definition on_lower_rx_ready_event : action bool :=
  x <-- layer;
  if cl_is_open x then try_read_from_lower;;; aret true else aret false.

(** ** Running a handler of the upper layer *)

Fixpoint run_upper (p : upper_prog U) : action unit :=
  match p with
  | UReturn u => set_upper_state u
  | UIsTxReady u k =>
      set_upper_state u;;;
      r <-- is_tx_ready;
      u <-- aget w_upper;
      run_upper (k u r)
  | UStartTx u data k =>
      set_upper_state u;;;
      r <-- start_tx_from_upper data;
      u <-- aget w_upper;
      run_upper (k u r)
  | UStartRx u k =>
      set_upper_state u;;;
      r <-- start_rx_from_upper;
      u <-- aget w_upper;
      run_upper (k u r)
  end.

(** The inline functions of [IUpperLayer]: the flag the call requires and the
    flag it sets. *)
Definition call_upper (call : upper_call) : action unit :=
  open <-- aget w_upper_open;
  u <-- aget w_upper;
  match call with
  | on_lower_open => if open then aret tt else set_upper_open true;;; run_upper (upper on_lower_open u)
  | on_lower_close => if open then set_upper_open false;;; run_upper (upper on_lower_close u) else aret tt
  | on_lower_tx_ready => if open then run_upper (upper on_lower_tx_ready u) else aret tt
  | on_lower_rx_ready => if open then run_upper (upper on_lower_rx_ready u) else aret tt
  end.
End Handlers.

(** The notification of the upper layer, at most [fuel] deep, for a derived class
    whose virtual functions themselves notify it. *)
Fixpoint notify (v : (upper_call -> action unit) -> virtuals) (fuel : nat) (call : upper_call)
  : action unit :=
  match fuel with
  | O => out_of_fuel
  | S fuel => call_upper (notify v fuel) (v (notify v fuel)) call
  end.

(** ** Entry points

    What the lower layer and, outside of its handlers, the upper layer call. *)
Inductive layer_event :=
| EvOpen | EvClose | EvTxReady | EvRxReady
| EvStartTx (data : bytes) | EvStartRx.

Definition layer_step (v : (upper_call -> action unit) -> virtuals) (fuel : nat) (e : layer_event)
  : action unit :=
  let n := notify v fuel in
  match e with
  | EvOpen => on_lower_open_event (v n);;; aret tt
  | EvClose => on_lower_close_event n (v n);;; aret tt
  | EvTxReady => on_lower_tx_ready_event n (v n);;; aret tt
  | EvRxReady => on_lower_rx_ready_event n (v n);;; aret tt
  | EvStartTx data => start_tx_from_upper n (v n) data;;; aret tt
  | EvStartRx => start_rx_from_upper n (v n);;; aret tt
  end.
End Layer.
