(* ===== verification/LayerLogic.v ===== *)
(** * Invariants of the cryptographic layer

    A program logic for the actions of [CryptoLayer]: [hoare P m Q] says that
    whenever [m] returns from a world whose view satisfies [P], its result and the
    new view satisfy [Q].  The view is what the invariants are about: the derived
    object, which sessions are valid, whether both layers are open, whether the
    lower layer is ready, and whether everything sent so far was sent to a ready
    lower layer.

    An invariant is shown once for the base class: [layer_step_ok] derives it for
    every entry point, for every upper layer and any depth of nested calls, from
    what the virtual functions of a derived class guarantee ([virtuals_ok]). *)

From stdpp Require Import base numbers list strings.
From Stdlib Require Import Lia ZArith.
From S2P Require Import Prelude Ser4cpp Enums Codec Messages CRC LinkParser FrameWriter LinkLayer.
From S2P Require Import Crypto SessionMode Session Chain Handshake CryptoLayer.

(** The documented behaviour of the lower layer: to receive does not change
    whether it is ready to transmit, and to transmit does not change what is to be
    received. *)
Class LowerLayerLaws (L : Type) `{LL : !LowerLayer L} : Prop := {
  rx_keeps_ready l : lower_is_tx_ready (lower_start_rx l).2 = lower_is_tx_ready l;
  tx_keeps_chunks l data : lower_chunks (lower_start_tx l data).2 = lower_chunks l;
}.

Record View (D : Type) := mkView {
  vw_derived : D;
  vw_active : bool;
  vw_pending : bool;
  vw_upper : bool;
  vw_open : bool;
  vw_ready : bool;
  vw_sent_ready : bool;
}.
Arguments mkView {D} _ _ _ _ _ _ _.
Arguments vw_derived {D} _.
Arguments vw_active {D} _.
Arguments vw_pending {D} _.
Arguments vw_upper {D} _.
Arguments vw_open {D} _.
Arguments vw_ready {D} _.
Arguments vw_sent_ready {D} _.

Section Views.
Context {D : Type}.
Implicit Types v : View D.

Definition on_derived (f : D -> D) v : View D :=
  mkView (f (vw_derived v)) (vw_active v) (vw_pending v) (vw_upper v) (vw_open v) (vw_ready v)
    (vw_sent_ready v).
Definition with_active (b : bool) v : View D :=
  mkView (vw_derived v) b (vw_pending v) (vw_upper v) (vw_open v) (vw_ready v) (vw_sent_ready v).
Definition with_pending (b : bool) v : View D :=
  mkView (vw_derived v) (vw_active v) b (vw_upper v) (vw_open v) (vw_ready v) (vw_sent_ready v).
Definition with_upper (b : bool) v : View D :=
  mkView (vw_derived v) (vw_active v) (vw_pending v) b (vw_open v) (vw_ready v) (vw_sent_ready v).
Definition with_open (b : bool) v : View D :=
  mkView (vw_derived v) (vw_active v) (vw_pending v) (vw_upper v) b (vw_ready v) (vw_sent_ready v).
Definition with_ready (b : bool) v : View D :=
  mkView (vw_derived v) (vw_active v) (vw_pending v) (vw_upper v) (vw_open v) b (vw_sent_ready v).
End Views.

Section Logic.
Context `{SER : Ser4cpp} {W : Type} (fw : frame_writer W) (c : CryptoState).
Context {D L U : Type} `{LL : !LowerLayer L} `{LAWS : !LowerLayerLaws L}.
Context (upper : upper_call -> U -> upper_prog U) (clock : nat -> Z).

Local Abbreviation world := (World W D L U).
Local Abbreviation action := (act world).
Local Abbreviation vpred := (View D -> Prop).

Definition view (w : world) : View D :=
  mkView (w_derived w) (s_valid (active (cl_sessions (w_layer w))))
    (s_valid (pending_session (cl_sessions (w_layer w)))) (w_upper_open w) (cl_is_open (w_layer w))
    (lower_is_tx_ready (w_lower w)) (forallb fst (w_sent w)).

Definition hoare {A} (P : vpred) (m : action A) (Q : A -> vpred) : Prop :=
  forall w a w', P (view w) -> m w = Some (Done (a, w')) -> Q a (view w').

Lemma hoare_ret {A} (P : vpred) (a : A) (Q : A -> vpred) :
  (forall v, P v -> Q a v) -> hoare P (aret a) Q.
Proof. intros H w b w' HP [= <- <-]. auto. Qed.

Lemma hoare_bind {A B} (P : vpred) (m : action A) (k : A -> action B) (M : A -> vpred) (Q : B -> vpred) :
  hoare P m M -> (forall a, hoare (M a) (k a) Q) -> hoare P (abind m k) Q.
Proof.
  intros Hm Hk w b w' HP H. unfold abind in H.
  destruct (m w) as [[[a w1]| | |]|] eqn:E; try done. exact (Hk a w1 b w' (Hm w a w1 HP E) H).
Qed.

Lemma hoare_conseq {A} (P P' : vpred) (m : action A) (Q Q' : A -> vpred) :
  hoare P' m Q' -> (forall v, P v -> P' v) -> (forall a v, Q' a v -> Q a v) -> hoare P m Q.
Proof. intros H HP HQ w a w' Hw E. eauto. Qed.

Lemma hoare_fuel {A} (P : vpred) (Q : A -> vpred) : hoare P out_of_fuel Q.
Proof. by intros w a w'. Qed.

(** An action that leaves the view alone. *)
Definition pure_action {A} (m : action A) : Prop :=
  forall w a w', m w = Some (Done (a, w')) -> view w' = view w.

Lemma hoare_pure {A} (P : vpred) (m : action A) : pure_action m -> hoare P m (fun _ => P).
Proof. intros H w a w' HP E. by rewrite (H _ _ _ E). Qed.

Lemma pure_bind {A B} (m : action A) (k : A -> action B) :
  pure_action m -> (forall a, pure_action (k a)) -> pure_action (abind m k).
Proof.
  intros Hm Hk w b w' H. unfold abind in H.
  destruct (m w) as [[[a w1]| | |]|] eqn:E; try done.
  rewrite (Hk _ _ _ _ H). exact (Hm _ _ _ E).
Qed.

Lemma pure_ret {A} (a : A) : pure_action (aret a).
Proof. by intros w b w' [= <- <-]. Qed.

Lemma pure_get {A} (f : world -> A) : pure_action (aget f).
Proof. by intros w b w' [= <- <-]. Qed.

Lemma pure_lift {A} (f : world -> outcome A) : pure_action (alift f).
Proof. intros w b w' H. unfold alift in H. destruct (f w); try done. by injection H as <- <-. Qed.

Lemma pure_time : pure_action (get_time clock).
Proof. by intros w b w' [= <- <-]. Qed.

Lemma pure_draw : pure_action next_draw.
Proof. by intros w b w' [= <- <-]. Qed.

Lemma pure_when b (m : action unit) : pure_action m -> pure_action (awhen b m).
Proof. intros H. destruct b; [done|apply pure_ret]. Qed.

(** A change of the layer that the view does not show. *)
Definition invisible (f : CryptoLayer W -> CryptoLayer W) : Prop :=
  forall x, cl_is_open (f x) = cl_is_open x /\
    s_valid (active (cl_sessions (f x))) = s_valid (active (cl_sessions x)) /\
    s_valid (pending_session (cl_sessions (f x))) = s_valid (pending_session (cl_sessions x)).

Lemma pure_set_layer f : invisible f -> pure_action (set_layer f).
Proof.
  intros H w a w' [= <- <-]. unfold view. cbn.
  destruct (H (w_layer w)) as (->&->&->). done.
Qed.

Lemma view_read {A} (P : vpred) (f : world -> A) (Q : A -> vpred) :
  (forall w, P (view w) -> Q (f w) (view w)) -> hoare P (aget f) Q.
Proof. intros H w a w' HP [= <- <-]. auto. Qed.

Lemma hoare_derived (P : vpred) f :
  hoare (fun v => P (on_derived f v)) (set_derived f) (fun _ => P).
Proof. by intros w a w' HP [= <- <-]. Qed.

(** *** The lower layer *)

Lemma hoare_ready (P : vpred) :
  hoare P lower_ready (fun b v => P v /\ vw_ready v = b).
Proof. by intros w a w' HP [= <- <-]. Qed.

(** To transmit needs a lower layer that is ready. *)
Lemma hoare_transmit (P : vpred) frame :
  (forall v b, P v -> P (with_ready b v)) ->
  hoare (fun v => P v /\ vw_ready v = true) (lower_transmit frame) (fun _ => P).
Proof.
  intros HR w a w' [HP Hready] H. unfold lower_transmit in H.
  destruct (lower_start_tx (w_lower w) frame) as [ok l] eqn:E. injection H as <- <-.
  cbn in Hready. specialize (HR _ (lower_is_tx_ready l) HP).
  unfold view, with_ready in *. cbn in *. by rewrite Hready.
Qed.

Lemma pure_receive : pure_action lower_receive.
Proof.
  intros w a w' H. unfold lower_receive in H.
  pose proof (rx_keeps_ready (w_lower w)) as E.
  destruct (lower_start_rx (w_lower w)) as [data l]. injection H as <- <-.
  unfold view. cbn in *. by rewrite E.
Qed.

Lemma hoare_bind_pure {A B} (P : vpred) (m : action A) (k : A -> action B) (Q : B -> vpred) :
  pure_action m -> (forall a, hoare P (k a) Q) -> hoare P (abind m k) Q.
Proof. intros Hm Hk. eapply hoare_bind; [by apply hoare_pure|exact Hk]. Qed.

Lemma hoare_seq {A B} (P M : vpred) (m : action A) (k : A -> action B) (Q : B -> vpred) :
  hoare P m (fun _ => M) -> (forall a, hoare M (k a) Q) -> hoare P (abind m k) Q.
Proof. intros Hm Hk. exact (hoare_bind _ _ _ _ _ Hm Hk). Qed.

Lemma hoare_absurd {A} (P : vpred) (m : action A) (Q : A -> vpred) :
  (forall v, ~ P v) -> hoare P m Q.
Proof. intros H w a w' HP _. by destruct (H _ HP). Qed.

Lemma hoare_pre {A} (P P' : vpred) (m : action A) (Q : A -> vpred) :
  (forall v, P v -> P' v) -> hoare P' m Q -> hoare P m Q.
Proof. intros HP H w a w' Hw E. eauto. Qed.
End Logic.

Create HintDb pure.
#[export] Hint Resolve pure_ret pure_get pure_lift pure_time pure_draw pure_receive pure_when : pure.

(** ** Sessions *)

Section SessionValidity.
Context `{SER : Ser4cpp} {W : Type} (fw : frame_writer W) (c : CryptoState).

Lemma format_keeps_valid s (w : W) now data res s' w' rest :
  Session_format_session_data fw s w now data = Done (res, s', w', rest) -> s_valid s' = s_valid s.
Proof.
  unfold Session_format_session_data, format_session_data_no_nonce_check. intros H. done_cases.
Qed.

Lemma format_auth_keeps_valid s (w : W) now data res s' w' rest :
  Session_format_session_auth fw s w now data = Done (res, s', w', rest) -> s_valid s' = s_valid s.
Proof.
  unfold Session_format_session_auth, format_session_data_no_nonce_check. intros H. done_cases.
Qed.

Lemma validate_keeps_valid s st msg now dest res s' st' dest' :
  Session_validate_session_data s st msg now dest = Done (res, s', st', dest') -> s_valid s' = s_valid s.
Proof.
  unfold Session_validate_session_data, validate_session_data_with_nonce_func. intros H. done_cases.
Qed.

Lemma validate_auth_keeps_valid s st msg now dest res s' st' dest' :
  Session_validate_session_auth s st msg now dest = Done (res, s', st', dest') -> s_valid s' = s_valid s.
Proof.
  unfold Session_validate_session_auth, validate_session_data_with_nonce_func. intros H. done_cases.
Qed.

(** An accepted message was accepted by a valid session. *)
Lemma validate_auth_valid s st msg now dest payload s' st' dest' :
  Session_validate_session_auth s st msg now dest = Done (inr payload, s', st', dest') -> s_valid s = true.
Proof.
  unfold Session_validate_session_auth, validate_session_data_with_nonce_func. intros H.
  destruct (s_valid s) eqn:E; [done|]. simpl in H. done.
Qed.

Lemma reset_invalidates s s' : Session_reset c s = Done s' -> s_valid s' = false.
Proof. unfold Session_reset. intros H. done_cases. Qed.
End SessionValidity.

(** ** The base class *)

Section Base.
Context `{SER : Ser4cpp} {W : Type} (fw : frame_writer W) (c : CryptoState).
Context {D L U : Type} `{LL : !LowerLayer L} `{LAWS : !LowerLayerLaws L}.
Context (upper : upper_call -> U -> upper_prog U) (clock : nat -> Z).

Local Abbreviation world := (World W D L U).
Local Abbreviation action := (act world).
Local Abbreviation vpred := (View D -> Prop).
Local Abbreviation vtable := (virtuals (W := W) (D := D) (L := L) (U := U)).

Ltac pure_step := first
  [ apply pure_ret | apply pure_get | apply pure_lift | apply pure_time | apply pure_draw
  | apply pure_receive | apply pure_when | apply pure_bind; [|intros ?] ].

Ltac no_view := apply pure_set_layer; intros x; by repeat split.

Lemma pure_set_payload data : pure_action (set_payload_data (W := W) (D := D) (L := L) (U := U) data).
Proof. no_view. Qed.

Lemma pure_set_tx f :
  pure_action (set_layer (D := D) (L := L) (U := U) (fun x : CryptoLayer W => cl_set_tx_state x (f x))).
Proof. no_view. Qed.

Lemma pure_set_processing b :
  pure_action (set_layer (D := D) (L := L) (U := U) (fun x : CryptoLayer W => cl_set_processing x b)).
Proof. no_view. Qed.

Lemma pure_reset_lower :
  pure_action (set_layer (D := D) (L := L) (U := U) (reset_this_lower_layer (W := W))).
Proof.
  apply pure_set_layer; intros x. unfold reset_this_lower_layer. destruct (cl_in_stack x); by repeat split.
Qed.

Lemma pure_set_writer w :
  pure_action (set_layer (D := D) (L := L) (U := U) (fun x : CryptoLayer W => cl_set_writer x w)).
Proof. no_view. Qed.

Lemma pure_format_active now data : pure_action (format_active fw now data : action _).
Proof.
  intros w a w' H. unfold format_active, abind, layer, aget in H. cbn in H.
  unfold alift in H. destruct (Session_format_session_data _ _ _ _ _) as [[[[res s] wr] rest]| | |] eqn:E; try done.
  injection H as <- <-. apply format_keeps_valid in E. unfold view. cbn. by rewrite E.
Qed.

Lemma pure_validate_with validate i msg now :
  (forall s st m t dest res s' st' dest',
     validate s st m t dest = Done (res, s', st', dest') -> s_valid s' = s_valid s) ->
  pure_action (validate_with validate i msg now : action _).
Proof.
  intros Hv w a w' H. unfold validate_with, abind, layer, aget, alift in H. cbn in H.
  destruct (validate _ _ _ _ _) as [[[[res s] st] dest]| | |] eqn:E; try done.
  injection H as <- <-. apply Hv in E. unfold view. cbn. by destruct i; cbn in *; rewrite E.
Qed.

(** [transmit_session_auth] needs a lower layer that is ready. *)
Lemma transmit_auth_ok (P : vpred) i :
  (forall v b, P v -> P (with_ready b v)) ->
  hoare (fun v => P v /\ vw_ready v = true) (transmit_session_auth fw clock i : action bool) (fun _ => P).
Proof.
  intros HR w a w' HP H.
  unfold transmit_session_auth, abind, layer, aget, alift, get_time in H. cbn in H.
  destruct (Session_format_session_auth _ _ _ _ _) as [[[[res s] wr] rest]| | |] eqn:E; try done.
  apply format_auth_keeps_valid in E. cbn in H.
  set (w1 := mkWorld (cl_set_io (w_layer w) wr (cl_statistics (w_layer w))
               (put_session i (cl_sessions (w_layer w)) s)) (w_derived w) (w_lower w) (w_upper w)
               (w_upper_open w) (S (w_ticks w)) (w_draws w) (w_sent w)) in H.
  assert (view w1 = view w) as Hv by (unfold view, w1; destruct i; cbn in *; by rewrite E).
  destruct res as [ec|frame]; [injection H as <- <-; fold w1; rewrite Hv; tauto|].
  refine (hoare_bind _ _ _ (fun _ v => P v /\ vw_ready v = true) (fun _ => P) _ _ w1 a w' _ H).
  - apply hoare_pure, pure_when, pure_set_tx.
  - intros []. by apply hoare_transmit.
  - by rewrite Hv.
Qed.

Lemma reset_active_ok (P : vpred) :
  hoare (fun v => P (with_active false v)) (reset_active c : action unit) (fun _ => P).
Proof.
  intros w a w' HP H. unfold reset_active, abind, layer, aget, alift in H. cbn in H.
  destruct (Session_reset c _) as [s| | |] eqn:E; try done. injection H as <- <-.
  apply reset_invalidates in E. unfold view, with_active in *. cbn in *. by rewrite E.
Qed.

Lemma reset_both_ok (P : vpred) :
  hoare (fun v => P (with_active false (with_pending false v))) (reset_both c : action unit) (fun _ => P).
Proof.
  intros w a w' HP H. unfold reset_both, abind, layer, aget, alift, Sessions_reset_both in H. cbn in H.
  destruct (Session_reset c (active _)) as [s1| | |] eqn:E1; try done. cbn in H.
  destruct (Session_reset c (pending_session _)) as [s2| | |] eqn:E2; try done. injection H as <- <-.
  apply reset_invalidates in E1, E2. unfold view, with_active, with_pending in *. cbn in *.
  by rewrite E1, E2.
Qed.

Lemma activate_pending_ok (P : vpred) :
  hoare (fun v => P (with_active (vw_pending v) (with_pending false v)))
    (activate_pending c : action unit) (fun _ => P).
Proof.
  intros w a w' HP H. unfold activate_pending, abind, layer, aget, alift, Sessions_activate_pending in H.
  cbn in H. destruct (Session_reset c (active _)) as [s| | |] eqn:E; try done. injection H as <- <-.
  apply reset_invalidates in E. unfold view, with_active, with_pending in *. cbn in *. by rewrite E.
Qed.

Lemma set_open_ok (P : vpred) b :
  hoare (fun v => P (with_open b v))
    (set_layer (D := D) (L := L) (U := U) (fun x : CryptoLayer W => cl_set_open x b)) (fun _ => P).
Proof. by intros w a w' HP [= <- <-]. Qed.

Lemma set_upper_ok (P : vpred) b :
  hoare (fun v => P (with_upper b v)) (set_upper_open b : action unit) (fun _ => P).
Proof. by intros w a w' HP [= <- <-]. Qed.

Lemma pure_upper_state (u : U) : pure_action (set_upper_state u : action unit).
Proof. by intros w a w' [= <- <-]. Qed.

(** *** What the parts owe each other *)

(** The notification of the upper layer. *)
Record notify_ok (I : vpred) (n : upper_call -> action unit) : Prop := {
  notify_open : hoare (fun v => I (with_upper true v)) (n on_lower_open) (fun _ => I);
  notify_close : hoare (fun v => I (with_upper false v)) (n on_lower_close) (fun _ => I);
  notify_tx : hoare I (n on_lower_tx_ready) (fun _ => I);
  notify_rx : hoare I (n on_lower_rx_ready) (fun _ => I);
}.

(** The virtual functions that can run inside a notification; a message is only
    processed when the lower layer is ready. *)
Record messages_ok (I : vpred) (vt : vtable) : Prop := {
  mo_parse_error f e :
    hoare (fun v => I v /\ vw_ready v = true) (v_on_parse_error vt f e : action unit) (fun _ => I);
  mo_nonce_change rx tx : hoare I (v_on_session_nonce_change vt rx tx) (fun _ => I);
  mo_request m raw t : hoare (fun v => I v /\ vw_ready v = true) (v_on_request vt m raw t) (fun _ => I);
  mo_reply m raw t : hoare (fun v => I v /\ vw_ready v = true) (v_on_reply vt m raw t) (fun _ => I);
  mo_error m raw t : hoare (fun v => I v /\ vw_ready v = true) (v_on_error vt m raw t) (fun _ => I);
  mo_auth m raw t :
    hoare (fun v => I v /\ vw_ready v = true) (v_on_auth_session vt m raw t) (fun _ => I);
}.

(** The virtual functions that only run at an event. *)
Record events_ok (I : vpred) (vt : vtable) : Prop := {
  eo_pre_tx_ready : hoare I (v_on_pre_tx_ready vt : action unit) (fun _ => I);
  eo_open : hoare (fun v => I (with_open false v) /\ vw_open v = true) (v_on_lower_open_impl vt) (fun _ => I);
  eo_close :
    hoare (fun v => I (with_open true v) /\ vw_open v = false) (v_reset_state_on_close_from_lower vt)
      (fun _ v => I (with_upper false (with_active false (with_pending false v))));
}.

(** What an invariant must not depend on, and that it survives the loss of the
    active session. *)
Record invariant_ok (I : vpred) : Prop := {
  inv_ready v b : I v -> I (with_ready b v);
  inv_lost v : I v -> I (with_upper false (with_active false v));
}.

Section Handlers.
Context (I : vpred) (HI : invariant_ok I).
Context (n : upper_call -> action unit) (vt : vtable).
Context (HN : notify_ok I n) (HM : messages_ok I vt).

Lemma check_transmit_ok : hoare I (check_transmit fw c clock n vt) (fun _ => I).
Proof.
  unfold check_transmit, can_transmit_session_data.
  eapply (hoare_bind _ _ _ (fun b v => I v /\ (b = true -> vw_ready v = true))).
  - apply hoare_bind_pure; [apply pure_get|intros x].
    eapply hoare_bind; [apply hoare_ready|]. intros b. apply hoare_ret. intros v [Hv Hb].
    split; [done|]. rewrite Hb. by destruct b; [|rewrite andb_false_r].
  - intros can. destruct can; [|apply hoare_ret; tauto]. cbn [negb].
    apply hoare_bind_pure; [apply pure_get|intros x].
    apply hoare_bind_pure; [apply pure_time|intros now].
    apply hoare_bind_pure; [apply pure_format_active|intros [[ec|frame] rest]].
    + eapply hoare_seq; [|intros []; apply (notify_close _ _ HN)].
      eapply hoare_pre; [|apply reset_active_ok]. intros v [Hv _]. by apply (inv_lost _ HI).
    + apply hoare_bind_pure; [apply pure_set_tx|intros []].
      eapply hoare_seq; [eapply hoare_pre; [|apply hoare_transmit, (inv_ready _ HI)]; intros v [? Hr]; split; auto|].
      intros ok. apply hoare_bind_pure; [apply pure_get|intros y]. apply (mo_nonce_change _ _ HM).
Qed.

Lemma is_tx_ready_ok (P : vpred) : hoare P (is_tx_ready : action bool) (fun _ => P).
Proof.
  apply hoare_pure. apply pure_bind; [apply pure_get|intros x].
  apply pure_bind; [apply pure_get|intros b]. apply pure_ret.
Qed.

Lemma start_tx_ok data : hoare I (start_tx_from_upper fw c clock n vt data) (fun _ => I).
Proof.
  unfold start_tx_from_upper. eapply hoare_seq; [apply is_tx_ready_ok|]. intros ready.
  destruct ready; [|by apply hoare_ret].
  apply hoare_bind_pure; [apply pure_set_tx|intros []].
  eapply hoare_seq; [apply check_transmit_ok|]. intros []. by apply hoare_ret.
Qed.

Lemma on_session_data_ok msg raw now : hoare I (on_session_data n vt msg raw now) (fun _ => I).
Proof.
  unfold on_session_data.
  apply hoare_bind_pure; [apply pure_validate_with, validate_keeps_valid|]. intros [ec|payload].
  - by apply hoare_ret.
  - apply hoare_bind_pure; [apply pure_set_payload|intros []].
    apply hoare_bind_pure; [apply pure_get|intros x].
    eapply hoare_seq; [apply (mo_nonce_change _ _ HM)|]. intros []. apply (notify_rx _ _ HN).
Qed.

Lemma handle_message_ok {M} (m : message M) handler data now (P : vpred) :
  (forall v, P v -> I v /\ vw_ready v = true) ->
  (forall x raw t, hoare (fun v => I v /\ vw_ready v = true) (handler x raw t) (fun _ => I)) ->
  hoare P (handle_message vt m handler data now) (fun _ => I).
Proof.
  intros HP Hh. unfold handle_message.
  destruct (m_read m data) as [err|msg]; (eapply hoare_pre; [exact HP|]); [apply (mo_parse_error _ _ HM)|apply Hh].
Qed.

Lemma process_ok data :
  hoare (fun v => I v /\ vw_ready v = true) (process clock n vt data) (fun _ => I).
Proof.
  unfold process. apply hoare_bind_pure; [apply pure_time|intros now].
  destruct data as [|f data]; [apply hoare_ret; tauto|].
  destruct (negb _); [apply hoare_ret; tauto|].
  destruct (Function_from_type f); try (apply hoare_ret; tauto);
    (apply handle_message_ok; [done|]); intros x raw t;
    [apply (mo_request _ _ HM)|apply (mo_reply _ _ HM)|apply (mo_error _ _ HM)|].
  unfold on_message. destruct (_ =? 0); [apply (mo_auth _ _ HM)|].
  eapply hoare_pre; [|apply on_session_data_ok]. tauto.
Qed.

Lemma try_read_one_ok : hoare I (try_read_one_from_lower clock n vt) (fun _ => I).
Proof.
  unfold try_read_one_from_lower. eapply hoare_bind; [apply hoare_ready|]. intros ready.
  apply hoare_bind_pure; [apply pure_get|intros x].
  destruct ready; [|apply hoare_ret; tauto]. cbn [negb orb].
  destruct (negb _); [apply hoare_ret; tauto|].
  apply hoare_bind_pure; [apply pure_receive|intros data].
  destruct (is_nil data); [apply hoare_ret; tauto|].
  eapply hoare_seq; [apply process_ok|]. intros []. by apply hoare_ret.
Qed.

Lemma try_read_ok : hoare I (try_read_from_lower clock n vt) (fun _ => I).
Proof.
  unfold try_read_from_lower. apply hoare_bind_pure; [apply pure_get|intros k].
  induction (S k) as [|fuel IH]; [apply hoare_fuel|]. simpl.
  eapply hoare_seq; [apply try_read_one_ok|]. intros again.
  destruct again; [exact IH|by apply hoare_ret].
Qed.

Lemma start_rx_ok : hoare I (start_rx_from_upper clock n vt) (fun _ => I).
Proof.
  unfold start_rx_from_upper, start_rx_from_upper_impl, discard_rx_data.
  apply hoare_bind_pure; [apply pure_get|intros x].
  apply hoare_bind_pure.
  { apply pure_when, pure_bind; [apply pure_set_payload|intros []; apply pure_set_processing]. }
  intros []. eapply (hoare_bind _ _ _ (fun _ => I)).
  - apply hoare_bind_pure; [apply pure_get|intros y]. destruct (is_nil _); [|by apply hoare_ret].
    eapply hoare_seq; [apply try_read_ok|]. intros []. by apply hoare_ret.
  - intros ret. apply hoare_bind_pure; [apply pure_when, pure_set_processing|].
    intros []. by apply hoare_ret.
Qed.

(** A handler of the upper layer runs under the invariant. *)
Lemma run_upper_ok p : hoare I (run_upper fw c clock n vt p) (fun _ => I).
Proof.
  induction p as [u|u k IH|u data k IH|u k IH]; cbn [run_upper].
  - apply hoare_pure, pure_upper_state.
  - apply hoare_bind_pure; [apply pure_upper_state|intros []].
    eapply hoare_seq; [apply is_tx_ready_ok|]. intros r.
    apply hoare_bind_pure; [apply pure_get|intros u']. apply IH.
  - apply hoare_bind_pure; [apply pure_upper_state|intros []].
    eapply hoare_seq; [apply start_tx_ok|]. intros r.
    apply hoare_bind_pure; [apply pure_get|intros u']. apply IH.
  - apply hoare_bind_pure; [apply pure_upper_state|intros []].
    eapply hoare_seq; [apply start_rx_ok|]. intros r.
    apply hoare_bind_pure; [apply pure_get|intros u']. apply IH.
Qed.

Lemma read_upper_open (P : vpred) (k : bool -> action unit) (Q : unit -> vpred) :
  (forall b, hoare (fun v => P v /\ vw_upper v = b) (k b) Q) ->
  hoare P (abind (aget w_upper_open) k) Q.
Proof.
  intros H. eapply hoare_bind; [apply (view_read P w_upper_open (fun b v => P v /\ vw_upper v = b))|exact H].
  done.
Qed.

Lemma with_upper_same (v : View D) : with_upper (vw_upper v) v = v.
Proof. by destruct v. Qed.

Lemma call_upper_ok : notify_ok I (call_upper fw c upper clock n vt).
Proof.
  assert (forall (P : vpred) b (m : U -> action unit),
            (forall u, hoare (fun v => P v /\ vw_upper v = b) (m u) (fun _ => I)) ->
            hoare (fun v => P v /\ vw_upper v = b) (abind (aget w_upper) m) (fun _ => I)) as Hu.
  { intros P b m Hm. apply hoare_bind_pure; [apply pure_get|exact Hm]. }
  split; unfold call_upper; apply read_upper_open; intros b; apply Hu; intros u;
    destruct b.
  - apply hoare_ret. intros v [Hv E]. by rewrite <- E, with_upper_same in Hv.
  - eapply hoare_seq; [eapply hoare_pre; [|apply set_upper_ok]; intros v [Hv _]; exact Hv|].
    intros []. apply run_upper_ok.
  - eapply hoare_seq; [eapply hoare_pre; [|apply set_upper_ok]; intros v [Hv _]; exact Hv|].
    intros []. apply run_upper_ok.
  - apply hoare_ret. intros v [Hv E]. by rewrite <- E, with_upper_same in Hv.
  - eapply hoare_pre; [|apply run_upper_ok]. tauto.
  - apply hoare_ret. tauto.
  - eapply hoare_pre; [|apply run_upper_ok]. tauto.
  - apply hoare_ret. tauto.
Qed.

(** *** Events *)

Section Events.
Context (HE : events_ok I vt).

Lemma with_open_same (v : View D) b : vw_open v = b -> with_open b v = v.
Proof. by destruct v; intros <-. Qed.

Lemma with_open_twice (v : View D) a b : with_open a (with_open b v) = with_open a v.
Proof. done. Qed.

(** The layer's flag, as the handler read it. *)
Lemma read_layer (P : vpred) {A} (k : CryptoLayer W -> action A) (Q : A -> vpred) :
  (forall x, hoare (fun v => P v /\ vw_open v = cl_is_open x) (k x) Q) ->
  hoare P (abind layer k) Q.
Proof.
  intros H. eapply hoare_bind; [apply (view_read P w_layer (fun x v => P v /\ vw_open v = cl_is_open x))|exact H].
  done.
Qed.

Lemma open_event_ok : hoare I (on_lower_open_event vt) (fun _ => I).
Proof.
  unfold on_lower_open_event. apply read_layer. intros x.
  destruct (cl_is_open x); [apply hoare_ret; tauto|].
  eapply hoare_seq; [|intros []; eapply hoare_seq; [apply (eo_open _ _ HE)|intros []; by apply hoare_ret]].
  eapply hoare_pre; [|apply set_open_ok]. intros v [Hv E]. split; [|done].
  by rewrite with_open_twice, with_open_same.
Qed.

Lemma close_event_ok : hoare I (on_lower_close_event c n vt) (fun _ => I).
Proof.
  unfold on_lower_close_event, on_lower_close_impl. apply read_layer. intros x.
  destruct (cl_is_open x); [|apply hoare_ret; tauto].
  eapply hoare_seq; [|intros []; eapply hoare_seq; [|intros []; apply hoare_ret; intros v Hv; exact Hv]].
  - eapply hoare_pre; [|apply set_open_ok]. intros v [Hv E].
    instantiate (1 := fun v => I (with_open true v) /\ vw_open v = false).
    split; [|done]. by rewrite with_open_twice, with_open_same.
  - eapply hoare_seq; [apply (eo_close _ _ HE)|intros []].
    eapply hoare_seq; [apply (reset_both_ok (fun v => I (with_upper false v)))|intros []].
    apply hoare_bind_pure; [apply pure_set_payload|intros []].
    eapply hoare_seq; [apply (notify_close _ _ HN)|intros []].
    apply hoare_bind_pure; [apply pure_set_tx|intros []]. apply hoare_pure, pure_reset_lower.
Qed.

Lemma tx_ready_event_ok : hoare I (on_lower_tx_ready_event fw c clock n vt) (fun _ => I).
Proof.
  unfold on_lower_tx_ready_event, on_lower_tx_ready_impl. apply read_layer. intros x.
  destruct (cl_is_open x); [|apply hoare_ret; tauto].
  eapply hoare_pre; [intros v [Hv _]; exact Hv|].
  eapply hoare_seq; [|intros []; apply hoare_ret; intros v Hv; exact Hv].
  apply hoare_bind_pure; [apply pure_get|intros y]. destruct (TxState_on_tx_complete _) as [complete tx].
  apply hoare_bind_pure; [apply pure_set_tx|intros []].
  eapply hoare_seq; [apply (eo_pre_tx_ready _ _ HE)|intros []].
  eapply hoare_seq.
  { instantiate (1 := I). destruct complete; [apply (notify_tx _ _ HN)|by apply hoare_ret]. }
  intros []. eapply hoare_seq; [apply try_read_ok|intros []]. apply check_transmit_ok.
Qed.

Lemma rx_ready_event_ok : hoare I (on_lower_rx_ready_event clock n vt) (fun _ => I).
Proof.
  unfold on_lower_rx_ready_event. apply read_layer. intros x.
  destruct (cl_is_open x); [|apply hoare_ret; tauto].
  eapply hoare_pre; [intros v [Hv _]; exact Hv|].
  eapply hoare_seq; [apply try_read_ok|intros []]. by apply hoare_ret.
Qed.
End Events.
End Handlers.

(** *** The knot *)

Lemma notify_all_ok (I : vpred) (v : (upper_call -> action unit) -> vtable) :
  invariant_ok I -> (forall n, notify_ok I n -> messages_ok I (v n)) ->
  forall fuel, notify_ok I (notify fw c upper clock v fuel).
Proof.
  intros HI Hv. induction fuel as [|fuel IH]; [split; apply hoare_fuel|].
  pose proof (call_upper_ok I HI (notify fw c upper clock v fuel) (v (notify fw c upper clock v fuel)) IH (Hv _ IH))
    as H. split; apply H.
Qed.

Lemma layer_step_ok (I : vpred) (v : (upper_call -> action unit) -> vtable) fuel e :
  invariant_ok I -> notify_ok I (notify fw c upper clock v fuel) ->
  messages_ok I (v (notify fw c upper clock v fuel)) -> events_ok I (v (notify fw c upper clock v fuel)) ->
  hoare I (layer_step fw c upper clock v fuel e) (fun _ => I).
Proof.
  intros HI HN HM HE. unfold layer_step.
  destruct e; (eapply hoare_seq; [|intros ?; apply hoare_ret; intros ? Hq; exact Hq]).
  - by apply open_event_ok.
  - by eapply close_event_ok.
  - by eapply tx_ready_event_ok.
  - by eapply rx_ready_event_ok.
  - by eapply start_tx_ok.
  - by eapply start_rx_ok.
Qed.
End Base.

(** ** Safety of both sides *)

(** The upper layer is open only while the active session is valid, and nothing
    was ever handed to a lower layer that was not ready. *)
Definition safe {D} (v : View D) : Prop :=
  (vw_upper v = true -> vw_active v = true) /\ vw_sent_ready v = true.

Lemma safe_invariant {D} : invariant_ok (D := D) safe.
Proof. split; intros v; [intros b|]; intros [H1 H2]; by split. Qed.

Lemma sent_ready_all (l : list (bool * bytes)) :
  forallb fst l = true -> Forall (fun sent => fst sent = true) l.
Proof.
  induction l as [|x l IH]; simpl; [constructor|]. intros H. apply andb_prop in H as [Hx Hl].
  constructor; auto.
Qed.

Section Shared.
Context `{SER : Ser4cpp} {W : Type} (fw : frame_writer W) (c : CryptoState).
Context {D L U : Type} `{LL : !LowerLayer L}.
Context (clock : nat -> Z).
Local Abbreviation vpred := (View D -> Prop).

(** An authentication message is accepted by a valid pending session only. *)
Lemma validate_auth_ok (P : vpred) msg now :
  hoare P (validate_with Session_validate_session_auth Pending msg now : act (World W D L U) _)
    (fun res v => P v /\ match res with inl _ => True | inr _ => vw_pending v = true end).
Proof.
  intros w res w' HP H. split.
  - by rewrite (pure_validate_with _ _ _ _ validate_auth_keeps_valid _ _ _ H).
  - unfold validate_with, abind, layer, aget, alift in H. cbn in H.
    destruct (Session_validate_session_auth _ _ _ _ _) as [[[[r s] st] dest]| | |] eqn:E; try done.
    injection H as <- <-. destruct r as [ec|payload]; [done|].
    pose proof (validate_auth_keeps_valid _ _ _ _ _ _ _ _ _ E) as Hk.
    apply validate_auth_valid in E. cbn in *. by rewrite Hk.
Qed.
End Shared.

(** ** Reachable worlds

    From an initial world by the entry points of the object; between them both
    neighbours may change in any way. *)
Section Reachable.
Context {W D L U E : Type}.
Local Abbreviation world := (World W D L U).
Context (initial : world -> Prop) (step : nat -> E -> act world unit).

Inductive reachable : world -> Prop :=
| reach_initial w : initial w -> reachable w
| reach_step w fuel e w' : reachable w -> step fuel e w = Some (Done (tt, w')) -> reachable w'
| reach_neighbours w l u :
    reachable w ->
    reachable (mkWorld (w_layer w) (w_derived w) l u (w_upper_open w) (w_ticks w) (w_draws w) (w_sent w)).
End Reachable.

Lemma reachable_invariant {W D L U E} `{LL : !LowerLayer L} (I : View D -> Prop)
    (initial : World W D L U -> Prop) (step : nat -> E -> act (World W D L U) unit) :
  (forall w, initial w -> I (view w)) ->
  (forall v b, I v -> I (with_ready b v)) ->
  (forall fuel e, hoare I (step fuel e) (fun _ => I)) ->
  forall w, reachable initial step w -> I (view w).
Proof.
  intros Hi Hr Hs w H. induction H as [w H|w fuel e w' _ IH Hst|w l u _ IH].
  - by apply Hi.
  - exact (Hs fuel e w tt w' IH Hst).
  - apply (Hr _ (lower_is_tx_ready l)) in IH. exact IH.
Qed.
