(* ===== verification/Responder.v ===== *)
(** * The responder

    [Responder] of [crypto/Responder.h] and [crypto/Responder.cpp] as a derived
    class of the cryptographic layer, over any responder handshake. *)

From stdpp Require Import base numbers list strings.
From Stdlib Require Import Lia ZArith.
From S2P Require Import Prelude Ser4cpp Enums Codec Messages CRC LinkParser FrameWriter LinkLayer.
From S2P Require Import Crypto SessionMode Session Chain Handshake CryptoLayer LayerLogic.

Section Responder.
Context `{SER : Ser4cpp} {W : Type} (fw : frame_writer W) (c : CryptoState).
Context {L U : Type} `{LL : !LowerLayer L}.
Context (upper : upper_call -> U -> upper_prog U) (clock : nat -> Z).
(** The handshake is the derived class's only member. *)
Context {HR : Type} (rh : responder_handshake HR W).

Local Abbreviation action := (act (World W HR L U)).

Definition reply_with_handshake_error (err : HandshakeError) : action unit :=
  x <-- layer;
  let msg := mkReplyHandshakeError version_get err in
  let '(res, w) := fw_write fw (cl_frame_writer x) (message_writable ReplyHandshakeError_message msg) in
  set_layer (fun x => cl_set_writer x w);;;
  if negb (WriteResult_is_error res) then lower_transmit (wr_frame res);;; aret tt else aret tt.

Definition Responder_supports (function : Function) : bool :=
  match function with
  | Function_request_handshake_begin | Function_session_data => true
  | _ => false
  end.

Definition Responder_on_parse_error (function : Function) (error : ParseError) : action unit :=
  match function with
  | Function_request_handshake_begin => reply_with_handshake_error HandshakeError_bad_message_format
  | _ => aret tt
  end.

(** [handshake->process] on the pending session. *)
Definition Responder_process (msg : RequestHandshakeBegin) (raw_msg : bytes) (now : Z)
  : action (HandshakeError + bytes) :=
  x <-- layer;
  h <-- aget w_derived;
  draw <-- next_draw;
  r <-- alift (fun _ => rh_process rh h draw msg raw_msg now (cl_frame_writer x)
                          (pending_session (cl_sessions x)) (cl_statistics x));
  let '(res, h, w, s, st) := r in
  set_derived (fun _ => h);;;
  set_layer (fun x => cl_set_io x w st (mkSessions (active (cl_sessions x)) s));;;
  aret res.

Definition Responder_on_message (msg : RequestHandshakeBegin) (raw_msg : bytes) (now : Z)
  : action unit :=
  if negb (v_major_version (req_version msg) =? protocol_major_version)
  then reply_with_handshake_error HandshakeError_unsupported_version
  else
    result <-- Responder_process msg raw_msg now;
    match result with
    | inl err => reply_with_handshake_error err
    | inr reply_data => lower_transmit reply_data;;; aret tt
    end.

Definition Responder_on_auth_session (notify : upper_call -> action unit) (msg : SessionData)
    (raw_data : bytes) (now : Z) : action unit :=
  x <-- layer;
  if negb (s_valid (pending_session (cl_sessions x)))
  then reply_with_handshake_error HandshakeError_no_prior_handshake_begin
  else
    res <-- validate_with Session_validate_session_auth Pending msg now;
    match res with
    | inl _ => aret tt
    | inr payload =>
        activate_pending c;;;
        ok <-- transmit_session_auth fw clock Active;
        if negb ok then aret tt
        else
          notify on_lower_open;;;
          if negb (is_nil payload)
          then set_payload_data payload;;; notify on_lower_rx_ready
          else aret tt
    end.

Definition Responder_virtuals (notify : upper_call -> action unit) : virtuals :=
  mkVirtuals
    (reset_both c)
    Responder_supports
    Responder_on_parse_error
    (aret tt)
    (fun _ _ => aret tt)
    Responder_on_message
    (fun _ _ _ => aret tt)
    (fun _ _ _ => aret tt)
    (Responder_on_auth_session notify)
    (aret tt).

(** The entry points of the object, with the bound on nested notifications. *)
Definition responder_step (fuel : nat) (e : layer_event) : action unit :=
  layer_step fw c upper clock Responder_virtuals fuel e.
End Responder.

(** ** Safety *)

Section Safety.
Context `{SER : Ser4cpp} {W : Type} (fw : frame_writer W) (c : CryptoState).
Context {L U : Type} `{LL : !LowerLayer L} `{LAWS : !LowerLayerLaws L}.
Context (upper : upper_call -> U -> upper_prog U) (clock : nat -> Z).
Context {HR : Type} (rh : responder_handshake HR W).
Local Abbreviation action := (act (World W HR L U)).
Local Abbreviation vpred := (View HR -> Prop).

Lemma reply_error_ok err :
  hoare (fun v => safe v /\ vw_ready v = true) (reply_with_handshake_error fw err : action unit)
    (fun _ => safe).
Proof.
  unfold reply_with_handshake_error. apply hoare_bind_pure; [apply pure_get|intros x].
  destruct (fw_write _ _ _) as [res w]. apply hoare_bind_pure; [apply pure_set_writer|intros []].
  destruct (negb _); [|apply hoare_ret; tauto].
  eapply hoare_seq; [apply hoare_transmit, safe_invariant|]. intros b. by apply hoare_ret.
Qed.

Lemma responder_process_ok msg raw now :
  hoare (fun v => safe v /\ vw_ready v = true) (Responder_process rh msg raw now : action _)
    (fun _ v => safe v /\ vw_ready v = true).
Proof.
  intros w a w' [HP Hr] H. unfold Responder_process, abind, layer, aget, alift, next_draw in H. cbn in H.
  destruct (rh_process _ _ _ _ _ _ _ _ _) as [[[[[res h] wr] s] st]| | |]; try done.
  by injection H as <- <-.
Qed.

Lemma responder_messages_ok n :
  notify_ok safe n -> messages_ok safe (Responder_virtuals fw c clock rh n : virtuals (L := L) (U := U)).
Proof.
  intros HN. split; cbn [v_on_parse_error v_on_session_nonce_change v_on_request v_on_reply v_on_error
    v_on_auth_session Responder_virtuals].
  - intros f e. unfold Responder_on_parse_error. destruct f; try (apply hoare_ret; tauto). apply reply_error_ok.
  - intros rx tx. by apply hoare_ret.
  - intros m raw t. unfold Responder_on_message. destruct (negb _); [apply reply_error_ok|].
    eapply hoare_seq; [apply responder_process_ok|]. intros [err|reply]; [apply reply_error_ok|].
    eapply hoare_seq; [apply hoare_transmit, safe_invariant|]. intros b. by apply hoare_ret.
  - intros m raw t. apply hoare_ret. tauto.
  - intros m raw t. apply hoare_ret. tauto.
  - intros m raw t. unfold Responder_on_auth_session.
    apply hoare_bind_pure; [apply pure_get|intros x]. destruct (negb _); [apply reply_error_ok|].
    eapply hoare_bind; [apply validate_auth_ok|]. intros [ec|payload]; [apply hoare_ret; tauto|].
    eapply hoare_seq.
    { eapply hoare_pre; [|apply (activate_pending_ok c
        (fun v => (safe v /\ vw_active v = true) /\ vw_ready v = true))].
      intros v [[[Hs1 Hs2] Hr] Hp]. unfold safe. cbn. rewrite Hp. tauto. }
    intros []. eapply hoare_seq.
    { apply (transmit_auth_ok fw clock (fun v => safe v /\ vw_active v = true)).
      intros v b H. by destruct v. }
    intros ok. destruct (negb ok); [apply hoare_ret; tauto|].
    eapply hoare_seq; [eapply hoare_pre; [|apply (notify_open _ _ HN)]|].
    { intros v [[Hs1 Hs2] Ha]. split; [by intros _|done]. }
    intros []. destruct (negb _); [|by apply hoare_ret].
    apply hoare_bind_pure; [apply pure_set_payload|intros []]. apply (notify_rx _ _ HN).
Qed.

Lemma responder_events_ok n :
  events_ok safe (Responder_virtuals fw c clock rh n : virtuals (L := L) (U := U)).
Proof.
  split; cbn [v_on_pre_tx_ready v_on_lower_open_impl v_reset_state_on_close_from_lower Responder_virtuals].
  - by apply hoare_ret.
  - apply hoare_ret. intros v [H _]. by destruct v.
  - eapply hoare_pre; [|apply (reset_both_ok c
      (fun v => safe (with_upper false (with_active false (with_pending false v)))))].
    intros v [[_ H] _]. by split.
Qed.

(** A new responder: no session, nothing sent, both layers closed. *)
Definition responder_initial (w : World W HR L U) : Prop :=
  exists ttl writer m1 m2 buffer in_stack,
    w_layer w = CryptoLayer_new c ttl writer m1 m2 buffer in_stack /\ w_upper_open w = false /\ w_sent w = [].

Lemma responder_always_safe w :
  reachable responder_initial (responder_step fw c upper clock rh) w -> safe (view w).
Proof.
  apply (reachable_invariant safe).
  - intros w0 (ttl&writer&m1&m2&buffer&in_stack&Hl&Ho&Hs). unfold safe, view. cbn. by rewrite Ho, Hs.
  - apply safe_invariant.
  - intros fuel e.
    assert (notify_ok safe (notify fw c upper clock (Responder_virtuals fw c clock rh) fuel)) as HN
      by (apply notify_all_ok; [exact LAWS|apply safe_invariant|apply responder_messages_ok]).
    apply layer_step_ok; [exact LAWS|apply safe_invariant|done|by apply responder_messages_ok|apply responder_events_ok].
Qed.

(** A responder is safe in every reachable state, whatever arrives from the
    lower layer, whatever handshake it uses and however the upper layer behaves,
    also when it calls back from its own handlers: the upper layer is open only
    while the active session is valid, so that no data passes without a session;
    and every frame was handed to the lower layer when it was ready to
    transmit. *)
Theorem responder_safe w :
  reachable responder_initial (responder_step fw c upper clock rh) w ->
  (w_upper_open w = true -> s_valid (active (cl_sessions (w_layer w))) = true) /\
  Forall (fun sent => fst sent = true) (w_sent w).
Proof.
  intros H. apply responder_always_safe in H as [H1 H2]. split; [exact H1|]. by apply sent_ready_all.
Qed.
End Safety.
