(* ===== verification/Initiator.v ===== *)
(** * The initiator

    [Initiator] of [crypto/Initiator.h] and [crypto/Initiator.cpp] with the states
    of [crypto/InitiatorHandshakeStates.h] and [.cpp], as a derived class of the
    cryptographic layer, over any initiator handshake.

    A timer is active or not, and a new one replaces the one it is assigned over;
    which function it calls and when it is due are kept
    with it.  A timer that fires is no longer active. *)

From stdpp Require Import base numbers list strings.
From Stdlib Require Import Lia ZArith.
From S2P Require Import Prelude Ser4cpp Enums Codec Messages CRC LinkParser FrameWriter LinkLayer.
From S2P Require Import Crypto SessionMode Session Chain Handshake CryptoLayer LayerLogic.

(** [Initiator::IHandshakeState::Enum] *)
Inductive HandshakeState :=
| Idle | WaitForBeginReply | WaitForAuthReply | WaitForRetry | BadConfiguration.

#[export] Instance HandshakeState_eq_dec : EqDecision HandshakeState.
Proof. solve_decision. Defined.

Inductive timer_kind := ResponseTimer | RetryTimer.

#[export] Instance timer_kind_eq_dec : EqDecision timer_kind.
Proof. solve_decision. Defined.

(** [InitiatorConfig::Params] *)
Record Params := mkParams {
  response_timeout : Z;
  retry_timeout : Z;
  session_time_renegotiation_trigger_ms : Z;
  nonce_renegotiation_trigger_value : Z;
}.

(** The members of [Initiator] that change. *)
Record Initiator (HI : Type) := mkInitiator {
  in_handshake_state : HandshakeState;
  in_handshake : HI;
  in_response_and_retry_timer : option (timer_kind * Z);
  in_session_timeout_timer : option Z;
  in_handshake_required : bool;
}.
Arguments mkInitiator {HI} _ _ _ _ _.
Arguments in_handshake_state {HI} _.
Arguments in_handshake {HI} _.
Arguments in_response_and_retry_timer {HI} _.
Arguments in_session_timeout_timer {HI} _.
Arguments in_handshake_required {HI} _.

Section Initiator.
Context `{SER : Ser4cpp} {W : Type} (fw : frame_writer W) (c : CryptoState).
Context {L U : Type} `{LL : !LowerLayer L}.
Context (upper : upper_call -> U -> upper_prog U) (clock : nat -> Z).
Context {HI : Type} (ih : initiator_handshake HI) (params : Params) (limits : SessionLimits).

Local Abbreviation action := (act (World W (Initiator HI) L U)).

Definition set_handshake_state (s : HandshakeState) : action unit :=
  set_derived (fun d => mkInitiator s (in_handshake d) (in_response_and_retry_timer d)
                          (in_session_timeout_timer d) (in_handshake_required d)).
Definition set_handshake (h : HI) : action unit :=
  set_derived (fun d => mkInitiator (in_handshake_state d) h (in_response_and_retry_timer d)
                          (in_session_timeout_timer d) (in_handshake_required d)).
Definition set_response_and_retry_timer (t : option (timer_kind * Z)) : action unit :=
  set_derived (fun d => mkInitiator (in_handshake_state d) (in_handshake d) t
                          (in_session_timeout_timer d) (in_handshake_required d)).
Definition set_session_timeout_timer (t : option Z) : action unit :=
  set_derived (fun d => mkInitiator (in_handshake_state d) (in_handshake d)
                          (in_response_and_retry_timer d) t (in_handshake_required d)).
Definition set_handshake_required (b : bool) : action unit :=
  set_derived (fun d => mkInitiator (in_handshake_state d) (in_handshake d)
                          (in_response_and_retry_timer d) (in_session_timeout_timer d) b).

(** ** Timers *)

Definition start_response_timer : action unit :=
  now <-- get_time clock;
  set_response_and_retry_timer (Some (ResponseTimer, now + response_timeout params)).

Definition start_retry_timer : action unit :=
  now <-- get_time clock;
  set_response_and_retry_timer (Some (RetryTimer, now + retry_timeout params)).

Definition start_session_timer (session_timeout : Z) : action unit :=
  set_session_timeout_timer (Some session_timeout).

(** ** The states *)

(** [handshake->initialize_new_handshake()] *)
Definition initialize_new_handshake : action (option (bytes * bytes)) :=
  d <-- aget w_derived;
  draw <-- next_draw;
  r <-- alift (fun _ => ih_initialize_new_handshake ih draw (in_handshake d));
  let '(res, h) := r in
  set_handshake h;;;
  aret res.

Definition Idle_on_handshake_required (now : Z) : action HandshakeState :=
  ready <-- lower_ready;
  if negb ready then set_handshake_required true;;; aret Idle
  else
    d <-- aget w_derived;
    let suite := ih_get_crypto_suite ih (in_handshake d) in
    init_result <-- initialize_new_handshake;
    match init_result with
    | None => start_retry_timer;;; aret WaitForRetry
    | Some (mode_ephemeral, mode_data) =>
        d <-- aget w_derived;
        let request := make_request suite limits (ih_get_handshake_mode ih (in_handshake d))
                         mode_ephemeral mode_data in
        x <-- layer;
        let '(result, w) :=
          fw_write fw (cl_frame_writer x) (message_writable RequestHandshakeBegin_message request) in
        set_layer (fun x => cl_set_writer x w);;;
        if WriteResult_is_error result then aret BadConfiguration
        else
          h <-- alift (fun w => ih_finalize_request_tx ih (in_handshake (w_derived w))
                                  (wr_written result) now);
          set_handshake h;;;
          lower_transmit (wr_frame result);;;
          start_response_timer;;;
          aret WaitForBeginReply
    end.

Definition on_handshake_required_in (s : HandshakeState) (now : Z) : action HandshakeState :=
  match s with
  | Idle => Idle_on_handshake_required now
  | _ => set_handshake_required true;;; aret s
  end.

(** [handshake->initialize_session] on the pending session. *)
Definition initialize_session (msg : ReplyHandshakeBegin) (msg_bytes : bytes) (now : Z) : action bool :=
  x <-- layer;
  d <-- aget w_derived;
  r <-- alift (fun _ => ih_initialize_session ih (in_handshake d) msg msg_bytes limits now
                          (pending_session (cl_sessions x)) (cl_statistics x));
  let '(ok, h, s, st) := r in
  set_handshake h;;;
  set_layer (fun x => cl_set_io x (cl_frame_writer x) st (mkSessions (active (cl_sessions x)) s));;;
  aret ok.

Definition WaitForBeginReply_on_reply_message (msg : ReplyHandshakeBegin) (msg_bytes : bytes) (now : Z)
  : action HandshakeState :=
  set_response_and_retry_timer None;;;
  ok <-- initialize_session msg msg_bytes now;
  if negb ok then start_retry_timer;;; aret WaitForRetry
  else
    sent <-- transmit_session_auth fw clock Pending;
    if negb sent then start_retry_timer;;; aret WaitForRetry
    else start_response_timer;;; aret WaitForAuthReply.

Definition on_reply_message_in (s : HandshakeState) (msg : ReplyHandshakeBegin) (msg_bytes : bytes)
    (now : Z) : action HandshakeState :=
  match s with
  | WaitForBeginReply => WaitForBeginReply_on_reply_message msg msg_bytes now
  | _ => aret s
  end.

(** The same in both states that wait for a reply. *)
Definition on_error_message_in (s : HandshakeState) (msg : ReplyHandshakeError) (msg_bytes : bytes)
    (now : Z) : action HandshakeState :=
  match s with
  | WaitForBeginReply | WaitForAuthReply =>
      set_response_and_retry_timer None;;;
      start_retry_timer;;;
      aret WaitForRetry
  | _ => aret s
  end.

Definition WaitForAuthReply_on_auth_message (notify : upper_call -> action unit) (msg : SessionData)
    (msg_bytes : bytes) (now : Z) : action HandshakeState :=
  set_response_and_retry_timer None;;;
  res <-- validate_with Session_validate_session_auth Pending msg now;
  match res with
  | inl _ => start_retry_timer;;; aret WaitForRetry
  | inr payload =>
      activate_pending c;;;
      set_handshake_required false;;;
      x <-- layer;
      start_session_timer (session_start (s_parameters (active (cl_sessions x))) +
                           ms (session_time_renegotiation_trigger_ms params));;;
      notify on_lower_open;;;
      (if negb (is_nil payload)
       then set_payload_data payload;;; notify on_lower_rx_ready
       else aret tt);;;
      aret Idle
  end.

Definition on_auth_message_in (notify : upper_call -> action unit) (s : HandshakeState)
    (msg : SessionData) (msg_bytes : bytes) (now : Z) : action HandshakeState :=
  match s with
  | WaitForAuthReply => WaitForAuthReply_on_auth_message notify msg msg_bytes now
  | _ => aret s
  end.

Definition on_response_timeout_in (s : HandshakeState) : action HandshakeState :=
  match s with
  | WaitForBeginReply | WaitForAuthReply => start_retry_timer;;; aret WaitForRetry
  | _ => aret s
  end.

Definition on_retry_timeout_in (s : HandshakeState) : action HandshakeState :=
  match s with
  | WaitForRetry => aret Idle
  | _ => aret s
  end.

(** [handshake_state = handshake_state->f(...)] *)
Definition step_state (f : HandshakeState -> action HandshakeState) : action unit :=
  d <-- aget w_derived;
  s <-- f (in_handshake_state d);
  set_handshake_state s.

(** ** [Initiator] *)

Definition on_handshake_required : action unit :=
  now <-- get_time clock;
  step_state (fun s => on_handshake_required_in s now).

Definition Initiator_reset_state_on_close_from_lower : action unit :=
  set_handshake_state Idle;;;
  set_response_and_retry_timer None;;;
  set_session_timeout_timer None;;;
  set_handshake_required false.

Definition Initiator_supports (function : Function) : bool :=
  match function with
  | Function_reply_handshake_begin | Function_reply_handshake_error | Function_session_data => true
  | _ => false
  end.

Definition Initiator_on_session_nonce_change (rx_nonce tx_nonce : Z) : action unit :=
  if nonce_renegotiation_trigger_value params <=? Z.max tx_nonce rx_nonce
  then set_session_timeout_timer None;;; on_handshake_required
  else aret tt.

Definition Initiator_on_pre_tx_ready : action unit :=
  d <-- aget w_derived;
  if in_handshake_required d then on_handshake_required else aret tt.

Definition Initiator_virtuals (notify : upper_call -> action unit) : virtuals :=
  mkVirtuals
    Initiator_reset_state_on_close_from_lower
    Initiator_supports
    (fun _ _ => aret tt)
    Initiator_on_pre_tx_ready
    Initiator_on_session_nonce_change
    (fun _ _ _ => aret tt)
    (fun msg raw now => step_state (fun s => on_reply_message_in s msg raw now))
    (fun msg raw now => step_state (fun s => on_error_message_in s msg raw now))
    (fun msg raw now => step_state (fun s => on_auth_message_in notify s msg raw now))
    on_handshake_required.

(** [Initiator::Initiator] *)
Definition Initiator_new (h : HI) : Initiator HI := mkInitiator Idle h None None false.

(** ** Entry points: those of the layer, and the timers *)

Inductive initiator_event := EvLayer (e : layer_event) | EvResponseOrRetryTimer | EvSessionTimer.

(** The function the timer was started with runs when it fires. *)
Definition on_response_or_retry_timer : action unit :=
  d <-- aget w_derived;
  match in_response_and_retry_timer d with
  | None => aret tt
  | Some (ResponseTimer, _) =>
      set_response_and_retry_timer None;;;
      step_state on_response_timeout_in
  | Some (RetryTimer, _) =>
      set_response_and_retry_timer None;;;
      step_state on_retry_timeout_in;;;
      on_handshake_required
  end.

Definition on_session_timer : action unit :=
  d <-- aget w_derived;
  match in_session_timeout_timer d with
  | None => aret tt
  | Some _ => set_session_timeout_timer None;;; on_handshake_required
  end.

Definition initiator_step (fuel : nat) (e : initiator_event) : action unit :=
  match e with
  | EvLayer e => layer_step fw c upper clock Initiator_virtuals fuel e
  | EvResponseOrRetryTimer => on_response_or_retry_timer
  | EvSessionTimer => on_session_timer
  end.
End Initiator.

(** ** The initiator never stops trying *)

Section Liveness.
Context `{SER : Ser4cpp} {W : Type} (fw : frame_writer W) (c : CryptoState).
Context {L U : Type} `{LL : !LowerLayer L} `{LAWS : !LowerLayerLaws L}.
Context (upper : upper_call -> U -> upper_prog U) (clock : nat -> Z).
Context {HI : Type} (ih : initiator_handshake HI) (params : Params) (limits : SessionLimits).
Local Abbreviation action := (act (World W (Initiator HI) L U)).
Local Abbreviation view_t := (View (Initiator HI)).

(** The timer of the current state: the response timer while a reply is awaited,
    the retry timer while waiting to retry, and no response timer otherwise. *)
Definition timer_ok (v : view_t) : Prop :=
  let timer := in_response_and_retry_timer (vw_derived v) in
  match in_handshake_state (vw_derived v) with
  | WaitForBeginReply | WaitForAuthReply => exists due, timer = Some (ResponseTimer, due)
  | WaitForRetry => exists due, timer = Some (RetryTimer, due)
  | Idle | BadConfiguration => forall due, timer <> Some (ResponseTimer, due)
  end.

(** Something will make it negotiate: the need is noted for the next time the
    lower layer is ready, or a timer is active. *)
Definition will_negotiate (v : view_t) : Prop :=
  in_handshake_required (vw_derived v) = true \/
  is_Some (in_session_timeout_timer (vw_derived v)) \/
  is_Some (in_response_and_retry_timer (vw_derived v)).

Definition quiet (v : view_t) : Prop := safe v /\ timer_ok v.

Definition running (v : view_t) : Prop :=
  quiet v /\
  (vw_open v = true -> in_handshake_state (vw_derived v) = Idle -> will_negotiate v).

(** During the notifications at the end of a handshake. *)
Definition completing (v : view_t) : Prop :=
  (forall t, in_response_and_retry_timer (vw_derived v) <> Some (ResponseTimer, t)) /\
  (in_handshake_state (vw_derived v) = WaitForAuthReply \/
   in_handshake_state (vw_derived v) = WaitForRetry) /\
  vw_pending v = false.

Definition finishing (v : view_t) : Prop :=
  safe v /\ completing v /\ (vw_open v = true -> will_negotiate v).

Lemma running_invariant : invariant_ok running.
Proof.
  split; intros v; [intros b|]; intros ([[H1 H2] Ht]&Ha);
    (split; [split; [by split|exact Ht]|exact Ha]).
Qed.

Lemma finishing_invariant : invariant_ok finishing.
Proof.
  split; intros v; [intros b|]; intros ([H1 H2]&Hk&Ha); (split; [by split|]; split; [exact Hk|exact Ha]).
Qed.

Definition to_state (s : HandshakeState) (d : Initiator HI) : Initiator HI :=
  mkInitiator s (in_handshake d) (in_response_and_retry_timer d) (in_session_timeout_timer d)
    (in_handshake_required d).

Lemma step_state_ok (P Q : view_t -> Prop) (f : HandshakeState -> action HandshakeState) :
  (forall s, hoare (fun v => P v /\ in_handshake_state (vw_derived v) = s) (f s)
     (fun s' v => Q (on_derived (to_state s') v))) ->
  hoare P (step_state f) (fun _ => Q).
Proof.
  intros Hf. unfold step_state.
  eapply hoare_bind; [apply (view_read P w_derived (fun d v => P v /\ vw_derived v = d)); done|].
  intros d. eapply hoare_bind; [eapply hoare_pre; [|apply Hf]|].
  - intros v [HP <-]. done.
  - intros s'. exact (hoare_derived Q (to_state s')).
Qed.

Lemma same_state s (v : view_t) :
  in_handshake_state (vw_derived v) = s -> on_derived (to_state s) v = v.
Proof. destruct v as [[]]; unfold on_derived, to_state; cbn. by intros <-. Qed.

(** A change of the derived object, then the new state. *)
Lemma set_then_return (P Q : view_t -> Prop) f (s : HandshakeState) :
  (forall v, P v -> Q (on_derived (to_state s) (on_derived f v))) ->
  hoare P (set_derived f;;; aret s : action _) (fun s v => Q (on_derived (to_state s) v)).
Proof.
  intros H. eapply hoare_seq; [|intros []; apply hoare_ret; intros v Hv; exact Hv].
  eapply hoare_pre; [|apply hoare_derived]. exact H.
Qed.

Lemma retry_then_return (P Q : view_t -> Prop) (s : HandshakeState) :
  (forall v now, P v -> Q (on_derived (to_state s) (on_derived (fun d =>
     mkInitiator (in_handshake_state d) (in_handshake d) (Some (RetryTimer, now + retry_timeout params))
       (in_session_timeout_timer d) (in_handshake_required d)) v))) ->
  hoare P (start_retry_timer clock params;;; aret s : action _) (fun s v => Q (on_derived (to_state s) v)).
Proof.
  intros H. unfold start_retry_timer. eapply hoare_seq; [|intros []; apply hoare_ret; intros v Hv; exact Hv].
  apply hoare_bind_pure; [apply pure_time|intros now].
  eapply hoare_pre; [|apply hoare_derived]. intros v Hv. by apply H.
Qed.

Lemma response_then_return (P Q : view_t -> Prop) (s : HandshakeState) :
  (forall v now, P v -> Q (on_derived (to_state s) (on_derived (fun d =>
     mkInitiator (in_handshake_state d) (in_handshake d) (Some (ResponseTimer, now + response_timeout params))
       (in_session_timeout_timer d) (in_handshake_required d)) v))) ->
  hoare P (start_response_timer clock params;;; aret s : action _) (fun s v => Q (on_derived (to_state s) v)).
Proof.
  intros H. unfold start_response_timer. eapply hoare_seq; [|intros []; apply hoare_ret; intros v Hv; exact Hv].
  apply hoare_bind_pure; [apply pure_time|intros now].
  eapply hoare_pre; [|apply hoare_derived]. intros v Hv. by apply H.
Qed.

(** Predicates that do not depend on the handshake object. *)
Definition ignores_handshake (P : view_t -> Prop) : Prop :=
  forall v h, P v -> P (on_derived (fun d =>
    mkInitiator (in_handshake_state d) h (in_response_and_retry_timer d)
      (in_session_timeout_timer d) (in_handshake_required d)) v).

Lemma set_handshake_ok (P : view_t -> Prop) h :
  ignores_handshake P -> hoare P (set_handshake h : action unit) (fun _ => P).
Proof. intros HP. eapply hoare_pre; [|apply hoare_derived]. intros v Hv. by apply HP. Qed.

Lemma initialize_new_handshake_ok (P : view_t -> Prop) :
  ignores_handshake P -> hoare P (initialize_new_handshake ih : action _) (fun _ => P).
Proof.
  intros HP. unfold initialize_new_handshake.
  apply hoare_bind_pure; [apply pure_get|intros d]. apply hoare_bind_pure; [apply pure_draw|intros draw].
  apply hoare_bind_pure; [apply pure_lift|intros [res h]].
  eapply hoare_seq; [by apply set_handshake_ok|intros []]. by apply hoare_ret.
Qed.

(** No reply is awaited. *)
Definition no_response (v : view_t) : Prop :=
  safe v /\ forall t, in_response_and_retry_timer (vw_derived v) <> Some (ResponseTimer, t).

Lemma idle_handshake_ok now :
  hoare (fun v => quiet v /\ in_handshake_state (vw_derived v) = Idle)
    (Idle_on_handshake_required fw clock ih params limits now : action _)
    (fun s v => running (on_derived (to_state s) v)).
Proof.
  unfold Idle_on_handshake_required.
  eapply hoare_pre; [|eapply (hoare_bind no_response); [apply hoare_ready|]].
  { intros v [[Hs Ht] Hi]. split; [exact Hs|]. unfold timer_ok in Ht. by rewrite Hi in Ht. }
  intros ready. destruct ready; cbn [negb].
  2: { apply set_then_return. intros v [[Hs Hn] _]. split; [split; [exact Hs|exact Hn]|].
       intros _ _. by left. }
  assert (ignores_handshake (fun v => no_response v /\ vw_ready v = true)) as Hig by (intros v h H; exact H).
  apply hoare_bind_pure; [apply pure_get|intros d].
  eapply hoare_seq; [by apply initialize_new_handshake_ok|]. intros [[ephemeral data]|].
  2: { apply retry_then_return. intros v t [[Hs Hn] _].
       split; [split; [exact Hs|by eexists]|done]. }
  apply hoare_bind_pure; [apply pure_get|intros d']. apply hoare_bind_pure; [apply pure_get|intros x].
  destruct (fw_write _ _ _) as [result w]. apply hoare_bind_pure; [apply pure_set_writer|intros []].
  destruct (WriteResult_is_error result).
  { apply hoare_ret. intros v [[Hs Hn] _]. split; [split; [exact Hs|exact Hn]|done]. }
  apply hoare_bind_pure; [apply pure_lift|intros h].
  eapply hoare_seq; [by apply set_handshake_ok|intros []].
  eapply hoare_seq; [apply hoare_transmit; intros v b H; exact H|intros ok].
  apply response_then_return. intros v t [Hs Hn]. split; [split; [exact Hs|by eexists]|done].
Qed.

Lemma handshake_required_ok :
  hoare quiet (on_handshake_required fw clock ih params limits : action unit) (fun _ => running).
Proof.
  unfold on_handshake_required. apply hoare_bind_pure; [apply pure_time|intros now].
  apply step_state_ok. intros s. destruct s; cbn [on_handshake_required_in]; [apply idle_handshake_ok|..];
    (apply set_then_return; intros v [[Hs Ht] E]; split; [split; [exact Hs|]|by intros _ _; left]);
    unfold timer_ok in *; by rewrite E in Ht.
Qed.

Lemma completing_state s (v : view_t) :
  completing v -> in_handshake_state (vw_derived v) = s -> s = WaitForAuthReply \/ s = WaitForRetry.
Proof. intros (_&H&_) <-. exact H. Qed.

(** Then the need for a handshake is only noted. *)
Lemma handshake_required_completing :
  hoare (fun v => safe v /\ completing v)
    (on_handshake_required fw clock ih params limits : action unit) (fun _ => finishing).
Proof.
  unfold on_handshake_required. apply hoare_bind_pure; [apply pure_time|intros now].
  apply step_state_ok. intros s.
  destruct (decide (s = WaitForAuthReply \/ s = WaitForRetry)) as [Hs|Hs].
  2: { apply hoare_absurd. intros v [[_ Hk] E]. by destruct Hs; apply (completing_state _ v). }
  assert (on_handshake_required_in fw clock ih params limits s now =
            (set_handshake_required true;;; aret s : action _)) as -> by by destruct Hs as [-> | ->].
  apply set_then_return. intros v [[Hsafe (Hn&Hk&Hp)] E].
  split; [exact Hsafe|]. split; [split; [exact Hn|split; [exact Hs|exact Hp]]|]. intros _. by left.
Qed.

Lemma running_quiet v : running v -> quiet v.
Proof. by intros [H _]. Qed.

Lemma nonce_change_ok rx tx :
  hoare running (Initiator_on_session_nonce_change fw clock ih params limits rx tx : action unit)
    (fun _ => running).
Proof.
  unfold Initiator_on_session_nonce_change. destruct (_ <=? _); [|by apply hoare_ret].
  eapply hoare_seq; [|intros []; apply handshake_required_ok].
  eapply hoare_pre; [|apply hoare_derived]. intros v [[Hs Ht] _]. split; [exact Hs|exact Ht].
Qed.

Lemma nonce_change_finishing rx tx :
  hoare finishing (Initiator_on_session_nonce_change fw clock ih params limits rx tx : action unit)
    (fun _ => finishing).
Proof.
  unfold Initiator_on_session_nonce_change. destruct (_ <=? _); [|by apply hoare_ret].
  eapply hoare_seq; [|intros []; apply handshake_required_completing].
  eapply hoare_pre; [|apply hoare_derived]. intros v (Hs&Hk&_). split; [exact Hs|exact Hk].
Qed.

(** *** Messages *)

(** After the response timer was stopped. *)
Definition stopped (v : view_t) : Prop :=
  safe v /\ in_response_and_retry_timer (vw_derived v) = None.

Lemma stop_timer_ok (P : view_t -> Prop) :
  (forall v, P v -> safe v) ->
  hoare P (set_response_and_retry_timer None : action unit) (fun _ => stopped).
Proof. intros H. eapply hoare_pre; [|apply hoare_derived]. intros v Hv. split; [exact (H v Hv)|done]. Qed.

Lemma retry_ok :
  hoare stopped (start_retry_timer clock params;;; aret WaitForRetry : action _)
    (fun s v => running (on_derived (to_state s) v)).
Proof.
  apply retry_then_return. intros v t [Hs Ht]. split; [split; [exact Hs|by eexists]|done].
Qed.

Lemma initialize_session_ok msg raw now :
  hoare (fun v => stopped v /\ vw_ready v = true) (initialize_session ih limits msg raw now : action _)
    (fun _ v => stopped v /\ vw_ready v = true).
Proof.
  intros w a w' HP H. unfold initialize_session, abind, layer, aget, alift in H. cbn in H.
  destruct (ih_initialize_session _ _ _ _ _ _ _ _) as [[[[ok h] s] st]| | |]; try done.
  injection H as <- <-. exact HP.
Qed.

Lemma on_reply_ok msg raw now :
  hoare (fun v => running v /\ vw_ready v = true)
    (step_state (fun s => on_reply_message_in fw clock ih params limits s msg raw now) : action unit)
    (fun _ => running).
Proof.
  apply step_state_ok. intros s.
  destruct (decide (s = WaitForBeginReply)) as [->|Hs].
  2: { assert (on_reply_message_in fw clock ih params limits s msg raw now = (aret s : action _)) as ->
         by by destruct s.
       apply hoare_ret. intros v [[Hr _] E]. by rewrite same_state. }
  cbn [on_reply_message_in]. unfold WaitForBeginReply_on_reply_message.
  eapply hoare_seq; [|intros []].
  { instantiate (1 := fun v => stopped v /\ vw_ready v = true).
    eapply hoare_pre; [|apply hoare_derived]. intros v [[[[Hs _] _] Hr] _]. repeat split; try apply Hs. exact Hr. }
  eapply hoare_seq; [apply initialize_session_ok|intros ok].
  destruct (negb ok); [eapply hoare_pre; [|apply retry_ok]; tauto|].
  eapply hoare_seq; [apply transmit_auth_ok; intros v b H; exact H|intros sent].
  destruct (negb sent); [apply retry_ok|].
  apply response_then_return. intros v t [Hs Ht]. split; [split; [exact Hs|by eexists]|done].
Qed.

Lemma on_error_ok msg raw now (P : view_t -> Prop) :
  (forall v, P v -> running v) ->
  hoare P (step_state (fun s => on_error_message_in clock params s msg raw now) : action unit)
    (fun _ => running).
Proof.
  intros HP. apply step_state_ok. intros s.
  destruct (decide (s = WaitForBeginReply \/ s = WaitForAuthReply)) as [Hs|Hs].
  - assert (on_error_message_in clock params s msg raw now =
              (set_response_and_retry_timer None;;; start_retry_timer clock params;;; aret WaitForRetry
                : action _)) as -> by by destruct Hs as [-> | ->].
    eapply hoare_seq; [apply stop_timer_ok|intros []; apply retry_ok].
    intros v [Hv _]. by apply HP in Hv as [[Hv _] _].
  - assert (on_error_message_in clock params s msg raw now = (aret s : action _)) as ->
      by (destruct s; try done; tauto).
    apply hoare_ret. intros v [Hv E]. rewrite same_state by done. by apply HP.
Qed.

Lemma on_error_finishing msg raw now :
  hoare (fun v => finishing v /\ vw_ready v = true)
    (step_state (fun s => on_error_message_in clock params s msg raw now) : action unit)
    (fun _ => finishing).
Proof.
  apply step_state_ok. intros s.
  destruct (decide (s = WaitForAuthReply \/ s = WaitForRetry)) as [Hs|Hs].
  2: { apply hoare_absurd. intros v [[(_&Hk&_) _] E]. by destruct Hs; apply (completing_state _ v). }
  destruct Hs as [-> | ->]; cbn [on_error_message_in].
  - eapply hoare_seq; [|intros []; apply retry_then_return].
    + instantiate (1 := fun v => stopped v /\ vw_pending v = false).
      eapply hoare_pre; [|apply hoare_derived]. intros v [[(Hs&(_&_&Hp)&_) _] _].
      repeat split; try apply Hs. exact Hp.
    + intros v t [[Hs Ht] Hp]. split; [exact Hs|].
      split; [split; [done|split; [by right|exact Hp]]|]. intros _. right; right. by eexists.
  - apply hoare_ret. intros v [[Hv _] E]. by rewrite same_state.
Qed.

(** The end of a handshake; the notifications run in states that are
    [finishing]. *)
Lemma on_auth_ok n msg raw now :
  notify_ok finishing n ->
  hoare (fun v => running v /\ vw_ready v = true)
    (step_state (fun s => on_auth_message_in c clock params n s msg raw now) : action unit)
    (fun _ => running).
Proof.
  intros HN. apply step_state_ok. intros s.
  destruct (decide (s = WaitForAuthReply)) as [->|Hs].
  2: { assert (on_auth_message_in c clock params n s msg raw now = (aret s : action _)) as -> by by destruct s.
       apply hoare_ret. intros v [[Hr _] E]. by rewrite same_state. }
  cbn [on_auth_message_in]. unfold WaitForAuthReply_on_auth_message.
  eapply hoare_seq; [|intros []].
  { instantiate (1 := fun v => stopped v /\ in_handshake_state (vw_derived v) = WaitForAuthReply).
    eapply hoare_pre; [|apply hoare_derived]. intros v [[[[Hs _] _] _] E]. repeat split; try apply Hs. exact E. }
  eapply hoare_bind; [apply validate_auth_ok|]. intros [ec|payload].
  { eapply hoare_pre; [|apply retry_ok]. tauto. }
  eapply hoare_seq; [|intros []].
  { eapply hoare_pre; [|apply (activate_pending_ok c (fun v => stopped v /\
      in_handshake_state (vw_derived v) = WaitForAuthReply /\ vw_active v = true /\ vw_pending v = false))].
    intros v [[[[Hs1 Hs2] Ht] E] Hp]. unfold stopped, safe. cbn. rewrite Hp. tauto. }
  eapply hoare_seq; [|intros []].
  { instantiate (1 := fun v => stopped v /\ in_handshake_state (vw_derived v) = WaitForAuthReply /\
      vw_active v = true /\ vw_pending v = false).
    eapply hoare_pre; [|apply hoare_derived]. intros v H. exact H. }
  apply hoare_bind_pure; [apply pure_get|intros x].
  eapply hoare_seq; [|intros []].
  { instantiate (1 := fun v => finishing (with_upper true v)).
    eapply hoare_pre; [|apply hoare_derived]. intros v ([[Hs1 Hs2] Ht]&E&Ha&Hp). cbn in Ht.
    split; [split; [intros _; exact Ha|exact Hs2]|].
    split; [split; [intros t; cbn; by rewrite Ht|split; [by left|exact Hp]]|].
    intros _. right; left. by eexists. }
  eapply hoare_seq; [apply (notify_open _ _ HN)|intros []].
  eapply hoare_seq; [|intros []].
  { instantiate (1 := finishing). destruct (negb _); [|by apply hoare_ret].
    apply hoare_bind_pure; [apply pure_set_payload|intros []]. apply (notify_rx _ _ HN). }
  apply hoare_ret. intros v (Hs&(Hn&Hst&Hp)&Haw). split; [split; [exact Hs|exact Hn]|].
  intros Ho _. exact (Haw Ho).
Qed.

Lemma on_auth_finishing n msg raw now :
  hoare (fun v => finishing v /\ vw_ready v = true)
    (step_state (fun s => on_auth_message_in c clock params n s msg raw now) : action unit)
    (fun _ => finishing).
Proof.
  apply step_state_ok. intros s.
  destruct (decide (s = WaitForAuthReply \/ s = WaitForRetry)) as [Hs|Hs].
  2: { apply hoare_absurd. intros v [[(_&Hk&_) _] E]. by destruct Hs; apply (completing_state _ v). }
  destruct Hs as [-> | ->]; cbn [on_auth_message_in].
  2: { apply hoare_ret. intros v [[Hv _] E]. by rewrite same_state. }
  unfold WaitForAuthReply_on_auth_message. eapply hoare_seq; [|intros []].
  { instantiate (1 := fun v => stopped v /\ vw_pending v = false).
    eapply hoare_pre; [|apply hoare_derived]. intros v [[(Hs&(_&_&Hp)&_) _] _].
    repeat split; try apply Hs. exact Hp. }
  eapply hoare_bind; [apply validate_auth_ok|]. intros [ec|payload].
  2: { apply hoare_absurd. intros v [[_ Hp] Hp']. congruence. }
  apply retry_then_return. intros v t [[[Hs Ht] Hp] _]. split; [exact Hs|].
  split; [split; [done|split; [by right|exact Hp]]|]. intros _. right; right. by eexists.
Qed.

Lemma on_reply_finishing msg raw now :
  hoare (fun v => finishing v /\ vw_ready v = true)
    (step_state (fun s => on_reply_message_in fw clock ih params limits s msg raw now) : action unit)
    (fun _ => finishing).
Proof.
  apply step_state_ok. intros s.
  destruct (decide (s = WaitForBeginReply)) as [->|Hs].
  - apply hoare_absurd. intros v [[(_&Hk&_) _] E]. by destruct (completing_state _ v Hk E).
  - assert (on_reply_message_in fw clock ih params limits s msg raw now = (aret s : action _)) as ->
      by by destruct s.
    apply hoare_ret. intros v [[Hv _] E]. by rewrite same_state.
Qed.

Local Abbreviation the_virtuals := (Initiator_virtuals fw c clock ih params limits).

Lemma messages_finishing n : messages_ok finishing (the_virtuals n : virtuals (L := L) (U := U)).
Proof.
  split; cbn [v_on_parse_error v_on_session_nonce_change v_on_request v_on_reply v_on_error
    v_on_auth_session Initiator_virtuals]; intros.
  - apply hoare_ret. tauto.
  - apply nonce_change_finishing.
  - apply hoare_ret. tauto.
  - apply on_reply_finishing.
  - apply on_error_finishing.
  - apply on_auth_finishing.
Qed.

Lemma messages_running n :
  notify_ok finishing n -> messages_ok running (the_virtuals n : virtuals (L := L) (U := U)).
Proof.
  intros HN. split; cbn [v_on_parse_error v_on_session_nonce_change v_on_request v_on_reply v_on_error
    v_on_auth_session Initiator_virtuals]; intros.
  - apply hoare_ret. tauto.
  - apply nonce_change_ok.
  - apply hoare_ret. tauto.
  - apply on_reply_ok.
  - apply on_error_ok. tauto.
  - by apply on_auth_ok.
Qed.

Lemma notify_finishing fuel : notify_ok finishing (notify fw c upper clock the_virtuals fuel).
Proof.
  apply notify_all_ok; [exact LAWS|apply finishing_invariant|]. intros n _. apply messages_finishing.
Qed.

Lemma notify_running fuel : notify_ok running (notify fw c upper clock the_virtuals fuel).
Proof.
  induction fuel as [|fuel IH]; [split; apply hoare_fuel|].
  pose proof (call_upper_ok fw c upper clock running running_invariant _ _ IH
                (messages_running _ (notify_finishing fuel))) as H.
  split; apply H.
Qed.

Lemma events_running n : events_ok running (the_virtuals n : virtuals (L := L) (U := U)).
Proof.
  split; cbn [v_on_pre_tx_ready v_on_lower_open_impl v_reset_state_on_close_from_lower Initiator_virtuals].
  - unfold Initiator_on_pre_tx_ready. apply hoare_bind_pure; [apply pure_get|intros d].
    destruct (in_handshake_required d); [|by apply hoare_ret].
    eapply hoare_pre; [|apply handshake_required_ok]. apply running_quiet.
  - eapply hoare_pre; [|apply handshake_required_ok]. intros v [[[Hs Ht] _] _]. split; [exact Hs|exact Ht].
  - intros w a w' [[[Hs _] _] Ho] H. injection H as <- <-. cbn in Ho.
    split; [split; [split; [done|exact (proj2 Hs)]|done]|]. cbn. by rewrite Ho.
Qed.

(** *** Timers *)

Lemma timers_ok :
  hoare running (on_response_or_retry_timer fw clock ih params limits : action unit) (fun _ => running) /\
  hoare running (on_session_timer fw clock ih params limits : action unit) (fun _ => running).
Proof.
  split.
  - unfold on_response_or_retry_timer.
    eapply hoare_bind; [apply (view_read running w_derived (fun d v => running v /\ vw_derived v = d)); done|].
    intros d. destruct (in_response_and_retry_timer d) as [[[] due]|] eqn:E; [| |apply hoare_ret; tauto].
    + eapply hoare_seq; [|intros []].
      { instantiate (1 := fun v => stopped v /\ (in_handshake_state (vw_derived v) = WaitForBeginReply \/
          in_handshake_state (vw_derived v) = WaitForAuthReply)).
        eapply hoare_pre; [|apply hoare_derived]. intros v [[[Hs Ht] _] <-].
        split; [split; [exact Hs|done]|]. unfold timer_ok in Ht. cbn.
        destruct (in_handshake_state (vw_derived v)); try tauto; [by destruct (Ht due)|
          destruct Ht; congruence|by destruct (Ht due)]. }
      apply step_state_ok. intros s.
      destruct (decide (s = WaitForBeginReply \/ s = WaitForAuthReply)) as [Hs|Hs].
      * assert (on_response_timeout_in clock params s =
                  (start_retry_timer clock params;;; aret WaitForRetry : action _)) as ->
          by by destruct Hs as [-> | ->].
        eapply hoare_pre; [|apply retry_ok]. tauto.
      * apply hoare_absurd. intros v [[_ H] Es]. rewrite Es in H. tauto.
    + eapply hoare_seq; [|intros []].
      { instantiate (1 := fun v => stopped v /\ (in_handshake_state (vw_derived v) <> WaitForBeginReply /\
          in_handshake_state (vw_derived v) <> WaitForAuthReply)).
        eapply hoare_pre; [|apply hoare_derived]. intros v [[[Hs Ht] _] <-].
        split; [split; [exact Hs|done]|]. unfold timer_ok in Ht. cbn.
        destruct (in_handshake_state (vw_derived v)); try done; destruct Ht; congruence. }
      eapply hoare_seq; [|intros []; apply handshake_required_ok].
      apply step_state_ok. intros s.
      destruct (decide (s = WaitForBeginReply \/ s = WaitForAuthReply)) as [Hs|Hs].
      { apply hoare_absurd. intros v [[_ H] Es]. rewrite Es in H. tauto. }
      assert (exists s', (s' = Idle \/ s' = BadConfiguration) /\ on_retry_timeout_in s = (aret s' : action _))
        as (s'&Hs'&->) by (destruct s; eauto; tauto).
      apply hoare_ret. intros v [[[Hsafe Ht] _] _]. cbn in Ht. split; [exact Hsafe|].
      unfold timer_ok. cbn. rewrite Ht. by destruct Hs' as [-> | ->].
  - unfold on_session_timer. apply hoare_bind_pure; [apply pure_get|intros d].
    destruct (in_session_timeout_timer d); [|by apply hoare_ret].
    eapply hoare_seq; [|intros []; apply handshake_required_ok].
    eapply hoare_pre; [|apply hoare_derived]. intros v [[Hs Ht] _]. split; [exact Hs|exact Ht].
Qed.

(** A new initiator: idle, without session and timers, both layers closed. *)
Definition initiator_initial (w : World W (Initiator HI) L U) : Prop :=
  exists ttl writer m1 m2 buffer in_stack h,
    w_layer w = CryptoLayer_new c ttl writer m1 m2 buffer in_stack /\ w_derived w = Initiator_new h /\
    w_upper_open w = false /\ w_sent w = [].

Lemma initiator_running w :
  reachable initiator_initial (initiator_step fw c upper clock ih params limits) w -> running (view w).
Proof.
  apply reachable_invariant.
  - intros w0 (ttl&writer&m1&m2&buffer&in_stack&h&Hl&Hd&Ho&Hs). unfold running, quiet, safe, timer_ok, view. cbn.
    rewrite Ho, Hs, Hd, Hl. cbn. by repeat split.
  - apply running_invariant.
  - intros fuel [e| |]; cbn [initiator_step]; [|apply timers_ok..].
    apply layer_step_ok; [exact LAWS|apply running_invariant|apply notify_running| |apply events_running].
    apply messages_running, notify_finishing.
Qed.

(** An initiator is safe in every reachable state, whatever arrives from the
    lower layer, whatever handshake it uses and however the upper layer behaves:
    the upper layer is open only while the active session is valid, and every
    frame was handed to the lower layer when it was ready to transmit. *)
Theorem initiator_safe w :
  reachable initiator_initial (initiator_step fw c upper clock ih params limits) w ->
  (w_upper_open w = true -> s_valid (active (cl_sessions (w_layer w))) = true) /\
  Forall (fun sent => fst sent = true) (w_sent w).
Proof.
  intros H. apply initiator_running in H as [[[H1 H2] _] _]. split; [exact H1|]. by apply sent_ready_all.
Qed.

(** C10: An initiator never gets stuck: in every reachable state the response
    timer is active while it waits for a reply, the retry timer while it waits
    to retry, and in the idle state of an open layer the need for a handshake is
    noted for the next time the lower layer is ready, or a timer is active that
    will make it negotiate; whatever messages arrive, in any order, and whatever
    the upper layer does in its handlers.  Only a request that cannot be formatted,
    an error of configuration, ends the attempts until the layer is closed. *)
Theorem initiator_never_stuck w :
  reachable initiator_initial (initiator_step fw c upper clock ih params limits) w ->
  let d := w_derived w in
  match in_handshake_state d with
  | WaitForBeginReply | WaitForAuthReply =>
      exists due, in_response_and_retry_timer d = Some (ResponseTimer, due)
  | WaitForRetry => exists due, in_response_and_retry_timer d = Some (RetryTimer, due)
  | Idle =>
      cl_is_open (w_layer w) = true ->
      in_handshake_required d = true \/ is_Some (in_session_timeout_timer d) \/
      is_Some (in_response_and_retry_timer d)
  | BadConfiguration => True
  end.
Proof.
  intros H d. apply initiator_running in H as [[_ Ht] Hn]. subst d.
  unfold timer_ok, will_negotiate in *. cbn in Ht, Hn.
  destruct (in_handshake_state (w_derived w)); auto.
Qed.
End Liveness.
