(* ===== verification/Returns.v ===== *)
(** * Calls that return

    Every operation of the layers below returns: with a backend that was
    initialized and has the functions the handshake needs, no call exits, throws,
    goes through a null function pointer or accesses memory outside a buffer, if
    destinations have room and keys their length.  [owp o Q] says that [o] returns a value
    that satisfies [Q].

    [InitiatorReturns] and [ResponderReturns] are what the cryptographic layer needs
    of a handshake; all six handshakes are instances. *)

From stdpp Require Import base numbers list strings.
From Stdlib Require Import Lia ZArith.
From S2P Require Import Prelude Ser4cpp Enums Codec Messages CRC LinkParser FrameWriter.
From S2P Require Import Crypto SessionMode Session Chain Handshake.

Definition owp {A} (o : outcome A) (Q : A -> Prop) : Prop :=
  match o with Done a => Q a | _ => False end.

Lemma owp_bind {A B} (o : outcome A) (k : A -> outcome B) (Q : B -> Prop) :
  owp o (fun a => owp (k a) Q) -> owp (obind o k) Q.
Proof. by destruct o. Qed.

Lemma owp_mono {A} (o : outcome A) (P Q : A -> Prop) :
  owp o P -> (forall a, P a -> Q a) -> owp o Q.
Proof. destruct o; simpl; auto. Qed.

Lemma owp_returns {A} (o : outcome A) (Q : A -> Prop) : owp o Q -> exists a, o = Done a /\ Q a.
Proof. destruct o; simpl; [eauto|done..]. Qed.

Abbreviation returns o := (owp o (fun _ => True)).

(** A call whose result does not matter, then the rest. *)
Lemma owp_call {A B} (o : outcome A) (k : A -> outcome B) (Q : B -> Prop) :
  returns o -> (forall a, owp (k a) Q) -> owp (obind o k) Q.
Proof. intros Ho Hk. apply owp_bind. apply (owp_mono _ _ _ Ho). auto. Qed.

Create HintDb returns.

(** Runs through the branches of a computation; the calls are in the database. *)
Ltac owp_step :=
  match goal with
  | |- owp (Done _) _ => cbn [owp]
  | |- owp (obind _ _) _ => eapply owp_call; [solve [auto with returns]|intros ?]
  | |- owp (let '(_, _) := ?x in _) _ => destruct x eqn:?
  | |- owp (match ?x with _ => _ end) _ => destruct x eqn:?
  end.
Ltac owp_run := repeat (cbv beta zeta; owp_step).

(** ** Primitives *)

(** The backend was initialized, offers SHA-256, its key derivation returns and so
    do its encryption functions where their destination has room. *)
Record backend_complete (c : CryptoState) : Prop := {
  bc_initialized : initialized c = true;
  bc_zero : is_some (be_zero_memory (backend c)) = true;
  bc_random : is_some (be_gen_random (backend c)) = true;
  bc_equals : is_some (be_secure_equals (backend c)) = true;
  bc_sha256 : supports_sha256 c = true;
  bc_kdf : kdf_returns (backend c);
  bc_gcm : gcm_returns (backend c);
}.

(** What [Crypto::initialize] accepted is complete when it offers SHA-256. *)
Lemma initialize_complete c0 impl c :
  Crypto_initialize c0 impl = Done c -> supports_sha256 c = true -> kdf_returns impl -> gcm_returns impl ->
  backend_complete c.
Proof.
  unfold Crypto_initialize.
  destruct (initialized c0); [done|]. destruct (is_some (be_zero_memory impl)) eqn:?; [|done].
  destruct (is_some (be_gen_random impl)) eqn:?; [|done].
  destruct (is_some (be_secure_equals impl)) eqn:?; [|done]. intros [= <-] Hs Hk Hg. by split.
Qed.

(** And the functions of the public-key handshakes. *)
Record backend_dh (c : CryptoState) : Prop := {
  bd_x25519 : supports_x25519 c = true;
  bd_ed25519 : supports_ed25519 c = true;
  bd_keys : key_calls_return (backend c);
}.

Lemma call_returns {A B} (f : option A) (k : A -> B) : is_some f = true -> returns (call f k).
Proof. by destruct f. Qed.

#[export] Hint Resolve call_returns : returns.

Section Primitives.
Context (c : CryptoState) (HC : backend_complete c).

Lemma initialized_returns : check_initialized c = Done tt.
Proof. unfold check_initialized. by rewrite (bc_initialized _ HC). Qed.

Lemma sha256_parts :
  is_some (be_hash_sha256 (backend c)) = true /\ is_some (be_hkdf_sha256 (backend c)) = true /\
  is_some (be_hmac_sha256 (backend c)) = true.
Proof.
  pose proof (bc_sha256 _ HC) as H. unfold supports_sha256 in H.
  apply andb_prop in H as [H ?]. by apply andb_prop in H as [? ?].
Qed.

Lemma zero_memory_returns data : returns (Crypto_zero_memory c data).
Proof. unfold Crypto_zero_memory. rewrite initialized_returns. apply call_returns, HC. Qed.

Lemma gen_random_returns draw dest : returns (Crypto_gen_random c draw dest).
Proof. unfold Crypto_gen_random. rewrite initialized_returns. apply call_returns, HC. Qed.

Lemma secure_equals_returns l r : returns (Crypto_secure_equals c l r).
Proof. unfold Crypto_secure_equals. rewrite initialized_returns. apply call_returns, HC. Qed.

Lemma sha256_check : check_supports_sha256 c = Done tt.
Proof.
  unfold check_supports_sha256. rewrite initialized_returns. cbn. by rewrite (bc_sha256 _ HC).
Qed.

Lemma hash_returns data out : returns (Crypto_hash_sha256 c data out).
Proof. unfold Crypto_hash_sha256. rewrite sha256_check. apply call_returns, sha256_parts. Qed.

Lemma hmac_returns key data out : returns (Crypto_hmac_sha256 c key data out).
Proof. unfold Crypto_hmac_sha256. rewrite sha256_check. apply call_returns, sha256_parts. Qed.

Lemma hkdf_returns salt ikm o1 o2 : returns (Crypto_hkdf_sha256 c salt ikm o1 o2).
Proof.
  unfold Crypto_hkdf_sha256. rewrite sha256_check. cbn [obind].
  pose proof sha256_parts as (_&Hk&_). pose proof (bc_kdf _ HC) as Hr.
  destruct (be_hkdf_sha256 (backend c)) as [f|] eqn:E; [|done]. cbn.
  specialize (Hr f salt ikm o1 o2 E). by destruct (f salt ikm o1 o2).
Qed.

Lemma gcm_calls_return :
  supports_aes256_gcm c = true ->
  (forall key nonce ad pt eb mac, zlen pt <= zlen eb -> returns (Crypto_aes256_gcm_encrypt c key nonce ad pt eb mac)) /\
  (forall key nonce ad ct tag dest, zlen ct <= zlen dest ->
     owp (Crypto_aes256_gcm_decrypt c key nonce ad ct tag dest) (fun '(_, dest') => zlen dest' = zlen dest)).
Proof.
  intros H. assert (check_supports_aes256_gcm c = Done tt) as Hc.
  { unfold check_supports_aes256_gcm. rewrite initialized_returns. cbn. by rewrite H. }
  unfold supports_aes256_gcm in H. apply andb_prop in H as [He Hd]. destruct (bc_gcm _ HC) as [Henc Hdec].
  split; intros; unfold Crypto_aes256_gcm_encrypt, Crypto_aes256_gcm_decrypt; rewrite Hc; cbn [obind].
  - destruct (be_aes256_gcm_encrypt (backend c)) as [f|]; [|done]. cbn.
    by destruct (Henc f key nonce ad pt eb mac eq_refl) as (?&?&?&->&_).
  - destruct (be_aes256_gcm_decrypt (backend c)) as [f|]; [|done]. cbn.
    by destruct (Hdec f key nonce ad ct tag dest eq_refl) as (?&?&->&?).
Qed.

Lemma dh_returns :
  backend_dh c ->
  (forall key pub out, x25519_key_length <= zlen pub -> returns (Crypto_dh_x25519 c key pub out)) /\
  (forall draw pair, returns (Crypto_gen_keypair_x25519 c draw pair)) /\
  (forall message signature key, ed25519_signature_length <= zlen signature -> ed25519_public_key_length <= zlen key ->
     returns (Crypto_verify_ed25519 c message signature key)).
Proof.
  intros [Hx He [Hxd _ Hver]].
  assert (check_supports_x25519 c = Done tt) as Cx
    by (unfold check_supports_x25519; rewrite initialized_returns; cbn; by rewrite Hx).
  assert (check_supports_ed25519 c = Done tt) as Ce
    by (unfold check_supports_ed25519; rewrite initialized_returns; cbn; by rewrite He).
  unfold supports_x25519 in Hx. apply andb_prop in Hx as [Hg Hd].
  unfold supports_ed25519 in He. apply andb_prop in He as [_ Hv].
  split; [|split]; intros; unfold Crypto_dh_x25519, Crypto_gen_keypair_x25519, Crypto_verify_ed25519;
    rewrite ?Cx, ?Ce; cbn [obind]; [|by apply call_returns|].
  { destruct (be_dh_x25519 (backend c)) as [f|]; [|done]. cbn. by destruct (Hxd f key pub out eq_refl) as (r&->). }
  destruct (be_verify_ed25519 (backend c)) as [f|]; [|done]. cbn.
  by destruct (Hver f message signature key eq_refl) as (ok&->).
Qed.

Lemma keys_zero_returns k : returns (SessionKeys_zero c k).
Proof.
  unfold SessionKeys_zero, SecureBuffer_zero.
  do 2 (apply owp_call; [apply owp_call; [apply zero_memory_returns|done]|intros]). done.
Qed.

(** ** Algorithms and sessions *)

(** Where the backend offers AES-GCM, a peer may choose it, and what is decrypted has
    to fit the destination. *)
Definition room_for (size capacity : Z) : Prop := supports_aes256_gcm c = true -> size <= capacity.

Definition mode_returns (m : SessionMode) : Prop :=
  (forall key nonce ad pt eb mac, zlen pt <= zlen eb -> returns (mode_encrypt m key nonce ad pt eb mac)) /\
  (forall key nonce ad ct tag dest, room_for (zlen ct) (zlen dest) ->
     owp (mode_decrypt m key nonce ad ct tag dest) (fun '(_, dest') => zlen dest' = zlen dest)).

Definition session_returns (s : Session) : Prop := mode_returns (session_mode (s_algorithms s)).

Record algorithms_return (a : Algorithms_Common) : Prop := {
  ar_mode : mode_returns (session_mode (alg_session a));
  ar_hash data out : returns (alg_hash (alg_handshake a) data out);
  ar_kdf salt ikm o1 o2 : returns (alg_kdf (alg_handshake a) salt ikm o1 o2);
}.

Definition sessions_return (ss : Sessions) : Prop :=
  session_returns (active ss) /\ session_returns (pending_session ss).

Context `{SER : Ser4cpp}.

Lemma hmac_mode_returns : mode_returns (hmac_sha_256_trunc16 c).
Proof.
  pose proof hmac_returns. pose proof secure_equals_returns.
  split; intros; cbn [mode_encrypt mode_decrypt hmac_sha_256_trunc16];
    unfold aead_mac_encrypt, aead_mac_decrypt; owp_run; done.
Qed.

Lemma new_session_returns ttl memory : session_returns (Session_new c ttl memory).
Proof. exact hmac_mode_returns. Qed.

(** Configuring selects functions that return. *)
Lemma handshake_configure_returns a kdf hash err a' :
  Algorithms_Handshake_configure c a kdf hash = (err, a') ->
  (forall data out, returns (alg_hash a data out)) ->
  (forall salt ikm o1 o2, returns (alg_kdf a salt ikm o1 o2)) ->
  (forall data out, returns (alg_hash a' data out)) /\
  (forall salt ikm o1 o2, returns (alg_kdf a' salt ikm o1 o2)).
Proof.
  intros H Hh Hk. pose proof hash_returns. pose proof hkdf_returns.
  unfold Algorithms_Handshake_configure in H. rewrite (bc_sha256 _ HC) in H. cbn in H.
  destruct hash; [|by injection H as <- <-].
  by destruct kdf; injection H as <- <-.
Qed.

Lemma session_configure_returns a nonce mode err a' :
  Algorithms_Session_configure c a nonce mode = (err, a') ->
  mode_returns (session_mode a) -> mode_returns (session_mode a').
Proof.
  intros H Hm. pose proof hmac_mode_returns as Hmac. pose proof gcm_calls_return as Hgcm.
  unfold Algorithms_Session_configure in H. rewrite (bc_sha256 _ HC) in H. cbn in H.
  destruct nonce, mode, (supports_aes256_gcm c) eqn:Es; cbn in H; injection H as <- <-; cbn; try done.
  all: destruct (Hgcm eq_refl) as [He Hd]; split; intros; [by apply He|]; apply Hd; by auto.
Qed.

Lemma configure4_returns a hash kdf nonce mode err a' :
  algorithms_return a -> Algorithms_Common_configure4 c a hash kdf nonce mode = (err, a') ->
  algorithms_return a'.
Proof.
  intros [Hm Hh Hk] H. unfold Algorithms_Common_configure4 in H.
  destruct (Algorithms_Handshake_configure c (alg_handshake a) kdf hash) as [e1 h] eqn:E1.
  destruct (handshake_configure_returns _ _ _ _ _ E1 Hh Hk) as [Hh' Hk'].
  destruct (any_HandshakeError e1); [injection H as <- <-; by split|].
  destruct (Algorithms_Session_configure c _ nonce mode) as [e2 s] eqn:E2.
  pose proof (session_configure_returns _ _ _ _ _ E2 Hm).
  by destruct (any_HandshakeError e2); injection H as <- <-; split.
Qed.

Lemma default_returns : algorithms_return (Algorithms_Common_default c).
Proof. split; [exact hmac_mode_returns|exact hash_returns|exact hkdf_returns]. Qed.

Lemma get_or_throw_returns suite a :
  Algorithms_Common_get_or_throw c suite = Done a -> algorithms_return a.
Proof.
  unfold Algorithms_Common_get_or_throw.
  destruct (Algorithms_Common_configure4 _ _ _ _ _ _) as [err a0] eqn:E.
  destruct (any_HandshakeError err); [done|]. intros [= <-].
  exact (configure4_returns _ _ _ _ _ _ _ default_returns E).
Qed.

(** *** Sessions: they return and keep their algorithms *)

(** The message fits the destination it is decrypted into. *)
Definition fits_into (msg : SessionData) (dest : bytes) : Prop :=
  room_for (zlen (sd_user_data msg)) (zlen dest).

Lemma read_returns m key msg dest :
  mode_returns m -> fits_into msg dest ->
  owp (SessionMode_read m key msg dest) (fun '(_, dest') => zlen dest' = zlen dest).
Proof. intros [_ Hd] Hf. unfold SessionMode_read. destruct (negb _); [done|by apply Hd]. Qed.

Lemma tx_length_fits (data eb : bytes) :
  zlen (seq_take data (calc_user_data_tx_length (zlen data) (zlen eb) 1024)) <= zlen eb.
Proof.
  pose proof (zlen_nonneg data). pose proof (zlen_nonneg eb).
  rewrite tx_length_spec, seq_take_spec, zlen_ztake by lia. lia.
Qed.

Lemma write_returns m key metadata data eb mac :
  mode_returns m -> returns (SessionMode_write m key metadata data eb mac).
Proof.
  intros [He _]. unfold SessionMode_write. destruct (negb _); [done|]. destruct (is_nil _); [done|].
  apply owp_call; [apply He, tx_length_fits|]. by intros [[[ec|[ct tag]] eb'] mac'].
Qed.

Lemma validate_with_nonce_returns s st msg now dest verify :
  session_returns s -> fits_into msg dest ->
  owp (validate_session_data_with_nonce_func s st msg now dest verify)
    (fun '(_, s', _, dest') => s_algorithms s' = s_algorithms s /\ zlen dest' = zlen dest).
Proof.
  intros Hs Hf. unfold validate_session_data_with_nonce_func. destruct (negb _); [done|].
  apply owp_bind. eapply owp_mono; [by apply read_returns|]. intros [[ec|payload] d] Hd; owp_run; done.
Qed.

(** Validation returns, and keeps the size of the destination. *)
Definition validates (validate : Session -> SessionStatistics -> SessionData -> Z -> bytes ->
    outcome ((error_code + bytes) * Session * SessionStatistics * bytes)) : Prop :=
  forall s st msg now dest, session_returns s -> fits_into msg dest ->
    owp (validate s st msg now dest) (fun '(_, s', _, dest') => session_returns s' /\ zlen dest' = zlen dest).

Lemma validate_auth_returns : validates Session_validate_session_auth.
Proof.
  intros s st msg now dest Hs Hf. eapply owp_mono; [by apply validate_with_nonce_returns|].
  intros [[[? s'] ?] ?] [E ?]. unfold session_returns. by rewrite E.
Qed.

Lemma validate_data_returns : validates Session_validate_session_data.
Proof.
  intros s st msg now dest Hs Hf. unfold Session_validate_session_data. apply owp_bind.
  eapply owp_mono; [by apply validate_with_nonce_returns|].
  intros [[[res s'] st'] d] [E ?]. assert (session_returns s') by (unfold session_returns; by rewrite E).
  owp_run; done.
Qed.

Context {W : Type} (fw : frame_writer W).

Lemma format_no_check_returns s w now data :
  session_returns s ->
  owp (format_session_data_no_nonce_check fw s w now data) (fun '(_, s', _, _) => session_returns s').
Proof.
  intros Hs. unfold format_session_data_no_nonce_check.
  destruct (negb _); [done|]. destruct (_ <? _); [done|]. destruct (_ <? _); [done|].
  destruct (_ <? _); [done|]. apply owp_call; [by apply write_returns|].
  intros [[[ec|msg] rest] eb]; owp_run; done.
Qed.

Lemma format_auth_returns s w now data :
  session_returns s ->
  owp (Session_format_session_auth fw s w now data) (fun '(_, s', _, _) => session_returns s').
Proof.
  intros Hs. unfold Session_format_session_auth. destruct (negb _); [done|by apply format_no_check_returns].
Qed.

Lemma format_data_returns s w now data :
  session_returns s ->
  owp (Session_format_session_data fw s w now data) (fun '(_, s', _, _) => session_returns s').
Proof.
  intros Hs. unfold Session_format_session_data. destruct (_ <=? _); [done|by apply format_no_check_returns].
Qed.

Lemma reset_returns s : session_returns s -> owp (Session_reset c s) session_returns.
Proof. intros Hs. unfold Session_reset. apply owp_call; [apply keys_zero_returns|]. by intros k. Qed.

Lemma reset_both_returns ss : sessions_return ss -> owp (Sessions_reset_both c ss) sessions_return.
Proof.
  intros [Ha Hp]. unfold Sessions_reset_both.
  apply owp_bind, (owp_mono _ _ _ (reset_returns _ Ha)). intros a Ha'.
  apply owp_bind, (owp_mono _ _ _ (reset_returns _ Hp)). by intros p Hp'.
Qed.

Lemma activate_returns ss : sessions_return ss -> owp (Sessions_activate_pending c ss) sessions_return.
Proof.
  intros [Ha Hp]. unfold Sessions_activate_pending.
  apply owp_bind, (owp_mono _ _ _ (reset_returns _ Ha)). by intros a Ha'.
Qed.

Lemma initialize_returns s st alg p keys b s' st' :
  session_returns s -> mode_returns (session_mode alg) ->
  Session_initialize s st alg p keys = (b, s', st') -> session_returns s'.
Proof. intros Hs Hm. unfold Session_initialize. destruct (negb _); by intros [= <- <- <-]. Qed.

Lemma start_initiator_returns alg t limits now keys s st b s' st' :
  session_returns s -> algorithms_return alg ->
  start_initiator_session alg t limits now keys s st = (b, s', st') -> session_returns s'.
Proof.
  intros Hs Ha. unfold start_initiator_session. destruct (_ <? _); [by intros [= <- <- <-]|].
  apply initialize_returns; [done|apply Ha].
Qed.

Lemma start_responder_returns alg msg now keys s st s' st' :
  session_returns s -> algorithms_return alg ->
  start_responder_session alg msg now keys s st = (s', st') -> session_returns s'.
Proof.
  intros Hs Ha. unfold start_responder_session.
  destruct (Session_initialize _ _ _ _ _) as [[b s1] st1] eqn:E. intros [= <- <-].
  eapply initialize_returns; [done| |exact E]. apply Ha.
Qed.
End Primitives.

(** ** Handshakes *)

(** The operations of a handshake return, for the handshakes that satisfy [I],
    and leave sessions whose operations return. *)
Class InitiatorReturns (c : CryptoState) {H} (ih : initiator_handshake H) (I : H -> Prop) : Prop := {
  ir_new draw h : I h -> owp (ih_initialize_new_handshake ih draw h) (fun '(_, h') => I h');
  ir_finalize h data now : I h -> owp (ih_finalize_request_tx ih h data now) I;
  ir_session h msg data limits now s st :
    I h -> session_returns c s ->
    owp (ih_initialize_session ih h msg data limits now s st)
      (fun '(_, h', s', _) => I h' /\ session_returns c s');
}.

Class ResponderReturns (c : CryptoState) {H W} (rh : responder_handshake H W) (I : H -> Prop) : Prop := {
  rr_process h draw msg data now w s st :
    I h -> session_returns c s ->
    owp (rh_process rh h draw msg data now w s st) (fun '(_, h', _, s', _) => I h' /\ session_returns c s');
}.

(** A certificate handler whose checks return, and that accepts keys of full length. *)
Definition handler_returns (h : ICertificateHandler) : Prop :=
  forall mode data, owp (handler_validate h mode data)
    (fun r => match r with inr key => x25519_key_length <= zlen key | inl _ => True end).

Section Handshakes.
Context `{SER : Ser4cpp} {W : Type} (fw : frame_writer W) (c : CryptoState).
Context (HC : backend_complete c).

Lemma hasher_returns hash a b :
  (forall data out, returns (hash data out)) -> returns (HandshakeHasher_compute hash a b).
Proof.
  intros Hh. unfold HandshakeHasher_compute.
  apply owp_call; [apply Hh|intros v]. apply owp_call; [apply Hh|done].
Qed.

Lemma triple_dh_returns n dh static ephemeral rs re :
  (forall key pub out, n <= zlen pub -> returns (dh key pub out)) -> n <= zlen rs -> n <= zlen re ->
  returns (TripleDH_compute dh static ephemeral rs re).
Proof.
  intros Hd Hs He. unfold TripleDH_compute.
  do 3 (apply owp_call; [by apply Hd|intros [ec|?]; [done|]]). done.
Qed.

Lemma preshared_handler_returns key :
  x25519_key_length <= zlen (as_seq key) -> handler_returns (PresharedKeyCertificateHandler key).
Proof. intros Hk mode data. cbn. destruct (bool_decide _); [done|]. by destruct (negb _). Qed.

(** The certificates that are valid under an anchor, itself included, have keys of
    full length, as those the certificate tool issues. *)
Definition issues_full_keys (anchor : CertificateBody) : Prop :=
  forall certificates cert, Chain_verify_loop c anchor certificates = Done (inr cert) ->
    match cb_public_key_type cert with
    | PublicKeyType_Ed25519 => ed25519_public_key_length <= zlen (cb_public_key cert)
    | PublicKeyType_X25519 => x25519_key_length <= zlen (cb_public_key cert)
    | _ => True
    end.

Lemma verify_pair_returns parent env :
  backend_dh c -> issues_full_keys parent -> returns (Chain_verify_pair c parent env).
Proof.
  intros HD Hk. destruct (dh_returns c HC HD) as (_&_&Hv). specialize (Hk [] parent eq_refl).
  unfold Chain_verify_pair, try_get_dsa_info.
  destruct (cb_public_key_type parent); cbn [dsa_verify]; try done.
  rewrite (bd_ed25519 _ HD). cbn [dsa_verify dsa_signature_length].
  destruct (_ =? zlen (ce_signature env)) eqn:E; cbn [negb]; [|done]. btests.
  apply owp_call; [apply Hv; [lia|exact Hk]|intros ok]. owp_run; done.
Qed.

Lemma chain_verify_returns anchor chain :
  backend_dh c -> issues_full_keys anchor ->
  owp (Chain_verify c anchor chain)
    (fun r => match r with inr cert => x25519_key_length <= zlen (cb_public_key cert) | inl _ => True end).
Proof.
  intros HD Hk. unfold Chain_verify. destruct (is_nil chain); [done|].
  assert (returns (Chain_verify_loop c anchor chain)) as Hl.
  { revert anchor Hk. induction chain as [|env chain IH]; intros anchor Hk; [done|]. cbn [Chain_verify_loop].
    pose proof (verify_pair_returns anchor env HD Hk) as Hp.
    destruct (Chain_verify_pair c anchor env) as [[err|child]| | |] eqn:E; try done.
    apply IH. intros certificates cert Hl. apply (Hk (env :: certificates) cert). cbn [Chain_verify_loop]. by rewrite E. }
  specialize (Hk chain). destruct (Chain_verify_loop c anchor chain) as [[err|cert]| | |]; try done.
  specialize (Hk cert eq_refl). cbn. destruct (negb _); [done|]. unfold is_dh_key.
  by destruct (cb_public_key_type cert).
Qed.

Lemma industrial_handler_returns a p handler :
  backend_dh c -> (forall anchor, read_anchor_cert a = Done anchor -> issues_full_keys anchor) ->
  IndustrialCertificateHandler c a p = Done handler -> handler_returns handler.
Proof.
  intros HD Hk H. unfold IndustrialCertificateHandler in H.
  apply obind_done in H as (anchor&Ha&H). apply obind_done in H as (data&_&H). injection H as <-.
  intros mode d. cbn. unfold IndustrialCertificateHandler_validate. destruct (bool_decide _); [done|].
  destruct (CertificateChain_read_all d); [done|].
  pose proof (chain_verify_returns anchor (cc_certificates c0) HD (Hk _ Ha)) as Hv.
  destruct (Chain_verify c anchor (cc_certificates c0)) as [[err|cert]| | |]; done.
Qed.

(** The end of every handshake. *)
Ltac initiator_starts Hs Ha :=
  let ok := fresh "ok" in let s' := fresh "s'" in let st' := fresh "st'" in let E := fresh "E" in
  destruct (start_initiator_session _ _ _ _ _ _ _) as [[ok s'] st'] eqn:E; cbn;
  split; [done|]; eapply start_initiator_returns; [exact Hs|exact Ha|exact E].

Ltac responder_starts Hs Ha :=
  let s' := fresh "s'" in let st' := fresh "st'" in let E := fresh "E" in
  destruct (start_responder_session _ _ _ _ _ _) as [s' st'] eqn:E; cbn;
  split; [done|]; eapply start_responder_returns; [exact Hs|exact Ha|exact E].

(** *** Initiators *)

Definition shared_initiator_returns (h : SharedSecretInitiatorHandshake) : Prop :=
  algorithms_return c (ssi_algorithms h).

#[export] Instance shared_initiator_total :
  InitiatorReturns c (SharedSecretInitiator c) shared_initiator_returns.
Proof.
  split.
  - intros draw h Hh. cbn. unfold SharedSecretInitiator_initialize_new_handshake.
    apply owp_call; [by apply gen_random_returns|done].
  - intros h data now Hh. cbn. unfold SharedSecretInitiator_finalize_request_tx.
    apply owp_call; [apply Hh|done].
  - intros h msg data limits now s st Hh Hs. cbn.
    unfold SharedSecretInitiator_initialize_session, SharedSecretInitiator_mix_handshake_hash.
    destruct (negb _); [done|]. destruct (negb _); [done|].
    apply owp_bind, owp_call; [apply Hh|intros hash]. cbn.
    apply owp_call; [apply Hh|intros [tx rx]].
    initiator_starts Hs Hh.
Qed.

Lemma shared_initiator_new_returns suite key h :
  SharedSecretInitiator_new c suite key = Done h -> shared_initiator_returns h.
Proof.
  intros H. unfold SharedSecretInitiator_new in H. apply obind_done in H as (alg&Ha&H). injection H as <-.
  by eapply get_or_throw_returns.
Qed.

Definition qkd_initiator_returns {K} (h : QKDInitiatorHandshake (K := K)) : Prop :=
  algorithms_return c (qi_algorithms h).

#[export] Instance qkd_initiator_total {K} (consume_key : K -> option KeyRecord * K) :
  InitiatorReturns c (QKDInitiator consume_key) qkd_initiator_returns.
Proof.
  split.
  - intros draw h Hh. cbn. unfold QKDInitiator_initialize_new_handshake.
    destruct (consume_key _) as [[record|] source]; [|done]. by destruct (kr_key record).
  - intros h data now Hh. cbn. unfold QKDInitiator_finalize_request_tx.
    apply owp_call; [apply Hh|done].
  - intros h msg data limits now s st Hh Hs. cbn.
    unfold QKDInitiator_initialize_session, QKDInitiator_mix_handshake_hash.
    destruct (qi_key h); [|done]. destruct (negb _); [done|]. destruct (negb _); [done|].
    apply owp_bind, owp_call; [apply Hh|intros hash]. cbn.
    apply owp_call; [apply Hh|intros [tx rx]].
    initiator_starts Hs Hh.
Qed.

Lemma qkd_initiator_new_returns {K} suite (source : K) h :
  QKDInitiator_new c suite source = Done h -> qkd_initiator_returns h.
Proof.
  intros H. unfold QKDInitiator_new in H. apply obind_done in H as (alg&Ha&H). injection H as <-.
  by eapply get_or_throw_returns.
Qed.

Record public_initiator_returns (h : PublicKeyInitiatorHandshake) : Prop := {
  pir_algorithms : algorithms_return c (pki_algorithms h);
  pir_dh key pub out : returns (alg_dh (pki_dh_algorithms h) key pub out);
  pir_gen draw pair : returns (alg_gen_key_pair (pki_dh_algorithms h) draw pair);
  pir_handler : handler_returns (pki_cert_handler h);
}.

#[export] Instance public_initiator_total : InitiatorReturns c PublicKeyInitiator public_initiator_returns.
Proof.
  split.
  - intros draw h [Ha Hd Hg Hc]. cbn. unfold PublicKeyInitiator_initialize_new_handshake.
    by apply owp_call; [apply Hg|].
  - intros h data now [Ha Hd Hg Hc]. cbn. unfold PublicKeyInitiator_finalize_request_tx.
    by apply owp_call; [apply Ha|].
  - intros h msg data limits now s st Hh Hs. pose proof Hh as [Ha Hd Hg Hc]. cbn.
    unfold PublicKeyInitiator_initialize_session, PublicKeyInitiator_mix_handshake_hash.
    apply owp_bind. eapply owp_mono; [apply Hc|intros [err|key] Hkey; [done|]].
    apply owp_bind, owp_call; [apply Ha|intros hash]. cbn.
    apply owp_call; [apply (triple_dh_returns 0); [by intros|apply zlen_nonneg..]|intros [ec|[[dh1 dh2] dh3]]; [done|]].
    apply owp_call; [apply Ha|intros [tx rx]].
    initiator_starts Hs Ha.
Qed.

Lemma public_initiator_new_returns static suite handler h :
  backend_dh c -> (forall key pub out, returns (Crypto_dh_x25519 c key pub out)) -> handler_returns handler ->
  PublicKeyInitiator_new c static suite handler = Done h -> public_initiator_returns h.
Proof.
  intros HD Hdh Hc H. unfold PublicKeyInitiator_new in H.
  apply obind_done in H as (alg&Ha&H). apply obind_done in H as (dh&Hd&H). injection H as <-.
  destruct (dh_returns c HC HD) as (_&Hgen&_).
  assert (alg_dh dh = Crypto_dh_x25519 c /\ alg_gen_key_pair dh = Crypto_gen_keypair_x25519 c) as [E1 E2].
  { unfold Algorithms_DH_get_or_throw, Algorithms_DH_configure in Hd.
    destruct (suite_handshake_ephemeral suite), (supports_x25519 c); cbn in Hd; try done; by injection Hd as <-. }
  split; cbn; [by eapply get_or_throw_returns|by rewrite E1|by rewrite E2|done].
Qed.

(** *** Responders *)

#[export] Instance shared_responder_total :
  ResponderReturns c (SharedSecretResponder fw c) (fun _ => True).
Proof.
  split. intros h draw msg data now w s st _ Hs. cbn. unfold SharedSecretResponder_process.
  destruct (negb _); [done|]. destruct (negb _); [done|].
  destruct (Algorithms_Common_configure c _ _) as [err alg] eqn:Ec.
  destruct (any_HandshakeError err); [done|].
  pose proof (configure4_returns c HC _ _ _ _ _ _ _ (default_returns c HC) Ec) as Ha.
  apply owp_call; [by apply gen_random_returns|intros nonce].
  destruct (fw_write _ _ _) as [result w']. destruct (any_FormatError _); [done|].
  apply owp_call; [apply hasher_returns, Ha|intros hash].
  apply owp_call; [apply Ha|intros [rx tx]].
  responder_starts Hs Ha.
Qed.

#[export] Instance qkd_responder_total {K} (find : K -> Z -> option BufferBase * K) :
  ResponderReturns c (QKDResponder fw c find) (fun _ => True).
Proof.
  split. intros h draw msg data now w s st _ Hs. cbn. unfold QKDResponder_process.
  destruct (negb _); [done|].
  destruct (Algorithms_Common_configure c _ _) as [err alg] eqn:Ec.
  destruct (any_HandshakeError err); [done|].
  pose proof (configure4_returns c HC _ _ _ _ _ _ _ (default_returns c HC) Ec) as Ha.
  destruct (BigEndian_read _ _) as [[[|id [|]] [|]]|]; try done.
  destruct (find h id) as [[key|] h']; [|done].
  destruct (Algorithms_Common_configure c alg _) as [err' alg'] eqn:Ec'.
  destruct (any_HandshakeError err'); [done|].
  pose proof (configure4_returns c HC _ _ _ _ _ _ _ Ha Ec') as Ha'.
  destruct (fw_write _ _ _) as [result w']. destruct (any_FormatError _); [done|].
  apply owp_call; [apply hasher_returns, Ha'|intros hash].
  apply owp_call; [apply Ha'|intros [rx tx]].
  responder_starts Hs Ha'.
Qed.

#[export] Instance public_responder_total (HD : backend_dh c) :
  ResponderReturns c (PublicKeyResponder fw c) (fun h => handler_returns (pkr_cert_handler h)).
Proof.
  destruct (dh_returns c HC HD) as (Hdh&Hgen&_).
  split. intros h draw msg data now w s st Hh Hs. cbn. unfold PublicKeyResponder_process.
  destruct (Algorithms_Common_configure c _ _) as [err alg] eqn:Ec.
  destruct (any_HandshakeError err); [done|].
  pose proof (configure4_returns c HC _ _ _ _ _ _ _ (default_returns c HC) Ec) as Ha.
  unfold Algorithms_DH_configure.
  destruct (cs_handshake_ephemeral (req_spec msg)); cbn; try done.
  rewrite (bd_x25519 _ HD). cbn. destruct (_ =? _) eqn:Elen; cbn [negb]; [|done]. btests.
  apply owp_bind. eapply owp_mono; [apply Hh|intros [e|key] Hkey; [done|]].
  apply owp_call; [apply Hgen|intros pair].
  destruct (fw_write _ _ _) as [result w']. destruct (any_FormatError _); [done|].
  apply owp_call; [apply hasher_returns, Ha|intros hash].
  apply owp_call; [apply (triple_dh_returns x25519_key_length); [exact Hdh|done|lia]|].
  intros [ec|[[dh1 dh2] dh3]]; [done|].
  apply owp_call; [apply Ha|intros [rx tx]].
  responder_starts Hs Ha.
Qed.
End Handshakes.
