(* ===== verification/Terminates.v ===== *)
(** * Handlers that return

    Every entry point of an initiator and of a responder returns, for every upper
    layer: the loops end, the nesting of notifications is bounded by what is left to
    receive, and no call ends the process.

    [tot P m Q]: from every world that satisfies [P], the action [m] returns in one
    that satisfies [Q].  A notification happens after a message was taken from the
    lower layer, or after the active session was reset because a frame could not be
    formatted; so twice the number of messages that are left, plus one while the
    active session is valid, bounds the depth of nested notifications
    ([within]). *)

From stdpp Require Import base numbers list strings.
From Stdlib Require Import Lia ZArith.
From S2P Require Import Prelude Ser4cpp Enums Codec Messages CRC LinkParser FrameWriter LinkLayer.
From S2P Require Import Crypto SessionMode Session Chain Handshake CryptoLayer LayerLogic.
From S2P Require Import Responder Initiator Returns.

Section Triples.
Context {S : Type}.

Definition tot {A} (P : S -> Prop) (m : act S A) (Q : A -> S -> Prop) : Prop :=
  forall w, P w -> exists a w', m w = Some (Done (a, w')) /\ Q a w'.

Lemma tot_ret {A} (P : S -> Prop) (a : A) : tot P (aret a) (fun _ => P).
Proof. intros w H. by exists a, w. Qed.

Lemma tot_bind {A B} (P : S -> Prop) (m : act S A) (k : A -> act S B) (M : A -> S -> Prop) Q :
  tot P m M -> (forall a, tot (M a) (k a) Q) -> tot P (abind m k) Q.
Proof.
  intros Hm Hk w H. destruct (Hm w H) as (a&w1&E&H1). unfold abind. rewrite E. exact (Hk a w1 H1).
Qed.

Lemma tot_seq {A B} (P R : S -> Prop) (m : act S A) (k : A -> act S B) Q :
  tot P m (fun _ => R) -> (forall a, tot R (k a) Q) -> tot P (abind m k) Q.
Proof. apply tot_bind. Qed.

Lemma tot_conseq {A} (P P' : S -> Prop) (m : act S A) (Q Q' : A -> S -> Prop) :
  tot P' m Q' -> (forall w, P w -> P' w) -> (forall a w, Q' a w -> Q a w) -> tot P m Q.
Proof. intros H HP HQ w Hw. destruct (H w (HP w Hw)) as (a&w'&E&H'). eauto. Qed.

Lemma tot_pre {A} (P P' : S -> Prop) (m : act S A) (Q : A -> S -> Prop) :
  (forall w, P w -> P' w) -> tot P' m Q -> tot P m Q.
Proof. intros HP H. by apply (tot_conseq P P' m Q Q H). Qed.

Lemma tot_get {A} (P : S -> Prop) (f : S -> A) : tot P (aget f) (fun a w => P w /\ a = f w).
Proof. intros w H. by exists (f w), w. Qed.

(** Reading something that does not matter for what follows. *)
Lemma tot_read {A B} (P : S -> Prop) (f : S -> A) (k : A -> act S B) Q :
  (forall a, tot P (k a) Q) -> tot P (abind (aget f) k) Q.
Proof. intros H w Hw. exact (H (f w) w Hw). Qed.

Lemma tot_modify (P Q : S -> Prop) (f : S -> S) :
  (forall w, P w -> Q (f w)) -> tot P (amodify f) (fun _ => Q).
Proof. intros H w Hw. exists tt, (f w). auto. Qed.

Lemma tot_lift {A} (P : S -> Prop) (f : S -> outcome A) (Q : A -> S -> Prop) :
  (forall w, P w -> owp (f w) (fun a => Q a w)) -> tot P (alift f) Q.
Proof.
  intros H w Hw. destruct (owp_returns _ _ (H w Hw)) as (a&E&Ha). exists a, w.
  unfold alift. by rewrite E.
Qed.

Lemma tot_when (P : S -> Prop) b (m : act S unit) : tot P m (fun _ => P) -> tot P (awhen b m) (fun _ => P).
Proof. destruct b; [done|]. intros _. apply tot_ret. Qed.
End Triples.

Section Layer.
Context `{SER : Ser4cpp} {W : Type} (fw : frame_writer W) (c : CryptoState).
Context (HC : backend_complete c).
Context {D L U : Type} `{LL : !LowerLayer L} `{LAWS : !LowerLayerLaws L}.
Context (upper : upper_call -> U -> upper_prog U) (clock : nat -> Z).
(** What the derived class needs of its object, and the size of the largest message. *)
Context (I : D -> Prop) (room : Z).

Local Abbreviation world := (World W D L U).
Local Abbreviation action := (act world).
Local Abbreviation vtable := (virtuals (W := W) (D := D) (L := L) (U := U)).

Definition left_to_receive (w : world) : nat := length (lower_chunks (w_lower w)).

Definition measure (w : world) : nat :=
  2 * left_to_receive w + (if s_valid (active (cl_sessions (w_layer w))) then 1 else 0).

(** The payload buffer has room for what is left to receive. *)
Definition roomy (w : world) : Prop :=
  room_for c room (zlen (cl_payload_buffer (w_layer w))) /\
  Forall (fun m => room_for c (zlen m) room) (lower_chunks (w_lower w)).

Definition healthy (w : world) : Prop :=
  sessions_return c (cl_sessions (w_layer w)) /\ I (w_derived w) /\ roomy w.

Definition within (n k : nat) (w : world) : Prop :=
  healthy w /\ (left_to_receive w <= n)%nat /\ (measure w <= k)%nat.

Lemma within_weaken n k n' k' w :
  within n k w -> (n <= n')%nat -> (k <= k')%nat -> within n' k' w.
Proof. intros (Hh&Hn&Hk) ? ?. split; [done|lia]. Qed.

Lemma within_messages n k w : healthy w -> (left_to_receive w <= n)%nat -> (2 * n + 1 <= k)%nat -> within n k w.
Proof. intros Hh Hn Hk. split; [done|]. split; [done|]. unfold measure. destruct (s_valid _); lia. Qed.

Lemma within_intro w : healthy w -> within (left_to_receive w) (measure w) w.
Proof. intros H. split; [exact H|]. lia. Qed.

(** *** Steps that keep the bounds *)

Lemma tot_set_layer n k (f : CryptoLayer W -> CryptoLayer W) :
  (forall x, cl_sessions (f x) = cl_sessions x /\ zlen (cl_payload_buffer (f x)) = zlen (cl_payload_buffer x)) ->
  tot (within n k) (set_layer f : action unit) (fun _ => within n k).
Proof.
  intros H. apply tot_modify. intros w Hw. destruct (H (w_layer w)) as [Hs Hb].
  unfold within, healthy, roomy, measure, left_to_receive in *. cbn. by rewrite Hs, Hb.
Qed.

Lemma tot_set_derived n k (f : D -> D) :
  (forall d, I d -> I (f d)) -> tot (within n k) (set_derived f : action unit) (fun _ => within n k).
Proof.
  intros H. apply tot_modify. intros w ((Hs&Hd&Hr)&Hb). split; [split; [exact Hs|cbn; auto]|exact Hb].
Qed.

Lemma tot_upper_state n k u : tot (within n k) (set_upper_state u : action unit) (fun _ => within n k).
Proof. by apply tot_modify. Qed.

Lemma tot_upper_open n k b : tot (within n k) (set_upper_open b : action unit) (fun _ => within n k).
Proof. by apply tot_modify. Qed.

Lemma tot_time n k : tot (within n k) (get_time clock : action Z) (fun _ => within n k).
Proof. intros w H. eexists _, _. split; [reflexivity|]. exact H. Qed.

Lemma tot_draw n k : tot (within n k) (next_draw : action nat) (fun _ => within n k).
Proof. intros w H. eexists _, _. split; [reflexivity|]. exact H. Qed.

Lemma tot_transmit n k frame :
  tot (within n k) (lower_transmit frame : action bool) (fun _ => within n k).
Proof.
  intros w H. unfold lower_transmit. destruct (lower_start_tx (w_lower w) frame) as [ok l] eqn:E.
  eexists _, _. split; [reflexivity|]. unfold within, healthy, roomy, measure, left_to_receive in *. cbn.
  pose proof (tx_keeps_chunks (w_lower w) frame) as Hc. rewrite E in Hc. cbn in Hc. by rewrite Hc.
Qed.

(** New sessions, of which the active one is not more valid than before. *)
Lemma within_sessions n k w x l d :
  within n k w -> sessions_return c (cl_sessions x) -> I d ->
  zlen (cl_payload_buffer x) = zlen (cl_payload_buffer (w_layer w)) ->
  (s_valid (active (cl_sessions x)) = true -> s_valid (active (cl_sessions (w_layer w))) = true) ->
  lower_chunks l = lower_chunks (w_lower w) ->
  forall u o t r m, within n k (mkWorld x d l u o t r m : world).
Proof.
  intros ((_&_&Hr)&Hn&Hk) Hs Hd Hb Hv Hl u o t r m.
  unfold within, healthy, roomy, measure, left_to_receive in *. cbn. rewrite Hl, Hb. split; [done|]. split; [done|].
  destruct (s_valid (active (cl_sessions x))); [|lia]. rewrite Hv in Hk by done. lia.
Qed.

Lemma format_active_tot n k now data :
  tot (within n k) (format_active fw now data : action _) (fun _ => within n k).
Proof.
  intros w Hw. pose proof Hw as (([Ha Hp]&Hd&Hr)&_). unfold format_active, abind, layer, aget, alift. cbn.
  destruct (owp_returns _ _ (format_data_returns c fw _ (cl_frame_writer (w_layer w)) now data Ha))
    as ([[[res s] wr] rest]&E&Hs). rewrite E. eexists _, _. split; [reflexivity|].
  apply (within_sessions n k w); try done. cbn. by rewrite (format_keeps_valid fw _ _ _ _ _ _ _ _ E).
Qed.

(** A reset session: one step less to go. *)
Lemma reset_active_tot n k :
  tot (fun w => within n k w /\ s_valid (active (cl_sessions (w_layer w))) = true)
    (reset_active c : action unit) (fun _ w => (0 < k)%nat /\ within n (k - 1) w).
Proof.
  intros w [(([Ha Hp]&Hd&Hr)&Hn&Hk) Hv]. unfold reset_active, abind, layer, aget, alift. cbn.
  destruct (owp_returns _ _ (reset_returns c HC _ Ha)) as (s&E&Hs). rewrite E.
  eexists _, _. split; [reflexivity|]. unfold within, healthy, roomy, measure, left_to_receive in *. cbn.
  rewrite (reset_invalidates c _ _ E). rewrite Hv in Hk.
  split; [lia|]. split; [done|]. lia.
Qed.

Lemma reset_both_tot n k : tot (within n k) (reset_both c : action unit) (fun _ => within n k).
Proof.
  intros w Hw. pose proof Hw as ((Hs&Hd&Hr)&_). unfold reset_both, abind, layer, aget, alift. cbn.
  destruct (owp_returns _ _ (reset_both_returns c HC _ Hs)) as (ss&E&Hss). rewrite E.
  eexists _, _. split; [reflexivity|]. apply (within_sessions n k w); try done. cbn.
  unfold Sessions_reset_both in E. apply obind_done in E as (a&Ea&E). apply obind_done in E as (p&_&E).
  injection E as <-. cbn. by rewrite (reset_invalidates c _ _ Ea).
Qed.

(** The bound for a message: what is left to receive counts twice, plus one. *)
Lemma activate_tot n k :
  (2 * n + 1 <= k)%nat -> tot (within n k) (activate_pending c : action unit) (fun _ => within n k).
Proof.
  intros Hk w ((Hs&Hd&Hr)&Hn&_). unfold activate_pending, abind, layer, aget, alift. cbn.
  destruct (owp_returns _ _ (activate_returns c HC _ Hs)) as (ss&E&Hss). rewrite E.
  eexists _, _. split; [reflexivity|]. by apply within_messages.
Qed.

(** A message as large as those that are received. *)
Definition small (msg : SessionData) : Prop := room_for c (zlen (sd_user_data msg)) room.

Lemma validate_with_tot validate i n k msg now :
  validates c validate -> small msg ->
  (forall s st m t dest res s' st' dest',
     validate s st m t dest = Done (res, s', st', dest') -> s_valid s' = s_valid s) ->
  tot (within n k) (validate_with validate i msg now : action _) (fun _ => within n k).
Proof.
  intros Hv Hm Hk w Hw. pose proof Hw as (([Ha Hp]&Hd&Hr&_)&_).
  unfold validate_with, abind, layer, aget, alift. cbn.
  assert (session_returns c (get_session i (cl_sessions (w_layer w)))) as Hi by by destruct i.
  assert (fits_into c msg (cl_payload_buffer (w_layer w))) as Hf.
  { intros Hs. pose proof (Hm Hs). pose proof (Hr Hs). lia. }
  destruct (owp_returns _ _ (Hv _ (cl_statistics (w_layer w)) msg now (cl_payload_buffer (w_layer w)) Hi Hf))
    as ([[[res s] st] buf]&E&Hs&Hb). rewrite E. eexists _, _. split; [reflexivity|].
  apply Hk in E. apply (within_sessions n k w); try done; destruct i; cbn in *; by rewrite ?E.
Qed.

Lemma transmit_auth_tot i n k :
  tot (within n k) (transmit_session_auth fw clock i : action bool) (fun _ => within n k).
Proof.
  intros w Hw. pose proof Hw as (([Ha Hp]&Hd&Hr)&_).
  unfold transmit_session_auth, abind, layer, aget, alift, get_time. cbn.
  assert (session_returns c (get_session i (cl_sessions (w_layer w)))) as Hi by by destruct i.
  destruct (owp_returns _ _ (format_auth_returns c fw _ (cl_frame_writer (w_layer w)) (clock (w_ticks w))
    (tx_remainder (cl_tx_state (w_layer w))) Hi)) as ([[[res s] wr] rest]&E&Hs). rewrite E.
  apply format_auth_keeps_valid in E. cbn.
  set (w1 := mkWorld (cl_set_io (w_layer w) wr (cl_statistics (w_layer w))
               (put_session i (cl_sessions (w_layer w)) s)) (w_derived w) (w_lower w) (w_upper w)
               (w_upper_open w) (S (w_ticks w)) (w_draws w) (w_sent w)).
  assert (within n k w1) as H1.
  { apply (within_sessions n k w); try done; destruct i; cbn in *; by rewrite ?E. }
  destruct res as [ec|frame]; [exists false, w1; by split|].
  refine (tot_seq (within n k) (within n k) _ _ (fun _ => within n k) _ _ w1 H1).
  - apply tot_when, tot_set_layer. done.
  - intros []. apply tot_transmit.
Qed.

(** The user data of a message is shorter than the message. *)
Lemma session_data_size raw msg :
  all_bytes raw -> m_read SessionData_message raw = inr msg -> zlen (sd_user_data msg) <= zlen raw.
Proof.
  intros Hb H. apply (read_exact SessionData_message _ _ raw msg Hb) in H as [_ ->].
  unfold SessionData_enc, SessionData_body, SeqByteField_enc. cbn [concat]. rewrite zlen_cons, !zlen_app.
  repeat match goal with |- context [zlen ?x] => lazymatch goal with H : 0 <= zlen x |- _ => fail | _ => pose proof (zlen_nonneg x) end end.
  lia.
Qed.

(** *** Handlers *)

(** What the notification and the virtual functions owe, up to the depth [f]. *)
Definition notifies (f : nat) (note : upper_call -> action unit) : Prop :=
  forall n k call, (k < f)%nat -> tot (within n k) (note call) (fun _ => within n k).

Record handles (f : nat) (vt : vtable) : Prop := {
  ha_parse_error n k fn e : tot (within n k) (v_on_parse_error vt fn e : action unit) (fun _ => within n k);
  ha_nonce_change n k rx tx : tot (within n k) (v_on_session_nonce_change vt rx tx) (fun _ => within n k);
  ha_request n k m raw t : tot (within n k) (v_on_request vt m raw t) (fun _ => within n k);
  ha_reply n k m raw t : tot (within n k) (v_on_reply vt m raw t) (fun _ => within n k);
  ha_error n k m raw t : tot (within n k) (v_on_error vt m raw t) (fun _ => within n k);
  ha_auth n k m raw t :
    small m -> (2 * n + 1 <= k)%nat -> (k < f)%nat ->
    tot (within n k) (v_on_auth_session vt m raw t) (fun _ => within n k);
}.

Record handles_events (vt : vtable) : Prop := {
  he_pre_tx n k : tot (within n k) (v_on_pre_tx_ready vt : action unit) (fun _ => within n k);
  he_open n k : tot (within n k) (v_on_lower_open_impl vt) (fun _ => within n k);
  he_close n k : tot (within n k) (v_reset_state_on_close_from_lower vt) (fun _ => within n k);
}.

Section Handlers.
Context (f : nat) (note : upper_call -> action unit) (vt : vtable).
Context (HN : notifies f note) (HV : handles f vt).

Lemma check_transmit_tot n k :
  (k <= f)%nat -> tot (within n k) (check_transmit fw c clock note vt) (fun _ => within n k).
Proof.
  intros Hk. unfold check_transmit, can_transmit_session_data.
  eapply (tot_bind _ _ _ (fun b w => within n k w /\
    (b = true -> s_valid (active (cl_sessions (w_layer w))) = true))).
  { intros w Hw. eexists _, _. split; [reflexivity|]. split; [exact Hw|].
    intros H. apply andb_prop in H as [H _]. by apply andb_prop in H as [H _]. }
  intros can. destruct can; [|eapply tot_pre; [|apply tot_ret]; tauto]. cbn [negb].
  apply tot_read. intros x.
  eapply (tot_bind _ _ _ (fun _ w => within n k w /\ s_valid (active (cl_sessions (w_layer w))) = true)).
  { intros w [Hw Hv]. eexists _, _. split; [reflexivity|]. split; [exact Hw|]. by apply Hv. }
  intros now.
  eapply (tot_bind _ _ _ (fun _ w => within n k w /\ s_valid (active (cl_sessions (w_layer w))) = true)).
  { intros w [Hw Hv]. destruct (format_active_tot n k now (tx_remainder (cl_tx_state x)) w Hw) as (r&w'&E&Hw').
    exists r, w'. split; [exact E|]. split; [exact Hw'|].
    pose proof (pure_format_active fw now _ w r w' E) as Ev.
    apply (f_equal vw_active) in Ev. cbn in Ev. by rewrite Ev. }
  intros [[ec|frame] rest].
  - eapply tot_bind; [apply reset_active_tot|]. intros [] w [H0 Hw].
    destruct (HN n (k - 1)%nat on_lower_close ltac:(lia) w Hw) as (a&w'&E&Hw').
    exists a, w'. split; [exact E|]. eapply within_weaken; [exact Hw'|lia..].
  - eapply (tot_seq _ (within n k)); [eapply tot_pre; [|by apply tot_set_layer]; tauto|intros []].
    eapply (tot_seq _ (within n k)); [apply tot_transmit|intros ok]. apply tot_read. intros y. apply HV.
Qed.

Lemma start_tx_tot n k data :
  (k <= f)%nat -> tot (within n k) (start_tx_from_upper fw c clock note vt data) (fun _ => within n k).
Proof.
  intros Hk. unfold start_tx_from_upper, is_tx_ready.
  eapply (tot_seq _ (within n k)); [apply tot_read; intros x; apply tot_read; intros b; apply tot_ret|].
  intros [|]; [|apply tot_ret].
  eapply (tot_seq _ (within n k)); [by apply tot_set_layer|intros []].
  eapply (tot_seq _ (within n k)); [by apply check_transmit_tot|intros []]. apply tot_ret.
Qed.

Lemma set_payload_tot n k data :
  tot (within n k) (set_payload_data data : action unit) (fun _ => within n k).
Proof. by apply tot_set_layer. Qed.

Lemma on_session_data_tot n k msg raw now :
  small msg -> (k < f)%nat -> tot (within n k) (on_session_data note vt msg raw now) (fun _ => within n k).
Proof.
  intros Hm Hk. unfold on_session_data.
  eapply (tot_seq _ (within n k)).
  { apply validate_with_tot; [apply validate_data_returns|done|apply validate_keeps_valid]. }
  intros [ec|payload]; [apply tot_ret|].
  eapply (tot_seq _ (within n k)); [apply set_payload_tot|intros []]. apply tot_read. intros x.
  eapply (tot_seq _ (within n k)); [apply HV|intros []]. by apply HN.
Qed.

Lemma process_tot n k data :
  all_bytes data -> room_for c (zlen data) room -> (2 * n + 1 <= k)%nat -> (k < f)%nat -> tot (within n k) (process clock note vt data) (fun _ => within n k).
Proof.
  intros Hb Hfit Hk Hf. unfold process.
  eapply (tot_seq _ (within n k)); [apply tot_time|intros now].
  destruct data as [|b data]; [apply tot_ret|]. destruct (negb _); [apply tot_ret|].
  unfold handle_message, on_message.
  destruct (Function_from_type b); try apply tot_ret; destruct (m_read _ _) as [e|msg] eqn:E; try apply HV.
  assert (small msg) as Hm by (intros Hs; pose proof (session_data_size _ _ Hb E); pose proof (Hfit Hs); lia).
  destruct (_ =? 0); [by apply HV|by apply on_session_data_tot].
Qed.

Lemma try_read_one_tot n k :
  (k <= f)%nat ->
  tot (within n k) (try_read_one_from_lower clock note vt)
    (fun again w => if again : bool then (0 < n)%nat /\ (0 < k)%nat /\ within (n - 1) (k - 1) w else within n k w).
Proof.
  intros Hf. unfold try_read_one_from_lower. apply tot_read. intros ready. apply tot_read. intros x.
  destruct (negb ready || _); [intros w Hw; by exists false, w|]. intros w ((Hs&Hd&Hr&Hroom)&Hn&Hk).
  unfold abind at 1, lower_receive.
  destruct (lower_chunks (w_lower w)) as [|m ms] eqn:E.
  - destruct (lower_rx_none _ E) as (l'&->&El). cbn. eexists _, _. split; [reflexivity|].
    unfold within, healthy, roomy, measure, left_to_receive in *. cbn. rewrite El, E in *. done.
  - destruct (lower_rx_some _ _ _ E) as (l'&->&El).
    pose proof (lower_chunks_ok (w_lower w)) as Hok. rewrite E in Hok.
    apply Forall_inv in Hok as [Hm Hbytes]. apply Forall_cons in Hroom as [Hfit Hroom]. destruct m as [|b m]; [done|]. cbn [is_nil].
    unfold measure, left_to_receive in Hn, Hk. rewrite E in Hn, Hk. cbn [length] in Hn, Hk.
    set (w1 := mkWorld (w_layer w) (w_derived w) l' (w_upper w) (w_upper_open w) (w_ticks w) (w_draws w)
                 (w_sent w)).
    assert (within (length ms) (2 * length ms + 1) w1) as H1.
    { apply within_messages; [|unfold left_to_receive; cbn; by rewrite El|lia].
      split; [done|]. split; [done|]. split; [done|]. cbn. by rewrite El. }
    destruct (process_tot (length ms) (2 * length ms + 1) (b :: m) Hbytes Hfit ltac:(lia) ltac:(lia) w1 H1)
      as ([]&w2&E2&H2).
    exists true, w2. unfold abind. rewrite E2. split; [reflexivity|]. split; [lia|]. split; [lia|].
    eapply within_weaken; [exact H2|lia..].
Qed.

Lemma try_read_loop_tot fuel : forall n k,
  (k <= f)%nat -> (n < fuel)%nat ->
  tot (within n k) (try_read_loop clock note vt fuel) (fun _ => within n k).
Proof.
  induction fuel as [|fuel IH]; intros n k Hk Hn; [lia|]. cbn [try_read_loop].
  eapply tot_bind; [by apply try_read_one_tot|]. intros [|]; [|apply tot_ret].
  intros w (H0&H1&Hw). destruct (IH (n - 1)%nat (k - 1)%nat ltac:(lia) ltac:(lia) w Hw) as (a&w'&E&Hw').
  exists a, w'. split; [exact E|]. eapply within_weaken; [exact Hw'|lia..].
Qed.

Lemma try_read_tot n k :
  (k <= f)%nat -> tot (within n k) (try_read_from_lower clock note vt) (fun _ => within n k).
Proof.
  intros Hf w (Hh&Hn&Hk). unfold try_read_from_lower, abind, aget.
  destruct (try_read_loop_tot (S (left_to_receive w)) (left_to_receive w) (measure w) ltac:(lia) ltac:(lia)
              w (within_intro w Hh)) as (a&w'&E&Hw').
  exists a, w'. split; [exact E|]. eapply within_weaken; [exact Hw'|lia..].
Qed.

Lemma start_rx_tot n k :
  (k <= f)%nat -> tot (within n k) (start_rx_from_upper clock note vt) (fun _ => within n k).
Proof.
  intros Hk. unfold start_rx_from_upper, start_rx_from_upper_impl, discard_rx_data.
  apply tot_read. intros x. eapply (tot_seq _ (within n k)).
  { apply tot_when. eapply (tot_seq _ (within n k)); [apply set_payload_tot|intros []; by apply tot_set_layer]. }
  intros []. eapply (tot_seq _ (within n k)).
  { apply tot_read. intros y. destruct (is_nil _); [|apply tot_ret].
    eapply (tot_seq _ (within n k)); [by apply try_read_tot|intros []; apply tot_ret]. }
  intros data. eapply (tot_seq _ (within n k)); [apply tot_when; by apply tot_set_layer|intros []].
  apply tot_ret.
Qed.

(** A handler of the upper layer, whatever it calls. *)
Lemma run_upper_tot n k p :
  (k <= f)%nat -> tot (within n k) (run_upper fw c clock note vt p) (fun _ => within n k).
Proof.
  intros Hk. induction p as [u|u kont IH|u data kont IH|u kont IH]; cbn [run_upper].
  - apply tot_upper_state.
  - eapply (tot_seq _ (within n k)); [apply tot_upper_state|intros []].
    eapply (tot_seq _ (within n k));
      [unfold is_tx_ready; apply tot_read; intros x; apply tot_read; intros b; apply tot_ret|].
    intros r. apply tot_read. intros u'. apply IH.
  - eapply (tot_seq _ (within n k)); [apply tot_upper_state|intros []].
    eapply (tot_seq _ (within n k)); [by apply start_tx_tot|]. intros r. apply tot_read. intros u'. apply IH.
  - eapply (tot_seq _ (within n k)); [apply tot_upper_state|intros []].
    eapply (tot_seq _ (within n k)); [by apply start_rx_tot|]. intros r. apply tot_read. intros u'. apply IH.
Qed.

Lemma call_upper_tot n k call :
  (k <= f)%nat -> tot (within n k) (call_upper fw c upper clock note vt call) (fun _ => within n k).
Proof.
  intros Hk. unfold call_upper. apply tot_read. intros open. apply tot_read. intros u.
  destruct call, open; try apply tot_ret; try (by apply run_upper_tot);
    (eapply (tot_seq _ (within n k)); [apply tot_upper_open|intros []; by apply run_upper_tot]).
Qed.
End Handlers.

(** *** The knot and the entry points *)

Section Events.
Context (v : (upper_call -> action unit) -> vtable).
Context (HV : forall f note, notifies f note -> handles f (v note)).

Lemma notify_tot fuel : notifies fuel (notify fw c upper clock v fuel).
Proof.
  induction fuel as [|fuel IH]; intros n k call Hk; [lia|]. cbn [notify].
  apply (call_upper_tot fuel); [done|by apply HV|lia].
Qed.

Context (HE : forall note, handles_events (v note)).

Lemma layer_step_tot fuel e n k :
  (k < fuel)%nat -> tot (within n k) (layer_step fw c upper clock v fuel e) (fun _ => within n k).
Proof.
  intros Hk. pose proof (notify_tot fuel) as HN. pose proof (HV _ _ HN) as HM. pose proof (HE (notify fw c upper clock v fuel)) as Hev.
  assert (k <= fuel)%nat as Hle by lia. unfold layer_step.
  destruct e; (eapply (tot_seq _ (within n k)); [|intros ?; apply tot_ret]).
  - unfold on_lower_open_event. apply tot_read. intros x. destruct (cl_is_open x); [apply tot_ret|].
    eapply (tot_seq _ (within n k)); [by apply tot_set_layer|intros []].
    eapply (tot_seq _ (within n k)); [apply Hev|intros []; apply tot_ret].
  - unfold on_lower_close_event, on_lower_close_impl. apply tot_read. intros x.
    destruct (cl_is_open x); [|apply tot_ret].
    eapply (tot_seq _ (within n k)); [by apply tot_set_layer|intros []].
    eapply (tot_seq _ (within n k)); [|intros []; apply tot_ret].
    eapply (tot_seq _ (within n k)); [apply Hev|intros []].
    eapply (tot_seq _ (within n k)); [apply reset_both_tot|intros []].
    eapply (tot_seq _ (within n k)); [apply set_payload_tot|intros []].
    eapply (tot_seq _ (within n k)); [by apply HN|intros []].
    eapply (tot_seq _ (within n k)); [by apply tot_set_layer|intros []].
    apply tot_set_layer. intros y. unfold reset_this_lower_layer. by destruct (cl_in_stack y).
  - unfold on_lower_tx_ready_event, on_lower_tx_ready_impl. apply tot_read. intros x.
    destruct (cl_is_open x); [|apply tot_ret].
    eapply (tot_seq _ (within n k)); [|intros []; apply tot_ret].
    apply tot_read. intros y. destruct (TxState_on_tx_complete _) as [complete tx].
    eapply (tot_seq _ (within n k)); [by apply tot_set_layer|intros []].
    eapply (tot_seq _ (within n k)); [apply Hev|intros []].
    eapply (tot_seq _ (within n k)); [apply tot_when; by apply HN|intros []].
    eapply (tot_seq _ (within n k)); [by apply (try_read_tot fuel)|intros []].
    by apply (check_transmit_tot fuel).
  - unfold on_lower_rx_ready_event. apply tot_read. intros x. destruct (cl_is_open x); [|apply tot_ret].
    eapply (tot_seq _ (within n k)); [by apply (try_read_tot fuel)|intros []; apply tot_ret].
  - by apply (start_tx_tot fuel).
  - by apply (start_rx_tot fuel).
Qed.
End Events.
End Layer.

(** ** The responder *)

Section Responders.
Context `{SER : Ser4cpp} {W : Type} (fw : frame_writer W) (c : CryptoState).
Context (HC : backend_complete c).
Context {L U : Type} `{LL : !LowerLayer L} `{LAWS : !LowerLayerLaws L}.
Context (upper : upper_call -> U -> upper_prog U) (clock : nat -> Z).
Context {HR : Type} (rh : responder_handshake HR W) (I : HR -> Prop) `{RR : !ResponderReturns c rh I} (room : Z).
Local Abbreviation action := (act (World W HR L U)).

Lemma reply_error_tot n k err :
  tot (within c I room n k) (reply_with_handshake_error fw err : action unit) (fun _ => within c I room n k).
Proof.
  unfold reply_with_handshake_error. apply tot_read. intros x. destruct (fw_write _ _ _) as [res w].
  eapply (tot_seq _ (within c I room n k)); [by apply tot_set_layer|intros []].
  destruct (negb _); [|apply tot_ret].
  eapply (tot_seq _ (within c I room n k)); [by apply tot_transmit|intros ok; apply tot_ret].
Qed.

Lemma responder_process_tot n k msg raw now :
  tot (within c I room n k) (Responder_process rh msg raw now : action _) (fun _ => within c I room n k).
Proof.
  intros w Hw. pose proof Hw as (([Ha Hp]&Hd&Hr)&_).
  unfold Responder_process, abind, layer, aget, alift, next_draw. cbn.
  destruct (owp_returns _ _ (rr_process (w_derived w) (w_draws w) msg raw now (cl_frame_writer (w_layer w)) _
    (cl_statistics (w_layer w)) Hd Hp)) as ([[[[res h] wr] s] st]&E&Hh&Hs). rewrite E.
  eexists _, _. split; [reflexivity|]. by apply (within_sessions c I room n k w).
Qed.

Lemma responder_handles f note :
  notifies c I room f note -> handles c I room f (Responder_virtuals fw c clock rh note : virtuals (L := L) (U := U)).
Proof.
  intros HN. split; intros; cbn [v_on_parse_error v_on_session_nonce_change v_on_request v_on_reply
    v_on_error v_on_auth_session Responder_virtuals]; try apply tot_ret.
  - unfold Responder_on_parse_error. destruct fn; try apply tot_ret. apply reply_error_tot.
  - unfold Responder_on_message. destruct (negb _); [apply reply_error_tot|].
    eapply (tot_seq _ (within c I room n k)); [apply responder_process_tot|]. intros [err|reply].
    + apply reply_error_tot.
    + eapply (tot_seq _ (within c I room n k)); [by apply tot_transmit|intros ok; apply tot_ret].
  - unfold Responder_on_auth_session. apply tot_read. intros x.
    destruct (negb _); [apply reply_error_tot|].
    eapply (tot_seq _ (within c I room n k)).
    { apply validate_with_tot; [apply validate_auth_returns|done|apply validate_auth_keeps_valid]. }
    intros [ec|payload]; [apply tot_ret|].
    eapply (tot_seq _ (within c I room n k)); [by apply activate_tot|intros []].
    eapply (tot_seq _ (within c I room n k)); [by apply transmit_auth_tot|intros ok].
    destruct (negb ok); [apply tot_ret|].
    eapply (tot_seq _ (within c I room n k)); [by apply HN|intros []].
    destruct (negb _); [|apply tot_ret].
    eapply (tot_seq _ (within c I room n k)); [apply set_payload_tot|intros []]. by apply HN.
Qed.

Lemma responder_handles_events note :
  handles_events c I room (Responder_virtuals fw c clock rh note : virtuals (L := L) (U := U)).
Proof.
  split; intros; cbn [v_on_pre_tx_ready v_on_lower_open_impl v_reset_state_on_close_from_lower
    Responder_virtuals]; try apply tot_ret. by apply reset_both_tot.
Qed.

Lemma responder_step_tot fuel e n k :
  (k < fuel)%nat ->
  tot (within c I room n k) (responder_step fw c upper clock rh fuel e : action unit) (fun _ => within c I room n k).
Proof.
  intros Hk. apply layer_step_tot; [done|exact LAWS|intros; by apply responder_handles| |done].
  intros note. apply responder_handles_events.
Qed.

Lemma responder_step_returns (w : World W HR L U) fuel e :
  healthy c I room w -> (2 * left_to_receive w + 1 < fuel)%nat ->
  exists w', responder_step fw c upper clock rh fuel e w = Some (Done (tt, w')) /\ healthy c I room w'.
Proof.
  intros Hh Hf. destruct (responder_step_tot fuel e _ _ Hf w (within_messages c I room _ _ w Hh (le_n _) (le_n _)))
    as ([]&w'&E&(Hh'&_)). eauto.
Qed.

Lemma responder_initial_healthy (w : World W HR L U) :
  responder_initial c w -> I (w_derived w) -> roomy c room w -> healthy c I room w.
Proof.
  intros (ttl&writer&m1&m2&buffer&in_stack&Hl&_&_) Hd Hr. split; [|done]. rewrite Hl.
  split; by apply new_session_returns.
Qed.

(** A responder always comes back: in a state whose algorithms and handshake
    return, as those of a new one do, and whose payload buffer has room for the
    messages to be received if AES-GCM is offered, every entry point returns, whatever the lower
    layer has received and whatever the upper layer does in its handlers, to a
    state of the same kind; no exit, no exception, no null function pointer, no
    endless loop, and notifications nest at most twice as deep as the number of
    messages to be received plus one. *)
Theorem responder_returns :
  (forall w : World W HR L U, responder_initial c w -> I (w_derived w) -> roomy c room w -> healthy c I room w) /\
  (forall (w : World W HR L U) fuel e,
     healthy c I room w -> (2 * left_to_receive w + 1 < fuel)%nat ->
     exists w', responder_step fw c upper clock rh fuel e w = Some (Done (tt, w')) /\ healthy c I room w').
Proof. split; [apply responder_initial_healthy|apply responder_step_returns]. Qed.
End Responders.

(** ** The initiator *)

Section Initiators.
Context `{SER : Ser4cpp} {W : Type} (fw : frame_writer W) (c : CryptoState).
Context (HC : backend_complete c).
Context {L U : Type} `{LL : !LowerLayer L} `{LAWS : !LowerLayerLaws L}.
Context (upper : upper_call -> U -> upper_prog U) (clock : nat -> Z).
Context {HI : Type} (ih : initiator_handshake HI) (IH : HI -> Prop) `{IR : !InitiatorReturns c ih IH} (room : Z).
Context (params : Params) (limits : SessionLimits).
Local Abbreviation action := (act (World W (Initiator HI) L U)).

Definition handshake_fine (d : Initiator HI) : Prop := IH (in_handshake d).
Local Abbreviation bound := (within c handshake_fine room).

Lemma retry_tot n k s :
  tot (bound n k) (start_retry_timer clock params;;; aret s : action HandshakeState) (fun _ => bound n k).
Proof.
  eapply (tot_seq _ (bound n k)); [|intros []; apply tot_ret].
  eapply (tot_seq _ (bound n k)); [apply tot_time|intros t]. by apply tot_set_derived.
Qed.

Lemma response_tot n k s :
  tot (bound n k) (start_response_timer clock params;;; aret s : action HandshakeState) (fun _ => bound n k).
Proof.
  eapply (tot_seq _ (bound n k)); [|intros []; apply tot_ret].
  eapply (tot_seq _ (bound n k)); [apply tot_time|intros t]. by apply tot_set_derived.
Qed.

Lemma step_state_tot n k (g : HandshakeState -> action HandshakeState) :
  (forall s, tot (bound n k) (g s) (fun _ => bound n k)) ->
  tot (bound n k) (step_state g) (fun _ => bound n k).
Proof.
  intros H. unfold step_state. apply tot_read. intros d.
  eapply (tot_seq _ (bound n k)); [apply H|intros s]. by apply tot_set_derived.
Qed.

Lemma new_handshake_tot n k :
  tot (bound n k) (initialize_new_handshake ih : action _) (fun _ => bound n k).
Proof.
  intros w Hw. pose proof Hw as ((Hs&Hd&Hr)&Hb). unfold initialize_new_handshake, abind, aget, alift, next_draw. cbn.
  destruct (owp_returns _ _ (ir_new (I := IH) (w_draws w) (in_handshake (w_derived w)) Hd)) as ([res h]&E&Hh). rewrite E.
  eexists _, _. split; [reflexivity|]. split; [split; [exact Hs|by split]|exact Hb].
Qed.

Lemma finalize_tot n k data now :
  tot (bound n k) (h <-- alift (fun w => ih_finalize_request_tx ih (in_handshake (w_derived w)) data now);
                   set_handshake h : action unit) (fun _ => bound n k).
Proof.
  intros w Hw. pose proof Hw as ((Hs&Hd&Hr)&Hb). unfold abind, alift.
  destruct (owp_returns _ _ (ir_finalize (I := IH) (in_handshake (w_derived w)) data now Hd)) as (h&E&Hh). rewrite E.
  eexists _, _. split; [reflexivity|]. split; [split; [exact Hs|by split]|exact Hb].
Qed.

Lemma idle_tot n k now :
  tot (bound n k) (Idle_on_handshake_required fw clock ih params limits now : action _) (fun _ => bound n k).
Proof.
  unfold Idle_on_handshake_required. apply tot_read. intros ready. destruct (negb ready).
  { eapply (tot_seq _ (bound n k)); [by apply tot_set_derived|intros []; apply tot_ret]. }
  apply tot_read. intros d. eapply (tot_seq _ (bound n k)); [apply new_handshake_tot|].
  intros [[e m]|]; [|apply retry_tot]. apply tot_read. intros d'. apply tot_read. intros x.
  destruct (fw_write _ _ _) as [res w].
  eapply (tot_seq _ (bound n k)); [by apply tot_set_layer|intros []].
  destruct (WriteResult_is_error res); [apply tot_ret|].
  intros w0 Hw. destruct (finalize_tot n k (wr_written res) now w0 Hw) as ([]&w1&E&H1).
  unfold abind in E |- *. destruct (alift _ w0) as [[[h w0']| | |]|]; try done. rewrite E.
  revert w1 H1 E. intros w1 H1 _. revert w1 H1.
  eapply (tot_seq _ (bound n k)); [by apply tot_transmit|intros ok; apply response_tot].
Qed.

Lemma handshake_required_tot n k :
  tot (bound n k) (on_handshake_required fw clock ih params limits : action unit) (fun _ => bound n k).
Proof.
  unfold on_handshake_required. eapply (tot_seq _ (bound n k)); [apply tot_time|intros now].
  apply step_state_tot. intros s. destruct s; cbn [on_handshake_required_in]; [apply idle_tot|..];
    (eapply (tot_seq _ (bound n k)); [by apply tot_set_derived|intros []; apply tot_ret]).
Qed.

Lemma initialize_session_tot n k msg raw now :
  tot (bound n k) (initialize_session ih limits msg raw now : action bool) (fun _ => bound n k).
Proof.
  intros w Hw. pose proof Hw as (([Ha Hp]&Hd&Hr)&_). unfold initialize_session, abind, layer, aget, alift. cbn.
  destruct (owp_returns _ _ (ir_session (I := IH) (in_handshake (w_derived w)) msg raw limits now _ (cl_statistics (w_layer w)) Hd Hp))
    as ([[[ok h] s] st]&E&Hh&Hs). rewrite E.
  eexists _, _. split; [reflexivity|]. by apply (within_sessions c handshake_fine room n k w).
Qed.

Lemma on_reply_tot n k s msg raw now :
  tot (bound n k) (on_reply_message_in fw clock ih params limits s msg raw now : action _) (fun _ => bound n k).
Proof.
  destruct s; cbn [on_reply_message_in]; try apply tot_ret. unfold WaitForBeginReply_on_reply_message.
  eapply (tot_seq _ (bound n k)); [by apply tot_set_derived|intros []].
  eapply (tot_seq _ (bound n k)); [apply initialize_session_tot|intros ok].
  destruct (negb ok); [apply retry_tot|].
  eapply (tot_seq _ (bound n k)); [by apply transmit_auth_tot|intros sent].
  destruct (negb sent); [apply retry_tot|apply response_tot].
Qed.

Lemma on_auth_tot f note n k s msg raw now :
  notifies c handshake_fine room f note -> small c room msg -> (2 * n + 1 <= k)%nat -> (k < f)%nat ->
  tot (bound n k) (on_auth_message_in c clock params note s msg raw now : action _) (fun _ => bound n k).
Proof.
  intros HN Hm Hk Hf. destruct s; cbn [on_auth_message_in]; try apply tot_ret.
  unfold WaitForAuthReply_on_auth_message.
  eapply (tot_seq _ (bound n k)); [by apply tot_set_derived|intros []].
  eapply (tot_seq _ (bound n k)).
  { apply validate_with_tot; [apply validate_auth_returns|done|apply validate_auth_keeps_valid]. }
  intros [ec|payload]; [apply retry_tot|].
  eapply (tot_seq _ (bound n k)); [by apply activate_tot|intros []].
  eapply (tot_seq _ (bound n k)); [by apply tot_set_derived|intros []]. apply tot_read. intros x.
  eapply (tot_seq _ (bound n k)); [by apply tot_set_derived|intros []].
  eapply (tot_seq _ (bound n k)); [by apply (HN n k)|intros []].
  eapply (tot_seq _ (bound n k)); [|intros []; apply tot_ret].
  destruct (negb _); [|apply tot_ret].
  eapply (tot_seq _ (bound n k)); [apply set_payload_tot|intros []]. by apply (HN n k).
Qed.

Lemma initiator_handles f note :
  notifies c handshake_fine room f note ->
  handles c handshake_fine room f (Initiator_virtuals fw c clock ih params limits note : virtuals (L := L) (U := U)).
Proof.
  intros HN. split; intros; cbn [v_on_parse_error v_on_session_nonce_change v_on_request v_on_reply
    v_on_error v_on_auth_session Initiator_virtuals]; try apply tot_ret.
  - unfold Initiator_on_session_nonce_change. destruct (_ <=? _); [|apply tot_ret].
    eapply (tot_seq _ (bound n k)); [by apply tot_set_derived|intros []]. apply handshake_required_tot.
  - apply step_state_tot. intros s. apply on_reply_tot.
  - apply step_state_tot. intros s. destruct s; cbn [on_error_message_in]; try apply tot_ret;
      (eapply (tot_seq _ (bound n k)); [by apply tot_set_derived|intros []; apply retry_tot]).
  - apply step_state_tot. intros s. by apply (on_auth_tot f).
Qed.

Lemma initiator_handles_events note :
  handles_events c handshake_fine room
    (Initiator_virtuals fw c clock ih params limits note : virtuals (L := L) (U := U)).
Proof.
  split; intros; cbn [v_on_pre_tx_ready v_on_lower_open_impl v_reset_state_on_close_from_lower
    Initiator_virtuals].
  - unfold Initiator_on_pre_tx_ready. apply tot_read. intros d.
    destruct (in_handshake_required d); [apply handshake_required_tot|apply tot_ret].
  - apply handshake_required_tot.
  - unfold Initiator_reset_state_on_close_from_lower.
    do 3 (eapply (tot_seq _ (bound n k)); [by apply tot_set_derived|intros []]). by apply tot_set_derived.
Qed.

Lemma initiator_step_tot fuel e n k :
  (k < fuel)%nat ->
  tot (bound n k) (initiator_step fw c upper clock ih params limits fuel e : action unit) (fun _ => bound n k).
Proof.
  intros Hk. destruct e as [e| |]; cbn [initiator_step].
  - apply layer_step_tot; [done|exact LAWS|intros; by apply initiator_handles| |done].
    intros note. apply initiator_handles_events.
  - unfold on_response_or_retry_timer. apply tot_read. intros d.
    destruct (in_response_and_retry_timer d) as [[[] due]|]; [| |apply tot_ret];
      (eapply (tot_seq _ (bound n k)); [by apply tot_set_derived|intros []]).
    + apply step_state_tot. intros s.
      destruct s; cbn [on_response_timeout_in]; try apply tot_ret; apply retry_tot.
    + eapply (tot_seq _ (bound n k)); [|intros []; apply handshake_required_tot].
      apply step_state_tot. intros s. destruct s; apply tot_ret.
  - unfold on_session_timer. apply tot_read. intros d.
    destruct (in_session_timeout_timer d); [|apply tot_ret].
    eapply (tot_seq _ (bound n k)); [by apply tot_set_derived|intros []; apply handshake_required_tot].
Qed.

Lemma initiator_step_returns (w : World W (Initiator HI) L U) fuel e :
  healthy c handshake_fine room w -> (2 * left_to_receive w + 1 < fuel)%nat ->
  exists w', initiator_step fw c upper clock ih params limits fuel e w = Some (Done (tt, w')) /\
    healthy c handshake_fine room w'.
Proof.
  intros Hh Hf.
  destruct (initiator_step_tot fuel e _ _ Hf w (within_messages c handshake_fine room _ _ w Hh (le_n _) (le_n _)))
    as ([]&w'&E&(Hh'&_)). eauto.
Qed.

Lemma initiator_initial_healthy (w : World W (Initiator HI) L U) :
  initiator_initial c w -> IH (in_handshake (w_derived w)) -> roomy c room w -> healthy c handshake_fine room w.
Proof.
  intros (ttl&writer&m1&m2&buffer&in_stack&h&Hl&_&_&_) Hd Hr. split; [|done]. rewrite Hl.
  split; by apply new_session_returns.
Qed.

(** An initiator always comes back: the same of every entry point of an
    initiator, its timers included. *)
Theorem initiator_returns :
  (forall w : World W (Initiator HI) L U,
     initiator_initial c w -> IH (in_handshake (w_derived w)) -> roomy c room w -> healthy c handshake_fine room w) /\
  (forall (w : World W (Initiator HI) L U) fuel e,
     healthy c handshake_fine room w -> (2 * left_to_receive w + 1 < fuel)%nat ->
     exists w', initiator_step fw c upper clock ih params limits fuel e w = Some (Done (tt, w')) /\
       healthy c handshake_fine room w').
Proof. split; [apply initiator_initial_healthy|apply initiator_step_returns]. Qed.
End Initiators.
