(* ===== verification/Scenario.v ===== *)
(** * Both ends together

    An initiator and a responder run against each other: the frames one of them
    hands to its lower layer are delivered to the other, from the opening of the
    lower layers through the handshake to the exchange of application data.  The
    runs are executed, and they show that the worlds the safety theorems speak
    about include ones with an open upper layer and established sessions. *)

From stdpp Require Import base numbers list strings.
From Stdlib Require Import Lia ZArith.
From S2P Require Import Prelude Ser4cpp Enums Codec Messages CRC LinkParser FrameWriter LinkLayer.
From S2P Require Import Crypto SessionMode Session Chain Handshake CryptoLayer LayerLogic Responder Initiator Returns Terminates.

#[export] Instance queue_laws : LowerLayerLaws queue.
Proof. by split. Qed.

#[export] Instance is_byte_dec b : Decision (is_byte b).
Proof. unfold is_byte. apply _. Defined.

#[export] Instance chunks_ok_dec cs : Decision (chunks_ok cs).
Proof. unfold chunks_ok. apply _. Defined.

Definition empty_queue : queue := exist _ [] (Forall_nil_2 _).

Definition queue_of (cs : list bytes) : queue :=
  match decide (chunks_ok cs) with
  | left H => exist _ cs H
  | right _ => empty_queue
  end.

(** An application that sends [greeting] when it is told that a session exists
    and collects what it receives. *)
Definition application (greeting : bytes) (call : upper_call) (received : list bytes)
  : upper_prog (list bytes) :=
  match call with
  | on_lower_open => UStartTx received greeting (fun received _ => UReturn received)
  | on_lower_rx_ready =>
      UStartRx received (fun received data =>
        if is_nil data then UReturn received else UReturn (received ++ [data]))
  | _ => UReturn received
  end.

(** Ten milliseconds pass between two readings of the clock. *)
Definition ticking (n : nat) : Z := 10 * Z.of_nat n.

Definition new_world {D} (d : D) : World RawFrameWriter D queue (list bytes) :=
  mkWorld (CryptoLayer_new (SER := ser4cpp_reference) full_crypto 10000
             (mkRawFrameWriter 200 (replicate 200 0)) (replicate 200 0) (replicate 200 0)
             (replicate 200 0) false) d empty_queue [] false 0 0 [].

(** ** Scripts *)

Section Scripts.
Context {D E : Type}.
Local Abbreviation world := (World RawFrameWriter D queue (list bytes)).
Context (initial : world -> Prop) (step : nat -> E -> act world unit).

(** Frames arrive, then the event happens. *)
Definition scripted (frames : list bytes) (e : E) (w : world) : option world :=
  match step 3 e (mkWorld (w_layer w) (w_derived w) (queue_of frames) (w_upper w) (w_upper_open w)
                    (w_ticks w) (w_draws w) (w_sent w)) with
  | Some (Done (_, w)) => Some w
  | _ => None
  end.

Lemma scripted_reachable frames e w w' :
  reachable initial step w -> scripted frames e w = Some w' -> reachable initial step w'.
Proof.
  intros Hw H. unfold scripted in H.
  destruct (step 3 e _) as [[[[] w1]| | |]|] eqn:Es; try done. injection H as <-.
  eapply reach_step; [|exact Es]. by apply reach_neighbours.
Qed.

(** What was sent after [n] frames, in the order it was sent. *)
Definition sent_since (n : nat) (w : world) : list bytes :=
  rev (map snd (take (length (w_sent w) - n) (w_sent w))).
End Scripts.

(** ** The shared-secret handshake and one message each way *)

Definition test_params : Params := mkParams 2000 5000 (2 ^ 20) 1000.

Local Abbreviation initiator_world := (World RawFrameWriter (Initiator SharedSecretInitiatorHandshake) queue (list bytes)).
Local Abbreviation responder_world := (World RawFrameWriter BufferBase queue (list bytes)).

Definition test_initiator_step : nat -> initiator_event -> act initiator_world unit :=
  initiator_step (SER := ser4cpp_reference) RawFrameWriter_ops full_crypto (application [1; 2; 3]) ticking
    (SharedSecretInitiator full_crypto) test_params SessionLimits_default.

Definition test_responder_step : nat -> layer_event -> act responder_world unit :=
  responder_step (SER := ser4cpp_reference) RawFrameWriter_ops full_crypto (application [4; 5]) ticking
    (SharedSecretResponder (SER := ser4cpp_reference) RawFrameWriter_ops full_crypto).

Definition new_initiator : initiator_world := new_world (Initiator_new test_shared_initiator).
Definition new_responder : responder_world := new_world (test_key 7).

Definition conversation : option (initiator_world * responder_world) :=
  i1 ← scripted test_initiator_step [] (EvLayer EvOpen) new_initiator;
  r1 ← scripted test_responder_step [] EvOpen new_responder;
  (* the request and the reply *)
  r2 ← scripted test_responder_step (sent_since 0 i1) EvRxReady r1;
  i2 ← scripted test_initiator_step (sent_since 0 r2) (EvLayer EvRxReady) i1;
  (* the authentication, its reply, and the responder's greeting *)
  r3 ← scripted test_responder_step (sent_since (length (w_sent i1)) i2) EvRxReady r2;
  i3 ← scripted test_initiator_step (sent_since (length (w_sent r2)) r3) (EvLayer EvRxReady) i2;
  (* the initiator's greeting *)
  r4 ← scripted test_responder_step (sent_since (length (w_sent i2)) i3) EvRxReady r3;
  Some (i3, r4).

Definition summary {D} (w : World RawFrameWriter D queue (list bytes)) : bool * bool * list bytes * nat :=
  (w_upper_open w, s_valid (active (cl_sessions (w_layer w))), w_upper w, length (w_sent w)).

(** Both ends are open with a valid session, each has the other's greeting, the
    initiator is idle, and each sent three frames. *)
Example conversation_runs :
  option_map (fun '(i, r) => (in_handshake_state (w_derived i), summary i, summary r)) conversation =
  Some (Idle, (true, true, [[4; 5]], 3%nat), (true, true, [[1; 2; 3]], 3%nat)).
Proof. vm_compute. reflexivity. Qed.

Lemma new_initiator_initial :
  initiator_initial (SER := ser4cpp_reference) full_crypto new_initiator.
Proof. by repeat eexists. Qed.

Lemma new_responder_initial :
  responder_initial (SER := ser4cpp_reference) full_crypto new_responder.
Proof. by repeat eexists. Qed.

Lemma conversation_reachable i r :
  conversation = Some (i, r) ->
  reachable (initiator_initial (SER := ser4cpp_reference) full_crypto) test_initiator_step i /\
  reachable (responder_initial (SER := ser4cpp_reference) full_crypto) test_responder_step r.
Proof.
  unfold conversation. intros H.
  repeat (apply bind_Some in H as (?&?&H)). injection H as <- <-.
  split; repeat (eapply scripted_reachable; [|eassumption]); apply reach_initial.
  - apply new_initiator_initial.
  - apply new_responder_initial.
Qed.

(** The end of the conversation. *)
Lemma conversation_ends :
  exists i r, conversation = Some (i, r) /\ w_upper_open i = true /\ w_upper_open r = true /\
    length (w_sent i) = 3%nat /\ length (w_sent r) = 3%nat /\ in_handshake_state (w_derived i) = Idle /\
    cl_is_open (w_layer i) = true /\ in_response_and_retry_timer (w_derived i) = None.
Proof.
  pose proof conversation_runs as H.
  assert (option_map (fun '(i, r) => (cl_is_open (w_layer i), in_response_and_retry_timer (w_derived i)))
            conversation = Some (true, None)) as H' by (vm_compute; reflexivity).
  destruct conversation as [[i r]|]; [|done]. exists i, r.
  cbn in H, H'. injection H as ? ? ? ? ? ? ? ? ?. by injection H' as ? ?.
Qed.

Lemma initiator_safe_witness :
  exists w : initiator_world, w_upper_open w = true /\ length (w_sent w) = 3%nat /\
    s_valid (active (cl_sessions (w_layer w))) = true /\
    Forall (fun sent => fst sent = true) (w_sent w).
Proof.
  destruct conversation_ends as (i&r&Hc&Ho&_&Hn&_). exists i.
  destruct (conversation_reachable i r Hc) as [Hi _].
  destruct (initiator_safe (SER := ser4cpp_reference) RawFrameWriter_ops full_crypto
              (application [1; 2; 3]) ticking (SharedSecretInitiator full_crypto) test_params
              SessionLimits_default i Hi) as [Hv Hf].
  split; [exact Ho|]. split; [exact Hn|]. split; [exact (Hv Ho)|exact Hf].
Defined.

Lemma responder_safe_witness :
  exists w : responder_world, w_upper_open w = true /\ length (w_sent w) = 3%nat /\
    s_valid (active (cl_sessions (w_layer w))) = true /\
    Forall (fun sent => fst sent = true) (w_sent w).
Proof.
  destruct conversation_ends as (i&r&Hc&_&Ho&_&Hn&_). exists r.
  destruct (conversation_reachable i r Hc) as [_ Hr].
  destruct (responder_safe (SER := ser4cpp_reference) RawFrameWriter_ops full_crypto
              (application [4; 5]) ticking
              (SharedSecretResponder (SER := ser4cpp_reference) RawFrameWriter_ops full_crypto) r Hr)
    as [Hv Hf].
  split; [exact Ho|]. split; [exact Hn|]. split; [exact (Hv Ho)|exact Hf].
Defined.

(** In the idle initiator of the conversation, with a session and no response or
    retry timer, what remains is a noted need or the session timer. *)
Lemma initiator_never_stuck_witness :
  exists w : initiator_world, in_handshake_state (w_derived w) = Idle /\
    (in_handshake_required (w_derived w) = true \/ is_Some (in_session_timeout_timer (w_derived w))).
Proof.
  destruct conversation_ends as (i&r&Hc&_&_&_&_&Hi&Hopen&Ht). exists i.
  destruct (conversation_reachable i r Hc) as [Hr _].
  pose proof (initiator_never_stuck (SER := ser4cpp_reference) RawFrameWriter_ops full_crypto
              (application [1; 2; 3]) ticking (SharedSecretInitiator full_crypto) test_params
              SessionLimits_default i Hr) as H.
  cbv zeta in H. rewrite Hi, Ht in H. split; [exact Hi|].
  destruct (H Hopen) as [H'|[H'|[? H']]]; [left; exact H'|right; exact H'|discriminate].
Defined.

(** ** Every handler returns *)

Lemma full_backend_complete : backend_complete full_crypto.
Proof.
  split; [done..| |].
  - by intros f salt ikm k1 k2 [= <-].
  - destruct test_gcm_returns as [He Hd]. split; [exact He|exact Hd].
Qed.

Lemma test_initiator_returns : shared_initiator_returns full_crypto test_shared_initiator.
Proof.
  apply (shared_initiator_new_returns full_crypto full_backend_complete CryptoSuite_default (test_key 7)).
  reflexivity.
Qed.

(** Two messages on their way to a responder that is open. *)
Definition open_responder : responder_world :=
  mkWorld (cl_set_open (w_layer new_responder) true) (test_key 7) (queue_of [[1; 2; 3]; [4]]) [] false 0 0 [].

Lemma responder_returns_witness :
  exists w' : responder_world,
    test_responder_step 6 EvRxReady open_responder = Some (Done (tt, w')) /\
    healthy full_crypto (fun _ => True) 8 w'.
Proof.
  destruct (responder_returns (SER := ser4cpp_reference) RawFrameWriter_ops full_crypto full_backend_complete
              (application [4; 5]) ticking
              (SharedSecretResponder (SER := ser4cpp_reference) RawFrameWriter_ops full_crypto) (fun _ => True)
              (RR := shared_responder_total _ _ full_backend_complete) 8) as [Hinit Hstep].
  assert (roomy full_crypto 8 new_responder /\ roomy full_crypto 8 open_responder) as [Hn Ho].
  { split; (split; [by intros _|]); repeat (apply Forall_cons; split; [by intros _|]); constructor. }
  apply Hstep.
  - destruct (Hinit new_responder new_responder_initial I Hn) as (H&Hd&_). exact (conj H (conj Hd Ho)).
  - vm_compute. lia.
Defined.

Lemma initiator_returns_witness :
  exists w' : initiator_world,
    test_initiator_step 2 (EvLayer EvOpen) new_initiator = Some (Done (tt, w')) /\
    healthy full_crypto (handshake_fine (shared_initiator_returns full_crypto)) 8 w'.
Proof.
  destruct (initiator_returns (SER := ser4cpp_reference) RawFrameWriter_ops full_crypto full_backend_complete
              (application [1; 2; 3]) ticking (SharedSecretInitiator full_crypto) (shared_initiator_returns full_crypto)
              (IR := shared_initiator_total _ full_backend_complete)
              8 test_params SessionLimits_default) as [Hinit Hstep].
  apply Hstep.
  - apply (Hinit new_initiator new_initiator_initial test_initiator_returns). split; [by intros _|constructor].
  - vm_compute. lia.
Defined.
