(* ===== verification/Sodium.v ===== *)
(** * The libsodium backend

    [sodium/src/Backend.cpp] and [HKDF.h]: the functions the library installs in
    the table of [Crypto.v], over the C interface of libsodium.

    libsodium is not part of the repository: class [Libsodium] is the part of its
    interface the backend calls (what a call writes through a pointer and the
    return code it gives), and class [LibsodiumOk] what its documentation
    promises for arguments of the documented sizes.  The functions below are
    the backend's own code; the instances [sodium_backend_ok] and
    [sodium_handshake_ok] show that the table it installs keeps the promises
    the protocol relies on ([BackendOk] and [HandshakeBackendOk]), so that
    what is proved of handshakes and sessions holds over libsodium. *)

From stdpp Require Import base numbers list strings.
From Stdlib Require Import Lia ZArith.
From S2P Require Import Prelude Ser4cpp Enums Codec Messages FrameWriter Crypto SessionMode Session.
From S2P Require Import Chain Handshake Returns.

(** ** The C interface *)

(** Results are what the function writes; a pair starts with the return code.
    Random functions take the number of the draw. *)
Class Libsodium := {
  sodium_init : Z;
  sodium_memzero : bytes -> bytes;
  randombytes_buf : nat -> Z -> bytes;
  sodium_memcmp : bytes -> bytes -> Z;
  hash_sha256_state : Type;
  crypto_hash_sha256_init : hash_sha256_state;
  crypto_hash_sha256_update : hash_sha256_state -> bytes -> hash_sha256_state;
  crypto_hash_sha256_final : hash_sha256_state -> bytes;
  auth_hmacsha256_state : Type;
  crypto_auth_hmacsha256_init : bytes -> auth_hmacsha256_state;
  crypto_auth_hmacsha256_update : auth_hmacsha256_state -> bytes -> auth_hmacsha256_state;
  crypto_auth_hmacsha256_final : auth_hmacsha256_state -> bytes;
  crypto_scalarmult_base : bytes -> bytes;
  crypto_scalarmult : bytes -> bytes -> Z * bytes;
  crypto_sign_keypair : nat -> bytes * bytes;
  crypto_sign_detached : bytes -> bytes -> bytes;
  crypto_sign_verify_detached : bytes -> bytes -> bytes -> Z;
  (* message, associated data, nonce, key: ciphertext and tag *)
  crypto_aead_aes256gcm_encrypt_detached : bytes -> bytes -> bytes -> bytes -> Z * (bytes * bytes);
  (* ciphertext, tag, associated data, nonce, key: message *)
  crypto_aead_aes256gcm_decrypt_detached : bytes -> bytes -> bytes -> bytes -> bytes -> Z * bytes;
}.

(** What the documentation promises.  The lengths a law asks for are the sizes
    of the memory the function reads. *)
Class LibsodiumOk (L : Libsodium) := {
  memzero_spec data : sodium_memzero data = replicate (length data) 0;
  memcmp_spec l r : zlen l = zlen r -> sodium_memcmp l r = 0 <-> l = r;
  randombytes_spec draw n :
    0 <= n -> zlen (randombytes_buf draw n) = n /\ all_bytes (randombytes_buf draw n);
  (* the multi-part interfaces hash the concatenation of the parts *)
  hash_update_nil st : crypto_hash_sha256_update st [] = st;
  hash_update_app st a b :
    crypto_hash_sha256_update st (a ++ b) =
      crypto_hash_sha256_update (crypto_hash_sha256_update st a) b;
  hash_final_length st : zlen (crypto_hash_sha256_final st) = sha256_hash_output_length;
  auth_update_nil st : crypto_auth_hmacsha256_update st [] = st;
  auth_update_app st a b :
    crypto_auth_hmacsha256_update st (a ++ b) =
      crypto_auth_hmacsha256_update (crypto_auth_hmacsha256_update st a) b;
  auth_final_length st : zlen (crypto_auth_hmacsha256_final st) = sha256_hash_output_length;
  auth_final_bytes st : all_bytes (crypto_auth_hmacsha256_final st);
  scalarmult_base_length k : zlen (crypto_scalarmult_base k) = x25519_key_length;
  scalarmult_base_bytes k : all_bytes (crypto_scalarmult_base k);
  scalarmult_length k p : zlen (crypto_scalarmult k p).2 = x25519_key_length;
  scalarmult_commutes a b :
    zlen a = x25519_key_length -> zlen b = x25519_key_length ->
    crypto_scalarmult a (crypto_scalarmult_base b) = crypto_scalarmult b (crypto_scalarmult_base a);
  scalarmult_honest a b :
    zlen a = x25519_key_length -> zlen b = x25519_key_length ->
    (crypto_scalarmult a (crypto_scalarmult_base b)).1 = 0;
  sign_keypair_length draw :
    zlen (crypto_sign_keypair draw).1 = ed25519_public_key_length /\
    zlen (crypto_sign_keypair draw).2 = ed25519_private_key_length;
  sign_keypair_bytes draw :
    all_bytes (crypto_sign_keypair draw).1 /\ all_bytes (crypto_sign_keypair draw).2;
  sign_length m k : zlen (crypto_sign_detached m k) = ed25519_signature_length;
  sign_bytes m k : all_bytes (crypto_sign_detached m k);
  sign_verifies draw m :
    crypto_sign_verify_detached (crypto_sign_detached m (crypto_sign_keypair draw).2) m
      (crypto_sign_keypair draw).1 = 0;
  (* AES-256-GCM, on a processor that supports it *)
  gcm_encrypt_code m ad npub k :
    zlen m <= max_u32 -> zlen npub = aes_gcm_nonce_length -> zlen k = symmetric_key_length ->
    (crypto_aead_aes256gcm_encrypt_detached m ad npub k).1 = 0;
  gcm_encrypt_length m ad npub k :
    zlen (crypto_aead_aes256gcm_encrypt_detached m ad npub k).2.1 = zlen m /\
    zlen (crypto_aead_aes256gcm_encrypt_detached m ad npub k).2.2 = aes_gcm_tag_length;
  gcm_encrypt_bytes m ad npub k :
    all_bytes m ->
    all_bytes (crypto_aead_aes256gcm_encrypt_detached m ad npub k).2.1 /\
    all_bytes (crypto_aead_aes256gcm_encrypt_detached m ad npub k).2.2;
  gcm_decrypt_length ct tag ad npub k :
    zlen (crypto_aead_aes256gcm_decrypt_detached ct tag ad npub k).2 = zlen ct;
  gcm_decrypt_inverts m ad npub k :
    zlen m <= max_u32 -> zlen npub = aes_gcm_nonce_length -> zlen k = symmetric_key_length ->
    crypto_aead_aes256gcm_decrypt_detached
      (crypto_aead_aes256gcm_encrypt_detached m ad npub k).2.1
      (crypto_aead_aes256gcm_encrypt_detached m ad npub k).2.2 ad npub k = (0, m);
}.

(** ** [HKDF.h] *)

Definition sodium_hkdf (mac_func : bytes -> list bytes -> BufferBase -> outcome BufferBase)
    (salt : bytes) (input_key_material : list bytes) (output1 output2 : BufferBase)
  : outcome (BufferBase * BufferBase) :=
  let* temp_key := mac_func salt input_key_material buffer_empty in
  let* output1 := mac_func (as_seq temp_key) [[0x01]] output1 in
  let* output2 := mac_func (as_seq temp_key) [as_seq output1; [0x02]] output2 in
  Done (set_length output1 length_32, set_length output2 length_32).

(** ** [Backend.cpp] *)

Section Backend.
Context `{SER : Ser4cpp} {L : Libsodium}.

(** [GCMNonceBuffer::set] on a new buffer; the twelve bytes it returns. *)
Definition GCMNonceBuffer_set (value : Z) : bytes :=
  let nonce_buffer := replicate 12 0 in
  match write_to UInt16 (wseq_skip (WSeq nonce_buffer 0) (aes_gcm_nonce_length - 2)) value with
  | Some w => w_buf w
  | None => nonce_buffer
  end.

Definition sodium_zero_memory : zero_memory_func_t := fun data => sodium_memzero data.

Definition sodium_gen_random : gen_random_func_t := fun draw dest =>
  overwrite dest 0 (randombytes_buf draw (zlen dest)).

Definition sodium_secure_equals : secure_equals_func_t := fun lhs rhs =>
  if negb (zlen lhs =? zlen rhs) then false else sodium_memcmp lhs rhs =? 0.

Definition sodium_hash_sha256 : hash_func_t := fun data output =>
  let state := fold_left crypto_hash_sha256_update data crypto_hash_sha256_init in
  set_length (buffer_store output (crypto_hash_sha256_final state)) length_32.

Definition sodium_hmac_sha256 : mac_func_t := fun key data output =>
  let state := fold_left crypto_auth_hmacsha256_update data (crypto_auth_hmacsha256_init key) in
  set_length (buffer_store output (crypto_auth_hmacsha256_final state)) length_32.

(** The function goes through [Crypto::hmac_sha256], that is through the
    static members of [Crypto], here [crypto]. *)
Definition sodium_hkdf_sha256 (crypto : CryptoState) : kdf_func_t :=
  fun salt input_key_material key1 key2 =>
    sodium_hkdf (Crypto_hmac_sha256 crypto) salt input_key_material key1 key2.

Definition sodium_gen_keypair_x25519 : gen_keypair_func_t := fun draw pair =>
  let priv := buffer_store (private_key pair) (randombytes_buf draw x25519_key_length) in
  let pub := buffer_store (public_key pair)
               (crypto_scalarmult_base (ztake x25519_key_length (buf_data priv))) in
  mkKeyPair (set_length pub length_32) (set_length priv length_32).

(** libsodium is given keys and signatures without their lengths: it reads as many
    bytes as they have to have, past the end of shorter ones. *)
Definition sodium_dh_x25519 : dh_func_t := fun priv_key pub_key output =>
  if zlen pub_key <? x25519_key_length then Crash
  else
    let '(code, q) := crypto_scalarmult (as_seq priv_key) pub_key in
    if negb (code =? 0) then Done (inl (EC_crypto CryptoError_dh_x25519_fail))
    else Done (inr (set_length (buffer_store output q) length_32)).

Definition sodium_gen_keypair_ed25519 : gen_keypair_func_t := fun draw pair =>
  let '(pk, sk) := crypto_sign_keypair draw in
  mkKeyPair (set_length (buffer_store (public_key pair) pk) length_32)
    (set_length (buffer_store (private_key pair) sk) length_64).

Definition sodium_sign_ed25519 : sign_dsa_func_t := fun input key output =>
  if zlen key <? ed25519_private_key_length then Crash
  else Done (inr (set_length (buffer_store output (crypto_sign_detached input key)) length_64)).

Definition sodium_verify_ed25519 : verify_dsa_func_t := fun message signature public_key =>
  if (zlen signature <? ed25519_signature_length) || (zlen public_key <? ed25519_public_key_length) then Crash
  else Done (crypto_sign_verify_detached signature message public_key =? 0).

(** libsodium is given the destination without its length: it writes as many bytes as
    the cleartext or the ciphertext has, past the end of a shorter destination. *)
Definition sodium_aes256_gcm_encrypt : aead_encrypt_func_t :=
  fun key nonce ad plaintext encrypt_buffer mac =>
    if zlen encrypt_buffer <? zlen plaintext then Crash
    else
      let '(result, (c, tag)) :=
        crypto_aead_aes256gcm_encrypt_detached plaintext ad (GCMNonceBuffer_set nonce) (as_seq key) in
      let encrypt_buffer := overwrite encrypt_buffer 0 c in
      let mac := buffer_store mac tag in
      if negb (result =? 0)
      then Done (AEADResult_failure (EC_crypto CryptoError_aead_encrypt_fail), encrypt_buffer, mac)
      else
        let mac := set_length mac length_16 in
        Done (AEADResult_success (seq_take encrypt_buffer (zlen plaintext)) (as_seq mac),
              encrypt_buffer, mac).

(** The tag, too, is given without its length: of a shorter one libsodium reads on in
    the buffer the message was received in, which may end there.  The model does not
    have these bytes: what [crypto_aead_aes256gcm_decrypt_detached] gives for a tag of
    another length stands for the result, and nothing is assumed of it. *)
Definition sodium_aes256_gcm_decrypt : aead_decrypt_func_t :=
  fun key nonce ad ciphertext auth_tag cleartext =>
    if zlen cleartext <? zlen ciphertext then Crash
    else
      let '(result, m) :=
        crypto_aead_aes256gcm_decrypt_detached ciphertext auth_tag ad (GCMNonceBuffer_set nonce)
          (as_seq key) in
      let cleartext := overwrite cleartext 0 m in
      if negb (result =? 0)
      then Done (inl (EC_crypto CryptoError_aead_decrypt_fail), cleartext)
      else Done (inr (seq_take cleartext (zlen ciphertext)), cleartext).

(** [get_backend]; [crypto] is the state [hkdf_sha256] calls through. *)
Definition sodium_get_backend (crypto : CryptoState) : CryptoBackend :=
  mkCryptoBackend
    (Some sodium_zero_memory) (Some sodium_gen_random) (Some sodium_secure_equals)
    (Some sodium_hash_sha256) (Some sodium_hmac_sha256)
    (Some sodium_gen_keypair_x25519) (Some sodium_dh_x25519) (Some (sodium_hkdf_sha256 crypto))
    (Some sodium_gen_keypair_ed25519) (Some sodium_sign_ed25519) (Some sodium_verify_ed25519)
    (Some sodium_aes256_gcm_encrypt) (Some sodium_aes256_gcm_decrypt).

(** The static members once the backend is installed.  The table contains a
    function that reads the table; the state that function is given has the
    same [hmac_sha256] ([sodium_crypto_fixpoint]), which is all it reads. *)
Definition sodium_crypto : CryptoState :=
  mkCryptoState true (sodium_get_backend (mkCryptoState true (sodium_get_backend Crypto_static))).

(** [sodium::initialize] on the static members [c]. *)
Definition sodium_initialize (c : CryptoState) : outcome CryptoState :=
  if negb (sodium_init =? 0) then Exit
  else Crypto_initialize c (backend sodium_crypto).
End Backend.

(** ** Facts about the functions *)

Section Facts.
Context `{SER : Ser4cpp} {L : Libsodium} {LO : LibsodiumOk L}.

Lemma gcm_nonce_bytes value :
  is_u16 value -> GCMNonceBuffer_set value = replicate 10 0 ++ be_bytes 2 value.
Proof.
  intros H. unfold GCMNonceBuffer_set. rewrite wseq_skip_spec by done.
  cbn [w_buf w_pos]. change (0 + _) with 10.
  rewrite write_to_ok; [|done|by apply int_ok_u16|done]. unfold wseq_store. cbn [w_buf w_pos].
  unfold overwrite. rewrite zlen_be_bytes. change (int_bytes UInt16) with 2%nat.
  change (zdrop _ (replicate 12 0)) with (@nil Z). by rewrite app_nil_r.
Qed.

Lemma gcm_nonce_length value : is_u16 value -> zlen (GCMNonceBuffer_set value) = aes_gcm_nonce_length.
Proof. intros H. rewrite gcm_nonce_bytes by done. rewrite zlen_app, zlen_be_bytes. done. Qed.

(** A loop of updates hashes the concatenation. *)
Lemma hash_updates data st :
  fold_left crypto_hash_sha256_update data st = crypto_hash_sha256_update st (concat data).
Proof.
  revert st. induction data as [|d data IH]; intros st; simpl; [by rewrite hash_update_nil|].
  by rewrite IH, hash_update_app.
Qed.

Lemma auth_updates data st :
  fold_left crypto_auth_hmacsha256_update data st = crypto_auth_hmacsha256_update st (concat data).
Proof.
  revert st. induction data as [|d data IH]; intros st; simpl; [by rewrite auth_update_nil|].
  by rewrite IH, auth_update_app.
Qed.

(** The one-shot functions. *)
Definition sodium_sha256 (data : bytes) : bytes :=
  crypto_hash_sha256_final (crypto_hash_sha256_update crypto_hash_sha256_init data).

Definition sodium_hmac (key data : bytes) : bytes :=
  crypto_auth_hmacsha256_final (crypto_auth_hmacsha256_update (crypto_auth_hmacsha256_init key) data).

Definition sodium_x25519 (key pub : bytes) : option bytes :=
  let '(code, q) := crypto_scalarmult key pub in if code =? 0 then Some q else None.

Definition sodium_gcm_enc (key : bytes) (nonce : Z) (ad pt : bytes) : bytes * bytes :=
  (crypto_aead_aes256gcm_encrypt_detached pt ad (GCMNonceBuffer_set nonce) key).2.

Definition sodium_gcm_dec (key : bytes) (nonce : Z) (ad ct tag : bytes) : option bytes :=
  let '(code, m) :=
    crypto_aead_aes256gcm_decrypt_detached ct tag ad (GCMNonceBuffer_set nonce) key in
  if code =? 0 then Some m else None.

Lemma stored_prefix buf data : ztake (zlen data) (overwrite buf 0 data) = data.
Proof.
  pose proof (overwrite_upto buf 0 data) as E. rewrite Z.add_0_l in E. rewrite E; [done|].
  pose proof (zlen_nonneg buf). lia.
Qed.

Lemma secure_equals_exact l r : sodium_secure_equals l r = bool_decide (l = r).
Proof.
  unfold sodium_secure_equals. destruct (zlen l =? zlen r) eqn:E; simpl; btests.
  - apply eq_bool_prop_intro. rewrite !bool_decide_spec.
    rewrite Is_true_true, Z.eqb_eq. by apply memcmp_spec.
  - rewrite bool_decide_eq_false_2; [done|]. by intros ->.
Qed.
End Facts.

(** ** HKDF

    The key derivation of RFC 5869 over a MAC with outputs of 32 bytes. *)

Section RFC5869.
Context (mac : bytes -> bytes -> bytes).

Definition rfc5869_extract (salt ikm : bytes) : bytes := mac salt ikm.

(** [T(i+1)], ..., [T(i+n)], where [prev] is [T(i)]. *)
Fixpoint rfc5869_blocks (prk info prev : bytes) (i : Z) (n : nat) : bytes :=
  match n with
  | O => []
  | S n =>
      let t := mac prk (prev ++ info ++ [i + 1]) in
      t ++ rfc5869_blocks prk info t (i + 1) n
  end.

Definition rfc5869_expand (prk info : bytes) (length : Z) : bytes :=
  ztake length (rfc5869_blocks prk info [] 0 (Z.to_nat ((length + 31) / 32))).

Definition rfc5869_hkdf (salt ikm info : bytes) (length : Z) : bytes :=
  rfc5869_expand (rfc5869_extract salt ikm) info length.
End RFC5869.

Section Instances.
Context `{SER : Ser4cpp} {L : Libsodium} {LO : LibsodiumOk L}.

(** The two keys the backend derives. *)
Definition sodium_keys (salt ikm : bytes) : bytes * bytes :=
  let prk := sodium_hmac salt ikm in
  let t1 := sodium_hmac prk [0x01] in
  (t1, sodium_hmac prk (t1 ++ [0x02])).

Lemma hmac_length_sodium key data : zlen (sodium_hmac key data) = sha256_hash_output_length.
Proof. apply auth_final_length. Qed.

(** The state [hkdf_sha256] calls through computes the HMAC that is installed. *)
Lemma sodium_crypto_fixpoint c :
  Crypto_hmac_sha256 (mkCryptoState true (sodium_get_backend c)) = Crypto_hmac_sha256 sodium_crypto.
Proof. reflexivity. Qed.

Lemma sodium_hmac_done key data out :
  Crypto_hmac_sha256 sodium_crypto key data out =
    Done (set_length (buffer_store out (sodium_hmac key (concat data))) length_32).
Proof. cbn. unfold sodium_hmac_sha256. by rewrite auth_updates. Qed.

Lemma as_seq_stored_any out data len :
  zlen data = lookup_length_in_bytes len -> as_seq (set_length (buffer_store out data) len) = data.
Proof. intros H. unfold as_seq, get_length_in_bytes. simpl. rewrite <- H. apply stored_prefix. Qed.

Lemma sodium_hkdf_done salt ikm k1 k2 :
  sodium_hkdf (Crypto_hmac_sha256 sodium_crypto) salt ikm k1 k2 =
    Done (set_length (buffer_store k1 (sodium_keys salt (concat ikm)).1) length_32,
          set_length (buffer_store k2 (sodium_keys salt (concat ikm)).2) length_32).
Proof.
  unfold sodium_hkdf. rewrite sodium_hmac_done. cbn [obind].
  rewrite (as_seq_stored_any _ _ length_32) by apply hmac_length_sodium.
  rewrite sodium_hmac_done. cbn [obind].
  rewrite (as_seq_stored_any _ _ length_32) by apply hmac_length_sodium.
  rewrite sodium_hmac_done. cbn [obind]. unfold sodium_keys.
  reflexivity.
Qed.

(** The installed table keeps the promises of [BackendOk]. *)
#[export, refine] Instance sodium_backend_ok : BackendOk sodium_crypto := {|
  sha256 := sodium_sha256;
  hmac := sodium_hmac;
  gcm_enc := sodium_gcm_enc;
  gcm_dec := sodium_gcm_dec;
|}.
Proof.
  - done.
  - intros f data [= <-]. apply memzero_spec.
  - done.
  - intros f l r [= <-]. apply secure_equals_exact.
  - done.
  - intros f data out [= <-]. unfold sodium_hash_sha256. by rewrite hash_updates.
  - intros data. apply hash_final_length.
  - intros f key data out [= <-]. unfold sodium_hmac_sha256. by rewrite auth_updates.
  - intros key data. apply auth_final_length.
  - intros key data. apply auth_final_bytes.
  - intros f key nonce ad pt eb mac [= <-] Hk Hn Hl H32.
    unfold sodium_gcm_enc, sodium_aes256_gcm_encrypt. rewrite (proj2 (Z.ltb_ge _ _) Hl).
    pose proof (gcm_encrypt_code pt ad (GCMNonceBuffer_set nonce) (as_seq key) H32
                  (gcm_nonce_length nonce Hn) Hk) as Hc.
    pose proof (gcm_encrypt_length pt ad (GCMNonceBuffer_set nonce) (as_seq key)) as [Lc Lt].
    destruct (crypto_aead_aes256gcm_encrypt_detached _ _ _ _) as [code [ct tag]].
    cbn [fst snd] in *. subst code. cbn [Z.eqb negb].
    rewrite (as_seq_stored_any _ _ length_16) by done.
    rewrite seq_take_spec by apply zlen_nonneg. rewrite <- Lc at 1. by rewrite stored_prefix.
  - intros f key nonce ad ct tag dest [= <-] Hk Hl H32 Ht.
    unfold sodium_gcm_dec, sodium_aes256_gcm_decrypt. rewrite (proj2 (Z.ltb_ge _ _) Hl).
    pose proof (gcm_decrypt_length ct tag ad (GCMNonceBuffer_set nonce) (as_seq key)) as Lm.
    destruct (crypto_aead_aes256gcm_decrypt_detached _ _ _ _ _) as [code m]. cbn [snd] in Lm.
    destruct (code =? 0); cbn [negb].
    + rewrite seq_take_spec by apply zlen_nonneg. rewrite <- Lm. by rewrite stored_prefix.
    + eexists. split; [done|]. apply overwrite_length; lia.
  - intros key nonce ad pt. apply gcm_encrypt_length.
  - intros key nonce ad pt. apply gcm_encrypt_bytes.
  - intros key nonce ad pt Hk Hn Hl. unfold sodium_gcm_dec, sodium_gcm_enc.
    rewrite gcm_decrypt_inverts by (done || by apply gcm_nonce_length). done.
Defined.

Lemma sodium_pair_private draw pair :
  as_seq (private_key (sodium_gen_keypair_x25519 draw pair)) = randombytes_buf draw x25519_key_length.
Proof. apply as_seq_stored_any. by apply randombytes_spec. Qed.

#[export, refine] Instance sodium_handshake_ok : HandshakeBackendOk sodium_crypto := {|
  hkdf := sodium_keys;
  x25519_base := crypto_scalarmult_base;
  x25519 := sodium_x25519;
|}.
Proof.
  - intros f salt ikm k1 k2 [= <-]. apply sodium_hkdf_done.
  - intros salt ikm. split; apply hmac_length_sodium.
  - done.
  - intros f draw dest [= <-]. destruct (randombytes_spec draw (zlen dest) (zlen_nonneg dest)) as [Hl Hb].
    unfold sodium_gen_random. pose proof (stored_prefix dest (randombytes_buf draw (zlen dest))) as E.
    assert (zlen (overwrite dest 0 (randombytes_buf draw (zlen dest))) = zlen dest) as El
      by (apply overwrite_length; lia).
    rewrite Hl, ztake_ge in E by lia. by rewrite E.
  - intros f draw pair [= <-] Hpub Hpriv.
    destruct (randombytes_spec draw x25519_key_length ltac:(done)) as [Hl _].
    split; [by apply buffer_store_ok; [|rewrite scalarmult_base_length]|].
    split; [by apply buffer_store_ok; [|rewrite Hl]|]. split; [done|]. split; [done|].
    cbn [public_key sodium_gen_keypair_x25519].
    rewrite (as_seq_stored_any _ _ length_32) by apply scalarmult_base_length. done.
  - intros f key pub out [= <-] _ Hp. unfold sodium_dh_x25519, sodium_x25519. rewrite Hp. cbn [Z.ltb].
    rewrite Z.ltb_irrefl. destruct (crypto_scalarmult (as_seq key) pub) as [code q]. by destruct (code =? 0).
  - apply scalarmult_base_length.
  - apply scalarmult_base_bytes.
  - intros key pub secret. unfold sodium_x25519. pose proof (scalarmult_length key pub) as Hl.
    destruct (crypto_scalarmult key pub) as [code q]. by destruct (code =? 0); intros [= <-].
  - intros a b Ha Hb. unfold sodium_x25519. by rewrite scalarmult_commutes.
  - intros a b Ha Hb. unfold sodium_x25519. pose proof (scalarmult_honest a b Ha Hb) as Hc.
    destruct (crypto_scalarmult a (crypto_scalarmult_base b)) as [code q]. simpl in Hc. subst code.
    by eexists.
Defined.
End Instances.

(** ** What the backend provides *)

Section Properties.
Context `{SER : Ser4cpp} {L : Libsodium} {LO : LibsodiumOk L}.
Context {W : Type} (fw : frame_writer W) (inv : W -> Prop) (frame : W -> bytes -> bytes).
Context `{HW : !FrameWriterOk fw inv frame}.

Lemma sodium_kdf_returns : kdf_returns (backend sodium_crypto).
Proof.
  intros f salt ikm k1 k2 [= <-]. unfold sodium_hkdf_sha256.
  by rewrite sodium_crypto_fixpoint, sodium_hkdf_done.
Qed.

Lemma sodium_gcm_returns : gcm_returns (backend sodium_crypto).
Proof.
  split.
  - intros f key nonce ad pt eb mac [= <-] Hl. unfold sodium_aes256_gcm_encrypt.
    rewrite (proj2 (Z.ltb_ge _ _) Hl).
    pose proof (gcm_encrypt_length pt ad (GCMNonceBuffer_set nonce) (as_seq key)) as [Lc _].
    destruct (crypto_aead_aes256gcm_encrypt_detached _ _ _ _) as [code [ct tag]]. cbn [fst snd] in Lc.
    destruct (negb _); eexists _, _, _; (split; [done|]); apply overwrite_length; lia.
  - intros f key nonce ad ct tag dest [= <-] Hl. unfold sodium_aes256_gcm_decrypt.
    rewrite (proj2 (Z.ltb_ge _ _) Hl).
    pose proof (gcm_decrypt_length ct tag ad (GCMNonceBuffer_set nonce) (as_seq key)) as Lm.
    destruct (crypto_aead_aes256gcm_decrypt_detached _ _ _ _ _) as [code m]. cbn [snd] in Lm.
    destruct (negb _); eexists _, _; (split; [done|]); apply overwrite_length; lia.
Qed.

Lemma sodium_key_calls : key_calls_return (backend sodium_crypto).
Proof.
  split.
  - intros f key pub out [= <-] Hp. unfold sodium_dh_x25519. rewrite (proj2 (Z.ltb_ge _ _) Hp).
    destruct (crypto_scalarmult _ _) as [code q]. destruct (negb _); by eexists.
  - intros f input key out [= <-] Hk. unfold sodium_sign_ed25519. rewrite (proj2 (Z.ltb_ge _ _) Hk). by eexists.
  - intros f message signature key [= <-] Hs Hk. unfold sodium_verify_ed25519.
    rewrite (proj2 (Z.ltb_ge _ _) Hs), (proj2 (Z.ltb_ge _ _) Hk). by eexists.
Qed.

Lemma sodium_dh_complete : backend_dh sodium_crypto.
Proof. split; [done..|exact sodium_key_calls]. Qed.

Lemma sodium_complete : backend_complete sodium_crypto.
Proof. split; [done..|exact sodium_kdf_returns|exact sodium_gcm_returns]. Qed.

(** Installing the backend: when libsodium can be initialized,
    [sodium::initialize] installs a table that supports every algorithm family,
    so that from then on every cryptographic call returns for which the memory it
    writes to and reads from is large enough; AES-GCM writes past the end of a
    destination that is too small, and the functions of keys and signatures read past
    the end of ones that are too short; and a second [initialize] throws.  When it
    cannot, the process ends before anything is installed. *)
Theorem sodium_initialize_installs :
  (sodium_init = 0 ->
   sodium_initialize Crypto_static = Done sodium_crypto /\
   supports_sha256 sodium_crypto = true /\ supports_x25519 sodium_crypto = true /\
   supports_ed25519 sodium_crypto = true /\ supports_aes256_gcm sodium_crypto = true /\
   (forall x, call_room x -> run_call sodium_crypto x = Returns) /\
   (forall x, ~ call_room x -> run_call sodium_crypto x = Crashes) /\
   sodium_initialize sodium_crypto = Throw) /\
  (sodium_init <> 0 -> sodium_initialize Crypto_static = Exit).
Proof.
  split; intros H; unfold sodium_initialize.
  - rewrite H. split; [done|]. do 4 (split; [done|]). destruct sodium_gcm_returns as [He Hd].
    destruct sodium_key_calls as [Hdh Hsign Hverify].
    split; [|split; [|done]]; intros x Hx; destruct x; try done; cbn [call_room] in Hx.
    + by destruct (Hdh _ key pub out eq_refl Hx) as (?&E); cbn in *; rewrite E.
    + by destruct (Hsign _ input key out eq_refl Hx) as (?&E); cbn in *; rewrite E.
    + destruct Hx as [Hs Hk]. by destruct (Hverify _ message signature key eq_refl Hs Hk) as (?&E); cbn in *; rewrite E.
    + by destruct (He _ key nonce ad pt eb mac eq_refl Hx) as (?&?&?&E&_); cbn in *; rewrite E.
    + by destruct (Hd _ key nonce ad ct tag dest eq_refl Hx) as (?&?&E&_); cbn in *; rewrite E.
    + cbn. unfold sodium_dh_x25519. by rewrite (proj2 (Z.ltb_lt _ _)) by lia.
    + cbn. unfold sodium_sign_ed25519. by rewrite (proj2 (Z.ltb_lt _ _)) by lia.
    + cbn. unfold sodium_verify_ed25519.
      destruct (zlen signature <? _) eqn:E1; [done|]. destruct (zlen key <? _) eqn:E2; [done|]. btests. by destruct Hx.
    + cbn. unfold sodium_aes256_gcm_encrypt. by rewrite (proj2 (Z.ltb_lt _ _)) by lia.
    + cbn. unfold sodium_aes256_gcm_decrypt. by rewrite (proj2 (Z.ltb_lt _ _)) by lia.
  - by destruct (sodium_init =? 0) eqn:E; btests.
Qed.

(** C16: The key derivation the library builds from HMAC is HKDF: the two keys
    [hkdf_sha256] returns through the installed backend are together the first 64
    bytes of output keying material of RFC 5869, with empty context information,
    for any salt and any split of the input into parts. *)
Theorem hkdf_is_rfc5869 salt ikm out1 out2 :
  exists k1 k2, Crypto_hkdf_sha256 sodium_crypto salt ikm out1 out2 = Done (k1, k2) /\
    buf_length k1 = length_32 /\ buf_length k2 = length_32 /\
    as_seq k1 ++ as_seq k2 = rfc5869_hkdf sodium_hmac salt (concat ikm) [] 64.
Proof.
  rewrite (hkdf_done sodium_crypto) by done. eexists _, _. split; [reflexivity|].
  split; [done|]. split; [done|].
  rewrite !as_seq_stored_any by apply (hkdf_length (c := sodium_crypto)).
  unfold rfc5869_hkdf, rfc5869_expand. change (Z.to_nat _) with 2%nat. cbn [rfc5869_blocks].
  rewrite app_nil_r, ztake_ge; [reflexivity|].
  rewrite zlen_app, !hmac_length_sodium. done.
Qed.

(** Every choice of the suite is one the backend supports. *)
Definition suite_supported (suite : CryptoSuite) : Prop :=
  suite_handshake_hash suite = HandshakeHash_sha256 /\
  suite_handshake_kdf suite = HandshakeKDF_hkdf_sha256 /\
  suite_session_nonce_mode suite <> SessionNonceMode_undefined /\
  suite_session_crypto_mode suite <> SessionCryptoMode_undefined.

Lemma suite_supported_done suite :
  suite_supported suite -> exists alg, Algorithms_Common_get_or_throw sodium_crypto suite = Done alg.
Proof.
  destruct suite as [hash kdf nonce mode]. intros (Hh&Hk&Hn&Hm). simpl in *. subst.
  destruct nonce, mode; try done; by eexists.
Qed.

(** The key pair of a station, and the handler that knows the other's key. *)
Definition station_keys (draw : nat) : StaticKeys :=
  let pair := sodium_gen_keypair_x25519 draw (mkKeyPair buffer_empty buffer_empty) in
  mkStaticKeys (public_key pair) (private_key pair).

Lemma station_private draw :
  zlen (as_seq (static_private_key (station_keys draw))) = x25519_key_length.
Proof.
  unfold station_keys. cbn [static_private_key]. rewrite sodium_pair_private. by apply randombytes_spec.
Qed.

Lemma station_public draw :
  as_seq (static_public_key (station_keys draw)) =
    crypto_scalarmult_base (as_seq (static_private_key (station_keys draw))).
Proof.
  exact (proj2 (proj2 (proj2 (proj2 (bk_keypair (c := sodium_crypto) sodium_gen_keypair_x25519 draw
    (mkKeyPair buffer_empty buffer_empty) eq_refl eq_refl eq_refl))))).
Qed.

Lemma preshared_presents draw key :
  presents sodium_crypto (PresharedKeyCertificateHandler key)
    (PresharedKeyCertificateHandler (static_public_key (station_keys draw)))
    HandshakeMode_public_keys (static_private_key (station_keys draw)).
Proof.
  split; [apply station_private|]. split; [apply Forall_nil_2|]. split; [done|].
  cbn -[station_keys]. by rewrite station_public.
Qed.

(** C14: Two stations over libsodium agree: with key pairs generated by the
    backend, each configured with the other's public key, and any suite of
    defined algorithms (both nonce modes, HMAC or AES-GCM), the initiator's
    constructor succeeds and the handshake completes with mirrored sessions,
    whatever random bytes were drawn for the static and the ephemeral keys.  The
    limits have to fit their fields, the frame writer has to take messages of 47
    bytes, and the reply is not received before the request was sent. *)
Theorem sodium_stations_agree suite static_i static_r draw_i draw_r limits w :
  suite_handshake_ephemeral suite = HandshakeEphemeral_x25519 -> suite_supported (suite_base suite) ->
  limits_ok limits -> inv w -> 47 <= fw_max_payload_size fw w ->
  let ki := station_keys static_i in
  let kr := station_keys static_r in
  exists h,
    PublicKeyInitiator_new sodium_crypto ki suite
      (PresharedKeyCertificateHandler (static_public_key kr)) = Done h /\
    completes sodium_crypto fw inv frame PublicKeyInitiator (PublicKeyResponder fw sodium_crypto)
      (public_initiator_ok sodium_crypto) h
      (mkPublicKeyResponder kr (PresharedKeyCertificateHandler (static_public_key ki)))
      draw_i draw_r limits w
      (triple_dh_material sodium_crypto (as_seq (static_private_key ki))
         (as_seq (static_private_key kr))).
Proof.
  intros He Hs Hl Hw Hfit ki kr. destruct (suite_supported_done _ Hs) as (alg&Ha).
  assert (Algorithms_DH_get_or_throw sodium_crypto (suite_handshake_ephemeral suite) =
          Done (Algorithms_DH_default sodium_crypto)) as Hd by by rewrite He.
  eexists. split; [unfold PublicKeyInitiator_new; rewrite Ha; cbn [obind]; rewrite Hd; reflexivity|].
  apply (public_key_exchange sodium_crypto fw inv frame); cbn [pki_cert_handler pki_static_keys
    pkr_cert_handler pkr_static_keys handler_mode PresharedKeyCertificateHandler certificate_data];
    try done; [apply preshared_presents|apply preshared_presents].
Qed.

(** The message is what libsodium returns for this cleartext, the metadata of the
    message and these twelve bytes as nonce. *)
Definition gcm_sealed (key : BufferBase) (m : SessionData) (clear_text npub : bytes) : Prop :=
  zlen npub = aes_gcm_nonce_length /\
  crypto_aead_aes256gcm_encrypt_detached clear_text (AuthMetadata_enc (sd_metadata m)) npub (as_seq key) =
    (0, (sd_user_data m, sd_auth_tag m)).

Lemma sealed_by_gcm key m clear_text :
  is_u16 (am_nonce (sd_metadata m)) -> sealed_by (aes_256_gcm sodium_crypto) key m clear_text ->
  gcm_sealed key m clear_text (GCMNonceBuffer_set (am_nonce (sd_metadata m))).
Proof.
  intros Hn (eb&mac&eb'&mac'&E). cbn in E. unfold sodium_aes256_gcm_encrypt in E.
  split; [by apply gcm_nonce_length|]. destruct (zlen eb <? zlen clear_text); [done|].
  pose proof (gcm_encrypt_length clear_text (AuthMetadata_enc (sd_metadata m))
    (GCMNonceBuffer_set (am_nonce (sd_metadata m))) (as_seq key)) as [Lc Lt].
  destruct (crypto_aead_aes256gcm_encrypt_detached _ _ _ _) as [code [ct tag]]. cbn [fst snd] in *.
  destruct (code =? 0) eqn:E0; [|done]. btests. subst code. cbn [negb] in E.
  rewrite (as_seq_stored_any _ _ length_16) in E by done.
  rewrite seq_take_spec, <- Lc, stored_prefix in E by apply zlen_nonneg. cbn in E. by simplify_eq.
Qed.

Lemma gcm_nonce_inj a b : is_u16 a -> is_u16 b -> GCMNonceBuffer_set a = GCMNonceBuffer_set b -> a = b.
Proof.
  intros Ha Hb E. rewrite !gcm_nonce_bytes in E by done. apply app_inj_1 in E as [_ E]; [|done].
  apply (f_equal be_value) in E. unfold is_u16, max_u16 in *. by rewrite !be_value_bytes in E by (simpl; lia).
Qed.

Lemma gcm_nonces_nodup nonces :
  Forall is_u16 nonces -> NoDup nonces -> NoDup (map GCMNonceBuffer_set nonces).
Proof.
  intros Hu Hnd. induction Hnd as [|n l Hni _ IH]; [constructor|]. apply Forall_cons in Hu as [Hu Hul].
  constructor; [|by apply IH]. intros (n'&E&Hn')%list_elem_of_fmap.
  pose proof (proj1 (Forall_forall _ _) Hul n' Hn') as Hu'. apply gcm_nonce_inj in E; [|done..]. by subst n'.
Qed.

(** C28: No two frames a session sends are encrypted by AES-GCM under the same
    nonce: when a session whose mode is AES-GCM over libsodium formats any sequence
    of authentication and data messages, every operation completes, and there is
    one twelve-byte nonce for each message that is framed, ten zero bytes and the
    two big-endian bytes of the message's own nonce, such that the user data and
    the tag of the message are the ciphertext and the tag that libsodium's
    encryption returns, with result zero, for that nonce, the session's transmit
    key, the serialized metadata of the message as additional data, and a prefix of
    the bytes of one of the operations as cleartext; and these nonces are pairwise
    different.  (A ciphertext that could not be framed is not sent, and leaves the
    nonce for the next one.) *)
Theorem gcm_nonces_unique s w ops :
  session_mode (s_algorithms s) = aes_256_gcm sodium_crypto ->
  session_ok s -> inv w -> Forall (fun op => all_bytes (op_bytes op)) ops ->
  exists messages npubs s' w',
    format_all fw s w ops = Done (map (fun m => frame w (SessionData_enc m)) messages, s', w') /\
    Forall2 (fun m npub =>
      npub = replicate 10 0 ++ be_bytes 2 (am_nonce (sd_metadata m)) /\
      exists op part, op ∈ ops /\ part `prefix_of` op_bytes op /\
        gcm_sealed (tx_key (s_keys s)) m part npub) messages npubs /\
    NoDup npubs.
Proof.
  intros Hmode Hs Hw Hops.
  assert (SessionModeOk (session_mode (s_algorithms s))) as HM
    by (rewrite Hmode; exact (gcm_mode_ok sodium_crypto eq_refl)).
  destruct (format_all_nonces fw inv frame s w ops Hs Hw Hops) as (ms&s'&w'&Hf&Hok&Hn&_&_&Hsealed).
  rewrite Hmode in Hsealed.
  assert (Forall (fun m => is_u16 (am_nonce (sd_metadata m))) ms) as Hu.
  { eapply Forall_impl; [exact Hok|]. intros m (Hm&_). apply int_ok_u16, Hm. }
  exists ms, (map GCMNonceBuffer_set (map (fun m => am_nonce (sd_metadata m)) ms)), s', w'.
  split; [done|]. split.
  - rewrite map_map. apply Forall2_fmap_r, Forall_Forall2_diag.
    eapply Forall_impl; [apply Forall_and; exact (conj Hu Hsealed)|].
    intros m [Hm (op&part&Hin&Hp&Hs1)]. split; [by apply gcm_nonce_bytes|].
    exists op, part. split; [done|]. split; [done|]. by apply sealed_by_gcm.
  - apply gcm_nonces_nodup; [by apply Forall_map|]. rewrite Hn. apply NoDup_seqZ.
Qed.

(** The initiator does not look at the length of the ephemeral key of a reply: when the
    handler accepts the data of the reply, libsodium reads past the end of a key that
    is too short. *)
Theorem short_ephemeral_crashes static suite handler made h msg msg_bytes limits now s st key :
  PublicKeyInitiator_new sodium_crypto static suite handler = Done made ->
  pki_algorithms h = pki_algorithms made -> pki_dh_algorithms h = pki_dh_algorithms made ->
  pki_cert_handler h = handler ->
  handler_validate handler (handler_mode handler) (rep_mode_data msg) = Done (inr key) ->
  zlen (rep_mode_ephemeral msg) < x25519_key_length ->
  PublicKeyInitiator_initialize_session h msg msg_bytes limits now s st = Crash.
Proof.
  intros Hnew Ea Ed Ec Hval Hshort. unfold PublicKeyInitiator_new in Hnew.
  apply obind_done in Hnew as (alg&Ha&Hnew). apply obind_done in Hnew as (dh&Hd&Hnew). injection Hnew as <-.
  cbn in Ea, Ed. destruct (get_or_throw_returns sodium_crypto sodium_complete _ _ Ha) as [_ Hhash _].
  assert (alg_dh dh = Crypto_dh_x25519 sodium_crypto) as Hdh.
  { unfold Algorithms_DH_get_or_throw, Algorithms_DH_configure in Hd.
    destruct (suite_handshake_ephemeral suite); cbn in Hd; try done; by injection Hd as <-. }
  unfold PublicKeyInitiator_initialize_session, PublicKeyInitiator_mix_handshake_hash.
  rewrite Ec, Hval. cbn [obind]. rewrite Ea.
  specialize (Hhash [as_seq (pki_handshake_hash h); msg_bytes] (pki_handshake_hash h)).
  destruct (alg_hash _ _ _) as [hash| | |]; try done.
  cbn [obind pki_dh_algorithms pki_static_keys pki_local_ephemeral_keys].
  rewrite Ed, Hdh. unfold TripleDH_compute. cbn. unfold sodium_dh_x25519.
  by rewrite (proj2 (Z.ltb_lt _ _) Hshort).
Qed.

(** Signatures verify: what [sign_ed25519] produces with a generated
    private key, [verify_ed25519] accepts under the public key of the same pair,
    and the three buffers have the lengths of the certificate format. *)
Theorem sodium_signatures_verify draw pair message out :
  exists keys signature,
    Crypto_gen_keypair_ed25519 sodium_crypto draw pair = Done keys /\
    Crypto_sign_ed25519 sodium_crypto message (as_seq (private_key keys)) out = Done (inr signature) /\
    Crypto_verify_ed25519 sodium_crypto message (as_seq signature) (as_seq (public_key keys)) = Done true /\
    zlen (as_seq (public_key keys)) = ed25519_public_key_length /\
    zlen (as_seq (private_key keys)) = ed25519_private_key_length /\
    zlen (as_seq signature) = ed25519_signature_length.
Proof.
  pose proof (sign_keypair_length draw) as [Hp Hs]. pose proof (sign_verifies draw message) as Hv.
  cbn. unfold sodium_gen_keypair_ed25519, sodium_sign_ed25519, sodium_verify_ed25519.
  destruct (crypto_sign_keypair draw) as [pk sk]. cbn [fst snd] in *.
  pose proof (sign_length message sk) as Hl.
  eexists _, (set_length (buffer_store out (crypto_sign_detached message sk)) length_64).
  split; [reflexivity|]. cbn [public_key private_key].
  rewrite !(as_seq_stored_any _ pk length_32), !(as_seq_stored_any _ sk length_64) by done.
  rewrite (as_seq_stored_any _ _ length_64) by done. rewrite Hs, Hp, Hl, Hv. done.
Qed.
End Properties.

(** ** A concrete library

    Not cryptography: an instance of the interface that keeps the promises of
    [LibsodiumOk], for the concrete instances of the theorems. *)

Definition toy_gcm_decrypt (ct tag ad npub k : bytes) : Z * bytes :=
  if bool_decide (tag = test_digest 16 k (npub ++ ad ++ ct)) then (0, ct)
  else (-1, replicate (length ct) 0).

#[export] Instance toy_sodium : Libsodium := {|
  sodium_init := 0;
  sodium_memzero data := replicate (length data) 0;
  randombytes_buf draw n := be_bytes (Z.to_nat n) (Z.of_nat draw + 1);
  sodium_memcmp l r := if bool_decide (l = r) then 0 else -1;
  hash_sha256_state := bytes;
  crypto_hash_sha256_init := [];
  crypto_hash_sha256_update := app;
  crypto_hash_sha256_final := test_digest 32 [];
  auth_hmacsha256_state := bytes * bytes;
  crypto_auth_hmacsha256_init key := (key, []);
  crypto_auth_hmacsha256_update st data := (st.1, st.2 ++ data);
  crypto_auth_hmacsha256_final st := test_digest 32 st.1 st.2;
  crypto_scalarmult_base := toy_base;
  crypto_scalarmult k p := (0, toy_dh k p);
  crypto_sign_keypair draw :=
    (be_bytes 32 (Z.of_nat draw), be_bytes 32 (Z.of_nat draw) ++ be_bytes 32 (Z.of_nat draw));
  crypto_sign_detached m k := test_digest 64 (ztake 32 k) m;
  crypto_sign_verify_detached sig m pk :=
    if bool_decide (sig = test_digest 64 pk m) then 0 else -1;
  crypto_aead_aes256gcm_encrypt_detached m ad npub k := (0, (m, test_digest 16 k (npub ++ ad ++ m)));
  crypto_aead_aes256gcm_decrypt_detached := toy_gcm_decrypt;
|}.

#[export] Instance toy_sodium_ok : LibsodiumOk toy_sodium.
Proof.
  split; intros; cbn [toy_sodium sodium_memzero sodium_memcmp randombytes_buf hash_sha256_state
    crypto_hash_sha256_init crypto_hash_sha256_update crypto_hash_sha256_final auth_hmacsha256_state
    crypto_auth_hmacsha256_init crypto_auth_hmacsha256_update crypto_auth_hmacsha256_final
    crypto_scalarmult_base crypto_scalarmult crypto_sign_keypair crypto_sign_detached
    crypto_sign_verify_detached crypto_aead_aes256gcm_encrypt_detached
    crypto_aead_aes256gcm_decrypt_detached fst snd].
  - done.
  - case_bool_decide; by split.
  - split; [rewrite zlen_be_bytes; lia|apply be_bytes_bytes].
  - apply app_nil_r.
  - apply app_assoc.
  - apply zlen_be_bytes.
  - destruct st. simpl. by rewrite app_nil_r.
  - by rewrite app_assoc.
  - apply zlen_be_bytes.
  - apply be_bytes_bytes.
  - apply zlen_be_bytes.
  - apply be_bytes_bytes.
  - apply zlen_be_bytes.
  - unfold toy_dh. rewrite !toy_base_value. by rewrite Z.add_comm.
  - done.
  - rewrite zlen_app, !zlen_be_bytes. done.
  - split; [apply be_bytes_bytes|]. apply Forall_app. split; apply be_bytes_bytes.
  - apply zlen_be_bytes.
  - apply be_bytes_bytes.
  - rewrite ztake_app_len by (by rewrite zlen_be_bytes). by rewrite bool_decide_eq_true_2.
  - done.
  - split; [done|apply zlen_be_bytes].
  - split; [done|apply be_bytes_bytes].
  - unfold toy_gcm_decrypt. case_bool_decide; simpl; [done|]. unfold zlen. by rewrite length_replicate.
  - unfold toy_gcm_decrypt. by rewrite bool_decide_eq_true_2.
Qed.

Local Abbreviation toy_crypto := (sodium_crypto (SER := ser4cpp_reference)).

Lemma sodium_initialize_installs_witness :
  sodium_initialize (SER := ser4cpp_reference) Crypto_static = Done toy_crypto.
Proof. apply (proj1 (sodium_initialize_installs (SER := ser4cpp_reference))). reflexivity. Defined.

Lemma hkdf_is_rfc5869_witness :
  exists k1 k2,
    Crypto_hkdf_sha256 toy_crypto [1; 2] [[3]; [4; 5]] buffer_empty buffer_empty = Done (k1, k2) /\
    buf_length k1 = length_32 /\ buf_length k2 = length_32 /\
    as_seq k1 ++ as_seq k2 = rfc5869_hkdf sodium_hmac [1; 2] [3; 4; 5] [] 64.
Proof.
  exact (hkdf_is_rfc5869 (SER := ser4cpp_reference) [1; 2] [[3]; [4; 5]] buffer_empty buffer_empty).
Defined.

Definition gcm_suite : CryptoSuite :=
  mkCryptoSuite HandshakeHash_sha256 HandshakeKDF_hkdf_sha256
    SessionNonceMode_greater_than_last_rx SessionCryptoMode_aes_256_gcm.

Lemma sodium_stations_agree_witness :
  exists h,
    PublicKeyInitiator_new toy_crypto (station_keys 1)
      (mkDHCryptoSuite HandshakeEphemeral_x25519 gcm_suite)
      (PresharedKeyCertificateHandler (static_public_key (station_keys 2))) = Done h /\
    completes (SER := ser4cpp_reference) toy_crypto LinkFrameWriter_ops LinkFrameWriter_inv LinkFrameWriter_frame
      PublicKeyInitiator (PublicKeyResponder (SER := ser4cpp_reference) LinkFrameWriter_ops toy_crypto)
      (public_initiator_ok (SER := ser4cpp_reference) toy_crypto) h
      (mkPublicKeyResponder (station_keys 2)
         (PresharedKeyCertificateHandler (static_public_key (station_keys 1))))
      3 4 SessionLimits_default (test_writer 200)
      (triple_dh_material toy_crypto (as_seq (static_private_key (station_keys 1)))
         (as_seq (static_private_key (station_keys 2)))).
Proof.
  apply (sodium_stations_agree (SER := ser4cpp_reference) LinkFrameWriter_ops LinkFrameWriter_inv
           LinkFrameWriter_frame (mkDHCryptoSuite HandshakeEphemeral_x25519 gcm_suite) 1%nat 2%nat).
  - reflexivity.
  - repeat split; discriminate.
  - exact default_limits_ok.
  - exact full_writer_inv.
  - by vm_compute.
Defined.

Definition gcm_session : Session :=
  mkSession true 10 0 1 (mkSessionKeys (test_key 1) (test_key 2))
    (mkAlgorithms_Session verify_strict_increment (aes_256_gcm toy_crypto))
    (mkParam 0 100 (ms 1000)) (replicate 100 0).

Lemma gcm_nonces_unique_witness :
  exists messages npubs s' w',
    format_all (SER := ser4cpp_reference) LinkFrameWriter_ops gcm_session (test_writer 200)
      [FormatData 1 [1; 2]; FormatData 2 [3]] =
      Done (map (fun m => LinkFrameWriter_frame (test_writer 200) (SessionData_enc m)) messages, s', w') /\
    Forall2 (fun m npub =>
      npub = replicate 10 0 ++ be_bytes 2 (am_nonce (sd_metadata m)) /\
      exists op part, op ∈ [FormatData 1 [1; 2]; FormatData 2 [3]] /\ part `prefix_of` op_bytes op /\
        gcm_sealed (tx_key (s_keys gcm_session)) m part npub) messages npubs /\
    NoDup npubs.
Proof.
  apply (gcm_nonces_unique (SER := ser4cpp_reference) LinkFrameWriter_ops LinkFrameWriter_inv
           LinkFrameWriter_frame gcm_session (test_writer 200)).
  - reflexivity.
  - split; [done|]. split; [repeat split; by vm_compute|]. split; [done|]. split; [done|].
    split; [done|]. split; [by left|done].
  - exact full_writer_inv.
  - repeat constructor; by vm_compute.
Defined.

Lemma sodium_signatures_verify_witness :
  exists keys signature,
    Crypto_gen_keypair_ed25519 toy_crypto 5 (mkKeyPair buffer_empty buffer_empty) = Done keys /\
    Crypto_sign_ed25519 toy_crypto [1; 2; 3] (as_seq (private_key keys)) buffer_empty =
      Done (inr signature) /\
    Crypto_verify_ed25519 toy_crypto [1; 2; 3] (as_seq signature) (as_seq (public_key keys)) = Done true /\
    zlen (as_seq (public_key keys)) = ed25519_public_key_length /\
    zlen (as_seq (private_key keys)) = ed25519_private_key_length /\
    zlen (as_seq signature) = ed25519_signature_length.
Proof.
  exact (sodium_signatures_verify (SER := ser4cpp_reference) 5 (mkKeyPair buffer_empty buffer_empty)
           [1; 2; 3] buffer_empty).
Defined.
