(* ===== verification/QIX.v ===== *)
(** * The QIX library

    [libs/qix]: the frames in which a quantum key distribution device delivers
    keys over a serial port.  [QIXFrameParser] looks for frames in a buffer of one
    frame's size, [AsyncQIXFrameReader] fills the buffer from the port and hands
    intact frames to a handler, [QIXFrameWriter] writes frames.

    A read of the port is an event: an error, or some bytes that fit in the part
    of the buffer the read was started with.  The parser moves the bytes it keeps
    to the front of its own buffer with [WSeq::copy_from]; the copy is modelled by
    its value, as for memory that does not overlap.

    The specification is [qix_frames], a function of the whole stream of bytes. *)

From stdpp Require Import base numbers list.
From Stdlib Require Import Lia ZArith.
From S2P Require Import Prelude Ser4cpp CRC.

(** ** [QIXFrame] *)

Inductive QIXStatus := QIXStatus_ok | QIXStatus_key_compromised | QIXStatus_undefined.

#[export] Instance QIXStatus_eq_dec : EqDecision QIXStatus.
Proof. solve_decision. Defined.

Definition QIXStatus_value (s : QIXStatus) : Z :=
  match s with
  | QIXStatus_ok => 0x01
  | QIXStatus_key_compromised => 0xFF
  | QIXStatus_undefined => 0xFE
  end.

Record QIXFrame := mkQIXFrame { key_id : Z; key_data : bytes; status : QIXStatus }.

Definition QIXFrame_default : QIXFrame := mkQIXFrame 0 [] QIXStatus_undefined.

(** ** [QIXFrameParser] *)

Definition qix_sync1 : Z := 0x5A.
Definition qix_sync2 : Z := 0xA5.
Definition qix_sync_size : Z := 2.
Definition qix_key_id_size : Z := 8.
Definition qix_key_size : Z := 32.
Definition qix_status_size : Z := 1.
Definition qix_crc_size : Z := 4.
Definition qix_crc_data_size : Z := qix_key_id_size + qix_key_size + qix_status_size.
Definition qix_total_frame_size : Z := qix_sync_size + qix_crc_data_size + qix_crc_size.

Record QIXFrameParser := mkQIXFrameParser { num_bytes_buffered : Z; qix_buffer : bytes }.

Definition get_status (value : Z) : QIXStatus :=
  if value =? QIXStatus_value QIXStatus_ok then QIXStatus_ok
  else if value =? QIXStatus_value QIXStatus_key_compromised then QIXStatus_key_compromised
  else QIXStatus_undefined.

(** The number of bytes discarded and what is left of the input. *)
Fixpoint find_sync (input : bytes) : Z * bytes :=
  match input with
  | [] => (0, [])
  | b1 :: rest =>
      let found :=
        match rest with
        | [] => b1 =? qix_sync1
        | b2 :: _ => (b1 =? qix_sync1) && (b2 =? qix_sync2)
        end in
      if found then (0, input)
      else let '(num_discard, input) := find_sync rest in (u32 (num_discard + 1), input)
  end.

Section Parser.
Context `{SER : Ser4cpp}.

(** The offset of the part of the buffer that is to be filled. *)
Definition get_write_slice (p : QIXFrameParser) : wseq :=
  wseq_skip (WSeq (qix_buffer p) 0) (num_bytes_buffered p).

Definition calc_frame_crc (p : QIXFrameParser) : Z :=
  CastagnoliCRC32_calc (seq_take (seq_skip (qix_buffer p) qix_sync_size) qix_crc_data_size).

(** The stored value; the variable it is read to starts out as [crc]. *)
Definition read_frame_crc (p : QIXFrameParser) (crc : Z) : Z :=
  match BigEndian_read [UInt32] (seq_skip (qix_buffer p) (qix_sync_size + qix_crc_data_size)) with
  | Some ([crc], _) => crc
  | _ => crc
  end.

Definition read_frame_fields (p : QIXFrameParser) (frame : QIXFrame) : QIXFrame :=
  let payload := seq_skip (qix_buffer p) qix_sync_size in
  let '(id, payload) :=
    match BigEndian_read [UInt64] payload with
    | Some ([id], payload) => (id, payload)
    | _ => (key_id frame, payload)
    end in
  mkQIXFrame id (seq_take payload qix_key_size)
    (get_status (znth (seq_skip payload qix_key_size) 0)).

Definition QIXFrameParser_parse (p : QIXFrameParser) (frame : QIXFrame)
  : bool * QIXFrame * QIXFrameParser :=
  let p := mkQIXFrameParser 0 (qix_buffer p) in
  let '(num_bytes_discarded, remainder) := find_sync (qix_buffer p) in
  if zlen remainder <? qix_total_frame_size
  then
    (false, frame,
     mkQIXFrameParser (zlen remainder) (w_buf (wseq_copy_from (WSeq (qix_buffer p) 0) remainder)))
  else if negb (calc_frame_crc p =? read_frame_crc p 0) then (false, frame, p)
  else (true, read_frame_fields p frame, p).

(** ** [AsyncQIXFrameReader]

    The parser and the part of its buffer the pending read fills, none after the
    read operation failed. *)

Record QIXReader := mkQIXReader { rd_parser : QIXFrameParser; rd_dest : option wseq }.

(** The first read, which [start_frame_reader] posts; [memory] is the parser's
    buffer. *)
Definition start_frame_reader (memory : bytes) : QIXReader :=
  let parser := mkQIXFrameParser 0 memory in
  mkQIXReader parser (Some (get_write_slice parser)).

Inductive read_event := ReadError | ReadData (data : bytes).

(** What the port may report for the pending read: at least one byte and no
    more than was asked for. *)
Definition read_fits (r : QIXReader) (ev : read_event) : bool :=
  match rd_dest r, ev with
  | Some dest, ReadData data => (1 <=? zlen data) && (zlen data <=? wseq_length dest)
  | Some _, ReadError => true
  | None, _ => false
  end.

(** The frames given to the handler by the completion of a read. *)
Definition read_some_callback (r : QIXReader) (ev : read_event) : list QIXFrame * QIXReader :=
  match rd_dest r, ev with
  | None, _ => ([], r)
  | Some dest, ReadError => ([], mkQIXReader (rd_parser r) None)
  | Some dest, ReadData data =>
      let memory := overwrite (qix_buffer (rd_parser r)) (w_pos dest) data in
      let parser := mkQIXFrameParser (num_bytes_buffered (rd_parser r)) memory in
      let copy := wseq_skip (WSeq memory (w_pos dest)) (zlen data) in
      if 0 <? wseq_length copy then ([], mkQIXReader parser (Some copy))
      else
        let '(parsed, frame, parser) := QIXFrameParser_parse parser QIXFrame_default in
        let handled :=
          if parsed
          then match status frame with QIXStatus_ok => [frame] | _ => [] end
          else [] in
        (handled, mkQIXReader parser (Some (get_write_slice parser)))
  end.

(** A sequence of completed reads; [None] when one of them cannot happen. *)
Fixpoint run_reads (r : QIXReader) (reads : list read_event) : option (list QIXFrame * QIXReader) :=
  match reads with
  | [] => Some ([], r)
  | ev :: reads =>
      if read_fits r ev
      then
        let '(handled, r) := read_some_callback r ev in
        match run_reads r reads with
        | Some (more, r) => Some (handled ++ more, r)
        | None => None
        end
      else None
  end.

(** ** [QIXFrameWriter] *)

(** A write whose result the code does not look at. *)
Definition put_int (t : int_type) (w : wseq) (v : Z) : wseq :=
  match write_to t w v with Some w => w | None => w end.

(** The bytes written to the port; [memory] is the frame buffer on the stack. *)
Definition QIXFrameWriter_write (frame : QIXFrame) (memory : bytes) : outcome bytes :=
  if negb (zlen (key_data frame) =? 32) then Throw
  else
    let dest := WSeq memory 0 in
    let dest := put_int UInt8 dest 0x5A in
    let dest := put_int UInt8 dest 0xA5 in
    let dest := put_int UInt64 dest (key_id frame) in
    let dest := wseq_copy_from dest (key_data frame) in
    let dest := put_int UInt8 dest 0x01 in
    let dest := put_int UInt32 dest (CastagnoliCRC32_calc (seq_take (seq_skip (w_buf dest) 2) 41)) in
    Done (w_buf dest).
End Parser.

(** ** Specification *)

(** The frame in a sequence of 47 bytes that starts with the synchronization
    bytes, if its check sum is right. *)
Definition frame_in (b : bytes) : option QIXFrame :=
  if CastagnoliCRC32_calc (ztake 41 (zdrop 2 b)) =? be_value (ztake 4 (zdrop 43 b))
  then Some (mkQIXFrame (be_value (ztake 8 (zdrop 2 b))) (ztake 32 (zdrop 10 b))
               (get_status (znth b 42)))
  else None.

Definition frame_at (b : bytes) : bool :=
  (47 <=? zlen b) && (znth b 0 =? 0x5A) && (znth b 1 =? 0xA5).

(** The intact frames of a stream, from left to right: where the synchronization
    bytes start 47 bytes, the 47 bytes are a frame, damaged or not, and the
    search goes on behind it ([skip] bytes are still to be passed over);
    everywhere else it goes on at the next byte. *)
Fixpoint qix_scan (skip : nat) (stream : bytes) : list QIXFrame :=
  match stream with
  | [] => []
  | _ :: rest =>
      match skip with
      | S skip => qix_scan skip rest
      | O =>
          if frame_at stream
          then (match frame_in (ztake 47 stream) with Some f => [f] | None => [] end) ++ qix_scan 46 rest
          else qix_scan O rest
      end
  end.

Definition qix_frames (stream : bytes) : list QIXFrame := qix_scan O stream.

Definition frame_ok (f : QIXFrame) : bool := bool_decide (status f = QIXStatus_ok).

(** The bytes of a frame. *)
Definition qix_encode (id : Z) (key : bytes) : bytes :=
  let body := be_bytes 8 id ++ key ++ [0x01] in
  [0x5A; 0xA5] ++ body ++ be_bytes 4 (CastagnoliCRC32_calc body).

(** ** Facts about the specification *)

Lemma scan_skip n s : qix_scan n s = qix_frames (drop n s).
Proof.
  revert n. induction s as [|b s IH]; intros n; [by rewrite drop_nil|].
  destruct n as [|n]; [done|]. simpl. apply IH.
Qed.

(** A byte that starts no frame is passed over. *)
Lemma frames_skip_byte b s : frame_at (b :: s) = false -> qix_frames (b :: s) = qix_frames s.
Proof. intros H. unfold qix_frames at 1. cbn [qix_scan]. by rewrite H. Qed.

Lemma frame_at_bytes b1 b2 s :
  frame_at (b1 :: b2 :: s) = (47 <=? zlen (b1 :: b2 :: s)) && (b1 =? 0x5A) && (b2 =? 0xA5).
Proof. done. Qed.

Lemma frame_at_long b : frame_at b = true -> 47 <= zlen b.
Proof. unfold frame_at. rewrite !andb_true_iff. intros [[H _] _]. by apply Z.leb_le in H. Qed.

(** 47 bytes with the synchronization bytes are a frame. *)
Lemma frames_take b t :
  zlen b = 47 -> frame_at b = true ->
  qix_frames (b ++ t) = option_list (frame_in b) ++ qix_frames t.
Proof.
  intros Hl Hf. destruct b as [|b1 [|b2 b]]; [done..|].
  rewrite frame_at_bytes, !andb_true_iff in Hf. destruct Hf as [[_ H1] H2].
  unfold qix_frames at 1. cbn [app qix_scan]. rewrite frame_at_bytes, H1, H2.
  assert ((47 <=? zlen (b1 :: b2 :: b ++ t)) = true) as ->.
  { apply Z.leb_le. change (b1 :: b2 :: b ++ t) with ((b1 :: b2 :: b) ++ t).
    rewrite zlen_app. pose proof (zlen_nonneg t). lia. }
  cbn [andb]. rewrite scan_skip.
  change (b1 :: b2 :: b ++ t) with ((b1 :: b2 :: b) ++ t). rewrite ztake_app_len by done.
  change (drop 46 (b2 :: b ++ t)) with (drop 46 ((b2 :: b) ++ t)).
  rewrite drop_app_length' by (unfold zlen in Hl; simpl in *; lia). by destruct (frame_in _).
Qed.

(** Fewer bytes than a frame hold none. *)
Lemma frames_short s : zlen s < 47 -> qix_frames s = [].
Proof.
  induction s as [|b s IH]; [done|]. intros H. rewrite frames_skip_byte.
  - apply IH. rewrite zlen_cons in H. lia.
  - destruct (frame_at (b :: s)) eqn:E; [|done]. apply frame_at_long in E. lia.
Qed.

(** The search for the synchronization bytes passes over nothing that could
    start a frame, whatever follows. *)
Lemma find_sync_spec input :
  let '(n, rest) := find_sync input in
  (exists junk, input = junk ++ rest) /\
  (forall t, qix_frames (input ++ t) = qix_frames (rest ++ t)) /\
  (zlen rest = 47 -> frame_at rest = true).
Proof.
  induction input as [|b1 input IH]; [by split; [exists []|]|].
  cbn [find_sync].
  destruct (find_sync input) as [n rest].
  destruct IH as [(junk&->) [IH IHf]].
  set (found := match junk ++ rest with [] => _ | b2 :: _ => _ end).
  destruct found eqn:E.
  - split; [by exists []|]. split; [done|]. intros Hl. subst found.
    destruct (junk ++ rest) as [|b2 s]; [by vm_compute in Hl|].
    rewrite frame_at_bytes, Hl. exact E.
  - split; [by exists (b1 :: junk)|]. split; [|done]. intros t. rewrite <- IH. cbn [app].
    apply frames_skip_byte. subst found. destruct (junk ++ rest) as [|b2 s]; cbn [app].
    + unfold frame_at. change (znth (b1 :: t) 0) with b1. unfold qix_sync1 in E. rewrite E.
      by rewrite andb_false_r.
    + rewrite frame_at_bytes, <- andb_assoc. unfold qix_sync1, qix_sync2 in E. rewrite E.
      apply andb_false_r.
Qed.

Section Refinement.
Context `{SER : Ser4cpp}.

(** *** One frame's worth of bytes *)

Lemma parsed_crc p :
  zlen (qix_buffer p) = 47 ->
  calc_frame_crc p = CastagnoliCRC32_calc (ztake 41 (zdrop 2 (qix_buffer p))) /\
  read_frame_crc p 0 = be_value (ztake 4 (zdrop 43 (qix_buffer p))).
Proof.
  intros Hl. unfold calc_frame_crc, read_frame_crc.
  rewrite !seq_skip_spec, seq_take_spec by done. split; [done|].
  rewrite BigEndian_read_cons, read_from_ok, BigEndian_read_nil; [done|].
  change (qix_sync_size + qix_crc_data_size) with 43. rewrite zlen_zdrop by done. by rewrite Hl.
Qed.

Lemma parsed_fields p f :
  zlen (qix_buffer p) = 47 ->
  read_frame_fields p f =
    mkQIXFrame (be_value (ztake 8 (zdrop 2 (qix_buffer p)))) (ztake 32 (zdrop 10 (qix_buffer p)))
      (get_status (znth (qix_buffer p) 42)).
Proof.
  intros Hl. unfold read_frame_fields. rewrite seq_skip_spec by done.
  rewrite BigEndian_read_cons, read_from_ok, BigEndian_read_nil
    by (change qix_sync_size with 2; rewrite zlen_zdrop by done; rewrite Hl; done).
  rewrite seq_take_spec, seq_skip_spec by done.
  change qix_sync_size with 2. change (int_size UInt64) with 8. change qix_key_size with 32.
  rewrite !zdrop_zdrop by done. f_equal. f_equal.
  unfold znth, zdrop. change (Z.to_nat 0) with 0%nat. rewrite nth_skipn. done.
Qed.

(** What a full buffer yields, and what is kept of it. *)
Lemma parse_spec p f :
  zlen (qix_buffer p) = 47 ->
  let '(parsed, frame, p') := QIXFrameParser_parse p f in
  (forall t, qix_frames (qix_buffer p ++ t) =
     (if parsed then [frame] else []) ++ qix_frames (ztake (num_bytes_buffered p') (qix_buffer p') ++ t)) /\
  zlen (qix_buffer p') = 47 /\ 0 <= num_bytes_buffered p' < 47.
Proof.
  intros Hl. unfold QIXFrameParser_parse. cbn [qix_buffer].
  pose proof (find_sync_spec (qix_buffer p)) as H. destruct (find_sync (qix_buffer p)) as [n rest].
  destruct H as [(junk&Hj) [Hf Hfull]]. change qix_total_frame_size with 47.
  assert (zlen rest <= 47) as Hle by (rewrite <- Hl, Hj, zlen_app; pose proof (zlen_nonneg junk); lia).
  pose proof (zlen_nonneg rest).
  destruct (zlen rest <? 47) eqn:E; btests.
  - cbn [num_bytes_buffered qix_buffer].
    rewrite wseq_copy_from_spec by (unfold wseq_ok, wseq_length; cbn [w_pos w_buf]; lia).
    unfold wseq_store. cbn [w_buf w_pos]. split; [|split; [rewrite overwrite_length; lia|lia]].
    intros t. rewrite Hf. pose proof (overwrite_upto (qix_buffer p) 0 rest ltac:(lia)) as Eo.
    rewrite Z.add_0_l in Eo. by rewrite Eo.
  - assert (zlen rest = 47) as Hr by lia. specialize (Hfull Hr).
    assert (rest = qix_buffer p) as ->.
    { assert (zlen junk = 0) as Hz by (rewrite Hj, zlen_app in Hl; lia).
      apply zlen_0_nil in Hz. by rewrite Hj, Hz. }
    destruct (parsed_crc (mkQIXFrameParser 0 (qix_buffer p)) Hl) as [-> ->]. cbn [qix_buffer].
    pose proof (frames_take (qix_buffer p)) as Ht. unfold frame_in in Ht.
    destruct (CastagnoliCRC32_calc _ =? be_value _); cbn [negb num_bytes_buffered qix_buffer].
    + rewrite parsed_fields by done. split; [intros t; by rewrite Ht|]. lia.
    + split; [intros t; by rewrite Ht|]. lia.
Qed.

(** *** The reader *)

(** The pending read fills the buffer from [pos] on; before it lie the bytes of
    the stream that are not consumed yet. *)
Definition reading (r : QIXReader) (pos : Z) : Prop :=
  zlen (qix_buffer (rd_parser r)) = 47 /\ 0 <= pos < 47 /\
  rd_dest r = Some (WSeq (qix_buffer (rd_parser r)) pos).

Definition unconsumed (r : QIXReader) (pos : Z) : bytes := ztake pos (qix_buffer (rd_parser r)).

Lemma write_slice p :
  zlen (qix_buffer p) = 47 -> 0 <= num_bytes_buffered p < 47 ->
  get_write_slice p = WSeq (qix_buffer p) (num_bytes_buffered p).
Proof.
  intros Hl Hn. unfold get_write_slice. apply wseq_skip_spec. unfold wseq_length. cbn [w_buf w_pos]. lia.
Qed.

Lemma start_reading memory : zlen memory = 47 -> reading (start_frame_reader memory) 0.
Proof. intros H. split; [done|]. split; [done|]. cbn. by rewrite write_slice. Qed.

Lemma status_filter f : match status f with QIXStatus_ok => [f] | _ => [] end = filter frame_ok [f].
Proof. unfold frame_ok. destruct f as [id key []]; reflexivity. Qed.

Lemma callback_spec r pos data :
  reading r pos -> read_fits r (ReadData data) = true ->
  let '(handled, r') := read_some_callback r (ReadData data) in
  exists pos', reading r' pos' /\
    forall t, filter frame_ok (qix_frames (unconsumed r pos ++ data ++ t)) =
      handled ++ filter frame_ok (qix_frames (unconsumed r' pos' ++ t)).
Proof.
  intros (Hl&Hp&Hd) Hfit. unfold read_fits in Hfit. unfold read_some_callback. rewrite Hd in *.
  apply andb_prop in Hfit as [Hf1 Hf2]. btests. unfold wseq_length in Hf2. cbn [w_buf w_pos] in *.
  set (memory := overwrite (qix_buffer (rd_parser r)) pos data).
  assert (zlen memory = 47) as Hm by (subst memory; rewrite overwrite_length; lia).
  assert (ztake (pos + zlen data) memory = unconsumed r pos ++ data) as Hu
    by (apply overwrite_upto; lia).
  rewrite wseq_skip_spec by (unfold wseq_length; cbn [w_buf w_pos]; lia).
  unfold wseq_length. cbn [w_buf w_pos]. rewrite Hm.
  destruct (0 <? 47 - (pos + zlen data)) eqn:E; btests.
  - exists (pos + zlen data). split; [split; [done|split; [lia|done]]|].
    intros t. unfold unconsumed. cbn [rd_parser qix_buffer app]. by rewrite Hu, app_assoc.
  - pose proof (parse_spec (mkQIXFrameParser (num_bytes_buffered (rd_parser r)) memory)
                  QIXFrame_default Hm) as Hs.
    destruct (QIXFrameParser_parse _ _) as [[parsed frame] p']. destruct Hs as (Hs&Hl'&Hn').
    exists (num_bytes_buffered p'). split; [split; [done|split; [done|cbn; by rewrite write_slice]]|].
    intros t. cbn [qix_buffer] in Hs. specialize (Hs t).
    rewrite <- (ztake_ge (pos + zlen data) memory), Hu in Hs by lia. rewrite <- app_assoc in Hs.
    rewrite Hs. unfold unconsumed. cbn [rd_parser]. rewrite filter_app. f_equal.
    destruct parsed; [symmetry; apply status_filter|done].
Qed.
End Refinement.

Section Streams.
Context `{SER : Ser4cpp}.

Lemma run_reads_spec r pos chunks frames r' :
  reading r pos -> run_reads r (map ReadData chunks) = Some (frames, r') ->
  exists pos', reading r' pos' /\
    forall t, filter frame_ok (qix_frames (unconsumed r pos ++ concat chunks ++ t)) =
      frames ++ filter frame_ok (qix_frames (unconsumed r' pos' ++ t)).
Proof.
  revert r pos frames. induction chunks as [|data chunks IH]; intros r pos frames Hr H; cbn in H.
  - injection H as <- <-. by exists pos.
  - destruct (read_fits r (ReadData data)) eqn:Hfit; [|done].
    pose proof (callback_spec r pos data Hr Hfit) as Hs.
    destruct (read_some_callback r (ReadData data)) as [handled r1].
    destruct Hs as (pos1&Hr1&Hs).
    destruct (run_reads r1 (map ReadData chunks)) as [[more r2]|] eqn:E; [|done].
    injection H as <- <-. destruct (IH r1 pos1 more Hr1 E) as (pos2&Hr2&H2).
    exists pos2. split; [done|]. intros t. cbn [concat]. by rewrite <- app_assoc, Hs, H2, app_assoc.
Qed.

(** The handler is given the frames of the stream. *)
Lemma reader_frames memory chunks frames r :
  zlen memory = 47 ->
  run_reads (start_frame_reader memory) (map ReadData chunks) = Some (frames, r) ->
  frames = filter frame_ok (qix_frames (concat chunks)).
Proof.
  intros Hm H. destruct (run_reads_spec _ 0 _ _ _ (start_reading memory Hm) H) as (pos&(Hl&Hp&_)&Hs).
  specialize (Hs []). rewrite !app_nil_r in Hs.
  change (unconsumed (start_frame_reader memory) 0) with (@nil Z) in Hs. rewrite app_nil_l in Hs.
  rewrite Hs.
  rewrite (frames_short (unconsumed r pos)) by (unfold unconsumed; rewrite zlen_ztake; lia).
  by rewrite filter_nil, app_nil_r.
Qed.

(** The port can always deliver the next byte. *)
Lemma run_bytes_some stream r pos :
  reading r pos -> is_Some (run_reads r (map ReadData (map (fun b => [b]) stream))).
Proof.
  revert r pos. induction stream as [|b stream IH]; intros r pos Hr; [by eexists|].
  assert (read_fits r (ReadData [b]) = true) as Hfit.
  { destruct Hr as (Hl&Hp&Hd). unfold read_fits. rewrite Hd. unfold wseq_length. cbn [w_buf w_pos].
    change (1 <=? zlen [b]) with true. apply Z.leb_le. change (zlen [b]) with 1. lia. }
  pose proof (callback_spec r pos [b] Hr Hfit) as Hs. cbn [map run_reads]. rewrite Hfit.
  destruct (read_some_callback r (ReadData [b])) as [handled r1]. destruct Hs as (pos1&Hr1&_).
  destruct (IH r1 pos1 Hr1) as [[more r2] ->]. by eexists.
Qed.

(** C34: The QIX reader implements its specification: however the port splits a
    stream of bytes into reads, the frames given to the handler are exactly the
    intact frames with status ok of [qix_frames] of the stream, in order; every
    stream can be read, byte by byte; and after an error no further read is
    started. *)
Theorem qix_reader_refines memory :
  zlen memory = 47 ->
  (forall chunks frames r,
     run_reads (start_frame_reader memory) (map ReadData chunks) = Some (frames, r) ->
     frames = filter frame_ok (qix_frames (concat chunks))) /\
  (forall stream, is_Some (run_reads (start_frame_reader memory)
                             (map ReadData (map (fun b => [b]) stream)))) /\
  (forall chunks frames r ev,
     run_reads (start_frame_reader memory) (map ReadData chunks) = Some (frames, r) ->
     run_reads r [ReadError; ev] = None).
Proof.
  intros Hm. split; [|split].
  - intros chunks frames r. by apply reader_frames.
  - intros stream. eapply run_bytes_some, start_reading, Hm.
  - intros chunks frames r ev H.
    destruct (run_reads_spec _ 0 _ _ _ (start_reading memory Hm) H) as (pos&(_&_&Hd)&_).
    destruct r as [parser dest]. cbn in Hd. by subst dest.
Qed.

(** *** The writer *)

(** The memory after [d] was written from its start. *)
Definition filled (memory d : bytes) : wseq := WSeq (overwrite memory 0 d) (zlen d).

Lemma filled_start memory : WSeq memory 0 = filled memory [].
Proof. unfold filled. by rewrite overwrite_nil. Qed.

Lemma filled_store memory d e :
  zlen d + zlen e <= zlen memory -> wseq_store (filled memory d) e = filled memory (d ++ e).
Proof.
  intros H. unfold wseq_store, filled. cbn [w_buf w_pos]. rewrite zlen_app.
  pose proof (overwrite_overwrite memory 0 d e) as E. rewrite Z.add_0_l in E. by rewrite E.
Qed.

Lemma filled_ok memory d :
  zlen d <= zlen memory ->
  wseq_ok (filled memory d) /\ wseq_length (filled memory d) = zlen memory - zlen d.
Proof.
  intros H. pose proof (zlen_nonneg d). unfold wseq_ok, wseq_length, filled. cbn [w_buf w_pos].
  rewrite overwrite_length by lia. lia.
Qed.

Lemma filled_full memory d : zlen d = zlen memory -> w_buf (filled memory d) = d.
Proof.
  intros H. unfold filled, overwrite. cbn [w_buf]. rewrite ztake_0, app_nil_l.
  rewrite zdrop_ge by lia. apply app_nil_r.
Qed.

Lemma put_int_filled t memory d v :
  int_ok t v -> zlen d + int_size t <= zlen memory ->
  put_int t (filled memory d) v = filled memory (d ++ be_bytes (int_bytes t) v).
Proof.
  intros Hv Hl. destruct (filled_ok memory d) as [Hok Hlen]; [unfold int_size in Hl; lia|].
  unfold put_int. rewrite write_to_ok by (done || lia).
  apply filled_store. rewrite zlen_be_bytes. exact Hl.
Qed.

Lemma copy_filled memory d e :
  zlen d + zlen e <= zlen memory ->
  wseq_copy_from (filled memory d) e = filled memory (d ++ e).
Proof.
  intros Hl. pose proof (zlen_nonneg e). destruct (filled_ok memory d) as [Hok Hlen]; [lia|].
  rewrite wseq_copy_from_spec by (done || lia). by apply filled_store.
Qed.

(** The frame body the check sum is computed over. *)
Definition qix_body (id : Z) (key : bytes) : bytes := be_bytes 8 id ++ key ++ [0x01].

Lemma qix_body_ok id key :
  zlen key = 32 -> all_bytes key -> zlen (qix_body id key) = 41 /\ all_bytes (qix_body id key).
Proof.
  intros Hl Hb. unfold qix_body. rewrite !zlen_app, zlen_be_bytes, Hl. split; [done|].
  rewrite !Forall_app. split; [apply be_bytes_bytes|]. split; [done|]. by repeat constructor.
Qed.

Lemma crc_u32 data : all_bytes data -> is_u32 (CastagnoliCRC32_calc data).
Proof.
  intros Hd. destruct (calc_from 0 data) as [E R]; [lia|assumption|].
  unfold CastagnoliCRC32_calc, is_u32, max_u32. rewrite E. lia.
Qed.

Lemma written_bytes id key st memory :
  zlen memory = 47 -> zlen key = 32 -> all_bytes key -> is_u64 id ->
  QIXFrameWriter_write (mkQIXFrame id key st) memory = Done (qix_encode id key).
Proof.
  intros Hm Hk Hb Hid. unfold QIXFrameWriter_write. cbn [key_data key_id]. rewrite Hk.
  cbn [Z.eqb Pos.eqb negb]. destruct (qix_body_ok id key Hk Hb) as [Lb Bb].
  rewrite filled_start.
  rewrite put_int_filled; [|by vm_compute|by rewrite Hm].
  rewrite put_int_filled; [|by vm_compute|by rewrite Hm].
  rewrite put_int_filled; [|by apply int_ok_u64|by rewrite Hm].
  rewrite copy_filled by (rewrite !zlen_app, !zlen_be_bytes, Hk, Hm; done).
  rewrite put_int_filled; [|by vm_compute|rewrite !zlen_app, !zlen_be_bytes, Hk, Hm; done].
  change (be_bytes (int_bytes UInt8) 0x5A) with [0x5A]. change (be_bytes (int_bytes UInt8) 0xA5) with [0xA5].
  change (be_bytes (int_bytes UInt8) 0x01) with [0x01]. change (int_bytes UInt64) with 8%nat.
  assert ((((([] ++ [0x5A]) ++ [0xA5]) ++ be_bytes 8 id) ++ key) ++ [0x01] =
          [0x5A; 0xA5] ++ qix_body id key) as -> by (unfold qix_body; by rewrite <- !app_assoc).
  rewrite seq_skip_spec, seq_take_spec by done.
  assert (ztake 41 (zdrop 2 (w_buf (filled memory ([0x5A; 0xA5] ++ qix_body id key)))) = qix_body id key) as ->.
  { unfold filled, overwrite. cbn [w_buf]. rewrite ztake_0, app_nil_l, <- app_assoc.
    rewrite zdrop_app_len by done. by rewrite ztake_app_len. }
  rewrite put_int_filled; [|by apply int_ok_u32, crc_u32|rewrite zlen_app, Lb, Hm; done].
  rewrite filled_full by (rewrite !zlen_app, zlen_be_bytes, Lb, Hm; done).
  unfold qix_encode. by rewrite <- app_assoc.
Qed.

Lemma encode_frame id key :
  zlen key = 32 -> all_bytes key -> is_u64 id ->
  zlen (qix_encode id key) = 47 /\ frame_at (qix_encode id key) = true /\
  frame_in (qix_encode id key) = Some (mkQIXFrame id key QIXStatus_ok).
Proof.
  intros Hk Hb Hid. destruct (qix_body_ok id key Hk Hb) as [Lb Bb].
  pose proof (crc_u32 _ Bb) as Hc. unfold is_u32, max_u32, is_u64, max_u64 in *.
  unfold qix_encode. fold (qix_body id key). set (crc := CastagnoliCRC32_calc (qix_body id key)) in *.
  assert (zlen ([0x5A; 0xA5] ++ qix_body id key ++ be_bytes 4 crc) = 47) as Hl
    by (rewrite !zlen_app, Lb, zlen_be_bytes; done).
  split; [done|]. split; [unfold frame_at; rewrite Hl; done|].
  unfold frame_in.
  rewrite (zdrop_app_len 2) by done. rewrite (ztake_app_len 41) by done. fold crc.
  replace (zdrop 43 _) with (be_bytes 4 crc)
    by (symmetry; rewrite app_assoc; apply zdrop_app_len; rewrite zlen_app, Lb; done).
  rewrite ztake_ge, be_value_bytes by (rewrite ?zlen_be_bytes; simpl; lia). rewrite Z.eqb_refl.
  unfold qix_body. rewrite <- !app_assoc, ztake_app_len by (by rewrite zlen_be_bytes).
  rewrite be_value_bytes by (simpl; lia).
  assert (zdrop 10 ([0x5A; 0xA5] ++ be_bytes 8 id ++ key ++ [0x01] ++ be_bytes 4 crc) =
          key ++ [0x01] ++ be_bytes 4 crc) as E10
    by (rewrite app_assoc; apply zdrop_app_len; rewrite zlen_app, zlen_be_bytes; done).
  rewrite E10, ztake_app_len by done. f_equal. f_equal.
  assert (zdrop 42 ([0x5A; 0xA5] ++ be_bytes 8 id ++ key ++ [0x01] ++ be_bytes 4 crc) =
          [0x01] ++ be_bytes 4 crc) as E42
    by (change 42 with (10 + 32); rewrite <- zdrop_zdrop by done; rewrite E10; by apply zdrop_app_len).
  unfold znth. rewrite <- (Nat.add_0_r (Z.to_nat 42)), <- nth_skipn.
  fold (zdrop 42 ([0x5A; 0xA5] ++ be_bytes 8 id ++ key ++ [0x01] ++ be_bytes 4 crc)). by rewrite E42.
Qed.

Definition qix_key_ok (k : Z * bytes) : Prop := is_u64 k.1 /\ zlen k.2 = 32 /\ all_bytes k.2.

Definition delivered (k : Z * bytes) : QIXFrame := mkQIXFrame k.1 k.2 QIXStatus_ok.

Lemma encoded_frames keys rest :
  Forall qix_key_ok keys ->
  qix_frames (concat (map (fun k => qix_encode k.1 k.2) keys) ++ rest) =
    map delivered keys ++ qix_frames rest.
Proof.
  induction 1 as [|[id key] keys (Hid&Hk&Hb) _ IH]; [done|]. cbn [map concat fst snd].
  destruct (encode_frame id key Hk Hb Hid) as (Hl&Ha&Hf).
  rewrite <- app_assoc, frames_take, Hf, IH by done. done.
Qed.

(** Bytes that are no first synchronization byte are noise. *)
Lemma noise_frames noise s : ~ In 0x5A noise -> qix_frames (noise ++ s) = qix_frames s.
Proof.
  induction noise as [|b noise IH]; [done|]. intros Hn. cbn [app]. rewrite frames_skip_byte.
  - apply IH. intros Hi. apply Hn. by right.
  - unfold frame_at. change (znth (b :: noise ++ s) 0) with b.
    destruct (b =? 0x5A) eqn:E; btests; [destruct Hn; by left|]. by rewrite andb_false_r.
Qed.

(** C35: Keys survive the serial line: the writer accepts exactly the frames with
    a key of 32 bytes, and when keys are written, each with a 64-bit identifier,
    the reader on the other end, however the line splits the bytes and whatever
    noise without the byte 0x5A precedes them, hands the handler exactly these
    identifiers and keys, in this order and with status ok (the writer does not
    transmit the status it was given). *)
Theorem qix_roundtrip memory wmemory noise keys chunks frames r :
  zlen memory = 47 -> zlen wmemory = 47 -> Forall qix_key_ok keys -> ~ In 0x5A noise ->
  (forall f, zlen (key_data f) <> 32 -> QIXFrameWriter_write f wmemory = Throw) /\
  exists written,
    Forall2 (fun k b => forall st, QIXFrameWriter_write (mkQIXFrame k.1 k.2 st) wmemory = Done b)
      keys written /\
    (concat chunks = noise ++ concat written ->
     run_reads (start_frame_reader memory) (map ReadData chunks) = Some (frames, r) ->
     frames = map delivered keys).
Proof.
  intros Hm Hw Hk Hn. split.
  { intros f Hf. unfold QIXFrameWriter_write. by destruct (zlen (key_data f) =? 32) eqn:E; btests. }
  exists (map (fun k => qix_encode k.1 k.2) keys). split.
  - induction Hk as [|[id key] keys (Hid&Hl&Hb) _ IH]; constructor; [|done].
    intros st. by apply written_bytes.
  - intros Hc Hr. rewrite (reader_frames _ _ _ _ Hm Hr), Hc, noise_frames by done.
    rewrite <- (app_nil_r (concat _)), encoded_frames by done. change (qix_frames []) with (@nil QIXFrame).
    rewrite app_nil_r. clear. induction keys as [|k keys IH]; [done|]. cbn [map].
    rewrite filter_cons_True by done. by rewrite IH.
Qed.
End Streams.

(** ** Concrete instances *)

Definition test_key_bytes : bytes := map Z.of_nat (seq 0 32).

(** The frame of the library's own test. *)
Definition test_frame : bytes :=
  [0x5A; 0xA5; 0; 0; 0; 0; 0; 0; 0; 1] ++ test_key_bytes ++ [0x01; 0x0F; 0xAE; 0x44; 0x5E].

Example test_frame_written :
  QIXFrameWriter_write (SER := ser4cpp_reference) (mkQIXFrame 1 test_key_bytes QIXStatus_ok)
    (replicate 47 0) = Done test_frame.
Proof. vm_compute. reflexivity. Qed.

Lemma qix_reader_refines_witness :
  exists frames r,
    run_reads (SER := ser4cpp_reference) (start_frame_reader (replicate 47 0))
      (map ReadData [[1; 2; 0x5A]; ztake 44 test_frame; zdrop 44 test_frame]) = Some (frames, r) /\
    frames = filter frame_ok (qix_frames ([1; 2; 0x5A] ++ test_frame)).
Proof.
  destruct (run_reads (SER := ser4cpp_reference) (start_frame_reader (replicate 47 0))
              (map ReadData [[1; 2; 0x5A]; ztake 44 test_frame; zdrop 44 test_frame]))
    as [[frames r]|] eqn:E; [|by vm_compute in E].
  exists frames, r. split; [done|].
  exact (proj1 (qix_reader_refines (SER := ser4cpp_reference) (replicate 47 0) eq_refl)
           [[1; 2; 0x5A]; ztake 44 test_frame; zdrop 44 test_frame] frames r E).
Defined.

Lemma qix_roundtrip_witness :
  exists frames r,
    run_reads (SER := ser4cpp_reference) (start_frame_reader (replicate 47 0))
      (map ReadData [[1; 2]; ztake 45 test_frame; zdrop 45 test_frame]) = Some (frames, r) /\
    frames = [mkQIXFrame 1 test_key_bytes QIXStatus_ok].
Proof.
  destruct (run_reads (SER := ser4cpp_reference) (start_frame_reader (replicate 47 0))
              (map ReadData [[1; 2]; ztake 45 test_frame; zdrop 45 test_frame]))
    as [[frames r]|] eqn:E; [|by vm_compute in E].
  exists frames, r. split; [done|].
  destruct (qix_roundtrip (SER := ser4cpp_reference) (replicate 47 0) (replicate 47 0) [1; 2]
              [(1, test_key_bytes)] [[1; 2]; ztake 45 test_frame; zdrop 45 test_frame] frames r)
    as [_ (written&Hw&H)].
  - reflexivity.
  - reflexivity.
  - repeat constructor; by vm_compute.
  - intros [?|[?|[]]]; discriminate.
  - apply H; [|exact E]. inversion Hw as [|? b ? ? Hb Hnil]. inversion Hnil. subst.
    specialize (Hb QIXStatus_ok). vm_compute in Hb. injection Hb as <-. reflexivity.
Defined.
