(* ===== verification/StdMap.v ===== *)
(** * [std::map]

    An ordered map with integer keys, as the list of its entries in increasing
    order of keys: [begin] is the head, [rbegin] the last entry.  The operations
    are the ones the key store, the key sources and the proxy use; the lemmas say
    how they act on lookups and that they keep the order. *)

From stdpp Require Import base numbers list sets.
From Stdlib Require Import Lia ZArith.
From S2P Require Import Prelude.

Section StdMap.
Context {V : Type}.
Local Abbreviation std_map := (list (Z * V)).

Fixpoint map_find (m : std_map) (k : Z) : option V :=
  match m with
  | [] => None
  | (k', v) :: m => if k =? k' then Some v else map_find m k
  end.

(** [m[k] = v] *)
Fixpoint map_put (m : std_map) (k : Z) (v : V) : std_map :=
  match m with
  | [] => [(k, v)]
  | (k', v') :: m' =>
      if k <? k' then (k, v) :: m
      else if k =? k' then (k, v) :: m'
      else (k', v') :: map_put m' k v
  end.

(** [m.erase(k)] *)
Fixpoint map_erase (m : std_map) (k : Z) : std_map :=
  match m with
  | [] => []
  | (k', v) :: m' => if k =? k' then m' else (k', v) :: map_erase m' k
  end.

Definition map_begin (m : std_map) : option (Z * V) := head m.
Definition map_rbegin (m : std_map) : option (Z * V) := last m.
Definition map_size (m : std_map) : Z := zlen m.

(** Keys above [lo] in increasing order. *)
Fixpoint sorted_from (lo : Z) (m : std_map) : Prop :=
  match m with
  | [] => True
  | (k, _) :: m => lo < k /\ sorted_from k m
  end.

(** The representation invariant. *)
Definition map_ok (m : std_map) : Prop :=
  match m with [] => True | (k, _) :: m => sorted_from k m end.

Lemma sorted_from_ok lo m : sorted_from lo m -> map_ok m.
Proof. destruct m as [|[k v] m]; [done|]. by intros [_ H]. Qed.

Lemma map_ok_from m : map_ok m -> exists lo, sorted_from lo m.
Proof. destruct m as [|[k v] m]; [by exists 0|]. intros H. exists (k - 1). split; [lia|done]. Qed.

Lemma sorted_weaken a b m : a <= b -> sorted_from b m -> sorted_from a m.
Proof. destruct m as [|[k v] m]; [done|]. intros ? [? ?]. split; [lia|done]. Qed.

Lemma find_above lo m k v : sorted_from lo m -> map_find m k = Some v -> lo < k.
Proof.
  revert lo. induction m as [|[k' v'] m IH]; intros lo; [done|]. intros [Hlo Hs]. simpl.
  destruct (k =? k') eqn:E; btests; [lia|]. intros H. pose proof (IH k' Hs H). lia.
Qed.

Lemma find_below lo m k : sorted_from lo m -> k <= lo -> map_find m k = None.
Proof.
  intros Hs Hk. destruct (map_find m k) eqn:E; [|done]. pose proof (find_above _ _ _ _ Hs E). lia.
Qed.

Lemma put_from lo m k v : sorted_from lo m -> lo < k -> sorted_from lo (map_put m k v).
Proof.
  revert lo. induction m as [|[k' v'] m IH]; intros lo; [done|]. intros [Hlo Hs] Hk. simpl.
  destruct (k <? k') eqn:E; btests; [done|]. destruct (k =? k') eqn:E'; btests.
  - subst k'. done.
  - split; [done|]. apply IH; [done|lia].
Qed.

Lemma erase_from lo m k : sorted_from lo m -> sorted_from lo (map_erase m k).
Proof.
  revert lo. induction m as [|[k' v'] m IH]; intros lo; [done|]. intros [Hlo Hs]. simpl.
  destruct (k =? k'); [|split; [done|by apply IH]].
  eapply sorted_weaken; [|done]. lia.
Qed.

Lemma put_ok m k v : map_ok m -> map_ok (map_put m k v).
Proof.
  intros (lo&Hs)%map_ok_from. apply (sorted_from_ok (Z.min lo (k - 1))).
  apply put_from; [eapply sorted_weaken; [|done]; lia|lia].
Qed.

Lemma erase_ok m k : map_ok m -> map_ok (map_erase m k).
Proof. intros (lo&Hs)%map_ok_from. eapply sorted_from_ok, erase_from, Hs. Qed.

Lemma find_put m k v k' : map_find (map_put m k v) k' = if k' =? k then Some v else map_find m k'.
Proof.
  induction m as [|[j u] m IH]; simpl; [by destruct (k' =? k)|].
  destruct (k <? j) eqn:E; btests; [done|]. destruct (k =? j) eqn:E'; btests; simpl.
  - subst j. by destruct (k' =? k).
  - rewrite IH. destruct (k' =? j) eqn:Ej, (k' =? k) eqn:Ek; btests; try done. lia.
Qed.

Lemma find_erase m k k' :
  map_ok m -> map_find (map_erase m k) k' = if k' =? k then None else map_find m k'.
Proof.
  intros (lo&Hs)%map_ok_from. revert lo Hs. induction m as [|[j u] m IH]; intros lo; simpl.
  - by destruct (k' =? k).
  - intros [Hlo Hs]. destruct (k =? j) eqn:E; btests.
    + subst j. destruct (k' =? k) eqn:E; btests; [|done]. subst k'. eapply find_below; [done|lia].
    + simpl. rewrite (IH j Hs). destruct (k' =? j) eqn:Ej, (k' =? k) eqn:Ek; btests; try done. lia.
Qed.

(** The last entry is found, and has the largest key. *)
Lemma rbegin_find m k v :
  map_ok m -> map_rbegin m = Some (k, v) ->
  map_find m k = Some v /\ forall k' v', map_find m k' = Some v' -> k' <= k.
Proof.
  intros (lo&Hs)%map_ok_from. revert lo Hs. unfold map_rbegin.
  induction m as [|[j u] m IH]; intros lo; [done|]. intros [Hlo Hs] Hl.
  destruct m as [|e m].
  - injection Hl as -> ->. simpl. rewrite Z.eqb_refl. split; [done|].
    intros k' v'. by destruct (k' =? k) eqn:E; btests; [lia|].
  - change (last ((j, u) :: e :: m)) with (last (e :: m)) in Hl.
    destruct (IH j Hs Hl) as [Hf Hmax]. pose proof (find_above _ _ _ _ Hs Hf) as Hj.
    cbn [map_find]. split; [destruct (k =? j) eqn:E; btests; [lia|done]|].
    intros k' v'. destruct (k' =? j) eqn:E; btests; [lia|]. apply Hmax.
Qed.

Lemma begin_find m k v :
  map_ok m -> map_begin m = Some (k, v) ->
  map_find m k = Some v /\ forall k' v', map_find m k' = Some v' -> k <= k'.
Proof.
  destruct m as [|[j u] m]; [done|]. intros Hs [= -> ->]. simpl. rewrite Z.eqb_refl.
  split; [done|]. intros k' v'. destruct (k' =? k) eqn:E; btests; [lia|].
  intros Hf. pose proof (find_above _ _ _ _ Hs Hf). lia.
Qed.

Lemma rbegin_none m : map_rbegin m = None -> m = [].
Proof. unfold map_rbegin. by intros ->%last_None. Qed.

Lemma rbegin_max m k v :
  map_ok m -> map_find m k = Some v -> (forall k' v', map_find m k' = Some v' -> k' <= k) ->
  map_rbegin m = Some (k, v).
Proof.
  intros Hm Hf Hmax. destruct (map_rbegin m) as [[k2 v2]|] eqn:E.
  - destruct (rbegin_find m k2 v2 Hm E) as [Hf2 Hmax2].
    assert (k = k2) as <- by (pose proof (Hmax _ _ Hf2); pose proof (Hmax2 _ _ Hf); lia).
    by rewrite Hf in Hf2; injection Hf2 as <-.
  - apply rbegin_none in E. by subst m.
Qed.

Lemma size_pos_begin m : 1 <= map_size m -> exists k v, map_begin m = Some (k, v).
Proof. destruct m as [|[k v] m]; [by unfold map_size|]. intros _. by exists k, v. Qed.

Lemma put_size m k v :
  map_ok m ->
  map_size (map_put m k v) = map_size m + (match map_find m k with Some _ => 0 | None => 1 end).
Proof.
  unfold map_size. intros (lo&Hs)%map_ok_from. revert lo Hs.
  induction m as [|[j u] m IH]; intros lo; [done|]. intros [Hlo Hs]. cbn [map_put map_find].
  destruct (k <? j) eqn:E; btests.
  - destruct (k =? j) eqn:E'; btests; [lia|]. rewrite (find_below j m k) by (done || lia).
    rewrite !zlen_cons. lia.
  - destruct (k =? j) eqn:E'; btests; [rewrite !zlen_cons; lia|].
    rewrite !zlen_cons, (IH j Hs). lia.
Qed.

Lemma erase_size m k :
  map_size (map_erase m k) = map_size m - (match map_find m k with Some _ => 1 | None => 0 end).
Proof.
  unfold map_size. induction m as [|[j u] m IH]; [done|]. cbn [map_erase map_find].
  destruct (k =? j) eqn:E; btests; [rewrite zlen_cons; lia|]. rewrite !zlen_cons, IH. lia.
Qed.

(** Two maps with the same lookups are the same. *)
Lemma map_ext_find m1 m2 :
  map_ok m1 -> map_ok m2 -> (forall k, map_find m1 k = map_find m2 k) -> m1 = m2.
Proof.
  revert m2. induction m1 as [|[k v] m1 IH]; intros [|[k2 v2] m2] H1 H2 E.
  - done.
  - specialize (E k2). simpl in E. rewrite Z.eqb_refl in E. done.
  - specialize (E k). simpl in E. rewrite Z.eqb_refl in E. done.
  - cbn [map_ok] in *. pose proof (E k) as Ek. pose proof (E k2) as Ek2. simpl in Ek, Ek2.
    rewrite Z.eqb_refl in Ek. rewrite Z.eqb_refl in Ek2.
    assert (k = k2) as <-.
    { destruct (k =? k2) eqn:Ee; btests; [done|].
      rewrite (Z.eqb_sym k2 k) in Ek2. destruct (k =? k2) eqn:Ee2; btests; [lia|].
      pose proof (find_above _ _ _ _ H2 (eq_sym Ek)). pose proof (find_above _ _ _ _ H1 Ek2). lia. }
    rewrite Z.eqb_refl in Ek. injection Ek as <-. f_equal.
    apply IH; [by eapply sorted_from_ok|by eapply sorted_from_ok|].
    intros j. specialize (E j). simpl in E. destruct (j =? k) eqn:Ej; btests; [|done].
    subst j. by rewrite (find_below k m1 k), (find_below k m2 k) by (done || lia).
Qed.
End StdMap.

Arguments map_size : simpl never.

Create HintDb std_map.
#[export] Hint Resolve put_ok erase_ok : std_map.

(** ** Maps that only lose entries *)

Section Erase.
Context {V : Type}.
Implicit Types m : list (Z * V).

Lemma erase_sublist m k : sublist (map_erase m k) m.
Proof.
  induction m as [|[k' v] m IH]; cbn; [constructor|]. destruct (k =? k'); [by constructor|by constructor].
Qed.

Lemma sublist_sorted m m' lo : sublist m' m -> sorted_from lo m -> sorted_from lo m'.
Proof.
  intros Hs. revert lo. induction Hs as [|[k v] m' m _ IH|[k v] m' m _ IH]; intros lo; cbn; [done|..].
  - intros [? ?]. split; [done|auto].
  - intros [? ?]. apply IH. eapply sorted_weaken; [|done]. lia.
Qed.

Lemma sublist_ok m m' : sublist m' m -> map_ok m -> map_ok m'.
Proof. intros Hs (lo&H)%map_ok_from. eapply sorted_from_ok, sublist_sorted; done. Qed.

Lemma find_elem m k v : map_find m k = Some v -> (k, v) ∈ m.
Proof.
  induction m as [|[k' v'] m IH]; cbn; [done|]. destruct (Z.eqb_spec k k') as [->|].
  - intros [= ->]. apply list_elem_of_here.
  - intros H. apply list_elem_of_further. auto.
Qed.

Lemma elem_find m k v : map_ok m -> (k, v) ∈ m -> map_find m k = Some v.
Proof.
  intros (lo&Hs)%map_ok_from. revert lo Hs. induction m as [|[k' v'] m IH]; intros lo; cbn.
  - by intros _ ?%elem_of_nil.
  - intros [Hlo Hs] [[= -> ->]|H]%elem_of_cons; [by rewrite Z.eqb_refl|].
    pose proof (IH _ Hs H) as Hf. pose proof (find_above _ _ _ _ Hs Hf).
    destruct (Z.eqb_spec k k'); [lia|done].
Qed.

(** Erasing takes the value of the key, and no other. *)
Lemma erase_values m k x :
  x ∈ map snd m -> map_find m k = Some x \/ x ∈ map snd (map_erase m k).
Proof.
  induction m as [|[k' v] m IH]; cbn; [set_solver|]. intros [->|H]%elem_of_cons.
  - destruct (Z.eqb_spec k k'); [by left|right; cbn; set_solver].
  - destruct (Z.eqb_spec k k'); [by right|]. destruct (IH H); [by left|right; cbn; set_solver].
Qed.

Lemma put_new m k v x : map_find m k = None -> x ∈ map snd m -> x ∈ map snd (map_put m k v).
Proof.
  induction m as [|[k' v'] m IH]; cbn; [set_solver|]. destruct (Z.eqb_spec k k') as [|Hk]; [done|].
  intros Hn. destruct (k <? k'); [set_solver|]. cbn. specialize (IH Hn). set_solver.
Qed.

Lemma put_value m k v : v ∈ map snd (map_put m k v).
Proof.
  induction m as [|[k' v'] m IH]; cbn; [set_solver|].
  destruct (k <? k'); [set_solver|]. destruct (k =? k'); set_solver.
Qed.

Lemma sublist_size m m' : sublist m' m -> map_size m' <= map_size m.
Proof. intros H%sublist_length. unfold map_size, zlen. lia. Qed.
End Erase.
