(* ===== verification/KeyStore.v ===== *)
(** * Key stores and the QIX key source

    [QIXKeyStore] (libs/qix), a cache of the keys received and not used yet, which
    serves an initiator as [IKeySource] and a responder as [IKeyLookup], and
    [QIXQKDSource] of the proxy, whose frame handler routes keys to the stores
    bound to it.  A store is shared between the handler and one handshake object:
    it lives in the handler's map, and [source_consume_key] and
    [source_find_and_consume_key] are the calls through the shared pointer.

    The integer part of the metrics is here; the floating-point values that are
    logged are in Metrics. *)

From stdpp Require Import base numbers list sets.
From Stdlib Require Import Lia ZArith.
From S2P Require Import Prelude Ser4cpp Enums Codec Messages FrameWriter Crypto SessionMode Session.
From S2P Require Import Chain Handshake QIX StdMap.

(** ** [QIXKeyStore] *)

Record QIXKeyStore := mkQIXKeyStore { max_cached_keys : Z; key_map : list (Z * KeyRecord) }.

Definition QIXKeyStore_new (max_cached_keys : Z) : QIXKeyStore := mkQIXKeyStore max_cached_keys [].

Definition QIXKeyStore_add_key (s : QIXKeyStore) (frame : QIXFrame) : QIXKeyStore :=
  let m :=
    match map_rbegin (key_map s) with
    | Some (newest, _) => if key_id frame <? newest then [] else key_map s
    | None => key_map s
    end in
  let m := map_put m (key_id frame) (KeyRecord_new (key_id frame) (key_data frame)) in
  let m :=
    if max_cached_keys s <? map_size m
    then match map_begin m with Some (oldest, _) => map_erase m oldest | None => m end
    else m in
  mkQIXKeyStore (max_cached_keys s) m.

Definition QIXKeyStore_consume_key (s : QIXKeyStore) : option KeyRecord * QIXKeyStore :=
  match map_rbegin (key_map s) with
  | None => (None, s)
  | Some (id, ret) => (Some ret, mkQIXKeyStore (max_cached_keys s) (map_erase (key_map s) id))
  end.

Definition QIXKeyStore_find_and_consume_key (s : QIXKeyStore) (id : Z)
  : option BufferBase * QIXKeyStore :=
  match map_find (key_map s) id with
  | None => (None, s)
  | Some entry => (kr_key entry, mkQIXKeyStore (max_cached_keys s) (map_erase (key_map s) id))
  end.

(** ** [QIXQKDSource] *)

Record FrameHandler := mkFrameHandler {
  fh_subscribers : list (Z * QIXKeyStore);
  fh_num_bytes : Z;
  fh_counts : list Z;
  fh_num_subscribers : Z;
  fh_metric_update_period : Z;
  fh_metric_bin_size : Z;
  fh_last_metric_update_time : Z;
  fh_key_data_bin : list Z;
}.

Definition FrameHandler_new (num_subscribers update_period bin_size now : Z) : FrameHandler :=
  mkFrameHandler [] 0 (replicate 256 0) num_subscribers update_period bin_size now [].

Definition fh_set_subscribers (h : FrameHandler) (m : list (Z * QIXKeyStore)) : FrameHandler :=
  mkFrameHandler m (fh_num_bytes h) (fh_counts h) (fh_num_subscribers h) (fh_metric_update_period h)
    (fh_metric_bin_size h) (fh_last_metric_update_time h) (fh_key_data_bin h).

(** [++counts[b]] *)
Definition count_byte (counts : list Z) (b : Z) : list Z :=
  match counts !! Z.to_nat b with
  | Some n => <[Z.to_nat b := u64 (n + 1)]> counts
  | None => counts
  end.

(** [handle] at the time [now]; the flag says that the metrics are logged.  The
    remainder by zero ends the process. *)
Definition FrameHandler_handle (h : FrameHandler) (now : Z) (frame : QIXFrame)
  : outcome (bool * FrameHandler) :=
  if bool_decide (status frame <> QIXStatus_ok) then Done (false, h)
  else if negb (zlen (key_data frame) =? 32) then Done (false, h)
  else if fh_num_subscribers h =? 0 then Crash
  else
    let subscriber_id := u16 (Z.rem (key_id frame) (fh_num_subscribers h)) in
    let subscribers :=
      match map_find (fh_subscribers h) subscriber_id with
      | Some store => map_put (fh_subscribers h) subscriber_id (QIXKeyStore_add_key store frame)
      | None => fh_subscribers h
      end in
    let bin := fh_key_data_bin h ++ [now] in
    let bin := if fh_metric_bin_size h <? zlen bin then tail bin else bin in
    let counts := fold_left count_byte (key_data frame) (fh_counts h) in
    let num_bytes := u64 (fh_num_bytes h + zlen (key_data frame)) in
    let enough_elapsed_time := fh_metric_update_period h <? now - fh_last_metric_update_time h in
    let enough_samples := zlen bin =? fh_metric_bin_size h in
    let update := enough_elapsed_time && enough_samples in
    Done (update,
          mkFrameHandler subscribers num_bytes counts (fh_num_subscribers h)
            (fh_metric_update_period h) (fh_metric_bin_size h)
            (if update then now else fh_last_metric_update_time h) bin).

(** [bind_key_store], which [bind_responder_key_lookup] and
    [bind_initiator_key_source] call; the pointer returned is the subscriber's
    identifier. *)
Definition bind_key_store (h : FrameHandler) (modulo max_cached_keys : Z) : outcome (Z * FrameHandler) :=
  match map_find (fh_subscribers h) modulo with
  | Some _ => Throw
  | None =>
      Done (modulo,
            fh_set_subscribers h (map_put (fh_subscribers h) modulo (QIXKeyStore_new max_cached_keys)))
  end.

Definition bind_responder_key_lookup (h : FrameHandler) (modulo max_cached_keys : Z)
  : outcome (Z * FrameHandler) := bind_key_store h modulo max_cached_keys.

Definition bind_initiator_key_source (h : FrameHandler) (modulo max_cached_keys : Z)
  : outcome (Z * FrameHandler) := bind_key_store h modulo max_cached_keys.

(** Calls of the store bound as [id]. *)
Definition source_consume_key (id : Z) (h : FrameHandler) : option KeyRecord * FrameHandler :=
  match map_find (fh_subscribers h) id with
  | Some store =>
      let '(ret, store) := QIXKeyStore_consume_key store in
      (ret, fh_set_subscribers h (map_put (fh_subscribers h) id store))
  | None => (None, h)
  end.

Definition source_find_and_consume_key (id : Z) (h : FrameHandler) (key_id : Z)
  : option BufferBase * FrameHandler :=
  match map_find (fh_subscribers h) id with
  | Some store =>
      let '(ret, store) := QIXKeyStore_find_and_consume_key store key_id in
      (ret, fh_set_subscribers h (map_put (fh_subscribers h) id store))
  | None => (None, h)
  end.

(** ** Invariant of a store *)

(** The record stored under an identifier. *)
Definition record_ok (id : Z) (r : KeyRecord) : Prop :=
  is_u64 id /\ kr_id r = id /\ exists key, zlen key = 32 /\ r = KeyRecord_new id key.

Definition store_ok (s : QIXKeyStore) : Prop :=
  map_ok (key_map s) /\ map_size (key_map s) <= max_cached_keys s /\
  forall id r, map_find (key_map s) id = Some r -> record_ok id r.

(** The frames the handler passes on. *)
Definition good_frame (f : QIXFrame) : Prop := is_u64 (key_id f) /\ zlen (key_data f) = 32.

Lemma record_new_ok id key : is_u64 id -> zlen key = 32 -> record_ok id (KeyRecord_new id key).
Proof. intros Hid Hk. split; [done|]. split; [done|]. by exists key. Qed.

Lemma store_new_ok max : 0 <= max -> store_ok (QIXKeyStore_new max).
Proof. intros H. split; [done|]. split; [exact H|done]. Qed.

(** Erasing keeps what is left as it was. *)
Lemma erase_store_ok max m id :
  store_ok (mkQIXKeyStore max m) -> store_ok (mkQIXKeyStore max (map_erase m id)).
Proof.
  intros (Hm&Hs&Hr). cbn [key_map max_cached_keys] in *. split; [by apply erase_ok|].
  cbn [key_map max_cached_keys]. rewrite erase_size. split; [destruct (map_find m id); lia|].
  intros k r. rewrite find_erase by done. by destruct (k =? id); [|apply Hr].
Qed.

Lemma consume_ok s : store_ok s -> store_ok (QIXKeyStore_consume_key s).2.
Proof.
  intros H. unfold QIXKeyStore_consume_key. destruct (map_rbegin (key_map s)) as [[id r]|]; [|done].
  destruct s. by apply erase_store_ok.
Qed.

Lemma find_and_consume_ok s id : store_ok s -> store_ok (QIXKeyStore_find_and_consume_key s id).2.
Proof.
  intros H. unfold QIXKeyStore_find_and_consume_key. destruct (map_find (key_map s) id); [|done].
  destruct s. by apply erase_store_ok.
Qed.

(** What is kept of the old keys when a key is added. *)
Definition kept (s : QIXKeyStore) (f : QIXFrame) : list (Z * KeyRecord) :=
  match map_rbegin (key_map s) with
  | Some (newest, _) => if key_id f <? newest then [] else key_map s
  | None => key_map s
  end.

Lemma kept_ok s f :
  store_ok s -> map_ok (kept s f) /\ map_size (kept s f) <= max_cached_keys s /\
  (forall id r, map_find (kept s f) id = Some r -> map_find (key_map s) id = Some r /\ id <= key_id f).
Proof.
  intros (Hm&Hs&_). unfold kept. pose proof (rbegin_find (key_map s)) as Hmax.
  destruct (map_rbegin (key_map s)) as [[newest r]|] eqn:E.
  - destruct (key_id f <? newest) eqn:En; btests.
    + split; [done|]. split; [|done]. pose proof (zlen_nonneg (key_map s)). unfold map_size in *.
      change (zlen (@nil (Z * KeyRecord))) with 0. lia.
    + split; [done|]. split; [done|]. intros id r' Hf.
      pose proof (proj2 (Hmax newest r Hm eq_refl) id r' Hf). split; [done|lia].
  - apply rbegin_none in E. rewrite E. split; [done|]. split; [by rewrite E in Hs|done].
Qed.

(** Adding a key: afterwards every lookup gives the new key or an old one. *)
Lemma add_key_spec s f :
  store_ok s -> good_frame f ->
  store_ok (QIXKeyStore_add_key s f) /\
  (forall id r, map_find (key_map (QIXKeyStore_add_key s f)) id = Some r ->
     id = key_id f /\ r = KeyRecord_new (key_id f) (key_data f) \/
     id <> key_id f /\ map_find (key_map s) id = Some r) /\
  (1 <= max_cached_keys s ->
     map_rbegin (key_map (QIXKeyStore_add_key s f)) =
       Some (key_id f, KeyRecord_new (key_id f) (key_data f))).
Proof.
  intros Hs [Hid Hk]. pose proof (kept_ok s f Hs) as (Hm&Hsz&Hkept). pose proof Hs as (_&_&Hrec).
  unfold QIXKeyStore_add_key. fold (kept s f). set (rec := KeyRecord_new (key_id f) (key_data f)).
  set (m := map_put (kept s f) (key_id f) rec).
  assert (map_ok m) as Hm1 by by apply put_ok.
  assert (forall id r, map_find m id = Some r ->
            id = key_id f /\ r = rec \/ id <> key_id f /\ map_find (key_map s) id = Some r) as Hfind.
  { intros id r. subst m. rewrite find_put. destruct (id =? key_id f) eqn:E; btests.
    - intros [= <-]. by left.
    - intros Hf. right. split; [done|]. by apply Hkept. }
  assert (forall id r, map_find m id = Some r -> record_ok id r) as Hok.
  { intros id r Hf. destruct (Hfind _ _ Hf) as [[-> ->]|[_ Hf']]; [by apply record_new_ok|by apply Hrec]. }
  assert (forall k v, map_find m k = Some v -> k <= key_id f) as Hmax.
  { intros k v. subst m. rewrite find_put. destruct (k =? key_id f) eqn:E; btests; [lia|]. apply Hkept. }
  pose proof (put_size (kept s f) (key_id f) rec Hm) as Esz. fold m in Esz.
  destruct (max_cached_keys s <? map_size m) eqn:E; btests.
  - destruct (size_pos_begin m) as (k0&v0&Hb); [pose proof (zlen_nonneg (kept s f)); unfold map_size in *;
      pose proof Hs as (_&Hs2&_); pose proof (zlen_nonneg (key_map s)); unfold map_size in *; lia|].
    rewrite Hb. cbn [key_map max_cached_keys]. destruct (begin_find m k0 v0 Hm1 Hb) as [Hf0 Hmin].
    split; [|split].
    + split; [by apply erase_ok|]. cbn [key_map max_cached_keys]. rewrite erase_size, Hf0.
      split; [destruct (map_find (kept s f) (key_id f)); lia|].
      intros id r. rewrite find_erase by done. by destruct (id =? k0); [|apply Hok].
    + intros id r. rewrite find_erase by done. by destruct (id =? k0); [|apply Hfind].
    + intros H1. destruct (map_find (kept s f) (key_id f)) eqn:Ek; [lia|].
      destruct (size_pos_begin (kept s f)) as (j&rj&Hj); [lia|].
      destruct (begin_find _ _ _ Hm Hj) as [Hfj _].
      assert (map_find m j = Some rj /\ j < key_id f) as [Hmj Hlt].
      { destruct (Hkept _ _ Hfj) as [_ Hle]. assert (j <> key_id f) by (intros ->; by rewrite Ek in Hfj).
        split; [|lia]. subst m. rewrite find_put. destruct (j =? key_id f) eqn:E'; btests; [lia|done]. }
      pose proof (Hmin _ _ Hmj). apply rbegin_max; [by apply erase_ok|..].
      * rewrite find_erase by done. destruct (key_id f =? k0) eqn:E'; btests; [lia|].
        subst m. rewrite find_put, Z.eqb_refl. done.
      * intros k v. rewrite find_erase by done. destruct (k =? k0); [done|]. apply Hmax.
  - cbn [key_map max_cached_keys]. split; [|split].
    + split; [done|]. cbn [key_map max_cached_keys]. split; [lia|done].
    + done.
    + intros _. apply rbegin_max; [done| |done]. subst m. by rewrite find_put, Z.eqb_refl.
Qed.

(** ** Sequences of operations *)

Inductive store_op := AddKey (f : QIXFrame) | ConsumeKey | FindKey (id : Z).

Definition store_op_ok (op : store_op) : Prop :=
  match op with AddKey f => good_frame f | ConsumeKey | FindKey _ => True end.

(** The identifier and the bytes of the key an operation hands out. *)
Definition handed_out (id : Z) (key : option BufferBase) : list (Z * bytes) :=
  match key with Some k => [(id, as_seq k)] | None => [] end.

Definition store_step (s : QIXKeyStore) (op : store_op) : list (Z * bytes) * QIXKeyStore :=
  match op with
  | AddKey f => ([], QIXKeyStore_add_key s f)
  | ConsumeKey =>
      let '(r, s) := QIXKeyStore_consume_key s in
      (match r with Some r => handed_out (kr_id r) (kr_key r) | None => [] end, s)
  | FindKey id =>
      let '(k, s) := QIXKeyStore_find_and_consume_key s id in (handed_out id k, s)
  end.

Fixpoint store_run (s : QIXKeyStore) (ops : list store_op) : list (Z * bytes) * QIXKeyStore :=
  match ops with
  | [] => ([], s)
  | op :: ops =>
      let '(out, s) := store_step s op in
      let '(more, s) := store_run s ops in (out ++ more, s)
  end.

(** The keys a sequence of operations adds. *)
Fixpoint added (ops : list store_op) : list (Z * bytes) :=
  match ops with
  | [] => []
  | AddKey f :: ops => (key_id f, key_data f) :: added ops
  | _ :: ops => added ops
  end.

(** The bytes of a record's key. *)
Definition key_bytes (r : KeyRecord) : option bytes := option_map as_seq (kr_key r).

(** Everything in the store is a key of [known]. *)
Definition holds_only (s : QIXKeyStore) (known : list (Z * bytes)) : Prop :=
  forall id r, map_find (key_map s) id = Some r -> exists key, key_bytes r = Some key /\ (id, key) ∈ known.

Lemma new_key_bytes id key : zlen key = 32 -> key_bytes (KeyRecord_new id key) = Some key.
Proof.
  intros H. unfold key_bytes, KeyRecord_new, KeyRecord_create_key. cbn [kr_key]. rewrite H. cbn.
  f_equal. by apply (as_seq_stored buffer_empty key length_32).
Qed.

Lemma record_handed id r :
  record_ok id r -> exists key, key_bytes r = Some key /\ handed_out (kr_id r) (kr_key r) = [(id, key)].
Proof.
  intros (_&Hid&key&Hl&Er). pose proof (new_key_bytes id key Hl) as Hb. rewrite <- Er in Hb.
  exists key. split; [done|]. unfold key_bytes in Hb. rewrite Hid.
  destruct (kr_key r); [|done]. by injection Hb as <-.
Qed.

(** What a step that hands out a key, or none, does. *)
Definition takes_one (s s' : QIXKeyStore) (out : list (Z * bytes)) : Prop :=
  (out = [] /\ s' = s) \/
  exists id r key, out = [(id, key)] /\ map_find (key_map s) id = Some r /\
    key_bytes r = Some key /\ key_map s' = map_erase (key_map s) id.

(** One step: what is handed out was in the store and is not any more. *)
Lemma store_step_spec s op :
  store_ok s -> store_op_ok op ->
  let '(out, s') := store_step s op in
  store_ok s' /\ max_cached_keys s' = max_cached_keys s /\
  match op with
  | AddKey f => out = [] /\
      forall id r, map_find (key_map s') id = Some r ->
        id = key_id f /\ r = KeyRecord_new (key_id f) (key_data f) \/
        id <> key_id f /\ map_find (key_map s) id = Some r
  | _ => takes_one s s' out
  end.
Proof.
  intros Hs Hop. destruct op as [f| |id]; cbn [store_step].
  - destruct (add_key_spec s f Hs Hop) as (H1&H2&_). done.
  - pose proof (consume_ok s Hs) as Hs'. pose proof Hs as (Hm&_&Hr).
    unfold QIXKeyStore_consume_key in *.
    destruct (map_rbegin (key_map s)) as [[id r]|] eqn:E; [|split; [done|split; [done|by left]]].
    destruct (rbegin_find _ _ _ Hm E) as [Hf _].
    destruct (record_handed _ _ (Hr _ _ Hf)) as (key&Hk&->).
    split; [done|]. split; [done|]. right. by exists id, r, key.
  - pose proof (find_and_consume_ok s id Hs) as Hs'. pose proof Hs as (Hm&_&Hr).
    unfold QIXKeyStore_find_and_consume_key in *.
    destruct (map_find (key_map s) id) as [r|] eqn:Hf; [|split; [done|split; [done|by left]]].
    destruct (record_handed _ _ (Hr _ _ Hf)) as (key&Hk&Eh).
    destruct (Hr _ _ Hf) as (_&Hid&_). rewrite Hid in Eh. rewrite Eh.
    split; [done|]. split; [done|]. right. by exists id, r, key.
Qed.

(** The identifier is in the store. *)
Definition stored (s : QIXKeyStore) (id : Z) : Prop := is_Some (map_find (key_map s) id).

Lemma takes_one_facts s s' out known :
  store_ok s -> holds_only s known -> takes_one s s' out ->
  holds_only s' (known ++ []) /\
  (forall k, k ∈ out -> k ∈ known /\ stored s k.1) /\
  (length out <= 1)%nat /\
  (forall id, stored s' id -> (id ∉ out.*1) /\ (stored s id \/ id ∈ (fst <$> ([] : list (Z * bytes))))).
Proof.
  intros (Hm&_&_) Hk. rewrite app_nil_r. intros [[-> ->]|(id&r&key&->&Hf&Hb&Em)].
  - split; [done|]. split; [set_solver|]. split; [simpl; lia|]. set_solver.
  - assert (forall j, map_find (key_map s') j = if j =? id then None else map_find (key_map s) j) as Hf'
      by (intros j; by rewrite Em, find_erase).
    split; [|split; [|split]].
    + intros j rj. rewrite Hf'. destruct (j =? id); [done|]. apply Hk.
    + intros k ->%list_elem_of_singleton. destruct (Hk _ _ Hf) as (key'&Hb'&Hin).
      rewrite Hb in Hb'. injection Hb' as <-. split; [done|by exists r].
    + simpl. lia.
    + intros j [rj Hj]. rewrite Hf' in Hj. destruct (j =? id) eqn:E; btests; [done|].
      split; [set_solver|]. left. by exists rj.
Qed.

(** What a step means for a set of known keys and for the identifiers. *)
Lemma store_step_facts s op known :
  store_ok s -> store_op_ok op -> holds_only s known ->
  let '(out, s') := store_step s op in
  store_ok s' /\ max_cached_keys s' = max_cached_keys s /\ holds_only s' (known ++ added [op]) /\
  (forall k, k ∈ out -> k ∈ known /\ stored s k.1) /\
  (length out <= 1)%nat /\
  (forall id, stored s' id -> (id ∉ out.*1) /\ (stored s id \/ id ∈ (added [op]).*1)).
Proof.
  intros Hs Hop Hk. pose proof (store_step_spec s op Hs Hop) as H.
  destruct (store_step s op) as [out s']. destruct H as (Hs'&Hmax&Hcase).
  split; [done|]. split; [done|]. destruct op as [f| |i].
  - destruct Hcase as [-> Hf]. destruct Hop as [_ Hl]. cbn [added]. split; [|split; [|split]].
    + intros id r H. destruct (Hf id r H) as [[-> ->]|[_ H']].
      * exists (key_data f). rewrite new_key_bytes by done. set_solver.
      * destruct (Hk _ _ H') as (key&Hb&Hin). exists key. set_solver.
    + set_solver.
    + simpl. lia.
    + intros id [r H]. split; [set_solver|]. destruct (Hf id r H) as [[-> _]|[_ H']]; [right; set_solver|].
      left. by exists r.
  - exact (takes_one_facts s s' out known Hs Hk Hcase).
  - exact (takes_one_facts s s' out known Hs Hk Hcase).
Qed.

Lemma store_run_facts s ops known out s' :
  store_ok s -> Forall store_op_ok ops -> holds_only s known -> store_run s ops = (out, s') ->
  store_ok s' /\ max_cached_keys s' = max_cached_keys s /\
  (forall k, k ∈ out -> k ∈ known ++ added ops) /\
  (NoDup (added ops).*1 -> (forall id, stored s id -> (id ∈ (added ops).*1) -> False) ->
   NoDup out.*1 /\ forall id, id ∈ out.*1 -> stored s id \/ id ∈ (added ops).*1).
Proof.
  intros Hs Hops. revert s known out Hs.
  induction Hops as [|op ops Hop _ IH]; intros s known out Hs Hk H; cbn in H.
  - injection H as <- <-. split; [done|]. split; [done|]. split; [set_solver|].
    intros _ _. split; [constructor|set_solver].
  - pose proof (store_step_facts s op known Hs Hop Hk) as Hstep.
    destruct (store_step s op) as [o1 s1]. destruct (store_run s1 ops) as [more s2] eqn:E.
    injection H as <- <-. destruct Hstep as (Hs1&Hmax&Hk1&Ho1&Hlen&Hst1).
    destruct (IH s1 (known ++ added [op]) more Hs1 Hk1 E) as (Hs2&Hmax2&Hin&Huniq). clear IH.
    assert (added (op :: ops) = added [op] ++ added ops) as -> by by destruct op.
    rewrite fmap_app. split; [done|]. split; [congruence|]. split; [set_solver|].
    intros (Hd1&Hdisj&Hd2)%NoDup_app Hfresh. destruct Huniq as [Hn Hsub].
    { done. }
    { intros id Hid. destruct (Hst1 id Hid) as [_ [Hold|Hnew]]; set_solver. }
    rewrite fmap_app. split.
    + apply NoDup_app. split; [destruct o1 as [|? [|]]; [constructor|apply NoDup_singleton|simpl in Hlen; lia]|].
      split; [|done]. intros id Hid Hmore. destruct (Hsub id Hmore) as [Hs'|Ha].
      * by apply (Hst1 id Hs').
      * apply list_elem_of_fmap in Hid as (k&->&Hid). destruct (Ho1 k Hid) as [_ Hst]. set_solver.
    + intros id [Hid|Hid]%elem_of_app.
      * apply list_elem_of_fmap in Hid as (k&->&Hid). left. by apply Ho1.
      * destruct (Hsub id Hid) as [Hs'|?]; [|set_solver]. destruct (Hst1 id Hs') as [_ [?|?]]; set_solver.
Qed.

(** C15: A key is used once: over any sequence of keys added, keys consumed by an
    initiator and keys looked up by a responder, in any order, the store never
    holds more than its maximum of keys, every key handed out was added under
    that identifier, and when the identifiers that were added are different
    (before and during the sequence) no identifier is handed out twice. *)
Theorem keys_used_once s ops known out s' :
  store_ok s -> Forall store_op_ok ops -> holds_only s known -> store_run s ops = (out, s') ->
  store_ok s' /\ map_size (key_map s') <= max_cached_keys s /\
  (forall k, k ∈ out -> k ∈ known ++ added ops) /\
  (NoDup (known ++ added ops).*1 -> NoDup out.*1).
Proof.
  intros Hs Hops Hk H. destruct (store_run_facts _ _ _ _ _ Hs Hops Hk H) as (Hs'&Hmax&Hin&Hu).
  split; [done|]. split; [rewrite <- Hmax; apply Hs'|]. split; [done|].
  rewrite fmap_app. intros (_&Hdisj&Hd)%NoDup_app. apply Hu; [done|].
  intros id [r Hr]. destruct (Hk _ _ Hr) as (key&_&Hin'). apply Hdisj.
  apply list_elem_of_fmap. by exists (id, key).
Qed.

(** ** Routing *)

Definition handler_ok (h : FrameHandler) : Prop :=
  map_ok (fh_subscribers h) /\
  (forall id s, map_find (fh_subscribers h) id = Some s -> store_ok s) /\
  zlen (fh_key_data_bin h) <= fh_metric_bin_size h /\ length (fh_counts h) = 256%nat.

Lemma count_byte_length counts b : length (count_byte counts b) = length counts.
Proof. unfold count_byte. destruct (counts !! Z.to_nat b); [by rewrite length_insert|done]. Qed.

Lemma counts_length data counts : length (fold_left count_byte data counts) = length counts.
Proof.
  revert counts. induction data as [|b data IH]; intros counts; [done|].
  cbn. by rewrite IH, count_byte_length.
Qed.

(** The subscriber a key belongs to. *)
Definition subscriber_of (h : FrameHandler) (f : QIXFrame) : Z := key_id f mod fh_num_subscribers h.

Lemma subscriber_id_exact h f :
  good_frame f -> 1 <= fh_num_subscribers h <= max_u16 ->
  u16 (Z.rem (key_id f) (fh_num_subscribers h)) = subscriber_of h f.
Proof.
  intros [[Hid _] _] Hn. unfold subscriber_of, u16, max_u16 in *. rewrite Z.rem_mod_nonneg by lia.
  pose proof (Z.mod_pos_bound (key_id f) (fh_num_subscribers h)). apply Z.mod_small. lia.
Qed.

(** What the handler does with a frame, in every case. *)
Lemma handle_spec h now f :
  handler_ok h -> is_u64 (key_id f) -> 0 <= fh_num_subscribers h <= max_u16 ->
  0 <= fh_metric_bin_size h ->
  if decide (status f = QIXStatus_ok /\ zlen (key_data f) = 32)
  then
    if decide (fh_num_subscribers h = 0) then FrameHandler_handle h now f = Crash
    else exists update h', FrameHandler_handle h now f = Done (update, h') /\ handler_ok h' /\
      fh_num_subscribers h' = fh_num_subscribers h /\
      fh_metric_bin_size h' = fh_metric_bin_size h /\
      forall id, map_find (fh_subscribers h') id =
        if decide (id = subscriber_of h f)
        then option_map (fun s => QIXKeyStore_add_key s f) (map_find (fh_subscribers h) id)
        else map_find (fh_subscribers h) id
  else FrameHandler_handle h now f = Done (false, h).
Proof.
  intros (Hm&Hs&Hb&Hc) Hid Hn Hbin. unfold FrameHandler_handle.
  destruct (decide (status f = QIXStatus_ok /\ zlen (key_data f) = 32)) as [[Hst Hl]|Hno].
  - rewrite bool_decide_eq_false_2 by (intros []; done). rewrite Hl. cbn [Z.eqb Pos.eqb negb].
    destruct (decide (fh_num_subscribers h = 0)) as [->|H0]; [done|].
    destruct (fh_num_subscribers h =? 0) eqn:E0; btests; [done|].
    assert (good_frame f) as Hg by done. rewrite subscriber_id_exact by (done || lia).
    eexists _, _. split; [reflexivity|]. split; [|split; [done|split; [done|]]].
    + split; [|split; [|split]]; cbn [fh_subscribers fh_key_data_bin fh_metric_bin_size fh_counts].
      * destruct (map_find _ _); [by apply put_ok|done].
      * intros id s. destruct (map_find (fh_subscribers h) (subscriber_of h f)) as [s0|] eqn:E; [|apply Hs].
        rewrite find_put. destruct (id =? subscriber_of h f); [|apply Hs].
        intros [= <-]. apply add_key_spec; [by eapply Hs|done].
      * set (bin := fh_key_data_bin h ++ [now]).
        assert (zlen bin <= fh_metric_bin_size h + 1) as Hle
          by (subst bin; rewrite zlen_app; change (zlen [now]) with 1; lia).
        destruct (fh_metric_bin_size h <? zlen bin) eqn:Eb; btests; [|done].
        destruct bin as [|x bin]; [done|]. cbn [tail]. rewrite zlen_cons in Hle. lia.
      * by rewrite counts_length.
    + intros id. cbn [fh_subscribers]. destruct (decide (id = subscriber_of h f)) as [->|Hne].
      * destruct (map_find (fh_subscribers h) (subscriber_of h f)) as [s0|] eqn:E; [|by rewrite E].
        by rewrite find_put, Z.eqb_refl.
      * destruct (map_find (fh_subscribers h) (subscriber_of h f)); [|done].
        rewrite find_put. by destruct (id =? subscriber_of h f) eqn:Ei; btests.
  - destruct (status f) eqn:Est; [|done..]. rewrite bool_decide_eq_false_2 by (intros []; done).
    destruct (zlen (key_data f) =? 32) eqn:El; btests; [by destruct Hno|done].
Qed.

(** The frame handler routes: a frame with status ok and a key of 32 bytes is
    added to the store of the subscriber whose number is the identifier modulo
    the number of subscribers, if one is bound, and changes no other store; any
    other frame changes nothing; the handler's invariant (ordered maps, stores
    within their bounds, no more samples than the bin holds) is kept.  With zero
    subscribers configured the first good frame ends the process. *)
Theorem handle_routes h now f :
  handler_ok h -> is_u64 (key_id f) -> 0 <= fh_num_subscribers h <= max_u16 ->
  0 <= fh_metric_bin_size h ->
  if decide (status f = QIXStatus_ok /\ zlen (key_data f) = 32)
  then
    if decide (fh_num_subscribers h = 0) then FrameHandler_handle h now f = Crash
    else exists update h', FrameHandler_handle h now f = Done (update, h') /\ handler_ok h' /\
      fh_num_subscribers h' = fh_num_subscribers h /\
      fh_metric_bin_size h' = fh_metric_bin_size h /\
      forall id, map_find (fh_subscribers h') id =
        if decide (id = subscriber_of h f)
        then option_map (fun s => QIXKeyStore_add_key s f) (map_find (fh_subscribers h) id)
        else map_find (fh_subscribers h) id
  else FrameHandler_handle h now f = Done (false, h).
Proof. intros. by apply handle_spec. Qed.

(** ** Two stations on one line

    Both stations see the keys a device delivers, and use them for handshakes:
    the initiator consumes its newest key and the responder looks the key up by
    the identifier it is told. *)

Inductive line_event := KeyArrives (time_i time_r : Z) (f : QIXFrame) | Handshake.

Definition line_step (id : Z) (hs : FrameHandler * FrameHandler) (ev : line_event)
  : outcome (FrameHandler * FrameHandler) :=
  let '(hi, hr) := hs in
  match ev with
  | KeyArrives time_i time_r f =>
      let* '(_, hi) := FrameHandler_handle hi time_i f in
      let* '(_, hr) := FrameHandler_handle hr time_r f in
      Done (hi, hr)
  | Handshake =>
      let '(record, hi) := source_consume_key id hi in
      match record with
      | None => Done (hi, hr)
      | Some record => Done (hi, (source_find_and_consume_key id hr (kr_id record)).2)
      end
  end.

Fixpoint line_run (id : Z) (hs : FrameHandler * FrameHandler) (events : list line_event)
  : outcome (FrameHandler * FrameHandler) :=
  match events with
  | [] => Done hs
  | ev :: events => let* hs := line_step id hs ev in line_run id hs events
  end.

Definition line_event_ok (ev : line_event) : Prop :=
  match ev with KeyArrives _ _ f => is_u64 (key_id f) | Handshake => True end.

(** The two handlers have the same store for the subscriber. *)
Record in_step (n id : Z) (s : QIXKeyStore) (hi hr : FrameHandler) : Prop := {
  step_handlers : handler_ok hi /\ handler_ok hr;
  step_stores : map_find (fh_subscribers hi) id = Some s /\ map_find (fh_subscribers hr) id = Some s;
  step_config : fh_num_subscribers hi = n /\ fh_num_subscribers hr = n /\
    0 <= fh_metric_bin_size hi /\ 0 <= fh_metric_bin_size hr;
}.

Lemma set_store_ok h id s :
  handler_ok h -> store_ok s -> handler_ok (fh_set_subscribers h (map_put (fh_subscribers h) id s)).
Proof.
  intros (Hm&Hs&Hrest) Hok. split; [by apply put_ok|]. split; [|done].
  intros j sj. cbn [fh_subscribers fh_set_subscribers]. rewrite find_put.
  destruct (j =? id); [by intros [= <-]|apply Hs].
Qed.

Lemma find_set_store h id s :
  map_find (fh_subscribers (fh_set_subscribers h (map_put (fh_subscribers h) id s))) id = Some s.
Proof. cbn [fh_subscribers fh_set_subscribers]. by rewrite find_put, Z.eqb_refl. Qed.

(** The responder's lookup of what the initiator consumes removes the same
    entry. *)
Lemma consume_and_find s r s' :
  store_ok s -> QIXKeyStore_consume_key s = (Some r, s') ->
  exists k, kr_key r = Some k /\ is_u64 (kr_id r) /\
    QIXKeyStore_find_and_consume_key s (kr_id r) = (Some k, s').
Proof.
  intros (Hm&_&Hr). unfold QIXKeyStore_consume_key, QIXKeyStore_find_and_consume_key.
  destruct (map_rbegin (key_map s)) as [[id r0]|] eqn:E; [|done]. intros [= <- <-].
  destruct (rbegin_find _ _ _ Hm E) as [Hf _]. pose proof (Hr _ _ Hf) as Hrec.
  destruct (record_handed _ _ Hrec) as (key&Hb&_). destruct Hrec as (Hid&Ei&_).
  unfold key_bytes in Hb. destruct (kr_key r0) as [k|] eqn:Ek; [|done].
  exists k. rewrite Ei, Hf, Ek. done.
Qed.

Lemma handled_in_step n id s h now f :
  handler_ok h -> is_u64 (key_id f) -> fh_num_subscribers h = n -> 1 <= n <= max_u16 ->
  0 <= fh_metric_bin_size h -> map_find (fh_subscribers h) id = Some s ->
  exists update h', FrameHandler_handle h now f = Done (update, h') /\ handler_ok h' /\
    fh_num_subscribers h' = n /\ 0 <= fh_metric_bin_size h' /\
    map_find (fh_subscribers h') id =
      Some (if decide ((status f = QIXStatus_ok /\ zlen (key_data f) = 32) /\ id = key_id f mod n)
            then QIXKeyStore_add_key s f else s).
Proof.
  intros Hh Hid Hn Hr Hb Hf. pose proof (handle_spec h now f Hh Hid) as H.
  rewrite Hn in H. specialize (H ltac:(lia) Hb).
  destruct (decide (status f = QIXStatus_ok /\ zlen (key_data f) = 32)) as [Hg|Hg].
  - destruct (decide (n = 0)); [lia|]. destruct H as (u&h'&->&Hh'&Hn'&Hb'&Hs).
    exists u, h'. split; [done|]. split; [done|]. split; [done|]. split; [by rewrite Hb'|].
    rewrite Hs. unfold subscriber_of. rewrite Hn, Hf.
    destruct (decide (id = key_id f mod n)) as [E|E], (decide (_ /\ _)) as [E'|E']; try done.
    + by destruct E'.
    + by destruct E' as [_ ?].
  - exists false, h. rewrite H. split; [done|]. split; [done|]. split; [done|]. split; [done|].
    rewrite Hf. by destruct (decide (_ /\ _)) as [[? _]|].
Qed.

(** A step keeps the two stations in step and never fails. *)
Lemma line_step_spec n id s hi hr ev :
  in_step n id s hi hr -> store_ok s -> 1 <= n <= max_u16 -> line_event_ok ev ->
  exists s' hi' hr', line_step id (hi, hr) ev = Done (hi', hr') /\ in_step n id s' hi' hr' /\ store_ok s'.
Proof.
  intros [[Hhi Hhr] [Fi Fr] (Ni&Nr&Bi&Br)] Hs Hn Hev. destruct ev as [ti tr f|]; cbn [line_step].
  - destruct (handled_in_step n id s hi ti f Hhi Hev Ni Hn Bi Fi) as (ui&hi'&->&Hhi'&Ni'&Bi'&Fi').
    destruct (handled_in_step n id s hr tr f Hhr Hev Nr Hn Br Fr) as (ur&hr'&->&Hhr'&Nr'&Br'&Fr').
    cbn [obind]. eexists _, hi', hr'. split; [done|]. split; [split; [done|split; [exact Fi'|exact Fr']|done]|].
    destruct Hhi' as (_&Hst&_). by eapply Hst.
  - unfold source_consume_key, source_find_and_consume_key. rewrite Fi, Fr.
    pose proof (consume_ok s Hs) as Hs'. pose proof (consume_and_find s) as Hboth.
    destruct (QIXKeyStore_consume_key s) as [[r|] s1] eqn:E; cbn [snd] in Hs'.
    + destruct (Hboth r s1 Hs eq_refl) as (k&_&_&->). cbn [snd].
      eexists s1, _, _. split; [reflexivity|]. split; [|done].
      split; [by split; apply set_store_ok|by split; apply find_set_store|done].
    + assert (s1 = s) as -> by (unfold QIXKeyStore_consume_key in E;
        destruct (map_rbegin (key_map s)) as [[? ?]|]; [done|by injection E]).
      eexists s, _, _. split; [reflexivity|]. split; [|done].
      split; [by split; [apply set_store_ok|]|by split; [apply find_set_store|]|done].
Qed.

Lemma line_run_spec n id events s hi hr :
  in_step n id s hi hr -> store_ok s -> 1 <= n <= max_u16 -> Forall line_event_ok events ->
  exists s' hi' hr', line_run id (hi, hr) events = Done (hi', hr') /\ in_step n id s' hi' hr' /\ store_ok s'.
Proof.
  intros Hin Hs Hn Hev. revert s hi hr Hin Hs. induction Hev as [|ev events Hev _ IH]; intros s hi hr Hin Hs.
  - by exists s, hi, hr.
  - destruct (line_step_spec n id s hi hr ev Hin Hs Hn Hev) as (s1&hi1&hr1&Hstep&Hin1&Hs1).
    cbn [line_run]. rewrite Hstep. cbn [obind]. by eapply IH.
Qed.

(** A station that has configured the source and bound one subscriber. *)
Definition station (n id max period bin now : Z) : outcome FrameHandler :=
  let* '(_, h) := bind_key_store (FrameHandler_new n period bin now) id max in Done h.

Lemma station_spec n id max period bin now :
  0 <= max -> 0 <= bin ->
  exists h, station n id max period bin now = Done h /\ handler_ok h /\
    map_find (fh_subscribers h) id = Some (QIXKeyStore_new max) /\
    fh_num_subscribers h = n /\ fh_metric_bin_size h = bin.
Proof.
  intros Hm Hb. eexists. split; [reflexivity|]. split; [|split; [apply find_set_store|done]].
  apply set_store_ok; [|by apply store_new_ok].
  split; [done|]. split; [done|]. by split.
Qed.

Section Line.
Context `{SER : Ser4cpp} (c : CryptoState) `{HB : !BackendOk c} `{HH : !HandshakeBackendOk c}.
Context {W : Type} (fw : frame_writer W) (inv : W -> Prop) (frame : W -> bytes -> bytes).
Context `{HW : !FrameWriterOk fw inv frame}.

Lemma in_step_shares n id s hi hr :
  in_step n id s hi hr -> store_ok s -> key_map s <> [] ->
  exists newest r key, map_rbegin (key_map s) = Some (newest, r) /\ key_bytes r = Some key /\
    qkd_key_shared (source_consume_key id) (source_find_and_consume_key id) hi hr key.
Proof.
  intros [_ [Fi Fr] _] Hs Hne. pose proof (consume_and_find s) as Hboth.
  destruct (map_rbegin (key_map s)) as [[newest r]|] eqn:E; [|by apply rbegin_none in E].
  unfold QIXKeyStore_consume_key in Hboth. rewrite E in Hboth.
  destruct (Hboth r _ Hs eq_refl) as (k&Hk&Hid&Hf). exists newest, r, (as_seq k).
  split; [done|]. split; [unfold key_bytes; by rewrite Hk|].
  exists r, k, k. unfold source_consume_key, source_find_and_consume_key. rewrite Fi, Fr.
  unfold QIXKeyStore_consume_key. rewrite E, Hf. done.
Qed.

(** C24: Stations on one key line agree: two stations that configure the same
    number of subscribers and bind the same subscriber with the same cache size,
    and then see the same frames (any frames, at their own times) interleaved with
    handshakes, never fail and always have the same keys; and as long as a key is
    cached, the next handshake with distributed keys completes, with session
    keys derived from the newest key.  There is at least one subscriber, neither the
    cache size nor the bin size of the metrics is negative, the limits of the sessions fit their fields and the frame writer takes
    messages of 64 bytes. *)
Theorem key_line_agreement n id max pi bi ti pr br tr events :
  1 <= n <= max_u16 -> 0 <= max -> 0 <= bi -> 0 <= br -> Forall line_event_ok events ->
  exists hi hr hi' hr' s,
    station n id max pi bi ti = Done hi /\ station n id max pr br tr = Done hr /\
    line_run id (hi, hr) events = Done (hi', hr') /\
    map_find (fh_subscribers hi') id = Some s /\ map_find (fh_subscribers hr') id = Some s /\
    (key_map s <> [] ->
     exists newest r key, map_rbegin (key_map s) = Some (newest, r) /\ key_bytes r = Some key /\
       forall h draw_i draw_r limits w,
         qi_key_source h = hi' -> qkd_initiator_ok c h -> limits_ok limits -> inv w ->
         64 <= fw_max_payload_size fw w ->
         completes c fw inv frame (QKDInitiator (source_consume_key id))
           (QKDResponder fw c (source_find_and_consume_key id)) (qkd_initiator_ok c)
           h hr' draw_i draw_r limits w (fun _ _ material => material = key)).
Proof.
  intros Hn Hmax Hbi Hbr Hev.
  destruct (station_spec n id max pi bi ti Hmax Hbi) as (hi&Ei&Hhi&Fi&Ni&Bi).
  destruct (station_spec n id max pr br tr Hmax Hbr) as (hr&Er&Hhr&Fr&Nr&Br).
  assert (in_step n id (QIXKeyStore_new max) hi hr) as Hin by (split; [done|done|by rewrite Bi, Br]).
  destruct (line_run_spec n id events _ hi hr Hin (store_new_ok max Hmax) Hn Hev)
    as (s&hi'&hr'&Hrun&Hin'&Hs).
  exists hi, hr, hi', hr', s. split; [done|]. split; [done|]. split; [done|].
  split; [apply Hin'|]. split; [apply Hin'|]. intros Hne.
  destruct (in_step_shares n id s hi' hr' Hin' Hs Hne) as (newest&r&key&E&Hb&Hsh).
  exists newest, r, key. split; [done|]. split; [done|].
  intros h draw_i draw_r limits w <- Hok Hl Hw Hfit. by apply (qkd_exchange c fw inv frame).
Qed.
End Line.

(** ** Concrete instances *)

Definition test_qix_frame (id b : Z) : QIXFrame := mkQIXFrame id (replicate 32 b) QIXStatus_ok.

Lemma keys_used_once_witness :
  exists s', store_run (QIXKeyStore_new 2)
    [AddKey (test_qix_frame 1 7); AddKey (test_qix_frame 2 8); FindKey 1; ConsumeKey; ConsumeKey] =
      ([(1, replicate 32 7); (2, replicate 32 8)], s') /\
    map_size (key_map s') <= 2 /\ NoDup [1; 2].
Proof.
  eexists. split; [reflexivity|].
  destruct (keys_used_once (QIXKeyStore_new 2)
    [AddKey (test_qix_frame 1 7); AddKey (test_qix_frame 2 8); FindKey 1; ConsumeKey; ConsumeKey]
    [] _ _ (store_new_ok 2 ltac:(lia))
    ltac:(repeat constructor; by vm_compute) ltac:(intros id r H; discriminate H) eq_refl)
    as (_&Hsize&_&Hn).
  split; [exact Hsize|]. apply Hn. apply NoDup_cons. split; [|apply NoDup_singleton].
  by intros ?%list_elem_of_singleton.
Defined.

Definition test_handler : FrameHandler :=
  fh_set_subscribers (FrameHandler_new 3 10 2 0) [(1, QIXKeyStore_new 2)].

Lemma handle_routes_witness :
  exists update h', FrameHandler_handle test_handler 5 (test_qix_frame 4 9) = Done (update, h') /\
    option_map (fun s => key_map s) (map_find (fh_subscribers h') 1) =
      Some [(4, KeyRecord_new 4 (replicate 32 9))].
Proof.
  assert (handler_ok test_handler) as Hh.
  { split; [done|]. split; [|by vm_compute]. intros id s. cbn.
    destruct (id =? 1); [|done]. intros [= <-]. by apply store_new_ok. }
  pose proof (handle_routes test_handler 5 (test_qix_frame 4 9) Hh ltac:(by vm_compute)
                ltac:(by vm_compute) ltac:(by vm_compute)) as H.
  destruct (decide _) as [_|Hn] in H; [|by destruct Hn].
  destruct (decide _) as [Hz|_] in H; [discriminate Hz|].
  destruct H as (u&h'&E&_&_&_&Hs). exists u, h'. split; [exact E|]. rewrite (Hs 1). reflexivity.
Defined.

Lemma key_line_agreement_witness :
  exists hi hr hi' hr' s,
    station 2 1 4 10 5 0 = Done hi /\ station 2 1 4 20 6 3 = Done hr /\
    line_run 1 (hi, hr) [KeyArrives 1 2 (test_qix_frame 1 7); KeyArrives 3 4 (test_qix_frame 3 8);
      Handshake] = Done (hi', hr') /\
    map_find (fh_subscribers hi') 1 = Some s /\ map_find (fh_subscribers hr') 1 = Some s.
Proof.
  destruct (key_line_agreement (SER := ser4cpp_reference) full_crypto LinkFrameWriter_ops
    LinkFrameWriter_inv LinkFrameWriter_frame 2 1 4 10 5 0 20 6 3
    [KeyArrives 1 2 (test_qix_frame 1 7); KeyArrives 3 4 (test_qix_frame 3 8); Handshake])
    as (hi&hr&hi'&hr'&s&H1&H2&H3&H4&H5&_); [by vm_compute..|repeat constructor; by vm_compute|].
  exists hi, hr, hi', hr', s. repeat split; assumption.
Defined.
