(* ===== verification/Metrics.v ===== *)
(** * The metrics of the QIX key source

    The floating-point part of [QIXQKDSource::FrameHandler]: mean and deviation of
    the time between keys and the entropy of the key bytes, which the handler logs
    when the bin of arrival times is full and the update period has passed.

    A [double] is an IEEE 754 binary64 number with rounding to nearest even, as
    the Standard Library's [SpecFloat] specifies it (one NaN); an expression is
    evaluated operation by operation, each rounded.  Times are the nanoseconds of
    [high_resolution_clock].  The libm function [log2] is a parameter; what is
    assumed of it is its documented value at zero.

    The theorems: until every byte value has been received, the logged entropy is
    NaN ([entropy_nan_until_all_seen]), so it is for the first seven keys of any
    source ([entropy_nan_first_keys]); with a bin of fewer than two samples mean
    and deviation are infinite; logged updates are further apart than the update
    period ([updates_spaced]). *)

From stdpp Require Import base numbers list sets.
From Stdlib Require Import Lia ZArith.
From Stdlib Require Import Floats.SpecFloat.
From S2P Require Import Prelude Ser4cpp QIX StdMap KeyStore.

(** ** Doubles *)

Definition double := spec_float.

Definition double_of_Z (n : Z) : double := binary_normalize 53 1024 n 0 false.
Definition dadd : double -> double -> double := SFadd 53 1024.
Definition dsub : double -> double -> double := SFsub 53 1024.
Definition dmul : double -> double -> double := SFmul 53 1024.
Definition ddiv : double -> double -> double := SFdiv 53 1024.
Definition dsqrt : double -> double := SFsqrt 53 1024.
Definition infinity : double := S754_infinity false.
Definition nan : double := S754_nan.

(** ** Mean and deviation *)

Section Pairs.
Context {A S : Type} (func : S -> A -> A -> S).

(** The loop of [for_each_pair], from [start] with [next] at the head of the rest. *)
Fixpoint pair_loop (start : A) (rest : list A) (s : S) : S :=
  match rest with
  | [] => s
  | next :: rest => pair_loop next rest (func s start next)
  end.

Definition for_each_pair (l : list A) (s : S) : S :=
  match l with
  | [] => s
  | start :: rest => pair_loop start rest s
  end.

Lemma for_each_pair_zip l s :
  for_each_pair l s = fold_left (fun s p => func s p.1 p.2) (zip l (tail l)) s.
Proof.
  destruct l as [|x l]; [done|]. cbn [for_each_pair tail]. revert x s.
  induction l as [|y l IH]; intros x s; [done|]. cbn. apply IH.
Qed.
End Pairs.

(** The conversion of nanoseconds to [duration<double>] divides by 10^9. *)
Definition interval_in_sec (t1 t2 : Z) : double :=
  ddiv (double_of_Z (t2 - t1)) (double_of_Z 1000000000).

Definition calc_mean_time_between_keys (h : FrameHandler) : double :=
  if zlen (fh_key_data_bin h) <? 2 then infinity
  else
    let sum := for_each_pair (fun sum k1 k2 => dadd sum (interval_in_sec k1 k2))
                 (fh_key_data_bin h) (double_of_Z 0) in
    ddiv sum (double_of_Z (zlen (fh_key_data_bin h) - 1)).

Definition calc_std_dev_of_time_between_keys (h : FrameHandler) (mean : double) : double :=
  if zlen (fh_key_data_bin h) <? 2 then infinity
  else
    let sum_of_squares :=
      for_each_pair (fun sum t1 t2 =>
          let diff := interval_in_sec t1 t2 in
          let diff_minus_mean := dsub diff mean in
          dadd sum (dmul diff_minus_mean diff_minus_mean))
        (fh_key_data_bin h) (double_of_Z 0) in
    dsqrt (ddiv sum_of_squares (double_of_Z (zlen (fh_key_data_bin h) - 1))).

(** ** Entropy and the update *)

(** The values of the three lines the handler logs. *)
Record metrics := mkMetrics { m_mean : double; m_std_dev : double; m_entropy : double }.

Section Entropy.
Variable log2 : double -> double.

Definition log256 (x : double) : double := ddiv (log2 x) (double_of_Z 8).

Definition calculate_shannon_entropy (h : FrameHandler) : double :=
  let frequencies := map (fun n => ddiv (double_of_Z n) (double_of_Z (fh_num_bytes h))) (fh_counts h) in
  SFopp (fold_left (fun sum f => dadd sum (dmul f (log256 f))) frequencies (double_of_Z 0)).

Definition metric_update (h : FrameHandler) : metrics :=
  let mean := calc_mean_time_between_keys h in
  let std_dev := calc_std_dev_of_time_between_keys h mean in
  mkMetrics mean std_dev (calculate_shannon_entropy h).

(** [handle] with the metrics it logs, if any. *)
Definition handle_and_log (h : FrameHandler) (now : Z) (frame : QIXFrame)
  : outcome (option metrics * FrameHandler) :=
  let* '(update, h) := FrameHandler_handle h now frame in
  Done (if update then Some (metric_update h) else None, h).

(** A run of the handler over the frames of a reader, with the times of the calls:
    the updates logged, with their times. *)
Fixpoint metrics_run (h : FrameHandler) (frames : list (Z * QIXFrame))
  : outcome (list (Z * metrics) * FrameHandler) :=
  match frames with
  | [] => Done ([], h)
  | (now, f) :: frames =>
      let* '(update, h) := handle_and_log h now f in
      let* '(logged, h) := metrics_run h frames in
      Done (match update with Some m => (now, m) :: logged | None => logged end, h)
  end.

(** Annex F of ISO C: log2(+-0) returns minus infinity. *)
Hypothesis log2_zero : forall s, log2 (S754_zero s) = S754_infinity true.

(** The frames the handler does not drop, and the bytes they add to the counts. *)
Definition accepted (f : QIXFrame) : bool :=
  bool_decide (status f = QIXStatus_ok) && (zlen (key_data f) =? 32).

Definition counted (frames : list (Z * QIXFrame)) : bytes :=
  concat (map (fun nf => if accepted nf.2 then key_data nf.2 else []) frames).

(** *** NaN *)

Lemma nan_stays l : fold_left (fun sum f => dadd sum (dmul f (log256 f))) l nan = nan.
Proof. by induction l. Qed.

Lemma dadd_nan_r x : dadd x nan = nan.
Proof. by destruct x. Qed.

(** The term of a byte value that never occurred: 0 times minus infinity, or 0
    divided by 0. *)
Lemma zero_term_nan d : let f := ddiv (double_of_Z 0) d in dmul f (log256 f) = nan.
Proof. destruct d as [s| | |s m e]; cbn -[log256]; unfold log256; cbn; by rewrite ?log2_zero. Qed.

Lemma nan_term_nan l s f :
  dmul f (log256 f) = nan -> f ∈ l ->
  fold_left (fun sum f => dadd sum (dmul f (log256 f))) l s = nan.
Proof.
  intros Hf (l1&l2&->)%list_elem_of_split. rewrite fold_left_app. cbn [fold_left].
  rewrite Hf, dadd_nan_r. apply nan_stays.
Qed.

Lemma entropy_nan h : 0 ∈ fh_counts h -> calculate_shannon_entropy h = nan.
Proof.
  intros H0. unfold calculate_shannon_entropy.
  rewrite (nan_term_nan _ _ (ddiv (double_of_Z 0) (double_of_Z (fh_num_bytes h)))); [done|apply zero_term_nan|].
  apply list_elem_of_fmap. by exists 0.
Qed.

(** *** Counting *)

Lemma count_byte_other counts b b' :
  0 <= b -> 0 <= b' -> b <> b' -> count_byte counts b !! Z.to_nat b' = counts !! Z.to_nat b'.
Proof.
  intros ? ? Hne. unfold count_byte. destruct (counts !! Z.to_nat b); [|done].
  apply list_lookup_insert_ne. lia.
Qed.

Lemma counts_unseen data counts b :
  Forall (Z.le 0) data -> 0 <= b -> b ∉ data ->
  fold_left count_byte data counts !! Z.to_nat b = counts !! Z.to_nat b.
Proof.
  intros Hd Hb. revert counts. induction Hd as [|x data Hx _ IH]; intros counts Hn; [done|].
  cbn [fold_left]. apply not_elem_of_cons in Hn as [Hne Hn]. rewrite IH by done.
  by apply count_byte_other.
Qed.

(** What one call does to the fields the metrics use. *)
Lemma handle_metrics h now f u h' :
  FrameHandler_handle h now f = Done (u, h') ->
  fh_metric_bin_size h' = fh_metric_bin_size h /\
  fh_metric_update_period h' = fh_metric_update_period h /\
  fh_counts h' = fold_left count_byte (if accepted f then key_data f else []) (fh_counts h) /\
  (u = false /\ fh_last_metric_update_time h' = fh_last_metric_update_time h \/
   u = true /\ zlen (fh_key_data_bin h') = fh_metric_bin_size h /\
   fh_last_metric_update_time h' = now /\
   fh_last_metric_update_time h + fh_metric_update_period h < now).
Proof.
  unfold FrameHandler_handle, accepted.
  destruct (bool_decide_reflect (status f <> QIXStatus_ok)) as [Hs|Hs].
  { intros [= <- <-]. rewrite bool_decide_eq_false_2 by done. cbn. auto 10. }
  destruct (zlen (key_data f) =? 32); cbn [negb]; [|intros [= <- <-]; rewrite andb_false_r; cbn; auto 10].
  rewrite bool_decide_eq_true_2 by (by apply dec_stable).
  destruct (fh_num_subscribers h =? 0); [done|].
  intros [= <- <-]. cbn. split; [done|]. split; [done|]. split; [done|].
  match goal with |- context [if ?u then now else _] => destruct u eqn:E end; [right|by left].
  btests. split; [done|]. lia.
Qed.

Definition bytes_frame (f : QIXFrame) : Prop := Forall is_byte (key_data f).

Lemma run_unseen b frames h logged h' :
  0 <= b -> Forall (fun nf => bytes_frame nf.2) frames -> b ∉ counted frames ->
  fh_counts h !! Z.to_nat b = Some 0 -> metrics_run h frames = Done (logged, h') ->
  Forall (fun tm => m_entropy tm.2 = nan) logged.
Proof.
  intros Hb Hf. revert h logged. induction Hf as [|[now f] frames Hbf _ IH]; intros h logged Hn H0.
  - cbn. intros [= <- _]. constructor.
  - cbn [metrics_run handle_and_log]. unfold handle_and_log, counted in *. cbn [map concat] in Hn.
    apply not_elem_of_app in Hn as [Hn1 Hn2]. cbn [snd] in *.
    destruct (FrameHandler_handle h now f) as [[u h1]| | |] eqn:E; [|done..]. cbn [obind].
    destruct (handle_metrics _ _ _ _ _ E) as (_&_&Hc&_).
    assert (fh_counts h1 !! Z.to_nat b = Some 0) as H1.
    { rewrite Hc, counts_unseen; [done| |done|done]. destruct (accepted f); [|done].
      eapply Forall_impl; [exact Hbf|]. unfold is_byte. intros x Hx. lia. }
    destruct (metrics_run h1 frames) as [[l2 h2]| | |] eqn:E2; [|done..]. cbn [obind]. intros [= <- <-].
    specialize (IH _ _ Hn2 H1 E2). destruct u; [|done]. constructor; [|done].
    apply entropy_nan. by apply list_elem_of_lookup_2 in H1.
Qed.

(** C40: The logged entropy is NaN until every byte value has been received: whatever
    frames the reader delivers to a new source, and whenever it delivers them, if
    some byte value does not occur in the keys accepted, then each entropy logged
    is NaN (the term of that value is zero times minus infinity). *)
Theorem entropy_nan_until_all_seen n period bin start frames b logged h' :
  0 <= b < 256 -> Forall (fun nf => bytes_frame nf.2) frames -> b ∉ counted frames ->
  metrics_run (FrameHandler_new n period bin start) frames = Done (logged, h') ->
  Forall (fun tm => m_entropy tm.2 = nan) logged.
Proof.
  intros Hb Hf Hn. apply (run_unseen b); [lia|done|done|].
  cbn [FrameHandler_new fh_counts]. apply lookup_replicate_2. lia.
Qed.

(** Fewer than 256 bytes miss a value. *)
Lemma some_byte_unseen (data : bytes) : zlen data < 256 -> exists b, 0 <= b < 256 /\ b ∉ data.
Proof.
  intros Hl. destruct (Forall_Exists_dec (fun b => b ∈ data) (fun b => b ∉ data)
                         (fun b => decide (b ∈ data)) (seqZ 0 256)) as [Hall|Hex].
  - exfalso. assert (length (seqZ 0 256) <= length data)%nat as Hle.
    { apply submseteq_length, NoDup_submseteq; [apply NoDup_seqZ|]. intros x Hx.
      by rewrite Forall_forall in Hall; apply Hall. }
    rewrite length_seqZ in Hle. unfold zlen in Hl. lia.
  - apply Exists_exists in Hex as (b&Hin&Hn). exists b. split; [|done].
    apply elem_of_seqZ in Hin. lia.
Qed.

Lemma counted_length frames : zlen (counted frames) = 32 * zlen (filter (fun nf => accepted nf.2) frames).
Proof.
  unfold counted. induction frames as [|[now f] frames IH]; [done|]. cbn [map concat snd].
  rewrite zlen_app, IH, filter_cons. cbn [snd]. destruct (accepted f) eqn:E.
  - rewrite decide_True by done. apply andb_true_iff in E as [_ E]. btests. rewrite zlen_cons. lia.
  - rewrite decide_False by (intros []). change (zlen (@nil Z)) with 0. lia.
Qed.

(** The first seven keys: fewer than eight accepted frames cannot contain every
    byte value, so every update a new source logs over them has a NaN entropy. *)
Theorem entropy_nan_first_keys n period bin start frames logged h' :
  Forall (fun nf => bytes_frame nf.2) frames ->
  zlen (filter (fun nf => accepted nf.2) frames) < 8 ->
  metrics_run (FrameHandler_new n period bin start) frames = Done (logged, h') ->
  Forall (fun tm => m_entropy tm.2 = nan) logged.
Proof.
  intros Hf Hl. destruct (some_byte_unseen (counted frames)) as (b&Hb&Hn); [rewrite counted_length; lia|].
  apply (run_unseen b); [lia|done|done|]. cbn [FrameHandler_new fh_counts]. apply lookup_replicate_2. lia.
Qed.

(** *** When the metrics are logged *)

(** Times in a list are further apart than [period], the first one after [last]. *)
Fixpoint spaced (period last : Z) (times : list Z) : Prop :=
  match times with
  | [] => True
  | t :: times => last + period < t /\ spaced period t times
  end.

(** Updates are logged further apart than the update period, the first one that
    long after the construction; and an update of a bin of fewer than two samples
    has an infinite mean and an infinite deviation. *)
Theorem updates_spaced h frames logged h' :
  metrics_run h frames = Done (logged, h') ->
  spaced (fh_metric_update_period h) (fh_last_metric_update_time h) (map fst logged) /\
  (fh_metric_bin_size h < 2 ->
   Forall (fun tm => m_mean tm.2 = infinity /\ m_std_dev tm.2 = infinity) logged).
Proof.
  revert h logged. induction frames as [|[now f] frames IH]; intros h logged.
  - intros [= <- _]. by split.
  - cbn [metrics_run]. unfold handle_and_log.
    destruct (FrameHandler_handle h now f) as [[u h1]| | |] eqn:E; [|done..]. cbn [obind].
    destruct (handle_metrics _ _ _ _ _ E) as (Hb&Hp&_&Hu).
    destruct (metrics_run h1 frames) as [[l2 h2]| | |] eqn:E2; [|done..]. cbn [obind]. intros [= <- <-].
    destruct (IH _ _ E2) as [Hs Hi]. rewrite Hb, Hp in *.
    destruct Hu as [[-> Hl]|(->&Hz&Hl&Ht)]; rewrite Hl in Hs; [done|]. split; [done|].
    intros H2. constructor; [|by apply Hi]. cbn.
    unfold calc_mean_time_between_keys, calc_std_dev_of_time_between_keys.
    destruct (zlen (fh_key_data_bin h1) <? 2) eqn:E3; btests; [done|lia].
Qed.
End Entropy.

(** ** Concrete instances *)

(** A [log2] with the documented value at zero, exact at 1/256. *)
Definition test_log2 (x : double) : double :=
  match x with
  | S754_zero _ => S754_infinity true
  | _ => double_of_Z (-8)
  end.

(** Every byte value received once: an entropy of one byte per byte. *)
Example uniform_entropy :
  calculate_shannon_entropy test_log2
    (mkFrameHandler [] 256 (replicate 256 1) 1 0 2 0 []) = double_of_Z 1.
Proof. vm_compute. reflexivity. Qed.

Example mean_of_two_intervals :
  calc_mean_time_between_keys
    (mkFrameHandler [] 0 [] 1 0 3 0 [0; 1000000000; 4000000000]) = double_of_Z 2.
Proof. vm_compute. reflexivity. Qed.

Definition test_frames : list (Z * QIXFrame) :=
  [(5, test_qix_frame 1 7); (20, test_qix_frame 2 8); (40, test_qix_frame 3 9)].

Lemma entropy_nan_until_all_seen_witness :
  exists logged h', metrics_run test_log2 (FrameHandler_new 1 10 2 0) test_frames = Done (logged, h') /\
    map fst logged = [20; 40] /\ Forall (fun tm => m_entropy tm.2 = nan) logged.
Proof.
  eexists _, _. split; [vm_compute; reflexivity|]. split; [reflexivity|].
  eapply (entropy_nan_until_all_seen test_log2 ltac:(done) 1 10 2 0 test_frames 6);
    [lia| |rewrite <- (bool_decide_spec _); vm_compute; done|vm_compute; reflexivity].
  repeat constructor; by vm_compute.
Defined.

Lemma entropy_nan_first_keys_witness :
  exists logged h', metrics_run test_log2 (FrameHandler_new 1 10 2 0) test_frames = Done (logged, h') /\
    map fst logged = [20; 40] /\ Forall (fun tm => m_entropy tm.2 = nan) logged.
Proof.
  eexists _, _. split; [vm_compute; reflexivity|]. split; [reflexivity|].
  eapply (entropy_nan_first_keys test_log2 ltac:(done) 1 10 2 0 test_frames);
    [repeat constructor; by vm_compute|by vm_compute|vm_compute; reflexivity].
Defined.

Lemma updates_spaced_witness :
  exists logged h', metrics_run test_log2 (FrameHandler_new 1 10 1 0) test_frames = Done (logged, h') /\
    spaced 10 0 (map fst logged) /\ length logged = 2%nat /\
    Forall (fun tm => m_mean tm.2 = infinity /\ m_std_dev tm.2 = infinity) logged.
Proof.
  eexists _, _. split; [vm_compute; reflexivity|].
  destruct (updates_spaced test_log2 (FrameHandler_new 1 10 1 0) test_frames _ _
              ltac:(vm_compute; reflexivity)) as [Hs Hi].
  split; [exact Hs|]. split; [reflexivity|]. by apply Hi.
Defined.
