(* ===== verification/Emulator.v ===== *)
(** * The QIX emulator

    [exe/qix-emulator/main.cpp]: a program that writes QIX frames to serial ports
    in place of a key distribution device, with random keys, with keys given as
    lines of bits on the standard input, or with keys derived from the time.

    The output of a run is the list of writes, each a port and the bytes; the
    clock readings and the random draws are inputs.  The frame count bounds the
    loops: the readings of the clock are a list with one entry per iteration. *)

From stdpp Require Import base numbers list strings.
From Stdlib Require Import Lia ZArith.
From S2P Require Import Prelude Ser4cpp Enums CRC Crypto SessionMode Session QIX.

Definition get_status_string (s : QIXStatus) : string :=
  match s with
  | QIXStatus_ok => "ok"
  | QIXStatus_key_compromised => "compromised"
  | QIXStatus_undefined => "undefined"
  end.

Definition get_key_rate (rate : option Z) : Z := match rate with Some r => r | None => 1 end.

Definition get_frame_count (count : option Z) : Z :=
  match count with Some n => n | None => max_u64 end.

(** Time points are nanoseconds since the epoch. *)
Definition to_ms_since_epoch (time : Z) : Z := u64 (duration_cast_ms time).

(** The writes of a run, in order. *)
Abbreviation port_writes := (list (string * bytes)).

Section Emulator.
Context `{SER : Ser4cpp} (c : CryptoState).

(** [for (const auto& writer : writers) writer->write(frame)] *)
Fixpoint write_all (ports : list string) (frame : QIXFrame) : outcome port_writes :=
  match ports with
  | [] => Done []
  | port :: ports =>
      let* b := QIXFrameWriter_write frame (replicate 47 0) in
      let* rest := write_all ports frame in
      Done ((port, b) :: rest)
  end.

(** *** Random keys *)

(** One iteration: [start] and [stop] are the two readings of the clock; the
    result is the time the thread sleeps. *)
Definition random_frame_sleep (frames_per_sec start stop : Z) : Z :=
  let frame_delay := ms (Z.quot 1000 frames_per_sec) in
  let elapsed := start - stop in
  if elapsed <? frame_delay then frame_delay - elapsed else 0.

Fixpoint random_frames (ports : list string) (frames_per_sec i : Z) (draw : nat) (key : bytes)
    (times : list (Z * Z)) : outcome (port_writes * list Z) :=
  match times with
  | [] => Done ([], [])
  | (start, stop) :: times =>
      let* key := Crypto_gen_random c draw key in
      let* out := write_all ports (mkQIXFrame i key QIXStatus_ok) in
      let* '(more, sleeps) := random_frames ports frames_per_sec (u64 (i + 1)) (S draw) key times in
      Done (out ++ more, random_frame_sleep frames_per_sec start stop :: sleeps)
  end.

Definition write_random_frames (ports : list string) (frames_per_sec : Z) (times : list (Z * Z))
  : outcome (port_writes * list Z) :=
  if is_nil ports then Throw
  else if frames_per_sec =? 0 then Throw
  else random_frames ports frames_per_sec 0 0 (replicate 32 0) times.

(** *** Keys from the standard input *)

(** A character of a line: ['1'], ['0'] or an error. *)
Definition read_bit (sum : Z) (bit : Z) (ch : Z) : option Z :=
  if ch =? 49 then Some (u8 (Z.lor sum (Z.shiftl 1 (7 - bit))))
  else if ch =? 48 then Some sum
  else None.

(** The characters of one byte, from [bit] on. *)
Fixpoint read_bits (sum bit : Z) (chars : list Z) : option Z :=
  match chars with
  | [] => Some sum
  | ch :: chars =>
      match read_bit sum bit ch with
      | Some sum => read_bits sum (bit + 1) chars
      | None => None
      end
  end.

Definition read_byte (line : list Z) (byte : Z) : option Z :=
  read_bits 0 0 (ztake 8 (zdrop (byte * 8) line)).

(** [n] bytes of the key, from [byte] on. *)
Fixpoint read_key_bytes (line : list Z) (byte : Z) (n : nat) : option bytes :=
  match n with
  | O => Some []
  | S n =>
      match read_byte line byte with
      | Some b =>
          match read_key_bytes line (byte + 1) n with
          | Some bs => Some (b :: bs)
          | None => None
          end
      | None => None
      end
  end.

(** The exit code and the writes. *)
Fixpoint frames_from_lines (ports : list string) (key_id : Z) (lines : list (list Z))
  : outcome (Z * port_writes) :=
  match lines with
  | [] => Done (0, [])
  | line :: lines =>
      if negb (zlen line =? 256) then Done (-1, [])
      else
        match read_key_bytes line 0 32 with
        | None => Done (-1, [])
        | Some key =>
            let frame := mkQIXFrame key_id key QIXStatus_ok in
            let* out := write_all ports frame in
            let* '(code, more) := frames_from_lines ports (u64 (key_id + 1)) lines in
            Done (code, out ++ more)
        end
  end.

Definition write_frames_from_std_in (ports : list string) (lines : list (list Z))
  : outcome (Z * port_writes) := frames_from_lines ports 0 lines.

(** *** Keys from the time *)

(** The time the thread sleeps until. *)
Definition next_modulo (now ms_modulo : Z) : Z :=
  now + ms (ms_modulo - Z.rem (to_ms_since_epoch now) ms_modulo).

Definition time_based_frame (key_buffer : BufferBase) (now ms_modulo : Z) : outcome (QIXFrame * BufferBase) :=
  let key_id := to_ms_since_epoch (next_modulo now ms_modulo) in
  let key_id_buffer := w_buf (put_int UInt64 (WSeq (replicate 8 0) 0) key_id) in
  let* key_buffer := Crypto_hash_sha256 c [key_id_buffer] key_buffer in
  Done (mkQIXFrame key_id (as_seq key_buffer) QIXStatus_ok, key_buffer).

Fixpoint time_based_frames (ports : list string) (ms_modulo : Z) (key_buffer : BufferBase)
    (times : list Z) : outcome port_writes :=
  match times with
  | [] => Done []
  | now :: times =>
      let* '(frame, key_buffer) := time_based_frame key_buffer now ms_modulo in
      let* out := write_all ports frame in
      let* more := time_based_frames ports ms_modulo key_buffer times in
      Done (out ++ more)
  end.

Definition write_time_based_frames (ports : list string) (ms_modulo : Z) (times : list Z)
  : outcome port_writes :=
  if is_nil ports then Throw
  else if ms_modulo <? 100 then Throw
  else time_based_frames ports ms_modulo buffer_empty times.
End Emulator.

(** ** The bits of a line *)

Definition bit_value (ch : Z) : Z := if ch =? 49 then 1 else 0.
Definition is_bit (ch : Z) : Prop := ch = 48 \/ ch = 49.

(** The value of the line as a binary number. *)
Fixpoint line_value (acc : Z) (line : list Z) : Z :=
  match line with
  | [] => acc
  | ch :: line => line_value (2 * acc + bit_value ch) line
  end.

Lemma line_value_app acc a b : line_value acc (a ++ b) = line_value (line_value acc a) b.
Proof. revert acc. induction a as [|ch a IH]; intros acc; [done|]. apply IH. Qed.

Lemma line_value_acc acc line : line_value acc line = acc * 2 ^ zlen line + line_value 0 line.
Proof.
  revert acc. induction line as [|ch line IH]; intros acc; [cbn [line_value]; change (zlen (@nil Z)) with 0; lia|].
  cbn [line_value]. rewrite IH, (IH (2 * 0 + _)), zlen_cons.
  rewrite Z.pow_add_r by (pose proof (zlen_nonneg line); lia). lia.
Qed.

(** Eight characters are one byte, the first character its highest bit. *)
Lemma read_bits_byte chars :
  length chars = 8%nat -> Forall is_bit chars ->
  read_bits 0 0 chars = Some (line_value 0 chars) /\ is_byte (line_value 0 chars).
Proof.
  intros Hl Hb. do 8 (destruct chars as [|? chars]; [done|]). destruct chars; [|done]. clear Hl.
  repeat (apply Forall_cons in Hb as [[-> | ->] Hb]); (split; [reflexivity|by vm_compute]).
Qed.

Lemma read_bits_only sum bit chars v : read_bits sum bit chars = Some v -> Forall is_bit chars.
Proof.
  revert sum bit. induction chars as [|ch chars IH]; intros sum bit; cbn; [constructor|].
  unfold read_bit. destruct (ch =? 49) eqn:E1; btests.
  - intros H. constructor; [by right|by eapply IH].
  - destruct (ch =? 48) eqn:E2; btests; [|done]. intros H. constructor; [by left|by eapply IH].
Qed.

Lemma read_key_spec line byte n :
  0 <= byte -> 8 * Z.of_nat n <= zlen (zdrop (byte * 8) line) ->
  Forall is_bit (ztake (8 * Z.of_nat n) (zdrop (byte * 8) line)) ->
  exists key, read_key_bytes line byte n = Some key /\ zlen key = Z.of_nat n /\ all_bytes key /\
    be_value key = line_value 0 (ztake (8 * Z.of_nat n) (zdrop (byte * 8) line)).
Proof.
  revert byte. induction n as [|n IH]; intros byte Hb Hl Hbits.
  - exists []. repeat split; constructor.
  - set (rest := zdrop (byte * 8) line) in *.
    assert (zdrop ((byte + 1) * 8) line = zdrop 8 rest) as Er
      by (subst rest; rewrite zdrop_zdrop by lia; f_equal; lia).
    assert (ztake (8 * Z.of_nat (S n)) rest = ztake 8 rest ++ ztake (8 * Z.of_nat n) (zdrop 8 rest)) as Es.
    { rewrite <- (ztake_zdrop 8 rest) at 1. rewrite ztake_app_ge by (rewrite zlen_ztake; lia).
      f_equal. f_equal. rewrite zlen_ztake; lia. }
    rewrite Es in *. apply Forall_app in Hbits as [H8 Hbits].
    destruct (read_bits_byte (ztake 8 rest)) as [Eb Hbyte]; [|done|].
    { pose proof (zlen_ztake 8 rest ltac:(lia)) as El. unfold zlen in *. lia. }
    destruct (IH (byte + 1)) as (key&Ek&Hkl&Hkb&Hkv); [lia|rewrite Er, zlen_zdrop; lia|by rewrite Er|].
    exists (line_value 0 (ztake 8 rest) :: key). cbn [read_key_bytes]. unfold read_byte. fold rest.
    rewrite Eb, Ek. split; [done|]. rewrite zlen_cons, Hkl. split; [lia|]. split; [by constructor|].
    rewrite be_value_cons, Hkv, Er, line_value_app, (line_value_acc (line_value 0 _)). f_equal. f_equal.
    assert (zlen (ztake (8 * Z.of_nat n) (zdrop 8 rest)) = 8 * Z.of_nat n) as ->
      by (rewrite zlen_ztake, zlen_zdrop; lia).
    rewrite Hkl. rewrite (Z.pow_mul_r 2 8) by lia. done.
Qed.

Lemma read_key_only line byte n key :
  0 <= byte -> read_key_bytes line byte n = Some key ->
  Forall is_bit (ztake (8 * Z.of_nat n) (zdrop (byte * 8) line)).
Proof.
  revert byte key. induction n as [|n IH]; intros byte key Hb H; [constructor|].
  cbn [read_key_bytes] in H. unfold read_byte in H.
  destruct (read_bits 0 0 _) as [b|] eqn:Eb; [|done]. apply read_bits_only in Eb.
  destruct (read_key_bytes line (byte + 1) n) as [bs|] eqn:Ek; [|done].
  apply IH in Ek; [|lia]. replace ((byte + 1) * 8) with (byte * 8 + 8) in Ek by lia.
  rewrite <- zdrop_zdrop in Ek by lia. set (rest := zdrop (byte * 8) line) in *.
  rewrite <- (ztake_zdrop 8 rest). destruct (decide (zlen rest <= 8)) as [Hs|Hs].
  - rewrite (zdrop_ge 8 rest), app_nil_r by done. rewrite (ztake_ge 8 rest) in * by done.
    by apply Forall_ztake.
  - rewrite ztake_app_ge by (rewrite zlen_ztake; lia). apply Forall_app. split; [done|].
    rewrite zlen_ztake by lia. replace (8 * Z.of_nat (S n) - _) with (8 * Z.of_nat n) by lia. done.
Qed.

Definition good_line (line : list Z) : Prop := zlen line = 256 /\ Forall is_bit line.

Lemma line_key line :
  good_line line ->
  exists key, read_key_bytes line 0 32 = Some key /\ zlen key = 32 /\ all_bytes key /\
    be_value key = line_value 0 line.
Proof.
  intros [Hl Hb]. destruct (read_key_spec line 0 32) as (key&E&Hk&Hkb&Hv).
  - lia.
  - rewrite zdrop_0, Hl. done.
  - rewrite zdrop_0. by apply Forall_ztake.
  - exists key. rewrite zdrop_0, ztake_ge in Hv by (rewrite Hl; done). done.
Qed.

Lemma bad_line_refused line :
  zlen line = 256 -> ~ good_line line -> read_key_bytes line 0 32 = None.
Proof.
  intros Hl Hn. destruct (read_key_bytes line 0 32) as [key|] eqn:E; [|done].
  destruct Hn. split; [done|]. apply read_key_only in E; [|lia].
  by rewrite zdrop_0, ztake_ge in E by (rewrite Hl; done).
Qed.

Section Runs.
Context `{SER : Ser4cpp} (c : CryptoState).

Lemma write_all_done ports id key :
  zlen key = 32 -> all_bytes key -> is_u64 id ->
  write_all ports (mkQIXFrame id key QIXStatus_ok) = Done (map (fun p => (p, qix_encode id key)) ports).
Proof.
  intros Hk Hb Hid. induction ports as [|p ports IH]; [done|]. cbn [write_all map].
  rewrite written_bytes by done. cbn [obind]. by rewrite IH.
Qed.

(** The key of a line, and the writes of a run over such keys. *)
Definition key_of (line : list Z) (key : bytes) : Prop :=
  zlen key = 32 /\ all_bytes key /\ be_value key = line_value 0 line.

Fixpoint writes_from (ports : list string) (id : Z) (keys : list bytes) : port_writes :=
  match keys with
  | [] => []
  | key :: keys => map (fun p => (p, qix_encode id key)) ports ++ writes_from ports (id + 1) keys
  end.

(** Lines of bits, then the end of the input or a line of another kind. *)
Definition rest_code (rest : list (list Z)) : Z := if is_nil rest then 0 else -1.

Definition stops (rest : list (list Z)) : Prop :=
  match rest with [] => True | line :: _ => ~ good_line line end.

Lemma frames_from_lines_spec ports id lines rest :
  Forall good_line lines -> stops rest -> 0 <= id -> id + zlen lines <= max_u64 ->
  exists keys, Forall2 key_of lines keys /\
    frames_from_lines ports id (lines ++ rest) = Done (rest_code rest, writes_from ports id keys).
Proof.
  intros Hlines Hrest. revert id. induction Hlines as [|line lines Hline _ IH]; intros id Hid Hmax.
  - exists []. split; [constructor|]. cbn [app]. destruct rest as [|bad rest]; [done|]. cbn [stops frames_from_lines] in *.
    destruct (zlen bad =? 256) eqn:E; btests; [|done]. cbn [negb].
    by rewrite bad_line_refused.
  - rewrite zlen_cons in Hmax. pose proof (zlen_nonneg lines).
    destruct (line_key line Hline) as (key&Ek&Hkl&Hkb&Hkv).
    destruct (IH (id + 1)) as (keys&HF&E); [lia|lia|].
    exists (key :: keys). split; [by constructor|]. cbn [app frames_from_lines].
    destruct Hline as [Hl _]. rewrite Hl. cbn [Z.eqb Pos.eqb negb]. rewrite Ek.
    rewrite write_all_done; [|done|done|unfold is_u64; lia]. cbn [obind].
    unfold u64, max_u64 in *. rewrite Z.mod_small by lia. rewrite E. done.
Qed.

(** The bytes of one port. *)
Lemma writes_from_frames p id keys :
  0 <= id -> id + zlen keys <= max_u64 -> Forall (fun k => zlen k = 32 /\ all_bytes k) keys ->
  qix_frames (concat (map snd (writes_from [p] id keys))) =
    map delivered (zip (seqZ id (zlen keys)) keys).
Proof.
  intros Hid Hmax Hk. assert (forall t, qix_frames (concat (map snd (writes_from [p] id keys)) ++ t) =
    map delivered (zip (seqZ id (zlen keys)) keys) ++ qix_frames t) as H;
    [|specialize (H []); rewrite !app_nil_r in H; exact H].
  revert id Hid Hmax. induction Hk as [|key keys [Hl Hb] _ IH]; intros id Hid Hmax t; [done|].
  rewrite zlen_cons in *. pose proof (zlen_nonneg keys).
  cbn [writes_from map concat app snd]. rewrite (seqZ_cons id) by lia. cbn [zip_with map].
  replace (Z.pred (1 + zlen keys)) with (zlen keys) by lia.
  change (Z.succ id) with (id + 1).
  destruct (encode_frame id key Hl Hb) as (Hel&Hea&Hei); [unfold is_u64; lia|].
  rewrite <- app_assoc, frames_take, Hei, IH by (done || lia). done.
Qed.

Lemma stdin_frames p lines rest :
  Forall good_line lines -> stops rest -> zlen lines <= max_u64 ->
  exists keys out, Forall2 key_of lines keys /\
    write_frames_from_std_in [p] (lines ++ rest) = Done (rest_code rest, out) /\
    qix_frames (concat (map snd out)) = map delivered (zip (seqZ 0 (zlen lines)) keys) /\
    out = writes_from [p] 0 keys.
Proof.
  intros Hl Hr Hmax. destruct (frames_from_lines_spec [p] 0 lines rest Hl Hr) as (keys&HF&E); [lia|lia|].
  exists keys, (writes_from [p] 0 keys). split; [done|]. split; [done|]. split; [|done].
  assert (zlen keys = zlen lines) as El by (apply Forall2_length in HF; unfold zlen; lia).
  rewrite writes_from_frames; [by rewrite El|lia|lia|].
  eapply Forall2_Forall_r; [exact HF|]. eapply Forall_impl; [exact Hl|]. by intros line _ key (?&?&?).
Qed.

(** Lines of bits become keys: when the input is lines of 256 characters '0'
    and '1', the emulator writes to its port frames that a reader finds as
    exactly one intact frame per line, numbered from 0, whose key is the binary
    number of the line; at the first line of another length or with another
    character it stops with exit code -1, having written the frames of the
    lines before. *)
Theorem stdin_keys_written p lines rest :
  Forall good_line lines -> stops rest -> zlen lines <= max_u64 ->
  exists keys out, Forall2 key_of lines keys /\
    write_frames_from_std_in [p] (lines ++ rest) = Done (rest_code rest, out) /\
    Forall (fun w => w.1 = p) out /\
    qix_frames (concat (map snd out)) = map delivered (zip (seqZ 0 (zlen lines)) keys).
Proof.
  intros Hl Hr Hmax. destruct (stdin_frames p lines rest Hl Hr Hmax) as (keys&out&HF&E&Hq&Ho).
  exists keys, out. split; [done|]. split; [done|]. split; [|done]. rewrite Ho.
  clear. generalize 0. induction keys as [|k keys IH]; intros id; [constructor|].
  constructor; [done|apply IH].
Qed.

(** The millisecond the keys of a period are named after. *)
Definition period_id (now_ms ms_modulo : Z) : Z := (now_ms / ms_modulo + 1) * ms_modulo.

Lemma next_modulo_ms now ms_modulo :
  0 <= now -> 100 <= ms_modulo <= max_u32 -> now / 1000000 + ms_modulo <= max_u64 ->
  to_ms_since_epoch (next_modulo now ms_modulo) = period_id (now / 1000000) ms_modulo.
Proof.
  intros Hn Hm Hmax. unfold next_modulo, to_ms_since_epoch, duration_cast_ms, u64, ms, max_u64, max_u32 in *.
  assert (0 <= now / 1000000) by (apply Z.div_pos; lia).
  rewrite (Z.quot_div_nonneg now) by lia. rewrite (Z.mod_small (now / 1000000)) by lia.
  rewrite Z.rem_mod_nonneg by lia. set (q := now / 1000000) in *.
  pose proof (Z.mod_pos_bound q ms_modulo). pose proof (Z.div_mod q ms_modulo ltac:(lia)).
  rewrite Z.quot_div_nonneg by lia.
  rewrite (Z.add_comm now), Z.div_add_l by lia. fold q. unfold period_id.
  rewrite Z.mod_small by lia. lia.
Qed.

Lemma key_id_bytes id : is_u64 id -> w_buf (put_int UInt64 (WSeq (replicate 8 0) 0) id) = be_bytes 8 id.
Proof.
  intros Hid. rewrite filled_start, put_int_filled; [|by apply int_ok_u64|done].
  cbn [app]. apply filled_full. by rewrite zlen_be_bytes.
Qed.

(** Emulators synchronized by time deliver the same keys: the frame
    written for a reading of the clock is named after the first multiple of the
    period after it and its key is the SHA-256 of that name, so that two emulators
    with the same period write the same bytes whenever their clocks show the same
    period, whatever keys they wrote before. *)
Theorem time_based_keys_agree `{HB : !BackendOk c} key_buffer now ms_modulo :
  supports_sha256 c = true -> buffer_ok key_buffer ->
  0 <= now -> 100 <= ms_modulo <= max_u32 -> now / 1000000 + ms_modulo <= max_u64 ->
  let id := period_id (now / 1000000) ms_modulo in
  now / 1000000 < id <= now / 1000000 + ms_modulo /\ id mod ms_modulo = 0 /\
  exists key_buffer',
    time_based_frame c key_buffer now ms_modulo =
      Done (mkQIXFrame id (sha256 (be_bytes 8 id)) QIXStatus_ok, key_buffer') /\
    buffer_ok key_buffer'.
Proof.
  intros Hs Hk Hn Hm Hmax id.
  assert (0 <= now / 1000000) by (apply Z.div_pos; lia).
  pose proof (Z.mod_pos_bound (now / 1000000) ms_modulo ltac:(lia)).
  pose proof (Z.div_mod (now / 1000000) ms_modulo ltac:(lia)).
  assert (now / 1000000 < id <= now / 1000000 + ms_modulo) as Hid by (unfold id, period_id; lia).
  split; [done|]. split; [unfold id, period_id; by rewrite Z.mod_mul by lia|].
  unfold time_based_frame. rewrite next_modulo_ms by done. fold id.
  rewrite key_id_bytes by (unfold is_u64; lia).
  rewrite (hash_done c) by done. cbn [obind concat]. rewrite app_nil_r.
  eexists. rewrite as_seq_stored by (done || apply sha256_length). split; [reflexivity|].
  unfold buffer_ok, set_length, buffer_store in *. cbn [buf_data].
  rewrite overwrite_length; [done|done|]. rewrite Hk, sha256_length. done.
Qed.

(** The delay of the random mode counts the time of an iteration with the wrong
    sign: an iteration that takes [stop - start] and then sleeps lasts the frame
    delay and twice that time. *)
Lemma random_frame_period frames_per_sec start stop :
  1 <= frames_per_sec -> start <= stop ->
  stop - start + random_frame_sleep frames_per_sec start stop =
    ms (Z.quot 1000 frames_per_sec) + 2 * (stop - start).
Proof.
  intros Hf Ht. unfold random_frame_sleep.
  assert (0 <= Z.quot 1000 frames_per_sec) by (rewrite Z.quot_div_nonneg by lia; apply Z.div_pos; lia).
  unfold ms. destruct (start - stop <? _) eqn:E; btests; lia.
Qed.
End Runs.

(** ** Concrete instances *)

Definition alternating : list Z := concat (replicate 128 [48; 49]).

Lemma alternating_good : good_line alternating.
Proof.
  split; [reflexivity|]. apply Forall_concat, Forall_replicate. repeat constructor; (by left) || by right.
Qed.

Lemma stdin_keys_written_witness :
  exists keys out, Forall2 key_of [alternating; alternating] keys /\
    write_frames_from_std_in (SER := ser4cpp_reference) ["a"%string] ([alternating; alternating] ++ [[48]]) =
      Done (-1, out) /\
    Forall (fun w => w.1 = "a"%string) out /\
    qix_frames (concat (map snd out)) = map delivered (zip (seqZ 0 2) keys).
Proof.
  apply (stdin_keys_written (SER := ser4cpp_reference) "a" [alternating; alternating] [[48]]).
  - apply Forall_cons. split; [apply alternating_good|]. apply Forall_singleton, alternating_good.
  - intros [H _]. discriminate H.
  - by vm_compute.
Defined.

Lemma time_based_keys_agree_witness :
  exists key_buffer',
    time_based_frame (SER := ser4cpp_reference) test_crypto buffer_empty 12345678901 1000 =
      Done (mkQIXFrame 13000 (sha256 (c := test_crypto) (be_bytes 8 13000)) QIXStatus_ok, key_buffer') /\
    buffer_ok key_buffer'.
Proof.
  apply (time_based_keys_agree (SER := ser4cpp_reference) test_crypto buffer_empty 12345678901 1000);
    by vm_compute.
Defined.
