(* ===== verification/EmulatorMain.v ===== *)
(** * The QIX emulator: reading, and the program

    The reading mode of [exe/qix-emulator/main.cpp] with the reader it runs on a
    thread of its own ([QIXFrameReader] of libs/qix), and [main].  The outcome of a run
    is the exit code, the writes to the ports and what is printed, per thread: the
    lines of the reader's thread and those of the main thread mix in any order.

    The serial ports, the command line parser argagg and the hexadecimal conversion of
    ser4cpp are parameters. *)

From stdpp Require Import base numbers list strings pretty.
From Stdlib Require Import Lia ZArith.
From S2P Require Import Prelude Ser4cpp Enums CRC Crypto SessionMode Session QIX Emulator.

(** ** [QIXFrameReader] *)

(** The frames the handler gets on the thread that runs the event loop: those of the
    reads that complete before the loop is stopped.  The loop runs out of work after a
    read that failed, when none is outstanding. *)
Fixpoint QIXFrameReader_frames `{SER : Ser4cpp} (r : QIXReader) (reads : list read_event) : list QIXFrame :=
  match reads with
  | [] => []
  | ev :: reads =>
      if read_fits r ev
      then let '(handled, r) := read_some_callback r ev in handled ++ QIXFrameReader_frames r reads
      else []
  end.

(** ** The program *)

Inductive emulator_flag := Flag_help | Flag_read | Flag_write | Flag_stdin | Flag_twrite | Flag_port | Flag_rate | Flag_count.

(** What argagg makes of the command line; the values of options as the integer types
    they are converted to, which may throw. *)
Record emulator_options := mkEmulatorOptions {
  eo_has : emulator_flag -> bool;
  eo_ports : list string;
  eo_rate_as_uint16 : outcome Z;
  eo_count_as_uint64 : outcome Z;
  eo_twrite_as_uint32 : outcome Z;
}.

Definition get_ports (results : emulator_options) : list string :=
  if negb (eo_has results Flag_port) then [] else eo_ports results.

Definition key_rate (results : emulator_options) : outcome Z :=
  if eo_has results Flag_rate then eo_rate_as_uint16 results else Done (get_key_rate None).

Definition frame_count (results : emulator_options) : outcome Z :=
  if eo_has results Flag_count then eo_count_as_uint64 results else Done (get_frame_count None).

(** The rest of the machine: which ports can be opened, the memory of the parser, the
    reads that complete before <enter> is pressed, the lines of the standard input, and
    the readings of the clocks. *)
Record machine := mkMachine {
  mc_can_open : string -> bool;
  mc_memory : bytes;
  mc_reads : list read_event;
  mc_lines : list (list Z);
  mc_steady : list (Z * Z);
  mc_system : list Z;
}.

(** The exit code, the writes to the ports, and the lines printed by the main thread
    and by the thread of the reader. *)
Record run_result := mkRun {
  run_code : Z;
  run_writes : port_writes;
  run_main_lines : list string;
  run_reader_lines : list string;
}.

Section Program.
Context `{SER : Ser4cpp} (c : CryptoState) (to_hex : bytes -> string).

Definition QIXPrinter_handle (frame : QIXFrame) : string :=
  "read: " +:+ pretty (key_id frame) +:+ " - " +:+ get_status_string (status frame) +:+ " - " +:+ to_hex (key_data frame).

(** A failure to open the port is reported by the function itself. *)
Definition read_frames (mc : machine) (ports : list string) : outcome run_result :=
  match ports with
  | [port] =>
      if mc_can_open mc port
      then
        Done (mkRun 0 [] ["waiting for QIX frames"; "press <enter> to terminate"]
                (map QIXPrinter_handle (QIXFrameReader_frames (start_frame_reader (mc_memory mc)) (mc_reads mc))))
      else Done (mkRun (-1) [] [] [])
  | _ => Throw
  end.

(** The construction of a [QIXFrameWriter] per port opens it. *)
Definition open_writers (mc : machine) (ports : list string) : outcome unit :=
  if forallb (mc_can_open mc) ports then Done tt else Throw.

(** The modes that write; the loops end after [frame_count] iterations, of which the
    clock has as many readings as are made before the program is stopped. *)
Definition write_mode (code : Z) (writes : port_writes) : run_result := mkRun code writes [] [].

Definition main_parsed (mc : machine) (results : emulator_options) : outcome run_result :=
  if eo_has results Flag_help then Done (write_mode 0 [])
  else
    let ports := get_ports results in
    if eo_has results Flag_read then read_frames mc ports
    else if eo_has results Flag_stdin then
      let* _ := open_writers mc ports in
      let* '(code, writes) := write_frames_from_std_in ports (mc_lines mc) in
      Done (write_mode code writes)
    else if eo_has results Flag_write then
      let* count := frame_count results in
      let* rate := key_rate results in
      let* _ := open_writers mc ports in
      let* '(writes, _) := write_random_frames c ports rate (ztake count (mc_steady mc)) in
      Done (write_mode 0 writes)
    else if eo_has results Flag_twrite then
      let* count := frame_count results in
      let* ms_modulo := eo_twrite_as_uint32 results in
      let* _ := open_writers mc ports in
      let* writes := write_time_based_frames c ports ms_modulo (ztake count (mc_system mc)) in
      Done (write_mode 0 writes)
    else Throw.

(** The handler of [main] reports the exception and returns -1. *)
Definition emulator_main (mc : machine) (parse : list string -> outcome emulator_options) (argv : list string)
  : outcome run_result :=
  match (let* results := parse argv in main_parsed mc results) with
  | Throw => Done (write_mode (-1) [])
  | r => r
  end.

(** ** What the program does *)

Lemma reader_run r reads frames r' : run_reads r reads = Some (frames, r') -> QIXFrameReader_frames r reads = frames.
Proof.
  revert r frames. induction reads as [|ev reads IH]; intros r frames; cbn; [by intros [= <- _]|].
  destruct (read_fits r ev); [|done]. destruct (read_some_callback r ev) as [handled r1].
  destruct (run_reads r1 reads) as [[more r2]|] eqn:E; [|done]. intros [= <- <-]. by rewrite (IH r1 more E).
Qed.

Lemma delivered_ok ks : filter frame_ok (map delivered ks) = map delivered ks.
Proof. induction ks as [|k ks IH]; [done|]. cbn [map]. rewrite filter_cons. cbn. by rewrite IH. Qed.

(** Two emulators at the ends of a serial line: the one that writes the keys of its
    standard input, and the one that reads.  The reader prints one line per line of
    bits, with the number of the key and the key, however the line splits the bytes;
    the writer's exit code says whether it has read all of its input. *)
Theorem emulators_talk mcW mcR parse argvW argvR optsW optsR p q lines rest chunks frames r :
  parse argvW = Done optsW -> eo_has optsW Flag_help = false -> eo_has optsW Flag_read = false ->
  eo_has optsW Flag_stdin = true -> get_ports optsW = [p] -> mc_can_open mcW p = true ->
  parse argvR = Done optsR -> eo_has optsR Flag_help = false -> eo_has optsR Flag_read = true ->
  get_ports optsR = [q] -> mc_can_open mcR q = true -> zlen (mc_memory mcR) = 47 ->
  mc_lines mcW = lines ++ rest -> Forall good_line lines -> stops rest -> zlen lines <= max_u64 ->
  mc_reads mcR = map ReadData chunks ->
  run_reads (start_frame_reader (mc_memory mcR)) (mc_reads mcR) = Some (frames, r) ->
  exists keys writes,
    Forall2 key_of lines keys /\
    emulator_main mcW parse argvW = Done (write_mode (rest_code rest) writes) /\
    (concat chunks = concat (map snd writes) ->
     exists main_lines,
       emulator_main mcR parse argvR =
         Done (mkRun 0 [] main_lines (map QIXPrinter_handle (map delivered (zip (seqZ 0 (zlen lines)) keys))))).
Proof.
  intros HpW HhW HrW HsW HportW HoW HpR HhR HrR HportR HoR Hm Hlines Hl Hr Hmax Hreads Hrun.
  destruct (stdin_frames p lines rest Hl Hr Hmax) as (keys&out&Hkeys&Hw&Hframes&_).
  exists keys, out. split; [done|]. split.
  - unfold emulator_main. rewrite HpW. cbn [obind]. unfold main_parsed. rewrite HhW, HrW, HsW, HportW.
    unfold open_writers. cbn [forallb]. rewrite HoW, Hlines. cbn [andb obind]. by rewrite Hw.
  - intros Hc. eexists. unfold emulator_main. rewrite HpR. cbn [obind]. unfold main_parsed. rewrite HhR, HrR, HportR.
    unfold read_frames. rewrite HoR, (reader_run _ _ _ _ Hrun). rewrite Hreads in Hrun.
    rewrite (reader_frames _ _ _ _ Hm Hrun), Hc, Hframes. do 3 f_equal. apply delivered_ok.
Qed.
End Program.

(** ** A run *)

Definition one_option (f : emulator_flag) (port : string) : emulator_options :=
  mkEmulatorOptions (fun g => match f, g with
                              | Flag_stdin, Flag_stdin | Flag_read, Flag_read | _, Flag_port => true
                              | _, _ => false
                              end) [port] Throw Throw Throw.

(** The first byte in place of the digits of all of them. *)
Definition as_number (b : bytes) : string := match b with [] => "" | x :: _ => pretty x end.

Definition writing_machine : machine := mkMachine (fun _ => true) (replicate 47 0) [] [alternating; [48]] [] [].

Local Abbreviation emulator := (emulator_main (SER := ser4cpp_reference) Crypto_static as_number).

(** One line of bits, then one that is too short; every byte is a read of its own.  The
    exit codes and what the reader prints. *)
Definition line_run : outcome (Z * Z * list string) :=
  let* w := emulator writing_machine (fun _ => Done (one_option Flag_stdin "a")) [] in
  let reads := map (fun b => ReadData [b]) (concat (map snd (run_writes w))) in
  let* r := emulator (mkMachine (fun _ => true) (replicate 47 0) reads [] [] [])
              (fun _ => Done (one_option Flag_read "b")) [] in
  Done (run_code w, run_code r, run_reader_lines r).

Example emulators_run : line_run = Done (-1, 0, ["read: 0 - ok - 85"]).
Proof. vm_compute. reflexivity. Qed.
