(* ===== verification/LayerFrame.v ===== *)
(** * What the handlers of the cryptographic layer leave alone

    Every action of the layer other than the opening and closing themselves keeps
    the layer's own flag, and whatever of the lower layer transmission and reception
    keep; and opening and closing set the flag and nothing else of it.  The same for
    responders and initiators. *)

From stdpp Require Import base numbers list strings.
From Stdlib Require Import Lia ZArith.
From S2P Require Import Prelude Ser4cpp Enums Codec Messages CRC LinkParser FrameWriter LinkLayer.
From S2P Require Import Crypto SessionMode Session Chain Handshake CryptoLayer LayerLogic.
From S2P Require Import Responder Initiator.

Create HintDb keeps.

Section Frame.
Context `{SER : Ser4cpp} {W : Type} (fw : frame_writer W) (c : CryptoState).
Context {D L U : Type} `{LL : !LowerLayer L}.
Context (upper : upper_call -> U -> upper_prog U) (clock : nat -> Z).
Local Abbreviation world := (World W D L U).
Local Abbreviation action := (act world).
Local Abbreviation vtable := (virtuals (W := W) (D := D) (L := L) (U := U)).

(** Something of the lower layer that its operations do not change. *)
Context {X : Type} (o : L -> X).
Context (o_rx : forall l, o (lower_start_rx l).2 = o l) (o_tx : forall l data, o (lower_start_tx l data).2 = o l).

Definition flags (w : world) : bool * X := (cl_is_open (w_layer w), o (w_lower w)).

(** The flags after the action are [g] of the flags before it. *)
Definition changes {A} (g : bool * X -> bool * X) (m : action A) : Prop :=
  forall w a w', m w = Some (Done (a, w')) -> flags w' = g (flags w).

Local Abbreviation keeps := (changes id).

Lemma changes_bind {A B} g h (m : action A) (k : A -> action B) :
  changes g m -> (forall a, changes h (k a)) -> changes (fun x => h (g x)) (abind m k).
Proof.
  intros Hm Hk w b w' H. unfold abind in H. destruct (m w) as [[[a w1]| | |]|] eqn:E; try done.
  rewrite (Hk a w1 b w' H). by rewrite (Hm w a w1 E).
Qed.

Lemma keeps_bind {A B} (m : action A) (k : A -> action B) :
  keeps m -> (forall a, keeps (k a)) -> keeps (abind m k).
Proof. exact (changes_bind id id m k). Qed.

Lemma keeps_ret {A} (a : A) : keeps (aret a).
Proof. by intros w a' w' [= _ <-]. Qed.

Lemma keeps_get {A} (f : world -> A) : keeps (aget f).
Proof. by intros w a' w' [= _ <-]. Qed.

Lemma keeps_lift {A} (f : world -> outcome A) : keeps (alift f).
Proof. intros w a w' H. unfold alift in H. destruct (f w); try done. by injection H as _ <-. Qed.

Lemma keeps_when b (m : action unit) : keeps m -> keeps (awhen b m).
Proof. destruct b; [done|]. intros _. apply keeps_ret. Qed.

Lemma keeps_fuel {A} : keeps (out_of_fuel : action A).
Proof. done. Qed.

Lemma changes_set_layer g (f : CryptoLayer W -> CryptoLayer W) :
  (forall x y, (cl_is_open (f x), y) = g (cl_is_open x, y)) -> changes g (set_layer f : action unit).
Proof. intros Hf w [] w' [= <-]. apply (Hf (w_layer w)). Qed.

Lemma keeps_set_layer (f : CryptoLayer W -> CryptoLayer W) :
  (forall x, cl_is_open (f x) = cl_is_open x) -> keeps (set_layer f : action unit).
Proof. intros Hf. apply changes_set_layer. intros x y. by rewrite Hf. Qed.

Lemma keeps_set_derived (f : D -> D) : keeps (set_derived f : action unit).
Proof. by intros w [] w' [= <-]. Qed.

Lemma keeps_upper_state u : keeps (set_upper_state u : action unit).
Proof. by intros w [] w' [= <-]. Qed.

Lemma keeps_upper_open b : keeps (set_upper_open b : action unit).
Proof. by intros w [] w' [= <-]. Qed.

Lemma keeps_time : keeps (get_time clock : action Z).
Proof. by intros w a w' [= _ <-]. Qed.

Lemma keeps_draw : keeps (next_draw : action nat).
Proof. by intros w a w' [= _ <-]. Qed.

Lemma keeps_transmit frame : keeps (lower_transmit frame : action bool).
Proof.
  intros w a w' H. unfold lower_transmit in H. pose proof (o_tx (w_lower w) frame) as Ho.
  destruct (lower_start_tx (w_lower w) frame) as [ok l]. injection H as _ <-. unfold flags. cbn in *. by rewrite Ho.
Qed.

Lemma keeps_receive : keeps (lower_receive : action bytes).
Proof.
  intros w a w' H. unfold lower_receive in H. pose proof (o_rx (w_lower w)) as Ho.
  destruct (lower_start_rx (w_lower w)) as [data l]. injection H as _ <-. unfold flags. cbn in *. by rewrite Ho.
Qed.

Hint Resolve keeps_ret keeps_get keeps_lift keeps_fuel keeps_set_derived keeps_upper_state keeps_upper_open
  keeps_time keeps_draw keeps_transmit keeps_receive : keeps.
Hint Extern 1 (keeps (layer)) => apply keeps_get : keeps.
Hint Extern 1 (keeps (lower_ready)) => apply keeps_get : keeps.
Hint Extern 1 (keeps (set_layer _)) => (apply keeps_set_layer; intros []; reflexivity) : keeps.
Hint Extern 2 (keeps (abind _ _)) => (apply keeps_bind; [|intros ?]) : keeps.
Hint Extern 2 (keeps (awhen _ _)) => apply keeps_when : keeps.
Hint Extern 3 (keeps (match ?x with _ => _ end)) => destruct x : keeps.

Ltac keep := eauto 40 with keeps.

Lemma keeps_payload data : keeps (set_payload_data data : action unit).
Proof. unfold set_payload_data. keep. Qed.
Hint Resolve keeps_payload : keeps.

Lemma keeps_reset_active : keeps (reset_active c : action unit).
Proof. unfold reset_active. keep. Qed.

Lemma keeps_reset_both : keeps (reset_both c : action unit).
Proof. unfold reset_both. keep. Qed.

Lemma keeps_activate : keeps (activate_pending c : action unit).
Proof. unfold activate_pending. keep. Qed.

Lemma keeps_validate v i msg now : keeps (validate_with v i msg now : action _).
Proof. unfold validate_with. keep. Qed.

Lemma keeps_format now data : keeps (format_active fw now data : action _).
Proof. unfold format_active. keep. Qed.

Lemma keeps_auth i : keeps (transmit_session_auth fw clock i : action bool).
Proof. unfold transmit_session_auth. keep. Qed.

Hint Resolve keeps_reset_active keeps_reset_both keeps_activate keeps_validate keeps_format keeps_auth : keeps.

(** The virtual functions. *)
Record keeps_virtuals (vt : vtable) : Prop := {
  kv_reset : keeps (v_reset_state_on_close_from_lower vt : action unit);
  kv_parse_error f e : keeps (v_on_parse_error vt f e);
  kv_pre_tx : keeps (v_on_pre_tx_ready vt);
  kv_nonce rx tx : keeps (v_on_session_nonce_change vt rx tx);
  kv_request m raw t : keeps (v_on_request vt m raw t);
  kv_reply m raw t : keeps (v_on_reply vt m raw t);
  kv_error m raw t : keeps (v_on_error vt m raw t);
  kv_auth m raw t : keeps (v_on_auth_session vt m raw t);
  kv_open : keeps (v_on_lower_open_impl vt);
}.
Hint Resolve kv_reset kv_parse_error kv_pre_tx kv_nonce kv_request kv_reply kv_error kv_auth kv_open : keeps.

Section Handlers.
Context (n : upper_call -> action unit) (vt : vtable).
Context (HN : forall call, keeps (n call)) (HV : keeps_virtuals vt).
Hint Resolve HN HV : keeps.

Lemma keeps_check_transmit : keeps (check_transmit fw c clock n vt).
Proof. unfold check_transmit, can_transmit_session_data. keep. Qed.
Hint Resolve keeps_check_transmit : keeps.

Lemma keeps_start_tx data : keeps (start_tx_from_upper fw c clock n vt data).
Proof. unfold start_tx_from_upper, is_tx_ready. keep. Qed.

Lemma keeps_handle {M} (m : message M) handler data now :
  (forall a b t, keeps (handler a b t)) -> keeps (handle_message vt m handler data now).
Proof. intros H. unfold handle_message. destruct (m_read m data); keep. Qed.

Lemma keeps_session_data msg raw now : keeps (on_message n vt msg raw now).
Proof. unfold on_message, on_session_data. keep. Qed.
Hint Resolve keeps_session_data : keeps.

Lemma keeps_process data : keeps (process clock n vt data).
Proof.
  unfold process. apply keeps_bind; [keep|intros now]. destruct data as [|raw data]; [keep|].
  destruct (negb _); [keep|]. destruct (Function_from_type raw); try apply keeps_ret; apply keeps_handle; keep.
Qed.
Hint Resolve keeps_process : keeps.

Lemma keeps_try_read : keeps (try_read_from_lower clock n vt).
Proof.
  unfold try_read_from_lower. apply keeps_bind; [keep|intros k]. generalize (S k). clear k.
  induction n0 as [|k IH]; cbn [try_read_loop]; [keep|]. unfold try_read_one_from_lower. keep.
Qed.
Hint Resolve keeps_try_read : keeps.

Lemma keeps_start_rx : keeps (start_rx_from_upper clock n vt).
Proof. unfold start_rx_from_upper, start_rx_from_upper_impl, discard_rx_data. keep. Qed.

Lemma keeps_run_upper p : keeps (run_upper fw c clock n vt p).
Proof.
  induction p as [u|u k IH|u data k IH|u k IH]; cbn [run_upper]; [keep|..];
    (apply keeps_bind; [keep|intros _]; apply keeps_bind; [|intros r; apply keeps_bind; [keep|intros u'; apply IH]]).
  - unfold is_tx_ready. keep.
  - apply keeps_start_tx.
  - apply keeps_start_rx.
Qed.

Lemma keeps_call_upper call : keeps (call_upper fw c upper clock n vt call).
Proof.
  unfold call_upper. do 2 (apply keeps_bind; [keep|intros ?]).
  destruct call; destruct (_ : bool); try apply keeps_ret; try apply keeps_run_upper;
    (apply keeps_bind; [keep|intros _; apply keeps_run_upper]).
Qed.

(** An event on which the layer acts sets its flag, if it is an opening or a
    closing, and keeps it otherwise. *)
Definition event_flag (e : layer_event) (flag : bool) : bool :=
  match e with EvOpen => true | EvClose => false | _ => flag end.

Definition flag_change (e : layer_event) (x : bool * X) : bool * X := (event_flag e x.1, x.2).

Lemma changes_conseq {A} g h (m : action A) : (forall x, g x = h x) -> changes g m -> changes h m.
Proof. intros Hg Hm w a w' H. rewrite <- Hg. exact (Hm w a w' H). Qed.

Lemma changes_read_open {A} g (k : CryptoLayer W -> action A) :
  (forall x w a w', w_layer w = x -> k x w = Some (Done (a, w')) -> flags w' = g (flags w)) ->
  changes g (abind layer k).
Proof. intros H w a w' E. exact (H (w_layer w) w a w' eq_refl E). Qed.

Lemma open_flag : changes (flag_change EvOpen) (on_lower_open_event vt : action bool).
Proof.
  unfold on_lower_open_event. apply changes_read_open. intros x w a w' Hx.
  destruct (cl_is_open x) eqn:E.
  - intros [= _ <-]. unfold flags, flag_change. cbn. by rewrite Hx, E.
  - intros H. refine (changes_bind (flag_change EvOpen) id _ _ _ _ w a w' H);
      [by apply changes_set_layer|intros _; keep].
Qed.

Lemma close_flag : changes (flag_change EvClose) (on_lower_close_event c n vt : action bool).
Proof.
  unfold on_lower_close_event. apply changes_read_open. intros x w a w' Hx.
  destruct (cl_is_open x) eqn:E.
  - intros H. refine (changes_bind (flag_change EvClose) id _ _ _ _ w a w' H);
      [by apply changes_set_layer|intros _]. unfold on_lower_close_impl.
    assert (keeps (set_layer (@reset_this_lower_layer W) : action unit)).
    { apply keeps_set_layer. intros y. unfold reset_this_lower_layer. by destruct (cl_in_stack y). }
    keep.
  - intros [= _ <-]. unfold flags, flag_change. cbn. by rewrite Hx, E.
Qed.

Lemma ready_flags :
  keeps (on_lower_tx_ready_event fw c clock n vt) /\ keeps (on_lower_rx_ready_event clock n vt).
Proof. split; unfold on_lower_tx_ready_event, on_lower_tx_ready_impl, on_lower_rx_ready_event; keep. Qed.
End Handlers.

Section Knot.
Context (v : (upper_call -> action unit) -> vtable).
Context (HV : forall n, (forall call, keeps (n call)) -> keeps_virtuals (v n)).

Lemma keeps_notify fuel call : keeps (notify fw c upper clock v fuel call).
Proof.
  revert call. induction fuel as [|fuel IH]; intros call; cbn [notify]; [apply keeps_fuel|].
  apply keeps_call_upper; [exact IH|by apply HV].
Qed.

Lemma layer_step_flags fuel e : changes (flag_change e) (layer_step fw c upper clock v fuel e).
Proof.
  pose proof (keeps_notify fuel) as HN. pose proof (HV _ HN) as Hv. unfold layer_step.
  destruct e; (eapply (changes_conseq (fun x => id (_ x))); [|apply changes_bind; [|intros ?; apply keeps_ret]]);
    cbv beta; try (intros [? ?]; reflexivity).
  - by apply open_flag.
  - by apply close_flag.
  - apply ready_flags; done.
  - apply ready_flags; done.
  - by apply keeps_start_tx.
  - by apply keeps_start_rx.
Qed.
End Knot.
End Frame.

(** The lemmas as hints for the derived classes. *)
Ltac keeps_step :=
  lazymatch goal with
  | |- changes _ _ (aret _) => apply keeps_ret
  | |- changes _ _ (aget _) => apply keeps_get
  | |- changes _ _ layer => apply keeps_get
  | |- changes _ _ lower_ready => apply keeps_get
  | |- changes _ _ (alift _) => apply keeps_lift
  | |- changes _ _ (set_derived _) => apply keeps_set_derived
  | |- changes _ _ (get_time _) => apply keeps_time
  | |- changes _ _ next_draw => apply keeps_draw
  | |- changes _ _ (set_layer _) => apply keeps_set_layer; intros []; reflexivity
  | |- changes _ _ (set_payload_data _) => apply keeps_payload
  | |- changes _ _ (lower_transmit _) => apply keeps_transmit; assumption
  | |- changes _ _ (transmit_session_auth _ _ _) => apply keeps_auth; assumption
  | |- changes _ _ (validate_with _ _ _ _) => apply keeps_validate
  | |- changes _ _ (activate_pending _) => apply keeps_activate
  | |- changes _ _ (reset_both _) => apply keeps_reset_both
  | |- changes _ _ (awhen _ _) => apply keeps_when
  | |- changes _ _ (abind _ _) => apply keeps_bind; [|intros ?]
  | |- changes _ _ (match ?x with _ => _ end) => destruct x
  | |- changes _ _ (let '_ := ?x in _) => destruct x
  end.
Ltac keeps_all := repeat keeps_step; eauto.

Section Responders.
Context `{SER : Ser4cpp} {W : Type} (fw : frame_writer W) (c : CryptoState).
Context {L U : Type} `{LL : !LowerLayer L}.
Context (upper : upper_call -> U -> upper_prog U) (clock : nat -> Z).
Context {HR : Type} (rh : responder_handshake HR W).
Context {X : Type} (o : L -> X).
Context (o_rx : forall l, o (lower_start_rx l).2 = o l) (o_tx : forall l data, o (lower_start_tx l data).2 = o l).
Local Abbreviation action := (act (World W HR L U)).
Local Abbreviation keeps := (changes o id).

Lemma keeps_reply_error err : keeps (reply_with_handshake_error fw err : action unit).
Proof. unfold reply_with_handshake_error. keeps_all. Qed.

Lemma responder_keeps (n : upper_call -> action unit) :
  (forall call, keeps (n call)) -> keeps_virtuals o (Responder_virtuals fw c clock rh n).
Proof.
  intros HN. pose proof keeps_reply_error.
  split; intros; cbn [Responder_virtuals v_reset_state_on_close_from_lower v_on_parse_error v_on_pre_tx_ready
    v_on_session_nonce_change v_on_request v_on_reply v_on_error v_on_auth_session v_on_lower_open_impl];
    unfold Responder_on_parse_error, Responder_on_message, Responder_process, Responder_on_auth_session;
    keeps_all.
Qed.

Lemma responder_step_flags fuel e :
  changes o (flag_change e) (responder_step fw c upper clock rh fuel e : action unit).
Proof. apply layer_step_flags; [done..|exact responder_keeps]. Qed.
End Responders.

Section Initiators.
Context `{SER : Ser4cpp} {W : Type} (fw : frame_writer W) (c : CryptoState).
Context {L U : Type} `{LL : !LowerLayer L}.
Context (upper : upper_call -> U -> upper_prog U) (clock : nat -> Z).
Context {HI : Type} (ih : initiator_handshake HI) (params : Params) (limits : SessionLimits).
Context {X : Type} (o : L -> X).
Context (o_rx : forall l, o (lower_start_rx l).2 = o l) (o_tx : forall l data, o (lower_start_tx l data).2 = o l).
Local Abbreviation action := (act (World W (Initiator HI) L U)).
Local Abbreviation keeps := (changes o id).

Lemma keeps_step_state (f : HandshakeState -> action HandshakeState) :
  (forall s, keeps (f s)) -> keeps (step_state f).
Proof. intros H. unfold step_state, set_handshake_state. keeps_all. Qed.

Lemma keeps_handshake_required : keeps (on_handshake_required fw clock ih params limits : action unit).
Proof.
  unfold on_handshake_required. apply keeps_bind; [keeps_all|intros now]. apply keeps_step_state. intros s.
  unfold on_handshake_required_in, Idle_on_handshake_required, initialize_new_handshake, start_retry_timer,
    start_response_timer, set_handshake_required, set_handshake, set_response_and_retry_timer.
  keeps_all.
Qed.

Lemma initiator_keeps (n : upper_call -> action unit) :
  (forall call, keeps (n call)) -> keeps_virtuals o (Initiator_virtuals fw c clock ih params limits n).
Proof.
  intros HN. pose proof keeps_handshake_required.
  split; intros; cbn [Initiator_virtuals v_reset_state_on_close_from_lower v_on_parse_error v_on_pre_tx_ready
    v_on_session_nonce_change v_on_request v_on_reply v_on_error v_on_auth_session v_on_lower_open_impl];
    try (apply keeps_step_state; intros s);
    unfold Initiator_reset_state_on_close_from_lower, Initiator_on_pre_tx_ready, Initiator_on_session_nonce_change,
      on_reply_message_in, WaitForBeginReply_on_reply_message, initialize_session, on_error_message_in,
      on_auth_message_in, WaitForAuthReply_on_auth_message, start_retry_timer, start_response_timer,
      start_session_timer, set_handshake_state, set_handshake_required, set_handshake,
      set_response_and_retry_timer, set_session_timeout_timer;
    keeps_all.
Qed.

Definition initiator_event_flag (e : initiator_event) (x : bool * X) : bool * X :=
  match e with EvLayer e => flag_change e x | _ => x end.

Lemma initiator_step_flags fuel e :
  changes o (initiator_event_flag e) (initiator_step fw c upper clock ih params limits fuel e : action unit).
Proof.
  destruct e as [e| |]; cbn [initiator_step].
  - apply layer_step_flags; [done..|exact initiator_keeps].
  - change (keeps (on_response_or_retry_timer fw clock ih params limits : action unit)).
    pose proof keeps_handshake_required.
    assert (keeps (step_state (on_response_timeout_in clock params) : action unit)).
    { apply keeps_step_state. intros s. unfold on_response_timeout_in, start_retry_timer,
        set_response_and_retry_timer. keeps_all. }
    assert (keeps (step_state on_retry_timeout_in : action unit)).
    { apply keeps_step_state. intros s. unfold on_retry_timeout_in. keeps_all. }
    unfold on_response_or_retry_timer, set_response_and_retry_timer. keeps_all.
  - change (keeps (on_session_timer fw clock ih params limits : action unit)).
    pose proof keeps_handshake_required. unfold on_session_timer, set_session_timeout_timer. keeps_all.
Qed.
End Initiators.
