(* ===== verification/Stack.v ===== *)
(** * Stacks and their factory

    [stack/LinkCryptoStack.h] and [stack/Factory.cpp]: a stack is the
    cryptographic layer, with the link layer below it or alone, behind one object
    that is a lower layer to the application and an upper layer to the transport.

    [LinkPort] is the link layer with the transport below it, as the lower layer
    of the cryptographic layer: the instance [link_lower] shows that the link layer
    keeps the promises the cryptographic layer relies on ([LowerLayer] and
    [LowerLayerLaws]), so that everything proved of initiators and responders over
    an abstract lower layer holds over the link layer.  The messages the port still
    has to deliver are [link_payloads] of the bytes that are to come. *)

From stdpp Require Import base numbers list strings.
From Stdlib Require Import Lia ZArith.
From S2P Require Import Prelude Ser4cpp Enums Codec Messages CRC LinkParser FrameWriter LinkLayer.
From S2P Require Import Crypto SessionMode Session Chain Handshake CryptoLayer LayerLogic.
From S2P Require Import Responder Initiator LayerFrame Returns Terminates Scenario.

(** ** The link layer as a lower layer *)

(** What the parser has seen of a frame. *)
Definition mode_of (p : LinkParser) : mode :=
  let st := state p in
  let ctx := context p in
  match value st with
  | wait_sync1 => MSync1
  | wait_sync2 => MSync2
  | wait_header => MHeader (ztake (num_buffered st - 2) (zdrop 2 (buffer ctx)))
  | wait_body =>
      MBody (lr_addresses (result ctx)) (payload_length ctx)
        (ztake (num_buffered st - header_total_size) (zdrop header_total_size (buffer ctx)))
  | wait_read => MDone (lr_addresses (result ctx)) (deref (buffer ctx) (lr_payload (result ctx)))
  end.

Lemma mode_of_implements p m : parser_implements p m -> mode_of p = m.
Proof.
  intros (_&H&_). unfold implements in H. unfold mode_of.
  destruct (value (state p)), m as [| |l|addr len l|addr pay]; try done.
  - destruct H as (Hn&_&Hb). f_equal. rewrite Hn. replace (2 + zlen l - 2) with (zlen l) by lia.
    apply (f_equal (zdrop 2)) in Hb. rewrite zdrop_ztake in Hb by done.
    replace (2 + zlen l - 2) with (zlen l) in Hb by lia. exact Hb.
  - destruct H as (Hn&_&<-&<-&_&Hb). f_equal. rewrite Hn.
    by replace (header_total_size + zlen l - header_total_size) with (zlen l) by lia.
  - by destruct H as (<-&<-&_).
Qed.

(** The payloads calls of [start_rx_from_upper] return until one returns nothing. *)
Fixpoint link_payloads (fuel : nat) (local_addr : Z) (m : mode) (stream : bytes) : list bytes :=
  match fuel with
  | O => []
  | S fuel =>
      let '(m, _, rest) := arun max_config_payload_size m stream in
      let payload := delivered local_addr m in
      if is_nil payload then [] else payload :: link_payloads fuel local_addr MSync1 rest
  end.

Lemma link_payloads_step n local_addr m s m' r rest :
  arun max_config_payload_size m s = (m', r, rest) ->
  link_payloads (S n) local_addr m s =
    if is_nil (delivered local_addr m') then []
    else delivered local_addr m' :: link_payloads n local_addr MSync1 rest.
Proof. intros E. cbn [link_payloads]. by rewrite E. Qed.

Lemma delivered_done local_addr m : delivered local_addr m <> [] -> is_done m = true.
Proof. by destruct m. Qed.

(** A frame takes bytes. *)
Lemma arun_consumes s m r rest :
  arun max_config_payload_size MSync1 s = (m, r, rest) -> is_done m = true ->
  (length rest < length s)%nat.
Proof.
  intros Hrun Hd. destruct (arun_split _ _ _ _ _ _ Hrun) as (c&->&Hc).
  destruct c as [|b c]; [injection Hc as <- _; done|]. cbn. rewrite length_app. lia.
Qed.

Lemma link_payloads_fuel n1 n2 local_addr s :
  (length s < n1)%nat -> (length s < n2)%nat ->
  link_payloads n1 local_addr MSync1 s = link_payloads n2 local_addr MSync1 s.
Proof.
  revert n2 s. induction n1 as [|n1 IH]; intros n2 s H1 H2; [lia|]. destruct n2 as [|n2]; [lia|].
  cbn [link_payloads]. destruct (arun max_config_payload_size MSync1 s) as [[m r] rest] eqn:E.
  destruct (is_nil (delivered local_addr m)) eqn:En; [done|]. apply is_nil_false, delivered_done in En.
  apply arun_consumes in E; [|done]. f_equal. apply IH; lia.
Qed.

Lemma link_payloads_ok n local_addr m s :
  mode_bytes m -> all_bytes s ->
  Forall (fun p => p <> [] /\ all_bytes p) (link_payloads n local_addr m s).
Proof.
  revert m s. induction n as [|n IH]; intros m s Hm Hs; [constructor|]. cbn [link_payloads].
  destruct (arun max_config_payload_size m s) as [[m' r] rest] eqn:E.
  destruct (is_nil (delivered local_addr m')) eqn:En; [constructor|]. apply is_nil_false in En.
  constructor.
  - split; [done|]. pose proof (arun_bytes _ _ _ _ _ _ Hm Hs E) as Hb.
    destruct m' as [| | | |addr p]; try done. unfold delivered in *. by destruct (_ =? _).
  - apply IH; [done|]. destruct (arun_split _ _ _ _ _ _ E) as (c&->&_). by apply Forall_app in Hs as [_ ?].
Qed.

(** No payload is longer than the parser allows. *)
Lemma link_payloads_fit n local_addr m s :
  mode_bytes m -> all_bytes s -> mode_fits max_config_payload_size m ->
  Forall (fun p => zlen p <= max_config_payload_size) (link_payloads n local_addr m s).
Proof.
  revert m s. induction n as [|n IH]; intros m s Hm Hs Hf; [constructor|]. cbn [link_payloads].
  destruct (arun max_config_payload_size m s) as [[m' r] rest] eqn:E.
  destruct (is_nil (delivered local_addr m')) eqn:En; [constructor|]. apply is_nil_false in En.
  constructor.
  - pose proof (arun_fits _ _ _ _ _ _ Hm Hs Hf E) as Hb.
    destruct m' as [| | | |addr p]; try done. unfold delivered in *. by destruct (_ =? _).
  - apply IH; [done| |done]. destruct (arun_split _ _ _ _ _ _ E) as (c&->&_). by apply Forall_app in Hs as [_ ?].
Qed.

Record LinkPort (L : Type) := mkLinkPort {
  lp_link : LinkLayer;
  lp_lower : L;
  lp_ok : exists m, ll_implements lp_link m;
}.
Arguments mkLinkPort {L} _ _ _.
Arguments lp_link {L} _.
Arguments lp_lower {L} _.
Arguments lp_ok {L} _.

Section Port.
Context `{SER : Ser4cpp} {L : Type} `{LL : !LowerLayer L}.

Lemma start_rx_keeps x (l : L) data x' l' :
  LinkLayer_start_rx_from_upper x l = Some (data, x', l') ->
  (exists m, ll_implements x m) -> exists m, ll_implements x' m.
Proof.
  intros H (m&Hm). destruct (start_rx_run x l m Hm) as (y&l2&m'&r&_&E&Hy&_).
  rewrite H in E. injection E as _ <- _. eauto.
Qed.

(** [LinkLayer::start_rx_from_upper] through the port, and its result. *)
Definition port_result (p : LinkPort L) (r : option (bytes * LinkLayer * L))
  : LinkLayer_start_rx_from_upper (lp_link p) (lp_lower p) = r -> bytes * LinkPort L :=
  match r with
  | Some (data, x, l) => fun E => (data, mkLinkPort x l (start_rx_keeps _ _ _ _ _ E (lp_ok p)))
  | None => fun _ => ([], p)
  end.

Definition port_start_rx (p : LinkPort L) : bytes * LinkPort L := port_result p _ eq_refl.

Definition port_start_tx (p : LinkPort L) (data : bytes) : bool * LinkPort L :=
  let '(ok, l) := LinkLayer_start_tx_from_upper (lp_link p) (lp_lower p) data in
  (ok, mkLinkPort (lp_link p) l (lp_ok p)).

(** What is still to be delivered. *)
Definition port_chunks (p : LinkPort L) : list bytes :=
  let stream := pending (lp_link p) (lp_lower p) in
  link_payloads (S (S (length stream))) (ll_local_addr (lp_link p))
    (rx_mode (lp_link p) (mode_of (ll_parser (lp_link p)))) stream.

Lemma port_result_eq p r E data x l :
  r = Some (data, x, l) -> exists H, port_result p r E = (data, mkLinkPort x l H).
Proof. intros ->. cbn. by eexists. Qed.

(** One call of the port, in terms of the frame automaton. *)
Lemma port_start_rx_run p :
  let x := lp_link p in
  exists m' r p',
    arun max_config_payload_size (rx_mode x (mode_of (ll_parser x))) (pending x (lp_lower p)) =
      (m', r, pending (lp_link p') (lp_lower p')) /\
    port_start_rx p = (delivered (ll_local_addr x) m', p') /\
    ll_local_addr (lp_link p') = ll_local_addr x /\
    mode_of (ll_parser (lp_link p')) = m' /\
    ll_upper_is_processing (lp_link p') = negb (is_nil (delivered (ll_local_addr x) m')) /\
    (is_done m' = false -> pending (lp_link p') (lp_lower p') = []).
Proof.
  intros x. destruct (lp_ok p) as (m&Hm).
  destruct (start_rx_run (lp_link p) (lp_lower p) m Hm) as (x'&l'&m'&r&Hrun&Hrx&Hx'&Hproc&Haddr&_&Hend).
  destruct (port_result_eq p _ eq_refl _ _ _ Hrx) as (H&Hp).
  exists m', r, (mkLinkPort x' l' H). subst x. rewrite (mode_of_implements _ m) by apply Hm.
  split; [done|]. split; [exact Hp|]. cbn. split; [done|].
  split; [apply mode_of_implements, Hx'|]. done.
Qed.

Lemma stream_bytes (p : LinkPort L) : all_bytes (pending (lp_link p) (lp_lower p)).
Proof.
  destruct (lp_ok p) as (m&_&Hb&_). unfold pending. apply Forall_app. split; [done|].
  apply Forall_concat. eapply Forall_impl; [apply lower_chunks_ok|]. by intros c [_ ?].
Qed.

Lemma port_mode_bytes (p : LinkPort L) : mode_bytes (rx_mode (lp_link p) (mode_of (ll_parser (lp_link p)))).
Proof.
  unfold rx_mode. destruct (ll_upper_is_processing (lp_link p)); [done|].
  destruct (lp_ok p) as (m&Hm&_). rewrite (mode_of_implements _ m Hm). apply Hm.
Qed.

Lemma port_mode_fits (p : LinkPort L) :
  mode_fits max_config_payload_size (rx_mode (lp_link p) (mode_of (ll_parser (lp_link p)))).
Proof.
  unfold rx_mode. destruct (ll_upper_is_processing (lp_link p)); [done|].
  destruct (lp_ok p) as (m&Hm&_&Hmax). rewrite (mode_of_implements _ m Hm), <- Hmax.
  eapply implements_fits, Hm.
Qed.

(** What the link layer delivers is never longer than the maximum payload. *)
Lemma port_chunks_fit (p : LinkPort L) :
  Forall (fun chunk => zlen chunk <= max_config_payload_size) (port_chunks p).
Proof. apply link_payloads_fit; [apply port_mode_bytes|apply stream_bytes|apply port_mode_fits]. Qed.

(** The link layer is a lower layer for the cryptographic layer. *)
#[export, refine] Instance link_lower : LowerLayer (LinkPort L) := {|
  lower_is_tx_ready p := LinkLayer_is_tx_ready (lp_link p) (lp_lower p);
  lower_start_tx := port_start_tx;
  lower_start_rx := port_start_rx;
  lower_chunks := port_chunks;
|}.
Proof.
  - intros p. apply link_payloads_ok; [apply port_mode_bytes|apply stream_bytes].
  - intros p Hc. destruct (port_start_rx_run p) as (m'&r&p'&Hrun&Hrx&Haddr&Hmode&Hproc&Hend).
    unfold port_chunks in Hc. rewrite (link_payloads_step _ _ _ _ _ _ _ Hrun) in Hc.
    destruct (is_nil (delivered _ m')) eqn:En; [|done]. apply is_nil_true in En.
    exists p'. rewrite Hrx, En. split; [done|]. unfold port_chunks.
    unfold rx_mode. rewrite Hproc, Hmode. cbn [negb].
    assert (exists r', arun max_config_payload_size m' (pending (lp_link p') (lp_lower p')) =
              (m', r', pending (lp_link p') (lp_lower p'))) as (r'&Hidle).
    { destruct (is_done m') eqn:Ed; [rewrite arun_done by done; by eexists|].
      rewrite (Hend eq_refl). by eexists. }
    rewrite (link_payloads_step _ _ _ _ _ _ _ Hidle). by rewrite Haddr, En.
  - intros p c cs Hc. destruct (port_start_rx_run p) as (m'&r&p'&Hrun&Hrx&Haddr&Hmode&Hproc&Hend).
    unfold port_chunks in Hc. rewrite (link_payloads_step _ _ _ _ _ _ _ Hrun) in Hc.
    destruct (is_nil (delivered _ m')) eqn:En; [done|].
    remember (S (length (pending (lp_link p) (lp_lower p)))) as n eqn:Hn. injection Hc as <- <-.
    exists p'. split; [done|]. unfold port_chunks, rx_mode. rewrite Hproc, Haddr. cbn [negb].
    destruct (arun_split _ _ _ _ _ _ Hrun) as (c&E&_). apply link_payloads_fuel; [lia|].
    apply (f_equal length) in E. rewrite length_app in E. lia.
Defined.

Context `{LAWS : !LowerLayerLaws L}.

Lemma read_frames_ready fuel x (l : L) x' l' :
  LinkLayer_read_frames fuel x l = Some (x', l') -> lower_is_tx_ready l' = lower_is_tx_ready l.
Proof.
  revert x l. induction fuel as [|fuel IH]; intros x l; cbn; [done|].
  unfold LinkLayer_read_frame_one_iteration. destruct (is_nil (ll_remainder x)).
  - pose proof (rx_keeps_ready l) as Hr. destruct (lower_start_rx l) as [data l1]. cbn in Hr.
    destruct (negb (is_nil data)); [intros ->%IH; done|by intros [= _ <-]].
  - destruct (LinkLayer_parse x) as [[ready y]|]; [|done].
    destruct (negb ready); [apply IH|by intros [= _ <-]].
Qed.

Lemma get_frame_ready x (l : L) b x' l' :
  LinkLayer_get_frame x l = Some (b, x', l') -> lower_is_tx_ready l' = lower_is_tx_ready l.
Proof.
  unfold LinkLayer_get_frame. destruct (LinkParser_has_result _); [by intros [= _ _ <-]|].
  destruct (LinkLayer_read_frames _ x l) as [[y l1]|] eqn:E; [|done].
  intros [= _ _ <-]. by apply read_frames_ready in E.
Qed.

Lemma start_rx_ready x (l : L) data x' l' :
  LinkLayer_start_rx_from_upper x l = Some (data, x', l') -> lower_is_tx_ready l' = lower_is_tx_ready l.
Proof.
  unfold LinkLayer_start_rx_from_upper, LinkLayer_start_rx_from_upper_impl.
  destruct (LinkLayer_get_frame _ l) as [[[b y] l1]|] eqn:E; [|done]. apply get_frame_ready in E.
  destruct b; [destruct (LinkParser_frame _) as [[addr p]|]; [destruct (_ =? _)|]|]; by intros [= _ _ <-].
Qed.

#[export] Instance link_lower_laws : LowerLayerLaws (LinkPort L).
Proof.
  split.
  - intros p. destruct (lp_ok p) as (m&Hm). destruct (start_rx_run (lp_link p) (lp_lower p) m Hm)
      as (x'&l'&m'&r&_&Hrx&_). destruct (port_result_eq p _ eq_refl _ _ _ Hrx) as (H&Hp).
    change (lower_start_rx p) with (port_result p _ eq_refl). rewrite Hp. cbn.
    unfold LinkLayer_is_tx_ready. by apply start_rx_ready in Hrx.
  - intros p data. cbn. unfold port_start_tx, LinkLayer_start_tx_from_upper, port_chunks.
    pose proof (tx_keeps_chunks (lp_lower p) data) as Hc.
    destruct (lower_start_tx (lp_lower p) data) as [ok l]. cbn in *. unfold pending. by rewrite Hc.
Qed.
End Port.

(** ** Notifications through the link layer *)

Section Notifications.
Context `{SER : Ser4cpp} {L : Type} `{LL : !LowerLayer L}.

Lemma parser_reset_ok x :
  (exists m, ll_implements x m) -> exists m, ll_implements (ll_set_parser x (LinkParser_reset (ll_parser x))) m.
Proof. intros (m&Hp&Hb&Hmax). exists MSync1. split; [exact (parser_reset_implements _ _ Hp)|done]. Qed.

Lemma set_open_implements x b : (exists m, ll_implements x m) -> exists m, ll_implements (ll_set_open x b) m.
Proof. intros (m&H). by exists m. Qed.

Lemma on_open_ok x : (exists m, ll_implements x m) -> exists m, ll_implements (LinkLayer_on_lower_open x).2 m.
Proof. unfold LinkLayer_on_lower_open. destruct (ll_is_open x); [done|apply set_open_implements]. Qed.

Lemma on_close_ok x : (exists m, ll_implements x m) -> exists m, ll_implements (LinkLayer_on_lower_close x).2 m.
Proof.
  unfold LinkLayer_on_lower_close. destruct (ll_is_open x); [|done].
  intros H. by apply (parser_reset_ok (ll_set_open x false)), set_open_implements.
Qed.

Lemma on_tx_ready_ok x : (exists m, ll_implements x m) -> exists m, ll_implements (LinkLayer_on_lower_tx_ready x).2 m.
Proof. unfold LinkLayer_on_lower_tx_ready. by destruct (ll_is_open x). Qed.

Lemma on_rx_ready_run x (l : L) :
  (exists m, ll_implements x m) ->
  exists calls y l', LinkLayer_on_lower_rx_ready x l = Some (ll_is_open x, calls, y, l') /\
    (exists m, ll_implements y m) /\ ll_is_open y = ll_is_open x /\
    (calls = [] \/ ll_is_open x = true /\ calls = [on_lower_rx_ready]).
Proof.
  intros (m&Hm). unfold LinkLayer_on_lower_rx_ready. destruct (ll_is_open x) eqn:Eo; [|exists [], x, l; eauto 6].
  destruct (get_frame_refines x l m Hm) as (y&l'&m'&r&->&_&Hy&(_&_&_&Ho)&_).
  exists (if is_done m' then [on_lower_rx_ready] else []), y, l'. split; [done|]. split; [by exists m'|].
  split; [congruence|]. destruct (is_done m'); auto.
Qed.

Lemma on_rx_ready_ok x (l : L) answer calls y l' :
  LinkLayer_on_lower_rx_ready x l = Some (answer, calls, y, l') ->
  (exists m, ll_implements x m) -> exists m, ll_implements y m.
Proof. intros E H. destruct (on_rx_ready_run x l H) as (?&?&?&E'&Hy&_). rewrite E in E'. by injection E' as _ _ <- _. Qed.

(** [LinkLayer::on_lower_rx_ready] through the port, and its result. *)
Definition port_rx_result (p : LinkPort L) (r : option (bool * list upper_call * LinkLayer * L))
  : LinkLayer_on_lower_rx_ready (lp_link p) (lp_lower p) = r -> list upper_call * LinkPort L :=
  match r with
  | Some (_, calls, x, l) => fun E => (calls, mkLinkPort x l (on_rx_ready_ok _ _ _ _ _ _ E (lp_ok p)))
  | None => fun _ => ([], p)
  end.

(** A notification of the transport, given to the link layer: the notifications of
    the cryptographic layer it makes, and the link layer after it. *)
Definition port_notify (p : LinkPort L) (call : upper_call) : list upper_call * LinkPort L :=
  match call with
  | on_lower_open =>
      ((LinkLayer_on_lower_open (lp_link p)).1.2,
       mkLinkPort (LinkLayer_on_lower_open (lp_link p)).2 (lp_lower p) (on_open_ok _ (lp_ok p)))
  | on_lower_close =>
      ((LinkLayer_on_lower_close (lp_link p)).1.2,
       mkLinkPort (LinkLayer_on_lower_close (lp_link p)).2 (lp_lower p) (on_close_ok _ (lp_ok p)))
  | on_lower_tx_ready =>
      ((LinkLayer_on_lower_tx_ready (lp_link p)).1.2,
       mkLinkPort (LinkLayer_on_lower_tx_ready (lp_link p)).2 (lp_lower p) (on_tx_ready_ok _ (lp_ok p)))
  | on_lower_rx_ready => port_rx_result p _ eq_refl
  end.

Lemma port_rx_result_eq p r E answer calls x l :
  r = Some (answer, calls, x, l) -> exists H, port_rx_result p r E = (calls, mkLinkPort x l H).
Proof. intros ->. cbn. by eexists. Qed.

(** Whether the link layer is open. *)
Definition port_open (p : LinkPort L) : bool := ll_is_open (lp_link p).

(** A notification that a layer acts on in this state of its flag, and its flag
    afterwards. *)
Definition acts_on (open : bool) (call : upper_call) : bool :=
  match call with on_lower_open => negb open | _ => open end.
Definition open_after (open : bool) (call : upper_call) : bool :=
  match call with on_lower_open => true | on_lower_close => false | _ => open end.

(** The link layer passes a notification on when it acts on it, except that the
    arrival of bytes is passed on only when they complete a frame. *)
Lemma port_notify_calls p call :
  port_open (port_notify p call).2 = open_after (port_open p) call /\
  ((port_notify p call).1 = if acts_on (port_open p) call then [call] else []) \/
  call = on_lower_rx_ready /\ port_open (port_notify p call).2 = port_open p /\ (port_notify p call).1 = [].
Proof.
  unfold port_open. destruct call; cbn [port_notify fst snd].
  - left. unfold LinkLayer_on_lower_open, acts_on, open_after. cbn. by destruct (ll_is_open (lp_link p)) eqn:E.
  - left. unfold LinkLayer_on_lower_close, acts_on, open_after. cbn. by destruct (ll_is_open (lp_link p)) eqn:E.
  - left. unfold LinkLayer_on_lower_tx_ready, acts_on, open_after. cbn. by destruct (ll_is_open (lp_link p)) eqn:E.
  - destruct (on_rx_ready_run (lp_link p) (lp_lower p) (lp_ok p)) as (calls&y&l'&E&_&Ho&Hc).
    destruct (port_rx_result_eq p _ eq_refl _ _ _ _ E) as (H&->). cbn.
    destruct Hc as [->|[Hopen ->]]; [by right|left]. by rewrite Ho, Hopen.
Qed.
End Notifications.

(** ** The stack object

    [AbstractStack] is an upper layer to the transport, with a flag of its own, and
    passes what it is told to the object below it all ([forward]); to the
    application it is the cryptographic layer (see [start_rx_from_upper]). *)

Record Stack (world : Type) := mkStack {
  (* IUpperLayer::is_open_flag of the stack *)
  sk_is_open : bool;
  sk_world : world;
}.
Arguments mkStack {world} _ _.
Arguments sk_is_open {world} _.
Arguments sk_world {world} _.

Section AbstractStack.
Context {world : Type} (forward : upper_call -> act world unit).

Definition in_world {A} (m : act world A) : act (Stack world) A := fun s =>
  match m (sk_world s) with
  | None => None
  | Some (Done (a, w)) => Some (Done (a, mkStack (sk_is_open s) w))
  | Some Exit => Some Exit
  | Some Throw => Some Throw
  | Some Crash => Some Crash
  end.

Definition set_stack_open (b : bool) : act (Stack world) unit := amodify (fun s => mkStack b (sk_world s)).

(** [on_lower_open], [on_lower_close], [on_lower_tx_ready] and [on_lower_rx_ready] of
    the stack. *)
Definition AbstractStack_notify (call : upper_call) : act (Stack world) bool :=
  open <-- aget sk_is_open;
  match call with
  | on_lower_open =>
      if open then aret false else set_stack_open true;;; in_world (forward on_lower_open);;; aret true
  | on_lower_close =>
      if open then set_stack_open false;;; in_world (forward on_lower_close);;; aret true else aret false
  | on_lower_tx_ready => if open then in_world (forward on_lower_tx_ready);;; aret true else aret false
  | on_lower_rx_ready => if open then in_world (forward on_lower_rx_ready);;; aret true else aret false
  end.

(** The notification, whatever it is. *)
Lemma stack_notify_eq call s :
  AbstractStack_notify call s =
    (if acts_on (sk_is_open s) call
     then abind (in_world (forward call)) (fun _ => aret true) (mkStack (open_after (sk_is_open s) call) (sk_world s))
     else Some (Done (false, s))).
Proof. destruct s as [b w]. by destruct call, b. Qed.
End AbstractStack.

(** What happens to a stack: a notification of the transport, a call of the
    application from outside of its handlers, or a timer. *)
Inductive stack_event (T : Type) :=
| FromTransport (call : upper_call)
| AppStartTx (data : bytes)
| AppStartRx
| TimerFires (t : T).
Arguments FromTransport {T} _.
Arguments AppStartTx {T} _.
Arguments AppStartRx {T}.
Arguments TimerFires {T} _.

(** The handler of the cryptographic layer for a notification. *)
Definition event_of (call : upper_call) : layer_event :=
  match call with
  | on_lower_open => EvOpen
  | on_lower_close => EvClose
  | on_lower_tx_ready => EvTxReady
  | on_lower_rx_ready => EvRxReady
  end.

Section Steps.
Context `{SER : Ser4cpp} {W D L U E T : Type} `{LL : !LowerLayer L}.

Section WithLink.
Local Abbreviation world := (World W D (LinkPort L) U).
(** The entry points of the cryptographic layer's object. *)
Context (step : nat -> E -> act world unit) (ev : layer_event -> E) (timer : T -> E).

(** A notification of the transport to the link layer. *)
Definition link_notify (call : upper_call) : act world (list upper_call) := fun w =>
  let '(calls, p) := port_notify (w_lower w) call in
  Some (Done (calls,
    mkWorld (w_layer w) (w_derived w) p (w_upper w) (w_upper_open w) (w_ticks w) (w_draws w) (w_sent w))).

Fixpoint notify_layer (fuel : nat) (calls : list upper_call) : act world unit :=
  match calls with
  | [] => aret tt
  | call :: calls => step fuel (ev (event_of call));;; notify_layer fuel calls
  end.

(** The upper object of [FullResponderStack] and [FullInitiatorStack] is the link
    layer, whose upper layer is the responder or initiator. *)
Definition full_forward (fuel : nat) (call : upper_call) : act world unit :=
  calls <-- link_notify call;
  notify_layer fuel calls.

Definition full_stack_step (fuel : nat) (e : stack_event T) : act (Stack world) unit :=
  match e with
  | FromTransport call => AbstractStack_notify (full_forward fuel) call;;; aret tt
  | AppStartTx data => in_world (step fuel (ev (EvStartTx data)))
  | AppStartRx => in_world (step fuel (ev EvStartRx))
  | TimerFires t => in_world (step fuel (timer t))
  end.
End WithLink.

Section WithoutLink.
Local Abbreviation world := (World W D L U).
Context (step : nat -> E -> act world unit) (ev : layer_event -> E) (timer : T -> E).

(** The upper object of [CryptoOnlyResponderStack] and [CryptoOnlyInitiatorStack] is
    the responder or initiator itself. *)
Definition crypto_only_forward (fuel : nat) (call : upper_call) : act world unit :=
  step fuel (ev (event_of call)).

Definition crypto_only_stack_step (fuel : nat) (e : stack_event T) : act (Stack world) unit :=
  match e with
  | FromTransport call => AbstractStack_notify (crypto_only_forward fuel) call;;; aret tt
  | AppStartTx data => in_world (step fuel (ev (EvStartTx data)))
  | AppStartRx => in_world (step fuel (ev EvStartRx))
  | TimerFires t => in_world (step fuel (timer t))
  end.
End WithoutLink.
End Steps.

(** ** Reachable stacks

    By its events, from a new one; in between the transport and the application may
    change in any way ([env]). *)

Inductive stack_reachable {world E : Type} (initial : Stack world -> Prop)
    (step : nat -> E -> act (Stack world) unit) (env : world -> world -> Prop) : Stack world -> Prop :=
| sreach_initial s : initial s -> stack_reachable initial step env s
| sreach_step s fuel e s' :
    stack_reachable initial step env s -> step fuel e s = Some (Done (tt, s')) ->
    stack_reachable initial step env s'
| sreach_env s w :
    stack_reachable initial step env s -> env (sk_world s) w ->
    stack_reachable initial step env (mkStack (sk_is_open s) w).

(** A world with other neighbours. *)
Definition with_neighbours {W D L U} (w : World W D L U) (l : L) (u : U) : World W D L U :=
  mkWorld (w_layer w) (w_derived w) l u (w_upper_open w) (w_ticks w) (w_draws w) (w_sent w).

Lemma in_world_inv {world A} (m : act world A) s a s' :
  in_world m s = Some (Done (a, s')) ->
  sk_is_open s' = sk_is_open s /\ m (sk_world s) = Some (Done (a, sk_world s')).
Proof.
  unfold in_world. destruct (m (sk_world s)) as [[[b w]| | |]|]; try done. by intros [= <- <-].
Qed.

Lemma abind_inv {S A B} (m : act S A) (k : A -> act S B) w b w' :
  abind m k w = Some (Done (b, w')) -> exists a w1, m w = Some (Done (a, w1)) /\ k a w1 = Some (Done (b, w')).
Proof. unfold abind. destruct (m w) as [[[a w1]| | |]|]; try done. eauto. Qed.

(** What a notification that returned did. *)
Lemma stack_notify_inv {world} (forward : upper_call -> act world unit) call s answer s' :
  AbstractStack_notify forward call s = Some (Done (answer, s')) ->
  if acts_on (sk_is_open s) call
  then sk_is_open s' = open_after (sk_is_open s) call /\
       forward call (sk_world s) = Some (Done (tt, sk_world s'))
  else s' = s.
Proof.
  rewrite stack_notify_eq. destruct (acts_on _ _); [|by intros [= _ <-]].
  intros ([]&s1&H&E)%abind_inv. injection E as _ <-. apply in_world_inv in H as [Ho H]. done.
Qed.

Section FullStacks.
Context `{SER : Ser4cpp} {W D L U E T : Type} `{LL : !LowerLayer L}.
Local Abbreviation world := (World W D (LinkPort L) U).
Context (step : nat -> E -> act world unit) (ev : layer_event -> E) (timer : T -> E).
Context (created : Stack world -> Prop) (initial : world -> Prop).
Context (created_initial : forall s, created s ->
  initial (sk_world s) /\ sk_is_open s = false /\ port_open (w_lower (sk_world s)) = false).

Definition full_env (w w' : world) : Prop :=
  exists l u, w' = with_neighbours w (mkLinkPort (lp_link (w_lower w)) l (lp_ok (w_lower w))) u.

Definition full_reachable : Stack world -> Prop :=
  stack_reachable created (full_stack_step step ev timer) full_env.

Lemma link_notify_eq call (w : world) :
  link_notify call w =
    Some (Done ((port_notify (w_lower w) call).1, with_neighbours w (port_notify (w_lower w) call).2 (w_upper w))).
Proof. unfold link_notify. by destruct (port_notify (w_lower w) call). Qed.

Lemma notify_layer_reaches fuel calls : forall w w',
  reachable initial step w -> notify_layer step ev fuel calls w = Some (Done (tt, w')) ->
  reachable initial step w'.
Proof.
  induction calls as [|call calls IH]; intros w w' Hw; cbn [notify_layer]; [by intros [= <-]|].
  intros ([]&w1&Hs&H)%abind_inv. eapply IH; [|exact H]. by eapply reach_step.
Qed.

Lemma full_forward_reaches fuel call w w' :
  reachable initial step w -> full_forward step ev fuel call w = Some (Done (tt, w')) ->
  reachable initial step w'.
Proof.
  intros Hw (calls&w1&Hl&H)%abind_inv. rewrite link_notify_eq in Hl. injection Hl as <- <-.
  eapply notify_layer_reaches; [|exact H]. by apply reach_neighbours.
Qed.

(** The cryptographic layer inside a stack is one of those the theorems on responders
    and initiators speak of. *)
Lemma full_reaches s : full_reachable s -> reachable initial step (sk_world s).
Proof.
  induction 1 as [s Hi|s fuel e s' _ IH Hs|s w _ IH (l&u&->)].
  - by apply reach_initial, created_initial.
  - destruct e as [call|data| |t]; cbn [full_stack_step] in Hs;
      [|apply in_world_inv in Hs as [_ Hs]; by eapply reach_step..].
    apply abind_inv in Hs as (answer&s1&Hs&E1). injection E1 as <-. apply stack_notify_inv in Hs.
    destruct (acts_on _ _); [|by subst s1]. destruct Hs as [_ Hs]. by eapply full_forward_reaches.
  - by apply reach_neighbours.
Qed.

(** The flags of the three objects. *)
Context (layer_flags : forall fuel e, changes port_open (flag_change e) (step fuel (ev e))).
Context (timer_flags : forall fuel t, changes port_open id (step fuel (timer t))).

Definition flags_agree (s : Stack world) : Prop :=
  port_open (w_lower (sk_world s)) = sk_is_open s /\ cl_is_open (w_layer (sk_world s)) = sk_is_open s.

Lemma event_flag_of call b : event_flag (event_of call) b = open_after b call.
Proof. by destruct call. Qed.

Lemma port_keeps_open (p : LinkPort L) :
  port_open (lower_start_rx p).2 = port_open p /\ forall data, port_open (lower_start_tx p data).2 = port_open p.
Proof.
  split.
  - destruct (lp_ok p) as (m&Hm).
    destruct (start_rx_run (lp_link p) (lp_lower p) m Hm) as (x'&l'&m'&r&_&Hrx&_&_&_&Ho&_).
    destruct (port_result_eq p _ eq_refl _ _ _ Hrx) as (H&Hp).
    change (lower_start_rx p) with (port_result p _ eq_refl). by rewrite Hp.
  - intros data. cbn. unfold port_start_tx. by destruct (LinkLayer_start_tx_from_upper _ _ _).
Qed.

Lemma full_forward_flags fuel call w w' :
  full_forward step ev fuel call w = Some (Done (tt, w')) ->
  acts_on (port_open (w_lower w)) call = true ->
  cl_is_open (w_layer w) = port_open (w_lower w) ->
  port_open (w_lower w') = open_after (port_open (w_lower w)) call /\
  cl_is_open (w_layer w') = open_after (port_open (w_lower w)) call.
Proof.
  intros (calls&w1&Hl&H)%abind_inv Hacts Hc. rewrite link_notify_eq in Hl. injection Hl as <- <-.
  destruct (port_notify_calls (w_lower w) call) as [[Ho Hcalls]|(->&Ho&Hcalls)]; rewrite Hcalls in H.
  - rewrite Hacts in H. cbn [notify_layer] in H. apply abind_inv in H as ([]&w2&Hs&[= <-]).
    apply layer_flags in Hs. unfold flags, flag_change in Hs. rewrite event_flag_of in Hs. cbn in Hs.
    injection Hs as Hs1 Hs2. rewrite Hs1, Hs2, Ho, Hc. done.
  - cbn [notify_layer] in H. injection H as <-. split; [exact Ho|exact Hc].
Qed.

Lemma full_flags_agree s :
  (forall w, initial w -> cl_is_open (w_layer w) = false) -> full_reachable s -> flags_agree s.
Proof.
  intros Hinit. induction 1 as [s (Hi&Ho&Hp)%created_initial|s fuel e s' _ [IHp IHc] Hs|s w _ [IHp IHc] (l&u&->)].
  - split; [by rewrite Ho|]. rewrite Ho. by apply Hinit.
  - destruct e as [call|data| |t]; cbn [full_stack_step] in Hs.
    + apply abind_inv in Hs as (answer&s1&Hs&E1). injection E1 as <-. apply stack_notify_inv in Hs.
      destruct (acts_on _ _) eqn:Ea; [|by subst s1]. destruct Hs as [Ho Hs]. rewrite <- IHp in Ea.
      destruct (full_forward_flags _ _ _ _ Hs Ea) as [H1 H2]; [congruence|]. split; rewrite Ho; congruence.
    + apply in_world_inv in Hs as [Ho Hs]. apply layer_flags in Hs. injection Hs as Hs1 Hs2.
      split; rewrite Ho; [by rewrite Hs2|by rewrite Hs1].
    + apply in_world_inv in Hs as [Ho Hs]. apply layer_flags in Hs. injection Hs as Hs1 Hs2.
      split; rewrite Ho; [by rewrite Hs2|by rewrite Hs1].
    + apply in_world_inv in Hs as [Ho Hs]. apply timer_flags in Hs. injection Hs as Hs1 Hs2.
      split; rewrite Ho; [by rewrite Hs2|by rewrite Hs1].
  - by split.
Qed.
End FullStacks.

Section CryptoOnlyStacks.
Context `{SER : Ser4cpp} {W D L U E T : Type} `{LL : !LowerLayer L}.
Local Abbreviation world := (World W D L U).
Context (step : nat -> E -> act world unit) (ev : layer_event -> E) (timer : T -> E).
Context (created : Stack world -> Prop) (initial : world -> Prop).
Context (created_initial : forall s, created s -> initial (sk_world s) /\ sk_is_open s = false).

Definition crypto_only_env (w w' : world) : Prop := exists l u, w' = with_neighbours w l u.

Definition crypto_only_reachable : Stack world -> Prop :=
  stack_reachable created (crypto_only_stack_step step ev timer) crypto_only_env.

Lemma crypto_only_reaches s : crypto_only_reachable s -> reachable initial step (sk_world s).
Proof.
  induction 1 as [s Hi|s fuel e s' _ IH Hs|s w _ IH (l&u&->)].
  - by apply reach_initial, created_initial.
  - destruct e as [call|data| |t]; cbn [crypto_only_stack_step] in Hs;
      [|apply in_world_inv in Hs as [_ Hs]; by eapply reach_step..].
    apply abind_inv in Hs as (answer&s1&Hs&E1). injection E1 as <-. apply stack_notify_inv in Hs.
    destruct (acts_on _ _); [|by subst s1]. destruct Hs as [_ Hs]. by eapply reach_step.
  - by apply reach_neighbours.
Qed.

Context (layer_flags : forall fuel e, changes (fun _ : L => tt) (flag_change e) (step fuel (ev e))).
Context (timer_flags : forall fuel t, changes (fun _ : L => tt) id (step fuel (timer t))).

Lemma crypto_only_flags_agree s :
  (forall w, initial w -> cl_is_open (w_layer w) = false) -> crypto_only_reachable s ->
  cl_is_open (w_layer (sk_world s)) = sk_is_open s.
Proof.
  intros Hinit. induction 1 as [s (Hi&Ho)%created_initial|s fuel e s' _ IH Hs|s w _ IH (l&u&->)].
  - rewrite Ho. by apply Hinit.
  - destruct e as [call|data| |t]; cbn [crypto_only_stack_step] in Hs.
    2-3: apply in_world_inv in Hs as [Ho Hs]; apply layer_flags in Hs; injection Hs as Hs; by rewrite Ho, Hs.
    2: apply in_world_inv in Hs as [Ho Hs]; apply timer_flags in Hs; injection Hs as Hs; by rewrite Ho, Hs.
    apply abind_inv in Hs as (answer&s1&Hs&E1). injection E1 as <-. apply stack_notify_inv in Hs.
    destruct (acts_on _ _); [|by subst s1]. destruct Hs as [Ho Hs]. apply layer_flags in Hs.
    unfold flags, flag_change in Hs. rewrite event_flag_of in Hs. injection Hs as Hs. by rewrite Ho, Hs, IH.
  - done.
Qed.
End CryptoOnlyStacks.
