(* ===== verification/Factory.v ===== *)
(** * The stack classes and their factories

    [FullResponderStack], [CryptoOnlyResponderStack], [FullInitiatorStack] and
    [CryptoOnlyInitiatorStack] of [stack/LinkCryptoStack.h], the configurations of
    [crypto/CryptoLayerConfig.h] and the sixteen factory functions of
    [stack/Factory.cpp].  A constructor is given the transport and the application
    the stack is bound to: an object that is not bound does not run.  A factory
    returns the handshake class it chooses and the stack made with it; an exception
    of a handshake's or certificate handler's constructor is [Throw].

    The buffers come from the [Heap], whose contents are arbitrary. *)

From stdpp Require Import base numbers list strings.
From Stdlib Require Import Lia ZArith.
From S2P Require Import Prelude Ser4cpp Enums Codec Messages CRC LinkParser FrameWriter LinkLayer.
From S2P Require Import Crypto SessionMode Session Chain Handshake CryptoLayer LayerLogic.
From S2P Require Import Responder Initiator LayerFrame Returns Terminates Scenario Stack.

(** The [i]-th buffer of an object, of [n] bytes. *)
Class Heap := {
  alloc : nat -> Z -> bytes;
  alloc_length i n : 0 <= n -> zlen (alloc i n) = n;
  alloc_bytes i n : all_bytes (alloc i n);
}.

(** ** Configurations *)

Record SessionConfig := mkSessionConfig { ttl_pad_ms : Z }.
Record CryptoLayerConfig := mkCryptoLayerConfig { max_payload_size : Z }.
Record ResponderConfig := mkResponderConfig { rc_config : CryptoLayerConfig; rc_session : SessionConfig }.
Record InitiatorConfig := mkInitiatorConfig {
  ic_params : Params;
  ic_session_limits : SessionLimits;
  ic_config : CryptoLayerConfig;
  ic_session : SessionConfig;
}.

(** The clock counts nanoseconds. *)
Definition Params_default : Params :=
  mkParams (ms 2000) (ms 5000) default_session_time_renegotiation_trigger_ms default_nonce_renegotiation_trigger.
Definition ResponderConfig_default : ResponderConfig :=
  mkResponderConfig (mkCryptoLayerConfig max_config_payload_size) (mkSessionConfig default_ttl_pad_ms).
Definition InitiatorConfig_default : InitiatorConfig :=
  mkInitiatorConfig Params_default SessionLimits_default (mkCryptoLayerConfig max_config_payload_size)
    (mkSessionConfig default_ttl_pad_ms).

Section Classes.
Context `{SER : Ser4cpp} (c : CryptoState) `{HEAP : Heap}.
Context {L U : Type} `{LL : !LowerLayer L}.

Local Abbreviation full_world := (fun D => World LinkFrameWriter D (LinkPort L) U).
Local Abbreviation raw_world := (fun D => World RawFrameWriter D L U).

(** ** Constructors *)

Definition full_frame_writer (addresses : Addresses) : LinkFrameWriter :=
  LinkFrameWriter_new addresses max_config_payload_size
    (alloc 0 (LinkFrameWriter_get_buffer_size max_config_payload_size)).

Definition crypto_only_frame_writer : RawFrameWriter :=
  mkRawFrameWriter max_config_payload_size (alloc 0 max_config_payload_size).

(** [CryptoLayer::CryptoLayer] with its two configurations, inside a stack. *)
Definition layer_in_stack {W} (fw : frame_writer W) (config : CryptoLayerConfig) (session : SessionConfig)
    (writer : W) : CryptoLayer W :=
  let encrypt_buffer_size := calc_max_crypto_payload_length (fw_max_payload_size fw writer) in
  CryptoLayer_new c (ttl_pad_ms session) writer (alloc 1 encrypt_buffer_size) (alloc 2 encrypt_buffer_size)
    (alloc 3 (max_payload_size config)) true.

Definition new_link (addresses : Addresses) : LinkLayer :=
  LinkLayer_new (source addresses) (destination addresses) (alloc 4 (Context_buffer_size max_config_payload_size)).

Lemma new_link_ok addresses : exists m, ll_implements (new_link addresses) m.
Proof.
  exists MSync1. split; [|split; [constructor|done]]. apply parser_new_implements; [done|].
  by apply alloc_length.
Qed.

Definition new_stack {W D L'} (x : CryptoLayer W) (d : D) (lower : L') (upper : U) : Stack (World W D L' U) :=
  mkStack false (mkWorld x d lower upper false 0 0 []).

Definition FullResponderStack_new {HR} (addresses : Addresses) (config : ResponderConfig) (handshake : HR)
    (lower : L) (upper : U) : Stack (full_world HR) :=
  new_stack (layer_in_stack LinkFrameWriter_ops (rc_config config) (rc_session config) (full_frame_writer addresses))
    handshake (mkLinkPort (new_link addresses) lower (new_link_ok addresses)) upper.

Definition CryptoOnlyResponderStack_new {HR} (config : ResponderConfig) (handshake : HR) (lower : L) (upper : U)
  : Stack (raw_world HR) :=
  new_stack (layer_in_stack RawFrameWriter_ops (rc_config config) (rc_session config) crypto_only_frame_writer)
    handshake lower upper.

Definition FullInitiatorStack_new {HI} (addresses : Addresses) (config : InitiatorConfig) (handshake : HI)
    (lower : L) (upper : U) : Stack (full_world (Initiator HI)) :=
  new_stack (layer_in_stack LinkFrameWriter_ops (ic_config config) (ic_session config) (full_frame_writer addresses))
    (Initiator_new handshake) (mkLinkPort (new_link addresses) lower (new_link_ok addresses)) upper.

Definition CryptoOnlyInitiatorStack_new {HI} (config : InitiatorConfig) (handshake : HI) (lower : L) (upper : U)
  : Stack (raw_world (Initiator HI)) :=
  new_stack (layer_in_stack RawFrameWriter_ops (ic_config config) (ic_session config) crypto_only_frame_writer)
    (Initiator_new handshake) lower upper.

(** ** What they do *)

Section Running.
Context (upper : upper_call -> U -> upper_prog U) (clock : nat -> Z).

(** A responder has no timers. *)
Definition no_timer (t : Empty_set) : layer_event := match t with end.

Inductive initiator_timer := ResponseOrRetry | SessionTimeout.
Definition timer_event (t : initiator_timer) : initiator_event :=
  match t with ResponseOrRetry => EvResponseOrRetryTimer | SessionTimeout => EvSessionTimer end.

Definition FullResponderStack_step {HR} (rh : responder_handshake HR LinkFrameWriter)
  : nat -> stack_event Empty_set -> act (Stack (full_world HR)) unit :=
  full_stack_step (responder_step LinkFrameWriter_ops c upper clock rh) id no_timer.

Definition CryptoOnlyResponderStack_step {HR} (rh : responder_handshake HR RawFrameWriter)
  : nat -> stack_event Empty_set -> act (Stack (raw_world HR)) unit :=
  crypto_only_stack_step (responder_step RawFrameWriter_ops c upper clock rh) id no_timer.

Definition FullInitiatorStack_step {HI} (ih : initiator_handshake HI) (config : InitiatorConfig)
  : nat -> stack_event initiator_timer -> act (Stack (full_world (Initiator HI))) unit :=
  full_stack_step
    (initiator_step LinkFrameWriter_ops c upper clock ih (ic_params config) (ic_session_limits config))
    EvLayer timer_event.

Definition CryptoOnlyInitiatorStack_step {HI} (ih : initiator_handshake HI) (config : InitiatorConfig)
  : nat -> stack_event initiator_timer -> act (Stack (raw_world (Initiator HI))) unit :=
  crypto_only_stack_step
    (initiator_step RawFrameWriter_ops c upper clock ih (ic_params config) (ic_session_limits config))
    EvLayer timer_event.
End Running.

(** ** Factories *)

Section Responders.
Context (config : ResponderConfig) (lower : L) (upper : U).

Definition responder_shared_secret_mode (addresses : Addresses) (key : BufferBase)
  : responder_handshake BufferBase LinkFrameWriter * Stack (full_world BufferBase) :=
  (SharedSecretResponder LinkFrameWriter_ops c, FullResponderStack_new addresses config key lower upper).

Definition responder_shared_secret_mode_crypto_only (key : BufferBase)
  : responder_handshake BufferBase RawFrameWriter * Stack (raw_world BufferBase) :=
  (SharedSecretResponder RawFrameWriter_ops c, CryptoOnlyResponderStack_new config key lower upper).

Definition responder_qkd_mode {K} (find_and_consume_key : K -> Z -> option BufferBase * K)
    (addresses : Addresses) (key_lookup : K) : responder_handshake K LinkFrameWriter * Stack (full_world K) :=
  (QKDResponder LinkFrameWriter_ops c find_and_consume_key,
   FullResponderStack_new addresses config key_lookup lower upper).

Definition responder_qkd_mode_crypto_only {K} (find_and_consume_key : K -> Z -> option BufferBase * K)
    (key_lookup : K) : responder_handshake K RawFrameWriter * Stack (raw_world K) :=
  (QKDResponder RawFrameWriter_ops c find_and_consume_key,
   CryptoOnlyResponderStack_new config key_lookup lower upper).

Definition responder_preshared_public_key_mode (addresses : Addresses) (local_keys : StaticKeys)
    (remote_public_key : BufferBase)
  : responder_handshake PublicKeyResponderHandshake LinkFrameWriter *
    Stack (full_world PublicKeyResponderHandshake) :=
  (PublicKeyResponder LinkFrameWriter_ops c,
   FullResponderStack_new addresses config
     (mkPublicKeyResponder local_keys (PresharedKeyCertificateHandler remote_public_key)) lower upper).

Definition responder_preshared_public_key_mode_crypto_only (local_keys : StaticKeys)
    (remote_public_key : BufferBase)
  : responder_handshake PublicKeyResponderHandshake RawFrameWriter *
    Stack (raw_world PublicKeyResponderHandshake) :=
  (PublicKeyResponder RawFrameWriter_ops c,
   CryptoOnlyResponderStack_new config
     (mkPublicKeyResponder local_keys (PresharedKeyCertificateHandler remote_public_key)) lower upper).

Definition responder_certificate_public_key_mode (addresses : Addresses) (local_keys : StaticKeys)
    (anchor_cert_file_data presented_chain_file_data : bytes)
  : outcome (responder_handshake PublicKeyResponderHandshake LinkFrameWriter *
             Stack (full_world PublicKeyResponderHandshake)) :=
  let* handler := IndustrialCertificateHandler c anchor_cert_file_data presented_chain_file_data in
  Done (PublicKeyResponder LinkFrameWriter_ops c,
        FullResponderStack_new addresses config (mkPublicKeyResponder local_keys handler) lower upper).

Definition responder_certificate_public_key_mode_crypto_only (local_keys : StaticKeys)
    (anchor_cert_file_data presented_chain_file_data : bytes)
  : outcome (responder_handshake PublicKeyResponderHandshake RawFrameWriter *
             Stack (raw_world PublicKeyResponderHandshake)) :=
  let* handler := IndustrialCertificateHandler c anchor_cert_file_data presented_chain_file_data in
  Done (PublicKeyResponder RawFrameWriter_ops c,
        CryptoOnlyResponderStack_new config (mkPublicKeyResponder local_keys handler) lower upper).
End Responders.

Section Initiators.
Context (config : InitiatorConfig) (lower : L) (upper : U) (crypto_suite : CryptoSuite).

Definition initiator_shared_secret_mode (addresses : Addresses) (key : BufferBase)
  : outcome (initiator_handshake SharedSecretInitiatorHandshake *
             Stack (full_world (Initiator SharedSecretInitiatorHandshake))) :=
  let* handshake := SharedSecretInitiator_new c crypto_suite key in
  Done (SharedSecretInitiator c, FullInitiatorStack_new addresses config handshake lower upper).

Definition initiator_shared_secret_mode_crypto_only (key : BufferBase)
  : outcome (initiator_handshake SharedSecretInitiatorHandshake *
             Stack (raw_world (Initiator SharedSecretInitiatorHandshake))) :=
  let* handshake := SharedSecretInitiator_new c crypto_suite key in
  Done (SharedSecretInitiator c, CryptoOnlyInitiatorStack_new config handshake lower upper).

Definition initiator_qkd_mode {K} (consume_key : K -> option KeyRecord * K) (addresses : Addresses) (key_source : K)
  : outcome (initiator_handshake (QKDInitiatorHandshake (K := K)) *
             Stack (full_world (Initiator (QKDInitiatorHandshake (K := K))))) :=
  let* handshake := QKDInitiator_new c crypto_suite key_source in
  Done (QKDInitiator consume_key, FullInitiatorStack_new addresses config handshake lower upper).

Definition initiator_qkd_mode_crypto_only {K} (consume_key : K -> option KeyRecord * K) (key_source : K)
  : outcome (initiator_handshake (QKDInitiatorHandshake (K := K)) *
             Stack (raw_world (Initiator (QKDInitiatorHandshake (K := K))))) :=
  let* handshake := QKDInitiator_new c crypto_suite key_source in
  Done (QKDInitiator consume_key, CryptoOnlyInitiatorStack_new config handshake lower upper).

Definition initiator_preshared_public_key_mode (addresses : Addresses) (local_keys : StaticKeys)
    (remote_public_key : BufferBase)
  : outcome (initiator_handshake PublicKeyInitiatorHandshake *
             Stack (full_world (Initiator PublicKeyInitiatorHandshake))) :=
  let* handshake := PublicKeyInitiator_new c local_keys (mkDHCryptoSuite HandshakeEphemeral_x25519 crypto_suite)
                      (PresharedKeyCertificateHandler remote_public_key) in
  Done (PublicKeyInitiator, FullInitiatorStack_new addresses config handshake lower upper).

Definition initiator_preshared_public_key_mode_crypto_only (local_keys : StaticKeys)
    (remote_public_key : BufferBase)
  : outcome (initiator_handshake PublicKeyInitiatorHandshake *
             Stack (raw_world (Initiator PublicKeyInitiatorHandshake))) :=
  let* handshake := PublicKeyInitiator_new c local_keys (mkDHCryptoSuite HandshakeEphemeral_x25519 crypto_suite)
                      (PresharedKeyCertificateHandler remote_public_key) in
  Done (PublicKeyInitiator, CryptoOnlyInitiatorStack_new config handshake lower upper).

Definition initiator_certificate_public_key_mode (addresses : Addresses) (local_keys : StaticKeys)
    (anchor_cert_file_data presented_chain_file_data : bytes)
  : outcome (initiator_handshake PublicKeyInitiatorHandshake *
             Stack (full_world (Initiator PublicKeyInitiatorHandshake))) :=
  let* handler := IndustrialCertificateHandler c anchor_cert_file_data presented_chain_file_data in
  let* handshake := PublicKeyInitiator_new c local_keys (mkDHCryptoSuite HandshakeEphemeral_x25519 crypto_suite)
                      handler in
  Done (PublicKeyInitiator, FullInitiatorStack_new addresses config handshake lower upper).

Definition initiator_certificate_public_key_mode_crypto_only (local_keys : StaticKeys)
    (anchor_cert_file_data presented_chain_file_data : bytes)
  : outcome (initiator_handshake PublicKeyInitiatorHandshake *
             Stack (raw_world (Initiator PublicKeyInitiatorHandshake))) :=
  let* handler := IndustrialCertificateHandler c anchor_cert_file_data presented_chain_file_data in
  let* handshake := PublicKeyInitiator_new c local_keys (mkDHCryptoSuite HandshakeEphemeral_x25519 crypto_suite)
                      handler in
  Done (PublicKeyInitiator, CryptoOnlyInitiatorStack_new config handshake lower upper).
End Initiators.
End Classes.

(** ** Safety of stacks *)

Section Safety.
Context `{SER : Ser4cpp} (c : CryptoState) `{HEAP : Heap}.
Context {L U : Type} `{LL : !LowerLayer L} `{LAWS : !LowerLayerLaws L}.
Context (upper : upper_call -> U -> upper_prog U) (clock : nat -> Z).

(** What is safe about a stack: its flag is the one of the cryptographic layer, the
    application is open only while there is a session, and every frame was given to
    a transport that was ready for it. *)
Definition stack_safe {W D L'} (s : Stack (World W D L' U)) : Prop :=
  cl_is_open (w_layer (sk_world s)) = sk_is_open s /\
  (w_upper_open (sk_world s) = true -> s_valid (active (cl_sessions (w_layer (sk_world s)))) = true) /\
  Forall (fun sent => fst sent = true) (w_sent (sk_world s)).

Lemma stack_safe_intro {W D L'} `{!LowerLayer L'} (s : Stack (World W D L' U)) :
  cl_is_open (w_layer (sk_world s)) = sk_is_open s -> safe (view (sk_world s)) -> stack_safe s.
Proof. intros Ho [H1 H2]. split; [exact Ho|]. split; [exact H1|]. by apply sent_ready_all. Qed.

Lemma responder_closed {W D L'} w : responder_initial (W := W) (L := L') (U := U) (HR := D) c w -> cl_is_open (w_layer w) = false.
Proof. by intros (ttl&wr&m1&m2&b&i&->&_). Qed.

Lemma initiator_closed {W D L'} w : initiator_initial (W := W) (L := L') (U := U) (HI := D) c w -> cl_is_open (w_layer w) = false.
Proof. by intros (ttl&wr&m1&m2&b&i&h&->&_). Qed.

Lemma initiator_timer_flags {W D L' X} `{!LowerLayer L'} (fw : frame_writer W) (ih : initiator_handshake D)
    params limits (o : L' -> X) fuel t :
  (forall l, o (lower_start_rx l).2 = o l) -> (forall l data, o (lower_start_tx l data).2 = o l) ->
  changes o id (initiator_step fw c upper clock ih params limits fuel (timer_event t)).
Proof. intros H1 H2. destruct t; by apply (initiator_step_flags fw c upper clock ih params limits o H1 H2 fuel). Qed.

Lemma full_responder_created {H} addresses config (h : H) lower app s :
  FullResponderStack_new (L := L) (U := U) c addresses config h lower app = s ->
  responder_initial c (sk_world s) /\ sk_is_open s = false /\ port_open (w_lower (sk_world s)) = false.
Proof. intros <-. by repeat eexists. Qed.

Lemma crypto_only_responder_created {H} config (h : H) lower app s :
  CryptoOnlyResponderStack_new (L := L) (U := U) c config h lower app = s ->
  responder_initial c (sk_world s) /\ sk_is_open s = false.
Proof. intros <-. by repeat eexists. Qed.

Lemma full_initiator_created {H} addresses config (h : H) lower app s :
  FullInitiatorStack_new (L := L) (U := U) c addresses config h lower app = s ->
  initiator_initial c (sk_world s) /\ sk_is_open s = false /\ port_open (w_lower (sk_world s)) = false.
Proof. intros <-. by repeat eexists. Qed.

Lemma crypto_only_initiator_created {H} config (h : H) lower app s :
  CryptoOnlyInitiatorStack_new (L := L) (U := U) c config h lower app = s ->
  initiator_initial c (sk_world s) /\ sk_is_open s = false.
Proof. intros <-. by repeat eexists. Qed.

(** C6: A stack is safe, with the link layer or without it, responder or initiator,
    with any handshake, in every state it reaches from its construction by
    notifications of the transport, calls of the application and timers, in any
    order and whatever bytes arrive: all the objects it is made of agree on whether
    the transport is open, so that no notification is acted on by some and dropped
    by others; the application is open only while the active session is valid; and
    every frame was handed to the transport when it was ready. *)
Theorem stacks_safe {H} :
  (forall (rh : responder_handshake H LinkFrameWriter) addresses config h lower app s,
     stack_reachable (eq (FullResponderStack_new c addresses config h lower app))
       (FullResponderStack_step (L := L) c upper clock rh) full_env s ->
     stack_safe s /\ port_open (w_lower (sk_world s)) = sk_is_open s) /\
  (forall (rh : responder_handshake H RawFrameWriter) config h lower app s,
     stack_reachable (eq (CryptoOnlyResponderStack_new c config h lower app))
       (CryptoOnlyResponderStack_step (L := L) c upper clock rh) crypto_only_env s -> stack_safe s) /\
  (forall (ih : initiator_handshake H) addresses config h lower app s,
     stack_reachable (eq (FullInitiatorStack_new c addresses config h lower app))
       (FullInitiatorStack_step (L := L) c upper clock ih config) full_env s ->
     stack_safe s /\ port_open (w_lower (sk_world s)) = sk_is_open s) /\
  (forall (ih : initiator_handshake H) config h lower app s,
     stack_reachable (eq (CryptoOnlyInitiatorStack_new c config h lower app))
       (CryptoOnlyInitiatorStack_step (L := L) c upper clock ih config) crypto_only_env s -> stack_safe s).
Proof.
  assert (forall l : LinkPort L, port_open (lower_start_rx l).2 = port_open l) as Hrx by apply port_keeps_open.
  assert (forall (l : LinkPort L) data, port_open (lower_start_tx l data).2 = port_open l) as Htx
    by (intros l; apply port_keeps_open).
  split; [|split; [|split]].
  - intros rh addresses config h lower app s Hs.
    destruct (full_flags_agree _ _ _ _ _ (full_responder_created addresses config h lower app)
      (responder_step_flags LinkFrameWriter_ops c upper clock rh port_open Hrx Htx) (fun _ (t : Empty_set) => match t with end)
      s responder_closed Hs) as [Hp Hc].
    split; [|exact Hp]. apply stack_safe_intro; [exact Hc|].
    apply (responder_always_safe LinkFrameWriter_ops c upper clock rh).
    eapply full_reaches; [|exact Hs]. apply full_responder_created.
  - intros rh config h lower app s Hs. apply stack_safe_intro.
    + refine (crypto_only_flags_agree _ _ _ _ _ (crypto_only_responder_created config h lower app)
        (responder_step_flags RawFrameWriter_ops c upper clock rh (fun _ : L => tt) (fun _ => eq_refl) (fun _ _ => eq_refl))
        (fun _ (t : Empty_set) => match t with end) s responder_closed Hs).
    + apply (responder_always_safe RawFrameWriter_ops c upper clock rh).
      eapply crypto_only_reaches; [|exact Hs]. apply crypto_only_responder_created.
  - intros ih addresses config h lower app s Hs.
    destruct (full_flags_agree _ _ _ _ _ (full_initiator_created addresses config h lower app)
      (fun fuel e => initiator_step_flags LinkFrameWriter_ops c upper clock ih _ _ port_open Hrx Htx fuel (EvLayer e))
      (fun fuel t => initiator_timer_flags _ _ _ _ _ fuel t Hrx Htx) s initiator_closed Hs) as [Hp Hc].
    split; [|exact Hp]. apply stack_safe_intro; [exact Hc|].
    apply (initiator_running LinkFrameWriter_ops c upper clock ih (ic_params config) (ic_session_limits config)).
    eapply full_reaches; [|exact Hs]. apply full_initiator_created.
  - intros ih config h lower app s Hs. apply stack_safe_intro.
    + refine (crypto_only_flags_agree _ _ _ _ _ (crypto_only_initiator_created config h lower app)
        (fun fuel e => initiator_step_flags RawFrameWriter_ops c upper clock ih _ _ (fun _ : L => tt)
           (fun _ => eq_refl) (fun _ _ => eq_refl) fuel (EvLayer e))
        (fun fuel t => initiator_timer_flags _ _ _ _ (fun _ : L => tt) fuel t (fun _ => eq_refl) (fun _ _ => eq_refl))
        s initiator_closed Hs).
    + apply (initiator_running RawFrameWriter_ops c upper clock ih (ic_params config) (ic_session_limits config)).
      eapply crypto_only_reaches; [|exact Hs]. apply crypto_only_initiator_created.
Qed.
End Safety.

(** ** Stacks always come back *)

Section StepsReturn.
Context `{SER : Ser4cpp} (c : CryptoState) {W D L U E T : Type} `{LL : !LowerLayer L}.
Context (I : D -> Prop) (room : Z) (ev : layer_event -> E) (timer : T -> E).

Definition entry_points_return {L'} `{!LowerLayer L'} (size : Z) (step : nat -> E -> act (World W D L' U) unit) : Prop :=
  forall w fuel e, healthy c I size w -> (2 * left_to_receive w + 1 < fuel)%nat ->
    exists w', step fuel e w = Some (Done (tt, w')) /\ healthy c I size w'.

(** From this depth of nested notifications on, the event is handled. *)
Definition event_returns {world} (step : nat -> stack_event T -> act (Stack world) unit) (P : world -> Prop)
    (s : Stack world) (e : stack_event T) : Prop :=
  exists bound, forall fuel, (bound < fuel)%nat ->
    exists s', step fuel e s = Some (Done (tt, s')) /\ P (sk_world s').

Lemma in_world_returns {world} (m : act world unit) s w' :
  m (sk_world s) = Some (Done (tt, w')) -> in_world m s = Some (Done (tt, mkStack (sk_is_open s) w')).
Proof. intros H. unfold in_world. by rewrite H. Qed.

Lemma crypto_only_returns (step : nat -> E -> act (World W D L U) unit) s e :
  entry_points_return room step -> healthy c I room (sk_world s) ->
  event_returns (crypto_only_stack_step step ev timer) (healthy c I room) s e.
Proof.
  intros Hstep Hs. exists (2 * left_to_receive (sk_world s) + 1)%nat. intros fuel Hf.
  destruct e as [call|data| |t]; cbn [crypto_only_stack_step].
  - unfold abind at 1. rewrite stack_notify_eq. destruct (acts_on _ _); [|exists s; done].
    destruct (Hstep _ fuel (ev (event_of call)) Hs Hf) as (w'&E1&Hw').
    unfold abind, crypto_only_forward. erewrite in_world_returns by exact E1. eexists. split; [done|exact Hw'].
  - destruct (Hstep _ fuel (ev (EvStartTx data)) Hs Hf) as (w'&E1&Hw'). erewrite in_world_returns by exact E1. eauto.
  - destruct (Hstep _ fuel (ev EvStartRx) Hs Hf) as (w'&E1&Hw'). erewrite in_world_returns by exact E1. eauto.
  - destruct (Hstep _ fuel (timer t) Hs Hf) as (w'&E1&Hw'). erewrite in_world_returns by exact E1. eauto.
Qed.

(** Whatever the link layer has received, no message it delivers is too long. *)
Lemma link_messages_fit (p : LinkPort L) :
  Forall (fun m => room_for c (zlen m) max_config_payload_size) (lower_chunks p).
Proof. eapply Forall_impl; [exact (port_chunks_fit p)|]. by intros m Hm _. Qed.

Lemma full_env_healthy (w : World W D (LinkPort L) U) p u :
  healthy c I max_config_payload_size w -> healthy c I max_config_payload_size (with_neighbours w p u).
Proof. intros (Hs&Hd&Hr&_). split; [exact Hs|]. split; [exact Hd|]. split; [exact Hr|apply link_messages_fit]. Qed.

(** The messages the link layer has for the layer after a notification. *)
Lemma full_forward_returns (step : nat -> E -> act (World W D (LinkPort L) U) unit) call w :
  entry_points_return max_config_payload_size step -> healthy c I max_config_payload_size w ->
  exists bound, forall fuel, (bound < fuel)%nat ->
    exists w', full_forward step ev fuel call w = Some (Done (tt, w')) /\ healthy c I max_config_payload_size w'.
Proof.
  intros Hstep Hw. set (w1 := with_neighbours w (port_notify (w_lower w) call).2 (w_upper w)).
  assert (healthy c I max_config_payload_size w1) as Hw1 by by apply full_env_healthy.
  exists (2 * left_to_receive w1 + 1)%nat. intros fuel Hf.
  unfold full_forward, abind. rewrite link_notify_eq. fold w1.
  assert ((port_notify (w_lower w) call).1 = [] \/ (port_notify (w_lower w) call).1 = [call]) as Hc.
  { destruct (port_notify_calls (w_lower w) call) as [[_ ->]|(_&_&->)]; [destruct (acts_on _ _)|]; auto. }
  destruct Hc as [-> | ->]; cbn [notify_layer]; [by exists w1|].
  destruct (Hstep w1 fuel (ev (event_of call)) Hw1 Hf) as (w'&E1&Hw'). unfold abind. rewrite E1. by exists w'.
Qed.

Lemma full_returns (step : nat -> E -> act (World W D (LinkPort L) U) unit) s e :
  entry_points_return max_config_payload_size step -> healthy c I max_config_payload_size (sk_world s) ->
  event_returns (full_stack_step step ev timer) (healthy c I max_config_payload_size) s e.
Proof.
  intros Hstep Hs.
  assert (forall e, exists bound, forall fuel, (bound < fuel)%nat ->
    exists s', in_world (step fuel e) s = Some (Done (tt, s')) /\ healthy c I max_config_payload_size (sk_world s')) as Hdirect.
  { intros e'. exists (2 * left_to_receive (sk_world s) + 1)%nat. intros fuel Hf.
    destruct (Hstep _ fuel e' Hs Hf) as (w'&E1&Hw'). erewrite in_world_returns by exact E1. eauto. }
  destruct e as [call|data| |t]; [|apply Hdirect..].
  destruct (full_forward_returns step call (sk_world s) Hstep Hs) as (bound&Hb).
  exists bound. intros fuel Hf. destruct (Hb fuel Hf) as (w'&E1&Hw').
  cbn [full_stack_step]. unfold abind at 1. rewrite stack_notify_eq. destruct (acts_on _ _); [|exists s; done].
  unfold abind. erewrite in_world_returns by exact E1. eexists. split; [done|exact Hw'].
Qed.
End StepsReturn.

Section Returning.
Context `{SER : Ser4cpp} (c : CryptoState) (HC : backend_complete c) `{HEAP : Heap}.
Context {L U : Type} `{LL : !LowerLayer L} `{LAWS : !LowerLayerLaws L}.
Context (upper : upper_call -> U -> upper_prog U) (clock : nat -> Z).

(** Created stacks satisfy [P], and from every state that does every event returns to
    one that does; also after the transport and the application have changed. *)
Definition always_returns {world T} (created : Stack world) (step : nat -> stack_event T -> act (Stack world) unit)
    (env : world -> world -> Prop) (P : world -> Prop) : Prop :=
  P (sk_world created) /\ (forall w w', P w -> env w w' -> P w') /\
  (forall s e, P (sk_world s) -> event_returns step P s e).

(** No message of the transport is too long for a buffer of that size. *)
Definition messages_fit (room : Z) (l : L) : Prop := Forall (fun m => room_for c (zlen m) room) (lower_chunks l).

(** The transport and the application change, and the messages still fit. *)
Definition fitting_env {W D} (room : Z) (w w' : World W D L U) : Prop :=
  crypto_only_env w w' /\ messages_fit room (w_lower w').

Lemma payload_buffer_room room size : room_for c room size -> room_for c room (zlen (alloc 3 size)).
Proof.
  intros Hr Ho. specialize (Hr Ho). destruct (Z_le_gt_dec 0 size); [by rewrite alloc_length|].
  pose proof (zlen_nonneg (alloc 3 size)). lia.
Qed.

Lemma fitting_env_healthy {W D} (I : D -> Prop) room (w w' : World W D L U) :
  healthy c I room w -> fitting_env room w w' -> healthy c I room w'.
Proof. intros (Hs&Hd&Hr&_) [(l&u&->) Hl]. done. Qed.

End Returning.

(** ** Stations made by the factories agree *)

Section Agreement.
Context `{SER : Ser4cpp} (c : CryptoState) `{HB : !BackendOk c} `{HH : !HandshakeBackendOk c} `{HEAP : Heap}.
Context {Li Lr Ui Ur : Type} `{LLi : !LowerLayer Li} `{LLr : !LowerLayer Lr}.
Context (iconfig : InitiatorConfig) (rconfig : ResponderConfig) (addr_i addr_r : Addresses).
Context (lower_i : Li) (lower_r : Lr) (app_i : Ui) (app_r : Ur).

(** The handshake objects inside two stacks complete the exchange, with the limits of
    the initiator's configuration and the responder stack's frame writer. *)
Definition stations_complete {HI HR} (ih : initiator_handshake HI) (rh : responder_handshake HR LinkFrameWriter)
    (I : HI -> Prop) (si : Stack (World LinkFrameWriter (Initiator HI) (LinkPort Li) Ui))
    (sr : Stack (World LinkFrameWriter HR (LinkPort Lr) Ur)) (ikm : bytes -> bytes -> bytes -> Prop) : Prop :=
  forall draw_i draw_r,
    completes c LinkFrameWriter_ops LinkFrameWriter_inv LinkFrameWriter_frame ih rh I (in_handshake (w_derived (sk_world si)))
      (w_derived (sk_world sr)) draw_i draw_r (ic_session_limits iconfig) (cl_frame_writer (w_layer (sk_world sr))) ikm.

(** What a handler says of its own certificate data. *)
Definition certifies (handler : ICertificateHandler) (private : BufferBase) : Prop :=
  all_bytes (certificate_data handler) /\ zlen (certificate_data handler) <= max_config_payload_size - 47 /\
  handler_validate handler (handler_mode handler) (certificate_data handler) =
    Done (inr (x25519_base (c := c) (as_seq private))).

Lemma writer_fits : addr_ok addr_r ->
  LinkFrameWriter_inv (full_frame_writer addr_r) /\
  fw_max_payload_size LinkFrameWriter_ops (full_frame_writer addr_r) = max_config_payload_size.
Proof. intros Ha. split; [|done]. split; [done|]. split; [done|]. by apply alloc_length. Qed.

Lemma same_anchor anchor chain_i chain_r hi hr :
  IndustrialCertificateHandler c anchor chain_i = Done hi -> IndustrialCertificateHandler c anchor chain_r = Done hr ->
  handler_validate hi = handler_validate hr /\
  handler_mode hi = HandshakeMode_industrial_certificates /\ handler_mode hr = HandshakeMode_industrial_certificates.
Proof.
  unfold IndustrialCertificateHandler. intros (a&Ha&(pi&_&[= <-])%obind_done)%obind_done.
  rewrite Ha. cbn. intros (pr&_&[= <-])%obind_done. done.
Qed.

Context (limits : limits_ok (ic_session_limits iconfig)) (addr_r_ok : addr_ok addr_r).

Lemma shared_secret_stations suite key h :
  SharedSecretInitiator_new c suite key = Done h ->
  stations_complete (SharedSecretInitiator c) (SharedSecretResponder LinkFrameWriter_ops c) (shared_initiator_ok c)
    (FullInitiatorStack_new c addr_i iconfig h lower_i app_i)
    (FullResponderStack_new c addr_r rconfig key lower_r app_r)
    (fun ei er material => material = as_seq key ++ ei ++ er).
Proof.
  intros Hh draw_i draw_r. unfold SharedSecretInitiator_new in Hh. apply obind_done in Hh as (alg&Ha&[= <-]).
  destruct (writer_fits addr_r_ok) as [Hw Hm].
  by apply (shared_secret_exchange c LinkFrameWriter_ops LinkFrameWriter_inv LinkFrameWriter_frame
    (mkSharedSecretInitiator suite alg key (replicate 32 0) 0 buffer_empty)).
Qed.

Lemma public_key_stations suite local_i local_r hi hr h :
  PublicKeyInitiator_new c local_i (mkDHCryptoSuite HandshakeEphemeral_x25519 suite) hi = Done h ->
  supports_ed25519 c = true ->
  handler_mode hi <> HandshakeMode_undefined ->
  presents c hi hr (handler_mode hi) (static_private_key local_i) ->
  presents c hr hi (handler_mode hi) (static_private_key local_r) ->
  47 + zlen (certificate_data hr) <= max_config_payload_size ->
  stations_complete PublicKeyInitiator (PublicKeyResponder LinkFrameWriter_ops c) (public_initiator_ok c)
    (FullInitiatorStack_new c addr_i iconfig h lower_i app_i)
    (FullResponderStack_new c addr_r rconfig (mkPublicKeyResponder local_r hr) lower_r app_r)
    (triple_dh_material c (as_seq (static_private_key local_i)) (as_seq (static_private_key local_r))).
Proof.
  intros Hnew Hed Hmode Hi Hr Hfit draw_i draw_r. unfold PublicKeyInitiator_new in Hnew.
  apply obind_done in Hnew as (alg&Ha&Hnew). apply obind_done in Hnew as (dh&Hd&Hnew). injection Hnew as <-.
  destruct (writer_fits addr_r_ok) as [Hw Hm].
  by apply (public_key_exchange c LinkFrameWriter_ops LinkFrameWriter_inv LinkFrameWriter_frame).
Qed.

(** The factories make stations that understand each other: an initiator and a
    responder stack made for the same mode hold handshake objects that complete the
    exchange with mirrored sessions. *)
Lemma factories_complete :
  (forall suite key ih si,
     initiator_shared_secret_mode c iconfig lower_i app_i suite addr_i key = Done (ih, si) ->
     let '(rh, sr) := responder_shared_secret_mode c rconfig lower_r app_r addr_r key in
     stations_complete ih rh (shared_initiator_ok c) si sr
       (fun ei er material => material = as_seq key ++ ei ++ er)) /\
  (forall K K' (consume_key : K -> option KeyRecord * K) (find : K' -> Z -> option BufferBase * K')
          suite source lookup key ih si,
     initiator_qkd_mode c iconfig lower_i app_i suite consume_key addr_i source = Done (ih, si) ->
     qkd_key_shared consume_key find source lookup key ->
     let '(rh, sr) := responder_qkd_mode c rconfig lower_r app_r find addr_r lookup in
     stations_complete ih rh (qkd_initiator_ok c) si sr (fun _ _ material => material = key)) /\
  (forall suite local_i local_r public_i public_r ih si,
     supports_ed25519 c = true ->
     initiator_preshared_public_key_mode c iconfig lower_i app_i suite addr_i local_i public_r = Done (ih, si) ->
     zlen (as_seq (static_private_key local_i)) = x25519_key_length ->
     zlen (as_seq (static_private_key local_r)) = x25519_key_length ->
     as_seq public_i = x25519_base (c := c) (as_seq (static_private_key local_i)) ->
     as_seq public_r = x25519_base (c := c) (as_seq (static_private_key local_r)) ->
     let '(rh, sr) := responder_preshared_public_key_mode c rconfig lower_r app_r addr_r local_r public_i in
     stations_complete ih rh (public_initiator_ok c) si sr
       (triple_dh_material c (as_seq (static_private_key local_i)) (as_seq (static_private_key local_r)))) /\
  (forall suite local_i local_r anchor chain_i chain_r ih si rh sr,
     supports_ed25519 c = true ->
     initiator_certificate_public_key_mode c iconfig lower_i app_i suite addr_i local_i anchor chain_i = Done (ih, si) ->
     responder_certificate_public_key_mode c rconfig lower_r app_r addr_r local_r anchor chain_r = Done (rh, sr) ->
     zlen (as_seq (static_private_key local_i)) = x25519_key_length ->
     zlen (as_seq (static_private_key local_r)) = x25519_key_length ->
     certifies (pki_cert_handler (in_handshake (w_derived (sk_world si)))) (static_private_key local_i) ->
     certifies (pkr_cert_handler (w_derived (sk_world sr))) (static_private_key local_r) ->
     stations_complete ih rh (public_initiator_ok c) si sr
       (triple_dh_material c (as_seq (static_private_key local_i)) (as_seq (static_private_key local_r)))).
Proof.
  destruct (writer_fits addr_r_ok) as [Hw Hm]. split; [|split; [|split]].
  - intros suite key ih si (h&Hh&[= <- <-])%obind_done. by apply (shared_secret_stations suite key h).
  - intros K K' consume find suite source lookup key ih si (h&Hh&[= <- <-])%obind_done Hkey draw_i draw_r.
    unfold QKDInitiator_new in Hh. apply obind_done in Hh as (alg&Ha&[= <-]).
    by apply (qkd_exchange c LinkFrameWriter_ops LinkFrameWriter_inv LinkFrameWriter_frame consume find).
  - intros suite local_i local_r public_i public_r ih si Hed (h&Hh&[= <- <-])%obind_done Hli Hlr Hi Hr.
    apply (public_key_stations suite _ _ _ _ h Hh Hed); [done|..|done].
    + split; [done|]. split; [constructor|]. split; [done|]. cbn. by rewrite <- Hi.
    + split; [done|]. split; [constructor|]. split; [done|]. cbn. by rewrite <- Hr.
  - intros suite local_i local_r anchor chain_i chain_r ih si rh sr Hed
      (hi&Hhi&(h&Hh&[= <- <-])%obind_done)%obind_done (hr&Hhr&[= <- <-])%obind_done Hli Hlr.
    assert (pki_cert_handler h = hi) as Eh.
    { unfold PublicKeyInitiator_new in Hh. apply obind_done in Hh as (alg&_&Hh).
      apply obind_done in Hh as (dh&_&Hh). by injection Hh as <-. }
    cbn. rewrite Eh. intros (Hbi&Hzi&Hvi) (Hbr&Hzr&Hvr).
    destruct (same_anchor _ _ _ _ _ Hhi Hhr) as (Ev&Emi&Emr). unfold max_config_payload_size, max_u16 in *.
    apply (public_key_stations suite _ _ _ _ h Hh Hed).
    + by rewrite Emi.
    + split; [done|]. split; [done|]. split; [unfold max_u16; lia|]. by rewrite <- Ev.
    + split; [done|]. split; [done|]. split; [unfold max_u16; lia|]. rewrite Ev, Emi, <- Emr. done.
    + unfold max_config_payload_size. lia.
Qed.
End Agreement.
