(* ===== verification/WellFormed.v ===== *)
(** * Well-formed sessions in every state

    [session_ok] is what the theorems on a session ask of it: key buffers of their
    fixed size, nonces and parameters that fit their types, one of the two checks of
    nonces, and two keys of 32 bytes when it is valid.  Here it is shown for both
    sessions of every stack in every state it reaches: each operation on a session
    keeps it, the handshakes make such sessions ([InitiatorMakes], [ResponderMakes],
    with an instance per mode), and the actions of the cryptographic layer, whatever
    they receive, use these operations only. *)

From stdpp Require Import base numbers list strings.
From Stdlib Require Import Lia ZArith.
From S2P Require Import Prelude Ser4cpp Enums Codec Messages CRC LinkParser FrameWriter LinkLayer.
From S2P Require Import Crypto SessionMode Session Chain Handshake CryptoLayer LayerLogic.
From S2P Require Import Responder Initiator LayerFrame Returns Terminates Stack Factory.

Definition sessions_ok (ss : Sessions) : Prop := session_ok (active ss) /\ session_ok (pending_session ss).

(** ** Operations on sessions *)

Section Sessions.
Context `{SER : Ser4cpp} {W : Type} (fw : frame_writer W) (c : CryptoState) `{HB : !BackendOk c}.

Lemma u16_range n : is_u16 (u16 n).
Proof. unfold is_u16, u16, max_u16. pose proof (Z.mod_pos_bound n (2 ^ 16)). lia. Qed.

Lemma format_no_check_ok s w now data res s' w' rest :
  format_session_data_no_nonce_check fw s w now data = Done (res, s', w', rest) -> session_ok s -> session_ok s'.
Proof.
  intros H Hs. unfold format_session_data_no_nonce_check in H. pose proof (u16_range (s_tx_nonce s + 1)).
  pose proof Hs as (?&?&?&?&?&?&?). done_cases; conj_done.
Qed.

Lemma format_data_ok s w now data res s' w' rest :
  Session_format_session_data fw s w now data = Done (res, s', w', rest) -> session_ok s -> session_ok s'.
Proof. unfold Session_format_session_data. case_if; [by intros [= _ <- _ _]|by apply format_no_check_ok]. Qed.

Lemma format_auth_ok s w now data res s' w' rest :
  Session_format_session_auth fw s w now data = Done (res, s', w', rest) -> session_ok s -> session_ok s'.
Proof. unfold Session_format_session_auth. case_if; [by intros [= _ <- _ _]|by apply format_no_check_ok]. Qed.

Lemma validate_auth_keeps_ok s st msg now dest res s' st' dest' :
  Session_validate_session_auth s st msg now dest = Done (res, s', st', dest') ->
  session_ok s -> SessionData_ok msg -> session_ok s'.
Proof.
  intros H Hs ([Hn%int_ok_u16 _]&_). apply validate_with_done in H. destruct res; [by subst|].
  destruct H as (_&_&_&_&_&_&_&->). pose proof Hs as (?&?&?&?&?&?&?). conj_done.
Qed.

Lemma validate_data_keeps_ok s st msg now dest res s' st' dest' :
  Session_validate_session_data s st msg now dest = Done (res, s', st', dest') ->
  session_ok s -> SessionData_ok msg -> session_ok s'.
Proof. intros H Hs ([Hn%int_ok_u16 _]&_). by destruct (validate_step _ _ _ _ _ _ _ _ _ Hs Hn H). Qed.

Lemma zero_keeps_ok b b' : SecureBuffer_zero c b = Done b' -> buffer_ok b -> buffer_ok b'.
Proof.
  unfold SecureBuffer_zero. rewrite (zero_memory_done c). cbn. intros [= <-]. unfold buffer_ok, zlen. cbn.
  rewrite length_replicate. done.
Qed.

Lemma reset_ok s s' : Session_reset c s = Done s' -> session_ok s -> session_ok s'.
Proof.
  intros H Hs. pose proof Hs as ((Hr&Ht)&?&?&?&?&?&?). unfold Session_reset, SessionKeys_zero in H. done_cases.
  split; [|conj_done]. split; by eapply zero_keeps_ok.
Qed.
End Sessions.

(** ** Algorithms *)

Section Algorithms.
Context `{SER : Ser4cpp} (c : CryptoState) `{HB : !BackendOk c} `{HH : !HandshakeBackendOk c}.

(** What the sessions need of the algorithms that were configured. *)
Definition algorithms_ok (a : Algorithms_Common) : Prop :=
  nonce_check (verify_nonce (alg_session a)) /\
  forall salt ikm k1 k2,
    alg_kdf (alg_handshake a) salt ikm buffer_empty buffer_empty = Done (k1, k2) -> buffer_ok k1 /\ buffer_ok k2.

Lemma hkdf_ok salt ikm k1 k2 :
  Crypto_hkdf_sha256 c salt ikm buffer_empty buffer_empty = Done (k1, k2) -> buffer_ok k1 /\ buffer_ok k2.
Proof.
  unfold Crypto_hkdf_sha256. intros H. apply obind_done in H as ([]&_&H).
  destruct (be_hkdf_sha256 (backend c)) as [f|] eqn:E; [|done]. cbn in H.
  rewrite (bk_hkdf f salt ikm buffer_empty buffer_empty E) in H. injection H as <- <-.
  destruct (hkdf_length salt (concat ikm)) as [L1 L2].
  by split; apply buffer_store_ok; rewrite ?L1, ?L2.
Qed.

Lemma default_ok : algorithms_ok (Algorithms_Common_default c).
Proof. split; [by left|]. intros salt ikm k1 k2. apply hkdf_ok. Qed.

Lemma session_configure_ok a nonce mode err a' :
  Algorithms_Session_configure c a nonce mode = (err, a') -> nonce_check (verify_nonce a) -> nonce_check (verify_nonce a').
Proof.
  unfold Algorithms_Session_configure. intros H Hn.
  destruct nonce, mode, (supports_sha256 c), (supports_aes256_gcm c); injection H as _ <-; cbn;
    first [done|by left|by right].
Qed.

Lemma configure4_ok a hash kdf nonce mode err a' :
  Algorithms_Common_configure4 c a hash kdf nonce mode = (err, a') -> algorithms_ok a -> algorithms_ok a'.
Proof.
  unfold Algorithms_Common_configure4, Algorithms_Handshake_configure. intros H [Hn Hk]. pose proof hkdf_ok.
  destruct hash, kdf, (supports_sha256 c); cbn in H;
    try destruct (Algorithms_Session_configure c _ _ _) as [e s] eqn:E; try destruct (any_HandshakeError e);
    injection H as _ <-; split; cbn; eauto using session_configure_ok.
Qed.

Lemma get_or_throw_ok suite a : Algorithms_Common_get_or_throw c suite = Done a -> algorithms_ok a.
Proof.
  unfold Algorithms_Common_get_or_throw. intros H. done_cases.
  eapply configure4_ok; [eassumption|exact default_ok].
Qed.
End Algorithms.

(** ** What the handshakes make *)

(** An initiator handshake keeps its object and makes well-formed sessions. *)
Class InitiatorMakes {H} (ih : initiator_handshake H) (I : H -> Prop) : Prop := {
  im_new draw h r h' : ih_initialize_new_handshake ih draw h = Done (r, h') -> I h -> I h';
  im_finalize h data now h' : ih_finalize_request_tx ih h data now = Done h' -> I h -> I h';
  im_session h msg data limits now s st ok h' s' st' :
    ih_initialize_session ih h msg data limits now s st = Done (ok, h', s', st') ->
    I h -> limits_ok limits -> session_ok s -> I h' /\ session_ok s';
}.

Class ResponderMakes {H W} (rh : responder_handshake H W) (I : H -> Prop) : Prop := {
  rm_process h draw msg data now w s st res h' w' s' st' :
    rh_process rh h draw msg data now w s st = Done (res, h', w', s', st') ->
    I h -> RequestHandshakeBegin_ok msg -> session_ok s -> I h' /\ session_ok s';
}.

Section Handshakes.
Context `{SER : Ser4cpp} {W : Type} (fw : frame_writer W) (c : CryptoState).
Context `{HB : !BackendOk c} `{HH : !HandshakeBackendOk c}.

Lemma param_limits limits now :
  limits_ok limits -> param_ok (mkParam now (max_nonce_value limits) (ms (max_session_time_ms limits))).
Proof. intros [Hn Ht]. split; [done|]. cbn. unfold ms, is_u32 in *. lia. Qed.

Lemma initialize_keeps_ok s st alg p k1 k2 b s' st' :
  Session_initialize s st alg p (mkSessionKeys k1 k2) = (b, s', st') ->
  session_ok s -> buffer_ok k1 -> buffer_ok k2 -> param_ok p -> nonce_check (verify_nonce alg) -> session_ok s'.
Proof.
  intros H Hs H1 H2 Hp Hn. pose proof (session_initialize_ok s st alg p (mkSessionKeys k1 k2) Hs (conj H1 H2) Hp Hn) as Hok.
  rewrite H in Hok. apply Hok.
Qed.

Lemma start_initiator_ok alg t limits now salt ikm k1 k2 s st b s' st' :
  start_initiator_session alg t limits now (mkSessionKeys k2 k1) s st = (b, s', st') ->
  alg_kdf (alg_handshake alg) salt ikm buffer_empty buffer_empty = Done (k1, k2) ->
  algorithms_ok alg -> limits_ok limits -> session_ok s -> session_ok s'.
Proof.
  unfold start_initiator_session. intros H Hk [Hn Hkdf] Hl Hs. destruct (Hkdf _ _ _ _ Hk).
  destruct (_ <? _); [by injection H as _ <- _|]. eapply initialize_keeps_ok; eauto using param_limits.
Qed.

Lemma start_responder_ok alg msg now salt ikm k1 k2 s st s' st' :
  start_responder_session alg msg now (mkSessionKeys k1 k2) s st = (s', st') ->
  alg_kdf (alg_handshake alg) salt ikm buffer_empty buffer_empty = Done (k1, k2) ->
  algorithms_ok alg -> RequestHandshakeBegin_ok msg -> session_ok s -> session_ok s'.
Proof.
  unfold start_responder_session. intros H Hk [Hn Hkdf] (_&_&[Hm%int_ok_u16 Ht%int_ok_u32]&_) Hs.
  destruct (Hkdf _ _ _ _ Hk). destruct (Session_initialize _ _ _ _ _) as [[b s1] st1] eqn:E. injection H as <- _.
  eapply initialize_keeps_ok; eauto. split; [done|]. cbn. unfold ms, is_u32 in *. lia.
Qed.

#[local] Hint Resolve start_initiator_ok start_responder_ok default_ok configure4_ok : core.

(** *** The three modes *)

#[export] Instance shared_initiator_makes :
  InitiatorMakes (SharedSecretInitiator c) (fun h => algorithms_ok (ssi_algorithms h)).
Proof.
  split; cbn [SharedSecretInitiator ih_initialize_new_handshake ih_finalize_request_tx ih_initialize_session].
  - unfold SharedSecretInitiator_initialize_new_handshake. intros. by done_cases.
  - unfold SharedSecretInitiator_finalize_request_tx. intros. by done_cases.
  - unfold SharedSecretInitiator_initialize_session, SharedSecretInitiator_mix_handshake_hash.
    intros h msg data limits now s st ok h' s' st' E Hh Hl Hs. done_cases; cbn in *; eauto.
Qed.

#[export] Instance qkd_initiator_makes {K} (consume_key : K -> option KeyRecord * K) :
  InitiatorMakes (QKDInitiator consume_key) (fun h => algorithms_ok (qi_algorithms h)).
Proof.
  split; cbn [QKDInitiator ih_initialize_new_handshake ih_finalize_request_tx ih_initialize_session].
  - unfold QKDInitiator_initialize_new_handshake. intros. by done_cases.
  - unfold QKDInitiator_finalize_request_tx. intros. by done_cases.
  - unfold QKDInitiator_initialize_session, QKDInitiator_mix_handshake_hash.
    intros h msg data limits now s st ok h' s' st' E Hh Hl Hs. done_cases; cbn in *; eauto.
Qed.

#[export] Instance public_initiator_makes :
  InitiatorMakes PublicKeyInitiator (fun h => algorithms_ok (pki_algorithms h)).
Proof.
  split; cbn [PublicKeyInitiator ih_initialize_new_handshake ih_finalize_request_tx ih_initialize_session].
  - unfold PublicKeyInitiator_initialize_new_handshake. intros. by done_cases.
  - unfold PublicKeyInitiator_finalize_request_tx. intros. by done_cases.
  - unfold PublicKeyInitiator_initialize_session, PublicKeyInitiator_mix_handshake_hash.
    intros h msg data limits now s st ok h' s' st' E Hh Hl Hs. done_cases; cbn in *; eauto.
Qed.

#[export] Instance shared_responder_makes : ResponderMakes (SharedSecretResponder fw c) (fun _ => True).
Proof.
  split. cbn [SharedSecretResponder rh_process]. unfold SharedSecretResponder_process, Algorithms_Common_configure.
  intros h draw msg data now w s st res h' w' s' st' E _ Hm Hs. split; [done|]. done_cases; eauto.
Qed.

#[export] Instance qkd_responder_makes {K} (find : K -> Z -> option BufferBase * K) :
  ResponderMakes (QKDResponder fw c find) (fun _ => True).
Proof.
  split. cbn [QKDResponder rh_process]. unfold QKDResponder_process, Algorithms_Common_configure.
  intros h draw msg data now w s st res h' w' s' st' E _ Hm Hs. split; [done|]. done_cases; eauto.
Qed.

#[export] Instance public_responder_makes : ResponderMakes (PublicKeyResponder fw c) (fun _ => True).
Proof.
  split. cbn [PublicKeyResponder rh_process]. unfold PublicKeyResponder_process, Algorithms_Common_configure.
  intros h draw msg data now w s st res h' w' s' st' E _ Hm Hs. split; [done|]. done_cases; eauto.
Qed.
End Handshakes.

(** ** The actions of the cryptographic layer *)

Section Layer.
Context `{SER : Ser4cpp} {W : Type} (fw : frame_writer W) (c : CryptoState) `{HB : !BackendOk c}.
Context {D L U : Type} `{LL : !LowerLayer L}.
Context (upper : upper_call -> U -> upper_prog U) (clock : nat -> Z) (I : D -> Prop).
Local Abbreviation world := (World W D L U).
Local Abbreviation action := (act world).
Local Abbreviation vtable := (virtuals (W := W) (D := D) (L := L) (U := U)).

(** Both sessions are well formed, and so is the derived object. *)
Definition well_formed (w : world) : Prop := sessions_ok (cl_sessions (w_layer w)) /\ I (w_derived w).

Definition upholds {A} (m : action A) : Prop :=
  forall w a w', m w = Some (Done (a, w')) -> well_formed w -> well_formed w'.

Lemma upholds_bind {A B} (m : action A) (k : A -> action B) :
  upholds m -> (forall a, upholds (k a)) -> upholds (abind m k).
Proof. intros Hm Hk w b w' (a&w1&E1&E2)%abind_inv Hw. eapply Hk; [exact E2|]. by eapply Hm. Qed.

Lemma upholds_ret {A} (a : A) : upholds (aret a).
Proof. by intros w a' w' [= _ <-]. Qed.

Lemma upholds_get {A} (f : world -> A) : upholds (aget f).
Proof. by intros w a' w' [= _ <-]. Qed.

Lemma upholds_lift {A} (f : world -> outcome A) : upholds (alift f).
Proof. intros w a w' H. unfold alift in H. destruct (f w); try done. by injection H as _ <-. Qed.

Lemma upholds_when b (m : action unit) : upholds m -> upholds (awhen b m).
Proof. destruct b; [done|]. intros _. apply upholds_ret. Qed.

Lemma upholds_set_layer (f : CryptoLayer W -> CryptoLayer W) :
  (forall x, sessions_ok (cl_sessions x) -> sessions_ok (cl_sessions (f x))) -> upholds (set_layer f : action unit).
Proof. intros Hf w [] w' [= <-] [Hs Hd]. split; [by apply Hf|done]. Qed.

Lemma upholds_set_derived (f : D -> D) : (forall d, I d -> I (f d)) -> upholds (set_derived f : action unit).
Proof. intros Hf w [] w' [= <-] [Hs Hd]. split; [done|by apply Hf]. Qed.

Lemma upholds_upper_state u : upholds (set_upper_state u : action unit).
Proof. by intros w [] w' [= <-]. Qed.

Lemma upholds_upper_open b : upholds (set_upper_open b : action unit).
Proof. by intros w [] w' [= <-]. Qed.

Lemma upholds_time : upholds (get_time clock : action Z).
Proof. by intros w a w' [= _ <-]. Qed.

Lemma upholds_draw : upholds (next_draw : action nat).
Proof. by intros w a w' [= _ <-]. Qed.

Lemma upholds_transmit frame : upholds (lower_transmit frame : action bool).
Proof. intros w a w' H. unfold lower_transmit in H. destruct (lower_start_tx _ _). by injection H as _ <-. Qed.

Lemma upholds_payload data : upholds (set_payload_data data : action unit).
Proof. by apply upholds_set_layer. Qed.

(** An action that is run while the layer is [x] and the derived object [d]. *)
Definition runs_from (x : CryptoLayer W) (d : D) {A} (m : action A) : Prop :=
  forall w a w', m w = Some (Done (a, w')) -> w_layer w = x -> w_derived w = d -> well_formed w'.

Lemma upholds_layer {A} (k : CryptoLayer W -> action A) :
  (forall x d, sessions_ok (cl_sessions x) -> I d -> runs_from x d (k x)) -> upholds (abind layer k).
Proof. intros Hk w a w' H [Hs Hd]. exact (Hk (w_layer w) (w_derived w) Hs Hd w a w' H eq_refl eq_refl). Qed.

Lemma from_get {A B} x d (f : world -> B) (k : B -> action A) :
  (forall b, runs_from x d (k b)) -> runs_from x d (abind (aget f) k).
Proof. intros Hk w a w' H Hx Hd. exact (Hk (f w) w a w' H Hx Hd). Qed.

Lemma from_derived {A} x d (k : D -> action A) : runs_from x d (k d) -> runs_from x d (abind (aget w_derived) k).
Proof. intros Hk w a w' H Hx Hd. subst d. exact (Hk w a w' H Hx eq_refl). Qed.

Lemma from_time {A} x d (k : Z -> action A) : (forall t, runs_from x d (k t)) -> runs_from x d (abind (get_time clock) k).
Proof. intros Hk w a w' H Hx Hd. exact (Hk _ _ a w' H Hx Hd). Qed.

Lemma from_draw {A} x d (k : nat -> action A) : (forall n, runs_from x d (k n)) -> runs_from x d (abind next_draw k).
Proof. intros Hk w a w' H Hx Hd. exact (Hk _ _ a w' H Hx Hd). Qed.

Lemma from_lift {A B} x d (f : world -> outcome A) (k : A -> action B) :
  (forall w a, w_layer w = x -> w_derived w = d -> f w = Done a -> runs_from x d (k a)) ->
  runs_from x d (abind (alift f) k).
Proof.
  intros Hk w b w' H Hx Hd. unfold abind, alift in H. destruct (f w) as [a| | |] eqn:E; try done.
  by eapply (Hk w a); [..|exact H|done|done].
Qed.

Lemma from_set_derived {A} x d (f : D -> D) (k : unit -> action A) :
  runs_from x (f d) (k tt) -> runs_from x d (abind (set_derived f) k).
Proof. intros Hk w a w' H Hx Hd. eapply Hk; [exact H|done|]. cbn. by rewrite Hd. Qed.

Lemma from_set_layer {A} x d (f : CryptoLayer W -> CryptoLayer W) (k : unit -> action A) :
  sessions_ok (cl_sessions (f x)) -> I d -> upholds (k tt) -> runs_from x d (abind (set_layer f) k).
Proof. intros Hs Hi Hk w a w' H <- <-. eapply Hk; [exact H|]. by split. Qed.

Lemma from_last_layer x d (f : CryptoLayer W -> CryptoLayer W) :
  sessions_ok (cl_sessions (f x)) -> I d -> runs_from x d (set_layer f).
Proof. intros Hs Hi w [] w' [= <-] <- <-. by split. Qed.

Lemma put_session_ok i ss s : sessions_ok ss -> session_ok s -> sessions_ok (put_session i ss s).
Proof. by intros [Ha Hp] Hs; destruct i. Qed.

Lemma get_session_ok i ss : sessions_ok ss -> session_ok (get_session i ss).
Proof. by intros [Ha Hp]; destruct i. Qed.

(** What is received is bytes. *)
Lemma upholds_receive {A} (k : bytes -> action A) :
  (forall data, all_bytes data -> upholds (k data)) -> upholds (abind lower_receive k).
Proof.
  intros Hk w a w' H Hw. unfold abind, lower_receive in H. pose proof (lower_chunks_ok (w_lower w)) as Hok.
  assert (exists data l, lower_start_rx (w_lower w) = (data, l) /\ all_bytes data) as (data&l&E&Hb).
  { destruct (lower_chunks (w_lower w)) as [|m ms] eqn:Ec.
    - destruct (lower_rx_none _ Ec) as (l&->&_). by exists [], l.
    - destruct (lower_rx_some _ _ _ Ec) as (l&->&_). exists m, l. by apply Forall_inv in Hok as [_ ?]. }
  rewrite E in H. by eapply (Hk data Hb); [exact H|].
Qed.

(** *** Operations on the sessions *)

Lemma upholds_format now data : upholds (format_active fw now data : action _).
Proof.
  unfold format_active. apply upholds_layer. intros x d [Ha Hp] Hd. apply from_lift.
  intros w [[[res s] wr] rest] _ _ E. apply from_set_layer; [|done|apply upholds_ret].
  split; [|done]. by eapply format_data_ok.
Qed.

Lemma upholds_reset_active : upholds (reset_active c : action unit).
Proof.
  unfold reset_active. apply upholds_layer. intros x d [Ha Hp] Hd. apply from_lift. intros w s _ _ E.
  apply from_last_layer; [|done]. split; [|done]. by eapply (reset_ok c).
Qed.

Lemma upholds_reset_both : upholds (reset_both c : action unit).
Proof.
  unfold reset_both. apply upholds_layer. intros x d [Ha Hp] Hd. apply from_lift. intros w ss _ _ E.
  apply from_last_layer; [|done]. unfold Sessions_reset_both in E. done_cases. split; by eapply (reset_ok c).
Qed.

Lemma upholds_activate : upholds (activate_pending c : action unit).
Proof.
  unfold activate_pending. apply upholds_layer. intros x d [Ha Hp] Hd. apply from_lift. intros w ss _ _ E.
  apply from_last_layer; [|done]. unfold Sessions_activate_pending in E. done_cases. split; [done|]. by eapply (reset_ok c).
Qed.

Lemma upholds_validate validate i msg now :
  (forall s st t dest res s' st' dest', validate s st msg t dest = Done (res, s', st', dest') -> session_ok s -> session_ok s') ->
  upholds (validate_with validate i msg now : action _).
Proof.
  intros Hv. unfold validate_with. apply upholds_layer. intros x d Hs Hd. apply from_lift.
  intros w [[[res s] st] buffer] _ _ E. apply from_set_layer; [|done|apply upholds_ret].
  apply put_session_ok; [done|]. eapply Hv; [exact E|]. by apply get_session_ok.
Qed.

Lemma upholds_auth i : upholds (transmit_session_auth fw clock i : action bool).
Proof.
  unfold transmit_session_auth. apply upholds_layer. intros x d Hs Hd. apply from_time. intros now. apply from_lift.
  intros w [[[res s] wr] rest] _ _ E. apply from_set_layer; [|done|].
  - apply put_session_ok; [done|]. eapply format_auth_ok; [exact E|]. by apply get_session_ok.
  - destruct res; [apply upholds_ret|]. apply upholds_bind; [|intros []; apply upholds_transmit].
    by apply upholds_when, upholds_set_layer.
Qed.

(** *** Handlers *)

(** What the virtual functions owe: the messages they are given were read from bytes. *)
Record upholding (vt : vtable) : Prop := {
  pv_reset : upholds (v_reset_state_on_close_from_lower vt : action unit);
  pv_parse_error f e : upholds (v_on_parse_error vt f e);
  pv_pre_tx : upholds (v_on_pre_tx_ready vt);
  pv_nonce rx tx : upholds (v_on_session_nonce_change vt rx tx);
  pv_request m raw t : RequestHandshakeBegin_ok m -> upholds (v_on_request vt m raw t);
  pv_reply m raw t : upholds (v_on_reply vt m raw t);
  pv_error m raw t : upholds (v_on_error vt m raw t);
  pv_auth m raw t : SessionData_ok m -> upholds (v_on_auth_session vt m raw t);
  pv_open : upholds (v_on_lower_open_impl vt);
}.

Ltac preserve_step :=
  lazymatch goal with
  | |- upholds (aret _) => apply upholds_ret
  | |- upholds (aget _) => apply upholds_get
  | |- upholds layer => apply upholds_get
  | |- upholds lower_ready => apply upholds_get
  | |- upholds (set_upper_state _) => apply upholds_upper_state
  | |- upholds (set_upper_open _) => apply upholds_upper_open
  | |- upholds (get_time _) => apply upholds_time
  | |- upholds (set_layer _) => apply upholds_set_layer; intros []; done
  | |- upholds (set_payload_data _) => apply upholds_payload
  | |- upholds (lower_transmit _) => apply upholds_transmit
  | |- upholds (format_active _ _ _) => apply upholds_format
  | |- upholds (reset_active _) => apply upholds_reset_active
  | |- upholds (reset_both _) => apply upholds_reset_both
  | |- upholds (awhen _ _) => apply upholds_when
  | |- upholds (abind _ _) => apply upholds_bind; [|intros ?]
  | |- upholds (match ?x with _ => _ end) => destruct x
  end.
Ltac preserve := repeat preserve_step; eauto.

Section Handlers.
Context (n : upper_call -> action unit) (vt : vtable).
Context (HN : forall call, upholds (n call)) (HV : upholding vt).
Hint Resolve pv_reset pv_parse_error pv_pre_tx pv_nonce pv_request pv_reply pv_error pv_auth pv_open : core.

Lemma upholds_check_transmit : upholds (check_transmit fw c clock n vt).
Proof. unfold check_transmit, can_transmit_session_data. preserve. Qed.
Hint Resolve upholds_check_transmit : core.

Lemma upholds_start_tx data : upholds (start_tx_from_upper fw c clock n vt data).
Proof. unfold start_tx_from_upper, is_tx_ready. preserve. Qed.

Lemma upholds_session_data msg raw now : SessionData_ok msg -> upholds (on_message n vt msg raw now).
Proof.
  intros Hm. assert (upholds (validate_with Session_validate_session_data Active msg now : action _))
    by (apply upholds_validate; intros; by eapply validate_data_keeps_ok).
  unfold on_message, on_session_data. preserve.
Qed.

(** Whatever the message is. *)
Lemma upholds_handle {M} (m : message M) enc ok `{HM : !LawfulMessage m enc ok} handler data now :
  all_bytes data -> (forall a t, ok a -> upholds (handler a data t)) -> upholds (handle_message vt m handler data now).
Proof.
  intros Hb Hh. unfold handle_message. destruct (m_read m data) as [e|a] eqn:E; [by apply pv_parse_error|].
  apply (read_exact m enc ok) in E as [Ha _]; [|done]. by apply Hh.
Qed.

Lemma upholds_process data : all_bytes data -> upholds (process clock n vt data).
Proof.
  intros Hb. unfold process. apply upholds_bind; [preserve|intros now]. destruct data as [|raw data]; [preserve|].
  destruct (negb _); [preserve|]. destruct (Function_from_type raw); try apply upholds_ret;
    (eapply upholds_handle; [apply _|exact Hb|intros; eauto using upholds_session_data]).
Qed.

Lemma upholds_try_read_one : upholds (try_read_one_from_lower clock n vt).
Proof.
  unfold try_read_one_from_lower. do 2 (apply upholds_bind; [preserve|intros ?]). destruct (_ || _); [preserve|].
  apply upholds_receive. intros data Hb. pose proof (upholds_process data Hb). preserve.
Qed.

Lemma upholds_try_read : upholds (try_read_from_lower clock n vt).
Proof.
  unfold try_read_from_lower. apply upholds_bind; [preserve|intros k]. generalize (S k). clear k.
  induction n0 as [|k IH]; cbn [try_read_loop]; [done|].
  apply upholds_bind; [apply upholds_try_read_one|intros []; preserve].
Qed.
Hint Resolve upholds_try_read : core.

Lemma upholds_start_rx : upholds (start_rx_from_upper clock n vt).
Proof. unfold start_rx_from_upper, start_rx_from_upper_impl, discard_rx_data. preserve. Qed.

Lemma upholds_run_upper p : upholds (run_upper fw c clock n vt p).
Proof.
  induction p as [u|u k IH|u data k IH|u k IH]; cbn [run_upper]; [preserve|..];
    (apply upholds_bind; [preserve|intros _];
     apply upholds_bind; [|intros r; apply upholds_bind; [preserve|intros u'; apply IH]]).
  - unfold is_tx_ready. preserve.
  - apply upholds_start_tx.
  - apply upholds_start_rx.
Qed.

Lemma upholds_call_upper call : upholds (call_upper fw c upper clock n vt call).
Proof.
  unfold call_upper. do 2 (apply upholds_bind; [preserve|intros ?]). pose proof upholds_run_upper.
  destruct call; preserve.
Qed.

Lemma upholds_events :
  upholds (on_lower_open_event vt : action bool) /\ upholds (on_lower_close_event c n vt) /\
  upholds (on_lower_tx_ready_event fw c clock n vt) /\ upholds (on_lower_rx_ready_event clock n vt).
Proof.
  assert (upholds (set_layer (@reset_this_lower_layer W) : action unit)).
  { apply upholds_set_layer. intros y. unfold reset_this_lower_layer. by destruct (cl_in_stack y). }
  unfold on_lower_open_event, on_lower_close_event, on_lower_close_impl, on_lower_tx_ready_event,
    on_lower_tx_ready_impl, on_lower_rx_ready_event.
  split; [|split; [|split]]; repeat (assumption || preserve_step); eauto.
Qed.
End Handlers.

Section Knot.
Context (v : (upper_call -> action unit) -> vtable).
Context (HV : forall n, (forall call, upholds (n call)) -> upholding (v n)).

Lemma upholds_notify fuel call : upholds (notify fw c upper clock v fuel call).
Proof.
  revert call. induction fuel as [|fuel IH]; intros call; cbn [notify]; [done|].
  apply upholds_call_upper; [exact IH|by apply HV].
Qed.

Lemma upholds_layer_step fuel e : upholds (layer_step fw c upper clock v fuel e).
Proof.
  pose proof (upholds_notify fuel) as HN. pose proof (HV _ HN) as Hv.
  destruct (upholds_events _ _ HN Hv) as (H1&H2&H3&H4). unfold layer_step.
  destruct e; (apply upholds_bind; [|intros ?; apply upholds_ret]); try done.
  - by apply upholds_start_tx.
  - by apply upholds_start_rx.
Qed.
End Knot.
End Layer.

(** The rules for the derived classes. *)
Ltac preserve_one :=
  lazymatch goal with
  | |- upholds _ (aret _) => apply upholds_ret
  | |- upholds _ (aget _) => apply upholds_get
  | |- upholds _ layer => apply upholds_get
  | |- upholds _ lower_ready => apply upholds_get
  | |- upholds _ (get_time _) => apply upholds_time
  | |- upholds _ next_draw => apply upholds_draw
  | |- upholds _ (set_derived _) => apply upholds_set_derived; done
  | |- upholds _ (set_layer _) => apply upholds_set_layer; intros []; done
  | |- upholds _ (set_payload_data _) => apply upholds_payload
  | |- upholds _ (lower_transmit _) => apply upholds_transmit
  | |- upholds _ (transmit_session_auth _ _ _) => apply upholds_auth
  | |- upholds _ (validate_with Session_validate_session_auth _ _ _) =>
      apply upholds_validate; intros; by eapply validate_auth_keeps_ok
  | |- upholds _ (activate_pending _) => apply upholds_activate; apply _
  | |- upholds _ (reset_both _) => apply upholds_reset_both; apply _
  | |- upholds _ (awhen _ _) => apply upholds_when
  | |- upholds _ (abind _ _) => apply upholds_bind; [|intros ?]
  | |- upholds _ (match ?x with _ => _ end) => destruct x
  | |- upholds _ (let '_ := ?x in _) => destruct x
  end.
Ltac preserve_derived := repeat preserve_one; eauto.

Section Responders.
Context `{SER : Ser4cpp} {W : Type} (fw : frame_writer W) (c : CryptoState) `{HB : !BackendOk c}.
Context {L U : Type} `{LL : !LowerLayer L}.
Context (upper : upper_call -> U -> upper_prog U) (clock : nat -> Z).
Context {HR : Type} (rh : responder_handshake HR W) (I : HR -> Prop) `{HM : !ResponderMakes rh I}.
Local Abbreviation action := (act (World W HR L U)).

Lemma upholds_reply_error err : upholds I (reply_with_handshake_error fw err : action unit).
Proof. unfold reply_with_handshake_error. preserve_derived. Qed.

Lemma upholds_responder_process msg raw now :
  RequestHandshakeBegin_ok msg -> upholds I (Responder_process rh msg raw now : action _).
Proof.
  intros Hm. unfold Responder_process. apply upholds_layer. intros x h [Ha Hp] Hh. apply from_derived, from_draw.
  intros draw. apply from_lift. intros w [[[[res h'] wr] s] st] _ _ E.
  destruct (rm_process _ _ _ _ _ _ _ _ _ _ _ _ _ E Hh Hm Hp) as [Hh' Hs].
  apply from_set_derived, from_set_layer; [by split|done|apply upholds_ret].
Qed.

Lemma responder_upholds (n : upper_call -> action unit) :
  (forall call, upholds I (n call)) -> upholding I (Responder_virtuals fw c clock rh n).
Proof.
  intros HN. pose proof upholds_reply_error.
  split; intros; cbn [Responder_virtuals v_reset_state_on_close_from_lower v_on_parse_error v_on_pre_tx_ready
    v_on_session_nonce_change v_on_request v_on_reply v_on_error v_on_auth_session v_on_lower_open_impl];
    unfold Responder_on_parse_error, Responder_on_auth_session, Responder_on_message;
    preserve_derived; by apply upholds_responder_process.
Qed.

Lemma responder_step_upholds fuel e : upholds I (responder_step fw c upper clock rh fuel e : action unit).
Proof. apply (upholds_layer_step fw c); exact responder_upholds. Qed.
End Responders.

Section Initiators.
Context `{SER : Ser4cpp} {W : Type} (fw : frame_writer W) (c : CryptoState) `{HB : !BackendOk c}.
Context {L U : Type} `{LL : !LowerLayer L}.
Context (upper : upper_call -> U -> upper_prog U) (clock : nat -> Z).
Context {HI : Type} (ih : initiator_handshake HI) (I : HI -> Prop) `{HM : !InitiatorMakes ih I}.
Context (params : Params) (limits : SessionLimits) (HL : limits_ok limits).
Local Abbreviation action := (act (World W (Initiator HI) L U)).
Local Abbreviation upholds := (upholds (fun d : Initiator HI => I (in_handshake d))).

Lemma upholds_step_state (f : HandshakeState -> action HandshakeState) :
  (forall s, upholds (f s)) -> upholds (step_state f).
Proof. intros H. unfold step_state, set_handshake_state. preserve_derived. Qed.

Lemma upholds_new_handshake : upholds (initialize_new_handshake ih : action _).
Proof.
  unfold initialize_new_handshake. intros w b w' H Hw. apply abind_inv in H as (d&w1&[= <- <-]&H).
  apply abind_inv in H as (draw&w2&[= _ <-]&H). apply abind_inv in H as (r&w3&H1&H).
  unfold alift in H1. destruct (ih_initialize_new_handshake _ _ _) as [[res h]| | |] eqn:E; try done.
  injection H1 as <- <-. injection H as _ <-. split; [apply Hw|]. cbn. eapply im_new; [exact E|apply Hw].
Qed.

Lemma upholds_finalize {B} data now (k : action B) :
  upholds k ->
  upholds (h <-- alift (fun w => ih_finalize_request_tx ih (in_handshake (w_derived w)) data now);
             set_handshake h;;; k).
Proof.
  intros Hk w b w' H Hw. apply abind_inv in H as (h&w1&H1&H). unfold alift in H1.
  destruct (ih_finalize_request_tx _ _ _ _) as [h'| | |] eqn:E; try done. injection H1 as -> <-.
  eapply Hk; [exact H|]. split; [apply Hw|]. cbn. eapply im_finalize; [exact E|apply Hw].
Qed.

Lemma upholds_handshake_required : upholds (on_handshake_required fw clock ih params limits : action unit).
Proof.
  unfold on_handshake_required. apply upholds_bind; [preserve_derived|intros now]. apply upholds_step_state.
  intros s. pose proof upholds_new_handshake.
  unfold on_handshake_required_in, Idle_on_handshake_required, start_retry_timer, start_response_timer,
    set_handshake_required, set_response_and_retry_timer. repeat first [apply upholds_finalize|preserve_one]; eauto.
Qed.

Lemma upholds_initialize_session msg data now : upholds (initialize_session ih limits msg data now : action bool).
Proof.
  unfold initialize_session. apply upholds_layer. intros x d [Ha Hp] Hd. apply from_derived, from_lift.
  intros w [[[ok h] s] st] _ _ E. destruct (im_session _ _ _ _ _ _ _ _ _ _ _ E Hd HL Hp) as [Hh Hs].
  apply from_set_derived, from_set_layer; [by split|done|apply upholds_ret].
Qed.

Lemma initiator_upholds (n : upper_call -> action unit) :
  (forall call, upholds (n call)) ->
  upholding (fun d : Initiator HI => I (in_handshake d)) (Initiator_virtuals fw c clock ih params limits n).
Proof.
  intros HN. pose proof upholds_handshake_required. pose proof upholds_initialize_session.
  split; intros; cbn [Initiator_virtuals v_reset_state_on_close_from_lower v_on_parse_error v_on_pre_tx_ready
    v_on_session_nonce_change v_on_request v_on_reply v_on_error v_on_auth_session v_on_lower_open_impl];
    try (apply upholds_step_state; intros s);
    unfold Initiator_reset_state_on_close_from_lower, Initiator_on_pre_tx_ready, Initiator_on_session_nonce_change,
      on_reply_message_in, WaitForBeginReply_on_reply_message, on_error_message_in,
      on_auth_message_in, WaitForAuthReply_on_auth_message, start_retry_timer, start_response_timer,
      start_session_timer, set_handshake_state, set_handshake_required,
      set_response_and_retry_timer, set_session_timeout_timer;
    preserve_derived.
Qed.

Lemma initiator_step_upholds fuel e :
  upholds (initiator_step fw c upper clock ih params limits fuel e : action unit).
Proof.
  pose proof upholds_handshake_required. destruct e as [e| |]; cbn [initiator_step].
  - apply (upholds_layer_step fw c); exact initiator_upholds.
  - assert (upholds (step_state (on_response_timeout_in clock params) : action unit)).
    { apply upholds_step_state. intros s. unfold on_response_timeout_in, start_retry_timer,
        set_response_and_retry_timer. preserve_derived. }
    assert (upholds (step_state on_retry_timeout_in : action unit)).
    { apply upholds_step_state. intros s. unfold on_retry_timeout_in. preserve_derived. }
    unfold on_response_or_retry_timer, set_response_and_retry_timer. preserve_derived.
  - unfold on_session_timer, set_session_timeout_timer. preserve_derived.
Qed.
End Initiators.

(** ** Stacks *)

(** The handshakes of the library, as constructed. *)
Inductive library_initiator `{SER : Ser4cpp} (c : CryptoState) : forall H : Type, initiator_handshake H -> H -> Prop :=
| shared_secret_initiator suite key h :
    SharedSecretInitiator_new c suite key = Done h -> library_initiator c _ (SharedSecretInitiator c) h
| qkd_initiator K (consume_key : K -> option KeyRecord * K) suite source h :
    QKDInitiator_new c suite source = Done h -> library_initiator c _ (QKDInitiator consume_key) h
| public_key_initiator static_keys suite handler h :
    PublicKeyInitiator_new c static_keys suite handler = Done h -> library_initiator c _ PublicKeyInitiator h.

Inductive library_responder `{SER : Ser4cpp} {W} (fw : frame_writer W) (c : CryptoState)
  : forall H : Type, responder_handshake H W -> Prop :=
| shared_secret_responder : library_responder fw c _ (SharedSecretResponder fw c)
| qkd_responder K (find : K -> Z -> option BufferBase * K) : library_responder fw c _ (QKDResponder fw c find)
| public_key_responder : library_responder fw c _ (PublicKeyResponder fw c).

Section Stacks.
Context `{SER : Ser4cpp} (c : CryptoState) `{HEAP : Heap} `{HB : !BackendOk c} `{HH : !HandshakeBackendOk c}.
Context {L U : Type} `{LL : !LowerLayer L}.
Context (upper : upper_call -> U -> upper_prog U) (clock : nat -> Z).

Lemma library_initiator_makes H ih h :
  library_initiator c H ih h -> exists I, InitiatorMakes ih I /\ I h.
Proof.
  destruct 1 as [suite key h E|K consume_key suite source h E|keys suite handler h E];
    apply obind_done in E as (a&Ea%(get_or_throw_ok c)&E).
  - injection E as <-. eexists. split; [apply shared_initiator_makes|done].
  - injection E as <-. eexists. split; [apply qkd_initiator_makes|done].
  - apply obind_done in E as (dh&_&E). injection E as <-. eexists. split; [apply public_initiator_makes|done].
Qed.

Lemma library_responder_makes {W} (fw : frame_writer W) H rh :
  library_responder fw c H rh -> ResponderMakes rh (fun _ => True).
Proof. destruct 1; apply _. Qed.

Lemma reachable_well_formed {W D L' E} `{!LowerLayer L'} (I : D -> Prop) (step : nat -> E -> act (World W D L' U) unit) w :
  (forall fuel e, upholds I (step fuel e)) -> reachable (well_formed I) step w -> well_formed I w.
Proof.
  intros Hs. induction 1 as [w Hw|w fuel e w' _ IH Hst|w l u _ IH]; [done| |exact IH]. by eapply Hs.
Qed.

Lemma new_layer_ok {W} (fw : frame_writer W) config session writer :
  is_u32 (ttl_pad_ms session) -> sessions_ok (cl_sessions (layer_in_stack c fw config session writer)).
Proof. intros Ht. split; by apply session_new_ok. Qed.

Definition stack_sessions_ok {W D L'} (s : Stack (World W D L' U)) : Prop :=
  sessions_ok (cl_sessions (w_layer (sk_world s))).

(** C7: Both sessions of a stack are well formed in every state it reaches from its
    construction, with or without the link layer, as responder or initiator, with every
    handshake of the library and whatever bytes, calls and timers there are: the key
    buffers have their size, nonces and parameters fit their types, the check of
    nonces is one of the two that were negotiated, and a session is valid only with
    two keys of 32 bytes.  So the theorems on sessions hold for the sessions of every
    stack. *)
Theorem stacks_well_formed :
  (forall H (rh : responder_handshake H LinkFrameWriter) addresses config h lower app s,
     library_responder LinkFrameWriter_ops c H rh -> is_u32 (ttl_pad_ms (rc_session config)) ->
     stack_reachable (eq (FullResponderStack_new c addresses config h lower app))
       (FullResponderStack_step (L := L) c upper clock rh) full_env s -> stack_sessions_ok s) /\
  (forall H (rh : responder_handshake H RawFrameWriter) config h lower app s,
     library_responder RawFrameWriter_ops c H rh -> is_u32 (ttl_pad_ms (rc_session config)) ->
     stack_reachable (eq (CryptoOnlyResponderStack_new c config h lower app))
       (CryptoOnlyResponderStack_step (L := L) c upper clock rh) crypto_only_env s -> stack_sessions_ok s) /\
  (forall H (ih : initiator_handshake H) addresses config h lower app s,
     library_initiator c H ih h -> is_u32 (ttl_pad_ms (ic_session config)) -> limits_ok (ic_session_limits config) ->
     stack_reachable (eq (FullInitiatorStack_new c addresses config h lower app))
       (FullInitiatorStack_step (L := L) c upper clock ih config) full_env s -> stack_sessions_ok s) /\
  (forall H (ih : initiator_handshake H) config h lower app s,
     library_initiator c H ih h -> is_u32 (ttl_pad_ms (ic_session config)) -> limits_ok (ic_session_limits config) ->
     stack_reachable (eq (CryptoOnlyInitiatorStack_new c config h lower app))
       (CryptoOnlyInitiatorStack_step (L := L) c upper clock ih config) crypto_only_env s -> stack_sessions_ok s).
Proof.
  split; [|split; [|split]].
  - intros H rh addresses config h lower app s Hl Ht Hs. apply library_responder_makes in Hl.
    apply (reachable_well_formed (fun _ => True) (responder_step LinkFrameWriter_ops c upper clock rh));
      [intros; by apply (responder_step_upholds _ c)|].
    eapply full_reaches; [|exact Hs]. intros s' <-. split; [split; [by apply new_layer_ok|done]|done].
  - intros H rh config h lower app s Hl Ht Hs. apply library_responder_makes in Hl.
    apply (reachable_well_formed (fun _ => True) (responder_step RawFrameWriter_ops c upper clock rh));
      [intros; by apply (responder_step_upholds _ c)|].
    eapply crypto_only_reaches; [|exact Hs]. intros s' <-. split; [split; [by apply new_layer_ok|done]|done].
  - intros H ih addresses config h lower app s Hl Ht Hlim Hs. apply library_initiator_makes in Hl as (I&HM&Hh).
    apply (reachable_well_formed (fun d => I (in_handshake d))
      (initiator_step LinkFrameWriter_ops c upper clock ih (ic_params config) (ic_session_limits config)));
      [intros; by apply (initiator_step_upholds _ c)|].
    eapply full_reaches; [|exact Hs]. intros s' <-. split; [split; [by apply new_layer_ok|done]|done].
  - intros H ih config h lower app s Hl Ht Hlim Hs. apply library_initiator_makes in Hl as (I&HM&Hh).
    apply (reachable_well_formed (fun d => I (in_handshake d))
      (initiator_step RawFrameWriter_ops c upper clock ih (ic_params config) (ic_session_limits config)));
      [intros; by apply (initiator_step_upholds _ c)|].
    eapply crypto_only_reaches; [|exact Hs]. intros s' <-. split; [split; [by apply new_layer_ok|done]|done].
Qed.
End Stacks.
