(* ===== verification/StackScenario.v ===== *)
(** * Stacks together

    An initiator and a responder stack made by the factories for the shared-secret
    mode, each with its link layer, run against each other over a transport: the
    frames one sends are delivered to the other.  The runs are executed. *)

From stdpp Require Import base numbers list strings.
From Stdlib Require Import Lia ZArith.
From S2P Require Import Prelude Ser4cpp Enums Codec Messages CRC LinkParser FrameWriter LinkLayer.
From S2P Require Import Crypto SessionMode Session Chain Handshake CryptoLayer LayerLogic.
From S2P Require Import Responder Initiator LayerFrame Returns Terminates Scenario Stack Factory WellFormed.

#[refine] Instance zero_heap : Heap := {| alloc i n := replicate (Z.to_nat n) 0 |}.
Proof.
  - intros i n Hn. unfold zlen. rewrite length_replicate. lia.
  - intros i n. apply Forall_replicate. split; lia.
Defined.

Local Existing Instance ser4cpp_reference.

Local Abbreviation stack_world := (fun D => World LinkFrameWriter D (LinkPort queue) (list bytes)).
Local Abbreviation initiator_stack := (Stack (stack_world (Initiator SharedSecretInitiatorHandshake))).
Local Abbreviation responder_stack := (Stack (stack_world BufferBase)).

(** The bytes arrive in one piece, then the event happens. *)
Definition stack_scripted {D E} (step : nat -> E -> act (Stack (stack_world D)) unit) (frames : list bytes) (e : E)
    (s : Stack (stack_world D)) : option (Stack (stack_world D)) :=
  let w := sk_world s in
  let transport := queue_of (if is_nil (concat frames) then [] else [concat frames]) in
  match step 6%nat e (mkStack (sk_is_open s)
    (with_neighbours w (mkLinkPort (lp_link (w_lower w)) transport (lp_ok (w_lower w))) (w_upper w))) with
  | Some (Done (_, s)) => Some s
  | _ => None
  end.

Lemma stack_scripted_reachable {D E} created (step : nat -> E -> act (Stack (stack_world D)) unit) frames e s s' :
  stack_reachable created step full_env s -> stack_scripted step frames e s = Some s' ->
  stack_reachable created step full_env s'.
Proof.
  intros Hs H. unfold stack_scripted in H.
  destruct (step 6%nat e _) as [[[[] s1]| | |]|] eqn:Es; try done. injection H as <-.
  eapply sreach_step; [|exact Es]. apply sreach_env; [exact Hs|]. by do 2 eexists.
Qed.

(** What a stack sent after its first [n] frames. *)
Definition stack_sent {D} (n : nat) (s : Stack (stack_world D)) : list bytes :=
  rev (map snd (take (length (w_sent (sk_world s)) - n) (w_sent (sk_world s)))).
Definition sent_count {D} (s : Stack (stack_world D)) : nat := length (w_sent (sk_world s)).

(** ** Two stations *)

Definition istep : nat -> stack_event initiator_timer -> act initiator_stack unit :=
  FullInitiatorStack_step full_crypto (application [1; 2; 3]) ticking (SharedSecretInitiator full_crypto)
    InitiatorConfig_default.
Definition rstep : nat -> stack_event Empty_set -> act responder_stack unit :=
  FullResponderStack_step full_crypto (application [4; 5]) ticking
    (SharedSecretResponder LinkFrameWriter_ops full_crypto).

(** Addresses 1 and 10. *)
Definition made_initiator : outcome (initiator_handshake SharedSecretInitiatorHandshake * initiator_stack) :=
  initiator_shared_secret_mode full_crypto InitiatorConfig_default empty_queue [] CryptoSuite_default
    (mkAddresses 10 1) (test_key 7).
Definition made_responder : responder_stack :=
  (responder_shared_secret_mode full_crypto ResponderConfig_default empty_queue [] (mkAddresses 1 10) (test_key 7)).2.

Definition istart : initiator_stack :=
  FullInitiatorStack_new full_crypto (mkAddresses 10 1) InitiatorConfig_default test_shared_initiator empty_queue [].

Example made_initiator_is : made_initiator = Done (SharedSecretInitiator full_crypto, istart).
Proof. reflexivity. Qed.

(** From the opening of the transport through the handshake to one message each way,
    from given stacks; the frames sent before do not count. *)
Definition stack_conversation (i : initiator_stack) (r : responder_stack)
  : option (initiator_stack * responder_stack) :=
  i1 ← stack_scripted istep [] (FromTransport on_lower_open) i;
  r1 ← stack_scripted rstep [] (FromTransport on_lower_open) r;
  r2 ← stack_scripted rstep (stack_sent (sent_count i) i1) (FromTransport on_lower_rx_ready) r1;
  i2 ← stack_scripted istep (stack_sent (sent_count r1) r2) (FromTransport on_lower_rx_ready) i1;
  r3 ← stack_scripted rstep (stack_sent (sent_count i1) i2) (FromTransport on_lower_rx_ready) r2;
  i3 ← stack_scripted istep (stack_sent (sent_count r2) r3) (FromTransport on_lower_rx_ready) i2;
  r4 ← stack_scripted rstep (stack_sent (sent_count i2) i3) (FromTransport on_lower_rx_ready) r3;
  Some (i3, r4).

Definition stack_summary {D} (s : Stack (stack_world D)) : bool * bool * list bytes * nat :=
  (sk_is_open s, w_upper_open (sk_world s), w_upper (sk_world s), sent_count s).

Example stack_conversation_runs :
  option_map (fun '(i, r) => (stack_summary i, stack_summary r)) (stack_conversation istart made_responder) =
  Some ((true, true, [[4; 5]], 3%nat), (true, true, [[1; 2; 3]], 3%nat)).
Proof. vm_compute. reflexivity. Qed.

Lemma stack_conversation_reachable i r :
  stack_conversation istart made_responder = Some (i, r) ->
  stack_reachable (eq istart) istep full_env i /\ stack_reachable (eq made_responder) rstep full_env r.
Proof.
  unfold stack_conversation. intros H. repeat (apply bind_Some in H as (?&?&H)). injection H as <- <-.
  split; repeat (eapply stack_scripted_reachable; [|eassumption]); by apply sreach_initial.
Qed.

Lemma stack_conversation_ends :
  exists i r, stack_conversation istart made_responder = Some (i, r) /\
    stack_summary i = (true, true, [[4; 5]], 3%nat) /\ stack_summary r = (true, true, [[1; 2; 3]], 3%nat).
Proof.
  pose proof stack_conversation_runs as H. destruct (stack_conversation istart made_responder) as [[i r]|]; [|done].
  exists i, r. cbn [option_map] in H. injection H as H1 H2. split; [done|]. split; unfold stack_summary; congruence.
Qed.

Lemma stacks_safe_witness :
  exists (i : initiator_stack) (r : responder_stack),
    w_upper_open (sk_world i) = true /\ sent_count i = 3%nat /\ stack_safe i /\
    w_upper_open (sk_world r) = true /\ sent_count r = 3%nat /\ stack_safe r /\
    port_open (w_lower (sk_world r)) = true.
Proof.
  destruct stack_conversation_ends as (i&r&Hc&Hi&Hr). exists i, r.
  destruct (stack_conversation_reachable i r Hc) as [Ri Rr].
  destruct (proj1 (proj2 (proj2 (stacks_safe (L := queue) (H := SharedSecretInitiatorHandshake) full_crypto
              (application [1; 2; 3]) ticking)))
              (SharedSecretInitiator full_crypto) (mkAddresses 10 1) InitiatorConfig_default test_shared_initiator
              empty_queue [] i Ri) as [Si _].
  destruct (proj1 (stacks_safe (L := queue) (H := BufferBase) full_crypto (application [4; 5]) ticking)
              (SharedSecretResponder LinkFrameWriter_ops full_crypto) (mkAddresses 1 10) ResponderConfig_default
              (test_key 7) empty_queue [] r Rr) as [Sr Pr].
  unfold stack_summary in Hi, Hr. injection Hi as _ Hi1 _ Hi2. injection Hr as Hr0 Hr1 _ Hr2.
  split; [exact Hi1|]. split; [exact Hi2|]. split; [exact Si|]. split; [exact Hr1|]. split; [exact Hr2|].
  split; [exact Sr|]. rewrite Pr. exact Hr0.
Defined.

(** Both stations after the conversation, with valid sessions. *)
Lemma stacks_well_formed_witness :
  exists (i : initiator_stack) (r : responder_stack),
    sent_count i = 3%nat /\ stack_sessions_ok i /\ sent_count r = 3%nat /\ stack_sessions_ok r.
Proof.
  destruct stack_conversation_ends as (i&r&Hc&Hi&Hr). exists i, r.
  destruct (stack_conversation_reachable i r Hc) as [Ri Rr].
  pose proof (stacks_well_formed (L := queue) full_crypto (application [1; 2; 3]) ticking) as (_&_&Si&_).
  pose proof (stacks_well_formed (L := queue) full_crypto (application [4; 5]) ticking) as (Sr&_).
  unfold stack_summary in Hi, Hr. injection Hi as _ _ _ Hi. injection Hr as _ _ _ Hr.
  split; [exact Hi|]. split; [|split; [exact Hr|]].
  - refine (Si _ (SharedSecretInitiator full_crypto) (mkAddresses 10 1) InitiatorConfig_default test_shared_initiator
              empty_queue [] i _ _ _ Ri); [|split; vm_compute; congruence|exact default_limits_ok].
    exact (shared_secret_initiator full_crypto CryptoSuite_default (test_key 7) test_shared_initiator eq_refl).
  - refine (Sr _ (SharedSecretResponder LinkFrameWriter_ops full_crypto) (mkAddresses 1 10) ResponderConfig_default
              (test_key 7) empty_queue [] r _ _ Rr); [constructor|split; vm_compute; congruence].
Defined.


(** ** Closing and opening again *)

(** The transport of a station is closed and opened again. *)
Definition reopen {D T} (step : nat -> stack_event T -> act (Stack (stack_world D)) unit) (s : Stack (stack_world D))
  : option (Stack (stack_world D)) :=
  s ← stack_scripted step [] (FromTransport on_lower_close) s;
  stack_scripted step [] (FromTransport on_lower_open) s.

(** After a conversation at the end of which both applications hold the payload they
    received last, both transports are closed and opened again.  The initiator sends
    its request; its response timer and its retry timer fire, and it sends the next. *)
Definition reopened_conversation
  : option (initiator_stack * initiator_stack * responder_stack * responder_stack * responder_stack) :=
  p ← stack_conversation istart made_responder;
  i1 ← reopen istep p.1;
  r1 ← reopen rstep p.2;
  r2 ← stack_scripted rstep (stack_sent (sent_count p.1) i1) (FromTransport on_lower_rx_ready) r1;
  i2 ← stack_scripted istep [] (TimerFires ResponseOrRetry) i1;
  i3 ← stack_scripted istep [] (TimerFires ResponseOrRetry) i2;
  r3 ← stack_scripted rstep (stack_sent (sent_count i2) i3) (FromTransport on_lower_rx_ready) r2;
  Some (i1, i3, r1, r2, r3).

(** Closing and opening the transport costs a station the first frame it is sent,
    when its application still holds a payload: the request of the other station's
    new handshake arrives intact and is not answered; the one it sends after its
    timeouts is. *)
Theorem reopened_station_misses_request :
  exists i1 i3 r1 r2 r3, reopened_conversation = Some (i1, i3, r1, r2, r3) /\
    sk_is_open r1 = true /\ sent_count i1 = 4%nat /\
    sent_count r1 = 3%nat /\ sent_count r2 = 3%nat /\
    sent_count i3 = 5%nat /\ sent_count r3 = 4%nat.
Proof.
  assert (option_map (fun '(i1, i3, r1, r2, r3) =>
    (sk_is_open r1, sent_count i1, sent_count r1, sent_count r2, sent_count i3, sent_count r3)) reopened_conversation =
    Some (true, 4, 3, 3, 5, 4)%nat) as H by (vm_compute; reflexivity).
  destruct reopened_conversation as [[[[[i1 i3] r1] r2] r3]|]; [|done]. injection H as ? ? ? ? ? ?.
  by exists i1, i3, r1, r2, r3.
Qed.
