(* ===== verification/Yaml.v ===== *)
(** * Reading YAML

    [YAMLHelpers.h] and [YAMLHelpers.cpp] of the proxy.  yaml-cpp is not part of
    the repository: class [YamlLib] is the part of its interface that is used.  A node
    that does not exist has the type [Undefined], and [!node] holds of it alone; the
    conversions and [operator[]] throw on nodes they do not apply to.

    Exceptions are [Throw], of whatever class. *)

From stdpp Require Import base numbers list strings.
From Stdlib Require Import Lia ZArith.
From S2P Require Import Prelude Session.

Inductive NodeType := NodeUndefined | NodeNull | NodeScalar | NodeSequence | NodeMap.

#[export] Instance NodeType_eq_dec : EqDecision NodeType.
Proof. solve_decision. Defined.

Class YamlLib := {
  Node : Type;
  node_type : Node -> NodeType;
  node_get : Node -> string -> outcome Node;
  node_scalar : Node -> string;
  node_as_int64 : Node -> outcome Z;
  node_as_bool : Node -> outcome bool;
  node_items : Node -> list Node;
}.

(** ** Integers *)

(** The types integers are read as. *)
Inductive int_type := uint16_t | uint32_t | int64_t.

Definition int_min (t : int_type) : Z := match t with int64_t => - 2 ^ 63 | _ => 0 end.
Definition int_max (t : int_type) : Z :=
  match t with uint16_t => max_u16 | uint32_t => max_u32 | int64_t => 2 ^ 63 - 1 end.

(** Two's complement. *)
Definition wrap_s64 (x : Z) : Z := (x + 2 ^ 63) mod 2 ^ 64 - 2 ^ 63.

Definition static_cast (t : int_type) (x : Z) : Z :=
  match t with
  | uint16_t => x mod 2 ^ 16
  | uint32_t => x mod 2 ^ 32
  | int64_t => wrap_s64 x
  end.

Definition int_in (t : int_type) (x : Z) : Prop := int_min t <= x <= int_max t.

Lemma wrap_s64_id x : - 2 ^ 63 <= x < 2 ^ 63 -> wrap_s64 x = x.
Proof. intros H. unfold wrap_s64. rewrite Z.mod_small; lia. Qed.

Lemma static_cast_id t x : int_in t x -> static_cast t x = x.
Proof.
  unfold int_in, int_min, int_max, max_u16, max_u32.
  destruct t; cbn [static_cast]; intros H; [apply Z.mod_small; lia..|apply wrap_s64_id; lia].
Qed.

Section Helpers.
Context `{YAML : YamlLib}.

(** [!node] *)
Definition is_defined (n : Node) : bool := bool_decide (node_type n <> NodeUndefined).

Definition require (n : Node) (key : string) : outcome Node :=
  if negb (is_defined n) then Throw
  else if bool_decide (node_type n <> NodeMap) then Throw
  else
    let* child := node_get n key in
    if negb (is_defined child) then Throw else Done child.

(** The child, if there is one. *)
Definition optional (n : Node) (key : string) : outcome (option Node) :=
  if negb (is_defined n) then Done None
  else
    let* child := node_get n key in
    if negb (is_defined child) then Done None else Done (Some child).

Definition require_bool (n : Node) (key : string) : outcome bool :=
  let* child := require n key in node_as_bool child.

Definition scalar_of (n : Node) : outcome string :=
  if bool_decide (node_type n <> NodeScalar) then Throw else Done (node_scalar n).

Definition require_string (n : Node) (key : string) : outcome string :=
  let* subnode := require n key in scalar_of subnode.

Definition optional_string (n : Node) (key : string) (default_value : string) : outcome string :=
  let* value := optional n key in
  match value with None => Done default_value | Some value => scalar_of value end.

Definition extract_integer (t : int_type) (n : Node) : outcome Z :=
  let* value := node_as_int64 n in
  if value <? int_min t then Throw
  else if int_max t <? value then Throw
  else Done (static_cast t value).

Definition require_integer (t : int_type) (n : Node) (key : string) : outcome Z :=
  let* child := require n key in extract_integer t child.

Definition optional_integer (t : int_type) (n : Node) (key : string) (default_value : Z) : outcome Z :=
  let* child := optional n key in
  match child with None => Done default_value | Some child => extract_integer t child end.

(** ** Durations *)

Inductive TimeUnit := milliseconds | seconds | minutes | hours.

Definition get_time_unit (n : Node) : outcome TimeUnit :=
  let* value := require_string n "unit" in
  if String.eqb value "milliseconds" then Done milliseconds
  else if String.eqb value "seconds" then Done seconds
  else if String.eqb value "minutes" then Done minutes
  else if String.eqb value "hours" then Done hours
  else Throw.

(** Nanoseconds of a unit. *)
Definition unit_ns (u : TimeUnit) : Z :=
  match u with
  | milliseconds => 10 ^ 6
  | seconds => 10 ^ 9
  | minutes => 60 * 10 ^ 9
  | hours => 3600 * 10 ^ 9
  end.

(** The conversion to [duration_t], a count of nanoseconds in 64 bits, is not
    checked for overflow. *)
Definition get_duration_value (n : Node) : outcome Z :=
  let* child := require n "value" in
  let* value := extract_integer int64_t child in
  let* unit := get_time_unit n in
  Done (wrap_s64 (value * unit_ns unit)).

Definition require_duration (n : Node) (key : string) : outcome Z :=
  let* child := require n key in get_duration_value child.

Definition optional_duration (n : Node) (key : string) (default_value : Z) : outcome Z :=
  let* duration := optional n key in
  match duration with None => Done default_value | Some duration => get_duration_value duration end.

(** ** Sequences *)

(** [foreach] with an action that changes the state [S]. *)
Definition foreach {S} (n : Node) (action : Node -> S -> outcome S) (s : S) : outcome S :=
  if negb (is_defined n) then Throw
  else if bool_decide (node_type n <> NodeSequence) then Throw
  else fold_left (fun s item => let* s := s in action item s) (node_items n) (Done s).

(** ** What is read *)

Lemma require_spec n key child :
  require n key = Done child ->
  node_type n = NodeMap /\ node_get n key = Done child /\ is_defined child = true.
Proof.
  unfold require. destruct (is_defined n); [|done]. cbn. case_bool_decide as H; [done|].
  intros (c&Hc&Hd)%obind_done. destruct (is_defined c) eqn:E; [|done].
  injection Hd as <-. done.
Qed.

(** No integer is truncated. *)
Lemma extract_integer_spec t n x : extract_integer t n = Done x -> node_as_int64 n = Done x /\ int_in t x.
Proof.
  unfold extract_integer. intros (v&Hv&H)%obind_done. rewrite Hv.
  destruct (v <? int_min t) eqn:E1; [done|]. destruct (int_max t <? v) eqn:E2; [done|]. btests.
  injection H as <-. assert (int_in t v) by (split; lia). by rewrite static_cast_id.
Qed.

Lemma require_integer_in t n key x : require_integer t n key = Done x -> int_in t x.
Proof. intros (c&_&H)%obind_done. by apply extract_integer_spec in H as [_ ?]. Qed.

Lemma optional_integer_in t n key d x : int_in t d -> optional_integer t n key d = Done x -> int_in t x.
Proof.
  intros Hd ([c|]&_&H)%obind_done; [by apply extract_integer_spec in H as [_ ?]|]. by injection H as <-.
Qed.

Lemma extract_integer_done t n x : node_as_int64 n = Done x -> int_in t x -> extract_integer t n = Done x.
Proof.
  intros Hv [H1 H2]. unfold extract_integer. rewrite Hv. cbn [obind].
  rewrite (proj2 (Z.ltb_ge _ _)) by lia. rewrite (proj2 (Z.ltb_ge _ _)) by lia. by rewrite static_cast_id.
Qed.

(** A duration that fits is read exactly. *)
Lemma duration_exact n child v u :
  require n "value" = Done child -> node_as_int64 child = Done v -> int_in int64_t v ->
  get_time_unit n = Done u -> - 2 ^ 63 <= v * unit_ns u < 2 ^ 63 ->
  get_duration_value n = Done (v * unit_ns u).
Proof.
  intros Hc Hv Hi Hu Hfit. unfold get_duration_value. rewrite Hc. cbn [obind].
  rewrite (extract_integer_done _ _ _ Hv Hi), Hu. cbn [obind]. by rewrite wrap_s64_id.
Qed.
End Helpers.
