(* ===== verification/ProxyConfig.v ===== *)
(** * The configuration of the proxy

    [StackConfigReader.cpp], [ConfigReader.cpp], [ProxyConfig.cpp], [LogConfig.cpp],
    [IPEndpoint.cpp], [TcpConfig.cpp], [UdpConfig.cpp], [QKDSourceRegistry.cpp] and the
    configuration of a QIX source ([QIXQKDSource.cpp]) of the proxy, with
    [SecureFile::read]: from the YAML document to the factories of its sessions.

    A factory is a closure that captures what it was configured with; here it is
    these captured values ([stack_factory], [session_factory]), and [create_stack]
    says what calling it does.  The registry of QKD sources is a static map that
    reading the configuration fills; the sources' key stores are bound to sessions
    as they are configured. *)

From stdpp Require Import base numbers list strings gmap.
From Stdlib Require Import Lia ZArith Ascii.
From S2P Require Import Prelude Ser4cpp Enums Codec Messages CRC LinkParser FrameWriter LinkLayer.
From S2P Require Import Crypto SessionMode Session Chain Handshake CryptoLayer LayerLogic.
From S2P Require Import Responder Initiator LayerFrame Returns Terminates Scenario QIX StdMap KeyStore Stack Factory Yaml.

(** ** Configured values *)

Inductive StackType := StackType_initiator | StackType_responder.

#[export] Instance StackType_eq_dec : EqDecision StackType.
Proof. solve_decision. Defined.

(** A key store bound to a session: the source and the subscriber. *)
Record binding := mkBinding { bound_source : string; bound_subscriber : Z }.

#[export] Instance binding_eq_dec : EqDecision binding.
Proof. solve_decision. Defined.

Inductive stack_factory :=
| InitiatorSharedSecret (addresses : option Addresses) (config : InitiatorConfig) (suite : CryptoSuite)
    (key : BufferBase)
| InitiatorQKD (addresses : option Addresses) (config : InitiatorConfig) (suite : CryptoSuite) (key_source : binding)
| InitiatorPresharedPublicKey (addresses : option Addresses) (config : InitiatorConfig) (suite : CryptoSuite)
    (local_keys : StaticKeys) (remote_public_key : BufferBase)
| InitiatorCertificate (addresses : option Addresses) (config : InitiatorConfig) (suite : CryptoSuite)
    (local_keys : StaticKeys) (anchor_cert_data local_cert_data : bytes)
| ResponderSharedSecret (addresses : option Addresses) (config : ResponderConfig) (key : BufferBase)
| ResponderQKD (addresses : option Addresses) (config : ResponderConfig) (key_lookup : binding)
| ResponderPresharedPublicKey (addresses : option Addresses) (config : ResponderConfig) (local_keys : StaticKeys)
    (remote_public_key : BufferBase)
| ResponderCertificate (addresses : option Addresses) (config : ResponderConfig) (local_keys : StaticKeys)
    (anchor_cert_data local_cert_data : bytes).

Record StackFactory := mkStackFactory {
  uses_link_layer : bool;
  sf_type : StackType;
  sf_impl : stack_factory;
}.

Record IPEndpoint := mkIPEndpoint { ip_address : string; port : Z }.
Record TcpConfig := mkTcpConfig { max_sessions : Z; listen : IPEndpoint; connect : IPEndpoint }.
Record UdpConfig := mkUdpConfig {
  raw_rx_endpoint : IPEndpoint;
  raw_tx_endpoint : IPEndpoint;
  secure_rx_endpoint : IPEndpoint;
  secure_tx_endpoint : IPEndpoint;
}.

(** The levels of [ssp21/stack/LogLevels.h]; [debug] and those before it are the
    logging library's, and [next] is the next level. *)
Record LogLevelValues := mkLogLevelValues {
  level_event : Z; level_error : Z; level_warn : Z; level_info : Z; level_debug : Z;
  level_next : Z -> Z;
}.

Record LogConfig := mkLogConfig { log_id : string; log_levels : Z }.

Inductive session_factory :=
| TcpSession (logging : LogConfig) (config : TcpConfig) (factory : StackFactory)
| UdpSession (logging : LogConfig) (config : UdpConfig) (factory : StackFactory).

Inductive flow_control := flow_none | flow_hardware | flow_software.
Inductive stop_bits := stop_one | stop_onepointfive | stop_two.

Record SerialSettings := mkSerialSettings {
  serial_device : string;
  baud : Z;
  data_bits : Z;
  serial_flow_control : flow_control;
  serial_stop_bits : stop_bits;
}.

(** [QKDSourceRegistry::sources]: the handler of each source. *)
Definition registry := gmap string FrameHandler.

Section Reading.
Context `{SER : Ser4cpp} `{YAML : YamlLib}.
(** The files, the clock, and the serial ports: whether a port can be opened. *)
Context (files : string -> option bytes) (now : Z) (open_port : SerialSettings -> bool) (logs : LogLevelValues).

(** ** Files and keys *)

Definition SecureFile_read (path : string) (max_file_size : Z) : outcome bytes :=
  match files path with
  | None => Throw
  | Some data => if zlen data <=? 0 then Throw else if max_file_size <? zlen data then Throw else Done data
  end.

Definition default_max_file_size : Z := 4096.

Definition get_crypto_key (path : string) (expected_type : ContainerEntryType) : outcome BufferBase :=
  let* file_data := SecureFile_read path default_max_file_size in
  match ContainerFile_read_all file_data with
  | inl _ => Throw
  | inr file =>
      if bool_decide (cf_container_entry_type file <> expected_type) then Throw
      else if negb (zlen (cf_payload file) =? x25519_key_length) then Throw
      else Done (set_length (buffer_store buffer_empty (cf_payload file)) length_32)
  end.

Definition get_file_data (n : Node) (key : string) : outcome bytes :=
  let* path := require_string n key in SecureFile_read path default_max_file_size.

Definition get_shared_secret (n : Node) : outcome BufferBase :=
  let* path := require_string n "shared_secret_key_path" in
  get_crypto_key path ContainerEntryType_shared_secret.

Definition get_local_static_keys (n : Node) : outcome StaticKeys :=
  let* public_path := require_string n "local_public_key_path" in
  let* public := get_crypto_key public_path ContainerEntryType_x25519_public_key in
  let* private_path := require_string n "local_private_key_path" in
  let* private := get_crypto_key private_path ContainerEntryType_x25519_private_key in
  Done (mkStaticKeys public private).

Definition get_remote_public_key (n : Node) : outcome BufferBase :=
  let* path := require_string n "remote_public_key_path" in
  get_crypto_key path ContainerEntryType_x25519_public_key.

(** ** Parameters *)

Definition get_addresses (n : Node) : outcome Addresses :=
  let* remote := require_integer uint16_t n "remote" in
  let* local := require_integer uint16_t n "local" in
  Done (mkAddresses remote local).

Definition get_stack_type (n : Node) : outcome StackType :=
  let* value := require_string n "mode" in
  if String.eqb value "initiator" then Done StackType_initiator
  else if String.eqb value "responder" then Done StackType_responder
  else Throw.

Definition get_handshake_mode (n : Node) : outcome HandshakeMode :=
  let* value := require_string n "type" in
  if String.eqb value "shared_secret" then Done HandshakeMode_shared_secret
  else if String.eqb value "qkd" then Done HandshakeMode_quantum_key_distribution
  else if String.eqb value "preshared_public_key" then Done HandshakeMode_public_keys
  else if String.eqb value "certificate" then Done HandshakeMode_industrial_certificates
  else Throw.

Definition get_optional_ms_from_duration (n : Node) (key : string) (default_value : Z) : outcome Z :=
  let* duration := optional_duration n key (ms default_value) in
  let count := duration_cast_ms duration in
  if count <? 0 then Throw
  else if max_u32 <? count then Throw
  else Done (static_cast uint32_t count).

Definition get_session_limits (n : Node) : outcome SessionLimits :=
  let* nonce := optional_integer uint16_t n "max_nonce_value" (max_nonce_value SessionLimits_default) in
  let* time := optional_integer uint32_t n "max_session_time_ms" (max_session_time_ms SessionLimits_default) in
  Done (mkSessionLimits nonce time).

Definition get_crypto_layer_config (n : Node) : outcome CryptoLayerConfig :=
  let* size := optional_integer uint16_t n "max_payload_size" max_config_payload_size in
  Done (mkCryptoLayerConfig size).

Definition get_session_config (n : Node) : outcome SessionConfig :=
  let* pad := get_optional_ms_from_duration n "ttl_pad" default_ttl_pad_ms in
  Done (mkSessionConfig pad).

Definition get_initiator_params (handshake session : Node) : outcome Params :=
  let* nonce := optional_integer uint16_t session "nonce_renegotiation_trigger_value"
                  (nonce_renegotiation_trigger_value Params_default) in
  let* response := optional_duration handshake "response_timeout" (response_timeout Params_default) in
  let* retry := optional_duration handshake "retry_timeout" (retry_timeout Params_default) in
  let* time := get_optional_ms_from_duration session "session_time_renegotiation_trigger_ms"
                 (session_time_renegotiation_trigger_ms Params_default) in
  Done (mkParams response retry time nonce).

Definition get_initiator_config (handshake session : Node) : outcome InitiatorConfig :=
  let* config := get_crypto_layer_config session in
  let* session_config := get_session_config session in
  let* limits := get_session_limits session in
  let* params := get_initiator_params handshake session in
  Done (mkInitiatorConfig params limits config session_config).

Definition get_responder_config (session : Node) : outcome ResponderConfig :=
  let* config := get_crypto_layer_config session in
  let* session_config := get_session_config session in
  Done (mkResponderConfig config session_config).

Definition get_session_crypto_mode (n : Node) : outcome SessionCryptoMode :=
  let* mode := require_string n "session_crypto_mode" in
  if String.eqb mode "hmac_sha256_16" then Done SessionCryptoMode_hmac_sha256_16
  else if String.eqb mode "aes_256_gcm" then Done SessionCryptoMode_aes_256_gcm
  else Throw.

Definition get_crypto_suite (n : Node) : outcome CryptoSuite :=
  let* algorithms := require n "algorithms" in
  let* mode := get_session_crypto_mode algorithms in
  Done (mkCryptoSuite (suite_handshake_hash CryptoSuite_default) (suite_handshake_kdf CryptoSuite_default)
          (suite_session_nonce_mode CryptoSuite_default) mode).

(** ** QKD sources *)

Definition get_flow_control (n : Node) : outcome flow_control :=
  let* value := optional_string n "flow_control" "none" in
  if String.eqb value "none" then Done flow_none
  else if String.eqb value "hardware" then Done flow_hardware
  else if String.eqb value "software" then Done flow_software
  else Throw.

Definition get_stop_bits (n : Node) : outcome stop_bits :=
  let* value := optional_string n "stop_bits" "one" in
  if String.eqb value "one" then Done stop_one
  else if String.eqb value "onepointfive" then Done stop_onepointfive
  else if String.eqb value "two" then Done stop_two
  else Throw.

Definition read_serial_settings (n : Node) : outcome SerialSettings :=
  let* device := require_string n "device" in
  let* rate := optional_integer uint32_t n "baud_rate" 9600 in
  let* bits := optional_integer uint32_t n "data_bits" 8 in
  let* flow := get_flow_control n in
  let* stop := get_stop_bits n in
  Done (mkSerialSettings device rate bits flow stop).

(** [FrameHandler::FrameHandler] *)
Definition FrameHandler_configure (config metrics : Node) : outcome FrameHandler :=
  let* num_subscribers := require_integer uint16_t config "num_subscribers" in
  let* update_period := require_duration metrics "update_period" in
  let* bin_size := require_integer uint16_t metrics "bin_size" in
  Done (FrameHandler_new num_subscribers update_period bin_size now).

(** [QIXQKDSource::QIXQKDSource], which starts reading from the port. *)
Definition QIXQKDSource_configure (n : Node) : outcome FrameHandler :=
  let* metrics := require n "metrics" in
  let* handler := FrameHandler_configure n metrics in
  let* serial := require n "serial" in
  let* settings := read_serial_settings serial in
  if open_port settings then Done handler else Throw.

Definition create_qkd_source (n : Node) : outcome FrameHandler :=
  let* type := require_string n "type" in
  if String.eqb type "qix" then QIXQKDSource_configure n else Throw.

Definition configure_qkd_source (n : Node) (sources : registry) : outcome registry :=
  let* qkd_source_id := require_string n "qkd_source_id" in
  match sources !! qkd_source_id with
  | Some _ => Throw
  | None =>
      let* handler := create_qkd_source n in
      Done (<[qkd_source_id := handler]> sources)
  end.

Definition get_key_source (n : Node) (sources : registry) : outcome (string * FrameHandler) :=
  let* key_source_id := require_string n "key_source_id" in
  match sources !! key_source_id with
  | None => Throw
  | Some handler => Done (key_source_id, handler)
  end.

(** [get_initiator_key_source] with [bind_initiator_key_source], and
    [get_responder_key_lookup] with [bind_responder_key_lookup]. *)
Definition bind_session_keys
    (bind : FrameHandler -> Z -> Z -> outcome (Z * FrameHandler)) (n : Node) (sources : registry)
  : outcome (binding * registry) :=
  let* '(source, handler) := get_key_source n sources in
  let* subscriber_id := require_integer uint16_t n "subscriber_id" in
  let* max_key_cache_size := require_integer uint16_t n "max_key_cache_size" in
  let* '(subscriber, handler) := bind handler subscriber_id max_key_cache_size in
  Done (mkBinding source subscriber, <[source := handler]> sources).

Definition get_initiator_key_source : Node -> registry -> outcome (binding * registry) :=
  bind_session_keys bind_initiator_key_source.
Definition get_responder_key_lookup : Node -> registry -> outcome (binding * registry) :=
  bind_session_keys bind_responder_key_lookup.

(** ** Stack factories *)

Definition get_initiator_shared_secret_factory (n : Node) (config : InitiatorConfig) (addresses : option Addresses)
  : outcome stack_factory :=
  let* shared_secret := get_shared_secret n in
  let* suite := get_crypto_suite n in
  Done (InitiatorSharedSecret addresses config suite shared_secret).

Definition get_initiator_qkd_factory (n : Node) (config : InitiatorConfig) (addresses : option Addresses)
    (sources : registry) : outcome (stack_factory * registry) :=
  let* '(key_source, sources) := get_initiator_key_source n sources in
  let* suite := get_crypto_suite n in
  Done (InitiatorQKD addresses config suite key_source, sources).

Definition get_initiator_preshared_public_key_factory (n : Node) (config : InitiatorConfig)
    (addresses : option Addresses) : outcome stack_factory :=
  let* local_keys := get_local_static_keys n in
  let* remote_public_key := get_remote_public_key n in
  let* suite := get_crypto_suite n in
  Done (InitiatorPresharedPublicKey addresses config suite local_keys remote_public_key).

Definition get_initiator_certificate_mode_factory (n : Node) (config : InitiatorConfig)
    (addresses : option Addresses) : outcome stack_factory :=
  let* local_keys := get_local_static_keys n in
  let* anchor_cert_data := get_file_data n "authority_cert_path" in
  let* local_cert_data := get_file_data n "local_cert_path" in
  let* algorithms := require n "algorithms" in
  Done (InitiatorCertificate addresses config CryptoSuite_default local_keys anchor_cert_data local_cert_data).

(** A reader that leaves the registry alone. *)
Definition keeping {A} (r : outcome A) (sources : registry) : outcome (A * registry) :=
  let* a := r in Done (a, sources).

Definition get_initiator_factory (n : Node) (addresses : option Addresses) (sources : registry)
  : outcome (stack_factory * registry) :=
  let* handshake := require n "handshake" in
  let* session := require n "session" in
  let* config := get_initiator_config handshake session in
  let* mode := get_handshake_mode handshake in
  match mode with
  | HandshakeMode_shared_secret =>
      keeping (get_initiator_shared_secret_factory handshake config addresses) sources
  | HandshakeMode_quantum_key_distribution => get_initiator_qkd_factory handshake config addresses sources
  | HandshakeMode_public_keys =>
      keeping (get_initiator_preshared_public_key_factory handshake config addresses) sources
  | HandshakeMode_industrial_certificates =>
      keeping (get_initiator_certificate_mode_factory handshake config addresses) sources
  | _ => Throw
  end.

Definition get_responder_shared_secret_factory (n : Node) (config : ResponderConfig) (addresses : option Addresses)
  : outcome stack_factory :=
  let* shared_secret := get_shared_secret n in
  Done (ResponderSharedSecret addresses config shared_secret).

Definition get_responder_qkd_factory (n : Node) (config : ResponderConfig) (addresses : option Addresses)
    (sources : registry) : outcome (stack_factory * registry) :=
  let* '(key_lookup, sources) := get_responder_key_lookup n sources in
  Done (ResponderQKD addresses config key_lookup, sources).

Definition get_responder_preshared_public_key_factory (n : Node) (config : ResponderConfig)
    (addresses : option Addresses) : outcome stack_factory :=
  let* local_keys := get_local_static_keys n in
  let* remote_public_key := get_remote_public_key n in
  Done (ResponderPresharedPublicKey addresses config local_keys remote_public_key).

Definition get_responder_certificate_mode_factory (n : Node) (config : ResponderConfig)
    (addresses : option Addresses) : outcome stack_factory :=
  let* local_keys := get_local_static_keys n in
  let* anchor_cert_data := get_file_data n "authority_cert_path" in
  let* local_cert_data := get_file_data n "local_cert_path" in
  Done (ResponderCertificate addresses config local_keys anchor_cert_data local_cert_data).

Definition get_responder_factory (n : Node) (addresses : option Addresses) (sources : registry)
  : outcome (stack_factory * registry) :=
  let* handshake := require n "handshake" in
  let* session := require n "session" in
  let* config := get_responder_config session in
  let* mode := get_handshake_mode handshake in
  match mode with
  | HandshakeMode_shared_secret =>
      keeping (get_responder_shared_secret_factory handshake config addresses) sources
  | HandshakeMode_quantum_key_distribution => get_responder_qkd_factory handshake config addresses sources
  | HandshakeMode_public_keys =>
      keeping (get_responder_preshared_public_key_factory handshake config addresses) sources
  | HandshakeMode_industrial_certificates =>
      keeping (get_responder_certificate_mode_factory handshake config addresses) sources
  | _ => Throw
  end.

Definition get_stack_factory (n : Node) (sources : registry) : outcome (StackFactory * registry) :=
  let* link_layer := require n "link_layer" in
  let* security := require n "security" in
  let* stack_type := get_stack_type security in
  let* enabled := require_bool link_layer "enabled" in
  let* addresses :=
    if enabled
    then let* address := require link_layer "address" in
         let* addresses := get_addresses address in Done (Some addresses)
    else Done None in
  let* '(impl, sources) :=
    match stack_type with
    | StackType_initiator => get_initiator_factory security addresses sources
    | StackType_responder => get_responder_factory security addresses sources
    end in
  Done (mkStackFactory enabled stack_type impl, sources).

(** ** Sessions *)

Definition IPEndpoint_configure (n : Node) : outcome IPEndpoint :=
  let* address := require_string n "address" in
  let* port := require_integer uint16_t n "port" in
  Done (mkIPEndpoint address port).

Definition endpoint_at (n : Node) (key : string) : outcome IPEndpoint :=
  let* child := require n key in IPEndpoint_configure child.

Definition TcpConfig_configure (n : Node) : outcome TcpConfig :=
  let* max_sessions := require_integer uint16_t n "max_sessions" in
  let* listen := endpoint_at n "listen" in
  let* connect := endpoint_at n "connect" in
  Done (mkTcpConfig max_sessions listen connect).

Definition UdpConfig_configure (n : Node) : outcome UdpConfig :=
  let* raw_rx := endpoint_at n "raw_rx" in
  let* raw_tx := endpoint_at n "raw_tx" in
  let* secure_rx := endpoint_at n "secure_rx" in
  let* secure_tx := endpoint_at n "secure_tx" in
  Done (mkUdpConfig raw_rx raw_tx secure_rx secure_tx).

Definition level_rx_crypto_msg : Z := level_next logs (level_debug logs).
Definition level_tx_crypto_msg : Z := level_next logs level_rx_crypto_msg.
Definition level_rx_crypto_msg_fields : Z := level_next logs level_tx_crypto_msg.
Definition level_tx_crypto_msg_fields : Z := level_next logs level_rx_crypto_msg_fields.
Definition level_metric : Z := level_next logs level_tx_crypto_msg.

(** The levels a letter turns on. *)
Definition levels_of_flag (flag : Ascii.ascii) : outcome Z :=
  if Ascii.eqb flag "v"%char then Done (level_event logs)
  else if Ascii.eqb flag "e"%char then Done (level_error logs)
  else if Ascii.eqb flag "w"%char then Done (level_warn logs)
  else if Ascii.eqb flag "i"%char then Done (level_info logs)
  else if Ascii.eqb flag "d"%char then Done (level_debug logs)
  else if Ascii.eqb flag "c"%char then Done (Z.lor level_rx_crypto_msg level_tx_crypto_msg)
  else if Ascii.eqb flag "f"%char then Done (Z.lor level_rx_crypto_msg_fields level_tx_crypto_msg_fields)
  else if Ascii.eqb flag "m"%char then Done level_metric
  else Throw.

Definition get_log_levels (n : Node) : outcome Z :=
  let* flags := require_string n "levels" in
  fold_left (fun levels flag => let* levels := levels in let* more := levels_of_flag flag in
                                Done (Z.lor levels more)) (String.list_ascii_of_string flags) (Done 0).

Definition LogConfig_configure (n : Node) : outcome LogConfig :=
  let* id := require_string n "id" in
  let* levels := get_log_levels n in
  Done (mkLogConfig id levels).

Inductive TransportType := TCP | UDP.

Definition get_transport_type (n : Node) : outcome TransportType :=
  let* type := require_string n "type" in
  if String.eqb type "tcp" then Done TCP else if String.eqb type "udp" then Done UDP else Throw.

Definition get_session_factory (n : Node) (sources : registry) : outcome (session_factory * registry) :=
  let* logging := LogConfig_configure n in
  let* '(factory, sources) := get_stack_factory n sources in
  let* transport := require n "transport" in
  let* type := get_transport_type transport in
  match type with
  | TCP =>
      if negb (uses_link_layer factory) then Throw
      else let* config := TcpConfig_configure transport in Done (TcpSession logging config factory, sources)
  | UDP => let* config := UdpConfig_configure transport in Done (UdpSession logging config factory, sources)
  end.

(** [config::read] of the document [root]. *)
Definition config_read (root : Node) (sources : registry) : outcome (list session_factory * registry) :=
  let* qkd_sources := require root "qkd_sources" in
  let* sources := foreach qkd_sources configure_qkd_source sources in
  let* sessions := require root "sessions" in
  foreach sessions
    (fun n '(factories, sources) =>
       let* '(factory, sources) := get_session_factory n sources in
       Done (factories ++ [factory], sources)) ([], sources).

(** [configure_sessions], before the sessions are created. *)
Definition configure_sessions (root : Node) : outcome (list session_factory * registry) :=
  let* '(factories, sources) := config_read root ∅ in
  if is_nil factories then Throw else Done (factories, sources).
End Reading.

(** ** Creating stacks *)

(** The calls on a key store bound to a session. *)
Definition bound_consume_key (b : binding) (sources : registry) : option KeyRecord * registry :=
  match sources !! bound_source b with
  | None => (None, sources)
  | Some handler =>
      let '(record, handler) := source_consume_key (bound_subscriber b) handler in
      (record, <[bound_source b := handler]> sources)
  end.

Definition bound_find_and_consume_key (b : binding) (sources : registry) (id : Z) : option BufferBase * registry :=
  match sources !! bound_source b with
  | None => (None, sources)
  | Some handler =>
      let '(key, handler) := source_find_and_consume_key (bound_subscriber b) handler id in
      (key, <[bound_source b := handler]> sources)
  end.

Section Creating.
Context `{SER : Ser4cpp} (c : CryptoState) `{HEAP : Heap}.
Context {L U : Type} `{LL : !LowerLayer L}.
Local Abbreviation full_world := (fun D => World LinkFrameWriter D (LinkPort L) U).
Local Abbreviation raw_world := (fun D => World RawFrameWriter D L U).

(** [std::shared_ptr<IStack>]: an object of one of the four classes. *)
Inductive IStack :=
| IFullInitiator (HI : Type) (ih : initiator_handshake HI) (config : InitiatorConfig) (s : Stack (full_world (Initiator HI)))
| ICryptoOnlyInitiator (HI : Type) (ih : initiator_handshake HI) (config : InitiatorConfig) (s : Stack (raw_world (Initiator HI)))
| IFullResponder (HR : Type) (rh : responder_handshake HR LinkFrameWriter) (s : Stack (full_world HR))
| ICryptoOnlyResponder (HR : Type) (rh : responder_handshake HR RawFrameWriter) (s : Stack (raw_world HR)).

(** [StackFactory::create_stack]; [sources] is the state of the key sources. *)
Definition create_stack (f : stack_factory) (sources : registry) (lower : L) (upper : U) : outcome IStack :=
  match f with
  | InitiatorSharedSecret (Some addresses) config suite key =>
      let* '(ih, s) := initiator_shared_secret_mode c config lower upper suite addresses key in
      Done (IFullInitiator _ ih config s)
  | InitiatorSharedSecret None config suite key =>
      let* '(ih, s) := initiator_shared_secret_mode_crypto_only c config lower upper suite key in
      Done (ICryptoOnlyInitiator _ ih config s)
  | InitiatorQKD (Some addresses) config suite b =>
      let* '(ih, s) := initiator_qkd_mode c config lower upper suite (bound_consume_key b) addresses sources in
      Done (IFullInitiator _ ih config s)
  | InitiatorQKD None config suite b =>
      let* '(ih, s) := initiator_qkd_mode_crypto_only c config lower upper suite (bound_consume_key b) sources in
      Done (ICryptoOnlyInitiator _ ih config s)
  | InitiatorPresharedPublicKey (Some addresses) config suite local remote =>
      let* '(ih, s) := initiator_preshared_public_key_mode c config lower upper suite addresses local remote in
      Done (IFullInitiator _ ih config s)
  | InitiatorPresharedPublicKey None config suite local remote =>
      let* '(ih, s) := initiator_preshared_public_key_mode_crypto_only c config lower upper suite local remote in
      Done (ICryptoOnlyInitiator _ ih config s)
  | InitiatorCertificate (Some addresses) config suite local anchor chain =>
      let* '(ih, s) := initiator_certificate_public_key_mode c config lower upper suite addresses local anchor chain in
      Done (IFullInitiator _ ih config s)
  | InitiatorCertificate None config suite local anchor chain =>
      let* '(ih, s) := initiator_certificate_public_key_mode_crypto_only c config lower upper suite local anchor chain in
      Done (ICryptoOnlyInitiator _ ih config s)
  | ResponderSharedSecret (Some addresses) config key =>
      let '(rh, s) := responder_shared_secret_mode c config lower upper addresses key in
      Done (IFullResponder _ rh s)
  | ResponderSharedSecret None config key =>
      let '(rh, s) := responder_shared_secret_mode_crypto_only c config lower upper key in
      Done (ICryptoOnlyResponder _ rh s)
  | ResponderQKD (Some addresses) config b =>
      let '(rh, s) := responder_qkd_mode c config lower upper (bound_find_and_consume_key b) addresses sources in
      Done (IFullResponder _ rh s)
  | ResponderQKD None config b =>
      let '(rh, s) := responder_qkd_mode_crypto_only c config lower upper (bound_find_and_consume_key b) sources in
      Done (ICryptoOnlyResponder _ rh s)
  | ResponderPresharedPublicKey (Some addresses) config local remote =>
      let '(rh, s) := responder_preshared_public_key_mode c config lower upper addresses local remote in
      Done (IFullResponder _ rh s)
  | ResponderPresharedPublicKey None config local remote =>
      let '(rh, s) := responder_preshared_public_key_mode_crypto_only c config lower upper local remote in
      Done (ICryptoOnlyResponder _ rh s)
  | ResponderCertificate (Some addresses) config local anchor chain =>
      let* '(rh, s) := responder_certificate_public_key_mode c config lower upper addresses local anchor chain in
      Done (IFullResponder _ rh s)
  | ResponderCertificate None config local anchor chain =>
      let* '(rh, s) := responder_certificate_public_key_mode_crypto_only c config lower upper local anchor chain in
      Done (ICryptoOnlyResponder _ rh s)
  end.
End Creating.
