(* ===== verification/ConfigReads.v ===== *)
(** * What the proxy's configuration says

    A session of an accepted document is configured with what the document says: the
    relation [session_reads] between a document's node and a session factory is
    written from the format of the document, and whatever [get_session_factory]
    accepts is in it. *)

From stdpp Require Import base numbers list strings gmap.
From Stdlib Require Import Lia ZArith.
From S2P Require Import Prelude Ser4cpp Enums Codec Messages CRC LinkParser FrameWriter LinkLayer.
From S2P Require Import Crypto SessionMode Session Chain Handshake CryptoLayer LayerLogic.
From S2P Require Import Responder Initiator LayerFrame Returns Terminates Scenario QIX StdMap KeyStore Stack Factory.
From S2P Require Import Yaml ProxyConfig.

(** ** The format *)

Section Format.
Context `{SER : Ser4cpp} `{YAML : YamlLib} (files : string -> option bytes).

(** A child that is a number, a text, or the name of a file with these contents. *)
Definition integer_at (n : Node) (key : string) (x : Z) : Prop :=
  exists child, node_get n key = Done child /\ node_as_int64 child = Done x.
Definition text_at (n : Node) (key s : string) : Prop :=
  exists child, node_get n key = Done child /\ node_type child = NodeScalar /\ node_scalar child = s.
Definition file_at (n : Node) (key : string) (data : bytes) : Prop :=
  exists path, text_at n key path /\ files path = Some data.

(** A file that holds a key of a type. *)
Definition key_at (n : Node) (key : string) (type : ContainerEntryType) (k : BufferBase) : Prop :=
  exists data, file_at n key data /\ ContainerFile_read_all data = inr (mkContainerFile type (as_seq k)).

(** Children that may be missing. *)
Definition integer_or (n : Node) (key : string) (default x : Z) : Prop :=
  exists child, node_get n key = Done child /\
    if is_defined child then node_as_int64 child = Done x else x = default.

Definition unit_name (u : TimeUnit) : string :=
  match u with
  | milliseconds => "milliseconds" | seconds => "seconds" | minutes => "minutes" | hours => "hours"
  end.

(** A number of nanoseconds: the one that is written, if it fits 64 bits. *)
Definition duration_of (n : Node) (x : Z) : Prop :=
  exists v u, integer_at n "value" v /\ text_at n "unit" (unit_name u) /\
    (- 2 ^ 63 <= v * unit_ns u < 2 ^ 63 -> x = v * unit_ns u).
Definition duration_or (n : Node) (key : string) (default x : Z) : Prop :=
  exists child, node_get n key = Done child /\ if is_defined child then duration_of child x else x = default.
(** In whole milliseconds. *)
Definition ms_or (n : Node) (key : string) (default x : Z) : Prop :=
  exists t, duration_or n key (ms default) t /\ x = duration_cast_ms t.

Definition addresses_read (link : Node) (addresses : option Addresses) : Prop :=
  match addresses with
  | Some a => exists n, node_get link "address" = Done n /\
      integer_at n "remote" (destination a) /\ integer_at n "local" (source a)
  | None => True
  end /\
  exists enabled, node_get link "enabled" = Done enabled /\
    node_as_bool enabled = Done (match addresses with Some _ => true | None => false end).

Definition layer_reads (session : Node) (config : CryptoLayerConfig) (times : SessionConfig) : Prop :=
  integer_or session "max_payload_size" max_config_payload_size (max_payload_size config) /\
  ms_or session "ttl_pad" default_ttl_pad_ms (ttl_pad_ms times).

Definition initiator_reads (handshake session : Node) (config : InitiatorConfig) : Prop :=
  let limits := ic_session_limits config in
  let params := ic_params config in
  layer_reads session (ic_config config) (ic_session config) /\
  integer_or session "max_nonce_value" (max_nonce_value SessionLimits_default) (max_nonce_value limits) /\
  integer_or session "max_session_time_ms" (max_session_time_ms SessionLimits_default) (max_session_time_ms limits) /\
  integer_or session "nonce_renegotiation_trigger_value" (nonce_renegotiation_trigger_value Params_default)
    (nonce_renegotiation_trigger_value params) /\
  ms_or session "session_time_renegotiation_trigger_ms" (session_time_renegotiation_trigger_ms Params_default)
    (session_time_renegotiation_trigger_ms params) /\
  duration_or handshake "response_timeout" (response_timeout Params_default) (response_timeout params) /\
  duration_or handshake "retry_timeout" (retry_timeout Params_default) (retry_timeout params).

Definition responder_reads (session : Node) (config : ResponderConfig) : Prop :=
  layer_reads session (rc_config config) (rc_session config).

Definition mode_name (m : SessionCryptoMode) : string :=
  match m with SessionCryptoMode_aes_256_gcm => "aes_256_gcm" | _ => "hmac_sha256_16" end.

(** The document chooses the session mode; the other algorithms are the default ones. *)
Definition suite_reads (handshake : Node) (suite : CryptoSuite) : Prop :=
  suite = mkCryptoSuite (suite_handshake_hash CryptoSuite_default) (suite_handshake_kdf CryptoSuite_default)
            (suite_session_nonce_mode CryptoSuite_default) (suite_session_crypto_mode suite) /\
  exists algorithms, node_get handshake "algorithms" = Done algorithms /\
    text_at algorithms "session_crypto_mode" (mode_name (suite_session_crypto_mode suite)).

Definition local_keys_read (handshake : Node) (keys : StaticKeys) : Prop :=
  key_at handshake "local_public_key_path" ContainerEntryType_x25519_public_key (static_public_key keys) /\
  key_at handshake "local_private_key_path" ContainerEntryType_x25519_private_key (static_private_key keys).
Definition remote_key_read (handshake : Node) (key : BufferBase) : Prop :=
  key_at handshake "remote_public_key_path" ContainerEntryType_x25519_public_key key.
Definition shared_key_read (handshake : Node) (key : BufferBase) : Prop :=
  key_at handshake "shared_secret_key_path" ContainerEntryType_shared_secret key.
Definition binding_read (handshake : Node) (b : binding) : Prop :=
  text_at handshake "key_source_id" (bound_source b) /\ integer_at handshake "subscriber_id" (bound_subscriber b).
Definition chain_read (handshake : Node) (anchor chain : bytes) : Prop :=
  file_at handshake "authority_cert_path" anchor /\ file_at handshake "local_cert_path" chain.

Definition stack_reads (handshake session : Node) (f : stack_factory) : Prop :=
  match f with
  | InitiatorSharedSecret _ config suite key =>
      text_at handshake "type" "shared_secret" /\ initiator_reads handshake session config /\
      suite_reads handshake suite /\ shared_key_read handshake key
  | InitiatorQKD _ config suite b =>
      text_at handshake "type" "qkd" /\ initiator_reads handshake session config /\
      suite_reads handshake suite /\ binding_read handshake b
  | InitiatorPresharedPublicKey _ config suite local remote =>
      text_at handshake "type" "preshared_public_key" /\ initiator_reads handshake session config /\
      suite_reads handshake suite /\ local_keys_read handshake local /\ remote_key_read handshake remote
  | InitiatorCertificate _ config suite local anchor chain =>
      text_at handshake "type" "certificate" /\ initiator_reads handshake session config /\
      suite = CryptoSuite_default /\ local_keys_read handshake local /\ chain_read handshake anchor chain
  | ResponderSharedSecret _ config key =>
      text_at handshake "type" "shared_secret" /\ responder_reads session config /\ shared_key_read handshake key
  | ResponderQKD _ config b =>
      text_at handshake "type" "qkd" /\ responder_reads session config /\ binding_read handshake b
  | ResponderPresharedPublicKey _ config local remote =>
      text_at handshake "type" "preshared_public_key" /\ responder_reads session config /\
      local_keys_read handshake local /\ remote_key_read handshake remote
  | ResponderCertificate _ config local anchor chain =>
      text_at handshake "type" "certificate" /\ responder_reads session config /\
      local_keys_read handshake local /\ chain_read handshake anchor chain
  end.

Definition factory_addresses (f : stack_factory) : option Addresses :=
  match f with
  | InitiatorSharedSecret a _ _ _ | InitiatorQKD a _ _ _ | InitiatorPresharedPublicKey a _ _ _ _
  | InitiatorCertificate a _ _ _ _ _ | ResponderSharedSecret a _ _ | ResponderQKD a _ _
  | ResponderPresharedPublicKey a _ _ _ | ResponderCertificate a _ _ _ _ => a
  end.

Definition factory_type (f : stack_factory) : StackType :=
  match f with
  | InitiatorSharedSecret _ _ _ _ | InitiatorQKD _ _ _ _ | InitiatorPresharedPublicKey _ _ _ _ _
  | InitiatorCertificate _ _ _ _ _ _ => StackType_initiator
  | _ => StackType_responder
  end.

Definition type_name (t : StackType) : string :=
  match t with StackType_initiator => "initiator" | StackType_responder => "responder" end.

(** The part of a session's node its stack is made from. *)
Definition factory_reads (n : Node) (f : stack_factory) : Prop :=
  exists link security handshake session,
    node_get n "link_layer" = Done link /\ node_get n "security" = Done security /\
    node_get security "handshake" = Done handshake /\ node_get security "session" = Done session /\
    addresses_read link (factory_addresses f) /\ text_at security "mode" (type_name (factory_type f)) /\
    stack_reads handshake session f.

Definition endpoint_read_at (n : Node) (key : string) (e : IPEndpoint) : Prop :=
  exists child, node_get n key = Done child /\ text_at child "address" (ip_address e) /\ integer_at child "port" (port e).

Definition stack_of (f : session_factory) : StackFactory :=
  match f with TcpSession _ _ factory | UdpSession _ _ factory => factory end.

Definition transport_reads (n : Node) (f : session_factory) : Prop :=
  match f with
  | TcpSession _ config _ =>
      text_at n "type" "tcp" /\ integer_at n "max_sessions" (max_sessions config) /\
      endpoint_read_at n "listen" (listen config) /\ endpoint_read_at n "connect" (connect config)
  | UdpSession _ config _ =>
      text_at n "type" "udp" /\
      endpoint_read_at n "raw_rx" (raw_rx_endpoint config) /\ endpoint_read_at n "raw_tx" (raw_tx_endpoint config) /\
      endpoint_read_at n "secure_rx" (secure_rx_endpoint config) /\
      endpoint_read_at n "secure_tx" (secure_tx_endpoint config)
  end.

Definition session_reads (n : Node) (f : session_factory) : Prop :=
  factory_reads n (sf_impl (stack_of f)) /\
  exists transport, node_get n "transport" = Done transport /\ transport_reads transport f.
End Format.

(** ** Reading it *)

Ltac done_step := match goal with
  | H : obind _ _ = Done _ |- _ => apply obind_done in H as (?&?&H)
  | H : Done _ = Done _ |- _ => injection H as H; subst
  | H : Throw = Done _ |- _ => discriminate H
  | H : (_, _) = (_, _) |- _ => injection H as H; subst
  | H : (let '(_, _) := ?p in _) = Done _ |- _ => destruct p
  end.
Ltac done_steps := repeat done_step.

Section Reads.
Context `{SER : Ser4cpp} `{YAML : YamlLib} (files : string -> option bytes).

Lemma require_at n key child : require n key = Done child -> node_get n key = Done child.
Proof. intros H. by apply require_spec in H as (_&H&_). Qed.

Lemma require_string_at n key s : require_string n key = Done s -> text_at n key s.
Proof.
  intros (child&Hc%require_at&H)%obind_done. exists child. split; [done|]. unfold scalar_of in H.
  case_bool_decide as E; [done|]. injection H as <-. split; [|done]. by destruct (node_type child); try (exfalso; apply E).
Qed.

Lemma require_integer_at t n key x : require_integer t n key = Done x -> integer_at n key x.
Proof. intros (child&Hc%require_at&H)%obind_done. exists child. by apply extract_integer_spec in H as [? _]. Qed.

(** An optional child of a node that exists. *)
Lemma optional_at n key child :
  is_defined n = true -> optional n key = Done child ->
  exists m, node_get n key = Done m /\ child = if is_defined m then Some m else None.
Proof.
  intros Hd. unfold optional. rewrite Hd. cbn [negb]. intros (m&Hm&H)%obind_done. exists m. split; [done|].
  destruct (is_defined m); by injection H as <-.
Qed.

Lemma optional_integer_at t n key d x :
  is_defined n = true -> optional_integer t n key d = Done x -> integer_or n key d x.
Proof.
  intros Hd (child&(m&Hm&->)%(optional_at _ _ _ Hd)&H)%obind_done. exists m. split; [done|].
  destruct (is_defined m); [by apply extract_integer_spec in H as [? _]|by injection H as <-].
Qed.

Lemma time_unit_at n u : get_time_unit n = Done u -> text_at n "unit" (unit_name u).
Proof.
  intros (s&Hs%require_string_at&H)%obind_done.
  repeat (destruct (String.eqb s _) eqn:E; [apply String.eqb_eq in E as ->; by injection H as <-|clear E]). done.
Qed.

Lemma duration_at n x : get_duration_value n = Done x -> duration_of n x.
Proof.
  intros (child&Hc%require_at&(v&[Hv _]%extract_integer_spec&(u&Hu%time_unit_at&H)%obind_done)%obind_done)%obind_done.
  exists v, u. split; [by exists child|]. split; [done|]. injection H as <-. intros Hfit. by apply wrap_s64_id.
Qed.

Lemma optional_duration_at n key d x :
  is_defined n = true -> optional_duration n key d = Done x -> duration_or n key d x.
Proof.
  intros Hd (child&(m&Hm&->)%(optional_at _ _ _ Hd)&H)%obind_done. exists m. split; [done|].
  destruct (is_defined m); [by apply duration_at|by injection H as <-].
Qed.

Lemma optional_ms_at n key d x :
  is_defined n = true -> get_optional_ms_from_duration n key d = Done x -> ms_or n key d x.
Proof.
  intros Hd (t&Ht%(optional_duration_at _ _ _ _ Hd)&H)%obind_done. exists t. split; [done|]. cbv zeta in H.
  destruct (_ <? 0) eqn:E1; [done|]. destruct (max_u32 <? _) eqn:E2; [done|]. btests.
  assert (static_cast uint32_t (duration_cast_ms t) = x) as <- by congruence.
  apply static_cast_id. split; cbn [int_min int_max]; lia.
Qed.

Lemma file_data_at n key data : get_file_data files n key = Done data -> file_at files n key data.
Proof.
  intros (path&Hp%require_string_at&H)%obind_done. exists path. split; [done|]. unfold SecureFile_read in H.
  destruct (files path) as [d|]; [|done]. destruct (_ <=? 0); [done|]. destruct (_ <? _); [done|]. congruence.
Qed.

Lemma crypto_key_at n key type k :
  obind (require_string n key) (fun path => get_crypto_key files path type) = Done k -> key_at files n key type k.
Proof.
  intros (path&Hp%require_string_at&(data&Hd&H)%obind_done)%obind_done. exists data. split.
  - exists path. split; [done|]. unfold SecureFile_read in Hd. destruct (files path) as [d|]; [|done].
    destruct (_ <=? 0); [done|]. destruct (_ <? _); [done|]. congruence.
  - destruct (ContainerFile_read_all data) as [e|[t payload]]; [done|]. case_bool_decide as E; [done|].
    cbn in *. destruct (zlen payload =? x25519_key_length) eqn:El; [|done]. btests. injection H as <-.
    rewrite as_seq_stored by done. by destruct (decide (t = type)) as [->|].
Qed.

Lemma local_keys_at n keys : get_local_static_keys files n = Done keys -> local_keys_read files n keys.
Proof.
  intros (p1&H1&(k1&K1&(p2&H2&(k2&K2&[= <-])%obind_done)%obind_done)%obind_done)%obind_done.
  split; apply crypto_key_at; cbn; [by rewrite H1|by rewrite H2].
Qed.

Lemma get_addresses_at n a :
  get_addresses n = Done a -> integer_at n "remote" (destination a) /\ integer_at n "local" (source a).
Proof. intros (r&Hr%require_integer_at&(l&Hl%require_integer_at&[= <-])%obind_done)%obind_done. done. Qed.

Lemma initiator_config_at handshake session config :
  is_defined handshake = true -> is_defined session = true ->
  get_initiator_config handshake session = Done config -> initiator_reads handshake session config.
Proof.
  unfold get_initiator_config, get_crypto_layer_config, get_session_config, get_initiator_params, get_session_limits.
  intros Hh Hs H. done_steps.
  repeat split; cbn;
    eauto using optional_integer_at, optional_duration_at, optional_ms_at.
Qed.

Lemma responder_config_at session config :
  is_defined session = true -> get_responder_config session = Done config -> responder_reads session config.
Proof.
  unfold get_responder_config, get_crypto_layer_config, get_session_config. intros Hs H. done_steps.
  split; cbn; eauto using optional_integer_at, optional_ms_at.
Qed.

Lemma crypto_suite_at n suite : get_crypto_suite n = Done suite -> suite_reads n suite.
Proof.
  intros (a&Ha%require_at&(m&(s&Hs%require_string_at&Hm)%obind_done&[= <-])%obind_done)%obind_done.
  split; [done|]. exists a. split; [done|]. cbn.
  repeat (destruct (String.eqb s _) eqn:E; [apply String.eqb_eq in E as ->; by injection Hm as <-|clear E]). done.
Qed.

Lemma bind_keys_at bind n sources b sources' :
  bind = bind_key_store -> bind_session_keys bind n sources = Done (b, sources') -> binding_read n b.
Proof.
  intros -> H. unfold bind_session_keys in H.
  apply obind_done in H as ([src h]&Hsrc&H). apply obind_done in H as (sub&Hsub%require_integer_at&H).
  apply obind_done in H as (size&_&H). apply obind_done in H as ([sub' h']&Hb&H). injection H as <- <-.
  apply obind_done in Hsrc as (id&Hid%require_string_at&Hsrc). destruct (sources !! id); [|done]. injection Hsrc as <- <-.
  split; [done|]. unfold bind_key_store in Hb. destruct (map_find _ _); [done|]. by injection Hb as <- _.
Qed.

Definition handshake_name (m : HandshakeMode) : string :=
  match m with
  | HandshakeMode_shared_secret => "shared_secret" | HandshakeMode_quantum_key_distribution => "qkd"
  | HandshakeMode_public_keys => "preshared_public_key" | _ => "certificate"
  end.

Lemma handshake_mode_at n m : get_handshake_mode n = Done m -> text_at n "type" (handshake_name m).
Proof.
  intros (s&Hs%require_string_at&H)%obind_done.
  repeat (destruct (String.eqb s _) eqn:E; [apply String.eqb_eq in E as ->; by injection H as <-|clear E]). done.
Qed.

Lemma stack_type_at n t : get_stack_type n = Done t -> text_at n "mode" (type_name t).
Proof.
  intros (s&Hs%require_string_at&H)%obind_done.
  repeat (destruct (String.eqb s _) eqn:E; [apply String.eqb_eq in E as ->; by injection H as <-|clear E]). done.
Qed.

Lemma initiator_factory_at n a sources f sources' :
  get_initiator_factory files n a sources = Done (f, sources') ->
  factory_addresses f = a /\ factory_type f = StackType_initiator /\
  exists handshake session, node_get n "handshake" = Done handshake /\ node_get n "session" = Done session /\
    stack_reads files handshake session f.
Proof.
  unfold get_initiator_factory, keeping, get_initiator_qkd_factory, get_initiator_shared_secret_factory,
    get_initiator_preshared_public_key_factory, get_initiator_certificate_mode_factory.
  intros H. apply obind_done in H as (h&(_&Hh&Dh)%require_spec&H). apply obind_done in H as (s&(_&Hs&Ds)%require_spec&H).
  apply obind_done in H as (config&Hc%(initiator_config_at _ _ _ Dh Ds)&H).
  apply obind_done in H as (mode&Hm%handshake_mode_at&H).
  destruct mode; try done; done_steps; (split; [done|split; [done|]]); exists h, s; (do 2 (split; [done|])).
  - split; [done|]. split; [done|]. split; [by apply crypto_suite_at|by apply crypto_key_at].
  - split; [done|]. split; [done|]. split; [by apply crypto_suite_at|]. split; [by apply local_keys_at|by apply crypto_key_at].
  - split; [done|]. split; [done|]. split; [by apply crypto_suite_at|by eapply bind_keys_at].
  - split; [done|]. split; [done|]. split; [done|]. split; [by apply local_keys_at|]. split; by apply file_data_at.
Qed.

Lemma responder_factory_at n a sources f sources' :
  get_responder_factory files n a sources = Done (f, sources') ->
  factory_addresses f = a /\ factory_type f = StackType_responder /\
  exists handshake session, node_get n "handshake" = Done handshake /\ node_get n "session" = Done session /\
    stack_reads files handshake session f.
Proof.
  unfold get_responder_factory, keeping, get_responder_qkd_factory, get_responder_shared_secret_factory,
    get_responder_preshared_public_key_factory, get_responder_certificate_mode_factory.
  intros H. apply obind_done in H as (h&(_&Hh&Dh)%require_spec&H). apply obind_done in H as (s&(_&Hs&Ds)%require_spec&H).
  apply obind_done in H as (config&Hc%(responder_config_at _ _ Ds)&H).
  apply obind_done in H as (mode&Hm%handshake_mode_at&H).
  destruct mode; try done; done_steps; (split; [done|split; [done|]]); exists h, s; (do 2 (split; [done|])).
  - split; [done|]. split; [done|by apply crypto_key_at].
  - split; [done|]. split; [done|]. split; [by apply local_keys_at|by apply crypto_key_at].
  - split; [done|]. split; [done|by eapply bind_keys_at].
  - split; [done|]. split; [done|]. split; [by apply local_keys_at|]. split; by apply file_data_at.
Qed.

Lemma stack_factory_at n sources f sources' :
  get_stack_factory files n sources = Done (f, sources') -> factory_reads files n (sf_impl f).
Proof.
  unfold get_stack_factory. intros H. apply obind_done in H as (link&Hl%require_at&H).
  apply obind_done in H as (sec&Hsec%require_at&H). apply obind_done in H as (type&Ht%stack_type_at&H).
  apply obind_done in H as (enabled&(en&Hen%require_at&Hb)%obind_done&H).
  apply obind_done in H as (a&Ha&H). apply obind_done in H as ([impl src]&Hi&H). injection H as <- <-. cbn.
  assert (addresses_read link a) as Hread.
  { destruct enabled; done_steps; (split; [|by exists en]); [|done].
    eexists. split; [by apply require_at|by apply get_addresses_at]. }
  destruct type; [apply initiator_factory_at in Hi|apply responder_factory_at in Hi];
    destruct Hi as (<-&E&h&s&Hh&Hs&Hr); exists link, sec, h, s; by rewrite E.
Qed.

Lemma endpoint_at_read n key e : endpoint_at n key = Done e -> endpoint_read_at n key e.
Proof.
  intros (child&Hc%require_at&(a&Ha%require_string_at&(p&Hp%require_integer_at&[= <-])%obind_done)%obind_done)%obind_done.
  by exists child.
Qed.

Lemma session_factory_at logs n sources f sources' :
  get_session_factory files logs n sources = Done (f, sources') -> session_reads files n f.
Proof.
  unfold get_session_factory. intros H. apply obind_done in H as (log&_&H).
  apply obind_done in H as ([sf src]&Hs%stack_factory_at&H). apply obind_done in H as (tr&Htr%require_at&H).
  apply obind_done in H as (type&(s&Hty%require_string_at&Ht)%obind_done&H).
  destruct (String.eqb s "tcp") eqn:E1; [apply String.eqb_eq in E1 as ->; injection Ht as <-|].
  - destruct (uses_link_layer sf); [|done]. cbn in H. unfold TcpConfig_configure in H. done_steps.
    split; [done|]. exists tr. split; [done|]. split; [done|].
    split; [by eapply require_integer_at|]. split; by apply endpoint_at_read.
  - destruct (String.eqb s "udp") eqn:E2; [apply String.eqb_eq in E2 as ->; injection Ht as <-|done].
    unfold UdpConfig_configure in H. done_steps. split; [done|]. exists tr. split; [done|].
    split; [done|]. repeat split; by apply endpoint_at_read.
Qed.
End Reads.
