(* ===== verification/ConfigFacts.v ===== *)
(** * What the proxy's configuration guarantees

    Of a configuration that is accepted: every value that reaches a stack fits the
    type it is passed as, every key has the length of a key, and the sessions are the
    ones the document describes; no key store is bound to two sessions.  And what it
    does not read. *)

From stdpp Require Import base numbers list strings gmap.
From Stdlib Require Import Lia ZArith Ascii.
From S2P Require Import Prelude Ser4cpp Enums Codec Messages CRC LinkParser FrameWriter LinkLayer.
From S2P Require Import Crypto SessionMode Session Chain Handshake CryptoLayer LayerLogic.
From S2P Require Import Responder Initiator LayerFrame Returns Terminates Scenario QIX StdMap KeyStore Stack Factory.
From S2P Require Import StackScenario Yaml ProxyConfig ConfigReads.

Section Facts.
Context `{SER : Ser4cpp} `{YAML : YamlLib}.
Context (files : string -> option bytes).

(** ** Bounds *)

(** A buffer that holds a key of 32 bytes and nothing else. *)
Definition key_ok (k : BufferBase) : Prop :=
  zlen (as_seq k) = x25519_key_length /\ k = set_length (buffer_store buffer_empty (as_seq k)) length_32.
Definition keys_ok (k : StaticKeys) : Prop := key_ok (static_public_key k) /\ key_ok (static_private_key k).

Definition layer_config_ok (config : CryptoLayerConfig) (session : SessionConfig) : Prop :=
  is_u16 (max_payload_size config) /\ is_u32 (ttl_pad_ms session).

Definition initiator_config_ok (config : InitiatorConfig) : Prop :=
  layer_config_ok (ic_config config) (ic_session config) /\ limits_ok (ic_session_limits config) /\
  is_u16 (nonce_renegotiation_trigger_value (ic_params config)) /\
  is_u32 (session_time_renegotiation_trigger_ms (ic_params config)).

Definition addresses_ok (addresses : option Addresses) : Prop :=
  match addresses with Some addresses => addr_ok addresses | None => True end.

Definition file_ok (data : bytes) : Prop := 0 < zlen data <= 4096.

Definition factory_ok (f : stack_factory) : Prop :=
  match f with
  | InitiatorSharedSecret a config _ key => addresses_ok a /\ initiator_config_ok config /\ key_ok key
  | InitiatorQKD a config _ b => addresses_ok a /\ initiator_config_ok config /\ is_u16 (bound_subscriber b)
  | InitiatorPresharedPublicKey a config _ local remote =>
      addresses_ok a /\ initiator_config_ok config /\ keys_ok local /\ key_ok remote
  | InitiatorCertificate a config _ local anchor chain =>
      addresses_ok a /\ initiator_config_ok config /\ keys_ok local /\ file_ok anchor /\ file_ok chain
  | ResponderSharedSecret a config key =>
      addresses_ok a /\ layer_config_ok (rc_config config) (rc_session config) /\ key_ok key
  | ResponderQKD a config b =>
      addresses_ok a /\ layer_config_ok (rc_config config) (rc_session config) /\ is_u16 (bound_subscriber b)
  | ResponderPresharedPublicKey a config local remote =>
      addresses_ok a /\ layer_config_ok (rc_config config) (rc_session config) /\ keys_ok local /\ key_ok remote
  | ResponderCertificate a config local anchor chain =>
      addresses_ok a /\ layer_config_ok (rc_config config) (rc_session config) /\ keys_ok local /\
      file_ok anchor /\ file_ok chain
  end.

Lemma crypto_key_ok path type k : get_crypto_key files path type = Done k -> key_ok k.
Proof.
  unfold get_crypto_key. intros H. done_steps. destruct (ContainerFile_read_all _) as [e|file]; [done|].
  destruct (bool_decide _); [done|]. destruct (zlen (cf_payload file) =? x25519_key_length) eqn:E; [|done].
  btests. injection H as <-. unfold key_ok. by rewrite as_seq_stored.
Qed.

(** A key is determined by its bytes. *)
Lemma key_ok_eq k k' : key_ok k -> key_ok k' -> as_seq k = as_seq k' -> k = k'.
Proof. intros [_ Hk] [_ Hk'] E. by rewrite Hk, Hk', E. Qed.

Lemma shared_secret_ok n k : get_shared_secret files n = Done k -> key_ok k.
Proof. intros H. unfold get_shared_secret in H. done_steps. by eapply crypto_key_ok. Qed.

Lemma local_keys_ok n k : get_local_static_keys files n = Done k -> keys_ok k.
Proof.
  unfold get_local_static_keys. intros H. done_steps. split; cbn; eapply crypto_key_ok; eassumption.
Qed.

Lemma remote_key_ok n k : get_remote_public_key files n = Done k -> key_ok k.
Proof. unfold get_remote_public_key. intros H. done_steps. by eapply crypto_key_ok. Qed.

Lemma file_data_ok n key data : get_file_data files n key = Done data -> file_ok data.
Proof.
  unfold get_file_data, SecureFile_read. intros H. done_steps. destruct (files _) as [d|]; [|done].
  destruct (zlen d <=? 0) eqn:E1; [done|]. destruct (default_max_file_size <? zlen d) eqn:E2; [done|].
  btests. injection H as <-. unfold file_ok, default_max_file_size in *. lia.
Qed.

Lemma get_addresses_ok n a : get_addresses n = Done a -> addr_ok a.
Proof.
  unfold get_addresses. intros H. done_steps.
  split; cbn; eapply (require_integer_in uint16_t); eassumption.
Qed.

Lemma optional_ms_ok n key d x : get_optional_ms_from_duration n key d = Done x -> is_u32 x.
Proof.
  unfold get_optional_ms_from_duration. intros (v&_&H)%obind_done.
  destruct (_ <? 0) eqn:E1; [done|]. destruct (max_u32 <? _) eqn:E2; [done|]. btests.
  assert (static_cast uint32_t (duration_cast_ms v) = x) as <- by congruence.
  rewrite static_cast_id; split; cbn [int_min int_max]; lia.
Qed.

Lemma layer_config_read n config session :
  get_crypto_layer_config n = Done config -> get_session_config n = Done session -> layer_config_ok config session.
Proof.
  unfold get_crypto_layer_config, get_session_config. intros H1 H2. done_steps. split; cbn.
  - by eapply (optional_integer_in uint16_t); [|eassumption].
  - by eapply optional_ms_ok.
Qed.

Lemma initiator_config_read h s config : get_initiator_config h s = Done config -> initiator_config_ok config.
Proof.
  unfold get_initiator_config, get_initiator_params, get_session_limits. intros H. done_steps.
  split; [by eapply layer_config_read|]. split; [split; cbn|split; cbn].
  - by eapply (optional_integer_in uint16_t); [|eassumption].
  - by eapply (optional_integer_in uint32_t); [|eassumption].
  - by eapply (optional_integer_in uint16_t); [|eassumption].
  - by eapply optional_ms_ok.
Qed.

Lemma responder_config_read s config :
  get_responder_config s = Done config -> layer_config_ok (rc_config config) (rc_session config).
Proof. unfold get_responder_config. intros H. done_steps. by eapply layer_config_read. Qed.

(** Only an unbound subscriber can be bound, and the others stay. *)
Lemma bind_keys_spec bind n sources b sources' :
  bind = bind_key_store ->
  bind_session_keys bind n sources = Done (b, sources') ->
  is_u16 (bound_subscriber b) /\
  exists handler handler', sources !! bound_source b = Some handler /\
    map_find (fh_subscribers handler) (bound_subscriber b) = None /\
    sources' = <[bound_source b := handler']> sources /\
    exists store, fh_subscribers handler' = map_put (fh_subscribers handler) (bound_subscriber b) store.
Proof.
  intros ->. unfold bind_session_keys, get_key_source. intros H. done_steps.
  destruct (sources !! _) as [handler|] eqn:E; [|done]. done_steps.
  unfold bind_key_store in *. destruct (map_find _ _) eqn:Em; [done|]. done_steps.
  split; [by eapply (require_integer_in uint16_t)|]. cbn. eauto 10.
Qed.

Lemma initiator_factory_ok n a sources f sources' :
  addresses_ok a -> get_initiator_factory files n a sources = Done (f, sources') ->
  factory_ok f /\ factory_addresses f = a /\ factory_type f = StackType_initiator.
Proof.
  unfold get_initiator_factory, keeping, get_initiator_qkd_factory, get_initiator_shared_secret_factory,
    get_initiator_preshared_public_key_factory, get_initiator_certificate_mode_factory.
  intros Ha H. apply obind_done in H as (h&_&H). apply obind_done in H as (s&_&H).
  apply obind_done in H as (config&Hc%initiator_config_read&H). apply obind_done in H as (mode&_&H).
  destruct mode; try done; done_steps; (split; [|done]).
  - split; [done|]. split; [done|]. by eapply shared_secret_ok.
  - split; [done|]. split; [done|]. split; [by eapply local_keys_ok|by eapply remote_key_ok].
  - split; [done|]. split; [done|]. by eapply bind_keys_spec.
  - split; [done|]. split; [done|]. split; [by eapply local_keys_ok|].
    split; eapply file_data_ok; eassumption.
Qed.

Lemma responder_factory_ok n a sources f sources' :
  addresses_ok a -> get_responder_factory files n a sources = Done (f, sources') ->
  factory_ok f /\ factory_addresses f = a /\ factory_type f = StackType_responder.
Proof.
  unfold get_responder_factory, keeping, get_responder_qkd_factory, get_responder_shared_secret_factory,
    get_responder_preshared_public_key_factory, get_responder_certificate_mode_factory.
  intros Ha H. apply obind_done in H as (h&_&H). apply obind_done in H as (s&_&H).
  apply obind_done in H as (config&Hc%responder_config_read&H). apply obind_done in H as (mode&_&H).
  destruct mode; try done; done_steps; (split; [|done]).
  - split; [done|]. split; [done|]. by eapply shared_secret_ok.
  - split; [done|]. split; [done|]. split; [by eapply local_keys_ok|by eapply remote_key_ok].
  - split; [done|]. split; [done|]. by eapply bind_keys_spec.
  - split; [done|]. split; [done|]. split; [by eapply local_keys_ok|].
    split; eapply file_data_ok; eassumption.
Qed.

Lemma stack_factory_ok n sources f sources' :
  get_stack_factory files n sources = Done (f, sources') ->
  factory_ok (sf_impl f) /\ sf_type f = factory_type (sf_impl f) /\
  (uses_link_layer f = true <-> is_Some (factory_addresses (sf_impl f))).
Proof.
  unfold get_stack_factory. intros H. apply obind_done in H as (link&_&H). apply obind_done in H as (sec&_&H).
  apply obind_done in H as (type&_&H). apply obind_done in H as (enabled&_&H).
  apply obind_done in H as (a&Ha&H). apply obind_done in H as ([impl src]&Hi&H). injection H as <- <-. cbn.
  assert (addresses_ok a /\ (enabled = true <-> is_Some a)) as [Hok He].
  { destruct enabled; done_steps; [|by split; [|split; [|intros []]]].
    split; [by eapply get_addresses_ok|]. split; eauto. }
  destruct type; [apply initiator_factory_ok in Hi|apply responder_factory_ok in Hi]; try done;
    destruct Hi as (H1&H2&H3); rewrite H2, H3; done.
Qed.

(** ** The sessions *)

Context (now : Z) (open_port : SerialSettings -> bool) (logs : LogLevelValues).

Lemma foreach_inv {S} (P : S -> Prop) n (action : Node -> S -> outcome S) s s' :
  (forall item x y, P x -> action item x = Done y -> P y) -> P s -> foreach n action s = Done s' -> P s'.
Proof.
  intros Hstep Hs. unfold foreach. destruct (negb _); [done|]. destruct (bool_decide _); [done|].
  assert (forall items r, (forall x, r = Done x -> P x) ->
    fold_left (fun s item => let* s := s in action item s) items r = Done s' -> P s') as Hfold.
  { induction items as [|item items IH]; intros r Hr; cbn; [by intros H; apply Hr|].
    apply IH. intros y (x&Hx&Hy)%obind_done. eauto. }
  apply Hfold. by intros x [= <-].
Qed.

Definition endpoint_ok (e : IPEndpoint) : Prop := is_u16 (port e).

(** A session with a stack whose values fit; TCP with the link layer only. *)
Definition session_ok (f : session_factory) : Prop :=
  factory_ok (sf_impl (stack_of f)) /\ sf_type (stack_of f) = factory_type (sf_impl (stack_of f)) /\
  match f with
  | TcpSession _ config factory =>
      is_Some (factory_addresses (sf_impl factory)) /\ is_u16 (max_sessions config) /\
      endpoint_ok (listen config) /\ endpoint_ok (connect config)
  | UdpSession _ config _ =>
      endpoint_ok (raw_rx_endpoint config) /\ endpoint_ok (raw_tx_endpoint config) /\
      endpoint_ok (secure_rx_endpoint config) /\ endpoint_ok (secure_tx_endpoint config)
  end.

Lemma endpoint_read n key e : endpoint_at n key = Done e -> endpoint_ok e.
Proof.
  unfold endpoint_at, IPEndpoint_configure. intros H. done_steps. by eapply (require_integer_in uint16_t).
Qed.

Lemma session_factory_ok n sources f sources' :
  get_session_factory files logs n sources = Done (f, sources') -> session_ok f.
Proof.
  unfold get_session_factory. intros H. apply obind_done in H as (log&_&H).
  apply obind_done in H as ([sf src]&Hs&H). apply stack_factory_ok in Hs as (H1&H2&H3).
  apply obind_done in H as (tr&_&H). apply obind_done in H as (type&_&H). destruct type.
  - destruct (uses_link_layer sf); [|done]. unfold TcpConfig_configure in H. cbn in H. done_steps.
    split; [done|]. split; [done|]. split; [by apply H3|]. split; [by eapply (require_integer_in uint16_t)|].
    split; eapply endpoint_read; eassumption.
  - unfold UdpConfig_configure in H. done_steps. split; [done|]. split; [done|].
    repeat split; eapply endpoint_read; eassumption.
Qed.

(** What the sessions have bound. *)
Definition binding_of (f : stack_factory) : list binding :=
  match f with InitiatorQKD _ _ _ b | ResponderQKD _ _ b => [b] | _ => [] end.
Definition bindings (fs : list session_factory) : list binding := concat (map (fun f => binding_of (sf_impl (stack_of f))) fs).

Definition bound_in (sources : registry) (b : binding) : Prop :=
  exists handler, sources !! bound_source b = Some handler /\
    is_Some (map_find (fh_subscribers handler) (bound_subscriber b)).

Definition bindings_ok (fs : list session_factory) (sources : registry) : Prop :=
  NoDup (bindings fs) /\ Forall (bound_in sources) (bindings fs).

Lemma bind_keeps bind n sources b sources' b' :
  bind = bind_key_store -> bind_session_keys bind n sources = Done (b, sources') ->
  ~ bound_in sources b /\ bound_in sources' b /\ (bound_in sources b' -> bound_in sources' b').
Proof.
  intros Hb H. destruct (bind_keys_spec _ _ _ _ _ Hb H) as (_&h&h'&Hs&Hf&->&store&Hp).
  split; [|split].
  - intros (h2&Hs2&Hf2). rewrite Hs in Hs2. injection Hs2 as <-. rewrite Hf in Hf2. by destruct Hf2.
  - exists h'. split; [apply lookup_insert_eq|]. rewrite Hp, find_put, Z.eqb_refl. by eexists.
  - intros (h2&Hs2&Hf2). destruct (decide (bound_source b' = bound_source b)) as [E|E].
    + exists h'. split; [rewrite E; apply lookup_insert_eq|]. rewrite Hp, find_put.
      rewrite E, Hs in Hs2. injection Hs2 as <-. destruct (_ =? _); [by eexists|done].
    + exists h2. split; [|done]. rewrite <- Hs2. by apply lookup_insert_ne.
Qed.

Lemma stack_factory_binds n sources f sources' :
  get_stack_factory files n sources = Done (f, sources') ->
  (binding_of (sf_impl f) = [] /\ sources' = sources) \/
  (exists b, binding_of (sf_impl f) = [b] /\ ~ bound_in sources b /\ bound_in sources' b /\
     forall b', bound_in sources b' -> bound_in sources' b').
Proof.
  unfold get_stack_factory. intros H. apply obind_done in H as (link&_&H). apply obind_done in H as (sec&_&H).
  apply obind_done in H as (type&_&H). apply obind_done in H as (enabled&_&H).
  apply obind_done in H as (a&_&H). apply obind_done in H as ([impl src]&Hi&H). injection H as <- <-. cbn.
  destruct type; [unfold get_initiator_factory in Hi|unfold get_responder_factory in Hi];
    apply obind_done in Hi as (h&_&Hi); apply obind_done in Hi as (s&_&Hi);
    apply obind_done in Hi as (config&_&Hi); apply obind_done in Hi as (mode&_&Hi);
    unfold keeping, get_initiator_qkd_factory, get_initiator_shared_secret_factory,
      get_initiator_preshared_public_key_factory, get_initiator_certificate_mode_factory,
      get_responder_qkd_factory, get_responder_shared_secret_factory,
      get_responder_preshared_public_key_factory, get_responder_certificate_mode_factory in Hi;
    destruct mode; try done; done_steps; try (by left); right; eexists; (split; [done|]);
    (split; [by eapply (bind_keeps _ _ _ _ _ (mkBinding EmptyString 0))|]);
    (split; [by eapply (bind_keeps _ _ _ _ _ (mkBinding EmptyString 0))|]);
    intros b'; by eapply bind_keeps.
Qed.

Lemma session_factory_binds n fs sources f sources' :
  bindings_ok fs sources -> get_session_factory files logs n sources = Done (f, sources') ->
  bindings_ok (fs ++ [f]) sources'.
Proof.
  intros [Hnd Hall] H. unfold get_session_factory in H. apply obind_done in H as (log&_&H).
  apply obind_done in H as ([sf src]&Hs&H). apply obind_done in H as (tr&_&H).
  apply obind_done in H as (type&_&H).
  assert (stack_of f = sf /\ sources' = src) as [Ef ->].
  { destruct type; [destruct (uses_link_layer sf); [|done]; cbn in H|]; by done_steps. }
  unfold bindings_ok, bindings. rewrite map_app, concat_app. cbn [map concat]. rewrite Ef, app_nil_r.
  fold (bindings fs).
  destruct (stack_factory_binds _ _ _ _ Hs) as [[-> ->]|(b&->&Hnew&Hb&Hkeep)]; [by rewrite app_nil_r|]. split.
  - apply NoDup_app. split; [done|]. split; [|apply NoDup_singleton].
    intros b' Hin ->%list_elem_of_singleton. rewrite Forall_forall in Hall. by apply Hnew, Hall.
  - apply Forall_app. split; [|by constructor]. eapply Forall_impl; [exact Hall|]. exact Hkeep.
Qed.

(** The sessions are made one by one, from the items of the sequence in their order. *)
Lemma foreach_makes {A S} (R : Node -> A -> Prop) (get : Node -> S -> outcome (A * S)) n s made s' :
  (forall item x a y, get item x = Done (a, y) -> R item a) ->
  foreach n (fun item '(made, s) => let* '(a, s) := get item s in Done (made ++ [a], s)) ([], s) = Done (made, s') ->
  Forall2 R (node_items n) made.
Proof.
  intros Hget. unfold foreach. destruct (negb _); [done|]. destruct (bool_decide _); [done|].
  assert (forall items r before, (forall x, r = Done x -> Forall2 R before x.1) ->
    fold_left (fun s item => let* s := s in let '(made, s) := s in let* '(a, s) := get item s in Done (made ++ [a], s))
      items r = Done (made, s') -> Forall2 R (before ++ items) made) as Hfold.
  { induction items as [|item items IH]; intros r before Hr; cbn.
    - rewrite app_nil_r. intros H. exact (Hr _ H).
    - intros H. replace (before ++ item :: items) with ((before ++ [item]) ++ items) by by rewrite <- app_assoc.
      refine (IH _ _ _ H). intros y ([made1 s1]&Hx&([a s2]&Ha&[= <-])%obind_done)%obind_done.
      apply Forall2_app; [exact (Hr _ Hx)|]. constructor; [by eapply Hget|constructor]. }
  intros H. refine (Hfold _ _ [] _ H). by intros x [= <-].
Qed.


(** C38: No two sessions of a proxy use the same quantum keys: when a configuration is
    accepted, the pairs of key source and subscriber that its sessions have bound are
    distinct, and each is a subscriber of its source. *)
Theorem sessions_share_no_keys root fs sources :
  configure_sessions files now open_port logs root = Done (fs, sources) ->
  NoDup (bindings fs) /\ Forall (bound_in sources) (bindings fs).
Proof.
  unfold configure_sessions, config_read. intros ([fs' src]&H&Hn)%obind_done.
  destruct (is_nil fs') eqn:En; [done|]. injection Hn as -> ->.
  apply obind_done in H as (q&_&H). apply obind_done in H as (src0&_&H). apply obind_done in H as (sn&_&H).
  refine (foreach_inv (fun '(fs, s) => bindings_ok fs s) sn _ _ (fs, sources) _ _ H).
  - intros item [xs s1] [ys s2] Hx. intros ([f s3]&Hf&E)%obind_done. injection E as <- <-.
    by eapply session_factory_binds.
  - split; constructor.
Qed.
End Facts.

(** ** What is not read *)

Section NotRead.
Context `{SER : Ser4cpp} `{YAML : YamlLib} (files : string -> option bytes).

(** The children of a session node that an initiator's configuration depends on. *)
Definition session_keys : list string :=
  ["max_payload_size"; "ttl_pad"; "max_nonce_value"; "max_session_time_ms"; "nonce_renegotiation_trigger_value";
   "session_time_renegotiation_trigger_ms"]%string.

Lemma optional_agree n n' key :
  is_defined n = is_defined n' -> node_get n key = node_get n' key -> optional n key = optional n' key.
Proof. intros Hd Hg. unfold optional. by rewrite Hd, Hg. Qed.

(** Session nodes with the same children under these names configure an initiator in
    the same way, whatever other children they have. *)
Lemma initiator_config_reads handshake session session' :
  is_defined session = is_defined session' ->
  Forall (fun key => node_get session key = node_get session' key) session_keys ->
  get_initiator_config handshake session = get_initiator_config handshake session'.
Proof.
  intros Hd Hk. rewrite Forall_forall in Hk.
  assert (forall key, key ∈ session_keys -> optional session key = optional session' key) as Ho.
  { intros key Hin. apply optional_agree; [exact Hd|by apply Hk]. }
  unfold get_initiator_config, get_crypto_layer_config, get_session_config, get_session_limits,
    get_initiator_params, get_optional_ms_from_duration, optional_integer, optional_duration.
  by rewrite !Ho by (unfold session_keys; set_solver).
Qed.

(** With certificates the suite is the default one, whatever [algorithms] says. *)
Lemma certificate_mode_suite n config a a' config' suite local anchor chain :
  get_initiator_certificate_mode_factory files n config a =
    Done (InitiatorCertificate a' config' suite local anchor chain) -> suite = CryptoSuite_default.
Proof. unfold get_initiator_certificate_mode_factory. intros H. repeat (apply obind_done in H as (?&_&H)). congruence. Qed.

(** The metrics have the level of the fields of received messages. *)
Lemma metric_level logs : level_metric logs = level_rx_crypto_msg_fields logs.
Proof. reflexivity. Qed.
End NotRead.

(** ** Documents *)

Inductive yaml_tree :=
| YUndefined | YNull
| YScalar (text : string) (number : option Z) (flag : option bool)
| YSequence (items : list yaml_tree)
| YMap (children : list (string * yaml_tree)).

Fixpoint tree_get (children : list (string * yaml_tree)) (key : string) : yaml_tree :=
  match children with
  | [] => YUndefined
  | (k, v) :: rest => if String.eqb k key then v else tree_get rest key
  end.

Definition or_throw {A} (o : option A) : outcome A := match o with Some a => Done a | None => Throw end.

#[local] Instance tree_yaml : YamlLib := {|
  Node := yaml_tree;
  node_type n :=
    match n with
    | YUndefined => NodeUndefined | YNull => NodeNull | YScalar _ _ _ => NodeScalar
    | YSequence _ => NodeSequence | YMap _ => NodeMap
    end;
  node_get n key :=
    match n with YMap children => Done (tree_get children key) | YScalar _ _ _ => Throw | _ => Done YUndefined end;
  node_scalar n := match n with YScalar text _ _ => text | _ => EmptyString end;
  node_as_int64 n := match n with YScalar _ number _ => or_throw number | _ => Throw end;
  node_as_bool n := match n with YScalar _ _ flag => or_throw flag | _ => Throw end;
  node_items n := match n with YSequence items => items | _ => [] end;
|}.

Definition text (s : string) : yaml_tree := YScalar s None None.
Definition number (z : Z) : yaml_tree := YScalar EmptyString (Some z) None.
Definition flag (b : bool) : yaml_tree := YScalar EmptyString None (Some b).
Definition duration (value : Z) (unit : string) : yaml_tree :=
  YMap [("value", number value); ("unit", text unit)]%string.

Definition link_node (remote local : Z) : yaml_tree :=
  YMap [("enabled", flag true); ("address", YMap [("remote", number remote); ("local", number local)])]%string.

Definition udp_node : yaml_tree :=
  let endpoint := YMap [("address", text "127.0.0.1"); ("port", number 20000)]%string in
  YMap [("type", text "udp"); ("raw_rx", endpoint); ("raw_tx", endpoint); ("secure_rx", endpoint);
        ("secure_tx", endpoint)]%string.

(** The session node of the initiator configurations in the repository. *)
Definition shipped_session : yaml_tree :=
  YMap [("max_payload_size", number 4096); ("ttl_pad", duration 10 "seconds"); ("max_nonce_value", number 32768);
        ("nonce_renegotiation_trigger_value", number 32700); ("max_session_duration", duration 1 "hours");
        ("session_time_renegotiation_trigger", duration 59 "minutes")]%string.

Definition algorithms_node (mode : string) : yaml_tree := YMap [("session_crypto_mode", text mode)]%string.

Definition initiator_node : yaml_tree :=
  YMap [("id", text "session1"); ("levels", text "iwecfm"); ("link_layer", link_node 10 1);
        ("security", YMap [("mode", text "initiator"); ("session", shipped_session);
          ("handshake", YMap [("algorithms", algorithms_node "hmac_sha256_16"); ("type", text "shared_secret");
             ("response_timeout", duration 2 "seconds"); ("shared_secret_key_path", text "key.icf")])]);
        ("transport", udp_node)]%string.

Definition responder_node : yaml_tree :=
  YMap [("id", text "session1"); ("levels", text "iwem"); ("link_layer", link_node 1 10);
        ("security", YMap [("mode", text "responder"); ("session", YMap []);
          ("handshake", YMap [("type", text "shared_secret"); ("shared_secret_key_path", text "key.icf")])]);
        ("transport", udp_node)]%string.

Definition key_file (type : ContainerEntryType) (key : bytes) : bytes :=
  ContainerFile_enc (mkContainerFile type key).

Definition test_files (path : string) : option bytes :=
  if String.eqb path "key.icf" then Some (key_file ContainerEntryType_shared_secret (replicate 32 7)) else None.

Definition test_logs : LogLevelValues := mkLogLevelValues 1 2 4 8 16 (fun l => 2 * l).

Local Existing Instance ser4cpp_reference.

(** The times the shipped documents give for the validity of a session and for its
    renewal are not read: their names are not the ones the code asks for.  With other
    times in their place the same configuration is read, the default one. *)
Example shipped_times_ignored :
  get_initiator_config (YMap []) shipped_session =
    get_initiator_config (YMap [])
      (YMap [("max_payload_size", number 4096); ("ttl_pad", duration 10 "seconds"); ("max_nonce_value", number 32768);
             ("nonce_renegotiation_trigger_value", number 32700); ("max_session_duration", duration 8 "hours");
             ("session_time_renegotiation_trigger", duration 1 "minutes")]%string) /\
  exists config, get_initiator_config (YMap []) shipped_session = Done config /\
    max_session_time_ms (ic_session_limits config) = default_max_session_time_ms /\
    session_time_renegotiation_trigger_ms (ic_params config) = default_session_time_renegotiation_trigger_ms.
Proof. split; [reflexivity|]. eexists. split; [reflexivity|]. split; reflexivity. Qed.

(** A duration of more than 584 years is read as one of 25 minutes. *)
Example duration_overflows :
  get_duration_value (duration 5124096 "hours") = Done 1526290448384.
Proof. vm_compute. reflexivity. Qed.

Definition shipped_document : yaml_tree :=
  YMap [("qkd_sources", YSequence []); ("sessions", YSequence [initiator_node; responder_node])]%string.


(** A source with two subscribers, one for each of two sessions. *)
Definition source_node : yaml_tree :=
  YMap [("qkd_source_id", text "source1"); ("type", text "qix"); ("num_subscribers", number 2);
        ("metrics", YMap [("bin_size", number 10); ("update_period", duration 5 "seconds")]);
        ("serial", YMap [("device", text "/dev/ttyS0")])]%string.

Definition qkd_node (subscriber : Z) : yaml_tree :=
  YMap [("id", text "session"); ("levels", text "i"); ("link_layer", link_node 1 10);
        ("security", YMap [("mode", text "responder"); ("session", YMap []);
          ("handshake", YMap [("type", text "qkd"); ("key_source_id", text "source1");
             ("subscriber_id", number subscriber); ("max_key_cache_size", number 100)])]);
        ("transport", udp_node)]%string.

Definition qkd_document (a b : Z) : yaml_tree :=
  YMap [("qkd_sources", YSequence [source_node]); ("sessions", YSequence [qkd_node a; qkd_node b])]%string.

(** The same subscriber for both is refused. *)
Example same_subscriber_refused :
  configure_sessions test_files 0 (fun _ => true) test_logs (qkd_document 1 1) = Throw.
Proof. vm_compute. reflexivity. Qed.

Lemma sessions_share_no_keys_witness :
  exists fs sources,
    configure_sessions test_files 0 (fun _ => true) test_logs (qkd_document 0 1) = Done (fs, sources) /\
    bindings fs = [mkBinding "source1" 0; mkBinding "source1" 1] /\ NoDup (bindings fs).
Proof.
  eexists _, _. split; [reflexivity|]. split; [reflexivity|].
  refine (proj1 (sessions_share_no_keys test_files 0 (fun _ => true) test_logs (qkd_document 0 1) _ _ _)).
  reflexivity.
Defined.
