(* ===== verification/Sockets.v ===== *)
(** * The sockets of the proxy

    [exe/proxy/src]: [IAsioSocketWrapper.h], [tcp/AsioTcpSocketWrapper.h],
    [udp/AsioUdpSocketWrapper.h], [IAsioLayer.h] and [AsioLowerLayer.h].

    asio is a library: of a socket the model keeps whether it is open and the
    operations that were started and have not completed.  asio calls the handler of
    an operation once, later, from the event loop; a read may write to its buffer
    at any time until then.  A sequence that points into the receive buffer is its
    length here, so that it changes when the buffer does.

    A wrapper is an instance of [IAsioSocketWrapper]; [SocketLaws] is what the proxy
    relies on.  [Transport] is [AsioLowerLayer] with its socket: the instances
    [transport_lower] and [transport_laws] show that it keeps the promises a stack
    relies on. *)

From stdpp Require Import base numbers list.
From Stdlib Require Import Lia ZArith.
From S2P Require Import Prelude Ser4cpp LinkParser LinkLayer LayerLogic.

(** ** asio *)

(** A socket with the operations that were started on it. *)
Record AsioSocket := mkAsioSocket {
  is_open : bool;
  (* reads that have not completed *)
  reads : nat;
  (* the data of the writes that have not completed *)
  writes : list bytes;
}.

Definition new_socket : AsioSocket := mkAsioSocket true 0 [].
(** [shutdown] and [close]; the operations complete later, with an error. *)
Definition close (s : AsioSocket) : AsioSocket := mkAsioSocket false (reads s) (writes s).
(** [async_read_some] and [async_receive] *)
Definition async_read (s : AsioSocket) : AsioSocket := mkAsioSocket (is_open s) (S (reads s)) (writes s).
(** [async_write] and [async_send_to] *)
Definition async_write (s : AsioSocket) (data : bytes) : AsioSocket :=
  mkAsioSocket (is_open s) (reads s) (writes s ++ [data]).
Definition read_completes (s : AsioSocket) : AsioSocket := mkAsioSocket (is_open s) (pred (reads s)) (writes s).
Definition write_completes (s : AsioSocket) : AsioSocket := mkAsioSocket (is_open s) (reads s) (tail (writes s)).

(** ** The interfaces *)

(** The calls of a wrapper on its [IAsioLayer]; the data are the first bytes of the
    receive buffer. *)
Inductive layer_call :=
| on_rx_complete (data : Z)
| on_tx_complete
| on_rx_or_tx_error.

(** [rx_callback] and [tx_callback] are the handlers given to asio: [None] is an
    error. *)
Class IAsioSocketWrapper (S : Type) := {
  start_rx_from_socket : S -> bool * S;
  start_tx_to_socket : S -> bytes -> bool * S;
  try_close_socket : S -> bool * S;
  get_is_tx_active : S -> bool;
  get_is_rx_active : S -> bool;
  rx_callback : S -> option Z -> option layer_call * S;
  tx_callback : S -> bool -> option layer_call * S;
  asio_socket : S -> AsioSocket;
  set_asio_socket : S -> AsioSocket -> S;
  rx_buffer : S -> bytes;
  set_rx_buffer : S -> bytes -> S;
}.

Definition is_active `{!IAsioSocketWrapper Sk} (s : Sk) : bool := get_is_rx_active s || get_is_tx_active s.

(** [rx_buffer.as_rslice().take(num_rx)] *)
Definition rx_view `{!IAsioSocketWrapper Sk} (s : Sk) (num_rx : Z) : Z := Z.min num_rx (zlen (rx_buffer s)).
Definition view_bytes `{!IAsioSocketWrapper Sk} (s : Sk) (data : Z) : bytes := ztake data (rx_buffer s).

(** ** TCP *)

Record AsioTcpSocketWrapper := mkTcp {
  tcp_is_tx_active : bool;
  tcp_is_rx_active : bool;
  tcp_socket : AsioSocket;
  tcp_rx_buffer : bytes;
}.

Definition AsioTcpSocketWrapper_new (socket : AsioSocket) (memory : bytes) : AsioTcpSocketWrapper :=
  mkTcp false false socket memory.

Definition tcp_try_close_socket (s : AsioTcpSocketWrapper) : bool * AsioTcpSocketWrapper :=
  if negb (is_open (tcp_socket s)) then (false, s)
  else (true, mkTcp (tcp_is_tx_active s) (tcp_is_rx_active s) (close (tcp_socket s)) (tcp_rx_buffer s)).

Definition tcp_start_rx_from_socket (s : AsioTcpSocketWrapper) : bool * AsioTcpSocketWrapper :=
  if negb (is_open (tcp_socket s)) || tcp_is_rx_active s then (false, s)
  else (true, mkTcp (tcp_is_tx_active s) true (async_read (tcp_socket s)) (tcp_rx_buffer s)).

Definition tcp_rx_callback (s : AsioTcpSocketWrapper) (ec : option Z) : option layer_call * AsioTcpSocketWrapper :=
  let s := mkTcp (tcp_is_tx_active s) false (tcp_socket s) (tcp_rx_buffer s) in
  match ec with
  | None =>
      if is_open (tcp_socket s) then (Some on_rx_or_tx_error, (tcp_try_close_socket s).2) else (None, s)
  | Some num_rx => (Some (on_rx_complete (Z.min num_rx (zlen (tcp_rx_buffer s)))), s)
  end.

Definition tcp_start_tx_to_socket (s : AsioTcpSocketWrapper) (data : bytes) : bool * AsioTcpSocketWrapper :=
  if negb (is_open (tcp_socket s)) || tcp_is_tx_active s then (false, s)
  else (true, mkTcp true (tcp_is_rx_active s) (async_write (tcp_socket s) data) (tcp_rx_buffer s)).

Definition tcp_tx_callback (s : AsioTcpSocketWrapper) (ok : bool) : option layer_call * AsioTcpSocketWrapper :=
  let s := mkTcp false (tcp_is_rx_active s) (tcp_socket s) (tcp_rx_buffer s) in
  if ok then (Some on_tx_complete, s)
  else if is_open (tcp_socket s) then (Some on_rx_or_tx_error, (tcp_try_close_socket s).2) else (None, s).

#[export] Instance tcp_wrapper : IAsioSocketWrapper AsioTcpSocketWrapper := {|
  start_rx_from_socket := tcp_start_rx_from_socket;
  start_tx_to_socket := tcp_start_tx_to_socket;
  try_close_socket := tcp_try_close_socket;
  get_is_tx_active := tcp_is_tx_active;
  get_is_rx_active := tcp_is_rx_active;
  rx_callback := tcp_rx_callback;
  tx_callback := tcp_tx_callback;
  asio_socket := tcp_socket;
  set_asio_socket s socket := mkTcp (tcp_is_tx_active s) (tcp_is_rx_active s) socket (tcp_rx_buffer s);
  rx_buffer := tcp_rx_buffer;
  set_rx_buffer s buffer := mkTcp (tcp_is_tx_active s) (tcp_is_rx_active s) (tcp_socket s) buffer;
|}.

(** ** UDP *)

Record AsioUdpSocketWrapper := mkUdp {
  udp_is_tx_open : bool;
  udp_is_rx_open : bool;
  udp_is_tx_active : bool;
  udp_is_rx_active : bool;
  udp_socket : AsioSocket;
  udp_rx_buffer : bytes;
}.

Definition AsioUdpSocketWrapper_new (socket : AsioSocket) (memory : bytes) : AsioUdpSocketWrapper :=
  mkUdp false false false false socket memory.

Definition udp_try_close_socket (s : AsioUdpSocketWrapper) : bool * AsioUdpSocketWrapper :=
  if negb (is_open (udp_socket s)) then (false, s)
  else (true, mkUdp false false (udp_is_tx_active s) (udp_is_rx_active s) (close (udp_socket s)) (udp_rx_buffer s)).

(** Unlike the TCP wrapper it does not ask whether the socket is open. *)
Definition udp_start_rx_from_socket (s : AsioUdpSocketWrapper) : bool * AsioUdpSocketWrapper :=
  if udp_is_rx_active s then (false, s)
  else (true, mkUdp (udp_is_tx_open s) (udp_is_rx_open s) (udp_is_tx_active s) true (async_read (udp_socket s))
                (udp_rx_buffer s)).

(** An error is reported when a datagram was received before; the socket stays open. *)
Definition udp_rx_callback (s : AsioUdpSocketWrapper) (ec : option Z) : option layer_call * AsioUdpSocketWrapper :=
  match ec with
  | None =>
      let s := mkUdp (udp_is_tx_open s) (udp_is_rx_open s) (udp_is_tx_active s) false (udp_socket s)
                 (udp_rx_buffer s) in
      (if udp_is_rx_open s then Some on_rx_or_tx_error else None, s)
  | Some num_rx =>
      let s := mkUdp (udp_is_tx_open s) true (udp_is_tx_active s) false (udp_socket s) (udp_rx_buffer s) in
      (Some (on_rx_complete (Z.min num_rx (zlen (udp_rx_buffer s)))), s)
  end.

Definition udp_start_tx_to_socket (s : AsioUdpSocketWrapper) (data : bytes) : bool * AsioUdpSocketWrapper :=
  if udp_is_tx_active s then (false, s)
  else (true, mkUdp (udp_is_tx_open s) (udp_is_rx_open s) true (udp_is_rx_active s)
                (async_write (udp_socket s) data) (udp_rx_buffer s)).

Definition udp_tx_callback (s : AsioUdpSocketWrapper) (ok : bool) : option layer_call * AsioUdpSocketWrapper :=
  if ok then
    (Some on_tx_complete,
     mkUdp true (udp_is_rx_open s) false (udp_is_rx_active s) (udp_socket s) (udp_rx_buffer s))
  else
    let s := mkUdp (udp_is_tx_open s) (udp_is_rx_open s) false (udp_is_rx_active s) (udp_socket s)
               (udp_rx_buffer s) in
    (if udp_is_tx_open s then Some on_rx_or_tx_error else None, s).

#[export] Instance udp_wrapper : IAsioSocketWrapper AsioUdpSocketWrapper := {|
  start_rx_from_socket := udp_start_rx_from_socket;
  start_tx_to_socket := udp_start_tx_to_socket;
  try_close_socket := udp_try_close_socket;
  get_is_tx_active := udp_is_tx_active;
  get_is_rx_active := udp_is_rx_active;
  rx_callback := udp_rx_callback;
  tx_callback := udp_tx_callback;
  asio_socket := udp_socket;
  set_asio_socket s socket := mkUdp (udp_is_tx_open s) (udp_is_rx_open s) (udp_is_tx_active s) (udp_is_rx_active s)
                                socket (udp_rx_buffer s);
  rx_buffer := udp_rx_buffer;
  set_rx_buffer s buffer := mkUdp (udp_is_tx_open s) (udp_is_rx_open s) (udp_is_tx_active s) (udp_is_rx_active s)
                              (udp_socket s) buffer;
|}.

(** ** What the wrappers promise *)

(** The flags tell which operations are outstanding. *)
Definition socket_ok `{!IAsioSocketWrapper Sk} (s : Sk) : Prop :=
  reads (asio_socket s) = Nat.b2n (get_is_rx_active s) /\
  length (writes (asio_socket s)) = Nat.b2n (get_is_tx_active s).

(** The completion of an operation by asio: the buffer has its new contents, and the
    handler is called. *)
Definition complete_rx `{!IAsioSocketWrapper Sk} (s : Sk) (buffer : bytes) (ec : option Z) : option layer_call * Sk :=
  rx_callback (set_rx_buffer (set_asio_socket s (read_completes (asio_socket s))) buffer) ec.
Definition complete_tx `{!IAsioSocketWrapper Sk} (s : Sk) (ok : bool) : option layer_call * Sk :=
  tx_callback (set_asio_socket s (write_completes (asio_socket s))) ok.

Class SocketLaws (S : Type) `{SW : !IAsioSocketWrapper S} : Prop := {
  set_socket_keeps s socket :
    asio_socket (set_asio_socket s socket) = socket /\
    rx_buffer (set_asio_socket s socket) = rx_buffer s /\
    get_is_rx_active (set_asio_socket s socket) = get_is_rx_active s /\
    get_is_tx_active (set_asio_socket s socket) = get_is_tx_active s;
  set_buffer_keeps s buffer :
    rx_buffer (set_rx_buffer s buffer) = buffer /\
    asio_socket (set_rx_buffer s buffer) = asio_socket s /\
    get_is_rx_active (set_rx_buffer s buffer) = get_is_rx_active s /\
    get_is_tx_active (set_rx_buffer s buffer) = get_is_tx_active s;
  start_rx_ok s : socket_ok s ->
    socket_ok (start_rx_from_socket s).2 /\
    get_is_tx_active (start_rx_from_socket s).2 = get_is_tx_active s /\
    rx_buffer (start_rx_from_socket s).2 = rx_buffer s;
  start_tx_ok s data : socket_ok s ->
    socket_ok (start_tx_to_socket s data).2 /\
    get_is_rx_active (start_tx_to_socket s data).2 = get_is_rx_active s /\
    rx_buffer (start_tx_to_socket s data).2 = rx_buffer s;
  (* data that are being transmitted stay *)
  start_tx_queues s data : socket_ok s ->
    writes (asio_socket (start_tx_to_socket s data).2) =
      if (start_tx_to_socket s data).1 then [data] else writes (asio_socket s);
  close_keeps s :
    get_is_rx_active (try_close_socket s).2 = get_is_rx_active s /\
    get_is_tx_active (try_close_socket s).2 = get_is_tx_active s /\
    reads (asio_socket (try_close_socket s).2) = reads (asio_socket s) /\
    writes (asio_socket (try_close_socket s).2) = writes (asio_socket s) /\
    is_open (asio_socket (try_close_socket s).2) = false /\
    rx_buffer (try_close_socket s).2 = rx_buffer s;
  complete_rx_ok s buffer ec : socket_ok s -> get_is_rx_active s = true ->
    socket_ok (complete_rx s buffer ec).2 /\
    get_is_rx_active (complete_rx s buffer ec).2 = false /\
    get_is_tx_active (complete_rx s buffer ec).2 = get_is_tx_active s /\
    rx_buffer (complete_rx s buffer ec).2 = buffer /\
    (forall n, ec = Some n -> (complete_rx s buffer ec).1 = Some (on_rx_complete (Z.min n (zlen buffer)))) /\
    (ec = None -> (complete_rx s buffer ec).1 = None \/ (complete_rx s buffer ec).1 = Some on_rx_or_tx_error);
  complete_tx_ok s ok : socket_ok s -> get_is_tx_active s = true ->
    socket_ok (complete_tx s ok).2 /\
    get_is_rx_active (complete_tx s ok).2 = get_is_rx_active s /\
    get_is_tx_active (complete_tx s ok).2 = false /\
    rx_buffer (complete_tx s ok).2 = rx_buffer s /\
    (ok = true -> (complete_tx s ok).1 = Some on_tx_complete) /\
    (ok = false -> (complete_tx s ok).1 = None \/ (complete_tx s ok).1 = Some on_rx_or_tx_error);
}.


#[export] Instance tcp_laws : SocketLaws AsioTcpSocketWrapper.
Proof.
  split; intros [tx rx [o r w] b]; unfold socket_ok, complete_rx, complete_tx; cbn;
    unfold tcp_start_rx_from_socket, tcp_start_tx_to_socket, tcp_try_close_socket, tcp_rx_callback, tcp_tx_callback; cbn.
  - done.
  - done.
  - destruct o, rx; cbn; intros [-> Hw]; repeat split; done.
  - intros data. destruct o, tx; cbn; intros [Hr Hw]; repeat split; try done. rewrite length_app. cbn. lia.
  - intros data [_ Hw]. destruct o, tx; try done. cbn. by rewrite (nil_length_inv w).
  - destruct o; repeat split.
  - intros buffer [n|] [-> Hw] ->; [|destruct o]; cbn; repeat split; naive_solver.
  - intros ok [Hr Hw] ->. destruct w as [|d [|]]; try done. destruct ok; [|destruct o]; cbn; repeat split; naive_solver.
Qed.

#[export] Instance udp_laws : SocketLaws AsioUdpSocketWrapper.
Proof.
  split; intros [to ro tx rx [o r w] b]; unfold socket_ok, complete_rx, complete_tx; cbn;
    unfold udp_start_rx_from_socket, udp_start_tx_to_socket, udp_try_close_socket, udp_rx_callback, udp_tx_callback; cbn.
  - done.
  - done.
  - destruct rx; cbn; intros [-> Hw]; repeat split; done.
  - intros data. destruct tx; cbn; intros [Hr Hw]; repeat split; try done. rewrite length_app. cbn. lia.
  - intros data [_ Hw]. destruct tx; try done. cbn. by rewrite (nil_length_inv w).
  - destruct o; repeat split.
  - intros buffer [n|] [-> Hw] ->; [|destruct ro]; cbn; repeat split; naive_solver.
  - intros ok [Hr Hw] ->. destruct w as [|d [|]]; try done. destruct ok; [|destruct to]; cbn; repeat split; naive_solver.
Qed.

(** ** [AsioLowerLayer] *)

Record AsioLowerLayer := mkAsioLowerLayer {
  (* the length of the sequence that points into the receive buffer of the socket *)
  unread_data : Z;
  (* ILowerLayer::upper_is_processing_rx_data *)
  lower_upper_is_processing : bool;
}.

Definition AsioLowerLayer_new : AsioLowerLayer := mkAsioLowerLayer 0 false.

Section AsioLowerLayer.
Context {Sk : Type} `{SW : !IAsioSocketWrapper Sk}.
Implicit Types (x : AsioLowerLayer) (s : Sk).

Definition AsioLowerLayer_start_tx_from_upper s (data : bytes) : bool * Sk := start_tx_to_socket s data.
Definition AsioLowerLayer_is_tx_ready s : bool := negb (get_is_tx_active s).
Definition AsioLowerLayer_discard_rx_data x : AsioLowerLayer := mkAsioLowerLayer 0 (lower_upper_is_processing x).

Definition AsioLowerLayer_start_rx_from_upper_impl x s : Z * Sk :=
  let s := if unread_data x =? 0 then (start_rx_from_socket s).2 else s in
  (unread_data x, s).

(** [ILowerLayer::start_rx_from_upper] *)
Definition AsioLowerLayer_start_rx_from_upper x s : Z * AsioLowerLayer * Sk :=
  let x := if lower_upper_is_processing x
           then mkAsioLowerLayer (unread_data (AsioLowerLayer_discard_rx_data x)) false else x in
  let '(ret, s) := AsioLowerLayer_start_rx_from_upper_impl x s in
  let x := if negb (ret =? 0) then mkAsioLowerLayer (unread_data x) true else x in
  (ret, x, s).

(** [AsioLowerLayer::on_rx_complete] before it notifies the stack. *)
Definition AsioLowerLayer_store_rx x (data : Z) : AsioLowerLayer :=
  mkAsioLowerLayer data (lower_upper_is_processing x).

(** The sequence lies in the buffer, and while it is in use, or waits to be, the
    socket does not read. *)
Record lower_ok x s : Prop := {
  lo_socket : socket_ok s;
  lo_bytes : all_bytes (rx_buffer s);
  lo_view : 0 <= unread_data x <= zlen (rx_buffer s);
  lo_reading : get_is_rx_active s = true -> unread_data x = 0 /\ lower_upper_is_processing x = false;
  lo_processing : lower_upper_is_processing x = true -> 0 < unread_data x;
}.

(** What waits to be read. *)
Definition waiting x s : bytes :=
  if lower_upper_is_processing x then [] else view_bytes s (unread_data x).

Context `{LAWS : !SocketLaws Sk}.

Lemma start_rx_keeps_ok x s :
  lower_ok x s -> unread_data x = 0 -> lower_upper_is_processing x = false ->
  lower_ok x (start_rx_from_socket s).2.
Proof.
  intros [Hs Hb Hv _ _] Hu Hp. destruct (start_rx_ok s Hs) as (Hs'&_&Hb').
  split; rewrite ?Hb'; try done. by rewrite Hp.
Qed.

Lemma view_nonempty x s : lower_ok x s -> 0 < unread_data x -> view_bytes s (unread_data x) <> [].
Proof.
  intros [_ _ Hv _ _] Hu H. apply (f_equal zlen) in H. unfold view_bytes in H.
  rewrite zlen_ztake in H by lia. change (zlen (@nil Z)) with 0 in H. lia.
Qed.

(** A call returns what waits, and asks the socket for more when nothing does. *)
Lemma start_rx_from_upper_spec x s data x' s' :
  lower_ok x s -> AsioLowerLayer_start_rx_from_upper x s = (data, x', s') ->
  lower_ok x' s' /\ view_bytes s' data = waiting x s /\ waiting x' s' = [] /\
  (data = 0 <-> waiting x s = []) /\ get_is_tx_active s' = get_is_tx_active s.
Proof.
  intros Hok H. pose proof Hok as [Hs Hb Hv Hr Hp]. destruct x as [u p]. cbn in *.
  unfold AsioLowerLayer_start_rx_from_upper, AsioLowerLayer_start_rx_from_upper_impl, waiting in *. cbn in *.
  destruct p; cbn in H.
  - injection H as <- <- <-. assert (0 < u) by auto.
    assert (get_is_rx_active s = false) as Hidle.
    { destruct (get_is_rx_active s); [|done]. destruct (Hr eq_refl); lia. }
    destruct (start_rx_ok s Hs) as (Hs'&Htx&Hb'). cbn.
    split; [|done]. split; rewrite ?Hb'; try done. cbn. unfold zlen. lia.
  - destruct (Z.eqb_spec u 0) as [->|Hne]; cbn in H; injection H as <- <- <-; cbn.
    + destruct (start_rx_ok s Hs) as (Hs'&Htx&Hb').
      split; [by apply start_rx_keeps_ok|]. done.
    + split; [|split; [done|split; [done|split; [|done]]]].
      * split; try done; cbn; [|lia]. intros Ha. destruct (Hr Ha). lia.
      * split; [lia|]. intros E. by apply (view_nonempty _ _ Hok) in E; [|cbn; lia].
Qed.
End AsioLowerLayer.

(** ** The lower layer keeps the promises a stack relies on *)

Record Transport (Sk : Type) `{SW : !IAsioSocketWrapper Sk} := mkTransport {
  tr_layer : AsioLowerLayer;
  tr_socket : Sk;
  tr_ok : lower_ok tr_layer tr_socket;
}.
Arguments mkTransport {Sk SW} _ _ _.
Arguments tr_layer {Sk SW} _.
Arguments tr_socket {Sk SW} _.
Arguments tr_ok {Sk SW} _.

Section Transport.
Context {Sk : Type} `{SW : !IAsioSocketWrapper Sk} `{LAWS : !SocketLaws Sk}.

Lemma transport_rx_ok (t : Transport Sk) data x s :
  AsioLowerLayer_start_rx_from_upper (tr_layer t) (tr_socket t) = (data, x, s) -> lower_ok x s.
Proof. intros H. exact (proj1 (start_rx_from_upper_spec _ _ _ _ _ (tr_ok t) H)). Qed.

Lemma transport_tx_ok (t : Transport Sk) data :
  lower_ok (tr_layer t) (AsioLowerLayer_start_tx_from_upper (tr_socket t) data).2.
Proof.
  destruct (tr_ok t) as [Hs Hb Hv Hr Hp]. destruct (start_tx_ok (tr_socket t) data Hs) as (Hs'&Hrx&Hb').
  unfold AsioLowerLayer_start_tx_from_upper. split; rewrite ?Hb', ?Hrx; done.
Qed.

Definition transport_rx_result (t : Transport Sk) (r : Z * AsioLowerLayer * Sk)
  : AsioLowerLayer_start_rx_from_upper (tr_layer t) (tr_socket t) = r -> bytes * Transport Sk :=
  match r with
  | (data, x, s) => fun E => (view_bytes s data, mkTransport x s (transport_rx_ok t data x s E))
  end.

Definition transport_start_rx (t : Transport Sk) : bytes * Transport Sk := transport_rx_result t _ eq_refl.

Definition transport_start_tx (t : Transport Sk) (data : bytes) : bool * Transport Sk :=
  ((AsioLowerLayer_start_tx_from_upper (tr_socket t) data).1, mkTransport _ _ (transport_tx_ok t data)).

(** What waits, as a chunk. *)
Definition transport_chunks (t : Transport Sk) : list bytes :=
  let data := waiting (tr_layer t) (tr_socket t) in
  if is_nil data then [] else [data].

Lemma transport_rx_result_eq t r E data x s :
  r = (data, x, s) -> exists H, transport_rx_result t r E = (view_bytes s data, mkTransport x s H).
Proof. intros ->. cbn. by eexists. Qed.

Lemma transport_start_rx_spec t :
  exists t', transport_start_rx t = (waiting (tr_layer t) (tr_socket t), t') /\
    transport_chunks t' = [] /\
    get_is_tx_active (tr_socket t') = get_is_tx_active (tr_socket t).
Proof.
  destruct (AsioLowerLayer_start_rx_from_upper (tr_layer t) (tr_socket t)) as [[data x] s] eqn:E.
  destruct (transport_rx_result_eq t _ eq_refl _ _ _ E) as (H&Ht).
  destruct (start_rx_from_upper_spec _ _ _ _ _ (tr_ok t) E) as (_&Hd&Hw&_&Htx).
  eexists. unfold transport_start_rx. rewrite Ht, Hd. split; [done|]. unfold transport_chunks. cbn. by rewrite Hw.
Qed.

#[export, refine] Instance transport_lower : LowerLayer (Transport Sk) := {|
  lower_is_tx_ready t := AsioLowerLayer_is_tx_ready (tr_socket t);
  lower_start_tx := transport_start_tx;
  lower_start_rx := transport_start_rx;
  lower_chunks := transport_chunks;
|}.
Proof.
  - intros t. unfold transport_chunks. destruct (is_nil _) eqn:E; [constructor|]. apply is_nil_false in E.
    constructor; [split; [done|]|constructor]. unfold waiting, view_bytes.
    destruct (lower_upper_is_processing _); [constructor|]. apply Forall_ztake, (lo_bytes _ _ (tr_ok t)).
  - intros t Hc. destruct (transport_start_rx_spec t) as (t'&->&Hc'&_). exists t'.
    unfold transport_chunks in Hc. destruct (is_nil _) eqn:E; [|done]. by apply is_nil_true in E as ->.
  - intros t c cs Hc. destruct (transport_start_rx_spec t) as (t'&->&Hc'&_). exists t'.
    unfold transport_chunks in Hc. destruct (is_nil _); [done|]. by injection Hc as -> <-.
Defined.

#[export] Instance transport_laws : LowerLayerLaws (Transport Sk).
Proof.
  split.
  - intros t. change (lower_start_rx t) with (transport_start_rx t).
    destruct (transport_start_rx_spec t) as (t'&->&_&Htx). cbn.
    unfold AsioLowerLayer_is_tx_ready. by rewrite Htx.
  - intros t data. cbn. unfold transport_chunks, waiting, view_bytes. cbn.
    destruct (start_tx_ok (tr_socket t) data (lo_socket _ _ (tr_ok t))) as (_&_&Hb).
    unfold AsioLowerLayer_start_tx_from_upper. by rewrite Hb.
Qed.
End Transport.

(** ** What the stack receives

    Every interleaving of the event loop, the stack and asio's use of the buffer. *)

Inductive transport_label :=
| Received (data : bytes)
| Delivered (data : bytes)
| Silent.

Section Runs.
Context {Sk : Type} `{SW : !IAsioSocketWrapper Sk}.
Implicit Types (x : AsioLowerLayer) (s : Sk).

Inductive transport_step : AsioLowerLayer * Sk -> transport_label -> AsioLowerLayer * Sk -> Prop :=
(* asio writes to the buffer of a read *)
| step_buffer x s buffer :
    (0 < reads (asio_socket s))%nat -> zlen buffer = zlen (rx_buffer s) -> all_bytes buffer ->
    transport_step (x, s) Silent (x, set_rx_buffer s buffer)
| step_rx x s buffer n data s' :
    (0 < reads (asio_socket s))%nat -> zlen buffer = zlen (rx_buffer s) -> all_bytes buffer -> 0 <= n ->
    complete_rx s buffer (Some n) = (Some (on_rx_complete data), s') ->
    transport_step (x, s) (Received (view_bytes s' data)) (AsioLowerLayer_store_rx x data, s')
| step_rx_error x s buffer :
    (0 < reads (asio_socket s))%nat -> zlen buffer = zlen (rx_buffer s) -> all_bytes buffer ->
    transport_step (x, s) Silent (x, (complete_rx s buffer None).2)
| step_tx x s ok :
    writes (asio_socket s) <> [] -> transport_step (x, s) Silent (x, (complete_tx s ok).2)
| step_start_rx x s data x' s' :
    AsioLowerLayer_start_rx_from_upper x s = (data, x', s') ->
    transport_step (x, s) (Delivered (view_bytes s' data)) (x', s')
| step_start_tx x s data :
    transport_step (x, s) Silent (x, (AsioLowerLayer_start_tx_from_upper s data).2)
| step_close x s : transport_step (x, s) Silent (x, (try_close_socket s).2).

Inductive transport_run (start : AsioLowerLayer * Sk) : list transport_label -> AsioLowerLayer * Sk -> Prop :=
| run_start : transport_run start [] start
| run_step labels a label b :
    transport_run start labels a -> transport_step a label b -> transport_run start (labels ++ [label]) b.

Definition received (l : transport_label) : bytes := match l with Received data => data | _ => [] end.
Definition delivered_data (l : transport_label) : bytes := match l with Delivered data => data | _ => [] end.

Context `{LAWS : !SocketLaws Sk}.

Lemma reading_active s : socket_ok s -> (0 < reads (asio_socket s))%nat -> get_is_rx_active s = true.
Proof. intros [H _]. rewrite H. destruct (get_is_rx_active s); cbn; [done|lia]. Qed.

Lemma writing_active s : socket_ok s -> writes (asio_socket s) <> [] -> get_is_tx_active s = true.
Proof. intros [_ H] Hw. destruct (get_is_tx_active s); [done|]. by apply nil_length_inv in H. Qed.

(** A change of the socket that the layer does not see. *)
Lemma same_buffer_ok x s s' :
  lower_ok x s -> socket_ok s' -> rx_buffer s' = rx_buffer s ->
  (get_is_rx_active s' = true -> get_is_rx_active s = true) ->
  lower_ok x s' /\ waiting x s' = waiting x s.
Proof.
  intros [Hs Hb Hv Hr Hp] Hs' Hb' Hr'. split; [split; rewrite ?Hb'; auto|].
  unfold waiting, view_bytes. by rewrite Hb'.
Qed.

(** While a read is outstanding nothing waits, whatever the buffer holds. *)
Lemma reading_ok x s s' :
  lower_ok x s -> (0 < reads (asio_socket s))%nat -> socket_ok s' ->
  zlen (rx_buffer s') = zlen (rx_buffer s) -> all_bytes (rx_buffer s') ->
  lower_ok x s' /\ waiting x s' = waiting x s.
Proof.
  intros [Hs Hb Hv Hr Hp] Hread Hs' Hlen Hb'. destruct (Hr (reading_active _ Hs Hread)) as [Hu Hpr].
  split; [split; rewrite ?Hlen; auto|]. unfold waiting, view_bytes. by rewrite Hpr, Hu, !ztake_0.
Qed.

Lemma transport_step_ok x s label x' s' :
  transport_step (x, s) label (x', s') -> lower_ok x s ->
  lower_ok x' s' /\ delivered_data label ++ waiting x' s' = waiting x s ++ received label.
Proof.
  intros H Hok. pose proof Hok as [Hs Hb Hv Hr Hp].
  inversion H as [? ? buffer Hread Hlen Hbuf|? ? buffer n data ? Hread Hlen Hbuf Hn Hc|? ? buffer Hread Hlen Hbuf
    |? ? ok Hw|? ? data ? ? Hrx|? ? data|? ?]; subst; cbn [delivered_data received app].
  - destruct (set_buffer_keeps s buffer) as (Hb1&Ha&Hrx&Htx). rewrite app_nil_r.
    apply reading_ok; rewrite ?Hb1; try done. unfold socket_ok. by rewrite Ha, Hrx, Htx.
  - destruct (complete_rx_ok s buffer (Some n) Hs (reading_active _ Hs Hread)) as (Hs'&Hrx&_&Hb'&Hd&_).
    specialize (Hd n eq_refl). rewrite Hc in Hs', Hrx, Hb', Hd. cbn in *. injection Hd as ->.
    destruct (Hr (reading_active _ Hs Hread)) as [Hu Hpr]. unfold waiting, view_bytes, AsioLowerLayer_store_rx. cbn.
    rewrite Hpr, Hu, ztake_0. split; [|done]. split; cbn; rewrite ?Hb', ?Hrx; try done.
    pose proof (zlen_nonneg buffer). lia.
  - destruct (complete_rx_ok s buffer None Hs (reading_active _ Hs Hread)) as (Hs'&_&_&Hb'&_).
    rewrite app_nil_r. apply reading_ok; by rewrite ?Hb'.
  - destruct (complete_tx_ok s ok Hs (writing_active _ Hs Hw)) as (Hs'&Hrx&_&Hb'&_).
    rewrite app_nil_r. apply same_buffer_ok; try done. by rewrite Hrx.
  - destruct (start_rx_from_upper_spec _ _ _ _ _ Hok Hrx) as (Hok'&Hd&Hw&_). by rewrite Hd, Hw.
  - destruct (start_tx_ok s data Hs) as (Hs'&Hrx&Hb'). rewrite app_nil_r.
    apply same_buffer_ok; try done. unfold AsioLowerLayer_start_tx_from_upper. by rewrite Hrx.
  - destruct (close_keeps s) as (Hrx&Htx&Ha&Hw&_&Hb'). rewrite app_nil_r.
    apply same_buffer_ok; try done; [|by rewrite Hrx]. unfold socket_ok. by rewrite Ha, Hw, Hrx, Htx.
Qed.

(** C20: The lower layer of the proxy gives the stack exactly the bytes its socket
    received, in their order, whatever the order of completions, calls of the stack
    and writes of asio to the receive buffer: what was returned and what waits is
    what arrived; and a sequence the stack uses or that waits for it is not
    overwritten, because no read is outstanding then. *)
Theorem transport_delivers (s : Sk) labels x' s' :
  socket_ok s -> all_bytes (rx_buffer s) ->
  transport_run (AsioLowerLayer_new, s) labels (x', s') ->
  concat (map delivered_data labels) ++ waiting x' s' = concat (map received labels) /\
  (0 < unread_data x' -> reads (asio_socket s') = 0%nat).
Proof.
  intros Hs Hb Hrun. remember (x', s') as b eqn:Eb.
  assert (lower_ok b.1 b.2 /\ concat (map delivered_data labels) ++ waiting b.1 b.2 = concat (map received labels)) as [Hok H].
  { clear Eb. induction Hrun as [|labels [x1 s1] label [x2 s2] _ [IHok IH] Hstep].
    - split; [|done]. split; cbn; try done. pose proof (zlen_nonneg (rx_buffer s)). lia.
    - apply transport_step_ok in Hstep as [Hok E]; [|done]. split; [done|]. cbn in *.
      rewrite !map_app, !concat_app. cbn. by rewrite !app_nil_r, <- app_assoc, E, app_assoc, IH. }
  subst b. split; [done|]. intros Hu. destruct Hok as [[Hr _] _ _ Hread _]. cbn in *. rewrite Hr.
  destruct (get_is_rx_active s'); [|done]. destruct (Hread eq_refl). lia.
Qed.
End Runs.

(** Two reads, with the second one started while the stack reads the first. *)
Definition two_reads : list transport_label := [Delivered []; Received [1; 2]; Delivered [1; 2]; Delivered []; Received [3]].

Lemma transport_delivers_witness :
  exists x s, transport_run (AsioLowerLayer_new, AsioTcpSocketWrapper_new new_socket [0; 0]) two_reads (x, s) /\
    concat (map delivered_data two_reads) ++ waiting x s = concat (map received two_reads).
Proof.
  pose proof (run_start (AsioLowerLayer_new, AsioTcpSocketWrapper_new new_socket [0; 0])) as R.
  eapply run_step in R; [|by eapply (step_start_rx _ _ 0)]. cbn in R.
  eapply run_step in R; [|eapply (step_rx _ _ [1; 2] 2 2); [cbn; lia|done|by repeat constructor|done|reflexivity]]. cbn in R.
  eapply run_step in R; [|by eapply (step_start_rx _ _ 2)]. cbn in R.
  eapply run_step in R; [|by eapply (step_start_rx _ _ 0)]. cbn in R.
  eapply run_step in R; [|eapply (step_rx _ _ [3; 2] 1 1); [cbn; lia|done|by repeat constructor|done|reflexivity]]. cbn in R.
  eexists _, _. split; [exact R|].
  refine (proj1 (transport_delivers _ _ _ _ _ _ R)); [done|by repeat constructor].
Defined.
