(* ===== verification/ProxySession.v ===== *)
(** * The sessions of the proxy

    [exe/proxy/src]: [AsioUpperLayer.h], [Session.h], [tcp/TcpProxySession.h],
    [tcp/TcpProxySession.cpp], [udp/UdpProxySession.h] and [udp/UdpProxySession.cpp],
    over the sockets and the lower layer of [Sockets].

    A session object owns two sockets, the layers on them and a stack.  It is kept
    alive by shared pointers: the entry of the proxy, the closures posted to the
    executor and local variables.  An access to an object that none of them holds,
    and the use of an invalid iterator, is [Crash].

    A stack is a program over the interfaces it is given ([stack_prog]): it reads and
    writes its own state, calls the lower layer and notifies the upper layer; the
    notification may call back into the stack, close the session and destroy the
    stack.  Notifications are nested at most [fuel] deep. *)

From stdpp Require Import base numbers list.
From Stdlib Require Import Lia ZArith.
From S2P Require Import Prelude StdMap LinkLayer CryptoLayer Sockets.

(** ** Stacks *)

Inductive stack_prog (K A : Type) :=
| SReturn (a : A)
| SGet (k : K -> stack_prog K A)
| SPut (s : K) (k : stack_prog K A)
(* ILowerLayer *)
| SIsTxReady (k : bool -> stack_prog K A)
| SStartTx (data : bytes) (k : bool -> stack_prog K A)
| SStartRx (k : bytes -> stack_prog K A)
(* IUpperLayer *)
| SNotify (call : upper_call) (k : bool -> stack_prog K A).
Arguments SReturn {K A} _.
Arguments SGet {K A} _.
Arguments SPut {K A} _ _.
Arguments SIsTxReady {K A} _.
Arguments SStartTx {K A} _ _.
Arguments SStartRx {K A} _.
Arguments SNotify {K A} _ _.

(** [IStack]: an upper layer to the transport, a lower layer to the application, and
    the timers it started. *)
Class StackObject (K : Type) := {
  stack_notified : upper_call -> stack_prog K bool;
  stack_start_tx : bytes -> stack_prog K bool;
  stack_start_rx : stack_prog K bytes;
  stack_timer : nat -> stack_prog K unit;
}.

(** ** State *)

(** [Session] with the layers it owns. *)
Record SessionObject (Sk K : Type) := mkSessionObject {
  so_id : Z;
  lower_socket : Sk;
  lower_layer : AsioLowerLayer;
  upper_socket : Sk;
  (* IUpperLayer::is_open_flag of the upper layer *)
  upper_is_open : bool;
  stack : K;
}.
Arguments mkSessionObject {Sk K} _ _ _ _ _ _.
Arguments so_id {Sk K} _.
Arguments lower_socket {Sk K} _.
Arguments lower_layer {Sk K} _.
Arguments upper_socket {Sk K} _.
Arguments upper_is_open {Sk K} _.
Arguments stack {Sk K} _.

(** A proxy: all objects it created, the closures of the executor, the local shared
    pointers of the running functions, and the members [M]. *)
Record Proxy (Sk K M : Type) := mkProxy {
  objects : list (SessionObject Sk K);
  posted : list nat;
  locals : list nat;
  owner : M;
}.
Arguments mkProxy {Sk K M} _ _ _ _.
Arguments objects {Sk K M} _.
Arguments posted {Sk K M} _.
Arguments locals {Sk K M} _.
Arguments owner {Sk K M} _.

(** The shared pointers among the members. *)
Class Owner (M : Type) := holds : M -> list nat.

Section Objects.
Context {Sk K M : Type} `{SW : !IAsioSocketWrapper Sk} `{HO : !Owner M}.
Local Abbreviation proxy := (Proxy Sk K M).
Local Abbreviation action := (act proxy).
Implicit Types (o : SessionObject Sk K) (n : nat).

Definition so_set_lower o (x : AsioLowerLayer) (s : Sk) : SessionObject Sk K :=
  mkSessionObject (so_id o) s x (upper_socket o) (upper_is_open o) (stack o).
Definition so_set_upper o (s : Sk) : SessionObject Sk K :=
  mkSessionObject (so_id o) (lower_socket o) (lower_layer o) s (upper_is_open o) (stack o).
Definition so_set_open o (b : bool) : SessionObject Sk K :=
  mkSessionObject (so_id o) (lower_socket o) (lower_layer o) (upper_socket o) b (stack o).
Definition so_set_stack o (k : K) : SessionObject Sk K :=
  mkSessionObject (so_id o) (lower_socket o) (lower_layer o) (upper_socket o) (upper_is_open o) k.

Definition so_active o : bool := is_active (lower_socket o) || is_active (upper_socket o).

Definition holders (p : proxy) : list nat := locals p ++ posted p ++ holds (owner p).
Definition alive (p : proxy) n : bool := bool_decide (n ∈ holders p).

(** An access to a member of a session. *)
Definition object n : action (SessionObject Sk K) := fun p =>
  if alive p n then
    match objects p !! n with
    | Some o => Some (Done (o, p))
    | None => Some Crash
    end
  else Some Crash.

Definition update n (f : SessionObject Sk K -> SessionObject Sk K) : action unit :=
  _ <-- object n;
  amodify (fun p => mkProxy (alter f n (objects p)) (posted p) (locals p) (owner p)).

(** The destructor closes the sockets. *)
Definition destroyed o : SessionObject Sk K :=
  mkSessionObject (so_id o) (set_asio_socket (lower_socket o) (close (asio_socket (lower_socket o)))) (lower_layer o)
    (set_asio_socket (upper_socket o) (close (asio_socket (upper_socket o)))) (upper_is_open o) (stack o).

(** After a shared pointer to the object is gone. *)
Definition collect n : action unit :=
  amodify (fun p =>
    if alive p n then p else mkProxy (alter destroyed n (objects p)) (posted p) (locals p) (owner p)).

(** A local shared pointer while [m] runs. *)
Definition with_local {A} n (m : action A) : action A :=
  amodify (fun p => mkProxy (objects p) (posted p) (n :: locals p) (owner p));;;
  a <-- m;
  amodify (fun p => mkProxy (objects p) (posted p) (tail (locals p)) (owner p));;;
  collect n;;;
  aret a.

Definition set_owner (f : M -> M) : action unit :=
  amodify (fun p => mkProxy (objects p) (posted p) (locals p) (f (owner p))).

(** [executor->post] of a closure that holds the session. *)
Definition post n : action unit :=
  amodify (fun p => mkProxy (objects p) (posted p ++ [n]) (locals p) (owner p)).

(** [std::make_shared<Session>]: the number of the new object. *)
Definition allocate o : action nat := fun p =>
  Some (Done (length (objects p), mkProxy (objects p ++ [o]) (posted p) (locals p) (owner p))).

(** ** The layers *)

Section Layers.
Context `{ST : !StackObject K}.
(** The notification of the upper layer of a session, and the error handler of the
    proxy. *)
Context (notify : nat -> upper_call -> action bool) (error_handler : nat -> action unit).

(** The calls of the stack on [AsioLowerLayer]. *)
Definition lower_tx_ready n : action bool :=
  o <-- object n; aret (AsioLowerLayer_is_tx_ready (lower_socket o)).
Definition lower_tx n (data : bytes) : action bool :=
  o <-- object n;
  let '(r, s) := AsioLowerLayer_start_tx_from_upper (lower_socket o) data in
  update n (fun o => so_set_lower o (lower_layer o) s);;;
  aret r.
Definition lower_rx n : action bytes :=
  o <-- object n;
  let '(data, x, s) := AsioLowerLayer_start_rx_from_upper (lower_layer o) (lower_socket o) in
  update n (fun o => so_set_lower o x s);;;
  aret (view_bytes s data).

Fixpoint run_stack {A} n (prog : stack_prog K A) : action A :=
  match prog with
  | SReturn a => aret a
  | SGet k => o <-- object n; run_stack n (k (stack o))
  | SPut s k => update n (fun o => so_set_stack o s);;; run_stack n k
  | SIsTxReady k => r <-- lower_tx_ready n; run_stack n (k r)
  | SStartTx data k => r <-- lower_tx n data; run_stack n (k r)
  | SStartRx k => r <-- lower_rx n; run_stack n (k r)
  | SNotify call k => r <-- notify n call; run_stack n (k r)
  end.

(** [AsioLowerLayer::open] and [AsioLowerLayer::close] *)
Definition AsioLowerLayer_open n : action unit :=
  update n (fun o => so_set_lower o (lower_layer o) (start_rx_from_socket (lower_socket o)).2);;;
  run_stack n (stack_notified on_lower_open);;;
  aret tt.
Definition AsioLowerLayer_close n : action bool :=
  update n (fun o => so_set_lower o (lower_layer o) (try_close_socket (lower_socket o)).2);;;
  run_stack n (stack_notified on_lower_close).

(** What the lower socket tells [AsioLowerLayer]. *)
Definition AsioLowerLayer_call n (call : layer_call) : action unit :=
  match call with
  | on_rx_complete data =>
      update n (fun o => so_set_lower o (AsioLowerLayer_store_rx (lower_layer o) data) (lower_socket o));;;
      run_stack n (stack_notified on_lower_rx_ready);;; aret tt
  | on_tx_complete => run_stack n (stack_notified on_lower_tx_ready);;; aret tt
  | on_rx_or_tx_error => run_stack n (stack_notified on_lower_close);;; aret tt
  end.

Definition upper_start_rx n : action unit :=
  update n (fun o => so_set_upper o (start_rx_from_socket (upper_socket o)).2).

Definition try_read_from_crypto n : action unit :=
  data <-- run_stack n stack_start_rx;
  awhen (negb (is_nil data)) (update n (fun o => so_set_upper o (start_tx_to_socket (upper_socket o) data).2)).

(** The handlers of [AsioUpperLayer]. *)
Definition AsioUpperLayer_impl n (call : upper_call) : action unit :=
  match call with
  | on_lower_open => upper_start_rx n
  | on_lower_close =>
      update n (fun o => so_set_upper o (try_close_socket (upper_socket o)).2);;;
      error_handler n
  | on_lower_tx_ready => upper_start_rx n
  | on_lower_rx_ready =>
      o <-- object n;
      if negb (get_is_tx_active (upper_socket o)) then try_read_from_crypto n else aret tt
  end.

(** ... behind the inline functions of [IUpperLayer]. *)
Definition AsioUpperLayer_notified n (call : upper_call) : action bool :=
  o <-- object n;
  match call with
  | on_lower_open =>
      if upper_is_open o then aret false
      else update n (fun o => so_set_open o true);;; AsioUpperLayer_impl n call;;; aret true
  | on_lower_close =>
      if upper_is_open o
      then update n (fun o => so_set_open o false);;; AsioUpperLayer_impl n call;;; aret true
      else aret false
  | _ => if upper_is_open o then AsioUpperLayer_impl n call;;; aret true else aret false
  end.

(** What the upper socket tells [AsioUpperLayer]. *)
Definition AsioUpperLayer_call n (call : layer_call) : action unit :=
  match call with
  | on_rx_complete data =>
      o <-- object n;
      run_stack n (stack_start_tx (view_bytes (upper_socket o) data));;; aret tt
  | on_tx_complete => try_read_from_crypto n
  | on_rx_or_tx_error => error_handler n
  end.

(** ** [Session] *)

(** [bind] stores references; it calls nothing. *)
Definition Session_start n : action unit := AsioLowerLayer_open n.

Definition is_shutdown n : action bool := o <-- object n; aret (negb (so_active o)).

Definition check_for_close n : action unit :=
  b <-- is_shutdown n;
  awhen (negb b) (post n).

Definition Session_shutdown n : action unit := AsioLowerLayer_close n;;; check_for_close n.

(** ** What the event loop runs for a session *)

Inductive side := Lower | Upper.

Definition side_socket (i : side) o : Sk := match i with Lower => lower_socket o | Upper => upper_socket o end.
Definition so_set_side (i : side) o (s : Sk) : SessionObject Sk K :=
  match i with Lower => so_set_lower o (lower_layer o) s | Upper => so_set_upper o s end.
Definition side_call (i : side) n (call : option layer_call) : action unit :=
  match call with
  | None => aret tt
  | Some call => match i with Lower => AsioLowerLayer_call n call | Upper => AsioUpperLayer_call n call end
  end.

(** The handler of a read or write that completes. *)
Definition rx_completes (i : side) n (buffer : bytes) (ec : option Z) : action unit :=
  o <-- object n;
  let '(call, s) := complete_rx (side_socket i o) buffer ec in
  update n (fun o => so_set_side i o s);;;
  side_call i n call.
Definition tx_completes (i : side) n (ok : bool) : action unit :=
  o <-- object n;
  let '(call, s) := complete_tx (side_socket i o) ok in
  update n (fun o => so_set_side i o s);;;
  side_call i n call.

(** The first closure of the executor; it holds the session while it runs. *)
Definition run_posted : action unit :=
  p <-- aget id;
  match posted p with
  | [] => aret tt
  | n :: rest =>
      with_local n
        (amodify (fun p => mkProxy (objects p) rest (locals p) (owner p));;;
         check_for_close n)
  end.

Definition timer_fires n (t : nat) : action unit := run_stack n (stack_timer t).
End Layers.

(** The notification of an upper layer, at most [fuel] deep, when the error handler
    itself closes sessions. *)
Fixpoint notify_session `{ST : !StackObject K} (handler : (nat -> upper_call -> action bool) -> nat -> action unit)
    (fuel : nat) n (call : upper_call) : action bool :=
  match fuel with
  | O => out_of_fuel
  | S fuel => AsioUpperLayer_notified (notify_session handler fuel) (handler (notify_session handler fuel)) n call
  end.
End Objects.

(** ** TCP *)

Record TcpOwner := mkTcpOwner {
  tcp_sessions : list (Z * nat);
  tcp_session_id : Z;
  (* connections that are being opened for an accepted one *)
  tcp_connecting : nat;
  tcp_accepting : bool;
}.

#[export] Instance tcp_owner : Owner TcpOwner := fun x => map snd (tcp_sessions x).

Section Tcp.
Context {K : Type} `{ST : !StackObject K}.
Local Abbreviation proxy := (Proxy AsioTcpSocketWrapper K TcpOwner).
Local Abbreviation action := (act proxy).
(** [max_sessions] of the configuration, the stacks of the factory, and the memory of
    the receive buffers. *)
Context (config_max_sessions : Z) (create_stack : Z -> outcome K) (memory : bytes).

(** [config.max_sessions == 0 ? 1 : config.max_sessions] *)
Definition tcp_max_sessions : Z := if config_max_sessions =? 0 then 1 else config_max_sessions.

Definition TcpProxySession_new : proxy := mkProxy [] [] [] (mkTcpOwner [] 0 0 false).

Definition set_sessions (m : list (Z * nat)) : action unit :=
  set_owner (fun x => mkTcpOwner m (tcp_session_id x) (tcp_connecting x) (tcp_accepting x)).

Definition accept_next : action unit :=
  set_owner (fun x => mkTcpOwner (tcp_sessions x) (tcp_session_id x) (tcp_connecting x) true).
Definition TcpProxySession_start : action unit := accept_next.

(** A proxy that listens. *)
Definition tcp_started : proxy :=
  match TcpProxySession_start TcpProxySession_new with Some (Done (_, p)) => p | _ => TcpProxySession_new end.

Definition on_session_error (notify : nat -> upper_call -> action bool) (session_id : Z) : action unit :=
  p <-- aget id;
  match map_find (tcp_sessions (owner p)) session_id with
  | None => aret tt
  | Some session =>
      with_local session
        (set_sessions (map_erase (tcp_sessions (owner p)) session_id);;;
         collect session;;;
         Session_shutdown notify session)
  end.

(** The error handler of a session carries the identifier it was created with. *)
Definition tcp_error_handler (notify : nat -> upper_call -> action bool) (n : nat) : action unit := fun p =>
  match objects p !! n with
  | Some o => on_session_error notify (so_id o) p
  | None => Some Crash
  end.

(** [sessions.erase(iter)] of the iterator of this key. *)
Definition erase_iterator (key : Z) : action unit :=
  p <-- aget id;
  match map_find (tcp_sessions (owner p)) key with
  | None => fun _ => Some Crash
  | Some session => set_sessions (map_erase (tcp_sessions (owner p)) key);;; collect session
  end.

Definition kick_oldest (notify : nat -> upper_call -> action bool) : action unit :=
  p <-- aget id;
  match map_begin (tcp_sessions (owner p)) with
  | None => fun _ => Some Crash
  | Some (key, session) => Session_shutdown notify session;;; erase_iterator key
  end.

(** [this->session_id++] *)
Definition next_session_id : action Z :=
  p <-- aget id;
  set_owner (fun x => mkTcpOwner (tcp_sessions x) ((tcp_session_id x + 1) mod 2 ^ 64) (tcp_connecting x)
                        (tcp_accepting x));;;
  aret (tcp_session_id (owner p)).

Definition connect_ended : action unit :=
  set_owner (fun x => mkTcpOwner (tcp_sessions x) (tcp_session_id x) (pred (tcp_connecting x)) (tcp_accepting x)).

(** The handler of [async_connect]. *)
Definition connect_callback (notify : nat -> upper_call -> action bool) (ok : bool) : action unit :=
  connect_ended;;;
  if negb ok then aret tt
  else
    p <-- aget id;
    awhen (map_size (tcp_sessions (owner p)) =? tcp_max_sessions) (kick_oldest notify);;;
    id <-- next_session_id;
    stack <-- alift (fun _ => create_stack id);
    n <-- allocate (mkSessionObject id (AsioTcpSocketWrapper_new new_socket memory) AsioLowerLayer_new
                      (AsioTcpSocketWrapper_new new_socket memory) false stack);
    with_local n
      (set_owner (fun x => mkTcpOwner (map_put (tcp_sessions x) id n) (tcp_session_id x) (tcp_connecting x)
                             (tcp_accepting x));;;
       Session_start notify n).

Definition start_connect : action unit :=
  set_owner (fun x => mkTcpOwner (tcp_sessions x) (tcp_session_id x) (S (tcp_connecting x)) (tcp_accepting x)).

(** The handler of [async_accept]; after an error nothing is accepted any more. *)
Definition accept_callback (ok : bool) : action unit :=
  set_owner (fun x => mkTcpOwner (tcp_sessions x) (tcp_session_id x) (tcp_connecting x) false);;;
  if negb ok then aret tt else start_connect;;; accept_next.

Inductive tcp_event :=
| EvAccepted (ok : bool)
| EvConnected (ok : bool)
| EvPosted
| EvTimer (n t : nat)
| EvRx (i : side) (n : nat) (buffer : bytes) (ec : option Z)
| EvTx (i : side) (n : nat) (ok : bool).

Definition tcp_step (fuel : nat) (e : tcp_event) : action unit :=
  let notify := notify_session tcp_error_handler fuel in
  let handler := tcp_error_handler notify in
  match e with
  | EvAccepted ok => accept_callback ok
  | EvConnected ok => connect_callback notify ok
  | EvPosted => run_posted
  | EvTimer n t => timer_fires notify n t
  | EvRx i n buffer ec => rx_completes notify handler i n buffer ec
  | EvTx i n ok => tx_completes notify handler i n ok
  end.
End Tcp.

(** ** UDP *)

Record UdpOwner := mkUdpOwner { udp_session : option nat }.

#[export] Instance udp_owner : Owner UdpOwner := fun x => option_list (udp_session x).

Section Udp.
Context {K : Type} `{ST : !StackObject K}.
Local Abbreviation proxy := (Proxy AsioUdpSocketWrapper K UdpOwner).
Local Abbreviation action := (act proxy).
(** The endpoints the sockets are bound to and what the system says of another socket
    on an endpoint, given those in use; the stacks of the factory, and the memory of
    the receive buffers. *)
Context {endpoint : Type} (secure_rx raw_rx : endpoint) (can_bind : list endpoint -> endpoint -> bool).
Context (create_stack : outcome K) (memory : bytes).

Definition UdpProxySession_new : proxy := mkProxy [] [] [] (mkUdpOwner None).

(** The endpoints of the sockets that are open. *)
Definition endpoints_of (o : SessionObject AsioUdpSocketWrapper K) : list endpoint :=
  (if is_open (udp_socket (lower_socket o)) then [secure_rx] else []) ++
  (if is_open (udp_socket (upper_socket o)) then [raw_rx] else []).
Definition bound (p : proxy) : list endpoint := concat (map endpoints_of (objects p)).

(** [socket_t(service, endpoint)] throws when the endpoint cannot be bound. *)
Definition bind_socket (used : list endpoint) (e : endpoint) : outcome AsioUdpSocketWrapper :=
  if can_bind used e then Done (AsioUdpSocketWrapper_new new_socket memory) else Throw.

Definition start_session (notify : nat -> upper_call -> action bool) : action unit :=
  p <-- aget id;
  lower <-- alift (fun _ => bind_socket (bound p) secure_rx);
  upper <-- alift (fun _ => bind_socket (bound p ++ [secure_rx]) raw_rx);
  stack <-- alift (fun _ => create_stack);
  n <-- allocate (mkSessionObject 0 lower AsioLowerLayer_new upper false stack);
  set_owner (fun _ => mkUdpOwner (Some n));;;
  match udp_session (owner p) with None => aret tt | Some old => collect old end;;;
  Session_start notify n.

Definition UdpProxySession_start (notify : nat -> upper_call -> action bool) : action unit := start_session notify.

Definition udp_on_session_error (notify : nat -> upper_call -> action bool) (n : nat) : action unit :=
  p <-- aget id;
  match udp_session (owner p) with
  | None => fun _ => Some Crash
  | Some session => Session_shutdown notify session;;; start_session notify
  end.

Inductive udp_event :=
| EvUdpStart
| EvUdpPosted
| EvUdpTimer (n t : nat)
| EvUdpRx (i : side) (n : nat) (buffer : bytes) (ec : option Z)
| EvUdpTx (i : side) (n : nat) (ok : bool).

Definition udp_step (fuel : nat) (e : udp_event) : action unit :=
  let notify := notify_session udp_on_session_error fuel in
  let handler := udp_on_session_error notify in
  match e with
  | EvUdpStart => UdpProxySession_start notify
  | EvUdpPosted => run_posted
  | EvUdpTimer n t => timer_fires notify n t
  | EvUdpRx i n buffer ec => rx_completes notify handler i n buffer ec
  | EvUdpTx i n ok => tx_completes notify handler i n ok
  end.
End Udp.

(** ** The events of the loop

    asio completes operations that are outstanding, with the receive buffer at its
    size; timers fire for stacks that exist; nothing else runs meanwhile. *)

Section Enabled.
Context {Sk K M : Type} `{SW : !IAsioSocketWrapper Sk} `{HO : !Owner M}.

Definition rx_enabled (p : Proxy Sk K M) (i : side) (n : nat) (buffer : bytes) (ec : option Z) : Prop :=
  exists o, objects p !! n = Some o /\ (0 < reads (asio_socket (side_socket i o)))%nat /\
    zlen buffer = zlen (rx_buffer (side_socket i o)) /\ all_bytes buffer /\
    forall k, ec = Some k -> 0 <= k.
Definition tx_enabled (p : Proxy Sk K M) (i : side) (n : nat) : Prop :=
  exists o, objects p !! n = Some o /\ writes (asio_socket (side_socket i o)) <> [].
End Enabled.

Definition tcp_enabled {K} (p : Proxy AsioTcpSocketWrapper K TcpOwner) (e : tcp_event) : Prop :=
  match e with
  | EvAccepted _ => tcp_accepting (owner p) = true
  (* fewer sessions than identifiers *)
  | EvConnected _ => (0 < tcp_connecting (owner p))%nat /\ Z.of_nat (length (objects p)) < 2 ^ 64
  | EvPosted => posted p <> []
  | EvTimer n _ => alive p n = true
  | EvRx i n buffer ec => rx_enabled p i n buffer ec
  | EvTx i n _ => tx_enabled p i n
  end.

Definition udp_enabled {K} (p : Proxy AsioUdpSocketWrapper K UdpOwner) (e : udp_event) : Prop :=
  match e with
  | EvUdpStart => udp_session (owner p) = None
  | EvUdpPosted => posted p <> []
  | EvUdpTimer n _ => alive p n = true
  | EvUdpRx i n buffer ec => rx_enabled p i n buffer ec
  | EvUdpTx i n _ => tx_enabled p i n
  end.

(** The proxies the event loop reaches. *)
Inductive proxy_reachable {P E : Type} (initial : P) (enabled : P -> E -> Prop) (step : nat -> E -> act P unit)
    : P -> Prop :=
| preach_initial : proxy_reachable initial enabled step initial
| preach_step p fuel e p' :
    proxy_reachable initial enabled step p -> enabled p e -> step fuel e p = Some (Done (tt, p')) ->
    proxy_reachable initial enabled step p'.
