(* ===== verification/ProxyFacts.v ===== *)
(** * What holds of the proxy's sessions

    The invariant of all objects ([proxy_inv]) with a small logic for it ([triple]),
    the layers and sessions in that logic for any stack, then the two kinds of proxy. *)

From stdpp Require Import base numbers list sets.
From Stdlib Require Import Lia ZArith.
From S2P Require Import Prelude StdMap LinkLayer CryptoLayer LayerLogic Stack Sockets ProxySession.

(** ** The invariant *)

Section Invariant.
Context {Sk K M : Type} `{SW : !IAsioSocketWrapper Sk} `{LAWS : !SocketLaws Sk} `{HO : !Owner M}.
Local Abbreviation proxy := (Proxy Sk K M).
Local Abbreviation action := (act proxy).
Implicit Types (o : SessionObject Sk K) (n : nat) (p : proxy).

Record object_ok o : Prop := {
  ok_lower : lower_ok (lower_layer o) (lower_socket o);
  ok_upper : socket_ok (upper_socket o);
}.

(** Operations are outstanding. *)
Definition active p n : Prop := exists o, objects p !! n = Some o /\ so_active o = true.

(** Every object that has an operation outstanding is held by a shared pointer. *)
Record proxy_inv p : Prop := {
  inv_objects : Forall object_ok (objects p);
  inv_owned n : active p n -> n ∈ holders p;
}.

(** The check for the end of its operations runs. *)
Definition settled n p : Prop := active p n -> n ∈ posted p.

(** What a change of the proxy respects besides the invariant, and which changes of
    an object always do. *)
Context (R : proxy -> proxy -> Prop) `{RP : !PreOrder R} (benign : SessionObject Sk K -> SessionObject Sk K -> Prop).

Definition triple {A} (P : proxy -> Prop) (m : action A) (Q : A -> proxy -> Prop) : Prop :=
  forall p a p', proxy_inv p -> P p -> m p = Some (Done (a, p')) ->
    proxy_inv p' /\ locals p' = locals p /\ R p p' /\ Q a p'.

Definition preserves {A} (m : action A) : Prop := triple (fun _ => True) m (fun _ _ => True).

Lemma triple_bind {A B} P (m : action A) (k : A -> action B) (S : A -> proxy -> Prop) (Q : B -> proxy -> Prop) :
  triple P m S -> (forall a, triple (S a) (k a) Q) -> triple P (abind m k) Q.
Proof.
  intros Hm Hk p b p' Hi HP (a&p1&H1&H2)%abind_inv.
  destruct (Hm _ _ _ Hi HP H1) as (Hi1&Hl1&HR1&HS). destruct (Hk _ _ _ _ Hi1 HS H2) as (Hi2&Hl2&HR2&HQ).
  split; [done|]. split; [congruence|]. split; [by etransitivity|done].
Qed.

Lemma triple_conseq {A} (P P' : proxy -> Prop) (m : action A) (Q Q' : A -> proxy -> Prop) :
  triple P' m Q' -> (forall p, P p -> P' p) -> (forall a p, Q' a p -> Q a p) -> triple P m Q.
Proof. intros H HP HQ p a p' Hi Hp E. destruct (H _ _ _ Hi (HP _ Hp) E) as (?&?&?&?). auto. Qed.

Lemma preserves_bind {A B} (m : action A) (k : A -> action B) :
  preserves m -> (forall a, preserves (k a)) -> preserves (abind m k).
Proof. intros Hm Hk. by eapply triple_bind. Qed.

Lemma preserves_ret {A} (a : A) : preserves (aret a).
Proof. by intros p b p' Hi _ [= <- <-]. Qed.
Lemma preserves_get {A} (f : proxy -> A) : preserves (aget f).
Proof. by intros p b p' Hi _ [= <- <-]. Qed.
Lemma preserves_lift {A} (f : proxy -> outcome A) : preserves (alift f).
Proof. intros p b p' Hi _ H. unfold alift in H. destruct (f p); try done. by injection H as <- <-. Qed.
Lemma preserves_fuel {A} : preserves (out_of_fuel (A := A)).
Proof. by intros p b p' Hi _ H. Qed.
Lemma preserves_when b (m : action unit) : preserves m -> preserves (awhen b m).
Proof. intros H. destruct b; [done|apply preserves_ret]. Qed.

Lemma object_done n p o p' :
  object n p = Some (Done (o, p')) -> p' = p /\ objects p !! n = Some o /\ n ∈ holders p.
Proof.
  unfold object, alive. destruct (bool_decide _) eqn:E; [|done]. apply bool_decide_eq_true in E.
  destruct (objects p !! n) as [o'|]; [|done]. by intros [= <- <-].
Qed.

Lemma preserves_object n : preserves (object n).
Proof. intros p o p' Hi _ (->&_)%object_done. done. Qed.

(** A proxy with one object changed. *)
Definition changed p n (f : SessionObject Sk K -> SessionObject Sk K) : proxy :=
  mkProxy (alter f n (objects p)) (posted p) (locals p) (owner p).

Context (R_update : forall p n f o, objects p !! n = Some o -> benign o (f o) -> R p (changed p n f)).

Lemma update_done n f p u p' :
  update n f p = Some (Done (u, p')) ->
  exists o, objects p !! n = Some o /\ n ∈ holders p /\ p' = changed p n f.
Proof.
  unfold update. intros (o&p1&(->&Ho&Hn)%object_done&H)%abind_inv. injection H as _ <-. eauto.
Qed.

Lemma changed_inv p n f o :
  proxy_inv p -> objects p !! n = Some o -> n ∈ holders p -> object_ok (f o) -> proxy_inv (changed p n f).
Proof.
  intros [Hok Hown] Ho Hn Hf. split.
  - apply Forall_lookup. intros m o' Hm. cbn in Hm. destruct (decide (n = m)) as [->|Hne].
    + rewrite list_lookup_alter_eq, Ho in Hm. by injection Hm as <-.
    + rewrite list_lookup_alter_ne in Hm by done. by eapply Forall_lookup_1.
  - intros m (o'&Hm&Ha). change (m ∈ holders p). cbn in Hm. destruct (decide (n = m)) as [->|Hne]; [done|].
    rewrite list_lookup_alter_ne in Hm by done. apply Hown. by exists o'.
Qed.

Lemma preserves_update n f :
  (forall o, object_ok o -> object_ok (f o) /\ benign o (f o)) -> preserves (update n f).
Proof.
  intros Hf p u p' Hi _ (o&Ho&Hn&->)%update_done.
  pose proof (Forall_lookup_1 _ _ _ _ (inv_objects _ Hi) Ho) as Hok. destruct (Hf o Hok).
  split; [by eapply changed_inv|]. split; [done|]. split; [by eapply R_update|done].
Qed.

(** A change that was computed from the object. *)
Lemma preserves_read_update {A} n (f : SessionObject Sk K -> SessionObject Sk K -> SessionObject Sk K)
    (k : SessionObject Sk K -> action A) :
  (forall o, object_ok o -> object_ok (f o o) /\ benign o (f o o)) -> (forall o, preserves (k o)) ->
  preserves (o <-- object n; update n (f o);;; k o).
Proof.
  intros Hf Hk p a p' Hi _ (o&p1&(->&Ho&Hn)%object_done&H)%abind_inv.
  apply abind_inv in H as ([]&p2&(o2&Ho2&_&->)%update_done&H). rewrite Ho in Ho2. injection Ho2 as <-.
  pose proof (Forall_lookup_1 _ _ _ _ (inv_objects _ Hi) Ho) as Hok. destruct (Hf o Hok) as [Hok' Hb].
  destruct (Hk o _ _ _ (changed_inv _ _ _ _ Hi Ho Hn Hok') I H) as (Hi'&Hl&HR&_).
  split; [done|]. split; [by rewrite Hl|]. split; [|done]. etransitivity; [by eapply R_update|done].
Qed.

(** ** Objects *)

Lemma ok_lower_rx o :
  object_ok o ->
  let r := AsioLowerLayer_start_rx_from_upper (lower_layer o) (lower_socket o) in
  object_ok (so_set_lower o r.1.2 r.2).
Proof.
  intros [Hl Hu] r.
  destruct (AsioLowerLayer_start_rx_from_upper (lower_layer o) (lower_socket o)) as [[d x] s] eqn:E. subst r.
  split; [|done]. exact (proj1 (start_rx_from_upper_spec _ _ _ _ _ Hl E)).
Qed.

Lemma ok_lower_tx o data :
  object_ok o ->
  object_ok (so_set_lower o (lower_layer o) (AsioLowerLayer_start_tx_from_upper (lower_socket o) data).2).
Proof. intros [Hl Hu]. split; [|done]. exact (transport_tx_ok (mkTransport _ _ Hl) data). Qed.

Lemma ok_lower_close o :
  object_ok o -> object_ok (so_set_lower o (lower_layer o) (try_close_socket (lower_socket o)).2).
Proof.
  intros [Hl Hu]. split; [|done]. cbn. destruct (close_keeps (lower_socket o)) as (Hrx&Htx&Hr&Hw&_&Hb).
  refine (proj1 (same_buffer_ok _ (lower_socket o) _ Hl _ Hb _)); [|by rewrite Hrx].
  unfold socket_ok. rewrite Hr, Hw, Hrx, Htx. apply Hl.
Qed.

Lemma ok_upper_rx o : object_ok o -> object_ok (so_set_upper o (start_rx_from_socket (upper_socket o)).2).
Proof. intros [Hl Hu]. split; [done|]. by apply start_rx_ok. Qed.

Lemma ok_upper_tx o data : object_ok o -> object_ok (so_set_upper o (start_tx_to_socket (upper_socket o) data).2).
Proof. intros [Hl Hu]. split; [done|]. by apply start_tx_ok. Qed.

Lemma ok_upper_close o : object_ok o -> object_ok (so_set_upper o (try_close_socket (upper_socket o)).2).
Proof.
  intros [Hl Hu]. split; [done|]. cbn. destruct (close_keeps (upper_socket o)) as (Hrx&Htx&Hr&Hw&_).
  unfold socket_ok. by rewrite Hr, Hw, Hrx, Htx.
Qed.

Lemma active_changed p n f m :
  (forall o, so_active (f o) = so_active o) -> active (changed p n f) m <-> active p m.
Proof.
  intros Hf. unfold active. cbn. destruct (decide (n = m)) as [->|Hne].
  - rewrite list_lookup_alter_eq. split; intros (o&H&Ha).
    + destruct (objects p !! m) as [o'|]; [|done]. injection H as <-. exists o'. by rewrite <- Hf.
    + rewrite H. exists (f o). by rewrite Hf.
  - by rewrite list_lookup_alter_ne.
Qed.

Lemma closed_socket_ok (s : Sk) :
  socket_ok s -> socket_ok (set_asio_socket s (close (asio_socket s))).
Proof. unfold socket_ok. destruct (set_socket_keeps s (close (asio_socket s))) as (->&_&->&->). done. Qed.

Lemma ok_destroyed o : object_ok o -> object_ok (destroyed o).
Proof.
  intros [Hl Hu]. split; [|by apply closed_socket_ok]. cbn.
  destruct (set_socket_keeps (lower_socket o) (close (asio_socket (lower_socket o)))) as (_&Hb&Hrx&_).
  refine (proj1 (same_buffer_ok _ (lower_socket o) _ Hl (closed_socket_ok _ (lo_socket _ _ Hl)) Hb _)).
  by rewrite Hrx.
Qed.

Lemma active_destroyed o : so_active (destroyed o) = so_active o.
Proof.
  unfold so_active, is_active, destroyed. cbn.
  destruct (set_socket_keeps (lower_socket o) (close (asio_socket (lower_socket o)))) as (_&_&->&->).
  by destruct (set_socket_keeps (upper_socket o) (close (asio_socket (upper_socket o)))) as (_&_&->&->).
Qed.

Lemma side_socket_ok i o : object_ok o -> socket_ok (side_socket i o).
Proof. by intros [[] ?]; destruct i. Qed.

Lemma side_socket_active i o :
  object_ok o -> (0 < reads (asio_socket (side_socket i o)))%nat \/ writes (asio_socket (side_socket i o)) <> [] ->
  so_active o = true.
Proof.
  intros Ho H. pose proof (side_socket_ok i o Ho) as Hs.
  assert (is_active (side_socket i o) = true) as Ha.
  { unfold is_active. destruct H as [H|H]; [by rewrite (reading_active _ Hs H)|].
    by rewrite (writing_active _ Hs H), orb_true_r. }
  unfold so_active. destruct i; cbn in Ha; rewrite Ha; [done|apply orb_true_r].
Qed.

(** A read or write of the lower or upper socket completes. *)
Lemma ok_lower_complete_rx o buffer ec :
  object_ok o -> (0 < reads (asio_socket (lower_socket o)))%nat ->
  zlen buffer = zlen (rx_buffer (lower_socket o)) -> all_bytes buffer ->
  object_ok (so_set_lower o (lower_layer o) (complete_rx (lower_socket o) buffer ec).2).
Proof.
  intros [Hl Hu] Hr Hlen Hb. split; [|done]. cbn.
  destruct (complete_rx_ok _ buffer ec (lo_socket _ _ Hl) (reading_active _ (lo_socket _ _ Hl) Hr)) as (Hs&_&_&Hb'&_).
  refine (proj1 (reading_ok _ _ _ Hl Hr Hs _ _)); by rewrite Hb'.
Qed.

Lemma ok_lower_complete_tx o ok :
  object_ok o -> writes (asio_socket (lower_socket o)) <> [] ->
  object_ok (so_set_lower o (lower_layer o) (complete_tx (lower_socket o) ok).2).
Proof.
  intros [Hl Hu] Hw. split; [|done]. cbn.
  destruct (complete_tx_ok _ ok (lo_socket _ _ Hl) (writing_active _ (lo_socket _ _ Hl) Hw)) as (Hs&Hrx&_&Hb&_).
  refine (proj1 (same_buffer_ok _ _ _ Hl Hs Hb _)). by rewrite Hrx.
Qed.
End Invariant.

(** ** Layers and sessions *)

Section Logic.
Context {Sk K M : Type} `{SW : !IAsioSocketWrapper Sk} `{LAWS : !SocketLaws Sk} `{HO : !Owner M} `{ST : !StackObject K}.
Local Abbreviation proxy := (Proxy Sk K M).
Local Abbreviation action := (act proxy).
Implicit Types (o : SessionObject Sk K) (n : nat) (p : proxy).
Context (R : proxy -> proxy -> Prop) (benign : SessionObject Sk K -> SessionObject Sk K -> Prop).

(** What the two kinds of proxy respect: [R] allows what the layers do. *)
Class ProxyRelation : Prop := {
  R_preorder : PreOrder R;
  R_update p n f o : objects p !! n = Some o -> benign o (f o) -> R p (changed p n f);
  R_post p n : R p (mkProxy (objects p) (posted p ++ [n]) (locals p) (owner p));
  R_locals p ls : R p (mkProxy (objects p) (posted p) ls (owner p));
  R_closure p n rest ls :
    posted p = n :: rest -> (active p n -> n ∈ ls) -> R p (mkProxy (objects p) (rest ++ ls) (locals p) (owner p));
  R_destroyed p n : n ∉ holders p -> R p (changed p n destroyed);
  benign_upper_rx o : benign o (so_set_upper o (start_rx_from_socket (upper_socket o)).2);
  benign_upper_tx o data : benign o (so_set_upper o (start_tx_to_socket (upper_socket o) data).2);
  benign_upper_close o : benign o (so_set_upper o (try_close_socket (upper_socket o)).2);
  benign_open o b : benign o (so_set_open o b);
  benign_stack o k : benign o (so_set_stack o k);
  benign_store o x : benign o (so_set_lower o x (lower_socket o));
  benign_rx o x : benign o (so_set_lower o x (start_rx_from_socket (lower_socket o)).2);
  benign_tx o x data : benign o (so_set_lower o x (start_tx_to_socket (lower_socket o) data).2);
}.
Context `{PR : !ProxyRelation}.
#[local] Instance relation_preorder : PreOrder R := R_preorder.

Local Abbreviation preserves := (preserves R).
Local Abbreviation triple := (triple R).

Lemma preserves_upd n f :
  (forall o, object_ok o -> object_ok (f o) /\ benign o (f o)) -> preserves (update n f).
Proof. apply preserves_update. apply R_update. Qed.

Lemma preserves_collect n : preserves (collect n).
Proof.
  intros p u p' Hi _ [= <- <-]. unfold alive. case_bool_decide as Hn; [done|].
  split; [|split; [done|split; [exact (R_destroyed _ _ Hn)|done]]].
  destruct Hi as [Hok Hown]. split.
  - apply Forall_lookup. intros m o Hm. cbn in Hm. rewrite list_lookup_alter in Hm.
    destruct (decide (n = m)) as [<-|]; [|by eapply Forall_lookup_1].
    destruct (objects p !! n) as [o'|] eqn:E; [|done]. injection Hm as <-.
    apply ok_destroyed. by eapply Forall_lookup_1.
  - intros m Hm%active_changed; [|intros; apply active_destroyed]. exact (Hown m Hm).
Qed.

(** A local pointer is there while the function runs. *)
Lemma with_local_done {A} n (m : action A) p a p' :
  with_local n m p = Some (Done (a, p')) ->
  exists p1, m (mkProxy (objects p) (posted p) (n :: locals p) (owner p)) = Some (Done (a, p1)) /\
    collect n (mkProxy (objects p1) (posted p1) (tail (locals p1)) (owner p1)) = Some (Done (tt, p')).
Proof.
  intros (u&p1&[= _ <-]&H)%abind_inv. apply abind_inv in H as (b&p2&H2&H).
  apply abind_inv in H as (u2&p3&[= _ <-]&H). apply abind_inv in H as ([]&p4&H4&[= <- <-]). eauto.
Qed.

Lemma push_inv p n : proxy_inv p -> proxy_inv (mkProxy (objects p) (posted p) (n :: locals p) (owner p)).
Proof. intros [Hok Hown]. split; [done|]. intros x Hx. apply elem_of_cons. right. by apply Hown. Qed.

(** It may go when the object is held otherwise. *)
Lemma pop_inv p n ls :
  proxy_inv p -> locals p = n :: ls -> (active p n -> n ∈ posted p ++ holds (owner p)) -> proxy_inv (mkProxy (objects p) (posted p) ls (owner p)).
Proof.
  intros [Hok Hown] Hl Hs. split; [done|]. intros x Hx. specialize (Hown x Hx). unfold holders in *. cbn in *.
  rewrite Hl in Hown. cbn in Hown. apply elem_of_cons in Hown as [->|Hown]; [|done].
  apply elem_of_app. right. by apply Hs.
Qed.

Lemma check_for_close_settles n : triple (fun _ => True) (check_for_close n) (fun _ => settled n).
Proof.
  intros p u p' Hi _ (b&p1&H1&H)%abind_inv. unfold is_shutdown in H1.
  apply abind_inv in H1 as (o&p2&(->&Ho&_)%object_done&H1). injection H1 as <- <-.
  destruct (so_active o) eqn:Ea; cbn in H; injection H as <- <-.
  - split.
    { destruct Hi as [Hok Hown]. split; [done|]. intros x Hx. specialize (Hown x Hx). unfold holders in *. cbn.
      set_solver. }
    split; [done|]. split; [apply R_post|]. intros _. cbn. set_solver.
  - split; [done|]. split; [done|]. split; [done|]. intros (o'&Ho'&Ha). congruence.
Qed.

Section Handlers.
Context (notify : nat -> upper_call -> action bool) (error_handler : nat -> action unit).
Context (HN : forall n call, preserves (notify n call)) (HE : forall n, preserves (error_handler n)).

Lemma preserves_lower_tx n data : preserves (lower_tx n data).
Proof.
  intros p a p' Hi HP H. unfold lower_tx in H.
  refine (preserves_read_update R benign R_update n
    (fun o0 o => so_set_lower o (lower_layer o) (AsioLowerLayer_start_tx_from_upper (lower_socket o0) data).2)
    (fun o0 => aret (AsioLowerLayer_start_tx_from_upper (lower_socket o0) data).1) _ _ p a p' Hi HP _).
  - intros o Ho. split; [by apply ok_lower_tx|apply benign_tx].
  - intros o. apply (preserves_ret R).
  - rewrite <- H. unfold abind. destruct (object n p) as [[[o p1]| | |]|]; try done.
    by destruct (AsioLowerLayer_start_tx_from_upper (lower_socket o) data).
Qed.

Lemma benign_lower_rx o :
  let r := AsioLowerLayer_start_rx_from_upper (lower_layer o) (lower_socket o) in
  benign o (so_set_lower o r.1.2 r.2).
Proof.
  intros r. unfold r, AsioLowerLayer_start_rx_from_upper, AsioLowerLayer_start_rx_from_upper_impl.
  destruct (unread_data _ =? 0); cbn; [apply benign_rx|apply benign_store].
Qed.

Lemma preserves_lower_rx n : preserves (lower_rx n).
Proof.
  intros p a p' Hi HP H. unfold lower_rx in H.
  refine (preserves_read_update R benign R_update n
    (fun o0 o => let r := AsioLowerLayer_start_rx_from_upper (lower_layer o0) (lower_socket o0) in
                 so_set_lower o r.1.2 r.2)
    (fun o0 => let r := AsioLowerLayer_start_rx_from_upper (lower_layer o0) (lower_socket o0) in
               aret (view_bytes r.2 r.1.1)) _ _ p a p' Hi HP _).
  - intros o Ho. split; [by apply ok_lower_rx|apply benign_lower_rx].
  - intros o. apply (preserves_ret R).
  - rewrite <- H. unfold abind. destruct (object n p) as [[[o p1]| | |]|]; done.
Qed.

Lemma preserves_run_stack {A} n (prog : stack_prog K A) : preserves (run_stack notify n prog).
Proof.
  induction prog as [a|k IH|s k IH|k IH|data k IH|k IH|call k IH]; cbn [run_stack].
  - apply (preserves_ret R).
  - apply (preserves_bind R); [apply (preserves_object R)|]. intros o. apply IH.
  - apply (preserves_bind R); [apply preserves_upd; intros o []; by split; [split|apply benign_stack]|]. by intros [].
  - apply (preserves_bind R); [|intros b; apply IH].
    apply (preserves_bind R); [apply (preserves_object R)|]. intros o. apply (preserves_ret R).
  - apply (preserves_bind R); [apply preserves_lower_tx|intros b; apply IH].
  - apply (preserves_bind R); [apply preserves_lower_rx|intros b; apply IH].
  - apply (preserves_bind R); [apply HN|intros b; apply IH].
Qed.

Lemma preserves_unit {A} (m : action A) : preserves m -> preserves (abind m (fun _ => aret tt)).
Proof. intros H. apply (preserves_bind R); [done|]. intros _. apply (preserves_ret R). Qed.

(** A session that was just created. *)
Definition fresh n p : Prop := exists o, objects p !! n = Some o /\ lower_layer o = AsioLowerLayer_new.

Lemma open_keeps n p u p' :
  proxy_inv p -> fresh n p -> AsioLowerLayer_open notify n p = Some (Done (u, p')) ->
  let q := changed p n (fun o => so_set_lower o (lower_layer o) (start_rx_from_socket (lower_socket o)).2) in
  n ∈ holders p /\ proxy_inv p' /\ locals p' = locals p /\ R q p'.
Proof.
  intros Hi (o&Ho&Hx) (u1&p1&(o'&Ho'&Hn&->)%update_done&H)%abind_inv q. rewrite Ho in Ho'. injection Ho' as <-.
  destruct (Forall_lookup_1 _ _ _ _ (inv_objects _ Hi) Ho) as [Hlo Hup].
  eapply preserves_unit in H as (Hi'&Hl&HR&_); [done|apply preserves_run_stack|eapply changed_inv; try done|done].
  split; [|done]. apply start_rx_keeps_ok; [done|by rewrite Hx..].
Qed.

Lemma preserves_lower_tx_complete n : preserves (AsioLowerLayer_call notify n on_tx_complete).
Proof. apply preserves_unit, preserves_run_stack. Qed.
Lemma preserves_lower_error n : preserves (AsioLowerLayer_call notify n on_rx_or_tx_error).
Proof. apply preserves_unit, preserves_run_stack. Qed.

(** Data arrive at a layer that has none. *)
Definition empty_layer n p (data : Z) : Prop :=
  exists o, objects p !! n = Some o /\ unread_data (lower_layer o) = 0 /\
    lower_upper_is_processing (lower_layer o) = false /\ get_is_rx_active (lower_socket o) = false /\
    0 <= data <= zlen (rx_buffer (lower_socket o)).

Lemma preserves_lower_rx_complete n data :
  triple (fun p => empty_layer n p data) (AsioLowerLayer_call notify n (on_rx_complete data)) (fun _ _ => True).
Proof.
  intros p a p' Hi (o&Ho&Hu&Hp&Hr&Hd) (u&p1&(o'&Ho'&Hn&->)%update_done&H)%abind_inv.
  rewrite Ho in Ho'. injection Ho' as <-.
  destruct (Forall_lookup_1 _ _ _ _ (inv_objects _ Hi) Ho) as [[Hs Hb Hv _ _] Hup].
  eapply preserves_unit in H as (Hi'&Hl&HR&_); [|apply preserves_run_stack|eapply changed_inv; try done|done].
  - split; [done|]. split; [done|]. split; [|done].
    etransitivity; [|exact HR]. eapply R_update; [exact Ho|apply benign_store].
  - split; [|done]. split; cbn; try done; rewrite ?Hr, ?Hp; done.
Qed.

Lemma preserves_try_read n : preserves (try_read_from_crypto notify n).
Proof.
  apply (preserves_bind R); [apply preserves_run_stack|]. intros data. apply (preserves_when R), preserves_upd.
  intros o Ho. split; [by apply ok_upper_tx|apply benign_upper_tx].
Qed.

Lemma preserves_upper_rx n : preserves (upper_start_rx n).
Proof. apply preserves_upd. intros o Ho. split; [by apply ok_upper_rx|apply benign_upper_rx]. Qed.

Lemma preserves_upper_impl n call : preserves (AsioUpperLayer_impl notify error_handler n call).
Proof.
  destruct call; cbn; try apply preserves_upper_rx.
  - apply (preserves_bind R); [apply preserves_upd|intros _; apply HE].
    intros o Ho. split; [by apply ok_upper_close|apply benign_upper_close].
  - apply (preserves_bind R); [apply (preserves_object R)|]. intros o.
    destruct (negb _); [apply preserves_try_read|apply (preserves_ret R)].
Qed.

Lemma preserves_upper_notified n call : preserves (AsioUpperLayer_notified notify error_handler n call).
Proof.
  assert (forall b, preserves (update n (fun o => so_set_open o b))) as Hopen.
  { intros b. apply preserves_upd. intros o []. by split; [split|apply benign_open]. }
  assert (preserves (AsioUpperLayer_impl notify error_handler n call;;; aret true)) as Himpl.
  { apply (preserves_bind R); [apply preserves_upper_impl|]. intros _. apply (preserves_ret R). }
  apply (preserves_bind R); [apply (preserves_object R)|]. intros o.
  destruct call, (upper_is_open o); try first [apply (preserves_ret R)|exact Himpl];
    (apply (preserves_bind R); [apply Hopen|intros _; exact Himpl]).
Qed.

Lemma preserves_upper_call n call : preserves (AsioUpperLayer_call notify error_handler n call).
Proof.
  destruct call; [|apply preserves_try_read|apply HE].
  apply (preserves_bind R); [apply (preserves_object R)|]. intros o. apply preserves_unit, preserves_run_stack.
Qed.

Lemma ok_complete_rx i o buffer ec :
  object_ok o -> (0 < reads (asio_socket (side_socket i o)))%nat ->
  zlen buffer = zlen (rx_buffer (side_socket i o)) -> all_bytes buffer ->
  object_ok (so_set_side i o (complete_rx (side_socket i o) buffer ec).2).
Proof.
  destruct i; cbn; [apply ok_lower_complete_rx|]. intros [Hl Hu] Hr _ _. split; [done|].
  by apply complete_rx_ok, reading_active.
Qed.

(** The event starts with the change of the socket. *)
Lemma rx_completes_keeps i n buffer ec p u p' :
  proxy_inv p -> rx_enabled p i n buffer ec ->
  rx_completes notify error_handler i n buffer ec p = Some (Done (u, p')) ->
  exists o, objects p !! n = Some o /\
    let q := changed p n (fun o' => so_set_side i o' (complete_rx (side_socket i o) buffer ec).2) in
    proxy_inv p' /\ locals p' = locals p /\ R q p'.
Proof.
  intros Hi (o&Ho&Hr&Hlen&Hb&Hk) (o1&p1&(->&Ho1&_)%object_done&H)%abind_inv.
  rewrite Ho in Ho1. injection Ho1 as <-. exists o. split; [done|].
  pose proof (Forall_lookup_1 _ _ _ _ (inv_objects _ Hi) Ho) as Hok.
  pose proof (ok_complete_rx i o buffer ec Hok Hr Hlen Hb) as Hok'.
  assert (socket_ok (side_socket i o)) as Hs by (destruct i, Hok as [[] ?]; done).
  destruct (complete_rx_ok _ buffer ec Hs (reading_active _ Hs Hr)) as (_&Hidle&_&Hbuf&Hdata&Herr).
  destruct (complete_rx (side_socket i o) buffer ec) as [call s]. cbn in Hok', Hidle, Hbuf, Hdata, Herr |- *.
  apply abind_inv in H as (u1&p2&(o2&Ho2&Hn&->)%update_done&H). rewrite Ho in Ho2. injection Ho2 as <-.
  set (f := fun o => so_set_side i o s) in *. change (object_ok (f o)) in Hok'.
  assert (triple (fun q => q = changed p n f) (side_call notify error_handler i n call) (fun _ _ => True)) as Hcall.
  { destruct call as [call|]; [|by eapply triple_conseq; [apply (preserves_ret R)|..]].
    destruct i; [|by eapply triple_conseq; [apply preserves_upper_call|..]]. cbn.
    destruct call as [data| |]; [|by eapply triple_conseq; [apply preserves_lower_tx_complete|..]
      |by eapply triple_conseq; [apply preserves_lower_error|..]].
    eapply triple_conseq; [apply preserves_lower_rx_complete| |done]. intros q ->.
    destruct Hok as [[_ _ _ Hread _] _]. destruct (Hread (reading_active _ Hs Hr)) as [Hu Hp].
    exists (f o). cbn [changed objects]. rewrite list_lookup_alter_eq, Ho. cbn.
    split; [done|]. split; [done|]. split; [done|]. split; [done|]. rewrite Hbuf.
    destruct ec as [k|]; [|by destruct (Herr eq_refl)]. specialize (Hdata k eq_refl). injection Hdata as ->.
    pose proof (Hk k eq_refl). pose proof (zlen_nonneg buffer). lia. }
  apply Hcall in H as (Hi'&Hl&HR&_); [done|by eapply changed_inv|done].
Qed.

Lemma tx_completes_keeps i n ok p u p' :
  proxy_inv p -> tx_enabled p i n ->
  tx_completes notify error_handler i n ok p = Some (Done (u, p')) ->
  exists o, objects p !! n = Some o /\
    let q := changed p n (fun o' => so_set_side i o' (complete_tx (side_socket i o) ok).2) in
    proxy_inv p' /\ locals p' = locals p /\ R q p'.
Proof.
  intros Hi (o&Ho&Hw) (o1&p1&(->&Ho1&_)%object_done&H)%abind_inv.
  rewrite Ho in Ho1. injection Ho1 as <-. exists o. split; [done|].
  pose proof (Forall_lookup_1 _ _ _ _ (inv_objects _ Hi) Ho) as Hok.
  assert (socket_ok (side_socket i o)) as Hs by (destruct i, Hok as [[] ?]; done).
  assert (object_ok (so_set_side i o (complete_tx (side_socket i o) ok).2)) as Hok'.
  { destruct i; cbn; [by apply ok_lower_complete_tx|]. destruct Hok. split; [done|].
    by apply complete_tx_ok, writing_active. }
  destruct (complete_tx_ok _ ok Hs (writing_active _ Hs Hw)) as (_&_&_&_&Hdone&Herr).
  destruct (complete_tx (side_socket i o) ok) as [call s]. cbn in Hok', Hdone, Herr |- *.
  apply abind_inv in H as (u1&p2&(o2&Ho2&Hn&->)%update_done&H). rewrite Ho in Ho2. injection Ho2 as <-.
  assert (preserves (side_call notify error_handler i n call)) as Hcall.
  { destruct call as [call|]; [|apply (preserves_ret R)]. destruct i; [|apply preserves_upper_call].
    destruct call as [data| |]; [|apply preserves_lower_tx_complete|apply preserves_lower_error].
    destruct ok; [by specialize (Hdone eq_refl)|by destruct (Herr eq_refl)]. }
  apply Hcall in H as (Hi'&Hl&HR&_); [done|by eapply changed_inv|done].
Qed.
End Handlers.

(** The closure is posted again, or the last one ends. *)
Lemma run_posted_done n rest p u p' :
  run_posted p = Some (Done (u, p')) -> posted p = n :: rest ->
  exists ls, (active p n -> n ∈ ls) /\ (ls = [] \/ ls = [n]) /\
    collect n (mkProxy (objects p) (rest ++ ls) (locals p) (owner p)) = Some (Done (u, p')).
Proof.
  intros (q&p1&[= <- <-]&H)%abind_inv Ep. unfold id in H. rewrite Ep in H.
  apply with_local_done in H as (p2&H2&H). destruct u.
  apply abind_inv in H2 as (u3&p3&[= _ <-]&H2). cbn in H2.
  apply abind_inv in H2 as (b&p4&H4&H2). unfold is_shutdown in H4.
  apply abind_inv in H4 as (o&p5&(->&Ho&_)%object_done&[= <- <-]). cbn in Ho.
  destruct (so_active o) eqn:Ea; cbn in H2; injection H2 as <-; cbn in H.
  - exists [n]. split; [set_solver|]. auto.
  - exists []. rewrite app_nil_r. split; [|auto]. intros (o'&Ho'&Ha). congruence.
Qed.

Lemma preserves_run_posted : preserves run_posted.
Proof.
  intros p u p' Hi _ H. destruct (posted p) as [|n rest] eqn:Ep.
  { unfold run_posted in H. apply abind_inv in H as (q&p1&[= <- <-]&H). unfold id in H. rewrite Ep in H.
    by injection H as <- <-. }
  destruct (run_posted_done _ _ _ _ _ H Ep) as (ls&Hact&_&Hc).
  apply preserves_collect in Hc as (Hi'&Hl&HR&_); [| |done].
  - split; [done|]. split; [done|]. split; [|done]. etransitivity; [|exact HR]. by apply R_closure with n.
  - destruct Hi as [Hok Hown]. split; [done|]. intros x Hx. specialize (Hown x Hx). unfold holders in *. cbn.
    rewrite Ep in Hown. destruct (decide (x = n)) as [->|]; [specialize (Hact Hx); set_solver|set_solver].
Qed.

(** The notification, to any depth. *)
Lemma preserves_notify handler fuel :
  (forall notify, (forall n call, preserves (notify n call)) -> forall n, preserves (handler notify n)) ->
  forall n call, preserves (notify_session handler fuel n call).
Proof.
  intros Hh. induction fuel as [|fuel IH]; intros n call; cbn [notify_session]; [apply (preserves_fuel R)|].
  apply preserves_upper_notified; [exact IH|]. by apply Hh.
Qed.
End Logic.
