(* ===== verification/ProxyTcp.v ===== *)
(** * The TCP proxy

    [TcpProxySession]: the sessions of the map, the objects that are kept until their
    operations end, and the errors of sessions. *)

From stdpp Require Import base numbers list sets.
From Stdlib Require Import Lia ZArith.
From S2P Require Import Prelude StdMap LinkLayer CryptoLayer LayerLogic Stack Sockets ProxySession ProxyFacts.

Section Tcp.
Context {K : Type} `{ST : !StackObject K}.
Local Abbreviation proxy := (Proxy AsioTcpSocketWrapper K TcpOwner).
Local Abbreviation action := (act proxy).
Context (config_max_sessions : Z) (create_stack : Z -> outcome K) (memory : bytes).
Implicit Types (p : proxy) (n : nat).

(** The lower socket reads. *)
Definition reading p n : Prop := exists o, objects p !! n = Some o /\ tcp_is_rx_active (lower_socket o) = true.

Definition held p n : Prop := n ∈ posted p ++ holds (owner p).

(** What nested calls do: the map only loses entries, and a session that reads and is
    held stays so. *)
Record tcp_rel p p' : Prop := {
  rel_id : tcp_session_id (owner p') = tcp_session_id (owner p);
  rel_objects : length (objects p') = length (objects p);
  rel_sessions : sublist (tcp_sessions (owner p')) (tcp_sessions (owner p));
  rel_held n : reading p n -> reading p' n /\ (held p n -> held p' n);
}.

Definition tcp_benign (o o' : SessionObject AsioTcpSocketWrapper K) : Prop :=
  tcp_is_rx_active (lower_socket o) = true -> tcp_is_rx_active (lower_socket o') = true.

Lemma reading_active_obj p n : reading p n -> active p n.
Proof. intros (o&Ho&Hr). exists o. split; [done|]. unfold so_active, is_active. cbn. by rewrite Hr. Qed.

Lemma reading_changed p n f o m :
  objects p !! n = Some o -> tcp_benign o (f o) -> reading p m -> reading (changed p n f) m.
Proof.
  intros Ho Hb (o'&Ho'&Hr). unfold reading. cbn. rewrite list_lookup_alter.
  destruct (decide (n = m)) as [<-|]; [|by exists o']. rewrite Ho in Ho'. injection Ho' as <-.
  exists (f o). rewrite Ho. split; [done|]. by apply Hb.
Qed.

#[local] Instance tcp_relation : ProxyRelation tcp_rel tcp_benign.
Proof.
  split.
  - split; [by split|]. intros p q r [H1 H2 H3 H4] [G1 G2 G3 G4]. split; [congruence..|by etransitivity|].
    intros n [Hq Hqh]%H4. destruct (G4 n Hq). auto.
  - intros p n f o Ho Hb. split; cbn; [done|by rewrite length_alter|done|].
    intros m Hm. split; [by eapply reading_changed|done].
  - intros p n. split; try done. intros m Hm. split; [done|]. unfold held. cbn. set_solver.
  - intros p ls. by split.
  - intros p n rest ls Hp Ha. split; try done. intros m Hm. split; [done|]. unfold held. cbn. rewrite Hp.
    destruct (decide (m = n)) as [->|]; [|set_solver]. specialize (Ha (reading_active_obj _ _ Hm)). set_solver.
  - intros p n _. split; cbn; [done|by rewrite length_alter|done|]. intros m Hm. split; [|done].
    destruct Hm as (o&Ho&Hr). unfold reading. cbn. rewrite list_lookup_alter.
    destruct (decide (n = m)) as [<-|]; [|by exists o]. rewrite Ho. by exists (destroyed o).
  - by intros o H.
  - by intros o data H.
  - by intros o H.
  - by intros o b H.
  - by intros o k H.
  - by intros o x H.
  - intros o x. unfold tcp_benign. cbn. unfold tcp_start_rx_from_socket. by destruct (_ || _).
  - intros o x data. unfold tcp_benign. cbn. unfold tcp_start_tx_to_socket. by destruct (_ || _).
Qed.

#[local] Instance tcp_rel_preorder : PreOrder tcp_rel := R_preorder tcp_rel tcp_benign.

Local Abbreviation preserves := (preserves tcp_rel).
Local Abbreviation triple := (triple tcp_rel).

Section Handlers.
Context (notify : nat -> upper_call -> action bool) (HN : forall n call, preserves (notify n call)).

Lemma shutdown_settles n : triple (fun _ => True) (Session_shutdown notify n) (fun _ => settled n).
Proof.
  apply (triple_bind tcp_rel) with (S := fun _ _ => True); [|intros b; apply (check_for_close_settles tcp_rel tcp_benign)].
  apply (preserves_bind tcp_rel); [|intros []; by apply (preserves_run_stack tcp_rel tcp_benign)].
  apply (preserves_upd tcp_rel tcp_benign). intros o Ho. split; [by apply ok_lower_close|].
  unfold tcp_benign. cbn. unfold tcp_try_close_socket. by destruct (negb _).
Qed.

Lemma preserves_on_session_error id : preserves (on_session_error notify id).
Proof.
  intros p u p' Hi _ (q&p0&[= <- <-]&H)%abind_inv. unfold Datatypes.id in H.
  destruct (map_find (tcp_sessions (owner p)) id) as [session|] eqn:Ef; [|by injection H as <- <-].
  apply with_local_done in H as (p1&H1&H). apply abind_inv in H1 as (u1&p2&[= _ <-]&H1).
  apply abind_inv in H1 as (u2&p3&H3&H1). cbn in H3.
  set (q := mkProxy (objects p) (posted p) (session :: locals p)
              (mkTcpOwner (map_erase (tcp_sessions (owner p)) id) (tcp_session_id (owner p))
                 (tcp_connecting (owner p)) (tcp_accepting (owner p)))) in H3.
  assert (proxy_inv q) as Hq.
  { destruct Hi as [Hok Hown]. split; [done|]. intros x Hx. specialize (Hown x Hx). unfold holders in *. cbn in *.
    unfold holds, tcp_owner in *. cbn in *. rewrite !elem_of_cons, !elem_of_app in *.
    destruct Hown as [?|[?|Hx']]; [tauto..|].
    destruct (erase_values _ id x Hx') as [E|?]; [rewrite Ef in E; injection E as ->; tauto|tauto]. }
  apply (preserves_collect tcp_rel tcp_benign) in H3 as (Hi3&Hl3&HR3&_); [|done..].
  apply shutdown_settles in H1 as (Hi1&Hl1&HR1&Hset); [|done..]. rewrite Hl3 in Hl1. cbn in Hl1.
  rewrite Hl1 in H. cbn in H.
  apply (preserves_collect tcp_rel tcp_benign) in H as (Hi'&Hl'&HR'&_); [|eapply pop_inv; [done..|]; intros Ha%Hset; set_solver|done].
  destruct u. split; [done|]. split; [done|]. split; [|done].
  assert (tcp_rel q p') as [G1 G2 G3 G4] by (etransitivity; [exact HR3|]; etransitivity; [exact HR1|];
    etransitivity; [apply (R_locals tcp_rel tcp_benign p1 (locals p))|exact HR']).
  split; [done|done|etransitivity; [exact G3|apply erase_sublist]|].
  intros n Hn. destruct (G4 n Hn) as [Hn' Hh]. split; [done|]. intros Hheld.
  unfold held in Hheld. rewrite elem_of_app in Hheld. unfold holds, tcp_owner in Hheld.
  destruct Hheld as [?|Hx]; [apply Hh; unfold held; set_solver|].
  destruct (erase_values _ id n Hx) as [E|?]; [|apply Hh; unfold held, holds, tcp_owner; cbn; set_solver].
  rewrite Ef in E. injection E as ->. assert (reading p1 n) as Hr1.
  { destruct HR3 as [_ _ _ H3']. destruct HR1 as [_ _ _ H1']. apply H1', H3', Hn. }
  destruct HR' as [_ _ _ HR']. apply (HR' n Hr1). apply reading_active_obj, Hset in Hr1. unfold held. cbn. set_solver.
Qed.

Lemma preserves_error_handler n : preserves (tcp_error_handler notify n).
Proof.
  intros p u p' Hi HP H. unfold tcp_error_handler in H. destruct (objects p !! n); [|done].
  by apply preserves_on_session_error in H.
Qed.
End Handlers.

Lemma preserves_tcp_notify fuel n call : preserves (notify_session tcp_error_handler fuel n call).
Proof. apply (preserves_notify tcp_rel tcp_benign). intros notify HN m. by apply preserves_error_handler. Qed.

(** ** The invariant between events *)

Local Abbreviation max_sessions := (tcp_max_sessions config_max_sessions).

Record tcp_inv p : Prop := {
  ti_proxy : proxy_inv p;
  ti_locals : locals p = [];
  ti_map : map_ok (tcp_sessions (owner p));
  ti_size : map_size (tcp_sessions (owner p)) <= max_sessions;
  ti_id : tcp_session_id (owner p) = Z.of_nat (length (objects p)) mod 2 ^ 64;
  ti_entries k n : (k, n) ∈ tcp_sessions (owner p) -> k = Z.of_nat n /\ (n < length (objects p))%nat;
}.

(** The parts of the proxy the invariant is about. *)
Lemma inv_shape p p' :
  tcp_inv p -> proxy_inv p' -> locals p' = locals p ->
  tcp_session_id (owner p') = tcp_session_id (owner p) -> length (objects p') = length (objects p) ->
  sublist (tcp_sessions (owner p')) (tcp_sessions (owner p)) -> tcp_inv p'.
Proof.
  intros [Hi Hl Hm Hs Hid He] Hi' Hl' Hid' Hlen Hsub. split; [done|congruence|by eapply sublist_ok|..].
  - pose proof (sublist_size _ _ Hsub). lia.
  - congruence.
  - intros k n Hk. rewrite Hlen. apply He. by eapply elem_of_sublist.
Qed.

Lemma inv_rel p q p' :
  tcp_inv p -> owner q = owner p -> length (objects q) = length (objects p) ->
  proxy_inv p' -> locals p' = locals p -> tcp_rel q p' -> tcp_inv p'.
Proof.
  intros Ht Ho Hlen Hi' Hl [H1 H2 H3 _]. apply (inv_shape p); [done..| | |]; by rewrite ?H1, ?H2, <- ?Ho.
Qed.

(** Members that the invariant is not about. *)
Lemma inv_owner p x :
  tcp_inv p -> tcp_sessions x = tcp_sessions (owner p) -> tcp_session_id x = tcp_session_id (owner p) ->
  tcp_inv (mkProxy (objects p) (posted p) (locals p) x).
Proof.
  intros Ht Hs Hid. apply (inv_shape p); [done| |done|done|done|by cbn; rewrite Hs].
  destruct Ht as [[Hok Hown] _ _ _ _ _]. split; [done|]. intros n Hn. specialize (Hown n Hn).
  unfold holders, holds, tcp_owner in *. cbn. by rewrite Hs.
Qed.

(** A session is removed to make room. *)
Lemma kick_inv notify p u p' :
  (forall n call, preserves (notify n call)) -> tcp_inv p -> kick_oldest notify p = Some (Done (u, p')) ->
  tcp_inv p' /\ map_size (tcp_sessions (owner p')) <= map_size (tcp_sessions (owner p)) - 1 /\
  length (objects p') = length (objects p).
Proof.
  intros HN Ht (q&p0&[= <- <-]&H)%abind_inv. unfold id in H. pose proof Ht as [Hi Hl Hm Hs Hid He].
  destruct (map_begin (tcp_sessions (owner p))) as [[key session]|] eqn:Eb; [|done].
  apply abind_inv in H as (u1&p1&H1&H). apply (shutdown_settles _ HN) in H1 as (Hi1&Hl1&HR1&Hset); [|done..].
  pose proof (inv_rel _ _ _ Ht eq_refl eq_refl Hi1 Hl1 HR1) as Ht1.
  apply abind_inv in H as (q&p2&[= <- <-]&H). unfold id in H.
  destruct (map_find (tcp_sessions (owner p1)) key) as [s|] eqn:Ef; [|done].
  assert (s = session) as ->.
  { apply find_elem in Ef. eapply elem_of_sublist in Ef; [|apply HR1]. apply elem_find in Ef; [|done].
    unfold map_begin in Eb. destruct (tcp_sessions (owner p)) as [|[k v] m]; [done|]. injection Eb as -> ->.
    cbn in Ef. rewrite Z.eqb_refl in Ef. by injection Ef. }
  apply abind_inv in H as (u2&p3&[= _ <-]&H). cbn in H.
  match type of H with collect _ ?x = _ => set (q := x) in H end.
  assert (proxy_inv q) as Hq.
  { destruct Hi1 as [Hok Hown]. split; [done|]. intros x Hx. specialize (Hown x Hx). unfold holders in *. cbn in *.
    rewrite !elem_of_app in *. destruct Hown as [?|[?|Hx']]; [tauto..|].
    destruct (erase_values _ key x Hx') as [E|?]; [|tauto]. rewrite Ef in E. injection E as <-. auto. }
  apply (preserves_collect tcp_rel tcp_benign) in H as (Hi'&Hl'&[G1 G2 G3 G4]&_); [|done..]. cbn in G1, G2, G3.
  pose proof (sublist_size _ _ G3). pose proof (erase_size (tcp_sessions (owner p1)) key) as Hsize. rewrite Ef in Hsize. destruct HR1 as [F1 F2 F3 _].
  pose proof (sublist_size _ _ F3). split; [|split; [lia|congruence]].
  apply (inv_shape p1); [done..|]. etransitivity; [exact G3|apply erase_sublist].
Qed.

(** ** Events *)

Context (max_ok : 0 <= config_max_sessions) (memory_ok : all_bytes memory).

Lemma new_object_ok id stack :
  object_ok (mkSessionObject id (AsioTcpSocketWrapper_new new_socket memory) AsioLowerLayer_new
               (AsioTcpSocketWrapper_new new_socket memory) false stack : SessionObject _ K).
Proof.
  split; [|done]. split; cbn; try done. pose proof (zlen_nonneg memory). lia.
Qed.

Local Abbreviation new_session p stack :=
  (mkSessionObject (Z.of_nat (length (objects p))) (AsioTcpSocketWrapper_new new_socket memory) AsioLowerLayer_new
     (AsioTcpSocketWrapper_new new_socket memory) false stack).

(** A proxy with one more session, which nothing but the map holds. *)
Lemma add_session_inv p stack x :
  tcp_inv p -> map_size (tcp_sessions (owner p)) < max_sessions -> Z.of_nat (length (objects p)) < 2 ^ 64 ->
  tcp_session_id x = (tcp_session_id (owner p) + 1) mod 2 ^ 64 ->
  tcp_sessions x = map_put (tcp_sessions (owner p)) (Z.of_nat (length (objects p))) (length (objects p)) ->
  tcp_inv (mkProxy (objects p ++ [new_session p stack]) (posted p) [] x).
Proof.
  intros [[Hok Hown] Hl Hm Hs Hid He] Hroom Hlen Hx Hput.
  assert (map_find (tcp_sessions (owner p)) (Z.of_nat (length (objects p))) = None) as Hnone.
  { destruct (map_find _ _) as [v|] eqn:E; [|done]. apply find_elem, He in E. lia. }
  split; cbn; rewrite ?Hput, ?length_app.
  - split; [apply Forall_app; split; [done|by repeat constructor; try apply new_object_ok]|].
    intros n (o&Ho&Ha). cbn in Ho. apply lookup_app_Some in Ho as [Ho|[Hge Ho]].
    + assert (n ∈ holders p) as Hn by (apply Hown; by exists o). unfold holders, holds, tcp_owner in *. cbn.
      rewrite Hl, Hput in *. cbn in *. rewrite !elem_of_app in *. destruct Hn; [tauto|]. right. by apply put_new.
    + apply list_lookup_singleton_Some in Ho as [_ <-]. done.
  - done.
  - by apply put_ok.
  - rewrite put_size, Hnone by done. lia.
  - rewrite Hx, Hid. cbn. rewrite Zplus_mod_idemp_l. f_equal. lia.
  - intros k n Hk. apply elem_find in Hk; [|by apply put_ok]. rewrite find_put in Hk.
    destruct (Z.eqb_spec k (Z.of_nat (length (objects p)))) as [->|]; [injection Hk as <-; cbn; lia|].
    apply find_elem, He in Hk. cbn. lia.
Qed.

Lemma max_positive : 0 < max_sessions.
Proof. unfold tcp_max_sessions. destruct (Z.eqb_spec config_max_sessions 0); lia. Qed.

Lemma connect_inv notify ok p u p' :
  (forall n call, preserves (notify n call)) -> tcp_inv p -> Z.of_nat (length (objects p)) < 2 ^ 64 ->
  connect_callback config_max_sessions create_stack memory notify ok p = Some (Done (u, p')) -> tcp_inv p'.
Proof.
  intros HN Ht Hlen (u0&p0&[= _ <-]&H)%abind_inv.
  match type of H with _ ?x = _ => assert (tcp_inv x) as Ht0 by by apply inv_owner end.
  match type of H with _ ?x = _ => set (q0 := x) in * end. change (length (objects p)) with (length (objects q0)) in Hlen.
  clearbody q0. clear p Ht. destruct ok; [|by injection H as _ <-]. cbn [negb] in H.
  apply abind_inv in H as (q&p0&[= <- <-]&H). unfold id in H. apply abind_inv in H as (u1&q1&H1&H).
  assert (tcp_inv q1 /\ map_size (tcp_sessions (owner q1)) < max_sessions /\ length (objects q1) = length (objects q0))
    as (Ht1&Hroom&Hlen1).
  { pose proof (ti_size _ Ht0). destruct (Z.eqb_spec (map_size (tcp_sessions (owner q0))) max_sessions); cbn in H1.
    - apply kick_inv in H1 as (?&?&?); [|done..]. split; [done|]. split; [lia|done].
    - injection H1 as _ <-. split; [done|]. split; [lia|done]. }
  rewrite <- Hlen1 in Hlen. clear q0 Ht0 H1 Hlen1.
  apply abind_inv in H as (sid&q2&H2&H). apply abind_inv in H2 as (q&p0&[= <- <-]&H2).
  apply abind_inv in H2 as (u2&p2&[= _ <-]&[= <- <-]). unfold id in H. cbn [owner tcp_session_id] in H.
  rewrite (ti_id _ Ht1), Z.mod_small in H by lia.
  apply abind_inv in H as (stack&q3&H3&H). unfold alift in H3.
  destruct (create_stack (Z.of_nat (length (objects q1)))) as [k| | |]; try done. injection H3 as <- <-.
  apply abind_inv in H as (n&q4&[= <- <-]&H). cbn [objects posted locals owner] in H.
  apply with_local_done in H as (q5&H5&H). apply abind_inv in H5 as (u5&q6&[= _ <-]&H5). cbn in H5.
  match type of H5 with Session_start _ _ ?x = _ => set (q := x) in H5 end.
  set (n := length (objects q1)) in *.
  assert (tcp_inv (mkProxy (objects q) (posted q) [] (owner q))) as Hq0.
  { apply (add_session_inv q1 k (owner q)); [done..|cbn; by rewrite (ti_id _ Ht1), (Z.mod_small (Z.of_nat n)) by lia|done]. }
  assert (proxy_inv q) as Hq.
  { assert (locals q1 = []) as Hloc by apply Ht1.
    replace q with (mkProxy (objects q) (posted q) (n :: []) (owner q)) by (unfold q; by rewrite Hloc).
    exact (push_inv _ n (ti_proxy _ Hq0)). }
  assert (objects q !! n = Some (new_session q1 k)) as Hn by (cbn; by rewrite list_lookup_middle).
  apply (open_keeps tcp_rel tcp_benign notify HN) in H5 as (_&Hi5&Hl5&HR5); [|done|by eexists].
  match type of HR5 with tcp_rel ?x _ => set (q' := x) in HR5 end.
  assert (reading q' n) as Hread.
  { eexists. cbn [q' changed objects]. rewrite list_lookup_alter_eq, Hn. by split. }
  assert (held q' n) as Hheld by (unfold held; cbn; rewrite elem_of_app; right; apply put_value).
  destruct (rel_held _ _ HR5 n Hread) as [Hread5 Hheld5]. specialize (Hheld5 Hheld).
  assert (locals q5 = [n]) as Hloc5 by (rewrite Hl5; cbn; by rewrite (ti_locals _ Ht1)).
  rewrite Hloc5 in H. cbn in H.
  apply (preserves_collect tcp_rel tcp_benign) in H as (Hi'&Hl'&HR'&_); [|by eapply pop_inv|done].
  destruct HR5 as [A1 A2 A3 _]. destruct HR' as [B1 B2 B3 _]. cbn in *. rewrite length_alter in A2.
  apply (inv_shape _ _ Hq0); [done|done|cbn; congruence|cbn; congruence|]. etransitivity; [exact B3|exact A3].
Qed.

Lemma tcp_step_inv fuel e p p' :
  tcp_inv p -> tcp_enabled p e -> tcp_step config_max_sessions create_stack memory fuel e p = Some (Done (tt, p')) ->
  tcp_inv p'.
Proof.
  intros Ht He H. pose proof (preserves_tcp_notify fuel) as HN. pose proof (preserves_error_handler _ HN) as HE.
  destruct e as [ok|ok| |n t|i n buffer ec|i n ok]; cbn [tcp_step tcp_enabled] in *.
  - apply abind_inv in H as (u&p1&[= _ <-]&H). destruct ok; cbn in H; [|by injection H as <-; apply inv_owner].
    injection H as <-. by apply inv_owner.
  - destruct He. by eapply connect_inv.
  - apply (preserves_run_posted tcp_rel tcp_benign) in H as (Hi&Hl&HR&_); [|by apply Ht|done]. by eapply inv_rel.
  - apply (preserves_run_stack tcp_rel tcp_benign _ HN) in H as (Hi&Hl&HR&_); [|by apply Ht|done]. by eapply inv_rel.
  - apply (rx_completes_keeps tcp_rel tcp_benign _ _ HN HE) in H as (o&Ho&Hi&Hl&HR); [|by apply Ht|done].
    eapply inv_rel; [done| | |done..|exact HR]; [done|]. cbn. by rewrite length_alter.
  - apply (tx_completes_keeps tcp_rel tcp_benign _ _ HN HE) in H as (o&Ho&Hi&Hl&HR); [|by apply Ht|done].
    eapply inv_rel; [done| | |done..|exact HR]; [done|]. cbn. by rewrite length_alter.
Qed.

Lemma started_inv : tcp_inv tcp_started.
Proof.
  pose proof max_positive. split; cbn; try done; [|unfold map_size, zlen; cbn; lia|by intros k n ?%elem_of_nil].
  split; [constructor|]. by intros n (o&Ho&_).
Qed.

Local Abbreviation reachable :=
  (proxy_reachable tcp_started tcp_enabled (tcp_step config_max_sessions create_stack memory)).

Lemma tcp_reachable_inv p : reachable p -> tcp_inv p.
Proof. induction 1 as [|p fuel e p' _ IH He H]; [apply started_inv|by eapply tcp_step_inv]. Qed.

(** C18: In every state the event loop of a TCP proxy reaches, whatever its stacks do:
    a socket has at most one read and one write outstanding; a session with an
    operation outstanding, whose completion will use it, is still held by the map or
    by the check that waits for its end; the map has at most the configured number of
    sessions; and the first session of the map, which is the one that gives way to a
    new one, is the oldest. *)
Theorem tcp_operations_owned p :
  reachable p ->
  (forall n o i, objects p !! n = Some o ->
     let s := asio_socket (side_socket i o) in
     (reads s <= 1)%nat /\ (length (writes s) <= 1)%nat /\
     ((0 < reads s)%nat \/ writes s <> [] ->
        n ∈ posted p \/ exists k, map_find (tcp_sessions (owner p)) k = Some n)) /\
  map_size (tcp_sessions (owner p)) <= max_sessions /\
  (forall k n, map_begin (tcp_sessions (owner p)) = Some (k, n) ->
     forall k' n', map_find (tcp_sessions (owner p)) k' = Some n' -> (n <= n')%nat).
Proof.
  intros [[Hok Hown] Hl Hm Hs _ He]%tcp_reachable_inv. split; [|split; [done|]].
  - intros n o i Ho s. pose proof (Forall_lookup_1 _ _ _ _ Hok Ho) as Hoo.
    destruct (side_socket_ok i o Hoo) as [Hr Hw]. fold s in Hr, Hw.
    split; [rewrite Hr; destruct (get_is_rx_active _); cbn; lia|].
    split; [rewrite Hw; destruct (get_is_tx_active _); cbn; lia|]. intros H%side_socket_active; [|done].
    assert (n ∈ holders p) as Hn by (apply Hown; by exists o).
    unfold holders in Hn. rewrite Hl in Hn. cbn in Hn. apply elem_of_app in Hn as [Hn|Hn]; [by left|right].
    apply list_elem_of_fmap in Hn as ([k m]&->&Hn). exists k. by apply elem_find.
  - intros k n Hb k' n' Hf. assert (map_find (tcp_sessions (owner p)) k = Some n) as Hk.
    { unfold map_begin in Hb. destruct (tcp_sessions (owner p)) as [|[j v] m]; [done|]. injection Hb as -> ->.
      cbn. by rewrite Z.eqb_refl. }
    assert (k <= k') as Hle.
    { unfold map_begin in Hb. destruct (tcp_sessions (owner p)) as [|[j v] m]; [done|]. injection Hb as -> ->.
      cbn in Hf, Hm. destruct (Z.eqb_spec k' k); [lia|]. pose proof (find_above _ _ _ _ Hm Hf). lia. }
    apply find_elem, He in Hk as [-> _]. apply find_elem, He in Hf as [-> _]. lia.
Qed.
End Tcp.
