(* ===== verification/ProxyUdp.v ===== *)
(** * The UDP proxy

    [UdpProxySession] keeps one session and replaces it when an error is reported.
    The system binds an endpoint at most once, so that a new session exists only when
    the sockets of all earlier ones are closed; the theorem follows what that means
    for the operations that are still outstanding when a session is replaced. *)

From stdpp Require Import base numbers list sets.
From Stdlib Require Import Lia ZArith.
From S2P Require Import Prelude StdMap LinkLayer CryptoLayer LayerLogic Stack Sockets ProxySession ProxyFacts.

Section Udp.
Context {K : Type} `{ST : !StackObject K}.
Local Abbreviation proxy := (Proxy AsioUdpSocketWrapper K UdpOwner).
Local Abbreviation action := (act proxy).
Context {endpoint : Type} (secure_rx raw_rx : endpoint) (can_bind : list endpoint -> endpoint -> bool).
Context (create_stack : outcome K) (memory : bytes).
Implicit Types (p q : proxy) (o : SessionObject AsioUdpSocketWrapper K) (n : nat).

(** ** Sockets that are bound *)

Definition lower_open o : bool := is_open (udp_socket (lower_socket o)).
Definition upper_open o : bool := is_open (udp_socket (upper_socket o)).
Definition sockets_closed o : Prop := lower_open o = false /\ upper_open o = false.

Lemma bound_at p n o e :
  objects p !! n = Some o -> e ∈ endpoints_of secure_rx raw_rx o -> e ∈ bound secure_rx raw_rx p.
Proof.
  intros Ho He. unfold bound. apply list_elem_of_In, in_concat. exists (endpoints_of secure_rx raw_rx o).
  split; [|by apply list_elem_of_In].
  apply list_elem_of_In, list_elem_of_fmap. exists o. split; [done|]. by eapply list_elem_of_lookup_2.
Qed.

(** A socket that is open is bound. *)
Lemma bound_lower p n o :
  objects p !! n = Some o -> lower_open o = true -> secure_rx ∈ bound secure_rx raw_rx p.
Proof. intros Ho Hop. eapply bound_at; [exact Ho|]. unfold endpoints_of. unfold lower_open in Hop. rewrite Hop. by left. Qed.

Lemma bound_upper p n o :
  objects p !! n = Some o -> upper_open o = true -> raw_rx ∈ bound secure_rx raw_rx p.
Proof.
  intros Ho Hop. eapply bound_at; [exact Ho|]. unfold endpoints_of. unfold upper_open in Hop. rewrite Hop. apply elem_of_app. right. by left.
Qed.

Lemma bound_closed p : Forall sockets_closed (objects p) -> bound secure_rx raw_rx p = [].
Proof.
  unfold bound. induction 1 as [|o l [Hl Hu] _ IH]; [done|]. cbn. unfold endpoints_of at 1.
  unfold lower_open, upper_open in *. by rewrite Hl, Hu, IH.
Qed.

(** ** What nested calls do *)

(** The current session receives from the other station. *)
Definition receiving p : Prop :=
  exists n o, udp_session (owner p) = Some n /\ objects p !! n = Some o /\ lower_open o = true.

(** The sockets of all other sessions are closed. *)
Definition others_closed p : Prop :=
  forall n o, objects p !! n = Some o -> udp_session (owner p) <> Some n -> sockets_closed o.

(** A session is replaced by one that receives, when all others are closed. *)
Record udp_rel p p' : Prop := {
  rel_receiving : receiving p -> receiving p';
  rel_owner : owner p' = owner p \/ receiving p';
  rel_others : others_closed p -> others_closed p';
}.

Definition udp_benign o o' : Prop :=
  lower_open o' = lower_open o /\ (upper_open o' = true -> upper_open o = true).

Lemma benign_closed o o' : udp_benign o o' -> sockets_closed o -> sockets_closed o'.
Proof.
  intros [Hl Hu] [Hl' Hu']. split; [congruence|]. destruct (upper_open o'); [|done]. by rewrite Hu in Hu'.
Qed.

Lemma rx_keeps_open (s : AsioUdpSocketWrapper) : is_open (udp_socket (udp_start_rx_from_socket s).2) = is_open (udp_socket s).
Proof. unfold udp_start_rx_from_socket. by destruct (udp_is_rx_active s). Qed.
Lemma tx_keeps_open (s : AsioUdpSocketWrapper) data :
  is_open (udp_socket (udp_start_tx_to_socket s data).2) = is_open (udp_socket s).
Proof. unfold udp_start_tx_to_socket. by destruct (udp_is_tx_active s). Qed.
Lemma udp_close_closed (s : AsioUdpSocketWrapper) : is_open (udp_socket (try_close_socket s).2) = false.
Proof. by destruct (close_keeps s) as (_&_&_&_&?&_). Qed.

Lemma changed_lookup p n f m o' :
  objects (changed p n f) !! m = Some o' ->
  exists o, objects p !! m = Some o /\ o' = if decide (m = n) then f o else o.
Proof.
  cbn. rewrite list_lookup_alter. destruct (decide (n = m)) as [->|Hn].
  - destruct (objects p !! m) as [o|]; [|done]. intros [= <-]. exists o. by rewrite decide_True.
  - intros H. exists o'. by rewrite decide_False by congruence.
Qed.

(** A change of one object that leaves its sockets open or closes those of a session
    that is not the current one. *)
Lemma rel_changed p n f :
  (forall o, objects p !! n = Some o ->
     udp_benign o (f o) \/ udp_session (owner p) <> Some n /\ sockets_closed (f o)) ->
  udp_rel p (changed p n f).
Proof.
  intros Hf. split; [|by left|].
  - intros (m&o&Hs&Ho&Hop). exists m, (if decide (n = m) then f o else o). split; [done|].
    split; [cbn; rewrite list_lookup_alter; destruct (decide (n = m)) as [->|]; by rewrite Ho|].
    destruct (decide (n = m)) as [<-|]; [|done]. destruct (Hf o Ho) as [[-> _]|[]]; done.
  - intros Hall m o' (o&Ho&->)%changed_lookup Hm. specialize (Hall m o Ho Hm).
    destruct (decide (m = n)) as [->|]; [|done].
    destruct (Hf o Ho) as [Hb|[_ ?]]; [by eapply benign_closed|done].
Qed.

#[local] Instance udp_relation : ProxyRelation udp_rel udp_benign.
Proof.
  split.
  - split; [intros p; split; auto|]. intros p q r [A1 A2 A3] [B1 B2 B3]. split; [tauto| |tauto].
    destruct B2 as [->|]; [|by right]. destruct A2; auto.
  - intros p n f o Ho Hb. apply rel_changed. intros o' Ho'. left. congruence.
  - intros p n. split; [done|by left|done].
  - intros p ls. split; [done|by left|done].
  - intros p n rest ls _ _. split; [done|by left|done].
  - intros p n Hn. apply rel_changed. intros o _. right. split; [|done].
    intros Hs. apply Hn. unfold holders, holds, udp_owner. rewrite Hs. set_solver.
  - intros o. split; [done|]. unfold upper_open. cbn. by rewrite rx_keeps_open.
  - intros o data. split; [done|]. unfold upper_open. cbn. by rewrite tx_keeps_open.
  - intros o. split; [done|]. unfold upper_open. cbn [so_set_upper upper_socket]. by rewrite udp_close_closed.
  - by intros o b.
  - by intros o k.
  - by intros o x.
  - intros o x. split; [|done]. unfold lower_open. cbn. by rewrite rx_keeps_open.
  - intros o x data. split; [|done]. unfold lower_open. cbn. by rewrite tx_keeps_open.
Qed.
#[local] Instance udp_rel_preorder : PreOrder udp_rel := R_preorder udp_rel udp_benign.

Local Abbreviation preserves := (preserves udp_rel).

(** ** The error handler *)

(** One socket for an endpoint. *)
Context (bind_once : forall used e, e ∈ used -> can_bind used e = false).
Context (memory_ok : all_bytes memory).

Lemma udp_object_ok k :
  object_ok (mkSessionObject 0 (AsioUdpSocketWrapper_new new_socket memory) AsioLowerLayer_new
               (AsioUdpSocketWrapper_new new_socket memory) false k : SessionObject _ K).
Proof. split; [|done]. split; cbn; try done. pose proof (zlen_nonneg memory). lia. Qed.

(** When both endpoints can be bound every socket is closed. *)
Lemma binds_closed p :
  can_bind (bound secure_rx raw_rx p) secure_rx = true ->
  can_bind (bound secure_rx raw_rx p ++ [secure_rx]) raw_rx = true -> Forall sockets_closed (objects p).
Proof.
  intros H1 H2. apply Forall_lookup. intros n o Ho. split.
  - destruct (lower_open o) eqn:E; [|done]. rewrite bind_once in H1; [done|by eapply bound_lower].
  - destruct (upper_open o) eqn:E; [|done]. rewrite bind_once in H2; [done|].
    apply elem_of_app. left. by eapply bound_upper.
Qed.

Lemma bind_socket_done used e s :
  bind_socket can_bind memory used e = Done s ->
  s = AsioUdpSocketWrapper_new new_socket memory /\ can_bind used e = true.
Proof. unfold bind_socket. destruct (can_bind used e); [|done]. by intros [= <-]. Qed.

Lemma lift_done {A} (f : proxy -> outcome A) p a p' :
  alift f p = Some (Done (a, p')) -> f p = Done a /\ p' = p.
Proof. unfold alift. destruct (f p); try done. by intros [= -> ->]. Qed.

Section Handlers.
Context (notify : nat -> upper_call -> action bool) (HN : forall n call, preserves (notify n call)).

(** A session that is shut down is no longer the current one, or is kept by the
    check for the end of its operations. *)
Lemma shutdown_current p n u p' :
  proxy_inv p -> udp_session (owner p) = Some n -> Session_shutdown notify n p = Some (Done (u, p')) ->
  proxy_inv p' /\ locals p' = locals p /\ (others_closed p -> others_closed p') /\
  (owner p' = owner p /\ settled n p' \/ receiving p').
Proof.
  intros Hi Hs (b&p1&(u1&q&(o&Ho&Hn&->)%update_done&H1)%abind_inv&H2)%abind_inv.
  pose proof (Forall_lookup_1 _ _ _ _ (inv_objects _ Hi) Ho) as Hok.
  eapply (preserves_run_stack udp_rel udp_benign) in H1 as (Hi1&Hl1&HR1&_);
    [|done|eapply changed_inv; [done..|by apply ok_lower_close]|done].
  apply (check_for_close_settles udp_rel udp_benign) in H2 as (Hi2&Hl2&HR2&Hset); [|done..].
  split; [done|]. split; [by rewrite Hl2, Hl1|]. destruct HR1 as [A1 A2 A3], HR2 as [B1 B2 B3]. split.
  - intros Hall. apply B3, A3. intros m o' (o2&Ho2&->)%changed_lookup Hm.
    rewrite decide_False by (intros ->; by apply Hm). by apply (Hall m).
  - destruct B2 as [E2|]; [|by right]. destruct A2 as [E1|]; [|by right; apply B1]. left. by rewrite E2, E1.
Qed.

(** Starting a session when no other one is left, or the current one has settled. *)
Lemma start_session_keeps p u p' :
  proxy_inv p -> (forall n, udp_session (owner p) = Some n -> settled n p \/ receiving p) ->
  start_session secure_rx raw_rx can_bind create_stack memory notify p = Some (Done (u, p')) ->
  proxy_inv p' /\ locals p' = locals p /\ receiving p' /\ others_closed p'.
Proof.
  intros Hi Hset (p0&q&[= <- <-]&H)%abind_inv. unfold id in H.
  apply abind_inv in H as (lower&q&([-> Hb1]%bind_socket_done&->)%lift_done&H).
  apply abind_inv in H as (upper&q&([-> Hb2]%bind_socket_done&->)%lift_done&H).
  pose proof (binds_closed p Hb1 Hb2) as Hclosed.
  apply abind_inv in H as (k&q&(Hk&->)%lift_done&H).
  apply abind_inv in H as (n&q&[= <- <-]&H). apply abind_inv in H as (u1&q&[= _ <-]&H).
  cbn [objects posted locals owner] in H.
  set (n := length (objects p)) in *. set (o := mkSessionObject 0 _ _ _ _ _) in *.
  match type of H with _ ?x = _ => set (q := x) in H end.
  assert (objects q !! n = Some o) as Hn by (cbn; by rewrite list_lookup_middle).
  assert (others_closed q) as Hall.
  { intros m o' Hm Hne. cbn in Hm, Hne. apply lookup_app_Some in Hm as [Hm|[Hge Hm]]; [by eapply Forall_lookup_1|].
    apply list_lookup_singleton_Some in Hm as [Hm _]. destruct Hne. f_equal. unfold n. lia. }
  assert (receiving q) as Hrec by by exists n, o.
  assert (proxy_inv q) as Hq.
  { destruct Hi as [Hok Hown]. split; [apply Forall_app; split; [done|]; constructor; [apply udp_object_ok|done]|].
    intros x (o'&Ho'&Ha). cbn in Ho'. apply lookup_app_Some in Ho' as [Ho'|[_ Ho']].
    - assert (active p x) as Hx by by exists o'. specialize (Hown x Hx). unfold holders, holds, udp_owner in *. cbn.
      rewrite !elem_of_app in *. destruct Hown as [?|[?|Hown]]; [tauto..|].
      destruct (udp_session (owner p)) as [m|] eqn:Es; [|by apply elem_of_nil in Hown].
      apply list_elem_of_singleton in Hown as ->.
      destruct (Hset m eq_refl) as [Hs|(m'&o2&_&Ho2&Hop)]; [right; left; by apply Hs|].
      destruct (Forall_lookup_1 _ _ _ _ Hclosed Ho2). congruence.
    - apply list_lookup_singleton_Some in Ho' as [_ <-]. done. }
  apply abind_inv in H as (u2&q1&H1&H).
  assert (proxy_inv q1 /\ locals q1 = locals q /\ udp_rel q q1 /\ fresh n q1) as (Hq1&Hl1&HR1&Hf).
  { destruct (udp_session (owner p)) as [old|]; [|injection H1 as _ <-; by split; [|split; [|split; [|exists o]]]].
    pose proof H1 as H1'. apply (preserves_collect udp_rel udp_benign) in H1' as (?&?&?&_); [|done..].
    split; [done|]. split; [done|]. split; [done|]. injection H1 as _ <-. exists o. split; [|done].
    destruct (alive q old) eqn:Ea; [done|]. cbn. rewrite list_lookup_alter_ne; [by rewrite list_lookup_middle|].
    intros ->. unfold alive in Ea. apply bool_decide_eq_false in Ea. apply Ea.
    unfold holders, holds, udp_owner. cbn. set_solver. }
  apply (open_keeps udp_rel udp_benign notify HN) in H as (Hn1&Hi'&Hl'&HR'); [|done..].
  assert (udp_rel q1 p') as HR2.
  { etransitivity; [|exact HR']. apply rel_changed. intros o' _. left. apply (benign_rx udp_rel udp_benign). }
  assert (udp_rel q p') as [C1 C2 C3] by by etransitivity.
  split; [done|]. split; [by rewrite Hl', Hl1|]. auto.
Qed.

Lemma preserves_udp_handler x :
  preserves (udp_on_session_error secure_rx raw_rx can_bind create_stack memory notify x).
Proof.
  intros p u p' Hi _ (q&p0&[= <- <-]&H)%abind_inv. unfold id in H.
  destruct (udp_session (owner p)) as [n|] eqn:Es; [|done]. apply abind_inv in H as (u1&p1&H1&H).
  destruct (shutdown_current p n u1 p1 Hi Es H1) as (Hi1&Hl1&_&Hset).
  apply start_session_keeps in H as (Hi'&Hl'&Hr&Ho); [| |].
  - split; [done|]. split; [by rewrite Hl'|]. split; [|done]. by split; [|right|].
  - done.
  - intros m Hm. destruct Hset as [[E Hset]|]; [|by right]. rewrite E, Es in Hm. injection Hm as <-. by left.
Qed.
End Handlers.

Local Abbreviation handler := (udp_on_session_error secure_rx raw_rx can_bind create_stack memory).
Local Abbreviation step := (udp_step secure_rx raw_rx can_bind create_stack memory).

Lemma preserves_udp_notify fuel n call : preserves (notify_session handler fuel n call).
Proof. apply (preserves_notify udp_rel udp_benign). intros notify HN m. by apply preserves_udp_handler. Qed.

(** ** The invariant between events *)

Record udp_inv p : Prop := {
  ui_proxy : proxy_inv p;
  ui_locals : locals p = [];
  ui_current : udp_session (owner p) = None \/ receiving p;
  ui_others : others_closed p;
}.

Lemma udp_inv_rel p p' :
  udp_inv p -> proxy_inv p' -> locals p' = locals p -> udp_rel p p' -> udp_inv p'.
Proof.
  intros [Hi Hl Hc Ho] Hi' Hl' [A1 A2 A3]. split; [done|congruence| |auto].
  destruct Hc as [Hc|]; [|auto]. destruct A2 as [->|]; auto.
Qed.

(** The completion of an operation closes no socket. *)
Lemma complete_benign p i n (o : SessionObject AsioUdpSocketWrapper K) s :
  objects p !! n = Some o -> is_open (udp_socket s) = is_open (udp_socket (side_socket i o)) ->
  udp_rel p (changed p n (fun o' => so_set_side i o' s)).
Proof.
  intros Ho Hs. apply rel_changed. intros o' Ho'. rewrite Ho in Ho'. injection Ho' as <-. left.
  unfold udp_benign, lower_open, upper_open. destruct i; cbn in *; by rewrite Hs.
Qed.

Lemma udp_step_inv fuel e p p' :
  udp_inv p -> udp_enabled p e -> step fuel e p = Some (Done (tt, p')) -> udp_inv p'.
Proof.
  intros Hu He H. pose proof (preserves_udp_notify fuel) as HN. pose proof (preserves_udp_handler _ HN) as HE.
  pose proof (ui_proxy _ Hu) as Hi.
  destruct e as [| |n t|i n buffer ec|i n ok]; cbn [udp_step udp_enabled] in *.
  - apply start_session_keeps in H as (?&Hl&?&?); [|done..|intros n Hn; congruence].
    split; [done|by rewrite Hl; apply Hu|by right|done].
  - apply (preserves_run_posted udp_rel udp_benign) in H as (?&?&?&_); [by eapply udp_inv_rel|done..].
  - apply (preserves_run_stack udp_rel udp_benign _ HN) in H as (?&?&?&_); [by eapply udp_inv_rel|done..].
  - apply (rx_completes_keeps udp_rel udp_benign _ _ HN HE) in H as (o&Ho&Hi'&Hl&HR); [|done..].
    eapply udp_inv_rel; [done..|]. etransitivity; [|exact HR]. eapply complete_benign; [done|]. by destruct ec.
  - apply (tx_completes_keeps udp_rel udp_benign _ _ HN HE) in H as (o&Ho&Hi'&Hl&HR); [|done..].
    eapply udp_inv_rel; [done..|]. etransitivity; [|exact HR]. eapply complete_benign; [done|]. by destruct ok.
Qed.

Local Abbreviation reachable := (proxy_reachable UdpProxySession_new udp_enabled step).

Lemma udp_reachable_inv p : reachable p -> udp_inv p.
Proof.
  induction 1 as [|p fuel e p' _ IH He H]; [|by eapply udp_step_inv]. split; [|done|by left|by intros n o].
  split; [constructor|]. by intros n (o&Ho&_).
Qed.

(** C19: In every state the event loop of a UDP proxy reaches, whatever its stacks do
    and however often errors made it replace its session: a socket has at most one
    read and one write outstanding; a session with an operation outstanding, whose
    completion will use it, is still held, as the current session or by the check
    that waits for its end; the current session has its secure socket bound, so that
    the proxy receives from the other station; and all sockets of earlier sessions
    are closed. *)
Theorem udp_operations_owned p n o :
  reachable p -> objects p !! n = Some o ->
  (forall i, let s := asio_socket (side_socket i o) in
     (reads s <= 1)%nat /\ (length (writes s) <= 1)%nat /\
     ((0 < reads s)%nat \/ writes s <> [] -> n ∈ posted p \/ udp_session (owner p) = Some n)) /\
  (udp_session (owner p) = Some n /\ lower_open o = true \/
   udp_session (owner p) <> Some n /\ sockets_closed o).
Proof.
  intros [[Hok Hown] Hl Hc Hall]%udp_reachable_inv Ho.
  pose proof (Forall_lookup_1 _ _ _ _ Hok Ho) as Hoo. split.
  - intros i s. destruct (side_socket_ok i o Hoo) as [Hr Hw]. fold s in Hr, Hw.
    split; [rewrite Hr; destruct (get_is_rx_active _); cbn; lia|].
    split; [rewrite Hw; destruct (get_is_tx_active _); cbn; lia|]. intros H%side_socket_active; [|done].
    assert (n ∈ holders p) as Hn by (apply Hown; by exists o).
    unfold holders, holds, udp_owner in Hn. rewrite Hl in Hn. cbn in Hn. apply elem_of_app in Hn as [Hn|Hn]; [by left|right].
    destruct (udp_session (owner p)); [by apply list_elem_of_singleton in Hn as ->|by apply elem_of_nil in Hn].
  - destruct (decide (udp_session (owner p) = Some n)) as [E|E]; [left|right; split; [done|by apply (Hall n)]].
    split; [done|]. destruct Hc as [Hc|(m&o'&Hm&Ho'&Hop)]; congruence.
Qed.
End Udp.
