(* ===== verification/ProxyErrors.v ===== *)
(** * Errors of the proxy's sessions

    What a TCP or UDP proxy does when a socket of a session fails, when a session has
    to give way to a new one, and when an empty datagram arrives.  The stack is any
    whose close notification is that of [AbstractStack] over
    [CryptoLayer::on_lower_close_impl]: it changes its state, notifies the upper
    layer and then uses its state again ([ClosingStack]). *)

From stdpp Require Import base numbers list sets.
From Stdlib Require Import Lia ZArith.
From S2P Require Import Prelude StdMap LinkLayer Session CryptoLayer Stack Sockets ProxySession ProxyFacts ProxyTcp ProxyUdp.

Class ClosingStack (K : Type) `{ST : !StackObject K} := {
  stack_open : K -> bool;
  (* before and after the notification of the upper layer *)
  begin_close : K -> K;
  finish_close : K -> K;
  close_prog :
    stack_notified (K := K) on_lower_close =
      SGet (fun k =>
        if stack_open k
        then SPut (begin_close k)
               (SNotify on_lower_close (fun _ => SGet (fun k => SPut (finish_close k) (SReturn true))))
        else SReturn false);
  begin_closes k : stack_open (begin_close k) = false;
}.

(** ** Objects one after the other *)

Lemma alter_insert {A} (f : A -> A) n (x : A) l :
  (n < length l)%nat -> alter f n (<[n := x]> l) = <[n := f x]> l.
Proof.
  intros Hn. apply list_eq. intros i. rewrite list_lookup_alter.
  destruct (decide (n = i)) as [<-|]; [by rewrite !list_lookup_insert_eq|by rewrite !list_lookup_insert_ne].
Qed.

Section Objects.
Context {Sk K M : Type} `{SW : !IAsioSocketWrapper Sk} `{HO : !Owner M}.
Local Abbreviation proxy := (Proxy Sk K M).
Implicit Types (p : proxy) (o : SessionObject Sk K) (n : nat).

(** The proxy [p] with [o] as the object [n]. *)
Definition put_object p n o : proxy := mkProxy (<[n := o]> (objects p)) (posted p) (locals p) (owner p).

Lemma object_run p n o : objects p !! n = Some o -> n ∈ holders p -> object n p = Some (Done (o, p)).
Proof. intros Ho Hn. unfold object, alive. by rewrite bool_decide_true, Ho. Qed.

Lemma object_dead p n : n ∉ holders p -> object n p = Some Crash.
Proof. intros Hn. unfold object, alive. by rewrite bool_decide_false. Qed.

Lemma update_run p n o f :
  objects p !! n = Some o -> n ∈ holders p -> update n f p = Some (Done (tt, put_object p n (f o))).
Proof.
  intros Ho Hn. unfold update, abind. rewrite (object_run _ _ _ Ho Hn). unfold amodify, put_object.
  do 4 f_equal. apply list_eq. intros i. rewrite list_lookup_alter. destruct (decide (n = i)) as [<-|].
  - rewrite Ho, list_lookup_insert_eq; [done|]. by eapply lookup_lt_Some.
  - by rewrite list_lookup_insert_ne.
Qed.

Lemma put_lookup p n o o' : objects p !! n = Some o' -> objects (put_object p n o) !! n = Some o.
Proof. intros Ho. apply list_lookup_insert_eq. by eapply lookup_lt_Some. Qed.

Lemma put_put p n o o' : put_object (put_object p n o) n o' = put_object p n o'.
Proof. unfold put_object. cbn. by rewrite list_insert_insert_eq. Qed.

Definition close_lower o : SessionObject Sk K := so_set_lower o (lower_layer o) (try_close_socket (lower_socket o)).2.
Definition close_upper o : SessionObject Sk K := so_set_upper o (try_close_socket (upper_socket o)).2.

Context `{LAWS : !SocketLaws Sk} `{ST : !StackObject K} `{CS : !ClosingStack K}.

Lemma close_lower_active o : so_active (close_lower o) = so_active o.
Proof.
  unfold so_active, is_active. cbn. by destruct (close_keeps (lower_socket o)) as (->&->&_).
Qed.
Lemma close_upper_active o : so_active (close_upper o) = so_active o.
Proof.
  unfold so_active, is_active. cbn. by destruct (close_keeps (upper_socket o)) as (->&->&_).
Qed.

(** [Session::shutdown] of a session whose stack is closed. *)
Lemma shutdown_closed_stack notify p n o :
  objects p !! n = Some o -> n ∈ holders p -> stack_open (stack o) = false ->
  Session_shutdown notify n p =
    Some (Done (tt, mkProxy (<[n := close_lower o]> (objects p)) (posted p ++ (if so_active o then [n] else []))
                      (locals p) (owner p))).
Proof.
  intros Ho Hn Hs. unfold Session_shutdown, AsioLowerLayer_close, abind at 1 2.
  rewrite (update_run _ _ _ _ Ho Hn), close_prog. fold (close_lower o). cbn [run_stack]. unfold abind at 1.
  rewrite (object_run (put_object p n (close_lower o)) n (close_lower o)); [|by eapply put_lookup|done].
  cbn [stack close_lower so_set_lower]. rewrite Hs. cbn [run_stack]. unfold aret at 1.
  unfold check_for_close, is_shutdown, abind.
  rewrite (object_run (put_object p n (close_lower o)) n (close_lower o)); [|by eapply put_lookup|done].
  unfold aret. rewrite close_lower_active.
  destruct (so_active o); cbn; [done|]. by rewrite app_nil_r.
Qed.
End Objects.

Section Tcp.
Context {K : Type} `{ST : !StackObject K} `{CS : !ClosingStack K}.
Local Abbreviation proxy := (Proxy AsioTcpSocketWrapper K TcpOwner).
Local Abbreviation action := (act proxy).
Implicit Types (p : proxy) (o : SessionObject AsioTcpSocketWrapper K) (n : nat).

(** The session [n] is in the map, and nothing else holds it. *)
Record in_map p n o : Prop := {
  im_object : objects p !! n = Some o;
  im_find : map_find (tcp_sessions (owner p)) (so_id o) = Some n;
  im_once : n ∉ map snd (map_erase (tcp_sessions (owner p)) (so_id o));
  im_locals : locals p = [];
  im_posted : n ∉ posted p;
}.

(** A session when it is closed. *)
Definition closed_object o : SessionObject AsioTcpSocketWrapper K :=
  close_lower (close_upper (so_set_open (so_set_stack o (finish_close (begin_close (stack o)))) false)).

(** The proxy after an error handler that found the session. *)
Definition removed p (key : Z) (n : nat) (checks : list nat) o : proxy :=
  mkProxy (<[n := o]> (objects p)) (posted p ++ checks) []
    (mkTcpOwner (map_erase (tcp_sessions (owner p)) key) (tcp_session_id (owner p)) (tcp_connecting (owner p))
       (tcp_accepting (owner p))).

(** The error handler of a session whose stack is closed: it is taken out of the map
    and kept while operations are outstanding. *)
Lemma error_handler_run notify p n o :
  in_map p n o -> stack_open (stack o) = false ->
  tcp_error_handler notify n p =
    Some (Done (tt, if so_active o then removed p (so_id o) n [n] (close_lower o)
                    else removed p (so_id o) n [] (destroyed (close_lower o)))).
Proof.
  intros [Ho Hf Honce Hl Hp] Hs. unfold tcp_error_handler. rewrite Ho. unfold on_session_error, abind at 1, aget, id.
  rewrite Hf. unfold with_local, set_sessions, set_owner, collect, abind, amodify. cbn [objects posted locals owner].
  unfold alive at 1.
  rewrite bool_decide_true by (unfold holders; cbn; set_solver).
  erewrite shutdown_closed_stack; [|exact Ho|unfold holders; cbn; set_solver|exact Hs].
  cbn [objects posted locals owner tail]. rewrite Hl. unfold alive. destruct (so_active o).
  - rewrite bool_decide_true by (unfold holders; cbn; set_solver). done.
  - rewrite bool_decide_false.
    + unfold aret, removed. cbn [objects posted locals owner].
      rewrite alter_insert by (by eapply lookup_lt_Some). by rewrite app_nil_r.
    + unfold holders. cbn. rewrite app_nil_r. unfold holds, tcp_owner. cbn. set_solver.
Qed.

Context (fuel : nat).
Local Abbreviation notify := (notify_session (K := K) tcp_error_handler (S fuel)).

(** The transport of an established session closes. *)
Lemma close_runs p n o :
  in_map p n o -> stack_open (stack o) = true -> upper_is_open o = true ->
  run_stack notify n (stack_notified on_lower_close) p =
    if so_active o then Some (Done (true, removed p (so_id o) n [n] (closed_object o))) else Some Crash.
Proof.
  intros Hin Hs Hu. pose proof Hin as [Ho Hf Honce Hl Hp].
  assert (n ∈ holders p) as Hn.
  { unfold holders, holds, tcp_owner. rewrite !elem_of_app. right. right. apply find_elem in Hf.
    apply list_elem_of_fmap. by exists (so_id o, n). }
  rewrite close_prog. cbn [run_stack]. unfold abind at 1. rewrite (object_run _ _ _ Ho Hn), Hs. cbn [run_stack].
  unfold abind at 1. rewrite (update_run _ _ _ _ Ho Hn). unfold abind at 1.
  set (o1 := so_set_stack o (begin_close (stack o))). cbn [notify_session]. unfold AsioUpperLayer_notified, abind at 1.
  rewrite (object_run (put_object p n o1) n o1); [|by eapply put_lookup|done].
  change (upper_is_open o1) with (upper_is_open o). rewrite Hu. unfold abind at 1.
  rewrite (update_run (put_object p n o1) n o1); [|by eapply put_lookup|done]. rewrite put_put.
  set (o2 := so_set_open o1 false). unfold AsioUpperLayer_impl, abind at 1 2.
  rewrite (update_run (put_object p n o2) n o2); [|by eapply put_lookup|done]. rewrite put_put.
  change (so_set_upper o2 _) with (close_upper o2). set (o3 := close_upper o2).
  assert (in_map (put_object p n o3) n o3) as Hin3 by (split; try done; by eapply put_lookup).
  rewrite (error_handler_run _ _ _ _ Hin3) by apply begin_closes. change (so_id o3) with (so_id o).
  assert (so_active o3 = so_active o) as -> by exact (close_upper_active o2).
  unfold aret. destruct (so_active o) eqn:Ea; unfold abind at 1.
  - set (q := removed (put_object p n o3) (so_id o) n [n] (close_lower o3)).
    assert (objects q !! n = Some (close_lower o3)) as Hq.
    { apply list_lookup_insert_eq. cbn; rewrite length_insert. by eapply lookup_lt_Some. }
    assert (n ∈ holders q) as Hnq by (unfold holders; cbn; set_solver).
    rewrite (object_run q n _ Hq Hnq). cbn [run_stack]. unfold abind.
    rewrite (update_run q n _ _ Hq Hnq). cbn [run_stack]. unfold aret, q, put_object, removed. cbn [objects posted locals owner].
    by rewrite !list_insert_insert_eq.
  - rewrite object_dead; [done|]. unfold holders. cbn. rewrite app_nil_r. unfold holds, tcp_owner. cbn. set_solver.
Qed.

Lemma im_holders p n o : in_map p n o -> n ∈ holders p.
Proof.
  intros [_ Hf%find_elem _ _ _]. unfold holders, holds, tcp_owner. rewrite !elem_of_app. right. right.
  apply list_elem_of_fmap. by exists (so_id o, n).
Qed.

Lemma in_map_put p n o o' : in_map p n o -> so_id o' = so_id o -> in_map (put_object p n o') n o'.
Proof. intros [Ho Hf Honce Hl Hp] E. split; rewrite ?E; try done. by eapply put_lookup. Qed.

Context (config_max_sessions : Z) (create_stack : Z -> outcome K) (memory : bytes).
Local Abbreviation step := (tcp_step config_max_sessions create_stack memory (S fuel)).

(** The lower socket after a failed read. *)
Definition failed_read (s : AsioTcpSocketWrapper) (buffer : bytes) : AsioTcpSocketWrapper :=
  mkTcp (tcp_is_tx_active s) false (close (read_completes (tcp_socket s))) buffer.

Lemma lower_error_run p n o buffer :
  objects p !! n = Some o -> n ∈ holders p -> is_open (tcp_socket (lower_socket o)) = true ->
  step (EvRx Lower n buffer None) p =
    abind (run_stack notify n (stack_notified on_lower_close)) (fun _ => aret tt)
      (put_object p n (so_set_lower o (lower_layer o) (failed_read (lower_socket o) buffer))).
Proof.
  intros Ho Hn Hop. cbn [tcp_step]. unfold rx_completes, abind at 1. rewrite (object_run _ _ _ Ho Hn).
  cbn [side_socket]. unfold complete_rx. cbn. unfold tcp_rx_callback, tcp_try_close_socket. cbn. rewrite Hop. cbn.
  unfold abind at 1. by rewrite (update_run _ _ _ _ Ho Hn).
Qed.

(** C39: When a read of the transport of an established TCP session fails, the session
    is taken out of the map, both its sockets are closed and its upper layer is told,
    and it is kept until the operations that are still outstanding have ended.  When
    none is outstanding, the error handler destroys the session inside the
    notification of its own stack, which then uses its state: a use after free. *)
Theorem established_session_lost p n o buffer :
  in_map p n o -> stack_open (stack o) = true -> upper_is_open o = true ->
  is_open (tcp_socket (lower_socket o)) = true ->
  if tcp_is_tx_active (lower_socket o) || is_active (upper_socket o)
  then exists p' o', step (EvRx Lower n buffer None) p = Some (Done (tt, p')) /\
         map_find (tcp_sessions (owner p)) (so_id o) = Some n /\
         tcp_sessions (owner p') = map_erase (tcp_sessions (owner p)) (so_id o) /\
         objects p' !! n = Some o' /\ upper_is_open o' = false /\ stack o' = finish_close (begin_close (stack o)) /\
         is_open (tcp_socket (lower_socket o')) = false /\ is_open (tcp_socket (upper_socket o')) = false /\
         alive p' n = true /\ n ∈ posted p'
  else step (EvRx Lower n buffer None) p = Some Crash.
Proof.
  intros Hin Hs Hu Hop. rewrite (lower_error_run _ _ _ _ (im_object _ _ _ Hin) (im_holders _ _ _ Hin) Hop).
  set (o1 := so_set_lower o (lower_layer o) (failed_read (lower_socket o) buffer)).
  pose proof (in_map_put _ _ _ o1 Hin eq_refl) as Hin1. unfold abind. rewrite (close_runs _ _ _ Hin1 Hs Hu).
  assert (so_active o1 = tcp_is_tx_active (lower_socket o) || is_active (upper_socket o)) as -> by done.
  destruct (_ || _); [|done]. eexists _, (closed_object o1). split; [done|]. split; [apply Hin|]. split; [done|].
  split; [|split; [done|split; [done|split; [done|split; [|split]]]]].
  - cbn. rewrite list_insert_insert_eq. apply list_lookup_insert_eq. eapply lookup_lt_Some, Hin.
  - cbn. unfold tcp_try_close_socket. by destruct (is_open (tcp_socket (upper_socket o))) eqn:E.
  - apply bool_decide_eq_true. unfold holders. cbn. set_solver.
  - cbn. set_solver.
Qed.

(** A TCP proxy that has reached its number of sessions shuts the oldest one down
    to make room for a new one.  When that session is established this is undefined
    behaviour: the shutdown makes the error handler take the session out of the map,
    and the map is then asked to erase it by an iterator that is no longer valid (or
    the session is used after it was destroyed). *)
Theorem kick_established_crashes p n o :
  in_map p n o -> stack_open (stack o) = true -> upper_is_open o = true ->
  map_begin (tcp_sessions (owner p)) = Some (so_id o, n) -> map_ok (tcp_sessions (owner p)) ->
  map_size (tcp_sessions (owner p)) = tcp_max_sessions config_max_sessions ->
  step (EvConnected true) p = Some Crash.
Proof.
  intros [Ho Hf Honce Hl Hp] Hs Hu Hb Hm Hsize. cbn [tcp_step]. unfold connect_callback, abind at 1.
  unfold connect_ended, set_owner, amodify. cbn [negb]. unfold abind at 1, aget, id. cbn [owner tcp_sessions].
  rewrite Hsize, Z.eqb_refl. cbn [awhen]. unfold abind at 1.
  set (q := mkProxy (objects p) (posted p) (locals p) _).
  assert (in_map q n o) as Hin by by split. change (tcp_sessions (owner p)) with (tcp_sessions (owner q)) in Hb, Hm.
  clearbody q. clear p Ho Hf Honce Hl Hp Hsize. unfold kick_oldest, abind at 1 2, aget, id. rewrite Hb.
  unfold Session_shutdown, AsioLowerLayer_close, abind at 1 2 3.
  rewrite (update_run _ _ _ _ (im_object _ _ _ Hin) (im_holders _ _ _ Hin)).
  change (so_set_lower o _ _) with (close_lower o). set (o1 := close_lower o).
  pose proof (in_map_put _ _ _ o1 Hin eq_refl) as Hin1. rewrite (close_runs _ _ _ Hin1 Hs Hu).
  destruct (so_active o1) eqn:Ea; [|done].
  set (r := removed (put_object q n o1) (so_id o1) n [n] (closed_object o1)).
  assert (objects r !! n = Some (closed_object o1)) as Hr.
  { cbn. rewrite list_insert_insert_eq. apply list_lookup_insert_eq. eapply lookup_lt_Some, Hin. }
  unfold check_for_close, is_shutdown, abind at 1 2.
  rewrite (object_run _ _ _ Hr) by (unfold holders; cbn; set_solver). unfold aret at 1.
  destruct (negb (negb _)); cbn [awhen]; unfold aret, post, amodify, erase_iterator, abind, aget, id;
    cbn [owner r removed tcp_sessions put_object]; change (so_id o1) with (so_id o);
    by rewrite (find_erase _ _ _ Hm), Z.eqb_refl.
Qed.

(** A TCP session whose transport fails before it is established is not reported:
    the session stays in the map, the connection of the application stays open, and
    nothing reads from it. *)
Theorem handshake_failure_unreported p n o buffer :
  in_map p n o -> stack_open (stack o) = true -> upper_is_open o = false ->
  is_open (tcp_socket (lower_socket o)) = true ->
  exists p' o', step (EvRx Lower n buffer None) p = Some (Done (tt, p')) /\
    owner p' = owner p /\ posted p' = posted p /\ objects p' !! n = Some o' /\
    is_open (tcp_socket (lower_socket o')) = false /\ upper_socket o' = upper_socket o.
Proof.
  intros Hin Hs Hu Hop. rewrite (lower_error_run _ _ _ _ (im_object _ _ _ Hin) (im_holders _ _ _ Hin) Hop).
  set (o1 := so_set_lower o (lower_layer o) (failed_read (lower_socket o) buffer)).
  pose proof (in_map_put _ _ _ o1 Hin eq_refl) as Hin1. pose proof (im_object _ _ _ Hin1) as Ho1.
  pose proof (im_holders _ _ _ Hin1) as Hn1. set (q := put_object p n o1) in *.
  rewrite close_prog. unfold abind at 1. cbn [run_stack]. unfold abind at 1. rewrite (object_run _ _ _ Ho1 Hn1).
  change (stack o1) with (stack o). rewrite Hs. cbn [run_stack]. unfold abind at 1. rewrite (update_run _ _ _ _ Ho1 Hn1).
  set (o2 := so_set_stack o1 (begin_close (stack o))).
  assert (objects (put_object q n o2) !! n = Some o2) as Ho2 by by eapply put_lookup.
  unfold abind at 1. cbn [notify_session]. unfold AsioUpperLayer_notified, abind at 1. rewrite (object_run _ _ _ Ho2 Hn1).
  change (upper_is_open o2) with (upper_is_open o). rewrite Hu. unfold aret at 1, abind at 1.
  rewrite (object_run _ _ _ Ho2 Hn1). cbn [run_stack]. unfold abind at 1. rewrite (update_run _ _ _ _ Ho2 Hn1).
  unfold aret. eexists _, _. split; [done|]. do 2 (split; [done|]). split; [by eapply put_lookup|done].
Qed.
End Tcp.

(** ** UDP *)

(** A stack that waits when the transport opens, as that of a responder. *)
Class WaitingStack (K : Type) `{CS : ClosingStack K} := {
  opened : K -> K;
  open_prog :
    stack_notified (K := K) on_lower_open =
      SGet (fun k => if stack_open k then SReturn false else SPut (opened k) (SReturn true));
}.

Section Udp.
Context {K : Type} `{WS : WaitingStack K}.
Local Abbreviation proxy := (Proxy AsioUdpSocketWrapper K UdpOwner).
Context {endpoint : Type} (secure_rx raw_rx : endpoint) (can_bind : list endpoint -> endpoint -> bool).
Context (create_stack : outcome K) (memory : bytes).
Implicit Types (p : proxy) (o : SessionObject AsioUdpSocketWrapper K) (n : nat).

(** One socket for an endpoint. *)
Context (bind_once : forall used e, e ∈ used -> can_bind used e = false).

Local Abbreviation handler := (udp_on_session_error secure_rx raw_rx can_bind create_stack memory).
Local Abbreviation step := (udp_step secure_rx raw_rx can_bind create_stack memory).

(** A session cannot be started while another one has its socket open. *)
Lemma start_session_bound notify p n o :
  objects p !! n = Some o -> is_open (udp_socket (lower_socket o)) = true ->
  start_session secure_rx raw_rx can_bind create_stack memory notify p = Some Throw.
Proof.
  intros Ho Hop. unfold start_session, abind, aget, id, alift, bind_socket.
  by rewrite (bind_once _ _ (bound_lower secure_rx raw_rx _ _ _ Ho Hop)).
Qed.

(** The session of the proxy, when the sockets of earlier ones are closed. *)
Record current p n o : Prop := {
  cu_session : udp_session (owner p) = Some n;
  cu_object : objects p !! n = Some o;
  cu_locals : locals p = [];
  cu_posted : n ∉ posted p;
  cu_others m o' : m <> n -> objects p !! m = Some o' -> sockets_closed o';
}.

Lemma cu_holders p n o : current p n o -> n ∈ holders p.
Proof. intros [Hs _ _ _ _]. unfold holders, holds, udp_owner. rewrite Hs. set_solver. Qed.

Lemma cu_read p n o : current p n o -> object n p = Some (Done (o, p)).
Proof. intros H. exact (object_run _ _ _ (cu_object _ _ _ H) (cu_holders _ _ _ H)). Qed.
Lemma cu_update p n o f : current p n o -> update n f p = Some (Done (tt, put_object p n (f o))).
Proof. intros H. exact (update_run _ _ _ _ (cu_object _ _ _ H) (cu_holders _ _ _ H)). Qed.

Lemma current_put p n o o' : current p n o -> current (put_object p n o') n o'.
Proof.
  intros [Hs Ho Hl Hp Hc]. split; try done; [by eapply put_lookup|].
  intros m o2 Hm. cbn. rewrite list_lookup_insert_ne by done. by apply Hc.
Qed.

Context (bind_free : can_bind [] secure_rx = true /\ can_bind [secure_rx] raw_rx = true).
Context (k0 : K) (created : create_stack = Done k0) (created_closed : stack_open k0 = false).

(** Collecting keeps the other objects. *)
Lemma collect_lookup p n m o :
  objects p !! m = Some o -> m <> n ->
  exists p', collect n p = Some (Done (tt, p')) /\ objects p' !! m = Some o /\ length (objects p') = length (objects p) /\
    posted p' = posted p /\ locals p' = locals p /\ owner p' = owner p.
Proof.
  intros Ho Hm. unfold collect, amodify. eexists. split; [done|]. destruct (alive p n); [done|]. cbn.
  by rewrite list_lookup_alter_ne, length_alter.
Qed.

(** When every socket is closed, a new session starts and its socket is open. *)
Lemma start_session_runs notify p n :
  Forall sockets_closed (objects p) -> udp_session (owner p) = Some n -> (n < length (objects p))%nat ->
  exists p' o', start_session secure_rx raw_rx can_bind create_stack memory notify p = Some (Done (tt, p')) /\
    objects p' !! length (objects p) = Some o' /\ is_open (udp_socket (lower_socket o')) = true /\
    length (objects p') = S (length (objects p)) /\ posted p' = posted p /\ locals p' = locals p /\
    udp_session (owner p') = Some (length (objects p)).
Proof.
  intros Hc Hs Hn. unfold start_session, abind at 1 2, aget, id, alift, bind_socket. destruct bind_free as [B1 B2].
  rewrite (bound_closed secure_rx raw_rx _ Hc). cbn [app]. rewrite B1. unfold abind at 1. rewrite B2. unfold abind at 1. rewrite created.
  unfold abind at 1, allocate. unfold abind at 1, set_owner, amodify. cbn [objects posted locals owner]. rewrite Hs.
  set (m := length (objects p)). set (o := mkSessionObject 0 _ _ _ _ _).
  match goal with |- context [abind (collect n) _ ?x] => set (q := x) end.
  assert (objects q !! m = Some o) as Hm by (cbn; by rewrite list_lookup_middle).
  destruct (collect_lookup q n m o Hm) as (q1&Hq1&Hm1&Hlen1&Hp1&Hl1&Ho1); [unfold m; lia|].
  unfold abind. rewrite Hq1. unfold Session_start, AsioLowerLayer_open, abind at 1.
  assert (m ∈ holders q1) as Hh1 by (unfold holders, holds, udp_owner; rewrite Ho1; cbn; set_solver).
  rewrite (update_run _ _ _ _ Hm1 Hh1), open_prog. cbn [run_stack]. unfold abind.
  match goal with |- context [put_object q1 m ?x] => set (o1 := x) end.
  assert (objects (put_object q1 m o1) !! m = Some o1) as Hm2 by by eapply put_lookup.
  rewrite (object_run _ _ _ Hm2 Hh1). change (stack o1) with k0. rewrite created_closed. cbn [run_stack].
  unfold abind. rewrite (update_run _ _ _ _ Hm2 Hh1), put_put. unfold aret.
  eexists _, _. split; [done|]. split; [by eapply put_lookup|]. split; [done|].
  split; [cbn; rewrite length_insert, Hlen1; cbn; rewrite length_app; cbn; unfold m; lia|].
  cbn. rewrite Hp1, Hl1, Ho1. done.
Qed.

(** The error handler of the session when its stack is closed. *)
Lemma udp_handler_runs notify p n o x :
  current p n o -> stack_open (stack o) = false -> is_open (udp_socket (upper_socket o)) = false ->
  exists p' o', handler notify x p = Some (Done (tt, p')) /\
    objects p' !! length (objects p) = Some o' /\ is_open (udp_socket (lower_socket o')) = true /\
    length (objects p') = S (length (objects p)) /\
    posted p' = posted p ++ (if so_active o then [n] else []) /\ locals p' = locals p /\
    udp_session (owner p') = Some (length (objects p)).
Proof.
  intros Hc Hs Hu. pose proof Hc as [Hses Ho Hl Hp Hoth]. unfold udp_on_session_error, abind at 1, aget, id. rewrite Hses.
  unfold abind. rewrite (shutdown_closed_stack _ _ _ _ Ho (cu_holders _ _ _ Hc) Hs).
  match goal with |- context [start_session _ _ _ _ _ _ ?x] => set (q := x) end.
  assert (length (objects q) = length (objects p)) as Hlen by (cbn; by rewrite length_insert).
  destruct (start_session_runs notify q n) as (p'&o'&->&Ho'&Hop&Hlen'&Hp'&Hl'&Hs').
  - apply Forall_lookup. intros m om Hm. cbn in Hm. destruct (decide (m = n)) as [->|Hne].
    + rewrite list_lookup_insert_eq in Hm by (by eapply lookup_lt_Some). injection Hm as <-.
      split; [apply udp_close_closed|done].
    + rewrite list_lookup_insert_ne in Hm by done. by eapply Hoth.
  - done.
  - rewrite Hlen. by eapply lookup_lt_Some.
  - rewrite Hlen in *. exists p', o'. done.
Qed.

(** The error handler of the session when its stack and its upper layer are open. *)
Lemma udp_handler_restarts_twice fuel p n o x :
  current p n o -> stack_open (stack o) = true -> upper_is_open o = true ->
  handler (notify_session handler (S fuel)) x p = Some (if so_active o then Throw else Crash).
Proof.
  intros Hc Hs Hu. unfold udp_on_session_error at 1, abind at 1, aget, id. rewrite (cu_session _ _ _ Hc).
  unfold abind at 1, Session_shutdown, AsioLowerLayer_close, abind at 1 2.
  rewrite (cu_update _ _ _ _ Hc).
  change (so_set_lower o _ _) with (close_lower o). set (o1 := close_lower o).
  pose proof (current_put _ _ _ o1 Hc) as Hc1. set (p1 := put_object p n o1) in *.
  rewrite close_prog. cbn [run_stack]. unfold abind at 1.
  rewrite (cu_read _ _ _ Hc1). change (stack o1) with (stack o). rewrite Hs.
  cbn [run_stack]. unfold abind at 1. rewrite (cu_update _ _ _ _ Hc1).
  set (o2 := so_set_stack o1 (begin_close (stack o))). pose proof (current_put _ _ _ o2 Hc1) as Hc2.
  set (p2 := put_object p1 n o2) in *. unfold abind at 1. cbn [notify_session]. unfold AsioUpperLayer_notified, abind at 1.
  rewrite (cu_read _ _ _ Hc2).
  change (upper_is_open o2) with (upper_is_open o). rewrite Hu. unfold abind at 1.
  rewrite (cu_update _ _ _ _ Hc2). set (o3 := so_set_open o2 false).
  pose proof (current_put _ _ _ o3 Hc2) as Hc3. set (p3 := put_object p2 n o3) in *.
  unfold AsioUpperLayer_impl, abind at 1 2. rewrite (cu_update _ _ _ _ Hc3).
  change (so_set_upper o3 _) with (close_upper o3). set (o4 := close_upper o3).
  pose proof (current_put _ _ _ o4 Hc3) as Hc4. set (p4 := put_object p3 n o4) in *.
  assert (so_active o4 = so_active o) as Ha.
  { unfold o4. rewrite close_upper_active. change (so_active o3) with (so_active o1). apply close_lower_active. }
  destruct (udp_handler_runs (notify_session handler fuel) p4 n o4 n Hc4) as (p5&om&->&Hm&Hop&Hlen&Hp5&Hl5&Hs5);
    [apply begin_closes|apply udp_close_closed|]. rewrite Ha in Hp5. unfold aret at 1, abind at 1.
  assert (n < length (objects p4))%nat as Hn4 by (eapply lookup_lt_Some, Hc4).
  destruct (lookup_lt_is_Some_2 (objects p5) n) as (o5&Ho5); [lia|].
  destruct (so_active o).
  - assert (n ∈ holders p5) as Hn5 by (unfold holders; rewrite Hp5; set_solver).
    rewrite (object_run _ _ _ Ho5 Hn5). cbn [run_stack]. unfold abind at 1. rewrite (update_run _ _ _ _ Ho5 Hn5).
    unfold aret at 1. set (o6 := so_set_stack o5 _). unfold check_for_close, is_shutdown, abind at 1 2.
    assert (objects (put_object p5 n o6) !! n = Some o6) as Ho6 by by eapply put_lookup.
    assert (objects (put_object p5 n o6) !! length (objects p4) = Some om) as Hm6.
    { unfold put_object. cbn [objects]. by rewrite list_lookup_insert_ne by lia. }
    rewrite (object_run _ _ _ Ho6 Hn5). unfold aret at 1.
    destruct (negb (negb _)); cbn [awhen]; unfold aret, post, amodify; by eapply start_session_bound.
  - rewrite object_dead; [done|]. unfold holders, holds, udp_owner. rewrite Hl5, Hp5, Hs5, app_nil_r.
    rewrite (cu_locals _ _ _ Hc4). pose proof (cu_posted _ _ _ Hc4).
    rewrite !elem_of_app. intros [?%elem_of_nil|[?|Hin]]; [done|done|]. apply list_elem_of_singleton in Hin. lia.
Qed.

(** When a read of the raw socket of an established UDP session fails, the proxy
    does not recover: its error handler shuts the session down, which calls the error
    handler again, which starts the new session; the outer call then starts another
    one, whose socket cannot be bound to the endpoint that is in use, and the
    exception ends the process (when no other operation of the session is outstanding
    the session is used after it was destroyed). *)
Theorem udp_error_restarts_twice fuel p n o buffer :
  current p n o -> stack_open (stack o) = true -> upper_is_open o = true ->
  udp_is_rx_open (upper_socket o) = true ->
  step (S fuel) (EvUdpRx Upper n buffer None) p =
    Some (if is_active (lower_socket o) || udp_is_tx_active (upper_socket o) then Throw else Crash).
Proof.
  intros Hc Hs Hu Hrx. cbn [udp_step]. unfold rx_completes, abind at 1.
  rewrite (cu_read _ _ _ Hc).
  cbn [side_socket]. unfold complete_rx. cbn. unfold udp_rx_callback. cbn. rewrite Hrx. unfold abind at 1.
  rewrite (cu_update _ _ _ _ Hc).
  set (o1 := so_set_upper o _). pose proof (current_put _ _ _ o1 Hc) as Hc1.
  assert (so_active o1 = is_active (lower_socket o) || udp_is_tx_active (upper_socket o)) as <- by done.
  apply (udp_handler_restarts_twice fuel _ _ _ n Hc1); done.
Qed.
End Udp.

(** ** An empty datagram *)

(** The cryptographic layer accepts an empty transmission and does nothing: no
    notification follows that it is done. *)
Lemma empty_start_tx `{SER : Ser4cpp.Ser4cpp} {W D L U : Type} (fw : FrameWriter.frame_writer W) c
    `{LL : !LowerLayer L} (clock : nat -> Z) (n : upper_call -> act (World W D L U) unit) v (w : World W D L U) :
  TxState_is_idle (cl_tx_state (w_layer w)) = true ->
  exists w', start_tx_from_upper fw c clock n v [] w = Some (Done (cl_is_open (w_layer w) && w_upper_open w, w')) /\
    TxState_is_idle (cl_tx_state (w_layer w')) = true /\ w_sent w' = w_sent w /\ w_upper w' = w_upper w.
Proof.
  intros Hidle. unfold start_tx_from_upper, is_tx_ready, abind, layer, aget, aret. rewrite Hidle, andb_true_r.
  destruct (cl_is_open (w_layer w) && w_upper_open w) eqn:E; [|by exists w].
  unfold check_transmit, can_transmit_session_data, abind, layer, aget, aret, lower_ready, set_layer, amodify. cbn.
  rewrite andb_false_r. cbn. eexists. done.
Qed.

(** A stack that treats it so. *)
Class EmptyTx (K : Type) `{ST : !StackObject K} := {
  tx_ready : K -> bool;
  empty_tx_prog : stack_start_tx (K := K) [] = SGet (fun k => SReturn (tx_ready k));
}.

Section EmptyDatagram.
Context {K : Type} `{ET : EmptyTx K}.
Context {endpoint : Type} (secure_rx raw_rx : endpoint) (can_bind : list endpoint -> endpoint -> bool).
Context (create_stack : outcome K) (memory : bytes).
Local Abbreviation proxy := (Proxy AsioUdpSocketWrapper K UdpOwner).

(** An empty datagram that arrives at the raw socket of a UDP proxy stops it: the
    stack accepts it and has nothing to transmit, so that it never says that it is
    ready for more, and the raw socket is not read again. *)
Theorem empty_datagram_stalls fuel (p : proxy) n o buffer :
  objects p !! n = Some o -> n ∈ holders p ->
  exists p' o',
    udp_step secure_rx raw_rx can_bind create_stack memory fuel (EvUdpRx Upper n buffer (Some 0)) p =
      Some (Done (tt, p')) /\
    objects p' = <[n := o']> (objects p) /\ stack o' = stack o /\ lower_socket o' = lower_socket o /\
    udp_is_rx_active (upper_socket o') = false /\ udp_is_tx_active (upper_socket o') = udp_is_tx_active (upper_socket o) /\
    udp_session (owner p') = udp_session (owner p).
Proof.
  intros Ho Hn. cbn [udp_step]. unfold rx_completes, abind at 1. rewrite (object_run _ _ _ Ho Hn).
  cbn [side_socket]. unfold complete_rx. cbn. unfold udp_rx_callback. cbn. unfold abind at 1.
  rewrite (update_run _ _ _ _ Ho Hn). set (o1 := so_set_upper o _).
  assert (objects (put_object p n o1) !! n = Some o1) as Ho1 by by eapply put_lookup.
  unfold abind at 1. rewrite (object_run _ _ _ Ho1 Hn). rewrite Z.min_l by apply zlen_nonneg.
  unfold view_bytes. rewrite ztake_0, empty_tx_prog. cbn [run_stack]. unfold abind.
  rewrite (object_run _ _ _ Ho1 Hn). cbn [run_stack]. unfold aret. by exists (put_object p n o1), o1.
Qed.
End EmptyDatagram.
