(* ===== verification/ProxyScenario.v ===== *)
(** * The proxy, executed

    A proxy with a small stack that has the shape of a responder: it waits when the
    transport opens, opens the upper layer at the first bytes it receives, and closes
    as [AbstractStack] does.  The runs below are the concrete cases of the theorems of
    [ProxyTcp] and [ProxyErrors]. *)

From stdpp Require Import base numbers list sets.
From Stdlib Require Import Lia ZArith.
From S2P Require Import Prelude StdMap LinkLayer CryptoLayer Sockets ProxySession ProxyFacts ProxyTcp ProxyUdp ProxyErrors.

(** ** The stack: whether it is open *)

Definition late_notified (call : upper_call) : stack_prog bool bool :=
  match call with
  | on_lower_open => SGet (fun k : bool => if k then SReturn false else SPut true (SReturn true))
  | on_lower_close =>
      SGet (fun k : bool =>
        if k then SPut false (SNotify on_lower_close (fun _ => SGet (fun k => SPut k (SReturn true))))
        else SReturn false)
  | on_lower_tx_ready => SGet (fun k : bool => if k then SNotify on_lower_tx_ready (fun _ => SReturn true) else SReturn false)
  | on_lower_rx_ready =>
      SGet (fun k : bool =>
        if k then SStartRx (fun data => if is_nil data then SReturn true
          else SNotify on_lower_open (fun _ => SStartRx (fun _ => SReturn true)))
        else SReturn false)
  end.

#[export] Instance late_stack : StackObject bool := {|
  stack_notified := late_notified;
  stack_start_tx data := if is_nil data then SGet (fun k => SReturn k) else SStartTx data SReturn;
  stack_start_rx := SReturn [];
  stack_timer _ := SReturn tt;
|}.

#[export, refine] Instance late_closing : ClosingStack bool := {|
  stack_open k := k;
  begin_close _ := false;
  finish_close k := k;
|}.
Proof. all: done. Defined.

#[export, refine] Instance late_waiting : WaitingStack bool := {| opened _ := true |}.
Proof. done. Defined.

#[export, refine] Instance late_empty_tx : EmptyTx bool := {| tx_ready k := k |}.
Proof. done. Defined.

(** ** TCP *)

(** A proxy for one session, with receive buffers of two bytes. *)
Definition example_step : nat -> tcp_event -> act (Proxy AsioTcpSocketWrapper bool TcpOwner) unit :=
  tcp_step 1 (fun _ => Done false) [0; 0].

Fixpoint run_events (events : list tcp_event) (p : Proxy AsioTcpSocketWrapper bool TcpOwner)
    : option (outcome (Proxy AsioTcpSocketWrapper bool TcpOwner)) :=
  match events with
  | [] => Some (Done p)
  | e :: events =>
      match example_step 2 e p with
      | None => None
      | Some (Done (_, p)) => run_events events p
      | Some Exit => Some Exit
      | Some Throw => Some Throw
      | Some Crash => Some Crash
      end
  end.

Definition state_after (events : list tcp_event) : Proxy AsioTcpSocketWrapper bool TcpOwner :=
  match run_events events tcp_started with Some (Done p) => p | _ => tcp_started end.

(** A connection is accepted and the other one opened; then the first bytes arrive. *)
Definition connected : list tcp_event := [EvAccepted true; EvConnected true].
Definition established : list tcp_event := connected ++ [EvRx Lower 0 [7; 0] (Some 1)].

Definition first_session (p : Proxy AsioTcpSocketWrapper bool TcpOwner) : SessionObject AsioTcpSocketWrapper bool :=
  match objects p with o :: _ => o | [] => mkSessionObject 0 (AsioTcpSocketWrapper_new new_socket []) AsioLowerLayer_new
                                             (AsioTcpSocketWrapper_new new_socket []) false false end.

Example established_reads_upper :
  upper_is_open (first_session (state_after established)) = true /\
  reads (tcp_socket (upper_socket (first_session (state_after established)))) = 1%nat /\
  reads (tcp_socket (lower_socket (first_session (state_after established)))) = 1%nat.
Proof. by vm_compute. Qed.

Lemma connected_reachable :
  proxy_reachable tcp_started tcp_enabled example_step (state_after connected).
Proof.
  eapply (preach_step _ _ _ (state_after [EvAccepted true]) 2 (EvConnected true)); [|split; vm_compute; [lia|done]|by vm_compute].
  eapply (preach_step _ _ _ tcp_started 2 (EvAccepted true)); [apply preach_initial|done|by vm_compute].
Qed.

Lemma tcp_operations_owned_witness :
  0 <= 1 /\ all_bytes [0; 0] /\ proxy_reachable tcp_started tcp_enabled example_step (state_after connected) /\
  exists o, objects (state_after connected) !! 0%nat = Some o /\ (0 < reads (tcp_socket (lower_socket o)))%nat /\
    (0%nat ∈ posted (state_after connected) \/
     exists k, map_find (tcp_sessions (owner (state_after connected))) k = Some 0%nat).
Proof.
  assert (all_bytes [0; 0]) as Hb by by repeat constructor.
  split; [lia|]. split; [done|]. split; [exact connected_reachable|].
  eexists. split; [vm_compute; reflexivity|]. split; [vm_compute; lia|].
  refine (proj2 (proj2 (proj1 (tcp_operations_owned 1 (fun _ => Done false) [0; 0] _ Hb _ connected_reachable)
    0%nat _ Lower _)) _); [lia|vm_compute; reflexivity|left; vm_compute; lia].
Defined.

Lemma established_in_map : in_map (state_after established) 0 (first_session (state_after established)).
Proof. split; [by vm_compute..| |by vm_compute|]; vm_compute; set_solver. Qed.

Lemma connected_in_map : in_map (state_after connected) 0 (first_session (state_after connected)).
Proof. split; [by vm_compute..| |by vm_compute|]; vm_compute; set_solver. Qed.

Lemma established_session_lost_witness :
  in_map (state_after established) 0 (first_session (state_after established)) /\
  exists p', example_step 1 (EvRx Lower 0 [0; 0] None) (state_after established) = Some (Done (tt, p')) /\
    tcp_sessions (owner p') = [] /\ posted p' = [0%nat].
Proof.
  split; [exact established_in_map|].
  pose proof (established_session_lost 0 1 (fun _ => Done false) [0; 0] _ _ _ [0; 0] established_in_map) as H.
  assert (tcp_is_tx_active (lower_socket (first_session (state_after established))) ||
          is_active (upper_socket (first_session (state_after established))) = true) as E by by vm_compute.
  rewrite E in H. destruct H as (p'&o'&H&_); [by vm_compute..|].
  exists p'. split; [exact H|]. vm_compute in H. by injection H as <-.
Defined.

Lemma kick_established_crashes_witness :
  in_map (state_after (established ++ [EvAccepted true])) 0 (first_session (state_after established)) /\
  example_step 1 (EvConnected true) (state_after (established ++ [EvAccepted true])) = Some Crash.
Proof.
  assert (in_map (state_after (established ++ [EvAccepted true])) 0 (first_session (state_after established))) as Hin.
  { split; [by vm_compute..| |by vm_compute|]; vm_compute; set_solver. }
  split; [exact Hin|].
  apply (kick_established_crashes 0 1 (fun _ => Done false) [0; 0] _ _ _ Hin); by vm_compute.
Defined.

Lemma handshake_failure_unreported_witness :
  in_map (state_after connected) 0 (first_session (state_after connected)) /\
  exists p', example_step 1 (EvRx Lower 0 [0; 0] None) (state_after connected) = Some (Done (tt, p')) /\
    tcp_sessions (owner p') = [(0, 0%nat)].
Proof.
  split; [exact connected_in_map|].
  destruct (handshake_failure_unreported 0 1 (fun _ => Done false) [0; 0] _ _ _ [0; 0] connected_in_map)
    as (p'&o'&H&Ho&_); [by vm_compute..|].
  exists p'. split; [exact H|]. rewrite Ho. by vm_compute.
Defined.

(** ** UDP, with the endpoints 1 and 2 *)

Definition one_socket (used : list Z) (e : Z) : bool := negb (existsb (Z.eqb e) used).

Lemma one_socket_once used e : e ∈ used -> one_socket used e = false.
Proof.
  intros H%list_elem_of_In. unfold one_socket. rewrite (proj2 (existsb_exists _ _)); [done|].
  exists e. split; [done|apply Z.eqb_refl].
Qed.

Definition udp_example_step : nat -> udp_event -> act (Proxy AsioUdpSocketWrapper bool UdpOwner) unit :=
  udp_step 1 2 one_socket (Done false) [0; 0].

Definition udp_established : Proxy AsioUdpSocketWrapper bool UdpOwner :=
  match udp_example_step 2 EvUdpStart UdpProxySession_new with
  | Some (Done (_, p)) =>
      match udp_example_step 2 (EvUdpRx Lower 0 [7; 0] (Some 1)) p with
      | Some (Done (_, p)) =>
          (* a datagram of the application, transmitted *)
          match udp_example_step 2 (EvUdpRx Upper 0 [8; 0] (Some 1)) p with
          | Some (Done (_, p)) =>
              match udp_example_step 2 (EvUdpTx Lower 0 true) p with Some (Done (_, p)) => p | _ => p end
          | _ => p
          end
      | _ => p
      end
  | _ => UdpProxySession_new
  end.

Definition udp_first_session : SessionObject AsioUdpSocketWrapper bool :=
  match objects udp_established with
  | o :: _ => o
  | [] => mkSessionObject 0 (AsioUdpSocketWrapper_new new_socket []) AsioLowerLayer_new
            (AsioUdpSocketWrapper_new new_socket []) false false
  end.

Lemma udp_established_current : current udp_established 0 udp_first_session.
Proof.
  split; [by vm_compute..|vm_compute; set_solver|]. intros [|m] o Hm H; [by destruct (Hm eq_refl)|]. by vm_compute in H.
Qed.

(** The proxy has started its first session. *)
Definition udp_started : Proxy AsioUdpSocketWrapper bool UdpOwner :=
  match udp_example_step 2 EvUdpStart UdpProxySession_new with Some (Done (_, p)) => p | _ => UdpProxySession_new end.

Lemma udp_started_reachable : proxy_reachable UdpProxySession_new udp_enabled udp_example_step udp_started.
Proof. eapply (preach_step _ _ _ UdpProxySession_new 2 EvUdpStart); [apply preach_initial|done|by vm_compute]. Qed.

Lemma udp_operations_owned_witness :
  all_bytes [0; 0] /\ proxy_reachable UdpProxySession_new udp_enabled udp_example_step udp_started /\
  exists o, objects udp_started !! 0%nat = Some o /\ reads (udp_socket (lower_socket o)) = 1%nat /\
    (0%nat ∈ posted udp_started \/ udp_session (owner udp_started) = Some 0%nat).
Proof.
  assert (all_bytes [0; 0]) as Hb by by repeat constructor.
  split; [done|]. split; [exact udp_started_reachable|].
  eexists. split; [vm_compute; reflexivity|]. split; [vm_compute; reflexivity|].
  refine (proj2 (proj2 (proj1 (udp_operations_owned 1 2 one_socket (Done false) [0; 0] one_socket_once Hb _ 0%nat _
    udp_started_reachable _) Lower)) _); [vm_compute; reflexivity|left; vm_compute; lia].
Defined.

Lemma udp_error_restarts_twice_witness :
  current udp_established 0 udp_first_session /\
  exists r, udp_example_step 1 (EvUdpRx Upper 0 [0; 0] None) udp_established = Some r /\ r = Throw.
Proof.
  split; [exact udp_established_current|]. eexists. split; [|reflexivity].
  exact (udp_error_restarts_twice 1 2 one_socket (Done false) [0; 0] one_socket_once (conj eq_refl eq_refl)
    false eq_refl eq_refl 0 udp_established 0 udp_first_session [0; 0] udp_established_current eq_refl eq_refl eq_refl).
Defined.

Lemma empty_datagram_stalls_witness :
  objects udp_established !! 0%nat = Some udp_first_session /\
  exists p' o', udp_example_step 1 (EvUdpRx Upper 0 [0; 0] (Some 0)) udp_established = Some (Done (tt, p')) /\
    objects p' = [o'] /\ udp_is_rx_active (upper_socket o') = false.
Proof.
  split; [by vm_compute|].
  destruct (empty_datagram_stalls 1 2 one_socket (Done false) [0; 0] 1 udp_established 0 udp_first_session [0; 0])
    as (p'&o'&H&Ho&_&_&Hr&_); [by vm_compute|vm_compute; set_solver|]. exists p', o'.
  split; [exact H|]. split; [by rewrite Ho|done].
Defined.
