(* ===== verification/ProxyMain.v ===== *)
(** * The proxy's program

    [exe/proxy/src/main.cpp]: the command line, the construction of all sessions, their
    start and the event loop.  What happens to the process is a log of the sessions
    constructed and started and of the entry of the loop, with the outcome; an exception
    keeps the log, so that the theorem can say what had been done when it was thrown.
    The sessions are those of [ProxySession].

    Parameters stand for yaml-cpp ([YAML::LoadFile]), for asio and the system below it
    (which addresses parse, which endpoints can be listened on and bound, what the event
    loop ends with) and for the stacks of the factories. *)

From stdpp Require Import base numbers list strings gmap.
From Stdlib Require Import Lia ZArith.
From S2P Require Import Prelude Ser4cpp Crypto Sodium StdMap LinkLayer CryptoLayer KeyStore Yaml ProxyConfig Sockets ProxySession.
From S2P Require Import ProxyScenario ConfigFacts.

(** ** Actions of the process *)

Inductive process_event :=
| ECreated (f : session_factory)
| EStarted (f : session_factory)
| ELoop.

(** [None]: the bound on nested notifications was not enough. *)
Definition traced (A : Type) : Type := option (list process_event * outcome A).

Definition tret {A} (a : A) : traced A := Some ([], Done a).
Definition tlift {A} (o : outcome A) : traced A := Some ([], o).
Definition tell (e : process_event) : traced unit := Some ([e], Done tt).
Definition tbind {A B} (m : traced A) (k : A -> traced B) : traced B :=
  match m with
  | None => None
  | Some (log, Done a) => match k a with Some (more, r) => Some (log ++ more, r) | None => None end
  | Some (log, Exit) => Some (log, Exit)
  | Some (log, Throw) => Some (log, Throw)
  | Some (log, Crash) => Some (log, Crash)
  end.

Declare Scope traced_scope.
Delimit Scope traced_scope with traced.
Notation "x <~ m ; k" := (tbind m (fun x : _ => k)) (at level 20, m at level 100, k at level 200) : traced_scope.
Local Open Scope traced_scope.

(** ** The program *)

Section Main.
Context `{SER : Ser4cpp} `{YAML : YamlLib} `{SODIUM : Libsodium} {K : Type} `{ST : !StackObject K}.

(** What the program finds. *)
Record environment := mkEnvironment {
  env_load_file : string -> outcome Node;
  env_files : string -> option bytes;
  env_now : Z;
  env_open_port : SerialSettings -> bool;
  env_logs : LogLevelValues;
  env_valid_address : string -> bool;
  env_can_listen : list IPEndpoint -> IPEndpoint -> bool;
  env_can_bind : list IPEndpoint -> IPEndpoint -> bool;
  env_make_stack : CryptoState -> StackFactory -> registry -> outcome K;
  env_memory : bytes;
}.

(** [std::unique_ptr<IProxySession>] *)
Inductive proxy_session :=
| PTcp (config : TcpConfig) (factory : StackFactory) (p : Proxy AsioTcpSocketWrapper K TcpOwner)
| PUdp (config : UdpConfig) (factory : StackFactory) (p : Proxy AsioUdpSocketWrapper K UdpOwner).

(** The endpoints on which sessions listen, and those their sockets are bound to. *)
Definition listening (ss : list proxy_session) : list IPEndpoint :=
  concat (map (fun s => match s with PTcp config _ _ => [listen config] | PUdp _ _ _ => [] end) ss).
Definition in_use (ss : list proxy_session) : list IPEndpoint :=
  concat (map (fun s => match s with
    | PTcp _ _ _ => []
    | PUdp config _ p => bound (secure_rx_endpoint config) (raw_rx_endpoint config) p
    end) ss).

Context (env : environment).

(** [factory(logger, executor)]: the constructors of [TcpProxySession], which listens,
    and of [UdpProxySession]. *)
Definition create_session (created : list proxy_session) (f : session_factory) : outcome proxy_session :=
  match f with
  | TcpSession _ config factory =>
      if env_valid_address env (ip_address (listen config)) && env_can_listen env (listening created) (listen config) &&
         env_valid_address env (ip_address (connect config))
      then Done (PTcp config factory TcpProxySession_new) else Throw
  | UdpSession _ config factory =>
      if forallb (fun e => env_valid_address env (ip_address e))
           [raw_tx_endpoint config; raw_rx_endpoint config; secure_tx_endpoint config; secure_rx_endpoint config]
      then Done (PUdp config factory UdpProxySession_new) else Throw
  end.

Fixpoint create_sessions (created : list proxy_session) (factories : list session_factory) : traced (list proxy_session) :=
  match factories with
  | [] => tret created
  | f :: factories =>
      s <~ tlift (create_session created f);
      _ <~ tell (ECreated f);
      create_sessions (created ++ [s]) factories
  end.

(** [s->start()], with the sessions started before it. *)
Definition start_proxy_session (c : CryptoState) (sources : registry) (fuel : nat) (running : list proxy_session)
    (s : proxy_session) : traced proxy_session :=
  match s with
  | PTcp config factory p =>
      match TcpProxySession_start p with
      | None => None
      | Some r => tlift (let* '(_, p) := r in Done (PTcp config factory p))
      end
  | PUdp config factory p =>
      match udp_step (secure_rx_endpoint config) (raw_rx_endpoint config)
              (fun used e => env_can_bind env (in_use running ++ used) e)
              (env_make_stack env c factory sources) (env_memory env) fuel EvUdpStart p with
      | None => None
      | Some r => tlift (let* '(_, p) := r in Done (PUdp config factory p))
      end
  end.

Fixpoint start_sessions (c : CryptoState) (sources : registry) (fuel : nat) (running : list proxy_session)
    (sessions : list (session_factory * proxy_session)) : traced (list proxy_session) :=
  match sessions with
  | [] => tret running
  | (f, s) :: sessions =>
      s <~ start_proxy_session c sources fuel running s;
      _ <~ tell (EStarted f);
      start_sessions c sources fuel (running ++ [s]) sessions
  end.

(** [run]; [loop] is what [io_context::run()] ends with. *)
Definition run_proxy (c : CryptoState) (fuel : nat) (loop : list proxy_session -> outcome unit) (path : string)
  : traced unit :=
  root <~ tlift (env_load_file env path);
  configured <~ tlift (configure_sessions (env_files env) (env_now env) (env_open_port env) (env_logs env) root);
  sessions <~ create_sessions [] configured.1;
  running <~ start_sessions c configured.2 fuel [] (zip configured.1 sessions);
  _ <~ tell ELoop;
  tlift (loop running).

(** The handler of [main]: an exception is printed and ends in -1. *)
Definition try_run (m : traced unit) : traced Z :=
  match m with
  | None => None
  | Some (log, Done _) => Some (log, Done 0)
  | Some (log, Throw) => Some (log, Done (-1))
  | Some (log, Exit) => Some (log, Exit)
  | Some (log, Crash) => Some (log, Crash)
  end.

Definition proxy_main (fuel : nat) (loop : list proxy_session -> outcome unit) (argv : list string) : traced Z :=
  c <~ tlift (sodium_initialize Crypto_static);
  match argv with
  | [_; arg] => if String.eqb arg "-v" then tret 0 else try_run (run_proxy c fuel loop arg)
  | _ => tret (-1)
  end.

(** ** Order *)

(** What a log may say: sessions are constructed in the order of the document and
    started in that order, none before all are constructed, and the loop is entered
    when all are started. *)
Definition orderly (fs : list session_factory) (log : list process_event) : Prop :=
  exists created started loop,
    log = map ECreated created ++ map EStarted started ++ loop /\
    created `prefix_of` fs /\ started `prefix_of` fs /\
    (started <> [] -> created = fs) /\
    (loop = [] \/ loop = [ELoop] /\ created = fs /\ started = fs).

(** [config::read] of the file at a path. *)
Definition read_document (path : string) : outcome (list session_factory * registry) :=
  let* root := env_load_file env path in
  configure_sessions (env_files env) (env_now env) (env_open_port env) (env_logs env) root.

(** The sessions constructed from these factories, one after the other. *)
Inductive constructed : list session_factory -> list proxy_session -> Prop :=
| constructed_none : constructed [] []
| constructed_more fs ss f s :
    constructed fs ss -> create_session ss f = Done s -> constructed (fs ++ [f]) (ss ++ [s]).

(** The sessions started, one after the other. *)
Inductive started (c : CryptoState) (sources : registry) (fuel : nat) :
  list (session_factory * proxy_session) -> list proxy_session -> Prop :=
| started_none : started c sources fuel [] []
| started_more fss running f s s' :
    started c sources fuel fss running -> start_proxy_session c sources fuel running s = Some ([], Done s') ->
    started c sources fuel (fss ++ [(f, s)]) (running ++ [s']).

(** What became of an action that did not return. *)
Definition failed {A} (o : outcome A) (ending : outcome unit) : Prop :=
  match o with
  | Done _ => False
  | Throw => ending = Throw
  | Exit => ending = Exit
  | Crash => ending = Crash
  end.

(** The ways a run ends, with what it has done: the document is not accepted, a
    session cannot be constructed, one cannot be started, or the loop ends. *)
Inductive run_ends (c : CryptoState) (fuel : nat) (loop : list proxy_session -> outcome unit) (path : string) :
  list process_event -> outcome unit -> Prop :=
| ends_unread ending : failed (read_document path) ending -> run_ends c fuel loop path [] ending
| ends_in_construction fs sources before f after ss :
    read_document path = Done (fs, sources) -> fs = before ++ f :: after -> constructed before ss ->
    create_session ss f = Throw -> run_ends c fuel loop path (map ECreated before) Throw
| ends_in_start fs sources ss before f s after running o ending :
    read_document path = Done (fs, sources) -> constructed fs ss -> zip fs ss = before ++ (f, s) :: after ->
    started c sources fuel before running -> start_proxy_session c sources fuel running s = Some ([], o) ->
    failed o ending -> run_ends c fuel loop path (map ECreated fs ++ map EStarted (map fst before)) ending
| ends_in_loop fs sources ss running :
    read_document path = Done (fs, sources) -> constructed fs ss -> started c sources fuel (zip fs ss) running ->
    run_ends c fuel loop path (map ECreated fs ++ map EStarted fs ++ [ELoop]) (loop running).

(** The status an ending is reported with: 0 after a regular one and -1 after an
    exception; the others do not return. *)
Definition exit_status (ending : outcome unit) : outcome Z :=
  match ending with Done _ => Done 0 | Throw => Done (-1) | Exit => Exit | Crash => Crash end.

Lemma failed_throw {A} (o : outcome A) : o = Throw -> failed o Throw.
Proof. by intros ->. Qed.

Lemma create_session_throws ss f o : create_session ss f = o -> (exists s, o = Done s) \/ o = Throw.
Proof. intros <-. unfold create_session. destruct f; case_match; eauto. Qed.

Lemma create_sessions_runs before created fs log r :
  constructed before created -> create_sessions created fs = Some (log, r) ->
  (exists a f b ss, fs = a ++ f :: b /\ log = map ECreated a /\ constructed (before ++ a) ss /\
     create_session ss f = Throw /\ r = Throw) \/
  (exists ss, log = map ECreated fs /\ r = Done ss /\ constructed (before ++ fs) ss).
Proof.
  revert before created log. induction fs as [|f fs IH]; intros before created log Hc; cbn [create_sessions].
  { intros [= <- <-]. right. exists created. by rewrite app_nil_r. }
  unfold tlift, tell. cbn [tbind]. destruct (create_session_throws created f _ eq_refl) as [(s&E)|E]; rewrite E.
  2: { intros [= <- <-]. left. exists [], f, fs, created. by rewrite app_nil_r. }
  cbn [tbind]. destruct (create_sessions (created ++ [s]) fs) as [[more r']|] eqn:E'; [|done].
  intros [= <- <-].
  destruct (IH (before ++ [f]) _ _ (constructed_more _ _ _ _ Hc E) E') as [(a&g&b&ss&->&->&Hss&Hg&->)|(ss&->&->&Hss)];
    rewrite <- app_assoc in Hss; [left; by exists (f :: a), g, b, ss|right; by exists ss].
Qed.

Lemma start_session_silent c sources fuel running s log r :
  start_proxy_session c sources fuel running s = Some (log, r) -> log = [].
Proof. unfold start_proxy_session, tlift. intros E. destruct s; repeat case_match; by simplify_eq. Qed.

Lemma start_sessions_runs c sources fuel before running fss log r :
  started c sources fuel before running -> start_sessions c sources fuel running fss = Some (log, r) ->
  (exists a f s b running' o, fss = a ++ (f, s) :: b /\ log = map EStarted (map fst a) /\
     started c sources fuel (before ++ a) running' /\ start_proxy_session c sources fuel running' s = Some ([], o) /\
     match o with Done _ => False | Throw => r = Throw | Exit => r = Exit | Crash => r = Crash end) \/
  (exists running', log = map EStarted (map fst fss) /\ r = Done running' /\
     started c sources fuel (before ++ fss) running').
Proof.
  revert before running log. induction fss as [|[f s] fss IH]; intros before running log Hs; cbn [start_sessions].
  { intros [= <- <-]. right. exists running. by rewrite app_nil_r. }
  destruct (start_proxy_session c sources fuel running s) as [[log0 r0]|] eqn:E0; [|done].
  pose proof (start_session_silent _ _ _ _ _ _ _ E0) as ->. unfold tell. cbn [tbind].
  destruct r0 as [s'| | |].
  2-4: intros [= <- <-]; left; eexists [], f, s, fss, running, _; rewrite app_nil_r; done.
  cbn [tbind]. destruct (start_sessions c sources fuel (running ++ [s']) fss) as [[more r']|] eqn:E'; [|done].
  intros [= <- <-].
  destruct (IH (before ++ [(f, s)]) _ _ (started_more _ _ _ _ _ _ _ _ Hs E0) E')
    as [(a&g&t&b&run'&o&->&->&Hrun&Hg&Ho)|(run'&->&->&Hrun)]; rewrite <- app_assoc in Hrun;
    [left; by exists ((f, s) :: a), g, t, b, run', o|right; by exists run'].
Qed.

Lemma constructed_length fs ss : constructed fs ss -> length ss = length fs.
Proof. induction 1; rewrite ?length_app; cbn; lia. Qed.

(** A run ends in one of the four ways. *)
Lemma run_proxy_ends c fuel loop path log r :
  run_proxy c fuel loop path = Some (log, r) -> run_ends c fuel loop path log r.
Proof.
  unfold run_proxy, tlift. assert (read_document path = read_document path) as Eread by done.
  unfold read_document at 1 in Eread.
  destruct (env_load_file env path) as [root| | |] eqn:E0; cbn [tbind obind] in *;
    [|intros [= <- <-]; apply ends_unread; by rewrite <- Eread..].
  destruct (configure_sessions _ _ _ _ root) as [[fs sources]| | |] eqn:E1; cbn [tbind] in *;
    [|intros [= <- <-]; apply ends_unread; by rewrite <- Eread..]. cbn [fst snd]. symmetry in Eread.
  destruct (create_sessions [] fs) as [[log1 r1]|] eqn:E2; [|done].
  destruct (create_sessions_runs [] [] _ _ _ constructed_none E2) as [(a&f&b&ss&->&->&Hss&Hf&->)|(ss&->&->&Hss)].
  { cbn [tbind]. intros [= <- <-]. by eapply ends_in_construction. }
  cbn [tbind]. assert (map fst (zip fs ss) = fs) as Ezip by (apply (fst_zip fs ss); pose proof (constructed_length _ _ Hss); cbn in *; lia).
  destruct (start_sessions c sources fuel [] (zip fs ss)) as [[log2 r2]|] eqn:E3; [|done].
  destruct (start_sessions_runs _ _ _ [] [] _ _ _ (started_none _ _ _) E3)
    as [(a&f&s&b&running&o&Ez&->&Hrun&Hs&Ho)|(running&->&->&Hrun)].
  - destruct o; [done|..]; subst r2; cbn [tbind]; intros [= <- <-]; by eapply ends_in_start.
  - rewrite Ezip. cbn [tbind tell]. intros [= <- <-]. by eapply ends_in_loop.
Qed.

(** However a run ends, it was orderly. *)
Lemma run_ends_orderly c fuel loop path log ending fs sources :
  run_ends c fuel loop path log ending -> read_document path = Done (fs, sources) ->
  orderly fs log /\ (ending = Done tt -> ELoop ∈ log).
Proof.
  intros H Hread. destruct H as [e Hf|fs' src before f after ss Hr -> _ _|fs' src ss before f s after running o e Hr Hss Hz _ _ Hf|fs' src ss running Hr Hss _].
  - by rewrite Hread in Hf.
  - rewrite Hread in Hr. injection Hr as -> ->. split; [|done]. exists before, [], []. rewrite !app_nil_r.
    split; [done|]. split; [by eexists|]. split; [apply prefix_nil|]. split; [done|by left].
  - rewrite Hread in Hr. injection Hr as <- <-. split; [|by destruct o; cbn in Hf; subst].
    assert (map fst (zip fs ss) = fs) as Ezip by (apply (fst_zip fs ss); pose proof (constructed_length _ _ Hss); lia).
    exists fs, (map fst before), []. rewrite app_nil_r. split; [done|]. split; [done|].
    split; [|split; [done|by left]]. rewrite <- Ezip, Hz, map_app. by eexists.
  - rewrite Hread in Hr. injection Hr as <- <-. split; [|set_solver].
    exists fs, fs, [ELoop]. split; [done|]. split; [done|]. split; [done|]. split; [done|by right].
Qed.

(** ** The start returns *)

(** A stack program that notifies nobody. *)
Inductive silent {A} : stack_prog K A -> Prop :=
| silent_return a : silent (SReturn a)
| silent_get k : (forall s, silent (k s)) -> silent (SGet k)
| silent_put s k : silent k -> silent (SPut s k)
| silent_is_tx_ready k : (forall b, silent (k b)) -> silent (SIsTxReady k)
| silent_start_tx data k : (forall b, silent (k b)) -> silent (SStartTx data k)
| silent_start_rx k : (forall data, silent (k data)) -> silent (SStartRx k).

Definition returning {P A} (m : act P A) : Prop := forall p, m p <> None.

Lemma returning_bind {P A B} (m : act P A) (k : A -> act P B) :
  returning m -> (forall a, returning (k a)) -> returning (abind m k).
Proof.
  intros Hm Hk p. specialize (Hm p). unfold abind.
  destruct (m p) as [[[a p']| | |]|] eqn:E; try done. apply Hk.
Qed.

Lemma returning_object (n : nat) : returning (object (Sk := AsioUdpSocketWrapper) (K := K) (M := UdpOwner) n).
Proof. intros p. unfold object. by repeat case_match. Qed.

Ltac returning_tac :=
  repeat first
    [ apply returning_bind; [|intros ?]
    | apply returning_object
    | match goal with |- returning (if ?b then _ else _) => destruct b | |- returning (match ?x with _ => _ end) => destruct x end
    | intros ?; unfold aget, alift, aret, amodify, set_owner, collect, allocate; by repeat case_match ].

Lemma returning_update n f : returning (update (Sk := AsioUdpSocketWrapper) (K := K) (M := UdpOwner) n f).
Proof. unfold update. returning_tac. Qed.

Lemma returning_run_stack {A} notify n (prog : stack_prog K A) :
  silent prog -> returning (run_stack (Sk := AsioUdpSocketWrapper) (M := UdpOwner) notify n prog).
Proof.
  induction 1; cbn [run_stack]; unfold lower_tx_ready, lower_tx, lower_rx; returning_tac; try done;
    by apply returning_update.
Qed.

(** Opening a stack sends or waits; it does not call the application. *)
Definition opens_silently : Prop := silent (stack_notified on_lower_open).

Lemma start_proxy_session_returns c sources fuel running s :
  opens_silently -> start_proxy_session c sources fuel running s <> None.
Proof.
  intros Ho. destruct s as [config factory p|config factory p]; cbn [start_proxy_session].
  { done. }
  unfold udp_step, UdpProxySession_start.
  assert (forall bind stack, returning (start_session (secure_rx_endpoint config) (raw_rx_endpoint config) bind
            stack (env_memory env) (notify_session (udp_on_session_error (secure_rx_endpoint config)
              (raw_rx_endpoint config) bind stack (env_memory env)) fuel))) as Hr.
  { intros bind stack. unfold start_session, Session_start, AsioLowerLayer_open. returning_tac;
      first [by apply returning_run_stack | apply returning_update]. }
  unfold tlift. case_match; [done|]. exfalso. by eapply Hr.
Qed.

Lemma tbind_returns {A B} (m : traced A) (k : A -> traced B) :
  m <> None -> (forall a, k a <> None) -> tbind m k <> None.
Proof.
  intros Hm Hk. destruct m as [[log []]|]; cbn [tbind]; try done.
  specialize (Hk a). by destruct (k a) as [[]|].
Qed.

Lemma create_sessions_returns created fs : create_sessions created fs <> None.
Proof.
  revert created. induction fs as [|f fs IH]; intros created; cbn [create_sessions]; [done|].
  apply tbind_returns; [done|]. intros s. by apply tbind_returns.
Qed.

Lemma start_sessions_returns c sources fuel running fss :
  opens_silently -> start_sessions c sources fuel running fss <> None.
Proof.
  intros Ho. revert running. induction fss as [|[f s] fss IH]; intros running; cbn [start_sessions]; [done|].
  apply tbind_returns; [by apply start_proxy_session_returns|]. intros s'. by apply tbind_returns.
Qed.

Lemma run_returns c fuel loop path : opens_silently -> run_proxy c fuel loop path <> None.
Proof.
  intros Ho. unfold run_proxy. repeat (apply tbind_returns; [done|intros ?]).
  apply tbind_returns; [apply create_sessions_returns|]. intros ss.
  apply tbind_returns; [by apply start_sessions_returns|]. intros running. by apply tbind_returns.
Qed.

(** C21: The proxy program ends when its event loop does, and keeps order.  With a
    wrong number of arguments it returns -1 and with [-v] it returns 0, without
    touching anything.  Otherwise its run ends in one of four ways: the document is
    not accepted and nothing is constructed; the constructor of a session throws, when
    those before it in the document are constructed and none is started; a session
    does not start, when all are constructed and those before it are started; or the
    loop ends, which is entered when all are started.  It returns -1 if this end is
    an exception, 0 if the loop returned and in no other case, and an exit or a crash
    is passed on.  With stacks whose opening calls nobody above them, no bound on
    nested notifications keeps it from ending. *)
Theorem proxy_main_orderly fuel loop argv :
  sodium_init = 0 ->
  (forall log r, proxy_main fuel loop argv = Some (log, r) ->
    (length argv <> 2%nat /\ log = [] /\ r = Done (-1)) \/
    (exists program, argv = [program; "-v"%string] /\ log = [] /\ r = Done 0) \/
    (exists program path ending, argv = [program; path] /\ path <> "-v"%string /\
       run_ends sodium_crypto fuel loop path log ending /\ r = exit_status ending /\
       forall fs sources, read_document path = Done (fs, sources) ->
         orderly fs log /\ (r = Done 0 -> ELoop ∈ log))) /\
  (opens_silently -> proxy_main fuel loop argv <> None).
Proof.
  intros Hs. unfold proxy_main.
  assert (sodium_initialize Crypto_static = Done sodium_crypto) as ->.
  { unfold sodium_initialize. by rewrite Hs. }
  cbn [tlift tbind]. destruct argv as [|program [|arg [|x argv]]]; cbn [length].
  1,2,4: split; [intros log r [= <- <-]; left; split; [lia|done]|done].
  destruct (String.eqb_spec arg "-v") as [->|Hv].
  { split; [|done]. intros log r [= <- <-]. right; left. by exists program. }
  split.
  - intros log r. destruct (run_proxy _ _ _ arg) as [[log0 r0]|] eqn:E; [|by intros [=]]. intros Hrun.
    right; right. exists program, arg, r0. split; [done|]. split; [done|].
    assert (log = log0 /\ r = exit_status r0) as [-> ->] by (destruct r0; cbn in Hrun; by injection Hrun as <- <-).
    pose proof (run_proxy_ends _ _ _ _ _ _ E) as Hends. split; [done|]. split; [done|].
    intros fs sources Hread. destruct (run_ends_orderly _ _ _ _ _ _ _ _ Hends Hread) as [Ho Hl].
    split; [done|]. destruct r0 as [[]| | |]; cbn; [by intros _; apply Hl|done..].
  - intros Ho. pose proof (run_returns sodium_crypto fuel loop arg Ho) as Hret.
    by destruct (run_proxy _ _ _ arg) as [[log []]|].
Qed.
End Main.

(** ** Executed *)

Section Witness.
Local Existing Instances tree_yaml ser4cpp_reference.

(** Two sessions in the document; [can_bind] is what the system permits. *)
Definition two_sessions : yaml_tree :=
  YMap [("qkd_sources", YSequence []); ("sessions", YSequence [initiator_node; responder_node])]%string.

Definition host (can_bind : list IPEndpoint -> IPEndpoint -> bool) : environment (K := bool) :=
  mkEnvironment (fun path => if String.eqb path "proxy.yaml" then Done two_sessions else Throw) test_files 0
    (fun _ => true) test_logs (fun _ => true) (fun _ _ => true) can_bind (fun _ _ _ => Done false) [0; 0].

Definition run_host can_bind loop argv : traced Z := proxy_main (ST := late_stack) (host can_bind) 10 loop argv.

(** The names of the actions, for the examples. *)
Definition action_names (log : list process_event) : list string :=
  map (fun e => match e with ECreated _ => "created" | EStarted _ => "started" | ELoop => "loop" end)%string log.

(** The document is read, the sessions are constructed and started, and the loop ends
    with an exception. *)
Lemma proxy_main_orderly_witness :
  exists log ending,
    run_host (fun _ _ => true) (fun _ => Throw) ["ssp21-proxy"; "proxy.yaml"]%string = Some (log, Done (-1)) /\
    action_names log = ["created"; "created"; "started"; "started"; "loop"]%string /\
    run_ends (ST := late_stack) (host (fun _ _ => true)) sodium_crypto 10 (fun _ => Throw) "proxy.yaml" log ending /\
    exit_status ending = Done (-1).
Proof.
  edestruct (proxy_main_orderly (ST := late_stack) (host (fun _ _ => true)) 10 (fun _ => Throw)
    ["ssp21-proxy"; "proxy.yaml"]%string) as [H _]; [reflexivity|].
  destruct (run_host (fun _ _ => true) (fun _ => Throw) ["ssp21-proxy"; "proxy.yaml"]%string) as [[log r]|] eqn:E;
    [|vm_compute in E; discriminate].
  pose proof E as Erun. vm_compute in E. injection E as El Er.
  destruct (H _ _ Erun) as [(Hn&_)|[(?&[=]&_)|(program&path&ending&[= _ Hp]&_&Hends&Hr&_)]]; [by destruct Hn|].
  subst path. exists log, ending. split; [by rewrite <- Er|].
  split; [rewrite <- El; reflexivity|]. split; [exact Hends|]. by rewrite <- Hr, <- Er.
Defined.

(** The sockets of a session are opened when it is started.  In the document both
    endpoints of a session have the same port; where a port can be bound only once no
    session is started and the program ends. *)
Example port_in_use :
  exists log, run_host (fun used e => negb (existsb (fun u => port u =? port e) used)) (fun _ => Done tt)
    ["ssp21-proxy"; "proxy.yaml"]%string = Some (log, Done (-1)) /\
    action_names log = ["created"; "created"]%string.
Proof. eexists. split; [vm_compute; reflexivity|]. reflexivity. Qed.

Example unreadable_file :
  run_host (fun _ _ => true) (fun _ => Done tt) ["ssp21-proxy"; "other.yaml"]%string = Some ([], Done (-1)).
Proof. reflexivity. Qed.
End Witness.
