(* ===== verification/Printing.v ===== *)
(** * Message printing

    What a message shows of itself: the [print] methods of the message fields and
    of the generated structs as the calls they make on an [IMessagePrinter],
    and the two printers of the repository, [LogMessagePrinter] (the log) and
    the certificate tool's [ConsolePrinter] (the lines on the console).

    The calls show the whole value: two different values of a type never make the
    same calls ([Faithful]), and the hexadecimal dump of the console printer
    can be read back ([console_dump_read]).

    [log4cpp] is not part of the repository: class [LogFormat] is the buffer
    [SAFE_STRING_FORMAT] writes into. *)

From stdpp Require Import base numbers list strings pretty.
From Stdlib Require Import Lia ZArith Ascii.
From S2P Require Import Prelude Ser4cpp Enums Codec Messages.

Open Scope Z_scope.

(** The four methods of [IMessagePrinter]. *)
Inductive print_call :=
| Print_message (message : string)
| Print_integer (name : string) (value : Z)
| Print_string (name value : string)
| Print_data (name : string) (data : bytes).

(** What a formatted text becomes in a buffer of that many characters: nothing is
    lost of one that fits with its terminator. *)
Class LogFormat := {
  max_log_entry_size : nat;
  safe_string_format : nat -> string -> string;
  max_log_entry_size_min : (32 <= max_log_entry_size)%nat;
  safe_string_format_fits size s : (String.length s < size)%nat -> safe_string_format size s = s;
}.

(** ** Fields *)

(** [MessagePrinting::print_fields]: each field under its name, in order. *)
Definition MessagePrinting_print_fields (fields : list (list print_call)) : list print_call :=
  concat fields.

Definition IntegerField_print (name : string) (value : Z) : list print_call :=
  [Print_integer name value].

Definition EnumField_print {E} `{!EnumSpec E} (name : string) (value : E) : list print_call :=
  [Print_string name (to_string value)].

Definition SeqByteField_print (name : string) (data : bytes) : list print_call :=
  [Print_data name data].

Section Structs.
Context `{FMT : LogFormat}.

(** The loop of [SeqStructField::print] from index [i]. *)
Fixpoint SeqStructField_print_items {A} (item : string -> A -> list print_call) (i : Z) (items : list A)
  : list print_call :=
  match items with
  | [] => []
  | x :: items =>
      Print_message (safe_string_format max_log_entry_size ("field #" +:+ pretty (i + 1))) ::
      item "test" x ++ SeqStructField_print_items item (i + 1) items
  end.

Definition SeqStructField_print {A} (item : string -> A -> list print_call) (name : string)
    (items : list A) : list print_call :=
  Print_message (safe_string_format max_log_entry_size (name +:+ " (count = " +:+ pretty (zlen items) +:+ ")")) ::
  SeqStructField_print_items item 0 items.

(** ** Structs and messages *)

Definition AuthMetadata_print (name : string) (m : AuthMetadata) : list print_call :=
  MessagePrinting_print_fields
    [IntegerField_print "nonce" (am_nonce m);
     IntegerField_print "valid_until_ms" (am_valid_until_ms m)].

Definition CryptoSpec_print (name : string) (m : CryptoSpec) : list print_call :=
  MessagePrinting_print_fields
    [EnumField_print "handshake_ephemeral" (cs_handshake_ephemeral m);
     EnumField_print "handshake_hash" (cs_handshake_hash m);
     EnumField_print "handshake_kdf" (cs_handshake_kdf m);
     EnumField_print "session_nonce_mode" (cs_session_nonce_mode m);
     EnumField_print "session_crypto_mode" (cs_session_crypto_mode m)].

Definition SessionConstraints_print (name : string) (m : SessionConstraints) : list print_call :=
  MessagePrinting_print_fields
    [IntegerField_print "max_nonce" (sc_max_nonce m);
     IntegerField_print "max_session_duration" (sc_max_session_duration m)].

Definition Version_print (name : string) (m : Version) : list print_call :=
  MessagePrinting_print_fields
    [IntegerField_print "major_version" (v_major_version m);
     IntegerField_print "minor_version" (v_minor_version m)].

Definition ExtensionEnvelope_print (name : string) (m : ExtensionEnvelope) : list print_call :=
  MessagePrinting_print_fields
    [IntegerField_print "identifier" (ee_identifier m);
     SeqByteField_print "extension_body" (ee_extension_body m)].

Definition CertificateBody_print (name : string) (m : CertificateBody) : list print_call :=
  MessagePrinting_print_fields
    [IntegerField_print "valid_after" (cb_valid_after m);
     IntegerField_print "valid_before" (cb_valid_before m);
     IntegerField_print "signing_level" (cb_signing_level m);
     EnumField_print "public_key_type" (cb_public_key_type m);
     SeqByteField_print "public_key" (cb_public_key m);
     SeqStructField_print ExtensionEnvelope_print "extensions" (cb_extensions m)].

Definition CertificateEnvelope_print (name : string) (m : CertificateEnvelope) : list print_call :=
  MessagePrinting_print_fields
    [SeqByteField_print "signature" (ce_signature m);
     SeqByteField_print "certificate_body" (ce_certificate_body m)].

Definition CertificateChain_print (name : string) (m : CertificateChain) : list print_call :=
  MessagePrinting_print_fields
    [SeqStructField_print CertificateEnvelope_print "certificates" (cc_certificates m)].

Definition ContainerFile_print (name : string) (m : ContainerFile) : list print_call :=
  MessagePrinting_print_fields
    [EnumField_print "container_entry_type" (cf_container_entry_type m);
     SeqByteField_print "payload" (cf_payload m)].

Definition RequestHandshakeBegin_print (m : RequestHandshakeBegin) : list print_call :=
  MessagePrinting_print_fields
    [Version_print "version" (req_version m);
     CryptoSpec_print "spec" (req_spec m);
     SessionConstraints_print "constraints" (req_constraints m);
     EnumField_print "handshake_mode" (req_handshake_mode m);
     SeqByteField_print "mode_ephemeral" (req_mode_ephemeral m);
     SeqByteField_print "mode_data" (req_mode_data m)].

Definition ReplyHandshakeBegin_print (m : ReplyHandshakeBegin) : list print_call :=
  MessagePrinting_print_fields
    [Version_print "version" (rep_version m);
     SeqByteField_print "mode_ephemeral" (rep_mode_ephemeral m);
     SeqByteField_print "mode_data" (rep_mode_data m)].

Definition ReplyHandshakeError_print (m : ReplyHandshakeError) : list print_call :=
  MessagePrinting_print_fields
    [Version_print "version" (rhe_version m);
     EnumField_print "handshake_error" (rhe_handshake_error m)].

Definition SessionData_print (m : SessionData) : list print_call :=
  MessagePrinting_print_fields
    [AuthMetadata_print "metadata" (sd_metadata m);
     SeqByteField_print "user_data" (sd_user_data m);
     SeqByteField_print "auth_tag" (sd_auth_tag m)].

(** ** [FlagsPrinting]: two flags on a line of at most 80 characters *)
Definition flag_digit (value : bool) : string := if value then "1" else "0".

Definition FlagsPrinting_print (bitfield_name name1 : string) (value1 : bool) (name2 : string) (value2 : bool)
  : list print_call :=
  [Print_message (safe_string_format 80
     (bitfield_name +:+ " { " +:+ name1 +:+ ": " +:+ flag_digit value1 +:+ " " +:+ name2 +:+ ": " +:+
      flag_digit value2 +:+ " }"))].

(** ** [LogMessagePrinter]

    The texts it logs at its level; [hex] is [HexLogging::log] with the separator
    and the widths of the first and the other lines. *)
Definition LogMessagePrinter_print (hex : bytes -> ascii -> Z -> Z -> list string)
    (max_hex_bytes_per_line : Z) (call : print_call) : list string :=
  match call with
  | Print_message message => [message]
  | Print_integer name value => [safe_string_format max_log_entry_size (name +:+ ": " +:+ pretty value)]
  | Print_string name value => [safe_string_format max_log_entry_size (name +:+ ": " +:+ value)]
  | Print_data name data =>
      safe_string_format max_log_entry_size (name +:+ " (length = " +:+ pretty (zlen data) +:+ ")") ::
      hex data ":"%char max_hex_bytes_per_line max_hex_bytes_per_line
  end.
End Structs.

(** ** [ConsolePrinter] *)

Definition hex_digit (n : Z) : ascii :=
  if n <? 10 then ascii_of_nat (Z.to_nat (48 + n)) else ascii_of_nat (Z.to_nat (87 + n)).

(** [setw(2)], [setfill('0')] and [hex] on the value of a byte. *)
Definition hex_byte (b : Z) : string := String (hex_digit (b / 16)) (String (hex_digit (b mod 16)) "").

(** The loop over the bytes of a line: a colon before each but the first. *)
Fixpoint hex_line_from (first : bool) (line : bytes) : string :=
  match line with
  | [] => ""
  | b :: line => (if first then "" else ":") +:+ hex_byte b +:+ hex_line_from false line
  end.

(** [write_line_prefix] *)
Fixpoint spaces (n : nat) : string := match n with O => "" | S n => String " " (spaces n) end.

Section Console.
Context `{SER : Ser4cpp}.

(** The [while] over the remainder; each turn takes a byte at least, so that the
    length of the data is enough for [fuel]. *)
Fixpoint ConsolePrinter_dump (fuel : nat) (indentation_level : nat) (remainder : bytes) : list string :=
  match fuel with
  | O => []
  | S fuel =>
      if is_nil remainder then []
      else
        let line := seq_take remainder 16 in
        (spaces indentation_level +:+ hex_line_from true line) ::
        ConsolePrinter_dump fuel indentation_level (seq_skip remainder 16)
  end.

Definition ConsolePrinter_print (indentation_level : nat) (call : print_call) : list string :=
  match call with
  | Print_message message => [spaces indentation_level +:+ message]
  | Print_integer name value => [spaces indentation_level +:+ name +:+ ": " +:+ pretty value]
  | Print_string name value => [spaces indentation_level +:+ name +:+ ": " +:+ value]
  | Print_data name data =>
      (spaces indentation_level +:+ name +:+ " (length == " +:+ pretty (zlen data) +:+ ")") ::
      ConsolePrinter_dump (length data) (indentation_level + 2) data
  end.
End Console.

(** ** The calls show the value *)

(** The calls made for a value, with whatever follows, determine the value. *)
Class Faithful {A} (p : A -> list print_call) (ok : A -> Prop) : Prop :=
  faithful a b r s : ok a -> ok b -> p a ++ r = p b ++ s -> a = b /\ r = s.

Class EnumNames (E : Type) `{!EnumSpec E} : Prop := enum_names :: Inj (=) (=) (to_string (E := E)).

Ltac enum_names := intros [] [] H; first [reflexivity | discriminate H].

#[export] Instance HandshakeEphemeral_names : EnumNames HandshakeEphemeral.
Proof. enum_names. Qed.
#[export] Instance HandshakeHash_names : EnumNames HandshakeHash.
Proof. enum_names. Qed.
#[export] Instance HandshakeKDF_names : EnumNames HandshakeKDF.
Proof. enum_names. Qed.
#[export] Instance HandshakeMode_names : EnumNames HandshakeMode.
Proof. enum_names. Qed.
#[export] Instance HandshakeError_names : EnumNames HandshakeError.
Proof. enum_names. Qed.
#[export] Instance SessionNonceMode_names : EnumNames SessionNonceMode.
Proof. enum_names. Qed.
#[export] Instance SessionCryptoMode_names : EnumNames SessionCryptoMode.
Proof. enum_names. Qed.
#[export] Instance PublicKeyType_names : EnumNames PublicKeyType.
Proof. enum_names. Qed.
#[export] Instance ContainerEntryType_names : EnumNames ContainerEntryType.
Proof. enum_names. Qed.

#[export] Instance IntegerField_faithful name : Faithful (IntegerField_print name) (fun _ => True).
Proof. intros a b r s _ _ [= -> ->]. done. Qed.

#[export] Instance EnumField_faithful {E} `{!EnumSpec E, !EnumNames E} name :
  Faithful (EnumField_print (E := E) name) (fun _ => True).
Proof. intros a b r s _ _ [= H ->]. split; [by apply (inj to_string)|done]. Qed.

#[export] Instance SeqByteField_faithful name : Faithful (SeqByteField_print name) (fun _ => True).
Proof. intros a b r s _ _ [= -> ->]. done. Qed.

(** One field off both sides. *)
Ltac print_field H :=
  let E := fresh "E" in apply faithful in H as [E H]; [|exact I..]; simpl in E.

Ltac print_struct :=
  intros [] [] r s _ _ H; unfold MessagePrinting_print_fields in H;
  cbn [concat] in H; rewrite ?app_nil_r, <- ?app_assoc in H;
  repeat (print_field H); by subst.

Section Faithfulness.
Context `{FMT : LogFormat}.

(** A name short enough for the buffer, followed by a count of one digit. *)
Definition short_name (name : string) : Prop := (String.length name <= 16)%nat.

Lemma pretty_digit n : 0 <= n <= 9 -> String.length (pretty n) = 1%nat.
Proof.
  intros H. assert (exists k, (k <= 9)%nat /\ n = Z.of_nat k) as (k&Hk&->) by (exists (Z.to_nat n); lia).
  do 10 (destruct k as [|k]; [done|]). lia.
Qed.

Lemma string_length_app a b : String.length (a +:+ b) = (String.length a + String.length b)%nat.
Proof. induction a as [|x a IH]; simpl; [done|]. by rewrite IH. Qed.

Lemma count_line_kept name n :
  short_name name -> 0 <= n <= 9 ->
  safe_string_format max_log_entry_size (name +:+ " (count = " +:+ pretty n +:+ ")") = name +:+ " (count = " +:+ pretty n +:+ ")".
Proof.
  intros Hs Hn. apply safe_string_format_fits. rewrite !string_length_app, (pretty_digit n Hn).
  unfold short_name in Hs. pose proof max_log_entry_size_min. simpl. lia.
Qed.

Lemma items_faithful {A} (item : string -> A -> list print_call) ok `{!Faithful (item "test") ok} :
  forall xs ys i r s, Forall ok xs -> Forall ok ys -> length xs = length ys ->
    SeqStructField_print_items item i xs ++ r = SeqStructField_print_items item i ys ++ s ->
    xs = ys /\ r = s.
Proof.
  induction xs as [|x xs IH]; intros [|y ys] i r s Hx Hy Hl; [done|done|done|]. simpl.
  rewrite <- !app_assoc. intros [= H]. apply Forall_cons in Hx as [Hx Hxs]. apply Forall_cons in Hy as [Hy Hys].
  apply faithful in H as [-> H]; [|done|done]. apply IH in H as [-> ->]; [done|done|done|]. simpl in Hl. lia.
Qed.

Lemma append_inj_r a b c : a +:+ c = b +:+ c -> a = b.
Proof.
  revert b. induction a as [|x a IH]; intros [|y b] H; [done| | |].
  1-2: apply (f_equal String.length) in H; rewrite !string_length_app in H; simpl in H; lia.
  cbn in H. injection H as -> H. f_equal. by apply IH.
Qed.

#[export] Instance SeqStructField_faithful {A} (item : string -> A -> list print_call) ok name :
  Faithful (item "test") ok -> TCFastDone (short_name name) ->
  Faithful (SeqStructField_print item name) (fun xs => zlen xs <= 9 /\ Forall ok xs).
Proof.
  intros Hi Hs xs ys r s [Hlx Hx] [Hly Hy]. unfold SeqStructField_print. unfold TCFastDone in Hs.
  pose proof (zlen_nonneg xs) as Hx0. pose proof (zlen_nonneg ys) as Hy0. rewrite !count_line_kept by (done || lia). simpl.
  intros [= H1 H]. apply (inj (String.append name)) in H1.
  apply (inj (String.append " (count = ")), append_inj_r, (inj pretty) in H1.
  eapply items_faithful in H; [done|done|done|done|]. unfold zlen in H1. lia.
Qed.

#[export] Instance AuthMetadata_faithful name : Faithful (AuthMetadata_print name) (fun _ => True).
Proof. unfold Faithful, AuthMetadata_print. print_struct. Qed.

#[export] Instance CryptoSpec_faithful name : Faithful (CryptoSpec_print name) (fun _ => True).
Proof. unfold Faithful, CryptoSpec_print. print_struct. Qed.

#[export] Instance SessionConstraints_faithful name : Faithful (SessionConstraints_print name) (fun _ => True).
Proof. unfold Faithful, SessionConstraints_print. print_struct. Qed.

#[export] Instance Version_faithful name : Faithful (Version_print name) (fun _ => True).
Proof. unfold Faithful, Version_print. print_struct. Qed.

#[export] Instance ExtensionEnvelope_faithful name : Faithful (ExtensionEnvelope_print name) (fun _ => True).
Proof. unfold Faithful, ExtensionEnvelope_print. print_struct. Qed.

#[export] Instance CertificateEnvelope_faithful name : Faithful (CertificateEnvelope_print name) (fun _ => True).
Proof. unfold Faithful, CertificateEnvelope_print. print_struct. Qed.

#[export] Instance ContainerFile_faithful name : Faithful (ContainerFile_print name) (fun _ => True).
Proof. unfold Faithful, ContainerFile_print. print_struct. Qed.

#[export] Instance Extensions_faithful :
  Faithful (SeqStructField_print ExtensionEnvelope_print "extensions")
    (fun xs => zlen xs <= 9 /\ Forall (fun _ => True) xs).
Proof. apply SeqStructField_faithful; [apply _|]. unfold TCFastDone, short_name. simpl. lia. Qed.

#[export] Instance Certificates_faithful :
  Faithful (SeqStructField_print CertificateEnvelope_print "certificates")
    (fun xs => zlen xs <= 9 /\ Forall (fun _ => True) xs).
Proof. apply SeqStructField_faithful; [apply _|]. unfold TCFastDone, short_name. simpl. lia. Qed.

Lemma Forall_trivial {A} (xs : list A) : Forall (fun _ => True) xs.
Proof. induction xs; by constructor. Qed.

#[export] Instance CertificateBody_faithful name : Faithful (CertificateBody_print name) CertificateBody_ok.
Proof.
  intros a b r s (_&_&_&_&_&_&Ha) (_&_&_&_&_&_&Hb) H.
  unfold CertificateBody_print, MessagePrinting_print_fields in H. cbn [concat] in H.
  rewrite ?app_nil_r, <- ?app_assoc in H. do 5 print_field H.
  apply faithful in H as [? ->]; [|split; [lia|apply Forall_trivial]..].
  destruct a, b. simpl in *. by subst.
Qed.

#[export] Instance CertificateChain_faithful name : Faithful (CertificateChain_print name) CertificateChain_ok.
Proof.
  intros [a] [b] r s [_ Ha] [_ Hb] H. simpl in Ha, Hb.
  unfold CertificateChain_print, MessagePrinting_print_fields in H. cbn [concat cc_certificates] in H.
  rewrite ?app_nil_r in H.
  apply faithful in H as [-> ->]; [done|split; [lia|apply Forall_trivial]..].
Qed.

#[export] Instance RequestHandshakeBegin_faithful : Faithful RequestHandshakeBegin_print (fun _ => True).
Proof. unfold Faithful, RequestHandshakeBegin_print. print_struct. Qed.

#[export] Instance ReplyHandshakeBegin_faithful : Faithful ReplyHandshakeBegin_print (fun _ => True).
Proof. unfold Faithful, ReplyHandshakeBegin_print. print_struct. Qed.

#[export] Instance ReplyHandshakeError_faithful : Faithful ReplyHandshakeError_print (fun _ => True).
Proof. unfold Faithful, ReplyHandshakeError_print. print_struct. Qed.

#[export] Instance SessionData_faithful : Faithful SessionData_print (fun _ => True).
Proof. unfold Faithful, SessionData_print. print_struct. Qed.

(** A message or a certificate is determined by what its [print] shows: no field
    is left out, none is shown in a form that hides a part of it, and no two
    enumerators have the same name. *)
Theorem printing_shows_everything :
  Inj (=) (=) RequestHandshakeBegin_print /\ Inj (=) (=) ReplyHandshakeBegin_print /\
  Inj (=) (=) ReplyHandshakeError_print /\ Inj (=) (=) SessionData_print /\
  (forall name, Inj (=) (=) (ContainerFile_print name)) /\
  (forall name a b, CertificateBody_ok a -> CertificateBody_ok b ->
     CertificateBody_print name a = CertificateBody_print name b -> a = b) /\
  (forall name a b, CertificateChain_ok a -> CertificateChain_ok b ->
     CertificateChain_print name a = CertificateChain_print name b -> a = b).
Proof.
  assert (forall A (p : A -> list print_call) ok, Faithful p ok ->
            forall a b, ok a -> ok b -> p a = p b -> a = b) as Hinj.
  { intros A p ok Hp a b Ha Hb H. apply (faithful (p := p) a b [] []); [done|done|]. by rewrite H. }
  split_and!; try (intros; intros a b; apply (Hinj _ _ _ _ a b I I)).
  - intros name a b. apply (Hinj _ _ _ _ a b).
  - intros name a b. apply (Hinj _ _ _ _ a b).
Qed.
End Faithfulness.

(** ** The console's dump can be read back *)

Definition hex_value (c : ascii) : Z :=
  let n := Z.of_nat (nat_of_ascii c) in if n <? 58 then n - 48 else n - 87.

Fixpoint read_hex_line (s : string) : bytes :=
  match s with
  | String a (String b (String _ s)) => hex_value a * 16 + hex_value b :: read_hex_line s
  | String a (String b "") => [hex_value a * 16 + hex_value b]
  | _ => []
  end.

Lemma hex_value_digit n : 0 <= n < 16 -> hex_value (hex_digit n) = n.
Proof.
  intros H. assert (exists k, (k < 16)%nat /\ n = Z.of_nat k) as (k&Hk&->) by (exists (Z.to_nat n); lia).
  do 16 (destruct k as [|k]; [done|]). lia.
Qed.

Lemma hex_byte_value b : is_byte b -> hex_value (hex_digit (b / 16)) * 16 + hex_value (hex_digit (b mod 16)) = b.
Proof.
  intros Hb. unfold is_byte in Hb. pose proof (Z.div_mod b 16). pose proof (Z.mod_pos_bound b 16).
  assert (0 <= b / 16 < 16) by (split; [apply Z.div_pos; lia|apply Z.div_lt_upper_bound; lia]).
  rewrite !hex_value_digit by lia. lia.
Qed.

Lemma read_hex_line_inverts line : all_bytes line -> read_hex_line (hex_line_from true line) = line.
Proof.
  destruct line as [|b line]; [done|]. intros Hl. apply Forall_cons in Hl as [Hb Hl].
  revert b Hb. induction line as [|b' line IH]; intros b Hb.
  - simpl. by rewrite hex_byte_value.
  - apply Forall_cons in Hl as [Hb' Hl]. specialize (IH Hl b' Hb').
    change (hex_line_from true (b :: b' :: line))
      with (String (hex_digit (b / 16)) (String (hex_digit (b mod 16))
              (String ":" (hex_line_from true (b' :: line))))).
    cbn [read_hex_line]. by rewrite IH, hex_byte_value.
Qed.

(** The text of a line after its prefix. *)
Fixpoint drop_string (n : nat) (s : string) : string :=
  match n, s with S n, String _ s => drop_string n s | _, _ => s end.

Lemma drop_spaces n s : drop_string n (spaces n +:+ s) = s.
Proof. induction n as [|n IH]; [by destruct s|]. cbn. done. Qed.

Section ConsoleFacts.
Context `{SER : Ser4cpp}.

(** The dump of the console printer is complete and exact: the lines, each
    read back as the hexadecimal bytes after its indentation, give the data,
    and every line shows at most sixteen bytes. *)
Theorem console_dump_read indent data :
  all_bytes data ->
  concat (map (fun l => read_hex_line (drop_string indent l)) (ConsolePrinter_dump (length data) indent data)) = data /\
  Forall (fun l => 1 <= zlen (read_hex_line (drop_string indent l)) <= 16)
    (ConsolePrinter_dump (length data) indent data).
Proof.
  assert (forall fuel data, all_bytes data -> (length data <= fuel)%nat ->
    concat (map (fun l => read_hex_line (drop_string indent l)) (ConsolePrinter_dump fuel indent data)) = data /\
    Forall (fun l => 1 <= zlen (read_hex_line (drop_string indent l)) <= 16) (ConsolePrinter_dump fuel indent data))
    as Hgo; [|by intros; apply Hgo].
  clear data. induction fuel as [|fuel IH]; intros data Hb Hl.
  { destruct data; [by split; [|constructor]|simpl in Hl; lia]. }
  cbn [ConsolePrinter_dump]. destruct data as [|x data]; [by split; [|constructor]|]. cbn [is_nil].
  rewrite seq_take_spec, seq_skip_spec by lia. cbn [map concat]. rewrite drop_spaces.
  assert (all_bytes (ztake 16 (x :: data)) /\ all_bytes (zdrop 16 (x :: data))) as [Ht Hd].
  { apply Forall_app. by rewrite ztake_zdrop. }
  rewrite read_hex_line_inverts by done.
  destruct (IH (zdrop 16 (x :: data)) Hd) as [IH1 IH2].
  { unfold zdrop. rewrite length_drop. cbn [length] in *. lia. }
  rewrite IH1, ztake_zdrop. split; [done|]. constructor; [|done].
  rewrite drop_spaces, read_hex_line_inverts by done.
  unfold ztake, zlen. rewrite length_take. cbn [length]. lia.
Qed.
End ConsoleFacts.

(** ** A printed certificate *)

#[export] Instance log_format_exact : LogFormat := {|
  max_log_entry_size := 120;
  safe_string_format _ s := s;
  max_log_entry_size_min := ltac:(lia);
  safe_string_format_fits _ s _ := eq_refl;
|}.

Example printed_body :
  CertificateBody_print "body" (mkCertificateBody 5 90 0 PublicKeyType_X25519 [1; 255] [mkExtensionEnvelope 7 [9]]) =
    [Print_integer "valid_after" 5; Print_integer "valid_before" 90; Print_integer "signing_level" 0;
     Print_string "public_key_type" "X25519"; Print_data "public_key" [1; 255];
     Print_message "extensions (count = 1)"; Print_message "field #1"; Print_integer "identifier" 7;
     Print_data "extension_body" [9]].
Proof. reflexivity. Qed.

Lemma console_dump_read_witness :
  ConsolePrinter_print (SER := ser4cpp_reference) 2 (Print_data "key-data" (map Z.of_nat (seq 0 17))) =
    ["  key-data (length == 17)"; "    00:01:02:03:04:05:06:07:08:09:0a:0b:0c:0d:0e:0f"; "    10"] /\
  concat (map (fun l => read_hex_line (drop_string 4 l))
            (ConsolePrinter_dump (SER := ser4cpp_reference) 17 4 (map Z.of_nat (seq 0 17)))) =
    map Z.of_nat (seq 0 17).
Proof.
  split; [reflexivity|].
  refine (proj1 (console_dump_read (SER := ser4cpp_reference) 4 (map Z.of_nat (seq 0 17)) _)).
  repeat constructor; simpl; lia.
Defined.
