(* ===== verification/Icftool.v ===== *)
(** * The certificate tool

    [exe/icftool]: the actions that generate keys, issue certificates, append
    chains and show files ([Actions.cpp]), the questions put to the user
    ([UserInput.cpp]), the dispatch on the command line ([Program.cpp]) and
    [main.cpp], with the writing half of [SecureFile.h] and
    [SerializationUtils.h].

    The tool's surroundings are a record [tool]: the files, the number of draws
    made from the random source, the standard input and the lines written to
    the standard output.  An action is a function on it ([act]); it changes
    files and output also when it ends in an exception, and [None] stands for
    an action that never returns.  Parameters: the cryptographic backend, the
    clock, the disk (which files can be opened and what of the written bytes is
    kept), and [argagg], the command line parser, which is not part of the
    repository. *)

From stdpp Require Import base numbers list strings gmap pretty.
From Stdlib Require Import Lia ZArith.
From S2P Require Import Prelude Ser4cpp Enums Codec Messages Crypto Chain Sodium ProxyConfig Printing.

(** ** Standard input *)

(** What [operator>>] meets next: a decimal number, or text that is none. *)
Inductive token := Number (n : N) | Garbage.

Record istream := mkIstream { in_failed : bool; in_tokens : list token }.

(** [std::cin >> value] for an unsigned type with largest value [max]: nothing
    happens on a stream that has failed, the end of the input fails it, a number
    that is too large leaves the largest value and fails it, text leaves zero
    and fails it. *)
Definition extract (max : Z) (value : Z) (stream : istream) : Z * istream :=
  if in_failed stream then (value, stream)
  else
    match in_tokens stream with
    | [] => (value, mkIstream true [])
    | Number n :: tokens =>
        if max <? Z.of_N n then (max, mkIstream true tokens) else (Z.of_N n, mkIstream false tokens)
    | Garbage :: _ => (0, mkIstream true (in_tokens stream))
    end.

(** ** Actions *)

Record tool := mkTool {
  t_files : gmap string bytes;
  t_draws : nat;
  t_stdin : istream;
  t_out : list string;
}.

Definition act (A : Type) : Type := tool -> option (outcome A * tool).

#[export] Instance act_ret : MRet act := fun A a t => Some (Done a, t).
#[export] Instance act_bind : MBind act := fun A B k m t =>
  match m t with
  | None => None
  | Some (Done a, t) => k a t
  | Some (Exit, t) => Some (Exit, t)
  | Some (Throw, t) => Some (Throw, t)
  | Some (Crash, t) => Some (Crash, t)
  end.

Definition lift {A} (r : outcome A) : act A := fun t => Some (r, t).

Definition throw_exception {A} : act A := lift Throw.

Definition files_of (t : tool) : string -> option bytes := fun path => t_files t !! path.

(** [std::cout << line << std::endl] *)
Definition print_line (line : string) : act unit := fun t =>
  Some (Done tt, mkTool (t_files t) (t_draws t) (t_stdin t) (t_out t ++ [line])).

Fixpoint print_lines (lines : list string) : act unit :=
  match lines with [] => mret tt | l :: lines => print_line l;; print_lines lines end.

(** A function of the backend that draws random bytes. *)
Definition drawing {A} (f : nat -> outcome A) : act A := fun t =>
  Some (f (t_draws t), mkTool (t_files t) (S (t_draws t)) (t_stdin t) (t_out t)).

(** A read from the standard input. *)
Definition reading {A} (f : istream -> option (outcome A * istream)) : act A := fun t =>
  match f (t_stdin t) with
  | None => None
  | Some (r, stream) => Some (r, mkTool (t_files t) (t_draws t) stream (t_out t))
  end.

(** A file that can be opened for writing: what of the data reaches it, and
    whether [ofstream::write] reports a failure. *)
Record opened := mkOpened { kept : bytes -> bytes; reports : bytes -> bool }.

(** [Actions::Times] *)
Record Times := mkTimes { t_valid_after : Z; t_valid_before : Z }.

(** [flags::...] of [Program.h] *)
Inductive flag :=
| Flag_help | Flag_show | Flag_shared | Flag_x25519 | Flag_ed25519 | Flag_cert | Flag_append
| Flag_days | Flag_level.

(** What [argagg] makes of the command line: the options given, the positional
    arguments, and the values of [-d] and [-l] as the integer types asked for. *)
Record parser_results := mkParserResults {
  has_option : flag -> bool;
  pos : list string;
  days_as_uint16 : outcome Z;
  level_as_uint8 : outcome Z;
}.

(** ** [UserInput.cpp] *)

(** Multiplication of [int]s; the behaviour of an overflow is undefined. *)
Definition int_mul (a b : Z) : outcome Z :=
  if (-2147483648 <=? a * b) && (a * b <=? 2147483647) then Done (a * b) else Crash.

Definition days_to_times (now : Z) (days : Z) : outcome Times :=
  let valid_after_ms := u64 now in
  let* seconds := int_mul days 86400 in
  let* ms := int_mul seconds 1000 in
  Done (mkTimes valid_after_ms (u64 (valid_after_ms + ms))).

Definition get_validity_times_from_user (now : Z) : act Times :=
  print_line "How many days (from now) should the certificate remain valid?";;
  reading (fun stream =>
    let '(days, stream) := extract 65535 0 stream in Some (days_to_times now days, stream)).

(** The [while] of [get_signing_level_from_user].  A stream that has failed never
    changes the value again. *)
Fixpoint signing_level_loop (fuel : nat) (signing_level : Z) (stream : istream) : option (Z * istream) :=
  match fuel with
  | O => None
  | S fuel =>
      if 6 <? signing_level
      then let '(signing_level, stream) := extract 4294967295 signing_level stream in
           signing_level_loop fuel signing_level stream
      else Some (signing_level, stream)
  end.

(** Fuel for every token, for the test that ends the loop and for the turn that
    finds the end of the input. *)
Definition signing_level_fuel (stream : istream) : nat := length (in_tokens stream) + 2.

Definition get_signing_level_from_user : act Z :=
  print_line "Enter the certificate signing level (0 == endpoint certificate, max == 6):";;
  reading (fun stream =>
    match signing_level_loop (signing_level_fuel stream) 256 stream with
    | None => None
    | Some (signing_level, stream) => Some (Done (u8 signing_level), stream)
    end).

(** ** [SerializationUtils.h] and the writing half of [SecureFile.h] *)

Section Actions.
Context `{SER : Ser4cpp} `{FMT : LogFormat} (c : CryptoState) (now : Z) (disk : string -> option opened).

Definition to_any_buffer {A} (f : field A) (value : A) : outcome bytes :=
  match f_write f value (WSeq (replicate (Z.to_nat (f_size f value)) 0) 0) with
  | (FormatError_ok, dest) => if wseq_length dest =? 0 then Done (w_buf dest) else Throw
  | (_, _) => Throw
  end.

Definition SecureFile_write_data (path : string) (data : bytes) : act unit := fun t =>
  match disk path with
  | None => Some (Throw, t)
  | Some stream =>
      let t := mkTool (<[path := kept stream data]> (t_files t)) (t_draws t) (t_stdin t) (t_out t) in
      Some (if reports stream data then Throw else Done tt, t)
  end.

Definition SecureFile_write {A} (f : field A) (path : string) (item : A) : act unit :=
  buffer ← lift (to_any_buffer f item);
  SecureFile_write_data path buffer.

(** [SecureFile::read] with the default limit. *)
Definition read_file (path : string) : act bytes := fun t =>
  Some (SecureFile_read (files_of t) path default_max_file_size, t).

(** ** [Actions.cpp] *)

Definition parse_or_throw {A} (read_all : bytes -> ParseError + A) (data : bytes) : act A :=
  lift (throw_on_error (read_all data)).

Definition Actions_write (path : string) (type : ContainerEntryType) (data : bytes) : act unit :=
  SecureFile_write ContainerFile_field path (mkContainerFile type data);;
  print_line ("wrote: " +:+ path).

(** The lines of the calls a value makes on the printer. *)
Definition print_calls (indentation_level : nat) (calls : list print_call) : act unit :=
  print_lines (concat (map (ConsolePrinter_print indentation_level) calls)).

(** The lambda of [print_certificate_chain] over the certificates from number
    [i] on; the printer keeps its indentation from one to the next. *)
Fixpoint print_certificates (indentation_level i : nat) (certificates : list CertificateEnvelope) : act unit :=
  match certificates with
  | [] => mret tt
  | envelope :: certificates =>
      print_line "";;
      print_line ("certificate #" +:+ pretty i);;
      print_calls (indentation_level + 2) (CertificateEnvelope_print "envelope" envelope);;
      body ← parse_or_throw CertificateBody_read_all (ce_certificate_body envelope);
      print_calls (indentation_level + 6) (CertificateBody_print "body" body);;
      print_certificates (indentation_level + 2) (i + 1) certificates
  end.

Definition print_certificate_chain (data : bytes) : act unit :=
  chain ← parse_or_throw CertificateChain_read_all data;
  print_certificates 0 1 (cc_certificates chain).

Definition print_contents (path : string) : act unit :=
  data ← read_file path;
  file ← parse_or_throw ContainerFile_read_all data;
  print_line ("File: " +:+ path);;
  print_line ("Type: " +:+ to_string (cf_container_entry_type file));;
  (if bool_decide (cf_container_entry_type file = ContainerEntryType_certificate_chain)
   then print_certificate_chain (cf_payload file)
   else print_calls 2 [Print_data "key-data" (cf_payload file)]);;
  print_line "".

Definition gen_shared_secert (path : string) : act unit :=
  print_line "creating shared secret...";;
  random ← drawing (fun draw => Crypto_gen_random c draw (ztake symmetric_key_length (buf_data buffer_empty)));
  let key := set_length (buffer_store buffer_empty random) length_32 in
  Actions_write path ContainerEntryType_shared_secret (as_seq key).

Definition gen_x25519_key_pair (private_key_path public_key_path : string) : act unit :=
  print_line "generating x25519 key pair...";;
  kp ← drawing (fun draw => Crypto_gen_keypair_x25519 c draw (mkKeyPair buffer_empty buffer_empty));
  Actions_write private_key_path ContainerEntryType_x25519_private_key (as_seq (private_key kp));;
  Actions_write public_key_path ContainerEntryType_x25519_public_key (as_seq (public_key kp)).

Definition gen_ed25519_key_pair (private_key_path public_key_path : string) : act unit :=
  print_line "generating Ed25519 key pair";;
  kp ← drawing (fun draw => Crypto_gen_keypair_ed25519 c draw (mkKeyPair buffer_empty buffer_empty));
  Actions_write private_key_path ContainerEntryType_ed25519_private_key (as_seq (private_key kp));;
  Actions_write public_key_path ContainerEntryType_ed25519_public_key (as_seq (public_key kp)).

Definition calc_signature (data : bytes) (private_key_entry : ContainerFile) : outcome BufferBase :=
  match cf_container_entry_type private_key_entry with
  | ContainerEntryType_ed25519_private_key =>
      let* signed := Crypto_sign_ed25519 c data (cf_payload private_key_entry) buffer_empty in
      throw_on_error signed
  | _ => Throw
  end.

Definition get_public_key_type (file : ContainerFile) : outcome PublicKeyType :=
  match cf_container_entry_type file with
  | ContainerEntryType_ed25519_public_key =>
      if negb (zlen (cf_payload file) =? ed25519_public_key_length) then Throw
      else Done PublicKeyType_Ed25519
  | ContainerEntryType_x25519_public_key =>
      if negb (zlen (cf_payload file) =? x25519_key_length) then Throw
      else Done PublicKeyType_X25519
  | _ => Throw
  end.

Definition expect_certificate_chain (file : ContainerFile) : act CertificateChain :=
  if bool_decide (cf_container_entry_type file <> ContainerEntryType_certificate_chain)
  then throw_exception
  else parse_or_throw CertificateChain_read_all (cf_payload file).

Definition create_certificate (certificate_file_path public_key_path private_key_path : string)
    (validity_times : Times) (signing_level : Z) : act unit :=
  private_key_data ← read_file private_key_path;
  private_key_entry ← parse_or_throw ContainerFile_read_all private_key_data;
  public_key_data ← read_file public_key_path;
  public_key_entry ← parse_or_throw ContainerFile_read_all public_key_data;
  type ← lift (get_public_key_type public_key_entry);
  let body := mkCertificateBody (t_valid_after validity_times) (t_valid_before validity_times)
                signing_level type (cf_payload public_key_entry) [] in
  body_bytes ← lift (to_any_buffer CertificateBody_field body);
  signature ← lift (calc_signature body_bytes private_key_entry);
  let envelope := mkCertificateEnvelope (as_seq signature) (seq_take body_bytes (u16 (zlen body_bytes))) in
  let chain := mkCertificateChain (default [] (SeqStructField_push 6 [] envelope)) in
  chain_bytes ← lift (to_any_buffer CertificateChain_field chain);
  SecureFile_write ContainerFile_field certificate_file_path
    (mkContainerFile ContainerEntryType_certificate_chain chain_bytes);;
  print_contents certificate_file_path.

(** The lambda [add_cert] over the certificates of a chain. *)
Fixpoint add_certs (chain : list CertificateEnvelope) (certificates : list CertificateEnvelope)
  : outcome (list CertificateEnvelope) :=
  match certificates with
  | [] => Done chain
  | envelope :: certificates =>
      match SeqStructField_push 6 chain envelope with
      | None => Throw
      | Some chain => add_certs chain certificates
      end
  end.

Definition append_certificate_chains (file_path_1 file_path_2 output_file_path : string) : act unit :=
  file_data_1 ← read_file file_path_1;
  file_1 ← parse_or_throw ContainerFile_read_all file_data_1;
  chain_1 ← expect_certificate_chain file_1;
  file_data_2 ← read_file file_path_2;
  file_2 ← parse_or_throw ContainerFile_read_all file_data_2;
  chain_2 ← expect_certificate_chain file_2;
  match last (cc_certificates chain_1) with
  | None => throw_exception
  | Some last_envelope =>
      if negb (zlen (cc_certificates chain_2) =? 1) then throw_exception
      else
        last_body ← parse_or_throw CertificateBody_read_all (ce_certificate_body last_envelope);
        err ← lift (Chain_verify c last_body (cc_certificates chain_2));
        _ ← lift (throw_on_error err);
        certificates ← lift (add_certs [] (cc_certificates chain_1));
        certificates ← lift (add_certs certificates (cc_certificates chain_2));
        chain_bytes ← lift (to_any_buffer CertificateChain_field (mkCertificateChain certificates));
        SecureFile_write ContainerFile_field output_file_path
          (mkContainerFile ContainerEntryType_certificate_chain chain_bytes)
  end.

(** ** [Program.cpp] and [main.cpp] *)

(** The loop over the files to show. *)
Fixpoint print_files (paths : list string) : act unit :=
  match paths with [] => mret tt | path :: paths => print_contents path;; print_files paths end.

(** [Program::run] on what the parser returned; the help text goes to the
    standard error. *)
Definition Program_run_parsed (args : parser_results) : act unit :=
  if has_option args Flag_help then mret tt
  else if has_option args Flag_show then print_files (pos args)
  else if has_option args Flag_shared then
    match pos args with [path] => gen_shared_secert path | _ => throw_exception end
  else if has_option args Flag_x25519 then
    match pos args with [private; public] => gen_x25519_key_pair private public | _ => throw_exception end
  else if has_option args Flag_ed25519 then
    match pos args with [private; public] => gen_ed25519_key_pair private public | _ => throw_exception end
  else if has_option args Flag_cert then
    match pos args with
    | [certificate; public; private] =>
        times ← (if has_option args Flag_days
                 then lift (let* days := days_as_uint16 args in days_to_times now days)
                 else get_validity_times_from_user now);
        signing_level ← (if has_option args Flag_level then lift (level_as_uint8 args)
                         else get_signing_level_from_user);
        create_certificate certificate public private times signing_level
    | _ => throw_exception
    end
  else if has_option args Flag_append then
    match pos args with
    | [file_1; file_2; output] => append_certificate_chains file_1 file_2 output
    | _ => throw_exception
    end
  else mret tt.

Definition Program_run (parse : list string -> outcome parser_results) (argv : list string) : act unit :=
  args ← lift (parse argv);
  Program_run_parsed args.

(** The [try] of [main]: exceptions end in its handler, and the exit code is zero
    all the same. *)
Definition icftool_main (parse : list string -> outcome parser_results) (argv : list string) : act Z :=
  fun t =>
  match Program_run parse argv t with
  | None => None
  | Some (Done _, t) | Some (Throw, t) => Some (Done 0, t)
  | Some (Exit, t) => Some (Exit, t)
  | Some (Crash, t) => Some (Crash, t)
  end.
End Actions.
