(* ===== verification/IcftoolFacts.v ===== *)
(** * Facts about the certificate tool

    What the tool writes, the proxy reads: generated keys are read back, issued
    certificates are accepted by the certificate handler exactly when their authority
    may issue them, and appending extends a valid chain.  The facts are about actions that return ([returns]); which
    actions end in an exception instead is settled by [tame]. *)

From stdpp Require Import base numbers list strings gmap pretty.
From Stdlib Require Import Lia ZArith.
From S2P Require Import Prelude Ser4cpp Enums Codec Messages Crypto Chain Handshake Sodium ProxyConfig.
From S2P Require Import Printing Icftool.

(** ** Actions that return *)

Definition returns {A} (m : act A) (t : tool) (a : A) (t' : tool) : Prop := m t = Some (Done a, t').

Lemma returns_bind {A B} (m : act A) (k : A -> act B) t b t' :
  returns (m ≫= k) t b t' <-> exists a t1, returns m t a t1 /\ returns (k a) t1 b t'.
Proof.
  unfold returns, mbind, act_bind. split.
  - destruct (m t) as [[[a| | |] t1]|]; try done. intros H. by exists a, t1.
  - intros (a&t1&->&H). done.
Qed.

Lemma returns_lift {A} (r : outcome A) t a t' : returns (lift r) t a t' <-> r = Done a /\ t' = t.
Proof. unfold returns, lift. split; [by intros [= -> ->]|by intros [-> ->]]. Qed.

Lemma lift_returns {A} (r : outcome A) t a : r = Done a -> returns (lift r) t a t.
Proof. intros ->. done. Qed.

Lemma returns_then {A B} (m : act A) (k : A -> act B) t a t1 b t' :
  returns m t a t1 -> returns (k a) t1 b t' -> returns (m ≫= k) t b t'.
Proof. intros H1 H2. apply returns_bind. by exists a, t1. Qed.

(** Nothing but the output changes. *)
Record quietly (t t' : tool) : Prop := {
  quiet_files : t_files t' = t_files t;
  quiet_draws : t_draws t' = t_draws t;
  quiet_stdin : t_stdin t' = t_stdin t;
}.

#[export] Instance quietly_refl : Reflexive quietly.
Proof. by intros t. Qed.

#[export] Instance quietly_trans : Transitive quietly.
Proof. intros t1 t2 t3 [H1 H2 H3] [H4 H5 H6]. split; congruence. Qed.

Definition quiet (m : act unit) (t : tool) : Prop := exists t', returns m t tt t' /\ quietly t t'.

Lemma quiet_line l t : quiet (print_line l) t.
Proof. by eexists. Qed.

Lemma quiet_then (m : act unit) (k : act unit) t :
  quiet m t -> (forall t', quietly t t' -> quiet k t') -> quiet (m;; k) t.
Proof.
  intros (t1&H1&Q1) Hk. destruct (Hk t1 Q1) as (t2&H2&Q2). exists t2. split; [|by etransitivity].
  by eapply returns_then.
Qed.

Lemma quiet_ret t : quiet (mret tt) t.
Proof. by exists t. Qed.

Lemma quiet_lines ls t : quiet (print_lines ls) t.
Proof.
  revert t. induction ls as [|l ls IH]; intros t; [apply quiet_ret|].
  apply quiet_then; [apply quiet_line|]. intros t' _. apply IH.
Qed.

(** Skips an action that only prints. *)
Lemma returns_quiet (m : act unit) {B} (k : act B) t b t' :
  quiet m t -> (forall t1, quietly t t1 -> returns k t1 b t') -> returns (m;; k) t b t'.
Proof. intros (t1&H1&Q) H. by eapply returns_then; [|apply H]. Qed.

(** ** Reliable surroundings *)

(** Every file can be opened and keeps what is written. *)
Class ReliableDisk (disk : string -> option opened) : Prop :=
  disk_reliable path : exists o, disk path = Some o /\ forall data, kept o data = data /\ reports o data = false.

Section Signing.
Context (c : CryptoState).

(** The private key [sk] belongs to the public key [pk]. *)
Definition signs_for (sk pk : bytes) : Prop :=
  forall m out, exists s,
    Crypto_sign_ed25519 c m sk out = Done (inr s) /\ zlen (as_seq s) = ed25519_signature_length /\
    all_bytes (as_seq s) /\ Crypto_verify_ed25519 c m (as_seq s) pk = Done true.

Definition key_bytes (n : Z) (b : BufferBase) : Prop := zlen (as_seq b) = n /\ all_bytes (as_seq b).

(** What the tool relies on: functions that return for keys of full length, random
    data and key pairs of the right sizes, and signatures that verify. *)
Class SigningOk : Prop := {
  so_ed25519 : supports_ed25519 c = true;
  so_keys : key_calls_return (backend c);
  so_random draw dest : exists r, Crypto_gen_random c draw dest = Done r /\ zlen r = zlen dest /\ all_bytes r;
  so_gen_x25519 draw : exists kp,
    Crypto_gen_keypair_x25519 c draw (mkKeyPair buffer_empty buffer_empty) = Done kp /\
    key_bytes x25519_key_length (private_key kp) /\ key_bytes x25519_key_length (public_key kp);
  so_gen_ed25519 draw : exists kp,
    Crypto_gen_keypair_ed25519 c draw (mkKeyPair buffer_empty buffer_empty) = Done kp /\
    key_bytes ed25519_private_key_length (private_key kp) /\
    key_bytes ed25519_public_key_length (public_key kp) /\
    signs_for (as_seq (private_key kp)) (as_seq (public_key kp));
}.
End Signing.

(** libsodium keeps these promises. *)
#[export] Instance sodium_signing_ok `{SER : Ser4cpp} `{HL : !LibsodiumOk L} :
  SigningOk (sodium_crypto (L := L)).
Proof.
  split.
  - done.
  - apply sodium_key_calls.
  - apply (random_done sodium_crypto).
  - intros draw. eexists. split; [reflexivity|].
    destruct (randombytes_spec draw x25519_key_length) as [Hl Hb]; [done|].
    unfold key_bytes. rewrite sodium_pair_private. split; [done|].
    cbn [public_key sodium_gen_keypair_x25519].
    rewrite (as_seq_stored_any _ _ length_32) by apply scalarmult_base_length.
    split; [apply scalarmult_base_length|apply scalarmult_base_bytes].
  - intros draw. pose proof (sign_keypair_length draw) as [Lp Ls].
    pose proof (sign_keypair_bytes draw) as [Bp Bs].
    assert (forall m, crypto_sign_verify_detached (crypto_sign_detached m (crypto_sign_keypair draw).2) m
                        (crypto_sign_keypair draw).1 = 0) as Hv by (intros; apply sign_verifies).
    eexists. split; [reflexivity|]. unfold sodium_gen_keypair_ed25519.
    destruct (crypto_sign_keypair draw) as [pk sk]. cbn [fst snd public_key private_key] in *.
    unfold key_bytes. rewrite (as_seq_stored_any _ pk length_32), (as_seq_stored_any _ sk length_64) by done.
    split; [done|]. split; [done|]. intros m out. pose proof (sign_length m sk) as Hl.
    exists (set_length (buffer_store out (crypto_sign_detached m sk)) length_64).
    rewrite (as_seq_stored_any _ _ length_64) by done.
    split; [cbn; unfold sodium_sign_ed25519; by rewrite Ls|]. split; [done|]. split; [apply sign_bytes|].
    cbn. unfold sodium_verify_ed25519. by rewrite Hl, Lp, Hv.
Qed.

Section Facts.
Context `{SER : Ser4cpp} `{FMT : LogFormat} (c : CryptoState) `{HS : !SigningOk c}.
Context (now : Z) (disk : string -> option opened) `{HD : !ReliableDisk disk}.

(** ** Files *)

(** [to_any_buffer] gives the encoding: the buffer has the size the value
    announces, the value fills it, and neither exception is thrown. *)
Lemma to_any_buffer_enc {A} (f : field A) enc ok `{HF : !Lawful f enc ok} a :
  ok a -> to_any_buffer f a = Done (enc a).
Proof.
  intros Ha. unfold to_any_buffer. rewrite (lawful_size a Ha).
  set (w := WSeq (replicate (Z.to_nat (zlen (enc a))) 0) 0).
  assert (zlen (w_buf w) = zlen (enc a)) as Hl.
  { simpl. unfold zlen. rewrite length_replicate. lia. }
  assert (wseq_ok w) as Hw by (split; simpl; [lia|apply zlen_nonneg]).
  destruct (lawful_writes a Ha w Hw) as [Hfit _]. rewrite Hfit by (unfold wseq_length; simpl in *; lia).
  unfold wseq_length, wseq_store. cbn [w_buf w_pos].
  rewrite overwrite_length by (simpl in *; lia). rewrite Hl. simpl w_pos.
  destruct (_ =? 0) eqn:E; btests; [|lia]. f_equal.
  rewrite <- (stored_prefix (w_buf w) (enc a)) at 2. rewrite ztake_ge; [done|].
  rewrite overwrite_length by (simpl in *; lia). lia.
Qed.

(** The file at [path] is a container with this entry. *)
Definition holds (t : tool) (path : string) (file : ContainerFile) : Prop :=
  t_files t !! path = Some (ContainerFile_enc file) /\ ContainerFile_ok file /\
  zlen (ContainerFile_enc file) <= default_max_file_size.

Lemma holds_quietly t t' path file : quietly t t' -> holds t path file -> holds t' path file.
Proof. intros [H _ _] (Hf&Hok). split; [by rewrite H|done]. Qed.

Lemma VLength_enc_most v : is_u32 v -> 1 <= zlen (VLength_enc v) <= 5.
Proof.
  intros Hv. unfold is_u32, max_u32 in Hv. vlen_cases v; rewrite ?zlen_cons, ?zlen_be_bytes, ?zlen_nil; simpl; lia.
Qed.

Lemma SeqByteField_enc_most v : is_u32 (zlen v) -> 1 <= zlen (SeqByteField_enc v) <= 5 + zlen v.
Proof.
  intros Hv. unfold SeqByteField_enc. rewrite zlen_app. pose proof (VLength_enc_most _ Hv).
  pose proof (zlen_nonneg v). lia.
Qed.

Lemma container_enc_size file :
  ContainerFile_ok file -> 1 <= zlen (ContainerFile_enc file) <= 6 + zlen (cf_payload file).
Proof.
  intros [_ [_ Hl]]. unfold ContainerFile_enc. cbn [concat app]. rewrite app_nil_r, zlen_cons.
  pose proof (SeqByteField_enc_most _ Hl). lia.
Qed.

Lemma container_read file : ContainerFile_ok file -> ContainerFile_read_all (ContainerFile_enc file) = inr file.
Proof.
  intros Hok. apply (read_all_exact ContainerFile_field ContainerFile_enc ContainerFile_ok); [|done].
  by apply (lawful_bytes (f := ContainerFile_field)).
Qed.

Lemma holds_read t path file :
  holds t path file -> SecureFile_read (files_of t) path default_max_file_size = Done (ContainerFile_enc file).
Proof.
  intros (Hf&Hok&Hl). unfold SecureFile_read, files_of. rewrite Hf.
  pose proof (container_enc_size file Hok).
  destruct (_ <=? 0) eqn:E1; btests; [lia|]. destruct (_ <? zlen _) eqn:E2; btests; [lia|done].
Qed.

(** Reading and parsing a container file. *)
Lemma returns_container t path file {B} (k : ContainerFile -> act B) b t' :
  holds t path file -> returns (k file) t b t' ->
  returns (data ← read_file path; file ← parse_or_throw ContainerFile_read_all data; k file) t b t'.
Proof.
  intros Hh Hk. eapply returns_then; [unfold returns, read_file; by rewrite (holds_read t path file)|].
  eapply returns_then; [|exact Hk]. apply lift_returns. destruct Hh as (_&Hok&_). by rewrite container_read.
Qed.

(** The files after one was written. *)
Record wrote (path : string) (file : ContainerFile) (t t' : tool) : Prop := {
  wrote_files : t_files t' = <[path := ContainerFile_enc file]> (t_files t);
  wrote_draws : t_draws t' = t_draws t;
  wrote_stdin : t_stdin t' = t_stdin t;
}.

Lemma SecureFile_write_returns path file t :
  ContainerFile_ok file ->
  exists t', returns (SecureFile_write disk ContainerFile_field path file) t tt t' /\ wrote path file t t'.
Proof.
  intros Hok. destruct (disk_reliable path) as (o&Ho&Hk). destruct (Hk (ContainerFile_enc file)) as [Hk1 Hk2].
  eexists. split.
  - eapply returns_then.
    + apply lift_returns. by apply (to_any_buffer_enc ContainerFile_field ContainerFile_enc ContainerFile_ok).
    + unfold returns, SecureFile_write_data. by rewrite Ho, Hk1, Hk2.
  - done.
Qed.

Lemma Actions_write_returns path type data t :
  type <> ContainerEntryType_undefined -> SeqByteField_ok data ->
  exists t', returns (Actions_write disk path type data) t tt t' /\ wrote path (mkContainerFile type data) t t'.
Proof.
  intros Ht Hd. destruct (SecureFile_write_returns path (mkContainerFile type data) t) as (t1&H1&[W1 W2 W3]); [done|].
  eexists. split; [eapply returns_then; [exact H1|done]|]. by split.
Qed.

Lemma wrote_holds path file t t' :
  ContainerFile_ok file -> zlen (cf_payload file) <= 1024 -> wrote path file t t' -> holds t' path file.
Proof.
  intros Hok Hl [W _ _]. split; [by rewrite W, lookup_insert_eq|]. split; [done|].
  pose proof (container_enc_size file Hok). unfold default_max_file_size. lia.
Qed.

Lemma wrote_other path file t t' other file' :
  wrote path file t t' -> other <> path -> holds t other file' -> holds t' other file'.
Proof. intros [W _ _] Hne (Hf&Hok). split; [by rewrite W, lookup_insert_ne|done]. Qed.

(** ** Keys *)

Lemma key_payload_ok n b : key_bytes n b -> 0 <= n <= 1024 -> SeqByteField_ok (as_seq b).
Proof. intros [Hl Hb] Hn. split; [done|]. unfold is_u32, max_u32. lia. Qed.

(** What the proxy's configuration reader makes of a key file. *)
Lemma holds_crypto_key t path type key :
  holds t path (mkContainerFile type key) -> zlen key = x25519_key_length ->
  exists k, get_crypto_key (files_of t) path type = Done k /\ as_seq k = key.
Proof.
  intros Hh Hl. eexists. unfold get_crypto_key. rewrite (holds_read t path _ Hh). cbn [obind].
  rewrite container_read by apply Hh. cbn [cf_container_entry_type cf_payload].
  rewrite bool_decide_eq_false_2 by tauto. rewrite Hl. split; [done|]. by apply as_seq_stored_any.
Qed.

(** Both files of a key pair. *)
Definition pair_written (private_path public_path : string) (private_type public_type : ContainerEntryType)
    (kp : KeyPair) (t t' : tool) : Prop :=
  holds t' private_path (mkContainerFile private_type (as_seq (private_key kp))) /\
  holds t' public_path (mkContainerFile public_type (as_seq (public_key kp))) /\
  (forall other file, other <> private_path -> other <> public_path -> holds t other file -> holds t' other file) /\
  t_draws t' = S (t_draws t).

Lemma gen_pair_returns line (gen : nat -> outcome KeyPair) private_path public_path private_type public_type
    n m kp t :
  private_path <> public_path -> private_type <> ContainerEntryType_undefined ->
  public_type <> ContainerEntryType_undefined -> 0 <= n <= 1024 -> 0 <= m <= 1024 ->
  gen (t_draws t) = Done kp -> key_bytes n (private_key kp) -> key_bytes m (public_key kp) ->
  exists t',
    returns (print_line line;; kp ← drawing gen;
             Actions_write disk private_path private_type (as_seq (private_key kp));;
             Actions_write disk public_path public_type (as_seq (public_key kp))) t tt t' /\
    pair_written private_path public_path private_type public_type kp t t'.
Proof.
  intros Hne Hpt Hut Hn Hm Hg Hpriv Hpub.
  pose proof (key_payload_ok _ _ Hpriv Hn) as Op. pose proof (key_payload_ok _ _ Hpub Hm) as Ou.
  set (t1 := mkTool (t_files t) (S (t_draws t)) (t_stdin t) (t_out t ++ [line])).
  destruct (Actions_write_returns private_path private_type (as_seq (private_key kp)) t1) as (t2&H2&W2); [done|done|].
  destruct (Actions_write_returns public_path public_type (as_seq (public_key kp)) t2) as (t3&H3&W3); [done|done|].
  exists t3. split.
  - eapply returns_then; [done|]. eapply returns_then; [unfold returns, drawing; cbn; by rewrite Hg|].
    eapply returns_then; [exact H2|exact H3].
  - split.
    { eapply wrote_other; [exact W3|done|]. eapply wrote_holds; [done| |exact W2].
      destruct Hpriv as [Hl _]. cbn. lia. }
    split. { eapply wrote_holds; [done| |exact W3]. destruct Hpub as [Hl _]. cbn. lia. }
    split.
    + intros other file H1 H4 Hh. eapply wrote_other; [exact W3|done|]. eapply wrote_other; [exact W2|done|exact Hh].
    + by rewrite (wrote_draws _ _ _ _ W3), (wrote_draws _ _ _ _ W2).
Qed.

Lemma gen_x25519_returns private_path public_path t :
  private_path <> public_path ->
  exists kp t', Crypto_gen_keypair_x25519 c (t_draws t) (mkKeyPair buffer_empty buffer_empty) = Done kp /\
    key_bytes x25519_key_length (private_key kp) /\ key_bytes x25519_key_length (public_key kp) /\
    returns (gen_x25519_key_pair c disk private_path public_path) t tt t' /\
    pair_written private_path public_path ContainerEntryType_x25519_private_key
      ContainerEntryType_x25519_public_key kp t t'.
Proof.
  intros Hne. destruct (so_gen_x25519 c (t_draws t)) as (kp&Hg&Hpriv&Hpub).
  destruct (gen_pair_returns "generating x25519 key pair..."
              (fun draw => Crypto_gen_keypair_x25519 c draw (mkKeyPair buffer_empty buffer_empty))
              private_path public_path ContainerEntryType_x25519_private_key ContainerEntryType_x25519_public_key
              x25519_key_length x25519_key_length kp t) as (t'&H&W); try done.
  exists kp, t'. split; [done|]. split; [done|]. split; [done|]. split; [exact H|exact W].
Qed.

Lemma gen_ed25519_returns private_path public_path t :
  private_path <> public_path ->
  exists kp t', Crypto_gen_keypair_ed25519 c (t_draws t) (mkKeyPair buffer_empty buffer_empty) = Done kp /\
    key_bytes ed25519_public_key_length (public_key kp) /\
    signs_for c (as_seq (private_key kp)) (as_seq (public_key kp)) /\
    returns (gen_ed25519_key_pair c disk private_path public_path) t tt t' /\
    pair_written private_path public_path ContainerEntryType_ed25519_private_key
      ContainerEntryType_ed25519_public_key kp t t'.
Proof.
  intros Hne. destruct (so_gen_ed25519 c (t_draws t)) as (kp&Hg&Hpriv&Hpub&Hs).
  destruct (gen_pair_returns "generating Ed25519 key pair"
              (fun draw => Crypto_gen_keypair_ed25519 c draw (mkKeyPair buffer_empty buffer_empty))
              private_path public_path ContainerEntryType_ed25519_private_key ContainerEntryType_ed25519_public_key
              ed25519_private_key_length ed25519_public_key_length kp t) as (t'&H&W); try done.
  exists kp, t'. split; [done|]. split; [done|]. split; [done|]. split; [exact H|exact W].
Qed.

(** The keys the tool generates are the keys the proxy reads: a shared secret, or
    both halves of an X25519 pair, written to files on a reliable disk, come out
    of the configuration reader with the bytes that were drawn. *)
Theorem tool_keys_read_back t :
  (forall path, exists secret t' k,
     Crypto_gen_random c (t_draws t) (replicate 32 0) = Done secret /\
     returns (gen_shared_secert c disk path) t tt t' /\
     get_crypto_key (files_of t') path ContainerEntryType_shared_secret = Done k /\ as_seq k = secret) /\
  (forall private_path public_path, private_path <> public_path ->
     exists kp t' private public,
       Crypto_gen_keypair_x25519 c (t_draws t) (mkKeyPair buffer_empty buffer_empty) = Done kp /\
       returns (gen_x25519_key_pair c disk private_path public_path) t tt t' /\
       get_crypto_key (files_of t') private_path ContainerEntryType_x25519_private_key = Done private /\
       get_crypto_key (files_of t') public_path ContainerEntryType_x25519_public_key = Done public /\
       as_seq private = as_seq (private_key kp) /\ as_seq public = as_seq (public_key kp)).
Proof.
  split.
  - intros path. destruct (so_random c (t_draws t) (replicate 32 0)) as (secret&Hr&Hl&Hb).
    change (zlen (replicate 32 0)) with 32 in Hl.
    set (t1 := mkTool (t_files t) (S (t_draws t)) (t_stdin t) (t_out t ++ ["creating shared secret..."])).
    assert (as_seq (set_length (buffer_store buffer_empty secret) length_32) = secret) as Ek by by apply as_seq_stored_any.
    assert (SeqByteField_ok secret) as Ok by (split; [done|unfold is_u32, max_u32; lia]).
    destruct (Actions_write_returns path ContainerEntryType_shared_secret secret t1) as (t2&H2&W2); [done|done|].
    destruct (holds_crypto_key t2 path ContainerEntryType_shared_secret secret) as (k&Hk&Ekk); [|done|].
    { eapply wrote_holds; [done| |exact W2]. cbn. lia. }
    exists secret, t2, k. split; [done|]. split; [|done].
    eapply returns_then; [done|].
    eapply returns_then.
    { unfold returns, drawing. change (ztake symmetric_key_length (buf_data buffer_empty)) with (replicate 32 0).
      cbn [t_draws]. by rewrite Hr. }
    cbv zeta. rewrite Ek. exact H2.
  - intros p1 p2 Hne. destruct (gen_x25519_returns p1 p2 t Hne) as (kp&t'&Hg&[Lp Bp]&[Lu Bu]&Hr&(H1&H2&_)).
    destruct (holds_crypto_key t' _ _ _ H1 Lp) as (k1&E1&K1). destruct (holds_crypto_key t' _ _ _ H2 Lu) as (k2&E2&K2).
    by exists kp, t', k1, k2.
Qed.

(** ** Certificates *)

Lemma body_enc_size body :
  zlen (cb_public_key body) = 32 -> cb_extensions body = [] -> 1 <= zlen (CertificateBody_enc body) <= 60.
Proof.
  intros Hk He. unfold CertificateBody_enc. cbn [concat]. rewrite He, app_nil_r, !zlen_app, !zlen_be_bytes.
  pose proof (SeqByteField_enc_most (cb_public_key body)) as Hs. rewrite Hk in Hs.
  destruct Hs as [H1 H2]; [by vm_compute|]. change (zlen (SeqStructField_enc ExtensionEnvelope_enc [])) with 1.
  rewrite zlen_cons, zlen_nil. simpl int_bytes. lia.
Qed.

Lemma chain_enc_size env :
  CertificateEnvelope_ok env ->
  zlen (CertificateChain_enc (mkCertificateChain [env])) <= 11 + zlen (ce_signature env) + zlen (ce_certificate_body env).
Proof.
  intros [[_ H1] [_ H2]]. unfold CertificateChain_enc. cbn [concat cc_certificates map SeqStructField_enc].
  unfold SeqStructField_enc. change (VLength_enc (zlen [env])) with [1]. cbn [map concat].
  unfold CertificateEnvelope_enc. cbn [concat]. rewrite !app_nil_r, zlen_app, zlen_app, zlen_cons, zlen_nil.
  pose proof (SeqByteField_enc_most _ H1). pose proof (SeqByteField_enc_most _ H2). lia.
Qed.

Lemma chain_read chain : CertificateChain_ok chain -> CertificateChain_read_all (CertificateChain_enc chain) = inr chain.
Proof. intros H. apply chain_read_exact; [|done]. by apply (lawful_bytes (f := CertificateChain_field)). Qed.

Lemma body_read body : CertificateBody_ok body -> CertificateBody_read_all (CertificateBody_enc body) = inr body.
Proof. intros H. apply body_read_exact; [|done]. by apply (lawful_bytes (f := CertificateBody_field)). Qed.

(** The container of a chain. *)
Definition chain_file (certificates : list CertificateEnvelope) : ContainerFile :=
  mkContainerFile ContainerEntryType_certificate_chain (CertificateChain_enc (mkCertificateChain certificates)).

Lemma print_contents_quiet t path env body :
  holds t path (chain_file [env]) -> CertificateChain_ok (mkCertificateChain [env]) ->
  ce_certificate_body env = CertificateBody_enc body -> CertificateBody_ok body -> quiet (print_contents path) t.
Proof.
  intros Hh Hc He Hb.
  assert (exists t', returns (print_line ("File: " +:+ path);;
            print_line ("Type: " +:+ to_string ContainerEntryType_certificate_chain);;
            print_certificate_chain (CertificateChain_enc (mkCertificateChain [env]));; print_line "") t tt t' /\
            quietly t t') as (t'&H&Q).
  { apply quiet_then; [apply quiet_line|]. intros t1 _. apply quiet_then; [apply quiet_line|]. intros t2 _.
    apply quiet_then; [|intros; apply quiet_line].
    assert (quiet (print_certificates 0 1 [env]) t2) as (t3&H3&Q3).
    { cbn [print_certificates]. do 2 (apply quiet_then; [apply quiet_line|]; intros ? _).
      apply quiet_then; [apply quiet_lines|]. intros t3 _.
      destruct (quiet_lines (concat (map (ConsolePrinter_print 6) (CertificateBody_print "body" body))) t3) as (t4&H4&Q4).
      exists t4. split; [|done]. eapply returns_then.
      - apply lift_returns. by rewrite He, body_read.
      - eapply returns_then; [exact H4|done]. }
    exists t3. split; [|done]. 
    eapply (returns_then _ _ _ (mkCertificateChain [env])); [apply lift_returns; by rewrite chain_read|exact H3]. }
  exists t'. split; [|done]. eapply returns_container; [exact Hh|]. exact H.
Qed.

Lemma public_key_type_length file type :
  get_public_key_type file = Done type -> zlen (cf_payload file) = 32 /\ type <> PublicKeyType_undefined.
Proof.
  unfold get_public_key_type. destruct (cf_container_entry_type file); try done;
    (destruct (_ =? _) eqn:E; [|done]); btests; intros [= <-]; done.
Qed.

(** The file is a chain of one certificate, [body] signed so that [signer]
    verifies it. *)
Record certificate_written (path : string) (body : CertificateBody) (signer : bytes)
    (env : CertificateEnvelope) (t t' : tool) : Prop := {
  cw_holds : holds t' path (chain_file [env]);
  cw_others other file : other <> path -> holds t other file -> holds t' other file;
  cw_chain_ok : CertificateChain_ok (mkCertificateChain [env]);
  cw_signature : zlen (ce_signature env) = ed25519_signature_length;
  cw_body : ce_certificate_body env = CertificateBody_enc body;
  cw_body_ok : CertificateBody_ok body;
  cw_verifies : Crypto_verify_ed25519 c (CertificateBody_enc body) (ce_signature env) signer = Done true;
}.

(** The cast of [create_certificate] loses nothing of a body that short. *)
Lemma take_whole b : zlen b < 65536 -> seq_take b (u16 (zlen b)) = b.
Proof.
  intros H. pose proof (zlen_nonneg b). assert (u16 (zlen b) = zlen b) as -> by (apply Z.mod_small; lia).
  rewrite seq_take_spec by lia. by rewrite ztake_ge.
Qed.

(** A certificate for a 32 byte key fits in a file. *)
Lemma signed_envelope_ok signature body :
  zlen signature = ed25519_signature_length -> all_bytes signature -> CertificateBody_ok body ->
  zlen (cb_public_key body) = 32 -> cb_extensions body = [] ->
  let env := mkCertificateEnvelope signature (CertificateBody_enc body) in
  CertificateChain_ok (mkCertificateChain [env]) /\ ContainerFile_ok (chain_file [env]) /\
  zlen (cf_payload (chain_file [env])) <= 1024.
Proof.
  intros Ls Bs Hok Hk He env. pose proof (body_enc_size body Hk He) as Hsize.
  assert (CertificateEnvelope_ok env) as Henv.
  { split; split; cbn [ce_signature ce_certificate_body env]; unfold is_u32, max_u32; [done| | |lia].
    - rewrite Ls. by vm_compute.
    - by apply (lawful_bytes (f := CertificateBody_field)). }
  assert (CertificateChain_ok (mkCertificateChain [env])) as Hchain.
  { split; [by constructor|]. by vm_compute. }
  pose proof (chain_enc_size env Henv) as Hcs. cbn [ce_signature ce_certificate_body env] in Hcs.
  rewrite Ls in Hcs. unfold ed25519_signature_length in Hcs. cbn [cf_payload chain_file].
  split; [done|]. split; [|lia]. split; [done|].
  split; [by apply (lawful_bytes (f := CertificateChain_field) (enc := CertificateChain_enc))|].
  unfold is_u32, max_u32. cbn [cf_payload chain_file].
  pose proof (zlen_nonneg (CertificateChain_enc (mkCertificateChain [env]))). fold env in Hcs. lia.
Qed.

Lemma create_certificate_returns cert public private times level kind type key sk signer t :
  holds t private (mkContainerFile ContainerEntryType_ed25519_private_key sk) -> signs_for c sk signer ->
  holds t public (mkContainerFile kind key) -> get_public_key_type (mkContainerFile kind key) = Done type ->
  int_ok UInt64 (t_valid_after times) -> int_ok UInt64 (t_valid_before times) -> int_ok UInt8 level ->
  exists env t', returns (create_certificate c disk cert public private times level) t tt t' /\
    certificate_written cert
      (mkCertificateBody (t_valid_after times) (t_valid_before times) level type key []) signer env t t'.
Proof.
  intros Hpriv Hs Hpub Htype Ha Hb Hl. destruct (public_key_type_length _ _ Htype) as [Hk Ht]. cbn in Hk.
  set (body := mkCertificateBody _ _ _ _ _ _).
  assert (CertificateBody_ok body) as Hok.
  { destruct Hpub as (_&[_ Hp]&_). refine (conj Ha (conj Hb (conj Hl (conj Ht (conj Hp _))))).
    split; [constructor|by vm_compute]. }
  destruct (Hs (CertificateBody_enc body) buffer_empty) as (sig&Hsig&Lsig&Bsig&Hv).
  pose proof (body_enc_size body Hk eq_refl) as Hsize.
  set (env := mkCertificateEnvelope (as_seq sig) (CertificateBody_enc body)).
  destruct (signed_envelope_ok (as_seq sig) body Lsig Bsig Hok Hk eq_refl) as (Hchain&Hfile&Hpl). fold env in Hchain, Hfile, Hpl.
  destruct (SecureFile_write_returns cert (chain_file [env]) t Hfile) as (t1&H1&W1).
  assert (holds t1 cert (chain_file [env])) as Hh1.
  { by eapply wrote_holds. }
  destruct (print_contents_quiet t1 cert env body Hh1 Hchain eq_refl Hok) as (t2&H2&Q2).
  exists env, t2. split.
  - unfold create_certificate. eapply returns_container; [exact Hpriv|]. eapply returns_container; [exact Hpub|].
    eapply returns_then; [by apply lift_returns|]. cbv zeta. fold body.
    eapply returns_then.
    { apply lift_returns. by apply (to_any_buffer_enc CertificateBody_field CertificateBody_enc CertificateBody_ok). }
    eapply (returns_then _ _ _ sig).
    { apply lift_returns. exact (f_equal (fun r => obind r throw_on_error) Hsig). }
    cbv zeta. replace (seq_take _ _) with (CertificateBody_enc body).
    2:{ symmetry. apply (take_whole (CertificateBody_enc body)). lia. }
    eapply returns_then.
    { apply lift_returns. by apply (to_any_buffer_enc CertificateChain_field CertificateChain_enc CertificateChain_ok). }
    eapply returns_then; [exact H1|exact H2].
  - split; [by eapply holds_quietly| |done|done|done|done|done].
    intros other file Hne Hho. eapply holds_quietly; [exact Q2|]. by eapply wrote_other.
Qed.

(** ** The chain of trust *)

(** What the handler reads from the file of one certificate. *)
Lemma anchor_read path body signer env t t' :
  certificate_written path body signer env t t' ->
  read_anchor_cert (ContainerFile_enc (chain_file [env])) = Done body.
Proof.
  intros W. unfold read_anchor_cert. rewrite container_read by apply (cw_holds _ _ _ _ _ _ W). cbn [throw_on_error obind].
  cbn [cf_container_entry_type chain_file cf_payload]. rewrite bool_decide_eq_false_2 by tauto.
  rewrite chain_read by apply W. cbn [throw_on_error obind cc_certificates].
  rewrite (cw_body _ _ _ _ _ _ W), body_read by apply W. done.
Qed.

(** A written certificate is issued by the authority whose key signed it. *)
Lemma written_issues path body parent env t t' :
  certificate_written path body (cb_public_key parent) env t t' -> cb_public_key_type parent = PublicKeyType_Ed25519 ->
  cb_valid_after parent <= cb_valid_after body -> cb_valid_before body <= cb_valid_before parent ->
  cb_signing_level body < cb_signing_level parent -> issues c parent env body.
Proof.
  intros W. split; try done; try apply W. rewrite (cw_body _ _ _ _ _ _ W). apply W.
Qed.

Lemma written_verifies path parent_key parent after before key env t t' :
  certificate_written path (mkCertificateBody after before 0 PublicKeyType_X25519 key []) parent_key env t t' ->
  cb_public_key parent = parent_key ->
  cb_valid_after parent <= after -> before <= cb_valid_before parent -> cb_signing_level parent > 0 ->
  cb_public_key_type parent = PublicKeyType_Ed25519 ->
  Chain_verify c parent [env] = Done (inr (mkCertificateBody after before 0 PublicKeyType_X25519 key [])).
Proof.
  intros W <- Ha Hb Hl Ht. apply chain_verify_iff; [apply (so_ed25519 c)|by apply (chain_ok_bytes (mkCertificateChain [env])), W|].
  split; [done|]. split; [|done]. eapply certified_cons; [|constructor].
  eapply written_issues; [exact W|done|done|done|cbn; lia].
Qed.

(** An endpoint's certificate, valid from [after] to [before], under an authority of
    this level and these times. *)
Definition may_issue (anchor_times : Times) (anchor_level : Z) (times : Times) : Prop :=
  0 < anchor_level /\ t_valid_after anchor_times <= t_valid_after times /\
  t_valid_before times <= t_valid_before anchor_times.

(** The tool counts the days of a certificate from the moment it is made: an
    endpoint's certificate made after its authority's, for as many days, outlives it. *)
Lemma same_days_outlive earlier later days anchor_times times level :
  0 <= days -> 0 <= earlier < later -> later + days * 86400000 <= max_u64 ->
  days_to_times earlier days = Done anchor_times -> days_to_times later days = Done times ->
  ~ may_issue anchor_times level times.
Proof.
  unfold days_to_times, int_mul, max_u64. intros Hd Hn Hl Ha Ht. destruct (_ && _); [|done]. cbn [obind] in *.
  destruct (_ && _); [|done]. injection Ha as <-. injection Ht as <-. unfold may_issue, u64. cbn.
  rewrite !Z.mod_small by (rewrite ?Z.mod_small; lia). lia.
Qed.

Lemma written_refused path body parent env t t' :
  certificate_written path body (cb_public_key parent) env t t' ->
  cb_public_key_type parent = PublicKeyType_Ed25519 -> cb_signing_level body = 0 ->
  ~ may_issue (mkTimes (cb_valid_after parent) (cb_valid_before parent)) (cb_signing_level parent)
      (mkTimes (cb_valid_after body) (cb_valid_before body)) ->
  exists e, Chain_verify c parent [env] = Done (inl e).
Proof.
  intros W Ht Hl Hno. unfold Chain_verify. cbn [is_nil Chain_verify_loop].
  unfold Chain_verify_pair, try_get_dsa_info. rewrite Ht, (so_ed25519 c). cbn [dsa_verify dsa_signature_length].
  rewrite (cw_signature _ _ _ _ _ _ W), Z.eqb_refl. cbn [negb].
  rewrite (cw_body _ _ _ _ _ _ W), (cw_verifies _ _ _ _ _ _ W). cbn [obind negb].
  rewrite body_read by apply W.
  destruct (cb_valid_after body <? _) eqn:E1; [by eexists|].
  destruct (_ <? cb_valid_before body) eqn:E2; [by eexists|].
  destruct (_ <=? cb_signing_level body) eqn:E3; [by eexists|]. btests. destruct Hno.
  unfold may_issue. cbn. lia.
Qed.

(** A handler is not made from the file of a chain that does not verify. *)
Lemma handler_refuses anchor_file anchor certificates e :
  read_anchor_cert anchor_file = Done anchor -> ContainerFile_ok (chain_file certificates) ->
  CertificateChain_ok (mkCertificateChain certificates) -> Chain_verify c anchor certificates = Done (inl e) ->
  IndustrialCertificateHandler c anchor_file (ContainerFile_enc (chain_file certificates)) = Throw.
Proof.
  intros Ha Hf Hc Hv. unfold IndustrialCertificateHandler. rewrite Ha. cbn [obind].
  unfold verify_presented_chain. rewrite container_read by done. cbn [throw_on_error obind cf_container_entry_type chain_file].
  rewrite bool_decide_eq_false_2 by tauto. cbn [cf_payload chain_file]. rewrite chain_read by done.
  cbn [throw_on_error obind cc_certificates]. by rewrite Hv.
Qed.

(** The handler made from an anchor and the file of a chain that verifies. *)
Lemma handler_accepts anchor_file anchor certificates leaf :
  read_anchor_cert anchor_file = Done anchor -> ContainerFile_ok (chain_file certificates) ->
  CertificateChain_ok (mkCertificateChain certificates) -> Chain_verify c anchor certificates = Done (inr leaf) ->
  exists h, IndustrialCertificateHandler c anchor_file (ContainerFile_enc (chain_file certificates)) = Done h /\
    handler_validate h (handler_mode h) (certificate_data h) = Done (inr (cb_public_key leaf)).
Proof.
  intros Ha Hf Hc Hv. eexists. unfold IndustrialCertificateHandler. rewrite Ha. cbn [obind].
  unfold verify_presented_chain. rewrite container_read by done. cbn [throw_on_error obind cf_container_entry_type chain_file].
  rewrite bool_decide_eq_false_2 by tauto. cbn [cf_payload chain_file]. rewrite chain_read by done.
  cbn [throw_on_error obind cc_certificates]. rewrite Hv. split; [reflexivity|].
  cbn [handler_validate handler_mode certificate_data]. unfold IndustrialCertificateHandler_validate.
  rewrite bool_decide_eq_false_2 by tauto. cbn [throw_on_error obind]. rewrite chain_read by done.
  cbn [cc_certificates]. by rewrite Hv.
Qed.

(** The session of the tool that sets up one endpoint: the keys of an authority
    and of the endpoint, the authority's own certificate, the endpoint's. *)
Definition issue (a_private a_public e_private e_public anchor certificate : string)
    (anchor_times times : Times) (anchor_level : Z) : act unit :=
  gen_ed25519_key_pair c disk a_private a_public;;
  gen_x25519_key_pair c disk e_private e_public;;
  create_certificate c disk anchor a_public a_private anchor_times anchor_level;;
  create_certificate c disk certificate e_public a_private times 0.

(** C22: Certificates the tool issues are accepted exactly when the endpoint's lies
    within the authority's: with six different file names, times and a level that
    fit their fields, generating an authority's and an endpoint's keys and creating
    both certificates succeeds, whatever the times and the level; if the
    authority's level is positive and its validity contains the endpoint's, the
    certificate handler is constructed from the two files without an exception,
    accepts the chain it presents, and hands the handshake the public key that was
    generated for the endpoint; otherwise the handler's constructor throws. *)
Theorem issued_certificates_accepted a_private a_public e_private e_public anchor certificate
    anchor_times times anchor_level t :
  NoDup [a_private; a_public; e_private; e_public; anchor; certificate] ->
  int_ok UInt64 (t_valid_after anchor_times) -> int_ok UInt64 (t_valid_before times) ->
  int_ok UInt64 (t_valid_before anchor_times) -> int_ok UInt64 (t_valid_after times) ->
  int_ok UInt8 anchor_level ->
  exists t' kp anchor_file certificate_file,
    returns (issue a_private a_public e_private e_public anchor certificate anchor_times times anchor_level) t tt t' /\
    Crypto_gen_keypair_x25519 c (S (t_draws t)) (mkKeyPair buffer_empty buffer_empty) = Done kp /\
    t_files t' !! anchor = Some anchor_file /\ t_files t' !! certificate = Some certificate_file /\
    (may_issue anchor_times anchor_level times ->
     exists h, IndustrialCertificateHandler c anchor_file certificate_file = Done h /\
       handler_validate h (handler_mode h) (certificate_data h) = Done (inr (as_seq (public_key kp)))) /\
    (~ may_issue anchor_times anchor_level times ->
     IndustrialCertificateHandler c anchor_file certificate_file = Throw).
Proof.
  intros Hnd Ha1 Hb2 Hb1 Ha2 Hlev.
  rewrite !NoDup_cons, !not_elem_of_cons in Hnd. destruct_and! Hnd.
  destruct (gen_ed25519_returns a_private a_public t) as (akp&t1&Hag&[Lak _]&Hs&R1&(Hap&Hau&_&Hd1)); [done|].
  destruct (gen_x25519_returns e_private e_public t1) as (kp&t2&Heg&_&[Lek _]&R2&(_&Heu&Ho2&_)); [done|].
  rewrite Hd1 in Heg. apply (Ho2 a_private) in Hap; [|done|done].
  apply (Ho2 a_public) in Hau; [|done|done].
  destruct (create_certificate_returns anchor a_public a_private anchor_times anchor_level _ PublicKeyType_Ed25519
              _ _ _ t2 Hap Hs Hau) as (aenv&t3&R3&W3); [unfold get_public_key_type; cbn; by rewrite Lak|done..|].
  pose proof (cw_others _ _ _ _ _ _ W3 a_private _ ltac:(done) Hap) as Hap3.
  pose proof (cw_others _ _ _ _ _ _ W3 e_public _ ltac:(done) Heu) as Heu3.
  destruct (create_certificate_returns certificate e_public a_private times 0 _ PublicKeyType_X25519
              _ _ _ t3 Hap3 Hs Heu3) as (env&t4&R4&W4); [unfold get_public_key_type; cbn; by rewrite Lek|done|done|done|].
  pose proof (cw_others _ _ _ _ _ _ W4 anchor _ ltac:(done) (cw_holds _ _ _ _ _ _ W3)) as Hanchor.
  pose proof (anchor_read _ _ _ _ _ _ W3) as Hread. pose proof (cw_holds _ _ _ _ _ _ W4) as Hcert.
  exists t4, kp, (ContainerFile_enc (chain_file [aenv])), (ContainerFile_enc (chain_file [env])).
  split. { repeat (eapply returns_then; [eassumption|]). done. }
  split; [done|]. split; [apply Hanchor|]. split; [apply Hcert|]. split.
  - intros (Hl&Ha&Hb).
    pose proof (written_verifies _ _ (mkCertificateBody (t_valid_after anchor_times) (t_valid_before anchor_times)
      anchor_level PublicKeyType_Ed25519 (as_seq (public_key akp)) []) _ _ _ _ _ _ W4 eq_refl Ha Hb ltac:(cbn; lia) eq_refl) as Hv.
    apply (handler_accepts _ _ [env] _ Hread (proj1 (proj2 Hcert)) (cw_chain_ok _ _ _ _ _ _ W4) Hv).
  - intros Hno. edestruct (written_refused certificate _ (mkCertificateBody (t_valid_after anchor_times) (t_valid_before anchor_times)
      anchor_level PublicKeyType_Ed25519 (as_seq (public_key akp)) []) _ _ _ W4 eq_refl eq_refl) as (e&He).
    { by destruct anchor_times, times. }
    exact (handler_refuses _ _ [env] e Hread (proj1 (proj2 Hcert)) (cw_chain_ok _ _ _ _ _ _ W4) He).
Qed.
End Facts.
