(* ===== verification/IcftoolChains.v ===== *)
(** * The certificate tool: appending chains, prompts and exceptions

    When [append_certificate_chains] succeeds, what it writes and what it refuses;
    the arithmetic of [days_to_times] and the loop of the level prompt; and under
    which conditions the tool ends in its own error handler, at worst, on a command
    that does not ask the user. *)

From stdpp Require Import base numbers list strings gmap pretty.
From Stdlib Require Import Lia ZArith.
From S2P Require Import Prelude Ser4cpp Enums Codec Messages Crypto Chain Handshake Sodium ProxyConfig.
From S2P Require Import Printing Icftool IcftoolFacts.

(** Inverts the first action of [H], a lifted result. *)
Ltac lift_inv H x E :=
  let t := fresh "t" in apply returns_bind in H as (x&t&E&H); apply returns_lift in E as [E ->].

(** The files contain bytes. *)
Definition files_ok (t : tool) : Prop := map_Forall (fun _ data => all_bytes data) (t_files t).

Section Append.
Context `{SER : Ser4cpp} (c : CryptoState) `{HS : !SigningOk c}.
Context (disk : string -> option opened) `{HD : !ReliableDisk disk}.

(** ** Reading backwards *)

Lemma container_inv t path {B} (k : ContainerFile -> act B) b t' :
  files_ok t ->
  returns (data ← read_file path; file ← parse_or_throw ContainerFile_read_all data; k file) t b t' ->
  exists file, holds t path file /\ returns (k file) t b t'.
Proof.
  intros Hok H. apply returns_bind in H as (data&t1&H1&H). unfold returns, read_file in H1. injection H1 as H1 <-.
  apply returns_bind in H as (file&t2&H2&H). apply returns_lift in H2 as [H2 ->].
  unfold SecureFile_read, files_of in H1. destruct (t_files t !! path) as [d|] eqn:Ed; [|done].
  destruct (_ <=? 0); [done|]. destruct (_ <? zlen d) eqn:El; [done|]. injection H1 as ->. btests.
  destruct (ContainerFile_read_all data) as [e|f] eqn:Er; [done|]. injection H2 as ->.
  apply (read_all_exact ContainerFile_field ContainerFile_enc ContainerFile_ok) in Er as [Hf Hd].
  2:{ exact (Hok path data Ed). }
  exists file. split; [|done]. split; [by rewrite <- Hd|]. rewrite <- Hd. done.
Qed.

(** The file of a valid chain. *)
Definition holds_chain (t : tool) (path : string) (certificates : list CertificateEnvelope) : Prop :=
  holds t path (chain_file certificates) /\ CertificateChain_ok (mkCertificateChain certificates).

Lemma returns_chain t path {B} (k : CertificateChain -> act B) b t' :
  files_ok t ->
  (exists file chain, holds t path file /\ expect_certificate_chain file t = Some (Done chain, t) /\
     returns (k chain) t b t') <->
  (exists certificates, holds_chain t path certificates /\ returns (k (mkCertificateChain certificates)) t b t').
Proof.
  intros Hok. split.
  - intros (file&chain&Hh&He&Hk). unfold expect_certificate_chain in He.
    case_bool_decide as Ht; [done|].
    unfold parse_or_throw, lift in He. destruct (CertificateChain_read_all _) as [e|ch] eqn:Er; [done|].
    injection He as ->. pose proof Hh as (_&[_ [Hb _]]&_).
    apply chain_read_exact in Er as [Hc Hp]; [|done]. exists (cc_certificates chain).
    destruct chain as [cs], file as [ty pl]. cbn in *. subst. done.
  - intros (cs&[Hh Hc]&Hk). exists (chain_file cs), (mkCertificateChain cs). split; [done|]. split; [|done].
    unfold expect_certificate_chain. cbn [cf_container_entry_type chain_file cf_payload].
    rewrite bool_decide_eq_false_2 by tauto. unfold parse_or_throw, lift. by rewrite chain_read.
Qed.

(** Both at once, as the code reads a chain. *)
Lemma chain_file_returns t path {B} (k : CertificateChain -> act B) b t' :
  files_ok t ->
  returns (data ← read_file path; file ← parse_or_throw ContainerFile_read_all data;
           chain ← expect_certificate_chain file; k chain) t b t' <->
  exists certificates, holds_chain t path certificates /\ returns (k (mkCertificateChain certificates)) t b t'.
Proof.
  intros Hok. rewrite <- (returns_chain t path k b t' Hok). split.
  - intros H. apply container_inv in H as (file&Hh&H); [|done]. apply returns_bind in H as (chain&t1&He&H).
    exists file, chain. split; [done|].
    assert (t1 = t) as ->; [|done]. unfold expect_certificate_chain, returns in He. case_bool_decide; [done|].
    unfold parse_or_throw, lift in He. by injection He.
  - intros (file&chain&Hh&He&H). eapply returns_container; [exact Hh|]. by eapply returns_then.
Qed.

(** ** Appending *)

Lemma add_certs_done chain certificates result :
  zlen chain <= 6 ->
  add_certs chain certificates = Done result <-> result = chain ++ certificates /\ zlen result <= 6.
Proof.
  revert chain. induction certificates as [|e cs IH]; intros chain Hl; simpl.
  - rewrite app_nil_r. split; [by intros [= <-]|by intros [-> _]].
  - unfold SeqStructField_push. destruct (zlen chain =? 6) eqn:E; btests.
    + split; [done|]. intros [-> H]. rewrite zlen_app, zlen_cons in H. pose proof (zlen_nonneg cs). lia.
    + rewrite IH by (rewrite zlen_app, zlen_cons, zlen_nil; lia). by rewrite <- app_assoc.
Qed.

Lemma chain_enc_zlen certificates :
  zlen certificates <= 6 ->
  zlen (CertificateChain_enc (mkCertificateChain certificates)) =
    1 + zlen (concat (map CertificateEnvelope_enc certificates)).
Proof.
  intros H. pose proof (zlen_nonneg certificates). unfold CertificateChain_enc. cbn [concat cc_certificates].
  unfold SeqStructField_enc. rewrite app_nil_r, zlen_app. f_equal.
  vlen_cases (zlen certificates); try lia. done.
Qed.

Lemma chain_file_size t path certificates :
  holds_chain t path certificates ->
  zlen (CertificateChain_enc (mkCertificateChain certificates)) <= default_max_file_size.
Proof.
  intros [(_&[_ [_ Hl]]&Hs) _]. cbn [cf_payload chain_file] in Hl. unfold ContainerFile_enc in Hs.
  cbn [concat cf_payload chain_file app] in Hs. rewrite app_nil_r, zlen_cons in Hs.
  unfold SeqByteField_enc in Hs. rewrite zlen_app in Hs. pose proof (VLength_enc_most _ Hl). lia.
Qed.

(** The joined chain fits the container format. *)
Lemma appended_ok t p1 p2 cs1 cs2 :
  holds_chain t p1 cs1 -> holds_chain t p2 cs2 -> zlen (cs1 ++ cs2) <= 6 ->
  CertificateChain_ok (mkCertificateChain (cs1 ++ cs2)) /\ ContainerFile_ok (chain_file (cs1 ++ cs2)).
Proof.
  intros H1 H2 Hl. pose proof (chain_file_size _ _ _ H1) as S1. pose proof (chain_file_size _ _ _ H2) as S2.
  destruct H1 as [_ [O1 L1]], H2 as [_ [O2 L2]]. cbn [cc_certificates] in *.
  assert (CertificateChain_ok (mkCertificateChain (cs1 ++ cs2))) as Hc by (split; [by apply Forall_app|done]).
  split; [done|]. split; [done|].
  split; [by apply (lawful_bytes (f := CertificateChain_field) (enc := CertificateChain_enc))|].
  cbn [cf_payload chain_file]. rewrite chain_enc_zlen in * by done. rewrite map_app, concat_app, zlen_app.
  pose proof (zlen_nonneg (concat (map CertificateEnvelope_enc cs1))).
  pose proof (zlen_nonneg (concat (map CertificateEnvelope_enc cs2))).
  unfold is_u32, max_u32, default_max_file_size in *. lia.
Qed.

(** The tool after [append] wrote the joined chain. *)
Definition appended (t : tool) (path : string) (certificates : list CertificateEnvelope) : tool :=
  mkTool (<[path := ContainerFile_enc (chain_file certificates)]> (t_files t)) (t_draws t) (t_stdin t) (t_out t).

(** What [append] needs of the chain in the first file and the one certificate in
    the second. *)
Definition appendable (t : tool) (p1 p2 : string) (certificates : list CertificateEnvelope)
    (parent : CertificateBody) (env : CertificateEnvelope) (leaf : CertificateBody) : Prop :=
  holds_chain t p1 certificates /\ holds_chain t p2 [env] /\ zlen certificates <= 5 /\
  (exists issuer, last certificates = Some issuer /\ ce_certificate_body issuer = CertificateBody_enc parent /\
     CertificateBody_ok parent) /\
  issues c parent env leaf /\ cb_signing_level leaf = 0 /\ cb_public_key_type leaf = PublicKeyType_X25519.

Lemma verify_single parent env leaf :
  CertificateChain_ok (mkCertificateChain [env]) ->
  Chain_verify c parent [env] = Done (inr leaf) <->
    issues c parent env leaf /\ cb_signing_level leaf = 0 /\ cb_public_key_type leaf = PublicKeyType_X25519.
Proof.
  intros Hc. rewrite chain_verify_iff; [|apply (so_ed25519 c)|by apply (chain_ok_bytes (mkCertificateChain [env]))].
  split.
  - intros (_&H&Hl). split; [|done]. inversion H as [|p e child es l Hi Hr]; subst. by inversion Hr; subst.
  - intros (Hi&Hl). split; [done|]. split; [|done]. by eapply certified_cons; [|constructor].
Qed.

(** The body of the last certificate of a chain in a file. *)
Lemma last_body_bytes t path certificates issuer :
  holds_chain t path certificates -> last certificates = Some issuer -> all_bytes (ce_certificate_body issuer).
Proof.
  intros [_ Hc] Hl. apply last_Some in Hl as [cs ->]. apply chain_ok_bytes in Hc. cbn in Hc.
  apply Forall_app in Hc as [_ Hc]. by apply Forall_cons in Hc as [? _].
Qed.

Lemma write_chain_exact path certificates t t' :
  ContainerFile_ok (chain_file certificates) ->
  returns (SecureFile_write disk ContainerFile_field path (chain_file certificates)) t tt t' <->
    t' = appended t path certificates.
Proof.
  intros Hok. destruct (disk_reliable path) as (o&Ho&Hk). destruct (Hk (ContainerFile_enc (chain_file certificates))) as [K1 K2].
  assert (returns (SecureFile_write disk ContainerFile_field path (chain_file certificates)) t tt (appended t path certificates)) as Hr.
  { eapply returns_then.
    - apply lift_returns. by apply (to_any_buffer_enc ContainerFile_field ContainerFile_enc ContainerFile_ok).
    - unfold returns, SecureFile_write_data. by rewrite Ho, K1, K2. }
  unfold returns in *. rewrite Hr. split; [by intros [= ->]|by intros ->].
Qed.

Lemma chain_file_enc_inj cs cs' :
  ContainerFile_enc (chain_file cs) = ContainerFile_enc (chain_file cs') ->
  ContainerFile_ok (chain_file cs) -> ContainerFile_ok (chain_file cs') ->
  CertificateChain_ok (mkCertificateChain cs) -> CertificateChain_ok (mkCertificateChain cs') -> cs = cs'.
Proof.
  intros H H1 H2 C1 C2. pose proof (container_read _ H1) as R1. rewrite H, container_read in R1 by done.
  injection R1 as E. pose proof (chain_read _ C1) as R2. rewrite <- E, chain_read in R2 by done. by injection R2.
Qed.

(** Certified chains compose. *)
Lemma certified_app anchor cs1 mid cs2 leaf :
  certified c anchor cs1 mid -> certified c mid cs2 leaf -> certified c anchor (cs1 ++ cs2) leaf.
Proof. induction 1 as [|p env child envs l Hi _ IH]; [done|]. intros H. cbn. eapply certified_cons; [done|by apply IH]. Qed.

Lemma append_sound p1 p2 out t t' :
  files_ok t -> returns (append_certificate_chains c disk p1 p2 out) t tt t' ->
  exists certificates parent env leaf, appendable t p1 p2 certificates parent env leaf /\
    t' = appended t out (certificates ++ [env]).
Proof.
  intros Hok H. unfold append_certificate_chains in H.
  apply chain_file_returns in H as (cs1&H1&H); [|done]. apply chain_file_returns in H as (cs2&H2&H); [|done].
  cbn [cc_certificates] in H. destruct (last cs1) as [issuer|] eqn:El; [|done].
  destruct (zlen cs2 =? 1) eqn:E2; [|done]. btests. cbn [negb] in H.
  destruct cs2 as [|env [|env' cs2]]; [done| |rewrite !zlen_cons in E2; pose proof (zlen_nonneg cs2); lia].
  lift_inv H parent Hp. lift_inv H res Hv. lift_inv H leaf Hr. lift_inv H a1 Ha1. lift_inv H a2 Ha2.
  lift_inv H data Hb. destruct res as [e|leaf']; [done|]. injection Hr as ->.
  destruct (CertificateBody_read_all (ce_certificate_body issuer)) as [e|p] eqn:Er; [done|]. injection Hp as ->.
  apply body_read_exact in Er as [Ho Hbody]; [|exact (last_body_bytes _ _ _ _ H1 El)].
  apply verify_single in Hv; [|apply H2].
  apply add_certs_done in Ha1 as [-> L1]; [|by vm_compute]. cbn [app] in *.
  apply add_certs_done in Ha2 as [-> L2]; [|done].
  destruct (appended_ok _ _ _ _ _ H1 H2 L2) as [Hc Hf].
  rewrite (to_any_buffer_enc CertificateChain_field CertificateChain_enc CertificateChain_ok _ Hc) in Hb.
  injection Hb as <-. exists cs1, parent, env, leaf. split.
  - repeat (split; [done|]). split; [rewrite zlen_app, zlen_cons, zlen_nil in L2; lia|].
    split; [by exists issuer|]. done.
  - by apply (write_chain_exact out (cs1 ++ [env]) t t' Hf).
Qed.

Lemma append_complete p1 p2 out t certificates parent env leaf :
  files_ok t -> appendable t p1 p2 certificates parent env leaf ->
  returns (append_certificate_chains c disk p1 p2 out) t tt (appended t out (certificates ++ [env])).
Proof.
  intros Hok (H1&H2&Hl&(issuer&El&Hbody&Ho)&Hv).
  assert (zlen (certificates ++ [env]) <= 6) as L2 by (rewrite zlen_app, zlen_cons, zlen_nil; lia).
  destruct (appended_ok _ _ _ _ _ H1 H2 L2) as [Hc Hf].
  unfold append_certificate_chains. apply chain_file_returns; [done|]. exists certificates. split; [done|].
  apply chain_file_returns; [done|]. exists [env]. split; [done|]. cbn [cc_certificates]. rewrite El.
  change (zlen [env] =? 1) with true. cbn [negb].
  eapply returns_then; [apply lift_returns; by rewrite Hbody, body_read|].
  eapply returns_then; [apply lift_returns, verify_single; [apply H2|exact Hv]|].
  eapply returns_then; [by apply lift_returns|].
  eapply returns_then; [apply lift_returns, add_certs_done; [by vm_compute|split; [reflexivity|cbn [app]; lia]]|].
  eapply returns_then; [apply lift_returns, add_certs_done; [cbn [app]; lia|split; [reflexivity|done]]|].
  eapply returns_then.
  { apply lift_returns. by apply (to_any_buffer_enc CertificateChain_field CertificateChain_enc CertificateChain_ok). }
  by apply (write_chain_exact out (certificates ++ [env])).
Qed.

(** C31: [append_certificate_chains] succeeds exactly when the first file holds a
    chain of one to five certificates, the second a single certificate that the
    last one of the chain issues, valid as the end of a chain; and then it
    writes the joined chain and changes nothing else.  A chain that was valid
    under an anchor up to the authority it ends in becomes a complete chain
    that the anchor verifies, with the appended certificate as its endpoint. *)
Theorem append_exact p1 p2 out t t' :
  files_ok t ->
  (returns (append_certificate_chains c disk p1 p2 out) t tt t' <->
   exists certificates parent env leaf, appendable t p1 p2 certificates parent env leaf /\
     t' = appended t out (certificates ++ [env])) /\
  (forall certificates parent env leaf anchor,
     appendable t p1 p2 certificates parent env leaf -> certified c anchor certificates parent ->
     Chain_verify c anchor (certificates ++ [env]) = Done (inr leaf)).
Proof.
  intros Hok. split.
  - split; [by apply append_sound|]. intros (cs&parent&env&leaf&Ha&->). by eapply append_complete.
  - intros cs parent env leaf anchor (H1&H2&Hl&_&Hi&Hv) Hc.
    assert (zlen (cs ++ [env]) <= 6) as L2 by (rewrite zlen_app, zlen_cons, zlen_nil; lia).
    destruct (appended_ok _ _ _ _ _ H1 H2 L2) as [Ho _].
    apply chain_verify_iff; [apply (so_ed25519 c)|by apply (chain_ok_bytes (mkCertificateChain _))|].
    split; [by destruct cs|]. split; [|done]. eapply certified_app; [exact Hc|].
    by eapply certified_cons; [|constructor].
Qed.

(** A complete chain cannot be extended: appending to what [append] wrote fails,
    whatever the certificate, because the chain then ends in an endpoint.  So
    the tool builds chains of at most two certificates below the anchor. *)
Theorem appended_chain_is_final p1 p2 out t t' p3 out' t'' :
  files_ok t -> returns (append_certificate_chains c disk p1 p2 out) t tt t' ->
  returns (append_certificate_chains c disk out p3 out') t' tt t'' -> False.
Proof.
  intros Hok H1 H2. apply append_sound in H1 as (cs&parent&env&leaf&Ha&->); [|done].
  assert (files_ok (appended t out (cs ++ [env]))) as Hok'.
  { destruct Ha as (A1&A2&Hl&_). apply map_Forall_insert_2; [|done].
    apply (lawful_bytes (f := ContainerFile_field)). eapply appended_ok; [exact A1|exact A2|].
    rewrite zlen_app, zlen_cons, zlen_nil. lia. }
  apply append_sound in H2 as (cs'&parent'&env'&leaf'&(A1&_&_&(issuer&Hlast&Hbody&Hp)&Hi&_)&_); [|done].
  destruct Ha as (B1&B2&Hl&_&Hi1&_&Ht1). destruct A1 as [(Hf&Hfc'&_) Hc']. cbn [t_files appended] in Hf.
  rewrite lookup_insert_eq in Hf. apply (inj Some) in Hf. destruct (appended_ok _ _ _ _ _ B1 B2) as [Hc Hfc]; [rewrite zlen_app, zlen_cons, zlen_nil; lia|].
  apply chain_file_enc_inj in Hf as <-; [|done..].
  rewrite last_snoc in Hlast. injection Hlast as <-. rewrite (issued_body _ _ _ _ Hi1) in Hbody.
  pose proof (body_read leaf (issued_ok _ _ _ _ Hi1)) as R1. rewrite Hbody, body_read in R1 by done.
  injection R1 as ->. rewrite (issuer_type _ _ _ _ Hi) in Ht1. done.
Qed.
End Append.

(** ** Questions to the user *)

Lemma days_bound now days :
  0 <= days <= 65535 ->
  (days <= 24 ->
     days_to_times now days = Done (mkTimes (u64 now) (u64 (u64 now + days * 86400000)))) /\
  (24 < days -> days_to_times now days = Crash).
Proof.
  intros Hd. unfold days_to_times, int_mul. split; intros H.
  - destruct ((_ <=? days * 86400) && _) eqn:E1; [|btests; lia]. cbn [obind].
    destruct ((_ <=? days * 86400 * 1000) && _) eqn:E2; [|btests; lia]. cbn [obind].
    do 3 f_equal. lia.
  - destruct ((_ <=? days * 86400) && _) eqn:E1; [|done]. cbn [obind].
    destruct ((_ <=? days * 86400 * 1000) && _) eqn:E2; [|done].
    apply andb_true_iff in E2 as [_ E2]. btests. lia.
Qed.

(** The arithmetic of [days_to_times] is done in [int]: a validity of up to 24
    days gives the interval that starts now and lasts that many days, and
    from 25 days on the multiplication overflows, whose behaviour is undefined. *)
Theorem days_to_times_bound now days :
  0 <= days <= 65535 ->
  (days <= 24 ->
     days_to_times now days = Done (mkTimes (u64 now) (u64 (u64 now + days * 86400000)))) /\
  (24 < days -> days_to_times now days = Crash).
Proof.
  apply days_bound.
Qed.

(** The answer the level prompt settles on: the first number up to six, or zero
    at text that is no number.  There is none when the input ends or a number
    does not fit 32 bits before that. *)
Fixpoint level_answer (tokens : list token) : option (Z * istream) :=
  match tokens with
  | [] => None
  | Number n :: tokens =>
      if Z.of_N n <=? 6 then Some (Z.of_N n, mkIstream false tokens)
      else if Z.of_N n <=? 4294967295 then level_answer tokens else None
  | Garbage :: _ => Some (0, mkIstream true tokens)
  end.

Lemma level_loop_stuck fuel level stream :
  6 < level -> in_failed stream = true -> signing_level_loop fuel level stream = None.
Proof.
  intros Hl Hf. revert level Hl. induction fuel as [|fuel IH]; intros level Hl; [done|]. simpl.
  destruct (6 <? level) eqn:E; btests; [|lia]. unfold extract. rewrite Hf. by apply IH.
Qed.

Lemma level_loop_answer tokens fuel level :
  6 < level -> (length tokens + 2 <= fuel)%nat ->
  signing_level_loop fuel level (mkIstream false tokens) = level_answer tokens.
Proof.
  revert fuel level. induction tokens as [|[n|] tokens IH]; intros [|fuel] level Hl Hf; simpl in Hf; try lia;
    cbn [signing_level_loop level_answer]; (destruct (6 <? level) eqn:E; btests; [|lia]); unfold extract;
    cbn [in_failed in_tokens].
  - by apply level_loop_stuck.
  - destruct (4294967295 <? Z.of_N n) eqn:E1; btests.
    + destruct (Z.of_N n <=? 6) eqn:E2; btests; [lia|]. destruct (Z.of_N n <=? 4294967295) eqn:E3; btests; [lia|].
      by apply level_loop_stuck.
    + destruct (Z.of_N n <=? 6) eqn:E2; btests.
      * destruct fuel as [|fuel]; [lia|]. simpl. destruct (6 <? Z.of_N n) eqn:E3; btests; [lia|done].
      * destruct (Z.of_N n <=? 4294967295) eqn:E3; btests; [|lia]. apply IH; lia.
  - destruct fuel as [|fuel]; [lia|]. done.
Qed.

Lemma level_loop_more fuel more level stream r :
  signing_level_loop fuel level stream = Some r -> (fuel <= more)%nat -> signing_level_loop more level stream = Some r.
Proof.
  revert more level stream. induction fuel as [|fuel IH]; intros [|more] level stream H Hl; [done|done|lia|].
  simpl in *. destruct (6 <? level); [|done]. destruct (extract _ _ _) as [l s]. apply IH; [done|lia].
Qed.

(** The level prompt returns the answer [level_answer] finds in the input, a
    level of at most six, within the fuel of the model; and where there is none
    it asks forever, however long it runs. *)
Theorem level_prompt_exact tokens :
  signing_level_loop (signing_level_fuel (mkIstream false tokens)) 256 (mkIstream false tokens) = level_answer tokens /\
  (level_answer tokens = None -> forall fuel, signing_level_loop fuel 256 (mkIstream false tokens) = None) /\
  (forall level stream, level_answer tokens = Some (level, stream) -> 0 <= level <= 6).
Proof.
  split; [by apply level_loop_answer|]. split.
  - intros Hn fuel. destruct (signing_level_loop fuel _ _) as [r|] eqn:E; [|done].
    eapply (level_loop_more _ (fuel + (length tokens + 2))) in E; [|lia].
    rewrite level_loop_answer in E by lia. congruence.
  - induction tokens as [|[n|] tokens IH]; intros level stream; simpl; [done| |by intros [= <- <-]].
    destruct (Z.of_N n <=? 6) eqn:E; btests; [intros [= <- <-]; lia|].
    destruct (Z.of_N n <=? 4294967295); [apply IH|done].
Qed.

(** ** Every failure is an exception *)

Definition safe {A} (r : outcome A) : Prop := r = Throw \/ exists a, r = Done a.

(** The action ends, in a value or an exception. *)
Definition tame {A} (m : act A) : Prop := forall t, exists r t', m t = Some (r, t') /\ safe r.

Create HintDb tame.

Lemma safe_done {A} (a : A) : safe (Done a).
Proof. right. by exists a. Qed.

Lemma safe_throw {A} : safe (@Throw A).
Proof. by left. Qed.

Lemma safe_on_error {E A} (r : E + A) : safe (throw_on_error r).
Proof. destruct r; [apply safe_throw|apply safe_done]. Qed.

Lemma safe_bind {A B} (r : outcome A) (k : A -> outcome B) :
  safe r -> (forall a, r = Done a -> safe (k a)) -> safe (obind r k).
Proof. intros [->|[a ->]] Hk; [apply safe_throw|by apply Hk]. Qed.

Lemma tame_lift {A} (r : outcome A) : safe r -> tame (lift r).
Proof. intros H t. by exists r, t. Qed.

Lemma tame_ret {A} (a : A) : tame (mret a).
Proof. intros t. exists (Done a), t. split; [done|apply safe_done]. Qed.

Lemma tame_throw {A} : tame (@throw_exception A).
Proof. apply tame_lift, safe_throw. Qed.

Lemma tame_bind {A B} (m : act A) (k : A -> act B) : tame m -> (forall a, tame (k a)) -> tame (m ≫= k).
Proof.
  intros Hm Hk t. destruct (Hm t) as (r&t1&E&[->|[a ->]]); unfold mbind, act_bind; rewrite E.
  - exists Throw, t1. split; [done|apply safe_throw].
  - apply Hk.
Qed.

Lemma tame_line l : tame (print_line l).
Proof. intros t. eexists _, _. split; [done|apply safe_done]. Qed.

Lemma tame_parse {A} (read_all : bytes -> ParseError + A) data : tame (parse_or_throw read_all data).
Proof. apply tame_lift, safe_on_error. Qed.

Lemma tame_if {A} (b : bool) (m k : act A) : tame m -> tame k -> tame (if b then m else k).
Proof. by destruct b. Qed.

#[export] Hint Resolve safe_done safe_throw safe_on_error tame_ret tame_throw tame_line tame_parse : tame.

Lemma tame_lines ls : tame (print_lines ls).
Proof. induction ls; cbn [print_lines]; [auto with tame|]. apply tame_bind; auto with tame. Qed.

#[export] Hint Resolve tame_lines : tame.

Ltac tame :=
  repeat first
    [ solve [auto with tame]
    | apply tame_bind; [|intros ?]
    | apply tame_if
    | case_match ].

Section Tame.
Context `{SER : Ser4cpp} `{FMT : LogFormat} (c : CryptoState) `{HS : !SigningOk c}.
Context (now : Z) (disk : string -> option opened).

Lemma tame_read path : tame (read_file path).
Proof.
  intros t. eexists _, _. split; [reflexivity|]. unfold SecureFile_read. repeat case_match; auto with tame.
Qed.

Lemma safe_buffer {A} (f : field A) a : safe (to_any_buffer f a).
Proof. unfold to_any_buffer. repeat case_match; auto with tame. Qed.

Lemma tame_write {A} (f : field A) path item : tame (SecureFile_write disk f path item).
Proof.
  apply tame_bind; [apply tame_lift, safe_buffer|]. intros data t. unfold SecureFile_write_data.
  destruct (disk path); eexists _, _; (split; [reflexivity|]); [|auto with tame]. case_match; auto with tame.
Qed.

Lemma tame_drawing {A} (f : nat -> outcome A) : (forall draw, safe (f draw)) -> tame (drawing f).
Proof. intros H t. eexists _, _. split; [reflexivity|apply H]. Qed.

Lemma done_safe {A} (r : outcome A) P : (exists a, r = Done a /\ P a) -> safe r.
Proof. intros (a&->&_). apply safe_done. Qed.

Lemma ed25519_checked : check_supports_ed25519 c = Done tt.
Proof.
  unfold check_supports_ed25519. destruct (so_random c 0 []) as (r&Hr&_). unfold Crypto_gen_random in Hr.
  apply obind_done in Hr as ([]&-> &_). cbn [obind]. by rewrite (so_ed25519 c).
Qed.

Lemma ed25519_functions :
  is_some (be_sign_ed25519 (backend c)) = true /\ is_some (be_verify_ed25519 (backend c)) = true.
Proof.
  pose proof (so_ed25519 c) as H. unfold supports_ed25519 in H. rewrite !andb_true_iff in H. tauto.
Qed.

Lemma safe_verify message signature key :
  ed25519_signature_length <= zlen signature -> ed25519_public_key_length <= zlen key ->
  safe (Crypto_verify_ed25519 c message signature key).
Proof.
  intros Hs Hk. unfold Crypto_verify_ed25519. rewrite ed25519_checked. cbn [obind].
  pose proof (proj2 ed25519_functions). pose proof (kc_verify _ (so_keys c)) as Hv.
  destruct (be_verify_ed25519 (backend c)) as [f|]; [|done]. cbn.
  destruct (Hv f message signature key eq_refl Hs Hk) as (ok&->). apply safe_done.
Qed.

Lemma safe_sign data key out : ed25519_private_key_length <= zlen key -> safe (Crypto_sign_ed25519 c data key out).
Proof.
  intros Hk. unfold Crypto_sign_ed25519. rewrite ed25519_checked. cbn [obind].
  pose proof (proj1 ed25519_functions). pose proof (kc_sign _ (so_keys c)) as Hs.
  destruct (be_sign_ed25519 (backend c)) as [f|]; [|done]. cbn.
  destruct (Hs f data key out eq_refl Hk) as (r&->). apply safe_done.
Qed.

(** A private key of full length. *)
Definition signing_key_ok (entry : ContainerFile) : Prop :=
  cf_container_entry_type entry = ContainerEntryType_ed25519_private_key ->
  ed25519_private_key_length <= zlen (cf_payload entry).

(** A certificate whose key, if it signs, has full length. *)
Definition verifying_key_ok (body : CertificateBody) : Prop :=
  cb_public_key_type body = PublicKeyType_Ed25519 -> ed25519_public_key_length <= zlen (cb_public_key body).

Lemma safe_signature data entry : signing_key_ok entry -> safe (calc_signature c data entry).
Proof.
  intros Hk. unfold calc_signature, signing_key_ok in *. destruct (cf_container_entry_type entry); auto with tame.
  apply safe_bind; [by apply safe_sign, Hk|]. auto with tame.
Qed.

Lemma safe_key_type file : safe (get_public_key_type file).
Proof. unfold get_public_key_type. repeat case_match; auto with tame. Qed.

Lemma safe_pair parent env : verifying_key_ok parent -> safe (Chain_verify_pair c parent env).
Proof.
  intros Hk. unfold Chain_verify_pair, try_get_dsa_info, verifying_key_ok in *. rewrite (so_ed25519 c).
  destruct (cb_public_key_type parent); cbn [dsa_verify dsa_signature_length]; auto with tame.
  destruct (_ =? zlen (ce_signature env)) eqn:E; cbn [negb]; auto with tame. btests.
  apply safe_bind; [apply safe_verify; [lia|by apply Hk]|]. intros ok _. repeat case_match; auto with tame.
Qed.

(** The verification of one certificate. *)
Lemma safe_chain_verify parent env : verifying_key_ok parent -> safe (Chain_verify c parent [env]).
Proof.
  intros Hk. unfold Chain_verify. cbn [is_nil Chain_verify_loop]. apply safe_bind.
  - apply safe_bind; [by apply safe_pair|]. intros [] _; auto with tame.
  - intros [] _; repeat case_match; auto with tame.
Qed.

Lemma safe_add_certs chain certificates : safe (add_certs chain certificates).
Proof. revert chain. induction certificates; intros chain; cbn [add_certs]; [auto with tame|]. case_match; auto with tame. Qed.

Lemma safe_gen_random draw dest : safe (Crypto_gen_random c draw dest).
Proof. eapply done_safe, (so_random c). Qed.

Lemma safe_gen_x25519 draw : safe (Crypto_gen_keypair_x25519 c draw (mkKeyPair buffer_empty buffer_empty)).
Proof. eapply done_safe, (so_gen_x25519 c). Qed.

Lemma safe_gen_ed25519 draw : safe (Crypto_gen_keypair_ed25519 c draw (mkKeyPair buffer_empty buffer_empty)).
Proof. eapply done_safe, (so_gen_ed25519 c). Qed.

#[local] Hint Resolve tame_lift tame_read safe_buffer tame_write tame_drawing safe_signature safe_key_type
  safe_add_certs safe_gen_random safe_gen_x25519 safe_gen_ed25519 : tame.

Lemma tame_certificates indent i certificates : tame (print_certificates indent i certificates).
Proof. revert indent i. induction certificates; intros; cbn [print_certificates]; unfold print_calls; tame. Qed.

#[local] Hint Resolve tame_certificates : tame.

Lemma tame_contents path : tame (print_contents path).
Proof. unfold print_contents, print_certificate_chain, print_calls. tame. Qed.

#[local] Hint Resolve tame_contents : tame.

(** The action ends when it is run on [t]. *)
Definition ends {A} (m : act A) (t : tool) : Prop := exists r t', m t = Some (r, t') /\ safe r.

(** An action that only looks at the tool. *)
Lemma tool_ends_bind {A B} (m : act A) (k : A -> act B) t r :
  m t = Some (r, t) -> safe r -> (forall a, r = Done a -> ends (k a) t) -> ends (m ≫= k) t.
Proof.
  intros E [->|[a ->]] Hk; unfold ends, mbind, act_bind; rewrite E; [|by apply Hk].
  exists Throw, t. split; [done|apply safe_throw].
Qed.

Lemma ends_parse {A B} (read_all : bytes -> ParseError + A) data (k : A -> act B) t :
  (forall a, read_all data = inr a -> ends (k a) t) -> ends (parse_or_throw read_all data ≫= k) t.
Proof.
  intros Hk. eapply tool_ends_bind; [reflexivity|apply safe_on_error|]. intros a Ha. apply Hk.
  destruct (read_all data); [done|]. by injection Ha as ->.
Qed.

(** What a file of the tool has to say of itself when it is read. *)
Definition file_says (t : tool) (path : string) (P : ContainerFile -> Prop) : Prop :=
  forall data file, t_files t !! path = Some data -> ContainerFile_read_all data = inr file -> P file.

Lemma ends_container {B} path (k : ContainerFile -> act B) t P :
  file_says t path P -> (forall file, P file -> ends (k file) t) ->
  ends (data ← read_file path; file ← parse_or_throw ContainerFile_read_all data; k file) t.
Proof.
  intros Hsays Hk. assert (safe (SecureFile_read (files_of t) path default_max_file_size)) as Hr
    by (unfold SecureFile_read; repeat case_match; auto with tame).
  eapply tool_ends_bind; [reflexivity|exact Hr|]. intros data Hd. apply ends_parse. intros file Hf. apply Hk, (Hsays data); [|done].
  unfold SecureFile_read, files_of in Hd. destruct (t_files t !! path); [|done].
  destruct (_ <=? 0); [done|]. destruct (_ <? _); [done|]. by injection Hd as ->.
Qed.

Lemma create_ends certificate public private times level t :
  file_says t private signing_key_ok -> ends (create_certificate c disk certificate public private times level) t.
Proof.
  intros Hk. apply (ends_container private _ t _ Hk). intros entry He.
  match goal with |- ends ?m t => assert (tame m) as H; [|exact (H t)] end. tame.
Qed.

(** The last certificate of the chain in a file. *)
Definition last_certificate_ok (file : ContainerFile) : Prop :=
  forall chain env body, CertificateChain_read_all (cf_payload file) = inr chain ->
    last (cc_certificates chain) = Some env -> CertificateBody_read_all (ce_certificate_body env) = inr body ->
    verifying_key_ok body.

Lemma expected_chain_ends {B} file (k : CertificateChain -> act B) t :
  (forall chain, CertificateChain_read_all (cf_payload file) = inr chain -> ends (k chain) t) ->
  ends (chain ← expect_certificate_chain file; k chain) t.
Proof.
  intros Hk. unfold expect_certificate_chain. case_bool_decide; [|by apply ends_parse].
  eapply tool_ends_bind; [reflexivity|apply safe_throw|done].
Qed.

Lemma append_ends p1 p2 out t :
  file_says t p1 last_certificate_ok -> ends (append_certificate_chains c disk p1 p2 out) t.
Proof.
  intros Hlast. apply (ends_container p1 _ t _ Hlast). intros file_1 H1. apply expected_chain_ends. intros chain_1 E1.
  apply (ends_container p2 _ t (fun _ => True)); [done|]. intros file_2 _. apply expected_chain_ends. intros chain_2 _.
  destruct (last (cc_certificates chain_1)) as [env|] eqn:El; [|apply tame_throw].
  destruct (zlen (cc_certificates chain_2) =? 1) eqn:E2; [|apply tame_throw]. btests. cbn [negb].
  destruct (cc_certificates chain_2) as [|leaf [|x rest]]; [done| |rewrite !zlen_cons in E2; pose proof (zlen_nonneg rest); lia].
  apply ends_parse. intros body Hb. pose proof (safe_chain_verify body leaf (H1 _ _ _ E1 El Hb)) as Hv.
  match goal with |- ends ?m t => assert (tame m) as H; [|exact (H t)] end. tame.
Qed.

Lemma tame_keys p1 p2 :
  tame (gen_shared_secert c disk p1) /\ tame (gen_x25519_key_pair c disk p1 p2) /\
  tame (gen_ed25519_key_pair c disk p1 p2).
Proof.
  unfold gen_shared_secert, gen_x25519_key_pair, gen_ed25519_key_pair, Actions_write. split_and!; tame.
Qed.

Lemma tame_files paths : tame (print_files paths).
Proof. induction paths; cbn [print_files]; tame. Qed.

(** The conditions under which the tool stays within defined behaviour and asks no
    question.  A certificate is asked for with both values on the command line, valid
    for at most 24 days and signed with a private key of full length; and the
    certificate that a chain is appended to has a key of full length. *)
Definition unattended (args : parser_results) (t : tool) : Prop :=
  (has_option args Flag_cert = true ->
   has_option args Flag_days = true /\ has_option args Flag_level = true /\
   safe (days_as_uint16 args) /\ safe (level_as_uint8 args) /\
   (forall days, days_as_uint16 args = Done days -> 0 <= days <= 24) /\
   forall certificate public private, pos args = [certificate; public; private] ->
     file_says t private signing_key_ok) /\
  (has_option args Flag_append = true ->
   forall file_1 file_2 output, pos args = [file_1; file_2; output] -> file_says t file_1 last_certificate_ok).

Lemma tame_ends {A} (m : act A) t : tame m -> ends m t.
Proof. intros H. apply H. Qed.

Lemma ends_if {A} (b : bool) (m k : act A) t : (b = true -> ends m t) -> (b = false -> ends k t) -> ends (if b then m else k) t.
Proof. destruct b; auto. Qed.

Lemma run_ends args t : unattended args t -> ends (Program_run_parsed c now disk args) t.
Proof.
  intros [Hcert Happend]. unfold Program_run_parsed.
  apply ends_if; intros _; [apply tame_ends; tame|]. apply ends_if; intros _; [apply tame_ends, tame_files|].
  apply ends_if; intros _.
  { repeat case_match; try apply tame_throw. apply (tame_keys _ EmptyString). }
  apply ends_if; intros _. { repeat case_match; try apply tame_throw. apply tame_keys. }
  apply ends_if; intros _. { repeat case_match; try apply tame_throw. apply tame_keys. }
  apply ends_if; intros Ec.
  - destruct (Hcert Ec) as (Hd&Hl&Sd&Sl&Hdays&Hkey). rewrite Hd, Hl.
    destruct (pos args) as [|a [|b [|p [|]]]] eqn:Ep; try apply tame_throw.
    eapply tool_ends_bind; [reflexivity| |].
    { apply safe_bind; [done|]. intros d Ed. specialize (Hdays d Ed).
      destruct (days_bound now d) as [Hb _]; [lia|]. rewrite Hb by lia. apply safe_done. }
    intros times _. eapply tool_ends_bind; [reflexivity|exact Sl|]. intros level _. by apply create_ends, (Hkey a b p).
  - apply ends_if; intros Ea; [|apply tame_ends; tame].
    destruct (pos args) as [|a [|b [|p [|]]]] eqn:Ep; try apply tame_throw. by apply append_ends, (Happend Ea a b p).
Qed.

(** A command line that asks for a certificate and gives the days. *)
Definition asks_for_certificate (args : parser_results) (days : Z) : Prop :=
  (forall f, In f [Flag_help; Flag_show; Flag_shared; Flag_x25519; Flag_ed25519] -> has_option args f = false) /\
  has_option args Flag_cert = true /\ has_option args Flag_days = true /\ length (pos args) = 3%nat /\
  days_as_uint16 args = Done days.

(** C36: Every command that asks no question ends in the tool's own error handler at
    worst: whatever else the files contain and whatever the disk does, the tool
    neither aborts nor runs into undefined behaviour nor fails to end, and returns
    zero.  The conditions: a certificate is requested with its days, at most 24, and
    its level on the command line, and the file of the private key, if it is an
    Ed25519 key, holds at least 64 bytes; and the certificate that a chain is to be
    appended to, if its key is an Ed25519 one, has a key of at least 32 bytes.  From
    25 days on, as the script for single-level certificates asks for, the
    computation of the validity overflows, and the behaviour is undefined. *)
Theorem icftool_ends parse argv t :
  (safe (parse argv) -> (forall args, parse argv = Done args -> unattended args t) ->
   exists t', icftool_main c now disk parse argv t = Some (Done 0, t')) /\
  (forall args days, parse argv = Done args -> asks_for_certificate args days -> 25 <= days <= 65535 ->
   icftool_main c now disk parse argv t = Some (Crash, t)).
Proof.
  unfold icftool_main, Program_run. split.
  - intros Hp Hu. assert (ends (args ← lift (parse argv); Program_run_parsed c now disk args) t) as Ht.
    { eapply tool_ends_bind; [reflexivity|done|]. intros args Ea. by apply run_ends, Hu. }
    destruct Ht as (r&t'&->&[->|[[] ->]]); by exists t'.
  - intros args days Ea (Hno&Hc&Hd&Hpos&Hdays) Hlarge. unfold mbind, act_bind, lift. rewrite Ea.
    unfold Program_run_parsed. rewrite !Hno by (cbn; tauto). rewrite Hc, Hd.
    destruct (pos args) as [|a [|b [|p [|]]]]; try done.
    unfold mbind, act_bind, lift. rewrite Hdays. cbn [obind].
    destruct (days_bound now days) as [_ Hb]; [lia|]. by rewrite Hb by lia.
Qed.
End Tame.
