(* ===== verification/IcftoolScenario.v ===== *)
(** * The certificate tool: executed cases

    The tool over a concrete library and disk: the set-up of an endpoint, an
    authority between anchor and endpoint with the appended chain, and the
    concrete instances of the theorems. *)

From stdpp Require Import base numbers list strings gmap pretty.
From Stdlib Require Import Lia ZArith.
From S2P Require Import Prelude Ser4cpp Enums Codec Messages Crypto Chain Handshake Sodium ProxyConfig.
From S2P Require Import Printing Icftool IcftoolFacts IcftoolChains.

Local Abbreviation toy_crypto := (sodium_crypto (SER := ser4cpp_reference)).

(** Every file can be written. *)
Definition good_disk : string -> option opened := fun _ => Some (mkOpened (fun data => data) (fun _ => false)).

#[export] Instance good_disk_reliable : ReliableDisk good_disk.
Proof. intros path. by eexists. Qed.

Definition no_input : istream := mkIstream false [].
Definition new_tool : tool := mkTool ∅ 0 no_input [].

Definition anchor_times : Times := mkTimes 1000 9000.
Definition endpoint_times : Times := mkTimes 2000 8000.

Definition issue_session : act unit :=
  issue (SER := ser4cpp_reference) toy_crypto good_disk "ca.priv" "ca.pub" "ep.priv" "ep.pub" "ca.icf" "ep.icf"
    anchor_times endpoint_times 2.

Lemma issued_certificates_accepted_witness :
  exists t' kp anchor_file certificate_file,
    returns issue_session new_tool tt t' /\
    Crypto_gen_keypair_x25519 toy_crypto 1 (mkKeyPair buffer_empty buffer_empty) = Done kp /\
    t_files t' !! "ca.icf" = Some anchor_file /\ t_files t' !! "ep.icf" = Some certificate_file /\
    exists h, IndustrialCertificateHandler (SER := ser4cpp_reference) toy_crypto anchor_file certificate_file = Done h /\
      handler_validate h (handler_mode h) (certificate_data h) = Done (inr (as_seq (public_key kp))).
Proof.
  destruct (issued_certificates_accepted (SER := ser4cpp_reference) toy_crypto good_disk
            "ca.priv" "ca.pub" "ep.priv" "ep.pub" "ca.icf" "ep.icf" anchor_times endpoint_times 2 new_tool)
    as (t'&kp&af&cf&Hr&Hk&Ha&Hc&Hin&_); [by apply (bool_decide_unpack _)|by vm_compute..|].
  exists t', kp, af, cf. split; [exact Hr|]. split; [exact Hk|]. split; [exact Ha|]. split; [exact Hc|].
  apply Hin. repeat split; by vm_compute.
Defined.

(** Ten days for both, the endpoint's certificate made a second later. *)
Example same_days_outlive_example :
  exists anchor_times times,
    days_to_times 1700000000000 10 = Done anchor_times /\ days_to_times 1700000001000 10 = Done times /\
    ~ may_issue anchor_times 2 times.
Proof.
  eexists _, _. split; [reflexivity|]. split; [reflexivity|].
  by apply (same_days_outlive 1700000000000 1700000001000 10).
Qed.

(** ** An authority below the anchor *)

(** The anchor, an authority of level 1 and the endpoint it issues. *)
Definition setup_session : act unit :=
  gen_ed25519_key_pair (SER := ser4cpp_reference) toy_crypto good_disk "ca.priv" "ca.pub";;
  gen_ed25519_key_pair (SER := ser4cpp_reference) toy_crypto good_disk "sub.priv" "sub.pub";;
  gen_x25519_key_pair (SER := ser4cpp_reference) toy_crypto good_disk "ep.priv" "ep.pub";;
  create_certificate (SER := ser4cpp_reference) toy_crypto good_disk "ca.icf" "ca.pub" "ca.priv" anchor_times 2;;
  create_certificate (SER := ser4cpp_reference) toy_crypto good_disk "sub.icf" "sub.pub" "ca.priv" anchor_times 1;;
  create_certificate (SER := ser4cpp_reference) toy_crypto good_disk "ep.icf" "ep.pub" "sub.priv" endpoint_times 0.

Definition tool_after (m : act unit) (t : tool) : tool :=
  match m t with Some (_, t') => t' | None => t end.

Definition setup_tool : tool := Eval vm_compute in tool_after setup_session new_tool.

Example setup_returns : returns setup_session new_tool tt setup_tool.
Proof. vm_compute. reflexivity. Qed.

Definition append_session : act unit :=
  append_certificate_chains (SER := ser4cpp_reference) toy_crypto good_disk "sub.icf" "ep.icf" "chain.icf".

Definition appended_tool : tool := Eval vm_compute in tool_after append_session setup_tool.

Lemma setup_files_ok : files_ok setup_tool.
Proof.
  apply (bool_decide_unpack (map_Forall (fun _ data => Forall (fun b => 0 <= b < 256) data) (t_files setup_tool))).
  vm_compute. exact I.
Qed.

Lemma append_exact_witness :
  exists certificates parent env leaf,
    appendable toy_crypto setup_tool "sub.icf" "ep.icf" certificates parent env leaf /\
    appended_tool = appended setup_tool "chain.icf" (certificates ++ [env]).
Proof.
  exact (proj1 (proj1 (append_exact (SER := ser4cpp_reference) toy_crypto good_disk "sub.icf" "ep.icf" "chain.icf"
                         setup_tool appended_tool setup_files_ok)) eq_refl).
Defined.

(** The joined chain is accepted under the anchor, and a second certificate cannot
    be appended to it. *)
Example appended_chain_accepted :
  match t_files appended_tool !! "ca.icf", t_files appended_tool !! "chain.icf" with
  | Some anchor_file, Some chain_file =>
      match IndustrialCertificateHandler (SER := ser4cpp_reference) toy_crypto anchor_file chain_file with
      | Done h =>
          match handler_validate h (handler_mode h) (certificate_data h) with
          | Done (inr key) =>
              bool_decide (key = as_seq (public_key (sodium_gen_keypair_x25519 2%nat (mkKeyPair buffer_empty buffer_empty))))
          | _ => false
          end
      | _ => false
      end
  | _, _ => false
  end = true.
Proof. vm_compute. reflexivity. Qed.

Example appended_again_throws :
  append_certificate_chains (SER := ser4cpp_reference) toy_crypto good_disk "chain.icf" "ep.icf" "more.icf" appended_tool =
    Some (Throw, appended_tool).
Proof. vm_compute. reflexivity. Qed.

(** ** Commands *)

Lemma days_to_times_bound_witness :
  days_to_times 5000 24 = Done (mkTimes 5000 2073605000) /\ days_to_times 5000 25 = Crash.
Proof.
  split.
  - exact (proj1 (days_to_times_bound 5000 24 ltac:(lia)) ltac:(lia)).
  - exact (proj2 (days_to_times_bound 5000 25 ltac:(lia)) ltac:(lia)).
Defined.

Example level_prompt :
  level_answer [Number 9; Number 7; Number 3; Number 1] = Some (3, mkIstream false [Number 1]) /\
  level_answer [Number 9; Garbage] = Some (0, mkIstream true [Garbage]) /\
  level_answer [Number 9; Number 4294967296; Number 3] = None.
Proof. done. Qed.

(** [-c -d days -l 0 new.icf ep.pub private] *)
Definition cert_command_for (days : Z) (private : string) : parser_results :=
  mkParserResults
    (fun f => match f with Flag_cert | Flag_days | Flag_level => true | _ => false end)
    ["new.icf"; "ep.pub"; private] (Done days) (Done 0).

Definition cert_command : parser_results := cert_command_for 24 "ca.priv".

Lemma setup_key_ok : file_says (SER := ser4cpp_reference) setup_tool "ca.priv" signing_key_ok.
Proof.
  intros data file Hd Hf.
  assert (match t_files setup_tool !! "ca.priv" with
          | Some d => match ContainerFile_read_all (SER := ser4cpp_reference) d with
                      | inr f => ed25519_private_key_length <=? zlen (cf_payload f) | inl _ => false end
          | None => false end = true) as H by (vm_compute; reflexivity).
  rewrite Hd, Hf in H. intros _. by btests.
Qed.

(** A validity of 24 days is fine; one of 365 days, as in the script for single-level
    certificates, is not. *)
Lemma icftool_ends_witness :
  (exists t', icftool_main (SER := ser4cpp_reference) toy_crypto 5000 good_disk (fun _ => Done cert_command) [] setup_tool =
     Some (Done 0, t')) /\
  icftool_main (SER := ser4cpp_reference) toy_crypto 5000 good_disk (fun _ => Done (cert_command_for 365 "ca.priv")) []
    setup_tool = Some (Crash, setup_tool).
Proof.
  split.
  - refine (proj1 (icftool_ends (SER := ser4cpp_reference) toy_crypto 5000 good_disk (fun _ => Done cert_command) []
      setup_tool) _ _).
    + right. by exists cert_command.
    + intros args [= <-]. split; [intros _|done]. split; [done|]. split; [done|]. split; [right; by exists 24|].
      split; [right; by exists 0|]. split; [intros days [= <-]; lia|]. intros a b p [= _ _ <-]. exact setup_key_ok.
  - refine (proj2 (icftool_ends (SER := ser4cpp_reference) toy_crypto 5000 good_disk
      (fun _ => Done (cert_command_for 365 "ca.priv")) [] setup_tool) _ 365 eq_refl _ _); [|lia].
    split; [|done]. intros f Hf. by repeat destruct Hf as [<-|Hf].
Defined.

(** A private key file that lacks one byte: libsodium reads past its end. *)
Example short_private_key_crashes :
  let key := ContainerFile_enc (mkContainerFile ContainerEntryType_ed25519_private_key (replicate 63 7)) in
  let t := mkTool (<["short.priv" := key]> (t_files setup_tool)) 0 no_input [] in
  icftool_main (SER := ser4cpp_reference) toy_crypto 5000 good_disk (fun _ => Done (cert_command_for 24 "short.priv")) [] t =
    Some (Crash, t).
Proof. vm_compute. reflexivity. Qed.

(** The command wrote the certificate and showed it. *)
Example cert_command_run :
  match icftool_main (SER := ser4cpp_reference) toy_crypto 5000 good_disk (fun _ => Done cert_command) [] setup_tool with
  | Some (Done 0, t) => bool_decide (is_Some (t_files t !! "new.icf")) && bool_decide (last (t_out t) = Some "")
  | _ => false
  end = true.
Proof. vm_compute. reflexivity. Qed.

(** The command with the level typed in as a number that does not fit 32 bits: it
    never ends. *)
Example level_overflow_never_ends :
  icftool_main (SER := ser4cpp_reference) toy_crypto 5000 good_disk
    (fun _ => Done (mkParserResults (fun f => match f with Flag_cert | Flag_days => true | _ => false end)
                      ["new.icf"; "ep.pub"; "ca.priv"] (Done 2) Throw)) []
    (mkTool (t_files setup_tool) 0 (mkIstream false [Number 99999999999]) []) = None.
Proof. vm_compute. reflexivity. Qed.
