(* ===== verification/LayerDelivery.v ===== *)
(** * One message through the cryptographic layers

    What the handlers of the cryptographic layer do with a message of user data, from
    the state before to the state after: the sender formats the first part of the data
    and transmits it ([check_transmit_sends]), and goes on when the lower layer is done
    ([tx_ready_continues], [tx_ready_finishes]); the receiver reads the message,
    validates it and hands its data to the application ([receiver_takes]).

    The class [CalmVirtuals] says when a derived class has nothing of its own to do;
    the responder is an instance, and so is the initiator below its trigger for the
    renegotiation of keys. *)

From stdpp Require Import base numbers list strings.
From Stdlib Require Import Lia ZArith.
From S2P Require Import Prelude Ser4cpp Enums Codec Messages CRC LinkParser FrameWriter LinkLayer.
From S2P Require Import Crypto SessionMode Session Chain Handshake CryptoLayer LayerLogic.
From S2P Require Import Responder Initiator LayerFrame Returns Terminates Scenario Stack Factory.

(** ** Running actions *)

Definition ends {S A} (m : act S A) (w : S) (a : A) (w' : S) : Prop := m w = Some (Done (a, w')).

Lemma ends_bind {S A B} (m : act S A) (k : A -> act S B) w a w1 b w2 :
  ends m w a w1 -> ends (k a) w1 b w2 -> ends (abind m k) w b w2.
Proof. unfold ends, abind. by intros ->. Qed.

Lemma ends_eq {S A} (m : act S A) w a w1 w2 : ends m w a w1 -> w1 = w2 -> ends m w a w2.
Proof. by intros H <-. Qed.

(** ** Derived classes with nothing to do *)

(** While both nonces are at most [n] and the derived object is as it is, neither a
    change of the nonces nor the end of a transmission makes it act. *)
Class CalmVirtuals `{SER : Ser4cpp} {W D L U : Type} `{LL : !LowerLayer L}
    (v : (upper_call -> act (World W D L U) unit) -> virtuals) (calm : D -> Z -> Prop) : Prop := {
  calm_supports notify : v_supports (v notify) Function_session_data = true;
  calm_nonce notify (w : World W D L U) n rx tx :
    calm (w_derived w) n -> rx <= n -> tx <= n -> ends (v_on_session_nonce_change (v notify) rx tx) w tt w;
  calm_tx_ready notify (w : World W D L U) n :
    calm (w_derived w) n -> ends (v_on_pre_tx_ready (v notify)) w tt w;
}.

#[export] Instance responder_calm `{SER : Ser4cpp} {W L U HR} `{LL : !LowerLayer L} (fw : frame_writer W) c clock rh :
  CalmVirtuals (Responder_virtuals (U := U) (HR := HR) fw c clock rh) (fun _ _ => True).
Proof. by split. Qed.

(** An initiator that has noted no need of a handshake, with nonces below its
    trigger. *)
Definition initiator_calm_at {HI} (params : Params) (d : Initiator HI) (n : Z) : Prop :=
  in_handshake_required d = false /\ n < nonce_renegotiation_trigger_value params.

#[export] Instance initiator_calm `{SER : Ser4cpp} {W L U HI} `{LL : !LowerLayer L} (fw : frame_writer W) c clock ih
    params limits :
  CalmVirtuals (Initiator_virtuals (U := U) (HI := HI) fw c clock ih params limits) (initiator_calm_at params).
Proof.
  split.
  - done.
  - intros notify w n rx tx [_ Hn] Hr Ht. cbn. unfold Initiator_on_session_nonce_change.
    destruct (_ <=? Z.max tx rx) eqn:E; btests; [lia|done].
  - intros notify w n [Hd _]. cbn. unfold Initiator_on_pre_tx_ready. eapply ends_bind; [done|]. by rewrite Hd.
Qed.

(** ** The sender *)

Section Sender.
Context `{SER : Ser4cpp} {W : Type} (fw : frame_writer W) (inv : W -> Prop) (frame : W -> bytes -> bytes).
Context `{HW : !FrameWriterOk fw inv frame} (c : CryptoState).
Context {D L U : Type} `{LL : !LowerLayer L} `{LAWS : !LowerLayerLaws L}.
Context (upper : upper_call -> U -> upper_prog U) (clock : nat -> Z).
Local Abbreviation world := (World W D L U).
Context (v : (upper_call -> act world unit) -> virtuals (W := W) (D := D) (L := L) (U := U)) (calm : D -> Z -> Prop).
Context `{HC : !CalmVirtuals v calm}.

(** The world after a message with the first part of the data was transmitted. *)
Definition transmitted (w : world) (s : Session) (fwr : W) (rest : bytes) (fr : bytes) : world :=
  mkWorld
    (cl_set_tx_state
       (cl_set_io (w_layer w) fwr (cl_statistics (w_layer w)) (mkSessions s (pending_session (cl_sessions (w_layer w)))))
       (mkTxState true rest))
    (w_derived w) (lower_start_tx (w_lower w) fr).2 (w_upper w) (w_upper_open w) (S (w_ticks w)) (w_draws w)
    ((lower_is_tx_ready (w_lower w), fr) :: w_sent w).

(** [check_transmit] when the session formats the data. *)
Lemma check_transmit_sends notify (w : world) data s' fwr rest fr n :
  let s := active (cl_sessions (w_layer w)) in
  s_valid s = true -> lower_is_tx_ready (w_lower w) = true ->
  cl_tx_state (w_layer w) = mkTxState false data -> data <> [] ->
  Session_format_session_data fw s (cl_frame_writer (w_layer w)) (clock (w_ticks w)) data =
    Done (inr fr, s', fwr, rest) ->
  calm (w_derived w) n -> s_rx_nonce s' <= n -> s_tx_nonce s' <= n ->
  ends (check_transmit fw c clock notify (v notify)) w tt (transmitted w s' fwr rest fr).
Proof.
  intros s Hv Hr Ht Hd Hf Hc Hrx Htx. fold s in Hf.
  assert (is_nil data = false) as Hn by by apply is_nil_false.
  unfold check_transmit. eapply (ends_bind _ _ _ true).
  { unfold ends, can_transmit_session_data, lower_ready, layer, aget, abind, aret.
    fold s. rewrite Hv, Hr, Ht. unfold TxState_is_ready_tx. cbn [transmitting tx_remainder]. by rewrite Hn. }
  cbn [negb]. eapply ends_bind; [done|]. eapply ends_bind; [done|]. rewrite Ht. cbn [tx_remainder].
  eapply (ends_bind _ _ _ (inr fr, rest)).
  { unfold format_active. eapply ends_bind; [done|]. cbn [w_layer]. fold s.
    eapply ends_bind; [unfold ends, alift; by rewrite Hf|]. eapply ends_bind; [done|]. done. }
  cbv iota beta. eapply ends_bind; [done|]. eapply ends_bind.
  { unfold ends, lower_transmit. cbn [w_lower].
    rewrite (surjective_pairing (lower_start_tx (w_lower w) fr)). reflexivity. }
  eapply ends_bind; [done|].
  eapply ends_eq; [eapply (calm_nonce notify _ n); [exact Hc|exact Hrx|exact Htx]|].
  unfold transmitted. cbn. rewrite Ht. unfold TxState_begin_transmit. cbn [tx_remainder]. by rewrite Hn.
Qed.

(** The application hands over data while the layer is idle. *)
Definition loaded (w : world) (data : bytes) : world :=
  mkWorld (cl_set_tx_state (w_layer w) (mkTxState false data)) (w_derived w) (w_lower w) (w_upper w)
    (w_upper_open w) (w_ticks w) (w_draws w) (w_sent w).

Lemma start_tx_begins notify (w w' : world) data :
  cl_is_open (w_layer w) = true -> w_upper_open w = true -> TxState_is_idle (cl_tx_state (w_layer w)) = true ->
  ends (check_transmit fw c clock notify (v notify)) (loaded w data) tt w' ->
  ends (start_tx_from_upper fw c clock notify (v notify) data) w true w'.
Proof.
  intros Ho Hu Hi Hw'. unfold start_tx_from_upper. eapply (ends_bind _ _ _ true).
  { unfold ends, is_tx_ready, layer, aget, abind, aret. by rewrite Ho, Hu, Hi. }
  cbv iota. eapply ends_bind; [done|]. eapply ends_bind; [exact Hw'|]. done.
Qed.

(** ** Nothing to receive *)

Definition with_lower (w : world) (l : L) : world :=
  mkWorld (w_layer w) (w_derived w) l (w_upper w) (w_upper_open w) (w_ticks w) (w_draws w) (w_sent w).

(** One look at a lower layer that has nothing: it is asked when the layer can act on
    a message, and not otherwise. *)
Lemma reads_nothing notify (w : world) :
  lower_chunks (w_lower w) = [] ->
  let l := if lower_is_tx_ready (w_lower w) && is_nil (cl_payload_data (w_layer w))
           then (lower_start_rx (w_lower w)).2 else w_lower w in
  ends (try_read_one_from_lower clock notify (v notify)) w false (with_lower w l) /\
  lower_chunks l = [] /\ lower_is_tx_ready l = lower_is_tx_ready (w_lower w).
Proof.
  intros Hc. destruct (lower_rx_none _ Hc) as (l&Hl&Hc'). pose proof (rx_keeps_ready (w_lower w)) as Hk.
  unfold try_read_one_from_lower, lower_ready, layer, aget. unfold ends, abind at 1 2. cbv beta zeta.
  rewrite <- negb_andb. destruct (_ && _); cbn [negb].
  - rewrite Hl in *. split; [|done]. unfold abind, lower_receive. rewrite Hl. done.
  - split; [by destruct w|done].
Qed.

(** The same for the loop. *)
Definition lower_asked (w : world) : L :=
  if lower_is_tx_ready (w_lower w) && is_nil (cl_payload_data (w_layer w))
  then (lower_start_rx (w_lower w)).2 else w_lower w.

Lemma reads_nothing_left notify (w : world) :
  lower_chunks (w_lower w) = [] ->
  ends (try_read_from_lower clock notify (v notify)) w tt (with_lower w (lower_asked w)) /\
  lower_chunks (lower_asked w) = [] /\ lower_is_tx_ready (lower_asked w) = lower_is_tx_ready (w_lower w).
Proof.
  intros Hc. destruct (reads_nothing notify w Hc) as (H&Hl). split; [|done].
  unfold try_read_from_lower. eapply ends_bind; [done|]. rewrite Hc. cbn [length try_read_loop].
  eapply ends_bind; [exact H|]. done.
Qed.

(** The world in which the lower layer has finished a transmission. *)
Definition tx_completed (w : world) (rest : bytes) (u : U) (l : L) : world :=
  mkWorld (cl_set_tx_state (w_layer w) (mkTxState false rest)) (w_derived w) l u
    (w_upper_open w) (w_ticks w) (w_draws w) (w_sent w).

(** The end of a transmission with data left: the next message follows. *)
Lemma tx_ready_continues notify (w : world) rest n :
  cl_is_open (w_layer w) = true -> cl_tx_state (w_layer w) = mkTxState true rest -> rest <> [] ->
  lower_chunks (w_lower w) = [] -> lower_is_tx_ready (w_lower w) = true -> calm (w_derived w) n ->
  let l := lower_asked w in
  lower_chunks l = [] /\ lower_is_tx_ready l = true /\
    forall w', ends (check_transmit fw c clock notify (v notify)) (tx_completed w rest (w_upper w) l) tt w' ->
      ends (on_lower_tx_ready_event fw c clock notify (v notify)) w true w'.
Proof.
  intros Ho Ht Hr Hc Hready Hcalm. assert (is_nil rest = false) as Hn by by apply is_nil_false.
  destruct (reads_nothing_left notify (tx_completed w rest (w_upper w) (w_lower w)) Hc) as (Hl&Hlc&Hlr).
  intros l. split; [exact Hlc|]. split; [by rewrite <- Hready|]. intros w' Hw'. unfold on_lower_tx_ready_event. eapply ends_bind; [done|]. rewrite Ho.
  eapply ends_bind; [|done]. unfold on_lower_tx_ready_impl. eapply ends_bind; [done|].
  rewrite Ht. unfold TxState_on_tx_complete. cbn [transmitting tx_remainder]. rewrite Hn.
  eapply ends_bind; [done|]. eapply ends_bind; [by eapply calm_tx_ready|]. eapply ends_bind; [done|].
  eapply ends_bind; [exact Hl|]. exact Hw'.
Qed.

(** An application that only takes note. *)
Lemma tells_upper fuel (w : world) (told : U -> U) :
  (forall u, upper on_lower_tx_ready u = UReturn (told u)) -> w_upper_open w = true ->
  ends (notify fw c upper clock v (S fuel) on_lower_tx_ready) w tt
    (mkWorld (w_layer w) (w_derived w) (w_lower w) (told (w_upper w)) (w_upper_open w) (w_ticks w) (w_draws w) (w_sent w)).
Proof.
  intros Happ Hu. cbn [notify]. unfold ends, call_upper, abind, aget. rewrite Hu, Happ. cbn [run_upper].
  unfold set_upper_state, amodify. by rewrite Hu.
Qed.

(** The end of the last transmission: the application is told, and nothing more is
    sent. *)
Lemma tx_ready_finishes fuel (w : world) (told : U -> U) n :
  (forall u, upper on_lower_tx_ready u = UReturn (told u)) ->
  cl_is_open (w_layer w) = true -> w_upper_open w = true -> cl_tx_state (w_layer w) = mkTxState true [] ->
  lower_chunks (w_lower w) = [] -> calm (w_derived w) n ->
  let notify := notify fw c upper clock v (S fuel) in
  let l := lower_asked w in
  lower_chunks l = [] /\ lower_is_tx_ready l = lower_is_tx_ready (w_lower w) /\
    ends (on_lower_tx_ready_event fw c clock notify (v notify)) w true (tx_completed w [] (told (w_upper w)) l).
Proof.
  intros Happ Ho Hu Ht Hc Hcalm n0.
  destruct (reads_nothing_left n0 (tx_completed w [] (told (w_upper w)) (w_lower w)) Hc) as (Hl&Hlc&Hlr).
  intros l. split; [exact Hlc|]. split; [exact Hlr|].
  unfold on_lower_tx_ready_event. eapply ends_bind; [done|]. rewrite Ho.
  eapply ends_bind; [|done]. unfold on_lower_tx_ready_impl. eapply ends_bind; [done|].
  rewrite Ht. unfold TxState_on_tx_complete. cbn [transmitting tx_remainder is_nil].
  eapply ends_bind; [done|]. eapply ends_bind; [by eapply calm_tx_ready|]. cbn [awhen].
  eapply ends_bind; [by apply (tells_upper fuel _ told)|].
  eapply ends_bind; [exact Hl|]. unfold check_transmit. eapply (ends_bind _ _ _ false); [|done].
  unfold ends, can_transmit_session_data, lower_ready, layer, aget, abind, aret. cbn. by rewrite andb_false_r.
Qed.
End Sender.

(** ** The receiver *)

(** An application that takes the data it is told of and gives the buffer back. *)
Definition reads_in {U} (upper : upper_call -> U -> upper_prog U) (take_in : U -> bytes -> U) : Prop :=
  forall u, upper on_lower_rx_ready u =
    UStartRx u (fun u data => if is_nil data then UReturn u else UStartRx (take_in u data) (fun u _ => UReturn u)).

Section Receiver.
Context `{SER : Ser4cpp} {W : Type} (fw : frame_writer W) (c : CryptoState).
Context {D L U : Type} `{LL : !LowerLayer L} `{LAWS : !LowerLayerLaws L}.
Context (upper : upper_call -> U -> upper_prog U) (clock : nat -> Z) (take_in : U -> bytes -> U).
Context (Happ : reads_in upper take_in).
Local Abbreviation world := (World W D L U).
Context (v : (upper_call -> act world unit) -> virtuals (W := W) (D := D) (L := L) (U := U)) (calm : D -> Z -> Prop).
Context `{HC : !CalmVirtuals v calm}.

(** The world with another layer, lower layer and application. *)
Definition rewired (w : world) (x : CryptoLayer W) (l : L) (u : U) (ticks : nat) : world :=
  mkWorld x (w_derived w) l u (w_upper_open w) ticks (w_draws w) (w_sent w).

(** The first call of the application: it gets the payload. *)
Lemma start_rx_gets notify (w : world) :
  cl_upper_is_processing (w_layer w) = false -> cl_payload_data (w_layer w) <> [] ->
  ends (start_rx_from_upper clock notify (v notify)) w (cl_payload_data (w_layer w))
    (rewired w (cl_set_processing (w_layer w) true) (w_lower w) (w_upper w) (w_ticks w)).
Proof.
  intros Hp Hd. apply is_nil_false in Hd. unfold start_rx_from_upper. eapply ends_bind; [done|]. rewrite Hp.
  cbn [awhen]. eapply ends_bind; [done|]. eapply (ends_bind _ _ _ (cl_payload_data (w_layer w))).
  { unfold start_rx_from_upper_impl. eapply ends_bind; [done|]. by rewrite Hd. }
  rewrite Hd. cbn [negb awhen]. eapply ends_bind; [done|]. done.
Qed.

(** The second call, with nothing more to receive: the payload is dropped. *)
Lemma start_rx_drops notify (w : world) :
  cl_upper_is_processing (w_layer w) = true -> lower_chunks (w_lower w) = [] ->
  lower_is_tx_ready (w_lower w) = true ->
  ends (start_rx_from_upper clock notify (v notify)) w []
    (rewired w (cl_set_processing (cl_set_payload (w_layer w) (cl_payload_buffer (w_layer w)) []) false)
       (lower_start_rx (w_lower w)).2 (w_upper w) (w_ticks w)).
Proof.
  intros Hp Hc Hr. unfold start_rx_from_upper. eapply ends_bind; [done|]. rewrite Hp. cbn [awhen].
  eapply ends_bind; [eapply ends_bind; [done|]; done|]. eapply (ends_bind _ _ _ []).
  { unfold start_rx_from_upper_impl. eapply ends_bind; [done|]. cbn [cl_payload_data is_nil].
    set (w1 := mkWorld _ _ _ _ _ _ _ _). destruct (reads_nothing_left clock v notify w1 Hc) as [H _].
    eapply ends_bind; [exact H|]. done. }
  cbn [is_nil negb awhen]. eapply ends_bind; [done|].
  eapply ends_eq; [done|]. unfold lower_asked, with_lower, rewired. cbn. by rewrite Hr.
Qed.

(** The application takes the payload. *)
Lemma app_takes fuel (w : world) :
  w_upper_open w = true -> cl_upper_is_processing (w_layer w) = false -> cl_payload_data (w_layer w) <> [] ->
  lower_chunks (w_lower w) = [] -> lower_is_tx_ready (w_lower w) = true ->
  ends (notify fw c upper clock v (S fuel) on_lower_rx_ready) w tt
    (rewired w (cl_set_processing (cl_set_payload (w_layer w) (cl_payload_buffer (w_layer w)) []) false)
       (lower_start_rx (w_lower w)).2 (take_in (w_upper w) (cl_payload_data (w_layer w))) (w_ticks w)).
Proof.
  intros Hu Hp Hd Hc Hr. cbn [notify]. unfold call_upper. eapply ends_bind; [done|]. eapply ends_bind; [done|].
  rewrite Hu, Happ. cbn [run_upper]. eapply ends_bind; [done|].
  eapply ends_bind; [exact (start_rx_gets _ (mkWorld _ _ _ _ _ _ _ _) Hp Hd)|].
  eapply ends_bind; [done|]. cbn [w_layer w_upper]. apply is_nil_false in Hd. rewrite Hd. cbn [run_upper].
  eapply ends_bind; [done|].
  eapply ends_bind; [by apply start_rx_drops|].
  eapply ends_bind; [done|]. eapply ends_eq; [done|]. unfold rewired. cbn. by rewrite Hu.
Qed.

(** The layer after it delivered a payload. *)
Definition layer_delivered (x : CryptoLayer W) (s : Session) (st : SessionStatistics) (buffer : bytes) : CryptoLayer W :=
  cl_set_processing
    (cl_set_payload
       (cl_set_io x (cl_frame_writer x) st (mkSessions s (pending_session (cl_sessions x)))) buffer []) false.

(** The lower layer after the message was received and two more calls found nothing. *)
Definition received (l : L) : L := (lower_start_rx (lower_start_rx (lower_start_rx l).2).2).2.

Lemma process_delivers fuel (w : world) message msg chunk s' st' buffer' n :
  let notify := notify fw c upper clock v (S fuel) in
  w_upper_open w = true -> cl_upper_is_processing (w_layer w) = false ->
  lower_chunks (w_lower w) = [] -> lower_is_tx_ready (w_lower w) = true ->
  message = SessionData_enc msg -> SessionData_read message = inr msg -> am_nonce (sd_metadata msg) <> 0 ->
  Session_validate_session_data (active (cl_sessions (w_layer w))) (cl_statistics (w_layer w)) msg
    (clock (w_ticks w)) (cl_payload_buffer (w_layer w)) = Done (inr chunk, s', st', buffer') ->
  chunk <> [] -> calm (w_derived w) n -> s_rx_nonce s' <= n -> s_tx_nonce s' <= n ->
  ends (process clock notify (v notify) message) w tt
    (rewired w (layer_delivered (w_layer w) s' st' buffer') (lower_start_rx (w_lower w)).2
       (take_in (w_upper w) chunk) (S (w_ticks w))).
Proof.
  intros n0 Hu Hp Hc Hr -> Hread Hn Hval Hch Hcalm Hrx Htx. unfold process. eapply ends_bind; [done|].
  unfold SessionData_enc. change (Function_from_type _) with Function_session_data.
  rewrite (calm_supports n0). cbn [negb]. unfold handle_message. cbn [m_read SessionData_message].
  unfold SessionData_enc in Hread. rewrite Hread. unfold on_message.
  destruct (am_nonce _ =? 0) eqn:E; btests; [done|]. unfold on_session_data.
  eapply (ends_bind _ _ _ (inr chunk)).
  { unfold validate_with. eapply ends_bind; [done|]. cbn [w_layer].
    eapply ends_bind; [unfold ends, alift; cbn; by rewrite Hval|]. eapply ends_bind; done. }
  cbv iota beta. eapply ends_bind; [done|]. eapply ends_bind; [done|].
  eapply ends_bind; [eapply (calm_nonce n0 _ n); [exact Hcalm|exact Hrx|exact Htx]|].
  eapply ends_eq; [by apply app_takes|]. done.
Qed.

(** A message arrives at an idle receiver: its data goes to the application. *)
Lemma receiver_takes fuel (w : world) message msg chunk s' st' buffer' n :
  let notify := notify fw c upper clock v (S fuel) in
  cl_is_open (w_layer w) = true -> w_upper_open w = true -> cl_upper_is_processing (w_layer w) = false ->
  cl_payload_data (w_layer w) = [] ->
  lower_chunks (w_lower w) = [message] -> lower_is_tx_ready (w_lower w) = true ->
  message = SessionData_enc msg -> SessionData_read message = inr msg -> am_nonce (sd_metadata msg) <> 0 ->
  Session_validate_session_data (active (cl_sessions (w_layer w))) (cl_statistics (w_layer w)) msg
    (clock (w_ticks w)) (cl_payload_buffer (w_layer w)) = Done (inr chunk, s', st', buffer') ->
  chunk <> [] -> calm (w_derived w) n -> s_rx_nonce s' <= n -> s_tx_nonce s' <= n ->
  ends (on_lower_rx_ready_event clock notify (v notify)) w true
    (rewired w (layer_delivered (w_layer w) s' st' buffer') (received (w_lower w))
       (take_in (w_upper w) chunk) (S (w_ticks w))).
Proof.
  intros n0 Ho Hu Hp Hd Hc Hr Em Hread Hn Hval Hch Hcalm Hrx Htx.
  destruct (lower_rx_some _ _ _ Hc) as (l1&E1&Hc1). pose proof (rx_keeps_ready (w_lower w)) as Hr1.
  rewrite E1, Hr in Hr1. cbn [snd] in Hr1.
  pose proof (process_delivers fuel (with_lower w l1) message msg chunk s' st' buffer' n
                Hu Hp Hc1 Hr1 Em Hread Hn Hval Hch Hcalm Hrx Htx) as Hproc.
  destruct (lower_rx_none _ Hc1) as (l2&E2&Hc2). pose proof (rx_keeps_ready l1) as Hr2.
  rewrite E2, Hr1 in Hr2. cbn [snd] in Hr2. cbn [w_lower with_lower] in Hproc. rewrite E2 in Hproc. cbn [snd] in Hproc.
  unfold received. rewrite E1. cbn [snd]. rewrite E2. cbn [snd].
  unfold on_lower_rx_ready_event. eapply ends_bind; [done|]. rewrite Ho.
  eapply ends_bind; [|done]. unfold try_read_from_lower. eapply ends_bind; [done|]. rewrite Hc. cbn [length try_read_loop].
  eapply (ends_bind _ _ _ true).
  { unfold try_read_one_from_lower. eapply ends_bind; [done|]. eapply ends_bind; [done|]. rewrite Hr, Hd.
    cbn [negb orb is_nil]. eapply ends_bind; [unfold ends, lower_receive; by rewrite E1|].
    assert (is_nil message = false) as -> by (subst message; done).
    eapply ends_bind; [exact Hproc|]. done. }
  destruct (reads_nothing clock v n0 (rewired (with_lower w l1) (layer_delivered (w_layer w) s' st' buffer') l2
      (take_in (w_upper w) chunk) (S (w_ticks w))) Hc2) as (Hlast&_).
  eapply ends_bind; [exact Hlast|]. cbn. by rewrite Hr2.
Qed.
End Receiver.
