(* ===== verification/LayerHandshake.v ===== *)
(** * The handshake through the cryptographic layers

    What the handlers of initiator and responder do with the messages of a handshake
    that succeeds, from the state before to the state after: the initiator sends its
    request when the layer below opens ([initiator_opens]), the responder answers it
    ([responder_replies]), the initiator initializes its session and authenticates
    it ([initiator_accepts]), the responder activates its session, answers and opens
    its application ([responder_activates]), and so does the initiator
    ([initiator_activates]).  The end of each transmission changes nothing
    ([tx_ready_nothing]). *)

From stdpp Require Import base numbers list strings.
From Stdlib Require Import Lia ZArith.
From S2P Require Import Prelude Ser4cpp Enums Codec Messages CRC LinkParser FrameWriter LinkLayer.
From S2P Require Import Crypto SessionMode Session Chain Handshake CryptoLayer LayerLogic.
From S2P Require Import Responder Initiator LayerFrame Returns Terminates Scenario Stack Factory LayerDelivery.

(** ** Authentication of a session *)

Section Authentication.
Context `{SER : Ser4cpp} {W : Type} (fw : frame_writer W) (inv : W -> Prop) (frame : W -> bytes -> bytes).
Context `{HW : !FrameWriterOk fw inv frame}.

(** The first message of a session, without data. *)
Lemma auth_formatted s w `{HM : !SessionModeOk (session_mode (s_algorithms s))} now :
  session_ok s -> s_valid s = true -> s_tx_nonce s = 0 -> s_encrypt_buffer s <> [] ->
  inv w -> max_session_data_size <= fw_max_payload_size fw w -> tx_time_ok s now ->
  exists eb w',
    Session_format_session_auth fw s w now [] =
      Done (inr (frame w (SessionData_enc (tx_message s now []))),
            s_set_tx_nonce (s_set_encrypt_buffer s eb) 1, w', []) /\
    zlen eb = zlen (s_encrypt_buffer s) /\ writer_kept fw inv frame w w'.
Proof.
  intros Hs Hv Hn He Hw Hmax Ht.
  destruct (format_done fw inv frame s w now [] Hs Hv Hw Ht (Forall_nil_2 _) He) as (eb&w'&Hf&Heb&Hk).
  pose proof (tx_message_fits s now [] Hs Ht (Forall_nil_2 _)) as Hfit.
  destruct (decide _) as [_|Hbig]; [|lia]. exists eb, w'. split; [|done].
  unfold Session_format_session_auth. rewrite Hn at 1. cbn [Z.eqb negb]. rewrite Hf, Hn. unfold zdrop. by rewrite drop_nil.
Qed.

(** Its mirror accepts it. *)
Lemma auth_validated s r `{HM : !SessionModeOk (session_mode (s_algorithms s))} st now now' dest :
  session_ok s -> tx_time_ok s now -> s_tx_nonce s = 0 -> session_ok r -> s_valid r = true -> s_rx_nonce r = 0 ->
  session_mode (s_algorithms r) = session_mode (s_algorithms s) ->
  as_seq (rx_key (s_keys r)) = as_seq (tx_key (s_keys s)) ->
  session_start (s_parameters r) <= now' ->
  now' - session_start (s_parameters r) <= max_session_time (s_parameters r) ->
  now' - session_start (s_parameters r) <= ms (s_ttl_pad_ms s) -> zlen dest <= max_u16 ->
  exists dest', Session_validate_session_auth r st (tx_message s now []) now' dest =
      Done (inr [], s_set_rx_nonce r 0, inc_success st, dest') /\ zlen dest' = zlen dest.
Proof.
  intros Hs Ht Hn Hr Hrv Hr0 Hmode Hkey H1 H2 H3 Hd.
  pose proof Hr as ((Hrko&_)&[[Hmn _] _]&_&_&_&_&Hrk). specialize (Hrk Hrv). unfold SessionKeys_valid in Hrk.
  apply andb_prop in Hrk as [Hrk _]. apply bool_decide_eq_true in Hrk.
  destruct (read_sealed (session_mode (s_algorithms s)) (rx_key (s_keys r)) (tx_metadata s now) [] dest)
    as (dest'&Hread&Hdl); [by apply tx_metadata_ok|apply Hrko|done|apply zlen_nonneg|done|].
  exists dest'. split; [|done]. rewrite Hkey in Hread.
  assert (tx_message s now [] = mkSessionData (tx_metadata s now)
      (mode_seal (as_seq (tx_key (s_keys s))) (am_nonce (tx_metadata s now)) (AuthMetadata_enc (tx_metadata s now)) []).1
      (mode_seal (as_seq (tx_key (s_keys s))) (am_nonce (tx_metadata s now)) (AuthMetadata_enc (tx_metadata s now)) []).2) as Em.
  { unfold tx_message, ztake. by rewrite take_nil. }
  rewrite <- Em in Hread. destruct (tx_time_ms s now Hs Ht) as (Et&_).
  unfold Session_validate_session_auth, validate_session_data_with_nonce_func.
  rewrite Hrv. cbn [negb]. rewrite Hmode, Hread. cbn [obind].
  change (sd_metadata (tx_message s now [])) with (tx_metadata s now). cbn [tx_metadata am_nonce am_valid_until_ms].
  destruct (now' <? _) eqn:E1; btests; [lia|].
  destruct (max_session_time (s_parameters r) <? _) eqn:E2; btests; [lia|].
  destruct (ms _ <? _) eqn:E3; btests.
  { rewrite Et in E3. destruct Ht as [Ht _]. unfold ms in *.
    pose proof (Z.div_le_mono (s_ttl_pad_ms s * 1000000) (now - session_start (s_parameters s) + s_ttl_pad_ms s * 1000000)
      1000000 ltac:(lia) ltac:(lia)) as Hdiv. rewrite Z.div_mul in Hdiv by lia. lia. }
  rewrite Hn. destruct (max_nonce (s_parameters r) <? 0) eqn:E4; btests; [lia|]. by rewrite Hr0.
Qed.
End Authentication.

(** ** Events without effect and events with one message *)

Section Events.
Context `{SER : Ser4cpp} {W : Type} (fw : frame_writer W) (c : CryptoState).
Context {D L U : Type} `{LL : !LowerLayer L} `{LAWS : !LowerLayerLaws L}.
Context (upper : upper_call -> U -> upper_prog U) (clock : nat -> Z).
Local Abbreviation world := (World W D L U).
Context (v : (upper_call -> act world unit) -> virtuals (W := W) (D := D) (L := L) (U := U)) (calm : D -> Z -> Prop).
Context `{HC : !CalmVirtuals v calm}.

(** The end of a transmission that was no user data, with nothing to receive. *)
Lemma tx_ready_nothing notify (w : world) n :
  cl_is_open (w_layer w) = true -> cl_tx_state (w_layer w) = mkTxState false [] ->
  lower_chunks (w_lower w) = [] -> calm (w_derived w) n ->
  ends (on_lower_tx_ready_event fw c clock notify (v notify)) w true (with_lower w (lower_asked w)).
Proof.
  intros Ho Ht Hc Hcalm. unfold on_lower_tx_ready_event. eapply ends_bind; [done|]. rewrite Ho.
  eapply ends_bind; [|done]. unfold on_lower_tx_ready_impl. eapply ends_bind; [done|].
  rewrite Ht. cbn [TxState_on_tx_complete transmitting].
  eapply (ends_bind _ _ _ tt w).
  { eapply ends_eq; [done|]. destruct w as [[? ? ? tx ? ? ? ? ?] ? ? ? ? ? ? ?]. cbn in Ht. by subst tx. }
  eapply ends_bind; [by eapply calm_tx_ready|]. cbn [awhen]. eapply ends_bind; [done|].
  eapply ends_bind; [exact (proj1 (reads_nothing_left clock v notify w Hc))|].
  unfold check_transmit. eapply (ends_bind _ _ _ false); [|done].
  unfold ends, can_transmit_session_data, lower_ready, layer, aget, abind, aret. cbn. rewrite Ht. by rewrite andb_false_r.
Qed.

(** A message is received and processed, and nothing follows it. *)
Lemma message_processed notify (w w1 : world) message :
  cl_is_open (w_layer w) = true -> cl_payload_data (w_layer w) = [] ->
  lower_chunks (w_lower w) = [message] -> lower_is_tx_ready (w_lower w) = true -> message <> [] ->
  ends (process clock notify (v notify) message) (with_lower w (lower_start_rx (w_lower w)).2) tt w1 ->
  lower_chunks (w_lower w1) = [] ->
  ends (on_lower_rx_ready_event clock notify (v notify)) w true (with_lower w1 (lower_asked w1)).
Proof.
  intros Ho Hd Hc Hr Hm Hp Hc1. destruct (lower_rx_some _ _ _ Hc) as (l1&E1&_). rewrite E1 in Hp. cbn [snd] in Hp.
  unfold on_lower_rx_ready_event. eapply ends_bind; [done|]. rewrite Ho. eapply ends_bind; [|done].
  unfold try_read_from_lower. eapply ends_bind; [done|]. rewrite Hc. cbn [length try_read_loop].
  eapply (ends_bind _ _ _ true).
  { unfold try_read_one_from_lower. eapply ends_bind; [done|]. eapply ends_bind; [done|]. rewrite Hr, Hd.
    cbn [negb orb is_nil]. eapply ends_bind; [unfold ends, lower_receive; by rewrite E1|].
    apply is_nil_false in Hm. rewrite Hm. eapply ends_bind; [exact Hp|]. done. }
  eapply ends_bind; [exact (proj1 (reads_nothing clock v notify w1 Hc1))|]. done.
Qed.

(** A message of a type the derived class takes, read. *)
Lemma message_read {M} (m : message M) enc ok `{HM : !LawfulMessage m enc ok} (a : M) vt handler (w w' : world) now :
  ok a -> ends (handler a (enc a) now) w tt w' -> ends (handle_message vt m handler (enc a) now) w tt w'.
Proof. intros Ha Hh. unfold handle_message. by rewrite (msg_read_enc (m := m) a Ha). Qed.

(** An application that takes note of the opening. *)
Lemma opens_upper fuel (w : world) (opened : U -> U) :
  (forall u, upper on_lower_open u = UReturn (opened u)) -> w_upper_open w = false ->
  ends (notify fw c upper clock v (S fuel) on_lower_open) w tt
    (mkWorld (w_layer w) (w_derived w) (w_lower w) (opened (w_upper w)) true (w_ticks w) (w_draws w) (w_sent w)).
Proof.
  intros Happ Hu. cbn [notify]. unfold ends, call_upper, abind, aget. rewrite Hu, Happ. done.
Qed.

(** A message handed to a lower layer that is ready. *)
Lemma transmits (w : world) frame :
  lower_is_tx_ready (w_lower w) = true -> (lower_start_tx (w_lower w) frame).1 = true ->
  ends (lower_transmit frame) w true
    (mkWorld (w_layer w) (w_derived w) (lower_start_tx (w_lower w) frame).2 (w_upper w) (w_upper_open w)
       (w_ticks w) (w_draws w) ((true, frame) :: w_sent w)).
Proof.
  intros Hr Hok. unfold ends, lower_transmit. rewrite (surjective_pairing (lower_start_tx (w_lower w) frame)), Hok, Hr.
  done.
Qed.

(** The session [i] is authenticated, with no user data waiting. *)
Lemma authenticates i (w : world) s frame writer :
  cl_tx_state (w_layer w) = mkTxState false [] ->
  lower_is_tx_ready (w_lower w) = true -> (lower_start_tx (w_lower w) frame).1 = true ->
  Session_format_session_auth fw (get_session i (cl_sessions (w_layer w))) (cl_frame_writer (w_layer w))
    (clock (w_ticks w)) [] = Done (inr frame, s, writer, []) ->
  ends (transmit_session_auth fw clock i) w true
    (mkWorld (cl_set_io (w_layer w) writer (cl_statistics (w_layer w)) (put_session i (cl_sessions (w_layer w)) s))
       (w_derived w) (lower_start_tx (w_lower w) frame).2 (w_upper w) (w_upper_open w)
       (S (w_ticks w)) (w_draws w) ((true, frame) :: w_sent w)).
Proof.
  intros Ht Hr Hok Hf. unfold transmit_session_auth. eapply ends_bind; [done|]. rewrite Ht. cbn [tx_remainder is_nil negb].
  eapply ends_bind; [done|]. eapply ends_bind; [unfold ends, alift; by rewrite Hf|]. cbv iota beta.
  eapply ends_bind; [done|]. eapply ends_bind; [done|]. by apply transmits.
Qed.

(** The validation of a message of the session [i], without user data. *)
Lemma validates validate i (w : world) msg now s st buffer :
  validate (get_session i (cl_sessions (w_layer w))) (cl_statistics (w_layer w)) msg now (cl_payload_buffer (w_layer w)) =
    Done (inr [], s, st, buffer) ->
  ends (validate_with validate i msg now) w (inr [])
    (mkWorld (cl_set_payload (cl_set_io (w_layer w) (cl_frame_writer (w_layer w)) st (put_session i (cl_sessions (w_layer w)) s))
       buffer (cl_payload_data (w_layer w))) (w_derived w) (w_lower w) (w_upper w) (w_upper_open w) (w_ticks w) (w_draws w) (w_sent w)).
Proof.
  intros Hv. unfold validate_with. eapply ends_bind; [done|]. eapply ends_bind; [unfold ends, alift; by rewrite Hv|].
  cbv iota beta. eapply ends_bind; done.
Qed.
End Events.

(** ** The responder *)

Section ResponderSteps.
Context `{SER : Ser4cpp} {W : Type} (fw : frame_writer W) (c : CryptoState).
Context {HR L U : Type} `{LL : !LowerLayer L} `{LAWS : !LowerLayerLaws L}.
Context (upper : upper_call -> U -> upper_prog U) (clock : nat -> Z) (rh : responder_handshake HR W).
Context (opened : U -> U) (Happ : forall u, upper on_lower_open u = UReturn (opened u)).
Local Abbreviation world := (World W HR L U).
Local Abbreviation v := (Responder_virtuals (L := L) (U := U) fw c clock rh).

(** A request that the handshake answers. *)
Lemma responder_replies n (w : world) request frame hr' writer s' st' :
  RequestHandshakeBegin_ok request -> v_major_version (req_version request) = protocol_major_version ->
  lower_is_tx_ready (w_lower w) = true -> (lower_start_tx (w_lower w) frame).1 = true ->
  rh_process rh (w_derived w) (w_draws w) request (RequestHandshakeBegin_enc request) (clock (w_ticks w))
    (cl_frame_writer (w_layer w)) (pending_session (cl_sessions (w_layer w))) (cl_statistics (w_layer w)) =
    Done (inr frame, hr', writer, s', st') ->
  ends (process clock n (v n) (RequestHandshakeBegin_enc request)) w tt
    (mkWorld (cl_set_io (w_layer w) writer st' (mkSessions (active (cl_sessions (w_layer w))) s')) hr'
       (lower_start_tx (w_lower w) frame).2 (w_upper w) (w_upper_open w) (S (w_ticks w)) (S (w_draws w))
       ((true, frame) :: w_sent w)).
Proof.
  intros Hok Hver Hr Htx Hp. unfold process. eapply ends_bind; [done|].
  unfold RequestHandshakeBegin_enc at 1. change (Function_from_type _) with Function_request_handshake_begin.
  cbn [v_supports Responder_virtuals Responder_supports negb].
  apply (message_read RequestHandshakeBegin_message RequestHandshakeBegin_enc RequestHandshakeBegin_ok request); [exact Hok|]. cbn [v_on_request Responder_virtuals].
  unfold Responder_on_message. rewrite Hver, Z.eqb_refl. cbn [negb].
  eapply (ends_bind _ _ _ (inr frame)).
  { unfold Responder_process. do 3 (eapply ends_bind; [done|]).
    eapply ends_bind; [unfold ends, alift; cbn; by rewrite Hp|]. cbv iota beta.
    do 2 (eapply ends_bind; [done|]). done. }
  cbv iota beta. eapply ends_bind; [by apply transmits|]. done.
Qed.

(** The authentication of the pending session: it becomes the active one, and the
    application is told that the layer is open. *)
Lemma responder_activates fuel (w : world) msg frame old s s1 st1 buffer writer :
  let n := notify fw c upper clock v (S fuel) in
  let ss := cl_sessions (w_layer w) in
  SessionData_ok msg -> am_nonce (sd_metadata msg) = 0 -> s_valid (pending_session ss) = true ->
  Session_validate_session_auth (pending_session ss) (cl_statistics (w_layer w)) msg (clock (w_ticks w))
    (cl_payload_buffer (w_layer w)) = Done (inr [], s1, st1, buffer) ->
  Session_reset c (active ss) = Done old ->
  cl_tx_state (w_layer w) = mkTxState false [] ->
  lower_is_tx_ready (w_lower w) = true -> (lower_start_tx (w_lower w) frame).1 = true ->
  Session_format_session_auth fw s1 (cl_frame_writer (w_layer w)) (clock (S (w_ticks w))) [] =
    Done (inr frame, s, writer, []) ->
  w_upper_open w = false ->
  ends (process clock n (v n) (SessionData_enc msg)) w tt
    (mkWorld (cl_set_payload (cl_set_io (w_layer w) writer st1 (mkSessions s old)) buffer (cl_payload_data (w_layer w)))
       (w_derived w) (lower_start_tx (w_lower w) frame).2 (opened (w_upper w)) true (S (S (w_ticks w))) (w_draws w)
       ((true, frame) :: w_sent w)).
Proof.
  intros n ss Hok Hnz Hval Hv Hreset Ht Hr Htx Hf Hu. unfold process. eapply ends_bind; [done|].
  unfold SessionData_enc at 1. change (Function_from_type _) with Function_session_data.
  cbn [v_supports Responder_virtuals Responder_supports negb].
  apply (message_read SessionData_message SessionData_enc SessionData_ok msg); [exact Hok|]. unfold on_message. rewrite Hnz. cbn [Z.eqb v_on_auth_session].
  unfold Responder_on_auth_session. eapply ends_bind; [done|]. cbn [w_layer]. fold ss. rewrite Hval. cbn [negb].
  eapply ends_bind; [eapply validates; exact Hv|]. cbv iota beta. eapply (ends_bind _ _ _ tt).
  { unfold activate_pending. eapply ends_bind; [done|]. eapply ends_bind; [|done].
    unfold ends, alift, Sessions_activate_pending. cbn. fold ss. by rewrite Hreset. }
  eapply ends_bind; [eapply (authenticates fw clock Active); [exact Ht|exact Hr|exact Htx|exact Hf]|].
  cbn [negb]. eapply ends_bind; [by apply (opens_upper fw c upper clock _ fuel _ opened)|]. done.
Qed.
End ResponderSteps.

(** ** The initiator *)

Section InitiatorSteps.
Context `{SER : Ser4cpp} {W : Type} (fw : frame_writer W) (c : CryptoState).
Context {HI L U : Type} `{LL : !LowerLayer L} `{LAWS : !LowerLayerLaws L}.
Context (upper : upper_call -> U -> upper_prog U) (clock : nat -> Z) (ih : initiator_handshake HI).
Context (params : Params) (limits : SessionLimits).
Context (opened : U -> U) (Happ : forall u, upper on_lower_open u = UReturn (opened u)).
Local Abbreviation world := (World W (Initiator HI) L U).
Local Abbreviation v := (Initiator_virtuals (L := L) (U := U) fw c clock ih params limits).

(** The layer below opens: the request goes out. *)
Lemma initiator_opens n (w : world) h ephemeral data h1 h2 frame writer :
  let request := make_request (ih_get_crypto_suite ih h) limits (ih_get_handshake_mode ih h1) ephemeral data in
  w_derived w = Initiator_new h -> cl_is_open (w_layer w) = false ->
  lower_is_tx_ready (w_lower w) = true -> (lower_start_tx (w_lower w) frame).1 = true ->
  ih_initialize_new_handshake ih (w_draws w) h = Done (Some (ephemeral, data), h1) ->
  fw_write fw (cl_frame_writer (w_layer w)) (message_writable RequestHandshakeBegin_message request) =
    (mkWriteResult FormatError_ok (RequestHandshakeBegin_enc request) frame, writer) ->
  ih_finalize_request_tx ih h1 (RequestHandshakeBegin_enc request) (clock (w_ticks w)) = Done h2 ->
  ends (on_lower_open_event (v n)) w true
    (mkWorld (cl_set_writer (cl_set_open (w_layer w) true) writer)
       (mkInitiator WaitForBeginReply h2 (Some (ResponseTimer, clock (S (w_ticks w)) + response_timeout params)) None false)
       (lower_start_tx (w_lower w) frame).2 (w_upper w) (w_upper_open w) (S (S (w_ticks w))) (S (w_draws w))
       ((true, frame) :: w_sent w)).
Proof.
  intros request Hd Ho Hr Htx Hi Hw Hfin. destruct w as [x d l u open t draws sent].
  cbn [w_layer w_derived w_lower w_ticks w_draws] in *. subst d. unfold on_lower_open_event. eapply ends_bind; [done|]. cbn [w_layer]. rewrite Ho.
  eapply ends_bind; [done|]. eapply ends_bind; [|done]. cbn [v_on_lower_open_impl Initiator_virtuals].
  unfold on_handshake_required. eapply ends_bind; [done|]. unfold step_state. eapply ends_bind; [done|].
  cbn [w_derived in_handshake_state Initiator_new on_handshake_required_in].
  eapply (ends_bind _ _ _ WaitForBeginReply).
  { unfold Idle_on_handshake_required. eapply ends_bind; [done|]. cbn [w_lower]. rewrite Hr. cbn [negb].
    eapply ends_bind; [done|]. eapply (ends_bind _ _ _ (Some (ephemeral, data))).
    { unfold initialize_new_handshake. eapply ends_bind; [done|]. eapply ends_bind; [done|]. cbn [w_derived in_handshake Initiator_new].
      eapply ends_bind; [unfold ends, alift; cbn; by rewrite Hi|]. cbv iota beta. eapply ends_bind; done. }
    cbv iota beta. eapply ends_bind; [done|]. cbn [w_derived in_handshake]. eapply ends_bind; [done|].
    cbn [w_layer cl_set_open cl_frame_writer in_handshake Initiator_new]. fold request. rewrite Hw.
    cbv iota beta. eapply ends_bind; [done|]. change (WriteResult_is_error _) with false. cbv iota.
    eapply ends_bind; [unfold ends, alift; cbn; by rewrite Hfin|]. eapply ends_bind; [done|].
    eapply ends_bind; [apply (transmits _ frame); [exact Hr|exact Htx]|]. eapply ends_bind; [done|]. done. }
  reflexivity.
Qed.

(** The reply: the pending session is initialized, and authenticated. *)
Lemma initiator_accepts n (w : world) reply h2 h3 timer s1 st1 s frame writer :
  ReplyHandshakeBegin_ok reply ->
  w_derived w = mkInitiator WaitForBeginReply h2 timer None false ->
  ih_initialize_session ih h2 reply (ReplyHandshakeBegin_enc reply) limits (clock (w_ticks w))
    (pending_session (cl_sessions (w_layer w))) (cl_statistics (w_layer w)) = Done (true, h3, s1, st1) ->
  cl_tx_state (w_layer w) = mkTxState false [] ->
  lower_is_tx_ready (w_lower w) = true -> (lower_start_tx (w_lower w) frame).1 = true ->
  Session_format_session_auth fw s1 (cl_frame_writer (w_layer w)) (clock (S (w_ticks w))) [] =
    Done (inr frame, s, writer, []) ->
  ends (process clock n (v n) (ReplyHandshakeBegin_enc reply)) w tt
    (mkWorld (cl_set_io (w_layer w) writer st1 (mkSessions (active (cl_sessions (w_layer w))) s))
       (mkInitiator WaitForAuthReply h3 (Some (ResponseTimer, clock (S (S (w_ticks w))) + response_timeout params)) None false)
       (lower_start_tx (w_lower w) frame).2 (w_upper w) (w_upper_open w) (S (S (S (w_ticks w)))) (w_draws w)
       ((true, frame) :: w_sent w)).
Proof.
  destruct w as [x d l u open t draws sent]. cbn [w_layer w_derived w_lower w_ticks].
  intros Hok -> Hi Ht Hr Htx Hf. unfold process. eapply ends_bind; [done|].
  unfold ReplyHandshakeBegin_enc at 1. change (Function_from_type _) with Function_reply_handshake_begin.
  cbn [v_supports Initiator_virtuals Initiator_supports negb].
  apply (message_read ReplyHandshakeBegin_message ReplyHandshakeBegin_enc ReplyHandshakeBegin_ok reply); [exact Hok|]. cbn [v_on_reply Initiator_virtuals].
  unfold step_state. eapply ends_bind; [done|].
  cbn [w_derived in_handshake_state on_reply_message_in]. eapply (ends_bind _ _ _ WaitForAuthReply).
  { unfold WaitForBeginReply_on_reply_message. eapply ends_bind; [done|]. eapply (ends_bind _ _ _ true).
    { unfold initialize_session. do 2 (eapply ends_bind; [done|]). cbn [w_layer w_derived in_handshake].
      eapply ends_bind; [unfold ends, alift; cbn; by rewrite Hi|]. cbv iota beta. do 2 (eapply ends_bind; [done|]). done. }
    cbn [negb]. eapply ends_bind; [eapply (authenticates fw clock Pending); [exact Ht|exact Hr|exact Htx|exact Hf]|].
    cbn [negb]. eapply ends_bind; [done|]. done. }
  reflexivity.
Qed.

(** The authentication of the responder: the session is the active one, and the
    application is told that the layer is open. *)
Lemma initiator_activates fuel (w : world) msg h3 timer old s st1 buffer :
  let n := notify fw c upper clock v (S fuel) in
  let ss := cl_sessions (w_layer w) in
  SessionData_ok msg -> am_nonce (sd_metadata msg) = 0 ->
  w_derived w = mkInitiator WaitForAuthReply h3 timer None false ->
  Session_validate_session_auth (pending_session ss) (cl_statistics (w_layer w)) msg (clock (w_ticks w))
    (cl_payload_buffer (w_layer w)) = Done (inr [], s, st1, buffer) ->
  Session_reset c (active ss) = Done old ->
  w_upper_open w = false ->
  ends (process clock n (v n) (SessionData_enc msg)) w tt
    (mkWorld (cl_set_payload (cl_set_io (w_layer w) (cl_frame_writer (w_layer w)) st1 (mkSessions s old)) buffer
                (cl_payload_data (w_layer w)))
       (mkInitiator Idle h3 None
          (Some (session_start (s_parameters s) + ms (session_time_renegotiation_trigger_ms params))) false)
       (w_lower w) (opened (w_upper w)) true (S (w_ticks w)) (w_draws w) (w_sent w)).
Proof.
  intros n ss Hok Hnz Hd Hv Hreset Hu. destruct w as [x d l u open t draws sent].
  cbn [w_layer w_derived w_ticks w_upper_open] in *. subst d open. unfold process. eapply ends_bind; [done|].
  unfold SessionData_enc at 1. change (Function_from_type _) with Function_session_data.
  cbn [v_supports Initiator_virtuals Initiator_supports negb].
  apply (message_read SessionData_message SessionData_enc SessionData_ok msg); [exact Hok|]. unfold on_message. rewrite Hnz. cbn [Z.eqb v_on_auth_session].
  unfold step_state. eapply ends_bind; [done|]. cbn [w_derived in_handshake_state on_auth_message_in].
  eapply (ends_bind _ _ _ Idle).
  { unfold WaitForAuthReply_on_auth_message. eapply ends_bind; [done|].
    eapply ends_bind; [eapply validates; exact Hv|]. cbv iota beta. eapply (ends_bind _ _ _ tt).
    { unfold activate_pending. eapply ends_bind; [done|]. eapply ends_bind; [|done].
      unfold ends, alift, Sessions_activate_pending. cbn. fold ss. by rewrite Hreset. }
    do 3 (eapply ends_bind; [done|]).
    eapply ends_bind; [by apply (opens_upper fw c upper clock _ fuel _ opened)|]. eapply ends_bind; done. }
  reflexivity.
Qed.
End InitiatorSteps.
