(* ===== verification/Delivery.v ===== *)
(** * Delivery of user data

    User data from one station to another: what an application hands to a stack with
    an established session comes out of the stack of the other station, complete and
    in order, in as many messages as its length asks for.  A frame crosses the link
    layers ([frame_arrives]), a message takes one round of both stacks
    ([message_carried]), and the rounds follow each other until the data is out
    ([data_carried]). *)

From stdpp Require Import base numbers list strings.
From Stdlib Require Import Lia ZArith.
From S2P Require Import Prelude Ser4cpp Enums Codec Messages CRC LinkParser FrameWriter LinkLayer.
From S2P Require Import Crypto SessionMode Session Chain Handshake CryptoLayer LayerLogic.
From S2P Require Import Responder Initiator LayerFrame Returns Terminates Stack Factory LayerDelivery.

(** ** The link layer below *)

Section Link.
Context `{SER : Ser4cpp} {L : Type} `{LL : !LowerLayer L} `{LAWS : !LowerLayerLaws L}.

(** A link layer between two frames. *)
Definition quiet_port (local_addr : Z) (p : LinkPort L) : Prop :=
  port_open p = true /\ ll_local_addr (lp_link p) = local_addr /\
  ll_upper_is_processing (lp_link p) = false /\ mode_of (ll_parser (lp_link p)) = MSync1 /\
  pending (lp_link p) (lp_lower p) = [].

Lemma quiet_chunks a p : quiet_port a p -> lower_chunks p = [].
Proof. intros (_&_&Hf&Hm&Hp). cbn. unfold port_chunks, rx_mode. by rewrite Hf, Hm, Hp. Qed.

(** A link layer whose upper layer may still hold the last frame. *)
Definition resting_port (local_addr : Z) (p : LinkPort L) : Prop :=
  port_open p = true /\ ll_local_addr (lp_link p) = local_addr /\
  rx_mode (lp_link p) (mode_of (ll_parser (lp_link p))) = MSync1 /\ pending (lp_link p) (lp_lower p) = [].

Lemma quiet_resting a p : quiet_port a p -> resting_port a p.
Proof. intros (Ho&Ha&Hf&Hm&Hp). split; [done|]. split; [done|]. split; [unfold rx_mode; by rewrite Hf|done]. Qed.

(** A call that finds nothing, when the frame before it is dropped or there was none. *)
Lemma rx_quiet a p : resting_port a p -> quiet_port a (lower_start_rx p).2.
Proof.
  intros (Ho&Ha&Hm&Hp). destruct (port_keeps_open p) as [Hk _].
  destruct (port_start_rx_run p) as (m'&r&p'&Hrun&Hrx&Ha'&Hm'&Hproc&_).
  rewrite Hm, Hp in Hrun. injection Hrun as <- _ Hrest. cbn in Hk, Hproc. rewrite Hrx in Hk.
  change (lower_start_rx p) with (port_start_rx p). rewrite Hrx. cbn [snd] in *.
  split; [congruence|]. split; [congruence|]. done.
Qed.

Lemma quiet_rx a p : quiet_port a p -> quiet_port a (lower_start_rx p).2.
Proof. intros H. by apply rx_quiet, quiet_resting. Qed.

Lemma quiet_received a p : resting_port a (lower_start_rx p).2 -> quiet_port a (received p).
Proof. intros H. unfold received. by apply quiet_rx, rx_quiet. Qed.

Lemma quiet_tx a p data : quiet_port a p -> quiet_port a (lower_start_tx p data).2.
Proof.
  intros (Ho&Ha&Hf&Hm&Hp). cbn. unfold port_start_tx, LinkLayer_start_tx_from_upper.
  pose proof (tx_keeps_chunks (lp_lower p) data) as Hc. destruct (lower_start_tx (lp_lower p) data) as [ok l].
  cbn [snd] in *. do 4 (split; [done|]). unfold pending in *. cbn. by rewrite Hc.
Qed.

(** The port with another state of the transport. *)
Definition with_transport (p : LinkPort L) (l : L) : LinkPort L := mkLinkPort (lp_link p) l (lp_ok p).

Lemma quiet_transport a p l : quiet_port a p -> lower_chunks l = [] -> quiet_port a (with_transport p l).
Proof.
  intros (Ho&Ha&Hf&Hm&Hp) Hl. do 4 (split; [done|]). unfold pending in *. cbn.
  apply app_eq_nil in Hp as [-> _]. by rewrite Hl.
Qed.

Lemma quiet_transport_chunks a p : quiet_port a p -> lower_chunks (lp_lower p) = [].
Proof.
  intros (_&_&_&_&Hp). apply app_eq_nil in Hp as [_ Hp]. pose proof (lower_chunks_ok (lp_lower p)) as Hok.
  destruct (lower_chunks (lp_lower p)) as [|ch chs]; [done|]. apply Forall_cons in Hok as [[Hne _] _].
  by apply app_eq_nil in Hp as [? _].
Qed.

(** The end of a transmission is passed on. *)
Lemma quiet_told a p :
  quiet_port a p ->
  exists p', port_notify p on_lower_tx_ready = ([on_lower_tx_ready], p') /\ quiet_port a p' /\
    lower_is_tx_ready p' = lower_is_tx_ready (lp_lower p).
Proof.
  intros (Ho&Hq). unfold port_open in Ho. eexists. cbn [port_notify].
  unfold LinkLayer_on_lower_tx_ready at 1. rewrite Ho. split; [reflexivity|].
  unfold quiet_port, port_open. cbn. unfold LinkLayer_on_lower_tx_ready. by rewrite Ho.
Qed.

(** A frame arrives, in any pieces: the upper layer is told, finds the payload, and
    after that the port is at rest. *)
Lemma frame_arrives a p l addr payload :
  quiet_port a p -> concat (lower_chunks l) = link_frame addr payload ->
  addr_ok addr -> destination addr = a -> all_bytes payload -> payload <> [] ->
  zlen payload <= max_config_payload_size ->
  exists p', port_notify (with_transport p l) on_lower_rx_ready = ([on_lower_rx_ready], p') /\
    lower_chunks p' = [payload] /\ lower_is_tx_ready p' = lower_is_tx_ready l /\
    resting_port a (lower_start_rx p').2.
Proof.
  intros (Ho&Ha&Hf&Hm&Hp) Hl Haddr Hd Hb Hne Hlen. destruct (lp_ok p) as (m&Hi).
  rewrite (mode_of_implements _ m) in Hm by apply Hi. subst m.
  destruct (get_frame_refines (lp_link p) l MSync1 Hi) as (x&l'&m'&r&Hget&Hrun&Hx&(Ea&_&Ep&Eo)&_).
  apply app_eq_nil in Hp as [Hrem _].
  unfold pending in Hrun at 1. rewrite Hrem, Hl in Hrun. cbn [app] in Hrun.
  rewrite arun_frame in Hrun by (done || unfold max_config_payload_size, max_u16 in *; lia).
  injection Hrun as <- _ Hrest. cbn [is_done] in Hget.
  assert (LinkLayer_on_lower_rx_ready (lp_link (with_transport p l)) (lp_lower (with_transport p l)) =
            Some (true, [on_lower_rx_ready], x, l')) as Hrx.
  { unfold LinkLayer_on_lower_rx_ready. cbn. unfold port_open in Ho. by rewrite Ho, Hget. }
  destruct (port_rx_result_eq (with_transport p l) _ eq_refl _ _ _ _ Hrx) as (H&Hres).
  set (p' := mkLinkPort x l' H) in *. exists p'. split; [exact Hres|].
  assert (delivered a (MDone addr payload) = payload) as Hdel by (cbn; by rewrite Hd, Z.eqb_refl).
  assert (mode_of (ll_parser x) = MDone addr payload) as Hmx by (apply mode_of_implements, Hx).
  apply get_frame_ready in Hget. apply is_nil_false in Hne.
  destruct (port_start_rx_run p') as (m1&r1&p1&Hrun1&Hrx1&Ha1&Hm1&Hproc1&_).
  unfold p', rx_mode in Hrun1. cbn [lp_link lp_lower] in Hrun1.
  rewrite <- Ep, Hf, Hmx, <- Hrest, arun_done in Hrun1 by done. injection Hrun1 as <- _ Hrest1.
  cbn [p' lp_link] in Ha1, Hproc1, Hrx1. assert (ll_local_addr x = a) as Hax by congruence.
  rewrite Hax, Hdel in Hrx1, Hproc1. rewrite Hne in Hproc1.
  split.
  { unfold lower_chunks, link_lower, port_chunks, rx_mode. cbn [p' lp_link lp_lower].
    rewrite <- Ep, Hf, Hmx, <- Hrest, Hax.
    rewrite (link_payloads_step _ _ _ [] (MDone addr payload) [] []) by (by rewrite arun_done).
    by rewrite Hdel, Hne. }
  split; [exact Hget|]. destruct (port_keeps_open p') as [Hk _].
  change (lower_start_rx p') with (port_start_rx p') in *. rewrite Hrx1 in *. cbn [snd] in *.
  split; [|split; [congruence|split; [unfold rx_mode; by rewrite Hproc1|done]]].
  rewrite Hk. unfold port_open. cbn [p' lp_link]. by rewrite <- Eo.
Qed.
End Link.

(** ** One station *)

Section Station.
Context `{SER : Ser4cpp} (c : CryptoState) {D L U E T : Type} `{LL : !LowerLayer L} `{LAWS : !LowerLayerLaws L}.
Context (upper : upper_call -> U -> upper_prog U) (clock : nat -> Z).
Local Abbreviation world := (World LinkFrameWriter D (LinkPort L) U).
Context (v : (upper_call -> act world unit) ->
             virtuals (W := LinkFrameWriter) (D := D) (L := LinkPort L) (U := U)).

(** The entry points of the station's cryptographic layer. *)
Context (step : nat -> E -> act world unit) (ev : layer_event -> E) (timer : T -> E).
Context (Hstep : forall fuel e, step fuel (ev e) = layer_step LinkFrameWriter_ops c upper clock v fuel e).

Definition session_of (w : world) : Session := active (cl_sessions (w_layer w)).

(** A station with an established session and nothing to receive, which is
    transmitting what [tx] says. *)
Record station (addr : Addresses) (tx : TxState) (w : world) : Prop := {
  st_open : cl_is_open (w_layer w) = true;
  st_upper : w_upper_open w = true;
  st_tx : cl_tx_state (w_layer w) = tx;
  st_payload : cl_payload_data (w_layer w) = [];
  st_processing : cl_upper_is_processing (w_layer w) = false;
  st_buffer : 1024 <= zlen (cl_payload_buffer (w_layer w)) <= max_u16;
  st_port : quiet_port (source addr) (w_lower w);
  st_writer : LinkFrameWriter_inv (cl_frame_writer (w_layer w));
  st_room : max_session_data_size <= lfw_max_payload_size (cl_frame_writer (w_layer w)) <= max_config_payload_size;
  st_addr : addr_ok addr;
  st_frame : forall b, LinkFrameWriter_frame (cl_frame_writer (w_layer w)) b = link_frame addr b;
  st_session : session_ok (session_of w);
  st_valid : s_valid (session_of w) = true;
  st_encrypt : s_encrypt_buffer (session_of w) <> [];
}.

Definition idle : TxState := mkTxState false [].

(** A notification of the transport, passed on by the link layer. *)
Lemma transport_event fuel call (w w' : world) p :
  call = on_lower_tx_ready \/ call = on_lower_rx_ready ->
  port_notify (w_lower w) call = ([call], p) ->
  ends (layer_step LinkFrameWriter_ops c upper clock v fuel (event_of call)) (with_lower w p) tt w' ->
  ends (full_stack_step step ev timer fuel (FromTransport call)) (mkStack true w) tt (mkStack true w').
Proof.
  intros Hcall Hp Hw. unfold full_stack_step. eapply (ends_bind _ _ _ true); [|done].
  assert (ends (full_forward step ev fuel call) w tt w') as Hf.
  { unfold full_forward. eapply ends_bind; [unfold ends, link_notify; by rewrite Hp|]. cbn [notify_layer].
    rewrite Hstep. eapply ends_bind; [exact Hw|]. done. }
  unfold ends. rewrite stack_notify_eq. cbn [sk_is_open sk_world].
  by destruct Hcall as [-> | ->]; cbn [acts_on open_after]; unfold abind, in_world; cbn [sk_world]; rewrite Hf.
Qed.

(** The station with another state of its transport. *)
Definition on_transport (f : L -> L) (s : Stack world) : Stack world :=
  let p := w_lower (sk_world s) in
  mkStack (sk_is_open s) (with_lower (sk_world s) (with_transport p (f (lp_lower p)))).
End Station.

(** ** Two stations *)

(** The network from one transport to another: it brings a frame, in whatever pieces,
    and reports the end of a transmission. *)
Record network (L1 L2 : Type) := mkNetwork {
  net_bring : bytes -> L2 -> L2;
  net_finish : L1 -> L1;
}.
Arguments mkNetwork {L1 L2} _ _.
Arguments net_bring {L1 L2} _ _ _.
Arguments net_finish {L1 L2} _ _.

Class NetworkOk {L1 L2} `{!LowerLayer L1} `{!LowerLayer L2} (net : network L1 L2) : Prop := {
  net_brings frame l : lower_chunks l = [] -> all_bytes frame -> concat (lower_chunks (net_bring net frame l)) = frame;
  net_bring_ready frame l : lower_is_tx_ready (net_bring net frame l) = lower_is_tx_ready l;
  net_finish_ready l : lower_is_tx_ready (net_finish net l) = true;
  net_finish_chunks l : lower_chunks (net_finish net l) = lower_chunks l;
}.

Definition linked (s r : Session) : Prop :=
  session_mode (s_algorithms r) = session_mode (s_algorithms s) /\
  as_seq (rx_key (s_keys r)) = as_seq (tx_key (s_keys s)) /\ s_tx_nonce s = s_rx_nonce r + 1.

(** The most data a message of a session holds. *)
Definition capacity (s : Session) : Z := Z.min (zlen (s_encrypt_buffer s)) 1024.

(** Both sessions can be used for [k] messages, by their nonces and by the times at
    which they are sent and received. *)
Definition usable (s r : Session) (k : nat) (now now' : nat -> Z) : Prop :=
  s_tx_nonce s + Z.of_nat k <= max_nonce (s_parameters s) /\
  s_tx_nonce s + Z.of_nat k <= max_nonce (s_parameters r) + 1 /\
  forall i, (i < k)%nat ->
    tx_time_ok s (now i) /\ session_start (s_parameters r) <= now' i /\
    now' i - session_start (s_parameters r) <= max_session_time (s_parameters r) /\
    now' i - session_start (s_parameters r) <= ms (am_valid_until_ms (tx_metadata s (now i))).

Lemma zdrop_rest s data k :
  1 <= tx_count s data -> zlen data <= Z.of_nat (S k) * capacity s -> zdrop (tx_count s data) data <> [] ->
  zlen (zdrop (tx_count s data) data) <= Z.of_nat k * capacity s.
Proof.
  intros H1 Hk Hne. rewrite zlen_zdrop by lia.
  assert (tx_count s data = capacity s) as E; [|rewrite E; nia].
  unfold tx_count, capacity in *. destruct (Z.le_gt_cases (zlen data) (Z.min (zlen (s_encrypt_buffer s)) 1024)); [|lia].
  destruct Hne. apply zdrop_ge. lia.
Qed.

Lemma usable_next s r k eb now now' t t' :
  usable s r (S k) (fun i => now (t + i)%nat) (fun i => now' (t' + i)%nat) ->
  usable (s_set_tx_nonce (s_set_encrypt_buffer s eb) (s_tx_nonce s + 1)) (s_set_rx_nonce r (s_tx_nonce s)) k
    (fun i => now (S t + i)%nat) (fun i => now' (S t' + i)%nat).
Proof.
  intros (H1&H2&Ht). split; [cbn; lia|]. split; [cbn; lia|]. intros i Hi. specialize (Ht (S i) ltac:(lia)).
  rewrite !Nat.add_succ_r in Ht. exact Ht.
Qed.

Lemma linked_next s r eb :
  linked s r -> linked (s_set_tx_nonce (s_set_encrypt_buffer s eb) (s_tx_nonce s + 1)) (s_set_rx_nonce r (s_tx_nonce s)).
Proof. by intros (?&?&_). Qed.

Lemma next_nonce_accepted v n : nonce_check v -> n + 1 <= max_u16 -> v n (n + 1) = true.
Proof.
  intros [-> | ->] Hn; unfold verify_strict_increment, verify_greater_than_last.
  - destruct (n =? max_u16) eqn:E; btests; lia.
  - lia.
Qed.

Lemma session_ok_tx s eb n : session_ok s -> is_u16 n -> session_ok (s_set_tx_nonce (s_set_encrypt_buffer s eb) n).
Proof. intros (?&?&?&?&?) ?. split; done. Qed.

Lemma session_ok_rx s n : session_ok s -> is_u16 n -> session_ok (s_set_rx_nonce s n).
Proof. intros (?&?&?&?&?) ?. split; done. Qed.

Lemma link_frame_bytes addr payload : all_bytes payload -> all_bytes (link_frame addr payload).
Proof.
  intros H. unfold link_frame, checked. rewrite !Forall_app.
  pose proof (link_header_bytes addr (zlen payload)). auto with ssp21.
Qed.

(** *** The rounds *)

Definition runs {S} (m : act S unit) (s : S) : option S :=
  match m s with Some (Done (_, s)) => Some s | _ => None end.

Section Rounds.
Context {D1 L1 U1 T1 D2 L2 U2 T2 : Type}.
Local Abbreviation world1 := (World LinkFrameWriter D1 (LinkPort L1) U1).
Local Abbreviation world2 := (World LinkFrameWriter D2 (LinkPort L2) U2).
Context (sender : nat -> stack_event T1 -> act (Stack world1) unit).
Context (receiver : nat -> stack_event T2 -> act (Stack world2) unit) (net : network L1 L2).

(** A round: the frame sent last arrives at the receiver, and the sender is told that
    it is out.  Rounds follow each other for as long as the sender sends. *)
Fixpoint carry (fuel rounds : nat) (s : Stack world1) (r : Stack world2) : option (Stack world1 * Stack world2) :=
  match rounds with
  | O => None
  | S rounds =>
      match w_sent (sk_world s) with
      | [] => None
      | (_, frame) :: _ =>
          r ← runs (receiver fuel (FromTransport on_lower_rx_ready)) (on_transport (net_bring net frame) r);
          s' ← runs (sender fuel (FromTransport on_lower_tx_ready)) (on_transport (net_finish net) s);
          if (length (w_sent (sk_world s')) =? length (w_sent (sk_world s)))%nat then Some (s', r)
          else carry fuel rounds s' r
      end
  end.

(** The application of the first station hands over data. *)
Definition send (fuel rounds : nat) (data : bytes) (s : Stack world1) (r : Stack world2)
  : option (Stack world1 * Stack world2) :=
  s ← runs (sender fuel (AppStartTx data)) s;
  carry fuel rounds s r.
End Rounds.

Section Conversation.
Context `{SER : Ser4cpp} (c1 c2 : CryptoState) {D1 L1 U1 E1 T1 D2 L2 U2 E2 T2 : Type}.
Context `{LL1 : !LowerLayer L1} `{LAWS1 : !LowerLayerLaws L1} `{LL2 : !LowerLayer L2} `{LAWS2 : !LowerLayerLaws L2}.
Local Abbreviation world1 := (World LinkFrameWriter D1 (LinkPort L1) U1).
Local Abbreviation world2 := (World LinkFrameWriter D2 (LinkPort L2) U2).
Context (upper1 : upper_call -> U1 -> upper_prog U1) (clock1 : nat -> Z).
Context (upper2 : upper_call -> U2 -> upper_prog U2) (clock2 : nat -> Z).
Context (v1 : (upper_call -> act world1 unit) ->
              virtuals (W := LinkFrameWriter) (D := D1) (L := LinkPort L1) (U := U1)) (calm1 : D1 -> Z -> Prop).
Context (v2 : (upper_call -> act world2 unit) ->
              virtuals (W := LinkFrameWriter) (D := D2) (L := LinkPort L2) (U := U2)) (calm2 : D2 -> Z -> Prop).
Context `{HC1 : !CalmVirtuals v1 calm1} `{HC2 : !CalmVirtuals v2 calm2}.
Context (step1 : nat -> E1 -> act world1 unit) (ev1 : layer_event -> E1) (timer1 : T1 -> E1).
Context (step2 : nat -> E2 -> act world2 unit) (ev2 : layer_event -> E2) (timer2 : T2 -> E2).
Context (net : network L1 L2).
Context (Hstep1 : forall fuel e, step1 fuel (ev1 e) = layer_step LinkFrameWriter_ops c1 upper1 clock1 v1 fuel e).
Context (Hstep2 : forall fuel e, step2 fuel (ev2 e) = layer_step LinkFrameWriter_ops c2 upper2 clock2 v2 fuel e).
Context (told : U1 -> U1) (Happ1 : forall u, upper1 on_lower_tx_ready u = UReturn (told u)).
Context (take_in : U2 -> bytes -> U2) (Happ2 : reads_in upper2 take_in).
Context `{HN : !NetworkOk net}.
Context (addr1 addr2 : Addresses) (Haddr : source addr2 = destination addr1).

(** The frame of a message arrives at an idle receiver. *)
Lemma message_received fuel tx (w : world2) msg chunk s' st' buffer' n :
  station addr2 tx w -> lower_is_tx_ready (w_lower w) = true -> addr_ok addr1 ->
  SessionData_ok msg -> zlen (SessionData_enc msg) <= max_config_payload_size -> am_nonce (sd_metadata msg) <> 0 ->
  Session_validate_session_data (session_of w) (cl_statistics (w_layer w)) msg
    (clock2 (w_ticks w)) (cl_payload_buffer (w_layer w)) = Done (inr chunk, s', st', buffer') ->
  chunk <> [] -> zlen buffer' = zlen (cl_payload_buffer (w_layer w)) ->
  session_ok s' -> s_valid s' = true -> s_encrypt_buffer s' <> [] ->
  calm2 (w_derived w) n -> s_rx_nonce s' <= n -> s_tx_nonce s' <= n ->
  exists w',
    ends (full_stack_step step2 ev2 timer2 (S fuel) (FromTransport on_lower_rx_ready))
      (on_transport (net_bring net (link_frame addr1 (SessionData_enc msg))) (mkStack true w)) tt (mkStack true w') /\
    station addr2 tx w' /\ lower_is_tx_ready (w_lower w') = true /\
    session_of w' = s' /\ w_upper w' = take_in (w_upper w) chunk /\ w_ticks w' = S (w_ticks w) /\
    w_derived w' = w_derived w.
Proof.
  intros Hst Hr Ha1 Hok Hlen Hnz Hval Hch Hbl Hs' Hv' He' Hcalm Hrx Htx.
  pose proof (msg_bytes (m := SessionData_message) msg Hok) as Hb.
  pose proof (msg_read_enc (m := SessionData_message) msg Hok) as Hread. cbn [m_read SessionData_message] in Hread.
  set (payload := SessionData_enc msg) in *. pose proof (st_port _ _ _ Hst) as Hquiet.
  assert (lower_chunks (lp_lower (w_lower w)) = []) as Hlc.
  { by apply (quiet_transport_chunks (source addr2)). }
  set (l := net_bring net (link_frame addr1 payload) (lp_lower (w_lower w))).
  destruct (frame_arrives (source addr2) (w_lower w) l addr1 payload Hquiet) as (p'&Hn&Hc&Hrp&Hq);
    [by apply net_brings, link_frame_bytes|done|done|done|done|done|].
  assert (lower_is_tx_ready p' = true) as Hready by (rewrite Hrp; unfold l; rewrite net_bring_ready; exact Hr).
  pose proof (receiver_takes LinkFrameWriter_ops c2 upper2 clock2 take_in Happ2 v2 calm2 fuel (with_lower w p') payload msg chunk
    s' st' buffer' n (st_open _ _ _ Hst) (st_upper _ _ _ Hst) (st_processing _ _ _ Hst) (st_payload _ _ _ Hst)
    Hc Hready eq_refl Hread Hnz Hval Hch Hcalm Hrx Htx) as Hends.
  eexists. split.
  { apply (transport_event c2 upper2 clock2 v2 step2 ev2 timer2 Hstep2 (S fuel) on_lower_rx_ready _ _ p'); [by right|exact Hn|].
    cbn [event_of layer_step]. eapply ends_bind; [exact Hends|]. done. }
  split; [destruct Hst; split; try done; cbn; [by rewrite Hbl|by apply quiet_received]|].
  split; [|done]. cbn [w_lower rewired with_lower]. unfold received. by rewrite !rx_keeps_ready.
Qed.

(** One message: the sender transmits it, and the receiver's application gets what it
    carries. *)
Lemma message_carried fuel tx (w1 : world1) (w2 : world2)
    `{HM : !SessionModeOk (session_mode (s_algorithms (session_of w1)))} data n1 n2 k :
  let s := session_of w1 in
  let r := session_of w2 in
  let count := tx_count s data in
  let notify1 := notify LinkFrameWriter_ops c1 upper1 clock1 v1 (S fuel) in
  station addr1 (mkTxState false data) w1 -> lower_is_tx_ready (w_lower w1) = true ->
  station addr2 tx w2 -> lower_is_tx_ready (w_lower w2) = true -> linked s r ->
  usable s r (S k) (fun i => clock1 (w_ticks w1 + i)%nat) (fun i => clock2 (w_ticks w2 + i)%nat) ->
  data <> [] -> all_bytes data ->
  calm1 (w_derived w1) n1 -> s_rx_nonce s <= n1 -> s_tx_nonce s + 1 <= n1 ->
  calm2 (w_derived w2) n2 -> s_rx_nonce r + 1 <= n2 -> s_tx_nonce r <= n2 ->
  exists (w1' : world1) (w2' : world2) frame eb,
    ends (check_transmit LinkFrameWriter_ops c1 clock1 notify1 (v1 notify1)) w1 tt w1' /\
    w_sent w1' = (true, frame) :: w_sent w1 /\
    ends (full_stack_step step2 ev2 timer2 (S fuel) (FromTransport on_lower_rx_ready))
      (on_transport (net_bring net frame) (mkStack true w2)) tt (mkStack true w2') /\
    (station addr1 (mkTxState true (zdrop count data)) w1' /\
     session_of w1' = s_set_tx_nonce (s_set_encrypt_buffer s eb) (s_tx_nonce s + 1) /\
     zlen eb = zlen (s_encrypt_buffer s) /\
     w_upper w1' = w_upper w1 /\ w_ticks w1' = S (w_ticks w1) /\ w_derived w1' = w_derived w1) /\
    (station addr2 tx w2' /\ lower_is_tx_ready (w_lower w2') = true /\
     session_of w2' = s_set_rx_nonce r (s_tx_nonce s) /\
     w_upper w2' = take_in (w_upper w2) (ztake count data) /\
     w_ticks w2' = S (w_ticks w2) /\ w_derived w2' = w_derived w2) /\
    1 <= count <= zlen data.
Proof.
  intros s r count notify1 H1 Hr1 H2 Hr2 (Hmode&Hkey&Hnonce) (Hn1&Hn2&Ht) Hd Hb Hc1 Hc1r Hc1t Hc2 Hc2r Hc2t.
  destruct (Ht 0%nat ltac:(lia)) as (Htx&Hw1&Hw2&Hw3). rewrite !Nat.add_0_r in *.
  pose proof (st_session _ _ _ H1) as Hs. pose proof (st_session _ _ _ H2) as Hok2. fold s in Hs. fold r in Hok2.
  pose proof Hok2 as (_&_&[Hrx0 _]&_&_&Hchk&_). pose proof Hs as (_&[[_ Hmx] _]&_&[Htx0 _]&_).
  destruct (session_carries LinkFrameWriter_ops LinkFrameWriter_inv LinkFrameWriter_frame s r
      (cl_frame_writer (w_layer w1)) (HM := HM) (cl_statistics (w_layer w2)) data (clock1 (w_ticks w1))
      (clock2 (w_ticks w2)) (cl_payload_buffer (w_layer w2)))
    as (eb&fwr&buf&Hfmt&Heb&Hfi&Hff&Hfm&Hread&Hval&Hbuf&Hcount); try done.
  all: try apply H1; try apply H2; try lia.
  { rewrite Hnonce. apply next_nonce_accepted; [done|lia]. }
  fold count in Hfmt, Hval, Hcount. rewrite (st_frame _ _ _ H1) in Hfmt.
  assert (ztake count data <> []) as Hne.
  { intros E. apply (f_equal zlen) in E. rewrite zlen_ztake in E by lia. change (zlen (@nil Z)) with 0 in E. lia. }
  pose proof (tx_message_fits s (clock1 (w_ticks w1)) data Hs Htx Hb) as Hfit.
  pose proof (st_room _ _ _ H1) as Hroom.
  destruct (message_received fuel tx w2 (tx_message s (clock1 (w_ticks w1)) data) (ztake count data)
      (s_set_rx_nonce r (s_tx_nonce s)) (inc_success (cl_statistics (w_layer w2))) buf n2)
    as (w2'&Hev&Hst2&Hready2&Hses2&Hup2&Htk2&Hd2); try done.
  all: try apply H1; try apply H2.
  { by apply tx_message_ok. }
  { lia. }
  { cbn. lia. }
  { apply session_ok_rx; [done|apply Hs]. }
  { cbn. lia. }
  eexists _, w2', _, eb. split.
  { apply (check_transmit_sends LinkFrameWriter_ops c1 clock1 v1 calm1 notify1 w1 data _ _ _ _ n1 (st_valid _ _ _ H1) Hr1
             (st_tx _ _ _ H1) Hd Hfmt Hc1 Hc1r Hc1t). }
  split; [unfold transmitted; cbn [w_sent]; by rewrite Hr1|]. split; [exact Hev|]. split; [|done]. split; [|done].
  destruct H1. split; try done; cbn.
  - by apply quiet_tx.
  - cbn in Hfm. by rewrite Hfm.
  - intros b. specialize (Hff b). cbn in Hff. rewrite Hff. by apply st_frame0.
  - apply session_ok_tx; [done|]. split; lia.
  - intros ->. apply st_encrypt0. fold s. change (zlen (@nil Z)) with 0 in Heb. destruct (s_encrypt_buffer s) as [|z l]; [done|].
    rewrite zlen_cons in Heb. pose proof (zlen_nonneg l). lia.
Qed.

(** The notification that a transmission is out, at the sender. *)
Lemma sender_told fuel tx (w : world1) :
  station addr1 tx w ->
  exists p, quiet_port (source addr1) p /\ lower_is_tx_ready p = true /\
    forall w',
      ends (layer_step LinkFrameWriter_ops c1 upper1 clock1 v1 fuel EvTxReady) (with_lower w p) tt w' ->
      runs (full_stack_step step1 ev1 timer1 fuel (FromTransport on_lower_tx_ready))
        (on_transport (net_finish net) (mkStack true w)) = Some (mkStack true w').
Proof.
  intros Hst. pose proof (st_port _ _ _ Hst) as Hq.
  assert (lower_chunks (net_finish net (lp_lower (w_lower w))) = []) as Hc.
  { rewrite net_finish_chunks. by apply (quiet_transport_chunks (source addr1) (w_lower w)). }
  destruct (quiet_told _ _ (quiet_transport _ _ _ Hq Hc)) as (p&Hn&Hqp&Hrp).
  exists p. split; [done|]. split; [rewrite Hrp; apply net_finish_ready|]. intros w' Hw'. unfold runs.
  pose proof (transport_event c1 upper1 clock1 v1 step1 ev1 timer1 Hstep1 fuel on_lower_tx_ready
    (sk_world (on_transport (net_finish net) (mkStack true w))) w' p (or_introl eq_refl) Hn Hw') as Hev.
  unfold ends in Hev. unfold on_transport in *. cbn [sk_is_open sk_world] in *. by rewrite Hev.
Qed.

(** The data has arrived: the application of the receiver took it in parts, that of the
    sender was told once, and both stations are ready for more. *)
Definition arrived (k : nat) (tx : TxState) (data : bytes) (w1 w1' : world1) (w2 w2' : world2) : Prop :=
  (exists chunks, concat chunks = data /\ Forall (fun chunk => 1 <= zlen chunk <= capacity (session_of w1)) chunks /\
     (length chunks <= k)%nat /\ w_upper w2' = foldl take_in (w_upper w2) chunks) /\
  w_upper w1' = told (w_upper w1) /\
  (station addr1 idle w1' /\ lower_is_tx_ready (w_lower w1') = true) /\
  (station addr2 tx w2' /\ lower_is_tx_ready (w_lower w2') = true) /\
  linked (session_of w1') (session_of w2').

(** The end of the last transmission. *)
Lemma sender_finishes fuel (w : world1) n :
  station addr1 (mkTxState true []) w -> calm1 (w_derived w) n ->
  exists w',
    runs (full_stack_step step1 ev1 timer1 (S fuel) (FromTransport on_lower_tx_ready))
      (on_transport (net_finish net) (mkStack true w)) = Some (mkStack true w') /\
    station addr1 idle w' /\ lower_is_tx_ready (w_lower w') = true /\ w_upper w' = told (w_upper w) /\
    w_sent w' = w_sent w /\ session_of w' = session_of w.
Proof.
  intros Hst Hc. destruct (sender_told (S fuel) _ w Hst) as (p&Hq&Hr&Hrun).
  destruct (tx_ready_finishes LinkFrameWriter_ops c1 upper1 clock1 v1 calm1 fuel (with_lower w p) told n Happ1
    (st_open _ _ _ Hst) (st_upper _ _ _ Hst) (st_tx _ _ _ Hst) (quiet_chunks _ _ Hq) Hc) as (_&Hlr&Hends).
  eexists. split; [apply Hrun; cbn [layer_step]; eapply ends_bind; [exact Hends|]; done|].
  split; [|split; [|done]].
  - destruct Hst. split; try done. cbn. unfold lower_asked. cbn. destruct (_ && _); [by apply quiet_rx|done].
  - cbn [tx_completed w_lower]. by rewrite Hlr.
Qed.

(** The end of another one: the rest follows. *)
Lemma sender_continues fuel (w : world1) rest n :
  station addr1 (mkTxState true rest) w -> rest <> [] -> calm1 (w_derived w) n ->
  let notify1 := notify LinkFrameWriter_ops c1 upper1 clock1 v1 (S fuel) in
  exists w0,
    station addr1 (mkTxState false rest) w0 /\ lower_is_tx_ready (w_lower w0) = true /\ w_upper w0 = w_upper w /\
    w_sent w0 = w_sent w /\ session_of w0 = session_of w /\ w_ticks w0 = w_ticks w /\ w_derived w0 = w_derived w /\
    forall w', ends (check_transmit LinkFrameWriter_ops c1 clock1 notify1 (v1 notify1)) w0 tt w' ->
      runs (full_stack_step step1 ev1 timer1 (S fuel) (FromTransport on_lower_tx_ready))
        (on_transport (net_finish net) (mkStack true w)) = Some (mkStack true w').
Proof.
  intros Hst Hne Hc notify1. destruct (sender_told (S fuel) _ w Hst) as (p&Hq&Hr&Hrun).
  destruct (tx_ready_continues LinkFrameWriter_ops c1 clock1 v1 calm1 notify1 (with_lower w p) rest n
    (st_open _ _ _ Hst) (st_tx _ _ _ Hst) Hne (quiet_chunks _ _ Hq) Hr Hc) as (_&Hlr&Hends).
  exists (tx_completed (with_lower w p) rest (w_upper w) (lower_asked (with_lower w p))).
  split; [|split; [exact Hlr|]].
  { destruct Hst. split; try done. cbn. unfold lower_asked. cbn. destruct (_ && _); [by apply quiet_rx|done]. }
  do 5 (split; [done|]). intros w' Hw'. apply Hrun. cbn [layer_step]. eapply ends_bind; [by apply Hends|]. done.
Qed.

(** What arrives after the first part. *)
Lemma arrived_next k tx data count (w1 w0 w1' : world1) (w2 w2m w2' : world2) :
  1 <= zlen (ztake count data) <= capacity (session_of w1) -> capacity (session_of w0) = capacity (session_of w1) ->
  w_upper w0 = w_upper w1 -> w_upper w2m = take_in (w_upper w2) (ztake count data) ->
  arrived k tx (zdrop count data) w0 w1' w2m w2' -> arrived (S k) tx data w1 w1' w2 w2'.
Proof.
  intros Hch Hcap Hu1 Hu2 ((chunks&Hcat&Hall&Hlen&Hfold)&Htold&Hrest).
  split; [|rewrite Hu1 in Htold; done]. exists (ztake count data :: chunks).
  split; [cbn [concat]; by rewrite Hcat, ztake_zdrop|]. rewrite Hcap in Hall. split; [by constructor|].
  split; [cbn; lia|]. cbn [foldl]. by rewrite Hfold, Hu2.
Qed.

Lemma data_carried fuel k : forall tx (w1 : world1) (w2 : world2)
    `{HM : !SessionModeOk (session_mode (s_algorithms (session_of w1)))} data n1 n2,
  let s := session_of w1 in
  let r := session_of w2 in
  let notify1 := notify LinkFrameWriter_ops c1 upper1 clock1 v1 (S fuel) in
  station addr1 (mkTxState false data) w1 -> lower_is_tx_ready (w_lower w1) = true ->
  station addr2 tx w2 -> lower_is_tx_ready (w_lower w2) = true -> linked s r ->
  usable s r k (fun i => clock1 (w_ticks w1 + i)%nat) (fun i => clock2 (w_ticks w2 + i)%nat) ->
  data <> [] -> all_bytes data -> zlen data <= Z.of_nat k * capacity s ->
  calm1 (w_derived w1) n1 -> s_rx_nonce s <= n1 -> s_tx_nonce s + Z.of_nat k <= n1 ->
  calm2 (w_derived w2) n2 -> s_rx_nonce r + Z.of_nat k <= n2 -> s_tx_nonce r <= n2 ->
  exists w1m w1' w2',
    ends (check_transmit LinkFrameWriter_ops c1 clock1 notify1 (v1 notify1)) w1 tt w1m /\
    length (w_sent w1m) = S (length (w_sent w1)) /\
    carry (full_stack_step step1 ev1 timer1) (full_stack_step step2 ev2 timer2) net (S fuel) k (mkStack true w1m) (mkStack true w2) =
      Some (mkStack true w1', mkStack true w2') /\
    arrived k tx data w1 w1' w2 w2'.
Proof.
  induction k as [|k IH]; intros tx w1 w2 HM data n1 n2 s r notify1 H1 Hr1 H2 Hr2 Hl Hu Hd Hb Hk Hc1 Hc1r Hc1t Hc2 Hc2r Hc2t.
  { destruct data as [|z l]; [done|]. rewrite zlen_cons in Hk. pose proof (zlen_nonneg l). lia. }
  assert (s_tx_nonce s + 1 <= n1) as Ht1 by lia. assert (s_rx_nonce r + 1 <= n2) as Ht2 by lia.
  destruct (message_carried fuel tx w1 w2 data n1 n2 k H1 Hr1 H2 Hr2 Hl Hu Hd Hb Hc1 Hc1r Ht1 Hc2 Ht2 Hc2t)
    as (w1m&w2m&frame&eb&Hct&Hsent&Hrx&(Hst1&Hs1&Heb&Hup1&Htk1&Hde1)&(Hst2&Hready2&Hs2&Hup2&Htk2&Hde2)&Hcount).
  fold s in Hcount, Hs1, Heb, Hst1, Hup2, Hs2. fold r in Hs2. set (count := tx_count s data) in *.
  assert (runs (full_stack_step step2 ev2 timer2 (S fuel) (FromTransport on_lower_rx_ready))
    (on_transport (net_bring net frame) (mkStack true w2)) = Some (mkStack true w2m)) as Hrx' by (unfold runs; by rewrite Hrx).
  assert (linked (session_of w1m) (session_of w2m)) as Hlm by (rewrite Hs1, Hs2; by apply linked_next).
  assert (1 <= zlen (ztake count data) <= capacity s) as Hchunk.
  { rewrite zlen_ztake by lia. unfold count, tx_count, capacity in *. lia. }
  destruct (decide (zdrop count data = [])) as [Erest|Hrest].
  - rewrite Erest in Hst1. rewrite <- Hde1 in Hc1.
    destruct (sender_finishes fuel w1m n1 Hst1 Hc1) as (w1'&Hrun&Hst1'&Hr1'&Hup1'&Hsent1'&Hs1').
    exists w1m, w1', w2m. split; [done|]. split; [by rewrite Hsent|]. split.
    { cbn [carry sk_world]. rewrite Hsent, Hrx'. cbn [mbind option_bind]. rewrite Hrun.
      cbn [mbind option_bind sk_world]. by rewrite Hsent1', Hsent, Nat.eqb_refl. }
    split; [|rewrite Hup1', Hup1, Hs1'; done].
    exists [ztake count data]. cbn [concat foldl]. rewrite app_nil_r.
    split; [rewrite <- (ztake_zdrop count data) at 2; by rewrite Erest, app_nil_r|].
    split; [by constructor|]. split; [cbn; lia|done].
  - rewrite <- Hde1 in Hc1. rewrite <- Hde2 in Hc2.
    destruct (sender_continues fuel w1m _ n1 Hst1 Hrest Hc1) as (w0&Hst0&Hr0&Hup0&Hsent0&Hs0&Htk0&Hde0&Hnext).
    assert (SessionModeOk (session_mode (s_algorithms (session_of w0)))) as HM' by (rewrite Hs0, Hs1; exact HM).
    destruct (IH tx w0 w2m HM' (zdrop count data) n1 n2) as (w1n&w1'&w2'&Hctn&Hlen&Hcarry&Harr);
      try done; try congruence; rewrite ?Hs0.
    + rewrite Hs1, Hs2, Htk0, Htk1, Htk2. by apply usable_next.
    + by apply Forall_zdrop.
    + rewrite Hs1. replace (capacity _) with (capacity s) by (unfold capacity; cbn; by rewrite Heb).
      apply zdrop_rest; [apply Hcount|done|exact Hrest].
    + rewrite Hs1. cbn. done.
    + rewrite Hs1. cbn. lia.
    + rewrite Hs2. cbn. destruct Hl as (_&_&Hl). lia.
    + by rewrite Hs2.
    + exists w1m, w1', w2'. split; [done|]. split; [by rewrite Hsent|]. split.
      { cbn [carry sk_world]. rewrite Hsent, Hrx'. cbn [mbind option_bind]. rewrite (Hnext w1n Hctn).
        cbn [mbind option_bind sk_world]. rewrite Hlen, Hsent0, Hsent.
        destruct (Nat.eqb_spec (S (length ((true, frame) :: w_sent w1))) (length ((true, frame) :: w_sent w1))); [lia|]. exact Hcarry. }
      apply (arrived_next k tx data count w1 w0 w1' w2 w2m w2'); try done; [|congruence].
      rewrite Hs0, Hs1. unfold capacity. cbn. by rewrite Heb.
Qed.

(** Two stations that can exchange [data] in at most [k] messages. *)
Definition can_exchange (k : nat) (data : bytes) (w1 : world1) (w2 : world2) : Prop :=
  let s := session_of w1 in
  let r := session_of w2 in
  (station addr1 idle w1 /\ lower_is_tx_ready (w_lower w1) = true) /\
  (station addr2 idle w2 /\ lower_is_tx_ready (w_lower w2) = true) /\ linked s r /\
  usable s r k (fun i => clock1 (w_ticks w1 + i)%nat) (fun i => clock2 (w_ticks w2 + i)%nat) /\
  data <> [] /\ all_bytes data /\ zlen data <= Z.of_nat k * capacity s /\
  (exists n1, calm1 (w_derived w1) n1 /\ s_rx_nonce s <= n1 /\ s_tx_nonce s + Z.of_nat k <= n1) /\
  (exists n2, calm2 (w_derived w2) n2 /\ s_rx_nonce r + Z.of_nat k <= n2 /\ s_tx_nonce r <= n2).

Lemma data_sent fuel k data (w1 : world1) (w2 : world2)
    `{HM : !SessionModeOk (session_mode (s_algorithms (session_of w1)))} :
  can_exchange k data w1 w2 ->
  exists w1' w2',
    send (full_stack_step step1 ev1 timer1) (full_stack_step step2 ev2 timer2) net (S fuel) k data
      (mkStack true w1) (mkStack true w2) = Some (mkStack true w1', mkStack true w2') /\
    arrived k idle data w1 w1' w2 w2'.
Proof.
  intros ([H1 Hr1]&[H2 Hr2]&Hl&Hu&Hd&Hb&Hk&(n1&Hc1&Hc1r&Hc1t)&(n2&Hc2&Hc2r&Hc2t)).
  assert (station addr1 (mkTxState false data) (loaded w1 data)) as H0 by (by destruct H1; split).
  destruct (data_carried fuel k idle (loaded w1 data) w2 (HM := HM) data n1 n2 H0 Hr1 H2 Hr2 Hl Hu Hd Hb Hk Hc1 Hc1r Hc1t
    Hc2 Hc2r Hc2t) as (w1m&w1'&w2'&Hct&_&Hcarry&Harr).
  exists w1', w2'. split; [|exact Harr]. unfold send.
  pose proof (start_tx_begins LinkFrameWriter_ops c1 clock1 v1 _ w1 w1m data (st_open _ _ _ H1) (st_upper _ _ _ H1)
    ltac:(by rewrite (st_tx _ _ _ H1)) Hct) as Htx.
  assert (runs (full_stack_step step1 ev1 timer1 (S fuel) (AppStartTx data)) (mkStack true w1) = Some (mkStack true w1m)) as ->;
    [|exact Hcarry].
  unfold runs, full_stack_step, in_world. cbn [sk_world sk_is_open]. rewrite Hstep1. cbn [layer_step].
  assert (ends (abind (start_tx_from_upper LinkFrameWriter_ops c1 clock1 (notify LinkFrameWriter_ops c1 upper1 clock1 v1 (S fuel))
    (v1 (notify LinkFrameWriter_ops c1 upper1 clock1 v1 (S fuel))) data) (fun _ => aret tt)) w1 tt w1m) as ->; [|done].
  eapply ends_bind; [exact Htx|]. done.
Qed.
End Conversation.

(** ** The stations of the factories *)

Section Stations.
Context `{SER : Ser4cpp} (ci cr : CryptoState) {HI HR LI LR UI UR : Type}.
Context `{LLI : !LowerLayer LI} `{LAWSI : !LowerLayerLaws LI} `{LLR : !LowerLayer LR} `{LAWSR : !LowerLayerLaws LR}.
Context (upperI : upper_call -> UI -> upper_prog UI) (clockI : nat -> Z).
Context (ih : initiator_handshake HI) (config : InitiatorConfig).
Context (upperR : upper_call -> UR -> upper_prog UR) (clockR : nat -> Z) (rh : responder_handshake HR LinkFrameWriter).
Local Abbreviation istack := (FullInitiatorStack_step (L := LI) ci upperI clockI ih config).
Local Abbreviation rstack := (FullResponderStack_step (L := LR) cr upperR clockR rh).

(** C4: What an application sends arrives: when an initiator stack and a responder
    stack share a session, are idle and have room for the messages (buffers of 1024
    to 65535 bytes and frames of 1051 bytes at least), and the session has the nonces
    and the time for them and does not reach the point where it is renegotiated, then
    the data one application hands over, if there are any, is taken by the other,
    complete and in order, in parts of at most the size of a message; the sender's
    application is told once, when everything is out; and both stacks are then idle
    with a shared session again. The applications take the data they are told of,
    give its buffer back, and send nothing of their own meanwhile. This holds in
    both directions, for any mode of the session that keeps its contract, any
    transports and any cutting of the frames, with each handler of both stacks
    returning. *)
Theorem user_data_delivered (addrI addrR : Addresses) (netIR : network LI LR) (netRI : network LR LI)
    toldI take_inI toldR take_inR :
  NetworkOk netIR -> NetworkOk netRI ->
  source addrR = destination addrI -> source addrI = destination addrR ->
  (forall u, upperI on_lower_tx_ready u = UReturn (toldI u)) -> reads_in upperI take_inI ->
  (forall u, upperR on_lower_tx_ready u = UReturn (toldR u)) -> reads_in upperR take_inR ->
  (forall fuel k data wI wR, SessionModeOk (session_mode (s_algorithms (session_of wI))) ->
     can_exchange clockI clockR (initiator_calm_at (ic_params config)) (fun _ _ => True) addrI addrR k data wI wR ->
     exists wI' wR',
       send istack rstack netIR (S fuel) k data (mkStack true wI) (mkStack true wR) =
         Some (mkStack true wI', mkStack true wR') /\
       arrived toldI take_inR addrI addrR k idle data wI wI' wR wR') /\
  (forall fuel k data wR wI, SessionModeOk (session_mode (s_algorithms (session_of wR))) ->
     can_exchange clockR clockI (fun _ _ => True) (initiator_calm_at (ic_params config)) addrR addrI k data wR wI ->
     exists wR' wI',
       send rstack istack netRI (S fuel) k data (mkStack true wR) (mkStack true wI) =
         Some (mkStack true wR', mkStack true wI') /\
       arrived toldR take_inI addrR addrI k idle data wR wR' wI wI').
Proof.
  intros HN1 HN2 Ha1 Ha2 HtI HrI HtR HrR. split; intros fuel k data w1 w2 HM Hex.
  - exact (data_sent ci cr upperI clockI upperR clockR
      (Initiator_virtuals LinkFrameWriter_ops ci clockI ih (ic_params config) (ic_session_limits config))
      (initiator_calm_at (ic_params config)) (Responder_virtuals LinkFrameWriter_ops cr clockR rh) (fun _ _ => True)
      (initiator_step LinkFrameWriter_ops ci upperI clockI ih (ic_params config) (ic_session_limits config)) EvLayer timer_event
      (responder_step LinkFrameWriter_ops cr upperR clockR rh) id no_timer netIR (fun _ _ => eq_refl) (fun _ _ => eq_refl)
      toldI HtI take_inR HrR addrI addrR Ha1 fuel k data w1 w2 Hex).
  - exact (data_sent cr ci upperR clockR upperI clockI
      (Responder_virtuals LinkFrameWriter_ops cr clockR rh) (fun _ _ => True)
      (Initiator_virtuals LinkFrameWriter_ops ci clockI ih (ic_params config) (ic_session_limits config))
      (initiator_calm_at (ic_params config)) (responder_step LinkFrameWriter_ops cr upperR clockR rh) id no_timer
      (initiator_step LinkFrameWriter_ops ci upperI clockI ih (ic_params config) (ic_session_limits config)) EvLayer timer_event
      netRI (fun _ _ => eq_refl) (fun _ _ => eq_refl)
      toldR HtR take_inI HrI addrR addrI Ha2 fuel k data w1 w2 Hex).
Qed.
End Stations.
