(* ===== verification/DeliveryScenario.v ===== *)
(** * Delivery, executed

    Two stations that have shaken hands exchange three messages' worth of data over a
    network that cuts every frame in two: the theorem of [Delivery] applies to them,
    and the run gives what it says. *)

From stdpp Require Import base numbers list strings.
From Stdlib Require Import Lia ZArith.
From S2P Require Import Prelude Ser4cpp Enums Codec Messages CRC LinkParser FrameWriter LinkLayer.
From S2P Require Import Crypto SessionMode Session Chain Handshake CryptoLayer LayerLogic.
From S2P Require Import Responder Initiator LayerFrame Returns Terminates Scenario Stack Factory StackScenario.
From S2P Require Import LayerDelivery Delivery.

Local Existing Instance ser4cpp_reference.

(** ** The network *)

Definition pieces (frame : bytes) : list bytes := filter (fun c => c <> []) [ztake 5 frame; zdrop 5 frame].

Definition cutting : network queue queue := mkNetwork (fun frame _ => queue_of (pieces frame)) id.

Lemma concat_pieces frame : concat (pieces frame) = frame.
Proof.
  unfold pieces. rewrite <- (ztake_zdrop 5 frame) at 3. rewrite !filter_cons, filter_nil.
  destruct (decide (ztake 5 frame <> [])) as [_|E1%dec_stable], (decide (zdrop 5 frame <> [])) as [_|E2%dec_stable].
  all: cbn [concat]; by rewrite ?E1, ?E2, ?app_nil_r.
Qed.

Lemma pieces_ok frame : all_bytes frame -> chunks_ok (pieces frame).
Proof.
  intros H. apply Forall_forall. intros x [Hne Hin]%list_elem_of_filter. split; [done|].
  apply elem_of_cons in Hin as [-> |[-> |[]%elem_of_nil]%elem_of_cons]; [by apply Forall_ztake|by apply Forall_zdrop].
Qed.

#[export] Instance cutting_ok : NetworkOk cutting.
Proof.
  split; try done. intros frame l _ Hb. cbn. unfold queue_of. destruct (decide _) as [H|H]; [apply concat_pieces|].
  destruct H. by apply pieces_ok.
Qed.

(** ** The stations *)

(** An application that collects what it receives and gives every buffer back. *)
Definition collect (got : list bytes) (data : bytes) : list bytes := got ++ [data].

Definition collecting (call : upper_call) (got : list bytes) : upper_prog (list bytes) :=
  match call with
  | on_lower_rx_ready =>
      UStartRx got (fun got data => if is_nil data then UReturn got else UStartRx (collect got data) (fun got _ => UReturn got))
  | _ => UReturn got
  end.

Local Abbreviation station_world := (fun D => World LinkFrameWriter D (LinkPort queue) (list bytes)).

(** After the first message each way, when both have been taken. *)
Definition settled
  : option (Stack (station_world (Initiator SharedSecretInitiatorHandshake)) * Stack (station_world BufferBase)) :=
  '(i, r) ← stack_conversation istart made_responder;
  i ← stack_scripted istep [] (FromTransport on_lower_tx_ready) i;
  i ← stack_scripted istep [] AppStartRx i;
  r ← stack_scripted rstep [] (FromTransport on_lower_tx_ready) r;
  r ← stack_scripted rstep [] AppStartRx r;
  Some (i, r).

(** The stations after the run, with the algorithms of their sessions written out. *)
Definition negotiated : Algorithms_Session :=
  mkAlgorithms_Session verify_strict_increment (hmac_sha_256_trunc16 full_crypto).

Definition with_negotiated {D} (w : station_world D) : station_world D :=
  let ss := cl_sessions (w_layer w) in
  let s := active ss in
  let s := mkSession (s_valid s) (s_ttl_pad_ms s) (s_rx_nonce s) (s_tx_nonce s) (s_keys s) negotiated
             (s_parameters s) (s_encrypt_buffer s) in
  mkWorld (cl_set_sessions (w_layer w) (mkSessions s (pending_session ss))) (w_derived w) (w_lower w) (w_upper w)
    (w_upper_open w) (w_ticks w) (w_draws w) (w_sent w).

Definition settled_initiator : station_world (Initiator SharedSecretInitiatorHandshake) :=
  with_negotiated (sk_world (from_option fst istart settled)).
Definition settled_responder : station_world BufferBase :=
  with_negotiated (sk_world (from_option snd made_responder settled)).

(** What makes a station idle, as a test. *)
Definition is_u16b (n : Z) : bool := (0 <=? n) && (n <=? max_u16).

Definition quiet_check (a : Z) (p : LinkPort queue) : bool :=
  port_open p && (ll_local_addr (lp_link p) =? a) && negb (ll_upper_is_processing (lp_link p)) &&
  match mode_of (ll_parser (lp_link p)) with MSync1 => true | _ => false end &&
  is_nil (pending (lp_link p) (lp_lower p)).

Definition writer_check (addr : Addresses) (w : LinkFrameWriter) : bool :=
  let max := lfw_max_payload_size w in
  is_u16b (destination addr) && is_u16b (source addr) && is_u16b max && (destination (lfw_addr w) =? destination addr) &&
  (source (lfw_addr w) =? source addr) && (zlen (lfw_frame_buffer w) =? LinkFrameWriter_get_buffer_size max) &&
  (max_session_data_size <=? max) && (max <=? max_config_payload_size).

Definition session_check (s : Session) : bool :=
  s_valid s && (zlen (buf_data (rx_key (s_keys s))) =? max_primitive_buffer_length) &&
  (zlen (buf_data (tx_key (s_keys s))) =? max_primitive_buffer_length) && is_u16b (max_nonce (s_parameters s)) &&
  (0 <=? max_session_time (s_parameters s)) && (max_session_time (s_parameters s) <=? ms max_u32) &&
  is_u16b (s_rx_nonce s) && is_u16b (s_tx_nonce s) && (0 <=? s_ttl_pad_ms s) && (s_ttl_pad_ms s <=? max_u32) &&
  SessionKeys_valid (s_keys s) && negb (is_nil (s_encrypt_buffer s)).

Definition layer_check (x : CryptoLayer LinkFrameWriter) : bool :=
  cl_is_open x && negb (transmitting (cl_tx_state x)) && is_nil (tx_remainder (cl_tx_state x)) &&
  is_nil (cl_payload_data x) && negb (cl_upper_is_processing x) && (1024 <=? zlen (cl_payload_buffer x)) &&
  (zlen (cl_payload_buffer x) <=? max_u16).

Local Ltac split_tests H := repeat (apply andb_prop in H as [H ?]); btests.

Lemma quiet_checked a p : quiet_check a p = true -> quiet_port a p.
Proof.
  unfold quiet_check. intros H. split_tests H. split; [done|]. split; [lia|]. split; [done|].
  split; [by destruct (mode_of _)|by apply is_nil_true].
Qed.

Lemma writer_checked addr w :
  writer_check addr w = true ->
  LinkFrameWriter_inv w /\ max_session_data_size <= lfw_max_payload_size w <= max_config_payload_size /\
  addr_ok addr /\ lfw_addr w = addr.
Proof.
  unfold writer_check, is_u16b. intros H. split_tests H.
  assert (lfw_addr w = addr) as E by (destruct (lfw_addr w), addr; cbn in *; congruence).
  unfold LinkFrameWriter_inv, addr_ok, is_u16. rewrite E. repeat split; (done || lia).
Qed.

Lemma session_checked s :
  session_check s = true -> nonce_check (verify_nonce (s_algorithms s)) ->
  session_ok s /\ s_valid s = true /\ s_encrypt_buffer s <> [].
Proof.
  unfold session_check, is_u16b. intros H Hn. split_tests H.
  split; [|split; [done|by apply is_nil_false]].
  split; [split; unfold buffer_ok; lia|]. split; [repeat split; lia|]. repeat split; (done || lia).
Qed.

Lemma station_checked {D} addr (w : World LinkFrameWriter D (LinkPort queue) (list bytes)) :
  w_upper_open w && layer_check (w_layer w) && quiet_check (source addr) (w_lower w) &&
    writer_check addr (cl_frame_writer (w_layer w)) && session_check (session_of w) = true ->
  nonce_check (verify_nonce (s_algorithms (session_of w))) -> station addr idle w.
Proof.
  unfold layer_check. intros H Hn. apply andb_prop in H as [H Hs]. apply andb_prop in H as [H Hw].
  apply andb_prop in H as [H Hq]. apply andb_prop in H as [Hu H]. split_tests H.
  destruct (writer_checked _ _ Hw) as (Hinv&Hroom&Ha&Hfa). destruct (session_checked _ Hs Hn) as (Hok&Hv&He).
  split; try done; try lia; try (by apply is_nil_true).
  - destruct (cl_tx_state (w_layer w)) as [t r]; cbn in *. unfold idle. f_equal; [done|by apply is_nil_true].
  - by apply quiet_checked.
  - intros b. unfold LinkFrameWriter_frame. by rewrite Hfa.
Qed.

Lemma initiator_settled : station (mkAddresses 10 1) idle settled_initiator.
Proof. apply station_checked; [vm_compute; reflexivity|]. by left. Qed.

Lemma responder_settled : station (mkAddresses 1 10) idle settled_responder.
Proof. apply station_checked; [vm_compute; reflexivity|]. by left. Qed.

(** ** The exchange *)

Definition three_messages : bytes := replicate 2500 7.

Lemma settled_modes :
  session_mode (s_algorithms (session_of settled_initiator)) = hmac_sha_256_trunc16 full_crypto /\
  session_mode (s_algorithms (session_of settled_responder)) = hmac_sha_256_trunc16 full_crypto.
Proof. done. Qed.

Lemma settled_exchange :
  can_exchange ticking ticking (initiator_calm_at (ic_params InitiatorConfig_default)) (fun _ _ => True)
    (mkAddresses 10 1) (mkAddresses 1 10) 3 three_messages settled_initiator settled_responder.
Proof.
  split; [split; [apply initiator_settled|done]|]. split; [split; [apply responder_settled|done]|].
  destruct settled_modes as [Em Em']. split; [split; [by rewrite Em, Em'|split; vm_compute; reflexivity]|].
  split.
  { split; [vm_compute; congruence|]. split; [vm_compute; congruence|]. intros [|[|[|i]]] Hi; [..|lia].
    all: vm_compute; repeat split; congruence. }
  split; [done|]. split; [apply Forall_replicate; split; lia|]. split; [vm_compute; congruence|].
  split; [exists 1000; vm_compute; repeat split; congruence|]. exists 1000. vm_compute. repeat split; congruence.
Qed.

Lemma user_data_delivered_witness :
  exists wI' wR',
    send (FullInitiatorStack_step full_crypto collecting ticking (SharedSecretInitiator full_crypto) InitiatorConfig_default)
      (FullResponderStack_step full_crypto collecting ticking (SharedSecretResponder LinkFrameWriter_ops full_crypto))
      cutting 1 3 three_messages (mkStack true settled_initiator) (mkStack true settled_responder) =
      Some (mkStack true wI', mkStack true wR') /\
    arrived id collect (mkAddresses 10 1) (mkAddresses 1 10) 3 idle three_messages
      settled_initiator wI' settled_responder wR'.
Proof.
  apply (proj1 (user_data_delivered full_crypto full_crypto collecting ticking (SharedSecretInitiator full_crypto)
    InitiatorConfig_default collecting ticking (SharedSecretResponder LinkFrameWriter_ops full_crypto)
    (mkAddresses 10 1) (mkAddresses 1 10) cutting cutting id collect id collect cutting_ok cutting_ok eq_refl eq_refl
    (fun _ => eq_refl) (fun _ => eq_refl) (fun _ => eq_refl) (fun _ => eq_refl))).
  - rewrite (proj1 settled_modes). by apply (hmac_mode_ok full_crypto).
  - apply settled_exchange.
Defined.

(** The run itself: three parts. *)
Example three_messages_run :
  option_map (fun '(i, r) => (w_upper (sk_world i), map zlen (w_upper (sk_world r)), concat (drop 1 (w_upper (sk_world r)))))
    (send (FullInitiatorStack_step full_crypto collecting ticking (SharedSecretInitiator full_crypto) InitiatorConfig_default)
       (FullResponderStack_step full_crypto collecting ticking (SharedSecretResponder LinkFrameWriter_ops full_crypto))
       cutting 1 3 three_messages (mkStack true settled_initiator) (mkStack true settled_responder)) =
  Some ([[4; 5]], [3; 1024; 1024; 452], three_messages).
Proof. vm_compute. reflexivity. Qed.
