(* ===== verification/Establish.v ===== *)
(** * From two new stacks to an exchange of data

    An initiator and a responder stack, as their constructors leave them, are
    connected: the transports open, the request, the reply and the two
    authentications cross the network ([shake_hands]), and then both stacks are
    stations with the two ends of one session, to which the delivery of user data
    ([Delivery]) applies.  The frames cross one at a time; each is followed by the
    notification that it is out. *)

From stdpp Require Import base numbers list strings.
From Stdlib Require Import Lia ZArith.
From S2P Require Import Prelude Ser4cpp Enums Codec Messages CRC LinkParser FrameWriter LinkLayer.
From S2P Require Import Crypto SessionMode Session Chain Handshake CryptoLayer LayerLogic.
From S2P Require Import Responder Initiator LayerFrame Returns Terminates Scenario Stack Factory LayerDelivery LayerHandshake Delivery.

(** A transport for which [is_tx_ready] says that a transmission will be started, as
    [ILowerLayer] documents it. *)
Class Accepting (L : Type) `{LL : !LowerLayer L} : Prop :=
  tx_accepted (l : L) data : lower_is_tx_ready l = true -> (lower_start_tx l data).1 = true.

(** ** The link layer *)

Section Link.
Context `{SER : Ser4cpp} {L : Type} `{LL : !LowerLayer L} `{LAWS : !LowerLayerLaws L} `{ACC : !Accepting L}.

#[export] Instance link_accepting : Accepting (LinkPort L).
Proof.
  intros p data Hr. cbn. unfold port_start_tx, LinkLayer_start_tx_from_upper.
  pose proof (tx_accepted (lp_lower p) data Hr) as H. by destruct (lower_start_tx (lp_lower p) data).
Qed.

Lemma resting_chunks a (p : LinkPort L) : resting_port a p -> lower_chunks p = [].
Proof. intros (_&_&Hm&Hp). cbn. unfold port_chunks. by rewrite Hm, Hp. Qed.

Lemma resting_tx a (p : LinkPort L) data : resting_port a p -> resting_port a (lower_start_tx p data).2.
Proof.
  intros (Ho&Ha&Hm&Hp). cbn. unfold port_start_tx, LinkLayer_start_tx_from_upper.
  pose proof (tx_keeps_chunks (lp_lower p) data) as Hc. destruct (lower_start_tx (lp_lower p) data) as [ok l].
  cbn [snd] in *. do 3 (split; [done|]). unfold pending in *. cbn. by rewrite Hc.
Qed.

Lemma resting_transport_chunks a (p : LinkPort L) : resting_port a p -> lower_chunks (lp_lower p) = [].
Proof.
  intros (_&_&_&Hp). apply app_eq_nil in Hp as [_ Hp]. pose proof (lower_chunks_ok (lp_lower p)) as Hok.
  destruct (lower_chunks (lp_lower p)) as [|ch chs]; [done|]. apply Forall_cons in Hok as [[Hne _] _].
  by apply app_eq_nil in Hp as [? _].
Qed.

Lemma resting_told a (p : LinkPort L) l :
  resting_port a p -> lower_chunks l = [] ->
  exists p', port_notify (with_transport p l) on_lower_tx_ready = ([on_lower_tx_ready], p') /\
    resting_port a p' /\ lower_is_tx_ready p' = lower_is_tx_ready l.
Proof.
  intros (Ho&Ha&Hm&Hp) Hl. unfold port_open in Ho. eexists. cbn [port_notify with_transport lp_link].
  unfold LinkLayer_on_lower_tx_ready at 1. rewrite Ho. split; [reflexivity|].
  unfold resting_port, port_open, pending in *. cbn. unfold LinkLayer_on_lower_tx_ready. rewrite Ho. cbn.
  apply app_eq_nil in Hp as [-> _]. by rewrite Hl.
Qed.
End Link.

(** ** The layer during a handshake *)

(** An open layer with nothing to transmit and nothing received. *)
Record layer_idle (addr : Addresses) (x : CryptoLayer LinkFrameWriter) : Prop := {
  li_open : cl_is_open x = true;
  li_tx : cl_tx_state x = idle;
  li_payload : cl_payload_data x = [];
  li_processing : cl_upper_is_processing x = false;
  li_buffer : 1024 <= zlen (cl_payload_buffer x) <= max_u16;
  li_writer : LinkFrameWriter_inv (cl_frame_writer x);
  li_room : lfw_max_payload_size (cl_frame_writer x) = max_config_payload_size;
  li_addr : addr_ok addr;
  li_frame : forall b, LinkFrameWriter_frame (cl_frame_writer x) b = link_frame addr b;
}.

Section Progress.
Context `{SER : Ser4cpp} {D L U : Type} `{LL : !LowerLayer L} `{LAWS : !LowerLayerLaws L} `{ACC : !Accepting L}.
Local Abbreviation world := (World LinkFrameWriter D (LinkPort L) U).

Lemma idle_io addr x writer st ss :
  layer_idle addr x -> writer_kept LinkFrameWriter_ops LinkFrameWriter_inv LinkFrameWriter_frame (cl_frame_writer x) writer ->
  layer_idle addr (cl_set_io x writer st ss).
Proof.
  intros H (Hinv&Hf&Hm). destruct H. split; try done; cbn [cl_frame_writer cl_set_io].
  - cbn in Hm. by rewrite Hm.
  - intros b. by rewrite Hf.
Qed.

Lemma idle_payload addr x buffer :
  layer_idle addr x -> zlen buffer = zlen (cl_payload_buffer x) ->
  layer_idle addr (cl_set_payload x buffer (cl_payload_data x)).
Proof. intros H Hb. destruct H. split; try done. cbn. by rewrite Hb. Qed.

(** Where a station is in the handshake. *)
Record progress (addr : Addresses) (d : D) (u : U) (open : bool) (ticks draws : nat) (st : SessionStatistics)
    (ss : Sessions) (w : world) : Prop := {
  pr_layer : layer_idle addr (w_layer w);
  pr_derived : w_derived w = d;
  pr_upper : w_upper w = u;
  pr_open : w_upper_open w = open;
  pr_ticks : w_ticks w = ticks;
  pr_draws : w_draws w = draws;
  pr_stats : cl_statistics (w_layer w) = st;
  pr_sessions : cl_sessions (w_layer w) = ss;
  pr_port : resting_port (source addr) (w_lower w);
}.

Lemma progress_lower addr d u open ticks draws st ss (w : world) p :
  progress addr d u open ticks draws st ss w -> resting_port (source addr) p ->
  progress addr d u open ticks draws st ss (with_lower w p).
Proof. intros [] Hp. by split. Qed.

(** Nothing more to receive: the port is at rest, and quiet when it was asked. *)
Lemma asked_rests addr (w : world) :
  resting_port (source addr) (w_lower w) -> resting_port (source addr) (lower_asked w).
Proof. intros H. unfold lower_asked. destruct (_ && _); [by apply quiet_resting, rx_quiet|done]. Qed.

Lemma asked_quiet addr (w : world) :
  resting_port (source addr) (w_lower w) -> lower_is_tx_ready (w_lower w) = true -> cl_payload_data (w_layer w) = [] ->
  quiet_port (source addr) (lower_asked w) /\ lower_is_tx_ready (lower_asked w) = true.
Proof.
  intros H Hr Hp. unfold lower_asked. rewrite Hr, Hp. cbn [is_nil andb]. split; [by apply rx_quiet|].
  by rewrite rx_keeps_ready.
Qed.
End Progress.

(** ** One frame *)

Section Crossing.
Context `{SER : Ser4cpp} (c1 c2 : CryptoState) {D1 L1 U1 E1 T1 D2 L2 U2 E2 T2 : Type}.
Context `{LL1 : !LowerLayer L1} `{LAWS1 : !LowerLayerLaws L1} `{LL2 : !LowerLayer L2} `{LAWS2 : !LowerLayerLaws L2}.
Local Abbreviation world1 := (World LinkFrameWriter D1 (LinkPort L1) U1).
Local Abbreviation world2 := (World LinkFrameWriter D2 (LinkPort L2) U2).
Context (upper1 : upper_call -> U1 -> upper_prog U1) (clock1 : nat -> Z).
Context (upper2 : upper_call -> U2 -> upper_prog U2) (clock2 : nat -> Z).
Context (v1 : (upper_call -> act world1 unit) ->
              virtuals (W := LinkFrameWriter) (D := D1) (L := LinkPort L1) (U := U1)) (calm1 : D1 -> Z -> Prop).
Context (v2 : (upper_call -> act world2 unit) ->
              virtuals (W := LinkFrameWriter) (D := D2) (L := LinkPort L2) (U := U2)).
Context `{HC1 : !CalmVirtuals v1 calm1}.
Context (step1 : nat -> E1 -> act world1 unit) (ev1 : layer_event -> E1) (timer1 : T1 -> E1).
Context (step2 : nat -> E2 -> act world2 unit) (ev2 : layer_event -> E2) (timer2 : T2 -> E2).
Context (net : network L1 L2).
Context (Hstep1 : forall fuel e, step1 fuel (ev1 e) = layer_step LinkFrameWriter_ops c1 upper1 clock1 v1 fuel e).
Context (Hstep2 : forall fuel e, step2 fuel (ev2 e) = layer_step LinkFrameWriter_ops c2 upper2 clock2 v2 fuel e).
Context `{HN : !NetworkOk net}.
Context (addr1 addr2 : Addresses) (Haddr : source addr2 = destination addr1).
Local Abbreviation stack1 := (full_stack_step step1 ev1 timer1).
Local Abbreviation stack2 := (full_stack_step step2 ev2 timer2).

(** A transmission of the handshake is out. *)
Lemma handshake_told fuel (w : world1) n :
  layer_idle addr1 (w_layer w) -> resting_port (source addr1) (w_lower w) -> calm1 (w_derived w) n ->
  exists p, quiet_port (source addr1) p /\ lower_is_tx_ready p = true /\
    runs (stack1 fuel (FromTransport on_lower_tx_ready)) (on_transport (net_finish net) (mkStack true w)) =
      Some (mkStack true (with_lower w p)).
Proof.
  intros Hx Hrest Hcalm.
  assert (lower_chunks (net_finish net (lp_lower (w_lower w))) = []) as Hc.
  { rewrite net_finish_chunks. by apply (resting_transport_chunks (source addr1)). }
  destruct (resting_told _ _ _ Hrest Hc) as (p&Hn&Hp&Hr). rewrite net_finish_ready in Hr.
  destruct (asked_quiet addr1 (with_lower w p) Hp Hr (li_payload _ _ Hx)) as [Hq Hrq].
  exists (lower_asked (with_lower w p)). split; [exact Hq|]. split; [exact Hrq|].
  pose proof (tx_ready_nothing LinkFrameWriter_ops c1 clock1 v1 calm1
    (notify LinkFrameWriter_ops c1 upper1 clock1 v1 fuel) (with_lower w p) n (li_open _ _ Hx) (li_tx _ _ Hx)
    (resting_chunks _ _ Hp) Hcalm) as Htx.
  pose proof (transport_event c1 upper1 clock1 v1 step1 ev1 timer1 Hstep1 fuel on_lower_tx_ready
    (sk_world (on_transport (net_finish net) (mkStack true w))) _ p (or_introl eq_refl) Hn
    (ends_bind _ _ _ _ _ _ _ Htx eq_refl)) as Hev.
  unfold runs, ends in *. unfold on_transport in *. cbn [sk_is_open sk_world] in *. by rewrite Hev.
Qed.

(** A message arrives at a station that is quiet. *)
Lemma handshake_received fuel (w : world2) payload :
  let notify2 := notify LinkFrameWriter_ops c2 upper2 clock2 v2 fuel in
  layer_idle addr2 (w_layer w) -> quiet_port (source addr2) (w_lower w) -> lower_is_tx_ready (w_lower w) = true ->
  addr_ok addr1 -> all_bytes payload -> payload <> [] -> zlen payload <= max_config_payload_size ->
  exists p, resting_port (source addr2) p /\ lower_is_tx_ready p = true /\
    forall w', ends (process clock2 notify2 (v2 notify2) payload) (with_lower w p) tt w' ->
      lower_chunks (w_lower w') = [] ->
      runs (stack2 fuel (FromTransport on_lower_rx_ready))
        (on_transport (net_bring net (link_frame addr1 payload)) (mkStack true w)) =
        Some (mkStack true (with_lower w' (lower_asked w'))).
Proof.
  intros notify2 Hx Hq Hr Ha Hb Hne Hlen.
  set (l := net_bring net (link_frame addr1 payload) (lp_lower (w_lower w))).
  destruct (frame_arrives (source addr2) (w_lower w) l addr1 payload Hq) as (p&Hn&Hc&Hrp&Hrest); try done.
  { apply net_brings, link_frame_bytes; [|done]. by apply (quiet_transport_chunks (source addr2)). }
  assert (lower_is_tx_ready p = true) as Hready by (rewrite Hrp; unfold l; rewrite net_bring_ready; exact Hr).
  exists (lower_start_rx p).2. split; [done|]. split; [by rewrite rx_keeps_ready|]. intros w' Hp Hcw.
  pose proof (message_processed clock2 v2 notify2 (with_lower w p) w' payload (li_open _ _ Hx) (li_payload _ _ Hx)
    Hc Hready Hne Hp Hcw) as Hmsg.
  pose proof (transport_event c2 upper2 clock2 v2 step2 ev2 timer2 Hstep2 fuel on_lower_rx_ready
    (sk_world (on_transport (net_bring net (link_frame addr1 payload)) (mkStack true w))) _ p (or_intror eq_refl) Hn
    (ends_bind _ _ _ _ _ _ _ Hmsg eq_refl)) as Hev.
  unfold runs, ends in *. unfold on_transport in *. cbn [sk_is_open sk_world] in *. by rewrite Hev.
Qed.

(** A frame of the handshake crosses: the receiver processes its payload, and the
    sender is told. *)
Lemma frame_crosses fuel (w1 : world1) (w2 : world2) payload sent n :
  let notify2 := notify LinkFrameWriter_ops c2 upper2 clock2 v2 fuel in
  layer_idle addr1 (w_layer w1) -> resting_port (source addr1) (w_lower w1) -> calm1 (w_derived w1) n ->
  w_sent w1 = (true, link_frame addr1 payload) :: sent ->
  layer_idle addr2 (w_layer w2) -> quiet_port (source addr2) (w_lower w2) -> lower_is_tx_ready (w_lower w2) = true ->
  all_bytes payload -> payload <> [] -> zlen payload <= max_config_payload_size ->
  exists p1 p2, quiet_port (source addr1) p1 /\ lower_is_tx_ready p1 = true /\
    resting_port (source addr2) p2 /\ lower_is_tx_ready p2 = true /\
    forall w2', ends (process clock2 notify2 (v2 notify2) payload) (with_lower w2 p2) tt w2' ->
      resting_port (source addr2) (w_lower w2') ->
      carry stack1 stack2 net fuel 1 (mkStack true w1) (mkStack true w2) =
        Some (mkStack true (with_lower w1 p1), mkStack true (with_lower w2' (lower_asked w2'))).
Proof.
  intros notify2 Hx1 Hp1 Hcalm Hsent Hx2 Hq2 Hr2 Hb Hne Hlen.
  destruct (handshake_told fuel w1 n Hx1 Hp1 Hcalm) as (p1&Hq1&Hr1&Htold).
  destruct (handshake_received fuel w2 payload Hx2 Hq2 Hr2 (li_addr _ _ Hx1) Hb Hne Hlen) as (p2&Hp2&Hrp2&Hrx).
  exists p1, p2. split; [done|]. split; [done|]. split; [done|]. split; [done|]. intros w2' Hproc Hrest.
  cbn [carry sk_world]. rewrite Hsent. rewrite (Hrx w2' Hproc (resting_chunks _ _ Hrest)). cbn [mbind option_bind].
  rewrite Htold. cbn [mbind option_bind sk_world with_lower w_sent]. by rewrite Hsent, Nat.eqb_refl.
Qed.
End Crossing.

(** ** Opening *)

Section Opening.
Context `{SER : Ser4cpp} (c : CryptoState) `{HEAP : Heap} {D L U E T : Type} `{LL : !LowerLayer L} `{LAWS : !LowerLayerLaws L}.
Context (upper : upper_call -> U -> upper_prog U) (clock : nat -> Z).
Local Abbreviation world := (World LinkFrameWriter D (LinkPort L) U).
Context (v : (upper_call -> act world unit) ->
             virtuals (W := LinkFrameWriter) (D := D) (L := LinkPort L) (U := U)).
Context (step : nat -> E -> act world unit) (ev : layer_event -> E) (timer : T -> E).
Context (Hstep : forall fuel e, step fuel (ev e) = layer_step LinkFrameWriter_ops c upper clock v fuel e).

(** The link layer of a new stack, when its transport has opened. *)
Definition opened_port (addr : Addresses) (lower : L) : LinkPort L :=
  (port_notify (mkLinkPort (new_link addr) lower (new_link_ok addr)) on_lower_open).2.

Lemma opened_quiet addr (lower : L) :
  lower_chunks lower = [] ->
  quiet_port (source addr) (opened_port addr lower) /\
  lower_is_tx_ready (opened_port addr lower) = lower_is_tx_ready lower.
Proof. intros Hl. split; [|done]. do 4 (split; [done|]). unfold pending. cbn. by rewrite Hl. Qed.

(** The transport of a new stack opens. *)
Lemma stack_opens fuel addr x (d : D) (lower : L) (u : U) w' :
  ends (on_lower_open_event (v (notify LinkFrameWriter_ops c upper clock v fuel)))
    (mkWorld x d (opened_port addr lower) u false 0 0 []) true w' ->
  runs (full_stack_step step ev timer fuel (FromTransport on_lower_open))
    (new_stack x d (mkLinkPort (new_link addr) lower (new_link_ok addr)) u) = Some (mkStack true w').
Proof.
  intros Hw. set (w := mkWorld x d (mkLinkPort (new_link addr) lower (new_link_ok addr)) u false 0 0 []).
  assert (ends (full_forward step ev fuel on_lower_open) w tt w') as Hf.
  { unfold full_forward. eapply ends_bind; [done|]. cbn [notify_layer port_notify LinkLayer_on_lower_open fst snd].
    eapply ends_bind; [rewrite Hstep; cbn [event_of layer_step]; eapply ends_bind; [exact Hw|]; done|]. done. }
  unfold runs, full_stack_step, new_stack. fold w. unfold abind at 1. rewrite stack_notify_eq.
  cbn [sk_is_open acts_on negb open_after sk_world]. unfold abind, in_world. cbn [sk_world sk_is_open]. by rewrite Hf.
Qed.

(** The cryptographic layer of a new stack, open. *)
Lemma new_layer_idle addr config session :
  addr_ok addr -> 1024 <= max_payload_size config <= max_u16 ->
  layer_idle addr (cl_set_open (layer_in_stack c LinkFrameWriter_ops config session (full_frame_writer addr)) true).
Proof.
  intros Ha Hm. split; try done.
  - cbn. rewrite alloc_length by lia. done.
  - split; [done|]. split; [done|]. by apply alloc_length.
Qed.

Lemma new_session_ok ttl i n : is_u32 ttl -> session_ok (Session_new c ttl (alloc i n)).
Proof. intros H. by apply session_new_ok. Qed.
End Opening.

(** ** The handshake *)

(** What an initiator handshake asks of the frame writer: its mode data leaves room
    for the rest of the request. *)
Definition requests_fit {HI} (ih : initiator_handshake HI) (h : HI) : Prop :=
  forall draw ephemeral data h1,
    ih_initialize_new_handshake ih draw h = Done (Some (ephemeral, data), h1) ->
    ih_get_handshake_mode ih h1 = ih_get_handshake_mode ih h /\ 64 + zlen data <= max_config_payload_size.

Section Shake.
Context `{SER : Ser4cpp} (c : CryptoState) `{HB : !BackendOk c} `{HH : !HandshakeBackendOk c} `{HEAP : Heap}.
Context {HI HR LI LR UI UR : Type}.
Context `{LLI : !LowerLayer LI} `{LAWSI : !LowerLayerLaws LI} `{ACCI : !Accepting LI}.
Context `{LLR : !LowerLayer LR} `{LAWSR : !LowerLayerLaws LR} `{ACCR : !Accepting LR}.
Context (upperI : upper_call -> UI -> upper_prog UI) (clockI : nat -> Z).
Context (ih : initiator_handshake HI) (iconfig : InitiatorConfig).
Context (upperR : upper_call -> UR -> upper_prog UR) (clockR : nat -> Z).
Context (rh : responder_handshake HR LinkFrameWriter) (rconfig : ResponderConfig).
Context (netIR : network LI LR) (netRI : network LR LI) `{HNIR : !NetworkOk netIR} `{HNRI : !NetworkOk netRI}.
Context (addrI addrR : Addresses) (HaddrIR : source addrR = destination addrI) (HaddrRI : source addrI = destination addrR).
Context (openedI : UI -> UI) (HappI : forall u, upperI on_lower_open u = UReturn (openedI u)).
Context (openedR : UR -> UR) (HappR : forall u, upperR on_lower_open u = UReturn (openedR u)).
Context (lowerI : LI) (lowerR : LR) (appI : UI) (appR : UR).
Local Abbreviation istack := (FullInitiatorStack_step (L := LI) c upperI clockI ih iconfig).
Local Abbreviation rstack := (FullResponderStack_step (L := LR) c upperR clockR rh).
Local Abbreviation worldI := (World LinkFrameWriter (Initiator HI) (LinkPort LI) UI).
Local Abbreviation worldR := (World LinkFrameWriter HR (LinkPort LR) UR).
Local Abbreviation vI :=
  (Initiator_virtuals (L := LinkPort LI) (U := UI) LinkFrameWriter_ops c clockI ih (ic_params iconfig) (ic_session_limits iconfig)).
Local Abbreviation vR := (Responder_virtuals (L := LinkPort LR) (U := UR) LinkFrameWriter_ops c clockR rh).

(** The transports open, and the four messages cross. *)
Definition shake_hands (fuel : nat) (i : Stack worldI) (r : Stack worldR) : option (Stack worldI * Stack worldR) :=
  i ← runs (istack fuel (FromTransport on_lower_open)) i;
  r ← runs (rstack fuel (FromTransport on_lower_open)) r;
  '(i, r) ← carry istack rstack netIR fuel 1 i r;
  '(r, i) ← carry rstack istack netRI fuel 1 r i;
  '(i, r) ← carry istack rstack netIR fuel 1 i r;
  '(r, i) ← carry rstack istack netRI fuel 1 r i;
  Some (i, r).

Definition initiator_sessions : Sessions :=
  cl_sessions (layer_in_stack c LinkFrameWriter_ops (ic_config iconfig) (ic_session iconfig) (full_frame_writer addrI)).
Definition responder_sessions : Sessions :=
  cl_sessions (layer_in_stack c LinkFrameWriter_ops (rc_config rconfig) (rc_session rconfig) (full_frame_writer addrR)).

(** The initiator sends its request. *)
Lemma request_sent fuel h ephemeral data h1 h2 :
  let request := make_request (ih_get_crypto_suite ih h) (ic_session_limits iconfig) (ih_get_handshake_mode ih h) ephemeral data in
  addr_ok addrI -> 1024 <= max_payload_size (ic_config iconfig) <= max_u16 ->
  lower_chunks lowerI = [] -> lower_is_tx_ready lowerI = true ->
  requests_fit ih h -> ih_initialize_new_handshake ih 0 h = Done (Some (ephemeral, data), h1) ->
  RequestHandshakeBegin_ok request -> zlen (RequestHandshakeBegin_enc request) <= 64 + zlen data ->
  ih_finalize_request_tx ih h1 (RequestHandshakeBegin_enc request) (clockI 0) = Done h2 ->
  exists wi timer,
    runs (istack fuel (FromTransport on_lower_open)) (FullInitiatorStack_new c addrI iconfig h lowerI appI) =
      Some (mkStack true wi) /\
    progress addrI (mkInitiator WaitForBeginReply h2 timer None false) appI false 2 1 no_statistics initiator_sessions wi /\
    w_sent wi = [(true, link_frame addrI (RequestHandshakeBegin_enc request))].
Proof.
  intros request Ha Hm Hl Hr Hfits Hi Hok Hsize Hfin.
  destruct (Hfits _ _ _ _ Hi) as [Hmode Hfit]. destruct (opened_quiet addrI lowerI Hl) as [Hq Hrq].
  pose proof (new_layer_idle c addrI (ic_config iconfig) (ic_session iconfig) Ha Hm) as Hx.
  set (x := layer_in_stack c LinkFrameWriter_ops (ic_config iconfig) (ic_session iconfig) (full_frame_writer addrI)) in *.
  destruct (fw_fits (fw := LinkFrameWriter_ops) (full_frame_writer addrI) (message_writable RequestHandshakeBegin_message request)
    (RequestHandshakeBegin_enc request)) as (wr&Hwr&Hkept).
  - apply (li_writer _ _ Hx).
  - apply message_is_writable with (ok := RequestHandshakeBegin_ok); [apply _|done|].
    unfold max_u32, max_config_payload_size in *. lia.
  - by apply (msg_bytes (m := RequestHandshakeBegin_message)).
  - change (fw_max_payload_size LinkFrameWriter_ops (full_frame_writer addrI)) with max_config_payload_size. lia.
  - change (LinkFrameWriter_frame (full_frame_writer addrI)) with (link_frame addrI) in Hwr.
    set (fr := link_frame addrI (RequestHandshakeBegin_enc request)) in *. rewrite Hr in Hrq.
    eexists _, _. split; [|split].
    + apply (stack_opens c upperI clockI vI); [done|].
      eapply (initiator_opens LinkFrameWriter_ops c clockI ih _ _ _ (mkWorld _ _ _ _ _ _ _ _)); try done.
      * by apply tx_accepted.
      * cbn [w_layer]. rewrite Hmode. exact Hwr.
      * rewrite Hmode. exact Hfin.
    + split; try done; cbn [w_layer w_lower].
      * by apply idle_io.
      * by apply resting_tx, quiet_resting.
    + done.
Qed.

Lemma responder_waits fuel hr :
  addr_ok addrR -> 1024 <= max_payload_size (rc_config rconfig) <= max_u16 ->
  lower_chunks lowerR = [] -> lower_is_tx_ready lowerR = true ->
  exists wr,
    runs (rstack fuel (FromTransport on_lower_open)) (FullResponderStack_new c addrR rconfig hr lowerR appR) =
      Some (mkStack true wr) /\
    progress addrR hr appR false 0 0 no_statistics responder_sessions wr /\
    quiet_port (source addrR) (w_lower wr) /\ lower_is_tx_ready (w_lower wr) = true /\
    cl_frame_writer (w_layer wr) = full_frame_writer addrR.
Proof.
  intros Ha Hm Hl Hr. destruct (opened_quiet addrR lowerR Hl) as [Hq Hrq]. rewrite Hr in Hrq.
  eexists. split; [by apply (stack_opens c upperR clockR vR)|].
  split; [|split; [exact Hq|split; [exact Hrq|done]]].
  split; try done; cbn [w_layer w_lower]; [by apply new_layer_idle|by apply quiet_resting].
Qed.

(** The entry points of the cryptographic layers. *)
Lemma initiator_entry fuel e :
  initiator_step LinkFrameWriter_ops c upperI clockI ih (ic_params iconfig) (ic_session_limits iconfig) fuel (EvLayer e) =
    layer_step (L := LinkPort LI) LinkFrameWriter_ops c upperI clockI vI fuel e.
Proof. reflexivity. Qed.

Lemma responder_entry fuel e :
  responder_step LinkFrameWriter_ops c upperR clockR rh fuel (id e) =
    layer_step (L := LinkPort LR) LinkFrameWriter_ops c upperR clockR vR fuel e.
Proof. reflexivity. Qed.

Lemma crosses_IR fuel wi wr payload sent dI uI oI tI drI stI ssI dR uR oR tR drR stR ssR :
  let n := notify LinkFrameWriter_ops c upperR clockR vR fuel in
  progress addrI dI uI oI tI drI stI ssI wi -> in_handshake_required dI = false ->
  w_sent wi = (true, link_frame addrI payload) :: sent ->
  progress addrR dR uR oR tR drR stR ssR wr -> quiet_port (source addrR) (w_lower wr) ->
  lower_is_tx_ready (w_lower wr) = true ->
  all_bytes payload -> payload <> [] -> zlen payload <= max_config_payload_size ->
  exists p1 p2, quiet_port (source addrI) p1 /\ lower_is_tx_ready p1 = true /\
    resting_port (source addrR) p2 /\ lower_is_tx_ready p2 = true /\
    forall wr', ends (process clockR n (vR n) payload) (with_lower wr p2) tt wr' ->
      resting_port (source addrR) (w_lower wr') ->
      carry istack rstack netIR fuel 1 (mkStack true wi) (mkStack true wr) =
        Some (mkStack true (with_lower wi p1), mkStack true (with_lower wr' (lower_asked wr'))).
Proof.
  intros n Hi Hreq Hsent Hr Hq Hready Hb Hne Hlen.
  apply (frame_crosses c c upperI clockI upperR clockR vI (initiator_calm_at (ic_params iconfig)) vR
    (initiator_step LinkFrameWriter_ops c upperI clockI ih (ic_params iconfig) (ic_session_limits iconfig)) EvLayer timer_event
    (responder_step LinkFrameWriter_ops c upperR clockR rh) id no_timer netIR initiator_entry responder_entry addrI addrR HaddrIR fuel wi wr payload sent
    (nonce_renegotiation_trigger_value (ic_params iconfig) - 1)); try done; try apply Hi; try apply Hr.
  rewrite (pr_derived _ _ _ _ _ _ _ _ _ Hi). split; [done|lia].
Qed.

Lemma crosses_RI fuel wr wi payload sent dI uI oI tI drI stI ssI dR uR oR tR drR stR ssR :
  let n := notify LinkFrameWriter_ops c upperI clockI vI fuel in
  progress addrR dR uR oR tR drR stR ssR wr ->
  w_sent wr = (true, link_frame addrR payload) :: sent ->
  progress addrI dI uI oI tI drI stI ssI wi -> quiet_port (source addrI) (w_lower wi) ->
  lower_is_tx_ready (w_lower wi) = true ->
  all_bytes payload -> payload <> [] -> zlen payload <= max_config_payload_size ->
  exists p1 p2, quiet_port (source addrR) p1 /\ lower_is_tx_ready p1 = true /\
    resting_port (source addrI) p2 /\ lower_is_tx_ready p2 = true /\
    forall wi', ends (process clockI n (vI n) payload) (with_lower wi p2) tt wi' ->
      resting_port (source addrI) (w_lower wi') ->
      carry rstack istack netRI fuel 1 (mkStack true wr) (mkStack true wi) =
        Some (mkStack true (with_lower wr p1), mkStack true (with_lower wi' (lower_asked wi'))).
Proof.
  intros n Hr Hsent Hi Hq Hready Hb Hne Hlen.
  by apply (frame_crosses c c upperR clockR upperI clockI vR (fun _ _ => True) vI
    (responder_step LinkFrameWriter_ops c upperR clockR rh) id no_timer
    (initiator_step LinkFrameWriter_ops c upperI clockI ih (ic_params iconfig) (ic_session_limits iconfig)) EvLayer timer_event netRI responder_entry initiator_entry addrR addrI HaddrRI fuel wr wi payload sent 0);
    try done; try apply Hi; try apply Hr.
Qed.

(** The request crosses: the responder answers. *)
Lemma request_answered fuel wi wr dI stI ssI hr request reply_bytes hr' writer s' st' :
  progress addrI dI appI false 2 1 stI ssI wi -> in_handshake_required dI = false ->
  w_sent wi = [(true, link_frame addrI (RequestHandshakeBegin_enc request))] ->
  progress addrR hr appR false 0 0 no_statistics responder_sessions wr -> quiet_port (source addrR) (w_lower wr) ->
  lower_is_tx_ready (w_lower wr) = true ->
  RequestHandshakeBegin_ok request -> v_major_version (req_version request) = protocol_major_version ->
  zlen (RequestHandshakeBegin_enc request) <= max_config_payload_size ->
  rh_process rh hr 0 request (RequestHandshakeBegin_enc request) (clockR 0) (cl_frame_writer (w_layer wr))
    (pending_session responder_sessions) no_statistics =
    Done (inr (LinkFrameWriter_frame (cl_frame_writer (w_layer wr)) reply_bytes), hr', writer, s', st') ->
  writer_kept LinkFrameWriter_ops LinkFrameWriter_inv LinkFrameWriter_frame (cl_frame_writer (w_layer wr)) writer ->
  exists wi' wr',
    carry istack rstack netIR fuel 1 (mkStack true wi) (mkStack true wr) = Some (mkStack true wi', mkStack true wr') /\
    progress addrI dI appI false 2 1 stI ssI wi' /\ quiet_port (source addrI) (w_lower wi') /\
    lower_is_tx_ready (w_lower wi') = true /\
    progress addrR hr' appR false 1 1 st' (mkSessions (active responder_sessions) s') wr' /\
    w_sent wr' = (true, link_frame addrR reply_bytes) :: w_sent wr.
Proof.
  intros Hi Hreq Hsent Hr Hq Hready Hok Hver Hlen Hp Hkept.
  destruct (crosses_IR fuel wi wr (RequestHandshakeBegin_enc request) [] _ _ _ _ _ _ _ _ _ _ _ _ _ _ Hi Hreq Hsent Hr Hq Hready)
    as (p1&p2&Hq1&Hr1&Hp2&Hr2&Hcarry); [by apply (msg_bytes (m := RequestHandshakeBegin_message))|done|done|].
  rewrite (li_frame _ _ (pr_layer _ _ _ _ _ _ _ _ _ Hr)) in Hp.
  set (fr := link_frame addrR reply_bytes) in *.
  destruct Hr as [Hx Ed Eu Eo Et Edr Est Ess Hport]. subst hr.
  exists (with_lower wi p1). eexists. split; [apply Hcarry|].
  - apply (responder_replies LinkFrameWriter_ops c clockR rh _ (with_lower wr p2) request fr hr' writer s' st'); try done.
    + by apply tx_accepted.
    + cbn [w_layer w_derived w_draws w_ticks with_lower]. by rewrite Edr, Et, Est, Ess.
  - by apply resting_tx.
  - split; [by apply progress_lower, quiet_resting|]. split; [done|]. split; [done|]. split; [|done].
    split; try done; cbn [w_layer w_upper w_upper_open w_ticks w_draws with_lower]; try congruence.
    + by apply idle_io.
    + cbn. by rewrite Ess.
    + by apply asked_rests, resting_tx.
Qed.

(** A session can be reset. *)
Lemma reset_done s : exists s', Session_reset c s = Done s'.
Proof. unfold Session_reset. rewrite (keys_zero_done c). by eexists. Qed.

(** The reply crosses: the initiator authenticates the session. *)
Lemma reply_accepted fuel wr wi dR tR stR ssR sentR h2 h3 timer reply s1 st1
    `{HM : !SessionModeOk (session_mode (s_algorithms s1))} :
  progress addrR dR appR false tR 1 stR ssR wr ->
  w_sent wr = (true, link_frame addrR (ReplyHandshakeBegin_enc reply)) :: sentR ->
  progress addrI (mkInitiator WaitForBeginReply h2 timer None false) appI false 2 1 no_statistics initiator_sessions wi ->
  quiet_port (source addrI) (w_lower wi) -> lower_is_tx_ready (w_lower wi) = true ->
  ReplyHandshakeBegin_ok reply -> zlen (ReplyHandshakeBegin_enc reply) <= max_config_payload_size ->
  ih_initialize_session ih h2 reply (ReplyHandshakeBegin_enc reply) (ic_session_limits iconfig) (clockI 2)
    (pending_session initiator_sessions) no_statistics = Done (true, h3, s1, st1) ->
  session_ok s1 -> s_valid s1 = true -> s_tx_nonce s1 = 0 -> s_encrypt_buffer s1 <> [] -> tx_time_ok s1 (clockI 3) ->
  exists wr' wi' eb timer',
    carry rstack istack netRI fuel 1 (mkStack true wr) (mkStack true wi) = Some (mkStack true wr', mkStack true wi') /\
    (progress addrR dR appR false tR 1 stR ssR wr' /\ quiet_port (source addrR) (w_lower wr') /\
     lower_is_tx_ready (w_lower wr') = true) /\
    progress addrI (mkInitiator WaitForAuthReply h3 timer' None false) appI false 5 1 st1
      (mkSessions (active initiator_sessions) (s_set_tx_nonce (s_set_encrypt_buffer s1 eb) 1)) wi' /\
    zlen eb = zlen (s_encrypt_buffer s1) /\
    w_sent wi' = (true, link_frame addrI (SessionData_enc (tx_message s1 (clockI 3) []))) :: w_sent wi.
Proof.
  intros Hr Hsent Hi Hq Hready Hok Hlen Hinit Hs Hv Hn He Ht.
  destruct (crosses_RI fuel wr wi (ReplyHandshakeBegin_enc reply) sentR _ _ _ _ _ _ _ _ _ _ _ _ _ _ Hr Hsent Hi Hq Hready)
    as (p1&p2&Hq1&Hr1&Hp2&Hr2&Hcarry); [by apply (msg_bytes (m := ReplyHandshakeBegin_message))|done|done|].
  destruct Hi as [Hx Ed Eu Eo Et Edr Est Ess Hport].
  destruct (auth_formatted LinkFrameWriter_ops LinkFrameWriter_inv LinkFrameWriter_frame s1
    (cl_frame_writer (w_layer wi)) (clockI 3)) as (eb&writer&Hf&Heb&Hkept); try done.
  { apply Hx. }
  { cbn [fw_max_payload_size LinkFrameWriter_ops]. by rewrite (li_room _ _ Hx). }
  rewrite (li_frame _ _ Hx) in Hf. set (fr := link_frame addrI (SessionData_enc (tx_message s1 (clockI 3) []))) in *.
  exists (with_lower wr p1). eexists _, eb, _. split; [apply Hcarry|].
  - eapply (initiator_accepts LinkFrameWriter_ops c clockI ih _ _ _ (with_lower wi p2) reply h2 h3 timer s1 st1); try done.
    + cbn [w_layer w_ticks with_lower]. by rewrite Et, Est, Ess.
    + apply Hx.
    + by apply (tx_accepted (L := LinkPort LI) p2 fr).
    + cbn [w_layer w_ticks with_lower]. by rewrite Et.
  - by apply resting_tx.
  - split; [split; [by apply progress_lower, quiet_resting|done]|]. split; [|done].
    split; try done; cbn [w_layer w_upper w_upper_open w_ticks w_draws with_lower]; try congruence.
    + by apply idle_io.
    + cbn. by rewrite Ess.
    + by apply asked_rests, resting_tx.
Qed.

(** What the receiver of an authentication needs of the two ends of the session. *)
Definition authenticated_by (s r : Session) (sent received : Z) : Prop :=
  session_ok s /\ tx_time_ok s sent /\ s_tx_nonce s = 0 /\
  session_ok r /\ s_valid r = true /\ s_rx_nonce r = 0 /\
  session_mode (s_algorithms r) = session_mode (s_algorithms s) /\
  as_seq (rx_key (s_keys r)) = as_seq (tx_key (s_keys s)) /\
  session_start (s_parameters r) <= received /\
  received - session_start (s_parameters r) <= max_session_time (s_parameters r) /\
  received - session_start (s_parameters r) <= ms (s_ttl_pad_ms s).

Lemma auth_message s r `{HM : !SessionModeOk (session_mode (s_algorithms s))} sent received :
  authenticated_by s r sent received ->
  let msg := tx_message s sent [] in
  SessionData_ok msg /\ am_nonce (sd_metadata msg) = 0 /\ all_bytes (SessionData_enc msg) /\
  zlen (SessionData_enc msg) <= max_config_payload_size /\
  forall st dest, zlen dest <= max_u16 ->
    exists dest', Session_validate_session_auth r st msg received dest =
      Done (inr [], s_set_rx_nonce r 0, inc_success st, dest') /\ zlen dest' = zlen dest.
Proof.
  intros (Hs&Ht&Hn&Hr&Hv&Hr0&Hm&Hk&H1&H2&H3) msg.
  destruct (tx_message_ok s sent [] Hs Ht (Forall_nil_2 _)) as [Hok _].
  pose proof (tx_message_fits s sent [] Hs Ht (Forall_nil_2 _)) as Hfit.
  split; [done|]. split; [done|]. split; [by apply (msg_bytes (m := SessionData_message))|].
  split; [etransitivity; [exact Hfit|by vm_compute]|].
  intros st dest Hd. by apply (auth_validated s r st sent received dest).
Qed.

(** The authentication crosses: the responder activates its session and answers. *)
Lemma auth_answered fuel wi wr dI stI ssI sentI hr stR a s r `{HM : !SessionModeOk (session_mode (s_algorithms s))}
    `{HMr : !SessionModeOk (session_mode (s_algorithms (s_set_rx_nonce r 0)))} :
  progress addrI dI appI false 5 1 stI ssI wi -> in_handshake_required dI = false ->
  w_sent wi = (true, link_frame addrI (SessionData_enc (tx_message s (clockI 3) []))) :: sentI ->
  progress addrR hr appR false 1 1 stR (mkSessions a r) wr -> quiet_port (source addrR) (w_lower wr) ->
  lower_is_tx_ready (w_lower wr) = true ->
  authenticated_by s r (clockI 3) (clockR 1) ->
  s_tx_nonce r = 0 -> s_encrypt_buffer r <> [] -> tx_time_ok r (clockR 2) ->
  exists wi' wr' eb old st,
    carry istack rstack netIR (S fuel) 1 (mkStack true wi) (mkStack true wr) = Some (mkStack true wi', mkStack true wr') /\
    (progress addrI dI appI false 5 1 stI ssI wi' /\ quiet_port (source addrI) (w_lower wi') /\
     lower_is_tx_ready (w_lower wi') = true) /\
    progress addrR hr (openedR appR) true 3 1 st
      (mkSessions (s_set_tx_nonce (s_set_encrypt_buffer (s_set_rx_nonce r 0) eb) 1) old) wr' /\
    zlen eb = zlen (s_encrypt_buffer r) /\
    w_sent wr' = (true, link_frame addrR (SessionData_enc (tx_message (s_set_rx_nonce r 0) (clockR 2) []))) :: w_sent wr.
Proof.
  intros Hi Hreq Hsent Hr Hq Hready Hauth Hn He Ht. pose proof Hauth as (_&_&_&Hok&Hv&_).
  destruct (auth_message s r _ _ Hauth) as (Hmok&Hnz&Hb&Hlen&Hval).
  destruct (crosses_IR (S fuel) wi wr _ sentI _ _ _ _ _ _ _ _ _ _ _ _ _ _ Hi Hreq Hsent Hr Hq Hready)
    as (p1&p2&Hq1&Hr1&Hp2&Hr2&Hcarry); [exact Hb|done|exact Hlen|].
  destruct Hr as [Hx Ed Eu Eo Et Edr Est Ess Hport].
  destruct (Hval stR (cl_payload_buffer (w_layer wr))) as (buffer&Hvalid&Hbuf); [apply Hx|].
  destruct (reset_done a) as (old&Hreset).
  destruct (auth_formatted LinkFrameWriter_ops LinkFrameWriter_inv LinkFrameWriter_frame (s_set_rx_nonce r 0)
    (cl_frame_writer (w_layer wr)) (clockR 2)) as (eb&writer&Hf&Heb&Hkept); try done.
  { by apply session_ok_rx. }
  { apply Hx. }
  { cbn [fw_max_payload_size LinkFrameWriter_ops]. by rewrite (li_room _ _ Hx). }
  rewrite (li_frame _ _ Hx) in Hf.
  set (fr := link_frame addrR (SessionData_enc (tx_message (s_set_rx_nonce r 0) (clockR 2) []))) in *.
  exists (with_lower wi p1). eexists _, eb, old, _. split; [apply Hcarry|].
  - apply (responder_activates LinkFrameWriter_ops c upperR clockR rh openedR HappR fuel (with_lower wr p2)
      (tx_message s (clockI 3) []) fr old (s_set_tx_nonce (s_set_encrypt_buffer (s_set_rx_nonce r 0) eb) 1)
      (s_set_rx_nonce r 0) (inc_success stR) buffer writer);
      cbn [w_layer w_ticks with_lower w_upper_open]; rewrite ?Ess, ?Et, ?Est; try done.
    + apply Hx.
    + by apply (tx_accepted (L := LinkPort LR) p2 fr).
  - by apply resting_tx.
  - split; [split; [by apply progress_lower, quiet_resting|done]|]. split; [|done].
    split; try done; cbn [w_layer w_upper w_upper_open w_ticks w_draws with_lower]; try congruence.
    + apply (idle_payload addrR (cl_set_io _ _ _ _)); [by apply idle_io|exact Hbuf].
    + by apply asked_rests, resting_tx.
Qed.

(** The answer crosses: the initiator activates its session. *)
Lemma auth_accepted fuel wr wi hr uR stR ssR sentR h3 timer stI a s r `{HM : !SessionModeOk (session_mode (s_algorithms r))} :
  progress addrR hr uR true 3 1 stR ssR wr ->
  w_sent wr = (true, link_frame addrR (SessionData_enc (tx_message r (clockR 2) []))) :: sentR ->
  progress addrI (mkInitiator WaitForAuthReply h3 timer None false) appI false 5 1 stI (mkSessions a s) wi ->
  quiet_port (source addrI) (w_lower wi) -> lower_is_tx_ready (w_lower wi) = true ->
  authenticated_by r s (clockR 2) (clockI 5) ->
  exists wr' wi' old st timer',
    carry rstack istack netRI (S fuel) 1 (mkStack true wr) (mkStack true wi) = Some (mkStack true wr', mkStack true wi') /\
    (progress addrR hr uR true 3 1 stR ssR wr' /\ quiet_port (source addrR) (w_lower wr') /\
     lower_is_tx_ready (w_lower wr') = true) /\
    (progress addrI (mkInitiator Idle h3 None timer' false) (openedI appI) true 6 1 st
       (mkSessions (s_set_rx_nonce s 0) old) wi' /\
     quiet_port (source addrI) (w_lower wi') /\ lower_is_tx_ready (w_lower wi') = true).
Proof.
  intros Hr Hsent Hi Hq Hready Hauth. destruct (auth_message r s _ _ Hauth) as (Hmok&Hnz&Hb&Hlen&Hval).
  destruct (crosses_RI (S fuel) wr wi _ sentR _ _ _ _ _ _ _ _ _ _ _ _ _ _ Hr Hsent Hi Hq Hready)
    as (p1&p2&Hq1&Hr1&Hp2&Hr2&Hcarry); [exact Hb|done|exact Hlen|].
  destruct Hi as [Hx Ed Eu Eo Et Edr Est Ess Hport].
  destruct (Hval stI (cl_payload_buffer (w_layer wi))) as (buffer&Hvalid&Hbuf); [apply Hx|].
  destruct (reset_done a) as (old&Hreset).
  exists (with_lower wr p1). eexists _, old, _, _. split; [apply Hcarry|].
  - apply (initiator_activates LinkFrameWriter_ops c upperI clockI ih _ _ openedI HappI fuel (with_lower wi p2)
      (tx_message r (clockR 2) []) h3 timer old (s_set_rx_nonce s 0) (inc_success stI) buffer);
      cbn [w_layer w_ticks with_lower w_upper_open]; rewrite ?Ess, ?Et, ?Est; done.
  - done.
  - split; [split; [by apply progress_lower, quiet_resting|done]|]. split.
    + split; try done; cbn [w_layer w_upper w_upper_open w_ticks w_draws with_lower]; try congruence.
      * apply (idle_payload addrI (cl_set_io _ _ _ _)); [apply idle_io; [done|split; [apply Hx|done]]|exact Hbuf].
      * by apply asked_rests.
    + apply (asked_quiet addrI); [done|done|]. apply Hx.
Qed.

Local Abbreviation limits := (ic_session_limits iconfig).
Local Abbreviation ttlI := (ms (ttl_pad_ms (ic_session iconfig))).
Local Abbreviation ttlR := (ms (ttl_pad_ms (rc_session rconfig))).

(** The handshake is over before the padding of the times to live is, and within
    the session's time, by the readings of both clocks; the clocks do not go back. *)
Definition prompt : Prop :=
  clockI 0 <= clockI 2 <= clockI 3 /\ clockI 2 <= clockI 5 /\ clockR 0 <= clockR 1 /\ clockR 0 <= clockR 2 /\
  clockI 3 - clockI 0 + ttlI <= ms (max_session_time_ms limits) /\ clockR 1 - clockR 0 <= ttlI /\
  clockR 2 - clockR 0 + ttlR <= ms (max_session_time_ms limits) /\ clockI 5 - clockI 0 <= ttlR.

(** The conditions on both stations before they are connected. *)
Record connectable : Prop := {
  cn_addrI : addr_ok addrI;
  cn_addrR : addr_ok addrR;
  cn_bufferI : 1024 <= max_payload_size (ic_config iconfig) <= max_u16;
  cn_bufferR : 1024 <= max_payload_size (rc_config rconfig) <= max_u16;
  cn_ttlI : is_u32 (ttl_pad_ms (ic_session iconfig));
  cn_ttlR : is_u32 (ttl_pad_ms (rc_session rconfig));
  cn_lowerI : lower_chunks lowerI = [] /\ lower_is_tx_ready lowerI = true;
  cn_lowerR : lower_chunks lowerR = [] /\ lower_is_tx_ready lowerR = true;
}.

(** One end of the new session. *)
Record fresh_end (ttl : Z) (from until : Z) (s : Session) : Prop := {
  fe_ok : session_ok s;
  fe_valid : s_valid s = true;
  fe_nonces : s_rx_nonce s = 0 /\ s_tx_nonce s = 1;
  fe_ttl : s_ttl_pad_ms s = ttl;
  fe_buffer : capacity s = 1024;
  fe_start : from <= session_start (s_parameters s) <= until;
  fe_max_nonce : max_nonce (s_parameters s) = max_nonce_value limits;
  fe_max_time : max_session_time (s_parameters s) = ms (max_session_time_ms limits);
  fe_mode : library_mode c (session_mode (s_algorithms s));
}.

(** Both stations after the handshake. *)
Record connected (wi : worldI) (wr : worldR) : Prop := {
  ct_initiator : station addrI idle wi /\ lower_is_tx_ready (w_lower wi) = true;
  ct_responder : station addrR idle wr /\ lower_is_tx_ready (w_lower wr) = true;
  ct_links : linked (session_of wi) (session_of wr) /\ linked (session_of wr) (session_of wi);
  ct_endI : fresh_end (ttl_pad_ms (ic_session iconfig)) (clockI 0) (clockI 2) (session_of wi);
  ct_endR : fresh_end (ttl_pad_ms (rc_session rconfig)) (clockR 0) (clockR 0) (session_of wr);
  ct_apps : w_upper wi = openedI appI /\ w_upper wr = openedR appR;
  ct_ticks : w_ticks wi = 6%nat /\ w_ticks wr = 3%nat;
  ct_calm : in_handshake_state (w_derived wi) = Idle /\ in_handshake_required (w_derived wi) = false;
}.

Lemma library_mode_ok m : library_mode c m -> inhabited (SessionModeOk m).
Proof. intros [[Hs ->]|[Hs ->]]; constructor; [by apply hmac_mode_ok|by apply gcm_mode_ok]. Qed.

(** The two ends that a handshake leaves can authenticate each other. *)
Lemma ends_authenticate si sr :
  prompt -> mirrored si sr -> s_ttl_pad_ms si = ttl_pad_ms (ic_session iconfig) ->
  s_ttl_pad_ms sr = ttl_pad_ms (rc_session rconfig) ->
  clockI 0 <= session_start (s_parameters si) <= clockI 2 -> session_start (s_parameters sr) = clockR 0 ->
  max_session_time (s_parameters si) = ms (max_session_time_ms limits) ->
  max_session_time (s_parameters sr) = ms (max_session_time_ms limits) ->
  tx_time_ok si (clockI 3) /\ tx_time_ok sr (clockR 2) /\
  authenticated_by si sr (clockI 3) (clockR 1) /\
  forall eb, authenticated_by (s_set_rx_nonce sr 0) (s_set_tx_nonce (s_set_encrypt_buffer si eb) 1) (clockR 2) (clockI 5).
Proof.
  intros ([H02 H23]&H25&HR1&HR2&Hp1&Hp2&Hp3&Hp4) [[Hi Hr] [Hvi Hvr] (Ni&Ti&Nr&Tr) [K1 K2] Ha _] Li Lr Hsi Hsr Mi Mr.
  assert (0 <= ttlI /\ 0 <= ttlR) as [HtI HtR].
  { pose proof Hi as (_&_&_&_&[Hz _]&_). pose proof Hr as (_&_&_&_&[Hz' _]&_). rewrite Li in Hz. rewrite Lr in Hz'.
    unfold ms. lia. }
  assert (tx_time_ok si (clockI 3)) as T1 by (unfold tx_time_ok; rewrite Li, Mi; lia).
  assert (tx_time_ok sr (clockR 2)) as T2 by (unfold tx_time_ok; rewrite Lr, Mr, Hsr; lia).
  split; [done|]. split; [done|]. split.
  - unfold authenticated_by. rewrite Mr, Hsr, Li, Ha, K1. do 8 (split; [done|]). lia.
  - intros eb. unfold authenticated_by. cbn [s_set_rx_nonce s_set_tx_nonce s_set_encrypt_buffer s_algorithms s_keys s_parameters
      s_valid s_rx_nonce s_tx_nonce s_ttl_pad_ms]. rewrite Mi, Lr, Ha, K2.
    split; [by apply session_ok_rx|]. split; [done|]. split; [done|]. split; [by apply session_ok_tx|].
    do 4 (split; [done|]). lia.
Qed.

(** A station out of the progress it made. *)
Lemma station_made {D L U} `{LL : !LowerLayer L} (addr : Addresses) (d : D) (u : U) ticks draws st ss
    (w : World LinkFrameWriter D (LinkPort L) U) ttl from until :
  progress addr d u true ticks draws st ss w -> quiet_port (source addr) (w_lower w) ->
  fresh_end ttl from until (active ss) -> station addr idle w.
Proof.
  intros [Hx _ _ Ho _ _ _ Ess _] Hq [Hok Hv _ _ Hcap _ _ _ _]. destruct Hx.
  split; try done; unfold session_of; rewrite ?Ess; try done.
  - rewrite li_room0. by vm_compute.
  - intros E. unfold capacity in Hcap. rewrite E in Hcap. by vm_compute in Hcap.
Qed.

Lemma started_end ttl from until s s' eb :
  session_ok s' -> s_valid s' = true -> started limits from until s s' -> s_ttl_pad_ms s = ttl ->
  1024 <= zlen (s_encrypt_buffer s) -> zlen eb = zlen (s_encrypt_buffer s') ->
  library_mode c (session_mode (s_algorithms s')) ->
  fresh_end ttl from until (s_set_rx_nonce (s_set_tx_nonce (s_set_encrypt_buffer s' eb) 1) 0).
Proof.
  intros Hok Hv [] Ettl Hlen Heb Hm. split; try done.
  - by apply session_ok_rx; [apply session_ok_tx|].
  - cbn. congruence.
  - unfold capacity. cbn. rewrite Heb, started_buffer. lia.
Qed.

(** The encryption buffers of new sessions hold a whole message. *)
Lemma new_buffers :
  1024 <= zlen (s_encrypt_buffer (pending_session initiator_sessions)) /\
  1024 <= zlen (s_encrypt_buffer (pending_session responder_sessions)).
Proof. cbn. rewrite !alloc_length; by vm_compute. Qed.

(** The end of the handshake, from what both stations have done. *)
Lemma connected_made wi wr h3 hr timer stI stR oldI oldR si sr ebI ebR :
  mirrored si sr -> library_mode c (session_mode (s_algorithms si)) ->
  started limits (clockI 0) (clockI 2) (pending_session initiator_sessions) si ->
  started limits (clockR 0) (clockR 0) (pending_session responder_sessions) sr ->
  zlen ebI = zlen (s_encrypt_buffer si) -> zlen ebR = zlen (s_encrypt_buffer sr) ->
  progress addrI (mkInitiator Idle h3 None timer false) (openedI appI) true 6 1 stI
    (mkSessions (s_set_rx_nonce (s_set_tx_nonce (s_set_encrypt_buffer si ebI) 1) 0) oldI) wi ->
  quiet_port (source addrI) (w_lower wi) -> lower_is_tx_ready (w_lower wi) = true ->
  progress addrR hr (openedR appR) true 3 1 stR
    (mkSessions (s_set_tx_nonce (s_set_encrypt_buffer (s_set_rx_nonce sr 0) ebR) 1) oldR) wr ->
  quiet_port (source addrR) (w_lower wr) -> lower_is_tx_ready (w_lower wr) = true ->
  connected wi wr.
Proof.
  intros Hmir Hmode Hsi Hsr HebI HebR Hi HqI HrI Hr HqR HrR.
  pose proof Hmir as [[Oki Okr] [Vi Vr] _ [K1 K2] Halg _]. destruct new_buffers as [HbI HbR].
  pose proof (started_end _ _ _ _ _ _ Oki Vi Hsi eq_refl HbI HebI Hmode) as EndI. rewrite Halg in Hmode.
  pose proof (started_end _ _ _ _ _ _ Okr Vr Hsr eq_refl HbR HebR Hmode) as EndR.
  split.
  - split; [by eapply station_made|done].
  - split; [by eapply station_made|done].
  - unfold session_of, linked. rewrite (pr_sessions _ _ _ _ _ _ _ _ _ Hi), (pr_sessions _ _ _ _ _ _ _ _ _ Hr). cbn.
    by rewrite Halg, K1, K2.
  - unfold session_of. by rewrite (pr_sessions _ _ _ _ _ _ _ _ _ Hi).
  - unfold session_of. by rewrite (pr_sessions _ _ _ _ _ _ _ _ _ Hr).
  - split; [apply Hi|apply Hr].
  - split; [apply Hi|apply Hr].
  - by rewrite (pr_derived _ _ _ _ _ _ _ _ _ Hi).
Qed.

(** The handshake connects the stations. *)
Lemma handshake_connects fuel (I : HI -> Prop) h hr ikm :
  connectable -> prompt -> requests_fit ih h ->
  stations_complete c iconfig ih rh I (FullInitiatorStack_new c addrI iconfig h lowerI appI)
    (FullResponderStack_new c addrR rconfig hr lowerR appR) ikm ->
  exists wi wr,
    shake_hands (S fuel) (FullInitiatorStack_new c addrI iconfig h lowerI appI)
      (FullResponderStack_new c addrR rconfig hr lowerR appR) = Some (mkStack true wi, mkStack true wr) /\
    connected wi wr.
Proof.
  intros [HaI HaR HbI HbR HtI HtR [HlI HrI] [HlR HrR]] Hprompt Hfits Hcomplete.
  destruct (Hcomplete 0%nat 0%nat (pending_session initiator_sessions) (pending_session responder_sessions)
    no_statistics no_statistics (clockI 0) (clockR 0) (clockI 2))
    as (e&d&hi1&hi2&hi3&reply&hr'&writer&si&sr&sti&str&material&_&Hinit&(_&Hreq&Hsize)&Hfin&Hproc&Hkept&(_&Hrep&Hrsize)&Hses
        &(Hmir&Hsi&Hsr&Hmode)&_); [by apply new_session_ok|by apply new_session_ok|apply Hprompt|].
  cbn [FullInitiatorStack_new FullResponderStack_new new_stack sk_world w_derived w_layer Initiator_new in_handshake] in *.
  set (request := make_request _ _ _ _ _) in *.
  destruct (library_mode_ok _ Hmode) as [HM].
  assert (SessionModeOk (session_mode (s_algorithms (s_set_rx_nonce sr 0)))) as HMr
    by (cbn; rewrite <- (mirrored_algorithms _ _ Hmir); exact HM).
  destruct (ends_authenticate si sr Hprompt Hmir) as (T1&T2&A1&A2);
    [apply Hsi|apply Hsr|apply Hsi|pose proof (started_start _ _ _ _ _ Hsr); lia|apply Hsi|apply Hsr|].
  pose proof Hmir as [[Oki Okr] [Vi Vr] (Ni&Ti&Nr&Tr) _ Halg _]. destruct new_buffers as [HeI HeR].
  destruct (request_sent (S fuel) h e d hi1 hi2 HaI HbI HlI HrI Hfits Hinit Hreq Hsize Hfin) as (wi0&t0&Run1&Pi0&Sent0).
  destruct (responder_waits (S fuel) hr HaR HbR HlR HrR) as (wr0&Run2&Pr0&Qr0&Rr0&Ew). rewrite <- Ew in *.
  destruct (request_answered (S fuel) wi0 wr0 _ _ _ hr request (ReplyHandshakeBegin_enc reply) hr' writer sr str Pi0 eq_refl Sent0
    Pr0 Qr0 Rr0 Hreq eq_refl) as (wi1&wr1&Run3&Pi1&Qi1&Ri1&Pr1&Sent1); [destruct (Hfits _ _ _ _ Hinit); lia|exact Hproc|exact Hkept|].
  destruct (reply_accepted (S fuel) wr1 wi1 _ _ _ _ _ hi2 hi3 t0 reply si sti Pr1 Sent1 Pi1 Qi1 Ri1 Hrep)
    as (wr2&wi2&ebI&t2&Run4&(Pr2&Qr2&Rr2)&Pi2&HebI&Sent2); try done.
  { by rewrite Ew in Hrsize. }
  { intros E. rewrite <- (started_buffer _ _ _ _ _ Hsi), E in HeI. by vm_compute in HeI. }
  destruct (auth_answered fuel wi2 wr2 _ _ _ _ hr' str (active responder_sessions) si sr Pi2 eq_refl Sent2 Pr2 Qr2 Rr2 A1 Tr)
    as (wi3&wr3&ebR&oldR&str3&Run5&(Pi3&Qi3&Ri3)&Pr3&HebR&Sent3); [|exact T2|].
  { intros E. rewrite <- (started_buffer _ _ _ _ _ Hsr), E in HeR. by vm_compute in HeR. }
  destruct (auth_accepted fuel wr3 wi3 hr' (openedR appR) _ _ _ hi3 t2 sti _ _ (s_set_rx_nonce sr 0) Pr3 Sent3 Pi3 Qi3 Ri3
    (A2 ebI)) as (wr4&wi4&oldI&sti4&t4&Run6&(Pr4&Qr4&Rr4)&Pi4&Qi4&Ri4).
  exists wi4, wr4. split.
  - unfold shake_hands. rewrite Run1. cbn [mbind option_bind]. rewrite Run2. cbn [mbind option_bind].
    rewrite Run3. cbn [mbind option_bind]. rewrite Run4. cbn [mbind option_bind]. rewrite Run5. cbn [mbind option_bind].
    by rewrite Run6.
  - by eapply (connected_made wi4 wr4 hi3 hr').
Qed.

(** *** The exchange of data *)

(** The times of [k] messages: each is sent while the session lasts, and received
    within its time to live; sender and receiver started the session within the
    given bounds. *)
Definition timely (k : nat) (ttl from until from' until' : Z) (now now' : nat -> Z) : Prop :=
  forall i, (i < k)%nat ->
    until <= now i /\ now i - from + ms ttl <= ms (max_session_time_ms limits) /\
    until' <= now' i /\ now' i - from' <= ms (max_session_time_ms limits) /\
    now' i - from' <= ms (duration_cast_ms (now i - until + ms ttl)).

Lemma fresh_usable k ttl ttl' from until from' until' s r now now' :
  fresh_end ttl from until s -> fresh_end ttl' from' until' r -> 1 + Z.of_nat k <= max_nonce_value limits ->
  timely k ttl from until from' until' now now' -> usable s r k now now'.
Proof.
  intros [Hok _ [_ Htx] Httl _ [Hs1 Hs2] Hmax Hmt _] [_ _ _ _ _ [Hr1 Hr2] Hmax' Hmt' _] Hk Ht. unfold usable.
  rewrite Htx, Hmax, Hmax'. split; [lia|]. split; [lia|]. intros i Hi. destruct (Ht i Hi) as (H1&H2&H3&H4&H5).
  unfold tx_time_ok. cbn [am_valid_until_ms tx_metadata]. rewrite Hmt, Hmt', Httl.
  split; [lia|]. split; [lia|]. split; [lia|].
  assert (0 <= ttl) by (rewrite <- Httl; apply Hok).
  assert (duration_cast_ms (now i - until + ms ttl) <= duration_cast_ms (now i - session_start (s_parameters s) + ms ttl)).
  { unfold duration_cast_ms. apply Z.quot_le_mono; lia. }
  unfold ms in *. lia.
Qed.

Context (toldI : UI -> UI) (HtoldI : forall u, upperI on_lower_tx_ready u = UReturn (toldI u)).
Context (take_inI : UI -> bytes -> UI) (HtakeI : reads_in upperI take_inI).
Context (toldR : UR -> UR) (HtoldR : forall u, upperR on_lower_tx_ready u = UReturn (toldR u)).
Context (take_inR : UR -> bytes -> UR) (HtakeR : reads_in upperR take_inR).

(** Data that [k] messages can carry. *)
Definition fits (k : nat) (data : bytes) : Prop :=
  data <> [] /\ all_bytes data /\ zlen data <= Z.of_nat k * 1024 /\
  1 + Z.of_nat k <= max_nonce_value limits /\ 1 + Z.of_nat k < nonce_renegotiation_trigger_value (ic_params iconfig).

(** Two stacks converse: the handshake connects them, and after it data that fits
    and whose messages are in time gets from either application to the other. *)
Definition converse (fuel : nat) (i : Stack worldI) (r : Stack worldR) : Prop :=
  exists wi wr,
    shake_hands (S fuel) i r = Some (mkStack true wi, mkStack true wr) /\ connected wi wr /\
    (forall k data, fits k data ->
       timely k (ttl_pad_ms (ic_session iconfig)) (clockI 0) (clockI 2) (clockR 0) (clockR 0)
         (fun j => clockI (6 + j)%nat) (fun j => clockR (3 + j)%nat) ->
       exists wi' wr',
         send istack rstack netIR (S fuel) k data (mkStack true wi) (mkStack true wr) =
           Some (mkStack true wi', mkStack true wr') /\
         arrived toldI take_inR addrI addrR k idle data wi wi' wr wr') /\
    (forall k data, fits k data ->
       timely k (ttl_pad_ms (rc_session rconfig)) (clockR 0) (clockR 0) (clockI 0) (clockI 2)
         (fun j => clockR (3 + j)%nat) (fun j => clockI (6 + j)%nat) ->
       exists wr' wi',
         send rstack istack netRI (S fuel) k data (mkStack true wr) (mkStack true wi) =
           Some (mkStack true wr', mkStack true wi') /\
         arrived toldR take_inI addrR addrI k idle data wr wr' wi wi').

Lemma stacks_converse fuel (I : HI -> Prop) h hr ikm :
  let i := FullInitiatorStack_new c addrI iconfig h lowerI appI in
  let r := FullResponderStack_new c addrR rconfig hr lowerR appR in
  connectable -> prompt -> requests_fit ih h -> stations_complete c iconfig ih rh I i r ikm -> converse fuel i r.
Proof.
  intros i r Hcon Hprompt Hfits Hcomplete.
  destruct (handshake_connects fuel I h hr ikm Hcon Hprompt Hfits Hcomplete) as (wi&wr&Hrun&Hct).
  exists wi, wr. split; [exact Hrun|]. split; [exact Hct|].
  destruct Hct as [HsI HsR [Hl1 Hl2] EI ER _ [Ti Tr] [_ Hcalm]].
  destruct (library_mode_ok _ (fe_mode _ _ _ _ EI)) as [HMI]. destruct (library_mode_ok _ (fe_mode _ _ _ _ ER)) as [HMR].
  pose proof (fe_nonces _ _ _ _ EI) as [NI TI]. pose proof (fe_nonces _ _ _ _ ER) as [NR TR].
  split; intros k data (Hd&Hb&Hlen&Hk&Htrig) Htime.
  - apply (data_sent c c upperI clockI upperR clockR vI (initiator_calm_at (ic_params iconfig)) vR (fun _ _ => True)
      (initiator_step LinkFrameWriter_ops c upperI clockI ih (ic_params iconfig) (ic_session_limits iconfig)) EvLayer timer_event
      (responder_step LinkFrameWriter_ops c upperR clockR rh) id no_timer netIR initiator_entry responder_entry toldI HtoldI take_inR HtakeR
      addrI addrR HaddrIR fuel k data wi wr).
    split; [done|]. split; [done|]. split; [done|]. rewrite Ti, Tr, (fe_buffer _ _ _ _ EI).
    split; [by eapply fresh_usable|]. split; [done|]. split; [done|]. split; [done|].
    split; [|exists (Z.of_nat k + 1); repeat split; lia]. exists (1 + Z.of_nat k). repeat split; (done || lia).
  - apply (data_sent c c upperR clockR upperI clockI vR (fun _ _ => True) vI (initiator_calm_at (ic_params iconfig))
      (responder_step LinkFrameWriter_ops c upperR clockR rh) id no_timer
      (initiator_step LinkFrameWriter_ops c upperI clockI ih (ic_params iconfig) (ic_session_limits iconfig)) EvLayer timer_event netRI responder_entry initiator_entry toldR HtoldR take_inI HtakeI
      addrR addrI HaddrRI fuel k data wr wi).
    split; [done|]. split; [done|]. split; [done|]. rewrite Ti, Tr, (fe_buffer _ _ _ _ ER).
    split; [by eapply fresh_usable|]. split; [done|]. split; [done|]. split; [done|].
    split; [exists (Z.of_nat k + 1); repeat split; lia|]. exists (1 + Z.of_nat k). repeat split; (done || lia).
Qed.
End Shake.

(** ** The stacks of the factories *)

(** The requests of the three handshakes fit. *)
Section Requests.
Context `{SER : Ser4cpp} (c : CryptoState).

Lemma shared_requests_fit h : requests_fit (SharedSecretInitiator c) h.
Proof. intros draw e d h1 (n&_&[= _ <- _])%obind_done. split; [done|by vm_compute]. Qed.

Lemma qkd_requests_fit {K K'} (consume_key : K -> option KeyRecord * K) (find : K' -> Z -> option BufferBase * K')
    suite source lookup key h :
  QKDInitiator_new c suite source = Done h -> qkd_key_shared consume_key find source lookup key ->
  requests_fit (QKDInitiator consume_key) h.
Proof.
  intros (alg&_&[= <-])%obind_done (record&k&k'&Hc&Hk&Hid&_) draw e d h1. cbn.
  unfold QKDInitiator_initialize_new_handshake. cbn [qi_key_source qi_key_id_buffer].
  destruct (consume_key source) as [r rest]. cbn in Hc. subst r. rewrite Hk, key_id_written by done.
  intros [= _ <- _]. split; [done|]. cbn [w_buf]. rewrite zlen_be_bytes. by vm_compute.
Qed.

Lemma public_requests_fit local suite handler h :
  PublicKeyInitiator_new c local suite handler = Done h -> 64 + zlen (certificate_data handler) <= max_config_payload_size ->
  requests_fit PublicKeyInitiator h.
Proof.
  intros (alg&_&(dh&_&[= <-])%obind_done)%obind_done Hfit draw e d h1 (keys&_&[= _ <- <-])%obind_done. done.
Qed.
End Requests.

Section Factories.
Context `{SER : Ser4cpp} (c : CryptoState) `{HB : !BackendOk c} `{HH : !HandshakeBackendOk c} `{HEAP : Heap}.
Context {LI LR UI UR : Type}.
Context `{LLI : !LowerLayer LI} `{LAWSI : !LowerLayerLaws LI} `{ACCI : !Accepting LI}.
Context `{LLR : !LowerLayer LR} `{LAWSR : !LowerLayerLaws LR} `{ACCR : !Accepting LR}.
Context (upperI : upper_call -> UI -> upper_prog UI) (clockI : nat -> Z) (iconfig : InitiatorConfig).
Context (upperR : upper_call -> UR -> upper_prog UR) (clockR : nat -> Z) (rconfig : ResponderConfig).
Context (netIR : network LI LR) (netRI : network LR LI) (addrI addrR : Addresses).
Context (lowerI : LI) (lowerR : LR) (appI : UI) (appR : UR).

(** An application that takes note of what it is told and takes the data it receives. *)
Record listens {U} (upper : upper_call -> U -> upper_prog U) (opened told : U -> U) (take_in : U -> bytes -> U) : Prop := {
  ls_open : forall u, upper on_lower_open u = UReturn (opened u);
  ls_told : forall u, upper on_lower_tx_ready u = UReturn (told u);
  ls_takes : reads_in upper take_in;
}.

(** C5: New stacks get to exchange data: take an initiator and a responder stack
    made by the factories for the same mode (with the same key, with a source and a
    store that hand out the same key, with each other's public keys, or with
    certificates under the same anchor), on transports that are ready and a network
    that delivers.  When the transports open, the four messages of the handshake
    cross the link layers in whatever pieces, every handler returns, both
    applications are told that their layer is open, and both stacks hold the two
    ends of one session; then what either application sends, up to the number of
    messages the session's nonces allow and below the one that triggers a
    renegotiation, arrives at the other, complete and in order, if it is sent and
    received within the session's time and the messages' times to live.  The
    handshake has to be over within the padding of the times to live; limits and
    addresses fit their fields, the payload buffers have 1024 to 65535 bytes, and the
    initiator's certificate chain fits a frame with 64 bytes to spare. *)
Theorem new_stacks_converse openedI toldI take_inI openedR toldR take_inR fuel :
  NetworkOk netIR -> NetworkOk netRI ->
  source addrR = destination addrI -> source addrI = destination addrR ->
  listens upperI openedI toldI take_inI -> listens upperR openedR toldR take_inR ->
  limits_ok (ic_session_limits iconfig) ->
  connectable iconfig rconfig addrI addrR lowerI lowerR -> prompt clockI iconfig clockR rconfig ->
  (forall suite key ih si,
     initiator_shared_secret_mode c iconfig lowerI appI suite addrI key = Done (ih, si) ->
     let '(rh, sr) := responder_shared_secret_mode c rconfig lowerR appR addrR key in
     converse c upperI clockI ih iconfig upperR clockR rh rconfig netIR netRI addrI addrR openedI openedR appI appR
       toldI take_inI toldR take_inR fuel si sr) /\
  (forall K K' (consume_key : K -> option KeyRecord * K) (find : K' -> Z -> option BufferBase * K')
          suite source lookup key ih si,
     initiator_qkd_mode c iconfig lowerI appI suite consume_key addrI source = Done (ih, si) ->
     qkd_key_shared consume_key find source lookup key ->
     let '(rh, sr) := responder_qkd_mode c rconfig lowerR appR find addrR lookup in
     converse c upperI clockI ih iconfig upperR clockR rh rconfig netIR netRI addrI addrR openedI openedR appI appR
       toldI take_inI toldR take_inR fuel si sr) /\
  (forall suite local_i local_r public_i public_r ih si,
     supports_ed25519 c = true ->
     initiator_preshared_public_key_mode c iconfig lowerI appI suite addrI local_i public_r = Done (ih, si) ->
     zlen (as_seq (static_private_key local_i)) = x25519_key_length ->
     zlen (as_seq (static_private_key local_r)) = x25519_key_length ->
     as_seq public_i = x25519_base (c := c) (as_seq (static_private_key local_i)) ->
     as_seq public_r = x25519_base (c := c) (as_seq (static_private_key local_r)) ->
     let '(rh, sr) := responder_preshared_public_key_mode c rconfig lowerR appR addrR local_r public_i in
     converse c upperI clockI ih iconfig upperR clockR rh rconfig netIR netRI addrI addrR openedI openedR appI appR
       toldI take_inI toldR take_inR fuel si sr) /\
  (forall suite local_i local_r anchor chain_i chain_r ih si rh sr,
     supports_ed25519 c = true ->
     initiator_certificate_public_key_mode c iconfig lowerI appI suite addrI local_i anchor chain_i = Done (ih, si) ->
     responder_certificate_public_key_mode c rconfig lowerR appR addrR local_r anchor chain_r = Done (rh, sr) ->
     zlen (as_seq (static_private_key local_i)) = x25519_key_length ->
     zlen (as_seq (static_private_key local_r)) = x25519_key_length ->
     certifies c (pki_cert_handler (in_handshake (w_derived (sk_world si)))) (static_private_key local_i) ->
     64 + zlen (certificate_data (pki_cert_handler (in_handshake (w_derived (sk_world si))))) <= max_config_payload_size ->
     certifies c (pkr_cert_handler (w_derived (sk_world sr))) (static_private_key local_r) ->
     converse c upperI clockI ih iconfig upperR clockR rh rconfig netIR netRI addrI addrR openedI openedR appI appR
       toldI take_inI toldR take_inR fuel si sr).
Proof.
  intros HN1 HN2 Ha1 Ha2 [HoI HtI HrI] [HoR HtR HrR] Hlim Hcon Hprompt.
  destruct (factories_complete c iconfig rconfig addrI addrR lowerI lowerR appI appR Hlim (cn_addrR _ _ _ _ _ _ Hcon))
    as (F1&F2&F3&F4).
  split; [|split; [|split]].
  - intros suite key ih si Hm. specialize (F1 _ _ _ _ Hm). destruct (responder_shared_secret_mode _ _ _ _ _ _) eqn:E.
    injection E as <- <-. apply obind_done in Hm as (h&Hh&[= <- <-]).
    by eapply stacks_converse; [..|apply shared_requests_fit|exact F1].
  - intros K K' consume find suite source lookup key ih si Hm Hkey. specialize (F2 _ _ _ _ _ _ _ _ _ _ Hm Hkey).
    destruct (responder_qkd_mode _ _ _ _ _ _ _) eqn:E.
    injection E as <- <-. apply obind_done in Hm as (h&Hh&[= <- <-]).
    by eapply stacks_converse; [..|eapply qkd_requests_fit|exact F2].
  - intros suite local_i local_r public_i public_r ih si Hed Hm Hli Hlr Hi Hr.
    specialize (F3 _ _ _ _ _ _ _ Hed Hm Hli Hlr Hi Hr).
    destruct (responder_preshared_public_key_mode _ _ _ _ _ _ _) eqn:E.
    injection E as <- <-. apply obind_done in Hm as (h&Hh&[= <- <-]).
    eapply stacks_converse; [done..| |exact F3]. eapply public_requests_fit; [exact Hh|by vm_compute].
  - intros suite local_i local_r anchor chain_i chain_r ih si rh sr Hed Hm Hm' Hli Hlr Hci Hfit Hcr.
    specialize (F4 _ _ _ _ _ _ _ _ _ _ Hed Hm Hm' Hli Hlr Hci Hcr).
    apply obind_done in Hm as (hi&Hhi&(h&Hh&[= <- <-])%obind_done). apply obind_done in Hm' as (hr&Hhr&[= <- <-]).
    eapply stacks_converse; [done..| |exact F4]. eapply public_requests_fit; [exact Hh|].
    apply obind_done in Hh as (alg&_&(dh&_&[= <-])%obind_done). exact Hfit.
Qed.
End Factories.
