(* ===== verification/EstablishScenario.v ===== *)
(** * New stacks, executed

    Two new stacks of the shared-secret mode over a network that cuts every frame in
    two: the theorem of [Establish] applies to them, and the run gives what it says. *)

From stdpp Require Import base numbers list strings.
From Stdlib Require Import Lia ZArith.
From S2P Require Import Prelude Ser4cpp Enums Codec Messages CRC LinkParser FrameWriter LinkLayer.
From S2P Require Import Crypto SessionMode Session Chain Handshake CryptoLayer LayerLogic.
From S2P Require Import Responder Initiator LayerFrame Returns Terminates Scenario Stack Factory StackScenario.
From S2P Require Import LayerDelivery LayerHandshake Delivery DeliveryScenario Establish.

Local Existing Instance ser4cpp_reference.

#[export] Instance queue_accepting : Accepting queue.
Proof. by intros l data. Qed.

Lemma collecting_listens : listens collecting id id collect.
Proof. by split. Qed.

Definition initiator_addr : Addresses := mkAddresses 10 1.
Definition responder_addr : Addresses := mkAddresses 1 10.

Lemma stations_connectable :
  connectable InitiatorConfig_default ResponderConfig_default initiator_addr responder_addr empty_queue empty_queue.
Proof. by split; vm_compute. Qed.

Lemma ticking_prompt : prompt ticking InitiatorConfig_default ticking ResponderConfig_default.
Proof. by vm_compute. Qed.

Local Abbreviation initiator_step := (FullInitiatorStack_step full_crypto collecting ticking (SharedSecretInitiator full_crypto)
  InitiatorConfig_default).
Local Abbreviation responder_step := (FullResponderStack_step full_crypto collecting ticking
  (SharedSecretResponder LinkFrameWriter_ops full_crypto)).
Local Abbreviation connect := (shake_hands full_crypto collecting ticking (SharedSecretInitiator full_crypto) InitiatorConfig_default
  collecting ticking (SharedSecretResponder LinkFrameWriter_ops full_crypto) cutting cutting).

Lemma three_messages_fit : fits InitiatorConfig_default 3 three_messages.
Proof. split; [done|]. split; [apply Forall_replicate; split; lia|]. by vm_compute. Qed.

Lemma new_stacks_converse_witness :
  exists wi wr wi' wr',
    connect 1 istart made_responder = Some (mkStack true wi, mkStack true wr) /\
    send initiator_step responder_step cutting 1 3 three_messages (mkStack true wi) (mkStack true wr) =
      Some (mkStack true wi', mkStack true wr') /\
    arrived id collect initiator_addr responder_addr 3 idle three_messages wi wi' wr wr'.
Proof.
  destruct (proj1 (new_stacks_converse full_crypto collecting ticking InitiatorConfig_default collecting ticking
    ResponderConfig_default cutting cutting initiator_addr responder_addr empty_queue empty_queue [] []
    id id collect id id collect 0 cutting_ok cutting_ok eq_refl eq_refl collecting_listens collecting_listens
    default_limits_ok stations_connectable ticking_prompt)
    CryptoSuite_default (test_key 7) (SharedSecretInitiator full_crypto) istart made_initiator_is)
    as (wi&wr&Hrun&_&Hsend&_).
  destruct (Hsend 3%nat three_messages three_messages_fit) as (wi'&wr'&Hs&Harr).
  { intros [|[|[|j]]] Hj; [..|lia]; vm_compute; repeat split; congruence. }
  exists wi, wr, wi', wr'. split; [exact Hrun|]. split; [exact Hs|exact Harr].
Defined.

(** The run itself: the handshake, three parts to the responder, and three back. *)
Example new_stacks_run :
  option_map (fun '(r, i) => (map zlen (w_upper (sk_world i)), map zlen (w_upper (sk_world r))))
    ('(i, r) ← connect 1 istart made_responder;
     '(i, r) ← send initiator_step responder_step cutting 1 3 three_messages i r;
     send responder_step initiator_step cutting 1 3 three_messages r i) =
  Some ([1024; 1024; 452], [1024; 1024; 452]).
Proof. vm_compute. reflexivity. Qed.
