(* ===== verification/Configured.v ===== *)
(** * Configured stations

    Two proxies whose documents belong together: the stacks they create get to
    exchange data. *)

From stdpp Require Import base numbers list strings gmap.
From Stdlib Require Import Lia ZArith.
From S2P Require Import Prelude Ser4cpp Enums Codec Messages CRC LinkParser FrameWriter LinkLayer.
From S2P Require Import Crypto SessionMode Session Chain Handshake CryptoLayer LayerLogic.
From S2P Require Import Responder Initiator LayerFrame Returns Terminates Scenario Stack Factory StackScenario.
From S2P Require Import Yaml ProxyConfig ConfigReads ConfigFacts.
From S2P Require Import LayerDelivery LayerHandshake Delivery DeliveryScenario Establish EstablishScenario.

(** ** Documents that belong together *)

Section Documents.
Context `{SER : Ser4cpp} `{YAML : YamlLib}.

(** A document says that its station uses the link layer, with these addresses. *)
Definition link_written (n : Node) (local remote : Z) : Prop :=
  exists link enabled address,
    node_get n "link_layer" = Done link /\ node_get link "enabled" = Done enabled /\ node_as_bool enabled = Done true /\
    node_get link "address" = Done address /\ integer_at address "local" local /\ integer_at address "remote" remote.

(** The role of its station, and its type of handshake. *)
Definition role_written (n : Node) (role type : string) (handshake : Node) : Prop :=
  exists security, node_get n "security" = Done security /\ text_at security "mode" role /\
    node_get security "handshake" = Done handshake /\ text_at handshake "type" type.

Lemma integer_at_unique n key x y : integer_at n key x -> integer_at n key y -> x = y.
Proof. intros (c&Hc&Hx) (d&Hd&Hy). congruence. Qed.

Lemma text_at_unique n key x y : text_at n key x -> text_at n key y -> x = y.
Proof. intros (c&Hc&_&Hx) (d&Hd&_&Hy). congruence. Qed.

Lemma key_at_unique files n key type k k' : key_at files n key type k -> key_at files n key type k' -> as_seq k = as_seq k'.
Proof.
  intros (d&(p&Hp&Hd)&Hk) (d'&(p'&Hp'&Hd')&Hk'). pose proof (text_at_unique _ _ _ _ Hp Hp') as <-. congruence.
Qed.

Lemma addresses_are link local remote a :
  node_get link "enabled" = Done a -> node_as_bool a = Done true ->
  forall address, node_get link "address" = Done address ->
  integer_at address "local" local -> integer_at address "remote" remote ->
  forall read, addresses_read link read -> read = Some (mkAddresses remote local).
Proof.
  intros He Hb address Ha Hl Hr read [Hread (en&He'&Hb')]. rewrite He in He'. injection He' as <-.
  rewrite Hb in Hb'. destruct read as [[dst src]|]; [|done]. destruct Hread as (n&Hn&Hd&Hs).
  rewrite Ha in Hn. injection Hn as <-. cbn in *.
  by rewrite (integer_at_unique _ _ _ _ Hl Hs), (integer_at_unique _ _ _ _ Hr Hd).
Qed.

(** What the factory of such a document is. *)
Lemma written_factory files n f local remote role type handshake :
  factory_reads files n f -> link_written n local remote -> role_written n role type handshake ->
  factory_addresses f = Some (mkAddresses remote local) /\ role = type_name (factory_type f) /\
  exists session, stack_reads files handshake session f.
Proof.
  intros (link&sec&h&s&Hlink&Hsec&Hh&Hs&Ha&Hm&Hr) (link'&en&ad&Hlink'&He&Hb&Had&Hl&Hrem) (sec'&Hsec'&Hm'&Hh'&_).
  rewrite Hlink in Hlink'. injection Hlink' as <-. rewrite Hsec in Hsec'. injection Hsec' as <-.
  rewrite Hh in Hh'. injection Hh' as <-. split; [by eapply addresses_are|].
  split; [by eapply text_at_unique|by exists s].
Qed.

Ltac other_type := match goal with
  | H : text_at ?n "type" ?s, H' : text_at ?n "type" ?t |- _ => pose proof (text_at_unique _ _ _ _ H H'); discriminate
  end.

Lemma shared_initiator_written files n f local remote h :
  factory_reads files n f -> link_written n local remote -> role_written n "initiator" "shared_secret" h ->
  exists config suite key, f = InitiatorSharedSecret (Some (mkAddresses remote local)) config suite key /\
    shared_key_read files h key.
Proof.
  intros Hf Hl Hrole. destruct (written_factory _ _ _ _ _ _ _ _ Hf Hl Hrole) as (Ha&Hr&s&Hs).
  destruct Hrole as (_&_&_&_&Ht). destruct f; cbn in Ha, Hr, Hs; try done; destruct Hs as [Ht' Hs]; try other_type.
  subst. eexists _, _, _. split; [done|]. apply Hs.
Qed.

Lemma shared_responder_written files n f local remote h :
  factory_reads files n f -> link_written n local remote -> role_written n "responder" "shared_secret" h ->
  exists config key, f = ResponderSharedSecret (Some (mkAddresses remote local)) config key /\ shared_key_read files h key.
Proof.
  intros Hf Hl Hrole. destruct (written_factory _ _ _ _ _ _ _ _ Hf Hl Hrole) as (Ha&Hr&s&Hs).
  destruct Hrole as (_&_&_&_&Ht). destruct f; cbn in Ha, Hr, Hs; try done; destruct Hs as [Ht' Hs]; try other_type.
  subst. eexists _, _. split; [done|]. apply Hs.
Qed.

Lemma public_initiator_written files n f local remote h :
  factory_reads files n f -> link_written n local remote -> role_written n "initiator" "preshared_public_key" h ->
  exists config suite keys key,
    f = InitiatorPresharedPublicKey (Some (mkAddresses remote local)) config suite keys key /\
    local_keys_read files h keys /\ remote_key_read files h key.
Proof.
  intros Hf Hl Hrole. destruct (written_factory _ _ _ _ _ _ _ _ Hf Hl Hrole) as (Ha&Hr&s&Hs).
  destruct Hrole as (_&_&_&_&Ht). destruct f; cbn in Ha, Hr, Hs; try done; destruct Hs as [Ht' Hs]; try other_type.
  subst. eexists _, _, _, _. split; [done|]. apply Hs.
Qed.

Lemma public_responder_written files n f local remote h :
  factory_reads files n f -> link_written n local remote -> role_written n "responder" "preshared_public_key" h ->
  exists config keys key,
    f = ResponderPresharedPublicKey (Some (mkAddresses remote local)) config keys key /\
    local_keys_read files h keys /\ remote_key_read files h key.
Proof.
  intros Hf Hl Hrole. destruct (written_factory _ _ _ _ _ _ _ _ Hf Hl Hrole) as (Ha&Hr&s&Hs).
  destruct Hrole as (_&_&_&_&Ht). destruct f; cbn in Ha, Hr, Hs; try done; destruct Hs as [Ht' Hs]; try other_type.
  subst. eexists _, _, _. split; [done|]. apply Hs.
Qed.
End Documents.

(** ** Their stacks *)

Section Stations.
Context `{SER : Ser4cpp} (c : CryptoState) `{HB : !BackendOk c} `{HH : !HandshakeBackendOk c} `{HEAP : Heap}.
Context {LI LR UI UR : Type}.
Context `{LLI : !LowerLayer LI} `{LAWSI : !LowerLayerLaws LI} `{ACCI : !Accepting LI}.
Context `{LLR : !LowerLayer LR} `{LAWSR : !LowerLayerLaws LR} `{ACCR : !Accepting LR}.
Context `{YAML : YamlLib} (files_i files_r : string -> option bytes).
Context (upperI : upper_call -> UI -> upper_prog UI) (clockI : nat -> Z).
Context (upperR : upper_call -> UR -> upper_prog UR) (clockR : nat -> Z).
Context (netIR : network LI LR) (netRI : network LR LI).
Context (lowerI : LI) (lowerR : LR) (appI : UI) (appR : UR).
Context (openedI toldI : UI -> UI) (take_inI : UI -> bytes -> UI) (openedR toldR : UR -> UR) (take_inR : UR -> bytes -> UR).

(** The link layer and the frame writer of a stack use these addresses. *)
Definition uses_addresses {D L U} (s : Stack (World LinkFrameWriter D (LinkPort L) U)) (local remote : Z) : Prop :=
  let link := lp_link (w_lower (sk_world s)) in
  ll_local_addr link = local /\ ll_remote_addr link = remote /\
  lfw_addr (cl_frame_writer (w_layer (sk_world s))) = mkAddresses remote local.

(** Both payload buffers have room for a message of full size, and the handshake is
    over in time. *)
Definition in_time (iconfig : InitiatorConfig) (rconfig : ResponderConfig) : Prop :=
  1024 <= max_payload_size (ic_config iconfig) /\ 1024 <= max_payload_size (rc_config rconfig) /\
  prompt clockI iconfig clockR rconfig.

(** Two factories, with the states of the key sources, create these stacks; they
    use these addresses and converse. *)
Definition create_and_converse {HI HR} (fi fr : stack_factory) (sources_i sources_r : registry) (a b : Z)
    (ih : initiator_handshake HI) (iconfig : InitiatorConfig) (h : HI)
    (rh : responder_handshake HR LinkFrameWriter) (rconfig : ResponderConfig) (hr : HR) (fuel : nat) : Prop :=
  let si := FullInitiatorStack_new c (mkAddresses b a) iconfig h lowerI appI in
  let sr := FullResponderStack_new c (mkAddresses a b) rconfig hr lowerR appR in
  create_stack c fi sources_i lowerI appI = Done (IFullInitiator _ ih iconfig si) /\
  create_stack c fr sources_r lowerR appR = Done (IFullResponder _ rh sr) /\
  uses_addresses si a b /\ uses_addresses sr b a /\
  converse c upperI clockI ih iconfig upperR clockR rh rconfig netIR netRI (mkAddresses b a) (mkAddresses a b)
    openedI openedR appI appR toldI take_inI toldR take_inR fuel si sr.

Lemma configured_connectable iconfig rconfig a b :
  initiator_config_ok iconfig -> layer_config_ok (rc_config rconfig) (rc_session rconfig) ->
  addr_ok (mkAddresses b a) -> addr_ok (mkAddresses a b) -> in_time iconfig rconfig ->
  lower_chunks lowerI = [] /\ lower_is_tx_ready lowerI = true ->
  lower_chunks lowerR = [] /\ lower_is_tx_ready lowerR = true ->
  connectable iconfig rconfig (mkAddresses b a) (mkAddresses a b) lowerI lowerR.
Proof. intros ([[_ Hb] Ht]&_&_) [[_ Hb'] Ht'] Ha Ha' (Hi&Hr&_) Hl Hl'. by split. Qed.

(** C17: Two proxies whose configurations belong together protect the traffic: when
    the initiator's and the responder's documents, each with the files of its own
    machine, are accepted, each enables the link layer, one's local address is the
    other's remote address, and both name shared-secret files that hold the same key,
    or each the public key of the other's private key, then the stacks they create
    use the addresses of the documents, and over transports that are ready and a
    network that delivers they connect and exchange data as new stacks do: the
    handshake completes, and what either application sends arrives at the other,
    complete and in order.  The backend has to support the algorithms the initiator's
    document asks for, both payload buffers have to hold 1024 bytes, and the handshake
    has to be over within the padding of the times to live. *)
Theorem configured_stations_converse node_i node_r sources_i sources_r fi fr sources_i' sources_r' a b h_i h_r fuel :
  get_stack_factory files_i node_i sources_i = Done (fi, sources_i') ->
  get_stack_factory files_r node_r sources_r = Done (fr, sources_r') ->
  link_written node_i a b -> link_written node_r b a ->
  NetworkOk netIR -> NetworkOk netRI ->
  listens upperI openedI toldI take_inI -> listens upperR openedR toldR take_inR ->
  lower_chunks lowerI = [] /\ lower_is_tx_ready lowerI = true ->
  lower_chunks lowerR = [] /\ lower_is_tx_ready lowerR = true ->
  (role_written node_i "initiator" "shared_secret" h_i -> role_written node_r "responder" "shared_secret" h_r ->
   forall key, shared_key_read files_i h_i key -> shared_key_read files_r h_r key ->
   exists iconfig suite ki rconfig,
     sf_impl fi = InitiatorSharedSecret (Some (mkAddresses b a)) iconfig suite ki /\
     sf_impl fr = ResponderSharedSecret (Some (mkAddresses a b)) rconfig ki /\ as_seq ki = as_seq key /\
     forall h, SharedSecretInitiator_new c suite ki = Done h -> in_time iconfig rconfig ->
       create_and_converse (sf_impl fi) (sf_impl fr) sources_i' sources_r' a b
         (SharedSecretInitiator c) iconfig h (SharedSecretResponder LinkFrameWriter_ops c) rconfig ki fuel) /\
  (role_written node_i "initiator" "preshared_public_key" h_i ->
   role_written node_r "responder" "preshared_public_key" h_r -> supports_ed25519 c = true ->
   forall keys_i keys_r public_i public_r,
   local_keys_read files_i h_i keys_i -> remote_key_read files_i h_i public_r ->
   local_keys_read files_r h_r keys_r -> remote_key_read files_r h_r public_i ->
   as_seq public_i = x25519_base (c := c) (as_seq (static_private_key keys_i)) ->
   as_seq public_r = x25519_base (c := c) (as_seq (static_private_key keys_r)) ->
   exists iconfig suite local_i remote_i rconfig local_r remote_r,
     sf_impl fi = InitiatorPresharedPublicKey (Some (mkAddresses b a)) iconfig suite local_i remote_i /\
     sf_impl fr = ResponderPresharedPublicKey (Some (mkAddresses a b)) rconfig local_r remote_r /\
     forall h, PublicKeyInitiator_new c local_i (mkDHCryptoSuite HandshakeEphemeral_x25519 suite)
                 (PresharedKeyCertificateHandler remote_i) = Done h -> in_time iconfig rconfig ->
       create_and_converse (sf_impl fi) (sf_impl fr) sources_i' sources_r' a b
         PublicKeyInitiator iconfig h (PublicKeyResponder LinkFrameWriter_ops c) rconfig
         (mkPublicKeyResponder local_r (PresharedKeyCertificateHandler remote_r)) fuel).
Proof.
  intros Hi Hr Li Lr HN1 HN2 [HoI HtI HrI] [HoR HtR HrR] Hli Hlr.
  pose proof (stack_factory_at _ _ _ _ _ Hi) as Ri. pose proof (stack_factory_at _ _ _ _ _ Hr) as Rr.
  apply stack_factory_ok in Hi as (Hi&_&_). apply stack_factory_ok in Hr as (Hr&_&_). split.
  - intros Hroi Hror key Ki Kr.
    destruct (shared_initiator_written _ _ _ _ _ _ Ri Li Hroi) as (iconfig&suite&ki&Ei&Ki').
    destruct (shared_responder_written _ _ _ _ _ _ Rr Lr Hror) as (rconfig&kr&Er&Kr').
    rewrite Ei in *. rewrite Er in *. destruct Hi as (Hai&Hci&Hki), Hr as (Har&Hcr&Hkr).
    pose proof (key_at_unique _ _ _ _ _ _ Ki' Ki) as E1. pose proof (key_at_unique _ _ _ _ _ _ Kr' Kr) as E2.
    pose proof (key_ok_eq ki kr Hki Hkr ltac:(congruence)) as <-.
    exists iconfig, suite, ki, rconfig. do 3 (split; [done|]). intros h Hnew Htime.
    split; [unfold create_stack, initiator_shared_secret_mode; by rewrite Hnew|]. do 3 (split; [done|]).
    eapply stacks_converse; [done..|by apply configured_connectable|by apply Htime|apply shared_requests_fit|].
    by apply (shared_secret_stations c iconfig rconfig _ _ lowerI lowerR appI appR (proj1 (proj2 Hci)) Har suite ki h).
  - intros Hroi Hror Hed keys_i keys_r public_i public_r Ki Pi Kr Pr Epi Epr.
    destruct (public_initiator_written _ _ _ _ _ _ Ri Li Hroi) as (iconfig&suite&li&pr&Ei&Ki'&Pi').
    destruct (public_responder_written _ _ _ _ _ _ Rr Lr Hror) as (rconfig&lr&pi&Er&Kr'&Pr').
    rewrite Ei in *. rewrite Er in *. destruct Hi as (Hai&Hci&[_ Hki]&_), Hr as (Har&Hcr&[_ Hkr]&_).
    pose proof (key_at_unique _ _ _ _ _ _ (proj2 Ki') (proj2 Ki)) as E1.
    pose proof (key_at_unique _ _ _ _ _ _ (proj2 Kr') (proj2 Kr)) as E2.
    pose proof (key_at_unique _ _ _ _ _ _ Pi' Pi) as E3. pose proof (key_at_unique _ _ _ _ _ _ Pr' Pr) as E4.
    exists iconfig, suite, li, pr, rconfig, lr, pi. do 2 (split; [done|]). intros h Hnew Htime.
    split; [unfold create_stack, initiator_preshared_public_key_mode; by rewrite Hnew|]. do 3 (split; [done|]).
    eapply stacks_converse; [done..|by apply configured_connectable|by apply Htime| |].
    + eapply public_requests_fit; [exact Hnew|by vm_compute].
    + apply (public_key_stations c iconfig rconfig _ _ lowerI lowerR appI appR (proj1 (proj2 Hci)) Har suite li lr
        _ _ h Hnew Hed); [done|..|done].
      * split; [apply Hki|]. split; [constructor|]. split; [done|]. cbn. rewrite E4, Epi. by rewrite <- E1.
      * split; [apply Hkr|]. split; [constructor|]. split; [done|]. cbn. rewrite E3, Epr. by rewrite <- E2.
Qed.
End Stations.

(** ** Two documents, executed *)

Local Existing Instance ser4cpp_reference.
Local Existing Instance tree_yaml.

Definition read_initiator : outcome (StackFactory * registry) := get_stack_factory test_files initiator_node ∅.
Definition read_responder : outcome (StackFactory * registry) := get_stack_factory test_files responder_node ∅.

Definition shared_secret_node (n : yaml_tree) : yaml_tree :=
  match n with
  | YMap children => match tree_get children "security" with YMap security => tree_get security "handshake" | _ => YNull end
  | _ => YNull
  end.

Lemma test_key_at n :
  node_get n "shared_secret_key_path" = Done (text "key.icf") -> shared_key_read test_files n (test_key 7).
Proof.
  intros Hn. exists (key_file ContainerEntryType_shared_secret (replicate 32 7)). split.
  - exists "key.icf"%string. split; [|reflexivity]. exists (text "key.icf"). split; [exact Hn|split; reflexivity].
  - vm_compute. reflexivity.
Qed.

Lemma configured_stations_converse_witness :
  exists fi fr iconfig suite ki rconfig h,
    read_initiator = Done (fi, ∅) /\ read_responder = Done (fr, ∅) /\
    sf_impl fi = InitiatorSharedSecret (Some (mkAddresses 10 1)) iconfig suite ki /\
    create_and_converse full_crypto collecting ticking collecting ticking cutting cutting empty_queue empty_queue
      (@nil bytes) (@nil bytes) id id collect id id collect (sf_impl fi) (sf_impl fr) ∅ ∅ 1 10
      (SharedSecretInitiator full_crypto) iconfig h (SharedSecretResponder LinkFrameWriter_ops full_crypto) rconfig ki 0.
Proof.
  eexists _, _.
  refine (match proj1 (configured_stations_converse full_crypto test_files test_files collecting ticking collecting ticking
    cutting cutting empty_queue empty_queue (@nil bytes) (@nil bytes) id id collect id id collect
    initiator_node responder_node ∅ ∅ _ _ ∅ ∅ 1 10 (shared_secret_node initiator_node) (shared_secret_node responder_node) 0
    eq_refl eq_refl _ _ cutting_ok cutting_ok collecting_listens collecting_listens (conj eq_refl eq_refl)
    (conj eq_refl eq_refl)) _ _ (test_key 7) (test_key_at (shared_secret_node initiator_node) eq_refl)
    (test_key_at (shared_secret_node responder_node) eq_refl) with
    | ex_intro _ iconfig (ex_intro _ suite (ex_intro _ ki (ex_intro _ rconfig (conj Hi (conj Hr (conj Hk H)))))) => _
    end).
  1-4: repeat eexists; reflexivity.
  injection Hi as <- <- <-. injection Hr as <-.
  eexists _, _, _, _, _. split; [reflexivity|]. split; [reflexivity|]. split; [reflexivity|].
  apply H; [reflexivity|]. split; [vm_compute; congruence|]. split; [vm_compute; congruence|]. by vm_compute.
Defined.
